(* ===== verification/_CoqProject ===== *)
-Q . S2P
Prelude.v
Floating.v
Gbl.v
StrUtils.v
Blocks.v
RtpMod.v
Payload.v
OrtpSession.v
Sched.v
OrtpEnv.v
Rtcp.v
RtcpParse.v
OrtpSend.v
OrtpStream.v
TelEvents.v
OrtpRecv.v
OrtpInit.v
OrtpLife.v
SenderHeap.v
OrtpSender.v
OsaQue.v
OsaBuf.v
OsaSync.v
OsaMsg.v
OsaMisc.v
Rendezvous.v
Fifo.v
RtpSend.v
Session.v
RtpStack.v
VideoEncode.v
Server.v
Uart.v
Main.v
