(* ===== verification/Prelude.v ===== *)
(** * A verification development for the multi-channel DVS ([multi_chs_test])

    The program is the software of a digital video server: it reads encoded video,
    sends every channel over RTP to the clients that asked for it, and takes its
    orders from TCP clients and from a serial-port server. Paths below are relative
    to [src/multi_chs_test/].

    ** The parts and how they interact

    [main] (core/src/main.c) opens the rendezvous, the global record and the RTP
    module, starts the audio, video and session threads and the TCP server, and
    sleeps until an exit state is set. The video thread (core/src/videoEncode.c)
    copies each frame into the buffer of every channel and puts one element per
    channel on the pipe of the channel's group of four; one sub-session thread per
    group (core/src/session.c) takes the elements and sends each to the clients that
    have the channel open, through the session table of utils/com/src/rtpsend.c and
    the RTP stack below it. The TCP server (network/src) adds, deletes, opens and
    closes in the client table and changes the global record (core/inc/common.h).
    Under all of it is the OSA layer (utils/osa): queues, buffer pools, messages,
    flags, semaphores, rendezvous, pipes. The RTP stack (utils/ortp) is oRTP 0.9.1:
    messages are chains of blocks on reference-counted data, a session has a queue
    of received packets and is paced by a scheduler thread that wakes it at the time
    of its next packet; RTCP reports go out from the sending and receiving calls.

    ** Files

    - Prelude.v: record update, machine integers, the outcome monad [CM] (a call
      returns, sleeps or has no defined behaviour), arrays and bytes indexed as C
      does, loops, automation.
    - Floating.v: [float] and [double] over the executable IEEE formats of the
      Standard Library, with error bounds for quotients and products of integers.
    - Gbl.v: the record [gbl] and the exit state of core/inc/common.h.
    - StrUtils.v, Blocks.v: the message blocks and queues of ortp/src/str_utils.c on
      a heap, and what they do exactly to blocks on top of a heap.
    - RtpMod.v: the ordered queue of rtpmod.c and the splitting of packets.
    - Payload.v: payloadtype.c and avprofile.c.
    - OrtpSession.v: the structures of rtpsession.h and the tables of
      rtpsignaltable.c.
    - Sched.v: scheduler.c, sessionset.c, posixtimer.c, the wait points of
      rtpsession.c.
    - OrtpEnv.v: the state of the whole stack [Env], the class [System] of what
      comes from outside (clock, random numbers, sockets, addresses, callbacks),
      settings, timestamps and time, jitterctl.c.
    - Rtcp.v, RtcpParse.v: rtcp.c and rtcpparse.c, with [ortp_rtcp_send],
      [rtcp_recv].
    - OrtpSend.v, TelEvents.v, OrtpRecv.v: packets made, sent, received, taken out
      (rtpsession.c, rtpparse.c) and telephonyevents.c.
    - OrtpStream.v: the wait of a scheduled sender against the turns of the
      scheduler's thread, and a session that sends buffer after buffer.
    - OrtpInit.v: sessions created, reset and destroyed, their sockets and signals.
    - OrtpLife.v: what creating, opening and destroying one session does to the whole
      stack.
    - SenderHeap.v: what a set of senders has on the heap, as a set of atoms.
    - OrtpSender.v: the invariant [pool] of a stack with any number of senders, kept
      by opening one, sending on one and destroying one.
    - OsaQue.v: the ring of utils/osa/src/osa_que.c and osa_msgq.c; the contract
      [FifoQueue] and the proof that the ring implements it.
    - OsaBuf.v: the buffer pool of osa_buf.c, over [FifoQueue].
    - OsaSync.v: Modules [Flg], [Sem], [Thr] for osa_flg.c, osa_sem.c, osa_mutex.c
      and osa_thr.c.
    - OsaMsg.v: osa_msgq.c, osa_mbx.c and osa_tsk.c: messages on a heap, their
      queues (over [FifoQueue]), acknowledgements, tasks.
    - OsaMisc.v: Modules [File], [Prf], [Str] for osa_file.c, osa_prf.c and the
      hexadecimal strings of osa.c.
    - Rendezvous.v: rendezvous.h and (Module [Pause]) pause.h.
    - Fifo.v: fifoutil.h over the byte stream of a pipe; the contract [MsgFifo],
      which the session and video threads use, and its implementation.
    - RtpSend.v: the session table of rtpsend.c over the interface [RtpLib] of the
      RTP stack; [CallLog] is the instance that records the calls.
    - RtpStack.v: the modelled stack as an instance of [RtpLib], which keeps the laws
      [RtpLibLaws]; the module and the client table run on it.
    - Session.v: the client table and the session threads of session.c.
    - VideoEncode.v: the video thread of videoEncode.c.
    - Server.v: the packets of network/inc/command.h, the client, listening, closing
      and alarm loops of server.c and serverIf.c.
    - Uart.v: uart/src.
    - Main.v: Module [Startup], [main] and the functions it calls over the results
      of their calls; Module [Threads], the whole process (main, session, sub-
      session, video, audio, server and alarm threads) interleaved.

    A function of the source is the definition of the same name. C structures are
    records with the source's field names; a pointer into an array is an index, a
    pointer to a heap object an address, and the state of the module is the state of
    the monad. An integer is a [Z] and every operation that can wrap is followed by
    [u8], [u32], [i32] and so on. A system call is an argument, either its result or
    a stream of results, which the statements quantify over. A call that holds a
    mutex for its whole body is one step; where threads matter, a step relation adds
    the sleepers and the wake-ups, and the statements hold for every interleaving.

    ** What the theorems show

    - Session.v: from the start every sequence of client-table operations with
      admitted arguments ([op_ok]) returns,
      leaks and shares no session and never exceeds the capacity; adding, deleting
      and sending do what they should; a sub-session thread delivers its pipe in
      order. All of it holds over any stack that keeps [RtpLibLaws]. Deleting a client damages the table entry whose index is the number of
      groups ([del_client_wipes_other]).
    - RtpSend.v: the life of a session against any stack that keeps [RtpLibLaws],
      timestamps modulo 2^32, every outcome of a creation, the bounds of the id tests.
    - OrtpLife.v, SenderHeap.v, OrtpSender.v, RtpStack.v: the modelled stack keeps
      these laws, by the invariant [pool] of its heap, scheduler and senders, when
      the sockets work, nothing is received and the device has set no SSRC. So the
      client table and the module hold down to the datagrams: what leaves the sockets
      of a session, and that heap and scheduler hold the sessions of the active
      clients and nothing else.
    - OsaQue.v, OsaBuf.v, OsaMsg.v, OsaSync.v, Rendezvous.v, Fifo.v: refinement of
      the FIFO contract, no lost wake-up, ownership of buffers, every message freed
      exactly once, the count of a semaphore, the barrier, whole messages in order;
      and where the code falls short: the lost wake-up of a flag, the flush that
      always fails. The rendezvous waits without a loop: its barrier is stated with the
      wake-ups that nobody makes, each of which lets one thread through.
    - Gbl.v: the record stays well-formed under every call.
    - VideoEncode.v: frames in order on every group's pipe; queued buffers are
      overwritten by the next frame; the length of a frame is not checked.
    - Server.v, Uart.v: replies and effects of every packet, connections that leave
      no trace (and the client that a second ADD_CLIENT leaves behind), which ids and lengths run out of bounds, full tables.
    - Main.v: the start-up and its failures; the shutdown ends from any state with
      room in the pipes, and the ways it can hang or die.
    - OsaMisc.v: files written and read back.

    - StrUtils.v, RtpMod.v, Payload.v: queues refine lists, every operation keeps
      the reference counts right, copies have the data and freeing them restores the
      heap; packets are queued in the order of their numbers whatever order they
      arrive in; profiles and their strings.
    - Sched.v, OrtpSession.v: the list and the masks of the scheduler agree, a
      waiting session is woken once and on time, selecting, the timer does not
      drift.
    - OrtpEnv.v, OrtpSend.v, OrtpRecv.v, Rtcp.v, RtcpParse.v: the datagram of a
      packet bit by bit, and that such a datagram is queued by the receiver with
      what was sent; the report of a session that only sends; a BYE with its reason,
      and the lengths for which reading it leaves the datagram; the accuracy of the
      conversions of time. OrtpStream.v composes them: when the wait of a
      sender ends, by a signal or by a spurious wake-up, and what a whole stream of calls puts on the network while nothing
      is received. A session is seen through [view]: the session, the heap,
      the datagrams and the number of calls to the system, on an environment that
      does not change.

    ** Fuel

    The endless loops of threads take a number of turns ([subSessionThrFxn],
    [videoEncodeThrFxn], the server and serial loops, [wait_ack], [wait_acks],
    [flush_rcv], the file loops): [None] or [false] is running out of it. The
    theorems about such a loop give the number that is enough, in terms of the
    elements, packets or bytes it has to work through, and conclude that the loop
    ends. In the stack the loops over a chain of blocks take as many turns as there
    are blocks in the heap, which is more than a chain can have; the loops over
    sessions one more than there are sessions; a loop over a stream of clock answers
    or of what the other threads do ends with the stream, and is proved to end
    before it. The receive loops take one turn per datagram that waits and one more,
    which is an argument, as are the turns of the loop that fills a buffer and of
    the one that looks for a port. [Main.Threads] has no fuel: termination there is
    a bound on the length of every run.

    ** What is not modelled

    The log functions of the stack and what only prints; the Windows versions; the
    doubly linked list of utils.c, which only keeps the names of signal tables; the
    System V wrappers of osa_ipc.c and the test programs osa_test.c and
    osa_test_ipc.c, which the device does not use. Functions that only sleep, read
    the clock or initialise and destroy pthread objects; thread priorities beyond
    the test of their range; weak memory.

    Threads are interleaved at the granularity of the calls that hold a mutex. In
    RtpStack.v the calls of the device are one after the other, and the scheduler's
    thread takes its turns while a sender sleeps.

    ** What is not proved

    The stack under the module is proved for a network from which nothing is received:
    what arrives is treated packet by packet in OrtpRecv.v and RtcpParse.v, and there
    is no theorem on a session that receives a whole stream. The definitions of
    sender reports that are parsed, of telephone events and of the adaptive jitter control have
    no round trips or bounds. After [ortp_exit] no property uses the scheduler, which is freed
    there. *)

From Stdlib Require Export ZArith Lia Permutation.
From stdpp Require Export base list gmap numbers fin_maps relations.
#[export] Set Default Goal Selector "!".
Open Scope Z_scope.

#[global] Arguments Z.le : simpl never.
#[global] Arguments Z.lt : simpl never.
#[global] Arguments Z.pow : simpl never.
#[global] Arguments Z.modulo : simpl never.
#[global] Arguments Z.div : simpl never.
#[global] Arguments replicate : simpl never.

(** * Record update

    [Update p] is a functional setter for the projection [p]; the instances are
    computed by [solve_update] from the record's [Eta] instance, which rebuilds
    a value from its projections. *)

Class Eta (R : Type) := eta : R → R.
Class Update {R T : Type} (p : R → T) := update : (T → T) → R → R.
Arguments update {R T} p {_} _ _ /.

Ltac solve_update p :=
  lazymatch type of p with
  | ?R → ?T =>
    let inst := constr:(_ : Eta R) in
    let e := eval hnf in (@eta R inst) in
    let res := constr:(fun (f : T → T) (r : R) =>
      ltac:(let b := eval cbv beta in (e r) in
            let b := eval pattern (p r) in b in
            lazymatch b with
            | ?g _ => let b' := eval cbv beta in (g (f (p r))) in exact b'
            end)) in
    exact res
  end.

#[export] Hint Extern 1 (Update ?p) => solve_update p : typeclass_instances.

Declare Scope record_scope.
Delimit Scope record_scope with rec.
Notation "r <| p := v |>" := (update p (fun _ => v) r)
  (at level 1, left associativity, p at next level, v at level 200,
   format "r  <| p  :=  v |>") : record_scope.
Notation "r <| p ::= f |>" := (update p f r)
  (at level 1, left associativity, p at next level, f at level 200,
   format "r  <| p  ::=  f |>") : record_scope.
Open Scope record_scope.

(** * Machine integers

    A C integer is a [Z] in its range; the conversions below are the
    wrap-around of the unsigned types and of [int] (the implementation-defined
    conversion of gcc, two's complement). *)

Definition u8 (z : Z) : Z := z `mod` 2 ^ 8.
Definition u16 (z : Z) : Z := z `mod` 2 ^ 16.
Definition u32 (z : Z) : Z := z `mod` 2 ^ 32.
Definition u64 (z : Z) : Z := z `mod` 2 ^ 64.
Definition i32 (z : Z) : Z := (z + 2 ^ 31) `mod` 2 ^ 32 - 2 ^ 31.

(** [lia] on goals with [mod] and [div]. *)
Ltac mlia := Z.div_mod_to_equations; lia.

Definition in_u8 (z : Z) : Prop := 0 ≤ z < 2 ^ 8.
Definition in_u16 (z : Z) : Prop := 0 ≤ z < 2 ^ 16.
Definition in_u32 (z : Z) : Prop := 0 ≤ z < 2 ^ 32.
Definition in_i32 (z : Z) : Prop := - 2 ^ 31 ≤ z < 2 ^ 31.

Lemma u8_range z : in_u8 (u8 z).
Proof. unfold in_u8, u8. mlia. Qed.
Lemma u16_range z : in_u16 (u16 z).
Proof. unfold in_u16, u16. mlia. Qed.
Lemma u32_range z : in_u32 (u32 z).
Proof. unfold in_u32, u32. mlia. Qed.
Lemma i32_range z : in_i32 (i32 z).
Proof. unfold in_i32, i32. mlia. Qed.
Lemma u8_id z : in_u8 z → u8 z = z.
Proof. unfold in_u8, u8. mlia. Qed.
Lemma u16_id z : in_u16 z → u16 z = z.
Proof. unfold in_u16, u16. mlia. Qed.
Lemma u32_id z : in_u32 z → u32 z = z.
Proof. unfold in_u32, u32. mlia. Qed.
Lemma i32_id z : in_i32 z → i32 z = z.
Proof. unfold in_i32, i32. mlia. Qed.
Lemma i32_u32 z : i32 (u32 z) = i32 z.
Proof. unfold i32, u32. Z.div_mod_to_equations. lia. Qed.
Lemma u32_add_l a b : u32 (u32 a + b) = u32 (a + b).
Proof. unfold u32. by rewrite Zplus_mod_idemp_l. Qed.
Lemma u32_add_r a b : u32 (a + u32 b) = u32 (a + b).
Proof. unfold u32. by rewrite Zplus_mod_idemp_r. Qed.

Create HintDb cint discriminated.

#[export] Hint Resolve u8_range u16_range u32_range i32_range : cint.
Create Rewrite HintDb cint.
#[export] Hint Rewrite u32_add_l u32_add_r i32_u32 : cint.

(** * Outcomes of a C call

    A call returns a value and the state it leaves, blocks (its thread sleeps
    with the state as it is then), or has no defined behaviour. *)

Inductive fault :=
  | OutOfBounds      (* access outside an array or buffer *)
  | NullDeref        (* access through a null pointer *)
  | UseAfterFree     (* access to, or second free of, freed memory *)
  | UninitRead       (* read of an automatic variable never assigned *)
  | DivByZero        (* division or remainder by zero *)
  | BadFree          (* free of memory that was not allocated *)
  | BadConversion    (* conversion of a floating value that the integer type cannot hold *)
  | BadCast          (* an object read or written as one of another type *)
  | AssertStop.      (* a failed OSA_assert: the thread stops on the console *)

#[export] Instance fault_eq_dec : EqDecision fault.
Proof. solve_decision. Defined.

Inductive res (S A : Type) :=
  | Ret (a : A) (s : S)
  | Blk (s : S)
  | Flt (f : fault).
Arguments Ret {S A} _ _.
Arguments Blk {S A} _.
Arguments Flt {S A} _.

Definition CM (S A : Type) : Type := S → res S A.

#[export] Instance CM_ret S : MRet (CM S) := fun A a s => Ret a s.
#[export] Instance CM_bind S : MBind (CM S) := fun A B k m s =>
  match m s with
  | Ret a s' => k a s'
  | Blk s' => Blk s'
  | Flt f => Flt f
  end.

Definition fault_with {S A} (f : fault) : CM S A := fun _ => Flt f.
Definition block {S A} : CM S A := fun s => Blk s.
Definition gets {S A} (f : S → A) : CM S A := fun s => Ret (f s) s.
Definition modify {S} (f : S → S) : CM S unit := fun s => Ret tt (f s).

(** Run [m] on a component of a larger state. *)
Definition zoom {S T A} (p : S → T) (upd : T → S → S) (m : CM T A) : CM S A := fun s =>
  match m (p s) with
  | Ret a t => Ret a (upd t s)
  | Blk t => Blk (upd t s)
  | Flt f => Flt f
  end.

(** [for (i in l) body], stopping at the first outcome that is no return. *)
Fixpoint for_each {S A} (l : list A) (body : A → CM S unit) : CM S unit :=
  match l with
  | [] => mret tt
  | x :: l => _ ← body x; for_each l body
  end.

(** [for (i in l) body] where the body may return from the function. *)
Fixpoint for_until {S A B} (l : list A) (body : A → CM S (option B)) : CM S (option B) :=
  match l with
  | [] => mret None
  | x :: l => r ← body x; match r with Some b => mret (Some b) | None => for_until l body end
  end.

Definition state_of {S A} (r : res S A) : option S :=
  match r with Ret _ s | Blk s => Some s | Flt _ => None end.

Lemma bind_ret {S A B} (m : CM S A) (k : A → CM S B) s a s' :
  m s = Ret a s' → (x ← m; k x) s = k a s'.
Proof. intros E. unfold mbind, CM_bind. by rewrite E. Qed.

Lemma bind_inv {S A B} (m : CM S A) (k : A → CM S B) s b s' :
  (x ← m; k x) s = Ret b s' → ∃ a s1, m s = Ret a s1 ∧ k a s1 = Ret b s'.
Proof.
  unfold mbind, CM_bind. destruct (m s) as [a s1| |] eqn:E; [|done|done]. eauto.
Qed.

Lemma for_each_app {S A} (l1 l2 : list A) (body : A → CM S unit) s :
  for_each (l1 ++ l2) body s =
  (_ ← for_each l1 body; for_each l2 body) s.
Proof.
  revert s. induction l1 as [|x l1 IH]; intros s; [done|].
  cbn. unfold mbind, CM_bind. destruct (body x s) as [[] s'| |]; [|done|done].
  apply IH.
Qed.

(** An invariant of the body that the body keeps is kept by the loop, which
    then returns. *)
Lemma for_each_inv {S A} (I : S → Prop) (l : list A) (body : A → CM S unit) s :
  (∀ x s, x ∈ l → I s → ∃ s', body x s = Ret tt s' ∧ I s') →
  I s → ∃ s', for_each l body s = Ret tt s' ∧ I s'.
Proof.
  revert s. induction l as [|x l IH]; intros s Hb Hs; [by exists s|].
  destruct (Hb x s) as (s1 & E & H1); [set_solver|done|].
  destruct (IH s1) as (s2 & E2 & H2); [set_solver|done|].
  exists s2. cbn. unfold mbind, CM_bind. rewrite E. done.
Qed.

(** A loop whose body is a total update is a fold. *)
Lemma for_each_modify {S A} (l : list A) (f : A → S → S) s :
  for_each l (fun x => modify (f x)) s = Ret tt (fold_left (fun s x => f x s) l s).
Proof. revert s. induction l as [|x l IH]; intros s; [done|]. cbn. apply IH. Qed.

Lemma for_until_snoc {S A B} (l : list A) (x : A) (body : A → CM S (option B)) s s' :
  for_until l body s = Ret None s' → for_until (l ++ [x]) body s = body x s'.
Proof.
  revert s. induction l as [|y l IH]; intros s; cbn.
  - unfold mret, CM_ret, mbind, CM_bind. intros [= <-]. by destruct (body x s) as [[]| |].
  - unfold mret, CM_ret, mbind, CM_bind. destruct (body y s) as [[]| |]; [done|apply IH|done|done].
Qed.

Lemma for_until_app {S A B} (l1 l2 : list A) (body : A → CM S (option B)) s s' :
  for_until l1 body s = Ret None s' → for_until (l1 ++ l2) body s = for_until l2 body s'.
Proof.
  revert s. induction l1 as [|y l1 IH]; intros s; cbn; [by intros [= <-]|].
  unfold mbind, CM_bind. destruct (body y s) as [[b|] s1|s1|f]; [done|apply IH|done|done].
Qed.

Lemma for_until_none {S A B} (l : list A) (body : A → CM S (option B)) s :
  (∀ x, x ∈ l → body x s = Ret None s) → for_until l body s = Ret None s.
Proof.
  induction l as [|x l IH]; intros H; [done|]. cbn.
  rewrite (bind_ret _ _ _ None s) by (apply H; set_solver). apply IH. intros y Hy. apply H. set_solver.
Qed.

(** * Arrays indexed by a C integer *)

Definition zlen {A} (l : list A) : Z := Z.of_nat (length l).

Definition aget {A} (l : list A) (i : Z) : option A :=
  if decide (0 ≤ i) then l !! Z.to_nat i else None.

Definition aset {A} (l : list A) (i : Z) (x : A) : option (list A) :=
  if decide (0 ≤ i < zlen l) then Some (<[Z.to_nat i := x]> l) else None.

(** [l[i]] read by a statement: a fault when [i] is outside the array. *)
Definition rd {S A} (l : list A) (i : Z) : CM S A :=
  match aget l i with Some x => mret x | None => fault_with OutOfBounds end.

Lemma aget_Some_range {A} (l : list A) i x : aget l i = Some x → 0 ≤ i < zlen l.
Proof.
  unfold aget, zlen. case_decide; [|done]. intros H1%lookup_lt_Some. lia.
Qed.

Lemma aget_is_Some {A} (l : list A) i : is_Some (aget l i) ↔ 0 ≤ i < zlen l.
Proof.
  split; [intros [x Hx]; by eapply aget_Some_range|].
  intros H. unfold aget, zlen in *. case_decide; [|lia].
  apply lookup_lt_is_Some. lia.
Qed.

Lemma aget_None {A} (l : list A) i : aget l i = None ↔ ¬ (0 ≤ i < zlen l).
Proof. rewrite <- aget_is_Some, eq_None_not_Some. tauto. Qed.

Lemma aset_Some {A} (l : list A) i x :
  0 ≤ i < zlen l → aset l i x = Some (<[Z.to_nat i := x]> l).
Proof. intros H. unfold aset. by case_decide. Qed.

Lemma aset_is_Some {A} (l l' : list A) i x :
  aset l i x = Some l' → 0 ≤ i < zlen l ∧ l' = <[Z.to_nat i := x]> l.
Proof. unfold aset. case_decide; [|done]. intros [= <-]. done. Qed.

Lemma zlen_insert {A} (l : list A) n x : zlen (<[n:=x]> l) = zlen l.
Proof. unfold zlen. by rewrite length_insert. Qed.

Lemma zlen_replicate {A} n (x : A) : zlen (replicate n x) = Z.of_nat n.
Proof. unfold zlen. by rewrite length_replicate. Qed.

Lemma zlen_app {A} (l1 l2 : list A) : zlen (l1 ++ l2) = zlen l1 + zlen l2.
Proof. unfold zlen. rewrite length_app. lia. Qed.

Lemma zlen_snoc {A} (l : list A) x : zlen (l ++ [x]) = zlen l + 1.
Proof. unfold zlen. rewrite length_app. cbn. lia. Qed.

Lemma zlen_cons {A} (x : A) l : zlen (x :: l) = zlen l + 1.
Proof. unfold zlen. cbn. lia. Qed.

Lemma zlen_nonneg {A} (l : list A) : 0 ≤ zlen l.
Proof. unfold zlen. lia. Qed.

Lemma zlen_0_nil {A} (l : list A) : zlen l = 0 → l = [].
Proof. unfold zlen. destruct l; [done|]. cbn. lia. Qed.

Lemma aget_snoc {A} (l : list A) x k :
  0 ≤ k < zlen l + 1 → aget (l ++ [x]) k = if decide (k = zlen l) then Some x else aget l k.
Proof.
  intros Hk. unfold aget, zlen in *. rewrite !decide_True by lia. case_decide as E.
  - rewrite lookup_app_r by lia. by replace (Z.to_nat k - length l)%nat with 0%nat by lia.
  - rewrite lookup_app_l by lia. by rewrite decide_True by lia.
Qed.

Lemma aget_insert_eq {A} (l : list A) i x :
  0 ≤ i < zlen l → aget (<[Z.to_nat i := x]> l) i = Some x.
Proof.
  intros H. unfold aget, zlen in *. case_decide; [|lia].
  apply list_lookup_insert_eq. lia.
Qed.

Lemma aget_insert_ne {A} (l : list A) i j x :
  0 ≤ i → i ≠ j → aget (<[Z.to_nat i := x]> l) j = aget l j.
Proof.
  intros H Hne. unfold aget. case_decide; [|done].
  apply list_lookup_insert_ne. lia.
Qed.

Lemma aget_insert {A} (l : list A) i j x :
  0 ≤ i < zlen l →
  aget (<[Z.to_nat i := x]> l) j = if decide (j = i) then Some x else aget l j.
Proof.
  intros H. case_decide as E; [subst; by apply aget_insert_eq|].
  apply aget_insert_ne; lia.
Qed.

Lemma aget_replicate {A} n (x : A) i :
  0 ≤ i < Z.of_nat n → aget (replicate n x) i = Some x.
Proof.
  intros H. unfold aget. case_decide; [|lia].
  apply lookup_replicate_2. lia.
Qed.

Lemma aget_elem_of {A} (l : list A) i x : aget l i = Some x → x ∈ l.
Proof.
  unfold aget. case_decide; [|done]. apply list_elem_of_lookup_2.
Qed.

Lemma aget_ext {A} (l1 l2 : list A) :
  zlen l1 = zlen l2 → (∀ i, 0 ≤ i < zlen l1 → aget l1 i = aget l2 i) → l1 = l2.
Proof.
  intros Hlen H. apply list_eq_same_length with (length l2); unfold zlen in *; [done|lia|].
  intros i x y Hi H1 H2. specialize (H (Z.of_nat i) ltac:(lia)).
  unfold aget in H. rewrite !decide_True, Nat2Z.id, H1, H2 in H by lia. congruence.
Qed.

Lemma aget_cons_0 {A} (x : A) l : aget (x :: l) 0 = Some x.
Proof. done. Qed.

Lemma aget_cons_pos {A} (x : A) l i : 0 < i → aget (x :: l) i = aget l (i - 1).
Proof.
  intros H. unfold aget. rewrite !decide_True by lia.
  by replace (Z.to_nat i) with (S (Z.to_nat (i - 1))) by lia.
Qed.

Create Rewrite HintDb arr.
#[export] Hint Rewrite @zlen_insert @zlen_replicate @zlen_app : arr.

(** * Search loops

    [for (i = 0; i < n; i++) if (p(a[i])) break;]: the first index that
    satisfies the test. *)

Fixpoint find_idx_from {A} (p : A → bool) (l : list A) (i : Z) : option Z :=
  match l with
  | [] => None
  | x :: l => if p x then Some i else find_idx_from p l (i + 1)
  end.
Definition find_idx {A} (p : A → bool) (l : list A) : option Z := find_idx_from p l 0.

Lemma find_idx_from_Some {A} (p : A → bool) l i j :
  find_idx_from p l i = Some j →
  i ≤ j ∧ (∃ x, aget l (j - i) = Some x ∧ p x = true) ∧
  (∀ k x, 0 ≤ k < j - i → aget l k = Some x → p x = false).
Proof.
  revert i. induction l as [|y l IH]; intros i; cbn; [done|].
  destruct (p y) eqn:Hy.
  - intros [= <-]. split_and!; [lia| |intros; lia].
    exists y. rewrite Z.sub_diag. done.
  - intros (H1 & (x & Hx & Hp) & H2)%IH. split_and!; [lia| |].
    + exists x. split; [|done]. rewrite aget_cons_pos by lia.
      by replace (j - i - 1) with (j - (i + 1)) by lia.
    + intros k x' Hk Hx'. destruct (decide (k = 0)) as [->|].
      * rewrite aget_cons_0 in Hx'. by simplify_eq.
      * rewrite aget_cons_pos in Hx' by lia. by apply (H2 (k - 1) x'); [lia|].
Qed.

Lemma find_idx_Some {A} (p : A → bool) l j :
  find_idx p l = Some j →
  0 ≤ j < zlen l ∧ (∃ x, aget l j = Some x ∧ p x = true) ∧
  (∀ k x, 0 ≤ k < j → aget l k = Some x → p x = false).
Proof.
  intros (H & (x & Hx & Hp) & Hk)%find_idx_from_Some.
  rewrite Z.sub_0_r in *. pose proof (aget_Some_range _ _ _ Hx).
  split_and!; [lia|lia|by eauto|done].
Qed.

Lemma find_idx_from_None {A} (p : A → bool) l i :
  find_idx_from p l i = None ↔ Forall (fun x => p x = false) l.
Proof.
  revert i. induction l as [|y l IH]; intros i; cbn; [split; [constructor|done]|].
  rewrite Forall_cons. destruct (p y); [split; [done|by intros []]|].
  rewrite IH. tauto.
Qed.

Lemma find_idx_None {A} (p : A → bool) l :
  find_idx p l = None ↔ Forall (fun x => p x = false) l.
Proof. apply find_idx_from_None. Qed.

(** * Bytes

    A byte is a [Z] below 256; a buffer is a list of bytes. *)

Definition byte_ok (b : Z) : Prop := 0 ≤ b < 256.

Fixpoint le_bytes (n : nat) (z : Z) : list Z :=
  match n with O => [] | S n => z `mod` 256 :: le_bytes n (z / 256) end.
Fixpoint le_val (l : list Z) : Z :=
  match l with [] => 0 | b :: l => b + 256 * le_val l end.
Definition be_bytes (n : nat) (z : Z) : list Z := reverse (le_bytes n z).
Definition be_val (l : list Z) : Z := le_val (reverse l).

(** [n] bytes of the buffer [l] from offset [o]. *)
Definition slice {A} (l : list A) (o n : nat) : list A := take n (drop o l).

Lemma le_bytes_length n z : length (le_bytes n z) = n.
Proof. revert z. induction n as [|n IH]; intros z; cbn; [done|]. by rewrite IH. Qed.

Lemma be_bytes_length n z : length (be_bytes n z) = n.
Proof. unfold be_bytes. by rewrite length_reverse, le_bytes_length. Qed.

Lemma le_bytes_ok n z : Forall byte_ok (le_bytes n z).
Proof.
  revert z. induction n as [|n IH]; intros z; cbn; constructor; [|done].
  unfold byte_ok. mlia.
Qed.

Lemma le_val_bytes n z : le_val (le_bytes n z) = z `mod` 256 ^ Z.of_nat n.
Proof.
  revert z. induction n as [|n IH]; intros z; cbn [le_bytes le_val].
  - by rewrite Z.mod_1_r.
  - rewrite IH, Nat2Z.inj_succ, Z.pow_succ_r by lia.
    by rewrite Z.rem_mul_r by lia.
Qed.

Lemma le_bytes_val l : Forall byte_ok l → le_bytes (length l) (le_val l) = l.
Proof.
  induction 1 as [|b l Hb Hl IH]; cbn; [done|]. unfold byte_ok in Hb. f_equal.
  - mlia.
  - replace ((b + 256 * le_val l) / 256) with (le_val l) by mlia. done.
Qed.

Lemma le_val_range l : Forall byte_ok l → 0 ≤ le_val l < 256 ^ zlen l.
Proof.
  induction 1 as [|b l Hb Hl IH]; cbn [le_val]; [unfold zlen; cbn; lia|].
  unfold zlen in *. cbn [length]. rewrite Nat2Z.inj_succ, Z.pow_succ_r by lia.
  unfold byte_ok in Hb. nia.
Qed.

Lemma be_val_bytes n z : be_val (be_bytes n z) = z `mod` 256 ^ Z.of_nat n.
Proof. unfold be_val, be_bytes. by rewrite reverse_involutive, le_val_bytes. Qed.

Lemma slice_app_l {A} (l1 l2 : list A) n :
  n = length l1 → slice (l1 ++ l2) 0 n = l1.
Proof. intros ->. unfold slice. by rewrite drop_0, take_app_length. Qed.

Lemma slice_app_r {A} (l1 l2 : list A) o n :
  (length l1 ≤ o)%nat → slice (l1 ++ l2) o n = slice l2 (o - length l1) n.
Proof. intros H. unfold slice. by rewrite drop_app_ge. Qed.

Lemma slice_length {A} (l : list A) o n :
  (o + n ≤ length l)%nat → length (slice l o n) = n.
Proof. intros H. unfold slice. rewrite length_take, length_drop. lia. Qed.

(** The bytes [bs] written into [buf] at [off]; [None] when they do not fit. *)
Definition write_at (buf : list Z) (off : Z) (bs : list Z) : option (list Z) :=
  if (0 <=? off) && (off + zlen bs <=? zlen buf)
  then Some (take (Z.to_nat off) buf ++ bs ++ drop (Z.to_nat (off + zlen bs)) buf)
  else None.

Lemma write_at_byte buf off x :
  0 ≤ off < zlen buf → write_at buf off [x] = Some (<[Z.to_nat off := x]> buf).
Proof.
  intros Ho. unfold write_at. change (zlen [x]) with 1.
  assert ((0 <=? off) && (off + 1 <=? zlen buf) = true) as -> by lia.
  rewrite insert_take_drop by (unfold zlen in *; lia).
  by replace (Z.to_nat (off + 1)) with (S (Z.to_nat off)) by lia.
Qed.

Lemma write_at_app (h r bs : list Z) :
  zlen bs ≤ zlen r → write_at (h ++ r) (zlen h) bs = Some (h ++ bs ++ drop (length bs) r).
Proof.
  intros Hl. unfold write_at. pose proof (zlen_nonneg h). rewrite zlen_app.
  assert ((0 <=? zlen h) && (zlen h + zlen bs <=? zlen h + zlen r) = true) as -> by lia.
  unfold zlen. rewrite Nat2Z.id, take_app_length. do 3 f_equal.
  rewrite drop_app_ge by lia. f_equal. lia.
Qed.

Lemma write_at_0 (r bs : list Z) :
  zlen bs ≤ zlen r → write_at r 0 bs = Some (bs ++ drop (length bs) r).
Proof. intros Hl. by apply (write_at_app [] r bs). Qed.

Lemma write_at_none buf off bs : zlen buf < off + zlen bs → write_at buf off bs = None.
Proof.
  intros H. unfold write_at. by assert ((0 <=? off) && (off + zlen bs <=? zlen buf) = false) as -> by lia.
Qed.

(** * Reachability *)

Lemma rtc_invariant {S} (R : relation S) (I : S → Prop) x y :
  (∀ x y, I x → R x y → I y) → rtc R x y → I x → I y.
Proof. intros H. induction 1; eauto. Qed.

(** * Automation *)

(** Case analysis on every boolean test and match in the goal or context. *)
Ltac split_tests :=
  repeat match goal with
  | |- context [ if ?b then _ else _ ] => destruct b eqn:?
  | H : context [ if ?b then _ else _ ] |- _ => destruct b eqn:?
  end.

(** Unfold the state monad and compute, in the goal or in a hypothesis. *)
Ltac run :=
  unfold mbind, mret, CM_bind, CM_ret, gets, modify, zoom, fault_with, block, rd; cbn.
Tactic Notation "run" "in" hyp(H) :=
  unfold mbind, mret, CM_bind, CM_ret, gets, modify, zoom, fault_with, block, rd in H;
  cbn in H.
