(* ===== verification/Floating.v ===== *)
(** * [float] and [double]

    The operations of C on the IEEE formats of the device, over the executable
    specification of the Standard Library. *)

From Stdlib Require Import Floats.SpecFloat.
From S2P Require Import Prelude.

(** ** Operations *)

Definition dbl (z : Z) : spec_float := binary_normalize 53 1024 z 0 false.
Definition dadd : spec_float → spec_float → spec_float := SFadd 53 1024.
Definition dsub : spec_float → spec_float → spec_float := SFsub 53 1024.
Definition dmul : spec_float → spec_float → spec_float := SFmul 53 1024.
Definition ddiv : spec_float → spec_float → spec_float := SFdiv 53 1024.

Definition sgl (z : Z) : spec_float := binary_normalize 24 128 z 0 false.
Definition fadd : spec_float → spec_float → spec_float := SFadd 24 128.
Definition fsub : spec_float → spec_float → spec_float := SFsub 24 128.
Definition fmul : spec_float → spec_float → spec_float := SFmul 24 128.
Definition fdiv : spec_float → spec_float → spec_float := SFdiv 24 128.

(** Conversions between the formats. *)
Definition round_to (prec emax : Z) (f : spec_float) : spec_float :=
  match f with S754_finite s m e => binary_normalize prec emax (cond_Zopp s (Zpos m)) e s | _ => f end.
Definition to_dbl : spec_float → spec_float := round_to 53 1024.
Definition to_sgl : spec_float → spec_float := round_to 24 128.

(** Truncation; no value for infinities and NaN. *)
Definition trunc (f : spec_float) : option Z :=
  match f with
  | S754_zero _ => Some 0
  | S754_finite s m e => Some (cond_Zopp s (if 0 <=? e then Zpos m * 2 ^ e else Zpos m / 2 ^ (- e)))
  | _ => None
  end.

(** Conversion to an integer type; undefined when the value does not fit. *)
Definition to_int {S} (lo hi : Z) (f : spec_float) : CM S Z :=
  match trunc f with
  | Some z => if (lo <=? z) && (z <=? hi) then mret z else fault_with BadConversion
  | None => fault_with BadConversion
  end.
Definition to_u32 {S} : spec_float → CM S Z := to_int 0 (2 ^ 32 - 1).
Definition to_i32 {S} : spec_float → CM S Z := to_int (- 2 ^ 31) (2 ^ 31 - 1).

(** ** Shifting and rounding *)

Lemma iter_pos_nat {A} (f : A → A) p x : SpecFloat.iter_pos f p x = Nat.iter (Pos.to_nat p) f x.
Proof.
  revert x. induction p as [p IH|p IH|]; intros x; cbn [SpecFloat.iter_pos].
  - rewrite !IH, <- Nat.iter_add, <- Nat.iter_succ_r. f_equal. lia.
  - rewrite !IH, <- Nat.iter_add. f_equal. lia.
  - done.
Qed.

Lemma shr_1_m r : 0 ≤ shr_m r → shr_m (shr_1 r) = shr_m r / 2.
Proof. intros H. destruct r as [[|[p|p|]|p] b1 b2]; cbn in *; try done; mlia. Qed.

Lemma shr_m_iter n r : 0 ≤ shr_m r → shr_m (Nat.iter n shr_1 r) = shr_m r / 2 ^ Z.of_nat n.
Proof.
  intros H. induction n as [|n IH]; [cbn; by rewrite Z.div_1_r|]. change (Nat.iter (S n) shr_1 r) with (shr_1 (Nat.iter n shr_1 r)). rewrite shr_1_m, IH.
  - rewrite Z.div_div by lia. f_equal. rewrite Nat2Z.inj_succ, Z.pow_succ_r by lia. lia.
  - rewrite IH. apply Z.div_pos; lia.
Qed.

Lemma record_of_loc_m m l : shr_m (shr_record_of_loc m l) = m.
Proof. by destruct l as [|[]]. Qed.

Lemma shr_floor m l e n : 0 ≤ m → 0 ≤ n →
  ∃ r, shr (shr_record_of_loc m l) e n = (r, e + n) ∧ shr_m r = m / 2 ^ n.
Proof.
  intros Hm Hn. unfold shr. destruct n as [|p|p]; [|rewrite iter_pos_nat|lia].
  - eexists. split; [by rewrite Z.add_0_r|]. by rewrite record_of_loc_m, Z.div_1_r.
  - eexists. split; [done|]. rewrite shr_m_iter by (by rewrite record_of_loc_m). by rewrite record_of_loc_m, positive_nat_Z.
Qed.

Lemma digits2_pos_bounds p : 2 ^ (Zpos (digits2_pos p) - 1) ≤ Zpos p < 2 ^ Zpos (digits2_pos p).
Proof.
  induction p as [p IH|p IH|]; cbn [digits2_pos]; [| |done]; rewrite Pos2Z.inj_succ.
  all: replace (Z.succ (Zpos (digits2_pos p)) - 1) with (Z.succ (Zpos (digits2_pos p) - 1)) by lia; rewrite !Z.pow_succ_r by lia; lia.
Qed.

Lemma digits_unique m d : 2 ^ (d - 1) ≤ m < 2 ^ d → 0 < d → Zdigits2 m = d.
Proof.
  intros Hm Hd. assert (0 < m) by (assert (0 < 2 ^ (d - 1)) by (apply Z.pow_pos_nonneg; lia); lia).
  destruct m as [|p|p]; [lia| |lia]. cbn [Zdigits2]. pose proof (digits2_pos_bounds p) as Hp.
  assert (d - 1 < Zpos (digits2_pos p)) by (apply (Z.pow_lt_mono_r_iff 2); lia).
  assert (Zpos (digits2_pos p) - 1 < d) by (apply (Z.pow_lt_mono_r_iff 2); lia). lia.
Qed.

Lemma digits_le m d : 2 ^ (d - 1) ≤ m → 0 < d → d ≤ Zdigits2 m.
Proof.
  intros Hm Hd. assert (0 < m) by (assert (0 < 2 ^ (d - 1)) by (apply Z.pow_pos_nonneg; lia); lia).
  destruct m as [|p|p]; [lia| |lia]. cbn [Zdigits2]. pose proof (digits2_pos_bounds p) as Hp.
  assert (d - 1 < Zpos (digits2_pos p)) by (apply (Z.pow_lt_mono_r_iff 2); lia). lia.
Qed.

Lemma round_cases m l : round_nearest_even m l = m ∨ round_nearest_even m l = m + 1.
Proof. destruct l as [|[]]; cbn; try tauto. destruct (Z.even m); tauto. Qed.

(** ** Rounding to 53 bits *)

(** A mantissa of at least 53 bits in the normal range is cut to 53 bits, up or down. *)
Lemma round_norm m e l : 2 ^ 52 ≤ m → -1000 ≤ e → Zdigits2 m + e ≤ 1000 →
  let n := Zdigits2 m - 53 in
  ∃ (m' : positive) e' m2, binary_round_aux 53 1024 false m e l = S754_finite false m' e' ∧ 2 ^ 52 ≤ Zpos m' < 2 ^ 53 ∧
    0 ≤ n ∧ e + n ≤ e' ≤ e + n + 1 ∧ Zpos m' * 2 ^ (e' - (e + n)) = m2 ∧ (m2 = m / 2 ^ n ∨ m2 = m / 2 ^ n + 1) ∧
    (n = 0 → l = loc_Exact → m2 = m).
Proof.
  intros Hm He Hd n. assert (Hn : 0 ≤ n) by (pose proof (digits_le m 53 Hm); lia).
  assert (Hmd : 2 ^ (Zdigits2 m - 1) ≤ m < 2 ^ Zdigits2 m).
  { destruct m as [|p|p]; [lia| |lia]. apply digits2_pos_bounds. }
  assert (Hf : ∀ d k, -1000 ≤ d + k → fexp 53 1024 (d + k) - k = d - 53) by (intros d k H; unfold fexp, emin; lia).
  assert (Hq : 2 ^ 52 ≤ m / 2 ^ n < 2 ^ 53).
  { assert (E1 : 2 ^ (Zdigits2 m - 1) = 2 ^ 52 * 2 ^ n) by (rewrite <- Z.pow_add_r by lia; f_equal; lia).
    assert (E2 : 2 ^ Zdigits2 m = 2 ^ 53 * 2 ^ n) by (rewrite <- Z.pow_add_r by lia; f_equal; lia).
    assert (0 < 2 ^ n) by (apply Z.pow_pos_nonneg; lia). split; [apply Z.div_le_lower_bound; lia|apply Z.div_lt_upper_bound; lia]. }
  unfold binary_round_aux, shr_fexp. rewrite Hf by lia. fold n.
  destruct (shr_floor m l e n) as (r & Er & Hr); [lia|done|]. rewrite Er. rewrite Hr.
  set (m2 := round_nearest_even (m / 2 ^ n) (loc_of_shr_record r)).
  assert (H2 : m2 = m / 2 ^ n ∨ m2 = m / 2 ^ n + 1) by apply round_cases.
  assert (Hexact : n = 0 → l = loc_Exact → m2 = m).
  { intros E0 ->. unfold m2. rewrite E0 in Er |- *. cbn in Er. injection Er as <-. cbn. by rewrite Z.div_1_r. }
  assert (Hk : ∃ k, 0 ≤ k ≤ 1 ∧ Zdigits2 m2 = 53 + k ∧ 2 ^ 52 ≤ m2 / 2 ^ k < 2 ^ 53 ∧ m2 / 2 ^ k * 2 ^ k = m2).
  { destruct (decide (m2 = 2 ^ 53)) as [->|Hne].
    - exists 1. split; [lia|]. split; [done|]. split; [done|]. done.
    - exists 0. split; [lia|]. split; [apply (digits_unique m2 53); [change (2 ^ (53 - 1)) with (2 ^ 52); lia|lia]|]. change (2 ^ 0) with 1. rewrite Z.div_1_r. lia. }
  destruct Hk as (k & Hk & Hdig & Hrange & Hback). rewrite Hf by (rewrite Hdig; lia). rewrite Hdig.
  replace (53 + k - 53) with k by lia.
  destruct (shr_floor m2 loc_Exact (e + n) k) as (r2 & Er2 & Hr2); [lia|lia|]. rewrite Er2, Hr2.
  destruct (m2 / 2 ^ k) as [|m'|m'] eqn:Em; [lia| |lia].
  rewrite (proj2 (Z.leb_le _ _)) by lia. exists m', (e + n + k), m2.
  split; [done|]. split; [done|]. split; [done|]. split; [lia|].
  replace (e + n + k - (e + n)) with k by lia. done.
Qed.

(** The relative error of rounding is at most 2^-52. *)
Lemma round_err m e l : 2 ^ 52 ≤ m → -1000 ≤ e → Zdigits2 m + e ≤ 1000 →
  ∃ (m' : positive) e', binary_round_aux 53 1024 false m e l = S754_finite false m' e' ∧ 2 ^ 52 ≤ Zpos m' < 2 ^ 53 ∧
    0 ≤ e' - e ≤ Zdigits2 m - 52 ∧ Z.abs (Zpos m' * 2 ^ (e' - e) - m) * 2 ^ 52 ≤ m ∧
    (m < 2 ^ 53 → l = loc_Exact → Zpos m' = m ∧ e' = e).
Proof.
  intros Hm He Hd. destruct (round_norm m e l Hm He Hd) as (m' & e' & m2 & E & Hr & Hn & Hee & Ev & Hm2 & Hex).
  set (n := Zdigits2 m - 53) in *. exists m', e'. split; [done|]. split; [done|]. split; [lia|].
  assert (Hp : 0 < 2 ^ n) by (apply Z.pow_pos_nonneg; lia).
  assert (Ev2 : Zpos m' * 2 ^ (e' - e) = m2 * 2 ^ n).
  { rewrite <- Ev, <- Z.mul_assoc, <- Z.pow_add_r by lia. do 2 f_equal. lia. }
  assert (Hbig : 2 ^ 52 * 2 ^ n ≤ m).
  { rewrite <- Z.pow_add_r by lia. replace (52 + n) with (Zdigits2 m - 1) by lia.
    destruct m as [|p|p]; [lia| |lia]. apply digits2_pos_bounds. }
  pose proof (Z.div_mod m (2 ^ n) ltac:(lia)) as Hdm. pose proof (Z.mod_pos_bound m (2 ^ n) Hp) as Hmod.
  split; [rewrite Ev2; destruct Hm2 as [-> | ->]; nia|].
  intros Hlt Hl. assert (E0 : n = 0).
  { assert (Zdigits2 m = 53); [|lia]. apply (digits_unique m 53); [change (2 ^ (53 - 1)) with (2 ^ 52)|]; lia. }
  rewrite E0 in Ev, Hee. specialize (Hex E0 Hl). rewrite Hex, Z.add_0_r in Ev.
  assert (e' = e ∨ e' = e + 1) as [-> | ->] by lia.
  - rewrite Z.sub_diag in Ev. split; lia.
  - replace (e + 1 - e) with 1 in Ev by lia. lia.
Qed.

(** ** Conversion, product and quotient *)

Lemma iter_xO p d : Zpos (Pos.iter xO p d) = Zpos p * 2 ^ Zpos d.
Proof.
  rewrite Pos2Nat.inj_iter, <- (positive_nat_Z d). generalize (Pos.to_nat d) as n. intros n. induction n as [|n IH]; [cbn; lia|].
  cbn [nat_rect]. rewrite Pos2Z.inj_xO, IH, Nat2Z.inj_succ, Z.pow_succ_r by lia. ring.
Qed.

Lemma digits_norm (m : positive) : 2 ^ 52 ≤ Zpos m < 2 ^ 53 → Zdigits2 (Zpos m) = 53.
Proof. intros H. apply (digits_unique _ 53); [change (2 ^ (53 - 1)) with (2 ^ 52)|]; lia. Qed.

(** A positive integer of less than 53 bits is exact. *)
Lemma dbl_norm z : 0 < z < 2 ^ 52 →
  ∃ (m : positive) s, dbl z = S754_finite false m (- s) ∧ 2 ^ 52 ≤ Zpos m < 2 ^ 53 ∧ 0 < s ≤ 52 ∧ Zpos m = z * 2 ^ s.
Proof.
  intros Hz. destruct z as [|p|p]; [lia| |lia]. unfold dbl, binary_normalize, binary_round.
  pose proof (digits2_pos_bounds p) as Hd. set (d := Zpos (digits2_pos p)) in *.
  assert (Hd53 : 0 < 53 - d ≤ 52).
  { split; [|unfold d; lia]. assert (d - 1 < 52); [|lia]. apply (Z.pow_lt_mono_r_iff 2); lia. }
  assert (Ef : fexp 53 1024 (d + 0) = - (53 - d)) by (unfold fexp, emin; lia).
  unfold shl_align. rewrite Ef, Z.sub_0_r. destruct (53 - d) as [|k|k] eqn:Ek; [lia| |lia]. change (- Zpos k) with (Zneg k). cbv beta iota.
  pose proof (iter_xO p k) as Ei. set (mz := Pos.iter xO p k) in *.
  assert (Hmz : 2 ^ 52 ≤ Zpos mz < 2 ^ 53).
  { assert (E1 : 2 ^ (d - 1) * 2 ^ Zpos k = 2 ^ 52) by (rewrite <- Z.pow_add_r by lia; f_equal; lia).
    assert (E2 : 2 ^ d * 2 ^ Zpos k = 2 ^ 53) by (rewrite <- Z.pow_add_r by lia; f_equal; lia).
    assert (0 < 2 ^ Zpos k) by (apply Z.pow_pos_nonneg; lia). rewrite Ei. nia. }
  destruct (round_err (Zpos mz) (Zneg k) loc_Exact) as (m' & e' & E & _ & _ & _ & Hex); [lia|lia|rewrite digits_norm by done; lia|].
  destruct Hex as [Em ->]; [lia|done|]. exists mz, (Zpos k). rewrite E. injection Em as ->. split; [done|]. split; [done|]. split; [lia|done].
Qed.

Lemma ddiv_norm m1 e1 m2 e2 : 2 ^ 52 ≤ Zpos m1 < 2 ^ 53 → 2 ^ 52 ≤ Zpos m2 < 2 ^ 53 → -400 ≤ e1 ≤ 400 → -400 ≤ e2 ≤ 400 →
  ∃ (m : positive) e q, ddiv (S754_finite false m1 e1) (S754_finite false m2 e2) = S754_finite false m e ∧ 2 ^ 52 ≤ Zpos m < 2 ^ 53 ∧
    q * Zpos m2 ≤ Zpos m1 * 2 ^ 53 < (q + 1) * Zpos m2 ∧ 2 ^ 52 ≤ q ∧
    0 ≤ e - (e1 - e2 - 53) ≤ 2 ∧ Z.abs (Zpos m * 2 ^ (e - (e1 - e2 - 53)) - q) * 2 ^ 52 ≤ q.
Proof.
  intros H1 H2 He1 He2. unfold ddiv, SFdiv, SFdiv_core_binary. rewrite !digits_norm by done.
  assert (Ef : Z.min (fexp 53 1024 (53 + e1 - (53 + e2))) (e1 - e2) = e1 - e2 - 53) by (unfold fexp, emin; lia).
  rewrite Ef. replace (e1 - e2 - (e1 - e2 - 53)) with 53 by lia.
  cbv beta iota zeta. rewrite Z.shiftl_mul_pow2 by lia.
  pose proof (Z.div_eucl_eq (Zpos m1 * 2 ^ 53) (Zpos m2) ltac:(done)) as Hq.
  pose proof (Z.mod_pos_bound (Zpos m1 * 2 ^ 53) (Zpos m2) ltac:(lia)) as Hm. unfold Z.modulo in Hm.
  destruct (Z.div_eucl (Zpos m1 * 2 ^ 53) (Zpos m2)) as [q r].
  assert (Hq1 : 2 ^ 52 ≤ q) by nia. assert (Hq2 : q < 2 ^ 54) by nia.
  assert (Hdq : Zdigits2 q ≤ 54).
  { destruct q as [|p|p]; [lia| |lia]. pose proof (digits2_pos_bounds p) as Hp. cbn [Zdigits2].
    assert (Zpos (digits2_pos p) - 1 < 54); [|lia]. apply (Z.pow_lt_mono_r_iff 2); lia. }
  destruct (round_err q (e1 - e2 - 53) (new_location (Zpos m2) r)) as (m & e & E & Hr & He & Herr & _); [lia|lia|lia|].
  exists m, e, q. cbn [xorb]. rewrite E. split; [done|]. split; [done|]. split; [lia|]. split; [done|]. split; [lia|done].
Qed.

Lemma dmul_norm m1 e1 m2 e2 : 2 ^ 52 ≤ Zpos m1 < 2 ^ 53 → 2 ^ 52 ≤ Zpos m2 < 2 ^ 53 → -400 ≤ e1 ≤ 400 → -400 ≤ e2 ≤ 400 →
  ∃ (m : positive) e, dmul (S754_finite false m1 e1) (S754_finite false m2 e2) = S754_finite false m e ∧ 2 ^ 52 ≤ Zpos m < 2 ^ 53 ∧
    0 ≤ e - (e1 + e2) ≤ 54 ∧ Z.abs (Zpos m * 2 ^ (e - (e1 + e2)) - Zpos m1 * Zpos m2) * 2 ^ 52 ≤ Zpos m1 * Zpos m2.
Proof.
  intros H1 H2 He1 He2. unfold dmul, SFmul. set (p := (m1 * m2)%positive). assert (Ep : Zpos p = Zpos m1 * Zpos m2) by done.
  assert (Hdp : Zdigits2 (Zpos p) ≤ 106).
  { pose proof (digits2_pos_bounds p) as Hp. cbn [Zdigits2]. assert (Zpos (digits2_pos p) - 1 < 106); [|lia]. apply (Z.pow_lt_mono_r_iff 2); [lia..|].
    change (2 ^ 106) with (2 ^ 53 * 2 ^ 53). nia. }
  destruct (round_err (Zpos p) (e1 + e2) loc_Exact) as (m & e & E & Hr & He & Herr & _); [nia|lia|lia|].
  exists m, e. cbn [xorb]. fold p. rewrite E. split; [done|]. split; [done|]. split; [lia|]. rewrite <- Ep. done.
Qed.

(** A product with a power of two is exact. *)
Lemma shr_exact m k e : 0 < m → 0 ≤ k → shr (shr_record_of_loc (m * 2 ^ k) loc_Exact) e k = (shr_record_of_loc m loc_Exact, e + k).
Proof.
  intros Hm Hk. unfold shr. destruct k as [|k|k]; [by rewrite Z.mul_1_r, Z.add_0_r| |lia]. f_equal. rewrite iter_pos_nat, <- (positive_nat_Z k).
  generalize (Pos.to_nat k) as n. intros n. induction n as [|n IH]; [by rewrite Z.mul_1_r|].
  rewrite Nat.iter_succ_r, <- IH. f_equal. rewrite Nat2Z.inj_succ, Z.pow_succ_r by lia.
  assert (0 < m * 2 ^ Z.of_nat n) by (apply Z.mul_pos_pos; [done|by apply Z.pow_pos_nonneg; lia]).
  replace (m * (2 * 2 ^ Z.of_nat n)) with (2 * (m * 2 ^ Z.of_nat n)) by lia. by destruct (m * 2 ^ Z.of_nat n).
Qed.

Lemma dmul_pow2 m1 e1 e2 : 2 ^ 52 ≤ Zpos m1 < 2 ^ 53 → -400 ≤ e1 ≤ 400 → -400 ≤ e2 ≤ 400 →
  dmul (S754_finite false m1 e1) (S754_finite false (2 ^ 52) e2) = S754_finite false m1 (e1 + e2 + 52).
Proof.
  intros H1 He1 He2. unfold dmul, SFmul, binary_round_aux, shr_fexp. cbn [xorb].
  assert (Ep : Zpos (m1 * 2 ^ 52) = Zpos m1 * 2 ^ 52) by done. rewrite Ep.
  assert (Hd : Zdigits2 (Zpos m1 * 2 ^ 52) = 105).
  { apply digits_unique; [|lia]. change (2 ^ (105 - 1)) with (2 ^ 52 * 2 ^ 52). change (2 ^ 105) with (2 ^ 53 * 2 ^ 52). lia. }
  rewrite Hd. assert (Ef : fexp 53 1024 (105 + (e1 + e2)) - (e1 + e2) = 52) by (unfold fexp, emin; lia). rewrite Ef.
  rewrite shr_exact by lia. cbn [shr_record_of_loc loc_of_shr_record shr_m round_nearest_even]. rewrite (digits_norm m1) by done.
  assert (Eg : fexp 53 1024 (53 + (e1 + e2 + 52)) - (e1 + e2 + 52) = 0) by (unfold fexp, emin; lia). rewrite Eg.
  cbn [shr shr_m]. by rewrite (proj2 (Z.leb_le _ _)) by lia.
Qed.

(** ** A scaled quotient *)

Ltac scale_up := apply Z.mul_le_mono_nonneg_l; [repeat apply Z.mul_nonneg_nonneg; lia|lia].
(** The three roundings of [K * (ts / rate)], scaled to integers. *)
Lemma quotient_bounds N C K ts rate F q B A t :
  K * ts * 8 < N → 0 < K → 0 < ts → 0 < rate → 0 < F → 0 < C →
  q * rate ≤ ts * F < (q + C) * rate → N * C ≤ q → Z.abs (B - q) * N ≤ q →
  Z.abs (A - K * B) * N ≤ K * B → t * F ≤ A < (t + 1) * F →
  rate * t ≤ K * ts ≤ rate * (t + 1).
Proof.
  intros HN HK Hts Hr HF HC Hq HqN HB HA Ht. assert (0 < N * C) by nia. set (X := K * ts) in *.
  assert (HB' : (N - 1) * q ≤ N * B ≤ (N + 1) * q) by nia.
  assert (HA' : (N - 1) * (K * B) ≤ N * A ≤ (N + 1) * (K * B)) by nia.
  assert (H0 : 0 < N) by lia. split.
  - assert (E1 : N * N * A ≤ (N + 1) * (N + 1) * (K * q)).
    { assert (N * (N * A) ≤ N * ((N + 1) * (K * B))) by scale_up.
      assert ((N + 1) * K * (N * B) ≤ (N + 1) * K * ((N + 1) * q)) by scale_up. lia. }
    assert (E2 : N * N * (rate * t) * F ≤ (N + 1) * (N + 1) * X * F).
    { assert (N * N * rate * (t * F) ≤ N * N * rate * A) by scale_up.
      assert (rate * (N * N * A) ≤ rate * ((N + 1) * (N + 1) * (K * q))) by scale_up.
      assert ((N + 1) * (N + 1) * K * (q * rate) ≤ (N + 1) * (N + 1) * K * (ts * F)) by scale_up.
      unfold X. lia. }
    apply Z.mul_le_mono_pos_r in E2; [|done].
    assert (E3 : (N + 1) * (N + 1) * X < N * N * (X + 1)) by nia.
    assert (N * N * (rate * t) < N * N * (X + 1)) by lia. assert (rate * t < X + 1); [|lia].
    apply (Z.mul_lt_mono_pos_l (N * N)); nia.
  - assert (E1 : (N - 1) * (N - 1) * (K * q) ≤ N * N * A).
    { assert (N * ((N - 1) * (K * B)) ≤ N * (N * A)) by scale_up.
      assert ((N - 1) * K * ((N - 1) * q) ≤ (N - 1) * K * (N * B)) by scale_up. lia. }
    assert (E2 : (N - 1) * (ts * F) ≤ N * (q * rate)).
    { assert (N * C * rate ≤ q * rate) by (apply Z.mul_le_mono_nonneg_r; lia).
      assert (N * (ts * F) ≤ N * ((q + C) * rate)) by scale_up. lia. }
    assert (E3 : (N - 1) * (N - 1) * (N - 1) * X * F < N * N * N * (rate * (t + 1)) * F).
    { assert (N * N * N * rate * A < N * N * N * rate * ((t + 1) * F)) by (apply Z.mul_lt_mono_pos_l; [repeat apply Z.mul_pos_pos; lia|lia]).
      assert (N * rate * ((N - 1) * (N - 1) * (K * q)) ≤ N * rate * (N * N * A)) by scale_up.
      assert ((N - 1) * (N - 1) * K * ((N - 1) * (ts * F)) ≤ (N - 1) * (N - 1) * K * (N * (q * rate))) by scale_up.
      unfold X. lia. }
    apply Z.mul_lt_mono_pos_r in E3; [|done].
    assert (E4 : N * N * N * (X - 1) < (N - 1) * (N - 1) * (N - 1) * X).
    { assert (N * N * (3 * X) < N * N * N) by (apply (Z.mul_lt_mono_pos_l (N * N)); nia). nia. }
    assert (X - 1 < rate * (t + 1)); [|lia]. apply (Z.mul_lt_mono_pos_l (N * N * N)); nia.
Qed.

(** Cutting a positive value at a scale. *)
Lemma trunc_scaled m e g : 0 ≤ g → 0 ≤ e + g →
  ∃ t, trunc (S754_finite false m e) = Some t ∧ 0 ≤ t ∧ t * 2 ^ g ≤ Zpos m * 2 ^ (e + g) < (t + 1) * 2 ^ g.
Proof.
  intros Hg Heg. eexists. split; [done|]. cbn [cond_Zopp]. assert (Hpg : 0 < 2 ^ g) by (apply Z.pow_pos_nonneg; lia).
  destruct (0 <=? e) eqn:Ee; [apply Z.leb_le in Ee|apply Z.leb_gt in Ee].
  - split; [apply Z.mul_nonneg_nonneg; [done|by apply Z.pow_nonneg]|]. rewrite Z.pow_add_r by lia. rewrite Z.mul_assoc, Z.mul_add_distr_r. lia.
  - assert (Hpe : 0 < 2 ^ (- e)) by (apply Z.pow_pos_nonneg; lia). assert (H0 : 0 < 2 ^ (e + g)) by (apply Z.pow_pos_nonneg; lia).
    split; [by apply Z.div_pos|].
    assert (EP : 2 ^ g = 2 ^ (- e) * 2 ^ (e + g)) by (rewrite <- Z.pow_add_r by lia; f_equal; lia). rewrite EP, !Z.mul_assoc.
    pose proof (Z.mul_div_le (Zpos m) (2 ^ (- e)) ltac:(lia)). pose proof (Z.mul_succ_div_gt (Zpos m) (2 ^ (- e)) ltac:(lia)).
    split; [apply Z.mul_le_mono_nonneg_r; lia|apply (proj1 (Z.mul_lt_mono_pos_r _ _ _ H0)); lia].
Qed.

(** The value of [1000.0 * ((double) ts / (double) rate)] truncated. *)
Lemma thousandth_trunc ts rate : 0 < ts < 2 ^ 32 → 0 < rate < 2 ^ 32 →
  ∃ t, trunc (dmul (dbl 1000) (ddiv (dbl ts) (dbl rate))) = Some t ∧ 0 ≤ t ∧ rate * t ≤ 1000 * ts ≤ rate * (t + 1).
Proof.
  intros Hts Hr. destruct (dbl_norm ts) as (m1 & s1 & -> & H1 & Hs1 & E1); [lia|]. destruct (dbl_norm rate) as (m2 & s2 & -> & H2 & Hs2 & E2); [lia|].
  destruct (ddiv_norm m1 (- s1) m2 (- s2)) as (m3 & e3 & q & -> & H3 & Hq & Hq52 & He3 & Herr3); [done|done|lia|lia|].
  replace (- s1 - - s2 - 53) with (- (s1 + 53 - s2)) in * by lia. set (f := s1 + 53 - s2) in *.
  assert (Ek : dbl 1000 = S754_finite false 8796093022208000 (-43)) by (vm_compute; reflexivity). rewrite Ek.
  destruct (dmul_norm 8796093022208000 (-43) m3 e3) as (m5 & e5 & -> & H5 & He5 & Herr5); [lia|done|lia|unfold f in *; lia|].
  set (k := e3 - - f) in *. set (j := e5 - (-43 + e3)) in *.
  assert (Hf : 0 < 2 ^ f) by (apply Z.pow_pos_nonneg; unfold f; lia). assert (H2k : 0 < 2 ^ k) by (apply Z.pow_pos_nonneg; lia).
  destruct (trunc_scaled m5 e5 (f + 43)) as (t & Et & Ht0 & Ht); [unfold f; lia|unfold f, j, k in *; lia|].
  exists t. split; [done|]. split; [done|].
  assert (EA : Zpos m5 * 2 ^ (e5 + (f + 43)) = Zpos m5 * 2 ^ j * 2 ^ k) by (rewrite <- Z.mul_assoc, <- Z.pow_add_r by lia; f_equal; f_equal; unfold j, k; lia).
  rewrite EA, (Z.pow_add_r 2 f 43) in Ht by (unfold f; lia).
  assert (HqF : q * rate ≤ ts * 2 ^ f < (q + 1) * rate).
  { assert (0 < 2 ^ s2) by (apply Z.pow_pos_nonneg; lia).
    assert (E : ts * 2 ^ s1 * 2 ^ 53 = ts * 2 ^ f * 2 ^ s2).
    { rewrite <- !Z.mul_assoc, <- !Z.pow_add_r by (unfold f; lia). do 2 f_equal. unfold f. lia. }
    rewrite E1, E2, E, !Z.mul_assoc in Hq. destruct Hq as [Hq1 Hq2]. apply Z.mul_le_mono_pos_r in Hq1; [|done]. apply Z.mul_lt_mono_pos_r in Hq2; done. }
  refine (quotient_bounds (2 ^ 52) (2 ^ 43) 1000 ts rate (2 ^ f * 2 ^ 43) (q * 2 ^ 43) (Zpos m3 * 2 ^ k * 2 ^ 43) _ t _ _ _ _ _ _ _ _ _ _ Ht); try lia.
  replace (1000 * (Zpos m3 * 2 ^ k * 2 ^ 43)) with (8796093022208000 * Zpos m3 * 2 ^ k) by lia.
  rewrite <- Z.mul_sub_distr_r, Z.abs_mul, (Z.abs_eq (2 ^ k)), <- Z.mul_assoc, (Z.mul_comm (2 ^ k)), Z.mul_assoc by lia. apply Z.mul_le_mono_nonneg_r; lia.
Qed.

(** In milliseconds a time fits its 32 bits, and is not more than a millisecond from
    the exact value. *)
Lemma thousandth_u32 {S} ts rate (e : S) : in_u32 ts → 0 < rate < 2 ^ 32 → 1000 * ts < rate * 2 ^ 32 →
  ∃ t, to_u32 (dmul (dbl 1000) (ddiv (dbl ts) (dbl rate))) e = Ret t e ∧ in_u32 t ∧ rate * t ≤ 1000 * ts ≤ rate * (t + 1).
Proof.
  intros Hts Hr Hfit. unfold in_u32 in *. destruct (decide (ts = 0)) as [->|Hne].
  - exists 0. split; [|lia]. destruct (dbl_norm rate) as (m & s & -> & _); [lia|]. by vm_compute.
  - destruct (thousandth_trunc ts rate) as (t & E & Ht & Hb); [lia|done|]. exists t.
    assert (t < 2 ^ 32) by nia. split; [|lia]. unfold to_u32, to_int. rewrite E.
    by rewrite (proj2 (Z.leb_le 0 t)), (proj2 (Z.leb_le t _)) by lia.
Qed.

(** ** Microseconds as a binary fraction *)

(** [usec * 2^32 * 1.0e-6] truncated is the exact quotient, or one less when that is
    an integer. *)
Lemma binary_fraction {S} usec (e : S) : 0 ≤ usec < 10 ^ 6 →
  ∃ f, to_u32 (dmul (dmul (dbl usec) (dbl (2 ^ 32))) (S754_finite false 4722366482869645 (-72))) e = Ret f e ∧ in_u32 f ∧
    10 ^ 6 * f ≤ 2 ^ 32 * usec ≤ 10 ^ 6 * (f + 1).
Proof.
  intros Hu. unfold in_u32. destruct (decide (usec = 0)) as [->|Hne]; [exists 0; split; [by vm_compute|lia]|].
  destruct (dbl_norm usec) as (m1 & s1 & -> & H1 & Hs1 & E1); [lia|].
  assert (E2 : dbl (2 ^ 32) = S754_finite false (2 ^ 52) (-20)) by (vm_compute; reflexivity). rewrite E2, dmul_pow2 by (done || lia).
  destruct (dmul_norm m1 (- s1 + -20 + 52) 4722366482869645 (-72)) as (m5 & e5 & -> & H5 & He5 & Herr); [done|lia|lia|lia|].
  replace (- s1 + -20 + 52 + -72) with (- (s1 + 40)) in * by lia. set (j := e5 - - (s1 + 40)) in *.
  destruct (trunc_scaled m5 e5 (s1 + 40)) as (t & Et & Ht0 & Ht); [lia|lia|]. replace (e5 + (s1 + 40)) with j in Ht by lia.
  assert (Hs : 26 ≤ s1).
  { destruct (decide (26 ≤ s1)) as [|Hlt]; [done|]. assert (2 ^ s1 ≤ 2 ^ 26) by (apply Z.pow_le_mono_r; lia). nia. }
  assert (Ep : 2 ^ s1 = 2 ^ 26 * 2 ^ (s1 - 26)) by (rewrite <- Z.pow_add_r by lia; f_equal; lia).
  assert (EF : 2 ^ (s1 + 40) = 2 ^ 66 * 2 ^ (s1 - 26)) by (rewrite <- Z.pow_add_r by lia; f_equal; lia).
  rewrite EF in Ht. assert (0 < 2 ^ (s1 - 26)) by (apply Z.pow_pos_nonneg; lia).
  assert (Hb : 15625 * t ≤ usec * 2 ^ 26 * 1 ≤ 15625 * (t + 1)).
  { refine (quotient_bounds (2 ^ 52) (2 ^ (s1 - 26)) (usec * 2 ^ 26) 1 15625 (2 ^ 66 * 2 ^ (s1 - 26)) (4722366482869645 * 2 ^ (s1 - 26))
      (4722366482869645 * 2 ^ (s1 - 26)) _ t _ _ _ _ _ _ _ _ _ _ Ht); lia. }
  exists t. unfold to_u32, to_int. rewrite Et. rewrite (proj2 (Z.leb_le 0 t)), (proj2 (Z.leb_le t _)) by lia. split; [done|lia].
Qed.
