(* ===== verification/Gbl.v ===== *)
(** * Global data of the process ([core/inc/common.h])

    The record [gbl], the exit state, and the inline functions that read and
    write them. Every function holds [gbl.mutex] around its whole body (or
    performs one read), so a call is one atomic step on the record. *)

From S2P Require Import Prelude.

Definition MAX_VIDEO_CHANNEL : Z := 32.
Definition VIDEO_SYSTEM_PAL : Z := 0.
Definition VIDEO_SYSTEM_NTSC : Z := 1.
Definition VIDEO_RESOLUTION_CIF : Z := 0.
Definition VIDEO_RESOLUTION_D1 : Z := 1.
Definition STORAGE_PATH_LEN : Z := 20.
Definition TRUE : Z := 1.
Definition FALSE : Z := 0.

Definition GET_LINE_NUM (sys reslution : Z) : Z := sys * 2 + reslution.

(** {width, height} by line *)
Definition IMAGE_SIZE_MATRIX : list (list Z) :=
  [ [352; 288]; [704; 576]; [352; 240]; [704; 480] ].

Inductive ExitState :=
  | DVS_WORKING
  | DVS_EXIT_SUCCESS
  | DVS_EXIT_FAIL
  | DVS_EXIT_RESET_BOARD.

#[export] Instance ExitState_eq_dec : EqDecision ExitState.
Proof. solve_decision. Defined.

Record GlobalData := mkGlobalData {
  quit : Z;
  sysmode : Z;
  resolution : Z;
  bitrate : Z;
  videoChannels : Z;
  videoFlag : list Z;
  sampleRate : Z;
  bitsPerSample : Z;
  audioChannels : Z;
  audioBitRate : Z;
  audioFlag : list Z;
  storePath : list Z;
  g_exitState : ExitState
}.

#[export] Instance eta_GlobalData : Eta GlobalData := fun g =>
  mkGlobalData (quit g) (sysmode g) (resolution g) (bitrate g) (videoChannels g)
    (videoFlag g) (sampleRate g) (bitsPerSample g) (audioChannels g)
    (audioBitRate g) (audioFlag g) (storePath g) (g_exitState g).

(** [GlobalData gbl = {0}] and the zero-initialised [g_exitState]. *)
Definition gbl_init : GlobalData :=
  mkGlobalData 0 0 0 0 0 (replicate 32 0) 0 0 0 0 (replicate 32 0) (replicate 20 0) DVS_WORKING.

Section Operations.

Definition gblSetExitState (state : ExitState) : CM GlobalData unit :=
  modify (fun g => g <| g_exitState := state |>).
Definition gblGetExitState : CM GlobalData ExitState := gets g_exitState.

Definition gblSetSysMode (m : Z) : CM GlobalData unit :=
  modify (fun g => g <| sysmode := m |>).
Definition gblSetResolution (r : Z) : CM GlobalData unit :=
  modify (fun g => g <| resolution := r |>).
Definition gblGetSysMode : CM GlobalData Z := gets sysmode.
Definition gblGetResolution : CM GlobalData Z := gets resolution.

Definition gblGetWidth : CM GlobalData Z :=
  sizeLineNum ← gets (fun g => GET_LINE_NUM (sysmode g) (resolution g));
  line ← rd IMAGE_SIZE_MATRIX sizeLineNum;
  rd line 0.
Definition gblGetHeight : CM GlobalData Z :=
  sizeLineNum ← gets (fun g => GET_LINE_NUM (sysmode g) (resolution g));
  line ← rd IMAGE_SIZE_MATRIX sizeLineNum;
  rd line 1.

Definition gblSetBitRate (b : Z) : CM GlobalData unit :=
  modify (fun g => g <| bitrate := b |>).
Definition gblGetBitRate : CM GlobalData Z := gets bitrate.

Definition gblGetQuit : CM GlobalData Z := gets quit.
Definition gblSetQuit : CM GlobalData unit := modify (fun g => g <| quit := 1 |>).
Definition gblClearQuit : CM GlobalData unit := modify (fun g => g <| quit := 0 |>).

(** The assignment [flags[chId] = v], or the memset of all when [chId] is
    [MAX_VIDEO_CHANNEL] or more. *)
Definition setFlag (flags : list Z) (chId v : Z) : option (list Z) :=
  if MAX_VIDEO_CHANNEL <=? chId
  then Some (replicate (Z.to_nat MAX_VIDEO_CHANNEL) v)
  else aset flags chId v.

Definition withFlags (p : GlobalData → list Z) (upd : list Z → GlobalData → GlobalData)
    (chId v : Z) : CM GlobalData unit := fun g =>
  match setFlag (p g) chId v with
  | Some fl => Ret tt (upd fl g)
  | None => Flt OutOfBounds
  end.

Definition set_videoFlag (fl : list Z) (g : GlobalData) := g <| videoFlag := fl |>.
Definition set_audioFlag (fl : list Z) (g : GlobalData) := g <| audioFlag := fl |>.

Definition gblOpenVideoChannel (chId : Z) := withFlags videoFlag set_videoFlag chId TRUE.
Definition gblCloseVideoChannel (chId : Z) := withFlags videoFlag set_videoFlag chId FALSE.
Definition gblCheckVideoChannel (chId : Z) : CM GlobalData Z :=
  fl ← gets videoFlag; rd fl chId.

Definition gblSetAudioParam (aud_sampleRate aud_bitsPerSample aud_channels aud_bitRate : Z)
  : CM GlobalData unit :=
  modify (fun g => g <| sampleRate := aud_sampleRate |> <| audioChannels := aud_channels |>
                     <| bitsPerSample := aud_bitsPerSample |> <| audioBitRate := aud_bitRate |>).
Definition gblGetAudSampleRate : CM GlobalData Z := gets sampleRate.
Definition gblGetAudChannels : CM GlobalData Z := gets audioChannels.
Definition gblGetAudBitsPerSample : CM GlobalData Z := gets bitsPerSample.
Definition gblGetAudBitRate : CM GlobalData Z := gets audioBitRate.

Definition gblOpenAudioChannel (chId : Z) := withFlags audioFlag set_audioFlag chId TRUE.
Definition gblCloseAudioChannel (chId : Z) := withFlags audioFlag set_audioFlag chId FALSE.
Definition gblCheckAudioChannel (chId : Z) : CM GlobalData Z :=
  fl ← gets audioFlag; rd fl chId.

(** The memcpy reads [STORAGE_PATH_LEN] bytes of [path], whatever its length. *)
Definition gblSetStorePath (path : list Z) : CM GlobalData Z :=
  if zlen path <? STORAGE_PATH_LEN then fault_with OutOfBounds
  else _ ← modify (fun g => g <| storePath := take (Z.to_nat STORAGE_PATH_LEN) path |>);
       mret 0.
Definition gblGetStorePath : CM GlobalData (list Z) := gets storePath.

Definition gblSetVideoChannels (num : Z) : CM GlobalData Z :=
  _ ← modify (fun g => g <| videoChannels := num |>); mret num.
Definition gblGetVideoChannels : CM GlobalData Z := gets videoChannels.

End Operations.

(** * Well-formedness and the calls of the program *)

Definition flag_ok (b : Z) : Prop := b = TRUE ∨ b = FALSE.

Record gbl_wf (g : GlobalData) : Prop := {
  wf_sys : sysmode g = VIDEO_SYSTEM_PAL ∨ sysmode g = VIDEO_SYSTEM_NTSC;
  wf_res : resolution g = VIDEO_RESOLUTION_CIF ∨ resolution g = VIDEO_RESOLUTION_D1;
  wf_vlen : zlen (videoFlag g) = MAX_VIDEO_CHANNEL;
  wf_vflags : Forall flag_ok (videoFlag g);
  wf_alen : zlen (audioFlag g) = MAX_VIDEO_CHANNEL;
  wf_aflags : Forall flag_ok (audioFlag g);
  wf_path : zlen (storePath g) = STORAGE_PATH_LEN
}.

(** The calls that write the record, as data. *)
Inductive gbl_call :=
  | CSetExitState (s : ExitState)
  | CSetSysMode (m : Z)
  | CSetResolution (r : Z)
  | CSetBitRate (b : Z)
  | CSetQuit
  | CClearQuit
  | CVideo (open : bool) (chId : Z)
  | CAudio (open : bool) (chId : Z)
  | CSetAudioParam (a b c d : Z)
  | CSetStorePath (path : list Z)
  | CSetVideoChannels (n : Z).

Definition gbl_run (c : gbl_call) : CM GlobalData unit :=
  match c with
  | CSetExitState s => gblSetExitState s
  | CSetSysMode m => gblSetSysMode m
  | CSetResolution r => gblSetResolution r
  | CSetBitRate b => gblSetBitRate b
  | CSetQuit => gblSetQuit
  | CClearQuit => gblClearQuit
  | CVideo true ch => gblOpenVideoChannel ch
  | CVideo false ch => gblCloseVideoChannel ch
  | CAudio true ch => gblOpenAudioChannel ch
  | CAudio false ch => gblCloseAudioChannel ch
  | CSetAudioParam a b c d => gblSetAudioParam a b c d
  | CSetStorePath p => _ ← gblSetStorePath p; mret tt
  | CSetVideoChannels n => _ ← gblSetVideoChannels n; mret tt
  end.

(** The arguments the interface asks for: a mode and a resolution of the two
    enumerations, a channel number that is not negative, a path buffer of at
    least [STORAGE_PATH_LEN] bytes. *)
Definition call_ok (c : gbl_call) : Prop :=
  match c with
  | CSetSysMode m => m = VIDEO_SYSTEM_PAL ∨ m = VIDEO_SYSTEM_NTSC
  | CSetResolution r => r = VIDEO_RESOLUTION_CIF ∨ r = VIDEO_RESOLUTION_D1
  | CVideo _ ch | CAudio _ ch => 0 ≤ ch
  | CSetStorePath p => STORAGE_PATH_LEN ≤ zlen p
  | _ => True
  end.

Lemma setFlag_spec fl ch v :
  zlen fl = MAX_VIDEO_CHANNEL → 0 ≤ ch →
  ∃ fl', setFlag fl ch v = Some fl' ∧ zlen fl' = MAX_VIDEO_CHANNEL ∧
  ∀ d, 0 ≤ d < MAX_VIDEO_CHANNEL →
    aget fl' d = if decide (d = ch ∨ MAX_VIDEO_CHANNEL ≤ ch) then Some v else aget fl d.
Proof.
  intros Hlen Hch. unfold setFlag. destruct (MAX_VIDEO_CHANNEL <=? ch) eqn:E.
  - eexists. split_and!; [done|done|]. intros d Hd.
    rewrite decide_True by lia. by apply aget_replicate.
  - rewrite aset_Some by lia. eexists. split_and!; [done|by rewrite zlen_insert|].
    intros d Hd. rewrite aget_insert by lia.
    repeat case_decide; done || lia.
Qed.

Lemma setFlag_flags fl ch v fl' :
  Forall flag_ok fl → flag_ok v → setFlag fl ch v = Some fl' → Forall flag_ok fl'.
Proof.
  unfold setFlag. intros Hfl Hv. destruct (_ <=? _).
  - intros E. assert (fl' = replicate (Z.to_nat MAX_VIDEO_CHANNEL) v) as -> by congruence.
    by apply Forall_replicate.
  - intros (_ & ->)%aset_is_Some. by apply Forall_insert.
Qed.

Lemma gbl_init_wf : gbl_wf gbl_init.
Proof. split; try done; try (by left); apply Forall_replicate; by right. Qed.

Lemma gbl_run_wf c g :
  gbl_wf g → call_ok c → ∃ g', gbl_run c g = Ret tt g' ∧ gbl_wf g'.
Proof.
  intros Hg Hc. pose proof Hg as [].
  destruct c as [s|m|r|b| | |[] ch|[] ch|a b c d|p|n]; cbn in Hc;
    try (eexists; split; [done|split; done]).
  1-4: unfold gbl_run, gblOpenVideoChannel, gblCloseVideoChannel, gblOpenAudioChannel,
         gblCloseAudioChannel, withFlags;
    match goal with |- context [setFlag ?fl ?ch ?v] =>
      destruct (setFlag_spec fl ch v) as (fl' & E & Hl & _); [done|done|];
      rewrite E; eexists; split; [done|];
      assert (Forall flag_ok fl') by (eapply setFlag_flags, E; [done|by (left + right)]);
      by split
    end.
  unfold gbl_run, gblSetStorePath. run.
  destruct (zlen p <? STORAGE_PATH_LEN) eqn:E; [lia|].
  eexists. split; [done|]. split; try done. cbn [update storePath].
  unfold zlen, STORAGE_PATH_LEN in *. cbn. rewrite length_take. lia.
Qed.

(** * Properties *)

(** C10: every sequence of writing calls with arguments the interface admits
    returns, keeps the record well-formed, and leaves a mode and resolution for
    which width and height are read inside the size matrix: D1 is 704 wide and
    CIF 352, PAL is 576/288 high and NTSC 480/240. *)
Theorem gbl_calls_safe cs g :
  gbl_wf g → Forall call_ok cs →
  ∃ g', for_each cs gbl_run g = Ret tt g' ∧ gbl_wf g' ∧
    gblGetWidth g' = Ret (352 * (1 + resolution g')) g' ∧
    gblGetHeight g' = Ret ((288 - 48 * sysmode g') * (1 + resolution g')) g'.
Proof.
  intros Hg Hcs.
  destruct (for_each_inv gbl_wf cs gbl_run g) as (g' & E & Hg').
  - intros c g0 Hc Hg0. apply gbl_run_wf; [done|]. by eapply Forall_forall.
  - done.
  - exists g'. destruct Hg' as [Hs Hr Hrest]. split_and!; [done|by split| |];
      unfold gblGetWidth, gblGetHeight; run; unfold GET_LINE_NUM;
      destruct Hs as [-> | ->]; destruct Hr as [-> | ->]; reflexivity.
Qed.

Lemma gbl_calls_safe_witness :
  ∃ g', for_each [CSetVideoChannels 16; CSetSysMode 1; CSetResolution 1; CVideo true 40] gbl_run gbl_init
          = Ret tt g' ∧ gbl_wf g' ∧
    gblGetWidth g' = Ret (352 * (1 + resolution g')) g' ∧
    gblGetHeight g' = Ret ((288 - 48 * sysmode g') * (1 + resolution g')) g'.
Proof.
  apply (gbl_calls_safe [CSetVideoChannels 16; CSetSysMode 1; CSetResolution 1; CVideo true 40]).
  - apply gbl_init_wf.
  - repeat constructor; cbn; lia.
Defined.

(** Opening (closing) a channel sets (clears) that channel's flag and no
    other, opening or closing a channel number of 32 or more acts on all 32, and
    the check of a channel reports its flag; the audio flags are another array,
    untouched. Checking a channel number of 32 or more, which open and close
    accept, reads past the array. *)
Theorem gbl_video_flags g open ch d :
  gbl_wf g → 0 ≤ ch → 0 ≤ d →
  ∃ g', gbl_run (CVideo open ch) g = Ret tt g' ∧ audioFlag g' = audioFlag g ∧
    gblCheckVideoChannel d g' =
      (if decide (MAX_VIDEO_CHANNEL ≤ d) then Flt OutOfBounds
       else if decide (d = ch ∨ MAX_VIDEO_CHANNEL ≤ ch) then Ret (if open then TRUE else FALSE) g'
       else match gblCheckVideoChannel d g with Ret b _ => Ret b g' | _ => Flt OutOfBounds end).
Proof.
  intros [] Hch Hd.
  destruct (setFlag_spec (videoFlag g) ch (if open then TRUE else FALSE)) as (fl & E & Hl & Hfl);
    [done|done|].
  exists (g <| videoFlag := fl |>). split_and!.
  - destruct open; unfold gbl_run, gblOpenVideoChannel, gblCloseVideoChannel, withFlags;
      by rewrite E.
  - done.
  - unfold gblCheckVideoChannel. run. destruct (decide (MAX_VIDEO_CHANNEL ≤ d)) as [Hge|Hlt].
    + by rewrite (proj2 (aget_None fl d)) by lia.
    + rewrite Hfl by lia. destruct (decide (d = ch ∨ _)); [done|].
      destruct (aget (videoFlag g) d) eqn:Hget; [done|].
      apply aget_None in Hget. lia.
Qed.

Lemma gbl_video_flags_witness :
  ∃ g', gbl_run (CVideo true 3) gbl_init = Ret tt g' ∧ audioFlag g' = audioFlag gbl_init ∧
    gblCheckVideoChannel 3 g' =
      (if decide (MAX_VIDEO_CHANNEL ≤ 3) then Flt OutOfBounds
       else if decide (3 = 3 ∨ MAX_VIDEO_CHANNEL ≤ 3) then Ret TRUE g'
       else match gblCheckVideoChannel 3 gbl_init with Ret b _ => Ret b g' | _ => Flt OutOfBounds end).
Proof. apply (gbl_video_flags gbl_init true 3 3); [apply gbl_init_wf|lia|lia]. Defined.
