(* ===== verification/StrUtils.v ===== *)
(** * Message blocks and their queues ([utils/ortp/src/str_utils.c], [str_utils.h])

    Blocks, data blocks and queues live on a heap. A block points to a data block,
    which it may share with others (a count of references), and to the next block
    of its message; a queue is a doubly linked list of blocks between two sentinel
    blocks inside the queue object. A loop over a chain of blocks runs for as many
    turns as there are blocks; only a cycle would need more, and such a loop never
    returns ([Blk]). *)

From S2P Require Import Prelude.

(** The address of a block: an allocated one, or a sentinel of a queue. *)
Inductive node := NBlk (a : Z) | NFirst (q : Z) | NLast (q : Z).

#[export] Instance node_eq_dec : EqDecision node.
Proof. solve_decision. Defined.
#[export] Instance node_countable : Countable node.
Proof.
  apply (inj_countable'
    (fun n => match n with NBlk a => inl a | NFirst q => inr (inl q) | NLast q => inr (inr q) end)
    (fun s => match s with inl a => NBlk a | inr (inl q) => NFirst q | inr (inr q) => NLast q end)).
  by intros [].
Defined.

(** [b_rptr] and [b_wptr] are offsets from [db_base]. *)
Record mblk_t := mkMblk {
  b_prev : option node;
  b_next : option node;
  b_cont : option node;
  b_datap : option Z;
  b_rptr : Z;
  b_wptr : Z
}.
#[export] Instance eta_mblk : Eta mblk_t := fun b =>
  mkMblk (b_prev b) (b_next b) (b_cont b) (b_datap b) (b_rptr b) (b_wptr b).

(** [db_base] is the address of the buffer [db_buf], whose length is
    [db_lim - db_base]; [db_freefn] tells that there is a function to free it. *)
Record dblk_t := mkDblk {
  db_base : Z;
  db_buf : list Z;
  db_freefn : bool;
  ref_count : Z
}.
#[export] Instance eta_dblk : Eta dblk_t := fun d =>
  mkDblk (db_base d) (db_buf d) (db_freefn d) (ref_count d).

(** [brk] is above every allocated address; [q_mcount] is the counter of a queue. *)
Record Mem := mkMem {
  mblks : gmap node mblk_t;
  dblks : gmap Z dblk_t;
  q_mcount : gmap Z Z;
  brk : Z
}.
#[export] Instance eta_Mem : Eta Mem := fun m =>
  mkMem (mblks m) (dblks m) (q_mcount m) (brk m).

Definition mblk0 : mblk_t := mkMblk None None None None 0 0.

(** ** Access *)

Definition deref {S} (p : option node) : CM S node :=
  match p with Some n => mret n | None => fault_with NullDeref end.

Definition get_blk (n : node) : CM Mem mblk_t := fun m =>
  match mblks m !! n with Some b => Ret b m | None => Flt UseAfterFree end.
Definition upd_blk (n : node) (f : mblk_t → mblk_t) : CM Mem unit := fun m =>
  match mblks m !! n with
  | Some b => Ret tt (m <| mblks ::= <[n := f b]> |>)
  | None => Flt UseAfterFree
  end.

(** The data block of a block. *)
Definition datap {S} (b : mblk_t) : CM S Z :=
  match b_datap b with Some d => mret d | None => fault_with NullDeref end.
Definition get_db (d : Z) : CM Mem dblk_t := fun m =>
  match dblks m !! d with Some D => Ret D m | None => Flt UseAfterFree end.
Definition upd_db (d : Z) (f : dblk_t → dblk_t) : CM Mem unit := fun m =>
  match dblks m !! d with
  | Some D => Ret tt (m <| dblks ::= <[d := f D]> |>)
  | None => Flt UseAfterFree
  end.

Definition count_add (q k : Z) : CM Mem unit := fun m =>
  match q_mcount m !! q with
  | Some c => Ret tt (m <| q_mcount ::= <[q := i32 (c + k)]> |>)
  | None => Flt UseAfterFree
  end.

(** [n] bytes of the buffer of [b] from [off]. *)
Definition blk_read (b : mblk_t) (off n : Z) : CM Mem (list Z) :=
  d ← datap b; D ← get_db d;
  if (0 <=? off) && (0 <=? n) && (off + n <=? zlen (db_buf D))
  then mret (slice (db_buf D) (Z.to_nat off) (Z.to_nat n))
  else fault_with OutOfBounds.

Definition blk_write (b : mblk_t) (off : Z) (bs : list Z) : CM Mem unit :=
  d ← datap b; D ← get_db d;
  match write_at (db_buf D) off bs with
  | Some buf => upd_db d (fun D => D <| db_buf := buf |>)
  | None => fault_with OutOfBounds
  end.

Definition set_prev (n : node) (p : option node) : CM Mem unit := upd_blk n (fun b => b <| b_prev := p |>).
Definition set_next (n : node) (p : option node) : CM Mem unit := upd_blk n (fun b => b <| b_next := p |>).

Definition next_of (n : node) : CM Mem (option node) := b ← get_blk n; mret (b_next b).
Definition prev_of (n : node) : CM Mem (option node) := b ← get_blk n; mret (b_prev b).

(** The number of turns that is enough for a loop over a chain. *)
Definition blocks (m : Mem) : nat := S (size (mblks m)).

(** ** Queues *)

Definition mblk_init (n : node) : CM Mem unit := modify (fun m => m <| mblks ::= <[n := mblk0]> |>).

Definition qinit (q : Z) : CM Mem unit :=
  _ ← mblk_init (NFirst q);
  _ ← mblk_init (NLast q);
  _ ← set_next (NFirst q) (Some (NLast q));
  _ ← set_prev (NLast q) (Some (NFirst q));
  modify (fun m => m <| q_mcount ::= <[q := 0]> |>).

Definition putq (q : Z) (mp : node) : CM Mem unit :=
  p ← prev_of (NLast q);
  p ← deref p;
  _ ← set_next p (Some mp);
  p ← prev_of (NLast q);
  _ ← set_prev mp p;
  _ ← set_next mp (Some (NLast q));
  _ ← set_prev (NLast q) (Some mp);
  count_add q 1.

Definition getq (q : Z) : CM Mem (option node) :=
  tmp ← next_of (NFirst q);
  tmp ← deref tmp;
  if decide (tmp = NLast q) then mret None else
  n ← next_of tmp;
  _ ← set_next (NFirst q) n;
  n ← next_of tmp;
  n ← deref n;
  _ ← set_prev n (Some (NFirst q));
  _ ← set_prev tmp None;
  _ ← set_next tmp None;
  _ ← count_add q (-1);
  mret (Some tmp).

Definition peekq (q : Z) : CM Mem (option node) :=
  tmp ← next_of (NFirst q);
  tmp ← deref tmp;
  mret (if decide (tmp = NLast q) then None else Some tmp).

(** Insert [mp] before [emp]. *)
Definition insq (q : Z) (emp : option node) (mp : node) : CM Mem unit :=
  match emp with
  | None => putq q mp
  | Some e =>
      _ ← count_add q 1;
      p ← prev_of e;
      p ← deref p;
      _ ← set_next p (Some mp);
      p ← prev_of e;
      _ ← set_prev mp p;
      _ ← set_prev e (Some mp);
      set_next mp (Some e)
  end.

Definition remq (q : Z) (mp : node) : CM Mem unit :=
  _ ← count_add q (-1);
  n ← next_of mp;
  p ← prev_of mp;
  p ← deref p;
  _ ← set_next p n;
  p ← prev_of mp;
  n ← next_of mp;
  n ← deref n;
  _ ← set_prev n p;
  _ ← set_next mp None;
  set_prev mp None.

Definition qbegin (q : Z) : CM Mem (option node) := next_of (NFirst q).
Definition qend (q : Z) (mp : option node) : bool :=
  bool_decide (mp = Some (NFirst q)) || bool_decide (mp = Some (NLast q)).
Definition qnext (mp : option node) : CM Mem (option node) := n ← deref mp; next_of n.
Definition qempty (q : Z) : CM Mem bool := n ← qbegin q; mret (bool_decide (n = Some (NLast q))).
Definition qfirst (q : Z) : CM Mem (option node) :=
  n ← qbegin q; mret (if bool_decide (n = Some (NLast q)) then None else n).
Definition qlast (q : Z) : CM Mem (option node) :=
  p ← prev_of (NLast q); mret (if bool_decide (p = Some (NFirst q)) then None else p).

(** ** Blocks *)

Section Alloc.
(** What [malloc] gives the buffer of the data block [d]: its address, and the
    bytes it happens to hold. *)
Context (buf_addr : Z → Z) (junk : Z → Z → Z).

(** A new block on a new data block with the buffer [buf] at [base]. *)
Definition new_blk (base : Z) (buf : list Z) (freefn : bool) : CM Mem node := fun m =>
  let a := brk m in
  Ret (NBlk a) (m <| mblks ::= <[NBlk a := mkMblk None None None (Some (a + 1)) 0 0]> |>
                  <| dblks ::= <[a + 1 := mkDblk base buf freefn 1]> |>
                  <| brk := a + 2 |>).

(** A negative size is refused by [malloc], whose result is used unchecked. *)
Definition allocb (size : Z) : CM Mem node := fun m =>
  if size <? 0 then Flt NullDeref
  else new_blk (buf_addr (brk m + 1)) (map (junk (brk m + 1)) (seqZ 0 size)) true m.

Definition allocb_with_buf (base : Z) (buf : list Z) (freefn : bool) : CM Mem node :=
  new_blk base buf freefn.

Definition freeb (mp : node) : CM Mem unit :=
  b ← get_blk mp;
  match b_datap b with
  | None => mret tt
  | Some d =>
      D ← get_db d;
      if db_base D =? 0 then mret tt else
      _ ← upd_db d (fun D => D <| ref_count := i32 (ref_count D - 1) |>);
      D ← get_db d;
      _ ← (if ref_count D =? 0 then modify (fun m => m <| dblks ::= delete d |>) else mret tt);
      modify (fun m => m <| mblks ::= delete mp |>)
  end.

Fixpoint freemsg_loop (fuel : nat) (tmp1 : option node) : CM Mem unit :=
  match fuel with
  | O => block
  | S fuel =>
      match tmp1 with
      | None => mret tt
      | Some n => b ← get_blk n; _ ← freeb n; freemsg_loop fuel (b_cont b)
      end
  end.
Definition freemsg (mp : option node) : CM Mem unit := fun m => freemsg_loop (blocks m) mp m.

Definition dupb (mp : node) : CM Mem (option node) :=
  b ← get_blk mp;
  match b_datap b with
  | None => mret None
  | Some d =>
      D ← get_db d;
      if db_base D =? 0 then mret None else
      _ ← upd_db d (fun D => D <| ref_count := i32 (ref_count D + 1) |>);
      a ← gets brk;
      _ ← modify (fun m => m <| mblks ::= <[NBlk a := mkMblk None None None (Some d) (b_rptr b) (b_wptr b)]> |>
                             <| brk := a + 1 |>);
      mret (Some (NBlk a))
  end.

Definition set_cont (n : node) (p : option node) : CM Mem unit := upd_blk n (fun b => b <| b_cont := p |>).

(** The loop of [dupmsg] and [copymsg]: [cp] copies one block, which is linked
    behind [prev]. *)
Fixpoint copy_loop (cp : node → CM Mem (option node)) (fuel : nat) (mp : option node) (prev : option node) : CM Mem unit :=
  match fuel with
  | O => block
  | S fuel =>
      match mp with
      | None => mret tt
      | Some n =>
          c ← cp n;
          p ← deref prev;
          _ ← set_cont p c;
          b ← get_blk n;
          copy_loop cp fuel (b_cont b) c
      end
  end.
Definition copy_all (cp : node → CM Mem (option node)) (mp : node) : CM Mem (option node) := fun m =>
  (newm ← cp mp;
   b ← get_blk mp;
   _ ← copy_loop cp (blocks m) (b_cont b) newm;
   mret newm) m.
Definition dupmsg : node → CM Mem (option node) := copy_all dupb.

(** [b_wptr - b_rptr] *)
Definition blk_len (b : mblk_t) : Z := i32 (b_wptr b - b_rptr b).

Fixpoint msgdsize_loop (fuel : nat) (mp : option node) (acc : Z) : CM Mem Z :=
  match fuel with
  | O => block
  | S fuel =>
      match mp with
      | None => mret acc
      | Some n => b ← get_blk n; msgdsize_loop fuel (b_cont b) (i32 (acc + blk_len b))
      end
  end.
Definition msgdsize (mp : option node) : CM Mem Z := fun m => msgdsize_loop (blocks m) mp 0 m.

(** Append [bs] at the write pointer. *)
Definition blk_append (n : node) (bs : list Z) : CM Mem unit :=
  b ← get_blk n;
  _ ← blk_write b (b_wptr b) bs;
  upd_blk n (fun b => b <| b_wptr ::= (fun w => w + zlen bs) |>).

Definition copyb (mp : node) : CM Mem node :=
  b ← get_blk mp;
  newm ← allocb (blk_len b);
  bs ← blk_read b (b_rptr b) (blk_len b);
  _ ← blk_append newm bs;
  mret newm.

Definition copymsg : node → CM Mem (option node) := copy_all (fun n => c ← copyb n; mret (Some c)).

Fixpoint pullup_loop (fuel : nat) (mp : option node) (newm : node) (rlen : Z) : CM Mem unit :=
  match fuel with
  | O => block
  | S fuel =>
      match mp with
      | None => mret tt
      | Some n =>
          b ← get_blk n;
          if blk_len b <=? rlen then
            bs ← blk_read b (b_rptr b) (blk_len b);
            _ ← blk_append newm bs;
            pullup_loop fuel (b_cont b) newm (rlen - blk_len b)
          else
            bs ← blk_read b (b_rptr b) rlen;
            _ ← blk_append newm bs;
            c ← dupmsg n;
            _ ← set_cont newm c;
            c ← deref c;
            upd_blk c (fun b => b <| b_rptr ::= (fun r => r + rlen) |>)
      end
  end.
Definition msgpullup (mp : option node) (len : Z) : CM Mem node := fun m =>
  (msgsize ← msgdsize mp;
   let len := if (len =? -1) || (msgsize <? len) then msgsize else len in
   newm ← allocb len;
   _ ← pullup_loop (blocks m) mp newm len;
   mret newm) m.

Definition appendb (mp : node) (data : list Z) (pad : bool) : CM Mem node :=
  b ← get_blk mp;
  d ← datap b;
  D ← get_db d;
  let padcnt := if pad then (4 - (db_base D + b_wptr b + zlen data) `rem` 4) `rem` 4 else 0 in
  mp ← (if zlen (db_buf D) <? b_wptr b + zlen data + padcnt then
          c ← allocb (Z.max (zlen (db_buf D)) (zlen data));
          _ ← set_cont mp (Some c);
          mret c
        else mret mp);
  _ ← blk_append mp data;
  _ ← blk_append mp (replicate (Z.to_nat padcnt) 0);
  mret mp.

(** The last block of the chain that starts at [mp]. *)
Fixpoint last_blk (fuel : nat) (mp : node) : CM Mem node :=
  match fuel with
  | O => block
  | S fuel => b ← get_blk mp; match b_cont b with None => mret mp | Some c => last_blk fuel c end
  end.
Definition msgappend (mp : node) (data : list Z) (pad : bool) : CM Mem unit := fun m =>
  (l ← last_blk (blocks m) mp; _ ← appendb l data pad; mret tt) m.

Definition concatb (mp : node) (newm : option node) : CM Mem node := fun m =>
  (l ← last_blk (blocks m) mp;
   _ ← set_cont l newm;
   n ← deref newm;
   last_blk (blocks m) n) m.

(** Every [getq] takes an element off a list of at most all blocks. *)
Fixpoint flushq_loop (fuel : nat) (q : Z) : CM Mem unit :=
  match fuel with
  | O => block
  | S fuel =>
      mp ← getq q;
      match mp with
      | None => mret tt
      | Some n => _ ← freemsg (Some n); flushq_loop fuel q
      end
  end.
Definition flushq (q : Z) : CM Mem unit := fun m => flushq_loop (blocks m) q m.

End Alloc.

(** * Links

    The links of a state, seen as two partial functions. *)

Definition nxt (m : Mem) (n : node) : option node := b ← mblks m !! n; b_next b.
Definition prv (m : Mem) (n : node) : option node := b ← mblks m !! n; b_prev b.
Definition alive (m : Mem) (n : node) : Prop := is_Some (mblks m !! n).

Definition with_next (n : node) (p : option node) (m : Mem) : Mem :=
  m <| mblks ::= alter (fun b => b <| b_next := p |>) n |>.
Definition with_prev (n : node) (p : option node) (m : Mem) : Mem :=
  m <| mblks ::= alter (fun b => b <| b_prev := p |>) n |>.
Definition with_count (q c : Z) (m : Mem) : Mem := m <| q_mcount ::= <[q := c]> |>.

(** A block without its links. *)
Definition strip (b : mblk_t) : mblk_t := b <| b_prev := None |> <| b_next := None |>.
Definition blk_payload (m : Mem) (n : node) : option mblk_t := strip <$> mblks m !! n.

Lemma get_blk_ret n m b : mblks m !! n = Some b → get_blk n m = Ret b m.
Proof. unfold get_blk. by intros ->. Qed.

Lemma upd_blk_ret n f m : alive m n → upd_blk n f m = Ret tt (m <| mblks ::= alter f n |>).
Proof.
  intros [b Hb]. unfold upd_blk. rewrite Hb. f_equal. destruct m as [ms ds qc k]. cbn in *. f_equal.
  apply map_eq. intros i. destruct (decide (i = n)) as [->|].
  - by rewrite lookup_insert_eq, lookup_alter_eq, Hb.
  - by rewrite lookup_insert_ne, lookup_alter_ne by done.
Qed.

Lemma set_next_ret n p m : alive m n → set_next n p m = Ret tt (with_next n p m).
Proof. apply upd_blk_ret. Qed.
Lemma set_prev_ret n p m : alive m n → set_prev n p m = Ret tt (with_prev n p m).
Proof. apply upd_blk_ret. Qed.

Lemma count_add_ret q k m c :
  q_mcount m !! q = Some c → count_add q k m = Ret tt (with_count q (i32 (c + k)) m).
Proof. unfold count_add. by intros ->. Qed.

Lemma alive_next n p m x : alive (with_next n p m) x ↔ alive m x.
Proof. unfold alive, with_next. cbn. by rewrite lookup_alter_is_Some. Qed.
Lemma alive_prev n p m x : alive (with_prev n p m) x ↔ alive m x.
Proof. unfold alive, with_prev. cbn. by rewrite lookup_alter_is_Some. Qed.

Lemma nxt_next n p m x : alive m n → nxt (with_next n p m) x = if decide (x = n) then p else nxt m x.
Proof.
  intros [b Hb]. unfold nxt, with_next. cbn. case_decide as E; [subst|by rewrite lookup_alter_ne by done].
  by rewrite lookup_alter_eq, Hb.
Qed.
Lemma prv_prev n p m x : alive m n → prv (with_prev n p m) x = if decide (x = n) then p else prv m x.
Proof.
  intros [b Hb]. unfold prv, with_prev. cbn. case_decide as E; [subst|by rewrite lookup_alter_ne by done].
  by rewrite lookup_alter_eq, Hb.
Qed.
Lemma nxt_prev n p m x : nxt (with_prev n p m) x = nxt m x.
Proof.
  unfold nxt, with_prev. cbn. destruct (decide (x = n)) as [->|]; [|by rewrite lookup_alter_ne by done].
  rewrite lookup_alter_eq. by destruct (mblks m !! n).
Qed.
Lemma prv_next n p m x : prv (with_next n p m) x = prv m x.
Proof.
  unfold prv, with_next. cbn. destruct (decide (x = n)) as [->|]; [|by rewrite lookup_alter_ne by done].
  rewrite lookup_alter_eq. by destruct (mblks m !! n).
Qed.
Lemma nxt_alive m x y : nxt m x = Some y → alive m x.
Proof. unfold nxt, alive. destruct (mblks m !! x); [eauto|done]. Qed.
Lemma prv_alive m x y : prv m x = Some y → alive m x.
Proof. unfold prv, alive. destruct (mblks m !! x); [eauto|done]. Qed.

(** [m'] is [m] with other links at the blocks of [P], and other counters. *)
Record relinked (P : node → Prop) (m m' : Mem) : Prop := {
  rl_payload n : blk_payload m' n = blk_payload m n;
  rl_same n : ¬ P n → mblks m' !! n = mblks m !! n;
  rl_dblks : dblks m' = dblks m;
  rl_brk : brk m' = brk m
}.

Lemma relinked_refl P m : relinked P m m.
Proof. by split. Qed.
Lemma relinked_next P n p m m' : P n → relinked P m m' → relinked P m (with_next n p m').
Proof.
  intros Hn [H1 H2 H3 H4]. split; [| |done|done].
  - intros x. rewrite <- H1. unfold blk_payload, with_next. cbn. destruct (decide (x = n)) as [->|].
    + rewrite lookup_alter_eq. by destruct (mblks m' !! n).
    + by rewrite lookup_alter_ne.
  - intros x Hx. rewrite <- H2 by done. unfold with_next. cbn. apply lookup_alter_ne. by intros ->.
Qed.
Lemma relinked_prev P n p m m' : P n → relinked P m m' → relinked P m (with_prev n p m').
Proof.
  intros Hn [H1 H2 H3 H4]. split; [| |done|done].
  - intros x. rewrite <- H1. unfold blk_payload, with_prev. cbn. destruct (decide (x = n)) as [->|].
    + rewrite lookup_alter_eq. by destruct (mblks m' !! n).
    + by rewrite lookup_alter_ne.
  - intros x Hx. rewrite <- H2 by done. unfold with_prev. cbn. apply lookup_alter_ne. by intros ->.
Qed.
Lemma relinked_count P q c m m' : relinked P m m' → relinked P m (with_count q c m').
Proof. by intros [? ? ? ?]. Qed.
Lemma relinked_trans P m1 m2 m3 : relinked P m1 m2 → relinked P m2 m3 → relinked P m1 m3.
Proof.
  intros [A1 A2 A3 A4] [B1 B2 B3 B4]. split; [intros n; by rewrite B1|intros n Hn; by rewrite B2, A2|congruence|congruence].
Qed.
Lemma relinked_weaken (P Q : node → Prop) m m' : (∀ n, P n → Q n) → relinked P m m' → relinked Q m m'.
Proof. intros H [? Hs ? ?]. split; auto. Qed.
Lemma relinked_alive P m m' n : relinked P m m' → alive m' n ↔ alive m n.
Proof.
  intros [H _ _ _]. specialize (H n). unfold blk_payload, alive in *.
  destruct (mblks m' !! n), (mblks m !! n); split; try done; intros []; done.
Qed.

Create HintDb links discriminated.
#[export] Hint Resolve relinked_refl relinked_next relinked_prev relinked_count : links.

(** ** Doubly linked segments

    [dseg m x l z]: from [x] the links lead through [l] to [z], and back. *)

Fixpoint dseg (m : Mem) (x : node) (l : list node) (z : node) : Prop :=
  match l with
  | [] => nxt m x = Some z ∧ prv m z = Some x
  | y :: l => nxt m x = Some y ∧ prv m y = Some x ∧ dseg m y l z
  end.

Lemma dseg_ext m m' x l z :
  (∀ y, y ∈ (x :: l) → nxt m' y = nxt m y) → (∀ y, y ∈ (l ++ [z]) → prv m' y = prv m y) →
  dseg m x l z → dseg m' x l z.
Proof.
  revert x. induction l as [|y l IH]; intros x Hn Hp; cbn.
  - intros [H1 H2]. by rewrite Hn, Hp by set_solver.
  - intros (H1 & H2 & H3). rewrite Hn, Hp by set_solver. split_and!; [done|done|].
    apply IH; [intros; apply Hn|intros; apply Hp|done]; set_solver.
Qed.

Lemma dseg_app m x l1 y l2 z : dseg m x (l1 ++ y :: l2) z ↔ dseg m x l1 y ∧ dseg m y l2 z.
Proof.
  revert x. induction l1 as [|w l1 IH]; intros x; cbn; [tauto|]. rewrite IH. tauto.
Qed.

(** The last node before the end of a segment. *)
Definition lastn (x : node) (l : list node) : node := default x (last l).

Lemma lastn_snoc x l y : lastn x (l ++ [y]) = y.
Proof. unfold lastn. by rewrite last_snoc. Qed.

Lemma lastn_cons x y l : lastn x (y :: l) = lastn y l.
Proof. unfold lastn. rewrite last_cons. by destruct (last l). Qed.

Lemma dseg_last m x l z : dseg m x l z → prv m z = Some (lastn x l) ∧ nxt m (lastn x l) = Some z.
Proof.
  revert x. induction l as [|y l IH]; intros x; cbn; [tauto|]. rewrite lastn_cons. intros (_ & _ & H). by apply IH.
Qed.

Lemma dseg_first m x l z : dseg m x l z → ∃ y, nxt m x = Some y ∧ prv m y = Some x ∧ (y = z ∨ y ∈ l) ∧ hd_error (l ++ [z]) = Some y.
Proof.
  destruct l as [|y l]; cbn; [intros [? ?]; exists z; tauto|]. intros (? & ? & _). exists y. set_solver.
Qed.

Lemma lastn_elem x l : lastn x l ∈ (x :: l).
Proof.
  destruct l as [|y l _] using rev_ind; [set_solver|]. rewrite lastn_snoc. set_solver.
Qed.

(** The same nodes, ending at another node. *)
Lemma dseg_retarget m m' x l z z' :
  dseg m x l z → NoDup (x :: l) →
  (∀ y, y ∈ (x :: l) → y ≠ lastn x l → nxt m' y = nxt m y) → (∀ y, y ∈ l → prv m' y = prv m y) →
  nxt m' (lastn x l) = Some z' → prv m' z' = Some (lastn x l) → dseg m' x l z'.
Proof.
  revert x. induction l as [|y l IH]; intros x; cbn; [tauto|].
  intros (H1 & H2 & H3) [Hx Hnd]%NoDup_cons Hn Hp Hz Hz'. rewrite lastn_cons in *.
  assert (x ≠ lastn y l) by (pose proof (lastn_elem y l); set_solver).
  rewrite Hn, Hp by set_solver. split_and!; [done|done|].
  apply IH; [done|done| | |done|done].
  - intros w Hw Hne. apply Hn; [set_solver|done].
  - intros w Hw. apply Hp. set_solver.
Qed.

(** The same nodes, starting from another node. *)
Lemma dseg_resource m m' x x' l z y :
  dseg m x l z → NoDup (l ++ [z]) → nxt m' x' = Some y → hd_error (l ++ [z]) = Some y → prv m' y = Some x' →
  (∀ w, w ∈ l → nxt m' w = nxt m w) → (∀ w, w ∈ (l ++ [z]) → w ≠ y → prv m' w = prv m w) → dseg m' x' l z.
Proof.
  destruct l as [|w l]; cbn; [intros _ _ ? [= ->]; tauto|].
  intros (_ & _ & H) [Hw Hnd]%NoDup_cons Hx [= ->] Hy Hn Hp. split_and!; [done|done|].
  eapply dseg_ext; [| |exact H]; intros v Hv; [apply Hn; set_solver|apply Hp; set_solver].
Qed.

(** A node between the first and the second part of a segment. *)
Lemma dseg_insert m m' x l1 l2 z e n :
  dseg m x (l1 ++ l2) z → hd_error (l2 ++ [z]) = Some e → NoDup (x :: l1 ++ l2) → z ∉ (x :: l1 ++ l2) →
  n ∉ (x :: l1 ++ l2) → n ≠ z →
  nxt m' (lastn x l1) = Some n → prv m' n = Some (lastn x l1) → nxt m' n = Some e → prv m' e = Some n →
  (∀ y, y ≠ lastn x l1 → y ≠ n → nxt m' y = nxt m y) → (∀ y, y ≠ e → y ≠ n → prv m' y = prv m y) →
  dseg m' x (l1 ++ n :: l2) z.
Proof.
  intros Hs He Hnd Hz Hn Hnz E1 E2 E3 E4 Hnx Hpv.
  assert (H1 : dseg m x l1 e) by (destruct l2; cbn in He; simplify_eq; [by rewrite app_nil_r in Hs|by apply dseg_app in Hs as [? _]]).
  assert (Hel : (e ∉ l1) ∧ e ≠ n).
  { destruct l2; cbn in He; simplify_eq; [set_solver|]. apply NoDup_cons in Hnd as [_ Hnd]. apply NoDup_app in Hnd. set_solver. }
  assert (Hnd1 : NoDup (x :: l1)) by (apply NoDup_cons in Hnd as [? [? _]%NoDup_app]; apply NoDup_cons; set_solver).
  apply dseg_app. split.
  - eapply dseg_retarget; [exact H1|done|intros y Hy Hne; apply Hnx; set_solver|intros y Hy; apply Hpv; set_solver|done|done].
  - pose proof (lastn_elem x l1) as Hp. destruct l2 as [|e' l2]; cbn in He; simplify_eq; cbn; [done|]. split_and!; [done|done|].
    apply dseg_app in Hs as [_ Hs]. apply NoDup_cons in Hnd as [? Hnd]. apply NoDup_app in Hnd as (_ & Hd & [? Hnd2]%NoDup_cons).
    eapply dseg_ext; [| |exact Hs]; intros y Hy.
    + apply Hnx; [intros ->|intros ->; set_solver]. apply elem_of_cons in Hp as [Hp|Hp]; [rewrite Hp in Hy; set_solver|]. by apply (Hd _ Hp).
    + apply Hpv; intros ->; set_solver.
Qed.

(** A segment without the node between its two parts. *)
Lemma dseg_remove m m' x l1 l2 z e n :
  dseg m x (l1 ++ n :: l2) z → hd_error (l2 ++ [z]) = Some e → NoDup (x :: l1 ++ n :: l2) → z ∉ (x :: l1 ++ n :: l2) →
  nxt m' (lastn x l1) = Some e → prv m' e = Some (lastn x l1) →
  (∀ y, y ≠ lastn x l1 → y ≠ n → nxt m' y = nxt m y) → (∀ y, y ≠ e → y ≠ n → prv m' y = prv m y) →
  dseg m' x (l1 ++ l2) z.
Proof.
  intros [H1 H2]%dseg_app He Hnd Hz E1 E2 Hnx Hpv.
  assert (Hnd' : NoDup (x :: l1) ∧ (n ∉ (x :: l1 ++ l2)) ∧ NoDup l2 ∧ ∀ y, y ∈ (x :: l1) → y ∉ l2).
  { apply NoDup_cons in Hnd as [? Hnd]. apply NoDup_app in Hnd as (? & Hd & [? ?]%NoDup_cons).
    rewrite NoDup_cons. split_and!; [set_solver|done|set_solver|done|]. intros y [->|Hy]%elem_of_cons; [set_solver|].
    apply Hd in Hy. set_solver. }
  destruct Hnd' as (Hnd1 & Hn & Hnd2 & Hd). pose proof (lastn_elem x l1) as Hp.
  assert (Hpre : dseg m' x l1 e).
  { eapply dseg_retarget; [exact H1|done| | |done|done].
    - intros y Hy Hne. apply Hnx; [done|intros ->; set_solver].
    - intros y Hy. apply Hpv; [|intros ->; set_solver]. intros ->. destruct l2; cbn in He; simplify_eq; [set_solver|].
      apply (Hd e); set_solver. }
  destruct l2 as [|e' l2]; cbn in He; simplify_eq; [by rewrite app_nil_r|]. apply dseg_app. split; [done|].
  apply NoDup_cons in Hnd2 as [? ?]. destruct H2 as (_ & _ & H2). eapply dseg_ext; [| |exact H2]; intros y Hy.
  - apply Hnx; [intros ->; by apply (Hd _ Hp)|intros ->; set_solver].
  - apply Hpv; intros ->; set_solver.
Qed.

(** ** A queue and its elements *)

Definition is_blk (n : node) : Prop := match n with NBlk _ => True | _ => False end.

Record qrep (m : Mem) (q : Z) (l : list node) : Prop := {
  qr_seg : dseg m (NFirst q) l (NLast q);
  qr_blk : Forall is_blk l;
  qr_nodup : NoDup l;
  qr_count : q_mcount m !! q = Some (zlen l)
}.

(** The nodes whose links an operation on a queue may change. *)
Definition own_nodes (q : Z) (l : list node) (n : node) : Prop := n = NFirst q ∨ n = NLast q ∨ n ∈ l.

Lemma qrep_sep m q l : qrep m q l → (NFirst q ∉ l) ∧ (NLast q ∉ l) ∧ NoDup (NFirst q :: l).
Proof.
  intros [_ Hb Hn _]. rewrite Forall_forall in Hb.
  assert ((NFirst q ∉ l) ∧ (NLast q ∉ l)) as [? ?] by (split; by intros ?%Hb).
  split_and!; [done|done|by apply NoDup_cons].
Qed.

Lemma qrep_nodup m q l : qrep m q l → NoDup (NFirst q :: l ++ [NLast q]).
Proof.
  intros [_ Hb Hn _]. rewrite Forall_forall in Hb. apply NoDup_cons. split.
  - intros [H%Hb|H]%elem_of_app; [done|set_solver].
  - apply NoDup_app. split_and!; [done|intros x Hx ->%list_elem_of_singleton; by apply Hb in Hx|apply NoDup_singleton].
Qed.

Lemma dseg_alive m x l z n : dseg m x l z → n ∈ (x :: l ++ [z]) → alive m n.
Proof.
  revert x. induction l as [|y l IH]; intros x; cbn.
  - intros [H1%nxt_alive H2%prv_alive]. set_solver.
  - intros (H1%nxt_alive & H2 & H3) [->|H]%elem_of_cons; [done|]. eapply IH; [done|set_solver].
Qed.

Lemma qrep_alive m q l n : qrep m q l → own_nodes q l n → alive m n.
Proof. intros [H _ _ _] Hn. eapply dseg_alive; [exact H|]. destruct Hn as [-> | [-> | ?]]; set_solver. Qed.

(** What happens elsewhere leaves a queue alone. *)
Lemma qrep_frame P m m' q l :
  relinked P m m' → q_mcount m' !! q = q_mcount m !! q → (∀ n, own_nodes q l n → ¬ P n) →
  qrep m q l → qrep m' q l.
Proof.
  intros [_ Hs _ _] Hc Hd [H1 H2 H3 H4]. split; [|done|done|by rewrite Hc].
  eapply dseg_ext; [| |exact H1]; intros y Hy; unfold nxt, prv; rewrite Hs; try done; apply Hd; unfold own_nodes; set_solver.
Qed.

(** ** The operations against the list *)

Definition with_links (m' : Mem) (n : node) (on op : option node) : Prop := nxt m' n = on ∧ prv m' n = op.

(** What an operation on [q] leaves: the nodes of [P] relinked, the counters of
    the other queues. *)
Definition queue_step (q : Z) (l : list node) (m m' : Mem) : Prop :=
  relinked (own_nodes q l) m m' ∧ ∀ q', q' ≠ q → q_mcount m' !! q' = q_mcount m !! q'.

Lemma alive_count q c m x : alive (with_count q c m) x ↔ alive m x.
Proof. done. Qed.
Lemma nxt_count q c m x : nxt (with_count q c m) x = nxt m x.
Proof. done. Qed.
Lemma prv_count q c m x : prv (with_count q c m) x = prv m x.
Proof. done. Qed.

Ltac alive_tac := repeat (rewrite alive_next || rewrite alive_prev || rewrite alive_count); done.
Ltac links :=
  repeat (rewrite nxt_prev || rewrite prv_next || rewrite nxt_count || rewrite prv_count ||
          (rewrite nxt_next by alive_tac) || (rewrite prv_prev by alive_tac));
  repeat case_decide; subst; try done; try (exfalso; set_solver).

Lemma bind_next_of {A} n m (k : option node → CM Mem A) : alive m n →
  (p ← next_of n; k p) m = k (nxt m n) m.
Proof. intros [b Hb]. unfold next_of, get_blk, nxt, mbind, CM_bind. by rewrite Hb. Qed.
Lemma bind_prev_of {A} n m (k : option node → CM Mem A) : alive m n →
  (p ← prev_of n; k p) m = k (prv m n) m.
Proof. intros [b Hb]. unfold prev_of, get_blk, prv, mbind, CM_bind. by rewrite Hb. Qed.
Lemma bind_set_next {A} n p m (k : unit → CM Mem A) : alive m n →
  (x ← set_next n p; k x) m = k tt (with_next n p m).
Proof. intros H. apply bind_ret. by apply set_next_ret. Qed.
Lemma bind_set_prev {A} n p m (k : unit → CM Mem A) : alive m n →
  (x ← set_prev n p; k x) m = k tt (with_prev n p m).
Proof. intros H. apply bind_ret. by apply set_prev_ret. Qed.
Lemma bind_count_add {A} q k c m (K : unit → CM Mem A) : q_mcount m !! q = Some c →
  (x ← count_add q k; K x) m = K tt (with_count q (i32 (c + k)) m).
Proof. intros H. apply bind_ret. by apply count_add_ret. Qed.
Lemma bind_deref {A} n m (k : node → CM Mem A) : (x ← deref (Some n); k x) m = k n m.
Proof. done. Qed.

Lemma qinit_ret q m : ∃ m', qinit q m = Ret tt m' ∧ qrep m' q [].
Proof.
  unfold qinit, mblk_init.
  set (m1 := m <| mblks ::= <[NFirst q := mblk0]> |>). set (m2 := m1 <| mblks ::= <[NLast q := mblk0]> |>).
  assert (Ha : alive m2 (NFirst q) ∧ alive m2 (NLast q)).
  { unfold alive, m2, m1. cbn. rewrite lookup_insert_eq, lookup_insert_ne, lookup_insert_eq by done. eauto. }
  destruct Ha as [HF HL]. rewrite (bind_ret _ _ _ tt m1) by done. rewrite (bind_ret _ _ _ tt m2) by done.
  rewrite bind_set_next by done. rewrite bind_set_prev by alive_tac.
  exists (with_count q 0 (with_prev (NLast q) (Some (NFirst q)) (with_next (NFirst q) (Some (NLast q)) m2))). split; [done|].
  split; [|constructor|constructor|].
  - split; links.
  - cbn. by rewrite lookup_insert_eq.
Qed.

(** The state after [n] has been linked between [p] and [e]. *)
Definition link_between (p n e : node) (m : Mem) : Mem :=
  with_next n (Some e) (with_prev e (Some n) (with_prev n (Some p) (with_next p (Some n) m))).

Lemma link_between_rep m q l1 l2 n e m' :
  qrep m q (l1 ++ l2) → hd_error (l2 ++ [NLast q]) = Some e → alive m n → is_blk n → n ∉ l1 ++ l2 →
  (∀ y, nxt m' y = nxt (link_between (lastn (NFirst q) l1) n e m) y) →
  (∀ y, prv m' y = prv (link_between (lastn (NFirst q) l1) n e m) y) →
  q_mcount m' !! q = Some (zlen (l1 ++ n :: l2)) → qrep m' q (l1 ++ n :: l2).
Proof.
  intros Hq He Ha Hblk Hnin Hnx Hpv Hc. pose proof (qrep_sep _ _ _ Hq) as (HF & HL & Hnd). pose proof Hq as [Hs Hb Hn _].
  pose proof (lastn_elem (NFirst q) l1) as Hp. set (p := lastn (NFirst q) l1) in *.
  assert (n ≠ NFirst q ∧ n ≠ NLast q) as [? ?] by by destruct n.
  assert (He' : own_nodes q (l1 ++ l2) e).
  { unfold own_nodes. destruct l2; cbn in He; simplify_eq; set_solver. }
  assert (alive m p) by (eapply qrep_alive; [done|unfold own_nodes; set_solver]).
  assert (alive m e) by by eapply qrep_alive.
  assert (p ≠ n) by (intros E; rewrite E in Hp; set_solver).
  assert (e ≠ n) by (destruct l2; cbn in He; simplify_eq; set_solver).
  split; [| | |done].
  - eapply dseg_insert; [exact Hs|done|done|set_solver|set_solver|done| | | | | |];
      try (intros y ? ?); rewrite ?Hnx, ?Hpv; unfold link_between; fold p; links.
  - apply Forall_app in Hb as [? ?]. apply Forall_app. split; [done|by constructor].
  - rewrite NoDup_app, NoDup_cons. apply NoDup_app in Hn. set_solver.
Qed.

Lemma relinked_between P m p n e : P p → P n → P e → relinked P m (link_between p n e m).
Proof. intros. unfold link_between. auto with links. Qed.

Lemma putq_ret m q l mp :
  qrep m q l → alive m mp → is_blk mp → mp ∉ l → zlen l < 2 ^ 31 - 1 →
  ∃ m', putq q mp m = Ret tt m' ∧ qrep m' q (l ++ [mp]) ∧ queue_step q (mp :: l) m m'.
Proof.
  intros Hq Hmp Hblk Hnin Hlen. pose proof Hq as [Hs Hb Hn Hc].
  destruct (dseg_last _ _ _ _ Hs) as [HpL HnL]. pose proof (lastn_elem (NFirst q) l) as Hpin.
  set (p := lastn (NFirst q) l) in *.
  assert (HaL : alive m (NLast q)) by (eapply qrep_alive; [done|unfold own_nodes; tauto]).
  assert (Hap : alive m p) by by eapply nxt_alive.
  unfold putq. rewrite (bind_prev_of (NLast q) m) by done. rewrite HpL, bind_deref. rewrite bind_set_next by done.
  rewrite (bind_prev_of (NLast q)) by alive_tac. rewrite prv_next, HpL.
  rewrite bind_set_prev by alive_tac. rewrite bind_set_next by alive_tac. rewrite bind_set_prev by alive_tac.
  rewrite (count_add_ret q 1 _ (zlen l)) by done. eexists. split; [done|]. split.
  - assert (mp ≠ NLast q ∧ mp ≠ NFirst q) as [? ?] by by destruct mp.
    assert (p ≠ mp) by (intros E; rewrite E in Hpin; set_solver).
    eapply (link_between_rep m q l [] mp (NLast q)); rewrite ?app_nil_r; try done.
    + intros y. unfold link_between. fold p. links.
    + intros y. unfold link_between. fold p. links.
    + cbn. rewrite lookup_insert_eq. f_equal. rewrite zlen_snoc. apply i32_id. unfold in_i32. pose proof (zlen_nonneg l). lia.
  - split; [|intros q' Hq'; cbn; by rewrite lookup_insert_ne by done].
    unfold own_nodes. apply relinked_count, relinked_prev, relinked_next, relinked_prev, relinked_next, relinked_refl; set_solver.
Qed.

Lemma insq_ret m q l1 l2 mp e :
  qrep m q (l1 ++ l2) → hd_error (l2 ++ [NLast q]) = Some e → alive m mp → is_blk mp → mp ∉ l1 ++ l2 →
  zlen (l1 ++ l2) < 2 ^ 31 - 1 →
  ∃ m', insq q (Some e) mp m = Ret tt m' ∧ qrep m' q (l1 ++ mp :: l2) ∧ queue_step q (mp :: l1 ++ l2) m m'.
Proof.
  intros Hq He Hmp Hblk Hnin Hlen. pose proof Hq as [Hs Hb Hn Hc].
  assert (He' : own_nodes q (l1 ++ l2) e) by (unfold own_nodes; destruct l2; cbn in He; simplify_eq; set_solver).
  assert (H1 : dseg m (NFirst q) l1 e).
  { destruct l2; cbn in He; simplify_eq; [by rewrite app_nil_r in Hs|by apply dseg_app in Hs as [? _]]. }
  destruct (dseg_last _ _ _ _ H1) as [Hpe HnL]. pose proof (lastn_elem (NFirst q) l1) as Hpin.
  set (p := lastn (NFirst q) l1) in *.
  assert (Hae : alive m e) by by eapply qrep_alive.
  assert (Hap : alive m p) by by eapply nxt_alive.
  unfold insq. rewrite (bind_count_add _ _ _ _ _ Hc).
  rewrite (bind_prev_of e) by done. rewrite prv_count, Hpe, bind_deref. rewrite bind_set_next by done.
  rewrite (bind_prev_of e) by alive_tac. rewrite prv_next, prv_count, Hpe.
  rewrite bind_set_prev by alive_tac. rewrite bind_set_prev by alive_tac. rewrite set_next_ret by alive_tac.
  eexists. split; [done|]. split.
  - eapply (link_between_rep m q l1 l2 mp e); try done.
    cbn. rewrite lookup_insert_eq. f_equal. rewrite !zlen_app, zlen_cons in *. rewrite i32_id; [lia|].
    unfold in_i32. pose proof (zlen_nonneg l1). pose proof (zlen_nonneg l2). lia.
  - split; [|intros q' Hq'; cbn; by rewrite lookup_insert_ne by done].
    unfold own_nodes in *. apply relinked_next, relinked_prev, relinked_prev, relinked_next, relinked_count, relinked_refl; set_solver.
Qed.

Lemma getq_empty m q : qrep m q [] → getq q m = Ret None m.
Proof.
  intros Hq. pose proof Hq as [[H1 H2] _ _ _]. unfold getq.
  rewrite bind_next_of by by eapply nxt_alive. rewrite H1, bind_deref. by rewrite decide_True.
Qed.

(** What removing [n] from between [p] and [e] does to the links. *)
Lemma remove_rep m q l1 l2 n e m' :
  qrep m q (l1 ++ n :: l2) → hd_error (l2 ++ [NLast q]) = Some e →
  nxt m' (lastn (NFirst q) l1) = Some e → prv m' e = Some (lastn (NFirst q) l1) →
  (∀ y, y ≠ lastn (NFirst q) l1 → y ≠ n → nxt m' y = nxt m y) → (∀ y, y ≠ e → y ≠ n → prv m' y = prv m y) →
  q_mcount m' !! q = Some (zlen (l1 ++ l2)) → qrep m' q (l1 ++ l2).
Proof.
  intros Hq He E1 E2 Hnx Hpv Hc. pose proof (qrep_sep _ _ _ Hq) as (HF & HL & Hnd). pose proof Hq as [Hs Hb Hn _].
  split; [|apply Forall_app in Hb as [? Hb]; apply Forall_cons in Hb as [_ ?]; by apply Forall_app| |done].
  - eapply dseg_remove; [exact Hs|done|done|set_solver|done|done|done|done].
  - apply NoDup_app in Hn as (? & Hd & [? ?]%NoDup_cons). apply NoDup_app. set_solver.
Qed.

Lemma hd_own m q l1 n l2 e :
  qrep m q (l1 ++ n :: l2) → hd_error (l2 ++ [NLast q]) = Some e →
  own_nodes q (l1 ++ n :: l2) e ∧ e ≠ n ∧ e ≠ lastn (NFirst q) l1 ∧ nxt m n = Some e ∧ prv m n = Some (lastn (NFirst q) l1) ∧
  own_nodes q (l1 ++ n :: l2) (lastn (NFirst q) l1) ∧ lastn (NFirst q) l1 ≠ n.
Proof.
  intros Hq He. pose proof (qrep_sep _ _ _ Hq) as (HF & HL & Hnd). pose proof Hq as [Hs Hb Hn _].
  apply NoDup_app in Hn as (? & Hd & [? Hn]%NoDup_cons). pose proof (lastn_elem (NFirst q) l1) as Hp.
  apply dseg_app in Hs as [Hs1 Hs2]. apply dseg_last in Hs1 as [Hpn _].
  set (p := lastn (NFirst q) l1) in *.
  assert (Hpd : p = NFirst q ∨ p ∈ l1) by set_solver.
  assert (nxt m n = Some e) by (destruct l2; cbn in *; simplify_eq; tauto).
  assert (Hed : e = NLast q ∨ e ∈ l2) by (destruct l2; cbn in *; simplify_eq; set_solver).
  clearbody p. unfold own_nodes. split_and!; [set_solver| | |done|done|set_solver|].
  - intros E. rewrite E in Hed. set_solver.
  - intros E. rewrite E in Hed. destruct Hpd as [-> |Hpd], Hed as [Hed|Hed]; [done|set_solver|subst; set_solver|set_solver].
  - intros E. rewrite E in Hpd. set_solver.
Qed.

Lemma getq_ret m q x l :
  qrep m q (x :: l) → zlen (x :: l) < 2 ^ 31 →
  ∃ m', getq q m = Ret (Some x) m' ∧ qrep m' q l ∧ queue_step q (x :: l) m m'.
Proof.
  intros Hq Hlen. pose proof Hq as [Hs _ _ Hc]. assert (∃ e, hd_error (l ++ [NLast q]) = Some e) as [e He] by (destruct l; cbn; eauto).
  destruct (hd_own m q [] x l e Hq He) as (Hoe & Hex & HeF & Hnx & Hpx & Hof & HFx). cbn in HeF, Hpx, HFx.
  assert (Hax : alive m x) by by eapply nxt_alive. assert (Hae : alive m e) by by eapply qrep_alive.
  assert (HaF : alive m (NFirst q)) by by eapply qrep_alive. cbn in Hs. destruct Hs as (Hs1 & _ & _).
  unfold getq. rewrite bind_next_of by done. rewrite Hs1, bind_deref.
  rewrite decide_False by (pose proof (qrep_sep _ _ _ Hq); set_solver).
  rewrite bind_next_of by done. rewrite Hnx, bind_set_next by done. rewrite bind_next_of by alive_tac.
  rewrite nxt_next, decide_False, Hnx, bind_deref by done.
  rewrite bind_set_prev by alive_tac. rewrite bind_set_prev by alive_tac. rewrite bind_set_next by alive_tac.
  rewrite (bind_count_add q (-1) (zlen (x :: l))) by done.
  eexists. split; [done|]. split.
  - eapply (remove_rep m q [] l x e); [exact Hq|done|cbn; links|cbn; links|cbn; intros y ? ?; links|cbn; intros y ? ?; links|].
    cbn. rewrite lookup_insert_eq. f_equal. rewrite zlen_cons in *. rewrite i32_id; [lia|].
    unfold in_i32. pose proof (zlen_nonneg l). lia.
  - split; [|intros q' Hq'; cbn; by rewrite lookup_insert_ne by done].
    apply relinked_count, relinked_next, relinked_prev, relinked_prev, relinked_next, relinked_refl; unfold own_nodes in *; set_solver.
Qed.

Lemma remq_ret m q l1 n l2 :
  qrep m q (l1 ++ n :: l2) → zlen (l1 ++ n :: l2) < 2 ^ 31 →
  ∃ m', remq q n m = Ret tt m' ∧ qrep m' q (l1 ++ l2) ∧ queue_step q (l1 ++ n :: l2) m m'.
Proof.
  intros Hq Hlen. pose proof Hq as [Hs _ _ Hc]. assert (∃ e, hd_error (l2 ++ [NLast q]) = Some e) as [e He] by (destruct l2; cbn; eauto).
  destruct (hd_own m q l1 n l2 e Hq He) as (Hoe & Hen & Hep & Hnx & Hpx & Hop & Hpn). set (p := lastn (NFirst q) l1) in *.
  assert (Han : alive m n) by by eapply nxt_alive. assert (Hae : alive m e) by by eapply qrep_alive.
  assert (Hap : alive m p) by by eapply qrep_alive.
  unfold remq. rewrite (bind_count_add _ _ _ _ _ Hc).
  rewrite bind_next_of by done. rewrite bind_prev_of by done. rewrite nxt_count, prv_count, Hnx, Hpx, bind_deref.
  rewrite bind_set_next by done. rewrite bind_prev_of by alive_tac. rewrite bind_next_of by alive_tac.
  rewrite prv_next, prv_count, Hpx, nxt_next, decide_False, nxt_count, Hnx, bind_deref by done.
  rewrite bind_set_prev by alive_tac. rewrite bind_set_next by alive_tac. rewrite set_prev_ret by alive_tac.
  eexists. split; [done|]. split.
  - eapply (remove_rep m q l1 l2 n e); [exact Hq|done|fold p; links|fold p; links|fold p; intros y ? ?; links|intros y ? ?; links|].
    cbn. rewrite lookup_insert_eq. f_equal. rewrite !zlen_app, zlen_cons in *. rewrite i32_id; [lia|].
    unfold in_i32. pose proof (zlen_nonneg l1). pose proof (zlen_nonneg l2). lia.
  - split; [|intros q' Hq'; cbn; by rewrite lookup_insert_ne by done].
    apply relinked_prev, relinked_next, relinked_prev, relinked_next, relinked_count, relinked_refl; unfold own_nodes in *; set_solver.
Qed.

Lemma qfirst_ret m q l : qrep m q l → qfirst q m = Ret (head l) m.
Proof.
  intros Hq. pose proof Hq as [Hs Hb _ _]. pose proof (qrep_sep _ _ _ Hq) as (_ & HL & _).
  assert (Ha : alive m (NFirst q)) by (eapply qrep_alive; [done|unfold own_nodes; tauto]).
  unfold qfirst, qbegin. rewrite bind_next_of by done. destruct l as [|x l]; cbn in *.
  - destruct Hs as [-> _]. by rewrite bool_decide_true.
  - destruct Hs as [-> _]. rewrite bool_decide_false; [done|]. intros [= ->]. set_solver.
Qed.

Lemma peekq_ret m q l : qrep m q l → peekq q m = Ret (head l) m.
Proof.
  intros Hq. pose proof Hq as [Hs Hb _ _]. pose proof (qrep_sep _ _ _ Hq) as (_ & HL & _).
  assert (Ha : alive m (NFirst q)) by (eapply qrep_alive; [done|unfold own_nodes; tauto]).
  unfold peekq. rewrite bind_next_of by done. destruct l as [|x l]; cbn in *.
  - destruct Hs as [-> _]. rewrite bind_deref. by rewrite decide_True.
  - destruct Hs as [-> _]. rewrite bind_deref, decide_False; [done|]. intros ->. set_solver.
Qed.

Lemma qempty_ret m q l : qrep m q l → qempty q m = Ret (bool_decide (l = [])) m.
Proof.
  intros Hq. pose proof Hq as [Hs Hb _ _]. pose proof (qrep_sep _ _ _ Hq) as (_ & HL & _).
  assert (Ha : alive m (NFirst q)) by (eapply qrep_alive; [done|unfold own_nodes; tauto]).
  unfold qempty, qbegin. rewrite bind_next_of by done. destruct l as [|x l]; cbn in *.
  - destruct Hs as [-> _]. by rewrite bool_decide_true.
  - destruct Hs as [-> _]. rewrite bool_decide_false; [done|]. intros [= ->]. set_solver.
Qed.

Lemma qlast_ret m q l : qrep m q l → qlast q m = Ret (last l) m.
Proof.
  intros Hq. pose proof Hq as [Hs Hb _ _]. pose proof (qrep_sep _ _ _ Hq) as (HF & _ & _).
  assert (Ha : alive m (NLast q)) by (eapply qrep_alive; [done|unfold own_nodes; tauto]).
  unfold qlast. rewrite bind_prev_of by done. destruct (dseg_last _ _ _ _ Hs) as [-> _]. unfold mret, CM_ret. f_equal.
  destruct l as [|x l _] using rev_ind; [by rewrite bool_decide_true|]. rewrite lastn_snoc, last_snoc.
  rewrite bool_decide_false; [done|]. intros [= ->]. set_solver.
Qed.

(** * A queue refines a list *)

Inductive qop :=
  | OPut (n : node) | OGet | OIns (e : node) (n : node) | ORem (n : node)
  | OPeek | OFirst | OLast.

Definition run_qop (q : Z) (o : qop) : CM Mem (option node) :=
  match o with
  | OPut n => _ ← putq q n; mret None
  | OGet => getq q
  | OIns e n => _ ← insq q (Some e) n; mret None
  | ORem n => _ ← remq q n; mret None
  | OPeek => peekq q
  | OFirst => qfirst q
  | OLast => qlast q
  end.

Fixpoint run_qops (q : Z) (os : list qop) : CM Mem (list (option node)) :=
  match os with
  | [] => mret []
  | o :: os => r ← run_qop q o; rs ← run_qops q os; mret (r :: rs)
  end.

(** The same on a list; [None] when the operation is not admitted: an element
    put twice, or removed or used as a position while not in the queue. *)
Fixpoint ins_before (e n : node) (l : list node) : list node :=
  match l with [] => [] | x :: l => if decide (x = e) then n :: x :: l else x :: ins_before e n l end.

Definition spec_qop (q : Z) (o : qop) (l : list node) : option (option node * list node) :=
  match o with
  | OPut n => if decide (n ∈ l) then None else Some (None, l ++ [n])
  | OGet => Some (head l, tail l)
  | OIns e n =>
      if decide (n ∈ l) then None
      else if decide (e = NLast q) then Some (None, l ++ [n])
      else if decide (e ∈ l) then Some (None, ins_before e n l) else None
  | ORem n => if decide (n ∈ l) then Some (None, filter (.≠ n) l) else None
  | OPeek | OFirst => Some (head l, l)
  | OLast => Some (last l, l)
  end.

Fixpoint spec_qops (q : Z) (os : list qop) (l : list node) : option (list (option node) * list node) :=
  match os with
  | [] => Some ([], l)
  | o :: os =>
      '(r, l1) ← spec_qop q o l;
      '(rs, l2) ← spec_qops q os l1;
      Some (r :: rs, l2)
  end.

(** The block an operation adds. *)
Definition added (o : qop) : list node := match o with OPut n | OIns _ n => [n] | _ => [] end.

Lemma ins_before_app e n l1 l2 : e ∉ l1 → ins_before e n (l1 ++ e :: l2) = l1 ++ n :: e :: l2.
Proof.
  induction l1 as [|x l1 IH]; intros H; cbn; [by rewrite decide_True|].
  rewrite decide_False by (intros ->; set_solver). rewrite IH by set_solver. done.
Qed.

Lemma filter_ne_notin (n : node) (l : list node) : n ∉ l → filter (.≠ n) l = l.
Proof.
  induction l as [|x l IH]; intros H; [done|]. rewrite filter_cons_True by set_solver. rewrite IH by set_solver. done.
Qed.

Lemma filter_ne_app (n : node) (l1 l2 : list node) : NoDup (l1 ++ n :: l2) → filter (.≠ n) (l1 ++ n :: l2) = l1 ++ l2.
Proof.
  intros (_ & Hd & [Hn _]%NoDup_cons)%NoDup_app. rewrite filter_app, filter_cons_False by tauto.
  rewrite !filter_ne_notin; [done|done|]. intros Hx. apply (Hd n Hx). set_solver.
Qed.

Lemma run_qop_ret m q l o r l' :
  qrep m q l → spec_qop q o l = Some (r, l') → (∀ n, n ∈ added o → alive m n ∧ is_blk n) → zlen l < 2 ^ 31 - 1 →
  ∃ m', run_qop q o m = Ret r m' ∧ qrep m' q l' ∧ queue_step q (added o ++ l) m m' ∧ zlen l' ≤ zlen l + 1 ∧
    ∀ n, n ∈ l' → n ∈ added o ++ l.
Proof.
  intros Hq Hs Ha Hlen.
  assert (Hsame : queue_step q ([] ++ l) m m) by (split; [apply relinked_refl|done]).
  destruct o as [n| |e n|n| | |]; cbn in Hs; repeat case_decide; simplify_eq; cbn [run_qop added] in *.
  - destruct (Ha n) as [? ?]; [set_solver|]. destruct (putq_ret m q l n) as (m' & E & ? & ?); try done.
    exists m'. rewrite (bind_ret _ _ _ _ _ E). rewrite zlen_snoc. split_and!; [done|done|done|lia|set_solver].
  - destruct l as [|x l]; [exists m; rewrite getq_empty by done; split_and!; done|].
    destruct (getq_ret m q x l) as (m' & E & ? & ?); [done|lia|]. exists m'. cbn [tail]. rewrite zlen_cons. split_and!; [done|done|done|lia|set_solver].
  - destruct (Ha n) as [? ?]; [set_solver|]. destruct (insq_ret m q l [] n (NLast q)) as (m' & E & ? & Hst); rewrite ?app_nil_r in *; try done.
    exists m'. rewrite (bind_ret _ _ _ _ _ E). rewrite zlen_snoc. split_and!; [done|done|done|lia|set_solver].
  - destruct (Ha n) as [? ?]; [set_solver|].
    destruct (list_elem_of_split_l l e) as (l1 & l2 & -> & Hel); [done|].
    destruct (insq_ret m q l1 (e :: l2) n e) as (m' & E & ? & ?); try done.
    exists m'. rewrite (bind_ret _ _ _ _ _ E). rewrite ins_before_app by done.
    rewrite !zlen_app, !zlen_cons. split_and!; [done|done|done|lia|set_solver].
  - destruct (list_elem_of_split_l l n) as (l1 & l2 & -> & Hel); [done|].
    destruct (remq_ret m q l1 n l2) as (m' & E & ? & ?); [done|lia|]. exists m'. rewrite (bind_ret _ _ _ _ _ E).
    rewrite filter_ne_app by apply Hq. rewrite !zlen_app, !zlen_cons. split_and!; [done|done|done|lia|set_solver].
  - exists m. rewrite (peekq_ret m q l') by done. split_and!; [done|done|done|lia|done].
  - exists m. rewrite (qfirst_ret m q l') by done. split_and!; [done|done|done|lia|done].
  - exists m. rewrite (qlast_ret m q l') by done. split_and!; [done|done|done|lia|done].
Qed.

Lemma queue_step_weaken q l l' m m' : (∀ n, n ∈ l → n ∈ l') → queue_step q l m m' → queue_step q l' m m'.
Proof. intros H [Hr Hc]. split; [|done]. eapply relinked_weaken; [|exact Hr]. unfold own_nodes. intros n [?|[?|?%H]]; tauto. Qed.

Lemma queue_step_trans q l m1 m2 m3 : queue_step q l m1 m2 → queue_step q l m2 m3 → queue_step q l m1 m3.
Proof.
  intros [Hr1 Hc1] [Hr2 Hc2]. split; [by eapply relinked_trans|]. intros q' Hq'. by rewrite Hc2, Hc1.
Qed.

(** C22: whatever the sequence of puts, gets, insertions, removals and peeks, the
    doubly linked queue gives the results of the list it stands for and stands
    for the resulting list; the blocks outside, their contents and every other
    queue are as they were. *)
Theorem queue_refines_list m q l os rs l' :
  qrep m q l → spec_qops q os l = Some (rs, l') →
  (∀ o n, o ∈ os → n ∈ added o → alive m n ∧ is_blk n) → zlen l + zlen os < 2 ^ 31 - 1 →
  ∃ m', run_qops q os m = Ret rs m' ∧ qrep m' q l' ∧ queue_step q (l ++ mjoin (map added os)) m m'.
Proof.
  revert m l rs. induction os as [|o os IH]; intros m l rs Hq Hs Ha Hlen; cbn in Hs.
  - simplify_eq. exists m. split_and!; [done|done|]. split; [apply relinked_refl|done].
  - destruct (spec_qop q o l) as [[r l1]|] eqn:E1; cbn in Hs; [|done].
    destruct (spec_qops q os l1) as [[rs2 l2]|] eqn:E2; cbn in Hs; simplify_eq.
    rewrite zlen_cons in Hlen. pose proof (zlen_nonneg os).
    destruct (run_qop_ret m q l o r l1) as (m1 & R1 & Hq1 & Hst1 & Hl1 & Hin); [done|done|intros n; apply Ha; set_solver|lia|].
    destruct (IH m1 l1 rs2 Hq1 E2) as (m2 & R2 & Hq2 & Hst2).
    + intros o' n Ho Hn. destruct (Ha o' n) as [? ?]; [set_solver|done|]. split; [|done]. by eapply relinked_alive; [apply Hst1|].
    + lia.
    + exists m2. split_and!; [|done|].
      * cbn [run_qops]. rewrite (bind_ret _ _ _ _ _ R1), (bind_ret _ _ _ _ _ R2). done.
      * cbn [map mjoin]. eapply queue_step_trans; (eapply queue_step_weaken; [|eassumption]); cbn; set_solver.
Qed.

(** * The heap of blocks and data blocks *)

Definition mem0 : Mem := mkMem ∅ ∅ ∅ 1.

(** The number of blocks that point to the data block [d]. *)
Definition points_to (d : Z) (nb : node * mblk_t) : Prop := b_datap nb.2 = Some d.
#[export] Instance points_to_dec d nb : Decision (points_to d nb).
Proof. unfold points_to. apply _. Defined.
Definition refs (M : gmap node mblk_t) (d : Z) : Z := Z.of_nat (size (filter (points_to d) M)).

Record mem_wf (m : Mem) : Prop := {
  wf_data n b d : mblks m !! n = Some b → b_datap b = Some d → is_Some (dblks m !! d);
  wf_refs d D : dblks m !! d = Some D → ref_count D = refs (mblks m) d ∧ 0 < refs (mblks m) d ∧ db_base D ≠ 0;
  wf_ptr n b d D : mblks m !! n = Some b → b_datap b = Some d → dblks m !! d = Some D →
    0 ≤ b_wptr b ≤ zlen (db_buf D);
  wf_sent n b : mblks m !! n = Some b → b_datap b ≠ None → is_blk n;
  wf_fresh a : brk m ≤ a → mblks m !! NBlk a = None ∧ dblks m !! a = None;
  wf_few d : 0 ≤ refs (mblks m) d ≤ brk m
}.

Definition one_if (P : Prop) `{Decision P} : Z := if decide P then 1 else 0.

Lemma refs_nonneg M d : 0 ≤ refs M d.
Proof. unfold refs. lia. Qed.

Lemma refs_new M d n b : M !! n = None → refs (<[n := b]> M) d = refs M d + one_if (b_datap b = Some d).
Proof.
  intros Hn. unfold refs, one_if. case_decide as E.
  - rewrite map_filter_insert_True by done. rewrite map_size_insert_None; [lia|].
    apply map_lookup_filter_None. by left.
  - rewrite map_filter_insert_False by done. by rewrite delete_id, Z.add_0_r.
Qed.

Lemma refs_delete M d n b : M !! n = Some b → refs (delete n M) d = refs M d - one_if (b_datap b = Some d).
Proof.
  intros Hn. rewrite <- (insert_delete_id M n b) at 2 by done. rewrite refs_new by apply lookup_delete_eq. lia.
Qed.

Lemma refs_set M d n b b' : M !! n = Some b → b_datap b' = b_datap b → refs (<[n := b']> M) d = refs M d.
Proof.
  intros Hn E. rewrite <- (insert_delete_id M n b) at 2 by done.
  rewrite <- insert_delete_eq, !refs_new by apply lookup_delete_eq. by rewrite E.
Qed.

Lemma refs_pos M d n b : M !! n = Some b → b_datap b = Some d → 0 < refs M d.
Proof.
  intros Hn E. rewrite <- (insert_delete_id M n b) by done. rewrite refs_new by apply lookup_delete_eq.
  unfold one_if. rewrite decide_True by done. pose proof (refs_nonneg (delete n M) d). lia.
Qed.

Lemma refs_zero M d n b : refs M d = 0 → M !! n = Some b → b_datap b ≠ Some d.
Proof. intros H Hn E. pose proof (refs_pos M d n b Hn E). lia. Qed.

Lemma refs_payload m m' d : (∀ n, blk_payload m' n = blk_payload m n) → refs (mblks m') d = refs (mblks m) d.
Proof.
  intros H. assert (E : strip <$> mblks m' = strip <$> mblks m) by (apply map_eq; intros n; rewrite !lookup_fmap; apply H).
  assert (Hs : ∀ M, refs (strip <$> M) d = refs M d).
  { intros M. unfold refs. rewrite map_filter_fmap, map_size_fmap. done. }
  by rewrite <- Hs, E, Hs.
Qed.

(** [c] allocates upwards and keeps the heap well-formed, while there are fewer
    blocks than an [int] counts. *)
Definition keeps {A} (c : CM Mem A) : Prop := ∀ m r m', c m = Ret r m' →
  brk m ≤ brk m' ∧ (mem_wf m → brk m' < 2 ^ 31 → mem_wf m').

Lemma keeps_ret {A} (x : A) : keeps (mret x).
Proof. intros m r m' [= <- <-]. split; [lia|done]. Qed.
Lemma keeps_fault {A} f : keeps (A := A) (fault_with f).
Proof. done. Qed.
Lemma keeps_block {A} : keeps (A := A) block.
Proof. done. Qed.
Lemma keeps_gets {A} (f : Mem → A) : keeps (gets f).
Proof. intros m r m' [= <- <-]. split; [lia|done]. Qed.
Lemma keeps_bind {A B} (c : CM Mem A) (k : A → CM Mem B) : keeps c → (∀ x, keeps (k x)) → keeps (x ← c; k x).
Proof.
  intros Hc Hk m r m' (x & m1 & E1 & E2)%bind_inv. destruct (Hc _ _ _ E1) as [L1 W1]. destruct (Hk _ _ _ _ E2) as [L2 W2].
  split; [lia|]. intros W L. apply W2; [|done]. apply W1; [done|lia].
Qed.
Lemma keeps_state {A} (c : Mem → CM Mem A) : (∀ m, keeps (c m)) → keeps (fun m => c m m).
Proof. intros H m. exact (H m m). Qed.

Lemma keeps_map {A B} (c : CM Mem A) (f : A → B) : keeps c → keeps (x ← c; mret (f x)).
Proof. intros H. apply keeps_bind; [done|]. intros x. apply keeps_ret. Qed.

Create HintDb keeps discriminated.
#[export] Hint Resolve keeps_ret keeps_fault keeps_block keeps_gets : keeps.

Lemma keeps_get_blk n : keeps (get_blk n).
Proof. intros m r m' E. unfold get_blk in E. case_match; [|done]. injection E as <- <-. split; [lia|done]. Qed.
Lemma keeps_get_db d : keeps (get_db d).
Proof. intros m r m' E. unfold get_db in E. case_match; [|done]. injection E as <- <-. split; [lia|done]. Qed.

Lemma keeps_upd_blk n f :
  (∀ b, b_datap (f b) = b_datap b ∧ b_wptr (f b) = b_wptr b) → keeps (upd_blk n f).
Proof.
  intros Hf m r m' E. unfold upd_blk in E. destruct (mblks m !! n) as [b|] eqn:Eb; [|done]. injection E as <- <-.
  split; [cbn; lia|]. intros [W1 W2 W3 W4 W5 W6] _.
  assert (Hl : ∀ x b', <[n := f b]> (mblks m) !! x = Some b' →
    ∃ b0, mblks m !! x = Some b0 ∧ b_datap b' = b_datap b0 ∧ b_wptr b' = b_wptr b0).
  { intros x b' [[-> <-]|[Hx Hb']]%lookup_insert_Some; [exists b; split; [done|apply Hf]|by exists b']. }
  assert (Hr : ∀ d, refs (<[n := f b]> (mblks m)) d = refs (mblks m) d) by (intros d; eapply refs_set; [done|apply Hf]).
  split; cbn.
  - intros x b' d (b0 & Hb & E1 & _)%Hl E. eapply W1; [done|congruence].
  - intros d D HD. rewrite Hr. by apply W2.
  - intros x b' d D (b0 & Hb & E1 & E2)%Hl E HD. rewrite E2. apply (W3 x b0 d D); [done|congruence|done].
  - intros x b' (b0 & Hb & E1 & _)%Hl E. eapply W4; [done|congruence].
  - intros a Ha. destruct (W5 a Ha) as [H1 H2]. split; [|done]. rewrite lookup_insert_ne; [done|]. intros ->. congruence.
  - intros d. rewrite Hr. apply W6.
Qed.

Lemma keeps_set_prev n p : keeps (set_prev n p).
Proof. by apply keeps_upd_blk. Qed.
Lemma keeps_set_next n p : keeps (set_next n p).
Proof. by apply keeps_upd_blk. Qed.
Lemma keeps_set_cont n p : keeps (set_cont n p).
Proof. by apply keeps_upd_blk. Qed.

Lemma keeps_count q k : keeps (count_add q k).
Proof.
  intros m r m' E. unfold count_add in E. case_match; [|done]. injection E as <- <-. split; [cbn; lia|]. by intros [].
Qed.

Lemma keeps_init_sentinel n : ¬ is_blk n → keeps (mblk_init n).
Proof.
  intros Hn m r m' [= _ <-]. split; [cbn; lia|]. intros [W1 W2 W3 W4 W5 W6] _.
  assert (Hr : ∀ d, refs (<[n := mblk0]> (mblks m)) d = refs (mblks m) d).
  { intros d. destruct (mblks m !! n) as [b|] eqn:E.
    - eapply refs_set; [done|]. cbn. destruct (b_datap b) eqn:Eb; [|done]. exfalso. apply Hn. eapply W4; [done|by rewrite Eb].
    - rewrite refs_new by done. unfold one_if. rewrite decide_False by done. lia. }
  split; cbn.
  - intros x b d [[_ <-]|[_ ?]]%lookup_insert_Some; [done|]. by apply (W1 x).
  - intros d D HD. rewrite Hr. by apply W2.
  - intros x b d D [[_ <-]|[_ ?]]%lookup_insert_Some; [done|]. by apply (W3 x b d).
  - intros x b [[_ <-]|[_ ?]]%lookup_insert_Some; [done|]. by apply (W4 x b).
  - intros a Ha. destruct (W5 a Ha) as [H1 H2]. split; [|done]. rewrite lookup_insert_ne; [done|]. by intros ->.
  - intros d. rewrite Hr. apply W6.
Qed.

Lemma keeps_new_blk base buf freefn : base ≠ 0 → keeps (new_blk base buf freefn).
Proof.
  intros Hb m r m' [= _ <-]. split; [cbn; lia|]. intros [W1 W2 W3 W4 W5 W6] _.
  destruct (W5 (brk m)) as [F1 _]; [lia|]. destruct (W5 (brk m + 1)) as [_ F2]; [lia|].
  set (b := mkMblk None None None (Some (brk m + 1)) 0 0).
  assert (Hr : ∀ d, refs (<[NBlk (brk m) := b]> (mblks m)) d = refs (mblks m) d + one_if (Some (brk m + 1) = Some d)).
  { intros d. by rewrite refs_new. }
  assert (Hold : ∀ d, is_Some (dblks m !! d) → d ≠ brk m + 1) by (intros d [D HD] ->; congruence).
  split; cbn.
  - intros x b' d [[_ <-]|[_ Hx]]%lookup_insert_Some Hd.
    + injection Hd as <-. rewrite lookup_insert_eq. eauto.
    + pose proof (W1 _ _ _ Hx Hd) as Hs. rewrite lookup_insert_ne; [done|]. intros <-. by apply (Hold (brk m + 1)).
  - intros d D. rewrite Hr. unfold one_if. intros [[<- <-]|[Hd HD]]%lookup_insert_Some.
    + rewrite decide_True by done. cbn. pose proof (W6 (brk m + 1)).
      assert (refs (mblks m) (brk m + 1) = 0) as ->; [|split_and!; [lia|lia|done]].
      destruct (decide (refs (mblks m) (brk m + 1) = 0)) as [|Hne]; [done|exfalso].
      destruct (decide (filter (points_to (brk m + 1)) (mblks m) = ∅)) as [E|E].
      { unfold refs in Hne. by rewrite E, map_size_empty in Hne. }
      apply map_choose in E as (x & b' & [Hx Hp]%map_lookup_filter_Some). destruct (W1 _ _ _ Hx Hp). congruence.
    + rewrite decide_False by congruence. rewrite Z.add_0_r. by apply W2.
  - intros x b' d D [[_ <-]|[_ Hx]]%lookup_insert_Some Hd HD.
    + injection Hd as <-. rewrite lookup_insert_eq in HD. injection HD as <-. cbn. pose proof (zlen_nonneg buf). lia.
    + rewrite lookup_insert_ne in HD by (intros <-; by apply (Hold (brk m + 1)); [eapply W1|]). by eapply W3.
  - intros x b' [[<- <-]|[_ Hx]]%lookup_insert_Some; [done|]. by eapply W4.
  - intros a Ha. destruct (W5 a) as [H1 H2]; [lia|]. rewrite !lookup_insert_ne; [done|lia|]. intros [= ?]. lia.
  - intros d. rewrite Hr. specialize (W6 d). unfold one_if. case_decide; lia.
Qed.

Lemma keeps_dupb n : keeps (dupb n).
Proof.
  intros m r m'. unfold dupb, get_blk, get_db, upd_db, gets, modify, mret, CM_ret, mbind, CM_bind.
  destruct (mblks m !! n) as [b|] eqn:Eb; [|done]. destruct (b_datap b) as [d|] eqn:Ed; [|intros [= <- <-]; split; [lia|done]].
  destruct (dblks m !! d) as [D|] eqn:ED; [|done]. case_match; [intros [= <- <-]; split; [lia|done]|].
  cbn. rewrite ED. cbn. intros [= <- <-]. split; [cbn; lia|]. intros [W1 W2 W3 W4 W5 W6] Hlt. cbn in Hlt.
  destruct (W5 (brk m)) as [F1 _]; [lia|]. set (b' := mkMblk None None None (Some d) (b_rptr b) (b_wptr b)).
  assert (Hr : ∀ d', refs (<[NBlk (brk m) := b']> (mblks m)) d' = refs (mblks m) d' + one_if (Some d = Some d')).
  { intros d'. by rewrite refs_new. }
  split; cbn.
  - intros x bx d' [[_ <-]|[_ Hx]]%lookup_insert_Some Hd; [|rewrite lookup_insert_is_Some'; right; by eapply W1].
    injection Hd as <-. rewrite lookup_insert_eq. eauto.
  - intros d' D'. rewrite Hr. unfold one_if. intros [[<- <-]|[Hd HD]]%lookup_insert_Some.
    + rewrite decide_True by done. cbn. destruct (W2 _ _ ED) as (-> & ? & ?). pose proof (W6 d).
      rewrite i32_id; [lia|]. unfold in_i32. lia.
    + rewrite decide_False by congruence. rewrite Z.add_0_r. by apply W2.
  - intros x bx d' D' [[_ <-]|[_ Hx]]%lookup_insert_Some Hd [[<- <-]|[Hd' HD']]%lookup_insert_Some; cbn.
    + by apply (W3 n b d D).
    + cbn in Hd. congruence.
    + by apply (W3 x bx d D).
    + by apply (W3 x bx d').
  - intros x bx [[<- <-]|[_ Hx]]%lookup_insert_Some; [done|]. by eapply W4.
  - intros a Ha. destruct (W5 a) as [H1 H2]; [lia|]. rewrite !lookup_insert_ne; [done|congruence|]. intros [= ?]. lia.
  - intros d'. rewrite Hr. specialize (W6 d'). unfold one_if. case_decide; lia.
Qed.

Lemma keeps_freeb n : keeps (freeb n).
Proof.
  intros m r m'. unfold freeb, get_blk, get_db, upd_db, modify, mret, CM_ret, mbind, CM_bind.
  destruct (mblks m !! n) as [b|] eqn:Eb; [|done]. destruct (b_datap b) as [d|] eqn:Ed; [|intros [= <- <-]; split; [lia|done]].
  destruct (dblks m !! d) as [D|] eqn:ED; [|done]. case_match; [intros [= <- <-]; split; [lia|done]|].
  rewrite ED. cbn. rewrite lookup_insert_eq. cbn. intros E.
  assert (brk m' = brk m ∧ (mem_wf m → brk m' < 2 ^ 31 → mem_wf m')) as [-> ?]; [|split; [lia|done]].
  assert (Hr : ∀ d', refs (delete n (mblks m)) d' = refs (mblks m) d' - one_if (Some d = Some d')).
  { intros d'. rewrite (refs_delete _ _ _ b) by done. by rewrite Ed. }
  assert (Hm : mblks m' = delete n (mblks m) ∧ brk m' = brk m ∧
    dblks m' = if i32 (ref_count D - 1) =? 0 then delete d (<[d := D <| ref_count := i32 (ref_count D - 1) |>]> (dblks m))
               else <[d := D <| ref_count := i32 (ref_count D - 1) |>]> (dblks m)).
  { cbn in E. destruct (i32 (ref_count D - 1) =? 0); by injection E as _ <-. }
  clear E. destruct Hm as (M1 & M2 & M3). split; [done|]. rewrite M2. intros [W1 W2 W3 W4 W5 W6] Hlt.
  destruct (W2 _ _ ED) as (Hc & Hp & Hb0). pose proof (W6 d) as W6d. rewrite i32_id in M3 by (unfold in_i32; lia).
  assert (Hd : ∀ d' D', dblks m' !! d' = Some D' → ∃ D0, dblks m !! d' = Some D0 ∧ db_buf D' = db_buf D0 ∧ db_base D' = db_base D0 ∧
             ref_count D' = ref_count D0 - one_if (Some d = Some d') ∧ (d' = d → ref_count D0 ≠ 1)).
  { intros d' D'. rewrite M3. unfold one_if. destruct (ref_count D - 1 =? 0) eqn:E0; [intros [? Hx]%lookup_delete_Some|intros Hx];
      apply lookup_insert_Some in Hx as [[<- <-]|[? Hx]]; try done.
    - exists D'. rewrite decide_False by congruence. split_and!; [done|done|done|lia|congruence].
    - exists D. rewrite decide_True by done. cbn. split_and!; [done|done|done|done|lia].
    - exists D'. rewrite decide_False by congruence. split_and!; [done|done|done|lia|congruence]. }
  split; rewrite ?M1, ?M2.
  - intros x bx d' [Hne Hx]%lookup_delete_Some Hd'. destruct (W1 _ _ _ Hx Hd') as [D' HD']. rewrite M3.
    destruct (decide (d' = d)) as [->|]; [|case_match; [rewrite lookup_delete_ne by done|]; rewrite lookup_insert_ne by done; eauto].
    rewrite (proj2 (Z.eqb_neq (ref_count D - 1) 0)); [rewrite lookup_insert_eq; eauto|].
    pose proof (refs_pos (delete n (mblks m)) d x bx) as Hpos. rewrite lookup_delete_ne in Hpos by done.
    specialize (Hpos Hx Hd'). rewrite Hr in Hpos. unfold one_if in Hpos. rewrite decide_True in Hpos by done. lia.
  - intros d' D' (D0 & HD0 & _ & Hbase & Hrc & Hne)%Hd. destruct (W2 _ _ HD0) as (H1 & H2 & H3). rewrite Hr, Hbase.
    unfold one_if in *. case_decide as Edd; [injection Edd as <-; specialize (Hne eq_refl)|]; split_and!; (lia || done).
  - intros x bx d' D' [Hne Hx]%lookup_delete_Some Hd' (D0 & HD0 & Hbuf & _)%Hd. rewrite Hbuf. by apply (W3 x bx d' D0).
  - intros x bx [Hne Hx]%lookup_delete_Some. by apply (W4 x).
  - intros a Ha. destruct (W5 a Ha) as [H1 H2]. split; [apply lookup_delete_None; by right|].
    rewrite M3. assert (a ≠ d) by congruence. case_match; [rewrite lookup_delete_ne by done|]; by rewrite lookup_insert_ne by done.
  - intros d'. rewrite Hr. specialize (W6 d'). pose proof (refs_nonneg (delete n (mblks m)) d') as Hnn. rewrite Hr in Hnn.
    unfold one_if in *. case_decide; lia.
Qed.

Lemma write_at_length buf off bs buf' :
  write_at buf off bs = Some buf' → zlen buf' = zlen buf ∧ 0 ≤ off ∧ off + zlen bs ≤ zlen buf.
Proof.
  unfold write_at. case_match eqn:E; [|done]. intros [= <-]. rewrite !zlen_app. unfold zlen in *.
  rewrite length_take, length_drop. lia.
Qed.

Lemma keeps_append n bs : keeps (blk_append n bs).
Proof.
  intros m r m'. unfold blk_append, blk_write, datap, get_blk, get_db, upd_db, upd_blk, mret, CM_ret, mbind, CM_bind, fault_with.
  destruct (mblks m !! n) as [b|] eqn:Eb; [|done]. destruct (b_datap b) as [d|] eqn:Ed; [|done].
  destruct (dblks m !! d) as [D|] eqn:ED; [|done]. destruct (write_at (db_buf D) (b_wptr b) bs) as [buf|] eqn:Ew; [|done].
  rewrite ED. cbn. rewrite Eb. intros [= _ <-]. split; [cbn; lia|]. intros [W1 W2 W3 W4 W5 W6] _.
  apply write_at_length in Ew as (Hl & H0 & Hle). set (b' := mkMblk (b_prev b) (b_next b) (b_cont b) (b_datap b) (b_rptr b) (b_wptr b + zlen bs)).
  assert (Hr : ∀ d', refs (<[n := b']> (mblks m)) d' = refs (mblks m) d') by (intros d'; by eapply refs_set).
  split; cbn.
  - intros x bx d' Hx Hd. rewrite lookup_insert_is_Some'. right.
    apply lookup_insert_Some in Hx as [[-> <-]|[_ Hx]]; [by apply (W1 x b)|by apply (W1 x bx)].
  - intros d' D'. rewrite Hr. intros [[<- <-]|[_ HD]]%lookup_insert_Some; [cbn; by apply W2|by apply W2].
  - intros x bx d' D' Hx Hd HD.
    assert (Hbx : mblks m !! x = Some bx ∨ x = n ∧ bx = b') by (apply lookup_insert_Some in Hx as [[-> <-]|[_ Hx]]; tauto).
    apply lookup_insert_Some in HD as [[<- <-]|[Hne HD]]; cbn [db_buf].
    + rewrite Hl. destruct Hbx as [Hbx|[-> ->]]; [by apply (W3 x bx d D)|]. cbn. pose proof (zlen_nonneg bs). lia.
    + destruct Hbx as [Hbx|[-> ->]]; [by apply (W3 x bx d')|]. cbn in Hd. congruence.
  - intros x bx [[<- <-]|[_ Hx]]%lookup_insert_Some Hb; [by apply (W4 n b)|by apply (W4 x bx)].
  - intros a Ha. destruct (W5 a Ha) as [H1 H2]. rewrite !lookup_insert_ne; [done| |]; intros ->; congruence.
  - intros d'. rewrite Hr. apply W6.
Qed.

#[export] Hint Resolve keeps_get_blk keeps_get_db keeps_set_prev keeps_set_next keeps_set_cont keeps_count
  keeps_dupb keeps_freeb keeps_append : keeps.

(** Unfolds a call into its steps. *)
Ltac keeps_steps :=
  repeat first
    [ solve [auto with keeps]
    | apply keeps_bind; [|intros ?]
    | match goal with |- keeps (match ?x with _ => _ end) => destruct x end ].

Lemma keeps_deref p : keeps (deref p).
Proof. unfold deref. keeps_steps. Qed.
Lemma keeps_datap b : keeps (datap b).
Proof. unfold datap. keeps_steps. Qed.
Lemma keeps_next_of n : keeps (next_of n).
Proof. unfold next_of. keeps_steps. Qed.
Lemma keeps_prev_of n : keeps (prev_of n).
Proof. unfold prev_of. keeps_steps. Qed.
#[export] Hint Resolve keeps_deref keeps_datap keeps_next_of keeps_prev_of : keeps.

Lemma keeps_read b off n : keeps (blk_read b off n).
Proof. unfold blk_read. keeps_steps. Qed.
Lemma keeps_putq q n : keeps (putq q n).
Proof. unfold putq. keeps_steps. Qed.
Lemma keeps_getq q : keeps (getq q).
Proof. unfold getq. keeps_steps. Qed.
#[export] Hint Resolve keeps_read keeps_putq keeps_getq : keeps.
Lemma keeps_qop q o : keeps (run_qop q o).
Proof. destruct o; unfold run_qop, insq, remq, peekq, qfirst, qlast, qbegin; keeps_steps. Qed.
Lemma keeps_qinit q : keeps (qinit q).
Proof.
  unfold qinit. apply keeps_bind; [apply keeps_init_sentinel; cbn; tauto|intros ?]. apply keeps_bind; [apply keeps_init_sentinel; cbn; tauto|intros ?].
  keeps_steps. intros m r m' [= _ <-]. split; [cbn; lia|]. by intros [].
Qed.
Lemma keeps_freemsg p : keeps (freemsg p).
Proof.
  apply (keeps_state (fun m => freemsg_loop (blocks m) p)). intros m. generalize (blocks m). intros k. revert p.
  induction k as [|k IH]; intros p; cbn [freemsg_loop]; keeps_steps.
Qed.
Lemma keeps_copy_all cp n : (∀ x, keeps (cp x)) → keeps (copy_all cp n).
Proof.
  intros Hcp. apply (keeps_state (fun m => newm ← cp n; b ← get_blk n; _ ← copy_loop cp (blocks m) (b_cont b) newm; mret newm)).
  intros m. assert (∀ p prev, keeps (copy_loop cp (blocks m) p prev)).
  { induction (blocks m) as [|k IH]; intros p prev; cbn [copy_loop]; keeps_steps. }
  keeps_steps.
Qed.
Lemma keeps_dupmsg n : keeps (dupmsg n).
Proof. apply keeps_copy_all, keeps_dupb. Qed.
Lemma keeps_msgdsize p : keeps (msgdsize p).
Proof.
  apply (keeps_state (fun m => msgdsize_loop (blocks m) p 0)). intros m. generalize (blocks m), 0. intros k. revert p.
  induction k as [|k IH]; intros p acc; cbn [msgdsize_loop]; keeps_steps.
Qed.
Lemma keeps_last k n : keeps (last_blk k n).
Proof. revert n. induction k as [|k IH]; intros n; cbn [last_blk]; keeps_steps. Qed.
#[export] Hint Resolve keeps_qop keeps_qinit keeps_freemsg keeps_dupmsg keeps_msgdsize keeps_last : keeps.
Lemma keeps_concatb n p : keeps (concatb n p).
Proof.
  apply (keeps_state (fun m => l ← last_blk (blocks m) n; _ ← set_cont l p; x ← deref p; last_blk (blocks m) x)).
  intros m. keeps_steps.
Qed.
Lemma keeps_flushq q : keeps (flushq q).
Proof.
  apply (keeps_state (fun m => flushq_loop (blocks m) q)). intros m. induction (blocks m) as [|k IH]; cbn [flushq_loop]; keeps_steps.
Qed.
#[export] Hint Resolve keeps_concatb keeps_flushq : keeps.

Section Keep.
(** [malloc] never gives a buffer at NULL. *)
Context (buf_addr : Z → Z) (junk : Z → Z → Z) (Hbuf : ∀ d, buf_addr d ≠ 0).

Lemma keeps_allocb size : keeps (allocb buf_addr junk size).
Proof.
  intros m r m'. unfold allocb. case_match; [done|]. apply keeps_new_blk. apply Hbuf.
Qed.
#[local] Hint Resolve keeps_allocb : keeps.

Lemma keeps_copymsg n : keeps (copymsg buf_addr junk n).
Proof. apply keeps_copy_all. intros x. unfold copyb. keeps_steps. Qed.
Lemma keeps_rptr n k : keeps (upd_blk n (fun b => b <| b_rptr ::= (fun r => r + k) |>)).
Proof. by apply keeps_upd_blk. Qed.
#[local] Hint Resolve keeps_rptr : keeps.
Lemma keeps_pullup p len : keeps (msgpullup buf_addr junk p len).
Proof.
  apply (keeps_state (fun m => msgsize ← msgdsize p; let len := if (len =? -1) || (msgsize <? len) then msgsize else len in
           newm ← allocb buf_addr junk len; _ ← pullup_loop (blocks m) p newm len; mret newm)).
  intros m. assert (∀ c r p, keeps (pullup_loop (blocks m) p c r)).
  { intros c. induction (blocks m) as [|k IH]; intros r p'; cbn [pullup_loop]; keeps_steps. }
  keeps_steps.
Qed.
Lemma keeps_appendb n data pad : keeps (appendb buf_addr junk n data pad).
Proof. unfold appendb. keeps_steps. Qed.

(** ** Any use of the library *)

Inductive mop :=
  | MAlloc (size : Z) | MWrap (base : Z) (buf : list Z) (freefn : bool) | MFree (p : option node)
  | MDup (n : node) | MCopy (n : node) | MPullup (p : option node) (len : Z)
  | MAppend (n : node) (data : list Z) (pad : bool) | MConcat (n : node) (p : option node)
  | MQinit (q : Z) | MQop (q : Z) (o : qop) | MFlush (q : Z).

Definition run_mop (o : mop) : CM Mem (option node) :=
  match o with
  | MAlloc size => n ← allocb buf_addr junk size; mret (Some n)
  | MWrap base buf freefn => n ← allocb_with_buf base buf freefn; mret (Some n)
  | MFree p => _ ← freemsg p; mret None
  | MDup n => dupmsg n
  | MCopy n => copymsg buf_addr junk n
  | MPullup p len => n ← msgpullup buf_addr junk p len; mret (Some n)
  | MAppend n data pad => c ← appendb buf_addr junk n data pad; mret (Some c)
  | MConcat n p => l ← concatb n p; mret (Some l)
  | MQinit q => _ ← qinit q; mret None
  | MQop q o => run_qop q o
  | MFlush q => _ ← flushq q; mret None
  end.

Fixpoint run_mops (os : list mop) : CM Mem (list (option node)) :=
  match os with [] => mret [] | o :: os => r ← run_mop o; rs ← run_mops os; mret (r :: rs) end.

(** The buffer a caller wraps is not NULL. *)
Definition mop_ok (o : mop) : Prop := match o with MWrap base _ _ => base ≠ 0 | _ => True end.

Lemma keeps_mop o : mop_ok o → keeps (run_mop o).
Proof.
  intros Ho. destruct o as [size|base buf fn|p|n|n|p len|n data pad|n p|q|q o|q]; cbn in Ho |- *.
  - by apply keeps_map, keeps_allocb.
  - by apply keeps_map, keeps_new_blk.
  - by apply (keeps_map _ (fun _ => None)), keeps_freemsg.
  - apply keeps_dupmsg.
  - by apply keeps_copymsg.
  - by apply keeps_map, keeps_pullup.
  - by apply keeps_map, keeps_appendb.
  - apply keeps_map, keeps_concatb.
  - apply (keeps_map _ (fun _ => None)), keeps_qinit.
  - apply keeps_qop.
  - apply (keeps_map _ (fun _ => None)), keeps_flushq.
Qed.

Lemma keeps_mops os : Forall mop_ok os → keeps (run_mops os).
Proof. induction 1; cbn [run_mops]; [apply keeps_ret|]. apply keeps_bind; [by apply keeps_mop|intros ?]. keeps_steps. Qed.
End Keep.

(** C23: starting from a well-formed heap, whatever the sequence of calls that
    return: every data block has exactly as many references as there are blocks
    pointing to it, and at least one; no block points to a freed data block; the
    write pointers stay inside their buffers; only fresh addresses are allocated. *)
Theorem mem_ops_wf buf_addr junk os m rs m' :
  (∀ d, buf_addr d ≠ 0) → Forall mop_ok os → run_mops buf_addr junk os m = Ret rs m' →
  mem_wf m → brk m' < 2 ^ 31 → mem_wf m'.
Proof. intros Hb Ho E W L. by apply (proj2 (keeps_mops buf_addr junk Hb os Ho m rs m' E)). Qed.

Lemma mem0_wf : mem_wf mem0.
Proof.
  split; cbn; try (intros; match goal with H : ∅ !! _ = Some _ |- _ => by rewrite lookup_empty in H end).
  - intros a _. by rewrite !lookup_empty.
  - intros d. unfold refs. by rewrite map_filter_empty, map_size_empty.
Qed.

(** * Messages *)

Definition has_data (m : Mem) (b : mblk_t) (bs : list Z) : Prop := ∃ d D,
  b_datap b = Some d ∧ dblks m !! d = Some D ∧ db_base D ≠ 0 ∧ 0 ≤ b_rptr b ≤ b_wptr b ∧ b_wptr b ≤ zlen (db_buf D) ∧
  zlen (db_buf D) < 2 ^ 31 ∧ bs = slice (db_buf D) (Z.to_nat (b_rptr b)) (Z.to_nat (b_wptr b - b_rptr b)).

(** From [p] the blocks are linked by [b_cont] as in [l], which tells the data of each. *)
Fixpoint msg (m : Mem) (p : option node) (l : list (node * list Z)) : Prop :=
  match l with
  | [] => p = None
  | (n, bs) :: l => p = Some n ∧ ∃ b, mblks m !! n = Some b ∧ has_data m b bs ∧ msg m (b_cont b) l
  end.

(** Every block of [m] outside [X] is as it was, and every buffer. *)
Record ext (X : node → Prop) (m m' : Mem) : Prop := {
  ex_blk n b : ¬ X n → mblks m !! n = Some b → mblks m' !! n = Some b;
  ex_db d D : dblks m !! d = Some D → ∃ D', dblks m' !! d = Some D' ∧ db_buf D' = db_buf D ∧ db_base D' = db_base D ∧ db_freefn D' = db_freefn D;
  ex_brk : brk m ≤ brk m'
}.

Definition none (n : node) : Prop := False.

Definition fresh (m : Mem) : Prop := ∀ a, brk m ≤ a → mblks m !! NBlk a = None ∧ dblks m !! a = None.

Lemma ext_refl X m : ext X m m.
Proof. split; [done|by eauto|lia]. Qed.
Lemma ext_trans X m1 m2 m3 : ext X m1 m2 → ext X m2 m3 → ext X m1 m3.
Proof.
  intros [A1 A2 A3] [B1 B2 B3]. split; [auto| |lia].
  intros d D (D1 & HD1 & ? & ? & ?)%A2. apply B2 in HD1 as (D2 & HD2 & ? & ? & ?). exists D2. split_and!; congruence.
Qed.
Lemma ext_weaken (X Y : node → Prop) m m' : (∀ n, X n → Y n) → ext X m m' → ext Y m m'.
Proof. intros H [A1 A2 A3]. split; auto. Qed.

Lemma has_data_ext X m m' b bs : ext X m m' → has_data m b bs → has_data m' b bs.
Proof.
  intros [_ Hd _] (d & D & E1 & (D' & E2 & Hb & Ha & _)%Hd & ?). exists d, D'. by rewrite Hb, Ha.
Qed.

Lemma msg_ext X m m' p l : ext X m m' → (∀ n, n ∈ l.*1 → ¬ X n) → msg m p l → msg m' p l.
Proof.
  intros He. revert p. induction l as [|[n bs] l IH]; intros p Hn; [done|]. cbn.
  intros (-> & b & Hb & Hd & Hm). split; [done|]. exists b. split_and!.
  - apply (ex_blk _ _ _ He); [apply Hn; set_solver|done].
  - by eapply has_data_ext.
  - apply IH; [|done]. intros x Hx. apply Hn. set_solver.
Qed.

(** A message is not cyclic. *)
Lemma msg_det m p l1 l2 : msg m p l1 → msg m p l2 → l1.*1 = l2.*1.
Proof.
  revert p l2. induction l1 as [|[n1 b1] l1 IH]; intros p [|[n2 b2] l2]; cbn; [done|by intros -> (? & _)|by intros (-> & _)|].
  intros (-> & b & Hb & _ & H1) ([= ->] & b' & Hb' & _ & H2). simplify_eq. f_equal. by eapply IH.
Qed.

Lemma msg_suffix m p l1 n bs l2 : msg m p (l1 ++ (n, bs) :: l2) → msg m (Some n) ((n, bs) :: l2).
Proof.
  revert p. induction l1 as [|[n1 b1] l1 IH]; intros p; cbn.
  - by intros (_ & ?).
  - intros (_ & b & _ & _ & H). by eapply IH.
Qed.

Lemma msg_nodup m p l : msg m p l → NoDup l.*1.
Proof.
  revert p. induction l as [|[n bs] l IH]; intros p Hm; [constructor|]. cbn. apply NoDup_cons. split.
  - intros ((n' & bs') & -> & Hin)%list_elem_of_fmap. apply list_elem_of_split in Hin as (l1 & l2 & ->).
    pose proof (msg_suffix m p [] _ _ _ Hm) as H1. pose proof (msg_suffix m p ((n', bs) :: l1) n' bs' l2 Hm) as H2.
    pose proof (msg_det _ _ _ _ H1 H2) as E. apply (f_equal length) in E. cbn in E.
    rewrite !length_fmap, length_app in E. cbn in E. lia.
  - cbn in Hm. destruct Hm as (_ & b & _ & _ & Hm). by eapply IH.
Qed.

Lemma msg_alive m p l n : msg m p l → n ∈ l.*1 → alive m n.
Proof.
  revert p. induction l as [|[n' bs] l IH]; intros p; cbn; [set_solver|].
  intros (_ & b & Hb & _ & Hm) [->|H]%elem_of_cons; [by exists b|by eapply IH].
Qed.

(** The fuel of the loops is enough. *)
Lemma msg_fuel m p l : msg m p l → (length l < blocks m)%nat.
Proof.
  intros Hm. unfold blocks. pose proof (msg_nodup _ _ _ Hm) as Hn. rewrite <- (length_fmap fst l), <- (size_list_to_set (C := gset node)) by done.
  rewrite <- (size_dom (D := gset node)). apply Nat.lt_succ_r. apply subseteq_size. intros n Hn'%elem_of_list_to_set.
  apply elem_of_dom. by eapply msg_alive.
Qed.

(** ** Copies *)

(** [cp] makes a new block with the data of its argument. *)
Definition cp_spec (cp : node → CM Mem (option node)) : Prop := ∀ m n b bs,
  fresh m → mblks m !! n = Some b → has_data m b bs →
  ∃ a m' b', cp n m = Ret (Some (NBlk a)) m' ∧ ext none m m' ∧ fresh m' ∧ brk m ≤ a < brk m' ∧
    mblks m' = <[NBlk a := b']> (mblks m) ∧ b_cont b' = None ∧ has_data m' b' bs.

Lemma set_cont_ret n p m b :
  mblks m !! n = Some b → ∃ m', set_cont n p m = Ret tt m' ∧ mblks m' = <[n := b <| b_cont := p |>]> (mblks m) ∧
    dblks m' = dblks m ∧ brk m' = brk m ∧ ext (eq n) m m'.
Proof.
  intros Hb. unfold set_cont, upd_blk. rewrite Hb. eexists. split; [done|]. split_and!; [done|done|done|].
  split; cbn; [intros x bx Hx Hbx; by rewrite lookup_insert_ne|by eauto|lia].
Qed.

Lemma fresh_ne m n a : fresh m → alive m n → brk m ≤ a → n ≠ NBlk a.
Proof. intros Hf [b Hb] Ha ->. destruct (Hf a Ha). congruence. Qed.

Lemma alive_Some m n b : mblks m !! n = Some b → alive m n.
Proof. intros H. by exists b. Qed.

Lemma has_data_cont m b bs p : has_data m b bs → has_data m (b <| b_cont := p |>) bs.
Proof. done. Qed.

Lemma copy_loop_ret cp fuel p pn bp l m :
  cp_spec cp → msg m p l → (length l < fuel)%nat → fresh m → mblks m !! pn = Some bp → b_cont bp = None → pn ∉ l.*1 →
  ∃ m' l', copy_loop cp fuel p (Some pn) m = Ret tt m' ∧ ext (eq pn) m m' ∧ fresh m' ∧ l'.*2 = l.*2 ∧
    mblks m' !! pn = Some (bp <| b_cont := fst <$> head l' |>) ∧ msg m' (fst <$> head l') l' ∧
    (∀ n, n ∈ l'.*1 → ∃ a, n = NBlk a ∧ brk m ≤ a < brk m') ∧
    (∀ n, n ∉ l'.*1 → n ≠ pn → mblks m' !! n = mblks m !! n).
Proof.
  intros Hcp. revert p pn bp l m. induction fuel as [|fuel IH]; intros p pn bp l m Hm Hl Hf Hp Hc Hpn; [lia|].
  destruct l as [|[n bs] l]; cbn in Hm.
  { subst. exists m, []. split_and!; try done; [apply ext_refl|by destruct bp; cbn in *; subst|set_solver]. }
  destruct Hm as (-> & b & Hb & Hd & Hm). cbn [copy_loop].
  destruct (Hcp m n b bs Hf Hb Hd) as (a & m1 & b1 & E1 & X1 & F1 & Ha & M1 & C1 & D1). rewrite (bind_ret _ _ _ _ _ E1), bind_deref.
  assert (Hal : ∀ x, alive m x → x ≠ NBlk a) by (intros x Hx; apply (fresh_ne m); [done|done|lia]).
  assert (Hpa : pn ≠ NBlk a) by by eapply Hal, alive_Some.
  assert (Hna : n ≠ NBlk a) by by eapply Hal, alive_Some.
  assert (Hnp : n ≠ pn) by (cbn in Hpn; set_solver).
  assert (Hp1 : mblks m1 !! pn = Some bp) by (rewrite M1, lookup_insert_ne by congruence; done).
  destruct (set_cont_ret pn (Some (NBlk a)) m1 bp Hp1) as (m2 & E2 & M2 & D2 & B2 & X2). rewrite (bind_ret _ _ _ _ _ E2).
  assert (Ha2 : mblks m2 !! NBlk a = Some b1) by (rewrite M2, lookup_insert_ne, M1, lookup_insert_eq by congruence; done).
  assert (Hb2 : mblks m2 !! n = Some b) by (rewrite M2, lookup_insert_ne, M1, lookup_insert_ne by congruence; done).
  rewrite (bind_ret _ _ _ b m2) by by apply get_blk_ret.
  assert (X12 : ext (eq pn) m m2) by (eapply ext_trans; [eapply ext_weaken; [|exact X1]; done|done]).
  assert (F2 : fresh m2).
  { intros z Hz. rewrite M2, D2. rewrite B2 in Hz. destruct (F1 z Hz) as [G1 G2]. rewrite lookup_insert_ne; [done|]. intros ->. congruence. }
  destruct (IH (b_cont b) (NBlk a) b1 l m2) as (m' & l' & E3 & X3 & F3 & L3 & P3 & S3 & R3 & U3); [| |done|done|done| |].
  all: try (cbn in Hl; lia).
  - eapply msg_ext; [exact X12| |exact Hm]. intros x Hx <-. cbn in Hpn. set_solver.
  - intros Hin. eapply Hal; [by eapply msg_alive|done].
  - assert (Hpl' : pn ∉ l'.*1). { intros (z & -> & Hz)%R3. rewrite B2 in Hz. destruct (F1 z) as [G _]; [lia|congruence]. }
    exists m', ((NBlk a, bs) :: l'). split_and!; [done| |done|cbn; by f_equal| | | |].
    + split; [| |destruct X12, X3; lia].
      * intros x bx Hx Hbx. eapply ex_blk; [exact X3| |by eapply ex_blk]. intros <-. eapply Hal; [by eapply alive_Some|done].
      * intros d D HD. destruct (ex_db _ _ _ X12 d D HD) as (D' & HD' & ? & ? & ?).
        destruct (ex_db _ _ _ X3 d D' HD') as (D2' & ? & ? & ? & ?). exists D2'. split_and!; congruence.
    + rewrite U3 by done. by rewrite M2, lookup_insert_eq.
    + cbn. split; [done|]. eexists. split_and!; [exact P3| |done]. apply has_data_cont.
      eapply has_data_ext; [exact X3|]. by apply (has_data_ext _ _ _ _ _ X2).
    + intros x [->|(z & -> & Hz)%R3]%elem_of_cons; [exists a; destruct X3; split; [done|lia]|]. exists z. rewrite B2 in Hz. split; [done|lia].
    + intros x [Hx1 Hx2]%not_elem_of_cons Hxp. cbn in Hx1. rewrite U3 by done. rewrite M2, lookup_insert_ne, M1, lookup_insert_ne by congruence. done.
Qed.

Lemma copy_all_ret cp n l m :
  cp_spec cp → msg m (Some n) l → fresh m →
  ∃ m' a l', copy_all cp n m = Ret (Some (NBlk a)) m' ∧ ext none m m' ∧ fresh m' ∧ l'.*2 = l.*2 ∧ msg m' (Some (NBlk a)) l' ∧
    (∀ x, x ∈ l'.*1 → ∃ a, x = NBlk a ∧ brk m ≤ a < brk m') ∧ (∀ x, x ∉ l'.*1 → mblks m' !! x = mblks m !! x).
Proof.
  intros Hcp Hm Hf. pose proof (msg_fuel _ _ _ Hm) as Hl. destruct l as [|[n' bs] l]; [done|]. cbn in Hm.
  destruct Hm as ([= <-] & b & Hb & Hd & Hm). unfold copy_all.
  destruct (Hcp m n b bs Hf Hb Hd) as (a & m1 & b1 & E1 & X1 & F1 & Ha & M1 & C1 & D1). rewrite (bind_ret _ _ _ _ _ E1).
  assert (Hal : ∀ x, alive m x → x ≠ NBlk a) by (intros x Hx; apply (fresh_ne m); [done|done|lia]).
  rewrite (bind_ret _ _ _ b m1) by (apply get_blk_ret, (ex_blk _ _ _ X1); [by intros []|done]).
  destruct (copy_loop_ret cp (blocks m) (b_cont b) (NBlk a) b1 l m1 Hcp) as (m' & l' & E3 & X3 & F3 & L3 & P3 & S3 & R3 & U3).
  - eapply msg_ext; [exact X1|by intros x Hx []|done].
  - cbn in Hl. lia.
  - done.
  - by rewrite M1, lookup_insert_eq.
  - done.
  - intros Hin. eapply Hal; [by eapply msg_alive|done].
  - rewrite (bind_ret _ _ _ _ _ E3). exists m', a, ((NBlk a, bs) :: l').
    split_and!; [done| |done|cbn; by f_equal| | |].
    + split; [| |destruct X1, X3; lia].
      * intros x bx _ Hbx. eapply ex_blk; [exact X3| |].
        -- intros <-. eapply Hal; [by eapply alive_Some|done].
        -- by apply (ex_blk _ _ _ X1); [intros []|].
      * intros d D HD. destruct (ex_db _ _ _ X1 d D HD) as (D' & HD' & ? & ? & ?).
        destruct (ex_db _ _ _ X3 d D' HD') as (D2' & ? & ? & ? & ?). exists D2'. split_and!; congruence.
    + cbn. split; [done|]. eexists. split_and!; [exact P3| |exact S3]. apply has_data_cont. by apply (has_data_ext _ _ _ _ _ X3).
    + intros x [->|(z & -> & Hz)%R3]%elem_of_cons; [exists a; destruct X3; split; [done|lia]|]. exists z. split; [done|lia].
    + intros x [Hx1 Hx2]%not_elem_of_cons. cbn in Hx1. rewrite U3 by done. rewrite M1, lookup_insert_ne by congruence. done.
Qed.

Lemma dupb_spec : cp_spec dupb.
Proof.
  intros m n b bs Hf Hb Hd. pose proof Hd as (d & D & Ed & ED & Hbase & _).
  unfold dupb. rewrite (bind_ret _ _ _ b m) by by apply get_blk_ret. rewrite Ed.
  rewrite (bind_ret _ _ _ D m) by by unfold get_db; rewrite ED. rewrite (proj2 (Z.eqb_neq _ _)) by done.
  set (m1 := m <| dblks ::= <[d := D <| ref_count := i32 (ref_count D + 1) |>]> |>).
  rewrite (bind_ret _ _ _ tt m1) by (unfold upd_db; by rewrite ED).
  rewrite (bind_ret _ _ _ (brk m) m1) by done.
  set (b' := mkMblk None None None (Some d) (b_rptr b) (b_wptr b)).
  set (m2 := (m1 <| mblks ::= <[NBlk (brk m) := b']> |>) <| brk := brk m + 1 |>).
  rewrite (bind_ret _ _ _ tt m2) by done. exists (brk m), m2, b'.
  assert (X : ext none m m2).
  { split; [intros x bx _ Hx|intros d' D' HD'|cbn; lia].
    - cbn. rewrite lookup_insert_ne; [done|]. intros <-. by destruct (Hf (brk m)) as [? _]; [lia|congruence].
    - cbn. destruct (decide (d' = d)) as [->|]; [|rewrite lookup_insert_ne by done; by eauto].
      rewrite lookup_insert_eq. simplify_eq. eauto. }
  split_and!; [done|done| |lia|cbn; lia|done|done|].
  - intros a Ha. cbn in Ha |- *. destruct (Hf a) as [F1 F2]; [lia|]. split.
    + rewrite lookup_insert_ne; [done|]. intros [= ?]. lia.
    + rewrite lookup_insert_ne; [done|]. intros ->. congruence.
  - destruct (has_data_ext _ _ _ _ _ X Hd) as (d' & D' & E1 & E2 & E3). exists d', D'. rewrite Ed in E1. by simplify_eq.
Qed.

Section Copy.
Context (buf_addr : Z → Z) (junk : Z → Z → Z) (Hbuf : ∀ d, buf_addr d ≠ 0).

Lemma zlen_seqZ n : 0 ≤ n → zlen (seqZ 0 n) = n.
Proof. intros H. unfold zlen. rewrite length_seqZ. lia. Qed.

(** A new block with room for [size] bytes. *)
Lemma allocb_ret size m :
  0 ≤ size < 2 ^ 31 → fresh m →
  ∃ m' b D, allocb buf_addr junk size m = Ret (NBlk (brk m)) m' ∧ ext none m m' ∧ fresh m' ∧ brk m' = brk m + 2 ∧
    mblks m' = <[NBlk (brk m) := b]> (mblks m) ∧ b = mkMblk None None None (Some (brk m + 1)) 0 0 ∧
    dblks m' = <[brk m + 1 := D]> (dblks m) ∧ db_base D = buf_addr (brk m + 1) ∧ zlen (db_buf D) = size ∧ q_mcount m' = q_mcount m.
Proof.
  intros Hs Hf. unfold allocb. rewrite (proj2 (Z.ltb_ge _ _)) by lia.
  set (buf := map (junk (brk m + 1)) (seqZ 0 size)).
  assert (Hbl : zlen buf = size) by (unfold buf, zlen; rewrite length_map, length_seqZ; lia). clearbody buf.
  eexists _, _, _. split; [done|]. cbn. split_and!; try done.
  - destruct (Hf (brk m)) as [F1 _]; [lia|]. destruct (Hf (brk m + 1)) as [_ F2]; [lia|]. split; cbn; [| |lia].
    + intros n b _ Hn. rewrite lookup_insert_ne; [done|]. intros <-. congruence.
    + intros d D HD. rewrite lookup_insert_ne; [by eauto|]. intros <-. congruence.
  - intros a Ha. cbn in Ha |- *. destruct (Hf a) as [F1 F2]; [lia|]. rewrite !lookup_insert_ne; [done|lia|]. intros [= ?]. lia.
Qed.

(** Appending to a block that no other block shares. *)
Lemma blk_append_ret m n b d D bs :
  mblks m !! n = Some b → b_datap b = Some d → dblks m !! d = Some D → 0 ≤ b_wptr b → b_wptr b + zlen bs ≤ zlen (db_buf D) →
  blk_append n bs m = Ret tt ((m <| dblks ::= <[d := D <| db_buf := take (Z.to_nat (b_wptr b)) (db_buf D) ++ bs ++ drop (Z.to_nat (b_wptr b + zlen bs)) (db_buf D) |>]> |>)
    <| mblks ::= <[n := b <| b_wptr := b_wptr b + zlen bs |>]> |>).
Proof.
  intros Hb Hd HD H0 Hle. unfold blk_append. rewrite (bind_ret _ _ _ b m) by by apply get_blk_ret.
  set (buf := take (Z.to_nat (b_wptr b)) (db_buf D) ++ bs ++ drop (Z.to_nat (b_wptr b + zlen bs)) (db_buf D)).
  assert (Ew : blk_write b (b_wptr b) bs m = Ret tt (m <| dblks ::= <[d := D <| db_buf := buf |>]> |>)).
  { unfold blk_write, datap. rewrite Hd. rewrite (bind_ret _ _ _ d m) by done.
    rewrite (bind_ret _ _ _ D m) by (unfold get_db; by rewrite HD).
    unfold write_at. rewrite (proj2 (andb_true_iff _ _)) by lia. fold buf. unfold upd_db. by rewrite HD. }
  rewrite (bind_ret _ _ _ _ _ Ew). unfold upd_blk. cbn. by rewrite Hb.
Qed.

Lemma has_data_len m b bs : has_data m b bs → zlen bs = b_wptr b - b_rptr b ∧ blk_len b = zlen bs ∧ zlen bs < 2 ^ 31.
Proof.
  intros (d & D & _ & _ & _ & H1 & H2 & H3 & ->). assert (zlen (slice (db_buf D) (Z.to_nat (b_rptr b)) (Z.to_nat (b_wptr b - b_rptr b))) = b_wptr b - b_rptr b) as E.
  { unfold zlen in *. rewrite slice_length; lia. }
  rewrite E. split_and!; [done| |lia]. unfold blk_len. apply i32_id. unfold in_i32. lia.
Qed.

(** Reading all the data of a block, or its first bytes. *)
Lemma blk_read_data m b bs k :
  has_data m b bs → 0 ≤ k ≤ zlen bs → blk_read b (b_rptr b) k m = Ret (take (Z.to_nat k) bs) m.
Proof.
  intros Hd Hk. destruct (has_data_len _ _ _ Hd) as (Hl & _ & _). destruct Hd as (d & D & E1 & E2 & _ & H1 & H2 & H3 & ->).
  unfold blk_read, datap. rewrite E1. rewrite (bind_ret _ _ _ d m) by done.
  rewrite (bind_ret _ _ _ D m) by (unfold get_db; by rewrite E2).
  rewrite (proj2 (andb_true_iff _ _)) by (split; [apply andb_true_iff|]; lia). unfold mret, CM_ret. f_equal.
  unfold slice in *. rewrite take_take. f_equal. lia.
Qed.

(** A block that was just allocated and then filled. *)
Lemma alloc_fill size bs m :
  0 ≤ size < 2 ^ 31 → fresh m → zlen bs ≤ size →
  ∃ m1 m2 b, allocb buf_addr junk size m = Ret (NBlk (brk m)) m1 ∧ ext none m m1 ∧ fresh m1 ∧
    blk_append (NBlk (brk m)) bs m1 = Ret tt m2 ∧ ext none m m2 ∧ fresh m2 ∧ brk m2 = brk m + 2 ∧
    mblks m2 = <[NBlk (brk m) := b]> (mblks m) ∧ b_cont b = None ∧ has_data m2 b bs ∧ q_mcount m2 = q_mcount m.
Proof.
  intros Hs Hf Hle. destruct (allocb_ret size m Hs Hf) as (m1 & b & D & E1 & X1 & F1 & B1 & M1 & Eb & D1 & Hbase & Hlen & Hq).
  assert (Hb1 : mblks m1 !! NBlk (brk m) = Some b) by by rewrite M1, lookup_insert_eq.
  assert (HD1 : dblks m1 !! (brk m + 1) = Some D) by by rewrite D1, lookup_insert_eq.
  pose proof (blk_append_ret m1 (NBlk (brk m)) b (brk m + 1) D bs Hb1 ltac:(by subst) HD1 ltac:(subst; cbn; lia) ltac:(subst; cbn; lia)) as E2.
  subst b. cbn [b_wptr Z.to_nat take app Z.add] in E2. exists m1. eexists. exists (mkMblk None None None (Some (brk m + 1)) 0 (zlen bs)).
  split_and!; [done|done|done|exact E2| | |cbn; lia| |done| |done].
  - destruct X1 as [X1 X2 X3]. split; cbn; [| |lia].
    + intros n bn _ Hn. rewrite lookup_insert_ne; [apply X1; [by intros []|done]|]. intros <-. destruct (Hf (brk m)) as [? _]; [lia|congruence].
    + intros d' D' HD'. assert (d' ≠ brk m + 1) by (intros ->; destruct (Hf (brk m + 1)) as [_ ?]; [lia|congruence]).
      rewrite lookup_insert_ne by done. by apply X2.
  - intros a Ha. cbn in Ha |- *. destruct (F1 a Ha) as [G1 G2]. rewrite B1 in Ha.
    rewrite !lookup_insert_ne; [done|lia|]. intros [= ?]. lia.
  - cbn. rewrite M1. apply insert_insert_eq.
  - eexists (brk m + 1), _. split_and!; [done|cbn; by rewrite lookup_insert_eq|cbn; rewrite Hbase; apply Hbuf|done|apply zlen_nonneg| | |]; cbn.
    + rewrite !zlen_app. unfold zlen in *. rewrite length_take, length_drop. lia.
    + rewrite !zlen_app. unfold zlen in *. rewrite length_take, length_drop. lia.
    + rewrite Z.sub_0_r. unfold slice. change (Z.to_nat 0) with 0%nat. rewrite take_0, drop_0. cbn [app]. unfold zlen. by rewrite Nat2Z.id, take_app_length.
Qed.

Lemma copyb_spec : cp_spec (fun n => c ← copyb buf_addr junk n; mret (Some c)).
Proof.
  intros m n b bs Hf Hb Hd. destruct (has_data_len _ _ _ Hd) as (Hl & Hbl & Hlt). pose proof (zlen_nonneg bs).
  destruct (alloc_fill (zlen bs) bs m) as (m1 & m2 & b2 & E1 & X1 & F1 & E2 & X2 & F2 & B2 & M2 & C2 & D2 & _); [lia|done|lia|].
  exists (brk m), m2, b2. split_and!; [|done|done|lia|lia|done|done|done].
  unfold copyb. rewrite (bind_ret _ _ _ (NBlk (brk m)) m2); [done|].
  rewrite (bind_ret _ _ _ b m) by by apply get_blk_ret. rewrite Hbl, (bind_ret _ _ _ _ _ E1).
  rewrite (bind_ret _ _ _ bs m1).
  - by rewrite (bind_ret _ _ _ _ _ E2).
  - rewrite (blk_read_data m1 b bs (zlen bs)); [|by apply (has_data_ext _ _ _ _ _ X1)|lia].
    unfold zlen. by rewrite Nat2Z.id, firstn_all.
Qed.
End Copy.

(** ** Freeing *)

Lemma freeb_ret m n b d D :
  mem_wf m → brk m < 2 ^ 31 → mblks m !! n = Some b → b_datap b = Some d → dblks m !! d = Some D →
  ∃ m', freeb n m = Ret tt m' ∧ mblks m' = delete n (mblks m) ∧ brk m' = brk m ∧ q_mcount m' = q_mcount m ∧
    dblks m' = if ref_count D =? 1 then delete d (dblks m) else <[d := D <| ref_count := ref_count D - 1 |>]> (dblks m).
Proof.
  intros W L Hb Hd HD. destruct (wf_refs _ W _ _ HD) as (Hc & Hp & Hbase). pose proof (wf_few _ W d).
  unfold freeb. rewrite (bind_ret _ _ _ b m) by by apply get_blk_ret. rewrite Hd.
  rewrite (bind_ret _ _ _ D m) by (unfold get_db; by rewrite HD). rewrite (proj2 (Z.eqb_neq _ _)) by done.
  assert (Hi : i32 (ref_count D - 1) = ref_count D - 1) by (apply i32_id; unfold in_i32; lia). set (D1 := D <| ref_count := ref_count D - 1 |>).
  set (m1 := m <| dblks ::= <[d := D1]> |>).
  rewrite (bind_ret _ _ _ tt m1) by (unfold upd_db; rewrite HD, Hi; done).
  rewrite (bind_ret _ _ _ D1 m1) by (unfold get_db; cbn; by rewrite lookup_insert_eq). change (ref_count D1) with (ref_count D - 1).
  assert ((ref_count D - 1 =? 0) = (ref_count D =? 1)) as -> by lia. destruct (ref_count D =? 1).
  - eexists. split; [done|]. split_and!; [done|done|done|]. cbn. by rewrite delete_insert_eq.
  - eexists. split; [done|]. by split_and!.
Qed.

Lemma freemsg_loop_ret fuel p l m :
  mem_wf m → brk m < 2 ^ 31 → msg m p l → (length l < fuel)%nat →
  ∃ m', freemsg_loop fuel p m = Ret tt m' ∧ mem_wf m' ∧ brk m' = brk m ∧ q_mcount m' = q_mcount m ∧
    (∀ n, n ∈ l.*1 → mblks m' !! n = None) ∧ (∀ n, n ∉ l.*1 → mblks m' !! n = mblks m !! n) ∧
    (∀ d D', dblks m' !! d = Some D' → ∃ D, dblks m !! d = Some D ∧ db_buf D' = db_buf D ∧ db_base D' = db_base D ∧ db_freefn D' = db_freefn D).
Proof.
  revert p l m. induction fuel as [|fuel IH]; intros p l m W L Hm Hl; [lia|]. pose proof (msg_nodup _ _ _ Hm) as Hnd.
  destruct l as [|[n bs] l]; cbn in Hm.
  { subst. exists m. split_and!; try done; [set_solver|]. intros d D ?. by exists D. }
  destruct Hm as (-> & b & Hb & Hdat & Hm). pose proof Hdat as (d & D & Hd & HD & _).
  cbn [freemsg_loop]. rewrite (bind_ret _ _ _ b m) by by apply get_blk_ret.
  destruct (freeb_ret m n b d D W L Hb Hd HD) as (m1 & E1 & M1 & B1 & Q1 & D1). rewrite (bind_ret _ _ _ _ _ E1).
  assert (W1 : mem_wf m1) by (apply (proj2 (keeps_freeb n m tt m1 E1)); [done|lia]).
  cbn in Hnd. apply NoDup_cons in Hnd as [Hnin Hnd].
  assert (Hdbl : ∀ d' D', dblks m1 !! d' = Some D' → ∃ D0, dblks m !! d' = Some D0 ∧
    db_buf D' = db_buf D0 ∧ db_base D' = db_base D0 ∧ db_freefn D' = db_freefn D0).
  { intros d' D'. rewrite D1. case_match; [intros [? Hx]%lookup_delete_Some; by exists D'|].
    intros [[<- <-]|[? Hx]]%lookup_insert_Some; [by exists D|by exists D']. }
  assert (Hm1 : msg m1 (b_cont b) l).
  { assert (Hkeep : ∀ x bx bsx, mblks m1 !! x = Some bx → has_data m bx bsx → has_data m1 bx bsx).
    { intros x bx bsx Hx (d' & D0 & G1 & G2 & G3). destruct (wf_data _ W1 x bx d' Hx G1) as [D' HD'].
      destruct (Hdbl _ _ HD') as (D0' & G4 & G5 & G6 & _). simplify_eq. exists d', D'. by rewrite G5, G6. }
    clear IH Hl. revert Hm Hnin Hkeep. generalize (b_cont b). induction l as [|[x bx] l IHl]; intros p; [done|].
    cbn. intros (-> & b1 & Hb1 & Hd1 & Hm1) Hnin Hkeep. split; [done|]. exists b1.
    assert (mblks m1 !! x = Some b1) by (rewrite M1, lookup_delete_ne; [done|set_solver]).
    split_and!; [done|by eapply Hkeep|]. apply IHl; [by cbn in Hnd; apply NoDup_cons in Hnd as [_ ?]|done|set_solver|done]. }
  destruct (IH (b_cont b) l m1 W1) as (m' & E & W' & B' & Q' & N' & U' & Dl'); [lia|done|cbn in Hl; lia|].
  exists m'. rewrite E. split_and!; [done|done|lia|congruence| | |].
  - intros x [->|Hx]%elem_of_cons; [|by apply N']. rewrite U' by done. by rewrite M1, lookup_delete_eq.
  - intros x [Hx1 Hx2]%not_elem_of_cons. rewrite U' by done. cbn in Hx1. by rewrite M1, lookup_delete_ne by done.
  - intros d' D' HD'. destruct (Dl' _ _ HD') as (D1' & G1 & ? & ? & ?). destruct (Hdbl _ _ G1) as (D0 & G3 & ? & ? & ?). exists D0.
    split_and!; congruence.
Qed.

Lemma freemsg_ret p l m :
  mem_wf m → brk m < 2 ^ 31 → msg m p l →
  ∃ m', freemsg p m = Ret tt m' ∧ mem_wf m' ∧ brk m' = brk m ∧ q_mcount m' = q_mcount m ∧
    (∀ n, n ∈ l.*1 → mblks m' !! n = None) ∧ (∀ n, n ∉ l.*1 → mblks m' !! n = mblks m !! n) ∧
    (∀ d D', dblks m' !! d = Some D' → ∃ D, dblks m !! d = Some D ∧ db_buf D' = db_buf D ∧ db_base D' = db_base D ∧ db_freefn D' = db_freefn D).
Proof. intros W L Hm. apply freemsg_loop_ret; [done|done|done|]. by eapply msg_fuel. Qed.

(** ** Sizes and pull-ups *)

(** The bytes of a message. *)
Definition msg_data (l : list (node * list Z)) : list Z := mjoin l.*2.

Lemma zlen_msg_cons n bs l : zlen (msg_data ((n, bs) :: l)) = zlen bs + zlen (msg_data l).
Proof. unfold msg_data. cbn. by rewrite zlen_app. Qed.

Lemma msgdsize_loop_ret fuel p l acc m :
  msg m p l → (length l < fuel)%nat → 0 ≤ acc → acc + zlen (msg_data l) < 2 ^ 31 →
  msgdsize_loop fuel p acc m = Ret (acc + zlen (msg_data l)) m.
Proof.
  revert p l acc. induction fuel as [|fuel IH]; intros p [|[n bs] l] acc Hm Hl H0 Hlt; cbn in Hm, Hl; try lia.
  - subst. cbn. by rewrite Z.add_0_r.
  - destruct Hm as (-> & b & Hb & Hd & Hm). rewrite zlen_msg_cons in *. destruct (has_data_len _ _ _ Hd) as (_ & Hbl & _).
    pose proof (zlen_nonneg bs). pose proof (zlen_nonneg (msg_data l)).
    cbn [msgdsize_loop]. rewrite (bind_ret _ _ _ b m) by by apply get_blk_ret. rewrite Hbl, i32_id by (unfold in_i32; lia).
    rewrite (IH _ l) by (done || lia). f_equal. lia.
Qed.

Lemma msgdsize_ret p l m : msg m p l → zlen (msg_data l) < 2 ^ 31 → msgdsize p m = Ret (zlen (msg_data l)) m.
Proof. intros Hm Hlt. apply (msgdsize_loop_ret _ p l 0); [done|by eapply msg_fuel|lia|done]. Qed.

(** The block [NBlk a], allocated after [m], holds [acc] in a buffer of [cap] bytes. *)
Definition filling (m : Mem) (a : Z) (acc : list Z) (cap : Z) (m' : Mem) : Prop :=
  a = brk m ∧ ext none m m' ∧ fresh m' ∧ brk m' = a + 2 ∧ q_mcount m' = q_mcount m ∧
  ∃ b D, mblks m' = <[NBlk a := b]> (mblks m) ∧ b = mkMblk None None None (Some (a + 1)) 0 (zlen acc) ∧
    dblks m' !! (a + 1) = Some D ∧ take (length acc) (db_buf D) = acc ∧ zlen (db_buf D) = cap ∧ db_base D ≠ 0.

Lemma filling_append m a acc cap m' bs :
  fresh m → filling m a acc cap m' → zlen acc + zlen bs ≤ cap →
  ∃ m'', blk_append (NBlk a) bs m' = Ret tt m'' ∧ filling m a (acc ++ bs) cap m''.
Proof.
  intros Hf (-> & X & F & B & Q & b & D & Mb & Eb & HD & Hacc & Hcap & Hbase) Hle.
  pose proof (zlen_nonneg acc). pose proof (zlen_nonneg bs).
  assert (Hb : mblks m' !! NBlk (brk m) = Some b) by by rewrite Mb, lookup_insert_eq.
  pose proof (blk_append_ret m' _ b (brk m + 1) D bs Hb ltac:(by subst) HD ltac:(subst; cbn; lia) ltac:(subst; cbn; lia)) as E.
  eexists. split; [exact E|]. clear E. subst b. cbn [b_wptr]. set (buf := take _ _ ++ bs ++ _).
  assert (Hbuf' : buf = (acc ++ bs) ++ drop (length acc + length bs) (db_buf D)).
  { unfold buf, zlen. rewrite Nat2Z.id, Hacc, Z2Nat.inj_add, !Nat2Z.id by lia. by rewrite app_assoc. }
  clearbody buf. subst buf. split_and!; [done| |  |cbn; lia|done|].
  - destruct X as [X1 X2 X3]. split; cbn; [| |lia].
    + intros n bn Hn Hbn. rewrite lookup_insert_ne; [by apply X1|]. intros <-. destruct (Hf (brk m)) as [? _]; [lia|congruence].
    + intros d' D' HD'. assert (d' ≠ brk m + 1) by (intros ->; destruct (Hf (brk m + 1)) as [_ ?]; [lia|congruence]).
      rewrite lookup_insert_ne by done. by apply X2.
  - intros a' Ha. cbn in Ha |- *. destruct (F a' Ha) as [G1 G2]. rewrite !lookup_insert_ne; [done|lia|]. intros [= ?]. lia.
  - eexists _, _. split_and!; [cbn; rewrite Mb; apply insert_insert_eq|cbn; by rewrite zlen_app|cbn; by rewrite lookup_insert_eq| | |done]; cbn.
    + rewrite length_app. by rewrite <- length_app, take_app_length.
    + rewrite !zlen_app. unfold zlen in *. rewrite length_drop. lia.
Qed.

Lemma pullup_loop_ret fuel p l m a acc m' :
  fresh m → msg m p l → (length l < fuel)%nat → filling m a acc (zlen acc + zlen (msg_data l)) m' →
  ∃ m'', pullup_loop fuel p (NBlk a) (zlen (msg_data l)) m' = Ret tt m'' ∧
    filling m a (acc ++ msg_data l) (zlen acc + zlen (msg_data l)) m''.
Proof.
  intros Hf. revert p l acc m'. induction fuel as [|fuel IH]; intros p [|[n bs] l] acc m' Hm Hl Hfl; cbn in Hm, Hl; try lia.
  - subst. exists m'. split; [done|]. by rewrite app_nil_r.
  - destruct Hm as (-> & b & Hb & Hd & Hm). rewrite zlen_msg_cons in *. pose proof (zlen_nonneg bs). pose proof (zlen_nonneg (msg_data l)).
    destruct (has_data_len _ _ _ Hd) as (_ & Hbl & _). pose proof Hfl as (_ & X & _).
    assert (Hd' : has_data m' b bs) by by apply (has_data_ext _ _ _ _ _ X).
    cbn [pullup_loop]. rewrite (bind_ret _ _ _ b m') by (apply get_blk_ret, (ex_blk _ _ _ X); [by intros []|done]).
    rewrite Hbl, (proj2 (Z.leb_le _ _)) by lia.
    rewrite (bind_ret _ _ _ bs m') by (rewrite (blk_read_data m' b bs) by (done || lia); unfold zlen; by rewrite Nat2Z.id, firstn_all).
    destruct (filling_append m a acc _ m' bs Hf Hfl) as (m1 & E1 & Hfl1); [lia|]. rewrite (bind_ret _ _ _ _ _ E1).
    destruct (IH (b_cont b) l (acc ++ bs) m1 Hm) as (m2 & E2 & Hfl2); [lia|by rewrite zlen_app, <- Z.add_assoc|].
    exists m2. replace (zlen bs + zlen (msg_data l) - zlen bs) with (zlen (msg_data l)) by lia. split; [done|].
    unfold msg_data in *. cbn. rewrite zlen_app, <- Z.add_assoc, <- app_assoc in Hfl2. exact Hfl2.
Qed.

Section Pullup.
Context (buf_addr : Z → Z) (junk : Z → Z → Z) (Hbuf : ∀ d, buf_addr d ≠ 0).

Lemma msgpullup_ret p l m :
  fresh m → msg m p l → zlen (msg_data l) < 2 ^ 31 →
  ∃ m' a, msgpullup buf_addr junk p (-1) m = Ret (NBlk a) m' ∧ ext none m m' ∧ fresh m' ∧ a = brk m ∧ brk m' = brk m + 2 ∧
    msg m' (Some (NBlk a)) [(NBlk a, msg_data l)] ∧ (∀ x, x ≠ NBlk a → mblks m' !! x = mblks m !! x) ∧ q_mcount m' = q_mcount m.
Proof.
  intros Hf Hm Hlt. unfold msgpullup. rewrite (bind_ret _ _ _ _ _ (msgdsize_ret p l m Hm Hlt)).
  cbn [Z.eqb orb]. change (-1 =? -1) with true. cbn [orb]. pose proof (zlen_nonneg (msg_data l)).
  destruct (allocb_ret buf_addr junk (zlen (msg_data l)) m) as (m1 & b & D & E1 & X1 & F1 & B1 & M1 & Eb & D1 & Hbase & Hlen & Q1); [lia|done|].
  rewrite (bind_ret _ _ _ _ _ E1).
  destruct (pullup_loop_ret (blocks m) p l m (brk m) [] m1) as (m2 & E2 & _ & X2 & F2 & B2 & Q2 & b2 & D2 & M2 & Eb2 & HD2 & Hacc & Hcap & Hb0);
    [done|done|by eapply msg_fuel| |].
  - split_and!; [done|done|done|lia|done|]. exists b, D. split_and!; [done|done|by rewrite D1, lookup_insert_eq|done|done|by rewrite Hbase].
  - rewrite (bind_ret _ _ _ _ _ E2). exists m2, (brk m). split_and!; [done|done|done|done|lia| | |done].
    + cbn. split; [done|]. exists b2. subst b2. split_and!; [by rewrite M2, lookup_insert_eq| |done].
      exists (brk m + 1), D2. change (zlen []) with 0 in *. cbn [app] in *. split_and!; [done|done|done|done|cbn; lia|cbn; lia|lia|]. cbn.
      rewrite Z.sub_0_r. unfold slice. rewrite drop_0. unfold zlen. by rewrite Nat2Z.id.
    + intros x Hx. rewrite M2. by apply lookup_insert_ne.
Qed.
End Pullup.

(** ** Duplicates, copies and pull-ups of a message *)

Lemma mem_wf_fresh m : mem_wf m → fresh m.
Proof. intros W a Ha. by apply (wf_fresh _ W). Qed.

(** Freeing what was added since [m] gives back the heap of [m]. *)
Lemma free_added m m1 p l :
  mem_wf m → mem_wf m1 → brk m1 < 2 ^ 31 → ext none m m1 → msg m1 p l →
  (∀ x, x ∈ l.*1 → ∃ a, x = NBlk a ∧ brk m ≤ a) → (∀ x, x ∉ l.*1 → mblks m1 !! x = mblks m !! x) →
  ∃ m2, freemsg p m1 = Ret tt m2 ∧ mblks m2 = mblks m ∧ dblks m2 = dblks m.
Proof.
  intros W W1 L X Hm Hnew Hold.
  destruct (freemsg_ret p l m1 W1 L Hm) as (m2 & E & W2 & _ & _ & N2 & U2 & D2). exists m2. split; [done|].
  assert (HM : mblks m2 = mblks m).
  { apply map_eq. intros x. destruct (decide (x ∈ l.*1)) as [Hx|Hx]; [|by rewrite U2, Hold by done].
    rewrite N2 by done. destruct (Hnew x Hx) as (a & -> & Ha). symmetry. by apply (wf_fresh _ W). }
  split; [done|]. apply map_eq. intros d.
  destruct (dblks m2 !! d) as [D'|] eqn:E2; destruct (dblks m !! d) as [D|] eqn:E0; [| | |done].
  - destruct (D2 _ _ E2) as (D1 & G1 & ? & ? & ?). destruct (ex_db _ _ _ X d D E0) as (D1' & G2 & ? & ? & ?).
    destruct (wf_refs _ W2 _ _ E2) as [R2 _]. destruct (wf_refs _ W _ _ E0) as [R0 _]. rewrite HM in R2.
    f_equal. destruct D, D'. cbn in *. congruence.
  - exfalso. destruct (wf_refs _ W2 _ _ E2) as (_ & Hp & _). rewrite HM in Hp.
    destruct (decide (filter (points_to d) (mblks m) = ∅)) as [Ef|Ef]; [unfold refs in Hp; rewrite Ef, map_size_empty in Hp; lia|].
    apply map_choose in Ef as (x & b & [Hx Hd]%map_lookup_filter_Some). destruct (wf_data _ W _ _ _ Hx Hd). congruence.
  - exfalso. destruct (wf_refs _ W _ _ E0) as (_ & Hp & _).
    destruct (decide (filter (points_to d) (mblks m) = ∅)) as [Ef|Ef]; [unfold refs in Hp; rewrite Ef, map_size_empty in Hp; lia|].
    apply map_choose in Ef as (x & b & [Hx Hd]%map_lookup_filter_Some). rewrite <- HM in Hx. destruct (wf_data _ W2 _ _ _ Hx Hd). congruence.
Qed.

(** [c] makes a new message with the data [data] and leaves the message [l] at [n]
    as it is; freeing the new one restores the heap. *)
Definition makes_copy (m : Mem) (n : node) (l : list (node * list Z)) (c : CM Mem (option node)) (data : list (list Z)) : Prop :=
  ∃ m' n' l', c m = Ret (Some n') m' ∧ msg m' (Some n') l' ∧ l'.*2 = data ∧ msg m' (Some n) l ∧
    (brk m' < 2 ^ 31 → ∃ m'', freemsg (Some n') m' = Ret tt m'' ∧ mblks m'' = mblks m ∧ dblks m'' = dblks m).

Lemma copy_all_makes cp m n l :
  cp_spec cp → (∀ x, keeps (cp x)) → mem_wf m → msg m (Some n) l → makes_copy m n l (copy_all cp n) l.*2.
Proof.
  intros Hcp Hk W Hm. destruct (copy_all_ret cp n l m Hcp Hm) as (m' & a & l' & E & X & F & L & Hm' & Hnew & Hold); [by apply mem_wf_fresh|].
  exists m', (NBlk a), l'. split_and!; [done|done|done|by eapply msg_ext; [exact X|intros ? ? []|]|].
  intros Lt. assert (W' : mem_wf m') by by apply (proj2 (keeps_copy_all cp n Hk m _ m' E)).
  apply (free_added m m' _ l'); try done. intros x (z & -> & Hz)%Hnew. exists z. split; [done|lia].
Qed.

(** C24: a duplicate, a copy and a pull-up of a message have its data (block by
    block, or in one block), leave it readable as it was, and when they are
    freed the blocks, the data blocks and their reference counts are exactly
    what they were before. *)
Theorem msg_copies buf_addr junk m n l :
  (∀ d, buf_addr d ≠ 0) → mem_wf m → msg m (Some n) l →
  makes_copy m n l (dupmsg n) l.*2 ∧
  makes_copy m n l (copymsg buf_addr junk n) l.*2 ∧
  (zlen (msg_data l) < 2 ^ 31 →
    makes_copy m n l (c ← msgpullup buf_addr junk (Some n) (-1); mret (Some c)) [msg_data l] ∧
    msgdsize (Some n) m = Ret (zlen (msg_data l)) m).
Proof.
  intros Hb W Hm. split_and!.
  - apply copy_all_makes; [apply dupb_spec|apply keeps_dupb|done|done].
  - apply copy_all_makes; [by apply copyb_spec| |done|done]. intros x. apply keeps_map. unfold copyb.
    pose proof (keeps_allocb buf_addr junk Hb). keeps_steps.
  - intros Hlt. split; [|by apply msgdsize_ret].
    destruct (msgpullup_ret buf_addr junk Hb (Some n) l m (mem_wf_fresh _ W) Hm Hlt) as (m' & a & E & X & F & -> & B & Hm' & Hold & _).
    exists m', (NBlk (brk m)), [(NBlk (brk m), msg_data l)]. split_and!; [|done|done|by eapply msg_ext; [exact X|intros ? ? []|]|].
    + by rewrite (bind_ret _ _ _ _ _ E).
    + intros Lt. assert (W' : mem_wf m') by by apply (proj2 (keeps_pullup buf_addr junk Hb _ _ _ _ _ E)).
      apply (free_added m m' _ [(NBlk (brk m), msg_data l)]); try done.
      * cbn. intros x ->%list_elem_of_singleton. exists (brk m). split; [done|lia].
      * cbn. intros x Hx. apply Hold. intros ->. by apply Hx, list_elem_of_singleton.
Qed.

(** * A concrete heap *)

(** [malloc] for the examples: 16-byte aligned, never NULL. *)
Definition buf16 (d : Z) : Z := 16 * Z.abs d + 16.
Lemma buf16_ne d : buf16 d ≠ 0.
Proof. unfold buf16. lia. Qed.
Definition zeros (_ _ : Z) : Z := 0.

(** Two blocks linked as one message, and a queue. *)
Definition ex_ops : list mop :=
  [MAlloc 4; MAppend (NBlk 1) [1; 2; 3] false; MAlloc 2; MAppend (NBlk 3) [4; 5] false;
   MConcat (NBlk 1) (Some (NBlk 3)); MAlloc 1; MQinit 7].

Definition ex_mem : Mem := match run_mops buf16 zeros ex_ops mem0 with Ret _ m => m | _ => mem0 end.

Lemma ex_mem_run : run_mops buf16 zeros ex_ops mem0 =
  Ret [Some (NBlk 1); Some (NBlk 1); Some (NBlk 3); Some (NBlk 3); Some (NBlk 3); Some (NBlk 5); None] ex_mem.
Proof. vm_compute. reflexivity. Qed.

Lemma ex_mem_brk : brk ex_mem = 7.
Proof. vm_compute. reflexivity. Qed.

Lemma ex_ops_ok : Forall mop_ok ex_ops.
Proof. by repeat constructor. Qed.

Lemma ex_mem_wf : mem_wf ex_mem.
Proof.
  apply (proj2 (keeps_mops buf16 zeros buf16_ne ex_ops ex_ops_ok mem0 _ ex_mem ex_mem_run)); [apply mem0_wf|].
  rewrite ex_mem_brk. lia.
Qed.

Lemma ex_mem_queue : qrep ex_mem 7 [].
Proof. split; [by vm_compute|constructor|constructor|by vm_compute]. Qed.

Lemma ex_data m bs db c base buf :
  dblks m !! db = Some (mkDblk base buf true 1) → 0 < base → zlen bs ≤ zlen buf < 2 ^ 31 →
  firstn (length bs) buf = bs → has_data m (mkMblk None None c (Some db) 0 (zlen bs)) bs.
Proof.
  intros Hd Hb Hl Hf. exists db, (mkDblk base buf true 1). pose proof (zlen_nonneg bs).
  cbn. split_and!; try done; try lia. unfold slice. rewrite drop_0, Z.sub_0_r. unfold zlen. by rewrite Nat2Z.id.
Qed.

Lemma ex_mem_msg : msg ex_mem (Some (NBlk 1)) [(NBlk 1, [1; 2; 3]); (NBlk 3, [4; 5])].
Proof.
  assert (E1 : mblks ex_mem !! NBlk 1 = Some (mkMblk None None (Some (NBlk 3)) (Some 2) 0 (zlen [1; 2; 3]))) by (vm_compute; reflexivity).
  assert (E3 : mblks ex_mem !! NBlk 3 = Some (mkMblk None None None (Some 4) 0 (zlen [4; 5]))) by (vm_compute; reflexivity).
  assert (D2 : dblks ex_mem !! 2 = Some (mkDblk 48 [1; 2; 3; 0] true 1)) by (vm_compute; reflexivity).
  assert (D4 : dblks ex_mem !! 4 = Some (mkDblk 80 [4; 5] true 1)) by (vm_compute; reflexivity).
  split; [reflexivity|]. eexists. split; [exact E1|]. split; [apply (ex_data _ [1; 2; 3] 2 _ _ _ D2); [lia|unfold zlen; cbn; lia|reflexivity]|].
  split; [reflexivity|]. eexists. split; [exact E3|]. split; [apply (ex_data _ [4; 5] 4 _ _ _ D4); [lia|unfold zlen; cbn; lia|reflexivity]|reflexivity].
Qed.

Lemma mem_ops_wf_witness : brk ex_mem = 7 ∧ mem_wf ex_mem.
Proof.
  split; [exact ex_mem_brk|]. apply (mem_ops_wf buf16 zeros ex_ops mem0 _ ex_mem buf16_ne ex_ops_ok ex_mem_run mem0_wf).
  rewrite ex_mem_brk. lia.
Defined.

Lemma queue_refines_list_witness :
  ∃ m', run_qops 7 [OPut (NBlk 1); OIns (NBlk 1) (NBlk 3); OPut (NBlk 5); ORem (NBlk 1); OGet; OLast; OGet; OGet] ex_mem =
          Ret [None; None; None; None; Some (NBlk 3); Some (NBlk 5); Some (NBlk 5); None] m' ∧ qrep m' 7 [].
Proof.
  destruct (queue_refines_list ex_mem 7 []
    [OPut (NBlk 1); OIns (NBlk 1) (NBlk 3); OPut (NBlk 5); ORem (NBlk 1); OGet; OLast; OGet; OGet]
    [None; None; None; None; Some (NBlk 3); Some (NBlk 5); Some (NBlk 5); None] [] ex_mem_queue) as (m' & E & Hq & _).
  - by vm_compute.
  - intros o n Ho Hn. repeat (apply elem_of_cons in Ho as [->|Ho]; [cbn in Hn; try (apply list_elem_of_singleton in Hn as ->; split; [eexists; vm_compute; reflexivity|done]); set_solver|]). set_solver.
  - unfold zlen. cbn. lia.
  - exists m'. exact (conj E Hq).
Defined.

Lemma msg_copies_witness : makes_copy ex_mem (NBlk 1) [(NBlk 1, [1; 2; 3]); (NBlk 3, [4; 5])]
  (c ← msgpullup buf16 zeros (Some (NBlk 1)) (-1); mret (Some c)) [[1; 2; 3; 4; 5]].
Proof.
  apply (msg_copies buf16 zeros ex_mem (NBlk 1) [(NBlk 1, [1; 2; 3]); (NBlk 3, [4; 5])] buf16_ne ex_mem_wf ex_mem_msg).
  unfold zlen. cbn. lia.
Defined.
