(* ===== verification/Blocks.v ===== *)
(** * New blocks

    A heap with one or two blocks on top of another heap, as the stack makes them for
    its packets: what the operations of StrUtils.v do to them, exactly. *)

From S2P Require Import Prelude StrUtils.

(** ** Bytes written into a buffer *)

Definition splice (buf : list Z) (off : Z) (bs : list Z) : list Z :=
  take (Z.to_nat off) buf ++ bs ++ drop (Z.to_nat (off + zlen bs)) buf.

Lemma splice_zlen buf off bs : 0 ≤ off → off + zlen bs ≤ zlen buf → zlen (splice buf off bs) = zlen buf.
Proof. intros H1 H2. unfold splice. rewrite !zlen_app. unfold zlen in *. rewrite length_take, length_drop. lia. Qed.

(** Consecutive writes are one. *)
Lemma splice_splice buf off b1 b2 :
  0 ≤ off → off + zlen b1 + zlen b2 ≤ zlen buf → splice (splice buf off b1) (off + zlen b1) b2 = splice buf off (b1 ++ b2).
Proof.
  intros H1 H2. pose proof (zlen_nonneg b1). pose proof (zlen_nonneg b2). unfold splice at 1.
  assert (E : take (Z.to_nat (off + zlen b1)) (splice buf off b1) = take (Z.to_nat off) buf ++ b1).
  { unfold splice. rewrite app_assoc, take_app_le by (rewrite length_app, length_take; unfold zlen in *; lia).
    rewrite take_ge; [done|]. rewrite length_app, length_take. unfold zlen in *. lia. }
  assert (E2 : drop (Z.to_nat (off + zlen b1 + zlen b2)) (splice buf off b1) = drop (Z.to_nat (off + zlen b1 + zlen b2)) buf).
  { unfold splice. rewrite app_assoc, drop_app_ge by (rewrite length_app, length_take; unfold zlen in *; lia).
    rewrite length_app, length_take, drop_drop. f_equal. unfold zlen in *. lia. }
  rewrite E, E2. unfold splice. rewrite <- !app_assoc. do 4 f_equal. rewrite zlen_app. lia.
Qed.

Lemma take_zlen {A} (l r : list A) : take (Z.to_nat (zlen l)) (l ++ r) = l.
Proof. unfold zlen. by rewrite Nat2Z.id, take_app_length. Qed.
Lemma drop_zlen {A} (l r : list A) : drop (Z.to_nat (zlen l)) (l ++ r) = r.
Proof. unfold zlen. by rewrite Nat2Z.id, drop_app_length. Qed.

(** Filling a buffer from its start. *)
Lemma splice_next buf b1 b2 o : o = zlen b1 → o + zlen b2 ≤ zlen buf → splice (splice buf 0 b1) o b2 = splice buf 0 (b1 ++ b2).
Proof. intros -> H. rewrite <- (Z.add_0_l (zlen b1)). by apply splice_splice. Qed.

(** Writing all of a buffer. *)
Lemma splice_all buf bs : zlen bs = zlen buf → splice buf 0 bs = bs.
Proof.
  intros H. unfold splice. change (Z.to_nat 0) with 0%nat. rewrite take_0, Z.add_0_l, H. unfold zlen. rewrite Nat2Z.id, drop_all.
  cbn. apply app_nil_r.
Qed.
Lemma splice_front bs rest new : zlen new = zlen bs → splice (bs ++ rest) 0 new = new ++ rest.
Proof.
  intros H. unfold splice. change (Z.to_nat 0) with 0%nat. by rewrite take_0, Z.add_0_l, H, drop_zlen.
Qed.
Lemma splice_at pre old post new : zlen new = zlen old → splice (pre ++ old ++ post) (zlen pre) new = pre ++ new ++ post.
Proof.
  intros H. unfold splice. by rewrite take_zlen, H, <- zlen_app, (app_assoc pre old), drop_zlen.
Qed.

(** ** One write *)

Lemma blk_write_ret m b d D off bs :
  b_datap b = Some d → dblks m !! d = Some D → 0 ≤ off → off + zlen bs ≤ zlen (db_buf D) →
  blk_write b off bs m = Ret tt (m <| dblks ::= <[d := D <| db_buf := splice (db_buf D) off bs |>]> |>).
Proof.
  intros Hd HD H0 Hle. unfold blk_write, datap. rewrite Hd. rewrite (bind_ret _ _ _ d m) by done.
  rewrite (bind_ret _ _ _ D m) by (unfold get_db; by rewrite HD).
  unfold write_at. rewrite (proj2 (andb_true_iff _ _)) by lia. unfold upd_db. by rewrite HD.
Qed.

Lemma blk_read_ret m b d D off n :
  b_datap b = Some d → dblks m !! d = Some D → 0 ≤ off → 0 ≤ n → off + n ≤ zlen (db_buf D) →
  blk_read b off n m = Ret (slice (db_buf D) (Z.to_nat off) (Z.to_nat n)) m.
Proof.
  intros Hd HD H0 Hn Hle. unfold blk_read, datap. rewrite Hd. rewrite (bind_ret _ _ _ d m) by done.
  rewrite (bind_ret _ _ _ D m) by (unfold get_db; by rewrite HD).
  by rewrite (proj2 (andb_true_iff _ _)) by (split; [apply andb_true_iff|]; lia).
Qed.

(** ** A block on top of a heap *)

(** The block [NBlk a] with the data [bs] and [k] bytes of [rest] behind them. *)
Record nblk := mkNblk {
  nb_cont : option node;
  nb_base : Z;
  nb_free : bool;
  nb_data : list Z;
  nb_rest : list Z
}.
#[export] Instance eta_nblk : Eta nblk := fun x => mkNblk (nb_cont x) (nb_base x) (nb_free x) (nb_data x) (nb_rest x).

Definition nb_blk (a : Z) (x : nblk) : mblk_t := mkMblk None None (nb_cont x) (Some (a + 1)) 0 (zlen (nb_data x)).
Definition nb_dblk (x : nblk) : dblk_t := mkDblk (nb_base x) (nb_data x ++ nb_rest x) (nb_free x) 1.

Definition put_blk (a : Z) (x : nblk) (m : Mem) : Mem :=
  m <| mblks ::= <[NBlk a := nb_blk a x]> |> <| dblks ::= <[a + 1 := nb_dblk x]> |>.

(** Nothing at the addresses of the block. *)
Definition clear (a : Z) (m : Mem) : Prop := mblks m !! NBlk a = None ∧ dblks m !! (a + 1) = None.

Lemma put_blk_get a x m : mblks (put_blk a x m) !! NBlk a = Some (nb_blk a x).
Proof. cbn. by rewrite lookup_insert_eq. Qed.
Lemma put_blk_db a x m : dblks (put_blk a x m) !! (a + 1) = Some (nb_dblk x).
Proof. cbn. by rewrite lookup_insert_eq. Qed.
Lemma put_blk_other a x m n : n ≠ NBlk a → mblks (put_blk a x m) !! n = mblks m !! n.
Proof. intros H. cbn. by rewrite lookup_insert_ne. Qed.

Lemma put_blk_again a x y m : put_blk a y (put_blk a x m) = put_blk a y m.
Proof. unfold put_blk. destruct m. cbn. f_equal; apply insert_insert_eq. Qed.

(** Blocks at different addresses. *)
Lemma put_blk_swap a c x y m : a ≠ c → put_blk a x (put_blk c y m) = put_blk c y (put_blk a x m).
Proof.
  intros H. unfold put_blk. destruct m. cbn. f_equal; apply insert_insert_ne; [congruence|lia].
Qed.
Lemma clear_put a c x m : a ≠ c → clear a m → clear a (put_blk c x m).
Proof. intros H [H1 H2]. split; cbn; rewrite lookup_insert_ne; try done; [congruence|lia]. Qed.

Lemma get_put a x m : get_blk (NBlk a) (put_blk a x m) = Ret (nb_blk a x) (put_blk a x m).
Proof. apply get_blk_ret, put_blk_get. Qed.

(** Changing the links or the pointers. *)
Lemma set_cont_put a x p m : set_cont (NBlk a) p (put_blk a x m) = Ret tt (put_blk a (x <| nb_cont := p |>) m).
Proof.
  unfold set_cont, upd_blk. rewrite put_blk_get. f_equal. unfold put_blk. destruct m. cbn. f_equal. apply insert_insert_eq.
Qed.

(** Growing the data over bytes behind it. *)
Lemma advance_put a x m k r1 r2 :
  nb_rest x = r1 ++ r2 → k = zlen r1 →
  upd_blk (NBlk a) (fun b => b <| b_wptr ::= (fun w => w + k) |>) (put_blk a x m) =
  Ret tt (put_blk a (x <| nb_data := nb_data x ++ r1 |> <| nb_rest := r2 |>) m).
Proof.
  intros Hr ->. unfold upd_blk. rewrite put_blk_get. f_equal. unfold put_blk. destruct m. cbn. f_equal.
  - rewrite insert_insert_eq. f_equal. unfold nb_blk. cbn. by rewrite zlen_app.
  - f_equal. unfold nb_dblk. cbn. by rewrite Hr, app_assoc.
Qed.

(** Writing inside the data, and behind it. *)
Lemma write_put a x m off bs :
  0 ≤ off → off + zlen bs ≤ zlen (nb_data x) →
  blk_write (nb_blk a x) off bs (put_blk a x m) = Ret tt (put_blk a (x <| nb_data := splice (nb_data x) off bs |>) m).
Proof.
  intros H0 H1. erewrite blk_write_ret; [|done|apply put_blk_db|done|cbn; rewrite zlen_app; pose proof (zlen_nonneg (nb_rest x)); lia].
  f_equal. unfold put_blk. destruct m. cbn. f_equal.
  - f_equal. unfold nb_blk. cbn. by rewrite splice_zlen.
  - rewrite insert_insert_eq. f_equal. unfold nb_dblk. cbn. f_equal. unfold splice.
    rewrite <- !app_assoc, take_app_le, drop_app_le by (unfold zlen in *; lia). done.
Qed.
Lemma write_put_rest a x m bs r1 r2 :
  nb_rest x = r1 ++ r2 → zlen bs = zlen r1 →
  blk_write (nb_blk a x) (zlen (nb_data x)) bs (put_blk a x m) = Ret tt (put_blk a (x <| nb_rest := bs ++ r2 |>) m).
Proof.
  intros Hr Hl. erewrite blk_write_ret; [|done|apply put_blk_db|apply zlen_nonneg|].
  2: { cbn. rewrite zlen_app, Hr, zlen_app. pose proof (zlen_nonneg r2). lia. }
  f_equal. unfold put_blk. destruct m. cbn. f_equal. rewrite insert_insert_eq. f_equal. unfold nb_dblk. cbn. f_equal.
  rewrite Hr. by apply splice_at.
Qed.

Lemma append_put a x m bs r1 r2 :
  nb_rest x = r1 ++ r2 → zlen bs = zlen r1 →
  blk_append (NBlk a) bs (put_blk a x m) = Ret tt (put_blk a (x <| nb_data := nb_data x ++ bs |> <| nb_rest := r2 |>) m).
Proof.
  intros Hr Hl. unfold blk_append. rewrite (bind_ret _ _ _ _ _ (get_put a x m)).
  change (b_wptr (nb_blk a x)) with (zlen (nb_data x)).
  rewrite (bind_ret _ _ _ _ _ (write_put_rest a x m bs r1 r2 Hr Hl)). by rewrite (advance_put a _ m (zlen bs) bs r2).
Qed.

(** Data added to a block, over the bytes behind its own. *)
Definition filled (x : nblk) (bs : list Z) : nblk := x <| nb_data := nb_data x ++ bs |> <| nb_rest := drop (length bs) (nb_rest x) |>.
Lemma filled_again x b1 b2 : filled (filled x b1) b2 = filled x (b1 ++ b2).
Proof. unfold filled. destruct x. cbn. by rewrite drop_drop, length_app, app_assoc. Qed.
Lemma filled_nil x : filled x [] = x.
Proof. unfold filled. destruct x. cbn. by rewrite app_nil_r, drop_0. Qed.
Lemma zlen_rest_filled x bs : zlen bs ≤ zlen (nb_rest x) → zlen (nb_rest (filled x bs)) = zlen (nb_rest x) - zlen bs.
Proof. intros H. unfold filled, zlen in *. cbn. rewrite length_drop. lia. Qed.
Lemma append_filled a x m bs : zlen bs ≤ zlen (nb_rest x) → blk_append (NBlk a) bs (put_blk a x m) = Ret tt (put_blk a (filled x bs) m).
Proof.
  intros H. apply (append_put a x m bs (take (length bs) (nb_rest x))); [by rewrite take_drop|]. unfold zlen in *. rewrite length_take. lia.
Qed.

(** The bytes of padding of [appendb]. *)
Definition pad_count (x : nblk) (bs : list Z) (pad : bool) : Z :=
  if pad then (4 - (nb_base x + zlen (nb_data x) + zlen bs) `rem` 4) `rem` 4 else 0.
Lemma pad_count_bound x bs pad : 0 ≤ pad_count x bs pad < 4.
Proof.
  unfold pad_count. destruct pad; [|lia]. set (z := nb_base x + _ + _).
  pose proof (Z.rem_bound_abs z 4 ltac:(lia)) as Hz. apply Z.rem_bound_pos; lia.
Qed.

(** [appendb] where there is room. *)
Lemma appendb_room buf_addr junk a x m bs pad : zlen bs + pad_count x bs pad ≤ zlen (nb_rest x) →
  appendb buf_addr junk (NBlk a) bs pad (put_blk a x m) =
  Ret (NBlk a) (put_blk a (filled x (bs ++ replicate (Z.to_nat (pad_count x bs pad)) 0)) m).
Proof.
  intros H. pose proof (pad_count_bound x bs pad) as Hp. pose proof (zlen_nonneg bs). unfold appendb. rewrite (bind_ret _ _ _ _ _ (get_put a x m)).
  rewrite (bind_ret _ _ _ (a + 1) (put_blk a x m)) by done.
  rewrite (bind_ret _ _ _ (nb_dblk x) (put_blk a x m)) by (unfold get_db; by rewrite put_blk_db).
  cbn [nb_dblk db_buf db_base nb_blk b_wptr]. fold (pad_count x bs pad).
  rewrite (proj2 (Z.ltb_ge (zlen (nb_data x ++ nb_rest x)) _)) by (rewrite zlen_app; lia).
  rewrite (bind_ret (mret (NBlk a)) _ _ (NBlk a) _) by done.
  rewrite (bind_ret _ _ _ _ _ (append_filled a x m bs ltac:(lia))).
  assert (Hr : zlen (replicate (Z.to_nat (pad_count x bs pad)) 0) = pad_count x bs pad) by (rewrite zlen_replicate; lia).
  rewrite (bind_ret _ _ _ tt (put_blk a (filled (filled x bs) (replicate (Z.to_nat (pad_count x bs pad)) 0)) m)).
  2: { apply append_filled. rewrite zlen_rest_filled; lia. }
  by rewrite filled_again.
Qed.
Lemma appendb_put buf_addr junk a x m bs r1 r2 :
  nb_rest x = r1 ++ r2 → zlen bs = zlen r1 →
  appendb buf_addr junk (NBlk a) bs false (put_blk a x m) =
  Ret (NBlk a) (put_blk a (x <| nb_data := nb_data x ++ bs |> <| nb_rest := r2 |>) m).
Proof.
  intros Hr Hl. rewrite appendb_room by (cbn [pad_count]; rewrite Hr, zlen_app; pose proof (zlen_nonneg r2); lia).
  change (Z.to_nat (pad_count x bs false)) with 0%nat. cbn [replicate]. rewrite app_nil_r. unfold filled.
  by rewrite Hr, drop_app_length' by (unfold zlen in Hl; lia).
Qed.

(** Reading inside the buffer. *)
Lemma read_put a x m off n :
  0 ≤ off → 0 ≤ n → off + n ≤ zlen (nb_data x ++ nb_rest x) →
  blk_read (nb_blk a x) off n (put_blk a x m) =
  Ret (slice (nb_data x ++ nb_rest x) (Z.to_nat off) (Z.to_nat n)) (put_blk a x m).
Proof. intros H0 H1 H2. by erewrite blk_read_ret; [|done|apply put_blk_db|..]. Qed.
Lemma read_put_all a x m :
  blk_read (nb_blk a x) 0 (zlen (nb_data x)) (put_blk a x m) = Ret (nb_data x) (put_blk a x m).
Proof.
  pose proof (zlen_nonneg (nb_data x)). pose proof (zlen_nonneg (nb_rest x)).
  rewrite read_put by (rewrite ?zlen_app; lia). f_equal. apply slice_app_l. unfold zlen. by rewrite Nat2Z.id.
Qed.

(** Allocating: fresh memory is junk. *)
Lemma put_new base buf freefn m :
  new_blk base buf freefn m = Ret (NBlk (brk m)) (put_blk (brk m) (mkNblk None base freefn [] buf) (m <| brk := brk m + 2 |>)).
Proof. done. Qed.
Lemma put_allocb (buf_addr : Z → Z) (junk : Z → Z → Z) size m :
  0 ≤ size → ∃ buf, zlen buf = size ∧ buf = map (junk (brk m + 1)) (seqZ 0 size) ∧
  allocb buf_addr junk size m = Ret (NBlk (brk m)) (put_blk (brk m) (mkNblk None (buf_addr (brk m + 1)) true [] buf) (m <| brk := brk m + 2 |>)).
Proof.
  intros H. eexists. split; [|split; [done|]].
  - unfold zlen. rewrite length_map, length_seqZ. lia.
  - unfold allocb. by rewrite (proj2 (Z.ltb_ge _ _)) by lia.
Qed.

(** Freeing gives back the heap below. *)
Lemma freeb_put a x m : nb_base x ≠ 0 → clear a m → freeb (NBlk a) (put_blk a x m) = Ret tt m.
Proof.
  intros Hb [H1 H2]. unfold freeb. rewrite (bind_ret _ _ _ _ _ (get_put a x m)). cbn [nb_blk b_datap].
  rewrite (bind_ret _ _ _ (nb_dblk x) (put_blk a x m)) by (unfold get_db; by rewrite put_blk_db).
  cbn [nb_dblk db_base]. rewrite (proj2 (Z.eqb_neq _ _)) by done.
  unfold upd_db at 1. unfold mbind at 1, CM_bind at 1. rewrite put_blk_db.
  unfold get_db. unfold mbind at 1, CM_bind at 1. cbn [dblks update]. unfold update.
  unfold mbind, mret, CM_bind, CM_ret, modify. cbn. rewrite lookup_insert_eq. cbn.
  change (i32 (1 - 1) =? 0) with true. cbn. destruct m. cbn in *. f_equal. f_equal.
  - by rewrite delete_insert_id.
  - by rewrite insert_insert_eq, delete_insert_id.
Qed.

Lemma free_put_last a x m : nb_base x ≠ 0 → nb_cont x = None → clear a m → freemsg (Some (NBlk a)) (put_blk a x m) = Ret tt m.
Proof.
  intros Hb Hc Hm. unfold freemsg. set (k := blocks _). assert (∃ k', k = S (S k')) as [k' ->].
  { subst k. unfold blocks. assert (size (mblks (put_blk a x m)) ≠ 0%nat) as H.
    { intros H%map_size_empty_inv. pose proof (put_blk_get a x m) as E. by rewrite H in E. }
    destruct (size _); [done|by eexists]. }
  cbn [freemsg_loop]. rewrite (bind_ret _ _ _ _ _ (get_put a x m)), (bind_ret _ _ _ _ _ (freeb_put a x m Hb Hm)).
  cbn [nb_blk b_cont]. by rewrite Hc.
Qed.

(** Freeing the first block of a message on top. *)
Lemma freemsg_loop_put fuel a x m :
  nb_base x ≠ 0 → clear a m → freemsg_loop (S fuel) (Some (NBlk a)) (put_blk a x m) = freemsg_loop fuel (nb_cont x) m.
Proof.
  intros Hb Hm. cbn [freemsg_loop]. by rewrite (bind_ret _ _ _ _ _ (get_put a x m)), (bind_ret _ _ _ _ _ (freeb_put a x m Hb Hm)).
Qed.
Lemma freemsg_loop_none fuel m : freemsg_loop (S fuel) None m = Ret tt m.
Proof. done. Qed.

(** A message of a header block at [a] and a payload block at [c]. *)
Definition put_two (a : Z) (x : nblk) (c : Z) (y : nblk) (m : Mem) : Mem :=
  put_blk a (x <| nb_cont := Some (NBlk c) |>) (put_blk c (y <| nb_cont := None |>) m).

Record clear_two (a c : Z) (m : Mem) : Prop := {
  ct_ne : a ≠ c;
  ct_a : clear a m;
  ct_c : clear c m
}.

Lemma free_put_two a x c y m :
  nb_base x ≠ 0 → nb_base y ≠ 0 → clear_two a c m → freemsg (Some (NBlk a)) (put_two a x c y m) = Ret tt m.
Proof.
  intros Hx Hy [Hne Ha Hc]. unfold freemsg, put_two. set (k := blocks _). assert (∃ k', k = S (S (S k'))) as [k' ->].
  { subst k. unfold blocks. cbn. rewrite !map_size_insert_None; [by eexists|apply Hc|].
    rewrite lookup_insert_ne; [apply Ha|congruence]. }
  rewrite freemsg_loop_put by (try done; by apply clear_put).
  change (nb_cont (x <| nb_cont := Some (NBlk c) |>)) with (Some (NBlk c)). by rewrite freemsg_loop_put.
Qed.

(** The size of a message of one or two blocks. *)
Lemma blocks_pos (m : Mem) n : alive m n → ∃ k, blocks m = S (S k).
Proof.
  intros [b Hb]. unfold blocks. destruct (size (mblks m)) eqn:E; [|by eexists].
  apply map_size_empty_inv in E. by rewrite E in Hb.
Qed.
Lemma nb_len a x : blk_len (nb_blk a x) = i32 (zlen (nb_data x)).
Proof. unfold blk_len. cbn. by rewrite Z.sub_0_r. Qed.

Lemma size_put_two a x c y m :
  clear_two a c m → zlen (nb_data x) + zlen (nb_data y) < 2 ^ 31 →
  msgdsize (Some (NBlk a)) (put_two a x c y m) = Ret (zlen (nb_data x) + zlen (nb_data y)) (put_two a x c y m).
Proof.
  intros [Hne Ha Hc] Hl. pose proof (zlen_nonneg (nb_data x)). pose proof (zlen_nonneg (nb_data y)). unfold msgdsize, put_two.
  set (k := blocks _). assert (∃ k', k = S (S (S k'))) as [k' ->].
  { subst k. unfold blocks. cbn. rewrite !map_size_insert_None; [by eexists|apply Hc|].
    rewrite lookup_insert_ne; [apply Ha|congruence]. }
  cbn [msgdsize_loop]. rewrite (bind_ret _ _ _ _ _ (get_put a _ _)), nb_len. cbn [nb_blk b_cont nb_cont update]. unfold update. cbn [nb_cont nb_data].
  rewrite put_blk_swap by done. cbn [msgdsize_loop]. rewrite (bind_ret _ _ _ _ _ (get_put c _ _)), nb_len.
  assert (E1 : i32 (zlen (nb_data x)) = zlen (nb_data x)) by (apply i32_id; unfold in_i32; lia).
  assert (E2 : i32 (zlen (nb_data y)) = zlen (nb_data y)) by (apply i32_id; unfold in_i32; lia).
  assert (E3 : i32 (zlen (nb_data x) + zlen (nb_data y)) = zlen (nb_data x) + zlen (nb_data y)) by (apply i32_id; unfold in_i32; lia).
  cbn. by rewrite E2, E1, Z.add_0_l, E1, E3.
Qed.

(** ** Writing into a new block *)

Lemma poke_new a x m off bs :
  nb_data x = [] → 0 ≤ off → off + zlen bs ≤ zlen (nb_rest x) →
  blk_write (nb_blk a x) off bs (put_blk a x m) = Ret tt (put_blk a (x <| nb_rest := splice (nb_rest x) off bs |>) m).
Proof.
  intros Hd H0 Hl. erewrite blk_write_ret; [|done|apply put_blk_db|done|cbn; by rewrite Hd].
  f_equal. unfold put_blk. destruct m. cbn. f_equal. rewrite insert_insert_eq. f_equal. unfold nb_dblk. cbn. by rewrite Hd.
Qed.

(** ** A block below the new ones, and a duplicate of it *)

(** [d] is one block [b] with its data in [D] at [k]. *)
Record chunk (d : node) (b : mblk_t) (k : Z) (D : dblk_t) (m : Mem) : Prop := {
  ch_blk : mblks m !! d = Some b;
  ch_cont : b_cont b = None;
  ch_datap : b_datap b = Some k;
  ch_db : dblks m !! k = Some D;
  ch_base : db_base D ≠ 0;
  ch_ptrs : 0 ≤ b_rptr b ≤ b_wptr b;
  ch_len : b_wptr b ≤ zlen (db_buf D);
  ch_refs : 0 < ref_count D < 2 ^ 31 - 1
}.
Definition chunk_data (b : mblk_t) (D : dblk_t) : list Z := slice (db_buf D) (Z.to_nat (b_rptr b)) (Z.to_nat (b_wptr b - b_rptr b)).

Lemma zlen_chunk d b k D m : chunk d b k D m → zlen (chunk_data b D) = b_wptr b - b_rptr b.
Proof. intros [_ _ _ _ _ H1 H2 _]. unfold chunk_data, zlen in *. rewrite slice_length; lia. Qed.

Lemma chunk_put d b k D m a x : d ≠ NBlk a → k ≠ a + 1 → chunk d b k D m → chunk d b k D (put_blk a x m).
Proof. intros Hd Hk [H1 H2 H3 H4 H5 H6 H7 H8]. split; try done; cbn; by rewrite lookup_insert_ne. Qed.

(** Writing what is there. *)
Lemma chunk_write_same d b k D m bs rest : chunk d b k D m → chunk_data b D = bs ++ rest → blk_write b (b_rptr b) bs m = Ret tt m.
Proof.
  intros C Hbs. pose proof (zlen_chunk d b k D m C) as Hz. destruct C as [H1 H2 H3 H4 H5 H6 H7 H8].
  rewrite Hbs, zlen_app in Hz. pose proof (zlen_nonneg bs). pose proof (zlen_nonneg rest).
  rewrite (blk_write_ret m b k D) by (done || lia). f_equal.
  assert (E : splice (db_buf D) (b_rptr b) bs = db_buf D).
  { unfold splice. rewrite <- (take_drop (Z.to_nat (b_rptr b)) (db_buf D)) at 3. f_equal.
    assert (Hp : take (Z.to_nat (b_wptr b - b_rptr b)) (drop (Z.to_nat (b_rptr b)) (db_buf D)) = bs ++ rest) by done.
    rewrite <- (take_drop (length bs) (drop (Z.to_nat (b_rptr b)) (db_buf D))). f_equal.
    - assert (Ht : take (length bs) (bs ++ rest) = bs) by by rewrite take_app_length.
      rewrite <- Ht at 1. rewrite <- Hp, take_take. f_equal. unfold zlen in *. lia.
    - rewrite drop_drop. f_equal. unfold zlen in *. lia. }
  rewrite E. destruct m. cbn in *. f_equal. apply insert_id. rewrite H4. by destruct D.
Qed.

(** A new block [a] on the data of [b]. *)
Definition put_dup (a : Z) (b : mblk_t) (k : Z) (D : dblk_t) (m : Mem) : Mem :=
  m <| mblks ::= <[NBlk a := mkMblk None None None (Some k) (b_rptr b) (b_wptr b)]> |>
    <| dblks ::= <[k := D <| ref_count := ref_count D + 1 |>]> |>.

Lemma put_dup_swap a b k D c x m : a ≠ c → k ≠ c + 1 → put_dup a b k D (put_blk c x m) = put_blk c x (put_dup a b k D m).
Proof. intros H1 H2. unfold put_dup, put_blk. destruct m. cbn. f_equal; apply insert_insert_ne; congruence. Qed.

Lemma dupmsg_chunk d b k D m : chunk d b k D m → mblks m !! NBlk (brk m) = None →
  dupmsg d m = Ret (Some (NBlk (brk m))) ((put_dup (brk m) b k D m) <| brk := brk m + 1 |>).
Proof.
  intros [H1 H2 H3 H4 H5 H6 H7 H8] Hn. unfold dupmsg, copy_all.
  assert (E : dupb d m = Ret (Some (NBlk (brk m))) ((put_dup (brk m) b k D m) <| brk := brk m + 1 |>)).
  { unfold dupb. rewrite (bind_ret _ _ _ b m) by by apply get_blk_ret. rewrite H3.
    rewrite (bind_ret _ _ _ D m) by by unfold get_db; rewrite H4. rewrite (proj2 (Z.eqb_neq _ _)) by done.
    assert (Ei : i32 (ref_count D + 1) = ref_count D + 1) by (apply i32_id; unfold in_i32; lia).
    rewrite (bind_ret _ _ _ tt (m <| dblks ::= <[k := D <| ref_count := ref_count D + 1 |>]> |>)) by (unfold upd_db; by rewrite H4, Ei).
    by destruct m. }
  rewrite (bind_ret _ _ _ _ _ E). set (m1 := _ <| brk := _ |>).
  assert (E1 : mblks m1 !! d = Some b) by (cbn; rewrite lookup_insert_ne; [done|congruence]).
  rewrite (bind_ret _ _ _ b m1) by by apply get_blk_ret. rewrite H2. unfold blocks. destruct (S (size (mblks m))) eqn:Es; [done|]. done.
Qed.

Lemma get_dup a b k D m : get_blk (NBlk a) (put_dup a b k D m) = Ret (mkMblk None None None (Some k) (b_rptr b) (b_wptr b)) (put_dup a b k D m).
Proof. apply get_blk_ret. cbn. by rewrite lookup_insert_eq. Qed.

Lemma read_dup a b k D d m : chunk d b k D m →
  blk_read (mkMblk None None None (Some k) (b_rptr b) (b_wptr b)) (b_rptr b) (b_wptr b - b_rptr b) (put_dup a b k D m) =
  Ret (chunk_data b D) (put_dup a b k D m).
Proof.
  intros [H1 H2 H3 H4 H5 H6 H7 H8].
  by rewrite (blk_read_ret _ _ k (D <| ref_count := ref_count D + 1 |>)) by (done || (cbn; by rewrite lookup_insert_eq) || lia || (cbn; lia)).
Qed.

Lemma freeb_dup a b k D d m : chunk d b k D m → mblks m !! NBlk a = None → freeb (NBlk a) (put_dup a b k D m) = Ret tt m.
Proof.
  intros [H1 H2 H3 H4 H5 H6 H7 H8] Hn. unfold freeb. rewrite (bind_ret _ _ _ _ _ (get_dup a b k D m)). cbn [b_datap].
  set (D1 := D <| ref_count := ref_count D + 1 |>).
  assert (E1 : dblks (put_dup a b k D m) !! k = Some D1) by (cbn; by rewrite lookup_insert_eq).
  rewrite (bind_ret _ _ _ D1 (put_dup a b k D m)) by (unfold get_db; by rewrite E1).
  change (db_base D1) with (db_base D). rewrite (proj2 (Z.eqb_neq _ _)) by done.
  assert (Ei : i32 (ref_count D1 - 1) = ref_count D) by (unfold D1; cbn; replace (ref_count D + 1 - 1) with (ref_count D) by lia; apply i32_id; unfold in_i32; lia).
  set (m2 := (put_dup a b k D m) <| dblks ::= <[k := D]> |>).
  rewrite (bind_ret _ _ _ tt m2) by (unfold upd_db; rewrite E1, Ei; by destruct D).
  rewrite (bind_ret _ _ _ D m2) by (unfold get_db; cbn; by rewrite lookup_insert_eq).
  rewrite (proj2 (Z.eqb_neq _ _)) by lia. unfold m2. destruct m. cbn in *. unfold modify, mbind, CM_bind, mret, CM_ret. cbn. f_equal.
  f_equal; [by rewrite delete_insert_id|]. rewrite insert_insert_eq. by apply insert_id.
Qed.

(** Freshness by inspection. *)
Lemma fresh_check m :
  Forall (fun n => match n with NBlk a => a < brk m | _ => True end) (map_to_list (mblks m)).*1 →
  Forall (fun d => d < brk m) (map_to_list (dblks m)).*1 → fresh m.
Proof.
  intros H1 H2 a Ha. rewrite Forall_forall in H1; rewrite Forall_forall in H2. split.
  - destruct (mblks m !! NBlk a) as [b|] eqn:E; [|done]. apply elem_of_map_to_list, (list_elem_of_fmap_2 fst) in E. apply H1 in E. cbn in E. lia.
  - destruct (dblks m !! a) as [D|] eqn:E; [|done]. apply elem_of_map_to_list, (list_elem_of_fmap_2 fst) in E. apply H2 in E. cbn in E. lia.
Qed.

(** ** Three blocks: two new ones and a duplicate *)

Lemma blocks_put a x m : clear a m → blocks (put_blk a x m) = S (blocks m).
Proof. intros [H _]. unfold blocks. cbn. by rewrite map_size_insert_None. Qed.
Lemma blocks_dup a b k D m : mblks m !! NBlk a = None → blocks (put_dup a b k D m) = S (blocks m).
Proof. intros H. unfold blocks. cbn. by rewrite map_size_insert_None. Qed.
Lemma blocks_S m : ∃ k, blocks m = S k.
Proof. unfold blocks. by eexists. Qed.
Lemma clear_dup a c b k D m : a ≠ c → k ≠ a + 1 → clear a m → clear a (put_dup c b k D m).
Proof. intros H Hk [H1 H2]. split; cbn; rewrite lookup_insert_ne; congruence. Qed.

Section Three.
Context (n : Z) (d : node) (b : mblk_t) (k : Z) (D : dblk_t) (m : Mem).
Hypotheses (Hf : fresh m) (Hn : n = brk m) (C : chunk d b k D m).

(** The blocks at [n + 2] and [n + 4], and the one at [n] before them. *)
Definition put_tail (y : nblk) (m0 : Mem) : Mem := put_blk (n + 2) (y <| nb_cont := Some (NBlk (n + 4)) |>) (put_dup (n + 4) b k D m0).
Definition put_three (x y : nblk) (m0 : Mem) : Mem := put_blk n (x <| nb_cont := Some (NBlk (n + 2)) |>) (put_tail y m0).

Lemma fresh_clear a j : n ≤ a → clear a (m <| brk := j |>).
Proof. intros Ha. split; cbn; apply Hf; lia. Qed.
Lemma chunk_old : d ≠ NBlk n ∧ d ≠ NBlk (n + 2) ∧ d ≠ NBlk (n + 4) ∧ k < n.
Proof.
  destruct C as [H1 _ _ H4 _ _ _ _]. split_and!; try (intros ->; destruct (Hf n) as [? _]; [lia|congruence]).
  - intros ->. destruct (Hf (n + 2)) as [? _]; [lia|congruence].
  - intros ->. destruct (Hf (n + 4)) as [? _]; [lia|congruence].
  - destruct (decide (k < n)); [done|]. destruct (Hf k) as [_ ?]; [lia|congruence].
Qed.
Lemma chunk_brk j : chunk d b k D (m <| brk := j |>).
Proof. destruct C. by split. Qed.

Lemma free_three x y j : nb_base x ≠ 0 → nb_base y ≠ 0 →
  freemsg (Some (NBlk n)) (put_three x y (m <| brk := j |>)) = Ret tt (m <| brk := j |>).
Proof.
  intros Hx Hy. destruct chunk_old as (O1 & O2 & O3 & O4). set (m0 := m <| brk := j |>).
  assert (C1 : clear n m0) by (apply fresh_clear; lia). assert (C2 : clear (n + 2) m0) by (apply fresh_clear; lia).
  assert (C4 : clear (n + 4) m0) by (apply fresh_clear; lia).
  assert (C2' : clear (n + 2) (put_dup (n + 4) b k D m0)) by (apply clear_dup; [lia|lia|done]).
  assert (C1' : clear n (put_tail y m0)) by (apply clear_put; [lia|]; apply clear_dup; [lia|lia|done]).
  unfold freemsg, put_three. rewrite blocks_put by done. unfold put_tail at 1. rewrite blocks_put by done. rewrite blocks_dup by apply C4.
  destruct (blocks_S m0) as [f ->]. rewrite freemsg_loop_put by done.
  change (nb_cont (x <| nb_cont := Some (NBlk (n + 2)) |>)) with (Some (NBlk (n + 2))). unfold put_tail. rewrite freemsg_loop_put by done.
  change (nb_cont (y <| nb_cont := Some (NBlk (n + 4)) |>)) with (Some (NBlk (n + 4))).
  cbn [freemsg_loop]. rewrite (bind_ret _ _ _ _ _ (get_dup (n + 4) b k D m0)).
  rewrite (bind_ret _ _ _ tt m0); [done|]. apply (freeb_dup _ _ _ _ d); [apply chunk_brk|apply C4].
Qed.

(** The size of the last two. *)
Lemma size_tail x y j : zlen (nb_data y) + zlen (chunk_data b D) < 2 ^ 31 →
  let h := put_blk n x (put_tail y (m <| brk := j |>)) in
  msgdsize (Some (NBlk (n + 2))) h = Ret (zlen (nb_data y) + zlen (chunk_data b D)) h.
Proof.
  intros Hlt h. destruct chunk_old as (O1 & O2 & O3 & O4). set (m0 := m <| brk := j |>) in *.
  pose proof (zlen_nonneg (nb_data y)). pose proof (zlen_nonneg (chunk_data b D)).
  assert (Ey : mblks h !! NBlk (n + 2) = Some (nb_blk (n + 2) (y <| nb_cont := Some (NBlk (n + 4)) |>))).
  { unfold h. rewrite put_blk_other by (intros [= ?]; lia). apply put_blk_get. }
  assert (Ed : mblks h !! NBlk (n + 4) = Some (mkMblk None None None (Some k) (b_rptr b) (b_wptr b))).
  { unfold h, put_tail. rewrite !put_blk_other by (intros [= ?]; lia). cbn. by rewrite lookup_insert_eq. }
  unfold msgdsize, blocks. assert (∃ f, S (size (mblks h)) = S (S (S f))) as [f ->].
  { assert (clear (n + 2) (put_dup (n + 4) b k D m0)) as [Hc _] by (apply clear_dup; [lia|lia|apply fresh_clear; lia]).
    assert (clear n (put_tail y m0)) as [Hc' _] by (apply clear_put; [lia|]; apply clear_dup; [lia|lia|apply fresh_clear; lia]).
    eexists. unfold h. cbn -[put_tail]. rewrite map_size_insert_None by done. unfold put_tail. cbn. by rewrite map_size_insert_None by done. }
  cbn [msgdsize_loop]. rewrite (bind_ret _ _ _ _ _ (get_blk_ret _ _ _ Ey)), nb_len. cbn [b_cont nb_blk].
  change (nb_cont (y <| nb_cont := Some (NBlk (n + 4)) |>)) with (Some (NBlk (n + 4))).
  cbv beta iota. rewrite (bind_ret _ _ _ _ _ (get_blk_ret _ _ _ Ed)). cbn [b_cont]. unfold blk_len. cbn [b_wptr b_rptr].
  rewrite <- (zlen_chunk d b k D m C). change (nb_data (y <| nb_cont := Some (NBlk (n + 4)) |>)) with (nb_data y).
  rewrite Z.add_0_l, (i32_id (zlen (nb_data y))), (i32_id (zlen (nb_data y))), (i32_id (zlen (chunk_data b D))), i32_id by (unfold in_i32; lia). done.
Qed.
End Three.
