(* ===== verification/RtpMod.v ===== *)
(** * The ordered queue of received packets ([utils/ortp/src/rtpmod.c], [rtpparse.c], [rtp.h])

    A received packet is a message of two blocks, header and payload, over one
    data block. [rtp_putq] sorts it by sequence number into the queue, [rtp_getq]
    takes out the packet for a timestamp, [split_and_queue] splits, queues and
    bounds the queue. The headers in the queue are in host order (little endian). *)

From Stdlib Require Import Sorting.Sorted.
From S2P Require Import Prelude StrUtils.

(** ** Headers *)

Definition RTP_FIXED_HEADER_SIZE : Z := 12.

(** [n] bytes of the header at [b_rptr], from [off]. *)
Definition rtp_field (off n : Z) (mp : node) : CM Mem Z :=
  b ← get_blk mp; bs ← blk_read b (b_rptr b + off) n; mret (le_val bs).
Definition seq_number : node → CM Mem Z := rtp_field 2 2.
Definition timestamp : node → CM Mem Z := rtp_field 4 4.
Definition cc (mp : node) : CM Mem Z := c ← rtp_field 0 1 mp; mret (c `mod` 16).

Definition RTP_SEQ_IS_GREATER (seq1 seq2 : Z) : bool := u16 (u16 seq1 - u16 seq2) <? 2 ^ 15.
Definition RTP_TIMESTAMP_IS_NEWER_THAN (ts1 ts2 : Z) : bool := u32 (u32 ts1 - u32 ts2) <? 2 ^ 31.
Definition RTP_TIMESTAMP_IS_STRICTLY_NEWER_THAN (ts1 ts2 : Z) : bool :=
  (u32 (u32 ts1 - u32 ts2) <? 2 ^ 31) && negb (ts1 =? ts2).

(** ** Putting *)

(** From [tmp] towards the oldest packet. *)
Fixpoint putq_walk (fuel : nat) (q : Z) (mp : node) (tmp : option node) : CM Mem unit :=
  match fuel with
  | O => block
  | S fuel =>
      if qend q tmp then f ← qfirst q; insq q f mp
      else
        t ← deref tmp;
        seq ← seq_number mp;
        tmpseq ← seq_number t;
        if seq =? tmpseq then freemsg (Some mp)
        else if RTP_SEQ_IS_GREATER seq tmpseq then n ← next_of t; insq q n mp
        else p ← prev_of t; putq_walk fuel q mp p
  end.

Definition rtp_putq (q : Z) (mp : node) : CM Mem unit := fun m =>
  (e ← qempty q;
   if (e : bool) then putq q mp
   else tmp ← qlast q; putq_walk (blocks m) q mp tmp) m.

(** ** Getting *)

Fixpoint getq_loop (fuel : nat) (q ts : Z) (ret old : option node) (ts_found rejected : Z) : CM Mem (option node * Z) :=
  match fuel with
  | O => block
  | S fuel =>
      tmp ← qfirst q;
      match tmp with
      | None => mret (ret, rejected)
      | Some t =>
          tmpts ← timestamp t;
          if RTP_TIMESTAMP_IS_NEWER_THAN ts tmpts then
            if bool_decide (ret ≠ None) && (tmpts =? ts_found) then mret (ret, rejected)
            else
              _ ← (if bool_decide (old ≠ None) then freemsg old else mret tt);
              ret ← getq q;
              ts_found ← timestamp t;
              getq_loop fuel q ts ret ret ts_found (if bool_decide (old ≠ None) then i32 (rejected + 1) else rejected)
          else mret (ret, rejected)
      end
  end.

Definition rtp_getq (q ts : Z) : CM Mem (option node * Z) := fun m =>
  (e ← qempty q;
   if (e : bool) then mret (None, 0)
   else
     f ← qfirst q;
     f ← deref f;
     oldest ← timestamp f;
     if RTP_TIMESTAMP_IS_STRICTLY_NEWER_THAN oldest ts then mret (None, 0)
     else getq_loop (blocks m) q ts None None 0 0) m.

(** ** Splitting *)

Fixpoint bound_loop (fuel : nat) (q maxrqsz : Z) (mp : option node) (discarded : Z) : CM Mem Z :=
  match fuel with
  | O => block
  | S fuel =>
      c ← gets (fun m => q_mcount m !! q);
      match c with
      | None => fault_with UseAfterFree
      | Some c =>
          if maxrqsz <? c then
            tmp ← getq q;
            match mp with
            | Some _ => _ ← freemsg tmp; bound_loop fuel q maxrqsz mp (i32 (discarded + 1))
            | None => bound_loop fuel q maxrqsz mp discarded
            end
          else mret discarded
      end
  end.

Definition bound_queue (q maxrqsz : Z) (mp : option node) : CM Mem Z := fun m => bound_loop (blocks m) q maxrqsz mp 0 m.

(** A second block on the same data, behind [mp], for what follows the header. *)
Definition split_packet (mp : node) (header_size : Z) : CM Mem unit :=
  mdata ← dupb mp;
  _ ← upd_blk mp (fun b => b <| b_wptr := b_rptr b + header_size |>);
  mdata' ← deref mdata;
  _ ← upd_blk mdata' (fun b => b <| b_rptr ::= (fun r => r + header_size) |>);
  set_cont mp mdata.

(** The result is [*discarded]. *)
Definition split_and_queue (q maxrqsz : Z) (mp : node) : CM Mem Z :=
  c ← cc mp;
  let header_size := RTP_FIXED_HEADER_SIZE + 4 * c in
  b ← get_blk mp;
  if b_wptr b - b_rptr b =? header_size then
    _ ← freemsg (Some mp);
    mret 1
  else
    _ ← split_packet mp header_size;
    _ ← rtp_putq q mp;
    bound_queue q maxrqsz (Some mp).

(** * Packets and queues of packets *)

(** The header block with its bytes, and the blocks behind it. *)
Definition packet : Type := (node * list Z) * list (node * list Z).
Definition pk_msg (p : packet) : list (node * list Z) := p.1 :: p.2.
Definition pk_node (p : packet) : node := p.1.1.
Definition pk_nodes (p : packet) : list node := (pk_msg p).*1.
Definition pk_seq (p : packet) : Z := le_val (slice p.1.2 2 2).
Definition pk_ts (p : packet) : Z := le_val (slice p.1.2 4 4).

Record packet_ok (m : Mem) (p : packet) : Prop := {
  pk_is_msg : msg m (Some (pk_node p)) (pk_msg p);
  pk_header : RTP_FIXED_HEADER_SIZE ≤ zlen p.1.2;
  pk_bytes : Forall byte_ok p.1.2
}.

(** The queue [q] holds the packets [ps], oldest first. *)
Record rqueue (m : Mem) (q : Z) (ps : list packet) : Prop := {
  rq_rep : qrep m q (pk_node <$> ps);
  rq_pk : Forall (packet_ok m) ps;
  rq_sep : NoDup (ps ≫= pk_nodes)
}.

(** What an operation on [q] may do when it frees the blocks [X]: it touches only
    the nodes [L] and the ends of [q], and leaves the messages outside [X] readable. *)
Record rq_step (q : Z) (L X : list node) (m m' : Mem) : Prop := {
  st_same n : n ≠ NFirst q → n ≠ NLast q → n ∉ L → mblks m' !! n = mblks m !! n;
  st_count q' : q' ≠ q → q_mcount m' !! q' = q_mcount m !! q';
  st_msg p l : msg m p l → (∀ n, n ∈ l.*1 → n ∉ X) → msg m' p l;
  st_freed n : n ∈ X → mblks m' !! n = None;
  st_dead n : mblks m !! n = None → mblks m' !! n = None;
  st_wf : mem_wf m';
  st_brk : brk m' = brk m
}.

Lemma rq_step_refl q m : mem_wf m → rq_step q [] [] m m.
Proof. intros W. split; try done. set_solver. Qed.

Lemma rq_step_trans q L1 X1 L2 X2 m1 m2 m3 :
  rq_step q L1 X1 m1 m2 → rq_step q L2 X2 m2 m3 → rq_step q (L1 ++ L2) (X1 ++ X2) m1 m3.
Proof.
  intros [A1 A2 A3 A4 A5 A6 A7] [B1 B2 B3 B4 B5 B6 B7]. split; [| | | |auto|done|congruence].
  - intros n ? ? Hn. rewrite B1, A1 by set_solver. done.
  - intros q' Hq. by rewrite B2, A2.
  - intros p l Hm Hl. apply B3; [apply A3; [done|]|]; intros n Hn%Hl; set_solver.
  - intros n [H|H]%elem_of_app; [by apply B5, A4|by apply B4].
Qed.

Lemma rq_step_weaken q L1 L2 X m m' : (∀ n, n ∈ L1 → n ∈ L2) → rq_step q L1 X m m' → rq_step q L2 X m m'.
Proof. intros H [A1 A2 A3 A4 A5 A6 A7]. split; try done. intros n ? ? Hn. apply A1; [done|done|]. intros Hx. by apply Hn, H. Qed.

(** Relinking keeps messages and the heap. *)
Lemma payload_inv m m' n b : blk_payload m' n = blk_payload m n → mblks m' !! n = Some b → ∃ b0, mblks m !! n = Some b0 ∧ strip b0 = strip b.
Proof. unfold blk_payload. intros E H. rewrite H in E. destruct (mblks m !! n) as [b0|]; [|done]. apply (inj Some) in E. exists b0. split; [done|by symmetry]. Qed.

Lemma mem_wf_relinked P m m' : relinked P m m' → mem_wf m → mem_wf m'.
Proof.
  intros [Hp Hs Hd Hb] W. assert (Hr : ∀ d, refs (mblks m') d = refs (mblks m) d) by (intros d; by apply refs_payload).
  assert (Hi : ∀ n b, mblks m' !! n = Some b → ∃ b0, mblks m !! n = Some b0 ∧ b_datap b0 = b_datap b ∧ b_wptr b0 = b_wptr b).
  { intros n b H. destruct (payload_inv m m' n b (Hp n) H) as (b0 & H0 & [= ? ? ? E]). by exists b0. }
  split.
  - intros n b d H E. destruct (Hi _ _ H) as (b0 & H0 & E0 & _). rewrite Hd. apply (wf_data _ W n b0); congruence.
  - intros d D. rewrite Hd, Hr. apply (wf_refs _ W).
  - intros n b d D H E. destruct (Hi _ _ H) as (b0 & H0 & E0 & Ew). rewrite Hd, <- Ew. apply (wf_ptr _ W n b0); congruence.
  - intros n b H E. destruct (Hi _ _ H) as (b0 & H0 & E0 & _). apply (wf_sent _ W n b0); congruence.
  - intros a. rewrite Hb, Hd. intros [H1 H2]%(wf_fresh _ W). split; [|done]. specialize (Hp (NBlk a)). unfold blk_payload in Hp.
    rewrite H1 in Hp. by destruct (mblks m' !! NBlk a).
  - intros d. rewrite Hr, Hb. apply (wf_few _ W).
Qed.

Lemma msg_relinked P m m' p l : relinked P m m' → msg m p l → msg m' p l.
Proof.
  intros [Hp _ Hd _]. revert p. induction l as [|[n bs] l IH]; intros p; [done|]. cbn. intros (-> & b & Hb & Hdat & Hm).
  split; [done|]. destruct (payload_inv m' m n b (eq_sym (Hp n)) Hb) as (b' & Hb' & E). unfold strip in E. cbn in E.
  injection E as E1 E2 E3 E4. exists b'. split_and!; [done| |rewrite E1; by apply IH].
  destruct Hdat as (d & D & ?). exists d, D. rewrite E2, E3, E4, Hd. done.
Qed.

Lemma step_relinked q l m m' : queue_step q l m m' → mem_wf m → rq_step q l [] m m'.
Proof.
  intros [R Hc] W. pose proof R as [Hp Hs Hd Hb]. split; [|done| |set_solver| |by eapply mem_wf_relinked|done].
  - intros n ? ? ?. apply Hs. unfold own_nodes. tauto.
  - intros p l' Hm _. by eapply msg_relinked.
  - intros n Hn. specialize (Hp n). unfold blk_payload in Hp. rewrite Hn in Hp. by destruct (mblks m' !! n).
Qed.

(** Freeing a message leaves the others. *)
Lemma step_freemsg q p l m :
  mem_wf m → brk m < 2 ^ 31 → msg m p l → ∃ m', freemsg p m = Ret tt m' ∧ rq_step q l.*1 l.*1 m m' ∧ q_mcount m' = q_mcount m ∧
    (∀ n, n ∉ l.*1 → mblks m' !! n = mblks m !! n).
Proof.
  intros W L Hm. destruct (freemsg_ret p l m W L Hm) as (m' & E & W' & B & Q & N & U & D). exists m'.
  split; [done|]. split; [|done]. split; [by auto|by rewrite Q| |done| |done|done].
  - intros p' l' Hm' Hl'. revert p' Hm' Hl'. induction l' as [|[n bs] l' IH]; intros p'; [done|]. cbn.
    intros (-> & b & Hb & Hdat & Hm') Hl'. split; [done|]. exists b.
    assert (Hb' : mblks m' !! n = Some b) by (rewrite U by (apply Hl'; set_solver); done).
    split_and!; [done| |apply IH; [done|intros x Hx; apply Hl'; set_solver]].
    destruct Hdat as (d & D0 & G1 & G2 & G3). destruct (wf_data _ W' n b d Hb' G1) as [D' HD'].
    destruct (D _ _ HD') as (D1 & G4 & G5 & G6 & _). simplify_eq. exists d, D'. by rewrite G5, G6.
  - intros n Hn. destruct (decide (n ∈ l.*1)); [by apply N|by rewrite U].
Qed.

(** ** Reading a header *)

Lemma blk_read_slice m b bs off n :
  has_data m b bs → 0 ≤ off → 0 ≤ n → off + n ≤ zlen bs →
  blk_read b (b_rptr b + off) n m = Ret (slice bs (Z.to_nat off) (Z.to_nat n)) m.
Proof.
  intros Hdat Ho Hn Hlen. destruct (has_data_len _ _ _ Hdat) as (El & _ & _).
  destruct Hdat as (d & D & Ed & ED & _ & Hr & Hw & _ & ->). unfold blk_read, datap. rewrite Ed.
  rewrite (bind_ret _ _ _ d m) by done. rewrite (bind_ret _ _ _ D m) by (unfold get_db; by rewrite ED).
  replace (_ && _) with true by (symmetry; repeat (apply andb_true_intro; split); apply Z.leb_le; lia).
  unfold mret, CM_ret. f_equal. unfold slice. rewrite skipn_firstn_comm, take_take, drop_drop.
  f_equal; [lia|]. f_equal. lia.
Qed.

Lemma rtp_field_ret m p off n :
  packet_ok m p → 0 ≤ off → 0 ≤ n → off + n ≤ 12 →
  rtp_field off n (pk_node p) m = Ret (le_val (slice p.1.2 (Z.to_nat off) (Z.to_nat n))) m.
Proof.
  intros [Hm Hh _] Ho Hn Hlt. unfold RTP_FIXED_HEADER_SIZE in Hh. destruct p as [[x bs] l]. cbn in *. destruct Hm as (_ & b & Hb & Hdat & _).
  unfold rtp_field. cbn. rewrite (bind_ret _ _ _ b m) by by apply get_blk_ret.
  rewrite (bind_ret _ _ _ _ _ (blk_read_slice m b bs off n Hdat Ho Hn ltac:(lia))). done.
Qed.
Lemma seq_ret m p : packet_ok m p → seq_number (pk_node p) m = Ret (pk_seq p) m.
Proof. intros H. by apply (rtp_field_ret m p 2 2). Qed.
Lemma ts_ret m p : packet_ok m p → timestamp (pk_node p) m = Ret (pk_ts p) m.
Proof. intros H. by apply (rtp_field_ret m p 4 4). Qed.

Lemma slice_bytes_ok l o n : Forall byte_ok l → Forall byte_ok (slice l o n).
Proof. intros H. unfold slice. by apply Forall_take, Forall_drop. Qed.
Lemma pk_seq_range m p : packet_ok m p → in_u16 (pk_seq p).
Proof.
  intros [_ Hh Hb]. unfold in_u16, pk_seq. pose proof (le_val_range _ (slice_bytes_ok p.1.2 2 2 Hb)) as H.
  unfold RTP_FIXED_HEADER_SIZE, zlen in *. rewrite slice_length in H by lia. done.
Qed.
Lemma pk_ts_range m p : packet_ok m p → in_u32 (pk_ts p).
Proof.
  intros [_ Hh Hb]. unfold in_u32, pk_ts. pose proof (le_val_range _ (slice_bytes_ok p.1.2 4 4 Hb)) as H.
  unfold RTP_FIXED_HEADER_SIZE, zlen in *. rewrite slice_length in H by lia. done.
Qed.

(** ** Inserting and removing packets *)

Lemma msg_nodes_blk m p l : mem_wf m → msg m p l → Forall is_blk l.*1.
Proof.
  intros W. revert p. induction l as [|[n bs] l IH]; intros p; [constructor|]. cbn. intros (_ & b & Hb & (d & D & Ed & _) & Hm).
  constructor; [|by eapply IH]. apply (wf_sent _ W n b Hb). congruence.
Qed.
Lemma packet_blk m p : mem_wf m → packet_ok m p → is_blk (pk_node p).
Proof. intros W Hp. pose proof (msg_nodes_blk _ _ _ W (pk_is_msg _ _ Hp)) as H. cbn in H. by apply Forall_cons in H as [? _]. Qed.

Lemma packet_step q L X m m' p :
  rq_step q L X m m' → (∀ n, n ∈ pk_nodes p → n ∉ X) → packet_ok m p → packet_ok m' p.
Proof. intros S H [A1 A2 A3]. split; [by eapply st_msg|done|done]. Qed.

Definition all_nodes (ps : list packet) : list node := ps ≫= pk_nodes.
Definition apart (p : packet) (ps : list packet) : Prop := ∀ n, n ∈ pk_nodes p → n ∉ all_nodes ps.

Lemma all_nodes_app ps1 ps2 : all_nodes (ps1 ++ ps2) = all_nodes ps1 ++ all_nodes ps2.
Proof. apply bind_app. Qed.
Lemma all_nodes_perm ps1 ps2 : ps1 ≡ₚ ps2 → all_nodes ps1 ≡ₚ all_nodes ps2.
Proof. intros H. unfold all_nodes. by rewrite H. Qed.
Lemma node_in_all p ps n : p ∈ ps → n ∈ pk_nodes p → n ∈ all_nodes ps.
Proof. intros Hp Hn. apply list_elem_of_bind. by exists p. Qed.
Lemma pk_node_in p : pk_node p ∈ pk_nodes p.
Proof. unfold pk_nodes, pk_msg. set_solver. Qed.
Lemma nodes_in_all ps n : n ∈ pk_node <$> ps → n ∈ all_nodes ps.
Proof. intros (p & -> & Hp)%list_elem_of_fmap. eapply node_in_all; [done|apply pk_node_in]. Qed.

Lemma rqueue_step q L m m' ps' :
  rq_step q L [] m m' → qrep m' q (pk_node <$> ps') → Forall (packet_ok m) ps' → NoDup (all_nodes ps') → rqueue m' q ps'.
Proof.
  intros S Hq Hp Hn. split; [done| |done]. eapply Forall_impl; [exact Hp|]. intros p. eapply packet_step; [done|set_solver].
Qed.

Lemma rqueue_add m m' q ps1 ps2 p :
  mem_wf m → rqueue m q (ps1 ++ ps2) → packet_ok m p → apart p (ps1 ++ ps2) →
  qrep m' q (pk_node <$> (ps1 ++ p :: ps2)) → queue_step q (pk_node p :: (pk_node <$> (ps1 ++ ps2))) m m' →
  rqueue m' q (ps1 ++ p :: ps2) ∧ rq_step q (pk_nodes p ++ all_nodes (ps1 ++ ps2)) [] m m'.
Proof.
  intros W [_ Hp Hn] Hok Ha Hq S. pose proof (step_relinked _ _ _ _ S W) as T.
  assert (Hperm : ps1 ++ p :: ps2 ≡ₚ p :: (ps1 ++ ps2)) by (by rewrite Permutation_middle).
  split.
  - eapply rqueue_step; [exact T|done|rewrite Hperm; by constructor|]. rewrite (all_nodes_perm _ _ Hperm). change (NoDup (pk_nodes p ++ all_nodes (ps1 ++ ps2))).
    apply NoDup_app. split_and!; [apply (msg_nodup m (Some (pk_node p))), Hok|exact Ha|done].
  - eapply rq_step_weaken; [|exact T]. intros n [->|H%nodes_in_all]%elem_of_cons; apply elem_of_app; [left; apply pk_node_in|by right].
Qed.

Lemma fmap_ins ps1 ps2 p : pk_node <$> (ps1 ++ p :: ps2) = (pk_node <$> ps1) ++ pk_node p :: (pk_node <$> ps2).
Proof. by rewrite fmap_app. Qed.

Lemma rqueue_ins m q ps1 ps2 p e :
  mem_wf m → rqueue m q (ps1 ++ ps2) → packet_ok m p → apart p (ps1 ++ ps2) → zlen (ps1 ++ ps2) < 2 ^ 31 - 1 →
  hd_error ((pk_node <$> ps2) ++ [NLast q]) = Some e →
  ∃ m', insq q (Some e) (pk_node p) m = Ret tt m' ∧
    rqueue m' q (ps1 ++ p :: ps2) ∧ rq_step q (pk_nodes p ++ all_nodes (ps1 ++ ps2)) [] m m'.
Proof.
  intros W Hq Hok Ha Hl He. pose proof (rq_rep _ _ _ Hq) as Hr. rewrite fmap_app in Hr.
  destruct (insq_ret m q (pk_node <$> ps1) (pk_node <$> ps2) (pk_node p) e) as (m' & E & Hq' & S); [done|done| | | | |].
  - eapply msg_alive; [apply Hok|apply pk_node_in].
  - by apply (packet_blk m).
  - rewrite <- fmap_app. intros H%nodes_in_all. by apply (Ha _ (pk_node_in p)).
  - unfold zlen in *. rewrite <- fmap_app, length_fmap. done.
  - exists m'. split; [done|]. eapply rqueue_add; try done; [by rewrite fmap_ins|by rewrite fmap_app].
Qed.

Lemma rqueue_putq m q ps p :
  mem_wf m → rqueue m q ps → packet_ok m p → apart p ps → zlen ps < 2 ^ 31 - 1 →
  ∃ m', putq q (pk_node p) m = Ret tt m' ∧ rqueue m' q (ps ++ [p]) ∧ rq_step q (pk_nodes p ++ all_nodes ps) [] m m'.
Proof.
  intros W Hq Hok Ha Hl. pose proof (rq_rep _ _ _ Hq) as Hr.
  destruct (putq_ret m q (pk_node <$> ps) (pk_node p)) as (m' & E & Hq' & S); [done| | | | |].
  - eapply msg_alive; [apply Hok|apply pk_node_in].
  - by apply (packet_blk m).
  - intros H%nodes_in_all. by apply (Ha _ (pk_node_in p)).
  - unfold zlen in *. by rewrite length_fmap.
  - exists m'. split; [done|]. rewrite <- (app_nil_r ps) at 2. eapply rqueue_add; try done; rewrite ?app_nil_r; try done.
    by rewrite fmap_app.
Qed.

(** ** [rtp_putq] on the list of packets *)

(** Where a packet goes, looking from the newest: [None] for a duplicate. *)
Fixpoint put_after (p : packet) (rps : list packet) : option (list packet) :=
  match rps with
  | [] => Some [p]
  | x :: r =>
      if pk_seq p =? pk_seq x then None
      else if RTP_SEQ_IS_GREATER (pk_seq p) (pk_seq x) then Some (p :: x :: r)
      else cons x <$> put_after p r
  end.
Definition put_packet (p : packet) (ps : list packet) : list packet :=
  match put_after p (reverse ps) with Some r => reverse r | None => ps end.
Definition put_frees (p : packet) (ps : list packet) : list node :=
  match put_after p (reverse ps) with Some _ => [] | None => pk_nodes p end.

(** Freeing a packet that is not in the queue. *)
Lemma rqueue_freemsg m q ps p :
  mem_wf m → brk m < 2 ^ 31 → rqueue m q ps → packet_ok m p → apart p ps →
  ∃ m', freemsg (Some (pk_node p)) m = Ret tt m' ∧ rqueue m' q ps ∧ rq_step q (pk_nodes p) (pk_nodes p) m m'.
Proof.
  intros W L Hq Hok Ha. destruct (step_freemsg q _ _ m W L (pk_is_msg _ _ Hok)) as (m' & E & S & Q & U).
  exists m'. split; [done|]. split; [|done]. destruct Hq as [Hr Hp Hn].
  assert (Hbl : Forall is_blk (pk_nodes p)) by (by apply (msg_nodes_blk m (Some (pk_node p))), Hok). rewrite Forall_forall in Hbl.
  assert (Hx : ∀ n, own_nodes q (pk_node <$> ps) n → n ∉ pk_nodes p).
  { intros n [->|[->|Hin%nodes_in_all]] Hn'; [by apply Hbl in Hn'|by apply Hbl in Hn'|by apply (Ha n)]. }
  split; [| |done].
  - destruct Hr as [R1 R2 R3 R4]. split; [|done|done|by rewrite Q].
    eapply dseg_ext; [| |exact R1]; intros y Hy; unfold nxt, prv; rewrite U; try done; apply Hx; unfold own_nodes; set_solver.
  - apply Forall_forall. intros x Hin. rewrite Forall_forall in Hp. eapply packet_step; [exact S| |by apply Hp].
    intros n Hn' Hn''. apply (Ha n Hn''). by eapply node_in_all.
Qed.

Lemma qend_blk q n : is_blk n → qend q (Some n) = false.
Proof. intros H. unfold qend. rewrite !bool_decide_false; [done| |]; by intros [= ->]. Qed.

Lemma putq_walk_ret m q p fuel rps ps2 :
  mem_wf m → brk m < 2 ^ 31 → rqueue m q (reverse rps ++ ps2) → packet_ok m p → apart p (reverse rps ++ ps2) →
  zlen (reverse rps ++ ps2) < 2 ^ 31 - 1 → (length rps < fuel)%nat → ps2 ≠ [] ∨ rps ≠ [] →
  ∃ m', putq_walk fuel q (pk_node p) (Some (lastn (NFirst q) (pk_node <$> reverse rps))) m = Ret tt m' ∧
    rqueue m' q (match put_after p rps with Some r => reverse r | None => reverse rps end ++ ps2) ∧
    rq_step q (pk_nodes p ++ all_nodes (reverse rps ++ ps2)) (match put_after p rps with Some _ => [] | None => pk_nodes p end) m m'.
Proof.
  intros W L. revert rps ps2. induction fuel as [|fuel IH]; intros rps ps2 Hq Hok Ha Hl Hf Hne; [lia|].
  destruct rps as [|x rps].
  - cbn [reverse rev_append put_after]. change (reverse (@nil packet)) with (@nil packet) in *. cbn [app fmap list_fmap] in *.
    destruct ps2 as [|y ps2]; [by destruct Hne|]. cbn [putq_walk].
    replace (qend q _) with true by (unfold qend; by rewrite bool_decide_true).
    rewrite (bind_ret _ _ _ _ _ (qfirst_ret _ _ _ (rq_rep _ _ _ Hq))). cbn [head fmap list_fmap].
    by apply (rqueue_ins m q [] (y :: ps2) p).
  - rewrite reverse_cons, <- app_assoc in Hq, Ha, Hl |- *. cbn [app] in *.
    pose proof (rq_pk _ _ _ Hq) as Hp. apply Forall_app in Hp as [_ Hp]. apply Forall_cons in Hp as [Hx _].
    rewrite fmap_app. cbn [fmap list_fmap]. rewrite lastn_snoc. cbn [putq_walk].
    rewrite qend_blk by by apply (packet_blk m). rewrite bind_deref.
    rewrite (bind_ret _ _ _ _ _ (seq_ret _ _ Hok)), (bind_ret _ _ _ _ _ (seq_ret _ _ Hx)). cbn [put_after].
    destruct (pk_seq p =? pk_seq x) eqn:Eq.
    { destruct (rqueue_freemsg m q _ p W L Hq Hok Ha) as (m' & E & Hq' & S). exists m'. split; [done|].
      rewrite ?reverse_cons; rewrite <- ?app_assoc; cbn [app]. split; [done|]. eapply rq_step_weaken; [|exact S]. set_solver. }
    pose proof (rq_rep _ _ _ Hq) as Hr. rewrite fmap_ins in Hr.
    destruct ((pk_node <$> ps2) ++ [NLast q]) as [|e es] eqn:He; [by destruct (pk_node <$> ps2)|].
    destruct (hd_own m q _ _ _ e Hr) as (_ & _ & _ & Hnx & Hpv & _); [by rewrite He|].
    destruct (RTP_SEQ_IS_GREATER (pk_seq p) (pk_seq x)).
    { rewrite bind_next_of by by eapply nxt_alive. rewrite Hnx.
      destruct (rqueue_ins m q (reverse rps ++ [x]) ps2 p e) as (m' & E & Hq' & S); [done|by rewrite <- app_assoc|done|by rewrite <- app_assoc|by rewrite <- app_assoc|by rewrite He|].
      exists m'. rewrite !reverse_cons, <- !app_assoc. rewrite <- !app_assoc in Hq', S. cbn [app] in *. by split_and!. }
    rewrite bind_prev_of by by eapply nxt_alive. rewrite Hpv.
    destruct (IH rps (x :: ps2) Hq Hok Ha Hl) as (m' & E & Hq' & S); [cbn in Hf; lia|by left|]. exists m'. split; [done|].
    destruct (put_after p rps); cbn [fmap option_fmap option_map]; rewrite ?reverse_cons; rewrite <- ?app_assoc; cbn [app]; by split.
Qed.

(** The fuel of the loops over a queue is enough. *)
Lemma rqueue_fuel m q ps : rqueue m q ps → (length ps < blocks m)%nat.
Proof.
  intros Hq. rewrite <- (length_fmap pk_node ps). unfold blocks. rewrite <- (size_dom (D := gset node)).
  rewrite <- (size_list_to_set (C := gset node)) by apply (qr_nodup _ _ _ (rq_rep _ _ _ Hq)).
  apply Nat.lt_succ_r, subseteq_size. intros n Hn%elem_of_list_to_set. apply elem_of_dom.
  eapply qrep_alive; [apply Hq|]. unfold own_nodes. tauto.
Qed.

Lemma rtp_putq_ret m q p ps :
  mem_wf m → brk m < 2 ^ 31 → rqueue m q ps → packet_ok m p → apart p ps → zlen ps < 2 ^ 31 - 1 →
  ∃ m', rtp_putq q (pk_node p) m = Ret tt m' ∧ rqueue m' q (put_packet p ps) ∧
    rq_step q (pk_nodes p ++ all_nodes ps) (put_frees p ps) m m'.
Proof.
  intros W L Hq Hok Ha Hl. unfold rtp_putq. rewrite (bind_ret _ _ _ _ _ (qempty_ret _ _ _ (rq_rep _ _ _ Hq))).
  case_bool_decide as He.
  - apply fmap_nil_inv in He as ->. by apply (rqueue_putq m q []).
  - rewrite (bind_ret _ _ _ _ _ (qlast_ret _ _ _ (rq_rep _ _ _ Hq))).
    assert (Hlen : (length (reverse ps) < blocks m)%nat) by (rewrite length_reverse; by eapply rqueue_fuel).
    destruct (putq_walk_ret m q p (blocks m) (reverse ps) []) as (m' & E & Hq' & S); rewrite ?reverse_involutive, ?app_nil_r in *; try done.
    { right. intros E. apply He. apply (f_equal reverse) in E. rewrite reverse_involutive in E. by subst. }
    unfold put_packet, put_frees. exists m'. split_and!; [|done|done]. rewrite <- E. f_equal.
    destruct ps as [|y ps _] using rev_ind; [done|]. rewrite fmap_app. cbn. by rewrite lastn_snoc, last_snoc.
Qed.

(** ** The order of the queue

    Sequence numbers that lie in a window of [2 ^ 15] from [b] are ordered by their
    distance from [b]. *)

Definition seq_off (b s : Z) : Z := u16 (s - b).
Definition in_window (b : Z) (p : packet) : Prop := seq_off b (pk_seq p) < 2 ^ 15.
Definition older (b : Z) (x y : packet) : Prop := seq_off b (pk_seq x) < seq_off b (pk_seq y).
Definition ordered (b : Z) : list packet → Prop := StronglySorted (older b).

Lemma greater_off b s1 s2 : seq_off b s1 < 2 ^ 15 → seq_off b s2 < 2 ^ 15 →
  RTP_SEQ_IS_GREATER s1 s2 = (seq_off b s2 <=? seq_off b s1).
Proof.
  unfold seq_off, RTP_SEQ_IS_GREATER, u16. intros H1 H2. rewrite <- Zminus_mod.
  assert ((s1 - s2) `mod` 2 ^ 16 = ((s1 - b) `mod` 2 ^ 16 - (s2 - b) `mod` 2 ^ 16) `mod` 2 ^ 16) as ->
    by (rewrite <- Zminus_mod; f_equal; lia).
  set (x := (s1 - b) `mod` 2 ^ 16) in *. set (y := (s2 - b) `mod` 2 ^ 16) in *.
  assert (0 ≤ x) by (apply Z.mod_pos_bound; lia). assert (0 ≤ y) by (apply Z.mod_pos_bound; lia). clearbody x y.
  destruct (Z.leb_spec y x).
  - rewrite Z.mod_small by lia. apply Z.ltb_lt. lia.
  - apply Z.ltb_ge. rewrite <- (Z_mod_plus_full _ 1), Z.mod_small; lia.
Qed.

Lemma seq_off_inj b s1 s2 : in_u16 s1 → in_u16 s2 → seq_off b s1 = seq_off b s2 → s1 = s2.
Proof. unfold seq_off, in_u16, u16. intros H1 H2 E. mlia. Qed.

Lemma ordered_app b l1 l2 : ordered b (l1 ++ l2) ↔ ordered b l1 ∧ ordered b l2 ∧ ∀ x y, x ∈ l1 → y ∈ l2 → older b x y.
Proof.
  induction l1 as [|z l1 IH]; cbn.
  - split; [intros H; split_and!; [constructor|done|set_solver]|by intros (_ & ? & _)].
  - split.
    + intros [Hs Hf]%StronglySorted_inv. apply IH in Hs as (H1 & H2 & H3). apply Forall_app in Hf as [F1 F2].
      rewrite Forall_forall in F2. split_and!; [by constructor|done|]. intros x y [->|Hx]%elem_of_cons Hy; [by apply F2|by apply H3].
    + intros ([Hs Hf]%StronglySorted_inv & H2 & H3). constructor; [apply IH; split_and!; [done|done|set_solver]|].
      apply Forall_app. split; [done|]. apply Forall_forall. set_solver.
Qed.

(** [rtp_putq] is the insertion into the sorted list, without duplicates. *)
Lemma put_sorted b p ps :
  ordered b ps → Forall (in_window b) (p :: ps) → Forall (fun x => in_u16 (pk_seq x)) (p :: ps) →
  if decide (pk_seq p ∈ pk_seq <$> ps) then put_after p (reverse ps) = None
  else ∃ l1 l2, ps = l1 ++ l2 ∧ put_after p (reverse ps) = Some (reverse (l1 ++ p :: l2)) ∧ ordered b (l1 ++ p :: l2).
Proof.
  intros Hs [Hw Hwp]%Forall_cons [Hr Hrp]%Forall_cons. induction ps as [|x ps IH] using rev_ind.
  - rewrite decide_False by set_solver. exists [], []. split_and!; [done|done|repeat constructor].
  - apply ordered_app in Hs as (Hs & _ & Hlt). apply Forall_app in Hwp as [Hwp [Hwx _]%Forall_cons].
    apply Forall_app in Hrp as [Hrp [Hrx _]%Forall_cons]. specialize (IH Hs Hwp Hrp).
    rewrite reverse_app, reverse_singleton. cbn [app put_after]. rewrite fmap_app. cbn [fmap list_fmap].
    rewrite (greater_off b) by done. destruct (Z.eqb_spec (pk_seq p) (pk_seq x)) as [E|E].
    { rewrite decide_True; [done|]. rewrite E. set_solver. }
    destruct (Z.leb_spec (seq_off b (pk_seq x)) (seq_off b (pk_seq p))) as [Hle|Hgt].
    + assert (Hxp : older b x p).
      { unfold older. assert (seq_off b (pk_seq x) ≠ seq_off b (pk_seq p)) by (intros H; by apply seq_off_inj in H). lia. }
      rewrite decide_False.
      * exists (ps ++ [x]), []. rewrite app_nil_r. split_and!; [done|by rewrite !reverse_app|].
        apply ordered_app. split_and!; [apply ordered_app; split_and!; [done|repeat constructor|done]|repeat constructor|].
        intros y z Hy ->%list_elem_of_singleton. apply elem_of_app in Hy as [Hy|Hy%list_elem_of_singleton]; [|by subst].
        unfold older in *. apply Z.lt_trans with (seq_off b (pk_seq x)); [apply Hlt; [done|by apply list_elem_of_singleton]|done].
      * intros [(y & Ey & Hy)%list_elem_of_fmap|E'%list_elem_of_singleton]%elem_of_app; [|done].
        pose proof (Hlt y x Hy ltac:(set_solver)) as H. unfold older in *. rewrite Ey in Hxp. lia.
    + destruct (decide (pk_seq p ∈ pk_seq <$> ps)) as [Hin|Hin].
      * rewrite decide_True by set_solver. by rewrite IH.
      * rewrite decide_False by set_solver. destruct IH as (l1 & l2 & -> & E2 & Ho). exists l1, (l2 ++ [x]).
        rewrite E2. cbn [fmap option_fmap option_map]. split_and!; [by rewrite <- app_assoc| |].
        -- rewrite app_comm_cons, app_assoc, (reverse_app _ [x]). done.
        -- rewrite app_comm_cons, app_assoc. apply ordered_app. split_and!; [done|repeat constructor|].
           intros y z Hy ->%list_elem_of_singleton. apply elem_of_app in Hy as [Hy|[->|Hy]%elem_of_cons]; [| |]; try (apply Hlt; set_solver).
           done.
Qed.

Fixpoint put_all (arr ps : list packet) : list packet :=
  match arr with [] => ps | p :: arr => put_all arr (put_packet p ps) end.
Fixpoint all_frees (arr ps : list packet) : list node :=
  match arr with [] => [] | p :: arr => put_frees p ps ++ all_frees arr (put_packet p ps) end.

Lemma put_after_cases p rps r : put_after p rps = Some r → ∃ l1 l2, rps = l1 ++ l2 ∧ r = l1 ++ p :: l2.
Proof.
  revert r. induction rps as [|x rps IH]; intros r; cbn; [intros [= <-]; by exists [], []|].
  case_match; [done|]. case_match; [intros [= <-]; by exists [], (x :: rps)|].
  destruct (put_after p rps) as [r0|]; [|done]. intros [= <-]. destruct (IH r0 eq_refl) as (l1 & l2 & -> & ->). by exists (x :: l1), l2.
Qed.

Lemma put_packet_cases p ps :
  (put_packet p ps = ps ∧ put_frees p ps = pk_nodes p) ∨
  (∃ l1 l2, ps = l1 ++ l2 ∧ put_packet p ps = l1 ++ p :: l2 ∧ put_frees p ps = []).
Proof.
  unfold put_packet, put_frees. destruct (put_after p (reverse ps)) as [r|] eqn:E; [|by left]. right.
  apply put_after_cases in E as (l1 & l2 & E & ->). exists (reverse l2), (reverse l1). split_and!; [|by rewrite reverse_app, reverse_cons, <- app_assoc|done].
  by rewrite <- reverse_app, <- E, reverse_involutive.
Qed.

Lemma apart_perm p ps1 ps2 : ps1 ≡ₚ ps2 → apart p ps1 → apart p ps2.
Proof. intros H Ha n Hn. rewrite <- (all_nodes_perm _ _ H). by apply Ha. Qed.

Lemma nodup_apart p ps : NoDup (all_nodes (p :: ps)) → apart p ps.
Proof. change (all_nodes (p :: ps)) with (pk_nodes p ++ all_nodes ps). by intros (_ & H & _)%NoDup_app. Qed.

Lemma put_packet_perm p ps : put_packet p ps = ps ∨ put_packet p ps ≡ₚ p :: ps.
Proof. destruct (put_packet_cases p ps) as [[-> _]|(l1 & l2 & -> & -> & _)]; [by left|right; by rewrite Permutation_middle]. Qed.

Lemma put_packet_step p arr ps :
  NoDup (all_nodes ((p :: arr) ++ ps)) → zlen ps + zlen (p :: arr) < 2 ^ 31 - 1 →
  apart p ps ∧ zlen ps < 2 ^ 31 - 1 ∧ NoDup (all_nodes (arr ++ put_packet p ps)) ∧ zlen (put_packet p ps) + zlen arr < 2 ^ 31 - 1 ∧
  (∀ n, n ∈ all_nodes (arr ++ put_packet p ps) → n ∈ all_nodes ((p :: arr) ++ ps)) ∧
  (∀ x, x ∈ arr → ∀ n, n ∈ pk_nodes x → n ∉ put_frees p ps).
Proof.
  intros Hn Hl. rewrite zlen_cons in Hl. pose proof (zlen_nonneg arr).
  assert (Ha : apart p (arr ++ ps)) by by apply nodup_apart. change (all_nodes ((p :: arr) ++ ps)) with (pk_nodes p ++ all_nodes (arr ++ ps)) in *.
  apply NoDup_app in Hn as Hn'. destruct Hn' as (Hp & Hd & Hr).
  assert (Hap : apart p ps) by (intros n H1 H2; apply (Ha n H1); rewrite all_nodes_app; set_solver).
  assert (Hfr : ∀ x, x ∈ arr → ∀ n, n ∈ pk_nodes x → n ∉ put_frees p ps).
  { intros x Hx n Hx' Hf. apply (Ha n); [|rewrite all_nodes_app; apply elem_of_app; left; by eapply node_in_all].
    destruct (put_packet_cases p ps) as [[_ E]|(? & ? & _ & _ & E)]; rewrite E in Hf; [done|set_solver]. }
  destruct (put_packet_perm p ps) as [E|E].
  - rewrite E. split_and!; [done|lia|done|lia|set_solver|done].
  - assert (El : zlen (put_packet p ps) = zlen ps + 1) by (unfold zlen; rewrite E; cbn; lia).
    assert (Ep : arr ++ put_packet p ps ≡ₚ p :: (arr ++ ps)) by (rewrite E; by rewrite Permutation_middle).
    split_and!; [done|lia| |lia| |done].
    + rewrite (all_nodes_perm _ _ Ep). done.
    + intros n. rewrite (all_nodes_perm _ _ Ep). done.
Qed.

Lemma put_all_ret q arr ps m :
  mem_wf m → brk m < 2 ^ 31 → rqueue m q ps → Forall (packet_ok m) arr → NoDup (all_nodes (arr ++ ps)) → zlen ps + zlen arr < 2 ^ 31 - 1 →
  ∃ m', for_each arr (fun p => rtp_putq q (pk_node p)) m = Ret tt m' ∧ rqueue m' q (put_all arr ps) ∧
    rq_step q (all_nodes (arr ++ ps)) (all_frees arr ps) m m'.
Proof.
  revert ps m. induction arr as [|p arr IH]; intros ps m W L Hq Hok Hn Hl; cbn [for_each put_all all_frees].
  - exists m. split_and!; [done|done|]. eapply rq_step_weaken; [|by apply rq_step_refl]. set_solver.
  - apply Forall_cons in Hok as [Hp Hok]. destruct (put_packet_step p arr ps Hn Hl) as (Ha & Hl' & Hn2 & Hl2 & Hsub & Hfr).
    destruct (rtp_putq_ret m q p ps W L Hq Hp Ha Hl') as (m1 & E1 & Hq1 & S1). rewrite (bind_ret _ _ _ _ _ E1).
    destruct (IH (put_packet p ps) m1) as (m' & E & Hq' & S); [by eapply st_wf|by rewrite (st_brk _ _ _ _ _ S1)|done| |done|lia|].
    { rewrite Forall_forall in Hok |- *. intros x Hx. eapply packet_step; [exact S1|by apply Hfr|by apply Hok]. }
    exists m'. split_and!; [done|done|]. eapply rq_step_weaken; [|by eapply rq_step_trans].
    intros n [Hin|Hin]%elem_of_app; [|by apply Hsub]. change (all_nodes ((p :: arr) ++ ps)) with (pk_nodes p ++ all_nodes (arr ++ ps)).
    rewrite all_nodes_app. set_solver.
Qed.

(** The first arrival with its sequence number. *)
Definition first_of (arr : list packet) (p : packet) : Prop :=
  ∃ l1 l2, arr = l1 ++ p :: l2 ∧ Forall (fun x => pk_seq x ≠ pk_seq p) l1.

Lemma put_all_ordered b arr ps :
  ordered b ps → Forall (in_window b) (arr ++ ps) → Forall (fun x => in_u16 (pk_seq x)) (arr ++ ps) →
  ordered b (put_all arr ps) ∧
  (∀ p, p ∈ put_all arr ps ↔ p ∈ ps ∨ (pk_seq p ∉ pk_seq <$> ps) ∧ first_of arr p) ∧
  (∀ p, p ∈ arr → p ∉ put_all arr ps → ∀ n, n ∈ pk_nodes p → n ∈ all_frees arr ps).
Proof.
  revert ps. induction arr as [|x arr IH]; intros ps Ho Hw Hr; cbn [put_all all_frees].
  - split_and!; [done| |set_solver]. intros p. split; [by left|]. intros [?|(_ & [|] & ? & [=] & _)]; done.
  - cbn [app] in Hw, Hr. apply Forall_cons in Hw as [Hwx Hw]. apply Forall_cons in Hr as [Hrx Hr].
    pose proof Hw as [Hwa Hwp]%Forall_app. pose proof Hr as [Hra Hrp]%Forall_app.
    pose proof (put_sorted b x ps Ho ltac:(by constructor) ltac:(by constructor)) as Hput.
    unfold put_packet, put_frees. case_decide as Hin.
    + rewrite Hput. destruct (IH ps Ho Hw Hr) as (H1 & H2 & H3). split_and!; [done| |].
      * intros p. rewrite H2. split; (intros [Hp|[Hn Hf]]; [by left|right]; split; [done|]).
        -- destruct Hf as (l1 & l2 & -> & Hl). exists (x :: l1), l2. split; [done|]. constructor; [|done]. intros E. by rewrite E in Hin.
        -- destruct Hf as ([|y l1] & l2 & [= -> E] & Hl); [done|]. apply Forall_cons in Hl as [_ Hl]. by exists l1, l2.
      * intros p [->|Hp]%elem_of_cons Hnp n Hn; apply elem_of_app; [by left|right]. by apply (H3 p).
    + destruct Hput as (l1 & l2 & -> & -> & Ho'). rewrite reverse_involutive.
      assert (Hperm : l1 ++ x :: l2 ≡ₚ x :: (l1 ++ l2)) by by rewrite Permutation_middle.
      destruct (IH (l1 ++ x :: l2) Ho') as (H1 & H2 & H3).
      { rewrite Hperm, <- Permutation_middle. by constructor. } { rewrite Hperm, <- Permutation_middle. by constructor. }
      split_and!; [done| |].
      * intros p. rewrite H2. rewrite Hperm. split.
        -- intros [[->|?]%elem_of_cons|[Hn Hf]]; [right; split; [done|by exists [], arr]|by left|right].
           rewrite fmap_cons, not_elem_of_cons in Hn. destruct Hn as [Hne Hn]. split; [done|]. destruct Hf as (k1 & k2 & -> & Hl). exists (x :: k1), k2.
           split; [done|]. constructor; [|done]. congruence.
        -- intros [?|[Hn ([|y k1] & k2 & [= -> E] & Hl)]]; [left; set_solver|left; set_solver|right].
           apply Forall_cons in Hl as [Hne Hl]. split; [rewrite fmap_cons; apply not_elem_of_cons; by split|by exists k1, k2].
      * cbn [app]. intros p [->|Hp]%elem_of_cons Hnp n Hn; [|by apply (H3 p)]. exfalso. apply Hnp, H2. left. rewrite Hperm. set_solver.
Qed.

(** C25: whatever the order in which packets arrive (reordered, duplicated), as
    long as their sequence numbers lie in a window of [2 ^ 15] (which may wrap
    around), the receive queue holds the first arrival of each number, sorted by
    sequence number, and the blocks of every duplicate are freed. *)
Theorem rtp_receive_order m q b arr :
  mem_wf m → brk m < 2 ^ 31 → rqueue m q [] → Forall (packet_ok m) arr → NoDup (all_nodes arr) → zlen arr < 2 ^ 31 - 1 →
  Forall (in_window b) arr →
  ∃ m' ps, for_each arr (fun p => rtp_putq q (pk_node p)) m = Ret tt m' ∧ rqueue m' q ps ∧ ordered b ps ∧
    (∀ p, p ∈ ps ↔ first_of arr p) ∧
    (∀ p, p ∈ arr → p ∉ ps → ∀ n, n ∈ pk_nodes p → mblks m' !! n = None) ∧ mem_wf m'.
Proof.
  intros W L Hq Hok Hn Hl Hw. destruct (put_all_ret q arr [] m) as (m' & E & Hq' & S); rewrite ?app_nil_r; try done.
  destruct (put_all_ordered b arr []) as (H1 & H2 & H3); rewrite ?app_nil_r; [constructor|done| |].
  { eapply Forall_impl; [exact Hok|]. intros p. apply pk_seq_range. }
  exists m', (put_all arr []). split_and!; [done|done|done| | |by eapply st_wf].
  - intros p. rewrite H2. cbn. set_solver.
  - intros p Hp Hnp n Hin. apply (st_freed _ _ _ _ _ S). by eapply H3.
Qed.

(** ** [rtp_getq] on the list of packets *)

Lemma rqueue_getq m q p ps :
  mem_wf m → rqueue m q (p :: ps) → zlen (p :: ps) < 2 ^ 31 →
  ∃ m', getq q m = Ret (Some (pk_node p)) m' ∧ rqueue m' q ps ∧ packet_ok m' p ∧ apart p ps ∧ rq_step q (all_nodes (p :: ps)) [] m m'.
Proof.
  intros W [Hr Hp Hn] Hl. destruct (getq_ret m q (pk_node p) (pk_node <$> ps)) as (m' & E & Hq' & S); [done|by unfold zlen in *; cbn in *; rewrite length_fmap|].
  pose proof (step_relinked _ _ _ _ S W) as T. apply Forall_cons in Hp as [Hp Hps]. exists m'.
  assert (Ha : apart p ps) by by apply nodup_apart.
  change (NoDup (pk_nodes p ++ all_nodes ps)) in Hn. apply NoDup_app in Hn as (_ & _ & Hn).
  split_and!; [done|by eapply rqueue_step|by eapply packet_step; [exact T|set_solver|]|done|].
  eapply rq_step_weaken; [|exact T]. intros n H. apply nodes_in_all. done.
Qed.

(** The packet for [ts], the number of rejected packets and the rest of the queue. *)
Fixpoint get_spec (ts : Z) (ret : option packet) (rej : Z) (ps : list packet) : option packet * Z * list packet :=
  match ps with
  | [] => (ret, rej, [])
  | p :: ps' =>
      if RTP_TIMESTAMP_IS_NEWER_THAN ts (pk_ts p) then
        match ret with
        | Some r => if pk_ts p =? pk_ts r then (ret, rej, ps) else get_spec ts (Some p) (rej + 1) ps'
        | None => get_spec ts (Some p) rej ps'
        end
      else (ret, rej, ps)
  end.

Definition ret_ok (m : Mem) (ret : option packet) (ps : list packet) : Prop :=
  match ret with Some r => packet_ok m r ∧ apart r ps | None => True end.
Definition ret_nodes (ret : option packet) : list node := match ret with Some r => pk_nodes r | None => [] end.

Lemma getq_loop_ret q ts fuel ps ret rej m :
  mem_wf m → brk m < 2 ^ 31 → rqueue m q ps → ret_ok m ret ps → 0 ≤ rej → rej + zlen ps < 2 ^ 31 → (length ps < fuel)%nat →
  ∃ m' r k ps' freed, getq_loop fuel q ts (pk_node <$> ret) (pk_node <$> ret) (from_option pk_ts 0 ret) rej m = Ret (pk_node <$> r, k) m' ∧
    get_spec ts ret rej ps = (r, k, ps') ∧ rqueue m' q ps' ∧ ret_ok m' r ps' ∧
    rq_step q (ret_nodes ret ++ all_nodes ps) freed m m' ∧
    ret_nodes ret ++ all_nodes ps = freed ++ ret_nodes r ++ all_nodes ps'.
Proof.
  revert ps ret rej m. induction fuel as [|fuel IH]; intros ps ret rej m W L Hq Hret H0 Hl Hf; [lia|].
  assert (Hstay : ∃ m' r k ps' freed, Ret (pk_node <$> ret, rej) m = Ret (pk_node <$> r, k) m' ∧ (ret, rej, ps) = (r, k, ps') ∧ rqueue m' q ps' ∧
    ret_ok m' r ps' ∧ rq_step q (ret_nodes ret ++ all_nodes ps) freed m m' ∧ ret_nodes ret ++ all_nodes ps = freed ++ ret_nodes r ++ all_nodes ps').
  { exists m, ret, rej, ps, []. split_and!; [done|done|done|done| |done]. eapply rq_step_weaken; [|by apply rq_step_refl]. set_solver. }
  cbn [getq_loop]. rewrite (bind_ret _ _ _ _ _ (qfirst_ret _ _ _ (rq_rep _ _ _ Hq))).
  destruct ps as [|p ps]; cbn [head fmap list_fmap get_spec]; [exact Hstay|].
  pose proof (rq_pk _ _ _ Hq) as [Hp _]%Forall_cons. rewrite (bind_ret _ _ _ _ _ (ts_ret _ _ Hp)).
  destruct (RTP_TIMESTAMP_IS_NEWER_THAN ts (pk_ts p)); [|exact Hstay].
  rewrite zlen_cons in Hl. pose proof (zlen_nonneg ps). cbn in Hf.
  assert (Hgo : ∀ m1 rej1 X, mem_wf m1 → brk m1 = brk m → rqueue m1 q (p :: ps) → 0 ≤ rej1 ≤ rej + 1 →
    rq_step q (ret_nodes ret) X m m1 → ret_nodes ret = X → 
    ∃ m' r k ps' freed, (r ← getq q; t ← timestamp (pk_node p); getq_loop fuel q ts r r t rej1) m1 = Ret (pk_node <$> r, k) m' ∧
      get_spec ts (Some p) rej1 ps = (r, k, ps') ∧ rqueue m' q ps' ∧ ret_ok m' r ps' ∧
      rq_step q (ret_nodes ret ++ all_nodes (p :: ps)) freed m m' ∧
      ret_nodes ret ++ all_nodes (p :: ps) = freed ++ ret_nodes r ++ all_nodes ps').
  { intros m1 rej1 X W1 B1 Hq1 Hr1 S1 EX. destruct (rqueue_getq m1 q p ps W1 Hq1) as (m2 & E2 & Hq2 & Hp2 & Ha2 & S2); [rewrite zlen_cons; lia|].
    rewrite (bind_ret _ _ _ _ _ E2), (bind_ret _ _ _ _ _ (ts_ret _ _ Hp2)).
    destruct (IH ps (Some p) rej1 m2) as (m' & r & k & ps' & fr & E & Esp & Hq' & Hr' & S & En); [by eapply st_wf| |done|by split|lia|lia|lia|].
    { rewrite (st_brk _ _ _ _ _ S2). lia. }
    exists m', r, k, ps', (X ++ fr). split_and!; [done|done|done|done| |].
    - pose proof (rq_step_trans _ _ _ _ _ _ _ _ S1 (rq_step_trans _ _ _ _ _ _ _ _ S2 S)) as T. cbn [app] in T.
      eapply rq_step_weaken; [|exact T]. intros n. change (all_nodes (p :: ps)) with (pk_nodes p ++ all_nodes ps). cbn [ret_nodes]. set_solver.
    - rewrite EX, <- !app_assoc. f_equal. exact En. }
  destruct ret as [r|]; cbn [fmap option_fmap option_map from_option].
  - rewrite (bool_decide_true (Some (pk_node r) ≠ None)) by done. cbn [andb].
    destruct (pk_ts p =? pk_ts r); [exact Hstay|]. destruct Hret as [Hr Har].
    destruct (rqueue_freemsg m q (p :: ps) r W L Hq Hr Har) as (m1 & E1 & Hq1 & S1). rewrite (bind_ret _ _ _ _ _ E1).
    rewrite i32_id by (unfold in_i32; lia). apply (Hgo m1 (rej + 1) (pk_nodes r)); [by eapply st_wf|by eapply st_brk|done|lia|done|done].
  - rewrite (bool_decide_false (None ≠ None)) by (intros H1; by apply H1). cbn [andb]. rewrite (bind_ret _ _ _ tt m) by done.
    apply (Hgo m rej []); [done|done|done|lia|by apply rq_step_refl|done].
Qed.

Definition ts_off (c t : Z) : Z := u32 (t - c).

Lemma newer_off c t1 t2 : ts_off c t1 < 2 ^ 31 → ts_off c t2 < 2 ^ 31 →
  RTP_TIMESTAMP_IS_NEWER_THAN t1 t2 = (ts_off c t2 <=? ts_off c t1).
Proof.
  unfold ts_off, RTP_TIMESTAMP_IS_NEWER_THAN, u32. intros H1 H2. rewrite <- Zminus_mod.
  assert ((t1 - t2) `mod` 2 ^ 32 = ((t1 - c) `mod` 2 ^ 32 - (t2 - c) `mod` 2 ^ 32) `mod` 2 ^ 32) as ->
    by (rewrite <- Zminus_mod; f_equal; lia).
  set (x := (t1 - c) `mod` 2 ^ 32) in *. set (y := (t2 - c) `mod` 2 ^ 32) in *.
  assert (0 ≤ x) by (apply Z.mod_pos_bound; lia). assert (0 ≤ y) by (apply Z.mod_pos_bound; lia). clearbody x y.
  destruct (Z.leb_spec y x).
  - rewrite Z.mod_small by lia. apply Z.ltb_lt. lia.
  - apply Z.ltb_ge. rewrite <- (Z_mod_plus_full _ 1), Z.mod_small; lia.
Qed.

Lemma ts_off_inj c s1 s2 : in_u32 s1 → in_u32 s2 → ts_off c s1 = ts_off c s2 → s1 = s2.
Proof. unfold ts_off, in_u32, u32. intros H1 H2 E. mlia. Qed.

Definition pk_off (c : Z) (p : packet) : Z := ts_off c (pk_ts p).
Definition in_time (c : Z) (p : packet) : Prop := pk_off c p < 2 ^ 31 ∧ in_u32 (pk_ts p).
Definition by_time (c : Z) : list packet → Prop := StronglySorted (fun x y => pk_off c x ≤ pk_off c y).

(** [p] is the packet for [w]: what precedes it is older, what follows is of its
    time or after [w]. *)
Definition packet_for (c w : Z) (old : list packet) (p : packet) (rest : list packet) : Prop :=
  Forall (fun x => pk_off c x < pk_off c p) old ∧ pk_off c p ≤ ts_off c w ∧
  (∀ x, head rest = Some x → pk_ts x = pk_ts p ∨ ts_off c w < pk_off c x).

Lemma get_spec_some c w r rej ps :
  by_time c (r :: ps) → Forall (in_time c) (r :: ps) → ts_off c w < 2 ^ 31 → pk_off c r ≤ ts_off c w →
  ∃ old p rest, get_spec w (Some r) rej ps = (Some p, rej + zlen old, rest) ∧ r :: ps = old ++ p :: rest ∧ packet_for c w old p rest.
Proof.
  revert r rej. induction ps as [|x ps IH]; intros r rej Hs Hw Hww Hr; cbn [get_spec].
  - exists [], r, []. rewrite Z.add_0_r. split_and!; [done|done|]. split_and!; [constructor|done|done].
  - apply Forall_cons in Hw as [[Hwr Hur] Hw]. pose proof Hw as [[Hwx Hux] _]%Forall_cons.
    apply StronglySorted_inv in Hs as [Hs Hf]. pose proof Hf as [Hrx _]%Forall_cons.
    assert (Hstay : pk_ts x = pk_ts r ∨ ts_off c w < pk_off c x → ∃ old p rest, (Some r, rej, x :: ps) = (Some p, rej + zlen old, rest) ∧
      r :: x :: ps = old ++ p :: rest ∧ packet_for c w old p rest).
    { intros Hx. exists [], r, (x :: ps). rewrite Z.add_0_r. split_and!; [done|done|]. split_and!; [constructor|done|by intros ? [= <-]]. }
    rewrite (newer_off c) by done. destruct (Z.leb_spec (ts_off c (pk_ts x)) (ts_off c w)) as [Hle|Hgt]; [|apply Hstay; by right].
    destruct (Z.eqb_spec (pk_ts x) (pk_ts r)) as [E|E]; [apply Hstay; by left|].
    destruct (IH x (rej + 1) Hs Hw Hww Hle) as (old & p & rest & -> & El & Hfor & Hp & Hh).
    assert (Hrx' : pk_off c r < pk_off c x).
    { unfold pk_off in *. assert (ts_off c (pk_ts x) ≠ ts_off c (pk_ts r)) by (intros H; by apply ts_off_inj in H). lia. }
    exists (r :: old), p, rest. rewrite zlen_cons. split_and!; [by replace (rej + (zlen old + 1)) with (rej + 1 + zlen old) by lia|cbn; by rewrite El|]. split_and!; [|done|done].
    constructor; [|done]. destruct old as [|y old]; injection El as <- E2; [done|]. apply Forall_cons in Hfor as [Hy _]. lia.
Qed.

(** C26: over a queue in time order, [rtp_getq] for the time [w] answers NULL and
    changes nothing when every packet is after [w]; otherwise it takes out a packet
    that is not after [w], such that everything before it is strictly older, is
    counted in [*rejected] and freed, and the packet behind it has its timestamp or
    is after [w]. Times are compared modulo [2 ^ 32] within half the range. *)
Theorem rtp_getq_spec m q c w ps :
  mem_wf m → brk m < 2 ^ 31 → rqueue m q ps → zlen ps < 2 ^ 31 →
  by_time c ps → Forall (fun p => pk_off c p < 2 ^ 31) ps → ts_off c w < 2 ^ 31 → in_u32 w →
  ∃ m' r k rest, rtp_getq q w m = Ret (pk_node <$> r, k) m' ∧ rqueue m' q rest ∧
    match r with
    | None => m' = m ∧ k = 0 ∧ Forall (fun p => ts_off c w < pk_off c p) ps
    | Some p => ∃ old, ps = old ++ p :: rest ∧ k = zlen old ∧ packet_for c w old p rest ∧ packet_ok m' p ∧
        ∀ n, n ∈ all_nodes old → mblks m' !! n = None
    end.
Proof.
  intros W L Hq Hl Hs Hw Hww Hu. unfold rtp_getq. rewrite (bind_ret _ _ _ _ _ (qempty_ret _ _ _ (rq_rep _ _ _ Hq))).
  destruct ps as [|p ps]; cbn [fmap list_fmap].
  { rewrite bool_decide_true by done. by exists m, None, 0, []. }
  rewrite bool_decide_false by done. rewrite (bind_ret _ _ _ _ _ (qfirst_ret _ _ _ (rq_rep _ _ _ Hq))). cbn [head fmap list_fmap].
  rewrite bind_deref. pose proof (rq_pk _ _ _ Hq) as Hpk. pose proof Hpk as [Hp _]%Forall_cons.
  rewrite (bind_ret _ _ _ _ _ (ts_ret _ _ Hp)).
  assert (Hin : Forall (in_time c) (p :: ps)).
  { apply Forall_forall. intros x Hx. rewrite !Forall_forall in Hpk, Hw. split; [by apply Hw|]. by apply (pk_ts_range m), Hpk. }
  pose proof Hw as [Hwp _]%Forall_cons.
  pose proof (newer_off c (pk_ts p) w Hwp Hww) as Hnew. unfold RTP_TIMESTAMP_IS_NEWER_THAN in Hnew.
  unfold RTP_TIMESTAMP_IS_STRICTLY_NEWER_THAN. rewrite Hnew.
  destruct ((ts_off c w <=? ts_off c (pk_ts p)) && negb (pk_ts p =? w)) eqn:Et.
  - apply andb_prop in Et as [Hle%Z.leb_le Hne%negb_true_iff%Z.eqb_neq].
    assert (Hlt : ts_off c w < pk_off c p).
    { unfold pk_off. assert (ts_off c w ≠ ts_off c (pk_ts p)); [|lia]. intros E%ts_off_inj; [congruence|done|]. by apply (pk_ts_range m). }
    exists m, None, 0, (p :: ps). split_and!; [done|done|done|done|]. apply StronglySorted_inv in Hs as [_ Hf].
    constructor; [done|]. eapply Forall_impl; [exact Hf|]. intros x Hx. cbn in Hx. lia.
  - assert (Hpw : pk_off c p ≤ ts_off c w).
    { apply andb_false_iff in Et as [Hlt%Z.leb_gt|Heq%negb_false_iff%Z.eqb_eq]; unfold pk_off; [lia|]. rewrite Heq. lia. }
    assert (Hf : (length (p :: ps) < blocks m)%nat) by by eapply rqueue_fuel.
    destruct (getq_loop_ret q w (blocks m) (p :: ps) None 0 m) as (m' & r & k & rest & fr & E & Esp & Hq' & Hr & S & En); try done; try lia.
    destruct (get_spec_some c w p 0 ps Hs Hin Hww Hpw) as (old & p' & rest' & Eg & El & Hfor).
    cbn [get_spec] in Esp. rewrite (newer_off c), (proj2 (Z.leb_le _ _)) in Esp by done. rewrite Eg in Esp. injection Esp as <- <- <-.
    exists m', (Some p'), (zlen old), rest'. split_and!; [exact E|done|]. exists old. destruct Hr as [Hr _].
    split_and!; [done|done|done|done|]. intros n Hn. apply (st_freed _ _ _ _ _ S).
    cbn [ret_nodes app] in En. rewrite El, all_nodes_app in En. change (all_nodes (p' :: rest')) with (pk_nodes p' ++ all_nodes rest') in En.
    apply app_inv_tail in En. by rewrite <- En.
Qed.

(** ** Splitting and bounding *)

Lemma mem_wf_set m n b b' :
  mem_wf m → mblks m !! n = Some b → b_datap b' = b_datap b →
  (∀ d D, b_datap b = Some d → dblks m !! d = Some D → 0 ≤ b_wptr b' ≤ zlen (db_buf D)) →
  mem_wf (m <| mblks ::= <[n := b']> |>).
Proof.
  intros W Hb Ed Hw. assert (Hr : ∀ d, refs (<[n := b']> (mblks m)) d = refs (mblks m) d) by (intros d; by apply (refs_set _ _ _ b)).
  split; cbn.
  - intros x bx d [[<- <-]|[_ Hx]]%lookup_insert_Some E; [apply (wf_data _ W n b); congruence|by apply (wf_data _ W x bx)].
  - intros d D HD. rewrite Hr. by apply (wf_refs _ W).
  - intros x bx d D [[<- <-]|[_ Hx]]%lookup_insert_Some E HD; [apply (Hw d D); congruence|by apply (wf_ptr _ W x bx d)].
  - intros x bx [[<- <-]|[_ Hx]]%lookup_insert_Some E; [apply (wf_sent _ W n b); congruence|by apply (wf_sent _ W x bx)].
  - intros a Ha. destruct (wf_fresh _ W a Ha) as [F1 F2]. split; [|done]. rewrite lookup_insert_ne; [done|]. intros ->. congruence.
  - intros d. rewrite Hr. apply (wf_few _ W).
Qed.

Lemma upd_blk_set n f m b : mblks m !! n = Some b → upd_blk n f m = Ret tt (m <| mblks ::= <[n := f b]> |>).
Proof. intros H. unfold upd_blk. by rewrite H. Qed.

Lemma has_data_sub m b bs b' lo hi :
  has_data m b bs → b_datap b' = b_datap b → 0 ≤ lo ≤ hi → hi ≤ zlen bs → b_rptr b' = b_rptr b + lo → b_wptr b' = b_rptr b + hi →
  has_data m b' (slice bs (Z.to_nat lo) (Z.to_nat (hi - lo))).
Proof.
  intros Hd Ed Hlo Hhi Er Ew. destruct (has_data_len _ _ _ Hd) as (El & _). destruct Hd as (d & D & E1 & E2 & E3 & E4 & E5 & E6 & ->).
  exists d, D. rewrite Ed, Er, Ew. split_and!; [done|done|done|lia|lia|lia|lia|].
  unfold slice. rewrite skipn_firstn_comm, take_take, drop_drop. f_equal; [lia|]. f_equal. lia.
Qed.

Lemma split_ret m mp bs hs :
  mem_wf m → brk m < 2 ^ 31 - 1 → msg m (Some mp) [(mp, bs)] → 0 ≤ hs ≤ zlen bs →
  ∃ m1, split_packet mp hs m = Ret tt m1 ∧ mem_wf m1 ∧ brk m1 = brk m + 1 ∧ q_mcount m1 = q_mcount m ∧ ext (eq mp) m m1 ∧
    (∀ n, n ≠ mp → n ≠ NBlk (brk m) → mblks m1 !! n = mblks m !! n) ∧
    msg m1 (Some mp) [(mp, take (Z.to_nat hs) bs); (NBlk (brk m), drop (Z.to_nat hs) bs)].
Proof.
  intros W L (_ & b & Hb & Hd & Hc) Hhs. cbn in Hc. destruct (has_data_len _ _ _ Hd) as (El & _).
  pose proof Hd as (d & D & Ed & ED & Hbase & Hr & Hw & _). set (a := brk m).
  assert (Hma : mp ≠ NBlk a) by (apply (fresh_ne m); [by intros z ?; apply (wf_fresh _ W)|by exists b|done]).
  assert (Hdup : ∃ m', dupb mp m = Ret (Some (NBlk a)) m' ∧ mblks m' = <[NBlk a := mkMblk None None None (Some d) (b_rptr b) (b_wptr b)]> (mblks m) ∧
    brk m' = a + 1 ∧ q_mcount m' = q_mcount m).
  { unfold dupb. rewrite (bind_ret _ _ _ b m) by by apply get_blk_ret. rewrite Ed.
    rewrite (bind_ret _ _ _ D m) by by unfold get_db; rewrite ED. rewrite (proj2 (Z.eqb_neq _ _)) by done.
    unfold mbind, CM_bind, upd_db. rewrite ED. eexists. by split_and!. }
  destruct Hdup as (m' & E1 & M1 & B1 & Q1).
  destruct (dupb_spec m mp b bs (fun z => wf_fresh _ W z) Hb Hd) as (a0 & m0 & b0 & E0 & X & _). rewrite E1 in E0. injection E0 as <- <-.
  assert (W1 : mem_wf m') by (apply (proj2 (keeps_dupb mp m _ m' E1)); [done|lia]).
  set (b1 := b <| b_wptr := b_rptr b + hs |> <| b_cont := Some (NBlk a) |>).
  set (b2 := mkMblk None None None (Some d) (b_rptr b + hs) (b_wptr b)).
  set (m2 := m' <| mblks ::= <[mp := b <| b_wptr := b_rptr b + hs |>]> |>).
  set (m3 := m2 <| mblks ::= <[NBlk a := b2]> |>). set (m4 := m3 <| mblks ::= <[mp := b1]> |>).
  assert (Hb' : mblks m' !! mp = Some b) by (rewrite M1, lookup_insert_ne by congruence; done).
  assert (Ha2 : mblks m2 !! NBlk a = Some (mkMblk None None None (Some d) (b_rptr b) (b_wptr b))) by (cbn; rewrite lookup_insert_ne, M1, lookup_insert_eq by done; done).
  assert (Hb3 : mblks m3 !! mp = Some (b <| b_wptr := b_rptr b + hs |>)) by (cbn; rewrite lookup_insert_ne, lookup_insert_eq by congruence; done).
  assert (E : split_packet mp hs m = Ret tt m4).
  { unfold split_packet. rewrite (bind_ret _ _ _ _ _ E1), (bind_ret _ _ _ _ _ (upd_blk_set _ _ _ _ Hb')). fold m2.
    rewrite bind_deref, (bind_ret _ _ _ _ _ (upd_blk_set _ _ _ _ Ha2)). fold m3. unfold set_cont. by rewrite (upd_blk_set _ _ _ _ Hb3). }
  destruct (ex_db _ _ _ X d D ED) as (D' & ED' & Ebuf & _).
  assert (X4 : ext (eq mp) m m4).
  { split; [|exact (ex_db _ _ _ X)|cbn; lia]. intros n bn Hn Hbn. assert (n ≠ NBlk a).
    { apply (fresh_ne m); [by intros z ?; apply (wf_fresh _ W)|by exists bn|done]. }
    cbn. rewrite !lookup_insert_ne, M1, lookup_insert_ne by congruence. done. }
  assert (Hd4 : has_data m4 b bs) by by eapply has_data_ext.
  exists m4. split_and!; [done| |done|done|done| |].
  - apply (mem_wf_set m3 mp (b <| b_wptr := b_rptr b + hs |>)); [|done|done|].
    + apply (mem_wf_set m2 (NBlk a) (mkMblk None None None (Some d) (b_rptr b) (b_wptr b))); [|done|done|].
      * apply (mem_wf_set m' mp b); [done|done|done|]. intros x D0 Ex HD0. cbn. rewrite Ed in Ex. simplify_eq. rewrite Ebuf. lia.
      * intros x D0 [= <-] HD0. cbn in HD0 |- *. simplify_eq. rewrite Ebuf. lia.
    + intros x D0 Ex HD0. cbn in Ex, HD0 |- *. rewrite Ed in Ex. simplify_eq. rewrite Ebuf. lia.
  - intros n H1 H2. cbn. by rewrite !lookup_insert_ne, M1, lookup_insert_ne by congruence.
  - split; [done|]. exists b1. split_and!; [cbn; by rewrite lookup_insert_eq| |].
    + replace (take (Z.to_nat hs) bs) with (slice bs (Z.to_nat 0) (Z.to_nat (hs - 0))) by (unfold slice; by rewrite Z.sub_0_r).
      apply (has_data_sub _ b); [done|done|lia|lia|cbn; lia|done].
    + cbn. split; [done|]. exists b2. split_and!; [by rewrite lookup_insert_ne, lookup_insert_eq by congruence| |done].
      replace (drop (Z.to_nat hs) bs) with (slice bs (Z.to_nat hs) (Z.to_nat (zlen bs - hs))).
      * apply (has_data_sub _ b); [done|by rewrite Ed|lia|lia|done|cbn; lia].
      * unfold slice. apply take_ge. rewrite length_drop. unfold zlen. lia.
Qed.

Lemma bound_loop_ret q mx mp fuel ps rej m :
  mem_wf m → brk m < 2 ^ 31 → rqueue m q ps → 0 ≤ mx → 0 ≤ rej → rej + zlen ps < 2 ^ 31 → (length ps < fuel)%nat →
  ∃ m', bound_loop fuel q mx (Some mp) rej m = Ret (rej + Z.max 0 (zlen ps - mx)) m' ∧
    rqueue m' q (drop (Z.to_nat (zlen ps - mx)) ps) ∧
    rq_step q (all_nodes ps) (all_nodes (take (Z.to_nat (zlen ps - mx)) ps)) m m'.
Proof.
  revert ps rej m. induction fuel as [|fuel IH]; intros ps rej m W L Hq Hmx H0 Hl Hf; [lia|].
  cbn [bound_loop]. rewrite (bind_ret _ _ _ (Some (zlen ps)) m).
  2:{ unfold gets. rewrite (qr_count _ _ _ (rq_rep _ _ _ Hq)). unfold zlen. by rewrite length_fmap. }
  destruct (Z.ltb_spec mx (zlen ps)) as [Hlt|Hge].
  - destruct ps as [|p ps]; [unfold zlen in *; cbn in *; lia|]. rewrite zlen_cons in *.
    destruct (rqueue_getq m q p ps W Hq) as (m1 & E1 & Hq1 & Hp1 & Ha1 & S1); [rewrite zlen_cons; lia|]. rewrite (bind_ret _ _ _ _ _ E1).
    destruct (rqueue_freemsg m1 q ps p) as (m2 & E2 & Hq2 & S2); [by eapply st_wf|by rewrite (st_brk _ _ _ _ _ S1)|done|done|done|].
    rewrite (bind_ret _ _ _ _ _ E2), i32_id by (unfold in_i32; pose proof (zlen_nonneg ps); lia).
    assert (B : brk m2 = brk m) by (rewrite (st_brk _ _ _ _ _ S2); by eapply st_brk).
    destruct (IH ps (rej + 1) m2) as (m' & E & Hq' & S); [by eapply st_wf|lia|done|done|lia|lia|cbn in Hf; lia|].
    exists m'. rewrite E. replace (Z.to_nat (zlen ps + 1 - mx)) with (Datatypes.S (Z.to_nat (zlen ps - mx))) by lia.
    cbn [take drop]. split_and!; [f_equal; lia|done|]. change (all_nodes (p :: take (Z.to_nat (zlen ps - mx)) ps)) with (pk_nodes p ++ all_nodes (take (Z.to_nat (zlen ps - mx)) ps)).
    eapply rq_step_weaken; [|exact (rq_step_trans _ _ _ _ _ _ _ _ S1 (rq_step_trans _ _ _ _ _ _ _ _ S2 S))].
    intros n. change (all_nodes (p :: ps)) with (pk_nodes p ++ all_nodes ps). set_solver.
  - exists m. replace (Z.to_nat (zlen ps - mx)) with 0%nat by lia. rewrite drop_0, take_0. split_and!; [unfold mret, CM_ret; f_equal; lia|done|].
    eapply rq_step_weaken; [|by apply rq_step_refl]. set_solver.
Qed.

(** A queue elsewhere. *)
Lemma rqueue_frame m m' q ps :
  (∀ n, n = NFirst q ∨ n = NLast q ∨ n ∈ all_nodes ps → mblks m' !! n = mblks m !! n) → q_mcount m' !! q = q_mcount m !! q →
  (∀ p l, msg m p l → (∀ n, n ∈ l.*1 → n ∈ all_nodes ps) → msg m' p l) → rqueue m q ps → rqueue m' q ps.
Proof.
  intros Hs Hc Hm [[R1 R2 R3 R4] Hp Hn]. split; [split; [|done|done|by rewrite Hc]| |done].
  - eapply dseg_ext; [| |exact R1]; intros y Hy; unfold nxt, prv; rewrite Hs; try done.
    + apply elem_of_cons in Hy as [->|Hy]; auto using nodes_in_all.
    + apply elem_of_app in Hy as [Hy|Hy%list_elem_of_singleton]; auto using nodes_in_all.
  - rewrite Forall_forall in Hp |- *. intros p Hin. destruct (Hp p Hin) as [A1 A2 A3]. split; [|done|done].
    apply Hm; [done|]. intros n Hn'. by eapply node_in_all.
Qed.

Lemma rqueue_alive m q ps n : rqueue m q ps → n ∈ all_nodes ps → alive m n.
Proof.
  intros [_ Hp _] (p & Hn & Hin)%list_elem_of_bind. rewrite Forall_forall in Hp. eapply msg_alive; [apply (Hp p Hin)|done].
Qed.

(** The length of the header that starts a packet. *)
Definition header_len (bs : list Z) : Z := RTP_FIXED_HEADER_SIZE + 4 * (le_val (slice bs 0 1) `mod` 16).
(** What the block [mp] with the bytes [bs] becomes, with [a] for the payload. *)
Definition split_as (mp : node) (a : Z) (bs : list Z) : packet :=
  ((mp, take (Z.to_nat (header_len bs)) bs), [(NBlk a, drop (Z.to_nat (header_len bs)) bs)]).

(** What is queued, and how many packets are dropped, oldest first. *)
Definition queue_after (mp : node) (a : Z) (bs : list Z) (mx : Z) (ps : list packet) : list packet * Z :=
  if zlen bs =? header_len bs then (ps, 1)
  else let ps1 := put_packet (split_as mp a bs) ps in
       (drop (Z.to_nat (zlen ps1 - mx)) ps1, Z.max 0 (zlen ps1 - mx)).

(** Messages and other queues than [q] stay as they are if no block of theirs is in [D]. *)
Record elsewhere (q : Z) (D : list node) (m m' : Mem) : Prop := {
  el_msg p l : msg m p l → (∀ n, n ∈ l.*1 → n ∉ D) → msg m' p l;
  el_queue q' ps' : q' ≠ q → rqueue m q' ps' → (∀ n, n ∈ all_nodes ps' → n ∉ D) → rqueue m' q' ps'
}.

Lemma elsewhere_trans q D1 D2 m1 m2 m3 : elsewhere q D1 m1 m2 → elsewhere q D2 m2 m3 → elsewhere q (D1 ++ D2) m1 m3.
Proof.
  intros [A1 A2] [B1 B2]. split.
  - intros p l H Hd. apply B1; [apply A1; [done|]|]; intros n Hn; pose proof (Hd n Hn); set_solver.
  - intros q' ps' Hq H Hd. apply B2; [done|apply A2; [done|done|]|]; intros n Hn; pose proof (Hd n Hn); set_solver.
Qed.

Lemma elsewhere_weaken q D D' m m' : (∀ n, alive m n → n ∈ D → n ∈ D') → elsewhere q D m m' → elsewhere q D' m m'.
Proof.
  intros H [A1 A2]. split.
  - intros p l Hm Hd. apply A1; [done|]. intros n Hn Hn'. apply (Hd n Hn), H; [by eapply msg_alive|done].
  - intros q' ps' Hq Hr Hd. apply A2; [done|done|]. intros n Hn Hn'. apply (Hd n Hn), H; [by eapply rqueue_alive|done].
Qed.

Lemma rqueue_blk m q ps : mem_wf m → rqueue m q ps → ∀ n, n ∈ all_nodes ps → is_blk n.
Proof.
  intros W [_ Hp _] n (p & Hn & Hin)%list_elem_of_bind. rewrite Forall_forall in Hp.
  pose proof (msg_nodes_blk _ _ _ W (pk_is_msg _ _ (Hp p Hin))) as H. rewrite Forall_forall in H. by apply H.
Qed.

Lemma step_elsewhere q D X m m' :
  mem_wf m → Forall is_blk D → rq_step q D X m m' → (∀ n, n ∈ X → n ∈ D) → elsewhere q D m m'.
Proof.
  intros W Hb S HX. rewrite Forall_forall in Hb. assert (Hmsg : ∀ p l, msg m p l → (∀ n, n ∈ l.*1 → n ∉ D) → msg m' p l).
  { intros p l Hm Hl. eapply st_msg; [done|done|]. intros n Hn Hx%HX. by apply (Hl n Hn). }
  split; [done|]. intros q' ps' Hne Hr Hd. pose proof (rqueue_blk m q' ps' W Hr) as Hb2.
  eapply rqueue_frame; [| | |exact Hr].
  - intros n [->|[->|Hn]]; apply (st_same _ _ _ _ _ S); try congruence; try (by intros H%Hb).
    + intros ->. by apply Hb2 in Hn.
    + intros ->. by apply Hb2 in Hn.
    + by apply Hd.
  - by apply (st_count _ _ _ _ _ S).
  - intros p l Hm Hl. apply Hmsg; [done|]. intros n Hn. by apply Hd, Hl.
Qed.

Lemma ext_rqueue mp m m' :
  mem_wf m → is_blk mp → ext (eq mp) m m' → (∀ n, n ≠ mp → n ≠ NBlk (brk m) → mblks m' !! n = mblks m !! n) →
  q_mcount m' = q_mcount m → ∀ q ps, rqueue m q ps → mp ∉ all_nodes ps → rqueue m' q ps.
Proof.
  intros W Hb X U Q q ps Hq Hmp. eapply rqueue_frame; [|by rewrite Q| |exact Hq].
  - intros n Hn. assert (Ha : alive m n).
    { destruct Hn as [->|[->|Hn]]; [| |by eapply rqueue_alive]; (eapply qrep_alive; [apply Hq|]); unfold own_nodes; tauto. }
    apply U; [intros ->; destruct Hn as [->|[->|Hn]]; done|].
    apply (fresh_ne m); [intros z ?; by apply (wf_fresh _ W)|done|done].
  - intros p l Hm Hn. eapply msg_ext; [exact X| |exact Hm]. intros n Hn' <-. by apply Hmp, Hn.
Qed.

Lemma put_frees_in p ps n : n ∈ put_frees p ps → n ∈ pk_nodes p.
Proof. destruct (put_packet_cases p ps) as [[_ ->]|(? & ? & _ & _ & ->)]; set_solver. Qed.
Lemma put_packet_in p ps n : n ∈ all_nodes (put_packet p ps) → n ∈ pk_nodes p ++ all_nodes ps.
Proof. destruct (put_packet_perm p ps) as [->|E]; [set_solver|]. by rewrite (all_nodes_perm _ _ E). Qed.
Lemma put_packet_all p ps n : n ∈ pk_nodes p ++ all_nodes ps → n ∈ put_frees p ps ++ all_nodes (put_packet p ps).
Proof.
  destruct (put_packet_cases p ps) as [[-> ->]|(l1 & l2 & -> & -> & ->)]; [done|].
  rewrite !all_nodes_app. change (all_nodes (p :: l2)) with (pk_nodes p ++ all_nodes l2). set_solver.
Qed.

Lemma bound_after (mx : Z) (ps : list packet) : 0 ≤ mx → zlen (drop (Z.to_nat (zlen ps - mx)) ps) ≤ mx.
Proof. unfold zlen. rewrite length_drop. lia. Qed.

(** C27: [split_and_queue] drops and frees a packet without payload; otherwise it
    queues the packet as header and payload in its place, frees it if its number is
    there already, and then frees the oldest packets above the bound of the queue,
    which it counts. No block is lost: of all blocks involved those that are not in
    the queue afterwards are freed, the bound is kept, and messages and queues elsewhere stay. *)
Theorem split_and_queue_spec m q mx mp bs ps :
  mem_wf m → brk m < 2 ^ 31 - 1 → rqueue m q ps → msg m (Some mp) [(mp, bs)] → Forall byte_ok bs → mp ∉ all_nodes ps →
  header_len bs ≤ zlen bs → 0 ≤ mx → zlen ps < 2 ^ 31 - 2 →
  let '(ps', discarded) := queue_after mp (brk m) bs mx ps in
  ∃ m', split_and_queue q mx mp m = Ret discarded m' ∧ rqueue m' q ps' ∧ mem_wf m' ∧ brk m' ≤ brk m + 1 ∧
    (zlen ps ≤ mx → zlen ps' ≤ mx) ∧
    (∀ n, n = mp ∨ n = NBlk (brk m) ∨ n ∈ all_nodes ps → n ∉ all_nodes ps' → mblks m' !! n = None) ∧
    elsewhere q (mp :: all_nodes ps) m m'.
Proof.
  intros W L Hq Hm Hby Hmp Hhl Hmx Hl. set (hs := header_len bs) in *. set (pk0 := ((mp, bs), []) : packet).
  assert (Hcc : 0 ≤ le_val (slice bs 0 1) `mod` 16 < 16) by (apply Z.mod_pos_bound; lia).
  assert (Hhs : hs = 12 + 4 * (le_val (slice bs 0 1) `mod` 16)) by done.
  assert (Hok : packet_ok m pk0) by (split; [done|cbn; unfold RTP_FIXED_HEADER_SIZE; lia|done]).
  assert (Hap : apart pk0 ps) by (intros n ->%list_elem_of_singleton; done).
  assert (Hb : is_blk mp) by exact (packet_blk _ _ W Hok).
  destruct Hm as (_ & b & Hbk & Hd & Hc). destruct (has_data_len _ _ _ Hd) as (El & _).
  assert (E0 : cc mp m = Ret (le_val (slice bs 0 1) `mod` 16) m).
  { unfold cc. by rewrite (bind_ret _ _ _ _ _ (rtp_field_ret m pk0 0 1 Hok ltac:(lia) ltac:(lia) ltac:(lia))). }
  unfold split_and_queue. rewrite (bind_ret _ _ _ _ _ E0), (bind_ret _ _ _ b m) by by apply get_blk_ret.
  change (RTP_FIXED_HEADER_SIZE + 4 * (le_val (slice bs 0 1) `mod` 16)) with hs. rewrite <- El.
  unfold queue_after. fold hs. destruct (Z.eqb_spec (zlen bs) hs) as [Eq|Ne].
  { destruct (rqueue_freemsg m q ps pk0 W ltac:(lia) Hq Hok Hap) as (m' & E & Hq' & S).
    change (pk_node pk0) with mp in E. change (pk_nodes pk0) with [mp] in S.
    rewrite (bind_ret _ _ _ _ _ E). exists m'. split_and!; [done|done|by eapply st_wf|rewrite (st_brk _ _ _ _ _ S); lia|done| |].
    - intros n [->|[->|Hn]] Hn'; [apply (st_freed _ _ _ _ _ S); set_solver| |done].
      apply (st_dead _ _ _ _ _ S). by apply (wf_fresh _ W).
    - eapply elsewhere_weaken; [|eapply step_elsewhere; [done| |exact S|done]]; [set_solver|by constructor]. }
  destruct (split_ret m mp bs hs W L) as (m1 & E1 & W1 & B1 & Q1 & X1 & U1 & Hm1); [split; [done|by exists b]|lia|].
  rewrite (bind_ret _ _ _ _ _ E1). set (pk := split_as mp (brk m) bs).
  assert (Hall : ∀ n, alive m n → n ≠ NBlk (brk m)) by (intros n Hn; by apply (fresh_ne m); [intros z ?; apply (wf_fresh _ W)|..]).
  assert (Hq1 : rqueue m1 q ps).
  { by apply (ext_rqueue mp m m1 W Hb X1 U1 Q1). }
  assert (Hok1 : packet_ok m1 pk).
  { split; [exact Hm1| |by apply Forall_take]. cbn. fold hs. unfold RTP_FIXED_HEADER_SIZE, zlen in *. rewrite length_take. lia. }
  assert (Hnodes : pk_nodes pk = [mp; NBlk (brk m)]) by done.
  assert (Hap1 : apart pk ps).
  { intros n. rewrite Hnodes. intros [->|[->|[]%elem_of_nil]%elem_of_cons]%elem_of_cons; [done|]. intros Hn.
    eapply Hall; [by eapply rqueue_alive|done]. }
  destruct (rtp_putq_ret m1 q pk ps W1 ltac:(lia) Hq1 Hok1 Hap1 ltac:(lia)) as (m2 & E2 & Hq2 & S2).
  change (pk_node pk) with mp in E2. rewrite (bind_ret _ _ _ _ _ E2). set (ps1 := put_packet pk ps) in *.
  assert (Hl1 : zlen ps1 ≤ zlen ps + 1).
  { destruct (put_packet_perm pk ps) as [E|E]; fold ps1 in E; [rewrite E; lia|]. unfold zlen. rewrite E. cbn. lia. }
  destruct (bound_loop_ret q mx mp (blocks m2) ps1 0 m2) as (m3 & E3 & Hq3 & S3); [by eapply st_wf|rewrite (st_brk _ _ _ _ _ S2); lia|done|done|lia|lia|by eapply rqueue_fuel|].
  pose proof (rq_step_trans _ _ _ _ _ _ _ _ S2 S3) as S. exists m3.
  split_and!; [exact E3|done|by eapply st_wf|rewrite (st_brk _ _ _ _ _ S); lia|intros _; by apply bound_after| |].
  - intros n Hn Hn'. apply (st_freed _ _ _ _ _ S). assert (Hn1 : n ∈ pk_nodes pk ++ all_nodes ps) by (rewrite Hnodes; set_solver).
    apply put_packet_all in Hn1. fold ps1 in Hn1. rewrite <- (take_drop (Z.to_nat (zlen ps1 - mx)) ps1) in Hn1 at 1. rewrite all_nodes_app in Hn1.
    rewrite app_assoc in Hn1. apply elem_of_app in Hn1 as [?|?]; done.
  - assert (S' : rq_step q (pk_nodes pk ++ all_nodes ps) (put_frees pk ps ++ all_nodes (take (Z.to_nat (zlen ps1 - mx)) ps1)) m1 m3).
    { eapply rq_step_weaken; [|exact S]. intros n [H|H%put_packet_in]%elem_of_app; done. }
    assert (D1 : elsewhere q [mp] m m1).
    { split.
      - intros p l Hm' Hl'. eapply msg_ext; [exact X1| |exact Hm']. intros n Hn <-. by apply (Hl' _ Hn), list_elem_of_singleton.
      - intros q' ps' _ Hr Hd'. apply (ext_rqueue mp m m1 W Hb X1 U1 Q1 q' ps' Hr). intros H. by apply (Hd' _ H), list_elem_of_singleton. }
    assert (D2 : elsewhere q (pk_nodes pk ++ all_nodes ps) m1 m3).
    { eapply step_elsewhere; [done| |exact S'|].
      - rewrite Hnodes. apply Forall_app. split; [by repeat constructor|]. apply Forall_forall. by apply (rqueue_blk m q).
      - intros n [H%put_frees_in|H]%elem_of_app; [set_solver|]. apply put_packet_in. fold ps1.
        rewrite <- (take_drop (Z.to_nat (zlen ps1 - mx)) ps1). rewrite all_nodes_app. apply elem_of_app. by left. }
    eapply elsewhere_weaken; [|exact (elsewhere_trans _ _ _ _ _ _ D1 D2)]. rewrite Hnodes. intros n Hn%Hall. set_solver.
Qed.

(** * A concrete queue *)

Definition hdr_bytes (seq ts : Z) : list Z := [128; 96] ++ le_bytes 2 seq ++ le_bytes 4 ts ++ [1; 0; 0; 0].
Definition raw_bytes (seq ts : Z) : list Z := hdr_bytes seq ts ++ [7].
Definition ex_pk (a seq ts : Z) : packet := ((NBlk a, raw_bytes seq ts), []).

Definition pk_ops : list mop :=
  [MAlloc 13; MAppend (NBlk 1) (raw_bytes 65535 3000) false; MAlloc 13; MAppend (NBlk 3) (raw_bytes 1 9000) false;
   MAlloc 13; MAppend (NBlk 5) (raw_bytes 0 6000) false; MAlloc 13; MAppend (NBlk 7) (raw_bytes 1 9000) false; MQinit 9].
Definition pk_mem : Mem := match run_mops buf16 zeros pk_ops mem0 with Ret _ m => m | _ => mem0 end.
(** In the order of arrival: 65535, 1, 0 and 1 again. *)
Definition ex_arr : list packet := [ex_pk 1 65535 3000; ex_pk 3 1 9000; ex_pk 5 0 6000; ex_pk 7 1 9000].

Lemma pk_mem_run : ∃ r, run_mops buf16 zeros pk_ops mem0 = Ret r pk_mem.
Proof. eexists. vm_compute. reflexivity. Qed.
Lemma pk_mem_brk : brk pk_mem = 9.
Proof. vm_compute. reflexivity. Qed.
Lemma pk_mem_wf : mem_wf pk_mem.
Proof.
  destruct pk_mem_run as [r E]. apply (proj2 (keeps_mops buf16 zeros buf16_ne pk_ops ltac:(by repeat constructor) mem0 _ pk_mem E)).
  - apply mem0_wf.
  - rewrite pk_mem_brk. lia.
Qed.
Lemma pk_mem_queue : rqueue pk_mem 9 [].
Proof.
  split; [split; [|constructor|constructor|vm_compute; reflexivity]|constructor|constructor].
  split; vm_compute; reflexivity.
Qed.

Lemma ex_pk_ok m a seq ts base :
  mblks m !! NBlk a = Some (mkMblk None None None (Some (a + 1)) 0 13) →
  dblks m !! (a + 1) = Some (mkDblk base (raw_bytes seq ts) true 1) → 0 < base → packet_ok m (ex_pk a seq ts).
Proof.
  intros Hb Hd H0. assert (El : zlen (raw_bytes seq ts) = 13) by done. split.
  - split; [done|]. eexists. split; [exact Hb|]. split; [|done].
    change 13 with (zlen (raw_bytes seq ts)). by apply (ex_data m _ (a + 1) None base (raw_bytes seq ts)); [|done|rewrite El; lia|].
  - change (12 ≤ zlen (raw_bytes seq ts)). rewrite El. lia.
  - cbn [fst snd ex_pk]. unfold raw_bytes, hdr_bytes. rewrite !Forall_app. split_and!; try apply le_bytes_ok; repeat constructor; unfold byte_ok; lia.
Qed.

Lemma ex_arr_ok : Forall (packet_ok pk_mem) ex_arr.
Proof. unfold ex_arr. rewrite !Forall_cons. split_and!; [..|constructor]; (eapply ex_pk_ok; [vm_compute; reflexivity|vm_compute; reflexivity|lia]). Qed.

Lemma ex_arr_nodup : NoDup (all_nodes ex_arr).
Proof. apply (bool_decide_unpack _). vm_compute. done. Qed.

Lemma ex_arr_window : Forall (in_window 65000) ex_arr.
Proof. repeat constructor; vm_compute; reflexivity. Qed.

Lemma ex_dup : ¬ first_of ex_arr (ex_pk 7 1 9000).
Proof.
  intros (l1 & l2 & El & Hl). assert (En : pk_node <$> ex_arr = (pk_node <$> l1) ++ NBlk 7 :: (pk_node <$> l2)) by (rewrite El, fmap_app; reflexivity).
  cbn in En. destruct l1 as [|p1 [|p2 l1]]; [discriminate En|discriminate En|].
  assert (E2 : Some (ex_pk 3 1 9000) = Some p2) by exact (f_equal (fun l => l !! 1%nat) El).
  apply (inj Some) in E2. apply Forall_cons in Hl as [_ [H _]%Forall_cons]. apply H. by rewrite <- E2.
Qed.

Lemma rtp_receive_order_witness :
  ∃ m' ps, for_each ex_arr (fun p => rtp_putq 9 (pk_node p)) pk_mem = Ret tt m' ∧ rqueue m' 9 ps ∧ ordered 65000 ps ∧
    mblks m' !! NBlk 7 = None.
Proof.
  destruct (rtp_receive_order pk_mem 9 65000 ex_arr) as (m' & ps & E & Hq & Ho & Hps & Hf & _).
  - exact pk_mem_wf.
  - rewrite pk_mem_brk. lia.
  - exact pk_mem_queue.
  - exact ex_arr_ok.
  - exact ex_arr_nodup.
  - unfold zlen. cbn. lia.
  - exact ex_arr_window.
  - exists m', ps. split; [exact E|]. split; [exact Hq|]. split; [exact Ho|].
    apply (Hf (ex_pk 7 1 9000)); [by apply (list_elem_of_lookup_2 _ 3)| |exact (pk_node_in (ex_pk 7 1 9000))].
    rewrite Hps. exact ex_dup.
Defined.

Definition ex_sorted : list packet := [ex_pk 1 65535 3000; ex_pk 5 0 6000; ex_pk 3 1 9000].
Lemma ex_put_all : put_all ex_arr [] = ex_sorted.
Proof. vm_compute. reflexivity. Qed.

Lemma ex_sorted_queue : ∃ m, mem_wf m ∧ brk m < 2 ^ 31 ∧ rqueue m 9 ex_sorted.
Proof.
  destruct (put_all_ret 9 ex_arr [] pk_mem) as (m' & E & Hq & S).
  - exact pk_mem_wf.
  - rewrite pk_mem_brk. lia.
  - exact pk_mem_queue.
  - exact ex_arr_ok.
  - rewrite app_nil_r. exact ex_arr_nodup.
  - unfold zlen. cbn. lia.
  - rewrite ex_put_all in Hq. exists m'. split; [exact (st_wf _ _ _ _ _ S)|]. split; [|exact Hq]. rewrite (st_brk _ _ _ _ _ S), pk_mem_brk. lia.
Qed.

Lemma ex_sorted_time : by_time 0 ex_sorted.
Proof. unfold by_time, ex_sorted. repeat (constructor; [|repeat constructor; vm_compute; discriminate]). constructor. Qed.

Lemma rtp_getq_spec_witness : ∃ m m' r k rest, rqueue m 9 ex_sorted ∧
  rtp_getq 9 7000 m = Ret (pk_node <$> r, k) m' ∧ rqueue m' 9 rest ∧ (∀ p, r = Some p → ∃ old, packet_for 0 7000 old p rest).
Proof.
  destruct ex_sorted_queue as (m & W & L & Hq).
  destruct (rtp_getq_spec m 9 0 7000 ex_sorted W L Hq) as (m' & r & k & rest & E & Hq' & H).
  - unfold zlen. cbn. lia.
  - exact ex_sorted_time.
  - unfold ex_sorted. repeat constructor.
  - reflexivity.
  - unfold in_u32. lia.
  - exists m, m', r, k, rest. split; [exact Hq|]. split; [exact E|]. split; [exact Hq'|]. intros p ->. destruct H as (old & _ & _ & H & _).
    exists old. exact H.
Defined.

Lemma split_and_queue_spec_witness : ∃ m', split_and_queue 9 100 (NBlk 1) pk_mem = Ret 0 m' ∧
  rqueue m' 9 [((NBlk 1, hdr_bytes 65535 3000), [(NBlk 9, [7])])].
Proof.
  pose proof (split_and_queue_spec pk_mem 9 100 (NBlk 1) (raw_bytes 65535 3000) []) as H.
  assert (Eq : queue_after (NBlk 1) (brk pk_mem) (raw_bytes 65535 3000) 100 [] = ([((NBlk 1, hdr_bytes 65535 3000), [(NBlk 9, [7])])], 0))
    by (vm_compute; reflexivity).
  rewrite Eq in H. pose proof (proj1 (proj1 (Forall_cons _ _ _) ex_arr_ok)) as [Hm _ Hb].
  destruct H as (m' & E & Hq & _).
  - exact pk_mem_wf.
  - rewrite pk_mem_brk. lia.
  - exact pk_mem_queue.
  - exact Hm.
  - exact Hb.
  - intros H. by apply elem_of_nil in H.
  - by apply Z.leb_le.
  - lia.
  - unfold zlen. cbn. lia.
  - exists m'. split; [exact E|exact Hq].
Defined.
