(* ===== verification/Payload.v ===== *)
(** * Payload types and profiles ([utils/ortp/src/payloadtype.c], [avprofile.c], [payloadtype.h])

    Payload types, profiles and C strings live on a heap. The objects of static
    storage have the addresses below zero and cannot be freed. *)

From Stdlib Require Import Strings.Ascii Strings.String.
From S2P Require Import Prelude.

(** * Data *)

Definition PAYLOAD_TYPE_ALLOCATED : Z := 1.
Definition PAYLOAD_AUDIO_CONTINUOUS : Z := 0.
Definition PAYLOAD_AUDIO_PACKETIZED : Z := 1.
Definition PAYLOAD_VIDEO : Z := 2.
Definition RTP_PROFILE_MAX_PAYLOADS : Z := 128.

(** [zero_pattern] is the memory the pointer points to. *)
Record PayloadType := mkPt {
  pt_type : Z;
  clock_rate : Z;
  bits_per_sample : Z;
  zero_pattern : option (list Z);
  pattern_length : Z;
  normal_bitrate : Z;
  mime_type : option Z;
  recv_fmtp : option Z;
  send_fmtp : option Z;
  pt_flags : Z;
  user_data : Z
}.
#[export] Instance eta_PayloadType : Eta PayloadType := fun p =>
  mkPt (pt_type p) (clock_rate p) (bits_per_sample p) (zero_pattern p) (pattern_length p) (normal_bitrate p)
    (mime_type p) (recv_fmtp p) (send_fmtp p) (pt_flags p) (user_data p).

Record RtpProfile := mkProf { prof_name : option Z; payload : list (option Z) }.
#[export] Instance eta_RtpProfile : Eta RtpProfile := fun p => mkProf (prof_name p) (payload p).

(** [pbrk] is above every allocated address. *)
Record PMem := mkPMem {
  pts : gmap Z PayloadType;
  profs : gmap Z RtpProfile;
  strs : gmap Z string;
  pbrk : Z
}.
#[export] Instance eta_PMem : Eta PMem := fun m => mkPMem (pts m) (profs m) (strs m) (pbrk m).

(** ** Access and allocation *)

Definition nonnull {S A} (p : option A) : CM S A :=
  match p with Some a => mret a | None => fault_with NullDeref end.

Definition get_pt (a : Z) : CM PMem PayloadType := fun m =>
  match pts m !! a with Some p => Ret p m | None => Flt UseAfterFree end.
Definition upd_pt (a : Z) (f : PayloadType → PayloadType) : CM PMem unit := fun m =>
  match pts m !! a with Some p => Ret tt (m <| pts ::= <[a := f p]> |>) | None => Flt UseAfterFree end.
Definition get_prof (a : Z) : CM PMem RtpProfile := fun m =>
  match profs m !! a with Some p => Ret p m | None => Flt UseAfterFree end.
Definition upd_prof (a : Z) (f : RtpProfile → RtpProfile) : CM PMem unit := fun m =>
  match profs m !! a with Some p => Ret tt (m <| profs ::= <[a := f p]> |>) | None => Flt UseAfterFree end.
Definition str_at (a : Z) : CM PMem string := fun m =>
  match strs m !! a with Some s => Ret s m | None => Flt UseAfterFree end.
Definition get_str (p : option Z) : CM PMem string := a ← nonnull p; str_at a.

Definition new_str (s : string) : CM PMem Z := fun m =>
  Ret (pbrk m) (m <| strs ::= <[pbrk m := s]> |> <| pbrk := pbrk m + 1 |>).
Definition strdup (p : option Z) : CM PMem Z := s ← get_str p; new_str s.

Definition free_str (a : Z) : CM PMem unit := fun m =>
  if a <? 0 then Flt BadFree else
  match strs m !! a with Some _ => Ret tt (m <| strs ::= delete a |>) | None => Flt UseAfterFree end.
Definition free_pt (a : Z) : CM PMem unit := fun m =>
  if a <? 0 then Flt BadFree else
  match pts m !! a with Some _ => Ret tt (m <| pts ::= delete a |>) | None => Flt UseAfterFree end.
Definition free_prof (a : Z) : CM PMem unit := fun m =>
  if a <? 0 then Flt BadFree else
  match profs m !! a with Some _ => Ret tt (m <| profs ::= delete a |>) | None => Flt UseAfterFree end.

(** * Strings of the C library *)

Definition lower (c : ascii) : ascii :=
  let n := nat_of_ascii c in if (65 <=? n)%nat && (n <=? 90)%nat then ascii_of_nat (n + 32) else c.
Fixpoint strcaseeq (s t : string) : bool :=
  match s, t with
  | EmptyString, EmptyString => true
  | String c s, String d t => Ascii.eqb (lower c) (lower d) && strcaseeq s t
  | _, _ => false
  end.

(** Up to the first [c], and what follows it. *)
Fixpoint split_at (c : ascii) (s : string) : option (string * string) :=
  match s with
  | EmptyString => None
  | String d s' =>
      if Ascii.eqb c d then Some (EmptyString, s')
      else match split_at c s' with Some (a, b) => Some (String d a, b) | None => None end
  end.

Definition is_digit (c : ascii) : bool := let n := nat_of_ascii c in (48 <=? n)%nat && (n <=? 57)%nat.
Definition digit (d : Z) : ascii := ascii_of_nat (48 + Z.to_nat d).

(** [atoi]: white space, a sign, digits; the conversion stops at the bounds of [long]. *)
Fixpoint atoi_digits (s : string) (acc : Z) : Z :=
  match s with
  | String c s' => if is_digit c then atoi_digits s' (acc * 10 + (Z.of_nat (nat_of_ascii c) - 48)) else acc
  | EmptyString => acc
  end.
Definition is_space (c : ascii) : bool := let n := nat_of_ascii c in (n =? 32)%nat || (9 <=? n)%nat && (n <=? 13)%nat.
Fixpoint skip_space (s : string) : string :=
  match s with String c s' => if is_space c then skip_space s' else s | EmptyString => s end.
Definition clamp (z : Z) : Z := Z.max (- 2 ^ 31) (Z.min z (2 ^ 31 - 1)).
Definition atoi (s : string) : Z :=
  match skip_space s with
  | String c s' =>
      if Ascii.eqb c "-" then clamp (- atoi_digits s' 0)
      else if Ascii.eqb c "+" then clamp (atoi_digits s' 0)
      else clamp (atoi_digits (String c s') 0)
  | EmptyString => 0
  end.

(** [%i]: an [int] has at most ten digits. *)
Fixpoint dec (fuel : nat) (n : Z) (acc : string) : string :=
  match fuel with
  | O => acc
  | S fuel => let acc := String (digit (n `mod` 10)) acc in if n <? 10 then acc else dec fuel (n `div` 10) acc
  end.
Definition print_int (n : Z) : string := if n <? 0 then String "-" (dec 10 (- n) "") else dec 10 n "".

(** [snprintf] into [len] bytes. *)
Fixpoint truncate (len : nat) (s : string) : string :=
  match len, s with
  | S len, String c s => String c (truncate len s)
  | _, _ => EmptyString
  end.

(** * Operations *)

Definition payload_type_get_rtpmap (a : Z) : CM PMem Z :=
  pt ← get_pt a;
  mime ← get_str (mime_type pt);
  let len := (String.length mime + 15)%nat in
  new_str (truncate (len - 1) (mime ++ "/" ++ print_int (clock_rate pt) ++ "/1")).

Definition pt0 : PayloadType := mkPt 0 0 0 None 0 0 None None None 0 0.
Definition new_pt (p : PayloadType) : CM PMem Z := fun m =>
  Ret (pbrk m) (m <| pts ::= <[pbrk m := p]> |> <| pbrk := pbrk m + 1 |>).

Definition payload_type_new : CM PMem Z := new_pt (pt0 <| pt_flags := Z.lor 0 PAYLOAD_TYPE_ALLOCATED |>).

Definition payload_type_clone (a : Z) : CM PMem Z :=
  n ← new_pt pt0;
  pt ← get_pt a;
  _ ← upd_pt n (fun _ => pt);
  mime ← strdup (mime_type pt);
  _ ← upd_pt n (fun p => p <| mime_type := Some mime |>);
  _ ← (match recv_fmtp pt with
       | Some _ => s ← strdup (recv_fmtp pt); upd_pt n (fun p => p <| recv_fmtp := Some s |>)
       | None => mret tt
       end);
  _ ← (match send_fmtp pt with
       | Some _ => s ← strdup (send_fmtp pt); upd_pt n (fun p => p <| send_fmtp := Some s |>)
       | None => mret tt
       end);
  _ ← upd_pt n (fun p => p <| pt_flags ::= (fun f => Z.lor f PAYLOAD_TYPE_ALLOCATED) |>);
  mret n.

Definition canWrite (a : Z) : CM PMem bool :=
  pt ← get_pt a; mret (negb (Z.land (pt_flags pt) PAYLOAD_TYPE_ALLOCATED =? 0)).

Definition free_opt (p : option Z) : CM PMem unit := match p with Some s => free_str s | None => mret tt end.

Definition payload_type_set_recv_fmtp (a : Z) (fmtp : option Z) : CM PMem unit :=
  ok ← canWrite a;
  if (ok : bool) then
    pt ← get_pt a;
    _ ← free_opt (recv_fmtp pt);
    match fmtp with
    | Some _ => s ← strdup fmtp; upd_pt a (fun p => p <| recv_fmtp := Some s |>)
    | None => upd_pt a (fun p => p <| recv_fmtp := None |>)
    end
  else mret tt.

Definition payload_type_set_send_fmtp (a : Z) (fmtp : option Z) : CM PMem unit :=
  ok ← canWrite a;
  if (ok : bool) then
    pt ← get_pt a;
    _ ← free_opt (send_fmtp pt);
    match fmtp with
    | Some _ => s ← strdup fmtp; upd_pt a (fun p => p <| send_fmtp := Some s |>)
    | None => upd_pt a (fun p => p <| send_fmtp := None |>)
    end
  else mret tt.

Definition payload_type_destroy (a : Z) : CM PMem unit :=
  pt ← get_pt a;
  _ ← free_opt (mime_type pt);
  _ ← free_opt (recv_fmtp pt);
  _ ← free_opt (send_fmtp pt);
  free_pt a.

(** ** Profiles *)

Definition indices : list Z := seqZ 0 RTP_PROFILE_MAX_PAYLOADS.

Definition rtp_profile_get_payload (prof : Z) (index : Z) : CM PMem (option Z) :=
  if (index <? 0) || (RTP_PROFILE_MAX_PAYLOADS <=? index) then mret None
  else p ← get_prof prof; rd (payload p) index.

Definition store_payload (prof index : Z) (pt : option Z) : CM PMem unit :=
  p ← get_prof prof;
  match aset (payload p) index pt with
  | Some l => upd_prof prof (fun p => p <| payload := l |>)
  | None => fault_with OutOfBounds
  end.

Definition rtp_profile_set_payload (prof index : Z) (pt : option Z) : CM PMem unit :=
  if (index <? 0) || (RTP_PROFILE_MAX_PAYLOADS <=? index) then mret tt
  else store_payload prof index pt.

Definition rtp_profile_clear_all (obj : Z) : CM PMem unit :=
  for_each indices (fun i => store_payload obj i None).

Definition rtp_profile_set_name (obj : Z) (name : option Z) : CM PMem unit :=
  p ← get_prof obj;
  _ ← free_opt (prof_name p);
  s ← strdup name;
  upd_prof obj (fun p => p <| prof_name := Some s |>).

Definition rtp_profile_move_payload (prof oldpos newpos : Z) : CM PMem Z :=
  p ← get_prof prof;
  x ← rd (payload p) oldpos;
  _ ← store_payload prof newpos x;
  _ ← store_payload prof oldpos None;
  mret 0.

Definition rtp_profile_new (name : option Z) : CM PMem Z :=
  a ← gets pbrk;
  _ ← modify (fun m => m <| profs ::= <[a := mkProf None (replicate (Z.to_nat RTP_PROFILE_MAX_PAYLOADS) None)]> |> <| pbrk := a + 1 |>);
  _ ← rtp_profile_set_name a name;
  mret a.

Definition rtp_profile_clone (prof : Z) : CM PMem Z :=
  p ← get_prof prof;
  newprof ← rtp_profile_new (prof_name p);
  _ ← for_each indices (fun i =>
        pt ← rtp_profile_get_payload prof i;
        match pt with Some _ => rtp_profile_set_payload newprof i pt | None => mret tt end);
  mret newprof.

Definition rtp_profile_clone_full (prof : Z) : CM PMem Z :=
  p ← get_prof prof;
  newprof ← rtp_profile_new (prof_name p);
  _ ← for_each indices (fun i =>
        pt ← rtp_profile_get_payload prof i;
        match pt with
        | Some a => c ← payload_type_clone a; rtp_profile_set_payload newprof i (Some c)
        | None => mret tt
        end);
  mret newprof.

Definition rtp_profile_destroy (prof : Z) : CM PMem unit :=
  p ← get_prof prof;
  _ ← free_opt (prof_name p);
  _ ← for_each indices (fun i =>
        pt ← rtp_profile_get_payload prof i;
        match pt with
        | Some a =>
            q ← get_pt a;
            if negb (Z.land (pt_flags q) PAYLOAD_TYPE_ALLOCATED =? 0) then payload_type_destroy a else mret tt
        | None => mret tt
        end);
  free_prof prof.

(** ** Searching a profile *)

Definition rtp_profile_get_payload_number_from_mime (prof : Z) (mime : string) : CM PMem Z :=
  r ← for_until indices (fun i =>
        pt ← rtp_profile_get_payload prof i;
        match pt with
        | Some a => p ← get_pt a; s ← get_str (mime_type p); mret (if strcaseeq s mime then Some i else None)
        | None => mret None
        end);
  mret (default (-1) r).

Definition rtp_profile_find_payload_number (prof : Z) (mime : string) (rate : Z) : CM PMem Z :=
  r ← for_until indices (fun i =>
        pt ← rtp_profile_get_payload prof i;
        match pt with
        | Some a =>
            p ← get_pt a; s ← get_str (mime_type p);
            mret (if strcaseeq s mime && (clock_rate p =? rate) then Some i else None)
        | None => mret None
        end);
  mret (default (-1) r).

(** The copy [tmp] is freed on the path that finds a slash only. *)
Definition rtp_profile_get_payload_number_from_rtpmap (prof : Z) (rtpmap : option Z) : CM PMem Z :=
  tmp ← strdup rtpmap;
  s ← get_str (Some tmp);
  match split_at "/" s with
  | Some (mime, c) =>
      let rate := atoi (match split_at "/" c with Some (c, _) => c | None => c end) in
      ret ← rtp_profile_find_payload_number prof mime rate;
      _ ← free_str tmp;
      mret ret
  | None => mret (-1)
  end.

Definition rtp_profile_find_payload (prof : Z) (mime : string) (rate : Z) : CM PMem (option Z) :=
  i ← rtp_profile_find_payload_number prof mime rate;
  if 0 <=? i then rtp_profile_get_payload prof i else mret None.

Definition rtp_profile_get_payload_from_mime (prof : Z) (mime : string) : CM PMem (option Z) :=
  pt ← rtp_profile_get_payload_number_from_mime prof mime;
  if pt =? -1 then mret None else rtp_profile_get_payload prof pt.

Definition rtp_profile_get_payload_from_rtpmap (prof : Z) (rtpmap : option Z) : CM PMem (option Z) :=
  pt ← rtp_profile_get_payload_number_from_rtpmap prof rtpmap;
  if pt =? -1 then mret None else rtp_profile_get_payload prof pt.

(** * The tables of [avprofile.c]

    A payload type of static storage and its name have the same address. *)

Definition offset127 : list Z := [127].
Definition offset0xD5 : list Z := [213].
Definition offset0 : list Z := [0].

Definition payload_type_pcmu8000 : PayloadType := mkPt PAYLOAD_AUDIO_CONTINUOUS 8000 8 (Some offset127) 1 64000 (Some (-1)) None None 0 0.
Definition payload_type_pcma8000 : PayloadType := mkPt PAYLOAD_AUDIO_CONTINUOUS 8000 8 (Some offset0xD5) 1 64000 (Some (-2)) None None 0 0.
Definition payload_type_pcm8000 : PayloadType := mkPt PAYLOAD_AUDIO_CONTINUOUS 8000 16 (Some offset0) 1 128000 (Some (-3)) None None 0 0.
Definition payload_type_lpc1016 : PayloadType := mkPt PAYLOAD_AUDIO_PACKETIZED 8000 0 None 0 2400 (Some (-4)) None None 0 0.
Definition payload_type_gsm : PayloadType := mkPt PAYLOAD_AUDIO_PACKETIZED 8000 0 None 0 13500 (Some (-5)) None None 0 0.
Definition payload_type_g7231 : PayloadType := mkPt PAYLOAD_AUDIO_PACKETIZED 8000 0 None 0 6300 (Some (-6)) None None 0 0.
Definition payload_type_g729 : PayloadType := mkPt PAYLOAD_AUDIO_PACKETIZED 8000 0 None 0 8000 (Some (-7)) None None 0 0.
Definition payload_type_mpv : PayloadType := mkPt PAYLOAD_VIDEO 90000 0 None 0 256000 (Some (-8)) None None 0 0.
Definition payload_type_h261 : PayloadType := mkPt PAYLOAD_VIDEO 90000 0 None 0 0 (Some (-9)) None None 0 0.
Definition payload_type_h263 : PayloadType := mkPt PAYLOAD_VIDEO 90000 0 None 0 256000 (Some (-10)) None None 0 0.
Definition payload_type_truespeech : PayloadType := mkPt PAYLOAD_AUDIO_PACKETIZED 8000 0 None 0 8536 (Some (-11)) None None 0 0.
Definition payload_type_aac : PayloadType := mkPt PAYLOAD_AUDIO_PACKETIZED 16000 0 None 0 48000 (Some (-12)) None None 0 0.
Definition payload_type_lpc1015 : PayloadType := mkPt PAYLOAD_AUDIO_PACKETIZED 8000 0 None 0 2400 (Some (-13)) None None 0 0.
Definition payload_type_speex_nb : PayloadType := mkPt PAYLOAD_AUDIO_PACKETIZED 8000 0 None 0 8000 (Some (-14)) None None 0 0.
Definition payload_type_speex_wb : PayloadType := mkPt PAYLOAD_AUDIO_PACKETIZED 16000 0 None 0 28000 (Some (-15)) None None 0 0.
Definition payload_type_ilbc : PayloadType := mkPt PAYLOAD_AUDIO_PACKETIZED 8000 0 None 0 13300 (Some (-16)) None None 0 0.
Definition payload_type_amr : PayloadType := mkPt PAYLOAD_AUDIO_PACKETIZED 8000 0 None 0 0 (Some (-17)) None None 0 0.
Definition payload_type_amrwb : PayloadType := mkPt PAYLOAD_AUDIO_PACKETIZED 16000 0 None 0 0 (Some (-18)) None None 0 0.
Definition payload_type_mp4v : PayloadType := mkPt PAYLOAD_VIDEO 90000 0 None 0 0 (Some (-19)) None None 0 0.
Definition payload_type_h263_1998 : PayloadType := mkPt PAYLOAD_VIDEO 90000 0 None 0 256000 (Some (-20)) None None 0 0.
Definition payload_type_h263_2000 : PayloadType := mkPt PAYLOAD_VIDEO 90000 0 None 0 0 (Some (-21)) None None 0 0.

Definition statics : list (Z * (PayloadType * string)) :=
  [(-1, (payload_type_pcmu8000, "PCMU"%string)); (-2, (payload_type_pcma8000, "PCMA"%string)); (-3, (payload_type_pcm8000, "PCM"%string));
   (-4, (payload_type_lpc1016, "1016"%string)); (-5, (payload_type_gsm, "GSM"%string)); (-6, (payload_type_g7231, "G723"%string));
   (-7, (payload_type_g729, "G729"%string)); (-8, (payload_type_mpv, "MPV"%string)); (-9, (payload_type_h261, "H261"%string));
   (-10, (payload_type_h263, "H263"%string)); (-11, (payload_type_truespeech, "TSP0"%string)); (-12, (payload_type_aac, "AAC"%string));
   (-13, (payload_type_lpc1015, "1015"%string)); (-14, (payload_type_speex_nb, "speex"%string)); (-15, (payload_type_speex_wb, "speex"%string));
   (-16, (payload_type_ilbc, "iLBC"%string)); (-17, (payload_type_amr, "AMR"%string)); (-18, (payload_type_amrwb, "AMR-WB"%string));
   (-19, (payload_type_mp4v, "MP4V-ES"%string)); (-20, (payload_type_h263_1998, "H263-1998"%string)); (-21, (payload_type_h263_2000, "H263-2000"%string))].

(** The address of [av_profile], which starts as zeros, and of its name. *)
Definition av_profile : Z := -100.
Definition av_name : Z := -101.

Definition static_mem : PMem :=
  mkPMem (fst <$> list_to_map statics)
    {[ av_profile := mkProf None (replicate (Z.to_nat RTP_PROFILE_MAX_PAYLOADS) None) ]}
    (<[av_name := "AV profile"%string]> (snd <$> list_to_map statics)) 1.

Definition av_profile_init (profile : Z) : CM PMem unit :=
  _ ← rtp_profile_clear_all profile;
  _ ← rtp_profile_set_name profile (Some av_name);
  _ ← rtp_profile_set_payload profile 0 (Some (-1));
  _ ← rtp_profile_set_payload profile 1 (Some (-4));
  _ ← rtp_profile_set_payload profile 3 (Some (-5));
  _ ← rtp_profile_set_payload profile 4 (Some (-6));
  _ ← rtp_profile_set_payload profile 8 (Some (-2));
  _ ← rtp_profile_set_payload profile 18 (Some (-7));
  _ ← rtp_profile_set_payload profile 12 (Some (-12));
  _ ← rtp_profile_set_payload profile 31 (Some (-9));
  _ ← rtp_profile_set_payload profile 32 (Some (-8));
  rtp_profile_set_payload profile 34 (Some (-10)).

Definition av_mem : PMem := match av_profile_init av_profile static_mem with Ret _ m => m | _ => static_mem end.

Lemma av_init_run : av_profile_init av_profile static_mem = Ret tt av_mem.
Proof. vm_compute. reflexivity. Qed.

(** The static payload types of RFC 3551 that the profile knows. *)
Definition av_table (i : Z) : option PayloadType :=
  if i =? 0 then Some payload_type_pcmu8000 else if i =? 1 then Some payload_type_lpc1016
  else if i =? 3 then Some payload_type_gsm else if i =? 4 then Some payload_type_g7231
  else if i =? 8 then Some payload_type_pcma8000 else if i =? 12 then Some payload_type_aac
  else if i =? 18 then Some payload_type_g729 else if i =? 31 then Some payload_type_h261
  else if i =? 32 then Some payload_type_mpv else if i =? 34 then Some payload_type_h263 else None.

(** The payload type that a profile gives for a number. *)
Definition payload_of (m : PMem) (prof i : Z) : option PayloadType :=
  match rtp_profile_get_payload prof i m with Ret (Some a) _ => pts m !! a | _ => None end.

Lemma payload_range m prof i p :
  profs m !! prof = Some p → zlen (payload p) = 128 →
  rtp_profile_get_payload prof i m = Ret (default None (aget (payload p) i)) m.
Proof.
  intros Hp Hl. unfold rtp_profile_get_payload, RTP_PROFILE_MAX_PAYLOADS. destruct (Z.ltb_spec i 0); cbn [orb].
  { replace (aget (payload p) i) with (@None (option Z)); [done|]. symmetry. apply aget_None. lia. }
  destruct (Z.leb_spec 128 i).
  { replace (aget (payload p) i) with (@None (option Z)); [done|]. symmetry. apply aget_None. lia. }
  rewrite (bind_ret _ _ _ p m) by (unfold get_prof; by rewrite Hp). unfold rd.
  destruct (proj2 (aget_is_Some (payload p) i)) as [x ->]; [lia|]. done.
Qed.

#[export] Instance PayloadType_eq_dec : EqDecision PayloadType.
Proof. solve_decision. Defined.

Definition av_slot (j : Z) : option Z := default None (p ← profs av_mem !! av_profile; aget (payload p) j).
Definition av_entry_ok (j : Z) : bool :=
  match av_slot j with
  | Some a => bool_decide (pts av_mem !! a = av_table j) && bool_decide (av_table j ≠ None)
  | None => bool_decide (av_table j = None)
  end.
Lemma av_entries_ok : forallb av_entry_ok (seqZ 0 128) = true.
Proof. vm_compute. reflexivity. Qed.

(** After [av_profile_init] the profile knows exactly the payload types of its
    table, and a number below 0 or from 128 on is answered with NULL. *)
Theorem av_profile_spec i : ∃ r, av_profile_init av_profile static_mem = Ret tt av_mem ∧
  rtp_profile_get_payload av_profile i av_mem = Ret r av_mem ∧ payload_of av_mem av_profile i = av_table i ∧ (r = None ↔ av_table i = None).
Proof.
  assert (Hp : ∃ p, profs av_mem !! av_profile = Some p ∧ zlen (payload p) = 128).
  { eexists. split; [vm_compute; reflexivity|]. reflexivity. }
  destruct Hp as (p & Hp & Hl). pose proof (payload_range av_mem av_profile i p Hp Hl) as E.
  exists (default None (aget (payload p) i)). split; [exact av_init_run|]. split; [exact E|]. unfold payload_of. rewrite E.
  destruct (decide (0 ≤ i < 128)) as [Hi|Hi].
  - assert (Hok : av_entry_ok i = true).
    { apply (proj1 (forallb_forall _ _) av_entries_ok). apply list_elem_of_In, elem_of_seqZ. lia. }
    unfold av_entry_ok, av_slot in Hok. rewrite Hp in Hok. cbn [mbind option_bind] in Hok.
    destruct (default None (aget (payload p) i)) as [a|].
    + apply andb_prop in Hok as [->%bool_decide_eq_true H%bool_decide_eq_true].
      split; [reflexivity|]. split; [discriminate|intros E0; by destruct (H E0)].
    + apply bool_decide_eq_true in Hok. rewrite Hok. split; [reflexivity|split; intros; reflexivity].
  - assert (Ht : av_table i = None) by (unfold av_table; repeat match goal with |- context [i =? ?k] => rewrite (proj2 (Z.eqb_neq i k)) by lia end; reflexivity).
    rewrite (proj2 (aget_None _ _)) by lia. rewrite Ht. split; [reflexivity|split; intros; reflexivity].
Qed.

(** * Printing and parsing *)

Lemma digit_props d : 0 ≤ d < 10 →
  is_digit (digit d) = true ∧ Z.of_nat (nat_of_ascii (digit d)) - 48 = d ∧ Ascii.eqb "/" (digit d) = false ∧
  is_space (digit d) = false ∧ Ascii.eqb (digit d) "-" = false ∧ Ascii.eqb (digit d) "+" = false.
Proof.
  intros Hd. assert (d ∈ seqZ 0 10) as Hin by (apply elem_of_seqZ; lia). revert d Hd Hin.
  assert (∀ d, d ∈ [0; 1; 2; 3; 4; 5; 6; 7; 8; 9] → is_digit (digit d) = true ∧ Z.of_nat (nat_of_ascii (digit d)) - 48 = d ∧
    Ascii.eqb "/" (digit d) = false ∧ is_space (digit d) = false ∧ Ascii.eqb (digit d) "-" = false ∧ Ascii.eqb (digit d) "+" = false) as H.
  { apply Forall_forall. repeat (constructor; [vm_compute; tauto|]). constructor. }
  intros d _ Hin. exact (H d Hin).
Qed.

Lemma dec_digits fuel n acc :
  0 ≤ n < 10 ^ Z.of_nat fuel → ∃ k, 0 ≤ k ∧ ∀ a, atoi_digits (dec fuel n acc) a = atoi_digits acc (a * 10 ^ k + n).
Proof.
  revert n acc. induction fuel as [|fuel IH]; intros n acc Hn.
  { exists 0. split; [lia|]. intros a. cbn in Hn |- *. f_equal. change (10 ^ 0) with 1 in *. lia. }
  cbn [dec]. assert (Hd : 0 ≤ n `mod` 10 < 10) by (apply Z.mod_pos_bound; lia).
  destruct (digit_props _ Hd) as (D1 & D2 & _). destruct (Z.ltb_spec n 10).
  - exists 1. split; [lia|]. intros a. cbn [atoi_digits]. rewrite D1, D2, Z.mod_small by lia. f_equal.
  - destruct (IH (n `div` 10) (String (digit (n `mod` 10)) acc)) as (k & Hk & E).
    { rewrite Nat2Z.inj_succ, Z.pow_succ_r in Hn by lia. split; [apply Z.div_pos; lia|]. apply Z.div_lt_upper_bound; lia. }
    exists (k + 1). split; [lia|]. intros a. rewrite E. cbn [atoi_digits]. rewrite D1, D2. f_equal.
    rewrite Z.pow_add_r by lia. change (10 ^ 1) with 10. pose proof (Z.div_mod n 10). lia.
Qed.

(** Decimal strings: no slash, at most as long as the fuel, a digit first. *)
Fixpoint all_digits (s : string) : bool :=
  match s with String c s => is_digit c && all_digits s | EmptyString => true end.

Lemma dec_shape fuel n acc :
  0 ≤ n → all_digits acc = true →
  all_digits (dec fuel n acc) = true ∧ (String.length (dec fuel n acc) ≤ fuel + String.length acc)%nat ∧
  (fuel ≠ O → dec fuel n acc ≠ EmptyString).
Proof.
  revert n acc. induction fuel as [|fuel IH]; intros n acc Hn Ha; [done|]. cbn [dec].
  assert (Hd : 0 ≤ n `mod` 10 < 10) by (apply Z.mod_pos_bound; lia). destruct (digit_props _ Hd) as (D1 & _).
  assert (Ha' : all_digits (String (digit (n `mod` 10)) acc) = true) by (cbn; by rewrite D1).
  destruct (n <? 10).
  - split_and!; [done|cbn; lia|done].
  - destruct (IH (n `div` 10) _ ltac:(apply Z.div_pos; lia) Ha') as (H1 & H2 & H3). split_and!; [done|cbn in H2; lia|].
    intros _. destruct fuel; [done|]. by apply H3.
Qed.

Lemma digit_not c : is_digit c = true → is_space c = false ∧ Ascii.eqb c "-" = false ∧ Ascii.eqb c "+" = false ∧ Ascii.eqb "/" c = false.
Proof. destruct c as [[] [] [] [] [] [] [] []]; vm_compute; intuition discriminate. Qed.

Lemma print_atoi n : in_i32 n → atoi (print_int n) = n.
Proof.
  intros Hn. unfold in_i32 in Hn. unfold print_int, atoi. destruct (Z.ltb_spec n 0).
  - cbn [skip_space]. change (is_space "-") with false. cbn match. change (Ascii.eqb "-" "-") with true. cbn match.
    destruct (dec_digits 10 (- n) "") as (k & Hk & E); [change (10 ^ Z.of_nat 10) with 10000000000; lia|].
    rewrite E. cbn. unfold clamp. lia.
  - destruct (dec_digits 10 n "") as (k & Hk & E); [change (10 ^ Z.of_nat 10) with 10000000000; lia|].
    destruct (dec_shape 10 n "") as (H1 & _ & H3); [lia|done|].
    destruct (dec 10 n "") as [|c s] eqn:Ed; [by destruct H3|]. cbn [all_digits] in H1. apply andb_prop in H1 as [Hc _].
    destruct (digit_not c Hc) as (N1 & N2 & N3 & _). cbn [skip_space]. rewrite N1, N2, N3, E. cbn. unfold clamp. lia.
Qed.

Fixpoint has_char (c : ascii) (s : string) : bool :=
  match s with String d s => Ascii.eqb c d || has_char c s | EmptyString => false end.

Lemma digits_no_slash s : all_digits s = true → has_char "/" s = false.
Proof.
  induction s as [|c s IH]; [done|]. cbn [all_digits has_char]. intros [Hc Hs]%andb_prop.
  destruct (digit_not c Hc) as (_ & _ & _ & ->). by rewrite IH.
Qed.
Lemma print_int_shape n : in_i32 n → has_char "/" (print_int n) = false ∧ (String.length (print_int n) ≤ 11)%nat.
Proof.
  intros Hn. unfold in_i32 in Hn. unfold print_int. destruct (Z.ltb_spec n 0).
  - destruct (dec_shape 10 (- n) "") as (H1 & H2 & _); [lia|done|]. cbn [has_char String.length] in *.
    rewrite (digits_no_slash _ H1). split; [done|lia].
  - destruct (dec_shape 10 n "") as (H1 & H2 & _); [lia|done|]. cbn [String.length] in H2. rewrite (digits_no_slash _ H1). split; [done|lia].
Qed.

Lemma split_at_app c s t : has_char c s = false → split_at c (s ++ String c t) = Some (s, t).
Proof.
  induction s as [|d s IH]; cbn [has_char split_at String.append].
  - intros _. change ((if Ascii.eqb c c then Some (EmptyString, t) else match split_at c t with Some (a, b) => Some (String c a, b) | None => None end) = Some (EmptyString, t)). by rewrite Ascii.eqb_refl.
  - intros [E Hs]%orb_false_iff. change (match (if Ascii.eqb c d then Some (EmptyString, append s (String c t)) else match split_at c (append s (String c t)) with Some (a, b) => Some (String d a, b) | None => None end) with x => x end = Some (String d s, t)). by rewrite E, (IH Hs).
Qed.

Lemma truncate_id s len : (String.length s ≤ len)%nat → truncate len s = s.
Proof.
  revert len. induction s as [|c s IH]; intros [|len]; cbn; try done; [lia|]. intros H. f_equal. apply IH. lia.
Qed.
Lemma length_append s t : String.length (s ++ t) = (String.length s + String.length t)%nat.
Proof. induction s as [|c s IH]; [done|]. change (S (String.length (s ++ t)) = S (String.length s + String.length t)). by rewrite IH. Qed.

Lemma strcaseeq_refl s : strcaseeq s s = true.
Proof. induction s as [|c s IH]; cbn; [done|]. by rewrite Ascii.eqb_refl, IH. Qed.

(** * Searching *)

(** Every payload type of the profile is there and has a name. *)
Record profile_ok (m : PMem) (prof : Z) (p : RtpProfile) : Prop := {
  po_prof : profs m !! prof = Some p;
  po_len : zlen (payload p) = 128;
  po_names i a : aget (payload p) i = Some (Some a) →
    ∃ pt s t, pts m !! a = Some pt ∧ mime_type pt = Some s ∧ strs m !! s = Some t
}.

(** The payload type at [i] with its name satisfies [f]. *)
Definition slot_is (m : PMem) (p : RtpProfile) (f : PayloadType → string → bool) (i : Z) : bool :=
  match aget (payload p) i with
  | Some (Some a) =>
      match pts m !! a with
      | Some pt => match mime_type pt with Some s => match strs m !! s with Some t => f pt t | None => false end | None => false end
      | None => false
      end
  | _ => false
  end.

Lemma for_until_first {S} (l : list Z) (body : Z → CM S (option Z)) (t : Z → bool) s :
  (∀ i, body i s = Ret (if t i then Some i else None) s) → for_until l body s = Ret (List.find t l) s.
Proof.
  intros Hb. induction l as [|i l IH]; [done|]. cbn [for_until List.find]. rewrite (bind_ret _ _ _ _ _ (Hb i)).
  by destruct (t i).
Qed.

Lemma find_split {A} (t : A → bool) l j :
  List.find t l = Some j → ∃ l1 l2, l = l1 ++ j :: l2 ∧ t j = true ∧ ∀ x, x ∈ l1 → t x = false.
Proof.
  induction l as [|x l IH]; cbn; [done|]. destruct (t x) eqn:E.
  - intros [= <-]. exists [], l. split_and!; [done|done|set_solver].
  - intros (l1 & l2 & -> & Ht & Hl)%IH. exists (x :: l1), l2. split_and!; [done|done|]. intros y [->|Hy]%elem_of_cons; auto.
Qed.

Lemma find_seqZ t n :
  match List.find t (seqZ 0 n) with
  | Some j => 0 ≤ j < n ∧ t j = true ∧ ∀ i, 0 ≤ i < j → t i = false
  | None => ∀ i, 0 ≤ i < n → t i = false
  end.
Proof.
  destruct (List.find t (seqZ 0 n)) as [j|] eqn:E.
  - apply find_split in E as (l1 & l2 & El & Ht & Hl).
    assert (Hlk : seqZ 0 n !! length l1 = Some j) by (rewrite El; by apply list_lookup_middle). apply lookup_seqZ in Hlk as [-> Hlt].
    split_and!; [lia|lia|done|]. intros i Hi. apply Hl. apply (list_elem_of_lookup_2 _ (Z.to_nat i)).
    assert (Hi' : seqZ 0 n !! Z.to_nat i = Some i) by (apply lookup_seqZ; lia). rewrite El, lookup_app_l in Hi' by lia. done.
  - intros i Hi. apply (List.find_none t (seqZ 0 n) E). apply list_elem_of_In, elem_of_seqZ. lia.
Qed.

Definition search (m : PMem) (p : RtpProfile) (f : PayloadType → string → bool) : Z :=
  default (-1) (List.find (slot_is m p f) (seqZ 0 128)).

Lemma search_ret m prof p (f : PayloadType → string → bool) :
  profile_ok m prof p →
  (r ← for_until (S := PMem) (B := Z) indices (fun i =>
        pt ← rtp_profile_get_payload prof i;
        match pt with
        | Some a => q ← get_pt a; s ← get_str (mime_type q); mret (if f q s then Some i else None)
        | None => mret None
        end);
   mret (default (-1) r) : CM PMem Z) m = Ret (search m p f) m.
Proof.
  intros [Hp Hl Hn]. erewrite (bind_ret _ _ _ _ m); [|apply (for_until_first indices _ (slot_is m p f))]; [done|].
  intros i. rewrite (bind_ret _ _ _ _ _ (payload_range m prof i p Hp Hl)). unfold slot_is.
  destruct (aget (payload p) i) as [[a|]|] eqn:E; [|done|done]. cbn [from_option id default].
  destruct (Hn i a E) as (pt & s & t & E1 & E2 & E3). rewrite E1, E2, E3.
  rewrite (bind_ret _ _ _ pt m) by (unfold get_pt; by rewrite E1). rewrite E2.
  rewrite (bind_ret _ _ _ t m); [done|]. unfold get_str, nonnull. rewrite (bind_ret _ _ _ s m) by done. unfold str_at. by rewrite E3.
Qed.

Definition is_mime (mime : string) (_ : PayloadType) (t : string) : bool := strcaseeq t mime.
Definition is_mime_rate (mime : string) (rate : Z) (pt : PayloadType) (t : string) : bool := strcaseeq t mime && (clock_rate pt =? rate).

Lemma from_mime_ret m prof p mime :
  profile_ok m prof p → rtp_profile_get_payload_number_from_mime prof mime m = Ret (search m p (is_mime mime)) m.
Proof. intros H. exact (search_ret m prof p (is_mime mime) H). Qed.
Lemma find_number_ret m prof p mime rate :
  profile_ok m prof p → rtp_profile_find_payload_number prof mime rate m = Ret (search m p (is_mime_rate mime rate)) m.
Proof. intros H. exact (search_ret m prof p (is_mime_rate mime rate) H). Qed.

Lemma search_spec m p f :
  let j := search m p f in
  (j = -1 ∧ ∀ i, slot_is m p f i = true → ¬ 0 ≤ i < 128) ∨
  (0 ≤ j < 128 ∧ slot_is m p f j = true ∧ ∀ i, 0 ≤ i < j → slot_is m p f i = false).
Proof.
  unfold search. pose proof (find_seqZ (slot_is m p f) 128) as H. destruct (List.find _ _) as [j|]; cbn [default]; [right; done|left].
  split; [done|]. intros i Hi Hr. rewrite (H i Hr) in Hi. done.
Qed.

(** Nothing is allocated at or above [pbrk]; the static objects are below zero. *)
Record pm_wf (m : PMem) : Prop := {
  pw_pts a : pbrk m ≤ a → pts m !! a = None;
  pw_profs a : pbrk m ≤ a → profs m !! a = None;
  pw_strs a : pbrk m ≤ a → strs m !! a = None;
  pw_brk : 0 ≤ pbrk m
}.

Lemma new_str_ret s m : new_str s m = Ret (pbrk m) (m <| strs ::= <[pbrk m := s]> |> <| pbrk := pbrk m + 1 |>).
Proof. done. Qed.
Lemma get_str_ret m a s : strs m !! a = Some s → get_str (Some a) m = Ret s m.
Proof. intros E. unfold get_str. rewrite (bind_ret _ _ _ a m) by done. unfold str_at. by rewrite E. Qed.

Lemma profile_ok_str m prof p s : pm_wf m → profile_ok m prof p → profile_ok (m <| strs ::= <[pbrk m := s]> |> <| pbrk := pbrk m + 1 |>) prof p.
Proof.
  intros W [Hp Hl Hn]. split; [done|done|]. intros i a (pt & s0 & t & E1 & E2 & E3)%Hn. exists pt, s0, t. split_and!; [done|done|].
  cbn. rewrite lookup_insert_ne; [done|]. intros <-. rewrite (pw_strs _ W) in E3; [done|lia].
Qed.

Lemma search_ext m m' p f : pts m' = pts m → (∀ a t, strs m !! a = Some t → strs m' !! a = Some t) →
  (∀ i a, aget (payload p) i = Some (Some a) → ∃ pt s t, pts m !! a = Some pt ∧ mime_type pt = Some s ∧ strs m !! s = Some t) →
  search m' p f = search m p f.
Proof.
  intros Hp Hs Hn. unfold search. apply (f_equal (default (-1))). generalize (seqZ 0 128). intros l0. induction l0 as [|i l IH]; [done|]. cbn [List.find].
  assert (slot_is m' p f i = slot_is m p f i) as ->; [|by rewrite IH]. unfold slot_is.
  destruct (aget (payload p) i) as [[a|]|] eqn:E; [|done|done]. destruct (Hn i a E) as (pt & s & t & E1 & E2 & E3).
  rewrite Hp, E1, E2, E3. by rewrite (Hs _ _ E3).
Qed.

(** C28: [payload_type_get_rtpmap] prints name, rate and channel into a buffer that
    is long enough for every [int], and looking the string up finds the first
    payload type of the profile with that name (ignoring case) and rate, at or
    before the one it was printed from; the temporary copy is freed. *)
Theorem rtpmap_roundtrip m prof p i a pt s mime :
  pm_wf m → profile_ok m prof p → aget (payload p) i = Some (Some a) →
  pts m !! a = Some pt → mime_type pt = Some s → strs m !! s = Some mime → has_char "/" mime = false → in_i32 (clock_rate pt) →
  ∃ r m1 j m2, payload_type_get_rtpmap a m = Ret r m1 ∧ strs m1 !! r = Some (mime ++ "/" ++ print_int (clock_rate pt) ++ "/1")%string ∧
    rtp_profile_get_payload_number_from_rtpmap prof (Some r) m1 = Ret j m2 ∧
    0 ≤ j ≤ i ∧ slot_is m p (is_mime_rate mime (clock_rate pt)) j = true ∧
    (∀ k, 0 ≤ k < j → slot_is m p (is_mime_rate mime (clock_rate pt)) k = false) ∧
    strs m2 = strs m1 ∧ pts m2 = pts m ∧ profs m2 = profs m.
Proof.
  intros W Hok Hi Ha Hs Hm Hsl Hr. set (txt := (mime ++ "/" ++ print_int (clock_rate pt) ++ "/1")%string).
  destruct (print_int_shape (clock_rate pt) Hr) as [Hps Hpl].
  assert (E1 : payload_type_get_rtpmap a m = Ret (pbrk m) (m <| strs ::= <[pbrk m := txt]> |> <| pbrk := pbrk m + 1 |>)).
  { unfold payload_type_get_rtpmap. rewrite (bind_ret _ _ _ pt m) by (unfold get_pt; by rewrite Ha). rewrite Hs.
    rewrite (bind_ret _ _ _ _ _ (get_str_ret _ _ _ Hm)). rewrite truncate_id; [by rewrite new_str_ret|].
    rewrite !length_append. cbn [String.length]. lia. }
  set (m1 := m <| strs ::= <[pbrk m := txt]> |> <| pbrk := pbrk m + 1 |>) in *.
  assert (W1 : pm_wf m1).
  { destruct W as [W1 W2 W3 W4]. split; cbn; [intros x ?; apply W1; lia|intros x ?; apply W2; lia| |lia].
    intros x ?. rewrite lookup_insert_ne by lia. apply W3. lia. }
  assert (Hok1 : profile_ok m1 prof p) by by apply profile_ok_str.
  set (m2 := m1 <| strs ::= <[pbrk m1 := txt]> |> <| pbrk := pbrk m1 + 1 |>).
  assert (Hok2 : profile_ok m2 prof p) by by apply profile_ok_str.
  assert (Hse : ∀ f, search m2 p f = search m p f).
  { intros f. apply search_ext; [done| |by apply (po_names _ _ _ Hok)]. intros x t Hx. cbn.
    assert (x < pbrk m) by (destruct (Z.lt_ge_cases x (pbrk m)); [done|]; rewrite (pw_strs _ W) in Hx; done).
    by rewrite !lookup_insert_ne by lia. }
  set (f := is_mime_rate mime (clock_rate pt)).
  assert (Hii : slot_is m p f i = true).
  { unfold slot_is. rewrite Hi, Ha, Hs, Hm. unfold f, is_mime_rate. by rewrite strcaseeq_refl, Z.eqb_refl. }
  assert (Hir : 0 ≤ i < 128) by (rewrite <- (po_len _ _ _ Hok); by eapply aget_Some_range).
  destruct (search_spec m p f) as [[_ Hno]|(Hj1 & Hj2 & Hj3)]; [by destruct (Hno i Hii)|].
  exists (pbrk m), m1, (search m p f), (m2 <| strs ::= delete (pbrk m1) |>).
  split; [done|]. split; [cbn; by rewrite lookup_insert_eq|]. split.
  - unfold rtp_profile_get_payload_number_from_rtpmap, strdup.
    rewrite (bind_ret _ _ _ (pbrk m1) m2); [|rewrite (bind_ret _ _ _ _ _ (get_str_ret m1 (pbrk m) txt ltac:(cbn; by rewrite lookup_insert_eq))); done].
    rewrite (bind_ret _ _ _ _ _ (get_str_ret m2 (pbrk m1) txt ltac:(cbn; by rewrite lookup_insert_eq))).
    unfold txt at 1. change ("/" ++ print_int (clock_rate pt) ++ "/1")%string with (String "/" (print_int (clock_rate pt) ++ "/1")). rewrite (split_at_app "/" mime _ Hsl). rewrite (split_at_app "/" (print_int (clock_rate pt)) _ Hps).
    rewrite print_atoi by done. rewrite (bind_ret _ _ _ _ _ (find_number_ret _ _ _ _ _ Hok2)), Hse. fold f.
    rewrite (bind_ret _ _ _ tt (m2 <| strs ::= delete (pbrk m1) |>)); [done|].
    unfold free_str. destruct (Z.ltb_spec (pbrk m1) 0) as [Hlt|_]; [destruct W1; lia|]. cbn. by rewrite lookup_insert_eq.
  - split; [|split_and!; [done|done| |done|done]].
    + destruct (Z.le_gt_cases (search m p f) i); [lia|]. rewrite (Hj3 i) in Hii by lia. done.
    + cbn. rewrite delete_insert_id; [done|]. rewrite lookup_insert_ne by lia. apply (pw_strs _ W). lia.
Qed.

(** * Clones *)

(** A string pointer that is NULL or points to a string. *)
Definition str_ok (m : PMem) (p : option Z) : Prop := match p with Some s => is_Some (strs m !! s) | None => True end.
Definition names_ok (m : PMem) (pt : PayloadType) : Prop :=
  mime_type pt ≠ None ∧ str_ok m (mime_type pt) ∧ str_ok m (recv_fmtp pt) ∧ str_ok m (send_fmtp pt).

(** Two pointers to equal strings, or two NULLs. *)
Definition same_str (m : PMem) (p : option Z) (m' : PMem) (p' : option Z) : Prop :=
  match p, p' with
  | Some s, Some s' => ∃ t, strs m !! s = Some t ∧ strs m' !! s' = Some t
  | None, None => True
  | _, _ => False
  end.
Record copy_of (m : PMem) (pt : PayloadType) (m' : PMem) (c : Z) : Prop := {
  co_pt : ∃ pt', pts m' !! c = Some pt' ∧
    same_str m (mime_type pt) m' (mime_type pt') ∧ same_str m (recv_fmtp pt) m' (recv_fmtp pt') ∧ same_str m (send_fmtp pt) m' (send_fmtp pt') ∧
    pt' <| mime_type := mime_type pt |> <| recv_fmtp := recv_fmtp pt |> <| send_fmtp := send_fmtp pt |> =
      pt <| pt_flags := Z.lor (pt_flags pt) PAYLOAD_TYPE_ALLOCATED |>
}.

Definition str_list (p : option Z) : list Z := match p with Some s => [s] | None => [] end.
Definition strings (pt : PayloadType) : list Z := str_list (mime_type pt) ++ str_list (recv_fmtp pt) ++ str_list (send_fmtp pt).

(** The addresses from [lo] to [hi] hold an allocated payload type at [lo], its
    strings, and nothing else. *)
Record unit_at (m : PMem) (lo hi : Z) : Prop := {
  un_pt : ∃ pt, pts m !! lo = Some pt ∧ Z.land (pt_flags pt) PAYLOAD_TYPE_ALLOCATED ≠ 0 ∧ NoDup (strings pt) ∧
    (∀ s, s ∈ strings pt → lo < s < hi ∧ is_Some (strs m !! s)) ∧
    (∀ s, lo ≤ s < hi → is_Some (strs m !! s) → s ∈ strings pt);
  un_only a : lo < a < hi → pts m !! a = None;
  un_bounds : 0 ≤ lo < hi
}.

(** [m'] is [m] without the payload types and strings from [lo] to [hi]. *)
Record cleared (lo hi : Z) (m m' : PMem) : Prop := {
  cl_pts a : pts m' !! a = if decide (lo ≤ a < hi) then None else pts m !! a;
  cl_strs a : strs m' !! a = if decide (lo ≤ a < hi) then None else strs m !! a;
  cl_profs : profs m' = profs m;
  cl_brk : pbrk m' = pbrk m
}.

(** [m'] is [m] with other payload types and strings from [lo] to [hi] only. *)
Record grown (lo hi : Z) (m m' : PMem) : Prop := {
  gr_pts a : ¬ (lo ≤ a < hi) → pts m' !! a = pts m !! a;
  gr_strs a : ¬ (lo ≤ a < hi) → strs m' !! a = strs m !! a
}.

Lemma unit_grown lo hi lo' hi' m m' : grown lo' hi' m m' → hi ≤ lo' ∨ hi' ≤ lo → unit_at m lo hi → unit_at m' lo hi.
Proof.
  intros [Gp Gs] Hd [(pt & E & Hf & Hn & H1 & H2) Ho Hb]. split; [|intros a Ha; rewrite Gp by lia; by apply Ho|done].
  exists pt. split_and!; [by rewrite Gp by lia|done|done| |].
  - intros s Hs. destruct (H1 s Hs) as [Hr Hl]. split; [done|]. by rewrite Gs by lia.
  - intros s Hs. rewrite Gs by lia. by apply H2.
Qed.

Lemma free_opt_ret p m : (∀ s, s ∈ str_list p → 0 ≤ s ∧ is_Some (strs m !! s)) →
  ∃ m', free_opt p m = Ret tt m' ∧ pts m' = pts m ∧ profs m' = profs m ∧ pbrk m' = pbrk m ∧
    ∀ a, strs m' !! a = if decide (a ∈ str_list p) then None else strs m !! a.
Proof.
  intros Hp. destruct p as [s|]; cbn [free_opt str_list] in *.
  - destruct (Hp s) as [Hs [t Ht]]; [set_solver|]. unfold free_str. destruct (Z.ltb_spec s 0); [lia|]. rewrite Ht. eexists. split; [done|].
    split_and!; [done|done|done|]. intros a. cbn. destruct (decide (a = s)) as [->|Hne].
    + rewrite lookup_delete_eq, decide_True; [done|set_solver].
    + rewrite lookup_delete_ne, decide_False by set_solver. done.
  - exists m. split_and!; [done|done|done|done|]. intros a. by rewrite decide_False by set_solver.
Qed.

Lemma destroy_unit m lo hi : unit_at m lo hi → ∃ m', payload_type_destroy lo m = Ret tt m' ∧ cleared lo hi m m'.
Proof.
  intros [(pt & E & Hf & Hn & H1 & H2) Ho Hb]. unfold payload_type_destroy. rewrite (bind_ret _ _ _ pt m) by (unfold get_pt; by rewrite E).
  unfold strings in *. apply NoDup_app in Hn as (_ & Hd1 & (_ & Hd2 & _)%NoDup_app).
  destruct (free_opt_ret (mime_type pt) m) as (m1 & E1 & P1 & F1 & B1 & S1); [intros s Hs; destruct (H1 s) as [? ?]; [set_solver|split; [lia|done]]|].
  rewrite (bind_ret _ _ _ _ _ E1).
  destruct (free_opt_ret (recv_fmtp pt) m1) as (m2 & E2 & P2 & F2 & B2 & S2).
  { intros s Hs. destruct (H1 s) as [? ?]; [set_solver|]. split; [lia|]. rewrite S1, decide_False; [done|]. intros Hs'. apply (Hd1 s); set_solver. }
  rewrite (bind_ret _ _ _ _ _ E2).
  destruct (free_opt_ret (send_fmtp pt) m2) as (m3 & E3 & P3 & F3 & B3 & S3).
  { intros s Hs. destruct (H1 s) as [? ?]; [set_solver|]. split; [lia|]. rewrite S2, decide_False by (intros Hs'; by apply (Hd2 s)).
    rewrite S1, decide_False; [done|]. intros Hs'. apply (Hd1 s); set_solver. }
  rewrite (bind_ret _ _ _ _ _ E3). unfold free_pt. destruct (Z.ltb_spec lo 0); [lia|]. rewrite P3, P2, P1, E. eexists. split; [done|].
  split; cbn; [| |congruence|congruence].
  - intros a. rewrite P3, P2, P1. case_decide as Ha; [|by apply lookup_delete_ne; lia].
    destruct (decide (a = lo)) as [->|]; [by rewrite lookup_delete_eq|]. rewrite lookup_delete_ne by done. apply Ho. lia.
  - intros a. rewrite S3, S2, S1. destruct (decide (lo ≤ a < hi)) as [Ha|Ha].
    + destruct (strs m !! a) as [t|] eqn:Et; [|by repeat case_decide]. specialize (H2 a Ha ltac:(by eexists)).
      repeat case_decide; try done. set_solver.
    + assert (a ∉ str_list (mime_type pt) ++ str_list (recv_fmtp pt) ++ str_list (send_fmtp pt)) as Hn by (intros Hin; destruct (H1 a Hin); lia).
      rewrite !decide_False by set_solver. done.
Qed.

(** A field set to a copy of the string [p]. *)
Lemma dup_opt_ret (g : Z → PayloadType → PayloadType) p n q m :
  pts m !! n = Some q → str_ok m p →
  ∃ m', (match p with Some _ => s ← strdup p; upd_pt n (g s) | None => mret tt end) m = Ret tt m' ∧ profs m' = profs m ∧
    pbrk m' = pbrk m + zlen (str_list p) ∧ pts m' = <[n := match p with Some _ => g (pbrk m) q | None => q end]> (pts m) ∧
    (∀ a, (a ∉ str_list ((fun _ => pbrk m) <$> p)) → strs m' !! a = strs m !! a) ∧ (∀ s, p = Some s → strs m' !! pbrk m = strs m !! s).
Proof.
  intros Hq Hp. destruct p as [s|]; cbn [str_ok] in Hp.
  - destruct Hp as [t Ht]. unfold strdup, mbind, CM_bind. rewrite (get_str_ret _ _ _ Ht), new_str_ret. unfold upd_pt. cbn.
    rewrite Hq. eexists. split; [done|]. cbn. split_and!; [done|done|done| |].
    + intros a Ha. apply lookup_insert_ne. set_solver.
    + intros s' [= <-]. by rewrite lookup_insert_eq.
  - exists m. split_and!; [done|done|unfold zlen; cbn; lia|by rewrite insert_id|done|done].
Qed.

Lemma bind_assoc {S A B C} (m : CM S A) (f : A → CM S B) (g : B → CM S C) s :
  (x ← (y ← m; f y); g x) s = (y ← m; x ← f y; g x) s.
Proof. unfold mbind, CM_bind. by destruct (m s). Qed.

(** The clone of [pt] at [n], with its strings behind it. *)
Definition clone_ptr (b : Z) (p : option Z) : option Z := (fun _ => b) <$> p.
Definition clone_at (n : Z) (pt : PayloadType) : PayloadType :=
  mkPt (pt_type pt) (clock_rate pt) (bits_per_sample pt) (zero_pattern pt) (pattern_length pt) (normal_bitrate pt)
    (Some (n + 1)) (clone_ptr (n + 2) (recv_fmtp pt)) (clone_ptr (n + 2 + zlen (str_list (recv_fmtp pt))) (send_fmtp pt))
    (Z.lor (pt_flags pt) PAYLOAD_TYPE_ALLOCATED) (user_data pt).

Lemma clone_strings n pt :
  let hi := n + 2 + zlen (str_list (recv_fmtp pt)) + zlen (str_list (send_fmtp pt)) in
  NoDup (strings (clone_at n pt)) ∧ n < hi ∧ ∀ s, s ∈ strings (clone_at n pt) ↔ n < s < hi.
Proof.
  unfold strings, clone_at, clone_ptr. cbn. destruct (recv_fmtp pt) as [r|], (send_fmtp pt) as [t|]; cbn; unfold zlen; cbn;
    (split; [repeat (apply NoDup_cons; split; [rewrite ?not_elem_of_cons; split_and?; try lia; apply not_elem_of_nil|]); apply NoDup_nil; done|]);
    (split; [lia|]); intros s; rewrite !elem_of_cons, elem_of_nil; lia.
Qed.

Lemma clone_ret m a pt :
  pm_wf m → pts m !! a = Some pt → names_ok m pt →
  ∃ m', payload_type_clone a m = Ret (pbrk m) m' ∧ pts m' = <[pbrk m := clone_at (pbrk m) pt]> (pts m) ∧ profs m' = profs m ∧
    pbrk m' = pbrk m + 2 + zlen (str_list (recv_fmtp pt)) + zlen (str_list (send_fmtp pt)) ∧
    (∀ x, (x ∉ strings (clone_at (pbrk m) pt)) → strs m' !! x = strs m !! x) ∧
    same_str m (mime_type pt) m' (mime_type (clone_at (pbrk m) pt)) ∧ same_str m (recv_fmtp pt) m' (recv_fmtp (clone_at (pbrk m) pt)) ∧
    same_str m (send_fmtp pt) m' (send_fmtp (clone_at (pbrk m) pt)).
Proof.
  intros W Ha (Hmn & Hm & Hr & Hs). set (n := pbrk m). assert (Han : a ≠ n) by (intros ->; rewrite (pw_pts _ W) in Ha; [done|lia]).
  unfold payload_type_clone. set (m1 := m <| pts ::= <[n := pt0]> |> <| pbrk := n + 1 |>).
  rewrite (bind_ret _ _ _ n m1) by done.
  rewrite (bind_ret _ _ _ pt m1) by (unfold get_pt; cbn; by rewrite lookup_insert_ne, Ha).
  set (m2 := m1 <| pts ::= <[n := pt]> |>). rewrite (bind_ret _ _ _ tt m2) by (unfold upd_pt; cbn; by rewrite lookup_insert_eq).
  assert (Hn2 : pts m2 !! n = Some pt) by (cbn; by rewrite lookup_insert_eq).
  destruct (mime_type pt) as [sm|] eqn:Emime; [clear Hmn|done].
  destruct (dup_opt_ret (fun s p => p <| mime_type := Some s |>) (Some sm) n pt m2 Hn2 Hm) as (m3 & E3 & F3 & B3 & P3 & U3 & S3).
  change (zlen (str_list (Some sm))) with 1 in B3. rewrite <- bind_assoc, (bind_ret _ _ _ _ _ E3).
  set (p3 := pt <| mime_type := Some (n + 1) |>). change (pts m3 = <[n := p3]> (pts m2)) in P3.
  assert (Hn3 : pts m3 !! n = Some p3) by (by rewrite P3, lookup_insert_eq).
  assert (Hlive : ∀ p x, str_ok m p → str_ok x p → str_ok m p) by done.
  assert (Hlt : ∀ s t, strs m !! s = Some t → s < n) by (intros s t Hst; destruct (Z.lt_ge_cases s n); [done|]; rewrite (pw_strs _ W) in Hst; done).
  assert (U3' : ∀ s, s < n → strs m3 !! s = strs m !! s) by (intros s Hlts; rewrite U3; [done|]; cbn; rewrite list_elem_of_singleton; lia).
  assert (Hr3 : str_ok m3 (recv_fmtp pt)).
  { destruct (recv_fmtp pt) as [r|]; [|done]. destruct Hr as [t Ht]. cbn. rewrite U3' by by eapply Hlt. by exists t. }
  destruct (dup_opt_ret (fun s p => p <| recv_fmtp := Some s |>) (recv_fmtp pt) n p3 m3 Hn3 Hr3) as (m4 & E4 & F4 & B4 & P4 & U4 & S4).
  rewrite (bind_ret _ _ _ _ _ E4). rewrite B3 in B4, U4, S4, P4. cbn [pbrk m2 m1 update] in *.
  set (p4 := match recv_fmtp pt with Some _ => p3 <| recv_fmtp := Some (n + 1 + 1) |> | None => p3 end).
  change (pts m4 = <[n := p4]> (pts m3)) in P4. assert (Hn4 : pts m4 !! n = Some p4) by (by rewrite P4, lookup_insert_eq).
  assert (U4' : ∀ s, s < n → strs m4 !! s = strs m !! s).
  { intros s Hlts. rewrite U4, U3'; [done|done|]. intros Hin. destruct (recv_fmtp pt); cbn in Hin; [apply list_elem_of_singleton in Hin|apply elem_of_nil in Hin]; lia. }
  assert (Hs4 : str_ok m4 (send_fmtp pt)).
  { destruct (send_fmtp pt) as [r|]; [|done]. destruct Hs as [t Ht]. cbn. rewrite U4' by by eapply Hlt. by exists t. }
  destruct (dup_opt_ret (fun s p => p <| send_fmtp := Some s |>) (send_fmtp pt) n p4 m4 Hn4 Hs4) as (m5 & E5 & F5 & B5 & P5 & U5 & S5).
  rewrite (bind_ret _ _ _ _ _ E5).
  set (p5 := match send_fmtp pt with Some _ => p4 <| send_fmtp := Some (pbrk m4) |> | None => p4 end) in *.
  assert (Hn5 : pts m5 !! n = Some p5) by (by rewrite P5, lookup_insert_eq).
  set (p6 := p5 <| pt_flags ::= (fun f => Z.lor f PAYLOAD_TYPE_ALLOCATED) |>).
  rewrite (bind_ret _ _ _ tt (m5 <| pts ::= <[n := p6]> |>)) by (unfold upd_pt; by rewrite Hn5).
  replace (n + 1 + 1) with (n + 2) in * by lia.
  assert (E6 : p6 = clone_at n pt).
  { unfold p6, p5, p4, p3, clone_at, clone_ptr. rewrite B4. replace (n + 1 + 1) with (n + 2) by lia. destruct pt as [? ? ? ? ? ? ? r t ? ?]. cbn. by destruct r, t. }
  exists (m5 <| pts ::= <[n := p6]> |>). split; [done|]. cbn [pts profs pbrk strs].
  split.
  { change (<[n := p6]> (pts m5) = <[n := clone_at n pt]> (pts m)). rewrite E6, P5, P4, P3. change (pts m2) with (<[n := pt]> (<[n := pt0]> (pts m))). by rewrite !insert_insert_eq. }
  split; [cbn; rewrite F5, F4; exact F3|].
  split; [cbn; rewrite B5, B4; lia|]. cbn. rewrite B4 in U5, S5. unfold strings, clone_at, clone_ptr in *. cbn in *.
  assert (Hmime : strs m3 !! (n + 1) = strs m !! sm) by by apply S3.
  split; [|split_and!].
  - intros x Hx. rewrite U5 by set_solver. rewrite U4 by set_solver. apply U3. cbn. set_solver.
  - destruct Hm as [t Ht]. exists t. split; [done|]. rewrite U5, U4, Hmime; [done| |].
    + destruct (recv_fmtp pt); cbn; rewrite ?list_elem_of_singleton, ?elem_of_nil; [lia|tauto].
    + destruct (send_fmtp pt), (recv_fmtp pt); cbn; rewrite ?list_elem_of_singleton, ?elem_of_nil; unfold zlen; cbn; try lia; tauto.
  - destruct (recv_fmtp pt) as [r|]; [|done]. cbn in *. destruct Hr as [t Ht]. exists t. split; [done|].
    rewrite U5, (S4 r), U3', Ht; [done|by eapply Hlt|done|].
    destruct (send_fmtp pt); cbn; rewrite ?list_elem_of_singleton, ?elem_of_nil; unfold zlen; cbn; [lia|tauto].
  - destruct (send_fmtp pt) as [r|]; [|done]. cbn in *. destruct Hs as [t Ht]. exists t. split; [done|]. rewrite (S5 r), U4', Ht; [done|by eapply Hlt|done].
Qed.

Lemma clone_unit m a pt :
  pm_wf m → pts m !! a = Some pt → names_ok m pt →
  ∃ m', payload_type_clone a m = Ret (pbrk m) m' ∧ unit_at m' (pbrk m) (pbrk m') ∧ grown (pbrk m) (pbrk m') m m' ∧
    copy_of m pt m' (pbrk m) ∧ pm_wf m' ∧ profs m' = profs m.
Proof.
  intros W Ha Hn. destruct (clone_ret m a pt W Ha Hn) as (m' & E & P & F & B & U & S1 & S2 & S3). set (n := pbrk m) in *.
  destruct (clone_strings n pt) as (Hnd & Hlt & Hin). rewrite <- B in *. exists m'. split; [done|].
  assert (Hlive : ∀ s, s ∈ strings (clone_at n pt) → is_Some (strs m' !! s)).
  { intros s Hs. destruct Hn as (_ & N1 & N2 & N3). unfold strings, same_str, clone_at, clone_ptr in *. cbn in Hs, S1, S2, S3.
    apply elem_of_cons in Hs as [->|[Hs|Hs]%elem_of_app].
    - destruct (mime_type pt); [|done]. destruct S1 as (t & _ & ?). by exists t.
    - destruct (recv_fmtp pt); cbn in Hs, S2; [|by apply elem_of_nil in Hs]. apply list_elem_of_singleton in Hs as ->. destruct S2 as (t & _ & ?). by exists t.
    - destruct (send_fmtp pt); cbn in Hs, S3; [|by apply elem_of_nil in Hs]. apply list_elem_of_singleton in Hs as ->. destruct S3 as (t & _ & ?). by exists t. }
  split_and!; [| | | |done].
  - split; [|intros x Hx; rewrite P, lookup_insert_ne by lia; apply (pw_pts _ W); lia|pose proof (pw_brk _ W); lia].
    exists (clone_at n pt). split_and!; [by rewrite P, lookup_insert_eq| |done| |].
    + cbn. unfold PAYLOAD_TYPE_ALLOCATED. intros H. assert (Hb : Z.testbit (Z.land (Z.lor (pt_flags pt) 1) 1) 0 = true).
      { rewrite Z.land_spec, Z.lor_spec. cbn. by rewrite orb_true_r. } by rewrite H in Hb.
    + intros s Hs. split; [by apply Hin|by apply Hlive].
    + intros s Hs Hl. apply Hin. destruct (decide (s = n)) as [->|]; [|lia]. rewrite U in Hl; [|rewrite Hin; lia].
      rewrite (pw_strs _ W) in Hl by (unfold n; lia). by destruct Hl.
  - split; intros x Hx; [rewrite P; apply lookup_insert_ne; lia|apply U; rewrite Hin; lia].
  - split. exists (clone_at n pt). split; [by rewrite P, lookup_insert_eq|]. split_and!; [done|done|done|by destruct pt].
  - pose proof (pw_brk _ W). split; [| | |lia].
    + intros x Hx. rewrite P, lookup_insert_ne by lia. apply (pw_pts _ W). lia.
    + intros x Hx. rewrite F. apply (pw_profs _ W). lia.
    + intros x Hx. rewrite U by (rewrite Hin; lia). apply (pw_strs _ W). lia.
Qed.

(** The slots of the indices [l] hold, from [lo] to [hi], one unit each, in order. *)
Fixpoint slots (m : PMem) (pl : list (option Z)) (l : list Z) (lo hi : Z) : Prop :=
  match l with
  | [] => lo = hi
  | i :: l =>
      match aget pl i with
      | Some (Some c) => c = lo ∧ ∃ mid, mid ≤ hi ∧ unit_at m lo mid ∧ slots m pl l mid hi
      | Some None => slots m pl l lo hi
      | None => False
      end
  end.

Lemma slots_le m pl l lo hi : slots m pl l lo hi → lo ≤ hi.
Proof.
  revert lo. induction l as [|i l IH]; intros lo; cbn; [lia|]. destruct (aget pl i) as [[c|]|]; [|auto|done].
  intros (-> & mid & ? & U & H%IH). pose proof (un_bounds _ _ _ U). lia.
Qed.

Lemma slots_grown m m' pl l lo hi lo' hi' : grown lo' hi' m m' → hi ≤ lo' ∨ hi' ≤ lo → slots m pl l lo hi → slots m' pl l lo hi.
Proof.
  intros G. revert lo. induction l as [|i l IH]; intros lo Hd; cbn; [done|]. destruct (aget pl i) as [[c|]|]; [|by apply IH|done].
  intros (-> & mid & Hm & U & H). pose proof (un_bounds _ _ _ U). pose proof (slots_le _ _ _ _ _ H).
  split; [done|]. exists mid. split_and!; [done|eapply unit_grown; [exact G|lia|exact U]|apply IH; [lia|done]].
Qed.

Lemma slots_same m pl pl' l lo hi : (∀ i, i ∈ l → aget pl' i = aget pl i) → slots m pl l lo hi → slots m pl' l lo hi.
Proof.
  revert lo. induction l as [|i l IH]; intros lo H; cbn; [done|]. rewrite (H i) by set_solver.
  assert (Hl : ∀ j, j ∈ l → aget pl' j = aget pl j) by set_solver. destruct (aget pl i) as [[c|]|]; [|by apply IH|done].
  intros (-> & mid & Hm & U & Hs). split; [done|]. exists mid. split_and!; [done|done|by apply IH].
Qed.

(** Destroying what the slots hold. *)
Definition destroy_slot (prof i : Z) : CM PMem unit :=
  pt ← rtp_profile_get_payload prof i;
  match pt with
  | Some a =>
      q ← get_pt a;
      if negb (Z.land (pt_flags q) PAYLOAD_TYPE_ALLOCATED =? 0) then payload_type_destroy a else mret tt
  | None => mret tt
  end.

Lemma cleared_refl lo m : cleared lo lo m m.
Proof. split; try done; intros a; by rewrite decide_False by lia. Qed.
Lemma cleared_trans lo mid hi m1 m2 m3 : lo ≤ mid ≤ hi → cleared lo mid m1 m2 → cleared mid hi m2 m3 → cleared lo hi m1 m3.
Proof.
  intros Hb [A1 A2 A3 A4] [B1 B2 B3 B4]. split; [| |congruence|congruence]; intros a; rewrite ?B1, ?B2, ?A1, ?A2;
    repeat case_decide; done || lia.
Qed.

Lemma destroy_slots l m prof p lo hi :
  profs m !! prof = Some p → zlen (payload p) = 128 → slots m (payload p) l lo hi →
  ∃ m', for_each l (destroy_slot prof) m = Ret tt m' ∧ cleared lo hi m m'.
Proof.
  revert m lo. induction l as [|i l IH]; intros m lo Hp Hl; cbn [for_each slots].
  { intros ->. exists m. split; [done|apply cleared_refl]. }
  pose proof (payload_range m prof i p Hp Hl) as E. destruct (aget (payload p) i) as [[c|]|]; [| |done]; cbn in E.
  - intros (-> & mid & Hm & U & Hs). destruct (destroy_unit m lo mid U) as (m1 & E1 & C1). pose proof (un_bounds _ _ _ U) as Hb.
    pose proof (slots_le _ _ _ _ _ Hs).
    destruct (IH m1 mid) as (m' & E2 & C2); [by rewrite (cl_profs _ _ _ _ C1)|done| |].
    { eapply (slots_grown m m1 _ _ mid hi lo mid); [|lia|done]. destruct C1 as [C1 C2 _ _].
      split; intros x Hx; [rewrite C1|rewrite C2]; by rewrite decide_False. }
    exists m'. split; [|eapply cleared_trans; [|exact C1|exact C2]; lia]. rewrite (bind_ret _ _ _ tt m1); [done|]. unfold destroy_slot. rewrite (bind_ret _ _ _ _ _ E).
    destruct U as [(pt & Ept & Hf & _) _ _]. rewrite (bind_ret _ _ _ pt m) by (unfold get_pt; by rewrite Ept).
    apply Z.eqb_neq in Hf as ->. done.
  - intros Hs. destruct (IH m lo Hp Hl Hs) as (m' & E2 & C2). exists m'. split; [|done].
    rewrite (bind_ret _ _ _ tt m); [done|]. unfold destroy_slot. by rewrite (bind_ret _ _ _ _ _ E).
Qed.

(** ** Cloning a profile *)

Definition clone_slot (prof newprof i : Z) : CM PMem unit :=
  pt ← rtp_profile_get_payload prof i;
  match pt with
  | Some a => c ← payload_type_clone a; rtp_profile_set_payload newprof i (Some c)
  | None => mret tt
  end.

(** The slots [l] of [pl'] hold copies of those of [pl]. *)
Definition copies (m : PMem) (pl : list (option Z)) (m' : PMem) (pl' : list (option Z)) (i : Z) : Prop :=
  match aget pl i, aget pl' i with
  | Some None, Some None => True
  | Some (Some a), Some (Some c) => ∃ pt, pts m !! a = Some pt ∧ copy_of m pt m' c
  | _, _ => False
  end.

Lemma same_str_grown m p m1 p' lo hi m2 : grown lo hi m1 m2 → pm_wf m1 → lo = pbrk m1 → same_str m p m1 p' → same_str m p m2 p'.
Proof.
  intros G W -> H. unfold same_str in *. destruct p as [s|], p' as [s'|]; try done. destruct H as (t & H1 & H2). exists t. split; [done|].
  rewrite (gr_strs _ _ _ _ G); [done|]. intros Hr. rewrite (pw_strs _ W) in H2; [done|lia].
Qed.
Lemma copy_grown m pt m1 c hi m2 : grown (pbrk m1) hi m1 m2 → pm_wf m1 → copy_of m pt m1 c → copy_of m pt m2 c.
Proof.
  intros G W [(pt' & H1 & H2 & H3 & H4 & H5)]. split. exists pt'. split_and!; [|by eapply same_str_grown|by eapply same_str_grown|by eapply same_str_grown|done].
  rewrite (gr_pts _ _ _ _ G); [done|]. intros Hr. rewrite (pw_pts _ W) in H1; [done|lia].
Qed.

Lemma set_payload_ret m q p i x :
  profs m !! q = Some p → zlen (payload p) = 128 → 0 ≤ i < 128 →
  rtp_profile_set_payload q i x m = Ret tt (m <| profs ::= <[q := p <| payload := <[Z.to_nat i := x]> (payload p) |>]> |>).
Proof.
  intros Hq Hl Hi. unfold rtp_profile_set_payload, RTP_PROFILE_MAX_PAYLOADS.
  destruct (Z.ltb_spec i 0); [lia|]. destruct (Z.leb_spec 128 i); [lia|]. cbn [orb]. unfold store_payload.
  rewrite (bind_ret _ _ _ p m) by (unfold get_prof; by rewrite Hq). rewrite aset_Some by lia. unfold upd_prof. by rewrite Hq.
Qed.

(** The payload types of a profile with their names are there. *)
Definition payloads_ok (m : PMem) (p : RtpProfile) : Prop :=
  ∀ i a, aget (payload p) i = Some (Some a) → ∃ pt, pts m !! a = Some pt ∧ names_ok m pt.

Lemma names_grown m m' hi pt : pm_wf m → grown (pbrk m) hi m m' → names_ok m pt → names_ok m' pt.
Proof.
  intros W G (N1 & N2 & N3 & N4). assert (H : ∀ p, str_ok m p → str_ok m' p).
  { intros [s|]; [|done]. intros [t Ht]. exists t. rewrite (gr_strs _ _ _ _ G); [done|]. intros Hr. rewrite (pw_strs _ W) in Ht; [done|lia]. }
  split_and!; auto.
Qed.
Lemma grown_trans lo mid hi m1 m2 m3 : lo ≤ mid ≤ hi → grown lo mid m1 m2 → grown mid hi m2 m3 → grown lo hi m1 m3.
Proof. intros Hb [A1 A2] [B1 B2]. split; intros a Ha; rewrite ?B1, ?B2 by lia; [apply A1|apply A2]; lia. Qed.
Lemma grown_refl lo m : grown lo lo m m.
Proof. by split. Qed.

Lemma clone_loop m0 prof p q l m pq :
  pm_wf m0 → payloads_ok m0 p → zlen (payload p) = 128 → prof ≠ q → NoDup l → (∀ i, i ∈ l → 0 ≤ i < 128) →
  pm_wf m → pbrk m0 ≤ pbrk m → grown (pbrk m0) (pbrk m) m0 m → profs m !! prof = Some p → profs m !! q = Some pq →
  zlen (payload pq) = 128 → (∀ i, i ∈ l → aget (payload pq) i = Some None) → q < pbrk m →
  ∃ m' pq', for_each l (clone_slot prof q) m = Ret tt m' ∧ pm_wf m' ∧ pbrk m ≤ pbrk m' ∧ grown (pbrk m) (pbrk m') m m' ∧
    profs m' = <[q := pq']> (profs m) ∧ prof_name pq' = prof_name pq ∧ zlen (payload pq') = 128 ∧
    slots m' (payload pq') l (pbrk m) (pbrk m') ∧ (∀ i, i ∈ l → copies m0 (payload p) m' (payload pq') i) ∧
    (∀ i, 0 ≤ i → (i ∉ l) → aget (payload pq') i = aget (payload pq) i).
Proof.
  intros W0 Hok Hpl Hne. revert m pq. induction l as [|i l IH]; intros m pq Hnd Hl W Hb G Hp Hq Hql Hnone Hqb; cbn [for_each].
  { exists m, pq. split_and!; [done|done|lia|apply grown_refl|by rewrite insert_id|done|done|done|set_solver|done]. }
  apply NoDup_cons in Hnd as [Hil Hnd]. assert (Hi : 0 ≤ i < 128) by (apply Hl; set_solver).
  assert (Hi2 : aget (payload pq) i = Some None) by (apply Hnone; set_solver).
  destruct (proj2 (aget_is_Some (payload p) i)) as [x Hx]; [lia|].
  pose proof (payload_range m prof i p Hp Hpl) as E. rewrite Hx in E. cbn in E.
  destruct x as [a|].
  - destruct (Hok i a Hx) as (pt & Ha0 & Hnm). assert (Ha : pts m !! a = Some pt).
    { rewrite (gr_pts _ _ _ _ G); [done|]. intros Hr. rewrite (pw_pts _ W0) in Ha0; [done|lia]. }
    destruct (clone_unit m a pt W Ha) as (m1 & E1 & U & G1 & C & W1 & F1); [exact (names_grown m0 m _ pt W0 G Hnm)|]. pose proof (un_bounds _ _ _ U) as Hub.
    set (pq1 := pq <| payload := <[Z.to_nat i := Some (pbrk m)]> (payload pq) |>). set (m2 := m1 <| profs ::= <[q := pq1]> |>).
    assert (E2 : clone_slot prof q i m = Ret tt m2).
    { unfold clone_slot. rewrite (bind_ret _ _ _ _ _ E), (bind_ret _ _ _ _ _ E1). apply set_payload_ret; [by rewrite F1|done|lia]. }
    rewrite (bind_ret _ _ _ _ _ E2).
    assert (W2 : pm_wf m2). { destruct W1 as [A1 A2 A3 A4]. split; [done| |done|done]. intros x Hx'. cbn. rewrite lookup_insert_ne; [by apply A2|]. cbn in Hx'. lia. }
    assert (G01 : grown (pbrk m0) (pbrk m1) m0 m1) by (eapply grown_trans; [|exact G|exact G1]; lia).
    assert (Hag : ∀ j, 0 ≤ j → j ≠ i → aget (payload pq1) j = aget (payload pq) j).
    { intros j Hj Hji. cbn. apply aget_insert_ne; lia. }
    destruct (IH m2 pq1 Hnd) as (m' & pq' & E3 & W' & B' & G' & F' & N' & L' & S' & C' & O').
    + set_solver.
    + done.
    + cbn. lia.
    + destruct G01. by split.
    + cbn. rewrite lookup_insert_ne, F1 by done. done.
    + cbn. by rewrite lookup_insert_eq.
    + cbn. by rewrite zlen_insert.
    + intros j Hj. rewrite Hag; [apply Hnone; set_solver|apply Hl; set_solver|set_solver].
    + cbn. lia.
    + change (pbrk m2) with (pbrk m1) in *. assert (G1' : grown (pbrk m1) (pbrk m') m1 m') by (destruct G'; by split).
      assert (Hat : aget (payload pq') i = Some (Some (pbrk m))).
      { rewrite O' by (done || lia). cbn. rewrite aget_insert_eq by lia. done. }
      exists m', pq'. split_and!; [done|done|lia|eapply grown_trans; [|exact G1|exact G1']; lia| |done|done| | |].
      * rewrite F'. cbn. by rewrite insert_insert_eq, F1.
      * cbn [slots]. rewrite Hat. split; [done|]. exists (pbrk m1). split_and!; [lia|eapply unit_grown; [exact G1'|lia|done]|done].
      * intros j [->|Hj]%elem_of_cons; [|by apply C']. unfold copies. rewrite Hx, Hat. exists pt. split; [done|].
        eapply copy_grown; [exact G1'|done|]. destruct C as [(pt' & P1 & P2 & P3 & P4 & P5)]. split. exists pt'.
        assert (Hss : ∀ s s', same_str m s m1 s' → str_ok m0 s → same_str m0 s m1 s').
        { intros [s|] [s'|]; try done. intros (t & T1 & T2) [t0 T0]. exists t. split; [|done]. rewrite <- T1. symmetry. apply (gr_strs _ _ _ _ G).
          intros Hr. rewrite (pw_strs _ W0) in T0; [done|lia]. }
        destruct Hnm as (_ & M1 & M2 & M3). split_and!; auto.
      * intros j Hj0 [Hj1 Hj2]%not_elem_of_cons. rewrite O' by done. by apply Hag.
  - assert (E2 : clone_slot prof q i m = Ret tt m) by (unfold clone_slot; by rewrite (bind_ret _ _ _ _ _ E)).
    rewrite (bind_ret _ _ _ _ _ E2). destruct (IH m pq Hnd) as (m' & pq' & E3 & W' & B' & G' & F' & N' & L' & S' & C' & O'); [by intros j Hj; apply Hl; right|done|done|done|done|done|done|by intros j Hj; apply Hnone; right|done|].
    assert (Hat : aget (payload pq') i = Some None) by (rewrite O' by (done || lia); done).
    exists m', pq'. split_and!; [done|done|lia|done|done|done|done| | |].
    + cbn [slots]. by rewrite Hat.
    + intros j [->|Hj]%elem_of_cons; [|by apply C']. unfold copies. by rewrite Hx, Hat.
    + intros j Hj0 [_ Hj2]%not_elem_of_cons. by apply O'.
Qed.

Definition new_name (m : PMem) (name : string) : PMem :=
  m <| profs ::= <[pbrk m := mkProf (Some (pbrk m + 1)) (replicate 128 None)]> |> <| strs ::= <[pbrk m + 1 := name]> |> <| pbrk := pbrk m + 2 |>.

Lemma profile_new_ret m nm name :
  pm_wf m → strs m !! nm = Some name → rtp_profile_new (Some nm) m = Ret (pbrk m) (new_name m name) ∧ pm_wf (new_name m name) ∧
    grown (pbrk m) (pbrk m + 2) m (new_name m name).
Proof.
  intros W Hn. pose proof (pw_brk _ W). split; [|split].
  - unfold rtp_profile_new. rewrite (bind_ret _ _ _ (pbrk m) m) by done.
    set (p0 := mkProf None (replicate (Z.to_nat RTP_PROFILE_MAX_PAYLOADS) None)).
    set (ma := m <| profs ::= <[pbrk m := p0]> |> <| pbrk := pbrk m + 1 |>). rewrite (bind_ret _ _ _ tt ma) by done.
    rewrite (bind_ret _ _ _ tt (new_name m name)); [done|]. unfold rtp_profile_set_name.
    rewrite (bind_ret _ _ _ p0 ma) by (unfold get_prof; cbn; by rewrite lookup_insert_eq). cbn [prof_name p0 free_opt].
    rewrite (bind_ret _ _ _ tt ma) by done. unfold strdup. rewrite bind_assoc, (bind_ret _ _ _ _ _ (get_str_ret ma nm name Hn)).
    set (mb := ma <| strs ::= <[pbrk m + 1 := name]> |> <| pbrk := pbrk m + 1 + 1 |>). rewrite (bind_ret _ _ _ (pbrk m + 1) mb) by done.
    unfold upd_prof. replace (profs mb !! pbrk m) with (Some p0) by (cbn; by rewrite lookup_insert_eq).
    f_equal. unfold new_name, mb, ma, p0. cbn. rewrite insert_insert_eq. f_equal. lia.
  - destruct W as [W1 W2 W3 _]. split; cbn; [intros a Ha; apply W1; lia|intros a Ha|intros a Ha|lia]; rewrite lookup_insert_ne by lia;
      [apply W2|apply W3]; lia.
  - split; intros a Ha; cbn; [done|]. apply lookup_insert_ne. lia.
Qed.

Lemma aget_new i : 0 ≤ i < 128 → aget (replicate 128 (@None Z)) i = Some None.
Proof. intros Hi. apply aget_replicate. lia. Qed.

Lemma clone_full_ret m prof p nm name :
  pm_wf m → profs m !! prof = Some p → prof_name p = Some nm → strs m !! nm = Some name → zlen (payload p) = 128 → payloads_ok m p →
  ∃ m1 pq, rtp_profile_clone_full prof m = Ret (pbrk m) m1 ∧ pm_wf m1 ∧ pbrk m + 2 ≤ pbrk m1 ∧ profs m1 = <[pbrk m := pq]> (profs m) ∧
    prof_name pq = Some (pbrk m + 1) ∧ strs m1 !! (pbrk m + 1) = Some name ∧ zlen (payload pq) = 128 ∧
    slots m1 (payload pq) indices (pbrk m + 2) (pbrk m1) ∧ grown (pbrk m) (pbrk m1) m m1 ∧
    pts m1 !! pbrk m = None ∧ pts m1 !! (pbrk m + 1) = None ∧ strs m1 !! pbrk m = None ∧
    (∀ i, 0 ≤ i < 128 → copies m (payload p) m1 (payload pq) i).
Proof.
  intros W Hp Hnm Hn Hl Hok. pose proof (pw_brk _ W) as Hb. destruct (profile_new_ret m nm name W Hn) as (E0 & W0 & G0).
  assert (Hne : prof ≠ pbrk m) by (intros ->; rewrite (pw_profs _ W) in Hp; [done|lia]). set (mb := new_name m name) in *.
  change (pbrk m + 2) with (pbrk mb) in G0 |- *.
  destruct (clone_loop m prof p (pbrk m) indices mb (mkProf (Some (pbrk m + 1)) (replicate 128 None)))
    as (m1 & pq & E1 & W1 & B1 & G1 & F1 & N1 & L1 & S1 & C1 & _); try done.
  - apply NoDup_seqZ.
  - intros i Hi%elem_of_seqZ. unfold RTP_PROFILE_MAX_PAYLOADS in Hi. lia.
  - cbn. lia.
  - cbn. by rewrite lookup_insert_ne.
  - cbn. by rewrite lookup_insert_eq.
  - intros i Hi%elem_of_seqZ. apply aget_new. unfold RTP_PROFILE_MAX_PAYLOADS in Hi. lia.
  - cbn. lia.
  - exists m1, pq. assert (Hlow : ∀ a, a < pbrk mb → pts m1 !! a = pts mb !! a ∧ strs m1 !! a = strs mb !! a).
    { intros a Ha. split; [apply (gr_pts _ _ _ _ G1)|apply (gr_strs _ _ _ _ G1)]; lia. }
    split_and!; [|done|lia| |done| |done|done| | | | |].
    + unfold rtp_profile_clone_full. rewrite (bind_ret _ _ _ p m) by (unfold get_prof; by rewrite Hp). rewrite Hnm.
      rewrite (bind_ret _ _ _ _ _ E0). rewrite (bind_ret _ _ _ tt m1); [done|exact E1].
    + rewrite F1. cbn. by rewrite insert_insert_eq.
    + destruct (Hlow (pbrk m + 1)) as [_ ->]; [cbn; lia|]. cbn. by rewrite lookup_insert_eq.
    + eapply grown_trans; [|exact G0|exact G1]; cbn in *; lia.
    + destruct (Hlow (pbrk m)) as [-> _]; [cbn; lia|]. apply (pw_pts _ W). lia.
    + destruct (Hlow (pbrk m + 1)) as [-> _]; [cbn; lia|]. apply (pw_pts _ W). lia.
    + destruct (Hlow (pbrk m)) as [_ ->]; [cbn; lia|]. cbn. rewrite lookup_insert_ne by lia. apply (pw_strs _ W). lia.
    + intros i Hi. apply C1. apply elem_of_seqZ. unfold RTP_PROFILE_MAX_PAYLOADS. lia.
Qed.

(** C29: a full clone of a profile has a copy of every payload type, field by field
    and string by string, each its own and marked as allocated; the original stays,
    and destroying the clone frees exactly what cloning allocated. *)
Theorem profile_clone_destroy m prof p nm name :
  pm_wf m → profs m !! prof = Some p → prof_name p = Some nm → strs m !! nm = Some name → zlen (payload p) = 128 → payloads_ok m p →
  ∃ q m1 pq m2, rtp_profile_clone_full prof m = Ret q m1 ∧ profs m1 !! q = Some pq ∧ profs m1 !! prof = Some p ∧
    same_str m (prof_name p) m1 (prof_name pq) ∧ (∀ i, 0 ≤ i < 128 → copies m (payload p) m1 (payload pq) i) ∧
    rtp_profile_destroy q m1 = Ret tt m2 ∧ pts m2 = pts m ∧ profs m2 = profs m ∧ strs m2 = strs m.
Proof.
  intros W Hp Hnm Hn Hl Hok. pose proof (pw_brk _ W) as Hb.
  assert (Hne : prof ≠ pbrk m) by (intros ->; rewrite (pw_profs _ W) in Hp; [done|lia]).
  destruct (clone_full_ret m prof p nm name W Hp Hnm Hn Hl Hok) as (m1 & pq & E & W1 & B1 & F1 & N1 & T1 & L1 & S1 & G1 & X1 & X2 & X3 & C1).
  set (q := pbrk m) in *. set (ma := m1 <| strs ::= delete (q + 1) |>).
  assert (Hpq : profs m1 !! q = Some pq) by (by rewrite F1, lookup_insert_eq).
  destruct (destroy_slots indices ma q pq (q + 2) (pbrk m1)) as (m' & E2 & C2); [done|done| |].
  { eapply (slots_grown m1 ma _ _ _ _ (q + 1) (q + 2)); [|lia|exact S1]. split; intros a Ha; cbn; [done|]. apply lookup_delete_ne. lia. }
  exists q, m1, pq, (m' <| profs ::= delete q |>). split_and!; [done|done|by rewrite F1, lookup_insert_ne| |done| | | |].
  - rewrite Hnm, N1. by exists name.
  - unfold rtp_profile_destroy. rewrite (bind_ret _ _ _ pq m1) by (unfold get_prof; by rewrite Hpq). rewrite N1. cbn [free_opt].
    rewrite (bind_ret _ _ _ tt ma); [|unfold free_str; destruct (Z.ltb_spec (q + 1) 0); [lia|]; by rewrite T1].
    rewrite (bind_ret _ _ _ tt m' E2 : _ = _). unfold free_prof. destruct (Z.ltb_spec q 0); [lia|].
    rewrite (cl_profs _ _ _ _ C2). cbn. by rewrite Hpq.
  - apply map_eq. intros a. cbn. rewrite (cl_pts _ _ _ _ C2). cbn. case_decide as Ha; [symmetry; apply (pw_pts _ W); lia|].
    destruct (decide (q ≤ a < pbrk m1)) as [Hr|Hr]; [|by apply (gr_pts _ _ _ _ G1)].
    assert (a = q ∨ a = q + 1) as [-> | ->] by lia; [rewrite X1|rewrite X2]; symmetry; apply (pw_pts _ W); lia.
  - cbn. rewrite (cl_profs _ _ _ _ C2). cbn. rewrite F1. apply delete_insert_id. apply (pw_profs _ W). lia.
  - apply map_eq. intros a. cbn. rewrite (cl_strs _ _ _ _ C2). cbn. case_decide as Ha; [symmetry; apply (pw_strs _ W); lia|].
    destruct (decide (a = q + 1)) as [->|Hq]; [rewrite lookup_delete_eq; symmetry; apply (pw_strs _ W); lia|]. rewrite lookup_delete_ne by done.
    destruct (decide (q ≤ a < pbrk m1)) as [Hr|Hr]; [|by apply (gr_strs _ _ _ _ G1)].
    assert (a = q) as -> by lia. rewrite X3. symmetry. apply (pw_strs _ W). lia.
Qed.

(** ** The profile of the program *)

Definition str_okb (m : PMem) (p : option Z) : bool :=
  match p with Some s => match strs m !! s with Some _ => true | None => false end | None => true end.
Definition slot_okb (m : PMem) (p : RtpProfile) (i : Z) : bool :=
  match aget (payload p) i with
  | Some (Some a) =>
      match pts m !! a with
      | Some pt => match mime_type pt with Some _ => str_okb m (mime_type pt) && str_okb m (recv_fmtp pt) && str_okb m (send_fmtp pt) | None => false end
      | None => false
      end
  | _ => true
  end.

Lemma str_okb_ok m p : str_okb m p = true → str_ok m p.
Proof. destruct p as [s|]; cbn; [|done]. destruct (strs m !! s) as [t|]; [by exists t|done]. Qed.

Lemma slots_okb m p : zlen (payload p) = 128 → forallb (slot_okb m p) indices = true → payloads_ok m p.
Proof.
  intros Hl Hb i a Hi. pose proof (aget_Some_range _ _ _ Hi) as Hr.
  assert (H : slot_okb m p i = true). { apply (proj1 (forallb_forall _ _) Hb), list_elem_of_In, elem_of_seqZ. unfold RTP_PROFILE_MAX_PAYLOADS. lia. }
  unfold slot_okb in H. rewrite Hi in H. destruct (pts m !! a) as [pt|]; [|done]. exists pt. split; [done|].
  destruct (mime_type pt) as [s|] eqn:Es; [|done]. apply andb_prop in H as [[H1 H2]%andb_prop H3].
  split; [by rewrite Es|]. split; [rewrite Es; by apply str_okb_ok|]. split; by apply str_okb_ok.
Qed.

Lemma payloads_profile_ok m prof p : profs m !! prof = Some p → zlen (payload p) = 128 → payloads_ok m p → profile_ok m prof p.
Proof.
  intros Hp Hl Hok. split; [done|done|]. intros i a (pt & Ha & Hn & Hm & _)%Hok. destruct (mime_type pt) as [s|] eqn:Es; [|done].
  destruct Hm as [t Ht]. by exists pt, s, t.
Qed.

Lemma pm_wf_intro m : map_Forall (fun a _ => a < pbrk m) (pts m) → map_Forall (fun a _ => a < pbrk m) (profs m) →
  map_Forall (fun a _ => a < pbrk m) (strs m) → 0 ≤ pbrk m → pm_wf m.
Proof.
  intros H1 H2 H3 H. split; [| | |done]; intros a Ha.
  - destruct (pts m !! a) eqn:E; [|done]. apply H1 in E. lia.
  - destruct (profs m !! a) eqn:E; [|done]. apply H2 in E. lia.
  - destruct (strs m !! a) eqn:E; [|done]. apply H3 in E. lia.
Qed.

Definition av_prof : RtpProfile := default (mkProf None []) (profs av_mem !! av_profile).

Lemma av_wf : pm_wf av_mem.
Proof. apply pm_wf_intro; [| | |apply Z.leb_le; vm_compute; reflexivity]; apply (bool_decide_unpack _); vm_compute; exact I. Qed.
Lemma av_prof_at : profs av_mem !! av_profile = Some av_prof.
Proof. vm_compute. reflexivity. Qed.
Lemma av_prof_len : zlen (payload av_prof) = 128.
Proof. vm_compute. reflexivity. Qed.
Lemma av_payloads_ok : payloads_ok av_mem av_prof.
Proof. apply slots_okb; [exact av_prof_len|vm_compute; reflexivity]. Qed.

(** "H263/90000/1" is found at 34. *)
Lemma rtpmap_roundtrip_witness : ∃ r m1 j m2, payload_type_get_rtpmap (-10) av_mem = Ret r m1 ∧
  strs m1 !! r = Some "H263/90000/1"%string ∧ rtp_profile_get_payload_number_from_rtpmap av_profile (Some r) m1 = Ret j m2 ∧ 0 ≤ j ≤ 34.
Proof.
  destruct (rtpmap_roundtrip av_mem av_profile av_prof 34 (-10) payload_type_h263 (-10) "H263") as (r & m1 & j & m2 & E1 & E2 & E3 & E4 & _).
  - exact av_wf.
  - exact (payloads_profile_ok _ _ _ av_prof_at av_prof_len av_payloads_ok).
  - vm_compute. reflexivity.
  - vm_compute. reflexivity.
  - reflexivity.
  - vm_compute. reflexivity.
  - reflexivity.
  - unfold in_i32. cbn. lia.
  - exists r, m1, j, m2. split; [exact E1|]. split; [exact E2|]. split; [exact E3|exact E4].
Defined.

Lemma profile_clone_destroy_witness : ∃ q m1 pq m2, rtp_profile_clone_full av_profile av_mem = Ret q m1 ∧
  copies av_mem (payload av_prof) m1 (payload pq) 34 ∧ rtp_profile_destroy q m1 = Ret tt m2 ∧ pts m2 = pts av_mem ∧ strs m2 = strs av_mem.
Proof.
  destruct (profile_clone_destroy av_mem av_profile av_prof 1 "AV profile" av_wf av_prof_at) as (q & m1 & pq & m2 & E1 & _ & _ & _ & C & E2 & P & _ & S).
  - vm_compute. reflexivity.
  - vm_compute. reflexivity.
  - exact av_prof_len.
  - exact av_payloads_ok.
  - exists q, m1, pq, m2. split; [exact E1|]. split; [apply C; lia|]. split; [exact E2|]. split; [exact P|exact S].
Defined.

(** A shallow clone shares the payload types: destroying both the clone and the
    original frees an allocated payload type twice. *)
Example shallow_clone_double_free :
  (p ← rtp_profile_clone_full av_profile; c ← rtp_profile_clone p; _ ← rtp_profile_destroy c; rtp_profile_destroy p) av_mem = Flt UseAfterFree.
Proof. vm_compute. reflexivity. Qed.

(** Moving a payload type to its own place removes it, and a position out of the
    range of the table is not refused. *)
Example move_to_itself : ∃ m, rtp_profile_move_payload av_profile 34 34 av_mem = Ret 0 m ∧ payload_of m av_profile 34 = None.
Proof. eexists. split; vm_compute; reflexivity. Qed.
Example move_out_of_range : rtp_profile_move_payload av_profile 34 128 av_mem = Flt OutOfBounds.
Proof. vm_compute. reflexivity. Qed.
