(* ===== verification/OrtpSession.v ===== *)
(** * The sessions of the RTP stack ([utils/ortp/inc/ortp/rtpsession.h], [rtpsignaltable.h], [rtpsignaltable.c])

    The data of a session, its flags and its signal tables. A queue is the address
    of its sentinels in the heap of StrUtils.v, a payload profile an address in the
    heap of Payload.v, a session an address in a map. *)

From Stdlib Require Import Floats.SpecFloat Strings.String.
From S2P Require Import Prelude StrUtils Payload.

(** * Data *)

Record rtp_stats_t := mkStats {
  st_packet_sent : Z;
  st_sent : Z;
  st_recv : Z;
  st_hw_recv : Z;
  st_packet_recv : Z;
  st_unavaillable : Z;
  st_outoftime : Z;
  st_skipped : Z;
  st_cum_packet_loss : Z;
  st_bad : Z;
  st_discarded : Z
}.
#[export] Instance eta_rtp_stats_t : Eta rtp_stats_t := fun s =>
  mkStats (st_packet_sent s) (st_sent s) (st_recv s) (st_hw_recv s) (st_packet_recv s) (st_unavaillable s) (st_outoftime s)
    (st_skipped s) (st_cum_packet_loss s) (st_bad s) (st_discarded s).

Record JitterControl := mkJitter {
  jitt_comp : Z;
  jitt_comp_ts : Z;
  adapt_jitt_comp_ts : Z;
  slide : spec_float;
  jitter : spec_float;
  jc_count : Z;
  olddiff : Z;
  inter_jitter : spec_float;
  corrective_step : Z;
  corrective_slide : Z;
  adaptive : bool
}.
#[export] Instance eta_JitterControl : Eta JitterControl := fun s =>
  mkJitter (jitt_comp s) (jitt_comp_ts s) (adapt_jitt_comp_ts s) (slide s) (jitter s) (jc_count s) (olddiff s) (inter_jitter s)
    (corrective_step s) (corrective_slide s) (adaptive s).

Record WaitPoint := mkWait {
  wp_time : Z;
  wakeup : bool
}.
#[export] Instance eta_WaitPoint : Eta WaitPoint := fun s =>
  mkWait (wp_time s) (wakeup s).

Record RtpSignalTable := mkTable {
  callback : list (option Z);
  cb_data : list Z;
  tb_count : Z
}.
#[export] Instance eta_RtpSignalTable : Eta RtpSignalTable := fun s =>
  mkTable (callback s) (cb_data s) (tb_count s).

Record sockaddr_in := mkAddr {
  sin_family : Z;
  sin_addr : Z;
  sin_port : Z
}.
#[export] Instance eta_sockaddr_in : Eta sockaddr_in := fun s =>
  mkAddr (sin_family s) (sin_addr s) (sin_port s).

Record RtpStream := mkStream {
  rtp_socket : Z;
  rtp_sockfamily : Z;
  max_rq_size : Z;
  time_jump : Z;
  ts_jump : Z;
  rq : Z;
  tev_rq : Z;
  rtp_cached_mp : option node;
  loc_port : Z;
  rtp_rem_addr : sockaddr_in;
  rtp_rem_addrlen : Z;
  jittctl : JitterControl;
  snd_time_offset : Z;
  snd_ts_offset : Z;
  snd_rand_offset : Z;
  snd_last_ts : Z;
  rcv_time_offset : Z;
  rcv_ts_offset : Z;
  rcv_query_ts_offset : Z;
  rcv_diff_ts : Z;
  hwrcv_diff_ts : Z;
  rcv_ts : Z;
  rcv_last_ts : Z;
  rcv_last_app_ts : Z;
  rcv_last_ret_ts : Z;
  hwrcv_extseq : Z;
  hwrcv_seq_at_last_SR : Z;
  hwrcv_since_last_SR : Z;
  last_rcv_SR_ts : Z;
  last_rcv_SR_time : Z * Z;
  snd_seq : Z;
  last_rtcp_report_snt_r : Z;
  last_rtcp_report_snt_s : Z;
  rtcp_report_snt_interval : Z;
  stats : rtp_stats_t
}.
#[export] Instance eta_RtpStream : Eta RtpStream := fun s =>
  mkStream (rtp_socket s) (rtp_sockfamily s) (max_rq_size s) (time_jump s) (ts_jump s) (rq s) (tev_rq s) (rtp_cached_mp s) (loc_port s)
    (rtp_rem_addr s) (rtp_rem_addrlen s) (jittctl s) (snd_time_offset s) (snd_ts_offset s) (snd_rand_offset s)
    (snd_last_ts s) (rcv_time_offset s) (rcv_ts_offset s) (rcv_query_ts_offset s) (rcv_diff_ts s) (hwrcv_diff_ts s)
    (rcv_ts s) (rcv_last_ts s) (rcv_last_app_ts s) (rcv_last_ret_ts s) (hwrcv_extseq s) (hwrcv_seq_at_last_SR s)
    (hwrcv_since_last_SR s) (last_rcv_SR_ts s) (last_rcv_SR_time s) (snd_seq s) (last_rtcp_report_snt_r s)
    (last_rtcp_report_snt_s s) (rtcp_report_snt_interval s) (stats s).

Record RtcpStream := mkRtcp {
  rtcp_socket : Z;
  rtcp_sockfamily : Z;
  rtcp_cached_mp : option node;
  rtcp_rem_addr : sockaddr_in;
  rtcp_rem_addrlen : Z
}.
#[export] Instance eta_RtcpStream : Eta RtcpStream := fun s =>
  mkRtcp (rtcp_socket s) (rtcp_sockfamily s) (rtcp_cached_mp s) (rtcp_rem_addr s) (rtcp_rem_addrlen s).

Record RtpSession := mkSession {
  next : option Z;
  profile : option Z;
  recv_wp : WaitPoint;
  send_wp : WaitPoint;
  send_ssrc : Z;
  recv_ssrc : Z;
  send_pt : Z;
  recv_pt : Z;
  hw_recv_pt : Z;
  recv_buf_size : Z;
  on_ssrc_changed : RtpSignalTable;
  on_payload_type_changed : RtpSignalTable;
  on_telephone_event_packet : RtpSignalTable;
  on_telephone_event : RtpSignalTable;
  on_timestamp_jump : RtpSignalTable;
  on_network_error : RtpSignalTable;
  on_rtcp_bye : RtpSignalTable;
  signal_tables : list string;
  rtp : RtpStream;
  rtcp : RtcpStream;
  mode : Z;
  has_sched : bool;
  flags : Z;
  mask_pos : Z;
  app_data : Z;
  last_recv_time : Z * Z;
  telephone_events_pt : Z;
  current_tev : option node;
  sd : option node;
  contributing_sources : Z
}.
#[export] Instance eta_RtpSession : Eta RtpSession := fun s =>
  mkSession (next s) (profile s) (recv_wp s) (send_wp s) (send_ssrc s) (recv_ssrc s) (send_pt s) (recv_pt s) (hw_recv_pt s)
    (recv_buf_size s) (on_ssrc_changed s) (on_payload_type_changed s) (on_telephone_event_packet s) (on_telephone_event s)
    (on_timestamp_jump s) (on_network_error s) (on_rtcp_bye s) (signal_tables s) (rtp s) (rtcp s) (mode s) (has_sched s)
    (flags s) (mask_pos s) (app_data s) (last_recv_time s) (telephone_events_pt s) (current_tev s) (sd s)
    (contributing_sources s).

(** A session of zeroed memory, before its queues are initialised at [rq0], [tq0] and [cs0]. *)
Definition zero_stats : rtp_stats_t := mkStats 0 0 0 0 0 0 0 0 0 0 0.
Definition zero_jitter : JitterControl := mkJitter 0 0 0 (S754_zero false) (S754_zero false) 0 0 (S754_zero false) 0 0 false.
Definition zero_table : RtpSignalTable := mkTable (replicate 5 None) (replicate 5 0) 0.
Definition zero_stream (rq0 tq0 : Z) : RtpStream :=
  mkStream 0 0 0 0 0 rq0 tq0 None 0 (mkAddr 0 0 0) 0 zero_jitter 0 0 0 0 0 0 0 0 0 0 0 0 0 0 0 0 0 (0, 0) 0 0 0 0 zero_stats.
Definition zero_session (rq0 tq0 cs0 : Z) : RtpSession :=
  mkSession None None (mkWait 0 false) (mkWait 0 false) 0 0 0 0 0 0 zero_table zero_table zero_table zero_table zero_table zero_table zero_table []
    (zero_stream rq0 tq0) (mkRtcp 0 0 None (mkAddr 0 0 0) 0) 0 false 0 0 0 (0, 0) 0 None None cs0.

(** ** Modes and flags *)

Definition RTP_SESSION_RECVONLY : Z := 0.
Definition RTP_SESSION_SENDONLY : Z := 1.
Definition RTP_SESSION_SENDRECV : Z := 2.

Definition RTP_SESSION_RECV_SYNC : Z := 1.
Definition RTP_SESSION_SEND_SYNC : Z := Z.shiftl 1 1.
Definition RTP_SESSION_SCHEDULED : Z := Z.shiftl 1 2.
Definition RTP_SESSION_BLOCKING_MODE : Z := Z.shiftl 1 3.
Definition RTP_SESSION_RECV_NOT_STARTED : Z := Z.shiftl 1 4.
Definition RTP_SESSION_SEND_NOT_STARTED : Z := Z.shiftl 1 5.
Definition RTP_SESSION_IN_SCHEDULER : Z := Z.shiftl 1 6.
Definition RTP_SESSION_USING_EXT_SOCKETS : Z := Z.shiftl 1 7.

Definition rtp_session_set_flag (s : RtpSession) (flag : Z) : RtpSession := s <| flags ::= (fun f => Z.lor f flag) |>.
Definition rtp_session_unset_flag (s : RtpSession) (flag : Z) : RtpSession := s <| flags ::= (fun f => Z.land f (Z.lnot flag)) |>.
Definition has_flag (s : RtpSession) (flag : Z) : bool := negb (Z.land (flags s) flag =? 0).

(** * Signal tables *)

Definition RTP_CALLBACK_TABLE_MAX_ENTRIES : Z := 5.

Definition empty_table : RtpSignalTable :=
  mkTable (replicate (Z.to_nat RTP_CALLBACK_TABLE_MAX_ENTRIES) None) (replicate (Z.to_nat RTP_CALLBACK_TABLE_MAX_ENTRIES) 0) 0.

(** The table is cleared and appended to the list of the session. *)
Definition rtp_signal_table_init (set : RtpSignalTable → RtpSession → RtpSession) (signal_name : string) (s : RtpSession) : RtpSession :=
  set empty_table s <| signal_tables ::= (fun l => l ++ [signal_name]) |>.

Definition entries : list Z := seqZ 0 RTP_CALLBACK_TABLE_MAX_ENTRIES.

Definition set_entry (i : Z) (cb : option Z) (d k : Z) : CM RtpSignalTable unit :=
  t ← gets id;
  match aset (callback t) i cb, aset (cb_data t) i d with
  | Some l, Some l' => modify (fun t => t <| callback := l |> <| cb_data := l' |> <| tb_count ::= (fun c => i32 (c + k)) |>)
  | _, _ => fault_with OutOfBounds
  end.

Definition rtp_signal_table_add (cb : option Z) (user_data : Z) : CM RtpSignalTable Z :=
  r ← for_until entries (fun i =>
        t ← gets id;
        c ← rd (callback t) i;
        match c with
        | None => _ ← set_entry i cb user_data 1; mret (Some 0)
        | Some _ => mret None
        end);
  mret (default (-1) r).

Definition rtp_signal_table_remove_by_callback (cb : option Z) : CM RtpSignalTable Z :=
  r ← for_until entries (fun i =>
        t ← gets id;
        c ← rd (callback t) i;
        if decide (c = cb) then _ ← set_entry i None 0 (-1); mret (Some 0) else mret None);
  mret (default (-1) r).

Section Emit.
(** The state the callbacks run on, the type of their arguments, the table in the
    state, and what a callback does with its arguments and its user data. *)
Context {S A : Type} (table : S → RtpSignalTable) (call : Z → list A → Z → CM S unit).

(** The loop ends at the latest when it reads behind the table. *)
Fixpoint emit_loop (fuel : nat) (args : list A) (i c : Z) : CM S unit :=
  match fuel with
  | O => block
  | Datatypes.S fuel =>
      t ← gets table;
      if c <? tb_count t then
        cb ← rd (callback t) i;
        match cb with
        | Some f =>
            d ← rd (cb_data t) i;
            _ ← call f args d;
            emit_loop fuel args (i + 1) (c + 1)
        | None => emit_loop fuel args (i + 1) c
        end
      else mret tt
  end.
Definition emit_with (args : list A) : CM S unit := emit_loop (Datatypes.S (Z.to_nat RTP_CALLBACK_TABLE_MAX_ENTRIES)) args 0 0.

Definition rtp_signal_table_emit : CM S unit := emit_with [].
Definition rtp_signal_table_emit2 (arg : A) : CM S unit := emit_with [arg].
Definition rtp_signal_table_emit3 (arg1 arg2 : A) : CM S unit := emit_with [arg1; arg2].
End Emit.

(** ** The callbacks of a table *)

(** The entries in use, in order, with their user data. *)
Definition used (l : list (option Z)) (ds : list Z) : list (Z * Z) :=
  omap (fun cd => match fst cd with Some f => Some (f, snd cd) | None => None end) (zip l ds).
Definition registered (t : RtpSignalTable) : list (Z * Z) := used (callback t) (cb_data t).

Record table_ok (t : RtpSignalTable) : Prop := {
  tk_cb : zlen (callback t) = 5;
  tk_data : zlen (cb_data t) = 5;
  tk_count : tb_count t = zlen (registered t)
}.

Lemma empty_table_ok : table_ok empty_table.
Proof. by split. Qed.

Lemma used_cons x d l ds : used (x :: l) (d :: ds) = match x with Some f => (f, d) :: used l ds | None => used l ds end.
Proof. unfold used. cbn. by destruct x. Qed.

Lemma rd_ret {S A} (l : list A) i x (s : S) : aget l i = Some x → rd l i s = Ret x s.
Proof. unfold rd. by intros ->. Qed.

Lemma emit_loop_from {S A} (table : S → RtpSignalTable) (call : Z → list A → Z → CM S unit) t args :
  (∀ f d s, table s = t → ∃ s', call f args d s = Ret tt s' ∧ table s' = t) →
  ∀ l ds fuel i c s, drop (Z.to_nat i) (callback t) = l → drop (Z.to_nat i) (cb_data t) = ds → length l = length ds → 0 ≤ i →
    (length l < fuel)%nat → tb_count t = c + zlen (used l ds) → table s = t →
    emit_loop table call fuel args i c s = for_each (used l ds) (fun fd => call (fst fd) args (snd fd)) s.
Proof.
  intros Hcall. induction l as [|x l IH]; intros ds fuel i c s Hl Hd Hlen Hi Hf Hc Hs.
  - destruct ds; [|done]. destruct fuel as [|fuel]; [cbn in Hf; lia|]. cbn [emit_loop]. rewrite (bind_ret _ _ _ t s) by (by unfold gets; rewrite Hs).
    cbn in Hc. change (zlen []) with 0 in Hc. destruct (Z.ltb_spec c (tb_count t)); [lia|done].
  - destruct ds as [|d ds]; [done|]. destruct fuel as [|fuel]; [cbn in Hf; lia|]. cbn in Hf, Hlen.
    assert (aget (callback t) i = Some x ∧ aget (cb_data t) i = Some d) as [Ec Ed].
    { unfold aget. rewrite !decide_True by done. rewrite <- (Nat.add_0_r (Z.to_nat i)), <- !lookup_drop, Hl, Hd. done. }
    assert (Hnx : ∀ (B : Type) (y : B) r ll, drop (Z.to_nat i) ll = y :: r → drop (Z.to_nat (i + 1)) ll = r).
    { intros B y r ll E. replace (Z.to_nat (i + 1)) with (Z.to_nat i + 1)%nat by lia. by rewrite <- drop_drop, E. }
    cbn [emit_loop]. rewrite (bind_ret _ _ _ t s) by (by unfold gets; rewrite Hs). rewrite used_cons in Hc |- *.
    pose proof (zlen_nonneg (used l ds)). destruct x as [f|].
    + rewrite zlen_cons in Hc. destruct (Z.ltb_spec c (tb_count t)); [|lia]. rewrite (bind_ret _ _ _ _ _ (rd_ret _ _ _ s Ec)), (bind_ret _ _ _ _ _ (rd_ret _ _ _ s Ed)).
      cbn [for_each fst snd]. destruct (Hcall f d s Hs) as (s' & E & Hs'). rewrite !(bind_ret _ _ _ _ _ E).
      apply IH; try done; [by eapply Hnx|by eapply Hnx|lia|lia|lia|lia].
    + destruct (Z.ltb_spec c (tb_count t)) as [Hlt|Hge].
      * rewrite (bind_ret _ _ _ _ _ (rd_ret _ _ _ s Ec)).
        apply IH; try done; [by eapply Hnx|by eapply Hnx|lia|lia|lia].
      * assert (E : used l ds = []) by (apply zlen_0_nil; lia). by rewrite E.
Qed.

(** C30: emitting a signal calls every registered callback once, in the order of the
    table, with its arguments and user data, as long as no callback changes the
    table: the loop over entries that counts the callbacks it has found equals the
    plain iteration over the registered ones, and never reads behind the table. *)
Theorem signal_emit_equiv {S A} (table : S → RtpSignalTable) (call : Z → list A → Z → CM S unit) args s :
  table_ok (table s) →
  (∀ f d s', table s' = table s → ∃ s'', call f args d s' = Ret tt s'' ∧ table s'' = table s) →
  emit_with table call args s = for_each (registered (table s)) (fun fd => call (fst fd) args (snd fd)) s.
Proof.
  intros [H1 H2 H3] Hcall. unfold zlen in H1, H2.
  apply (emit_loop_from table call (table s) args Hcall _ _ _ 0 0); [done|done|lia|lia| |exact H3|done].
  unfold RTP_CALLBACK_TABLE_MAX_ENTRIES. lia.
Qed.

(** A callback that removes itself while the signal is emitted makes the loop miss
    the next one: both 7 and 8 are registered, 7 removes itself, 8 is not called. *)
Definition ex_table : RtpSignalTable := mkTable [Some 7; Some 8; None; None; None] [1; 2; 0; 0; 0] 2.
Definition ex_call (f : Z) (args : list Z) (d : Z) : CM (RtpSignalTable * list Z) unit :=
  _ ← modify (fun s => (s.1, s.2 ++ [f]));
  if f =? 7 then _ ← zoom fst (fun t s => (t, s.2)) (rtp_signal_table_remove_by_callback (Some 7)); mret tt else mret tt.
Example emit_misses_after_removal :
  match emit_with fst ex_call [] (ex_table, []) with Ret _ s => Some s.2 | _ => None end = Some [7].
Proof. vm_compute. reflexivity. Qed.

Lemma signal_emit_equiv_witness :
  emit_with fst (fun f args d => modify (fun s : RtpSignalTable * list Z => (s.1, s.2 ++ f :: args ++ [d]))) [5] (ex_table, []) =
  Ret tt (ex_table, [7; 5; 1; 8; 5; 2]).
Proof.
  etransitivity; [apply (signal_emit_equiv fst)|]; [split; reflexivity| |reflexivity].
  intros f d s' Hs. exists (s'.1, s'.2 ++ f :: [5] ++ [d]). split; [reflexivity|exact Hs].
Defined.

(** ** Registering and removing *)

Lemma used_app l1 l2 d1 d2 : length l1 = length d1 → used (l1 ++ l2) (d1 ++ d2) = used l1 d1 ++ used l2 d2.
Proof. intros H. unfold used. by rewrite zip_with_app, omap_app. Qed.

(** The first entry with [c], and the table split there. *)
Lemma entry_split t i c : table_ok t → aget (callback t) i = Some c →
  ∃ l1 l2 d1 d d2, callback t = l1 ++ c :: l2 ∧ cb_data t = d1 ++ d :: d2 ∧ length l1 = length d1 ∧ zlen l1 = i ∧
    ∀ c' d', <[Z.to_nat i := c']> (callback t) = l1 ++ c' :: l2 ∧ <[Z.to_nat i := d']> (cb_data t) = d1 ++ d' :: d2.
Proof.
  intros [H1 H2 _] Hc. pose proof (aget_Some_range _ _ _ Hc) as Hr. unfold aget in Hc. rewrite decide_True in Hc by lia.
  destruct (lookup_lt_is_Some_2 (cb_data t) (Z.to_nat i)) as [d Hd]; [unfold zlen in *; lia|].
  exists (take (Z.to_nat i) (callback t)), (drop (S (Z.to_nat i)) (callback t)), (take (Z.to_nat i) (cb_data t)), d, (drop (S (Z.to_nat i)) (cb_data t)).
  unfold zlen in *. split_and!; [by rewrite take_drop_middle|by rewrite take_drop_middle|rewrite !length_take; lia|rewrite length_take; lia|].
  intros c' d'. split; apply insert_take_drop; lia.
Qed.

Lemma used_callbacks l ds f : length l = length ds → f ∈ (used l ds).*1 → ∃ j, 0 ≤ j < zlen l ∧ l !! Z.to_nat j = Some (Some f).
Proof.
  revert ds. induction l as [|x l IH]; intros [|d ds] [=] Hf; [by apply not_elem_of_nil in Hf|]. rewrite used_cons in Hf.
  assert (x = Some f ∨ f ∈ (used l ds).*1) as [->|Hf'].
  { destruct x; [|by right]. cbn in Hf. apply elem_of_cons in Hf as [->|]; [by left|by right]. }
  - exists 0. split; [rewrite zlen_cons; pose proof (zlen_nonneg l); lia|done].
  - destruct (IH ds ltac:(done) Hf') as (j & Hj & E). exists (j + 1). rewrite zlen_cons. split; [lia|].
    by replace (Z.to_nat (j + 1)) with (S (Z.to_nat j)) by lia.
Qed.

Lemma registered_le t : zlen (registered t) ≤ zlen (callback t).
Proof.
  unfold registered. generalize (cb_data t). induction (callback t) as [|x l IH]; intros [|d ds]; try done.
  rewrite used_cons, zlen_cons. specialize (IH ds). destruct x; rewrite ?zlen_cons; lia.
Qed.

(** What a set entry does to the registered callbacks. *)
Lemma set_entry_ret t i c cb d k : table_ok t → aget (callback t) i = Some c →
  k = zlen (option_list cb) - zlen (option_list c) →
  ∃ t' l1 l2 d0, set_entry i cb d k t = Ret tt t' ∧ table_ok t' ∧
    registered t = l1 ++ option_list ((., d0) <$> c) ++ l2 ∧ registered t' = l1 ++ option_list ((., d) <$> cb) ++ l2 ∧
    ∀ f, f ∈ l1.*1 → ∃ j, 0 ≤ j < i ∧ aget (callback t) j = Some (Some f).
Proof.
  intros Hok Hc Hk. pose proof (aget_Some_range _ _ _ Hc) as Hr. destruct (entry_split t i c Hok Hc) as (l1 & l2 & d1 & d0 & d2 & E1 & E2 & El & Ei & Eu).
  destruct (Eu cb d) as [Ecb Ed]. destruct Hok as [H1 H2 H3].
  assert (Ec : ∀ x e, used (x :: l2) (e :: d2) = option_list ((., e) <$> x) ++ used l2 d2) by (intros [x|] e; by rewrite used_cons).
  assert (Hz : ∀ x e, zlen (option_list (((., e) : Z → Z * Z) <$> x)) = zlen (option_list x)) by (by intros [x|] e).
  assert (registered t = used l1 d1 ++ option_list ((., d0) <$> c) ++ used l2 d2) as Er by (unfold registered; by rewrite E1, E2, used_app, Ec).
  exists (mkTable (l1 ++ cb :: l2) (d1 ++ d :: d2) (tb_count t + k)), (used l1 d1), (used l2 d2), d0. split.
  { unfold set_entry. rewrite (bind_ret _ _ _ t t) by done. rewrite !aset_Some by lia. rewrite Ecb, Ed.
    unfold modify. f_equal. cbn. rewrite i32_id; [done|]. pose proof (registered_le t). pose proof (zlen_nonneg (registered t)).
    assert (∀ x : option Z, 0 ≤ zlen (option_list x) ≤ 1) as H01 by (by intros [x|]). pose proof (H01 c). pose proof (H01 cb). unfold in_i32. lia. }
  assert (registered (mkTable (l1 ++ cb :: l2) (d1 ++ d :: d2) (tb_count t + k)) = used l1 d1 ++ option_list ((., d) <$> cb) ++ used l2 d2) as Er'.
  { unfold registered. cbn [callback cb_data]. by rewrite used_app, Ec. }
  split; [split; cbn [callback cb_data tb_count]|].
  { by rewrite <- Ecb, zlen_insert. } { by rewrite <- Ed, zlen_insert. }
  { rewrite Er', H3, Er, !zlen_app, !Hz. lia. }
  split_and!; [done|done|]. intros f Hf. destruct (used_callbacks l1 d1 f El Hf) as (j & Hj & Hf'). exists j. rewrite Ei in Hj. split; [done|].
  unfold aget. rewrite decide_True, E1 by lia. rewrite lookup_app_l; [done|unfold zlen in Ei; lia].
Qed.

(** A search loop that stops at the first entry with a test. *)
Lemma for_until_find {S A B} (p : A → bool) (l : list A) (body : Z → CM S (option B)) s :
  (∀ i x, aget l i = Some x → p x = false → body i s = Ret None s) →
  for_until (seqZ 0 (zlen l)) body s =
  match find_idx p l with
  | Some i => for_until (seqZ i (zlen l - i)) body s
  | None => Ret None s
  end.
Proof.
  intros Hb. assert (Hpre : ∀ n, 0 ≤ n ≤ zlen l → (∀ k x, 0 ≤ k < n → aget l k = Some x → p x = false) →
    for_until (seqZ 0 n) body s = Ret None s).
  { intros n Hn Hk. apply for_until_none. intros i [Hi ?]%elem_of_seqZ.
    destruct (proj2 (aget_is_Some l i)) as [x Hx]; [lia|]. eapply Hb; [done|]. eapply Hk; [|done]. lia. }
  destruct (find_idx p l) as [i|] eqn:E.
  - apply find_idx_Some in E as (Hi & _ & Hk). replace (zlen l) with (i + (zlen l - i)) at 1 by lia.
    rewrite seqZ_app, Z.add_0_l by lia. apply for_until_app. apply Hpre; [lia|done].
  - apply find_idx_None in E. pose proof (zlen_nonneg l). apply Hpre; [lia|]. intros k x _ Hx.
    eapply Forall_forall in E; [exact E|by eapply aget_elem_of].
Qed.

(** The same loop when it ends with 0 at that entry and with -1 without one. *)
Lemma search_run {S A} (p : A → bool) (l : list A) (body : Z → CM S (option Z)) (k : Z → CM S unit) s :
  (∀ i x, aget l i = Some x → body i s = if p x then (_ ← k i; mret (Some 0)) s else Ret None s) →
  (r ← for_until (seqZ 0 (zlen l)) body; mret (default (-1) r)) s =
  match find_idx p l with Some i => (_ ← k i; mret 0) s | None => Ret (-1) s end.
Proof.
  intros Hb. unfold mbind at 1, CM_bind at 1. rewrite (for_until_find p).
  2: { intros i x Hx Hp. rewrite (Hb i x Hx). by rewrite Hp. }
  destruct (find_idx p l) as [i|] eqn:E; [|done]. apply find_idx_Some in E as (Hi & (x & Hx & Hp) & _).
  rewrite seqZ_cons by lia. cbn [for_until]. unfold mbind at 1, CM_bind at 1. rewrite (Hb i x Hx), Hp.
  unfold mbind, CM_bind. by destruct (k i s).
Qed.

(** The callbacks registered are those in the array. *)
Lemma registered_callbacks t : table_ok t → fst <$> registered t = omap id (callback t).
Proof.
  intros [H1 H2 _]. assert (length (callback t) = length (cb_data t)) as Hlen by (unfold zlen in *; lia).
  unfold registered. clear H1 H2. revert Hlen. generalize (cb_data t). induction (callback t) as [|x l IH]; intros [|d ds] [=]; [done|].
  rewrite used_cons. destruct x; cbn; [f_equal|]; by apply IH.
Qed.

(** A table without an empty entry is full, one with an empty entry is not. *)
Lemma full_iff t : table_ok t → (find_idx (fun c => bool_decide (c = None)) (callback t) = None ↔ tb_count t = RTP_CALLBACK_TABLE_MAX_ENTRIES).
Proof.
  intros [H1 H2 H3]. rewrite H3, find_idx_None. change RTP_CALLBACK_TABLE_MAX_ENTRIES with 5. rewrite <- H1.
  assert (length (callback t) = length (cb_data t)) as Hlen by (unfold zlen in *; lia).
  unfold registered. clear H1 H2 H3. revert Hlen. generalize (cb_data t).
  induction (callback t) as [|x l IH]; intros [|d ds] [=]; [done|]. rewrite used_cons, Forall_cons, (IH ds), !zlen_cons by done.
  pose proof (registered_le (mkTable l ds 0)) as Hle. unfold registered in Hle. cbn [callback cb_data] in Hle.
  destruct x; rewrite ?zlen_cons; [split; [lia|split; [done|lia]]|split; [by intros []|lia]].
Qed.


Lemma add_run t cb d : table_ok t →
  rtp_signal_table_add cb d t =
  match find_idx (fun c => bool_decide (c = None)) (callback t) with Some i => (_ ← set_entry i cb d 1; mret 0) t | None => Ret (-1) t end.
Proof.
  intros [H1 _ _]. unfold rtp_signal_table_add, entries. change RTP_CALLBACK_TABLE_MAX_ENTRIES with 5. rewrite <- H1. apply search_run.
  intros i c Hc. rewrite (bind_ret _ _ _ t t), (bind_ret _ _ _ _ _ (rd_ret _ _ _ t Hc)) by done. by destruct c.
Qed.

Lemma remove_run t cb : table_ok t →
  rtp_signal_table_remove_by_callback cb t =
  match find_idx (fun c => bool_decide (c = cb)) (callback t) with Some i => (_ ← set_entry i None 0 (-1); mret 0) t | None => Ret (-1) t end.
Proof.
  intros [H1 _ _]. unfold rtp_signal_table_remove_by_callback, entries. change RTP_CALLBACK_TABLE_MAX_ENTRIES with 5. rewrite <- H1. apply search_run.
  intros i c Hc. rewrite (bind_ret _ _ _ t t), (bind_ret _ _ _ _ _ (rd_ret _ _ _ t Hc)) by done. by destruct (decide (c = cb)) as [Heq|Hne]; [rewrite bool_decide_true|rewrite bool_decide_false].
Qed.

(** A table holds up to five callbacks. Registering one fails with -1 exactly
    when five are registered and adds it otherwise; removing a callback takes away
    its first registration, and fails with -1 exactly when it has none. Each
    keeps the count right and every other registration in place and in order. *)
Theorem signal_table_register t f d : table_ok t →
  (∃ t', rtp_signal_table_add (Some f) d t = Ret (if decide (tb_count t = RTP_CALLBACK_TABLE_MAX_ENTRIES) then -1 else 0) t' ∧
     table_ok t' ∧
     if decide (tb_count t = RTP_CALLBACK_TABLE_MAX_ENTRIES) then t' = t
     else ∃ l1 l2, registered t = l1 ++ l2 ∧ registered t' = l1 ++ (f, d) :: l2) ∧
  (∃ t', rtp_signal_table_remove_by_callback (Some f) t = Ret (if decide (f ∈ (registered t).*1) then 0 else -1) t' ∧
     table_ok t' ∧
     if decide (f ∈ (registered t).*1) then
       ∃ l1 d' l2, registered t = l1 ++ (f, d') :: l2 ∧ registered t' = l1 ++ l2 ∧ (f ∉ l1.*1)
     else t' = t).
Proof.
  intros Hok. pose proof Hok as [H1 H2 H3]. split.
  - rewrite add_run by done. pose proof (full_iff t Hok) as Hfull. pose proof (registered_le t) as Hle.
    destruct (find_idx _ _) as [i|] eqn:E.
    + destruct (decide _) as [Hc%Hfull|_]; [done|]. apply find_idx_Some in E as (Hi & (c & Hc & ->%bool_decide_eq_true_1) & _).
      destruct (set_entry_ret t i None (Some f) d 1 Hok Hc) as (t' & l1 & l2 & d0 & E & Hok' & E1 & E2 & _); [done|].
      exists t'. rewrite (bind_ret _ _ _ _ _ E). split; [done|]. split; [done|]. by exists l1, l2.
    + destruct (decide _) as [_|Hc]; [by exists t|]. by destruct Hc; apply Hfull.
  - rewrite remove_run, !registered_callbacks by done.
    assert (f ∈ omap id (callback t) ↔ Some f ∈ callback t) as Hin by (rewrite list_elem_of_omap; cbn; split; [by intros (x & ? & ->)|by eexists]).
    destruct (find_idx _ _) as [i|] eqn:E.
    + apply find_idx_Some in E as (Hi & (c & Hc & ->%bool_decide_eq_true_1) & Hk).
      destruct (decide _) as [_|Hn]; [|by destruct Hn; rewrite Hin; eapply aget_elem_of].
      destruct (set_entry_ret t i (Some f) None 0 (-1) Hok Hc) as (t' & l1 & l2 & d0 & E & Hok' & E1 & E2 & Hl); [done|].
      exists t'. rewrite (bind_ret _ _ _ _ _ E). split; [done|]. split; [done|]. exists l1, d0, l2. split_and!; [done|done|].
      intros (j & Hj & Hx)%Hl. specialize (Hk j _ Hj Hx). by apply bool_decide_eq_false_1 in Hk.
    + rewrite find_idx_None, Forall_forall in E.
      destruct (decide _) as [Hx|_]; [|by exists t]. rewrite Hin in Hx. apply E in Hx. by apply bool_decide_eq_false_1 in Hx.
Qed.

Lemma signal_table_register_witness :
  table_ok ex_table ∧
  (∃ t', rtp_signal_table_add (Some 9) 3 ex_table = Ret 0 t' ∧ registered t' = [(7, 1); (8, 2); (9, 3)]) ∧
  (∃ t', rtp_signal_table_remove_by_callback (Some 7) ex_table = Ret 0 t' ∧ registered t' = [(8, 2)]).
Proof.
  assert (table_ok ex_table) as Hok by (split; reflexivity). split; [exact Hok|].
  destruct (signal_table_register ex_table 9 3 Hok) as [(t1 & E1 & _) _].
  destruct (signal_table_register ex_table 7 0 Hok) as [_ (t2 & E2 & _)].
  split; [exists t1; split; [exact E1|]|exists t2; split; [exact E2|]].
  - vm_compute in E1. injection E1 as <-. reflexivity.
  - vm_compute in E2. injection E2 as <-. reflexivity.
Defined.
