(* ===== verification/Sched.v ===== *)
(** * The scheduler of the RTP stack ([utils/ortp/src/scheduler.c], [sessionset.c],
    [posixtimer.c], [rtptimer.c], the wait points of [rtpsession.c], the
    start and end of [ortp.c])

    A scheduled session is in the list of the scheduler and has a position in its
    bit masks. A sender or receiver that is early sleeps on the wait point of its
    session; the scheduler's thread wakes it at the first tick that is due. The
    condition variables it signals are recorded in the state. *)

From S2P Require Import Prelude StrUtils RtpMod Payload OrtpSession.

(** * Sets of sessions

    The [fd_set] of the C library: 1024 bits in words of 32. *)

Definition SessionSet : Type := list Z.
Definition NFDBITS : Z := 32.
Definition FD_SETSIZE : Z := 1024.

Definition ORTP_FD_ZERO : SessionSet := replicate 32 0.
Definition FD_MASK (d : Z) : Z := Z.shiftl 1 (d mod NFDBITS).
Definition ORTP_FD_SET (d : Z) (s : SessionSet) : option SessionSet :=
  w ← aget s (d / NFDBITS); aset s (d / NFDBITS) (Z.lor w (FD_MASK d)).
Definition ORTP_FD_CLR (d : Z) (s : SessionSet) : option SessionSet :=
  w ← aget s (d / NFDBITS); aset s (d / NFDBITS) (Z.ldiff w (FD_MASK d)).
Definition ORTP_FD_ISSET (d : Z) (s : SessionSet) : option bool :=
  w ← aget s (d / NFDBITS); Some (negb (Z.land w (FD_MASK d) =? 0)).

(** * The scheduler *)

Record RtpTimer := mkTimer {
  timer_state : Z;
  interval : Z * Z
}.
#[export] Instance eta_RtpTimer : Eta RtpTimer := fun t => mkTimer (timer_state t) (interval t).
Definition RTP_TIMER_RUNNING : Z := 1.
Definition RTP_TIMER_STOPPED : Z := 0.
Definition POSIXTIMER_INTERVAL : Z := 10000.
Definition posix_timer : RtpTimer := mkTimer 0 (0, POSIXTIMER_INTERVAL).

Record RtpScheduler := mkScheduler {
  list_ : option Z;
  all_sessions : SessionSet;
  all_max : Z;
  r_sessions : SessionSet;
  r_max : Z;
  w_sessions : SessionSet;
  w_max : Z;
  e_sessions : SessionSet;
  e_max : Z;
  max_sessions : Z;
  thread_running : bool;
  timer : RtpTimer;
  time_ : Z;
  timer_inc : Z
}.
#[export] Instance eta_RtpScheduler : Eta RtpScheduler := fun s =>
  mkScheduler (list_ s) (all_sessions s) (all_max s) (r_sessions s) (r_max s) (w_sessions s) (w_max s) (e_sessions s) (e_max s)
    (max_sessions s) (thread_running s) (timer s) (time_ s) (timer_inc s).

(** A direction of a session, with its wait point. *)
Inductive dir := Send | Recv.
#[export] Instance dir_eq_dec : EqDecision dir.
Proof. solve_decision. Defined.

(** The scheduler, the sessions by address, the wait points whose condition was
    signalled, latest first, and the two variables of ortp.c. *)
Record World := mkWorld {
  sched : RtpScheduler;
  sessions : gmap Z RtpSession;
  signals : list (Z * dir);
  ortp_scheduler : bool;
  sched_initialized : bool
}.
#[export] Instance eta_World : Eta World := fun w =>
  mkWorld (sched w) (sessions w) (signals w) (ortp_scheduler w) (sched_initialized w).

Definition on_sched (f : RtpScheduler → RtpScheduler) : CM World unit := modify (fun w => w <| sched ::= f |>).
Definition sess_of (a : Z) : CM World RtpSession :=
  m ← gets sessions;
  match m !! a with Some s => mret s | None => fault_with UseAfterFree end.
Definition on_sess (a : Z) (f : RtpSession → RtpSession) : CM World unit :=
  s ← sess_of a;
  modify (fun w => w <| sessions ::= <[a := f s]> |>).

(** The masks of the scheduler. *)
Inductive mask := AllM | RecvM | SendM | ErrM.
#[export] Instance mask_eq_dec : EqDecision mask.
Proof. solve_decision. Defined.
Definition mask_get (k : mask) (s : RtpScheduler) : SessionSet :=
  match k with AllM => all_sessions s | RecvM => r_sessions s | SendM => w_sessions s | ErrM => e_sessions s end.
Definition mask_put (k : mask) (m : SessionSet) (s : RtpScheduler) : RtpScheduler :=
  match k with
  | AllM => s <| all_sessions := m |> | RecvM => s <| r_sessions := m |>
  | SendM => s <| w_sessions := m |> | ErrM => s <| e_sessions := m |>
  end.

Definition on_mask (k : mask) (f : SessionSet → option SessionSet) : CM World unit :=
  w ← gets sched;
  match f (mask_get k w) with
  | Some m => on_sched (mask_put k m)
  | None => fault_with OutOfBounds
  end.
Definition session_set_set (k : mask) (a : Z) : CM World unit :=
  s ← sess_of a; on_mask k (ORTP_FD_SET (mask_pos s)).
Definition session_set_clr (k : mask) (a : Z) : CM World unit :=
  s ← sess_of a; on_mask k (ORTP_FD_CLR (mask_pos s)).
Definition mask_isset (k : mask) (d : Z) : CM World bool :=
  w ← gets sched;
  match ORTP_FD_ISSET d (mask_get k w) with Some b => mret b | None => fault_with OutOfBounds end.

(** ** Start and end *)

Definition rtp_scheduler_set_timer (t : RtpTimer) (s : RtpScheduler) : RtpScheduler :=
  if thread_running s then s
  else s <| timer := t |> <| timer_inc := u32 (snd (interval t) / 1000 + fst (interval t) * 1000) |>.

Definition rtp_scheduler_init (s : RtpScheduler) : RtpScheduler :=
  rtp_scheduler_set_timer posix_timer (s <| list_ := None |> <| time_ := 0 |>)
    <| max_sessions := FD_SETSIZE |>
    <| all_sessions := ORTP_FD_ZERO |> <| all_max := 0 |>
    <| r_sessions := ORTP_FD_ZERO |> <| r_max := 0 |>
    <| w_sessions := ORTP_FD_ZERO |> <| w_max := 0 |>
    <| e_sessions := ORTP_FD_ZERO |> <| e_max := 0 |>.

Definition rtp_scheduler_new : RtpScheduler :=
  rtp_scheduler_init (mkScheduler None ORTP_FD_ZERO 0 ORTP_FD_ZERO 0 ORTP_FD_ZERO 0 ORTP_FD_ZERO 0 0 false (mkTimer 0 (0, 0)) 0 0).

(** The thread is created and waited for; [false] when it runs already. *)
Definition rtp_scheduler_start (s : RtpScheduler) : RtpScheduler :=
  if thread_running s then s else s <| thread_running := true |>.
Definition rtp_scheduler_stop (s : RtpScheduler) : RtpScheduler :=
  if thread_running s then s <| thread_running := false |> else s.

Definition ortp_scheduler_init : CM World unit :=
  i ← gets sched_initialized;
  if (i : bool) then mret tt
  else
    _ ← modify (fun w => w <| sched_initialized := true |>);
    _ ← modify (fun w => w <| sched := rtp_scheduler_new |> <| ortp_scheduler := true |>);
    on_sched rtp_scheduler_start.

(** The scheduler is stopped and freed; sessions keep their pointer to it. *)
Definition ortp_exit : CM World unit :=
  p ← gets ortp_scheduler;
  if (p : bool) then
    _ ← on_sched rtp_scheduler_stop;
    modify (fun w => w <| ortp_scheduler := false |>)
  else mret tt.

Definition ortp_get_scheduler : CM World bool := gets ortp_scheduler.

Definition rtp_timer_set_interval (iv : Z * Z) (t : RtpTimer) : RtpTimer :=
  if timer_state t =? RTP_TIMER_RUNNING then t else t <| interval := iv |>.

(** ** Adding and removing a session *)

(** The body of the search for a free position. *)
Definition add_at (a i : Z) : CM World (option unit) :=
  b ← mask_isset AllM i;
  if (b : bool) then mret None
  else
    _ ← on_sess a (fun s => s <| mask_pos := i |>);
    _ ← session_set_set AllM a;
    s ← sess_of a;
    _ ← (if has_flag s RTP_SESSION_RECV_NOT_STARTED then session_set_set RecvM a else mret tt);
    _ ← (if has_flag s RTP_SESSION_SEND_NOT_STARTED then session_set_set SendM a else mret tt);
    w ← gets sched;
    _ ← (if all_max w <? i then on_sched (fun s => s <| all_max := i |>) else mret tt);
    mret (Some tt).

Definition rtp_scheduler_add_session (a : Z) : CM World unit :=
  s ← sess_of a;
  if has_flag s RTP_SESSION_IN_SCHEDULER then mret tt
  else
    oldfirst ← gets (fun w => list_ (sched w));
    _ ← on_sched (fun s => s <| list_ := Some a |>);
    _ ← on_sess a (fun s => s <| next := oldfirst |>);
    n ← gets (fun w => max_sessions (sched w));
    _ ← for_until (seqZ 0 n) (add_at a);
    on_sess a (fun s => rtp_session_set_flag s RTP_SESSION_IN_SCHEDULER).

(** The walk to the session before [a]; a list with a cycle would never end. *)
Fixpoint remove_walk (fuel : nat) (a : Z) (tmp : option Z) : CM World unit :=
  match fuel with
  | O => block
  | S fuel =>
      match tmp with
      | None => mret tt
      | Some t =>
          st ← sess_of t;
          if decide (next st = Some a) then
            sa ← sess_of a;
            on_sess t (fun s => s <| next := next sa |>)
          else remove_walk fuel a (next st)
      end
  end.

Definition rtp_scheduler_remove_session (session : option Z) : CM World unit :=
  match session with
  | None => mret tt
  | Some a =>
      s ← sess_of a;
      if negb (has_flag s RTP_SESSION_IN_SCHEDULER) then mret tt
      else
        tmp ← gets (fun w => list_ (sched w));
        n ← gets (fun w => size (sessions w));
        _ ← (if decide (tmp = Some a) then on_sched (fun w => w <| list_ := next s |>)
             else remove_walk (S n) a tmp);
        _ ← on_sess a (fun s => rtp_session_unset_flag s RTP_SESSION_IN_SCHEDULER);
        session_set_clr AllM a
  end.

Definition rtp_session_set_scheduling_mode (a : Z) (yesno : bool) : CM World unit :=
  if yesno then
    p ← ortp_get_scheduler;
    if (p : bool) then
      _ ← on_sess a (fun s => (rtp_session_set_flag s RTP_SESSION_SCHEDULED) <| has_sched := true |>);
      rtp_scheduler_add_session a
    else mret tt
  else on_sess a (fun s => rtp_session_unset_flag s RTP_SESSION_SCHEDULED).

(** ** Wait points *)

Definition wait_point_init : WaitPoint := mkWait 0 false.
Definition wait_point_wakeup_at (t : Z) (wp : WaitPoint) : WaitPoint := wp <| wp_time := t |> <| wakeup := true |>.
Definition wait_point_check (wp : WaitPoint) (t : Z) : bool * WaitPoint :=
  if wakeup wp && RTP_TIMESTAMP_IS_NEWER_THAN t (wp_time wp) then (true, wp <| wakeup := false |>) else (false, wp).

Definition wp_get (d : dir) (s : RtpSession) : WaitPoint := match d with Send => send_wp s | Recv => recv_wp s end.
Definition wp_put (d : dir) (wp : WaitPoint) (s : RtpSession) : RtpSession :=
  match d with Send => s <| send_wp := wp |> | Recv => s <| recv_wp := wp |> end.
Definition dir_mask (d : dir) : mask := match d with Send => SendM | Recv => RecvM end.

(** One side of [rtp_session_process]: a wait point that is due is woken. *)
Definition process_dir (a time : Z) (d : dir) : CM World unit :=
  s ← sess_of a;
  let r := wait_point_check (wp_get d s) time in
  _ ← on_sess a (wp_put d (snd r));
  if fst r then
    _ ← session_set_set (dir_mask d) a;
    modify (fun w => w <| signals ::= cons (a, d) |>)
  else mret tt.
Definition rtp_session_process (a time : Z) : CM World unit :=
  _ ← process_dir a time Send; process_dir a time Recv.

(** The part of a scheduled send or receive for a packet of time [packet_time], up
    to its sleep: [true] when it sleeps. [wait_done] follows a sleep. *)
Definition wait_until (a : Z) (d : dir) (packet_time : Z) : CM World bool :=
  w ← gets sched;
  if RTP_TIMESTAMP_IS_STRICTLY_NEWER_THAN packet_time (time_ w) then
    _ ← on_sess a (fun s => wp_put d (wait_point_wakeup_at packet_time (wp_get d s)) s);
    s ← sess_of a;
    if has_flag s RTP_SESSION_BLOCKING_MODE then mret true
    else _ ← session_set_clr (dir_mask d) a; mret false
  else _ ← session_set_set (dir_mask d) a; mret false.
Definition wait_done (a : Z) (d : dir) : CM World unit := session_set_clr (dir_mask d) a.

(** ** The thread of the scheduler *)

Fixpoint process_list (fuel : nat) (current : option Z) : CM World unit :=
  match fuel with
  | O => block
  | S fuel =>
      match current with
      | None => mret tt
      | Some a =>
          t ← gets (fun w => time_ (sched w));
          _ ← rtp_session_process a t;
          s ← sess_of a;
          process_list fuel (next s)
      end
  end.

(** A turn of the loop: the sessions are processed under the lock, the sleepers in
    [session_set_select] are woken, then the timer ends the tick. *)
Definition schedule_turn : CM World unit :=
  l ← gets (fun w => list_ (sched w));
  n ← gets (fun w => size (sessions w));
  _ ← process_list (S n) l;
  on_sched (fun s => s <| time_ ::= (fun t => u32 (t + timer_inc s)) |>).

(** The loop runs until the scheduler is stopped; [env] is what the other threads do
    before each of its turns. *)
Fixpoint rtp_scheduler_schedule (env : list (CM World unit)) : CM World unit :=
  match env with
  | [] => block
  | act :: env =>
      _ ← act;
      r ← gets (fun w => thread_running (sched w));
      if (r : bool) then _ ← schedule_turn; rtp_scheduler_schedule env else mret tt
  end.

(** ** Selecting *)

(** The words of the masks up to position [maxs]. [temp] is the set [result_set]
    points to, whatever it holds. The bits found are taken out of [sched_set]. *)
Definition count_bits (w : Z) : Z := zlen (filter (fun j => Z.land (Z.shiftr w j) 1 = 1) (seqZ 0 32)).

Fixpoint and_loop (fuel : nat) (maxs i ret : Z) (user_set : SessionSet) : CM (SessionSet * SessionSet) Z :=
  match fuel with
  | O => block
  | S fuel =>
      if i <? maxs + 1 then
        '(mask1, mask3) ← gets id;
        w1 ← rd mask1 (i / 32);
        w2 ← rd user_set (i / 32);
        let w3 := Z.land w1 w2 in
        match aset mask3 (i / 32) w3, aset mask1 (i / 32) (Z.ldiff w1 w3) with
        | Some mask3', Some mask1' =>
            _ ← modify (fun _ => (mask1', mask3'));
            and_loop fuel maxs (i + 32) (i32 (ret + count_bits w3)) user_set
        | _, _ => fault_with OutOfBounds
        end
      else mret ret
  end.
Definition session_set_and (maxs : Z) (user_set : SessionSet) : CM (SessionSet * SessionSet) Z :=
  and_loop 33 maxs 0 0 user_set.

(** One of the three sets: the number of its sessions with an event and the set as it
    is left; the state of [temp] goes from one to the next. *)
Definition select_one (k : mask) (user_set : option SessionSet) (temp : SessionSet) :
    CM World (Z * option SessionSet * SessionSet) :=
  match user_set with
  | None => mret (0, None, temp)
  | Some u =>
      w ← gets sched;
      '(bits, temp') ← zoom (fun w => (mask_get k (sched w), temp)) (fun p w => w <| sched ::= mask_put k (fst p) |>)
                         (b ← session_set_and (all_max w) u; p ← gets id; mret (b, snd p));
      mret (if 0 <? bits then (bits, Some temp', temp') else (0, Some u, temp'))
  end.

(** A turn of the loop of [session_set_select] on its three sets, three different
    objects: [None] in the first place when it goes to sleep. *)
Definition select_turn (recvs sends errors : option SessionSet) (temp : SessionSet) :
    CM World (option Z * (option SessionSet * option SessionSet * option SessionSet) * SessionSet) :=
  '(b1, recvs', temp1) ← select_one RecvM recvs temp;
  '(b2, sends', temp2) ← select_one SendM sends temp1;
  '(b3, errors', temp3) ← select_one ErrM errors temp2;
  let ret := i32 (b1 + b2 + b3) in
  mret (if 0 <? ret then Some ret else None, (recvs', sends', errors'), temp3).

(** The loop; [env] is what the other threads do during each sleep. *)
Fixpoint session_set_select (env : list (CM World unit)) (recvs sends errors : option SessionSet) (temp : SessionSet) :
    CM World (Z * (option SessionSet * option SessionSet * option SessionSet)) :=
  '(ret, sets, temp') ← select_turn recvs sends errors temp;
  match ret, env with
  | Some r, _ => mret (r, sets)
  | None, [] => block
  | None, act :: env => _ ← act; session_set_select env (fst (fst sets)) (snd (fst sets)) (snd sets) temp'
  end.

(** * Lemmas on sets *)

Definition isset (d : Z) (s : SessionSet) : bool := default false (ORTP_FD_ISSET d s).

Lemma land_bit w k : 0 ≤ k → negb (Z.land w (Z.shiftl 1 k) =? 0) = Z.testbit w k.
Proof.
  intros Hk. destruct (Z.testbit w k) eqn:E.
  - apply negb_true_iff, Z.eqb_neq. intros H. apply (f_equal (fun z => Z.testbit z k)) in H.
    rewrite Z.land_spec, Z.shiftl_spec, E, Z.sub_diag, Z.bits_0 in H by lia. done.
  - apply negb_false_iff, Z.eqb_eq. apply Z.bits_inj'. intros j Hj. rewrite Z.land_spec, Z.shiftl_spec, Z.bits_0 by lia.
    destruct (decide (j = k)) as [->|Hn]; [by rewrite E|]. apply andb_false_intro2.
    destruct (Z.ltb_spec j k); [apply Z.testbit_neg_r; lia|]. rewrite (Z.bits_above_log2 1); cbn; lia.
Qed.

Lemma isset_word d s w : aget s (d / 32) = Some w → isset d s = Z.testbit w (d mod 32).
Proof. intros E. unfold isset, ORTP_FD_ISSET, NFDBITS. rewrite E. cbn. apply land_bit. mlia. Qed.

Lemma word_at (s : SessionSet) d : zlen s = 32 → 0 ≤ d < 1024 → ∃ w, aget s (d / 32) = Some w.
Proof. intros Hs Hd. apply aget_is_Some. mlia. Qed.

Lemma fd_isset_ok d s : zlen s = 32 → 0 ≤ d < 1024 → ORTP_FD_ISSET d s = Some (isset d s).
Proof.
  intros Hs Hd. destruct (word_at s d Hs Hd) as [w E]. unfold isset, ORTP_FD_ISSET, NFDBITS. by rewrite E.
Qed.

(** Setting and clearing a bit are updates of one word that change that bit only. *)
Definition fd_upd (f : Z → Z → Z) (d : Z) (s : SessionSet) : option SessionSet :=
  w ← aget s (d / 32); aset s (d / 32) (f w (FD_MASK d)).
Definition bit_fn (f : Z → Z → Z) (b : bool) : Prop :=
  ∀ w k j, 0 ≤ k → 0 ≤ j → Z.testbit (f w (Z.shiftl 1 k)) j = if decide (j = k) then b else Z.testbit w j.

Lemma shiftl1_bit k j : 0 ≤ k → 0 ≤ j → Z.testbit (Z.shiftl 1 k) j = bool_decide (j = k).
Proof.
  intros Hk Hj. rewrite Z.shiftl_1_l. destruct (decide (j = k)) as [->|Hn].
  - rewrite Z.pow2_bits_true by lia. by rewrite bool_decide_true.
  - rewrite Z.pow2_bits_false by lia. by rewrite bool_decide_false.
Qed.
Lemma lor_bit_fn : bit_fn Z.lor true.
Proof. intros w k j Hk Hj. rewrite Z.lor_spec, shiftl1_bit by done. destruct (decide (j = k)); [rewrite bool_decide_true by done; apply orb_true_r|rewrite bool_decide_false by done; apply orb_false_r]. Qed.
Lemma ldiff_bit_fn : bit_fn Z.ldiff false.
Proof. intros w k j Hk Hj. rewrite Z.ldiff_spec, shiftl1_bit by done. destruct (decide (j = k)); [rewrite bool_decide_true by done; apply andb_false_r|rewrite bool_decide_false by done; apply andb_true_r]. Qed.

Lemma fd_upd_ok f b d s : bit_fn f b → zlen s = 32 → 0 ≤ d < 1024 →
  ∃ s', fd_upd f d s = Some s' ∧ zlen s' = 32 ∧ ∀ e, 0 ≤ e < 1024 → isset e s' = if decide (e = d) then b else isset e s.
Proof.
  intros Hf Hs Hd. destruct (word_at s d Hs Hd) as [w E]. unfold fd_upd. rewrite E. cbn.
  rewrite aset_Some by mlia. eexists. split; [done|]. split; [by rewrite zlen_insert|]. intros e He.
  destruct (word_at s e Hs He) as [w' E']. rewrite (isset_word e s w') by done.
  assert (0 ≤ d / 32 < zlen s ∧ 0 ≤ d mod 32 < 32 ∧ 0 ≤ e mod 32 < 32) as (Hr & Hm & Hme) by (rewrite Hs; mlia).
  destruct (decide (e / 32 = d / 32)) as [Heq|Hne].
  - rewrite (isset_word _ _ (f w (FD_MASK d))) by (rewrite Heq; by apply aget_insert_eq).
    rewrite Heq in E'. replace w' with w by congruence. unfold FD_MASK, NFDBITS. rewrite Hf by lia.
    case_decide; case_decide; try done; exfalso; mlia.
  - rewrite (isset_word _ _ w') by (rewrite aget_insert_ne; [done|lia|congruence]).
    rewrite decide_False by (intros ->; done). done.
Qed.

Lemma isset_zero d : isset d ORTP_FD_ZERO = false.
Proof.
  unfold isset, ORTP_FD_ISSET. destruct (aget ORTP_FD_ZERO (d / NFDBITS)) as [w|] eqn:E; [|done]. apply aget_elem_of in E.
  unfold ORTP_FD_ZERO in E. apply elem_of_replicate in E as [-> _]. done.
Qed.

(** * Lemmas on the steps *)

Lemma sess_of_ret a w s : sessions w !! a = Some s → sess_of a w = Ret s w.
Proof. intros E. unfold sess_of. rewrite (bind_ret _ _ _ (sessions w) w) by done. by rewrite E. Qed.

Lemma on_sess_ret a f w s : sessions w !! a = Some s → on_sess a f w = Ret tt (w <| sessions ::= <[a := f s]> |>).
Proof. intros E. unfold on_sess. by rewrite (bind_ret _ _ _ _ _ (sess_of_ret a w s E)). Qed.

Lemma mask_get_put k k' m s : mask_get k' (mask_put k m s) = if decide (k' = k) then m else mask_get k' s.
Proof. by destruct k, k'. Qed.

Definition masks_wf (s : RtpScheduler) : Prop := ∀ k, zlen (mask_get k s) = 32.

(** A bit of one mask is changed and nothing else. *)
Lemma on_mask_ret (f : Z → Z → Z) b k p w : bit_fn f b → masks_wf (sched w) → 0 ≤ p < 1024 →
  ∃ m, on_mask k (fd_upd f p) w = Ret tt (w <| sched ::= mask_put k m |>) ∧ masks_wf (mask_put k m (sched w)) ∧
    ∀ e, 0 ≤ e < 1024 → isset e m = if decide (e = p) then b else isset e (mask_get k (sched w)).
Proof.
  intros Hf Hw Hp. destruct (fd_upd_ok f b p (mask_get k (sched w)) Hf (Hw k) Hp) as (m & E & Hm & Hb).
  exists m. split_and!; [|intros k'; rewrite mask_get_put; by case_decide|done].
  unfold on_mask. rewrite (bind_ret _ _ _ (sched w) w) by done. by rewrite E.
Qed.

Lemma session_set_set_ret k a w s : sessions w !! a = Some s → masks_wf (sched w) → 0 ≤ mask_pos s < 1024 →
  ∃ m, session_set_set k a w = Ret tt (w <| sched ::= mask_put k m |>) ∧ masks_wf (mask_put k m (sched w)) ∧
    ∀ e, 0 ≤ e < 1024 → isset e m = if decide (e = mask_pos s) then true else isset e (mask_get k (sched w)).
Proof.
  intros Hs Hw Hp. destruct (on_mask_ret Z.lor true k (mask_pos s) w lor_bit_fn Hw Hp) as (m & E & H). exists m. split; [|done].
  unfold session_set_set. by rewrite (bind_ret _ _ _ _ _ (sess_of_ret a w s Hs)).
Qed.

Lemma session_set_clr_ret k a w s : sessions w !! a = Some s → masks_wf (sched w) → 0 ≤ mask_pos s < 1024 →
  ∃ m, session_set_clr k a w = Ret tt (w <| sched ::= mask_put k m |>) ∧ masks_wf (mask_put k m (sched w)) ∧
    ∀ e, 0 ≤ e < 1024 → isset e m = if decide (e = mask_pos s) then false else isset e (mask_get k (sched w)).
Proof.
  intros Hs Hw Hp. destruct (on_mask_ret Z.ldiff false k (mask_pos s) w ldiff_bit_fn Hw Hp) as (m & E & H). exists m. split; [|done].
  unfold session_set_clr. by rewrite (bind_ret _ _ _ _ _ (sess_of_ret a w s Hs)).
Qed.

(** * The invariant

    What the scheduler keeps of a session: its link, whether it is scheduled, its
    position. *)

Definition in_sched (s : RtpSession) : bool := has_flag s RTP_SESSION_IN_SCHEDULER.
Abbreviation core := (option Z * bool * Z)%type.
Definition core_of (s : RtpSession) : core := (next s, in_sched s, mask_pos s).
Definition cores (w : World) : gmap Z core := core_of <$> sessions w.

Fixpoint linked (m : gmap Z core) (h : option Z) (L : list Z) : Prop :=
  match L with
  | [] => h = None
  | a :: L => h = Some a ∧ ∃ n b p, m !! a = Some (n, b, p) ∧ linked m n L
  end.
Definition pos_of (m : gmap Z core) (a : Z) : Z := match m !! a with Some (_, _, p) => p | None => -1 end.

(** The list of the scheduler is [L], its members are those with the flag, and
    each has a position of its own, whose bit is set in the mask of all sessions. *)
Record sched_ok (L : list Z) (w : World) : Prop := {
  so_list : linked (cores w) (list_ (sched w)) L;
  so_nodup : NoDup L;
  so_flag : ∀ a c, cores w !! a = Some c → (snd (fst c) = true ↔ a ∈ L);
  so_pos : NoDup (pos_of (cores w) <$> L);
  so_all : ∀ d, 0 ≤ d < 1024 → isset d (all_sessions (sched w)) = bool_decide (d ∈ pos_of (cores w) <$> L);
  so_range : Forall (fun d => 0 ≤ d ≤ all_max (sched w)) (pos_of (cores w) <$> L);
  so_max : 0 ≤ all_max (sched w) < 1024;
  so_masks : masks_wf (sched w);
  so_n : max_sessions (sched w) = 1024
}.

(** Steps that leave all of this alone. *)
Record same_sched (w w' : World) : Prop := {
  ss_cores : cores w' = cores w;
  ss_list : list_ (sched w') = list_ (sched w);
  ss_all : all_sessions (sched w') = all_sessions (sched w);
  ss_max : all_max (sched w') = all_max (sched w);
  ss_n : max_sessions (sched w') = max_sessions (sched w);
  ss_masks : masks_wf (sched w) → masks_wf (sched w')
}.

#[export] Instance same_sched_preorder : PreOrder same_sched.
Proof.
  split; [by intros w; split|]. intros w1 w2 w3 [] []. split; try congruence. auto.
Qed.

Lemma same_sched_ok L w w' : same_sched w w' → sched_ok L w → sched_ok L w'.
Proof.
  intros [Hc Hl Ha Hm Hn Hw] []. split; rewrite ?Hc, ?Hl, ?Ha, ?Hm, ?Hn; auto.
Qed.

Lemma mask_put_same k m w : k ≠ AllM → zlen m = 32 → same_sched w (w <| sched ::= mask_put k m |>).
Proof.
  intros Hk Hm. split; try by destruct k. intros Hw k'. cbn. rewrite mask_get_put. by case_decide.
Qed.

(** Changing a session in what the scheduler does not keep. *)
Lemma cores_insert a s w : cores (w <| sessions ::= <[a := s]> |>) = <[a := core_of s]> (cores w).
Proof. unfold cores. cbn. by rewrite fmap_insert. Qed.
Lemma on_sess_same a f w s : sessions w !! a = Some s → core_of (f s) = core_of s → same_sched w (w <| sessions ::= <[a := f s]> |>).
Proof.
  intros Hs Hf. split; try done. rewrite cores_insert, Hf. apply insert_id. unfold cores. by rewrite lookup_fmap, Hs.
Qed.

Lemma lookup_cores w a s : sessions w !! a = Some s → cores w !! a = Some (core_of s).
Proof. intros Hs. unfold cores. by rewrite lookup_fmap, Hs. Qed.

Lemma linked_in m h L a : linked m h L → a ∈ L → is_Some (m !! a).
Proof.
  revert h. induction L as [|b L IH]; intros h Hl Hin; [by apply not_elem_of_nil in Hin|].
  destruct Hl as (_ & n & f & p & E & Hl). apply elem_of_cons in Hin as [->|Hin]; [by eexists|by eapply IH].
Qed.

Lemma sched_session L w a : sched_ok L w → a ∈ L →
  ∃ s, sessions w !! a = Some s ∧ in_sched s = true ∧ 0 ≤ mask_pos s ≤ all_max (sched w) ∧ pos_of (cores w) a = mask_pos s.
Proof.
  intros Hok Ha. destruct (linked_in _ _ _ _ (so_list _ _ Hok) Ha) as [c Hc].
  unfold cores in Hc. rewrite lookup_fmap in Hc. destruct (sessions w !! a) as [s|] eqn:E; [|done]. exists s.
  pose proof (lookup_cores w a s E) as Ec. assert (pos_of (cores w) a = mask_pos s) as Ep by (unfold pos_of; by rewrite Ec).
  split_and!; [done|by apply (so_flag _ _ Hok a (core_of s))| | |done].
  all: pose proof (so_range _ _ Hok) as Hr; rewrite Forall_fmap, Forall_forall in Hr; specialize (Hr a Ha); cbn in Hr; lia.
Qed.

(** Steps that wake nobody and change no wait point. *)
Definition wps_of (s : RtpSession) : WaitPoint * WaitPoint := (send_wp s, recv_wp s).
Record quiet (w w' : World) : Prop := {
  q_wps : wps_of <$> sessions w' = wps_of <$> sessions w;
  q_signals : signals w' = signals w;
  q_time : time_ (sched w') = time_ (sched w);
  q_inc : timer_inc (sched w') = timer_inc (sched w);
  q_run : thread_running (sched w') = thread_running (sched w)
}.
#[export] Instance quiet_preorder : PreOrder quiet.
Proof. split; [by intros w; split|]. intros w1 w2 w3 [] []. split; congruence. Qed.

Lemma on_sess_quiet a f w s : sessions w !! a = Some s → wps_of (f s) = wps_of s → quiet w (w <| sessions ::= <[a := f s]> |>).
Proof.
  intros Hs Hf. split; try done. cbn. rewrite fmap_insert, Hf. apply insert_id. by rewrite lookup_fmap, Hs.
Qed.
Lemma mask_put_quiet k m w : quiet w (w <| sched ::= mask_put k m |>).
Proof. split; by destruct k. Qed.

Lemma add_at_ok a i w s : sessions w !! a = Some s → masks_wf (sched w) → 0 ≤ i < 1024 → isset i (all_sessions (sched w)) = false →
  ∃ w', add_at a i w = Ret (Some tt) w' ∧ sessions w' = <[a := s <| mask_pos := i |>]> (sessions w) ∧ masks_wf (sched w') ∧
    list_ (sched w') = list_ (sched w) ∧ max_sessions (sched w') = max_sessions (sched w) ∧ all_max (sched w') = all_max (sched w) `max` i ∧
    (∀ e, 0 ≤ e < 1024 → isset e (all_sessions (sched w')) = if decide (e = i) then true else isset e (all_sessions (sched w))) ∧
    quiet w w'.
Proof.
  intros Hs Hw Hi Hf. set (s1 := s <| mask_pos := i |>). set (w1 := w <| sessions ::= <[a := s1]> |>).
  assert (Hs1 : sessions w1 !! a = Some s1) by (cbn; apply lookup_insert_eq).
  destruct (session_set_set_ret AllM a w1 s1 Hs1 Hw Hi) as (m & E2 & Hw2 & Hb). set (w2 := w1 <| sched ::= mask_put AllM m |>) in *.
  assert (Hr : ∀ k (w0 : World), sessions w0 = sessions w1 → masks_wf (sched w0) → k ≠ AllM → ∀ b : bool,
    ∃ w', (if b then session_set_set k a else mret tt) w0 = Ret tt w' ∧ sessions w' = sessions w1 ∧ same_sched w0 w' ∧ quiet w0 w').
  { intros k w0 E0 Hw0 Hk [|]; [|by exists w0]. assert (Hs0 : sessions w0 !! a = Some s1) by by rewrite E0.
    destruct (session_set_set_ret k a w0 s1 Hs0 Hw0 Hi) as (m' & E & Hm & _). eexists. split; [exact E|].
    split; [done|]. split; [|apply mask_put_quiet]. apply mask_put_same; [done|]. specialize (Hm k). rewrite mask_get_put in Hm. by rewrite decide_True in Hm. }
  destruct (Hr RecvM w2 eq_refl Hw2 ltac:(done) (has_flag s1 RTP_SESSION_RECV_NOT_STARTED)) as (w3 & E3 & Hse3 & Hsa3 & Hq3).
  destruct (Hr SendM w3 Hse3 (ss_masks _ _ Hsa3 Hw2) ltac:(done) (has_flag s1 RTP_SESSION_SEND_NOT_STARTED)) as (w4 & E4 & Hse4 & Hsa4 & Hq4).
  pose proof (transitivity Hsa3 Hsa4) as Hsa. pose proof (transitivity Hq3 Hq4) as Hq.
  assert (quiet w w4) as Hqw.
  { transitivity w1; [apply (on_sess_quiet a (fun s => s <| mask_pos := i |>) w s); done|]. by transitivity w2; [apply mask_put_quiet|]. }
  exists (if all_max (sched w4) <? i then w4 <| sched ::= fun s => s <| all_max := i |> |> else w4). split.
  { unfold add_at, mask_isset. rewrite (bind_ret _ _ _ false w). 2: { rewrite (bind_ret _ _ _ (sched w) w) by done. cbn. by rewrite fd_isset_ok, Hf by (try done; apply (Hw AllM)). }
    cbv beta iota. rewrite (bind_ret _ _ _ _ _ (on_sess_ret a (fun s => s <| mask_pos := i |>) w s Hs)). fold s1. fold w1.
    rewrite (bind_ret _ _ _ _ _ E2), (bind_ret _ _ _ _ _ (sess_of_ret a w2 s1 Hs1)), (bind_ret _ _ _ _ _ E3), (bind_ret _ _ _ _ _ E4).
    rewrite (bind_ret _ _ _ (sched w4) w4) by done. by destruct (all_max (sched w4) <? i). }
  destruct Hsa as [_ Hl Ha Hm Hn Hmw]. specialize (Hmw Hw2).
  split_and!.
  - by destruct (_ <? _).
  - destruct (_ <? _); [|done]. intros k. specialize (Hmw k). by destruct k.
  - by destruct (_ <? _).
  - by destruct (_ <? _).
  - assert (all_max (sched w4) = all_max (sched w)) as -> by done. destruct (Z.ltb_spec (all_max (sched w)) i); cbn; [lia|]. rewrite Hm. cbn. lia.
  - intros e He. transitivity (isset e m); [|exact (Hb e He)]. assert (all_sessions (sched w4) = m) as Em by done. by destruct (_ <? _); cbn; rewrite ?Em.
  - destruct (_ <? _); [|done]. etransitivity; [exact Hqw|]. by split.
Qed.

Lemma in_sched_set s : in_sched (rtp_session_set_flag s RTP_SESSION_IN_SCHEDULER) = true.
Proof.
  unfold in_sched, has_flag. cbn. apply negb_true_iff, Z.eqb_neq. intros H. apply (f_equal (fun z => Z.testbit z 6)) in H.
  rewrite Z.land_spec, Z.lor_spec, orb_true_r in H. done.
Qed.
Lemma in_sched_unset s : in_sched (rtp_session_unset_flag s RTP_SESSION_IN_SCHEDULER) = false.
Proof.
  unfold in_sched, has_flag. cbn. apply negb_false_iff, Z.eqb_eq. apply Z.bits_inj'. intros j Hj.
  rewrite !Z.land_spec, Z.lnot_spec, Z.bits_0 by done. destruct (Z.testbit (flags s) j), (Z.testbit _ j); done.
Qed.

Lemma linked_insert m a c h L : a ∉ L → linked m h L → linked (<[a := c]> m) h L.
Proof.
  revert h. induction L as [|b L IH]; intros h Ha Hl; [done|]. apply not_elem_of_cons in Ha as [Hab Ha].
  destruct Hl as (-> & n & f & p & E & Hl). split; [done|]. exists n, f, p. split; [by rewrite lookup_insert_ne|by apply IH].
Qed.
Lemma pos_insert_ne (m : gmap Z core) a c (L : list Z) : a ∉ L → pos_of (<[a := c]> m) <$> L = pos_of m <$> L.
Proof.
  intros Ha. apply list_fmap_ext. intros i b Hb. unfold pos_of. rewrite lookup_insert_ne; [done|].
  intros ->. by apply Ha, (list_elem_of_lookup_2 _ i).
Qed.
Lemma pos_insert_eq (m : gmap Z core) a n f p : pos_of (<[a := (n, f, p)]> m) a = p.
Proof. unfold pos_of. by rewrite lookup_insert_eq. Qed.

(** With fewer sessions than positions one is free. *)
Lemma free_position L w : sched_ok L w → zlen L < 1024 →
  ∃ i, find_idx id ((fun d => negb (isset d (all_sessions (sched w)))) <$> seqZ 0 1024) = Some i ∧
    0 ≤ i < 1024 ∧ isset i (all_sessions (sched w)) = false.
Proof.
  intros Hok Hn. destruct (find_idx _ _) as [i|] eqn:E.
  - exists i. split; [done|]. apply find_idx_Some in E as (_ & (x & Hx & Hp) & _). pose proof (aget_Some_range _ _ _ Hx) as Hr.
    unfold aget in Hx. rewrite decide_True, list_lookup_fmap in Hx by lia.
    destruct (seqZ 0 1024 !! Z.to_nat i) as [d|] eqn:Ed; [|done]. apply lookup_seqZ in Ed as [-> Hd]. cbn in Hx. injection Hx as <-.
    replace (0 + Z.of_nat (Z.to_nat i)) with i in * by lia. cbn in Hp. split; [lia|]. by apply negb_true_iff.
  - exfalso. rewrite find_idx_None, Forall_fmap, Forall_forall in E.
    assert (seqZ 0 1024 ⊆ pos_of (cores w) <$> L) as Hsub.
    { intros d Hd. specialize (E d Hd). apply negb_false_iff in E. apply elem_of_seqZ in Hd.
      rewrite (so_all _ _ Hok) in E by lia. by apply bool_decide_eq_true in E. }
    apply NoDup_submseteq, submseteq_length in Hsub; [|apply NoDup_seqZ]. rewrite length_fmap, length_seqZ in Hsub. unfold zlen in Hn. lia.
Qed.

Lemma sched_add_ok L w a s : sched_ok L w → sessions w !! a = Some s → (a ∉ L) → zlen L < 1024 →
  ∃ w', rtp_scheduler_add_session a w = Ret tt w' ∧ sched_ok (a :: L) w' ∧ quiet w w' ∧
    ∃ i, sessions w' = <[a := rtp_session_set_flag (s <| next := list_ (sched w) |> <| mask_pos := i |>) RTP_SESSION_IN_SCHEDULER]> (sessions w).
Proof.
  intros Hok Hs Ha Hn. destruct (free_position L w Hok Hn) as (i & Hfind & Hi & Hfree).
  set (s1 := s <| next := list_ (sched w) |>). set (w1 := w <| sched ::= fun s => s <| list_ := Some a |> |>). set (w2 := w1 <| sessions ::= <[a := s1]> |>).
  assert (Hs2 : sessions w2 !! a = Some s1) by (cbn; apply lookup_insert_eq).
  assert (Hm2 : masks_wf (sched w2)) by (intros k; pose proof (so_masks _ _ Hok k); by destruct k).
  destruct (add_at_ok a i w2 s1 Hs2 Hm2 Hi Hfree) as (w3 & E3 & Hse & Hm3 & Hl3 & Hn3 & Hmax3 & Hb3 & Hq3).
  set (s3 := s1 <| mask_pos := i |>) in *. set (s4 := rtp_session_set_flag s3 RTP_SESSION_IN_SCHEDULER). set (w4 := w3 <| sessions ::= <[a := s4]> |>).
  assert (Hs3 : sessions w3 !! a = Some s3) by (rewrite Hse; apply lookup_insert_eq).
  assert (Hflag : in_sched s = false).
  { destruct (in_sched s) eqn:E; [|done]. exfalso. apply Ha. by apply (so_flag _ _ Hok a _ (lookup_cores w a s Hs)). }
  exists w4. split; [|split; [|split]].
  - unfold rtp_scheduler_add_session. rewrite (bind_ret _ _ _ _ _ (sess_of_ret a w s Hs)). unfold in_sched in Hflag. rewrite Hflag.
    rewrite (bind_ret _ _ _ (list_ (sched w)) w) by done. rewrite (bind_ret _ _ _ tt w1) by done.
    rewrite (bind_ret _ _ _ tt w2) by (by apply on_sess_ret). rewrite (bind_ret _ _ _ 1024 w2) by (unfold gets; cbn; by rewrite (so_n _ _ Hok)).
    rewrite (bind_ret _ _ _ (Some tt) w3); [by apply on_sess_ret|].
    pose proof (for_until_find id ((fun d => negb (isset d (all_sessions (sched w)))) <$> seqZ 0 1024) (add_at a) w2) as Hf.
    rewrite Hfind in Hf. change (zlen (_ <$> seqZ 0 1024)) with 1024 in Hf. rewrite Hf.
    + rewrite seqZ_cons by lia. cbn [for_until]. by rewrite (bind_ret _ _ _ _ _ E3).
    + intros j x Hx Hp. pose proof (aget_Some_range _ _ _ Hx) as Hr. change (zlen (_ <$> seqZ 0 1024)) with 1024 in Hr.
      unfold aget in Hx. rewrite decide_True, list_lookup_fmap, lookup_seqZ_lt in Hx by lia. cbn in Hx. injection Hx as <-.
      apply negb_false_iff in Hp. rewrite Z2Nat.id, Z.add_0_l in Hp by lia.
      unfold add_at, mask_isset. rewrite (bind_ret _ _ _ true w2); [done|]. rewrite (bind_ret _ _ _ (sched w2) w2) by done. cbn.
      by rewrite fd_isset_ok, Hp by (done || apply (so_masks _ _ Hok AllM)).
  - assert (cores w4 = <[a := (list_ (sched w), true, i)]> (cores w)) as Hc.
    { unfold w4. rewrite cores_insert. unfold core_of. pose proof (in_sched_set s3 : in_sched s4 = true) as ->. cbn. unfold cores. rewrite Hse. cbn. by rewrite !fmap_insert, !insert_insert_eq. }
    pose proof (so_all _ _ Hok i ltac:(lia)) as Hai. rewrite Hfree in Hai. symmetry in Hai. apply bool_decide_eq_false in Hai.
    destruct Hok as [H1 H2 H3 H4 H5 H6 H7 H8 H9]. split; rewrite ?Hc; cbn [fmap list_fmap]; rewrite ?pos_insert_eq, ?(pos_insert_ne _ _ _ L) by done.
    + cbn. rewrite Hl3. split; [done|]. exists (list_ (sched w)), true, i. split; [apply lookup_insert_eq|by apply linked_insert].
    + by constructor.
    + intros b c. destruct (decide (b = a)) as [->|Hb]; [rewrite lookup_insert_eq; intros [= <-]; by rewrite elem_of_cons; split; [left|]|].
      rewrite lookup_insert_ne by done. intros Hbc. rewrite (H3 b c Hbc), elem_of_cons. split; [by right|by intros [?|]].
    + by constructor.
    + intros d Hd. cbn. rewrite Hb3 by done. cbn. rewrite H5 by done. case_decide as E; symmetry; rewrite ?bool_decide_eq_true, ?elem_of_cons; [by left|].
      apply bool_decide_ext. rewrite elem_of_cons. split; [by intros [?|]|by right].
    + cbn. rewrite Hmax3. cbn. constructor; [lia|]. eapply Forall_impl; [exact H6|]. cbn. lia.
    + cbn. rewrite Hmax3. cbn. lia.
    + done.
    + cbn. by rewrite Hn3.
  - transitivity w1; [by split|]. transitivity w2; [by apply (on_sess_quiet a (fun s => s <| next := list_ (sched w) |>) w1 s)|].
    transitivity w3; [done|]. by apply (on_sess_quiet a (fun s => rtp_session_set_flag s RTP_SESSION_IN_SCHEDULER) w3 s3).
  - exists i. unfold w4, s4, s3, s1. cbn. rewrite Hse. cbn. by rewrite !insert_insert_eq.
Qed.

Lemma pos_insert_same (m : gmap Z core) a n0 f0 p n f x : m !! a = Some (n0, f0, p) → pos_of (<[a := (n, f, p)]> m) x = pos_of m x.
Proof.
  intros Ha. destruct (decide (x = a)) as [->|Hne]; [rewrite pos_insert_eq; unfold pos_of; by rewrite Ha|].
  unfold pos_of. by rewrite lookup_insert_ne.
Qed.

Lemma linked_mid m h L1 a L2 : linked m h (L1 ++ a :: L2) →
  ∃ n f p, m !! a = Some (n, f, p) ∧ linked m n L2.
Proof.
  revert h. induction L1 as [|b L1 IH]; intros h; [by intros (-> & H)|]. intros (_ & n & f & p & _ & Hl). by apply (IH n).
Qed.

(** The cell before [a] made to point behind it. *)
Lemma linked_unlink m h L1 b a L2 nb fb pb na fa pa : NoDup (L1 ++ b :: a :: L2) → linked m h (L1 ++ b :: a :: L2) →
  m !! b = Some (nb, fb, pb) → m !! a = Some (na, fa, pa) → linked (<[b := (na, fb, pb)]> m) h (L1 ++ b :: L2).
Proof.
  intros Hnd Hl Hb Ha. revert h Hl. induction L1 as [|c L1 IH]; intros h Hl; cbn in *.
  - destruct Hl as (-> & n & f & p & E & Hl). split; [done|]. exists na, fb, pb. split; [apply lookup_insert_eq|].
    destruct (linked_mid m _ [] a L2 Hl) as (na' & fa' & pa' & Ea & Hl2). rewrite Ha in Ea. injection Ea as <- <- <-.
    apply linked_insert; [|done]. apply NoDup_cons in Hnd as [Hnb _]. rewrite elem_of_cons in Hnb. tauto.
  - destruct Hl as (-> & n & f & p & E & Hl). apply NoDup_cons in Hnd as [Hnc Hnd]. split; [done|]. exists n, f, p.
    split; [|by apply IH]. rewrite lookup_insert_ne; [done|]. intros ->. apply Hnc. rewrite elem_of_app, elem_of_cons. tauto.
Qed.

Lemma lookup_cores_inv w a n f p : cores w !! a = Some (n, f, p) → ∃ s, sessions w !! a = Some s ∧ next s = n ∧ in_sched s = f ∧ mask_pos s = p.
Proof.
  unfold cores. rewrite lookup_fmap. destruct (sessions w !! a) as [s|]; [|done]. intros [= <- <- <-]. by exists s.
Qed.

Lemma remove_walk_ok w a b L1 L2 sa sb h fuel : NoDup (L1 ++ b :: a :: L2) → linked (cores w) h (L1 ++ b :: a :: L2) →
  sessions w !! a = Some sa → sessions w !! b = Some sb → (length L1 < fuel)%nat →
  remove_walk fuel a h w = Ret tt (w <| sessions ::= <[b := sb <| next := next sa |>]> |>).
Proof.
  intros Hnd Hl Ha Hb. revert h fuel Hl. induction L1 as [|c L1 IH]; intros h [|fuel] Hl Hf; cbn in Hf; try lia; cbn [remove_walk].
  - destruct Hl as (-> & n & f & p & E & Hl). apply lookup_cores_inv in E as (s & Es & <- & _ & _). rewrite Hb in Es. injection Es as <-.
    rewrite (bind_ret _ _ _ _ _ (sess_of_ret b w sb Hb)). destruct Hl as [-> _]. rewrite decide_True by done.
    rewrite (bind_ret _ _ _ _ _ (sess_of_ret a w sa Ha)). by apply (on_sess_ret b (fun s => s <| next := next sa |>)).
  - destruct Hl as (-> & n & f & p & E & Hl). apply lookup_cores_inv in E as (s & Es & <- & _ & _).
    apply NoDup_cons in Hnd as [_ Hnd]. rewrite (bind_ret _ _ _ _ _ (sess_of_ret c w s Es)).
    destruct (decide (next s = Some a)) as [Hn|_]; [exfalso|by apply (IH Hnd); [|lia]].
    rewrite Hn in Hl. destruct L1 as [|d L1]; cbn in Hl; destruct Hl as [[= <-] _]; apply NoDup_cons in Hnd as [Hx _].
    + apply Hx, list_elem_of_here.
    + apply Hx. rewrite elem_of_app, !elem_of_cons. tauto.
Qed.

Lemma sched_length L w : sched_ok L w → (length L ≤ size (sessions w))%nat.
Proof.
  intros Hok. rewrite <- (size_list_to_set (C := gset Z)) by apply (so_nodup _ _ Hok). rewrite <- size_dom. apply subseteq_size.
  intros a Ha. apply elem_of_list_to_set in Ha. destruct (sched_session L w a Hok Ha) as (s & Es & _). by apply elem_of_dom_2 in Es.
Qed.

(** The sessions changed in nothing but their place in the list. *)
Definition relinked_only (w w' : World) : Prop := ∀ b, ∃ n, sessions w' !! b = (fun s => s <| next := n |>) <$> sessions w !! b.
Lemma relinked_same (o : option RtpSession) : ∃ n, o = (fun s => s <| next := n |>) <$> o.
Proof. destruct o as [s|]; [|by exists None]. exists (next s). by destruct s. Qed.

(** What unlinking a session leaves. *)
Record unlinked (L : list Z) (w w1 : World) : Prop := {
  un_list : linked (cores w1) (list_ (sched w1)) L;
  un_pos : ∀ x, pos_of (cores w1) x = pos_of (cores w) x;
  un_flag : ∀ x, (fun c : core => snd (fst c)) <$> cores w1 !! x = (fun c : core => snd (fst c)) <$> cores w !! x;
  un_sched : ∃ h, sched w1 = (sched w) <| list_ := h |>;
  un_quiet : quiet w w1;
  un_only : relinked_only w w1;
  un_up : ortp_scheduler w1 = ortp_scheduler w
}.

Lemma unlink_ok L1 a L2 w sa fuel : sched_ok (L1 ++ a :: L2) w → sessions w !! a = Some sa → (length L1 < fuel)%nat →
  ∃ w1, (if decide (list_ (sched w) = Some a) then on_sched (fun w => w <| list_ := next sa |>) else remove_walk fuel a (list_ (sched w))) w = Ret tt w1 ∧
    sessions w1 !! a = Some sa ∧ unlinked (L1 ++ L2) w w1.
Proof.
  intros Hok Ha Hf. pose proof (so_list _ _ Hok) as Hl. pose proof (so_nodup _ _ Hok) as Hnd.
  destruct L1 as [|b0 L1] using rev_ind; [|clear IHL1].
  - destruct Hl as [Hh (n & f & p & E & Hl)]. rewrite decide_True by done. eexists. split; [done|]. split; [done|].
    rewrite (lookup_cores w a sa Ha) in E. injection E as <- _ _. split; try done; [by exists (next sa)|]. intros b. apply relinked_same.
  - rewrite <- app_assoc in *. cbn in Hl, Hnd.
    destruct (linked_mid _ _ _ _ _ Hl) as (nb & fb & pb & Eb & Hlb). pose proof (lookup_cores_inv _ _ _ _ _ Eb) as (sb & Hb & <- & <- & <-).
    pose proof (linked_mid _ _ [] _ _ Hlb) as (na & fa & pa & Ea & _). pose proof Ea as Ea'. rewrite (lookup_cores w a sa Ha) in Ea'.
    assert (Hab : a ≠ b0).
    { intros ->. apply NoDup_app in Hnd as (_ & _ & Hnd). apply NoDup_cons in Hnd as [Hx _]. apply Hx, list_elem_of_here. }
    destruct (decide (list_ (sched w) = Some a)) as [Hh|_].
    { exfalso. rewrite Hh in Hl. destruct L1 as [|c L1]; cbn in Hl; destruct Hl as [[= <-] _]; [done|]. apply NoDup_cons in Hnd as [Hx _].
      apply Hx. rewrite elem_of_app, !elem_of_cons. tauto. }
    rewrite length_app in Hf. cbn in Hf. rewrite (remove_walk_ok w a b0 L1 L2 sa sb) by (done || lia).
    set (sb' := sb <| next := next sa |>). set (w1 := w <| sessions ::= <[b0 := sb']> |>). exists w1. split; [done|].
    split; [cbn; by rewrite lookup_insert_ne|].
    assert (cores w1 = <[b0 := (next sa, in_sched sb, mask_pos sb)]> (cores w)) as Hc by apply (cores_insert b0 sb' w).
    injection Ea' as <- <- <-. split; rewrite ?Hc.
    + change (list_ (sched w1)) with (list_ (sched w)). by eapply linked_unlink.
    + intros x. by eapply pos_insert_same.
    + intros x. destruct (decide (x = b0)) as [->|Hx]; [by rewrite lookup_insert_eq, Eb|by rewrite lookup_insert_ne].
    + exists (list_ (sched w)). unfold w1. by destruct w as [[]].
    + by apply (on_sess_quiet b0 (fun s => s <| next := next sa |>) w sb).
    + intros x. destruct (decide (x = b0)) as [->|Hx]; [exists (next sa); cbn; by rewrite lookup_insert_eq, Hb|].
      cbn. rewrite lookup_insert_ne by done. apply relinked_same.
    + done.
Qed.

(** Removing a session, with what becomes of it and of the others. *)
Lemma sched_remove_full L1 a L2 w sa : sched_ok (L1 ++ a :: L2) w → sessions w !! a = Some sa →
  ∃ w', rtp_scheduler_remove_session (Some a) w = Ret tt w' ∧ sched_ok (L1 ++ L2) w' ∧ quiet w w' ∧
    sessions w' !! a = Some (rtp_session_unset_flag sa RTP_SESSION_IN_SCHEDULER) ∧
    (∀ b, b ≠ a → ∃ n, sessions w' !! b = (fun s => s <| next := n |>) <$> sessions w !! b) ∧ ortp_scheduler w' = ortp_scheduler w.
Proof.
  intros Hok Hsa. destruct (sched_session _ w a Hok) as (sa' & Ha & Hfl & Hp & Hpos); [rewrite elem_of_app, elem_of_cons; tauto|].
  rewrite Hsa in Ha. injection Ha as <-. rename Hsa into Ha.
  assert ((length L1 < S (size (sessions w)))%nat) as Hf by (pose proof (sched_length _ _ Hok) as Hl; rewrite length_app in Hl; cbn in Hl; lia).
  destruct (unlink_ok L1 a L2 w sa _ Hok Ha Hf) as (w1 & E1 & Ha1 & [Hl1 Hpos1 Hfl1 (h & Hs1) Hq1 Hro Hup1]).
  set (s2 := rtp_session_unset_flag sa RTP_SESSION_IN_SCHEDULER). set (w2 := w1 <| sessions ::= <[a := s2]> |>).
  assert (Ha2 : sessions w2 !! a = Some s2) by (cbn; apply lookup_insert_eq).
  pose proof Hok as [H1 H2 H3 H4 H5 H6 H7 H8 H9].
  assert (Hm2 : masks_wf (sched w2)) by (cbn; rewrite Hs1; intros k; specialize (H8 k); by destruct k).
  destruct (session_set_clr_ret AllM a w2 s2 Ha2 Hm2 ltac:(cbn; lia)) as (m & E3 & Hm3 & Hb3).
  set (w3 := w2 <| sched ::= mask_put AllM m |>) in *. exists w3.
  assert (Hc3 : cores w3 = <[a := (next sa, false, mask_pos sa)]> (cores w1)).
  { change (cores w3) with (cores w2). unfold w2. rewrite cores_insert. unfold core_of. pose proof (in_sched_unset sa : in_sched s2 = false) as ->. done. }
  assert (Hpos3 : ∀ x, pos_of (cores w3) x = pos_of (cores w) x).
  { intros x. rewrite Hc3, <- Hpos1. eapply pos_insert_same. by rewrite (lookup_cores w1 a sa Ha1). }
  assert (Hmap : ∀ l, pos_of (cores w3) <$> l = pos_of (cores w) <$> l) by (intros l; by apply list_fmap_ext).
  apply NoDup_app in H2 as (Hnd1 & Hnd12 & Hnd2). apply NoDup_cons in Hnd2 as [Hna2 Hnd2].
  assert (Hna : a ∉ L1 ++ L2).
  { rewrite elem_of_app. intros [Hx|Hx]; [|done]. by apply (Hnd12 a Hx), list_elem_of_here. }
  rewrite fmap_app, fmap_cons, Hpos in H4, H6. apply NoDup_app in H4 as (Hp1 & Hp12 & Hp2). apply NoDup_cons in Hp2 as [Hpa2 Hp2].
  rewrite Forall_app, Forall_cons in H6. destruct H6 as (H6a & H6b & H6c).
  assert (Hpa : mask_pos sa ∉ pos_of (cores w) <$> (L1 ++ L2)).
  { rewrite fmap_app, elem_of_app. intros [Hx|Hx]; [|done]. by apply (Hp12 _ Hx), list_elem_of_here. }
  split; [|split].
  - unfold rtp_scheduler_remove_session. rewrite (bind_ret _ _ _ _ _ (sess_of_ret a w sa Ha)). unfold in_sched in Hfl. rewrite Hfl. cbn [negb].
    rewrite (bind_ret _ _ _ (list_ (sched w)) w), (bind_ret _ _ _ (size (sessions w)) w), (bind_ret _ _ _ _ _ E1) by done.
    rewrite (bind_ret _ _ _ tt w2); [done|]. by apply (on_sess_ret a (fun s => rtp_session_unset_flag s RTP_SESSION_IN_SCHEDULER)).
  - split; rewrite ?Hmap.
    + rewrite Hc3. change (list_ (sched w3)) with (list_ (sched w1)). by apply linked_insert.
    + apply NoDup_app. split; [done|]. split; [|done]. intros x Hx Hx2. apply (Hnd12 x Hx). by apply list_elem_of_further.
    + intros b c. rewrite Hc3. destruct (decide (b = a)) as [->|Hb].
      * rewrite lookup_insert_eq. intros [= <-]. split; [done|]. by intros.
      * rewrite lookup_insert_ne by done. intros Hbc. pose proof (Hfl1 b) as Hfb. rewrite Hbc in Hfb. cbn in Hfb.
        destruct (cores w !! b) as [c0|] eqn:E0; [|done]. injection Hfb as ->. rewrite (H3 b c0 E0), !elem_of_app, elem_of_cons. tauto.
    + rewrite fmap_app. apply NoDup_app. split; [done|]. split; [|done]. intros x Hx Hx2. apply (Hp12 x Hx). by apply list_elem_of_further.
    + intros d Hd. transitivity (isset d m); [done|]. rewrite Hb3 by done. cbn. rewrite Hs1. cbn. rewrite H5 by done.
      destruct (decide (d = mask_pos sa)) as [->|Ed]; [by rewrite bool_decide_false|]. apply bool_decide_ext. rewrite !fmap_app, fmap_cons, Hpos, !elem_of_app, elem_of_cons. tauto.
    + cbn. rewrite Hs1. cbn. rewrite fmap_app, Forall_app. done.
    + cbn. by rewrite Hs1.
    + done.
    + cbn. by rewrite Hs1.
  - split; [|split; [|split]].
    + transitivity w1; [done|]. transitivity w2; [|apply mask_put_quiet].
      by apply (on_sess_quiet a (fun s => rtp_session_unset_flag s RTP_SESSION_IN_SCHEDULER) w1 sa).
    + exact Ha2.
    + intros b Hb. destruct (Hro b) as (nb & En). exists nb. rewrite <- En. change (sessions w3) with (sessions w2). cbn. by rewrite lookup_insert_ne.
    + exact Hup1.
Qed.
Lemma sched_remove_ok L1 a L2 w : sched_ok (L1 ++ a :: L2) w →
  ∃ w', rtp_scheduler_remove_session (Some a) w = Ret tt w' ∧ sched_ok (L1 ++ L2) w' ∧ quiet w w'.
Proof.
  intros Hok. destruct (sched_session _ w a Hok) as (sa & Ha & _); [rewrite elem_of_app, elem_of_cons; tauto|].
  destruct (sched_remove_full L1 a L2 w sa Hok Ha) as (w' & E & Hok' & Hq & _). by exists w'.
Qed.

(** * The tick *)

Definition due (t : Z) (d : dir) (s : RtpSession) : bool := fst (wait_point_check (wp_get d s) t).
Definition checked (t : Z) (d : dir) (s : RtpSession) : RtpSession := wp_put d (snd (wait_point_check (wp_get d s) t)) s.
Definition ticked (t : Z) (s : RtpSession) : RtpSession := checked t Recv (checked t Send s).

Lemma checked_core t d s : core_of (checked t d s) = core_of s.
Proof. by destruct d. Qed.
Lemma ticked_core t s : core_of (ticked t s) = core_of s.
Proof. done. Qed.
Lemma due_recv t s : due t Recv (checked t Send s) = due t Recv s.
Proof. done. Qed.

Lemma process_dir_ok w a s t d : sessions w !! a = Some s → masks_wf (sched w) → 0 ≤ mask_pos s < 1024 →
  ∃ w', process_dir a t d w = Ret tt w' ∧ sessions w' = <[a := checked t d s]> (sessions w) ∧
    signals w' = (if due t d s then [(a, d)] else []) ++ signals w ∧ same_sched w w' ∧
    time_ (sched w') = time_ (sched w) ∧ timer_inc (sched w') = timer_inc (sched w) ∧ thread_running (sched w') = thread_running (sched w) ∧
    ∀ k e, 0 ≤ e < 1024 → (isset e (mask_get k (sched w')) = true ↔
      isset e (mask_get k (sched w)) = true ∨ due t d s = true ∧ k = dir_mask d ∧ e = mask_pos s).
Proof.
  intros Ha Hw Hp. set (w1 := w <| sessions ::= <[a := checked t d s]> |>).
  assert (Ha1 : sessions w1 !! a = Some (checked t d s)) by (cbn; apply lookup_insert_eq).
  assert (Hsame : same_sched w w1) by (apply (on_sess_same a (checked t d) w s); [done|apply checked_core]).
  unfold process_dir. rewrite (bind_ret _ _ _ _ _ (sess_of_ret a w s Ha)). cbv zeta.
  rewrite (bind_ret _ _ _ tt w1) by (by apply (on_sess_ret a (wp_put d (wait_point_check (wp_get d s) t).2))).
  change (fst (wait_point_check (wp_get d s) t)) with (due t d s). destruct (due t d s).
  - destruct (session_set_set_ret (dir_mask d) a w1 (checked t d s) Ha1 Hw) as (m & E & Hm & Hb); [by destruct d|].
    rewrite (bind_ret _ _ _ _ _ E). eexists. split; [done|]. split; [done|]. split; [done|]. split.
    { transitivity w1; [done|]. specialize (Hm (dir_mask d)). rewrite mask_get_put, decide_True in Hm by done.
      pose proof (mask_put_same (dir_mask d) m w1 ltac:(by destruct d) Hm) as [? ? ? ? ? ?]. by split. }
    split_and!; [by destruct d|by destruct d|by destruct d|]. intros k e He. cbn. rewrite mask_get_put.
    destruct (decide (k = dir_mask d)) as [->|Hk]; [rewrite Hb by done|split; [by left|by intros [?|(_ & ? & _)]]].
    assert (mask_pos (checked t d s) = mask_pos s) as -> by (by destruct d).
    destruct (decide (e = mask_pos s)) as [->|He']; [split; [by right|done]|]. cbn. split; [by left|by intros [?|(_ & _ & ?)]].
  - eexists. split; [done|]. split; [done|]. split; [done|]. split; [done|]. split_and!; try done. intros k e He. cbn. split; [by left|by intros [?|[? _]]].
Qed.

(** What processing the sessions [L] at time [t] does. *)
Record ticked_by (t : Z) (L : list Z) (w w' : World) : Prop := {
  tb_sess : ∀ a, sessions w' !! a = if decide (a ∈ L) then ticked t <$> sessions w !! a else sessions w !! a;
  tb_same : same_sched w w';
  tb_inc : timer_inc (sched w') = timer_inc (sched w);
  tb_run : thread_running (sched w') = thread_running (sched w);
  tb_signals : ∃ S, signals w' = S ++ signals w ∧ NoDup S ∧
    ∀ a d, (a, d) ∈ S ↔ a ∈ L ∧ ∃ s, sessions w !! a = Some s ∧ due t d s = true;
  tb_bits : ∀ d e, 0 ≤ e < 1024 → (isset e (mask_get (dir_mask d) (sched w')) = true ↔
    isset e (mask_get (dir_mask d) (sched w)) = true ∨ ∃ a s, a ∈ L ∧ sessions w !! a = Some s ∧ mask_pos s = e ∧ due t d s = true)
}.

Lemma dir_mask_inj d d' : dir_mask d = dir_mask d' → d = d'.
Proof. by destruct d, d'. Qed.

Lemma process_ok w a s t : sessions w !! a = Some s → masks_wf (sched w) → 0 ≤ mask_pos s < 1024 →
  ∃ w', rtp_session_process a t w = Ret tt w' ∧ ticked_by t [a] w w' ∧ time_ (sched w') = time_ (sched w).
Proof.
  intros Ha Hw Hp. destruct (process_dir_ok w a s t Send Ha Hw Hp) as (w1 & E1 & Hs1 & Hg1 & Hsm1 & Ht1 & Hi1 & Hr1 & Hb1).
  assert (Ha1 : sessions w1 !! a = Some (checked t Send s)) by (rewrite Hs1; apply lookup_insert_eq).
  destruct (process_dir_ok w1 a (checked t Send s) t Recv Ha1 (ss_masks _ _ Hsm1 Hw) Hp) as (w2 & E2 & Hs2 & Hg2 & Hsm2 & Ht2 & Hi2 & Hr2 & Hb2).
  exists w2. split; [unfold rtp_session_process; by rewrite (bind_ret _ _ _ _ _ E1)|]. split; [|congruence].
  rewrite due_recv in Hg2, Hb2. split; try congruence.
  - intros b. rewrite Hs2, Hs1, insert_insert_eq. destruct (decide (b ∈ [a])) as [->%list_elem_of_singleton|Hb].
    + by rewrite lookup_insert_eq, Ha.
    + rewrite lookup_insert_ne; [done|]. intros ->. by apply Hb, list_elem_of_here.
  - by transitivity w1.
  - exists ((if due t Recv s then [(a, Recv)] else []) ++ (if due t Send s then [(a, Send)] else [])). split; [by rewrite Hg2, Hg1, app_assoc|].
    split; [destruct (due t Recv s), (due t Send s); cbn; repeat constructor; set_solver|].
    intros b d. rewrite elem_of_app, list_elem_of_singleton. split.
    + intros [H|H].
      * destruct (due t Recv s) eqn:E; [|by apply not_elem_of_nil in H]. apply list_elem_of_singleton in H as [= -> ->]. eauto.
      * destruct (due t Send s) eqn:E; [|by apply not_elem_of_nil in H]. apply list_elem_of_singleton in H as [= -> ->]. eauto.
    + intros (-> & s' & Hs' & Hd). rewrite Ha in Hs'. injection Hs' as <-. destruct d; rewrite Hd; [right|left]; apply list_elem_of_here.
  - intros d e He. rewrite Hb2, Hb1 by done. setoid_rewrite list_elem_of_singleton. split.
    + intros [[H|(H & Hk & ->)]|(H & Hk & ->)]; [by left|right; apply dir_mask_inj in Hk as ->; by exists a, s..].
    + intros [H|(b & s' & -> & Hs' & <- & Hd)]; [by left; left|]. rewrite Ha in Hs'. injection Hs' as <-. destruct d; [left; right|right]; done.
Qed.

Lemma ticked_by_cons t a L w w1 w2 : (a ∉ L) → ticked_by t [a] w w1 → ticked_by t L w1 w2 → ticked_by t (a :: L) w w2.
Proof.
  intros Ha [Hs1 Hm1 Hi1 Hr1 (S1 & E1 & Hn1 & HS1) Hb1] [Hs2 Hm2 Hi2 Hr2 (S2 & E2 & Hn2 & HS2) Hb2].
  assert (Hother : ∀ b, b ∈ L → sessions w1 !! b = sessions w !! b).
  { intros b Hb. rewrite Hs1. destruct (decide (b ∈ [a])) as [->%list_elem_of_singleton|_]; done. }
  split; try congruence.
  - intros b. rewrite Hs2. destruct (decide (b ∈ L)) as [Hb|Hb].
    + rewrite Hother by done. destruct (decide _) as [_|Hn]; [done|]. by destruct Hn; apply list_elem_of_further.
    + rewrite Hs1. destruct (decide (b ∈ [a])) as [Hba|Hba], (decide (b ∈ a :: L)) as [Hc|Hc]; try done; exfalso; set_solver.
  - by transitivity w1.
  - exists (S2 ++ S1). split; [by rewrite E2, E1, app_assoc|]. split.
    + apply NoDup_app. split; [done|]. split; [|done]. intros [b d] [Hb _]%HS2 [Hb' _]%HS1. apply list_elem_of_singleton in Hb' as ->. done.
    + intros b d. rewrite elem_of_app, HS1, HS2, list_elem_of_singleton, elem_of_cons. split.
      * intros [(Hb & H)|(-> & H)]; [rewrite Hother in H by done; by split; [right|]|by split; [left|]].
      * intros ([->|Hb] & H); [by right|left]. rewrite Hother by done. done.
  - intros d e He. rewrite Hb2, Hb1 by done. split.
    + intros [[H|(b & s & Hb & H)]|(b & s & Hb & Hs & H)]; [by left|right|right]; exists b, s; rewrite elem_of_cons.
      * apply list_elem_of_singleton in Hb. by split; [left|].
      * rewrite Hother in Hs by done. by split; [right|].
    + intros [H|(b & s & Hb & Hs & H)]; [by left; left|]. apply elem_of_cons in Hb as [->|Hb].
      * left; right. exists a, s. by rewrite list_elem_of_singleton.
      * right. exists b, s. by rewrite Hother.
Qed.

Lemma process_list_ok L fuel h w : linked (cores w) h L → NoDup L → masks_wf (sched w) →
  Forall (fun d => 0 ≤ d < 1024) (pos_of (cores w) <$> L) → (length L < fuel)%nat →
  ∃ w', process_list fuel h w = Ret tt w' ∧ ticked_by (time_ (sched w)) L w w' ∧ time_ (sched w') = time_ (sched w).
Proof.
  revert fuel h w. induction L as [|a L IH]; intros [|fuel] h w Hl Hnd Hw Hr Hf; cbn in Hf; try lia; cbn [process_list].
  - cbn in Hl. subst h. exists w. split; [done|]. split; [|done]. split; try done.
    + exists []. split; [done|]. split; [constructor|]. intros a d. split; [by intros ?%not_elem_of_nil|by intros [?%not_elem_of_nil _]].
    + intros d e He. split; [by left|]. intros [H|(a & s & Ha & _)]; [done|by apply not_elem_of_nil in Ha].
  - destruct Hl as (-> & n & f & p & Ea & Hl). apply NoDup_cons in Hnd as [Ha Hnd]. rewrite fmap_cons, Forall_cons in Hr. destruct Hr as [Hpa Hr].
    pose proof (lookup_cores_inv _ _ _ _ _ Ea) as (s & Es & <- & <- & <-). unfold pos_of in Hpa. rewrite Ea in Hpa.
    destruct (process_ok w a s (time_ (sched w)) Es Hw Hpa) as (w1 & E1 & Htb & Ht1). pose proof (ss_cores _ _ (tb_same _ _ _ _ Htb)) as Hc.
    destruct (IH fuel (next s) w1) as (w2 & E2 & Htb2 & Ht2); [by rewrite Hc|done|by apply (ss_masks _ _ (tb_same _ _ _ _ Htb))|by rewrite Hc|lia|].
    exists w2. rewrite (bind_ret _ _ _ (time_ (sched w)) w), (bind_ret _ _ _ _ _ E1) by done.
    assert (sessions w1 !! a = Some (ticked (time_ (sched w)) s)) as Es1.
    { rewrite (tb_sess _ _ _ _ Htb), Es. destruct (decide _) as [_|Hn]; [done|]. by destruct Hn; apply list_elem_of_here. }
    rewrite (bind_ret _ _ _ _ _ (sess_of_ret a w1 _ Es1)). split; [done|]. rewrite Ht1 in Htb2. split; [|congruence]. by eapply ticked_by_cons.
Qed.

Lemma positions_range L w : sched_ok L w → Forall (fun d => 0 ≤ d < 1024) (pos_of (cores w) <$> L).
Proof. intros [_ _ _ _ _ H Hm _ _]. eapply Forall_impl; [exact H|]. cbn. lia. Qed.

Lemma tick_ok L w : sched_ok L w →
  ∃ w', schedule_turn w = Ret tt w' ∧ sched_ok L w' ∧ ticked_by (time_ (sched w)) L w w' ∧
    time_ (sched w') = u32 (time_ (sched w) + timer_inc (sched w)).
Proof.
  intros Hok. destruct (process_list_ok L (S (size (sessions w))) (list_ (sched w)) w) as (w1 & E1 & Htb & Ht1); try apply Hok.
  { by apply positions_range. } { pose proof (sched_length L w Hok). lia. }
  set (w2 := w1 <| sched ::= fun s => s <| time_ ::= fun t => u32 (t + timer_inc s) |> |>).
  assert (Hsame : same_sched w1 w2) by (split; try done; intros Hw k; specialize (Hw k); by destruct k).
  exists w2. split; [|split; [|split]].
  - unfold schedule_turn. rewrite (bind_ret _ _ _ (list_ (sched w)) w), (bind_ret _ _ _ (size (sessions w)) w), (bind_ret _ _ _ _ _ E1) by done. done.
  - apply (same_sched_ok L w1); [done|]. by apply (same_sched_ok L w); [apply (tb_same _ _ _ _ Htb)|].
  - destruct Htb as [Hs Hm Hi Hr HS Hb]. split; try done. by transitivity w1.
  - cbn. by rewrite Ht1, (tb_inc _ _ _ _ Htb).
Qed.

(** * Selecting

    The positions that two sets share among the first [n]. *)

Definition hits (m u : SessionSet) (a n : Z) : list Z := filter (fun e => isset e m && isset e u = true) (seqZ a n).

Lemma zlen_filter_shift (P Q : Z → Prop) `{∀ x, Decision (P x)} `{∀ x, Decision (Q x)} c n :
  (∀ j, 0 ≤ j < n → P j ↔ Q (c + j)) → zlen (filter P (seqZ 0 n)) = zlen (filter Q (seqZ c n)).
Proof.
  intros HPQ. replace (seqZ c n) with (Z.add c <$> seqZ 0 n) by (rewrite fmap_add_seqZ; by replace (c + 0) with c by lia).
  assert (∀ j, j ∈ seqZ 0 n → P j ↔ Q (c + j)) as HPQ' by (intros j ?%elem_of_seqZ; apply HPQ; lia). clear HPQ.
  induction (seqZ 0 n) as [|x l IH]; [done|]. rewrite fmap_cons, !filter_cons.
  pose proof (HPQ' x (list_elem_of_here _ _)) as Hx. specialize (IH (fun j Hj => HPQ' j (list_elem_of_further _ _ _ Hj))).
  destruct (decide (P x)), (decide (Q (c + x))); rewrite ?zlen_cons; tauto || lia.
Qed.

Lemma isset_at s k j w : aget s k = Some w → 0 ≤ j < 32 → 0 ≤ k → isset (32 * k + j) s = Z.testbit w j.
Proof.
  intros E Hj Hk. rewrite (isset_word _ _ w); [by replace ((32 * k + j) mod 32) with j by mlia|].
  by replace ((32 * k + j) / 32) with k by mlia.
Qed.

Lemma shiftr_bit w j : 0 ≤ j → (Z.land (Z.shiftr w j) 1 = 1 ↔ Z.testbit w j = true).
Proof.
  intros Hj. rewrite Z.land_ones with (n := 1) by lia. change (2 ^ 1) with 2. rewrite <- Z.bit0_mod, Z.shiftr_spec, Z.add_0_l by lia.
  by destruct (Z.testbit w j).
Qed.

Lemma count_hits m u k w1 w2 : aget m k = Some w1 → aget u k = Some w2 → 0 ≤ k →
  count_bits (Z.land w1 w2) = zlen (hits m u (32 * k) 32).
Proof.
  intros E1 E2 Hk. unfold count_bits, hits. apply zlen_filter_shift. intros j Hj.
  by rewrite shiftr_bit, Z.land_spec, (isset_at m k j w1), (isset_at u k j w2) by (done || lia).
Qed.

Lemma hits_app m u a n1 n2 : 0 ≤ n1 → 0 ≤ n2 → hits m u a (n1 + n2) = hits m u a n1 ++ hits m u (a + n1) n2.
Proof. intros H1 H2. unfold hits. by rewrite seqZ_app, filter_app. Qed.

Lemma hits_le m u a n : 0 ≤ n → zlen (hits m u a n) ≤ n.
Proof. intros Hn. unfold hits, zlen. pose proof (length_filter (fun e => isset e m && isset e u = true) (seqZ a n)). rewrite length_seqZ in H. lia. Qed.

(** Bits of a set one word of which was replaced. *)
Lemma isset_insert (s : SessionSet) k w e : zlen s = 32 → 0 ≤ k < 32 → 0 ≤ e < 1024 →
  isset e (<[Z.to_nat k := w]> s) = if decide (32 * k ≤ e < 32 * k + 32) then Z.testbit w (e mod 32) else isset e s.
Proof.
  intros Hs Hk He. destruct (decide _) as [Hr|Hr].
  - apply isset_word. replace (e / 32) with k by mlia. apply aget_insert_eq. lia.
  - destruct (word_at s e Hs He) as [w' E]. rewrite (isset_word e s w') by done. apply isset_word. etransitivity; [apply aget_insert_ne; [lia|mlia]|done].
Qed.

Lemma list_filter_iff' {A} (P Q : A → Prop) `{∀ x, Decision (P x)} `{∀ x, Decision (Q x)} (l : list A) :
  (∀ x, x ∈ l → P x ↔ Q x) → filter P l = filter Q l.
Proof.
  induction l as [|x l IH]; intros Hl; [done|]. rewrite !filter_cons, IH by (intros y Hy; apply Hl; by apply list_elem_of_further).
  pose proof (Hl x (list_elem_of_here _ _)). destruct (decide (P x)), (decide (Q x)); tauto.
Qed.

(** The words [k..nw-1] of the loop. *)
Lemma and_loop_ok maxs u : 0 ≤ maxs < 1024 → zlen u = 32 → ∀ fuel k ret m1 m3,
  zlen m1 = 32 → zlen m3 = 32 → 0 ≤ k ≤ maxs / 32 + 1 → 0 ≤ ret ≤ 32 * k → (Z.to_nat (maxs / 32 + 1 - k) < fuel)%nat →
  ∃ m1' m3', and_loop fuel maxs (32 * k) ret u (m1, m3) = Ret (ret + zlen (hits m1 u (32 * k) (32 * (maxs / 32 + 1 - k)))) (m1', m3') ∧
    zlen m1' = 32 ∧ zlen m3' = 32 ∧
    (∀ e, 0 ≤ e < 1024 → isset e m1' = if decide (32 * k ≤ e < 32 * (maxs / 32 + 1)) then isset e m1 && negb (isset e u) else isset e m1) ∧
    (∀ e, 0 ≤ e < 1024 → isset e m3' = if decide (32 * k ≤ e < 32 * (maxs / 32 + 1)) then isset e m1 && isset e u else isset e m3).
Proof.
  intros Hmaxs Hu. induction fuel as [|fuel IH]; intros k ret m1 m3 H1 H3 Hk Hret Hf; [lia|]. cbn [and_loop].
  destruct (Z.ltb_spec (32 * k) (maxs + 1)) as [Hlt|Hge].
  - assert (Hkr : 0 ≤ k < 32) by mlia. assert (Hkn : k < maxs / 32 + 1) by mlia.
    rewrite (bind_ret _ _ _ (m1, m3) (m1, m3)) by done. cbv beta iota.
    replace (32 * k / 32) with k by mlia.
    destruct (proj2 (aget_is_Some m1 k)) as [w1 E1]; [lia|]. destruct (proj2 (aget_is_Some u k)) as [w2 E2]; [lia|].
    rewrite (bind_ret _ _ _ w1 (m1, m3)) by (by apply rd_ret). rewrite (bind_ret _ _ _ w2 (m1, m3)) by (by apply rd_ret). cbv zeta.
    rewrite !aset_Some by lia. set (w3 := Z.land w1 w2). set (m1a := <[Z.to_nat k := Z.ldiff w1 w3]> m1). set (m3a := <[Z.to_nat k := w3]> m3).
    rewrite (bind_ret _ _ _ tt (m1a, m3a)) by done.
    pose proof (count_hits m1 u k w1 w2 E1 E2 ltac:(lia)) as Hc. pose proof (hits_le m1 u (32 * k) 32 ltac:(lia)) as Hle.
    pose proof (zlen_nonneg (hits m1 u (32 * k) 32)). fold w3 in Hc. rewrite Hc, i32_id by (unfold in_i32; lia).
    replace (32 * k + 32) with (32 * (k + 1)) by lia.
    destruct (IH (k + 1) (ret + zlen (hits m1 u (32 * k) 32)) m1a m3a) as (m1' & m3' & E & L1 & L3 & B1 & B3);
      [by unfold m1a; rewrite zlen_insert|by unfold m3a; rewrite zlen_insert|lia|lia|lia|].
    assert (Hw : ∀ e, 32 * k ≤ e < 32 * k + 32 → isset e m1 = Z.testbit w1 (e mod 32) ∧ isset e u = Z.testbit w2 (e mod 32)).
    { intros e He. split; apply isset_word; by replace (e / 32) with k by mlia. }
    assert (Hm1a : ∀ e, 0 ≤ e < 1024 → isset e m1a = if decide (32 * k ≤ e < 32 * k + 32) then isset e m1 && negb (isset e u) else isset e m1).
    { intros e He. unfold m1a. rewrite isset_insert by lia. case_decide as Hr; [|done]. destruct (Hw e Hr) as [-> ->]. unfold w3.
      rewrite Z.ldiff_spec, Z.land_spec. by destruct (Z.testbit w1 _), (Z.testbit w2 _). }
    assert (Hm3a : ∀ e, 0 ≤ e < 1024 → isset e m3a = if decide (32 * k ≤ e < 32 * k + 32) then isset e m1 && isset e u else isset e m3).
    { intros e He. unfold m3a. rewrite isset_insert by lia. case_decide as Hr; [|done]. destruct (Hw e Hr) as [-> ->]. unfold w3. apply Z.land_spec. }
    exists m1', m3'. split; [|split; [done|split; [done|split]]].
    + rewrite E. f_equal. rewrite <- Z.add_assoc. f_equal.
      replace (32 * (maxs / 32 + 1 - k)) with (32 + 32 * (maxs / 32 + 1 - (k + 1))) by lia.
      rewrite hits_app, zlen_app by lia. f_equal. replace (32 * k + 32) with (32 * (k + 1)) by lia. unfold hits. f_equal.
      apply list_filter_iff'. intros e [He1 He2]%elem_of_seqZ. rewrite Hm1a by mlia. rewrite decide_False by lia. done.
    + intros e He. rewrite B1, Hm1a by done. repeat case_decide; try lia; done.
    + intros e He. rewrite B3, Hm1a, Hm3a by done. repeat case_decide; try lia; done.
  - assert (k = maxs / 32 + 1) as -> by mlia. rewrite Z.sub_diag, Z.mul_0_r. exists m1, m3. split; [by rewrite Z.add_0_r|].
    split; [done|]. split; [done|]. split; intros e He; by rewrite decide_False by lia.
Qed.

(** The positions the loop looks at, and those of a set of the caller that have an
    event. *)
Definition nbits (w : World) : Z := 32 * (all_max (sched w) / 32 + 1).
Definition events (k : mask) (user : option SessionSet) (w : World) : list Z :=
  match user with None => [] | Some u => hits (mask_get k (sched w)) u 0 (nbits w) end.
Definition user_ok (user : option SessionSet) : Prop := match user with None => True | Some u => zlen u = 32 end.

(** What is left of a set with events: these, and from [nbits] on the bits of [temp]. *)
Definition set_left (H : list Z) (n : Z) (temp u : SessionSet) : Prop :=
  zlen u = 32 ∧ ∀ e, 0 ≤ e < 1024 → isset e u = if decide (e < n) then bool_decide (e ∈ H) else isset e temp.

Record selected (k : mask) (user user' : option SessionSet) (temp temp' : SessionSet) (w w' : World) : Prop := {
  se_temp : zlen temp' = 32;
  se_temp_bits : ∀ e, nbits w ≤ e < 1024 → isset e temp' = isset e temp;
  se_none : events k user w = [] → user' = user;
  se_some : events k user w ≠ [] → ∃ u, user' = Some u ∧ set_left (events k user w) (nbits w) temp u;
  se_same : same_sched w w';
  se_quiet : quiet w w';
  se_bits : ∀ k' e, 0 ≤ e < 1024 → isset e (mask_get k' (sched w')) = isset e (mask_get k' (sched w)) && negb (bool_decide (k' = k ∧ e ∈ events k user w))
}.

Lemma elem_of_hits m u n e : 0 ≤ n → 0 ≤ e → (e ∈ hits m u 0 n ↔ e < n ∧ isset e m && isset e u = true).
Proof. intros Hn He. unfold hits. rewrite list_elem_of_filter, elem_of_seqZ. split; [intros [? ?]; split; [lia|done]|intros [? ?]; split; [done|lia]]. Qed.

Lemma select_one_ok k user temp w : k ≠ AllM → masks_wf (sched w) → 0 ≤ all_max (sched w) < 1024 → user_ok user → zlen temp = 32 →
  ∃ user' temp' w', select_one k user temp w = Ret (zlen (events k user w), user', temp') w' ∧ selected k user user' temp temp' w w'.
Proof.
  intros Hk Hw Hmax Hu Ht. assert (Hn : 0 ≤ nbits w ≤ 1024) by (unfold nbits; mlia). destruct user as [u|].
  2: { exists None, temp, w. split; [done|]. split; try done. intros k' e He. rewrite bool_decide_false; [by rewrite andb_true_r|].
    intros [_ Hx]. by apply not_elem_of_nil in Hx. }
  cbn in Hu. destruct (and_loop_ok (all_max (sched w)) u Hmax Hu 33 0 0 (mask_get k (sched w)) temp) as (m1 & m3 & E & L1 & L3 & B1 & B3);
    [by apply Hw|done|mlia|lia|mlia|]. rewrite Z.sub_0_r, Z.mul_0_r, Z.add_0_l in *. fold (nbits w) in *.
  change (hits _ u 0 (nbits w)) with (events k (Some u) w) in E. set (H := events k (Some u) w) in *.
  set (w' := w <| sched ::= mask_put k m1 |>). exists (if 0 <? zlen H then Some m3 else Some u), m3, w'. split.
  { unfold select_one. rewrite (bind_ret _ _ _ (sched w) w) by done.
    rewrite (bind_ret _ _ _ (zlen H, m3) w'); [|unfold zoom, session_set_and; rewrite (bind_ret _ _ _ _ _ E); done].
    cbv beta iota. pose proof (zlen_nonneg H). destruct (Z.ltb_spec 0 (zlen H)); [done|]. by replace (zlen H) with 0 by lia. }
  assert (HH : ∀ e, 0 ≤ e → e ∈ H ↔ e < nbits w ∧ isset e (mask_get k (sched w)) && isset e u = true) by (intros e He; apply elem_of_hits; lia).
  split.
  - done.
  - intros e He. rewrite B3 by lia. by rewrite decide_False by lia.
  - fold H. by intros ->.
  - fold H. intros Hne. exists m3. split. { destruct H; [done|]. by rewrite zlen_cons, (proj2 (Z.ltb_lt _ _)) by (pose proof (zlen_nonneg H); lia). }
    split; [done|]. intros e He. rewrite B3 by done. destruct (decide (e < nbits w)); [rewrite decide_True by lia|by rewrite decide_False by lia].
    apply eq_bool_prop_intro. rewrite bool_decide_spec, HH, Is_true_true by lia. tauto.
  - by apply mask_put_same.
  - apply mask_put_quiet.
  - intros k' e He. cbn. rewrite mask_get_put. fold H. destruct (decide (k' = k)) as [->|Hk'].
    + rewrite B1 by done. destruct (decide (e ∈ H)) as [Hin|Hin].
      * rewrite bool_decide_true by done. apply HH in Hin as [Hlt Hb]; [|lia]. rewrite decide_True by lia. by destruct (isset e (mask_get _ _)), (isset e u).
      * rewrite bool_decide_false by (intros [_ ?]; done). rewrite andb_true_r. case_decide as Hr; [|done].
        destruct (isset e (mask_get k (sched w))) eqn:Em, (isset e u) eqn:Eu; try done. exfalso. apply Hin, HH; [lia|]. rewrite Em, Eu. split; [lia|done].
    + rewrite bool_decide_false by (intros [? _]; done). by rewrite andb_true_r.
Qed.

Lemma events_other k user user' temp temp' w w' k' u : selected k user user' temp temp' w w' → k' ≠ k → 0 ≤ all_max (sched w) < 1024 →
  events k' u w' = events k' u w.
Proof.
  intros [_ _ _ _ Hs _ Hb] Hk Hmax. destruct u as [u|]; [|done]. cbn. unfold nbits. rewrite (ss_max _ _ Hs). unfold hits.
  apply list_filter_iff'. intros e He%elem_of_seqZ. rewrite Hb by mlia. rewrite bool_decide_false by (intros [? _]; done). by rewrite andb_true_r.
Qed.

(** A set as the call leaves it. *)
Definition left_as (H : list Z) (n : Z) (temp : SessionSet) (user user' : option SessionSet) : Prop :=
  if decide (H = []) then user' = user else ∃ u, user' = Some u ∧ set_left H n temp u.

Lemma selected_left k user user' temp0 temp temp' w w' n : selected k user user' temp temp' w w' → n = nbits w →
  (∀ e, n ≤ e < 1024 → isset e temp = isset e temp0) → left_as (events k user w) n temp0 user user'.
Proof.
  intros [_ _ Hn Hs _ _ _] -> Ht. unfold left_as. destruct (decide _) as [H|H]; [by apply Hn|].
  destruct (Hs H) as (u & -> & Hl & Hu). exists u. split; [done|]. split; [done|]. intros e He. rewrite Hu by done.
  destruct (decide (e < nbits w)); [done|]. apply Ht. lia.
Qed.

(** The events of a world, for the three sets. *)
Definition all_events (recvs sends errors : option SessionSet) (w : World) : mask → list Z := fun k =>
  match k with AllM => [] | RecvM => events RecvM recvs w | SendM => events SendM sends w | ErrM => events ErrM errors w end.
Definition event_count (recvs sends errors : option SessionSet) (w : World) : Z :=
  zlen (events RecvM recvs w) + zlen (events SendM sends w) + zlen (events ErrM errors w).

Lemma events_le k u w : 0 ≤ all_max (sched w) < 1024 → zlen (events k u w) ≤ 1024.
Proof.
  intros Hm. destruct u as [u|]; cbn; [|done]. assert (0 ≤ nbits w ≤ 1024) by (unfold nbits; mlia).
  pose proof (hits_le (mask_get k (sched w)) u 0 (nbits w)). lia.
Qed.

Lemma select_turn_ok L w recvs sends errors temp : sched_ok L w → user_ok recvs → user_ok sends → user_ok errors → zlen temp = 32 →
  ∃ r s e temp' w', let n := event_count recvs sends errors w in
    select_turn recvs sends errors temp w = Ret (if 0 <? n then Some n else None, (r, s, e), temp') w' ∧
    zlen temp' = 32 ∧ sched_ok L w' ∧ quiet w w' ∧
    left_as (events RecvM recvs w) (nbits w) temp recvs r ∧ left_as (events SendM sends w) (nbits w) temp sends s ∧
    left_as (events ErrM errors w) (nbits w) temp errors e ∧
    ∀ k p, 0 ≤ p < 1024 → isset p (mask_get k (sched w')) = isset p (mask_get k (sched w)) && negb (bool_decide (p ∈ all_events recvs sends errors w k)).
Proof.
  intros Hok Hr Hs He Ht. pose proof Hok as [_ _ _ _ _ _ Hmax Hw _].
  destruct (select_one_ok RecvM recvs temp w) as (r & t1 & w1 & E1 & H1); [done..|].
  pose proof (se_same _ _ _ _ _ _ _ H1) as Hs1. pose proof (ss_max _ _ Hs1) as Hm1.
  destruct (select_one_ok SendM sends t1 w1) as (s & t2 & w2 & E2 & H2); [done|by apply (ss_masks _ _ Hs1)|by rewrite Hm1|done|apply H1|].
  pose proof (se_same _ _ _ _ _ _ _ H2) as Hs2. pose proof (ss_max _ _ Hs2) as Hm2.
  destruct (select_one_ok ErrM errors t2 w2) as (e & t3 & w3 & E3 & H3); [done|by apply (ss_masks _ _ Hs2), (ss_masks _ _ Hs1)|by rewrite Hm2, Hm1|done|apply H2|].
  assert (Hn1 : nbits w1 = nbits w) by (unfold nbits; by rewrite Hm1). assert (Hn2 : nbits w2 = nbits w) by (unfold nbits; by rewrite Hm2, Hm1).
  assert (Hb1 : ∀ x, nbits w ≤ x < 1024 → isset x t1 = isset x temp) by apply H1.
  assert (Hb2 : ∀ x, nbits w ≤ x < 1024 → isset x t2 = isset x temp).
  { intros x Hx. rewrite <- Hb1 by done. apply H2. by rewrite Hn1. }
  assert (Ev2 : events SendM sends w1 = events SendM sends w) by (by eapply events_other).
  assert (Ev3 : events ErrM errors w2 = events ErrM errors w).
  { etransitivity; [eapply events_other; [exact H2|done|by rewrite Hm1]|]. by eapply events_other. }
  exists r, s, e, t3, w3. cbv zeta. split; [|split; [apply H3|split; [|split; [|split; [|split; [|split]]]]]].
  - unfold select_turn. rewrite (bind_ret _ _ _ _ _ E1). cbv beta iota. rewrite (bind_ret _ _ _ _ _ E2). cbv beta iota. rewrite (bind_ret _ _ _ _ _ E3). cbv beta iota zeta.
    rewrite Ev2, Ev3. fold (event_count recvs sends errors w). rewrite i32_id; [done|].
    pose proof (events_le RecvM recvs w Hmax). pose proof (events_le SendM sends w Hmax). pose proof (events_le ErrM errors w Hmax).
    unfold event_count, in_i32. pose proof (zlen_nonneg (events RecvM recvs w)). pose proof (zlen_nonneg (events SendM sends w)). pose proof (zlen_nonneg (events ErrM errors w)). lia.
  - apply (same_sched_ok L w); [|done]. transitivity w1; [done|]. transitivity w2; [done|]. apply H3.
  - transitivity w1; [apply H1|]. transitivity w2; [apply H2|apply H3].
  - by eapply selected_left.
  - rewrite <- Ev2. by eapply selected_left.
  - rewrite <- Ev3. by eapply selected_left.
  - intros k p Hp. rewrite (se_bits _ _ _ _ _ _ _ H3), (se_bits _ _ _ _ _ _ _ H2), (se_bits _ _ _ _ _ _ _ H1) by done. rewrite Ev2, Ev3, <- !andb_assoc. f_equal.
    rewrite <- !negb_orb, <- !bool_decide_or. f_equal. apply bool_decide_ext.
    pose proof (not_elem_of_nil p). destruct k; cbn; split; intros H0; decompose [and or] H0; try done; tauto.
Qed.

(** * Waiting *)

Lemma wait_until_ok L w a s d t : sched_ok L w → a ∈ L → sessions w !! a = Some s →
  let early := RTP_TIMESTAMP_IS_STRICTLY_NEWER_THAN t (time_ (sched w)) in
  ∃ w', wait_until a d t w = Ret (early && has_flag s RTP_SESSION_BLOCKING_MODE) w' ∧ sched_ok L w' ∧
    sessions w' = (if early then <[a := wp_put d (wait_point_wakeup_at t (wp_get d s)) s]> (sessions w) else sessions w) ∧
    signals w' = signals w ∧ time_ (sched w') = time_ (sched w) ∧ timer_inc (sched w') = timer_inc (sched w) ∧
    isset (mask_pos s) (mask_get (dir_mask d) (sched w')) =
      if early then (if has_flag s RTP_SESSION_BLOCKING_MODE then isset (mask_pos s) (mask_get (dir_mask d) (sched w)) else false) else true.
Proof.
  intros Hok Ha Hs early. destruct (sched_session L w a Hok Ha) as (s0 & Es & _ & Hp & _). rewrite Hs in Es. injection Es as <-.
  pose proof (so_max _ _ Hok) as Hmax. pose proof (so_masks _ _ Hok) as Hw.
  unfold wait_until. rewrite (bind_ret _ _ _ (sched w) w) by done. fold early. destruct early; cbn [andb].
  - set (s1 := wp_put d (wait_point_wakeup_at t (wp_get d s)) s). set (w1 := w <| sessions ::= <[a := s1]> |>).
    assert (Hc : core_of s1 = core_of s ∧ has_flag s1 RTP_SESSION_BLOCKING_MODE = has_flag s RTP_SESSION_BLOCKING_MODE) by (by destruct d). destruct Hc as [Hc Hfl].
    assert (Hs1 : sessions w1 !! a = Some s1) by (cbn; apply lookup_insert_eq).
    assert (Hok1 : sched_ok L w1) by (apply (same_sched_ok L w); [|done]; by apply (on_sess_same a (fun _ => s1) w s)).
    rewrite (bind_ret _ _ _ tt w1) by (by apply (on_sess_ret a (fun s => wp_put d (wait_point_wakeup_at t (wp_get d s)) s))).
    rewrite (bind_ret _ _ _ _ _ (sess_of_ret a w1 s1 Hs1)). rewrite Hfl. destruct (has_flag s RTP_SESSION_BLOCKING_MODE); [by exists w1|].
    assert (Hp1 : mask_pos s1 = mask_pos s) by (by destruct d).
    destruct (session_set_clr_ret (dir_mask d) a w1 s1 Hs1 Hw) as (m & E & Hm & Hb); [rewrite Hp1; lia|].
    rewrite (bind_ret _ _ _ _ _ E). eexists. split; [done|]. rewrite Hp1 in Hb.
    specialize (Hm (dir_mask d)). rewrite mask_get_put, decide_True in Hm by done.
    split; [apply (same_sched_ok L w1); [apply mask_put_same; [by destruct d|done]|done]|].
    split; [done|]. split; [done|]. split; [by destruct d|]. split; [by destruct d|]. cbn. rewrite mask_get_put, decide_True, Hb by (done || lia). by rewrite decide_True.
  - destruct (session_set_set_ret (dir_mask d) a w s Hs Hw) as (m & E & Hm & Hb); [lia|]. rewrite (bind_ret _ _ _ _ _ E). eexists. split; [done|].
    specialize (Hm (dir_mask d)). rewrite mask_get_put, decide_True in Hm by done.
    split; [apply (same_sched_ok L w); [apply mask_put_same; [by destruct d|done]|done]|].
    split; [done|]. split; [done|]. split; [by destruct d|]. split; [by destruct d|]. cbn. rewrite mask_get_put, decide_True, Hb by (done || lia). by rewrite decide_True.
Qed.

Lemma wait_done_ok L w a d : sched_ok L w → a ∈ L → ∃ w', wait_done a d w = Ret tt w' ∧ sched_ok L w' ∧ quiet w w'.
Proof.
  intros Hok Ha. destruct (sched_session L w a Hok Ha) as (s & Hs & _ & Hp & _). pose proof (so_max _ _ Hok) as Hmax.
  destruct (session_set_clr_ret (dir_mask d) a w s Hs (so_masks _ _ Hok)) as (m & E & Hm & Hb); [lia|]. eexists. split; [exact E|].
  specialize (Hm (dir_mask d)). rewrite mask_get_put, decide_True in Hm by done.
  split; [apply (same_sched_ok L w); [apply mask_put_same; [by destruct d|done]|done]|apply mask_put_quiet].
Qed.

(** * The calls on the scheduler, in any order *)

Inductive sched_op :=
  | OpAdd (a : Z)
  | OpRemove (a : Z)
  | OpTick
  | OpWait (a : Z) (d : dir) (t : Z)
  | OpWaitDone (a : Z) (d : dir)
  | OpSelect (recvs sends errors : option SessionSet) (temp : SessionSet).

Definition run_op (op : sched_op) : CM World unit :=
  match op with
  | OpAdd a => rtp_scheduler_add_session a
  | OpRemove a => rtp_scheduler_remove_session (Some a)
  | OpTick => schedule_turn
  | OpWait a d t => _ ← wait_until a d t; mret tt
  | OpWaitDone a d => wait_done a d
  | OpSelect r s e temp => _ ← select_turn r s e temp; mret tt
  end.
Fixpoint run_ops (ops : list sched_op) : CM World unit :=
  match ops with [] => mret tt | op :: ops => _ ← run_op op; run_ops ops end.

(** The sessions that are scheduled afterwards. *)
Definition op_list (op : sched_op) (L : list Z) : list Z :=
  match op with
  | OpAdd a => if decide (a ∈ L) then L else a :: L
  | OpRemove a => filter (fun b => b ≠ a) L
  | _ => L
  end.
Fixpoint ops_list (ops : list sched_op) (L : list Z) : list Z :=
  match ops with [] => L | op :: ops => ops_list ops (op_list op L) end.

(** The arguments the callers give: live sessions [D], at most 1024 scheduled ones,
    only scheduled ones wait, initialised sets. *)
Definition op_ok (D : gset Z) (L : list Z) (op : sched_op) : Prop :=
  match op with
  | OpAdd a => a ∈ D ∧ (a ∈ L ∨ zlen L < 1024)
  | OpRemove a => a ∈ D
  | OpTick => True
  | OpWait a _ _ | OpWaitDone a _ => a ∈ L
  | OpSelect r s e temp => user_ok r ∧ user_ok s ∧ user_ok e ∧ zlen temp = 32
  end.
Fixpoint ops_ok (D : gset Z) (L : list Z) (ops : list sched_op) : Prop :=
  match ops with [] => True | op :: ops => op_ok D L op ∧ ops_ok D (op_list op L) ops end.

Lemma filter_ne_id (a : Z) (l : list Z) : (a ∉ l) → filter (fun b => b ≠ a) l = l.
Proof.
  intros Ha. transitivity (filter (fun _ : Z => True) l).
  - apply list_filter_iff'. intros b Hb. split; [done|]. by intros _ ->.
  - induction l as [|b l IH]; [done|]. rewrite filter_cons, decide_True by done. f_equal. apply IH. intros Hx. by apply Ha, list_elem_of_further.
Qed.

Definition wp_of (w : World) (a : Z) (d : dir) : option WaitPoint := wp_get d <$> sessions w !! a.

Lemma quiet_wp w w' : quiet w w' → (∀ a d, wp_of w' a d = wp_of w a d) ∧ dom (sessions w') = dom (sessions w).
Proof.
  intros [H _ _ _ _]. split.
  - intros a d. assert (wps_of <$> sessions w' !! a = wps_of <$> sessions w !! a) as Ha by by rewrite <- !lookup_fmap, H.
    unfold wp_of. destruct (sessions w' !! a), (sessions w !! a); try done. injection Ha as H1 H2. destruct d; cbn; congruence.
  - by rewrite <- (dom_fmap_L wps_of), H, dom_fmap_L.
Qed.

(** A call on a consistent scheduler: it returns, keeps it consistent, and only a
    tick wakes and only a wait sets a wait point. *)
Lemma op_step L w op : sched_ok L w → op_ok (dom (sessions w)) L op →
  ∃ w', run_op op w = Ret tt w' ∧ sched_ok (op_list op L) w' ∧ dom (sessions w') = dom (sessions w) ∧
    timer_inc (sched w') = timer_inc (sched w) ∧
    match op with
    | OpTick => ticked_by (time_ (sched w)) L w w' ∧ time_ (sched w') = u32 (time_ (sched w) + timer_inc (sched w))
    | _ => time_ (sched w') = time_ (sched w) ∧ signals w' = signals w ∧
        ∀ a d, (∀ t, op ≠ OpWait a d t) → wp_of w' a d = wp_of w a d
    end.
Proof.
  intros Hok Hop.
  assert (Hq : ∀ w' L', run_op op w = Ret tt w' → sched_ok L' w' → quiet w w' → op ≠ OpTick → L' = op_list op L →
    ∃ w', run_op op w = Ret tt w' ∧ sched_ok (op_list op L) w' ∧ dom (sessions w') = dom (sessions w) ∧
    timer_inc (sched w') = timer_inc (sched w) ∧
    match op with
    | OpTick => ticked_by (time_ (sched w)) L w w' ∧ time_ (sched w') = u32 (time_ (sched w) + timer_inc (sched w))
    | _ => time_ (sched w') = time_ (sched w) ∧ signals w' = signals w ∧
        ∀ a d, (∀ t, op ≠ OpWait a d t) → wp_of w' a d = wp_of w a d
    end).
  { intros w' L' E Hok' Hqw Hnt ->. destruct (quiet_wp w w' Hqw) as [Hwp Hd]. exists w'. split; [done|]. split; [done|]. split; [done|].
    split; [apply Hqw|]. destruct op; [| |done|..]; (split; [apply Hqw|split; [apply Hqw|auto]]). }
  destruct op as [a|a| |a d t|a d|r s e temp].
  - destruct Hop as [[s Hs]%elem_of_dom Hn]. cbn [op_list] in *. destruct (decide (a ∈ L)) as [Ha|Ha].
    + apply (Hq w L); [|done|done|done|done]. cbn. unfold rtp_scheduler_add_session. rewrite (bind_ret _ _ _ _ _ (sess_of_ret a w s Hs)).
      assert (in_sched s = true) as Hfl by (by apply (so_flag _ _ Hok a _ (lookup_cores w a s Hs))). unfold in_sched in Hfl. by rewrite Hfl.
    + destruct (sched_add_ok L w a s Hok Hs Ha) as (w' & E & Hok' & Hqw & _); [by destruct Hn|]. by apply (Hq w' (a :: L)).
  - apply elem_of_dom in Hop as [s Hs]. cbn [op_list] in *. destruct (decide (a ∈ L)) as [Ha|Ha].
    + apply list_elem_of_split in Ha as (L1 & L2 & ->). destruct (sched_remove_ok L1 a L2 w Hok) as (w' & E & Hok' & Hqw).
      apply (Hq w' (L1 ++ L2)); [done|done|done|done|]. pose proof (so_nodup _ _ Hok) as Hnd. apply NoDup_app in Hnd as (_ & Hn1 & Hn2).
      apply NoDup_cons in Hn2 as [Hn2 _]. rewrite filter_app, filter_cons. rewrite decide_False by (intros H; done).
      rewrite !filter_ne_id; [done|done|]. intros Hx. by apply (Hn1 a Hx), list_elem_of_here.
    + apply (Hq w L); [|done|done|done|].
      * cbn. rewrite (bind_ret _ _ _ _ _ (sess_of_ret a w s Hs)). assert (in_sched s = false) as Hfl; [|unfold in_sched in Hfl; by rewrite Hfl].
        destruct (in_sched s) eqn:E; [|done]. exfalso. apply Ha. by apply (so_flag _ _ Hok a _ (lookup_cores w a s Hs)).
      * symmetry. by apply filter_ne_id.
  - destruct (tick_ok L w Hok) as (w' & E & Hok' & Htb & Ht). exists w'. split; [done|]. split; [done|]. split.
    { apply set_eq. intros a. rewrite !elem_of_dom, (tb_sess _ _ _ _ Htb). case_decide; [by rewrite fmap_is_Some|done]. }
    split; [apply Htb|done].
  - destruct (sched_session L w a Hok Hop) as (s & Hs & _).
    destruct (wait_until_ok L w a s d t Hok Hop Hs) as (w' & E & Hok' & Hs' & Hg & Ht & Hi & _). exists w'.
    split; [cbn; by rewrite (bind_ret _ _ _ _ _ E)|]. split; [done|]. split.
    { rewrite Hs'. destruct (RTP_TIMESTAMP_IS_STRICTLY_NEWER_THAN _ _); [|done]. apply dom_insert_lookup_L. by exists s. }
    split; [done|]. split; [done|]. split; [done|]. intros b d' Hb. unfold wp_of. rewrite Hs'. destruct (RTP_TIMESTAMP_IS_STRICTLY_NEWER_THAN _ _); [|done].
    destruct (decide (b = a)) as [->|Hba]; [|by rewrite lookup_insert_ne]. rewrite lookup_insert_eq, Hs. cbn.
    destruct d, d'; try done; by destruct (Hb t).
  - destruct (wait_done_ok L w a d Hok Hop) as (w' & E & Hok' & Hqw). by apply (Hq w' L).
  - destruct Hop as (Hr & Hs & He & Ht). destruct (select_turn_ok L w r s e temp Hok Hr Hs He Ht) as (r' & s' & e' & t' & w' & E & _ & Hok' & Hqw & _).
    apply (Hq w' L); [cbn; by rewrite (bind_ret _ _ _ _ _ E)|done..].
Qed.

Lemma run_ops_ok ops L w : sched_ok L w → ops_ok (dom (sessions w)) L ops →
  ∃ w', run_ops ops w = Ret tt w' ∧ sched_ok (ops_list ops L) w' ∧ dom (sessions w') = dom (sessions w).
Proof.
  revert L w. induction ops as [|op ops IH]; intros L w Hok Hops; [by exists w|]. destruct Hops as [Hop Hops].
  destruct (op_step L w op Hok Hop) as (w1 & E1 & Hok1 & Hd1 & _). destruct (IH (op_list op L) w1) as (w2 & E2 & Hok2 & Hd2); [done|by rewrite Hd1|].
  exists w2. cbn [run_ops]. rewrite (bind_ret _ _ _ _ _ E1). split; [done|]. split; [done|congruence].
Qed.

(** C31: from a consistent scheduler every sequence of additions, removals, ticks,
    waits and selects with the arguments callers give returns without a fault, and
    the sessions in the list, in the flags and in the mask of all sessions are
    always the ones added and not removed, each with a position of its own. *)
Theorem sched_ops_ok ops L w : sched_ok L w → ops_ok (dom (sessions w)) L ops →
  ∃ w', run_ops ops w = Ret tt w' ∧ sched_ok (ops_list ops L) w' ∧ dom (sessions w') = dom (sessions w).
Proof. apply run_ops_ok. Qed.

(** A fresh scheduler. *)
Definition fresh_world (S : gmap Z RtpSession) : World :=
  mkWorld (rtp_scheduler_start rtp_scheduler_new) S [] true true.

Lemma fresh_ok S : map_Forall (fun _ s => in_sched s = false) S → sched_ok [] (fresh_world S).
Proof.
  intros HS. split; try done; try constructor.
  - intros Hx. exfalso. unfold cores in H. rewrite lookup_fmap in H. destruct (sessions _ !! a) as [s|] eqn:E; [|done]. injection H as <-.
    pose proof (HS a s E) as Hs. cbn in Hx, Hs. congruence.
  - by intros ?%not_elem_of_nil.
  - intros d Hd. etransitivity; [apply isset_zero|]. symmetry. by apply bool_decide_false, not_elem_of_nil.
  - by intros [].
Qed.

(** ** Waking on time *)

Fixpoint ticks (ops : list sched_op) : Z :=
  match ops with [] => 0 | op :: ops => (match op with OpTick => 1 | _ => 0 end) + ticks ops end.
Lemma ticks_nonneg ops : 0 ≤ ticks ops.
Proof. induction ops as [|[]]; cbn; lia. Qed.

(** The session stays scheduled and waits for nothing new in this direction. *)
Definition leaves_alone (a : Z) (d : dir) (op : sched_op) : Prop :=
  match op with OpRemove b => b ≠ a | OpWait b d' _ => (b, d') ≠ (a, d) | _ => True end.
Definition wakes (a : Z) (d : dir) (S : list (Z * dir)) : Z := zlen (filter (fun x => x = (a, d)) S).

Lemma wakes_app a d S1 S2 : wakes a d (S1 ++ S2) = wakes a d S1 + wakes a d S2.
Proof. unfold wakes. by rewrite filter_app, zlen_app. Qed.
Lemma wakes_0 a d S : ((a, d) ∉ S) → wakes a d S = 0.
Proof.
  intros H. unfold wakes. destruct (filter _ S) as [|x l] eqn:E; [done|]. exfalso.
  assert (x ∈ filter (fun x => x = (a, d)) S) as Hx by (rewrite E; apply list_elem_of_here).
  apply list_elem_of_filter in Hx as [-> Hx]. done.
Qed.
Lemma wakes_1 a d S : NoDup S → (a, d) ∈ S → wakes a d S = 1.
Proof.
  intros Hnd Hin. apply list_elem_of_split in Hin as (l1 & l2 & ->). apply NoDup_app in Hnd as (_ & H1 & H2). apply NoDup_cons in H2 as [H2 _].
  rewrite wakes_app, wakes_0 by (intros Hx; by apply (H1 _ Hx), list_elem_of_here). unfold wakes. rewrite filter_cons, decide_True, zlen_cons by done.
  pose proof (wakes_0 a d l2 H2) as H0. unfold wakes in H0. lia.
Qed.

Lemma list_still L op a d : a ∈ L → leaves_alone a d op → a ∈ op_list op L.
Proof.
  intros Ha Hl. destruct op as [b|b| | | |]; cbn in *; try done.
  - destruct (decide (b ∈ L)); [done|by apply list_elem_of_further].
  - apply list_elem_of_filter. by split; [intros ->|].
Qed.

(** A tick on a wait point that is not set, set for later, or due. *)
Lemma tick_wp L t w w' a d wp : ticked_by t L w w' → a ∈ L → wp_of w a d = Some wp →
  wp_of w' a d = Some (snd (wait_point_check wp t)) ∧
  ∃ S, signals w' = S ++ signals w ∧ wakes a d S = if fst (wait_point_check wp t) then 1 else 0.
Proof.
  intros [Hs _ _ _ (S & ES & Hnd & HS) _] Ha Hwp. unfold wp_of in *. specialize (Hs a). destruct (decide (a ∈ L)) as [_|]; [|done].
  destruct (sessions w !! a) as [s|] eqn:Es; [|done]. injection Hwp as <-. rewrite Hs. split; [by destruct d|].
  exists S. split; [done|]. change (fst (wait_point_check (wp_get d s) t)) with (due t d s). destruct (due t d s) eqn:Ed.
  - apply wakes_1; [done|]. apply HS. split; [done|]. by exists s.
  - apply wakes_0. intros (_ & s' & Hs' & Hd)%HS. rewrite Es in Hs'. injection Hs' as <-. congruence.
Qed.

(** Once woken, a wait point stays as it is. *)
Lemma woken_stays a d ops : ∀ L w t0 w', sched_ok L w → ops_ok (dom (sessions w)) L ops → Forall (leaves_alone a d) ops → a ∈ L →
  wp_of w a d = Some (mkWait t0 false) → run_ops ops w = Ret tt w' →
  wp_of w' a d = Some (mkWait t0 false) ∧ ∃ S, signals w' = S ++ signals w ∧ wakes a d S = 0.
Proof.
  induction ops as [|op ops IH]; intros L w t0 w' Hok Hops Hal Ha Hwp Hrun.
  { injection Hrun as <-. split; [done|]. by exists []. }
  destruct Hops as [Hop Hops]. apply Forall_cons in Hal as [Hop' Hal]. destruct (op_step L w op Hok Hop) as (w1 & E1 & Hok1 & Hd1 & _ & Hm).
  cbn [run_ops] in Hrun. rewrite (bind_ret _ _ _ _ _ E1) in Hrun. rewrite <- Hd1 in Hops.
  assert (wp_of w1 a d = Some (mkWait t0 false) ∧ ∃ S, signals w1 = S ++ signals w ∧ wakes a d S = 0) as (Hwp1 & S1 & HS1 & Hw1).
  { assert (∀ t, op ≠ OpWait a d t) as Hnw by (by intros t' ->).
    destruct op as [b|b| |b d' t'|b d'|r s e temp]; try (destruct Hm as (_ & Hsig & Hwps); rewrite (Hwps a d Hnw); split; [done|by exists []]).
    destruct Hm as [Htb _]. by apply (tick_wp L _ w w1 a d (mkWait t0 false) Htb). }
  destruct (IH _ w1 t0 w' Hok1 Hops Hal (list_still L op a d Ha Hop') Hwp1 Hrun) as (Hwp2 & S2 & HS2 & Hw2).
  split; [done|]. exists (S2 ++ S1). rewrite HS2, HS1, app_assoc. split; [done|]. rewrite wakes_app. lia.
Qed.

Lemma check_set t k : - 2 ^ 31 < k ≤ 2 ^ 31 →
  wait_point_check (mkWait t true) (u32 (t - k)) = (k <=? 0, mkWait t (0 <? k)).
Proof.
  intros Hk. unfold wait_point_check, RTP_TIMESTAMP_IS_NEWER_THAN. cbn [wakeup wp_time andb].
  assert ((u32 (u32 (u32 (t - k)) - u32 t) <? 2 ^ 31) = (k <=? 0)) as ->.
  { unfold u32. rewrite Zmod_mod, <- Zminus_mod. replace (t - k - t) with (- k) by lia.
    destruct (Z.leb_spec k 0); [apply Z.ltb_lt; rewrite Z.mod_small; lia|apply Z.ltb_ge].
    rewrite <- (Z.mod_unique (- k) (2 ^ 32) (- 1) (2 ^ 32 - k)); lia. }
  by destruct (Z.leb_spec k 0), (Z.ltb_spec 0 k); try lia.
Qed.

Lemma wake_counted ops L w a d t k w' : sched_ok L w → ops_ok (dom (sessions w)) L ops → a ∈ L →
  Forall (leaves_alone a d) ops → 0 ≤ timer_inc (sched w) < 2 ^ 31 →
  wp_of w a d = Some (mkWait t true) → time_ (sched w) = u32 (t - k) → - 2 ^ 31 < k ≤ 2 ^ 31 →
  run_ops ops w = Ret tt w' →
  let woken := (0 <? ticks ops) && (k <=? (ticks ops - 1) * timer_inc (sched w)) in
  wp_of w' a d = Some (mkWait t (negb woken)) ∧
  ∃ S, signals w' = S ++ signals w ∧ wakes a d S = if woken then 1 else 0.
Proof.
  intros Hok Hops Ha Hal Hinc Hwp Htime Hk Hrun. revert L w k Hok Hops Ha Hal Hinc Hwp Htime Hk Hrun.
  induction ops as [|op ops IH]; intros L w k Hok Hops Ha Hal Hinc Hwp Htime Hk Hrun.
  { injection Hrun as <-. split; [done|]. by exists []. }
  destruct Hops as [Hop Hops]. apply Forall_cons in Hal as [Hop' Hal]. destruct (op_step L w op Hok Hop) as (w1 & E1 & Hok1 & Hd1 & Hi1 & Hm).
  cbn [run_ops] in Hrun. rewrite (bind_ret _ _ _ _ _ E1) in Hrun. rewrite <- Hd1 in Hops.
  pose proof (list_still L op a d Ha Hop') as Ha1. pose proof (ticks_nonneg ops) as Hn.
  assert (op = OpTick ∨ (op ≠ OpTick ∧ ticks (op :: ops) = ticks ops ∧ time_ (sched w1) = time_ (sched w) ∧ signals w1 = signals w ∧ wp_of w1 a d = wp_of w a d)) as [->|(Hnt & Htk & Ht1 & Hg1 & Hw1)].
  { assert (∀ t, op ≠ OpWait a d t) as Hnw by (by intros t' ->). destruct op; try (by left); right; destruct Hm as (? & ? & Hw); by rewrite (Hw a d Hnw). }
  2: { rewrite <- Hi1 in Hinc. rewrite <- Hw1 in Hwp. rewrite <- Ht1 in Htime.
    destruct (IH _ w1 k Hok1 Hops Ha1 Hal Hinc Hwp Htime Hk Hrun) as (Hwp2 & S & HS & HwS). rewrite Hi1 in *. cbv zeta. rewrite Htk. split; [done|].
    exists S. by rewrite HS, Hg1. }
  destruct Hm as [Htb Ht1]. destruct (tick_wp L _ w w1 a d (mkWait t true) Htb Ha Hwp) as (Hwp1 & S1 & HS1 & HwS1).
  rewrite Htime, (check_set t k Hk) in Hwp1, HwS1. cbn [fst snd] in Hwp1, HwS1. cbn [ticks]. cbv zeta.
  replace (1 + ticks ops - 1) with (ticks ops) by lia. rewrite (proj2 (Z.ltb_lt 0 (1 + ticks ops))) by lia. cbn [andb].
  destruct (Z.leb_spec k 0) as [Hk0|Hk0].
  - rewrite (proj2 (Z.ltb_ge 0 k)) in Hwp1 by lia. rewrite (proj2 (Z.leb_le _ _)) by nia.
    destruct (woken_stays a d ops _ w1 t w' Hok1 Hops Hal Ha1 Hwp1 Hrun) as (Hwp2 & S2 & HS2 & HwS2). split; [done|].
    exists (S2 ++ S1). rewrite HS2, HS1, app_assoc, wakes_app, HwS2, HwS1. done.
  - rewrite (proj2 (Z.ltb_lt 0 k)) in Hwp1 by lia.
    destruct (IH _ w1 (k - timer_inc (sched w)) Hok1 Hops Ha1 Hal) as (Hwp2 & S2 & HS2 & HwS2); [by rewrite Hi1|done| |lia|done|].
    { rewrite Ht1, Htime, u32_add_l. f_equal. lia. }
    rewrite Hi1 in *. assert ((0 <? ticks ops) && (k - timer_inc (sched w) <=? (ticks ops - 1) * timer_inc (sched w)) = (k <=? ticks ops * timer_inc (sched w))) as Eq.
    { apply eq_bool_prop_intro. rewrite andb_True, !Is_true_true, Z.ltb_lt, !Z.leb_le. nia. }
    rewrite Eq in *. split; [done|]. exists (S2 ++ S1). rewrite HS2, HS1, app_assoc, wakes_app, HwS2, HwS1. split; [done|]. by destruct (k <=? _).
Qed.

(** C32: a sender or receiver that waits for a time [k] milliseconds ahead is woken
    exactly once, by the first tick of the scheduler that is due and by none before,
    whatever the other sessions do in between: after [n] ticks it has been woken
    when the last of them came [k] or more after the call. *)
Theorem wakeup_on_time ops L w a d t k : sched_ok L w → ops_ok (dom (sessions w)) L ops → a ∈ L →
  Forall (leaves_alone a d) ops → 0 ≤ timer_inc (sched w) < 2 ^ 31 →
  wp_of w a d = Some (mkWait t true) → time_ (sched w) = u32 (t - k) → - 2 ^ 31 < k ≤ 2 ^ 31 →
  let woken := (0 <? ticks ops) && (k <=? (ticks ops - 1) * timer_inc (sched w)) in
  ∃ w' S, run_ops ops w = Ret tt w' ∧ wp_of w' a d = Some (mkWait t (negb woken)) ∧
    signals w' = S ++ signals w ∧ wakes a d S = if woken then 1 else 0.
Proof.
  intros Hok Hops Ha Hal Hinc Hwp Htime Hk woken. destruct (run_ops_ok ops L w Hok Hops) as (w' & E & _).
  destruct (wake_counted ops L w a d t k w' Hok Hops Ha Hal Hinc Hwp Htime Hk E) as (H1 & S & H2 & H3). by exists w', S.
Qed.

(** C33: [session_set_select] counts the sessions of the three sets that have an event,
    takes those events out of the scheduler's masks and returns at once when there is
    one; then a set with events holds exactly these among the positions up to the
    highest ever used. With none it sleeps, and looks again with the same sets after
    the other threads ran. A set without events comes back as it was, and from the
    32-bit word of the highest position on a set with events holds what the
    uninitialised local set held. *)
Theorem select_spec L w recvs sends errors temp env : sched_ok L w → user_ok recvs → user_ok sends → user_ok errors → zlen temp = 32 →
  let n := event_count recvs sends errors w in
  ∃ r s e temp' w',
    (0 < n → session_set_select env recvs sends errors temp w = Ret (n, (r, s, e)) w') ∧
    (n = 0 → session_set_select env recvs sends errors temp w =
       match env with [] => Blk w' | act :: env => (_ ← act; session_set_select env recvs sends errors temp') w' end) ∧
    zlen temp' = 32 ∧ sched_ok L w' ∧ quiet w w' ∧
    left_as (events RecvM recvs w) (nbits w) temp recvs r ∧ left_as (events SendM sends w) (nbits w) temp sends s ∧
    left_as (events ErrM errors w) (nbits w) temp errors e ∧
    ∀ k p, 0 ≤ p < 1024 → isset p (mask_get k (sched w')) = isset p (mask_get k (sched w)) && negb (bool_decide (p ∈ all_events recvs sends errors w k)).
Proof.
  intros Hok Hr Hs He Ht n. destruct (select_turn_ok L w recvs sends errors temp Hok Hr Hs He Ht) as (r & s & e & t' & w' & E & Ht' & Hok' & Hq & Hlr & Hls & Hle & Hb).
  fold n in E. exists r, s, e, t', w'. split; [|split; [|done]].
  - intros Hn. destruct env; cbn [session_set_select]; rewrite (bind_ret _ _ _ _ _ E); cbv beta iota; by rewrite (proj2 (Z.ltb_lt _ _)).
  - intros Hn. assert (events RecvM recvs w = [] ∧ events SendM sends w = [] ∧ events ErrM errors w = []) as (E1 & E2 & E3).
    { unfold n, event_count in Hn. pose proof (zlen_nonneg (events RecvM recvs w)). pose proof (zlen_nonneg (events SendM sends w)).
      pose proof (zlen_nonneg (events ErrM errors w)). split_and!; apply zlen_0_nil; lia. }
    rewrite E1 in Hlr. rewrite E2 in Hls. rewrite E3 in Hle. unfold left_as in Hlr, Hls, Hle. rewrite decide_True in Hlr, Hls, Hle by done. subst r s e.
    rewrite Hn in E. destruct env; cbn [session_set_select]; by rewrite (bind_ret _ _ _ _ _ E).
Qed.

(** ** Concrete runs *)

Definition ex_session (fl : Z) : RtpSession := (zero_session 0 2 4) <| flags := fl |>.
Definition ex_sessions : gmap Z RtpSession :=
  {[ 1 := ex_session (Z.lor RTP_SESSION_SCHEDULED (Z.lor RTP_SESSION_BLOCKING_MODE RTP_SESSION_RECV_NOT_STARTED));
     2 := ex_session (Z.lor RTP_SESSION_SCHEDULED RTP_SESSION_SEND_NOT_STARTED) ]}.
Definition after (ops : list sched_op) (w : World) : World := match run_ops ops w with Ret _ w' => w' | _ => w end.

Lemma ex_fresh_ok : sched_ok [] (fresh_world ex_sessions).
Proof.
  apply fresh_ok. intros i s H. unfold ex_sessions in H. apply lookup_insert_Some in H as [[<- <-]|[_ H]]; [reflexivity|].
  by apply lookup_singleton_Some in H as [<- <-].
Qed.
Lemma ex_dom a : a = 1 ∨ a = 2 → a ∈ dom (sessions (fresh_world ex_sessions)).
Proof. intros [-> | ->]; apply elem_of_dom; eexists; reflexivity. Qed.

Definition ex_ops : list sched_op := [OpAdd 1; OpAdd 2; OpWait 1 Send 25; OpTick; OpTick; OpTick; OpTick; OpRemove 1; OpAdd 1].

Lemma sched_ops_ok_witness :
  ops_ok (dom (sessions (fresh_world ex_sessions))) [] ex_ops ∧
  ∃ w', run_ops ex_ops (fresh_world ex_sessions) = Ret tt w' ∧ sched_ok [1; 2] w' ∧ dom (sessions w') = dom (sessions (fresh_world ex_sessions)).
Proof.
  assert (ops_ok (dom (sessions (fresh_world ex_sessions))) [] ex_ops) as Hops.
  { cbn -[dom fresh_world]. split_and!; try exact I; try (apply ex_dom; tauto); refine (bool_decide_unpack _ _); vm_compute; exact I. }
  split; [exact Hops|]. exact (sched_ops_ok ex_ops [] (fresh_world ex_sessions) ex_fresh_ok Hops).
Defined.

Lemma after_ok ops L w : sched_ok L w → ops_ok (dom (sessions w)) L ops → sched_ok (ops_list ops L) (after ops w) ∧ dom (sessions (after ops w)) = dom (sessions w).
Proof. intros H1 H2. unfold after. destruct (run_ops_ok ops L w H1 H2) as (w' & -> & ?). done. Qed.

Definition ex_waiting : World := after [OpAdd 1; OpAdd 2; OpWait 1 Send 25] (fresh_world ex_sessions).
Lemma ex_waiting_ok : sched_ok [2; 1] ex_waiting ∧ dom (sessions ex_waiting) = dom (sessions (fresh_world ex_sessions)).
Proof.
  apply (after_ok [OpAdd 1; OpAdd 2; OpWait 1 Send 25] []); [exact ex_fresh_ok|]. cbn -[dom fresh_world].
  split_and!; try exact I; try (apply ex_dom; tauto); refine (bool_decide_unpack _ _); vm_compute; exact I.
Qed.

Lemma wakeup_on_time_witness :
  wp_of ex_waiting 1 Send = Some (mkWait 25 true) ∧
  (∃ w' S, run_ops [OpTick; OpTick; OpTick] ex_waiting = Ret tt w' ∧ wp_of w' 1 Send = Some (mkWait 25 true) ∧
    signals w' = S ++ signals ex_waiting ∧ wakes 1 Send S = 0) ∧
  ∃ w' S, run_ops [OpTick; OpTick; OpTick; OpTick; OpTick] ex_waiting = Ret tt w' ∧ wp_of w' 1 Send = Some (mkWait 25 false) ∧
    signals w' = S ++ signals ex_waiting ∧ wakes 1 Send S = 1.
Proof.
  assert (wp_of ex_waiting 1 Send = Some (mkWait 25 true)) as Hwp by (vm_compute; reflexivity).
  assert (0 ≤ timer_inc (sched ex_waiting) < 2 ^ 31) as Hinc by (vm_compute; done).
  assert (time_ (sched ex_waiting) = u32 (25 - 25)) as Ht by (vm_compute; reflexivity).
  split; [exact Hwp|]. split.
  - refine (wakeup_on_time [OpTick; OpTick; OpTick] [2; 1] ex_waiting 1 Send 25 25 (proj1 ex_waiting_ok) _ _ _ Hinc Hwp Ht _); [|set_solver| |lia]; by repeat constructor.
  - refine (wakeup_on_time [OpTick; OpTick; OpTick; OpTick; OpTick] [2; 1] ex_waiting 1 Send 25 25 (proj1 ex_waiting_ok) _ _ _ Hinc Hwp Ht _); [|set_solver| |lia]; by repeat constructor.
Defined.

(** Sessions 1 and 2 have the positions 0 and 1. *)
Definition set_of (w : Z) : SessionSet := w :: replicate 31 0.
Definition temp_of (w0 w1 : Z) : SessionSet := w0 :: w1 :: replicate 30 0.

Lemma select_spec_witness :
  event_count (Some (set_of 3)) None None ex_waiting = 1 ∧
  ∃ r w', session_set_select [] (Some (set_of 3)) None None (temp_of 7 0) ex_waiting = Ret (1, (r, None, None)) w' ∧
    left_as [0] 32 (temp_of 7 0) (Some (set_of 3)) r.
Proof.
  assert (event_count (Some (set_of 3)) None None ex_waiting = 1) as Hn by (vm_compute; reflexivity). split; [exact Hn|].
  destruct (select_spec [2; 1] ex_waiting (Some (set_of 3)) None None (temp_of 7 0) [] (proj1 ex_waiting_ok) eq_refl I I eq_refl)
    as (r & s & e & t' & w' & H1 & _ & _ & _ & _ & Hr & Hs & He & _).
  rewrite Hn in H1. specialize (H1 ltac:(lia)). exists r, w'.
  assert (events RecvM (Some (set_of 3)) ex_waiting = [0]) as E1 by (vm_compute; reflexivity).
  assert (nbits ex_waiting = 32) as E2 by (vm_compute; reflexivity). rewrite E1, E2 in Hr.
  unfold left_as in Hs, He. rewrite decide_True in Hs, He by reflexivity. subst s e. split; [exact H1|exact Hr].
Defined.

(** A set without events comes back as it was when another set has one: session 1
    is still in the receive set although only session 2 has an event, to send. *)
Example select_keeps_other_set :
  let w := after [OpAdd 1; OpAdd 2; OpSelect (Some (set_of 3)) None None (set_of 0)] (fresh_world ex_sessions) in
  match session_set_select [] (Some (set_of 1)) (Some (set_of 2)) None (set_of 0) w with
  | Ret (n, (r, s, _)) _ => Some (n, r, s) | _ => None
  end = Some (1, Some (set_of 1), Some (set_of 2)).
Proof. vm_compute. reflexivity. Qed.

(** The bits of the uninitialised set come out behind the highest position. *)
Example select_uninitialised :
  match session_set_select [] None (Some (set_of 3)) None (temp_of 9 5) ex_waiting with
  | Ret (n, (_, s, _)) _ => Some (n, s) | _ => None
  end = Some (1, Some (temp_of 2 5)).
Proof. vm_compute. reflexivity. Qed.

(** The event bits of a removed session stay for the next one at its position:
    session 2, which never received, is reported. *)
Example stale_event :
  let w := after [OpAdd 1; OpRemove 1; OpAdd 2] (fresh_world ex_sessions) in
  match session_set_select [] (Some (set_of 1)) None None (set_of 0) w with
  | Ret (n, (r, _, _)) _ => Some (n, r) | _ => None
  end = Some (1, Some (set_of 1)).
Proof. vm_compute. reflexivity. Qed.

(** With every position taken (here of one) a session is scheduled without one,
    keeps position 0, and its removal clears the bit of the session that has it. *)
Example add_when_full :
  let w := (fresh_world ex_sessions) <| sched ::= fun s => s <| max_sessions := 1 |> |> in
  let w1 := after [OpAdd 1; OpAdd 2] w in
  let w2 := after [OpRemove 2] w1 in
  (list_ (sched w1), isset 0 (all_sessions (sched w1)), list_ (sched w2), isset 0 (all_sessions (sched w2))) =
  (Some 2, true, Some 1, false).
Proof. vm_compute. reflexivity. Qed.

(** After [ortp_exit] the scheduler never starts again. *)
Example no_second_start :
  match (_ ← ortp_scheduler_init; _ ← ortp_exit; _ ← ortp_scheduler_init; ortp_get_scheduler)
    (mkWorld rtp_scheduler_new ex_sessions [] false false) with Ret b _ => Some b | _ => None end = Some false.
Proof. vm_compute. reflexivity. Qed.

(** * The timer

    The clock is the stream of the answers of [gettimeofday], in milliseconds and
    microseconds since some start; [long] has 32 bits. *)

Record PosixTimer := mkPosix {
  orig : Z * Z;
  cur : Z * Z;
  posix_timer_time : Z;
  pt_state : Z
}.
#[export] Instance eta_PosixTimer : Eta PosixTimer := fun t => mkPosix (orig t) (cur t) (posix_timer_time t) (pt_state t).

Definition posix_timer_init (now : Z * Z) (t : PosixTimer) : PosixTimer :=
  t <| pt_state := RTP_TIMER_RUNNING |> <| orig := now |> <| posix_timer_time := 0 |>.
Definition posix_timer_uninit (t : PosixTimer) : PosixTimer := t <| pt_state := RTP_TIMER_STOPPED |>.

(** Milliseconds between two times, as the code computes them. *)
Definition elapsed (t : PosixTimer) : Z :=
  i32 (i32 (Z.quot (snd (cur t) - snd (orig t)) 1000) + i32 (i32 (fst (cur t) - fst (orig t)) * 1000)).

(** The loop that sleeps until the clock reaches the time of the timer, with the
    answers the clock has left; [None] when they end before that. *)
Fixpoint timer_wait (clock : list (Z * Z)) (t : PosixTimer) : option (PosixTimer * list (Z * Z)) :=
  if 0 <? i32 (posix_timer_time t - elapsed t) then
    match clock with [] => None | now :: clock => timer_wait clock (t <| cur := now |>) end
  else Some (t, clock).
Definition posix_timer_do (clock : list (Z * Z)) (t : PosixTimer) : option (PosixTimer * list (Z * Z)) :=
  match clock with
  | [] => None
  | now :: clock =>
      '(t, clock) ← timer_wait clock (t <| cur := now |>);
      Some (t <| posix_timer_time ::= fun x => u32 (x + POSIXTIMER_INTERVAL / 1000) |>, clock)
  end.
Fixpoint timer_ticks (n : nat) (clock : list (Z * Z)) (t : PosixTimer) : option (PosixTimer * list (Z * Z)) :=
  match n with O => Some (t, clock) | S n => '(t, clock) ← posix_timer_do clock t; timer_ticks n clock t end.

(** The milliseconds from one time to another, without bounds. *)
Definition ms (o now : Z * Z) : Z := Z.quot (snd now - snd o) 1000 + (fst now - fst o) * 1000.

Lemma i32_eqm a b : a `mod` 2 ^ 32 = b `mod` 2 ^ 32 → i32 a = i32 b.
Proof. intros H. unfold i32. rewrite <- Zplus_mod_idemp_l, H, Zplus_mod_idemp_l. done. Qed.
Lemma i32_mod a : i32 a `mod` 2 ^ 32 = a `mod` 2 ^ 32.
Proof. unfold i32. rewrite Zminus_mod, Zmod_mod, <- Zminus_mod. by replace (a + 2 ^ 31 - 2 ^ 31) with a by lia. Qed.

Lemma elapsed_mod t : elapsed t `mod` 2 ^ 32 = ms (orig t) (cur t) `mod` 2 ^ 32.
Proof.
  unfold elapsed, ms. rewrite i32_mod, Zplus_mod, !i32_mod, <- (Zmult_mod_idemp_l (i32 _)), i32_mod, Zmult_mod_idemp_l, <- Zplus_mod. done.
Qed.

Lemma timer_test t T : posix_timer_time t = u32 T → - 2 ^ 31 ≤ T - ms (orig t) (cur t) < 2 ^ 31 →
  (0 <? i32 (posix_timer_time t - elapsed t)) = (ms (orig t) (cur t) <? T).
Proof.
  intros Ht HT. rewrite (i32_eqm _ (T - ms (orig t) (cur t))).
  2: { rewrite Zminus_mod, elapsed_mod, Ht. unfold u32. by rewrite Zmod_mod, <- Zminus_mod. }
  rewrite i32_id by exact HT. destruct (Z.ltb_spec 0 (T - ms (orig t) (cur t))), (Z.ltb_spec (ms (orig t) (cur t)) T); lia.
Qed.

(** The answers [pre] come before the time [T], [now] does not; none is further than
    24 days from it. *)
Definition reaches (o : Z * Z) (T : Z) (pre : list (Z * Z)) (now : Z * Z) : Prop :=
  Forall (fun x => T - 2 ^ 31 < ms o x < T) pre ∧ T ≤ ms o now ≤ T + 2 ^ 31.

Lemma timer_do_ok t T pre now post : posix_timer_time t = u32 T → reaches (orig t) T pre now →
  posix_timer_do (pre ++ now :: post) t = Some (t <| cur := now |> <| posix_timer_time := u32 (T + 10) |>, post).
Proof.
  intros Ht [Hpre Hnow].
  assert (Hw : ∀ t', orig t' = orig t → posix_timer_time t' = u32 T → cur t' = now →
     timer_wait post t' = Some (t', post)).
  { intros t' Ho Ht' Hc. assert ((0 <? i32 (posix_timer_time t' - elapsed t')) = false) as E.
    { rewrite (timer_test t' T) by (done || (rewrite Ho, Hc; lia)). rewrite Ho, Hc. apply Z.ltb_ge. lia. }
    destruct post; cbn [timer_wait]; by rewrite E. }
  destruct pre as [|x pre]; cbn [posix_timer_do app].
  - rewrite Hw by done. cbn. rewrite Ht, u32_add_l. done.
  - enough (∀ l y t', Forall (fun x => T - 2 ^ 31 < ms (orig t) x < T) (y :: l) → orig t' = orig t → posix_timer_time t' = u32 T → cur t' = y →
      timer_wait (l ++ now :: post) t' = Some (t' <| cur := now |>, post)) as H.
    { rewrite (H pre x) by done. cbn. rewrite Ht, u32_add_l. done. }
    clear Hpre. induction l as [|z l IH]; intros y t' Hf Ho Ht' Hc; apply Forall_cons in Hf as [Hy Hf];
      (assert ((0 <? i32 (posix_timer_time t' - elapsed t')) = true) as E by
        (rewrite (timer_test t' T) by (done || (rewrite Ho, Hc; lia)); rewrite Ho, Hc; apply Z.ltb_lt; lia)); cbn [app timer_wait]; rewrite E.
    + by apply Hw.
    + by rewrite (IH z (t' <| cur := z |>)).
Qed.

(** A clock cut into the answers of each call: for the call at time [T] those before
    [T] and the first one that is not. *)
Fixpoint paced (o : Z * Z) (T : Z) (calls : list (list (Z * Z) * (Z * Z))) : Prop :=
  match calls with [] => True | (pre, now) :: calls => reaches o T pre now ∧ paced o (T + 10) calls end.
Definition answers (calls : list (list (Z * Z) * (Z * Z))) : list (Z * Z) := concat ((fun c => fst c ++ [snd c]) <$> calls).

(** C34: the timer never drifts. The tick at [T] milliseconds ends with the first answer
    of the clock that is [T] or more after the start and never before, the next is
    due at [T + 10] however late this one was; this holds across the overflow of
    the 32-bit times as long as no answer is 2^31 milliseconds from the tick. *)
Theorem timer_pacing calls T t post : posix_timer_time t = u32 T → paced (orig t) T calls →
  ∃ t', timer_ticks (length calls) (answers calls ++ post) t = Some (t', post) ∧
    posix_timer_time t' = u32 (T + 10 * zlen calls) ∧ orig t' = orig t ∧ cur t' = default (cur t) (snd <$> list.last calls).
Proof.
  revert T t. induction calls as [|[pre now] calls IH]; intros T t Ht Hp.
  - exists t. split; [done|]. split; [rewrite Ht; f_equal; unfold zlen; cbn; lia|done].
  - destruct Hp as [Hr Hp]. pose proof (timer_do_ok t T pre now (answers calls ++ post) Ht Hr) as E.
    set (t1 := t <| cur := now |> <| posix_timer_time := u32 (T + 10) |>) in *.
    destruct (IH (T + 10) t1 eq_refl Hp) as (t' & E' & Ht' & Ho' & Hc'). exists t'. cbn [length timer_ticks answers fmap list_fmap concat fst snd].
    fold (answers calls). rewrite <- !app_assoc. cbn [app]. rewrite E. split; [exact E'|]. split; [rewrite Ht'; f_equal; rewrite zlen_cons; lia|].
    split; [done|]. rewrite Hc'. destruct calls as [|c calls]; [done|]. change (list.last ((pre, now) :: c :: calls)) with (list.last (c :: calls)).
    by destruct (list.last (c :: calls)) eqn:El; [|apply last_None in El].
Qed.

(** Across the overflow: the tick at 2^32 - 6 milliseconds, which ends 9 late, and the
    next one, which waits for the rest of its 10. *)
Lemma timer_pacing_witness :
  ∃ t', timer_ticks 2 [(4294967, 290000); (4294967, 299000); (4294967, 300000); (4294967, 305000)]
      (mkPosix (0, 0) (0, 0) (2 ^ 32 - 6) RTP_TIMER_RUNNING) = Some (t', [(4294967, 305000)]) ∧
    posix_timer_time t' = 14.
Proof.
  destruct (timer_pacing [([], (4294967, 290000)); ([(4294967, 299000)], (4294967, 300000))] (2 ^ 32 - 6)
    (mkPosix (0, 0) (0, 0) (2 ^ 32 - 6) RTP_TIMER_RUNNING) [(4294967, 305000)]) as (t' & E & Ht & _).
  - reflexivity.
  - cbn. unfold reaches, ms. cbn. repeat split; repeat constructor; vm_compute; congruence.
  - exists t'. split; [exact E|exact Ht].
Defined.
