(* ===== verification/OrtpEnv.v ===== *)
(** * The state of the RTP stack and its clocks ([utils/ortp/src/rtpsession.c], [jitterctl.c])

    The stack works on the blocks of StrUtils.v, the profiles of Payload.v, the
    sessions and the scheduler of Sched.v. [Env] is these together with what leaves
    the process; the class [System] is what comes from outside: clock, random
    numbers, sockets, memory, the callbacks of the application. The file has the
    settings of a session, the conversions between time and timestamps and the
    control of jitter. *)

From Stdlib Require Import Floats.SpecFloat Strings.String Strings.Ascii.
From S2P Require Import Prelude Floating StrUtils RtpMod Payload OrtpSession Sched.

(** * State *)

(** A datagram sent on a socket, to an address unless the socket is connected. *)
Record datagram := mkDatagram {
  dg_socket : Z;
  dg_to : option sockaddr_in;
  dg_bytes : list Z
}.

(** An argument of a callback: a message, a string or NULL, a number, the timestamp in
    the header of a message. *)
Inductive cb_arg := ArgMsg (n : node) | ArgStr (s : option (list Z)) | ArgInt (z : Z) | ArgTs (n : node).

(** [outbox] has the datagrams sent, in order, [closed] the sockets closed; [calls]
    counts the calls to the system; [initialized] is the flag of [ortp_init]. *)
Record Env := mkEnv {
  heap : Mem;
  pmem : PMem;
  world : World;
  ortp_global_stats : rtp_stats_t;
  outbox : list datagram;
  closed : list Z;
  calls : nat;
  initialized : bool
}.
#[export] Instance eta_Env : Eta Env := fun e =>
  mkEnv (heap e) (pmem e) (world e) (ortp_global_stats e) (outbox e) (closed e) (calls e) (initialized e).

(** The outcome of [recvfrom]: a datagram, empty for a result of zero, or an error. *)
Inductive received := Received (from : sockaddr_in) (bs : list Z) | RecvError (errno : Z).

(** What the [n]-th call to the system answers. A datagram is sent whole or not at all. *)
Class System := {
  gettimeofday_at : nat → Z * Z;
  random_at : nat → Z;
  rand_at : nat → Z;
  recv_at : nat → Z → received;
  send_error_at : nat → Z → option Z;
  socket_at : nat → option Z;
  bind_at : nat → Z → sockaddr_in → bool;
  inet_aton : string → option Z;
  stack_addr : nat → Z;
  buf_addr : Z → Z;
  realloc_addr : Z → Z → Z;
  junk : Z → Z → Z;
  callback : Z → list cb_arg → Z → CM Env unit;
  buf_addr_ok : ∀ d, buf_addr d ≠ 0;
  realloc_addr_ok : ∀ p size, realloc_addr p size ≠ 0;
  buf_addr_aligned : ∀ d, buf_addr d `rem` 4 = 0;
  junk_ok : ∀ d i, byte_ok (junk d i)
}.

(** The bytes of a C string. *)
Definition bytes_of (s : string) : list Z := map (fun c => Z.of_nat (nat_of_ascii c)) (list_ascii_of_string s).

(** ** The parts of the state *)

Definition hp {A} : CM Mem A → CM Env A := zoom heap (fun m e => e <| heap := m |>).
Definition pm {A} : CM PMem A → CM Env A := zoom pmem (fun m e => e <| pmem := m |>).
Definition wd {A} : CM World A → CM Env A := zoom world (fun w e => e <| world := w |>).
Definition ses (a : Z) : CM Env RtpSession := wd (sess_of a).
Definition upd (a : Z) (f : RtpSession → RtpSession) : CM Env unit := wd (on_sess a f).
Definition on_rtp (f : RtpStream → RtpStream) (s : RtpSession) : RtpSession := s <| rtp ::= f |>.
Definition on_rtcp (f : RtcpStream → RtcpStream) (s : RtpSession) : RtpSession := s <| rtcp ::= f |>.

(** A part of the session [a]. *)
Definition on_part {T A} (a : Z) (get : RtpSession → T) (put : T → RtpSession → RtpSession) (m : CM T A) : CM Env A :=
  s ← ses a;
  match m (get s) with
  | Ret x t => _ ← upd a (put t); mret x
  | Blk t => _ ← upd a (put t); block
  | Flt f => fault_with f
  end.

Definition syscall {A} (f : nat → A) : CM Env A :=
  n ← gets calls; _ ← modify (fun e => e <| calls ::= S |>); mret (f n).

(** The scheduler a session points to. *)
Definition sched_of (s : RtpSession) : CM Env RtpScheduler :=
  if negb (has_sched s) then fault_with NullDeref
  else
    p ← wd ortp_get_scheduler;
    if (p : bool) then wd (gets sched) else fault_with UseAfterFree.

Definition count_stats (a : Z) (f : rtp_stats_t → rtp_stats_t) : CM Env unit :=
  _ ← modify (fun e => e <| ortp_global_stats ::= f |>);
  upd a (on_rtp (fun r => r <| stats ::= f |>)).

Section Stack.
Context `{System}.

Definition gettimeofday : CM Env (Z * Z) := syscall gettimeofday_at.
Definition uint32_t_random : CM Env Z := syscall (fun n => u32 (random_at n)).

(** ** Settings *)

Definition rtp_session_set_blocking_mode (a : Z) (yesno : bool) : CM Env unit :=
  if yesno then upd a (fun s => rtp_session_set_flag s RTP_SESSION_BLOCKING_MODE)
  else upd a (fun s => rtp_session_unset_flag s RTP_SESSION_BLOCKING_MODE).
Definition rtp_session_get_profile (a : Z) : CM Env (option Z) := s ← ses a; mret (profile s).
Definition rtp_session_set_recv_buf_size (a bufsize : Z) : CM Env unit := upd a (fun s => s <| recv_buf_size := bufsize |>).
Definition rtp_session_get_local_port (a : Z) : CM Env Z :=
  s ← ses a; mret (if 0 <? loc_port (rtp s) then loc_port (rtp s) else -1).
Definition rtp_session_set_seq_number (a seq : Z) : CM Env unit := upd a (on_rtp (fun r => r <| snd_seq := u16 seq |>)).
Definition rtp_session_get_seq_number (a : Z) : CM Env Z := s ← ses a; mret (snd_seq (rtp s)).
Definition rtp_session_set_ssrc (a ssrc : Z) : CM Env unit := upd a (fun s => s <| send_ssrc := u32 ssrc |>).
Definition rtp_session_set_send_payload_type (a paytype : Z) : CM Env Z :=
  _ ← upd a (fun s => s <| send_pt := paytype |>); mret 0.
Definition rtp_session_get_send_payload_type (a : Z) : CM Env Z := s ← ses a; mret (send_pt s).
Definition rtp_session_get_recv_payload_type (a : Z) : CM Env Z := s ← ses a; mret (recv_pt s).
Definition rtp_session_set_data (a d : Z) : CM Env unit := upd a (fun s => s <| app_data := d |>).
Definition rtp_session_get_data (a : Z) : CM Env Z := s ← ses a; mret (app_data s).
Definition rtp_session_get_last_recv_time (a : Z) : CM Env (Z * Z) := s ← ses a; mret (last_recv_time s).
Definition rtp_session_make_time_distorsion (a milisec : Z) : CM Env unit :=
  upd a (on_rtp (fun r => r <| snd_time_offset ::= (fun t => u32 (t + milisec)) |>)).

Definition rtp_session_telephone_events_supported (a : Z) : CM Env Z :=
  s ← ses a; p ← nonnull (profile s);
  n ← pm (rtp_profile_get_payload_number_from_mime p "telephone-event");
  _ ← upd a (fun s => s <| telephone_events_pt := n |>);
  mret n.
Definition rtp_session_set_profile (a : Z) (p : option Z) : CM Env unit :=
  _ ← upd a (fun s => s <| profile := p |>);
  _ ← rtp_session_telephone_events_supported a; mret tt.

(** The payload type with a number in the profile of the session. *)
Definition session_payload (a n : Z) : CM Env (option PayloadType) :=
  s ← ses a; p ← nonnull (profile s);
  r ← pm (rtp_profile_get_payload p n);
  match r with
  | Some t => q ← pm (get_pt t); mret (Some q)
  | None => mret None
  end.

(** ** Timestamps and time *)

Definition dbl1000 : spec_float := dbl 1000.

(** [(uint32_t) (1000.0 * ((double) timestamp / (double) payload->clock_rate))] *)
Definition ts_to_time_dbl (rate timestamp : Z) : spec_float := dmul dbl1000 (ddiv (dbl timestamp) (dbl rate)).
Definition rtp_session_ts_to_time (a timestamp : Z) : CM Env Z :=
  s ← ses a;
  p ← session_payload a (send_pt s);
  match p with
  | None => mret 0
  | Some p => to_u32 (ts_to_time_dbl (clock_rate p) timestamp)
  end.

(** [(uint32_t) (payload->clock_rate * (double) (time / 1000.0f))] *)
Definition time_to_ts_dbl (rate time : Z) : spec_float := dmul (dbl rate) (to_dbl (fdiv (sgl time) (sgl 1000))).
Definition rtp_session_time_to_ts (a time : Z) : CM Env Z :=
  s ← ses a;
  p ← session_payload a (send_pt s);
  match p with
  | None => mret 0
  | Some p => to_u32 (time_to_ts_dbl (clock_rate p) time)
  end.

Definition rtp_session_set_time_jump_limit (a milisecs : Z) : CM Env unit :=
  _ ← upd a (on_rtp (fun r => r <| time_jump := milisecs |>));
  ts ← rtp_session_time_to_ts a milisecs;
  upd a (on_rtp (fun r => r <| ts_jump := if ts =? 0 then 2 ^ 31 else ts |>)).

(** The timestamp of the present in one direction, from a payload type number, a
    scheduler and the offsets at the start. *)
Definition current_ts (p : PayloadType) (session_time ts_offset : Z) : CM Env Z :=
  t ← to_u32 (ddiv (dmul (dbl session_time) (dbl (clock_rate p))) dbl1000);
  mret (u32 (t + ts_offset)).

Definition rtp_session_get_current_send_ts (a : Z) : CM Env Z :=
  s ← ses a;
  p ← session_payload a (send_pt s);
  match p with
  | None => mret 0
  | Some p =>
      if negb (has_flag s RTP_SESSION_SCHEDULED) then mret 0
      else
        c ← sched_of s;
        current_ts p (u32 (time_ c - snd_time_offset (rtp s))) (snd_ts_offset (rtp s))
  end.

Definition rtp_session_get_current_recv_ts (a : Z) : CM Env Z :=
  g ← wd ortp_get_scheduler;
  s ← ses a;
  p ← session_payload a (recv_pt s);
  match p with
  | None => mret 0
  | Some p =>
      if negb (has_flag s RTP_SESSION_SCHEDULED) then mret 0
      else if negb g then fault_with NullDeref
      else
        c ← wd (gets sched);
        current_ts p (u32 (time_ c - rcv_time_offset (rtp s))) (rcv_ts_offset (rtp s))
  end.

(** ** Jitter *)

(** The double nearest to 0.03. *)
Definition JC_BETA : spec_float := S754_finite false 8646911284551352 (-58).
Definition JC_GAMMA : spec_float := JC_BETA.
Definition one_minus (f : spec_float) : spec_float := dsub (dbl 1) f.

Definition idiv {S} (x y : Z) : CM S Z := if y =? 0 then fault_with DivByZero else mret (i32 (x `quot` y)).

Definition jitter_control_set_payload (pt : PayloadType) : CM JitterControl unit :=
  c ← gets id;
  ts ← to_i32 (dmul (ddiv (dbl (jitt_comp c)) dbl1000) (dbl (clock_rate pt)));
  _ ← modify (fun c => c <| jitt_comp_ts := ts |>);
  step ← idiv (160 * 8000) (clock_rate pt);
  _ ← modify (fun c => c <| corrective_step := step |>);
  modify (fun c => c <| adapt_jitt_comp_ts := jitt_comp_ts c |>).

Definition jitter_control_init (base_jiitt_time : Z) (payload : option PayloadType) : CM JitterControl unit :=
  _ ← modify (fun c => c <| jc_count := 0 |> <| slide := S754_zero false |> <| jitter := S754_zero false |> <| inter_jitter := S754_zero false |>);
  _ ← (if negb (base_jiitt_time =? -1) then modify (fun c => c <| jitt_comp := base_jiitt_time |>) else mret tt);
  _ ← (match payload with Some p => jitter_control_set_payload p | None => mret tt end);
  modify (fun c => c <| adapt_jitt_comp_ts := jitt_comp_ts c |> <| corrective_slide := 0 |>).

Definition jitter_control_enable_adaptive (val : bool) : CM JitterControl unit := modify (fun c => c <| adaptive := val |>).

(** [(float) (x*(1-k) + y*k)] for floats [x] and [y]. *)
Definition decay (k x y : spec_float) : spec_float :=
  to_sgl (dadd (dmul (to_dbl x) (one_minus k)) (dmul (to_dbl y) k)).
Definition sixteenth : spec_float := ddiv (dbl 1) (dbl 16).

(** The result is [*slide] and [*safe_delay]. *)
Definition jitter_control_new_packet (packet_ts cur_str_ts : Z) : CM JitterControl (Z * Z) :=
  let diff := i32 (packet_ts - cur_str_ts) in
  _ ← modify (fun c => c <| jc_count ::= (fun n => i32 (n + 1)) |>);
  _ ← modify (fun c => c <| slide := decay JC_BETA (slide c) (sgl diff) |>);
  c ← gets id;
  let gap := to_sgl (SFabs (to_dbl (fsub (sgl diff) (slide c)))) in
  _ ← modify (fun c => c <| jitter := decay JC_GAMMA (jitter c) gap |>);
  let d := i32 (diff - olddiff c) in
  _ ← modify (fun c => c <| inter_jitter :=
         to_sgl (dadd (to_dbl (inter_jitter c)) (dmul (to_dbl (fsub (sgl (i32 (Z.abs d))) (inter_jitter c))) sixteenth)) |>);
  _ ← modify (fun c => c <| olddiff := diff |>);
  c ← gets id;
  if adaptive c then
    s ← to_i32 (slide c);
    let tmp := i32 (s - corrective_slide c) in
    _ ← (if corrective_step c <? tmp then modify (fun c => c <| corrective_slide ::= (fun x => i32 (x + corrective_step c)) |>)
         else if tmp <? - corrective_step c then modify (fun c => c <| corrective_slide ::= (fun x => i32 (x - corrective_step c)) |>)
         else mret tt);
    adapt ← to_i32 (if SFltb (jitter c) (sgl (jitt_comp_ts c)) then sgl (jitt_comp_ts c) else jitter c);
    _ ← modify (fun c => c <| adapt_jitt_comp_ts := adapt |>);
    mret (s, adapt)
  else mret (0, jitt_comp_ts c).

Definition on_jitter {A} (a : Z) (m : CM JitterControl A) : CM Env A :=
  on_part a (fun s => jittctl (rtp s)) (fun j => on_rtp (fun r => r <| jittctl := j |>)) m.

Definition rtp_session_set_jitter_compensation (a milisec : Z) : CM Env unit :=
  s ← ses a;
  if recv_pt s =? -1 then mret tt
  else
    p ← session_payload a (recv_pt s);
    on_jitter a (jitter_control_init milisec p).
Definition rtp_session_enable_adaptive_jitter_compensation (a : Z) (val : bool) : CM Env unit :=
  on_jitter a (jitter_control_enable_adaptive val).
Definition rtp_session_adaptive_jitter_compensation_enabled (a : Z) : CM Env bool :=
  s ← ses a; mret (adaptive (jittctl (rtp s))).

(** ** Payload types *)

Definition RTCP_DEFAULT_REPORT_INTERVAL : Z := 5.

Definition payload_type_changed (a : Z) (pt : PayloadType) : CM Env unit :=
  _ ← on_jitter a (jitter_control_set_payload pt);
  _ ← upd a (on_rtp (fun r => r <| rtcp_report_snt_interval := u32 (RTCP_DEFAULT_REPORT_INTERVAL * clock_rate pt) |>));
  s ← ses a;
  rtp_session_set_time_jump_limit a (time_jump (rtp s)).

Definition rtp_session_update_payload_type (a paytype : Z) : CM Env unit :=
  pt ← session_payload a paytype;
  _ ← upd a (fun s => s <| hw_recv_pt := paytype |>);
  match pt with Some pt => payload_type_changed a pt | None => mret tt end.

Definition rtp_session_set_recv_payload_type (a paytype : Z) : CM Env Z :=
  _ ← upd a (fun s => s <| recv_pt := paytype |> <| hw_recv_pt := paytype |>);
  pt ← session_payload a paytype;
  _ ← (match pt with Some pt => payload_type_changed a pt | None => mret tt end);
  mret 0.

Definition rtp_session_set_payload_type (a pt : Z) : CM Env Z :=
  r ← rtp_session_set_send_payload_type a pt;
  if r <? 0 then mret (-1)
  else
    r ← rtp_session_set_recv_payload_type a pt;
    mret (if r <? 0 then -1 else 0).

(** ** Signals *)

(** A callback may free the session: reading its table is then a fault. *)
Definition freed_table : RtpSignalTable := mkTable [] [] (2 ^ 31 - 1).
Definition emit (a : Z) (table : RtpSession → RtpSignalTable) (args : list cb_arg) : CM Env unit :=
  _ ← ses a;
  emit_with (fun e => default freed_table (table <$> sessions (world e) !! a)) callback args.

End Stack.

(** * Running on a part of the state *)

Lemma hp_ret {A} (c : CM Mem A) e x m' : c (heap e) = Ret x m' → hp c e = Ret x (e <| heap := m' |>).
Proof. intros E. unfold hp, zoom. by rewrite E. Qed.
Lemma hp_same {A} (c : CM Mem A) e x : c (heap e) = Ret x (heap e) → hp c e = Ret x e.
Proof. intros E. unfold hp, zoom. rewrite E. by destruct e. Qed.
Lemma hp_bind {A B} (c : CM Mem A) (k : A → CM Env B) e x m' :
  c (heap e) = Ret x m' → (y ← hp c; k y) e = k x (e <| heap := m' |>).
Proof. intros E. by rewrite (bind_ret _ _ _ _ _ (hp_ret c e x m' E)). Qed.
Lemma hp_step {A B} (c : CM Mem A) (k : A → CM Env B) e m x m' :
  c m = Ret x m' → (y ← hp c; k y) (e <| heap := m |>) = k x (e <| heap := m' |>).
Proof. intros E. unfold mbind, CM_bind, hp, zoom. cbn. by rewrite E. Qed.
Lemma wd_bind {A B} (c : CM World A) (k : A → CM Env B) e x w' :
  c (world e) = Ret x w' → (y ← wd c; k y) e = k x (e <| world := w' |>).
Proof. intros E. unfold mbind, CM_bind, wd, zoom. by rewrite E. Qed.

Definition session_at (a : Z) (e : Env) : option RtpSession := sessions (world e) !! a.
(** The environment with another session at [a]. *)
Definition put_session (a : Z) (s : RtpSession) (e : Env) : Env := e <| world ::= (fun w => w <| sessions ::= <[a := s]> |>) |>.

Lemma ses_ret a e s : session_at a e = Some s → ses a e = Ret s e.
Proof.
  intros E. unfold ses, wd, zoom, sess_of. unfold mbind, CM_bind, gets, mret, CM_ret. unfold session_at in E. rewrite E. by destruct e.
Qed.
Lemma ses_bind {B} a e s (k : RtpSession → CM Env B) : session_at a e = Some s → (x ← ses a; k x) e = k s e.
Proof. intros E. by rewrite (bind_ret _ _ _ _ _ (ses_ret a e s E)). Qed.
Lemma upd_ret a f e s : session_at a e = Some s → upd a f e = Ret tt (put_session a (f s) e).
Proof.
  intros E. unfold upd, wd, zoom, on_sess, sess_of, session_at in *. unfold mbind, CM_bind, gets, mret, CM_ret, modify. rewrite E.
  by destruct e as [he pe [sc ss sg os si] gs ob cl ca ini].
Qed.
Lemma upd_bind {B} a f e s (k : unit → CM Env B) :
  session_at a e = Some s → (x ← upd a f; k x) e = k tt (put_session a (f s) e).
Proof. intros E. by rewrite (bind_ret _ _ _ _ _ (upd_ret a f e s E)). Qed.

Lemma session_put a s e : session_at a (put_session a s e) = Some s.
Proof. unfold session_at, put_session. destruct e as [he pe [sc ss sg os si] gs ob cl ca ini]. cbn. apply lookup_insert_eq. Qed.
Lemma put_session_again a s s' e : put_session a s' (put_session a s e) = put_session a s' e.
Proof. unfold put_session. destruct e as [he pe [sc ss sg os si] gs ob cl ca ini]. cbn. by rewrite insert_insert_eq. Qed.
Lemma put_session_same a s e : session_at a e = Some s → put_session a s e = e.
Proof. unfold session_at, put_session. destruct e as [he pe [sc ss sg os si] gs ob cl ca ini]. cbn. intros E. by rewrite insert_id. Qed.

Lemma count_stats_ret a f e s : session_at a e = Some s →
  count_stats a f e = Ret tt (put_session a (on_rtp (fun r => r <| stats ::= f |>) s) (e <| ortp_global_stats ::= f |>)).
Proof.
  intros E. unfold count_stats. unfold modify at 1. unfold mbind, CM_bind.
  rewrite (upd_ret a _ (e <| ortp_global_stats ::= f |>) s) by (by destruct e). done.
Qed.

Lemma syscall_ret {A} (f : nat → A) e : syscall f e = Ret (f (calls e)) (e <| calls ::= S |>).
Proof. done. Qed.
Lemma syscall_bind {A B} (f : nat → A) (k : A → CM Env B) e : (x ← syscall f; k x) e = k (f (calls e)) (e <| calls ::= S |>).
Proof. done. Qed.

(** ** A view of the environment

    What an operation on the session [a] works on: the session, the number of calls,
    the heap and the datagrams; the rest is that of [e]. *)

Definition view (a : Z) (s : RtpSession) (c : nat) (m : Mem) (ob : list datagram) (e : Env) : Env :=
  (put_session a s (e <| calls := c |> <| outbox := ob |>)) <| heap := m |>.

Section View.
Context (a : Z) (s : RtpSession) (c : nat) (m : Mem) (ob : list datagram) (e : Env).

Lemma view_id : session_at a e = Some s → view a s (calls e) (heap e) (outbox e) e = e.
Proof.
  unfold session_at, view, put_session. destruct e as [he pe [sc ss sg os si] gs o cl ca ini]. cbn. intros E. by rewrite insert_id.
Qed.
Lemma view_ses {B} (k : RtpSession → CM Env B) : (x ← ses a; k x) (view a s c m ob e) = k s (view a s c m ob e).
Proof. apply ses_bind. unfold view, session_at, put_session. destruct e as [he pe [sc ss sg os si] gs o cl ca ini]. cbn. apply lookup_insert_eq. Qed.
Lemma view_upd {B} f (k : unit → CM Env B) : (x ← upd a f; k x) (view a s c m ob e) = k tt (view a (f s) c m ob e).
Proof.
  rewrite (upd_bind a f _ s); unfold view, session_at, put_session; destruct e as [he pe [sc ss sg os si] gs o cl ca ini]; cbn.
  - by rewrite insert_insert_eq.
  - apply lookup_insert_eq.
Qed.
Lemma view_hp {A B} (op : CM Mem A) (k : A → CM Env B) x m' :
  op m = Ret x m' → (x ← hp op; k x) (view a s c m ob e) = k x (view a s c m' ob e).
Proof. intros E. unfold view. by rewrite (hp_step _ _ _ _ _ _ E). Qed.
Lemma view_syscall {A B} (f : nat → A) (k : A → CM Env B) :
  (x ← syscall f; k x) (view a s c m ob e) = k (f c) (view a s (S c) m ob e).
Proof. by destruct e as [he pe [sc ss sg os si] gs o cl ca ini]. Qed.
Lemma view_count {B} f (k : unit → CM Env B) :
  (x ← count_stats a f; k x) (view a s c m ob e) =
  k tt (view a (on_rtp (fun r => r <| stats ::= f |>) s) c m ob (e <| ortp_global_stats ::= f |>)).
Proof.
  assert (E : session_at a (view a s c m ob e) = Some s) by (unfold view, session_at, put_session; destruct e as [he pe [sc ss sg os si] gs o cl ca ini]; cbn; apply lookup_insert_eq).
  rewrite (bind_ret _ _ _ _ _ (count_stats_ret a f _ s E)). unfold view, put_session. destruct e as [he pe [sc ss sg os si] gs o cl ca ini]. cbn. by rewrite insert_insert_eq.
Qed.
Lemma view_part {T A B} get put (op : CM T A) x t (k : A → CM Env B) : op (get s) = Ret x t →
  (y ← on_part a get put op; k y) (view a s c m ob e) = k x (view a (put t s) c m ob e).
Proof.
  intros E. unfold on_part. unfold mbind at 1, CM_bind at 1.
  pose proof (view_ses (fun s => match op (get s) with Ret x t => _ ← upd a (put t); mret x | Blk t => _ ← upd a (put t); block | Flt f => fault_with f end)) as H.
  rewrite H, E. clear H. pose proof (view_upd (put t) (fun _ => mret (M := CM Env) x)) as H. by rewrite H.
Qed.
Lemma view_parts : session_at a (view a s c m ob e) = Some s ∧ heap (view a s c m ob e) = m ∧ outbox (view a s c m ob e) = ob ∧
  calls (view a s c m ob e) = c.
Proof. unfold view, session_at, put_session. destruct e as [he pe [sc ss sg os si] gs o cl ca ini]. cbn. split; [apply lookup_insert_eq|done]. Qed.
End View.

(** * An example environment *)

(** A system on which nothing is received and every call succeeds. *)
Program Definition quiet_system : System := {|
  gettimeofday_at n := (1000 + Z.of_nat n, 500000);
  random_at _ := 305419896;
  rand_at _ := 1234;
  recv_at _ _ := RecvError 11;
  send_error_at _ _ := None;
  socket_at n := Some (3 + Z.of_nat n);
  bind_at _ _ _ := true;
  OrtpEnv.inet_aton s := if String.eqb s "0.0.0.0" then Some 0 else Some 16777343;
  stack_addr _ := 0;
  buf_addr d := 16 * (Z.abs d + 1);
  realloc_addr _ _ := 16;
  junk _ _ := 0;
  callback _ _ _ := mret tt
|}.
Next Obligation. lia. Qed.
Next Obligation. done. Qed.
Next Obligation. cbn. intros d. replace (16 * (Z.abs d + 1)) with (4 * (Z.abs d + 1) * 4) by lia. by rewrite Z.rem_mul. Qed.
Next Obligation. done. Qed.

(** A session of H.263 video at address 100. *)
Definition ex_video_session : RtpSession :=
  (zero_session 101 102 103) <| profile := Some av_profile |> <| send_pt := 34 |> <| send_ssrc := 305419896 |> <| mode := RTP_SESSION_SENDONLY |>.
Definition ex_env : Env :=
  mkEnv mem0 av_mem (fresh_world {[ 100 := ex_video_session ]}) zero_stats [] [] 0 true.

(** * Time *)

(** The milliseconds of a timestamp, computed with three roundings in double
    precision and cut, are at most one less than the exact quotient and never more:
    with [t] the result, [t <= 1000 * ts / rate <= t + 1]. The conversion to 32 bits is
    defined whenever the time fits, and the environment is left as it was. *)
Theorem ts_to_time_bounds a ts e s p :
  session_at a e = Some s → session_payload a (send_pt s) e = Ret (Some p) e → in_u32 ts →
  0 < clock_rate p < 2 ^ 31 → 1000 * ts < clock_rate p * 2 ^ 32 →
  ∃ t, rtp_session_ts_to_time a ts e = Ret t e ∧ in_u32 t ∧ clock_rate p * t ≤ 1000 * ts ≤ clock_rate p * (t + 1).
Proof.
  intros Hs Hp Hts Hr Hfit. destruct (thousandth_u32 ts (clock_rate p) e) as (t & E & Ht & Hb); [done|lia|done|].
  exists t. split; [|done]. unfold rtp_session_ts_to_time. by rewrite (ses_bind a e s), (bind_ret _ _ _ _ _ Hp).
Qed.
Lemma ts_to_time_bounds_witness :
  rtp_session_ts_to_time 100 450001 ex_env = Ret 5000 ex_env ∧
  ∃ t, rtp_session_ts_to_time 100 450001 ex_env = Ret t ex_env ∧ in_u32 t ∧ 90000 * t ≤ 1000 * 450001 ≤ 90000 * (t + 1).
Proof.
  split; [vm_compute; reflexivity|].
  apply (ts_to_time_bounds 100 450001 ex_env ex_video_session payload_type_h263); try (vm_compute; split; congruence); vm_compute; reflexivity.
Defined.
