(* ===== verification/Rtcp.v ===== *)
(** * RTCP packets made and sent ([utils/ortp/src/rtcp.c], [rtcp.h], [rtpsession_ext.c],
    [ortp_rtcp_send] of [rtpsession.c])

    The stack makes sender and receiver reports, source descriptions and BYE packets
    in message blocks and sends a compound of them when a report is due. A C string
    is the list of its bytes without the terminating zero. *)

From Stdlib Require Import Floats.SpecFloat Strings.String.
From S2P Require Import Prelude Floating StrUtils Blocks RtpMod Payload OrtpSession Sched OrtpEnv.

(** * Layout *)

Definition RTCP_SENDER_INFO_SIZE : Z := 20.
Definition RTCP_REPORT_BLOCK_SIZE : Z := 24.
Definition RTCP_COMMON_HEADER_SIZE : Z := 4.
Definition RTCP_SSRC_FIELD_SIZE : Z := 4.
Definition RTCP_SR : Z := 200.
Definition RTCP_RR : Z := 201.
Definition RTCP_SDES : Z := 202.
Definition RTCP_BYE : Z := 203.
Definition RTCP_APP : Z := 204.
Definition RTCP_SDES_CNAME : Z := 1.
Definition RTCP_SDES_NAME : Z := 2.
Definition RTCP_SDES_EMAIL : Z := 3.
Definition RTCP_SDES_PHONE : Z := 4.
Definition RTCP_SDES_LOC : Z := 5.
Definition RTCP_SDES_TOOL : Z := 6.
Definition RTCP_SDES_NOTE : Z := 7.
Definition RTCP_SDES_MAX_STRING_SIZE : Z := 255.
Definition RTCP_SDES_CHUNK_DEFAULT_SIZE : Z := 1024.
Definition RTCP_BYE_HEADER_SIZE : Z := 8.
Definition RTCP_BYE_REASON_MAX_STRING_SIZE : Z := 255.

(** [sizeof(rtcp_sr_t)] and [sizeof(rtcp_rr_t)]: header, ssrc, reports. *)
Definition rtcp_sr_size : Z := RTCP_COMMON_HEADER_SIZE + RTCP_SSRC_FIELD_SIZE + RTCP_SENDER_INFO_SIZE + RTCP_REPORT_BLOCK_SIZE.
Definition rtcp_rr_size : Z := RTCP_COMMON_HEADER_SIZE + RTCP_SSRC_FIELD_SIZE + RTCP_REPORT_BLOCK_SIZE.

(** [rc] has 5 bits, [padbit] one, [version] two. *)
Definition rtcp_common_header_bytes (version padbit packet_type rc length : Z) : list Z :=
  [rc `mod` 32 + 32 * (padbit `mod` 2) + 64 * (version `mod` 4); u8 packet_type] ++ be_bytes 2 length.
Definition rtcp_common_header_init (type rc bytes_len : Z) : list Z :=
  rtcp_common_header_bytes 2 0 type rc (bytes_len `quot` 4 - 1).

Record sender_info_t := mkSenderInfo {
  ntp_timestamp_msw : Z;
  ntp_timestamp_lsw : Z;
  rtp_timestamp : Z;
  senders_packet_count : Z;
  senders_octet_count : Z
}.
Record report_block_t := mkReportBlock {
  rb_ssrc : Z;
  fraction_lost : Z;
  cum_num_packet_lost : Z;
  ext_high_seq_num_rec : Z;
  interarrival_jitter : Z;
  lsr : Z;
  delay_snc_last_sr : Z
}.
(** In network order. *)
Definition sender_info_bytes (i : sender_info_t) : list Z :=
  be_bytes 4 (ntp_timestamp_msw i) ++ be_bytes 4 (ntp_timestamp_lsw i) ++ be_bytes 4 (rtp_timestamp i) ++
  be_bytes 4 (senders_packet_count i) ++ be_bytes 4 (senders_octet_count i).
Definition report_block_bytes (b : report_block_t) : list Z :=
  be_bytes 4 (rb_ssrc b) ++ [u8 (fraction_lost b)] ++ be_bytes 3 (cum_num_packet_lost b) ++ be_bytes 4 (ext_high_seq_num_rec b) ++
  be_bytes 4 (interarrival_jitter b) ++ be_bytes 4 (lsr b) ++ be_bytes 4 (delay_snc_last_sr b).

(** Bytes written at an offset of the buffer of a block. *)
Definition poke (n : node) (off : Z) (bs : list Z) : CM Mem unit := b ← get_blk n; blk_write b off bs.
Definition advance (n : node) (k : Z) : CM Mem unit := upd_blk n (fun b => b <| b_wptr ::= (fun w => w + k) |>).

Section Rtcp.
Context `{System}.

(** * Source descriptions *)

Definition new_block (size : Z) : CM Mem node := allocb buf_addr junk size.
Definition append (mp : node) (data : list Z) (pad : bool) : CM Mem node := appendb buf_addr junk mp data pad.

Definition sdes_chunk_set_ssrc (m : node) (ssrc : Z) : CM Mem unit :=
  b ← get_blk m; blk_write b (b_rptr b) (be_bytes 4 ssrc).
Definition sdes_chunk_get_ssrc (m : node) : CM Mem Z :=
  b ← get_blk m; bs ← blk_read b (b_rptr b) 4; mret (be_val bs).

Definition sdes_chunk_new (ssrc : Z) : CM Mem node :=
  m ← new_block RTCP_SDES_CHUNK_DEFAULT_SIZE;
  _ ← sdes_chunk_set_ssrc m ssrc;
  _ ← advance m 4;
  mret m.

Definition sdes_chunk_append_item (m : node) (sdes_type : Z) (content : option (list Z)) : CM Mem node :=
  match content with
  | None => mret m
  | Some s =>
      let len := u8 (Z.min (zlen s) RTCP_SDES_MAX_STRING_SIZE) in
      m ← append m [u8 sdes_type; len] false;
      append m (take (Z.to_nat len) s) false
  end.

Definition sdes_chunk_pad (m : node) : CM Mem node := append m [0] true.

(** The descriptions of a source: CNAME, NAME, EMAIL, PHONE, LOC, TOOL, NOTE. *)
Record source := mkSource {
  src_cname : option (list Z);
  src_name : option (list Z);
  src_email : option (list Z);
  src_phone : option (list Z);
  src_loc : option (list Z);
  src_tool : option (list Z);
  src_note : option (list Z)
}.

Definition describe (chunk : node) (cname : option (list Z)) (d : source) : CM Mem unit :=
  chunk ← sdes_chunk_append_item chunk RTCP_SDES_CNAME cname;
  chunk ← sdes_chunk_append_item chunk RTCP_SDES_NAME (src_name d);
  chunk ← sdes_chunk_append_item chunk RTCP_SDES_EMAIL (src_email d);
  chunk ← sdes_chunk_append_item chunk RTCP_SDES_PHONE (src_phone d);
  chunk ← sdes_chunk_append_item chunk RTCP_SDES_LOC (src_loc d);
  chunk ← sdes_chunk_append_item chunk RTCP_SDES_TOOL (src_tool d);
  chunk ← sdes_chunk_append_item chunk RTCP_SDES_NOTE (src_note d);
  _ ← sdes_chunk_pad chunk;
  mret tt.

Definition rtp_session_set_source_description (a : Z) (d : source) : CM Env unit :=
  s ← ses a;
  m ← hp (sdes_chunk_new (send_ssrc s));
  _ ← hp (describe m (Some (default (bytes_of "Unknown") (src_cname d))) d);
  _ ← (match sd s with Some old => hp (freemsg (Some old)) | None => mret tt end);
  upd a (fun s => s <| sd := Some m |>).

(** The default name of a source without CNAME is computed but not used. *)
Definition rtp_session_add_contributing_source (a csrc : Z) (d : source) : CM Env unit :=
  m ← hp (sdes_chunk_new csrc);
  _ ← hp (describe m (src_cname d) d);
  s ← ses a;
  hp (putq (contributing_sources s) m).

(** The loop over the contributing sources; its step takes the successor of [mp], the
    packet, which is in no queue. *)
Fixpoint sdes_sources (fuel : nat) (q : Z) (mp : node) (tmp : option node) (m : node) (rc : Z) : CM Mem Z :=
  match fuel with
  | O => block
  | S fuel =>
      if qend q tmp then mret rc
      else
        t ← deref tmp;
        c ← dupmsg t;
        m ← concatb m c;
        tmp ← qnext (Some mp);
        sdes_sources fuel q mp tmp m (rc + 1)
  end.

Definition rtp_session_create_rtcp_sdes_packet (a : Z) : CM Env node :=
  s ← ses a;
  mp ← hp (new_block RTCP_COMMON_HEADER_SIZE);
  b ← hp (get_blk mp);
  let rtcp := b_wptr b in
  _ ← hp (advance mp RTCP_COMMON_HEADER_SIZE);
  d ← hp (deref (sd s));
  _ ← hp (sdes_chunk_set_ssrc d (send_ssrc s));
  c ← hp (dupmsg d);
  m ← hp (concatb mp c);
  tmp ← hp (qbegin (contributing_sources s));
  rc ← hp (fun m0 => sdes_sources (blocks m0) (contributing_sources s) mp tmp m 1 m0);
  size ← hp (msgdsize (Some mp));
  _ ← hp (poke mp rtcp (rtcp_common_header_init RTCP_SDES rc size));
  mret mp.

(** * BYE *)

Definition rtcp_create_simple_bye_packet (ssrc : Z) (reason : option (list Z)) : CM Mem node :=
  let strsize := match reason with Some r => Z.min (zlen r) RTCP_BYE_REASON_MAX_STRING_SIZE | None => 0 end in
  let strpadding := if 0 <? strsize then 3 - strsize `rem` 4 else 0 in
  let packet_size := if 0 <? strsize then RTCP_BYE_HEADER_SIZE + (1 + strsize + strpadding) else RTCP_BYE_HEADER_SIZE in
  mp ← new_block packet_size;
  b ← get_blk mp;
  _ ← poke mp (b_rptr b) (rtcp_common_header_init RTCP_BYE 1 packet_size);
  _ ← poke mp (b_rptr b + 4) (be_bytes 4 ssrc);
  _ ← advance mp RTCP_BYE_HEADER_SIZE;
  match reason with
  | None => mret mp
  | Some r =>
      _ ← append mp [u8 strsize] false;
      _ ← append mp (take (Z.to_nat strsize) r) false;
      _ ← append mp (replicate (Z.to_nat strpadding) 0) false;
      mret mp
  end.

(** * Sending *)

(** The result of [sendmsg] and the error code. *)
Definition net_send (sock : Z) (to : option sockaddr_in) (bs : list Z) : CM Env (Z * Z) :=
  err ← syscall (fun n => send_error_at n sock);
  match err with
  | Some e => mret (-1, e)
  | None => _ ← modify (fun e => e <| outbox ::= (fun l => l ++ [mkDatagram sock to bs]) |>); mret (zlen bs, 0)
  end.

Definition MAX_IOV : nat := 10.

(** [sendmsg] gathers the data of the first blocks of the message. *)
Fixpoint gather (iov : nat) (m : option node) : CM Mem (list Z) :=
  match iov, m with
  | S iov, Some n =>
      b ← get_blk n;
      bs ← blk_read b (b_rptr b) (b_wptr b - b_rptr b);
      r ← gather iov (b_cont b);
      mret (bs ++ r)
  | _, _ => mret []
  end.
Definition rtp_sendmsg (sock : Z) (m : node) (rem_addr : option sockaddr_in) : CM Env (Z * Z) :=
  bs ← hp (gather MAX_IOV (Some m)); net_send sock rem_addr bs.

Definition ortp_rtcp_send (a : Z) (m : node) : CM Env Z :=
  s ← ses a;
  let using_ext_socket := has_flag s RTP_SESSION_USING_EXT_SOCKETS in
  if (using_ext_socket && (0 <? rtcp_socket (rtcp s))) || (0 <? rtcp_rem_addrlen (rtcp s)) then
    '(error, errno) ← rtp_sendmsg (rtcp_socket (rtcp s)) m
      (if using_ext_socket && (0 <? rtcp_socket (rtcp s)) then None else Some (rtcp_rem_addr (rtcp s)));
    _ ← (if error <? 0 then
           if 0 <? tb_count (on_network_error s) then emit a on_network_error [ArgStr (Some (bytes_of "Error sending RTCP packet")); ArgInt errno] else mret tt
         else mret tt);
    _ ← hp (freemsg (Some m));
    mret error
  else
    _ ← hp (freemsg (Some m));
    mret 0.

Fixpoint remove_source (fuel : nat) (q ssrc : Z) (tmp : option node) : CM Mem unit :=
  match fuel with
  | O => block
  | S fuel =>
      if qend q tmp then mret tt
      else
        t ← deref tmp;
        csrc ← sdes_chunk_get_ssrc t;
        if csrc =? ssrc then remq q t
        else n ← qnext (Some t); remove_source fuel q ssrc n
  end.

Definition rtp_session_remove_contributing_sources (a ssrc : Z) : CM Env unit :=
  s ← ses a;
  tmp ← hp (qbegin (contributing_sources s));
  _ ← hp (fun m0 => remove_source (blocks m0) (contributing_sources s) ssrc tmp m0);
  m ← hp (rtcp_create_simple_bye_packet ssrc None);
  _ ← ortp_rtcp_send a m;
  mret tt.

(** * Reports *)

(** The doubles nearest to 1.0e-6 and 1e6, and [(double) (1LL << 32)]. *)
Definition millionth : spec_float := S754_finite false 4722366482869645 (-72).
Definition two32 : spec_float := dbl (2 ^ 32).

(** [(uint32_t) ((double) tv_usec * (double) (1LL << 32) * 1.0e-6)] *)
Definition ntp_fraction {S} (usec : Z) : CM S Z := to_u32 (dmul (dmul (dbl usec) two32) millionth).

Definition sender_info_init (a : Z) : CM Env sender_info_t :=
  s ← ses a;
  '(sec, usec) ← gettimeofday;
  tmp ← ntp_fraction usec;
  mret (mkSenderInfo (u32 (sec + 2208988800)) tmp (snd_last_ts (rtp s)) (u32 (st_packet_sent (stats (rtp s)))) (u32 (st_sent (stats (rtp s))))).

(** [(int) (256.0 * (float) packet_loss / (float) since)], as a [uint8_t] *)
Definition loss_fraction_of {S} (packet_loss since : Z) : CM S Z :=
  f ← to_i32 (ddiv (dmul (dbl 256) (to_dbl (sgl packet_loss))) (to_dbl (sgl since))); mret (u8 f).

(** [delay = (float) (dsec * 1e6) + dusec; delay = (float) (delay * 65536 * 1e-6); (uint32_t) delay] *)
Definition delay_of {S} (dsec dusec : Z) : CM S Z :=
  let delay := fadd (to_sgl (dmul (dbl dsec) (dbl 1000000))) (sgl dusec) in
  to_u32 (to_sgl (dmul (to_dbl (fmul delay (sgl 65536))) millionth)).

Definition report_block_init (a : Z) : CM Env report_block_t :=
  s ← ses a;
  let stream := rtp s in
  loss_fraction ←
    (if hwrcv_seq_at_last_SR stream =? 0 then mret 0
     else
       let packet_loss := u32 (hwrcv_extseq stream - hwrcv_seq_at_last_SR stream - hwrcv_since_last_SR stream) in
       _ ← upd a (on_rtp (fun r => r <| stats ::= (fun t => t <| st_cum_packet_loss ::= (fun c => u64 (c + packet_loss)) |>) |>));
       loss_fraction_of packet_loss (hwrcv_since_last_SR stream));
  _ ← upd a (on_rtp (fun r => r <| hwrcv_since_last_SR := 0 |> <| hwrcv_seq_at_last_SR := hwrcv_extseq r |>));
  delay ←
    (if fst (last_rcv_SR_time stream) =? 0 then mret 0
     else
       '(sec, usec) ← gettimeofday;
       delay_of (sec - fst (last_rcv_SR_time stream)) (usec - snd (last_rcv_SR_time stream)));
  jit ← to_u32 (inter_jitter (jittctl stream));
  s ← ses a;
  mret (mkReportBlock (recv_ssrc s) loss_fraction (u32 (st_cum_packet_loss (stats (rtp s)))) (hwrcv_extseq (rtp s)) jit
          (last_rcv_SR_ts (rtp s)) delay).

(** A report written into the buffer of [n] at [buf]; the result is its size. *)
Definition rtcp_sr_init (a : Z) (n : node) (buf size : Z) : CM Env Z :=
  if (0 <=? size) && (size <? rtcp_sr_size) then mret (-1)
  else
    _ ← hp (poke n buf (rtcp_common_header_init RTCP_SR 1 rtcp_sr_size));
    s ← ses a;
    _ ← hp (poke n (buf + 4) (be_bytes 4 (send_ssrc s)));
    si ← sender_info_init a;
    _ ← hp (poke n (buf + 8) (sender_info_bytes si));
    rb ← report_block_init a;
    _ ← hp (poke n (buf + 28) (report_block_bytes rb));
    mret rtcp_sr_size.

Definition rtcp_rr_init (a : Z) (n : node) (buf size : Z) : CM Env Z :=
  if (0 <=? size) && (size <? rtcp_rr_size) then mret (-1)
  else
    _ ← hp (poke n buf (rtcp_common_header_init RTCP_RR 1 rtcp_rr_size));
    s ← ses a;
    _ ← hp (poke n (buf + 4) (be_bytes 4 (send_ssrc s)));
    rb ← report_block_init a;
    _ ← hp (poke n (buf + 8) (report_block_bytes rb));
    mret rtcp_rr_size.

Definition is_sender (s : RtpSession) : bool :=
  (mode s =? RTP_SESSION_SENDONLY) || (mode s =? RTP_SESSION_SENDRECV).

(** A block with a sender or receiver report. *)
Definition report_block_of (a : Z) (init : Z → node → Z → Z → CM Env Z) (size : Z) : CM Env node :=
  cm ← hp (new_block size);
  b ← hp (get_blk cm);
  k ← init a cm (b_wptr b) size;
  _ ← hp (advance cm k);
  mret cm.

Definition __rtp_session_rtcp_process (a : Z) : CM Env unit :=
  s ← ses a;
  cm ← (if is_sender s then
          cm ← report_block_of a rtcp_sr_init rtcp_sr_size;
          sdes ← rtp_session_create_rtcp_sdes_packet a;
          _ ← hp (set_cont cm (Some sdes));
          mret cm
        else report_block_of a rtcp_rr_init rtcp_rr_size);
  _ ← ortp_rtcp_send a cm;
  mret tt.

Definition rtcp_due (st : RtpStream) : bool :=
  (rtcp_report_snt_interval st <? u32 (rcv_last_app_ts st - last_rtcp_report_snt_r st)) ||
  (rtcp_report_snt_interval st <? u32 (snd_last_ts st - last_rtcp_report_snt_s st)).

Definition rtp_session_rtcp_process (a : Z) : CM Env unit :=
  s ← ses a;
  if rtcp_due (rtp s) then
    _ ← upd a (on_rtp (fun st => st <| last_rtcp_report_snt_r := rcv_last_app_ts st |> <| last_rtcp_report_snt_s := snd_last_ts st |>));
    __rtp_session_rtcp_process a
  else mret tt.

Definition rtp_session_bye (a : Z) (reason : option (list Z)) : CM Env Z :=
  s ← ses a;
  bye ← hp (rtcp_create_simple_bye_packet (send_ssrc s) reason);
  cm ← (if is_sender s then
          cm ← report_block_of a rtcp_sr_init rtcp_sr_size;
          sdes ← rtp_session_create_rtcp_sdes_packet a;
          l ← hp (concatb cm (Some sdes));
          _ ← hp (concatb l (Some bye));
          mret cm
        else
          cm ← report_block_of a rtcp_rr_init rtcp_rr_size;
          _ ← hp (set_cont cm (Some bye));
          mret cm);
  ortp_rtcp_send a cm.

End Rtcp.

(** * What is sent *)

Section Proofs.
Context `{System}.

(** What a call of [sendmsg] leaves: the datagram, or nothing on an error. *)
Definition net_sent (d : datagram) (e : Env) : Env :=
  e <| outbox ::= (fun l => l ++ match send_error_at (calls e) (dg_socket d) with None => [d] | Some _ => [] end) |> <| calls ::= S |>.
Definition net_result (d : datagram) (e : Env) : Z :=
  match send_error_at (calls e) (dg_socket d) with None => zlen (dg_bytes d) | Some _ => -1 end.

Lemma net_send_ret sock to bs e : ∃ errno,
  net_send sock to bs e = Ret (net_result (mkDatagram sock to bs) e, errno) (net_sent (mkDatagram sock to bs) e).
Proof.
  unfold net_send, net_sent, net_result. rewrite syscall_bind. cbn [dg_socket dg_bytes]. destruct (send_error_at (calls e) sock) as [err|].
  - exists err. unfold mret, CM_ret. f_equal. destruct e. cbn. by rewrite app_nil_r.
  - exists 0. unfold modify, mbind, CM_bind, mret, CM_ret. by destruct e.
Qed.

(** Nothing reacts to errors of the network. *)
Definition no_error_handler (s : RtpSession) : Prop := tb_count (on_network_error s) ≤ 0.

(** ** The clock of a report *)

(** The fraction of an NTP timestamp is never too large and less than two units too small. *)
Lemma ntp_fraction_ret {S} usec (e : S) : 0 ≤ usec < 10 ^ 6 →
  ∃ f, ntp_fraction usec e = Ret f e ∧ in_u32 f ∧ 10 ^ 6 * f ≤ 2 ^ 32 * usec ≤ 10 ^ 6 * (f + 1).
Proof. apply binary_fraction. Qed.

(** ** The reports of a session *)

(** Nothing has been received on the session. *)
Record nothing_received (s : RtpSession) : Prop := {
  nr_seq : hwrcv_seq_at_last_SR (rtp s) = 0;
  nr_ext : hwrcv_extseq (rtp s) = 0;
  nr_sr : fst (last_rcv_SR_time (rtp s)) = 0;
  nr_jitter : inter_jitter (jittctl (rtp s)) = S754_zero false
}.

(** The session after a report block. *)
Definition reported (s : RtpSession) : RtpSession :=
  on_rtp (fun r => r <| hwrcv_since_last_SR := 0 |> <| hwrcv_seq_at_last_SR := hwrcv_extseq r |>) s.

Definition sender_info_at (s : RtpSession) (now : Z * Z) (f : Z) : sender_info_t :=
  mkSenderInfo (u32 (fst now + 2208988800)) f (snd_last_ts (rtp s)) (u32 (st_packet_sent (stats (rtp s)))) (u32 (st_sent (stats (rtp s)))).
Definition empty_report (s : RtpSession) : report_block_t :=
  mkReportBlock (recv_ssrc s) 0 (u32 (st_cum_packet_loss (stats (rtp s)))) 0 0 (last_rcv_SR_ts (rtp s)) 0.

Lemma sender_info_view a s c m ob e : 0 ≤ snd (gettimeofday_at c) < 10 ^ 6 →
  ∃ f, in_u32 f ∧ 10 ^ 6 * f ≤ 2 ^ 32 * snd (gettimeofday_at c) ≤ 10 ^ 6 * (f + 1) ∧
  ∀ B (k : sender_info_t → CM Env B),
    (x ← sender_info_init a; k x) (view a s c m ob e) = k (sender_info_at s (gettimeofday_at c) f) (view a s (S c) m ob e).
Proof.
  intros Hu. destruct (gettimeofday_at c) as [sec usec] eqn:Ec. cbn [snd] in Hu.
  destruct (ntp_fraction_ret usec (view a s (S c) m ob e) Hu) as (f & Ef & Hf & Hb). exists f. split; [done|]. split; [done|].
  intros B k. unfold sender_info_init. rewrite bind_assoc, view_ses, bind_assoc. unfold gettimeofday. rewrite view_syscall, Ec.
  by rewrite bind_assoc, (bind_ret _ _ _ _ _ Ef).
Qed.

Lemma report_block_view a s c m ob e B (k : report_block_t → CM Env B) : nothing_received s →
  (x ← report_block_init a; k x) (view a s c m ob e) = k (empty_report s) (view a (reported s) c m ob e).
Proof.
  intros [H1 H2 H3 H4]. unfold report_block_init. rewrite bind_assoc, view_ses, H1, bind_assoc. cbn [Z.eqb].
  rewrite (bind_ret _ _ _ 0 (view a s c m ob e)) by done. rewrite bind_assoc, view_upd, bind_assoc, H3.
  rewrite (bind_ret _ _ _ 0 (view a (reported s) c m ob e)) by done. rewrite H4, bind_assoc.
  rewrite (bind_ret _ _ _ 0 (view a (reported s) c m ob e)) by done. rewrite bind_assoc, view_ses. unfold empty_report. by rewrite <- H2.
Qed.

(** ** Reports in a block *)

Lemma zlen_common version padbit packet_type rc length : zlen (rtcp_common_header_bytes version padbit packet_type rc length) = 4.
Proof. done. Qed.
Lemma zlen_be n z : zlen (be_bytes n z) = Z.of_nat n.
Proof. unfold zlen. by rewrite be_bytes_length. Qed.
Lemma zlen_sender_info si : zlen (sender_info_bytes si) = 20.
Proof. unfold sender_info_bytes. by rewrite !zlen_app, !zlen_be. Qed.
Lemma zlen_report_block rb : zlen (report_block_bytes rb) = 24.
Proof. unfold report_block_bytes. by rewrite !zlen_app, !zlen_be. Qed.

(** A sender report on the wire. *)
Definition sr_bytes (ssrc : Z) (si : sender_info_t) (rb : report_block_t) : list Z :=
  rtcp_common_header_init RTCP_SR 1 rtcp_sr_size ++ be_bytes 4 ssrc ++ sender_info_bytes si ++ report_block_bytes rb.
Definition rr_bytes (ssrc : Z) (rb : report_block_t) : list Z :=
  rtcp_common_header_init RTCP_RR 1 rtcp_rr_size ++ be_bytes 4 ssrc ++ report_block_bytes rb.

Lemma poke_put a x m off bs :
  nb_data x = [] → 0 ≤ off → off + zlen bs ≤ zlen (nb_rest x) →
  poke (NBlk a) off bs (put_blk a x m) = Ret tt (put_blk a (x <| nb_rest := splice (nb_rest x) off bs |>) m).
Proof. intros Hd H0 Hl. unfold poke. rewrite (bind_ret _ _ _ _ _ (get_put a x m)). by apply poke_new. Qed.

Lemma sr_view a s c m ob e : nothing_received s → 0 ≤ snd (gettimeofday_at c) < 10 ^ 6 →
  ∃ f, in_u32 f ∧ 10 ^ 6 * f ≤ 2 ^ 32 * snd (gettimeofday_at c) ≤ 10 ^ 6 * (f + 1) ∧
  ∀ B (k : node → CM Env B),
    (x ← report_block_of a rtcp_sr_init rtcp_sr_size; k x) (view a s c m ob e) =
    k (NBlk (brk m)) (view a (reported s) (S c) (put_blk (brk m)
      (mkNblk None (buf_addr (brk m + 1)) true (sr_bytes (send_ssrc s) (sender_info_at s (gettimeofday_at c) f) (empty_report s)) [])
      (m <| brk := brk m + 2 |>)) ob e).
Proof.
  intros Hq Hu. destruct (put_allocb buf_addr junk rtcp_sr_size m ltac:(done)) as (buf & Hl & _ & Ea). set (n := brk m) in *.
  set (hdr := rtcp_common_header_init RTCP_SR 1 rtcp_sr_size). set (m2 := m <| brk := n + 2 |>) in *.
  set (x1 := fun r => mkNblk None (buf_addr (n + 1)) true [] r). set (r2 := splice (splice buf 0 hdr) 4 (be_bytes 4 (send_ssrc s))).
  destruct (sender_info_view a s c (put_blk n (x1 r2) m2) ob e Hu) as (f & Hf & Hb & Ek). exists f. split; [done|]. split; [done|].
  set (si := sender_info_at s (gettimeofday_at c) f) in *. set (rb := empty_report s).
  assert (Hh : zlen hdr = 4) by done. pose proof (zlen_be 4 (send_ssrc s)) as Hs. pose proof (zlen_sender_info si) as Hsi. pose proof (zlen_report_block rb) as Hrb.
  change rtcp_sr_size with 52 in Hl.
  assert (Hw : ∀ r o bs, zlen r = 52 → 0 ≤ o → o + zlen bs ≤ 52 → zlen (splice r o bs) = 52) by (intros r o bs Hr H0 H1; rewrite splice_zlen; lia).
  assert (H1 : zlen (splice buf 0 hdr) = 52) by (apply Hw; lia). assert (H2 : zlen r2 = 52) by (unfold r2; apply Hw; lia).
  assert (H3 : zlen (splice r2 8 (sender_info_bytes si)) = 52) by (apply Hw; lia).
  assert (Efill : splice (splice r2 8 (sender_info_bytes si)) 28 (report_block_bytes rb) = sr_bytes (send_ssrc s) si rb).
  { unfold r2. rewrite !splice_next by (rewrite ?zlen_app; lia). unfold sr_bytes. fold hdr. rewrite <- !app_assoc. apply splice_all. rewrite !zlen_app. lia. }
  intros B k. unfold report_block_of, new_block. rewrite bind_assoc, (view_hp _ _ _ _ _ _ _ _ _ _ Ea), bind_assoc.
  rewrite (view_hp _ _ _ _ _ _ _ _ _ _ (get_put n (x1 buf) m2)). change (b_wptr (nb_blk n (x1 buf))) with 0.
  unfold rtcp_sr_init. change ((0 <=? rtcp_sr_size) && (rtcp_sr_size <? rtcp_sr_size)) with false. cbv iota. fold hdr.
  rewrite !bind_assoc. rewrite (view_hp _ _ _ _ _ _ _ _ tt (put_blk n (x1 (splice buf 0 hdr)) m2)) by (apply poke_put; [done|lia|unfold x1; cbn [nb_rest]; lia]).
  rewrite !bind_assoc, view_ses, !bind_assoc.
  rewrite (view_hp _ _ _ _ _ _ _ _ tt (put_blk n (x1 r2) m2)) by (apply poke_put; [done|lia|unfold x1; cbn [nb_rest]; lia]).
  rewrite !bind_assoc, Ek, !bind_assoc.
  rewrite (view_hp _ _ _ _ _ _ _ _ tt (put_blk n (x1 (splice r2 8 (sender_info_bytes si))) m2)) by (apply poke_put; [done|lia|unfold x1; cbn [nb_rest]; lia]).
  rewrite !bind_assoc, report_block_view by done. fold rb. rewrite !bind_assoc.
  rewrite (view_hp _ _ _ _ _ _ _ _ tt (put_blk n (x1 (sr_bytes (send_ssrc s) si rb)) m2)).
  2: { rewrite (poke_put n) by (done || lia || (unfold x1; cbn [nb_rest]; lia)).
       change (Ret (A := unit) tt (put_blk n (x1 (splice (splice r2 8 (sender_info_bytes si)) 28 (report_block_bytes rb))) m2) = Ret tt (put_blk n (x1 (sr_bytes (send_ssrc s) si rb)) m2)).
       by rewrite Efill. }
  rewrite (bind_ret (mret rtcp_sr_size) _ _ rtcp_sr_size _) by done. rewrite bind_assoc.
  erewrite view_hp; [|apply (advance_put n _ m2 rtcp_sr_size (sr_bytes (send_ssrc s) si rb) []); [by rewrite app_nil_r|]].
  - done.
  - unfold sr_bytes. fold hdr. by rewrite !zlen_app, Hs, Hsi, Hrb.
Qed.

(** ** The source description *)

(** ** The description of a source *)

(** An item: its type, its length and at most 255 bytes. *)
Definition item_bytes (ty : Z) (content : option (list Z)) : list Z :=
  match content with
  | None => []
  | Some s => let len := u8 (Z.min (zlen s) RTCP_SDES_MAX_STRING_SIZE) in [u8 ty; len] ++ take (Z.to_nat len) s
  end.
Definition items_bytes (cname : option (list Z)) (d : source) : list Z :=
  item_bytes RTCP_SDES_CNAME cname ++ item_bytes RTCP_SDES_NAME (src_name d) ++ item_bytes RTCP_SDES_EMAIL (src_email d) ++
  item_bytes RTCP_SDES_PHONE (src_phone d) ++ item_bytes RTCP_SDES_LOC (src_loc d) ++ item_bytes RTCP_SDES_TOOL (src_tool d) ++
  item_bytes RTCP_SDES_NOTE (src_note d).

Lemma item_put a x m ty content : zlen (item_bytes ty content) ≤ zlen (nb_rest x) →
  sdes_chunk_append_item (NBlk a) ty content (put_blk a x m) = Ret (NBlk a) (put_blk a (filled x (item_bytes ty content)) m).
Proof.
  destruct content as [s|]; [|intros _; unfold sdes_chunk_append_item, item_bytes, mret, CM_ret; by rewrite filled_nil].
  unfold item_bytes, sdes_chunk_append_item, append. cbv zeta. set (len := u8 (zlen s `min` _)). rewrite zlen_app. intros Hr. change (zlen [u8 ty; len]) with 2 in Hr.
  pose proof (zlen_nonneg (take (Z.to_nat len) s)).
  rewrite (bind_ret _ _ _ _ _ (appendb_room buf_addr junk a x m [u8 ty; len] false ltac:(change (zlen [u8 ty; len]) with 2; cbn [pad_count]; lia))).
  rewrite appendb_room.
  - change (replicate (Z.to_nat (pad_count _ _ false)) 0) with (@nil Z). rewrite !app_nil_r, filled_again. done.
  - change (replicate (Z.to_nat (pad_count _ _ false)) 0) with (@nil Z). rewrite app_nil_r. cbn [pad_count].
    rewrite zlen_rest_filled by (change (zlen [u8 ty; len]) with 2; lia). change (zlen [u8 ty; len]) with 2. lia.
Qed.

Lemma bind_item {A} a x m ty content (k : node → CM Mem A) bs : zlen bs + zlen (item_bytes ty content) ≤ zlen (nb_rest x) →
  (c ← sdes_chunk_append_item (NBlk a) ty content; k c) (put_blk a (filled x bs) m) = k (NBlk a) (put_blk a (filled x (bs ++ item_bytes ty content)) m).
Proof.
  intros Hr. pose proof (zlen_nonneg (item_bytes ty content)). erewrite bind_ret; [|apply item_put; rewrite zlen_rest_filled; lia]. by rewrite filled_again.
Qed.

(** The items are followed by one to four zeros. *)
Lemma describe_put a x m cname d : zlen (items_bytes cname d) + 4 ≤ zlen (nb_rest x) →
  ∃ zeros, 1 ≤ zlen zeros ≤ 4 ∧ describe (NBlk a) cname d (put_blk a x m) = Ret tt (put_blk a (filled x (items_bytes cname d ++ zeros)) m).
Proof.
  intros Hr. set (x' := filled x (items_bytes cname d)). pose proof (pad_count_bound x' [0] true) as Hp.
  exists ([0] ++ replicate (Z.to_nat (pad_count x' [0] true)) 0). split; [rewrite zlen_app, zlen_replicate; change (zlen [0]) with 1; lia|].
  unfold items_bytes in Hr. rewrite !zlen_app in Hr.
  pose proof (λ ty c, zlen_nonneg (item_bytes ty c)) as Hn.
  pose proof (Hn RTCP_SDES_CNAME cname). pose proof (Hn RTCP_SDES_NAME (src_name d)). pose proof (Hn RTCP_SDES_EMAIL (src_email d)).
  pose proof (Hn RTCP_SDES_PHONE (src_phone d)). pose proof (Hn RTCP_SDES_LOC (src_loc d)). pose proof (Hn RTCP_SDES_TOOL (src_tool d)).
  pose proof (Hn RTCP_SDES_NOTE (src_note d)). clear Hn.
  unfold describe. rewrite <- (filled_nil x) at 1. rewrite !bind_item by (rewrite ?zlen_app; change (zlen []) with 0; lia).
  rewrite app_nil_l, <- !app_assoc. fold (items_bytes cname d). fold x'.
  unfold sdes_chunk_pad, append. erewrite bind_ret; [|apply appendb_room].
  - unfold mret, CM_ret. unfold x'. by rewrite filled_again.
  - unfold x'. rewrite zlen_rest_filled by (unfold items_bytes; rewrite !zlen_app; lia). change (zlen [0]) with 1. unfold items_bytes at 2. rewrite !zlen_app. fold x'. lia.
Qed.

Lemma chunk_new_put ssrc m : ∃ buf, zlen buf = RTCP_SDES_CHUNK_DEFAULT_SIZE - 4 ∧
  sdes_chunk_new ssrc m = Ret (NBlk (brk m)) (put_blk (brk m) (mkNblk None (buf_addr (brk m + 1)) true (be_bytes 4 ssrc) buf) (m <| brk := brk m + 2 |>)).
Proof.
  destruct (put_allocb buf_addr junk RTCP_SDES_CHUNK_DEFAULT_SIZE m ltac:(done)) as (buf & Hbuf & _ & E). exists (drop 4 buf).
  assert (H4 : zlen (be_bytes 4 ssrc) = 4) by (unfold zlen; by rewrite be_bytes_length).
  split; [unfold zlen in *; rewrite length_drop; unfold RTCP_SDES_CHUNK_DEFAULT_SIZE in *; lia|].
  unfold sdes_chunk_new, new_block. rewrite (bind_ret _ _ _ _ _ E). unfold sdes_chunk_set_ssrc. rewrite bind_assoc, (bind_ret _ _ _ _ _ (get_put _ _ _)).
  erewrite bind_ret; [|apply (poke_new _ _ _ 0); [done|done|cbn [nb_rest]; rewrite H4, Hbuf; done]].
  erewrite bind_ret; [|apply (advance_put _ _ _ 4 (be_bytes 4 ssrc) (drop 4 buf)); [|by rewrite H4]].
  - done.
  - cbn [nb_rest update]. unfold update. cbn [nb_rest]. unfold splice. rewrite H4. done.
Qed.

(** The description of the session is one block, begins with its SSRC, and there are no
    contributing sources. *)
Record described (s : RtpSession) (d : node) (b : mblk_t) (k : Z) (D : dblk_t) (m : Mem) : Prop := {
  de_sd : sd s = Some d;
  de_chunk : chunk d b k D m;
  de_ssrc : ∃ items, chunk_data b D = be_bytes 4 (send_ssrc s) ++ items;
  de_alone : nxt m (NFirst (contributing_sources s)) = Some (NLast (contributing_sources s));
  de_len : zlen (chunk_data b D) < 2 ^ 31 - 4
}.
Definition sdes_header (data : list Z) : list Z := rtcp_common_header_init RTCP_SDES 1 (4 + zlen data).

Lemma concat_dup a x g b k D m : a ≠ g → k ≠ a + 1 → nb_cont x = None → clear a m → mblks m !! NBlk g = None →
  concatb (NBlk a) (Some (NBlk g)) (put_blk a x (put_dup g b k D m)) =
  Ret (NBlk g) (put_blk a (x <| nb_cont := Some (NBlk g) |>) (put_dup g b k D m)).
Proof.
  intros Ha Hk Hc Hcl Hg. unfold concatb. set (h := put_blk a x _).
  destruct (blocks_S h) as [f ->]. cbn [last_blk]. rewrite bind_assoc. unfold h at 1. rewrite (bind_ret _ _ _ _ _ (get_put a x _)).
  cbn [nb_blk b_cont]. rewrite Hc. rewrite (bind_ret (mret (NBlk a)) _ _ (NBlk a) _) by done.
  rewrite (bind_ret _ _ _ _ _ (set_cont_put a x (Some (NBlk g)) _)), bind_deref. set (h2 := put_blk a _ _).
  assert (Eg : get_blk (NBlk g) h2 = Ret (mkMblk None None None (Some k) (b_rptr b) (b_wptr b)) h2).
  { apply get_blk_ret. unfold h2. rewrite put_blk_other by congruence. cbn. by rewrite lookup_insert_eq. }
  by rewrite (bind_ret _ _ _ _ _ Eg).
Qed.

Lemma sdes_view a s c m ob e x d b k D B (kk : node → CM Env B) : fresh m → described s d b k D m →
  let n := brk m in
  (p ← rtp_session_create_rtcp_sdes_packet a; kk p) (view a s c (put_blk n x (m <| brk := n + 2 |>)) ob e) =
  kk (NBlk (n + 2)) (view a s c (put_blk n x (put_tail n b k D
    (mkNblk None (buf_addr (n + 3)) true (sdes_header (chunk_data b D)) []) (m <| brk := n + 5 |>))) ob e).
Proof.
  intros Hf [Hsd C [items Hit] Hq Hlen] n. destruct (chunk_old n d b k D m Hf ltac:(done) C) as (O1 & O2 & O3 & O4).
  set (h := put_blk n x (m <| brk := n + 2 |>)). destruct (put_allocb buf_addr junk 4 h ltac:(done)) as (buf & Hl & _ & Ea).
  change (brk h) with (n + 2) in Ea. replace (n + 2 + 1) with (n + 3) in Ea by lia. replace (n + 2 + 2) with (n + 4) in Ea by lia.
  set (y := fun dt r => mkNblk None (buf_addr (n + 3)) true dt r). set (h4 := h <| brk := n + 4 |>) in *.
  unfold rtp_session_create_rtcp_sdes_packet, new_block. rewrite bind_assoc, view_ses, bind_assoc, (view_hp _ _ _ _ _ _ _ _ _ _ Ea), bind_assoc.
  rewrite (view_hp _ _ _ _ _ _ _ _ _ _ (get_put (n + 2) (y [] buf) h4)), bind_assoc. change (b_wptr (nb_blk (n + 2) (y [] buf))) with 0.
  rewrite (view_hp _ _ _ _ _ _ _ _ _ _ (advance_put (n + 2) (y [] buf) h4 4 buf [] ltac:(by rewrite app_nil_r) ltac:(done))), bind_assoc.
  change ((y [] buf) <| nb_data := nb_data (y [] buf) ++ buf |> <| nb_rest := [] |>) with (y buf []).
  set (h5 := put_blk (n + 2) (y buf []) h4). rewrite Hsd, (view_hp _ _ _ _ _ _ _ _ d h5) by done. rewrite bind_assoc.
  assert (C5 : chunk d b k D h5).
  { apply chunk_put; [done|lia|]. destruct C as [C1 C2 C3 C4 C5 C6 C7 C8]. split; try done; cbn; rewrite lookup_insert_ne by (done || lia); done. }
  rewrite (view_hp _ _ _ _ _ _ _ _ tt h5).
  2: { unfold sdes_chunk_set_ssrc. rewrite (bind_ret _ _ _ b h5) by (apply get_blk_ret, C5). by apply (chunk_write_same d b k D h5 _ items). }
  rewrite bind_assoc. assert (N5 : mblks h5 !! NBlk (brk h5) = None).
  { change (brk h5) with (n + 4). unfold h5, h4, h. rewrite put_blk_other by (intros [= ?]; lia). cbn. rewrite lookup_insert_ne by (intros [= ?]; lia).
    apply Hf. lia. }
  rewrite (view_hp _ _ _ _ _ _ _ _ _ _ (dupmsg_chunk d b k D h5 C5 N5)), bind_assoc. change (brk h5) with (n + 4). replace (n + 4 + 1) with (n + 5) by lia.
  set (hx := put_blk n x (m <| brk := n + 5 |>)).
  assert (E6 : (put_dup (n + 4) b k D h5) <| brk := n + 5 |> = put_blk (n + 2) (y buf []) (put_dup (n + 4) b k D hx)).
  { unfold h5. by rewrite put_dup_swap by lia. }
  rewrite E6. assert (Chx : clear (n + 2) hx) by (apply clear_put; [lia|]; apply (fresh_clear n m Hf ltac:(done)); lia).
  assert (Nhx : mblks hx !! NBlk (n + 4) = None) by (unfold hx; rewrite put_blk_other by (intros [= ?]; lia); apply (fresh_clear n m Hf ltac:(done)); lia).
  rewrite (view_hp _ _ _ _ _ _ _ _ _ _ (concat_dup (n + 2) (y buf []) (n + 4) b k D hx ltac:(lia) ltac:(lia) ltac:(done) Chx Nhx)), bind_assoc.
  set (h7 := put_blk (n + 2) _ (put_dup (n + 4) b k D hx)). set (q := contributing_sources s) in *.
  assert (E7 : qbegin q h7 = Ret (Some (NLast q)) h7).
  { unfold qbegin, next_of. unfold nxt in Hq. destruct (mblks m !! NFirst q) as [bq|] eqn:Eq; [|done]. cbn in Hq.
    rewrite (bind_ret _ _ _ bq h7); [by rewrite Hq|]. apply get_blk_ret. unfold h7. rewrite put_blk_other by done. cbn. by rewrite !lookup_insert_ne by done. }
  rewrite (view_hp _ _ _ _ _ _ _ _ _ _ E7), bind_assoc.
  rewrite (view_hp _ _ _ _ _ _ _ _ 1 h7).
  2: { destruct (blocks_S h7) as [f ->]. cbn [sdes_sources]. unfold qend. by rewrite (bool_decide_eq_true_2 (Some (NLast q) = Some (NLast q))), orb_true_r by done. }
  rewrite bind_assoc. set (t := put_blk n x (put_tail n b k D (y buf []) (m <| brk := n + 5 |>))).
  assert (Et : h7 = t) by (unfold h7, t, put_tail, hx; by rewrite put_dup_swap, put_blk_swap by lia).
  rewrite Et. pose proof (size_tail n d b k D m Hf ltac:(done) C x (y buf []) (n + 5)) as Es. cbn [nb_data y] in Es.
  unfold y in Es. cbn [nb_data] in Es. rewrite Hl in Es. specialize (Es ltac:(lia)). rewrite (view_hp _ _ _ _ _ _ _ _ _ _ Es), bind_assoc.
  fold (sdes_header (chunk_data b D)). change RTCP_COMMON_HEADER_SIZE with 4 in *. set (hdr := sdes_header (chunk_data b D)).
  assert (Ep : poke (NBlk (n + 2)) 0 hdr t = Ret tt (put_blk n x (put_tail n b k D (y hdr []) (m <| brk := n + 5 |>)))).
  { rewrite <- Et. unfold h7, poke. rewrite (bind_ret _ _ _ _ _ (get_put (n + 2) _ _)).
    rewrite write_put by (change (nb_data ((y buf []) <| nb_cont := Some (NBlk (n + 4)) |>)) with buf; (lia || (change (zlen hdr) with 4; lia))).
    change (nb_data ((y buf []) <| nb_cont := Some (NBlk (n + 4)) |>)) with buf. rewrite splice_all by (by rewrite Hl).
    unfold put_tail, hx. rewrite put_dup_swap, put_blk_swap by lia. done. }
  by rewrite (view_hp _ _ _ _ _ _ _ _ _ _ Ep).
Qed.

(** ** The compound *)

Lemma gather_three n d b k D m x y j : fresh m → n = brk m → chunk d b k D m →
  let h := put_three n b k D x y (m <| brk := j |>) in
  gather MAX_IOV (Some (NBlk n)) h = Ret (nb_data x ++ nb_data y ++ chunk_data b D) h.
Proof.
  intros Hf Hn C h. destruct (chunk_old n d b k D m Hf Hn C) as (O1 & O2 & O3 & O4). set (m0 := m <| brk := j |>) in *.
  unfold MAX_IOV. cbn [gather]. set (x1 := x <| nb_cont := Some (NBlk (n + 2)) |>). set (y1 := y <| nb_cont := Some (NBlk (n + 4)) |>).
  assert (Ex : h = put_blk n x1 (put_tail n b k D y m0)) by done.
  assert (Ey : h = put_blk (n + 2) y1 (put_blk n x1 (put_dup (n + 4) b k D m0))) by (unfold h, put_three, put_tail; by rewrite put_blk_swap by lia).
  assert (Ed : h = put_dup (n + 4) b k D (put_blk n x1 (put_blk (n + 2) y1 m0))).
  { unfold h, put_three, put_tail. by rewrite !put_dup_swap by lia. }
  rewrite (bind_ret _ _ _ (nb_blk n x1) h) by (rewrite Ex; apply get_put). cbn [nb_blk b_wptr b_rptr b_cont]. rewrite Z.sub_0_r.
  rewrite (bind_ret _ _ _ (nb_data x1) h) by (rewrite Ex; apply (read_put_all n x1)). change (nb_cont x1) with (Some (NBlk (n + 2))). cbv iota.
  erewrite bind_ret; [done|]. rewrite (bind_ret _ _ _ (nb_blk (n + 2) y1) h) by (rewrite Ey; apply get_put). cbn [nb_blk b_wptr b_rptr b_cont]. rewrite Z.sub_0_r.
  rewrite (bind_ret _ _ _ (nb_data y1) h) by (rewrite Ey; apply (read_put_all (n + 2) y1)). change (nb_cont y1) with (Some (NBlk (n + 4))). cbv iota.
  erewrite bind_ret; [done|]. rewrite (bind_ret _ _ _ (mkMblk None None None (Some k) (b_rptr b) (b_wptr b)) h) by (rewrite Ed; apply get_dup).
  rewrite (bind_ret _ _ _ (chunk_data b D) h).
  - cbn [b_cont]. rewrite (bind_ret (mret []) _ _ [] h) by done. by rewrite app_nil_r.
  - rewrite Ed. cbn [b_wptr b_rptr]. apply (read_dup _ _ _ _ d). apply chunk_put; [done|lia|]. apply chunk_put; [done|lia|].
    apply (chunk_brk d b k D m C).
Qed.

(** Where RTCP goes. *)
Definition rtcp_reachable (s : RtpSession) : bool :=
  (has_flag s RTP_SESSION_USING_EXT_SOCKETS && (0 <? rtcp_socket (rtcp s))) || (0 <? rtcp_rem_addrlen (rtcp s)).
Definition rtcp_datagram (s : RtpSession) (bs : list Z) : datagram :=
  mkDatagram (rtcp_socket (rtcp s))
    (if has_flag s RTP_SESSION_USING_EXT_SOCKETS && (0 <? rtcp_socket (rtcp s)) then None else Some (rtcp_rem_addr (rtcp s))) bs.
Lemma rtcp_send_view a s c m m' ob e p bs : no_error_handler s →
  gather MAX_IOV (Some p) m = Ret bs m → freemsg (Some p) m = Ret tt m' →
  ∃ r, ortp_rtcp_send a p (view a s c m ob e) =
  Ret r (if rtcp_reachable s then net_sent (rtcp_datagram s bs) (view a s c m' ob e) else view a s c m' ob e).
Proof.
  intros Hcb Hg Hfree. unfold ortp_rtcp_send. rewrite view_ses. fold (rtcp_reachable s). destruct (rtcp_reachable s).
  - unfold rtp_sendmsg. rewrite bind_assoc, (view_hp _ _ _ _ _ _ _ _ _ _ Hg).
    destruct (net_send_ret (rtcp_socket (rtcp s)) (dg_to (rtcp_datagram s bs)) bs (view a s c m ob e)) as [errno En].
    rewrite (bind_ret _ _ _ _ _ En). set (r := net_result _ _). exists r.
    set (o2 := outbox (net_sent (mkDatagram (rtcp_socket (rtcp s)) (dg_to (rtcp_datagram s bs)) bs) (view a s c m ob e))).
    assert (Ev : ∀ h, net_sent (rtcp_datagram s bs) (view a s c h ob e) = view a s (S c) h o2 e).
    { intros h. unfold o2, net_sent, view, put_session. destruct e as [he pe [sc ss sg os si] gs o cl ca ini]. done. }
    rewrite (Ev m'). change (mkDatagram _ _ bs) with (rtcp_datagram s bs). rewrite (Ev m).
    assert (Hskip : ∀ B (k : unit → CM Env B) e', (x ← (if r <? 0 then
      if 0 <? tb_count (on_network_error s) then emit a on_network_error [ArgStr (Some (bytes_of "Error sending RTCP packet")); ArgInt errno] else mret tt
      else mret tt); k x) e' = k tt e').
    { intros B k e'. rewrite (proj2 (Z.ltb_ge 0 _)) by done. by destruct (r <? 0). }
    by rewrite Hskip, (view_hp _ _ _ _ _ _ _ _ _ _ Hfree).
  - exists 0. by rewrite (view_hp _ _ _ _ _ _ _ _ _ _ Hfree).
Qed.

(** The session after its report was sent. *)
Definition report_sent (s : RtpSession) : RtpSession :=
  reported (on_rtp (fun st => st <| last_rtcp_report_snt_r := rcv_last_app_ts st |> <| last_rtcp_report_snt_s := snd_last_ts st |>) s).

Lemma rtcp_process_view a s c m ob e d b k D :
  fresh m → described s d b k D m → nothing_received s → no_error_handler s →
  is_sender s = true → 0 ≤ snd (gettimeofday_at c) < 10 ^ 6 →
  ∃ f, in_u32 f ∧ 10 ^ 6 * f ≤ 2 ^ 32 * snd (gettimeofday_at c) ≤ 10 ^ 6 * (f + 1) ∧
  rtp_session_rtcp_process a (view a s c m ob e) = Ret tt
    (if rtcp_due (rtp s) then
       let e' := view a (report_sent s) (S c) (m <| brk ::= (fun n => n + 5) |>) ob e in
       if rtcp_reachable s then
         net_sent (rtcp_datagram s (sr_bytes (send_ssrc s) (sender_info_at s (gettimeofday_at c) f) (empty_report s) ++
           sdes_header (chunk_data b D) ++ chunk_data b D)) e'
       else e'
     else view a s c m ob e).
Proof.
  intros Hf De Hq Hcb Hm Hu. set (s1 := on_rtp (fun st => st <| last_rtcp_report_snt_r := rcv_last_app_ts st |> <| last_rtcp_report_snt_s := snd_last_ts st |>) s).
  assert (Hq1 : nothing_received s1) by (destruct Hq; by split).
  destruct (sr_view a s1 c m ob e Hq1 Hu) as (f & Hf32 & Hb & Esr). exists f. split; [done|]. split; [done|].
  unfold rtp_session_rtcp_process. rewrite view_ses. destruct (rtcp_due (rtp s)); [|done].
  rewrite view_upd. fold s1. unfold __rtp_session_rtcp_process. rewrite view_ses.
  change (is_sender s1) with (is_sender s). rewrite Hm, !bind_assoc, Esr. set (n := brk m). set (x := mkNblk _ _ _ _ _).
  assert (De1 : described (reported s1) d b k D m) by (destruct De; by split). pose proof (de_chunk _ _ _ _ _ _ De) as C.
  rewrite !bind_assoc, (sdes_view _ _ _ _ _ _ _ _ _ _ _ _ _ Hf De1). fold n. set (y := mkNblk _ _ _ _ _). rewrite bind_assoc.
  rewrite (view_hp _ _ _ _ _ _ _ _ _ _ (set_cont_put n x (Some (NBlk (n + 2))) _)).
  rewrite (bind_ret (mret (NBlk n)) _ _ (NBlk n) _) by done.
  destruct (rtcp_send_view a (reported s1) (S c) (put_three n b k D x y (m <| brk := n + 5 |>)) (m <| brk := n + 5 |>)
    ob e (NBlk n) _ Hcb (gather_three n d b k D m x y (n + 5) Hf eq_refl C)
    (free_three n d b k D m Hf eq_refl C x y (n + 5) (buf_addr_ok _) (buf_addr_ok _))) as [r Er].
  rewrite (bind_ret _ _ _ _ _ Er). unfold x, y. cbn [nb_data]. done.
Qed.

Lemma report_not_due s : 0 ≤ rtcp_report_snt_interval (rtp s) → rtcp_due (rtp (report_sent s)) = false.
Proof.
  intros Hi. unfold rtcp_due, report_sent, reported, on_rtp. cbn. rewrite !Z.sub_diag. change (u32 0) with 0. apply orb_false_iff. split; by apply Z.ltb_ge.
Qed.

(** C36: The report of a session that sends, has received nothing, has its description set up and
    no contributing source besides, and no callback for network errors. When no report is
    due nothing happens. One is due when more timestamps than the interval have
    passed, in one direction, since the last one. Then it counts as sent, so that the next is
    not due yet, and if there is a peer to send it to ([rtcp_reachable]: the address of the
    peer's RTCP is known or the socket is the application's), exactly one datagram
    leaves: a sender report
    (NTP time of the clock with a fraction at most two units low, the timestamp of the last
    packet, counts of packets and bytes, an empty report block) and the description
    of the source, both with a right length field. With no such peer nothing leaves. The heap
    is as before in each case. *)
Theorem rtcp_process_spec a s e d b k D :
  session_at a e = Some s → fresh (heap e) → described s d b k D (heap e) → nothing_received s → no_error_handler s →
  is_sender s = true → 0 ≤ snd (gettimeofday_at (calls e)) < 10 ^ 6 → 0 ≤ rtcp_report_snt_interval (rtp s) →
  ∃ f, in_u32 f ∧ 10 ^ 6 * f ≤ 2 ^ 32 * snd (gettimeofday_at (calls e)) ≤ 10 ^ 6 * (f + 1) ∧
  rtcp_due (rtp (report_sent s)) = false ∧
  rtp_session_rtcp_process a e = Ret tt
    (if rtcp_due (rtp s) then
       let e' := view a (report_sent s) (S (calls e)) ((heap e) <| brk ::= (fun n => n + 5) |>) (outbox e) e in
       if rtcp_reachable s then
         net_sent (rtcp_datagram s (sr_bytes (send_ssrc s) (sender_info_at s (gettimeofday_at (calls e)) f) (empty_report s) ++
           sdes_header (chunk_data b D) ++ chunk_data b D)) e'
       else e'
     else e).
Proof.
  intros Hs Hf De Hq Hcb Hm Hu Hi.
  destruct (rtcp_process_view a s (calls e) (heap e) (outbox e) e d b k D Hf De Hq Hcb Hm Hu) as (f & Hf32 & Hb & E).
  exists f. rewrite (view_id a s e Hs) in E. split; [done|]. split; [done|]. split; [by apply report_not_due|done].
Qed.

End Proofs.

(** ** An example *)

(** The video session with a description, a minute into the stream. *)
Definition ex_describe : CM Env unit :=
  _ ← hp (qinit 103);
  _ ← rtp_session_set_source_description (H := quiet_system) 100
    (mkSource (Some (bytes_of "unknown@unknown")) None None None None (Some (bytes_of "oRTP-0.9.1")) None);
  upd 100 (fun s => (on_rtcp (fun r => r <| rtcp_socket := 4 |> <| rtcp_rem_addr := mkAddr 2 16777343 6001 |> <| rtcp_rem_addrlen := 16 |>)
    (on_rtp (fun r => r <| rtcp_report_snt_interval := 450000 |> <| snd_last_ts := 5400000 |>) s))).
Definition ex_report_env : Env := match ex_describe ex_env with Ret _ e => e | _ => ex_env end.
Definition ex_reporter : RtpSession := default ex_video_session (session_at 100 ex_report_env).
Definition ex_chunk : node := default (NBlk 0) (sd ex_reporter).
Definition ex_chunk_blk : mblk_t := default (mkMblk None None None None 0 0) (mblks (heap ex_report_env) !! ex_chunk).
Definition ex_chunk_db : dblk_t := default (mkDblk 0 [] false 0) (dblks (heap ex_report_env) !! (default 0 (b_datap ex_chunk_blk))).

Lemma rtcp_process_spec_witness :
  match rtp_session_rtcp_process (H := quiet_system) 100 ex_report_env with
  | Ret _ e => map (fun d => (dg_socket d, length (dg_bytes d))) (outbox e) = [(4, 92%nat)]
  | _ => False
  end.
Proof.
  destruct (rtcp_process_spec (H := quiet_system) 100 ex_reporter ex_report_env ex_chunk ex_chunk_blk (default 0 (b_datap ex_chunk_blk)) ex_chunk_db)
    as (f & _ & _ & _ & ->).
  - vm_compute. reflexivity.
  - apply fresh_check; vm_compute; repeat constructor.
  - split; [vm_compute; reflexivity| |eexists; vm_compute; reflexivity|vm_compute; reflexivity|vm_compute; reflexivity].
    split; try (vm_compute; reflexivity); vm_compute; try split; congruence.
  - split; vm_compute; reflexivity.
  - vm_compute. congruence.
  - vm_compute. reflexivity.
  - vm_compute. split; congruence.
  - vm_compute. congruence.
  - vm_compute. reflexivity.
Defined.
