(* ===== verification/RtcpParse.v ===== *)
(** * RTCP packets received ([utils/ortp/src/rtcpparse.c], [rtcp_recv] of [rtpsession.c],
    [ortp_strndup] of [port.c])

    A compound packet is parsed in the buffer it was received in: the fields of a
    report are converted to the order of the machine in place. The buffer is cut to
    the size of the datagram first, so whatever is read or written behind the
    datagram is a fault. *)

From Stdlib Require Import Floats.SpecFloat Strings.String.
From S2P Require Import Prelude Floating StrUtils Blocks RtpMod Payload OrtpSession Sched OrtpEnv Rtcp.

(** [k] bytes of the buffer of a block, and a field whose bytes are reversed in place. *)
Definition peek (n : node) (off k : Z) : CM Mem (list Z) := b ← get_blk n; blk_read b off k.
Definition swap (n : node) (off k : Z) : CM Mem Z :=
  bs ← peek n off k; _ ← poke n off (reverse bs); mret (be_val bs).

(** [strlen] runs until a zero, over the end of the buffer if there is none; [strncpy]
    writes [n] bytes into the copy, which has room for the string and its zero. *)
Definition ortp_strndup {S} (str : list Z) (n : Z) : CM S (list Z) :=
  match find_idx (fun c => c =? 0) str with
  | None => fault_with OutOfBounds
  | Some len =>
      let min := Z.min len n + 1 in
      if min <? n then fault_with OutOfBounds else mret (take (Z.to_nat (min - 1)) str)
  end.

Section RtcpParse.
Context `{System}.

(** The round trip time is computed and not used. *)
Definition report_block_parse (a : Z) (mp : node) (rb : Z) (rcv_time : Z * Z) : CM Env unit :=
  ssrc ← hp (swap mp rb 4);
  s ← ses a;
  if negb (ssrc =? send_ssrc s) then mret tt
  else
    _ ← ntp_fraction (snd rcv_time);
    _ ← hp (swap mp (rb + 5) 3);
    _ ← hp (swap mp (rb + 8) 4);
    _ ← hp (swap mp (rb + 12) 4);
    _ ← hp (swap mp (rb + 16) 4);
    _ ← hp (swap mp (rb + 20) 4);
    mret tt.

(** The report blocks from [rb] on. *)
Definition report_blocks (a : Z) (mp : node) (rb rc : Z) (tv : Z * Z) : CM Env unit :=
  for_each (seqZ 0 rc) (fun i => report_block_parse a mp (rb + RTCP_REPORT_BLOCK_SIZE * i) tv).

(** The cases of a packet at [rtcp] with [rc] in its header: [false] when the function
    returns. *)
Definition parse_sr (a : Z) (mp : node) (rtcp rc msgsize : Z) (tv : Z * Z) : CM Env bool :=
  ssrc ← hp (peek mp (rtcp + 4) 4);
  s ← ses a;
  if negb (be_val ssrc =? recv_ssrc s) then mret false
  else if msgsize <? RTCP_COMMON_HEADER_SIZE + RTCP_SSRC_FIELD_SIZE + RTCP_SENDER_INFO_SIZE + RTCP_REPORT_BLOCK_SIZE * rc then mret false
  else
    msw ← hp (swap mp (rtcp + 8) 4);
    lsw ← hp (swap mp (rtcp + 12) 4);
    _ ← hp (swap mp (rtcp + 16) 4);
    _ ← hp (swap mp (rtcp + 20) 4);
    _ ← hp (swap mp (rtcp + 24) 4);
    _ ← upd a (on_rtp (fun r => r <| last_rcv_SR_ts := Z.lor (u32 (Z.shiftl msw 16)) (Z.shiftr lsw 16) |> <| last_rcv_SR_time := tv |>));
    _ ← report_blocks a mp (rtcp + 28) rc tv;
    mret true.

Definition parse_rr (a : Z) (mp : node) (rtcp rc msgsize : Z) (tv : Z * Z) : CM Env bool :=
  s ← ses a;
  ssrc ← hp (peek mp (rtcp + 4) 4);
  known ← (if recv_ssrc s =? 0 then _ ← upd a (fun s => s <| recv_ssrc := be_val ssrc |>); mret true
           else mret (be_val ssrc =? recv_ssrc s));
  if negb known then mret false
  else if msgsize <? RTCP_COMMON_HEADER_SIZE + RTCP_SSRC_FIELD_SIZE + RTCP_REPORT_BLOCK_SIZE * rc then mret false
  else
    _ ← report_blocks a mp (rtcp + 8) rc tv;
    mret true.

(** [true] when one of the sources of a BYE is the one received. *)
Definition bye_match (a : Z) (mp : node) (rtcp rc : Z) : CM Env bool :=
  r ← for_until (seqZ 0 rc) (fun i =>
        bs ← hp (peek mp (rtcp + 4 + 4 * i) 4);
        s ← ses a;
        mret (if be_val bs =? recv_ssrc s then Some tt else None));
  mret (bool_decide (r ≠ None)).

(** The buffer of [mp] from [off] to its end. *)
Definition buffer_from (mp : node) (off : Z) : CM Mem (list Z) :=
  b ← get_blk mp; d ← datap b; D ← get_db d;
  mret (drop (Z.to_nat off) (db_buf D)).

Definition bye_reason (mp : node) (reasonbuf reason_space_len : Z) : CM Mem (option (list Z)) :=
  if 1 <? reason_space_len then
    n ← peek mp reasonbuf 1;
    if le_val n <=? reason_space_len - 1 then
      buf ← buffer_from mp (reasonbuf + 1);
      r ← ortp_strndup buf (le_val n);
      mret (Some r)
    else mret None
  else mret None.

Definition parse_bye (a : Z) (mp : node) (rtcp rc rtcp_pk_size : Z) : CM Env bool :=
  let sclen := rc * 4 in
  let reason_space_len := rtcp_pk_size - RTCP_COMMON_HEADER_SIZE - sclen in
  if reason_space_len <? 0 then mret false
  else
    recv_ssrc_match ← bye_match a mp rtcp rc;
    s ← ses a;
    _ ← (if (recv_ssrc_match : bool) && (0 <? tb_count (on_rtcp_bye s)) then
           reason ← hp (bye_reason mp (rtcp + RTCP_COMMON_HEADER_SIZE + sclen) reason_space_len);
           emit a on_rtcp_bye [ArgStr reason]
         else mret tt);
    mret true.

(** The loop over the packets of the compound; every packet has at least the four
    bytes of its header. *)
Fixpoint rtcp_parse_loop (fuel : nat) (a : Z) (mp : node) (rtcp msgsize : Z) (tv : Z * Z) : CM Env unit :=
  match fuel with
  | O => block
  | S fuel =>
      if RTCP_COMMON_HEADER_SIZE <=? msgsize then
        h ← hp (peek mp rtcp 2);
        let version := hd 0 h / 64 in
        let rc := hd 0 h `mod` 32 in
        if negb (version =? 2) then mret tt
        else
          length ← hp (swap mp (rtcp + 2) 2);
          let rtcp_pk_size := (length + 1) * 4 in
          if msgsize <? rtcp_pk_size then mret tt
          else
            let packet_type := nth 1 h 0 in
            go ← (if packet_type =? RTCP_SR then parse_sr a mp rtcp rc msgsize tv
                  else if packet_type =? RTCP_RR then parse_rr a mp rtcp rc msgsize tv
                  else if packet_type =? RTCP_SDES then mret true
                  else if packet_type =? RTCP_BYE then parse_bye a mp rtcp rc rtcp_pk_size
                  else if packet_type =? RTCP_APP then mret true
                  else mret false);
            if (go : bool) then rtcp_parse_loop fuel a mp (rtcp + rtcp_pk_size) (msgsize - rtcp_pk_size) tv else mret tt
      else upd a (fun s => s <| last_recv_time := tv |>)
  end.

Definition rtcp_parse (a : Z) (mp : option node) : CM Env unit :=
  tv ← gettimeofday;
  match mp with
  | None => mret tt
  | Some mp =>
      b ← hp (get_blk mp);
      let msgsize := blk_len b in
      if msgsize <? RTCP_COMMON_HEADER_SIZE then mret tt
      else rtcp_parse_loop (S (Z.to_nat msgsize)) a mp (b_rptr b) msgsize tv
  end.

(** * Receiving *)

Definition RTCP_MAX_RECV_BUFSIZE : Z := 1024.
Definition is_would_block_error (errnum : Z) : bool := errnum =? 11.

(** A datagram of up to [size] bytes read into the buffer of [mp]. *)
Definition net_recv (sock : Z) (size : Z) : CM Env received :=
  r ← syscall (fun n => recv_at n sock);
  mret (match r with Received from bs => Received from (take (Z.to_nat size) bs) | RecvError e => RecvError e end).

(** The buffer of a message that was received: filled and cut to its size. *)
Definition received_block (mp : node) (bs : list Z) : CM Mem unit :=
  b ← get_blk mp;
  _ ← blk_write b (b_wptr b) bs;
  d ← datap b;
  if negb (b_wptr b =? 0) then fault_with BadFree
  else
    _ ← upd_db d (fun D => D <| db_base := realloc_addr (db_base D) (zlen bs) |> <| db_buf := take (length bs) (db_buf D) |>);
    upd_blk mp (fun b => b <| b_rptr := 0 |> <| b_wptr := zlen bs |>).

(** One turn of [rtcp_recv] for each datagram that waits at the socket, and one more. *)
Fixpoint rtcp_recv_loop (fuel : nat) (a : Z) : CM Env Z :=
  match fuel with
  | O => block
  | S fuel =>
      s ← ses a;
      mp ← (match rtcp_cached_mp (rtcp s) with
            | Some mp => mret mp
            | None =>
                mp ← hp (allocb buf_addr junk RTCP_MAX_RECV_BUFSIZE);
                _ ← upd a (on_rtcp (fun r => r <| rtcp_cached_mp := Some mp |>));
                mret mp
            end);
      r ← net_recv (rtcp_socket (rtcp s)) RTCP_MAX_RECV_BUFSIZE;
      match r with
      | Received from (_ :: _ as bs) =>
          _ ← hp (received_block mp bs);
          _ ← rtcp_parse a (Some mp);
          _ ← hp (freemsg (Some mp));
          _ ← upd a (on_rtcp (fun r =>
                 let r := r <| rtcp_cached_mp := None |> in
                 if (rtcp_rem_addrlen r =? 0) && negb (has_flag s RTP_SESSION_USING_EXT_SOCKETS)
                 then r <| rtcp_rem_addr := from |> <| rtcp_rem_addrlen := 16 |> else r));
          rtcp_recv_loop fuel a
      | Received _ [] => mret (-1)
      | RecvError errnum =>
          _ ← (if is_would_block_error errnum then mret tt
               else if 0 <? tb_count (on_network_error s) then emit a on_network_error [ArgStr (Some (bytes_of "Error receiving RTCP packet")); ArgInt errnum]
               else mret tt);
          mret (-1)
      end
  end.

Definition rtcp_recv (fuel : nat) (a : Z) : CM Env Z :=
  s ← ses a;
  if rtcp_socket (rtcp s) <? 0 then mret (-1) else rtcp_recv_loop fuel a.

End RtcpParse.

(** * Fields of a new block *)

Lemma slice_mid {A} (l1 l2 l3 : list A) o n : o = length l1 → n = length l2 → slice (l1 ++ l2 ++ l3) o n = l2.
Proof. intros -> ->. rewrite slice_app_r by lia. by rewrite Nat.sub_diag, slice_app_l. Qed.
Lemma swap_put a x m off k pre old post :
  nb_data x = pre ++ old ++ post → off = zlen pre → k = zlen old →
  swap (NBlk a) off k (put_blk a x m) = Ret (be_val old) (put_blk a (x <| nb_data := pre ++ reverse old ++ post |>) m).
Proof.
  intros Hd -> ->. pose proof (zlen_nonneg pre). pose proof (zlen_nonneg old). pose proof (zlen_nonneg post). pose proof (zlen_nonneg (nb_rest x)).
  assert (Hrev : zlen (reverse old) = zlen old) by (unfold zlen; by rewrite length_reverse).
  unfold swap, peek, poke. rewrite (bind_ret _ _ _ old (put_blk a x m)).
  2: { rewrite (bind_ret _ _ _ _ _ (get_put a x m)), read_put by (rewrite ?Hd, ?zlen_app; lia). f_equal.
       rewrite Hd, <- app_assoc, <- (app_assoc old). unfold zlen. rewrite !Nat2Z.id. by apply slice_mid. }
  rewrite (bind_ret _ _ _ tt (put_blk a (x <| nb_data := pre ++ reverse old ++ post |>) m)); [done|].
  rewrite (bind_ret _ _ _ _ _ (get_put a x m)), write_put by (rewrite ?Hd, ?zlen_app; lia).
  by rewrite Hd, splice_at by done.
Qed.


Lemma peek_put a x m off n : 0 ≤ off → 0 ≤ n → off + n ≤ zlen (nb_data x ++ nb_rest x) →
  peek (NBlk a) off n (put_blk a x m) = Ret (slice (nb_data x ++ nb_rest x) (Z.to_nat off) (Z.to_nat n)) (put_blk a x m).
Proof. intros. unfold peek. rewrite (bind_ret _ _ _ _ _ (get_put a x m)). by apply read_put. Qed.

Lemma get_db_put a x m : get_db (a + 1) (put_blk a x m) = Ret (nb_dblk x) (put_blk a x m).
Proof. unfold get_db. by rewrite put_blk_db. Qed.

(** * A BYE on its way *)

(** [strlen] of a string with a zero behind it. *)
Lemma find_zero r l i : Forall (fun c => c ≠ 0) r → find_idx_from (fun c => c =? 0) (r ++ 0 :: l) i = Some (i + zlen r).
Proof.
  revert i. induction r as [|c r IH]; intros i Hr; cbn [app find_idx_from].
  - rewrite Z.eqb_refl. unfold zlen. cbn [length]. f_equal. lia.
  - apply Forall_cons in Hr as [Hc Hr]. rewrite (proj2 (Z.eqb_neq c 0) Hc), IH by done. unfold zlen. cbn [length]. f_equal. lia.
Qed.
Lemma find_no_zero r i : Forall (fun c => c ≠ 0) r → find_idx_from (fun c => c =? 0) r i = None.
Proof. intros H. apply find_idx_from_None. eapply Forall_impl; [done|]. cbn. intros c Hc. by apply Z.eqb_neq. Qed.

(** The packet with a reason: the length of the string, the string, zeros up to a
    multiple of four bytes, which may be none. *)
Definition bye_padding (r : list Z) : Z := 3 - zlen r `rem` 4.
Definition bye_size (r : list Z) : Z := RTCP_BYE_HEADER_SIZE + (1 + zlen r + bye_padding r).
Definition bye_bytes (ssrc : Z) (r : list Z) : list Z :=
  rtcp_common_header_init RTCP_BYE 1 (bye_size r) ++ be_bytes 4 ssrc ++ [zlen r] ++ r ++ replicate (Z.to_nat (bye_padding r)) 0.

Lemma bye_numbers r : 0 ≤ bye_padding r ≤ 3 ∧ bye_size r = 4 * (3 + zlen r / 4) ∧ zlen r `rem` 4 = zlen r `mod` 4 ∧
  bye_size r `quot` 4 - 1 = 2 + zlen r / 4 ∧ (bye_padding r = 0 ↔ zlen r `mod` 4 = 3).
Proof.
  pose proof (zlen_nonneg r). unfold bye_size, bye_padding, RTCP_BYE_HEADER_SIZE. rewrite Z.rem_mod_nonneg by lia.
  pose proof (Z.mod_pos_bound (zlen r) 4 ltac:(lia)). pose proof (Z.div_mod (zlen r) 4 ltac:(lia)).
  assert (E : 8 + (1 + zlen r + (3 - zlen r `mod` 4)) = 4 * (3 + zlen r / 4)) by lia. rewrite E.
  replace (4 * (3 + zlen r / 4)) with ((3 + zlen r / 4) * 4) by lia. rewrite Z.quot_mul by lia. repeat split; lia.
Qed.

Lemma zlen_bye ssrc r : zlen (bye_bytes ssrc r) = bye_size r.
Proof.
  destruct (bye_numbers r) as (Hp & _). unfold bye_bytes. rewrite !zlen_app, zlen_be. unfold bye_size, RTCP_BYE_HEADER_SIZE.
  change (zlen (rtcp_common_header_init _ _ _)) with 4. change (zlen [zlen r]) with 1. unfold zlen at 2. rewrite length_replicate. lia.
Qed.

Section Proofs.
Context `{System}.

Lemma create_bye_ret ssrc r m : r ≠ [] → zlen r ≤ 255 →
  rtcp_create_simple_bye_packet ssrc (Some r) m =
  Ret (NBlk (brk m)) (put_blk (brk m) (mkNblk None (buf_addr (brk m + 1)) true (bye_bytes ssrc r) []) (m <| brk := brk m + 2 |>)).
Proof.
  intros Hne Hl. destruct (bye_numbers r) as (Hp & Hsz & Hmod & _ & _). pose proof (zlen_nonneg r).
  assert (Hpos : 0 < zlen r) by (destruct r; [done|unfold zlen; cbn; lia]).
  unfold rtcp_create_simple_bye_packet. rewrite Z.min_l by (unfold RTCP_BYE_REASON_MAX_STRING_SIZE; lia). rewrite (proj2 (Z.ltb_lt 0 _) Hpos).
  fold (bye_padding r). fold (bye_size r). set (n := brk m). set (m2 := m <| brk := n + 2 |>). set (sz := bye_size r) in *.
  assert (Esz : sz = 8 + (1 + zlen r + bye_padding r)) by done.
  destruct (put_allocb buf_addr junk sz m ltac:(lia)) as (buf & Hb & _ & Ea). fold n m2 in Ea. unfold new_block. rewrite (bind_ret _ _ _ _ _ Ea).
  set (x := fun dt rs => mkNblk None (buf_addr (n + 1)) true dt rs). set (hdr := rtcp_common_header_init RTCP_BYE 1 sz).
  assert (Hh : zlen hdr = 4) by done. pose proof (zlen_be 4 ssrc) as Hs.
  rewrite (bind_ret _ _ _ _ _ (get_put n (x [] buf) m2)). change (b_rptr (nb_blk n (x [] buf))) with 0.
  rewrite (bind_ret _ _ _ tt (put_blk n (x [] (splice buf 0 hdr)) m2)) by (apply poke_put; [done|lia|unfold x; cbn [nb_rest]; lia]).
  assert (Hr1 : zlen (splice buf 0 hdr) = sz) by (rewrite splice_zlen; lia).
  rewrite (bind_ret _ _ _ tt (put_blk n (x [] (splice (splice buf 0 hdr) 4 (be_bytes 4 ssrc))) m2)) by (apply poke_put; [done|lia|unfold x; cbn [nb_rest]; lia]).
  rewrite splice_next by lia.
  assert (Hsplit : ∃ r1 r2 r3, splice buf 0 (hdr ++ be_bytes 4 ssrc) = (hdr ++ be_bytes 4 ssrc) ++ r1 ++ r2 ++ r3 ∧
    zlen r1 = 1 ∧ zlen r2 = zlen r ∧ zlen r3 = bye_padding r).
  { unfold splice. change (Z.to_nat 0) with 0%nat. rewrite take_0, zlen_app, Hh, Hs. cbn [app]. set (t := drop _ buf).
    assert (Ht : zlen t = 1 + zlen r + bye_padding r) by (unfold t, zlen in *; rewrite length_drop; lia).
    exists (take 1 t), (take (length r) (drop 1 t)), (drop (length r) (drop 1 t)). rewrite !take_drop. split; [done|].
    unfold zlen in *. rewrite !length_take, !length_drop. lia. }
  destruct Hsplit as (r1 & r2 & r3 & -> & H1 & H2 & H3).
  unfold advance. erewrite bind_ret; [|apply (advance_put n _ m2 RTCP_BYE_HEADER_SIZE (hdr ++ be_bytes 4 ssrc) (r1 ++ r2 ++ r3)); [done|by rewrite zlen_app, Hh, Hs]].
  unfold append. erewrite bind_ret; [|apply (appendb_put _ _ n _ m2 [u8 (zlen r)] r1 (r2 ++ r3)); done].
  erewrite bind_ret; [|apply (appendb_put _ _ n _ m2 (take (Z.to_nat (zlen r)) r) r2 r3); [done|unfold zlen in *; rewrite length_take; lia]].
  erewrite bind_ret; [|apply (appendb_put _ _ n _ m2 (replicate (Z.to_nat (bye_padding r)) 0) r3 []); [by rewrite app_nil_r|unfold zlen in *; rewrite length_replicate; lia]].
  assert (Efin : (((hdr ++ be_bytes 4 ssrc) ++ [u8 (zlen r)]) ++ take (Z.to_nat (zlen r)) r) ++ replicate (Z.to_nat (bye_padding r)) 0 = bye_bytes ssrc r).
  { unfold bye_bytes. fold sz hdr. unfold u8. rewrite Z.mod_small by lia. rewrite <- !app_assoc. do 4 f_equal. rewrite firstn_all2; [done|]. unfold zlen. lia. }
  by rewrite <- Efin.
Qed.

(** The same bytes with the length field in the order of the machine. *)
Definition bye_parsed (ssrc : Z) (r : list Z) : list Z :=
  [129; RTCP_BYE] ++ le_bytes 2 (2 + zlen r / 4) ++ be_bytes 4 ssrc ++ [zlen r] ++ r ++ replicate (Z.to_nat (bye_padding r)) 0.

Lemma bye_header ssrc r : bye_bytes ssrc r =
  [129; RTCP_BYE] ++ be_bytes 2 (2 + zlen r / 4) ++ be_bytes 4 ssrc ++ [zlen r] ++ r ++ replicate (Z.to_nat (bye_padding r)) 0.
Proof.
  destruct (bye_numbers r) as (_ & _ & _ & E & _). unfold bye_bytes, rtcp_common_header_init, rtcp_common_header_bytes. rewrite E. by rewrite <- app_assoc.
Qed.

Lemma bye_reason_put n base ssrc r m : zlen r ≤ 255 → Forall (fun c => c ≠ 0) r → r ≠ [] →
  let h := put_blk n (mkNblk None base true (bye_parsed ssrc r) []) m in
  bye_reason (NBlk n) 8 (1 + zlen r + bye_padding r) h = if zlen r `mod` 4 =? 3 then Flt OutOfBounds else Ret (Some r) h.
Proof.
  intros Hl Hr Hne h. destruct (bye_numbers r) as (Hp & _ & _ & _ & H3). pose proof (zlen_nonneg r).
  assert (Hpos : 0 < zlen r) by (destruct r; [done|unfold zlen; cbn; lia]).
  set (front := [129; RTCP_BYE] ++ le_bytes 2 (2 + zlen r / 4) ++ be_bytes 4 ssrc). set (z := replicate (Z.to_nat (bye_padding r)) 0).
  assert (Eb : bye_parsed ssrc r = front ++ [zlen r] ++ r ++ z) by (unfold bye_parsed, front; by rewrite <- !app_assoc).
  assert (Hf : length front = 8%nat) by done. assert (Hzf : zlen front = 8) by (unfold zlen; by rewrite Hf).
  unfold bye_reason. rewrite (proj2 (Z.ltb_lt 1 _)) by lia.
  rewrite (bind_ret _ _ _ [zlen r] h).
  2: { unfold h. rewrite peek_put; [|lia|lia|]; cbn [nb_data nb_rest]; rewrite app_nil_r, Eb; [f_equal; by apply slice_mid|].
       rewrite !zlen_app, Hzf. pose proof (zlen_nonneg z). change (zlen [zlen r]) with 1. lia. }
  change (le_val [zlen r]) with (zlen r + 256 * 0). rewrite Z.add_0_r, (proj2 (Z.leb_le _ _)) by lia.
  assert (Ebuf : buffer_from (NBlk n) (8 + 1) h = Ret (r ++ z) h).
  { unfold buffer_from, h. rewrite (bind_ret _ _ _ _ _ (get_put n _ m)). rewrite (bind_ret _ _ _ (n + 1) _) by done.
    rewrite (bind_ret _ _ _ _ _ (get_db_put n _ m)). unfold mret, CM_ret. f_equal. cbn [nb_dblk db_buf nb_data nb_rest]. rewrite app_nil_r, Eb.
    rewrite app_assoc. change (Z.to_nat (8 + 1)) with (length (front ++ [zlen r])). apply drop_app_length. }
  rewrite (bind_ret _ _ _ _ _ Ebuf). unfold ortp_strndup, find_idx.
  destruct (zlen r `mod` 4 =? 3) eqn:E3.
  - apply Z.eqb_eq, H3 in E3. unfold z. rewrite E3. cbn [Z.to_nat replicate]. by rewrite app_nil_r, find_no_zero.
  - apply Z.eqb_neq in E3. assert (Hz : ∃ z', z = 0 :: z').
    { unfold z. destruct (Z.to_nat (bye_padding r)) eqn:Ez; [|by eexists]. exfalso. apply E3, H3. lia. }
    destruct Hz as [z' ->]. rewrite find_zero by done. rewrite Z.add_0_l, Z.min_id, (proj2 (Z.ltb_ge _ _)) by lia.
    replace (zlen r + 1 - 1) with (zlen r) by lia. by rewrite take_zlen.
Qed.

(** C38: A BYE with a reason (at most 255 bytes, no zeros), made by the stack and
    parsed by the peer in a buffer of exactly its size: the source it names is
    recognised, and the callbacks get the reason as it was, when the length of the reason leaves
    room for a zero in the last word. When the length is 3 modulo 4 there is no padding, and
    the copy of the reason reads over the end of the datagram. *)
Theorem bye_roundtrip a ssrc r n base s c m0 m ob e :
  r ≠ [] → zlen r ≤ 255 → Forall (fun b => b ≠ 0) r → in_u32 ssrc → recv_ssrc s = ssrc → 0 < tb_count (on_rtcp_bye s) →
  ∃ bs, rtcp_create_simple_bye_packet ssrc (Some r) m0 =
    Ret (NBlk (brk m0)) (put_blk (brk m0) (mkNblk None (buf_addr (brk m0 + 1)) true bs []) (m0 <| brk := brk m0 + 2 |>)) ∧
  rtcp_parse a (Some (NBlk n)) (view a s c (put_blk n (mkNblk None base true bs []) m) ob e) =
  if zlen r `mod` 4 =? 3 then Flt OutOfBounds
  else (_ ← emit a on_rtcp_bye [ArgStr (Some r)]; upd a (fun s => s <| last_recv_time := gettimeofday_at c |>))
         (view a s (S c) (put_blk n (mkNblk None base true (bye_parsed ssrc r) []) m) ob e).
Proof.
  intros Hne Hl Hr Hss Hrs Hcb. exists (bye_bytes ssrc r). split; [by apply create_bye_ret|].
  destruct (bye_numbers r) as (Hp & Hsz & _ & _ & _). pose proof (zlen_nonneg r). pose proof (Z.div_pos (zlen r) 4 ltac:(lia) ltac:(lia)) as Hq.
  assert (Hq2 : zlen r / 4 ≤ 63) by (apply Z.lt_succ_r, Z.div_lt_upper_bound; lia).
  assert (Esz : bye_size r = 8 + (1 + zlen r + bye_padding r)) by done.
  unfold rtcp_parse, gettimeofday. rewrite view_syscall. set (x := fun bs => mkNblk None base true bs []).
  change (mkNblk None base true (bye_bytes ssrc r) []) with (x (bye_bytes ssrc r)). rewrite (view_hp _ _ _ _ _ _ _ _ _ _ (get_put n (x (bye_bytes ssrc r)) m)).
  rewrite nb_len. change (nb_data (x (bye_bytes ssrc r))) with (bye_bytes ssrc r). rewrite zlen_bye, i32_id by (unfold in_i32; lia).
  change RTCP_COMMON_HEADER_SIZE with 4. rewrite (proj2 (Z.ltb_ge (bye_size r) 4)) by lia. change (b_rptr (nb_blk n (x (bye_bytes ssrc r)))) with 0.
  cbn [rtcp_parse_loop]. change RTCP_COMMON_HEADER_SIZE with 4. rewrite (proj2 (Z.leb_le 4 _)) by lia.
  pose proof (zlen_bye ssrc r) as Hz. assert (E2 : peek (NBlk n) 0 2 (put_blk n (x (bye_bytes ssrc r)) m) = Ret [129; RTCP_BYE] (put_blk n (x (bye_bytes ssrc r)) m)).
  { rewrite peek_put; unfold x; cbn [nb_data nb_rest]; rewrite ?app_nil_r; [|lia|lia|lia]. by rewrite bye_header. }
  rewrite (view_hp _ _ _ _ _ _ _ _ _ _ E2). change (hd 0 [129; RTCP_BYE] / 64 =? 2) with true. cbn [negb].
  pose proof (swap_put n (x (bye_bytes ssrc r)) m 2 2 [129; RTCP_BYE] (be_bytes 2 (2 + zlen r / 4)) _ (bye_header ssrc r) eq_refl ltac:(by rewrite zlen_be)) as E3.
  rewrite be_val_bytes in E3. change (256 ^ Z.of_nat 2) with 65536 in E3. rewrite Z.mod_small in E3 by lia.
  assert (Eh : [129; RTCP_BYE] ++ reverse (be_bytes 2 (2 + zlen r / 4)) ++ be_bytes 4 ssrc ++ [zlen r] ++ r ++ replicate (Z.to_nat (bye_padding r)) 0 = bye_parsed ssrc r)
    by (unfold be_bytes at 1; by rewrite reverse_involutive).
  rewrite Eh in E3. change ((x (bye_bytes ssrc r)) <| nb_data := bye_parsed ssrc r |>) with (x (bye_parsed ssrc r)) in E3.
  rewrite (view_hp _ _ _ _ _ _ _ _ _ _ E3). replace ((2 + zlen r / 4 + 1) * 4) with (bye_size r) by lia.
  rewrite Z.ltb_irrefl. change (nth 1 [129; RTCP_BYE] 0) with RTCP_BYE. change (RTCP_BYE =? RTCP_SR) with false. change (RTCP_BYE =? RTCP_RR) with false.
  change (RTCP_BYE =? RTCP_SDES) with false. change (RTCP_BYE =? RTCP_BYE) with true. cbv iota. unfold parse_bye. change (hd 0 [129; RTCP_BYE] `mod` 32) with 1.
  change RTCP_COMMON_HEADER_SIZE with 4. replace (bye_size r - 4 - 1 * 4) with (1 + zlen r + bye_padding r) by lia.
  rewrite (proj2 (Z.ltb_ge (1 + zlen r + bye_padding r) 0)) by lia.
  set (h := put_blk n (x (bye_parsed ssrc r)) m).
  assert (Em : bye_match a (NBlk n) 0 1 (view a s (S c) h ob e) = Ret true (view a s (S c) h ob e)).
  { unfold bye_match. change (seqZ 0 1) with [0]. cbn [for_until]. rewrite bind_assoc.
    rewrite bind_assoc. rewrite (view_hp _ _ _ _ _ _ _ _ (be_bytes 4 ssrc) h).
    - rewrite bind_assoc, view_ses, be_val_bytes. change (256 ^ Z.of_nat 4) with (2 ^ 32). unfold in_u32 in Hss. rewrite Z.mod_small by done.
      rewrite Hrs, Z.eqb_refl. done.
    - unfold h. rewrite peek_put; unfold x; cbn [nb_data nb_rest]; rewrite ?app_nil_r; [|lia|lia|].
      + done.
      + unfold bye_parsed. rewrite (app_assoc [129; RTCP_BYE]), (app_assoc (_ ++ _) (be_bytes 4 ssrc)), zlen_app.
        match goal with |- _ ≤ _ + zlen ?t => pose proof (zlen_nonneg t) end. change (zlen (([129; RTCP_BYE] ++ le_bytes 2 (2 + zlen r / 4)) ++ be_bytes 4 ssrc)) with 8. lia. }
  rewrite bind_assoc, (bind_ret _ _ _ _ _ Em), bind_assoc, view_ses, (proj2 (Z.ltb_lt 0 _) Hcb). cbn [andb].
  change (0 + 4 + 1 * 4) with 8. pose proof (bye_reason_put n base ssrc r m Hl Hr Hne) as Ebr. cbv zeta in Ebr.
  destruct (zlen r `mod` 4 =? 3).
  - unfold mbind, CM_bind, hp, zoom. unfold view. cbn [heap update]. unfold update. cbn [heap]. unfold h, x. by rewrite Ebr.
  - rewrite !bind_assoc. rewrite (view_hp _ _ _ _ _ _ _ _ _ _ Ebr). unfold mbind, CM_bind.
    destruct (emit a on_rtcp_bye [ArgStr (Some r)] _) as [[] e1| |]; [|done|done].
    rewrite Z.sub_diag. destruct (Z.to_nat (bye_size r)) eqn:En; [lia|]. done.
Qed.

End Proofs.

(** The reason "bye" is read over the end of the datagram. *)
Definition ex_listener : RtpSession := ex_video_session <| recv_ssrc := 77 |> <| on_rtcp_bye := empty_table <| tb_count := 1 |> |>.

Lemma bye_roundtrip_witness :
  ∃ bs, rtcp_create_simple_bye_packet (H := quiet_system) 77 (Some (bytes_of "bye")) mem0 =
    Ret (NBlk 1) (put_blk 1 (mkNblk None (buf_addr (System := quiet_system) 2) true bs []) (mem0 <| brk := 3 |>)) ∧
  rtcp_parse (H := quiet_system) 100 (Some (NBlk 7)) (view 100 ex_listener 0 (put_blk 7 (mkNblk None 16 true bs []) mem0) [] ex_env) = Flt OutOfBounds.
Proof.
  exact (bye_roundtrip (H := quiet_system) 100 77 (bytes_of "bye") 7 16 ex_listener 0 mem0 mem0 [] ex_env
    ltac:(done) ltac:(vm_compute; congruence) ltac:(vm_compute; repeat constructor; congruence) ltac:(vm_compute; split; congruence) eq_refl ltac:(vm_compute; reflexivity)).
Defined.
