(* ===== verification/OrtpSend.v ===== *)
(** * RTP packets made and sent ([utils/ortp/src/rtpsession.c], [rtp.h], the packet macros of [rtpsession.h])

    A packet is a message whose first block begins with the RTP header, in the order
    of the machine until it is sent. A scheduled sender first sleeps until the time
    of its timestamp; what the other threads do meanwhile is an argument. *)

From Stdlib Require Import Strings.String.
From S2P Require Import Prelude StrUtils Blocks RtpMod Payload OrtpSession Sched OrtpEnv Rtcp RtcpParse.

(** ** The header *)

(** The bit fields of the first two bytes (little endian), then the fields in host order. *)
Record rtp_header_t := mkHeader {
  h_cc : Z;
  h_extbit : Z;
  h_padbit : Z;
  h_version : Z;
  h_paytype : Z;
  h_markbit : Z;
  h_seq_number : Z;
  h_timestamp : Z;
  h_ssrc : Z
}.
#[export] Instance eta_rtp_header_t : Eta rtp_header_t := fun h =>
  mkHeader (h_cc h) (h_extbit h) (h_padbit h) (h_version h) (h_paytype h) (h_markbit h) (h_seq_number h) (h_timestamp h) (h_ssrc h).

Definition header_bytes (h : rtp_header_t) : list Z :=
  [h_cc h `mod` 16 + 16 * (h_extbit h `mod` 2) + 32 * (h_padbit h `mod` 2) + 64 * (h_version h `mod` 4);
   h_paytype h `mod` 128 + 128 * (h_markbit h `mod` 2)] ++
  le_bytes 2 (h_seq_number h) ++ le_bytes 4 (h_timestamp h) ++ le_bytes 4 (h_ssrc h).
Definition header_of (bs : list Z) : rtp_header_t :=
  let b0 := nth 0 bs 0 in
  let b1 := nth 1 bs 0 in
  mkHeader (b0 `mod` 16) ((b0 / 16) `mod` 2) ((b0 / 32) `mod` 2) (b0 / 64) (b1 `mod` 128) (b1 / 128)
    (le_val (slice bs 2 2)) (le_val (slice bs 4 4)) (le_val (slice bs 8 4)).

Definition get_header (mp : node) : CM Mem rtp_header_t :=
  b ← get_blk mp; bs ← blk_read b (b_rptr b) RTP_FIXED_HEADER_SIZE; mret (header_of bs).
Definition upd_header (mp : node) (f : rtp_header_t → rtp_header_t) : CM Mem unit :=
  h ← get_header mp;
  b ← get_blk mp; blk_write b (b_rptr b) (header_bytes (f h)).

Definition rtp_set_markbit (mp : node) (value : Z) : CM Mem unit := upd_header mp (fun h => h <| h_markbit := value |>).
Definition rtp_set_seqnumber (mp : node) (seq : Z) : CM Mem unit := upd_header mp (fun h => h <| h_seq_number := seq |>).
Definition rtp_set_timestamp (mp : node) (ts : Z) : CM Mem unit := upd_header mp (fun h => h <| h_timestamp := ts |>).
Definition rtp_set_ssrc (mp : node) (ssrc : Z) : CM Mem unit := upd_header mp (fun h => h <| h_ssrc := ssrc |>).
Definition rtp_set_payload_type (mp : node) (pt : Z) : CM Mem unit := upd_header mp (fun h => h <| h_paytype := pt |>).
Definition rtp_get_timestamp (mp : node) : CM Mem Z := h ← get_header mp; mret (h_timestamp h).
Definition rtp_get_markbit (mp : node) : CM Mem Z := h ← get_header mp; mret (h_markbit h).

(** The contributing source goes behind those there are, without a look at the
    length of the block. *)
Definition rtp_add_csrc (mp : node) (csrc : Z) : CM Mem unit :=
  h ← get_header mp;
  b ← get_blk mp;
  _ ← blk_write b (b_rptr b + RTP_FIXED_HEADER_SIZE + 4 * h_cc h) (le_bytes 4 csrc);
  upd_header mp (fun h => h <| h_cc := h_cc h + 1 |>).

Section OrtpSend.
Context `{System}.

(** ** Creating packets *)

Definition new_header (s : RtpSession) : rtp_header_t → rtp_header_t := fun h =>
  h <| h_version := 2 |> <| h_padbit := 0 |> <| h_extbit := 0 |> <| h_markbit := 0 |> <| h_cc := 0 |>
    <| h_paytype := send_pt s |> <| h_ssrc := send_ssrc s |> <| h_timestamp := 0 |> <| h_seq_number := 0 |>.

Definition rtp_session_create_packet (a header_size : Z) (payload : list Z) : CM Env node :=
  s ← ses a;
  mp ← hp (new_block (i32 (header_size + zlen payload)));
  _ ← hp (upd_header mp (new_header s));
  _ ← hp (advance mp header_size);
  _ ← hp (blk_append mp payload);
  mret mp.

(** The payload stays in the caller's buffer at [base]. *)
Definition rtp_session_create_packet_with_data (a base : Z) (payload : list Z) (freefn : bool) : CM Env node :=
  s ← ses a;
  mp ← hp (new_block RTP_FIXED_HEADER_SIZE);
  _ ← hp (upd_header mp (new_header s));
  _ ← hp (advance mp RTP_FIXED_HEADER_SIZE);
  mpayload ← hp (allocb_with_buf base payload freefn);
  _ ← hp (advance mpayload (zlen payload));
  _ ← hp (set_cont mp (Some mpayload));
  mret mp.

(** The header is written into the caller's buffer; the write pointer is not moved. *)
Definition rtp_session_create_packet_in_place (a base : Z) (buffer : list Z) (freefn : bool) : CM Env node :=
  s ← ses a;
  mp ← hp (allocb_with_buf base buffer freefn);
  _ ← hp (upd_header mp (new_header s));
  mret mp.

(** ** Sending *)

(** The header and its contributing sources in network order. *)
Definition header_to_network (m : node) : CM Mem unit :=
  b ← get_blk m;
  let hdr := b_rptr b in
  _ ← swap m (hdr + 8) 4;
  _ ← swap m (hdr + 4) 4;
  _ ← swap m (hdr + 2) 2;
  h ← get_header m;
  for_each (seqZ 0 (h_cc h)) (fun i => _ ← swap m (hdr + RTP_FIXED_HEADER_SIZE + 4 * i) 4; mret tt).

Definition ortp_rtp_send (a : Z) (m : node) : CM Env Z :=
  _ ← hp (header_to_network m);
  s ← ses a;
  '(error, errno) ← rtp_sendmsg (rtp_socket (rtp s)) m
     (if has_flag s RTP_SESSION_USING_EXT_SOCKETS then None else Some (rtp_rem_addr (rtp s)));
  _ ← (if error <? 0 then
         if 0 <? tb_count (on_network_error s) then emit a on_network_error [ArgStr (Some (bytes_of "Error sending RTP packet")); ArgInt errno] else mret tt
       else mret tt);
  _ ← hp (freemsg (Some m));
  mret error.

(** The first packet sets the offsets of the stream. *)
Definition send_start (a timestamp : Z) : CM Env unit :=
  s ← ses a;
  if has_flag s RTP_SESSION_SEND_NOT_STARTED then
    _ ← upd a (on_rtp (fun r => r <| snd_ts_offset := timestamp |>));
    _ ← (if has_flag s RTP_SESSION_RECV_NOT_STARTED || (mode s =? RTP_SESSION_SENDONLY) then
           tv ← gettimeofday; upd a (fun s => s <| last_recv_time := tv |>)
         else mret tt);
    _ ← (if has_flag s RTP_SESSION_SCHEDULED then
           c ← sched_of s; upd a (on_rtp (fun r => r <| snd_time_offset := time_ c |>))
         else mret tt);
    upd a (fun s => rtp_session_unset_flag s RTP_SESSION_SEND_NOT_STARTED)
  else mret tt.

(** The wait for the time of a packet; [sleep] is what the other threads do. *)
Definition send_wait (sleep : CM Env unit) (a timestamp : Z) : CM Env unit :=
  s ← ses a;
  if has_flag s RTP_SESSION_SCHEDULED then
    t ← rtp_session_ts_to_time a (u32 (timestamp - snd_ts_offset (rtp s)));
    let packet_time := u32 (t + snd_time_offset (rtp s)) in
    _ ← sched_of s;
    w ← wd (wait_until a Send packet_time);
    if (w : bool) then _ ← sleep; wd (wait_done a Send) else mret tt
  else mret tt.

Definition rtp_session_sendm_with_ts (fuel : nat) (sleep : CM Env unit) (a : Z) (mp : node) (timestamp : Z) : CM Env Z :=
  _ ← send_start a timestamp;
  _ ← send_wait sleep a timestamp;
  packsize ← hp (msgdsize (Some mp));
  s ← ses a;
  _ ← hp (rtp_set_seqnumber mp (snd_seq (rtp s)));
  _ ← hp (rtp_set_timestamp mp timestamp);
  _ ← upd a (on_rtp (fun r => r <| snd_seq ::= (fun q => u16 (q + 1)) |> <| snd_last_ts := timestamp |>));
  _ ← count_stats a (fun t => t <| st_sent ::= (fun n => u64 (n + packsize)) |> <| st_packet_sent ::= (fun n => u64 (n + 1)) |>);
  error ← ortp_rtp_send a mp;
  _ ← rtcp_recv fuel a;
  _ ← rtp_session_rtcp_process a;
  mret error.

(** The payload is the caller's buffer at [base]. *)
Definition rtp_session_send_with_ts (fuel : nat) (sleep : CM Env unit) (a base : Z) (buffer : list Z) (userts : Z) : CM Env Z :=
  m ← rtp_session_create_packet_with_data a base buffer false;
  rtp_session_sendm_with_ts fuel sleep a m userts.

End OrtpSend.

(** * The header in memory *)

Record header_ok (h : rtp_header_t) : Prop := {
  ho_cc : 0 ≤ h_cc h < 16;
  ho_ext : 0 ≤ h_extbit h < 2;
  ho_pad : 0 ≤ h_padbit h < 2;
  ho_version : 0 ≤ h_version h < 4;
  ho_pt : 0 ≤ h_paytype h < 128;
  ho_mark : 0 ≤ h_markbit h < 2;
  ho_seq : in_u16 (h_seq_number h);
  ho_ts : in_u32 (h_timestamp h);
  ho_ssrc : in_u32 (h_ssrc h)
}.

Definition header_byte0 (h : rtp_header_t) : Z :=
  h_cc h `mod` 16 + 16 * (h_extbit h `mod` 2) + 32 * (h_padbit h `mod` 2) + 64 * (h_version h `mod` 4).
Definition header_byte1 (h : rtp_header_t) : Z := h_paytype h `mod` 128 + 128 * (h_markbit h `mod` 2).
(** The header as it is on the wire. *)
Definition wire_header (h : rtp_header_t) : list Z :=
  [header_byte0 h; header_byte1 h] ++ be_bytes 2 (h_seq_number h) ++ be_bytes 4 (h_timestamp h) ++ be_bytes 4 (h_ssrc h).

Lemma zlen_le n z : zlen (le_bytes n z) = Z.of_nat n.
Proof. unfold zlen. by rewrite le_bytes_length. Qed.
Lemma zlen_header h : zlen (header_bytes h) = 12.
Proof. unfold header_bytes. by rewrite !zlen_app, !zlen_le. Qed.
Lemma zlen_wire h : zlen (wire_header h) = 12.
Proof. unfold wire_header. by rewrite !zlen_app, !zlen_be. Qed.

Lemma byte0_fields cc ext pad ver : 0 ≤ cc < 16 → 0 ≤ ext < 2 → 0 ≤ pad < 2 → 0 ≤ ver < 4 →
  let b := cc + 16 * ext + 32 * pad + 64 * ver in b `mod` 16 = cc ∧ (b / 16) `mod` 2 = ext ∧ (b / 32) `mod` 2 = pad ∧ b / 64 = ver.
Proof.
  intros H1 H2 H3 H4 b. subst b.
  rewrite <- (Z.div_unique (cc + 16 * ext + 32 * pad + 64 * ver) 16 (ext + 2 * pad + 4 * ver) cc) by lia.
  rewrite <- (Z.div_unique (cc + 16 * ext + 32 * pad + 64 * ver) 32 (pad + 2 * ver) (cc + 16 * ext)) by lia.
  repeat split; mlia.
Qed.

Lemma header_of_bytes h rest : header_ok h → header_of (header_bytes h ++ rest) = h.
Proof.
  intros [H1 H2 H3 H4 H5 H6 H7 H8 H9]. unfold header_of. destruct h as [cc ext pad ver pt mark seq ts ssrc]. cbn [h_cc h_extbit h_padbit h_version h_paytype h_markbit h_seq_number h_timestamp h_ssrc] in *.
  assert (Es : ∀ n z (l1 l2 : list Z) o, o = length l1 → slice (l1 ++ le_bytes n z ++ l2) o n = le_bytes n z)
    by (intros n z l1 l2 o Ho; apply slice_mid; [done|by rewrite le_bytes_length]).
  assert (E1 : slice (header_bytes (mkHeader cc ext pad ver pt mark seq ts ssrc) ++ rest) 2 2 = le_bytes 2 seq).
  { unfold header_bytes. rewrite <- app_assoc, <- (app_assoc (le_bytes 2 _)). by apply Es. }
  assert (E2 : slice (header_bytes (mkHeader cc ext pad ver pt mark seq ts ssrc) ++ rest) 4 4 = le_bytes 4 ts).
  { unfold header_bytes. cbn [h_cc h_extbit h_padbit h_version h_paytype h_markbit h_seq_number h_timestamp h_ssrc]. rewrite (app_assoc [_; _] (le_bytes 2 _)), <- app_assoc, <- (app_assoc (le_bytes 4 _)). by apply Es. }
  assert (E3 : slice (header_bytes (mkHeader cc ext pad ver pt mark seq ts ssrc) ++ rest) 8 4 = le_bytes 4 ssrc).
  { unfold header_bytes. cbn [h_cc h_extbit h_padbit h_version h_paytype h_markbit h_seq_number h_timestamp h_ssrc]. rewrite (app_assoc [_; _] (le_bytes 2 _)), (app_assoc ([_; _] ++ _) (le_bytes 4 _)), <- app_assoc. by apply Es. }
  rewrite E1, E2, E3, !le_val_bytes. change (256 ^ Z.of_nat 2) with (2 ^ 16). change (256 ^ Z.of_nat 4) with (2 ^ 32).
  unfold in_u16, in_u32 in *. rewrite !(Z.mod_small _ (2 ^ _)) by done.
  cbn [header_bytes app nth h_cc h_extbit h_padbit h_version h_paytype h_markbit].
  rewrite !(Z.mod_small cc), !(Z.mod_small ext), !(Z.mod_small pad), !(Z.mod_small ver), !(Z.mod_small pt), !(Z.mod_small mark) by done.
  destruct (byte0_fields cc ext pad ver) as (-> & -> & -> & ->); [done..|]. f_equal; mlia.
Qed.

(** ** The header of a new block *)

Lemma get_header_put a x m h rest :
  nb_data x ++ nb_rest x = header_bytes h ++ rest → header_ok h → get_header (NBlk a) (put_blk a x m) = Ret h (put_blk a x m).
Proof.
  intros Hd Hh. unfold get_header. rewrite (bind_ret _ _ _ _ _ (get_put a x m)).
  pose proof (zlen_nonneg rest). pose proof (zlen_header h).
  assert (El : length (header_bytes h) = 12%nat) by (unfold zlen in *; lia).
  rewrite (bind_ret _ _ _ (header_bytes h) (put_blk a x m)).
  - unfold mret, CM_ret. f_equal. rewrite <- (app_nil_r (header_bytes h)). by apply header_of_bytes.
  - cbn [nb_blk b_rptr]. rewrite read_put by (unfold RTP_FIXED_HEADER_SIZE; rewrite ?Hd, ?zlen_app; lia). f_equal.
    rewrite Hd. by apply slice_app_l.
Qed.

Lemma upd_header_put a x m h rest f :
  nb_data x = header_bytes h ++ rest → header_ok h →
  upd_header (NBlk a) f (put_blk a x m) = Ret tt (put_blk a (x <| nb_data := header_bytes (f h) ++ rest |>) m).
Proof.
  intros Hd Hh. unfold upd_header.
  assert (Eg : get_header (NBlk a) (put_blk a x m) = Ret h (put_blk a x m)) by (apply (get_header_put a x m h (rest ++ nb_rest x)); [by rewrite Hd, app_assoc|done]).
  rewrite (bind_ret _ _ _ _ _ Eg), (bind_ret _ _ _ _ _ (get_put a x m)). cbn [nb_blk b_rptr].
  pose proof (zlen_header h). pose proof (zlen_header (f h)). pose proof (zlen_nonneg rest).
  change (mkMblk _ _ _ _ _ _) with (nb_blk a x). rewrite write_put by (rewrite ?Hd, ?zlen_app; lia).
  rewrite Hd, splice_front by lia. done.
Qed.

(** Writing a header into fresh memory gives every field of it. *)
Lemma upd_header_new a x m buf f :
  nb_data x = [] → nb_rest x = buf → zlen buf = 12 → (∀ h h', header_bytes (f h) = header_bytes (f h')) →
  upd_header (NBlk a) f (put_blk a x m) = Ret tt (put_blk a (x <| nb_rest := header_bytes (f (header_of [])) |>) m).
Proof.
  intros Hd Hr Hl Hf. unfold upd_header, get_header.
  assert (El : length buf = 12%nat) by (unfold zlen in *; lia).
  rewrite (bind_ret _ _ _ (header_of buf) (put_blk a x m)).
  2: { rewrite (bind_ret _ _ _ _ _ (get_put a x m)). rewrite (bind_ret _ _ _ buf (put_blk a x m)); [done|].
       cbn [nb_blk b_rptr]. change (mkMblk _ _ _ _ _ _) with (nb_blk a x).
       rewrite read_put by (unfold RTP_FIXED_HEADER_SIZE; rewrite ?Hd, ?Hr; cbn; lia).
       rewrite Hd, Hr. cbn [app]. f_equal. rewrite <- (app_nil_r buf) at 1. by apply slice_app_l. }
  rewrite (bind_ret _ _ _ _ _ (get_put a x m)). pose proof (zlen_header (f (header_of buf))).
  pose proof (write_put_rest a x m (header_bytes (f (header_of buf))) buf [] ltac:(by rewrite app_nil_r) ltac:(lia)) as E.
  rewrite Hd in E. change (zlen []) with 0 in E. cbn [nb_blk b_rptr]. change (mkMblk _ _ _ _ _ _) with (nb_blk a x).
  rewrite E, app_nil_r. by rewrite (Hf (header_of buf) (header_of [])).
Qed.

(** The fields of the first two bytes do not depend on those behind. *)
Lemma get_header_bytes a x m l rest :
  nb_data x = l ++ rest → zlen l = 12 → get_header (NBlk a) (put_blk a x m) = Ret (header_of l) (put_blk a x m).
Proof.
  intros Hd Hl. unfold get_header. rewrite (bind_ret _ _ _ _ _ (get_put a x m)).
  pose proof (zlen_nonneg rest). pose proof (zlen_nonneg (nb_rest x)).
  rewrite (bind_ret _ _ _ l (put_blk a x m)); [done|].
  cbn [nb_blk b_rptr]. rewrite read_put by (unfold RTP_FIXED_HEADER_SIZE; rewrite ?Hd, ?zlen_app; lia). f_equal.
  rewrite Hd, <- app_assoc. apply slice_app_l. unfold zlen in Hl. unfold RTP_FIXED_HEADER_SIZE. lia.
Qed.
Lemma wire_cc h : header_ok h → h_cc (header_of (wire_header h)) = h_cc h.
Proof.
  intros [H1 H2 H3 H4 _ _ _ _ _]. unfold header_of, wire_header. cbn [app nth h_cc]. unfold header_byte0.
  rewrite (Z.mod_small (h_cc h)), (Z.mod_small (h_extbit h)), (Z.mod_small (h_padbit h)), (Z.mod_small (h_version h)) by done. by destruct (byte0_fields (h_cc h) (h_extbit h) (h_padbit h) (h_version h)).
Qed.

Lemma header_to_network_put a x m h rest :
  nb_data x = header_bytes h ++ rest → header_ok h → h_cc h = 0 →
  header_to_network (NBlk a) (put_blk a x m) = Ret tt (put_blk a (x <| nb_data := wire_header h ++ rest |>) m).
Proof.
  intros Hd Hh Hcc. unfold header_to_network. rewrite (bind_ret _ _ _ _ _ (get_put a x m)). cbn [nb_blk b_rptr].
  unfold header_bytes in Hd. fold (header_byte0 h) (header_byte1 h) in Hd.
  set (b01 := [header_byte0 h; header_byte1 h]) in *. rewrite <- !app_assoc in Hd.
  erewrite (bind_ret (swap _ (0 + 8) 4)).
  2: { apply (swap_put a x m _ _ (b01 ++ le_bytes 2 (h_seq_number h) ++ le_bytes 4 (h_timestamp h)) (le_bytes 4 (h_ssrc h)) rest);
       [by rewrite Hd, <- ?app_assoc|by rewrite !zlen_app, !zlen_le|by rewrite zlen_le]. }
  erewrite (bind_ret (swap _ (0 + 4) 4)).
  2: { apply (swap_put a _ m _ _ (b01 ++ le_bytes 2 (h_seq_number h)) (le_bytes 4 (h_timestamp h)) (reverse (le_bytes 4 (h_ssrc h)) ++ rest));
       [cbn; by rewrite <- ?app_assoc|by rewrite !zlen_app, !zlen_le|by rewrite zlen_le]. }
  erewrite (bind_ret (swap _ (0 + 2) 2)).
  2: { apply (swap_put a _ m _ _ b01 (le_bytes 2 (h_seq_number h)) (reverse (le_bytes 4 (h_timestamp h)) ++ reverse (le_bytes 4 (h_ssrc h)) ++ rest));
       [cbn; by rewrite <- ?app_assoc|done|by rewrite zlen_le]. }
  assert (Ew : b01 ++ reverse (le_bytes 2 (h_seq_number h)) ++ reverse (le_bytes 4 (h_timestamp h)) ++ reverse (le_bytes 4 (h_ssrc h)) ++ rest
    = wire_header h ++ rest) by (unfold wire_header, be_bytes, b01; by rewrite <- !app_assoc).
  rewrite Ew. erewrite (bind_ret (get_header _)).
  2: { apply (get_header_bytes a _ m (wire_header h) rest); [done|apply zlen_wire]. }
  by rewrite (wire_cc h Hh), Hcc.
Qed.

(** * Packets *)

(** A packet at [n] on top of the heap [m]: the header [h] in a block of its own, the
    payload in the caller's buffer at [base]. *)
Definition packet_heap (n hbase base : Z) (h : rtp_header_t) (payload : list Z) (m : Mem) : Mem :=
  put_two n (mkNblk None hbase true (header_bytes h) []) (n + 2) (mkNblk None base false payload []) m.

(** The header of a new packet of the session. *)
Definition fresh_header (s : RtpSession) : rtp_header_t := mkHeader 0 0 0 2 (send_pt s `mod` 128) 0 0 0 (send_ssrc s).

Lemma fresh_header_ok s : in_u32 (send_ssrc s) → header_ok (fresh_header s).
Proof. intros H. split; try done; cbn; try lia; try (unfold in_u16, in_u32; lia). apply Z.mod_pos_bound. lia. Qed.

Lemma new_header_bytes s h : header_bytes (new_header s h) = header_bytes (fresh_header s).
Proof.
  unfold header_bytes, new_header, fresh_header. destruct h. cbn. by rewrite Z.mod_mod by lia.
Qed.

Lemma put_blk_brk a x m k : (put_blk a x m) <| brk := k |> = put_blk a x (m <| brk := k |>).
Proof. done. Qed.

Section Proofs.
Context `{System}.

Lemma create_packet_ret a base payload e s :
  session_at a e = Some s → in_u32 (send_ssrc s) →
  let n := brk (heap e) in
  rtp_session_create_packet_with_data a base payload false e =
  Ret (NBlk n) (e <| heap := packet_heap n (buf_addr (n + 1)) base (fresh_header s) payload ((heap e) <| brk := n + 4 |>) |>).
Proof.
  intros Hs Hssrc n. unfold rtp_session_create_packet_with_data. rewrite (ses_bind a e s) by done.
  destruct (put_allocb buf_addr junk 12 (heap e) ltac:(lia)) as (buf & Hl & _ & Ea). fold n in Ea.
  set (x0 := mkNblk None (buf_addr (n + 1)) true [] buf) in *. set (m2 := (heap e) <| brk := n + 2 |>) in *.
  unfold new_block. rewrite (hp_bind _ _ _ _ _ Ea).
  assert (E1 : upd_header (NBlk n) (new_header s) (put_blk n x0 m2) =
    Ret tt (put_blk n (x0 <| nb_rest := header_bytes (fresh_header s) |>) m2)).
  { rewrite (upd_header_new n x0 m2 buf) by (done || (intros; by rewrite !new_header_bytes)). by rewrite new_header_bytes. }
  rewrite (hp_step _ _ _ _ _ _ E1). pose proof (zlen_header (fresh_header s)) as Hz.
  unfold advance. erewrite hp_step.
  2: { apply (advance_put n _ m2 RTP_FIXED_HEADER_SIZE (header_bytes (fresh_header s)) []); [by rewrite app_nil_r|by rewrite Hz]. }
  erewrite hp_step; [|apply put_new].
  erewrite hp_step; [|apply (advance_put (n + 2) _ _ (zlen payload) payload []); [by rewrite app_nil_r|done]].
  erewrite hp_step.
  2: { rewrite put_blk_brk, put_blk_swap by lia. apply set_cont_put. }
  replace (n + 4) with (n + 2 + 2) by lia. done.
Qed.

(** Changing the header of a packet. *)
Lemma packet_upd n hbase base h payload m f :
  header_ok h → upd_header (NBlk n) f (packet_heap n hbase base h payload m) = Ret tt (packet_heap n hbase base (f h) payload m).
Proof.
  intros Hh. unfold packet_heap, put_two. erewrite (upd_header_put n _ _ h []); [|by rewrite app_nil_r|done].
  by rewrite app_nil_r.
Qed.

(** A packet in network order. *)
Definition wire_heap (n hbase base : Z) (h : rtp_header_t) (payload : list Z) (m : Mem) : Mem :=
  put_two n (mkNblk None hbase true (wire_header h) []) (n + 2) (mkNblk None base false payload []) m.

Lemma packet_to_network n hbase base h payload m :
  header_ok h → h_cc h = 0 →
  header_to_network (NBlk n) (packet_heap n hbase base h payload m) = Ret tt (wire_heap n hbase base h payload m).
Proof.
  intros Hh Hc. unfold packet_heap, put_two. erewrite (header_to_network_put n _ _ h []); [|by rewrite app_nil_r|done|done].
  by rewrite app_nil_r.
Qed.

Lemma gather_wire n hbase base h payload m :
  gather MAX_IOV (Some (NBlk n)) (wire_heap n hbase base h payload m) =
  Ret (wire_header h ++ payload) (wire_heap n hbase base h payload m).
Proof.
  unfold MAX_IOV, wire_heap, put_two. set (x := mkNblk _ _ _ _ _). set (y := mkNblk _ _ _ _ _). cbn [gather].
  rewrite (bind_ret _ _ _ _ _ (get_put n _ _)). cbn [nb_blk b_wptr b_rptr b_cont nb_cont]. rewrite Z.sub_0_r.
  rewrite (bind_ret _ _ _ _ _ (read_put_all n _ _)).
  change (nb_cont (x <| nb_cont := Some (NBlk (n + 2)) |>)) with (Some (NBlk (n + 2))).
  rewrite put_blk_swap by lia. rewrite (bind_ret _ _ _ (payload ++ []) (put_blk (n + 2) (y <| nb_cont := None |>) (put_blk n (x <| nb_cont := Some (NBlk (n + 2)) |>) m))).
  - rewrite app_nil_r. done.
  - rewrite (bind_ret _ _ _ _ _ (get_put (n + 2) _ _)). cbn [nb_blk b_wptr b_rptr b_cont]. rewrite Z.sub_0_r.
    rewrite (bind_ret _ _ _ _ _ (read_put_all (n + 2) _ _)). done.
Qed.

(** ** A packet on its way *)

(** The datagram of a packet of the session, and the address it goes to. *)
Definition rtp_datagram (s : RtpSession) (h : rtp_header_t) (payload : list Z) : datagram :=
  mkDatagram (rtp_socket (rtp s))
    (if has_flag s RTP_SESSION_USING_EXT_SOCKETS then None else Some (rtp_rem_addr (rtp s))) (wire_header h ++ payload).

Lemma ortp_rtp_send_ret a n hbase base h payload m e s :
  session_at a e = Some s → heap e = packet_heap n hbase base h payload m → header_ok h → h_cc h = 0 →
  hbase ≠ 0 → base ≠ 0 → clear_two n (n + 2) m → no_error_handler s →
  ortp_rtp_send a (NBlk n) e =
  Ret (net_result (rtp_datagram s h payload) e) ((net_sent (rtp_datagram s h payload) e) <| heap := m |>).
Proof.
  intros Hs He Hh Hc Hhb Hb Hm Hcb. unfold ortp_rtp_send.
  rewrite (hp_bind _ _ _ tt (wire_heap n hbase base h payload m)) by (rewrite He; by apply packet_to_network).
  rewrite (ses_bind a _ s) by (by destruct e). unfold rtp_sendmsg.
  set (to := if has_flag s RTP_SESSION_USING_EXT_SOCKETS then None else Some (rtp_rem_addr (rtp s))).
  set (e1 := e <| heap := wire_heap n hbase base h payload m |>).
  destruct (net_send_ret (rtp_socket (rtp s)) to (wire_header h ++ payload) e1) as [errno En].
  rewrite (bind_ret _ _ _ (net_result (rtp_datagram s h payload) e, errno) (net_sent (rtp_datagram s h payload) e1)).
  2: { rewrite (hp_bind _ _ _ (wire_header h ++ payload) (heap e1)); [|apply gather_wire]. exact En. }
  assert (Hq : ∀ B (k : unit → CM Env B) e',
    (x ← (if net_result (rtp_datagram s h payload) e <? 0 then
       if 0 <? tb_count (on_network_error s) then emit a on_network_error [ArgStr (Some (bytes_of "Error sending RTP packet")); ArgInt errno] else mret tt
     else mret tt); k x) e' = k tt e').
  { intros B k e'. rewrite (proj2 (Z.ltb_ge 0 _)) by done. by destruct (_ <? 0). }
  rewrite Hq. clear Hq.
  rewrite (hp_bind _ _ _ tt m); [by destruct e|].
  replace (heap (net_sent (rtp_datagram s h payload) e1)) with (wire_heap n hbase base h payload m) by (by destruct e).
  by apply free_put_two.
Qed.

(** The header of the packet with sequence number and timestamp. *)
Definition sent_header (s0 s : RtpSession) (ts : Z) : rtp_header_t :=
  (fresh_header s0) <| h_seq_number := snd_seq (rtp s) |> <| h_timestamp := ts |>.
Definition count_packet (packsize : Z) (t : rtp_stats_t) : rtp_stats_t :=
  t <| st_sent ::= (fun n => u64 (n + packsize)) |> <| st_packet_sent ::= (fun n => u64 (n + 1)) |>.
(** The session after a packet of [packsize] bytes. *)
Definition session_sent (packsize ts : Z) (s : RtpSession) : RtpSession :=
  on_rtp (fun r => r <| stats ::= count_packet packsize |>)
    (on_rtp (fun r => r <| snd_seq ::= (fun q => u16 (q + 1)) |> <| snd_last_ts := ts |>) s).
(** The environment after it: the packet is on the wire, its blocks are free. *)
Definition after_send (a packsize ts : Z) (d : datagram) (s : RtpSession) (m : Mem) (e : Env) : Env :=
  (net_sent d (put_session a (session_sent packsize ts s) (e <| ortp_global_stats ::= count_packet packsize |>))) <| heap := m |>.

Lemma sendm_ret fuel sleep a n hbase base s0 payload ts e e1 s m :
  in_u32 (send_ssrc s0) → in_u32 ts → in_u16 (snd_seq (rtp s)) → 12 + zlen payload < 2 ^ 31 →
  hbase ≠ 0 → base ≠ 0 → clear_two n (n + 2) m → no_error_handler s →
  (_ ← send_start a ts; send_wait sleep a ts) e = Ret tt e1 →
  heap e1 = packet_heap n hbase base (fresh_header s0) payload m → session_at a e1 = Some s →
  let d := rtp_datagram s (sent_header s0 s ts) payload in
  rtp_session_sendm_with_ts fuel sleep a (NBlk n) ts e =
  (_ ← rtcp_recv fuel a; _ ← rtp_session_rtcp_process a; mret (net_result d e1)) (after_send a (12 + zlen payload) ts d s m e1).
Proof.
  intros Hssrc Hts Hseq Hlen Hhb Hb Hm Hcb Hw He1 Hs d. unfold rtp_session_sendm_with_ts.
  rewrite <- (bind_assoc (send_start a ts) (λ _, send_wait sleep a ts)), (bind_ret _ _ _ _ _ Hw).
  pose proof (fresh_header_ok s0 Hssrc) as Hh. pose proof (zlen_header (fresh_header s0)) as Hz.
  rewrite (bind_ret _ _ _ (12 + zlen payload) e1).
  2: { apply hp_same. rewrite He1. unfold packet_heap. rewrite size_put_two; cbn [nb_data]; [by rewrite Hz|done|by rewrite Hz]. }
  rewrite (ses_bind a e1 s) by done.
  set (h1 := (fresh_header s0) <| h_seq_number := snd_seq (rtp s) |>).
  rewrite (hp_bind _ _ _ tt (packet_heap n hbase base h1 payload m)) by (rewrite He1; by apply packet_upd).
  assert (Hh1 : header_ok h1) by (destruct Hh; split; done).
  assert (Hh2 : header_ok (sent_header s0 s ts)) by (destruct Hh1; split; done).
  erewrite hp_step; [|by apply packet_upd].
  rewrite (upd_bind a _ _ s) by (by destruct e1).
  set (s1 := on_rtp _ s). set (e2 := put_session a s1 _).
  erewrite bind_ret; [|apply (count_stats_ret a _ e2 s1), session_put].
  set (e3 := put_session a _ _).
  assert (E3 : e3 = (put_session a (session_sent (12 + zlen payload) ts s) (e1 <| ortp_global_stats ::= count_packet (12 + zlen payload) |>))
    <| heap := packet_heap n hbase base (sent_header s0 s ts) payload m |>).
  { unfold e3, e2. destruct e1 as [he pe [sc ss sg os si] gs ob cl ca ini]. unfold put_session. cbn. by rewrite insert_insert_eq. }
  erewrite bind_ret; [|apply (ortp_rtp_send_ret a n hbase base (sent_header s0 s ts) payload m e3 (session_sent (12 + zlen payload) ts s)); try done].
  - rewrite E3. unfold after_send. subst d. by destruct e1.
  - unfold e3. apply session_put.
Qed.

(** C35: Sending a buffer: whatever the wait for its time does to the rest of the
    process, one datagram of the packet leaves: version 2, payload type and SSRC of the session, the
    next sequence number (which advances modulo 2^16) and the timestamp in network
    order, then the payload. The statistics count it, the result is its size or -1 for an
    error of the network, and the heap is as the other threads left it: header and
    wrapper are freed, the buffer stays with its owner. RTCP goes on from there. *)
Theorem send_with_ts_spec fuel sleep a base payload ts e e1 s0 s m :
  let n := brk (heap e) in
  let e0 := e <| heap := packet_heap n (buf_addr (n + 1)) base (fresh_header s0) payload ((heap e) <| brk := n + 4 |>) |> in
  session_at a e = Some s0 → in_u32 (send_ssrc s0) → in_u32 ts → base ≠ 0 → 12 + zlen payload < 2 ^ 31 →
  (_ ← send_start a ts; send_wait sleep a ts) e0 = Ret tt e1 →
  session_at a e1 = Some s → in_u16 (snd_seq (rtp s)) → no_error_handler s →
  heap e1 = packet_heap n (buf_addr (n + 1)) base (fresh_header s0) payload m → clear_two n (n + 2) m →
  let d := mkDatagram (rtp_socket (rtp s)) (if has_flag s RTP_SESSION_USING_EXT_SOCKETS then None else Some (rtp_rem_addr (rtp s)))
    ([128; send_pt s0 `mod` 128] ++ be_bytes 2 (snd_seq (rtp s)) ++ be_bytes 4 ts ++ be_bytes 4 (send_ssrc s0) ++ payload) in
  rtp_session_send_with_ts fuel sleep a base payload ts e =
  (_ ← rtcp_recv fuel a; _ ← rtp_session_rtcp_process a; mret (net_result d e1)) (after_send a (12 + zlen payload) ts d s m e1).
Proof.
  intros n e0 Hs0 Hssrc Hts Hb Hlen Hw Hs Hseq Hcb He1 Hm d. unfold rtp_session_send_with_ts.
  rewrite (bind_ret _ _ _ _ _ (create_packet_ret a base payload e s0 Hs0 Hssrc)). fold n. fold e0.
  rewrite (sendm_ret fuel sleep a n (buf_addr (n + 1)) base s0 payload ts e0 e1 s m); try done; [|apply buf_addr_ok].
  enough (rtp_datagram s (sent_header s0 s ts) payload = d) as -> by done.
  unfold rtp_datagram, d, wire_header, sent_header, fresh_header, header_byte0, header_byte1. cbn. rewrite Z.mod_mod by lia.
  change (128 * 0 `mod` 2) with 0. by rewrite (Z.add_0_r (send_pt s0 `mod` 128)).
Qed.

End Proofs.

(** A packet of a video session that is not scheduled, with the last sequence number. *)
Definition ex_sender : RtpSession :=
  on_rtp (fun r => r <| rtp_socket := 3 |> <| snd_seq := 65535 |> <| rtcp_report_snt_interval := 450000 |>) ex_video_session.
Definition ex_send_env : Env := ex_env <| world := fresh_world {[ 100 := ex_sender ]} |>.
Definition ex_packet : list Z :=
  [128; 34] ++ be_bytes 2 65535 ++ be_bytes 4 90000 ++ be_bytes 4 305419896 ++ [1; 2; 3].

Lemma send_with_ts_spec_witness :
  let n := brk mem0 in
  let m := mem0 <| brk := n + 4 |> in
  let e0 := ex_send_env <| heap := packet_heap n (16 * (Z.abs (n + 1) + 1)) 5000 (fresh_header ex_sender) [1; 2; 3] m |> in
  let d := mkDatagram 3 (Some (mkAddr 0 0 0)) ex_packet in
  rtp_session_send_with_ts (H := quiet_system) 1 (mret tt) 100 5000 [1; 2; 3] 90000 ex_send_env =
  (_ ← rtcp_recv (H := quiet_system) 1 100; _ ← rtp_session_rtcp_process (H := quiet_system) 100; mret 15)
    (after_send (H := quiet_system) 100 15 90000 d ex_sender m e0).
Proof.
  apply (send_with_ts_spec (H := quiet_system) 1 (mret tt) 100 5000 [1; 2; 3] 90000 ex_send_env
    (ex_send_env <| heap := packet_heap (brk mem0) (16 * (Z.abs (brk mem0 + 1) + 1)) 5000 (fresh_header ex_sender) [1; 2; 3] (mem0 <| brk := brk mem0 + 4 |>) |>)
    ex_sender ex_sender (mem0 <| brk := brk mem0 + 4 |>)); try (vm_compute; split; congruence); try (vm_compute; reflexivity); try (vm_compute; congruence).
  repeat split; vm_compute; congruence.
Defined.
