(* ===== verification/OrtpStream.v ===== *)
(** * A stream of packets ([utils/ortp/src/rtpsession.c])

    The wait of a scheduled sender, with the thread of [scheduler.c] taking turns while it
    sleeps, and what leaves a session that sends one buffer after the other while the
    network is silent: the packets of the stream, in order, with the reports that get due.
    The theorem on streams asks of the waits only [pacing], which sessions without a
    scheduler and scheduled ones both have. *)

From Stdlib Require Import Floats.SpecFloat.
From S2P Require Import Prelude Floating StrUtils Blocks RtpMod Payload OrtpSession Sched OrtpEnv Rtcp RtcpParse OrtpSend.

(** A buffer with its address and its timestamp. *)
Record frame := mkFrame { fr_base : Z; fr_payload : list Z; fr_ts : Z }.

(** * A sleeping sender

    While a sender sleeps on its wait point the thread of the scheduler runs: turn after turn,
    until one of them wakes it. [wait_point_wakeup_at] waits without a loop, so a spurious
    wake-up, which POSIX allows, returns as well: [spur] is the number of turns before it, if
    there is one. The number of turns is bounded by the distance of the sender's time. *)
Fixpoint sleep_ticks (fuel : nat) (spur : option nat) (a : Z) : CM World unit :=
  match fuel with
  | O => block
  | S fuel =>
      s ← sess_of a;
      if wakeup (send_wp s) then
        match spur with
        | Some O => mret tt
        | _ => _ ← schedule_turn; sleep_ticks fuel (pred <$> spur) a
        end
      else mret tt
  end.
Definition sleep_woken (spur : option nat) (a : Z) : CM World unit :=
  s ← sess_of a;
  w ← gets sched;
  sleep_ticks (Z.to_nat (u32 (wp_time (send_wp s) - time_ w) / timer_inc w + 3)) spur a.

(** The sleep in a run in which [spur] tells the spurious wake-ups. *)
Definition sleeping (spur : Env → option nat) (a : Z) : CM Env unit :=
  fun e => wd (sleep_woken (spur e) a) e.

(** The clock at the end of a sleep, begun at [T], whose time [t] is [k] milliseconds ahead: the
    spurious wake-up ends it when no signal comes before; otherwise the first tick does that is not before [t]. *)
Definition awake_after (spur : option nat) (inc k t T' : Z) : Prop :=
  (∃ n, spur = Some n ∧ Z.of_nat n * inc < k + inc ∧ T' = u32 (t - k + Z.of_nat n * inc)) ∨
  ((∀ n, spur = Some n → k + inc ≤ Z.of_nat n * inc) ∧ ∃ j, T' = u32 (t + j) ∧ inc ≤ j < 2 * inc).

(** No operation on sessions and masks starts or ends the scheduler. *)
Definition stays_up {A} (c : CM World A) : Prop := ∀ w x w', c w = Ret x w' → ortp_scheduler w' = ortp_scheduler w.
Create HintDb stays_up.
Lemma up_bind {A B} (c : CM World A) (k : A → CM World B) : stays_up c → (∀ x, stays_up (k x)) → stays_up (x ← c; k x).
Proof.
  intros Hc Hk w y w'. unfold mbind, CM_bind. destruct (c w) as [x w1|w1|f] eqn:E; try done. intros H.
  rewrite (Hk _ _ _ _ H). by eapply Hc.
Qed.
Lemma up_ret {A} (x : A) : stays_up (mret x).
Proof. by intros w y w' [= _ <-]. Qed.
Lemma up_gets {A} (f : World → A) : stays_up (gets f).
Proof. by intros w y w' [= _ <-]. Qed.
Lemma up_fault {A} f : stays_up (A := A) (fault_with f).
Proof. by intros w y w'. Qed.
Lemma up_block {A} : stays_up (A := A) block.
Proof. by intros w y w'. Qed.
Lemma up_sched f : stays_up (on_sched f).
Proof. by intros w y w' [= _ <-]. Qed.
Lemma up_sessions f : stays_up (modify (fun w => w <| sessions ::= f |>)).
Proof. by intros w y w' [= _ <-]. Qed.
Lemma up_signals f : stays_up (modify (fun w => w <| signals ::= f |>)).
Proof. by intros w y w' [= _ <-]. Qed.
#[export] Hint Resolve up_bind up_ret up_gets up_fault up_block up_sched up_sessions up_signals : stays_up.
Ltac staying_up := repeat (first [progress eauto 2 with stays_up | apply up_bind; [|intros ?] | case_match]).

Lemma up_sess a : stays_up (sess_of a).
Proof. unfold sess_of. staying_up. Qed.
#[export] Hint Resolve up_sess : stays_up.
Lemma up_on_sess a f : stays_up (on_sess a f).
Proof. unfold on_sess. staying_up. Qed.
Lemma up_set k a : stays_up (session_set_set k a).
Proof. unfold session_set_set, on_mask. staying_up. Qed.
Lemma up_clr k a : stays_up (session_set_clr k a).
Proof. unfold session_set_clr, on_mask. staying_up. Qed.
#[export] Hint Resolve up_on_sess up_set up_clr : stays_up.
Lemma up_process a t : stays_up (rtp_session_process a t).
Proof. unfold rtp_session_process, process_dir. staying_up. Qed.
#[export] Hint Resolve up_process : stays_up.
Lemma up_turn : stays_up schedule_turn.
Proof.
  assert (H : ∀ fuel h, stays_up (process_list fuel h)) by (induction fuel as [|fuel IH]; intros [h|]; cbn [process_list]; staying_up).
  unfold schedule_turn. staying_up.
Qed.
Lemma up_until a d t : stays_up (wait_until a d t).
Proof. unfold wait_until. staying_up. Qed.
#[export] Hint Resolve up_turn up_until : stays_up.

(** A session whose wait points changed, and nothing else of it. *)
Definition waited (s : RtpSession) (wp wp' : WaitPoint) : RtpSession := s <| send_wp := wp |> <| recv_wp := wp' |>.

(** The other sessions changed in nothing but their wait points. *)
Definition others_wait (a : Z) (w w' : World) : Prop :=
  ∀ b, b ≠ a → ∃ wp wp', sessions w' !! b = (fun s => waited s wp wp') <$> sessions w !! b.
Lemma waited_same (o : option RtpSession) : ∃ wp wp', o = (fun s => waited s wp wp') <$> o.
Proof. destruct o as [s|]; [|by exists wait_point_init, wait_point_init]. exists (send_wp s), (recv_wp s). by destruct s. Qed.
#[export] Instance others_wait_preorder a : PreOrder (others_wait a).
Proof.
  split.
  - intros w b _. apply waited_same.
  - intros w1 w2 w3 H12 H23 b Hb. destruct (H12 b Hb) as (x & y & E12), (H23 b Hb) as (z & u & E23). exists z, u.
    rewrite E23, E12. by destruct (sessions w1 !! b).
Qed.
Lemma others_same a w w' : (∀ b, b ≠ a → sessions w' !! b = sessions w !! b) → others_wait a w w'.
Proof. intros E b Hb. rewrite (E b Hb). apply waited_same. Qed.

(** What a sleep of [a] leaves: the scheduler consistent, the wait point as it is, [time_]
    at [j] milliseconds after [t]. *)
Record slept (a : Z) (L : list Z) (s : RtpSession) (wp : WaitPoint) (w w' : World) : Prop := {
  sl_ok : sched_ok L w';
  sl_session : ∃ wp', sessions w' !! a = Some (waited s wp wp');
  sl_inc : timer_inc (sched w') = timer_inc (sched w);
  sl_others : others_wait a w w';
  sl_up : ortp_scheduler w' = ortp_scheduler w;
  sl_time : in_u32 (time_ (sched w'))
}.

Lemma turn_slept a L w s t k : sched_ok L w → a ∈ L → sessions w !! a = Some s → send_wp s = mkWait t true →
  time_ (sched w) = u32 (t - k) → - 2 ^ 31 < k ≤ 2 ^ 31 →
  ∃ w', schedule_turn w = Ret tt w' ∧ slept a L s (mkWait t (0 <? k)) w w' ∧ time_ (sched w') = u32 (t - k + timer_inc (sched w)).
Proof.
  intros Hok Ha Hs Hwp Ht Hk. destruct (tick_ok L w Hok) as (w' & E & Hok' & Htb & Ht'). exists w'. split; [done|].
  rewrite Ht', Ht. unfold u32 at 1 2. rewrite Zplus_mod_idemp_l. split; [|done]. split; [done| |apply Htb| |by apply (up_turn _ _ _ E)|].
  - rewrite (tb_sess _ _ _ _ Htb), Hs. rewrite decide_True by done. exists (snd (wait_point_check (recv_wp s) (time_ (sched w)))).
    cbn [fmap option_fmap option_map]. f_equal. unfold ticked, checked. cbn [wp_get]. rewrite Hwp, Ht, (check_set t k Hk). cbn [snd wp_put]. by destruct s.
  - intros b _. rewrite (tb_sess _ _ _ _ Htb). destruct (decide (b ∈ L)) as [_|_]; [|apply waited_same].
    destruct (sessions w !! b) as [sb|]; [|by exists wait_point_init, wait_point_init].
    by exists (snd (wait_point_check (send_wp sb) (time_ (sched w)))), (snd (wait_point_check (recv_wp sb) (time_ (sched w)))).
  - rewrite Ht'. unfold in_u32, u32. apply Z.mod_pos_bound. lia.
Qed.

Lemma slept_trans a L s wp1 wp1' wp2 w1 w2 w3 : slept a L s wp1 w1 w2 → sessions w2 !! a = Some (waited s wp1 wp1') →
  slept a L (waited s wp1 wp1') wp2 w2 w3 → slept a L s wp2 w1 w3.
Proof.
  intros [_ _ Hi1 Ho1 Hu1 _] Hs1 [Hok' (wp'' & Hs') Hi' Ho' Hu' Htm']. split; [done| |congruence|by transitivity w2|congruence|done].
  exists wp''. by rewrite Hs'.
Qed.

Lemma sleep_ticks_ok n a L t k : ∀ spur w s, sched_ok L w → a ∈ L → sessions w !! a = Some s → send_wp s = mkWait t true →
  time_ (sched w) = u32 (t - k) → 0 < timer_inc (sched w) < 2 ^ 31 → - timer_inc (sched w) < k ≤ 2 ^ 31 → k ≤ Z.of_nat n * timer_inc (sched w) →
  in_u32 (time_ (sched w)) →
  ∃ w' b, sleep_ticks (S (S n)) spur a w = Ret tt w' ∧ slept a L s (mkWait t b) w w' ∧ awake_after spur (timer_inc (sched w)) k t (time_ (sched w')).
Proof.
  revert k. induction n as [|n IH]; intros k spur w s Hok Ha Hs Hwp Ht Hinc Hk Hn Htm.
  all: destruct (turn_slept a L w s t k Hok Ha Hs Hwp Ht ltac:(lia)) as (w1 & E1 & Hsl & Ht1); pose proof Hsl as [Hok1 (wp' & Hs1) Hi1 _ _ Htm1].
  all: destruct (decide (spur = Some 0%nat)) as [->|Hsp].
  1, 3: exists w, true; cbn [sleep_ticks]; rewrite (bind_ret _ _ _ _ _ (sess_of_ret a w s Hs)), Hwp; cbn [wakeup]; split; [reflexivity|]; split;
    [split; try done; exists (recv_wp s); rewrite Hs; destruct s; cbn in *; by subst|left; exists 0%nat; split; [done|split; [lia|]]; rewrite Ht; f_equal; lia].
  all: assert (Es : ∀ f, sleep_ticks (S f) spur a w = sleep_ticks f (pred <$> spur) a w1) by
    (intros f; cbn [sleep_ticks]; rewrite (bind_ret _ _ _ _ _ (sess_of_ret a w s Hs)), Hwp; cbn [wakeup]; destruct spur as [[|i]|]; [done|by rewrite (bind_ret _ _ _ _ _ E1)..]).
  all: assert (Hpos : ∀ i, spur = Some i → 0 < Z.of_nat i) by (intros [|i] ->; [done|lia]).
  all: rewrite Es; destruct (Z.ltb_spec 0 k) as [Hk0|Hk0]; [|exists w1, false; split;
    [cbn [sleep_ticks]; by rewrite (bind_ret _ _ _ _ _ (sess_of_ret a w1 _ Hs1))|]; split; [done|]; right; split;
    [intros i Hi; specialize (Hpos i Hi); nia|exists (timer_inc (sched w) - k); split; [rewrite Ht1; f_equal; lia|lia]]].
  - lia.
  - destruct (IH (k - timer_inc (sched w)) (pred <$> spur) w1 (waited s (mkWait t true) wp')) as (w' & b & E & Hsl' & Haw); try done; try (rewrite Hi1; nia).
    { rewrite Ht1. f_equal. lia. }
    exists w', b. split; [exact E|]. split; [by eapply slept_trans|]. rewrite Hi1 in Haw. destruct Haw as [(i & Hi & Hlt & ET)|(Hi & Hj)].
    + left. destruct spur as [i0|]; [|done]. specialize (Hpos i0 eq_refl). injection Hi as <-. exists i0. split; [done|]. split; [nia|]. rewrite ET. f_equal. nia.
    + right. split; [|exact Hj]. intros i0 ->. specialize (Hpos i0 eq_refl). specialize (Hi _ eq_refl). nia.
Qed.

(** A sleep always ends. *)
Lemma sleep_woken_ok spur a L t w s : sched_ok L w → a ∈ L → sessions w !! a = Some s → send_wp s = mkWait t true →
  in_u32 (time_ (sched w)) → 0 < timer_inc (sched w) < 2 ^ 31 → u32 (t - time_ (sched w)) < 2 ^ 31 →
  ∃ w' b, sleep_woken spur a w = Ret tt w' ∧ slept a L s (mkWait t b) w w' ∧
    awake_after spur (timer_inc (sched w)) (u32 (t - time_ (sched w))) t (time_ (sched w')).
Proof.
  intros Hok Ha Hs Hwp Htm Hinc Hnew. set (k := u32 (t - time_ (sched w))) in *.
  assert (Hk0 : 0 ≤ k) by (apply Z.mod_pos_bound; lia). pose proof (Z.mul_div_le k (timer_inc (sched w)) ltac:(lia)) as Hd1.
  pose proof (Z.mul_succ_div_gt k (timer_inc (sched w)) ltac:(lia)) as Hd2. assert (Hd0 : 0 ≤ k / timer_inc (sched w)) by (apply Z.div_pos; lia).
  unfold sleep_woken. rewrite (bind_ret _ _ _ _ _ (sess_of_ret a w s Hs)), (bind_ret _ _ _ (sched w) w), Hwp by done. cbn [wp_time]. fold k.
  replace (Z.to_nat (k / timer_inc (sched w) + 3)) with (S (S (Z.to_nat (k / timer_inc (sched w) + 1)))) by lia.
  apply (sleep_ticks_ok _ a L t k); try done; try lia.
  unfold k, u32. rewrite Zminus_mod_idemp_r. replace (t - (t - time_ (sched w))) with (time_ (sched w)) by lia. by rewrite Z.mod_small.
Qed.

(** * The wait of a sender *)

(** A scheduled session that is in the list [L] of a running scheduler, sending with the payload type [p]. *)
Record scheduled (a : Z) (L : list Z) (p : PayloadType) (s : RtpSession) (e : Env) : Prop := {
  sd_session : session_at a e = Some s;
  sd_flag : has_flag s RTP_SESSION_SCHEDULED = true;
  sd_sched : has_sched s = true;
  sd_payload : session_payload a (send_pt s) e = Ret (Some p) e;
  sd_rate : 1000 ≤ clock_rate p < 2 ^ 31;
  sd_ok : sched_ok L (world e);
  sd_in : a ∈ L;
  sd_up : ortp_scheduler (world e) = true;
  sd_inc : 0 < timer_inc (sched (world e)) < 2 ^ 31;
  sd_time : in_u32 (time_ (sched (world e)))
}.

Lemma wait_done_ret L w a d s : sched_ok L w → a ∈ L → sessions w !! a = Some s →
  ∃ m, wait_done a d w = Ret tt (w <| sched ::= mask_put (dir_mask d) m |>) ∧ sched_ok L (w <| sched ::= mask_put (dir_mask d) m |>) ∧
    isset (mask_pos s) m = false.
Proof.
  intros Hok Ha Hs. destruct (sched_session L w a Hok Ha) as (s0 & Es & _ & Hp & _). rewrite Hs in Es. injection Es as <-. pose proof (so_max _ _ Hok).
  destruct (session_set_clr_ret (dir_mask d) a w s Hs (so_masks _ _ Hok)) as (m & E & Hm & Hb); [lia|]. exists m. split; [exact E|].
  split; [|rewrite Hb, decide_True by (done || lia); done]. specialize (Hm (dir_mask d)). rewrite mask_get_put, decide_True in Hm by done.
  apply (same_sched_ok L w); [|done]. apply mask_put_same; [by destruct d|done].
Qed.

(** What the wait for the time [t] leaves. *)
Record wait_ended (spur : option nat) (a : Z) (L : list Z) (s : RtpSession) (t : Z) (w w' : World) : Prop := {
  we_ok : sched_ok L w';
  we_session : ∃ wp wp', sessions w' !! a = Some (waited s wp wp');
  we_inc : timer_inc (sched w') = timer_inc (sched w);
  we_others : others_wait a w w';
  we_up : ortp_scheduler w' = ortp_scheduler w;
  we_time : in_u32 (time_ (sched w'));
  we_bit : isset (mask_pos s) (w_sessions (sched w')) = negb (RTP_TIMESTAMP_IS_STRICTLY_NEWER_THAN t (time_ (sched w)));
  we_slept : if RTP_TIMESTAMP_IS_STRICTLY_NEWER_THAN t (time_ (sched w)) && has_flag s RTP_SESSION_BLOCKING_MODE
    then awake_after spur (timer_inc (sched w)) (u32 (t - time_ (sched w))) t (time_ (sched w'))
    else time_ (sched w') = time_ (sched w)
}.

(** The wait, from the packet time on. *)
Definition wait_for (spur : option nat) (a t : Z) : CM World unit :=
  w ← wait_until a Send t;
  if (w : bool) then _ ← sleep_woken spur a; wait_done a Send else mret tt.

Lemma wait_for_ok spur a L t w s : sched_ok L w → a ∈ L → sessions w !! a = Some s → in_u32 (time_ (sched w)) →
  0 < timer_inc (sched w) < 2 ^ 31 → ∃ w', wait_for spur a t w = Ret tt w' ∧ wait_ended spur a L s t w w'.
Proof.
  intros Hok Ha Hs Htm Hinc. destruct (wait_until_ok L w a s Send t Hok Ha Hs) as (w1 & E1 & Hok1 & Hs1 & _ & Ht1 & Hi1 & Hb1). cbv zeta in *.
  pose proof (up_until _ _ _ _ _ _ E1) as Hu1. unfold wait_for. rewrite (bind_ret _ _ _ _ _ E1).
  destruct (RTP_TIMESTAMP_IS_STRICTLY_NEWER_THAN t (time_ (sched w))) eqn:Early; cbn [andb].
  2: { exists w1. split; [done|]. split; rewrite ?Early, ?Ht1; try done; [|by apply others_same; intros b _; rewrite Hs1].
    exists (send_wp s), (recv_wp s). rewrite Hs1, Hs. by destruct s. }
  set (s1 := waited s (wait_point_wakeup_at t (send_wp s)) (recv_wp s)).
  assert (Ha1 : sessions w1 !! a = Some s1) by (rewrite Hs1, lookup_insert_eq; by destruct s).
  assert (Ho1 : others_wait a w w1) by (apply others_same; intros b Hb; by rewrite Hs1, lookup_insert_ne).
  destruct (has_flag s RTP_SESSION_BLOCKING_MODE) eqn:Eb.
  2: { exists w1. split; [done|]. split; rewrite ?Early, ?Eb, ?Ht1; try done. by eexists _, _. }
  assert (Hnew : u32 (t - time_ (sched w)) < 2 ^ 31).
  { unfold RTP_TIMESTAMP_IS_STRICTLY_NEWER_THAN in Early. apply andb_prop in Early as [H%Z.ltb_lt _]. unfold u32 in *. by rewrite <- Zminus_mod in H. }
  destruct (sleep_woken_ok spur a L t w1 s1) as (w2 & b & E2 & [Hok2 (wp' & Hs2) Hi2 Ho2 Hu2 Htm2] & Haw); try done; rewrite ?Ht1, ?Hi1; try done.
  rewrite (bind_ret _ _ _ _ _ E2). destruct (wait_done_ret L w2 a Send _ Hok2 Ha Hs2) as (m & E3 & Hok3 & Hbit). eexists. split; [exact E3|].
  split; try done.
  - exists (mkWait t b), wp'. exact Hs2.
  - transitivity (timer_inc (sched w2)); [done|congruence].
  - transitivity w1; [done|exact Ho2].
  - transitivity (ortp_scheduler w2); [done|congruence].
  - rewrite Early. exact Hbit.
  - rewrite Early, Eb. rewrite Hi1, Ht1 in Haw. exact Haw.
Qed.

Lemma payload_stable a n e e' s s' x : session_at a e = Some s → session_at a e' = Some s' → profile s' = profile s → pmem e' = pmem e →
  session_payload a n e = Ret x e → session_payload a n e' = Ret x e'.
Proof.
  intros Hs Hs' Hp Hm. unfold session_payload. rewrite (ses_bind a e s), (ses_bind a e' s'), Hp by done. destruct (profile s) as [q|]; [|done].
  rewrite !(bind_ret (nonnull (Some q)) _ _ q _) by done. unfold pm, zoom. unfold mbind, CM_bind. rewrite Hm.
  destruct (rtp_profile_get_payload q n (pmem e)) as [r m1|m1|f]; [|done|done]. destruct r as [r|].
  - cbn [pmem update]. unfold update. cbn [pmem]. destruct (get_pt r m1) as [y m2|m2|f]; [|done|done]. unfold mret, CM_ret.
    intros [= <- E]. f_equal. apply (f_equal pmem) in E. cbn in E. subst m2. rewrite <- Hm. by destruct e'.
  - unfold mret, CM_ret. intros [= <- E]. f_equal. apply (f_equal pmem) in E. cbn in E. subst m1. rewrite <- Hm. by destruct e'.
Qed.

(** The packet time of a timestamp: some [ms] milliseconds after the start of the clock. *)
Definition due_ms (p : PayloadType) (s : RtpSession) (ts ms : Z) : Prop :=
  let d := u32 (ts - snd_ts_offset (rtp s)) in clock_rate p * ms ≤ 1000 * d ≤ clock_rate p * (ms + 1).

Lemma send_wait_ret spur a L p s e ts : scheduled a L p s e →
  ∃ ms w', due_ms p s ts ms ∧ send_wait (wd (sleep_woken spur a)) a ts e = Ret tt (e <| world := w' |>) ∧
    wait_ended spur a L s (u32 (ms + snd_time_offset (rtp s))) (world e) w'.
Proof.
  intros [Hs Hf Hsc Hp Hr Hok Ha Hup Hinc Htm]. set (d := u32 (ts - snd_ts_offset (rtp s))).
  assert (Hd : in_u32 d) by (unfold in_u32, d, u32; apply Z.mod_pos_bound; lia).
  destruct (thousandth_u32 d (clock_rate p) e Hd) as (ms & E & _ & Hb); [lia|unfold in_u32 in Hd; nia|].
  destruct (wait_for_ok spur a L (u32 (ms + snd_time_offset (rtp s))) (world e) s Hok Ha Hs Htm Hinc) as (w' & Ew & Hw).
  exists ms, w'. split; [exact Hb|]. split; [|exact Hw].
  unfold send_wait. rewrite (ses_bind a e s), Hf by done. fold d. rewrite (bind_ret _ _ _ ms e).
  2: { unfold rtp_session_ts_to_time. by rewrite (ses_bind a e s), (bind_ret _ _ _ _ _ Hp). }
  cbv zeta. rewrite (bind_ret (sched_of s) _ _ (sched (world e)) e).
  2: { unfold sched_of. rewrite Hsc. cbn [negb]. unfold ortp_get_scheduler, wd, zoom, gets. unfold mbind, CM_bind. rewrite Hup. by destruct e. }
  revert Ew. unfold wait_for, wd, zoom. unfold mbind, CM_bind. destruct (wait_until _ _ _ _) as [[|] w1|w1|f]; [|by intros [= ->]|done|done].
  cbn [world update]. unfold update. cbn [world]. destruct (sleep_woken spur a w1) as [[] w2|w2|f]; [|done|done]. cbn [world].
  destruct (wait_done a Send w2) as [[] w3|w3|f]; [|done|done]. by intros [= ->].
Qed.

(** A wait sleeps at most once, so it meets at most one of the wake-ups. *)
Lemma send_wait_sleeping spur a ts e : ∃ o, send_wait (sleeping spur a) a ts e = send_wait (wd (sleep_woken o a)) a ts e.
Proof.
  unfold send_wait. unfold mbind, CM_bind. destruct (ses a e) as [s e1|e1|f]; [|by exists None..]. destruct (has_flag s _); [|by exists None].
  destruct (rtp_session_ts_to_time _ _ e1) as [t e2|e2|f]; [|by exists None..]. cbv zeta.
  destruct (sched_of s e2) as [x e3|e3|f]; [|by exists None..]. destruct (wd (wait_until _ _ _) e3) as [[|] e4|e4|f]; [|by exists None..].
  by exists (spur e4).
Qed.

(** C40: The wait of a scheduled sender, from the timestamp of its packet to the return. The time of
    the packet is its timestamp in milliseconds, rounded down. When that time is
    ahead a blocking sender sleeps, and the sleep always ends: with a spurious wake-up some
    turns of the scheduler later, if it comes before the signal, and then the packet is early;
    otherwise after the first tick that is not before the time, the
    clock then at most one more tick past it. A sender that does not
    block returns at once, with its session no longer writable; with the time reached it
    returns at once and stays writable. In all cases, the spurious wake-up among them, the
    scheduler is left consistent and the session changes only in its wait points. *)
Theorem send_wait_on_time spur a L p s e ts : scheduled a L p s e →
  ∃ ms w', due_ms p s ts ms ∧ send_wait (wd (sleep_woken spur a)) a ts e = Ret tt (e <| world := w' |>) ∧
    let t := u32 (ms + snd_time_offset (rtp s)) in
    let T := time_ (sched (world e)) in
    let T' := time_ (sched w') in
    let inc := timer_inc (sched (world e)) in
    let early := RTP_TIMESTAMP_IS_STRICTLY_NEWER_THAN t T in
    sched_ok L w' ∧ (∃ wp wp', sessions w' !! a = Some (waited s wp wp')) ∧ isset (mask_pos s) (w_sessions (sched w')) = negb early ∧
    if early && has_flag s RTP_SESSION_BLOCKING_MODE
    then (∃ n, spur = Some n ∧ Z.of_nat n * inc < u32 (t - T) + inc ∧ T' = u32 (T + Z.of_nat n * inc)) ∨
         ((∀ n, spur = Some n → u32 (t - T) + inc ≤ Z.of_nat n * inc) ∧ ∃ j, T' = u32 (t + j) ∧ inc ≤ j < 2 * inc)
    else T' = T.
Proof.
  intros Hsd. destruct (send_wait_ret spur a L p s e ts Hsd) as (ms & w' & Hd & E & [Hok Hs _ _ _ _ Hb Hw]). exists ms, w'.
  split; [exact Hd|]. split; [exact E|]. cbv zeta. split; [exact Hok|]. split; [exact Hs|]. split; [exact Hb|].
  destruct (_ && _); [|exact Hw]. destruct Hw as [(n & Hn & Hlt & ET)|Hw]; [left|by right]. exists n. split; [done|]. split; [done|]. rewrite ET.
  unfold u32. rewrite <- (Zplus_mod_idemp_l (_ - _)), Zminus_mod_idemp_r. do 2 f_equal. rewrite Z.sub_sub_distr, Z.sub_diag. cbn. apply Z.mod_small, (sd_time _ _ _ _ _ Hsd).
Qed.

Section Stream.
Context `{System}.

(** The calls of an application for the buffers of a stream. *)
Fixpoint send_frames (fuel : nat) (sleep : CM Env unit) (a : Z) (frames : list frame) : CM Env (list Z) :=
  match frames with
  | [] => mret []
  | f :: frames =>
      r ← rtp_session_send_with_ts fuel sleep a (fr_base f) (fr_payload f) (fr_ts f);
      rs ← send_frames fuel sleep a frames;
      mret (r :: rs)
  end.

(** ** The surroundings *)

Record silent_network : Prop := {
  sn_recv n sock : recv_at n sock = RecvError 11;
  sn_send n sock : send_error_at n sock = None;
  sn_clock n : 0 ≤ snd (gettimeofday_at n) < 10 ^ 6
}.

(** What stays as it is in a session that sends. *)
Record same_stream (s s' : RtpSession) : Prop := {
  ss_socket : rtp_socket (rtp s') = rtp_socket (rtp s);
  ss_addr : rtp_rem_addr (rtp s') = rtp_rem_addr (rtp s);
  ss_rtcp : rtcp_socket (rtcp s') = rtcp_socket (rtcp s);
  ss_flags : flags s' = flags s;
  ss_pt : send_pt s' = send_pt s;
  ss_ssrc : send_ssrc s' = send_ssrc s;
  ss_sched : has_sched s' = has_sched s;
  ss_core : core_of s' = core_of s;
  ss_profile : profile s' = profile s;
  ss_ts : snd_ts_offset (rtp s') = snd_ts_offset (rtp s);
  ss_time : snd_time_offset (rtp s') = snd_time_offset (rtp s);
  ss_rq : rq (rtp s') = rq (rtp s);
  ss_kept : rtp_cached_mp (rtp s') = rtp_cached_mp (rtp s);
  ss_tev : current_tev s' = current_tev s;
  ss_mode : mode s' = mode s;
  ss_sd : sd s' = sd s;
  ss_csrc : contributing_sources s' = contributing_sources s
}.
Lemma same_trans s1 s2 s3 : same_stream s1 s2 → same_stream s2 s3 → same_stream s1 s3.
Proof. intros [] []. split; congruence. Qed.
Lemma same_refl s : same_stream s s.
Proof. by split. Qed.

(** The session changed outside of the scheduler. *)
Record moved (a : Z) (e e' : Env) : Prop := {
  mv_session : ∃ s s', session_at a e = Some s ∧ same_stream s s' ∧ world e' = (world e) <| sessions ::= <[a := s']> |>;
  mv_pmem : pmem e' = pmem e;
  mv_closed : closed e' = closed e
}.

(** While [I] holds the waits of the session [a] return, change only its wait points
    and the rest of the world, and keep [I], which sending keeps as well. *)
Record pacing (sleep : CM Env unit) (a : Z) (I : Env → Prop) : Prop := {
  pc_wait e s ts : session_at a e = Some s → I e → ∃ w wp wp',
    send_wait sleep a ts e = Ret tt (e <| world := w |>) ∧ sessions w !! a = Some (waited s wp wp') ∧ I (e <| world := w |>);
  pc_moved e e' : moved a e e' → I e → I e'
}.

(** A session that is not scheduled does not wait. *)
Definition unscheduled (a : Z) (e : Env) : Prop := ∃ s, session_at a e = Some s ∧ has_flag s RTP_SESSION_SCHEDULED = false.
Lemma unscheduled_pacing sleep a : pacing sleep a (unscheduled a).
Proof.
  split.
  - intros e s ts Hs (s0 & Hs0 & Hf). rewrite Hs in Hs0. injection Hs0 as <-. exists (world e), (send_wp s), (recv_wp s).
    assert (Ee : e <| world := world e |> = e) by (by destruct e). rewrite Ee. split; [|split].
    + unfold send_wait. by rewrite (ses_bind a e s), Hf.
    + unfold session_at in Hs. rewrite Hs. by destruct s.
    + by exists s.
  - intros e e' [(s & s' & Hs & Same & Ew) _ _] (s0 & Hs0 & Hf). rewrite Hs in Hs0. injection Hs0 as <-. exists s'. split.
    + unfold session_at. rewrite Ew. apply lookup_insert_eq.
    + unfold has_flag in *. by rewrite (ss_flags _ _ Same).
Qed.

(** Since the environment [e0] the other sessions have changed in their wait points only, the
    payload types not at all, and no socket was closed. *)
Definition apart (a : Z) (e0 e : Env) : Prop := others_wait a (world e0) (world e) ∧ pmem e = pmem e0 ∧ closed e = closed e0.
Lemma apart_refl a e : apart a e e.
Proof. by split. Qed.

(** A scheduled session sleeps until it is woken, by a signal or by nobody. *)
Definition paced_by (a : Z) (L : list Z) (p : PayloadType) (e0 : Env) (e : Env) : Prop :=
  (∃ s, scheduled a L p s e) ∧ apart a e0 e.
Lemma scheduled_pacing spur a L p e0 : pacing (sleeping spur a) a (paced_by a L p e0).
Proof.
  split.
  - intros e s ts Hs ((s0 & Hsd) & Hoth & Hpm & Hcl). pose proof Hsd as [Hs0 Hf Hsc Hp Hr Hok Ha Hup Hinc Htm]. rewrite Hs in Hs0. injection Hs0 as <-.
    destruct (send_wait_sleeping spur a ts e) as [o ->]. destruct (send_wait_ret o a L p s e ts Hsd) as (ms & w' & _ & E & [Hok' (wp & wp' & Hs') Hi Ho Hu Ht _ _]). exists w', wp, wp'. split; [done|]. split; [done|].
    split; [|split; [by transitivity (world e)|by split]].
    exists (waited s wp wp'). split; try done; [by eapply payload_stable|cbn; congruence|cbn; congruence].
  - intros e e' [(s & s' & Hs & Same & Ew) Hm Hc] ((s0 & Hsd) & Hoth & Hpm & Hcl). pose proof Hsd as [Hs0 Hf Hsc Hp Hr Hok Ha Hup Hinc Htm]. rewrite Hs in Hs0. injection Hs0 as <-.
    assert (Hs' : session_at a e' = Some s') by (unfold session_at; rewrite Ew; apply lookup_insert_eq). destruct Same.
    split; [|split; [transitivity (world e); [done|]; apply others_same; intros b Hb; by rewrite Ew; cbn; rewrite lookup_insert_ne|split; congruence]].
    exists s'. split; rewrite ?Ew; try done; try congruence.
    + unfold has_flag in *. congruence.
    + rewrite ss_pt0. by apply (payload_stable a (send_pt s) e e' s s').
    + apply (same_sched_ok L (world e)); [|done]. apply (on_sess_same a (fun _ => s') (world e) s); [exact Hs|done].
Qed.

(** ** A session that sends *)

Record streaming (d : node) (b : mblk_t) (k : Z) (D : dblk_t) (s : RtpSession) (m : Mem) : Prop := {
  st_started : has_flag s RTP_SESSION_SEND_NOT_STARTED = false;
  st_ssrc : in_u32 (send_ssrc s);
  st_seq : in_u16 (snd_seq (rtp s));
  st_quiet : nothing_received s;
  st_handler : no_error_handler s;
  st_sender : is_sender s = true;
  st_described : described s d b k D m;
  st_fresh : fresh m
}.

Lemma fresh_brk m j : fresh m → brk m ≤ j → fresh (m <| brk := j |>).
Proof. intros Hf Hj n Hn. cbn in *. apply Hf. lia. Qed.
Lemma brk_again (m : Mem) i j : m <| brk := i |> <| brk := j |> = m <| brk := j |>.
Proof. by destruct m. Qed.
Lemma described_brk s d b k D m j : described s d b k D m → described s d b k D (m <| brk := j |>).
Proof. intros [H1 C H3 H4 H5]. split; [done|by apply chunk_brk|done|done|done]. Qed.
Lemma fresh_put x m : fresh m → fresh (put_blk (brk m) x (m <| brk := brk m + 2 |>)).
Proof. intros Hf n Hn. cbn in *. rewrite !lookup_insert_ne by (lia || (intros [= ?]; lia)). apply Hf. lia. Qed.
Lemma described_put s d b k D m x : fresh m → described s d b k D m → described s d b k D (put_blk (brk m) x (m <| brk := brk m + 2 |>)).
Proof.
  intros Hf [H1 C H3 H4 H5]. destruct (chunk_old (brk m) d b k D m Hf eq_refl C) as (O1 & _ & _ & O4). split; [done| |done| |done].
  - apply chunk_put; [done|lia|]. by apply chunk_brk.
  - unfold nxt in *. by rewrite put_blk_other.
Qed.

(** The session changed elsewhere. *)
Lemma streaming_session d b k D s s' m :
  flags s' = flags s → send_ssrc s' = send_ssrc s → in_u16 (snd_seq (rtp s')) → nothing_received s' →
  on_network_error s' = on_network_error s → mode s' = mode s → sd s' = sd s → contributing_sources s' = contributing_sources s →
  streaming d b k D s m → streaming d b k D s' m.
Proof.
  intros E1 E2 Hq Hn E3 E4 E5 E6 [H2 H3 _ _ H5 H6 [De1 De2 De3 De4 De5] H8]. split; try done.
  - unfold has_flag in *. by rewrite E1.
  - by rewrite E2.
  - unfold no_error_handler in *. by rewrite E3.
  - unfold is_sender in *. by rewrite E4.
  - split; [by rewrite E5|done|by rewrite E2|by rewrite E6|done].
Qed.

Section Steps.
Context (a : Z) (I : Env → Prop) (sleep : CM Env unit) (fuel : nat) (d : node) (b : mblk_t) (k : Z) (D : dblk_t).
Hypothesis Hnet : silent_network.
Hypothesis Hpace : pacing sleep a I.

Lemma wait_view s c m ob e ts : I (view a s c m ob e) → ∃ wp wp' e',
  send_wait sleep a ts (view a s c m ob e) = Ret tt (view a (waited s wp wp') c m ob e') ∧ I (view a (waited s wp wp') c m ob e').
Proof.
  intros HI. destruct (view_parts a s c m ob e) as (P1 & P2 & P3 & P4).
  destruct (pc_wait _ _ _ Hpace (view a s c m ob e) s ts P1 HI) as (w & wp & wp' & E & Ew & HI'). exists wp, wp'. eexists.
  set (e1 := _ <| world := w |>) in *. assert (Es : session_at a e1 = Some (waited s wp wp')) by (unfold session_at, e1; exact Ew).
  assert (Ee : e1 = view a (waited s wp wp') c m ob e1).
  { rewrite <- (view_id a _ e1 Es) at 1. unfold e1. cbn [calls heap outbox update]. unfold update. cbn [calls heap outbox]. by rewrite P2, P3, P4. }
  rewrite E, <- Ee. done.
Qed.

(** Sending keeps the invariant of the waits. *)
Lemma view_moved s s' c c' m m' ob ob' e e' : same_stream s s' → world e' = world e → pmem e' = pmem e → closed e' = closed e →
  I (view a s c m ob e) → I (view a s' c' m' ob' e').
Proof.
  intros Same Ew Em Ec. apply (pc_moved _ _ _ Hpace). destruct (view_parts a s c m ob e) as (P1 & _). split.
  - exists s, s'. split; [done|]. split; [done|]. unfold view, put_session. destruct e as [he pe [sc ss sg os si] gs o cl ca ini], e'. cbn in *. subst. cbn. by rewrite insert_insert_eq.
  - unfold view, put_session. by destruct e, e'.
  - unfold view, put_session. by destruct e, e'.
Qed.

(** The heap is [m0] with the block kept for a datagram, if there is one, and addresses used up. *)
Inductive holds (m0 : Mem) : option node → Mem → Prop :=
  | HoldsNone j : brk m0 ≤ j → holds m0 None (m0 <| brk := j |>)
  | HoldsBlk i x j : brk m0 ≤ i → i + 2 ≤ j → nb_base x ≠ 0 → nb_cont x = None → holds m0 (Some (NBlk i)) (put_blk i x (m0 <| brk := j |>)).
Lemma holds_brk m0 p m j : holds m0 p m → brk m ≤ j → holds m0 p (m <| brk := j |>).
Proof.
  intros [j' Hj'|i x j' Hi Hj' Hb Hc] Hj; cbn in Hj.
  - rewrite brk_again. constructor. lia.
  - rewrite put_blk_brk, brk_again. constructor; (done || lia).
Qed.

(** Nothing is received; the buffer for it stays with the session. *)
Definition cached (s : RtpSession) (p : option node) : RtpSession := on_rtcp (fun r => r <| rtcp_cached_mp := p |>) s.

Lemma recv_view s c m ob e : streaming d b k D s m →
  ∃ p c' m', rtcp_recv (S fuel) a (view a s c m ob e) = Ret (-1) (view a (cached s p) c' m' ob e) ∧ streaming d b k D (cached s p) m' ∧
    (∀ m0, holds m0 (rtcp_cached_mp (rtcp s)) m → holds m0 p m') ∧ (∀ n, rtcp_cached_mp (rtcp s) = Some n → p = Some n) ∧ brk m ≤ brk m'.
Proof.
  intros St. assert (Hs : ∀ p, streaming d b k D (cached s p) m).
  { intros p. eapply streaming_session; [..|exact St]; try done; [apply (st_seq _ _ _ _ _ _ St)|]. destruct (st_quiet _ _ _ _ _ _ St). by split. }
  unfold rtcp_recv. rewrite view_ses. destruct (rtcp_socket (rtcp s) <? 0).
  { exists (rtcp_cached_mp (rtcp s)), c, m. split; [|split; [apply Hs|split; [auto|split; [auto|done]]]]. unfold mret, CM_ret. do 2 f_equal. unfold cached, on_rtcp. destruct s as [? ? ? ? ? ? ? ? ? ? ? ? ? ? ? ? ? ? ? r]. cbn. by destruct r. }
  cbn [rtcp_recv_loop]. rewrite view_ses. destruct (rtcp_cached_mp (rtcp s)) as [n|] eqn:Ec.
  - rewrite (bind_ret (mret n) _ _ n _) by done. unfold net_recv. rewrite bind_assoc, view_syscall. rewrite (sn_recv Hnet).
    exists (Some n), (S c), m. split; [|split; [apply Hs|split; [auto|split; [by intros n' [= ->]|done]]]].
    cbn [mbind]. unfold mbind, CM_bind, mret, CM_ret. change (is_would_block_error 11) with true. cbv iota. do 2 f_equal.
    unfold cached, on_rtcp. destruct s as [? ? ? ? ? ? ? ? ? ? ? ? ? ? ? ? ? ? ? r]. cbn in *. destruct r. cbn in *. by subst.
  - destruct (put_allocb buf_addr junk RTCP_MAX_RECV_BUFSIZE m ltac:(done)) as (buf & _ & _ & Ea).
    rewrite bind_assoc, (view_hp _ _ _ _ _ _ _ _ _ _ Ea), bind_assoc, view_upd.
    set (n := brk m) in *. set (m' := put_blk n _ _). rewrite (bind_ret (mret (NBlk n)) _ _ (NBlk n) _) by done.
    unfold net_recv. rewrite bind_assoc, view_syscall, (sn_recv Hnet).
    exists (Some (NBlk n)), (S c), m'. split; [done|]. split; [|split; [|split; [done|cbn; lia]]].
    + destruct (Hs (Some (NBlk n))) as [H2 H3 H4 H5 H6 H7 H8 H9]. split; try done; [by apply described_put|by apply fresh_put].
    + intros m0 H0. inversion H0 as [j Hj Ej Em|]. unfold m', n in *. rewrite <- Em, brk_again. cbn. constructor; (done || lia || apply buf_addr_ok).
Qed.

(** A report or nothing. *)
Definition reports (s : RtpSession) (l : list datagram) : Prop := Forall (fun x => dg_socket x = rtcp_socket (rtcp s)) l.

Lemma process_view s c m ob e : streaming d b k D s m →
  ∃ s' c' m' rep, rtp_session_rtcp_process a (view a s c m ob e) = Ret tt (view a s' c' m' (ob ++ rep) e) ∧ streaming d b k D s' m' ∧
    reports s rep ∧ (∃ j, brk m ≤ j ∧ m' = m <| brk := j |>) ∧ same_stream s s' ∧ snd_seq (rtp s') = snd_seq (rtp s) ∧ rtcp_cached_mp (rtcp s') = rtcp_cached_mp (rtcp s) ∧
    stats (rtp s') = stats (rtp s).
Proof.
  intros St. destruct (rtcp_process_view a s c m ob e d b k D (st_fresh _ _ _ _ _ _ St) (st_described _ _ _ _ _ _ St)
    (st_quiet _ _ _ _ _ _ St) (st_handler _ _ _ _ _ _ St) (st_sender _ _ _ _ _ _ St) (sn_clock Hnet c)) as (f & _ & _ & E).
  destruct (rtcp_due (rtp s)).
  2: { exists s, c, m, []. rewrite app_nil_r. split; [exact E|]. split; [done|]. split; [constructor|]. split; [exists (brk m); by destruct m|by split_and!]. }
  assert (St1 : streaming d b k D (report_sent s) (m <| brk ::= (fun n => n + 5) |>)).
  { pose proof (st_quiet _ _ _ _ _ _ St) as [Q1 Q2 Q3 Q4].
    assert (St0 : streaming d b k D (report_sent s) m).
    { eapply streaming_session; [..|exact St]; try done. apply (st_seq _ _ _ _ _ _ St). }
    destruct St0 as [H2 H3 H4 H5 H6 H7 H8 H9]. split; try done; [by apply described_brk|apply fresh_brk; [done|lia]]. }
  destruct (rtcp_reachable s).
  - set (g := rtcp_datagram s _) in E. exists (report_sent s), (S (S c)), (m <| brk ::= (fun n => n + 5) |>), [g].
    split.
    + rewrite E. cbv zeta. f_equal. unfold net_sent, view, put_session. cbn [dg_socket]. destruct e as [he pe [sc ss sg os si] gs o cl ca ini]. cbn. by rewrite (sn_send Hnet).
    + split; [done|]. split; [by constructor|]. split; [exists (brk m + 5); split; [lia|done]|by split_and!].
  - exists (report_sent s), (S c), (m <| brk ::= (fun n => n + 5) |>), []. rewrite app_nil_r. split; [exact E|]. split; [done|]. split; [constructor|]. split; [exists (brk m + 5); split; [lia|done]|by split_and!].
Qed.

(** The datagram of a frame with a sequence number. *)
Definition frame_datagram (s : RtpSession) (seq : Z) (f : frame) : datagram :=
  mkDatagram (rtp_socket (rtp s)) (if has_flag s RTP_SESSION_USING_EXT_SOCKETS then None else Some (rtp_rem_addr (rtp s)))
    ([128; send_pt s `mod` 128] ++ be_bytes 2 seq ++ be_bytes 4 (fr_ts f) ++ be_bytes 4 (send_ssrc s) ++ fr_payload f).
Definition frame_ok (f : frame) : Prop := fr_base f ≠ 0 ∧ in_u32 (fr_ts f) ∧ 12 + zlen (fr_payload f) < 2 ^ 31.

Lemma frame_step s c m ob e f : streaming d b k D s m → I (view a s c m ob e) → frame_ok f →
  ∃ s' c' m' rep e', rtp_session_send_with_ts (S fuel) sleep a (fr_base f) (fr_payload f) (fr_ts f) (view a s c m ob e) =
    Ret (12 + zlen (fr_payload f)) (view a s' c' m' (ob ++ [frame_datagram s (snd_seq (rtp s)) f] ++ rep) e') ∧
  streaming d b k D s' m' ∧ I (view a s' c' m' (ob ++ [frame_datagram s (snd_seq (rtp s)) f] ++ rep) e') ∧ reports s rep ∧ same_stream s s' ∧ snd_seq (rtp s') = u16 (snd_seq (rtp s) + 1) ∧
  stats (rtp s') = count_packet (12 + zlen (fr_payload f)) (stats (rtp s)) ∧
  (∀ m0, holds m0 (rtcp_cached_mp (rtcp s)) m → holds m0 (rtcp_cached_mp (rtcp s')) m') ∧
  (∀ n, rtcp_cached_mp (rtcp s) = Some n → rtcp_cached_mp (rtcp s') = Some n) ∧ brk m ≤ brk m'.
Proof.
  intros St HI (Hb & Hts & Hlen). destruct f as [base payload ts]. cbn [fr_base fr_payload fr_ts] in *.
  set (n := brk m). set (m4 := m <| brk := n + 4 |>). set (h := packet_heap n (buf_addr (n + 1)) base (fresh_header s) payload m4).
  destruct (wait_view s c h ob e ts (view_moved s s c c m h ob ob e e (same_refl s) eq_refl eq_refl eq_refl HI)) as (wp & wp' & e1 & Ew & HI1). set (s1 := waited s wp wp') in *.
  destruct (view_parts a s c m ob e) as (P1 & P2 & P3 & P4).
  pose proof (create_packet_ret a base payload (view a s c m ob e) s P1 (st_ssrc _ _ _ _ _ _ St)) as Ec. cbv zeta in Ec. rewrite P2 in Ec. fold n in Ec. fold m4 in Ec. fold h in Ec.
  assert (Evh : (view a s c m ob e) <| heap := h |> = view a s c h ob e) by (unfold view, put_session; by destruct e).
  rewrite Evh in Ec. unfold rtp_session_send_with_ts. rewrite (bind_ret _ _ _ _ _ Ec).
  assert (Hst : (_ ← send_start a ts; send_wait sleep a ts) (view a s c h ob e) = Ret tt (view a s1 c h ob e1)).
  { unfold send_start. rewrite bind_assoc, view_ses. rewrite (st_started _ _ _ _ _ _ St). rewrite (bind_ret (mret tt) _ _ tt _) by done. exact Ew. }
  destruct (view_parts a s1 c h ob e1) as (Q1 & Q2 & _ & _).
  assert (Hclear : clear_two n (n + 2) m4).
  { split; [lia| |]; split; cbn; apply (st_fresh _ _ _ _ _ _ St); unfold n; lia. }
  pose proof (sendm_ret (S fuel) sleep a n (buf_addr (n + 1)) base s payload ts (view a s c h ob e) (view a s1 c h ob e1) s1 m4 (st_ssrc _ _ _ _ _ _ St) Hts
    (st_seq _ _ _ _ _ _ St) Hlen (buf_addr_ok _) Hb Hclear (st_handler _ _ _ _ _ _ St) Hst Q2 Q1) as Es. cbv zeta in Es. rewrite Es. clear Es.
  set (g := rtp_datagram s1 (sent_header s s1 ts) payload).
  assert (Eg : g = frame_datagram s (snd_seq (rtp s)) (mkFrame base payload ts)).
  { unfold g, rtp_datagram, frame_datagram, wire_header, sent_header, fresh_header, header_byte0, header_byte1. cbn. rewrite Z.mod_mod by lia.
    change (128 * 0 `mod` 2) with 0. by rewrite (Z.add_0_r (send_pt s `mod` 128)). }
  assert (Er : net_result g (view a s1 c h ob e1) = 12 + zlen payload).
  { unfold net_result. rewrite (sn_send Hnet). unfold g, rtp_datagram. cbn [dg_bytes]. by rewrite zlen_app, zlen_wire. }
  set (s2 := session_sent (12 + zlen payload) ts s1). set (e2 := e1 <| ortp_global_stats ::= count_packet (12 + zlen payload) |>).
  assert (Ea : after_send a (12 + zlen payload) ts g s1 m4 (view a s1 c h ob e1) = view a s2 (S c) m4 (ob ++ [g]) e2).
  { unfold after_send, net_sent, view, put_session, e2. destruct e1 as [he pe [sc ss sg os si] gs o cl ca ini]. cbn. rewrite (sn_send Hnet). cbn. by rewrite insert_insert_eq. }
  rewrite Ea, Er. assert (St2 : streaming d b k D s2 m4).
  { assert (St0 : streaming d b k D s2 m).
    { eapply streaming_session; [..|exact St]; try done; [unfold in_u16; cbn; apply Z.mod_pos_bound; lia|].
      destruct (st_quiet _ _ _ _ _ _ St). by split. }
    destruct St0 as [H2 H3 H4 H5 H6 H7 H8 H9]. split; try done; [by apply described_brk|apply fresh_brk; [done|unfold n; lia]]. }
  destruct (recv_view s2 (S c) m4 (ob ++ [g]) e2 St2) as (p & c3 & m3 & E3 & St3 & Al3 & Ca3 & Hbr3). rewrite (bind_ret _ _ _ _ _ E3).
  destruct (process_view (cached s2 p) c3 m3 (ob ++ [g]) e2 St3) as (s5 & c5 & m5 & rep & E5 & St5 & Hrep & Hm5 & Same & Hseq & Hca & Hsta). rewrite (bind_ret _ _ _ _ _ E5).
  assert (Same5 : same_stream s1 s5) by (destruct Same; by split). assert (Same0 : same_stream s s5) by (destruct Same; by split).
  exists s5, c5, m5, rep, e2. split; [rewrite <- app_assoc, Eg; done|]. split; [done|].
  split; [by apply (view_moved s1 s5 c c5 h m5 ob _ e1 e2 Same5)|]. split; [exact Hrep|]. split; [exact Same0|]. split; [by rewrite Hseq|]. split; [by rewrite Hsta|]. split.
  - intros m0 H0. rewrite Hca. destruct Hm5 as (j & Hj & ->). apply holds_brk; [|done]. apply Al3. apply holds_brk; [done|unfold n; lia].
  - split; [intros y Hy; rewrite Hca; apply Ca3; exact Hy|]. destruct Hm5 as (j & Hj & ->). cbn in Hbr3 |- *. unfold n in *. lia.
Qed.

(** The datagrams of the frames, numbered from [seq] modulo 2^16. *)
Fixpoint frame_datagrams (s : RtpSession) (seq : Z) (frames : list frame) : list datagram :=
  match frames with [] => [] | f :: frames => frame_datagram s seq f :: frame_datagrams s (u16 (seq + 1)) frames end.

Lemma frame_datagrams_same s s' seq frames : same_stream s s' → frame_datagrams s' seq frames = frame_datagrams s seq frames.
Proof.
  intros Same. revert seq. induction frames as [|f frames IH]; intros seq; [done|]. cbn. rewrite IH. f_equal.
  unfold frame_datagram, has_flag. by rewrite (ss_socket _ _ Same), (ss_addr _ _ Same), (ss_flags _ _ Same), (ss_pt _ _ Same), (ss_ssrc _ _ Same).
Qed.
Lemma filter_reports s rep : rtcp_socket (rtcp s) ≠ rtp_socket (rtp s) → reports s rep → filter (fun x => dg_socket x = rtp_socket (rtp s)) rep = [].
Proof.
  intros Hne Hr. induction Hr as [|x l Hx Hl IH]; [done|]. rewrite filter_cons. destruct (decide _) as [E|_]; [congruence|done].
Qed.

Lemma frames_ret frames s c m ob e :
  streaming d b k D s m → I (view a s c m ob e) → Forall frame_ok frames → rtcp_socket (rtcp s) ≠ rtp_socket (rtp s) →
  ∃ s' c' m' new e', send_frames (S fuel) sleep a frames (view a s c m ob e) =
    Ret (map (fun f => 12 + zlen (fr_payload f)) frames) (view a s' c' m' (ob ++ new) e') ∧
  filter (fun x => dg_socket x = rtp_socket (rtp s)) new = frame_datagrams s (snd_seq (rtp s)) frames ∧
  Forall (fun x => dg_socket x = rtp_socket (rtp s) ∨ dg_socket x = rtcp_socket (rtcp s)) new ∧
  streaming d b k D s' m' ∧ I (view a s' c' m' (ob ++ new) e') ∧ same_stream s s' ∧
  snd_seq (rtp s') = u16 (snd_seq (rtp s) + zlen frames) ∧
  st_packet_sent (stats (rtp s')) `mod` 2 ^ 64 = (st_packet_sent (stats (rtp s)) + zlen frames) `mod` 2 ^ 64 ∧
  (∀ m0, holds m0 (rtcp_cached_mp (rtcp s)) m → holds m0 (rtcp_cached_mp (rtcp s')) m') ∧
  (∀ n, rtcp_cached_mp (rtcp s) = Some n → rtcp_cached_mp (rtcp s') = Some n).
Proof.
  revert s c m ob e. induction frames as [|f frames IH]; intros s c m ob e St HI Hok Hne.
  - exists s, c, m, [], e. rewrite app_nil_r. split; [done|]. split; [done|]. split; [constructor|]. change (zlen []) with 0. rewrite !Z.add_0_r.
    split; [done|]. split; [done|]. split; [apply same_refl|]. split; [unfold u16; rewrite Z.mod_small by apply (st_seq _ _ _ _ _ _ St); done|]. split; [done|]. split; [auto|auto].
  - apply Forall_cons in Hok as [Hf Hok].
    destruct (frame_step s c m ob e f St HI Hf) as (s1 & c1 & m1 & rep & e1 & E1 & St1 & HI1 & Hrep & Same & Hseq & Hsta & Al1 & Ca1 & _).
    pose proof (ss_socket _ _ Same) as Q1. pose proof (ss_rtcp _ _ Same) as Q3. assert (Hne1 : rtcp_socket (rtcp s1) ≠ rtp_socket (rtp s1)) by congruence.
    destruct (IH s1 c1 m1 (ob ++ [frame_datagram s (snd_seq (rtp s)) f] ++ rep) e1 St1 HI1 Hok Hne1) as (s' & c' & m' & new & e' & E' & Hfil & Hall & St' & HI' & Same' & Hseq' & Hsta' & Al' & Ca').
    exists s', c', m', ([frame_datagram s (snd_seq (rtp s)) f] ++ rep ++ new), e'. split.
    { cbn [send_frames map]. rewrite (bind_ret _ _ _ _ _ E1), (bind_ret _ _ _ _ _ E'). unfold mret, CM_ret. do 2 f_equal. by rewrite <- !app_assoc. }
    assert (Hz : zlen (f :: frames) = zlen frames + 1) by (unfold zlen; cbn [length]; lia).
    split.
    { rewrite !filter_app, (filter_reports s rep) by done. rewrite filter_cons. destruct (decide _) as [_|Hd]; [|by destruct Hd].
      rewrite Q1 in Hfil. rewrite Hfil, (frame_datagrams_same s s1) by done. by rewrite Hseq. }
    split.
    { rewrite Q1, Q3 in Hall. apply Forall_app. split; [constructor; [by left|constructor]|]. apply Forall_app. split; [|done].
      eapply Forall_impl; [exact Hrep|]. intros x Hx. by right. }
    split; [done|]. split; [by rewrite !app_assoc in *|]. split; [by eapply same_trans|].
    split; [rewrite Hseq', Hseq, Hz; unfold u16; rewrite Zplus_mod_idemp_l; f_equal; lia|].
    split; [rewrite Hsta', Hsta, Hz; unfold count_packet; cbn [st_packet_sent update]; unfold update; cbn [st_packet_sent]; unfold u64; rewrite Zplus_mod_idemp_l; f_equal; lia|].
    split; [intros m0 H0; by apply Al', Al1|intros n Hn; by apply Ca', Ca1].
Qed.
End Steps.

(** C39: A stream: on a silent network, with waits that return, the buffers of any number of
    calls leave the RTP socket as packets with consecutive sequence numbers modulo 2^16 and the
    timestamps and payloads of the calls, nothing else leaves it, and only reports leave the
    RTCP socket in between. Every call returns the size of its packet and is counted,
    and all the stream leaves on the heap is the buffer kept for RTCP that may arrive. *)
Theorem stream_spec a I sleep fuel frames e s d b k D :
  silent_network → pacing sleep a I → I e → session_at a e = Some s → streaming d b k D s (heap e) →
  Forall frame_ok frames → rtcp_socket (rtcp s) ≠ rtp_socket (rtp s) →
  ∃ e' s' new, send_frames (S fuel) sleep a frames e = Ret (map (fun f => 12 + zlen (fr_payload f)) frames) e' ∧
  outbox e' = outbox e ++ new ∧ session_at a e' = Some s' ∧
  filter (fun x => dg_socket x = rtp_socket (rtp s)) new = frame_datagrams s (snd_seq (rtp s)) frames ∧
  Forall (fun x => dg_socket x = rtp_socket (rtp s) ∨ dg_socket x = rtcp_socket (rtcp s)) new ∧
  snd_seq (rtp s') = (snd_seq (rtp s) + zlen frames) `mod` 2 ^ 16 ∧
  st_packet_sent (stats (rtp s')) `mod` 2 ^ 64 = (st_packet_sent (stats (rtp s)) + zlen frames) `mod` 2 ^ 64 ∧
  (∀ m0, holds m0 (rtcp_cached_mp (rtcp s)) (heap e) → holds m0 (rtcp_cached_mp (rtcp s')) (heap e')).
Proof.
  intros Hnet Hp HI Hs St Hok Hne.
  destruct (frames_ret a I sleep fuel d b k D Hnet Hp frames s (calls e) (heap e) (outbox e) e St ltac:(by rewrite view_id) Hok Hne) as (s' & c' & m' & new & e' & E & Hfil & Hall & _ & _ & _ & Hseq & Hsta & Al & _).
  rewrite (view_id a s e Hs) in E. destruct (view_parts a s' c' m' (outbox e ++ new) e') as (P1 & P2 & P3 & _).
  exists (view a s' c' m' (outbox e ++ new) e'), s', new. by rewrite P1, P2, P3.
Qed.
End Stream.

(** ** An example *)

(** Three frames of the example session, now scheduled and blocking. The second is due after
    almost five seconds and gets a report behind it. *)
Definition ex_frames : list frame := [mkFrame 5000 [1; 2; 3] 5400900; mkFrame 5000 [4] 5850001; mkFrame 5000 [] 5850901].
Definition ex_schedule (s : RtpSession) : RtpSession :=
  (on_rtp (fun r => r <| rtp_socket := 3 |> <| snd_seq := 65534 |> <| last_rtcp_report_snt_s := 5400000 |> <| snd_ts_offset := 5400900 |>)
     (rtp_session_set_flag (rtp_session_set_flag s RTP_SESSION_SCHEDULED) RTP_SESSION_BLOCKING_MODE)) <| has_sched := true |>.
Definition ex_world : World := after [OpAdd 100] (fresh_world (ex_schedule <$> sessions (world ex_report_env))).
Definition ex_stream_env : Env := ex_report_env <| world := ex_world |>.
Definition ex_streamer : RtpSession := default ex_video_session (session_at 100 ex_stream_env).

Lemma quiet_silent : @silent_network quiet_system.
Proof. split; [done|done|]. intros n. cbn. lia. Qed.

Lemma ex_world_ok : sched_ok [100] ex_world.
Proof.
  apply (after_ok [OpAdd 100] []).
  - apply fresh_ok. refine (bool_decide_unpack _ _). vm_compute. exact Logic.I.
  - split; [|done]. split; [apply elem_of_dom; eexists; vm_compute; reflexivity|by right].
Qed.
Lemma ex_scheduled : scheduled 100 [100] payload_type_h263 ex_streamer ex_stream_env.
Proof.
  split; try exact ex_world_ok; try (vm_compute; reflexivity); [vm_compute; split; congruence|apply list_elem_of_here|vm_compute; split; congruence|vm_compute; split; congruence].
Qed.

(** Five seconds ahead, the sender is woken when the clock shows 5000 and sees 5010; when
    nobody wakes it after three turns it sees 30. *)
Lemma ex_wait_time ms : due_ms payload_type_h263 ex_streamer 5850901 ms → ms = 5000.
Proof. intros Hd. change (90000 * ms ≤ 1000 * 450001 ≤ 90000 * (ms + 1)) in Hd. lia. Qed.
Lemma send_wait_on_time_witness :
  (∃ w', send_wait (wd (sleep_woken None 100)) 100 5850901 ex_stream_env = Ret tt (ex_stream_env <| world := w' |>) ∧
    sched_ok [100] w' ∧ ∃ j, time_ (sched w') = u32 (5000 + j) ∧ 10 ≤ j < 20) ∧
  (∃ w', send_wait (wd (sleep_woken (Some 3%nat) 100)) 100 5850901 ex_stream_env = Ret tt (ex_stream_env <| world := w' |>) ∧
    sched_ok [100] w' ∧ time_ (sched w') = 30).
Proof.
  assert (Ht : u32 (5000 + snd_time_offset (rtp ex_streamer)) = 5000) by (vm_compute; reflexivity).
  assert (Hb : RTP_TIMESTAMP_IS_STRICTLY_NEWER_THAN 5000 (time_ (sched (world ex_stream_env))) && has_flag ex_streamer RTP_SESSION_BLOCKING_MODE = true) by (vm_compute; reflexivity).
  assert (Hi : timer_inc (sched (world ex_stream_env)) = 10) by (vm_compute; reflexivity).
  assert (H0 : time_ (sched (world ex_stream_env)) = 0) by (vm_compute; reflexivity). split.
  - destruct (send_wait_on_time None 100 [100] payload_type_h263 ex_streamer ex_stream_env 5850901 ex_scheduled) as (ms & w' & Hd & E & Hrest).
    apply ex_wait_time in Hd as ->. exists w'. split; [exact E|]. cbv zeta in Hrest. rewrite Ht, Hb, Hi in Hrest.
    destruct Hrest as (Hok & _ & _ & [(n & Hn & _)|(_ & Hj)]); [discriminate Hn|]. split; [exact Hok|exact Hj].
  - destruct (send_wait_on_time (Some 3%nat) 100 [100] payload_type_h263 ex_streamer ex_stream_env 5850901 ex_scheduled) as (ms & w' & Hd & E & Hrest).
    apply ex_wait_time in Hd as ->. exists w'. split; [exact E|]. cbv zeta in Hrest. rewrite Ht, Hb, Hi, H0 in Hrest.
    destruct Hrest as (Hok & _ & _ & [(n & [= <-] & _ & ET)|(Hno & _)]); [split; [exact Hok|exact ET]|].
    specialize (Hno 3%nat eq_refl). vm_compute in Hno. by destruct Hno.
Defined.

Lemma stream_spec_witness :
  ∃ e' new, send_frames (H := quiet_system) 1 (sleeping (fun _ => None) 100) 100 ex_frames ex_stream_env = Ret [15; 13; 12] e' ∧
  outbox e' = [] ++ new ∧ filter (fun x => dg_socket x = 3) new = frame_datagrams ex_streamer 65534 ex_frames.
Proof.
  destruct (stream_spec (H := quiet_system) 100 (paced_by 100 [100] payload_type_h263 ex_stream_env) (sleeping (fun _ => None) 100) 0 ex_frames ex_stream_env ex_streamer ex_chunk ex_chunk_blk (default 0 (b_datap ex_chunk_blk)) ex_chunk_db)
    as (e' & s' & new & E & Ho & _ & Hf & _).
  - exact quiet_silent.
  - exact (scheduled_pacing (fun _ => None) 100 [100] payload_type_h263 ex_stream_env).
  - split; [exists ex_streamer; exact ex_scheduled|apply apart_refl].
  - vm_compute. reflexivity.
  - split; try (vm_compute; split; congruence); try (vm_compute; reflexivity); try (vm_compute; congruence).
    + split; vm_compute; reflexivity.
    + split; [vm_compute; reflexivity| |eexists; vm_compute; reflexivity|vm_compute; reflexivity|vm_compute; reflexivity].
      split; try (vm_compute; reflexivity); vm_compute; try split; congruence.
    + apply fresh_check; vm_compute; repeat constructor.
  - repeat constructor; vm_compute; try split; congruence.
  - vm_compute. congruence.
  - exists e', new. split; [exact E|]. split; [exact Ho|exact Hf].
Defined.

(** The same run, evaluated: the report of the second frame leaves between the packets. *)
Example ex_stream_run :
  match send_frames (H := quiet_system) 1 (sleeping (fun _ => None) 100) 100 ex_frames ex_stream_env with
  | Ret _ e => map (fun d => (dg_socket d, length (dg_bytes d))) (outbox e) = [(3, 15%nat); (3, 13%nat); (4, 92%nat); (3, 12%nat)] ∧
      time_ (sched (world e)) = 5000
  | _ => False
  end.
Proof. vm_compute. split; reflexivity. Qed.

(** And with a spurious wake-up after two turns in each sleep: the second frame is early. *)
Example ex_spurious_run :
  match send_frames (H := quiet_system) 1 (sleeping (fun _ => Some 2%nat) 100) 100 ex_frames ex_stream_env with
  | Ret rs e => rs = [15; 13; 12] ∧ filter (fun d => dg_socket d = 3) (outbox e) = frame_datagrams ex_streamer 65534 ex_frames ∧
      time_ (sched (world e)) < 5000
  | _ => False
  end.
Proof. vm_compute. repeat split; reflexivity. Qed.
