(* ===== verification/TelEvents.v ===== *)
(** * Telephone events ([utils/ortp/src/telephonyevents.c], [telephonyevents.h])

    An event is four bytes: the event, a byte with the volume and the bit of its
    end, the duration. *)

From S2P Require Import Prelude StrUtils Blocks RtpMod Payload OrtpSession Sched OrtpEnv Rtcp RtcpParse OrtpSend.

Definition telephone_event_size : Z := 4.
Definition TELEPHONY_EVENTS_ALLOCATED_SIZE : Z := 4 * telephone_event_size.

(** The duration is in network order. *)
Definition telephone_event_bytes (event R E volume duration : Z) : list Z :=
  [u8 event; volume `mod` 64 + 64 * (R `mod` 2) + 128 * (E `mod` 2)] ++ be_bytes 2 duration.

Definition TEV_DTMF_0 : Z := 0.
Definition TEV_DTMF_STAR : Z := 10.
Definition TEV_DTMF_POUND : Z := 11.

(** The cases of the characters '0' to '9', '*' and '#'. *)
Definition tev_type_of (dtmf : Z) : option Z :=
  if (48 <=? dtmf) && (dtmf <=? 57) then Some (TEV_DTMF_0 + (dtmf - 48))
  else if dtmf =? 42 then Some TEV_DTMF_STAR
  else if dtmf =? 35 then Some TEV_DTMF_POUND
  else None.

Section TelEvents.
Context `{System}.

(** The timestamp and the sequence number are not set. *)
Definition rtp_session_create_telephone_event_packet (a start : Z) : CM Env (option node) :=
  s ← ses a;
  if telephone_events_pt s =? -1 then mret None
  else
    mp ← hp (new_block (RTP_FIXED_HEADER_SIZE + TELEPHONY_EVENTS_ALLOCATED_SIZE));
    _ ← hp (upd_header mp (fun h =>
          h <| h_version := 2 |> <| h_markbit := start |> <| h_padbit := 0 |> <| h_extbit := 0 |> <| h_cc := 0 |>
            <| h_ssrc := send_ssrc s |> <| h_paytype := telephone_events_pt s |>));
    _ ← hp (advance mp RTP_FIXED_HEADER_SIZE);
    mret (Some mp).

Definition rtp_session_add_telephone_event (packet : node) (event E volume duration : Z) : CM Mem Z := fun m =>
  (mp ← last_blk (blocks m) packet;
   b ← get_blk mp; d ← datap b; D ← get_db d;
   mp ← (if zlen (db_buf D) <=? b_wptr b then
           newm ← new_block TELEPHONY_EVENTS_ALLOCATED_SIZE;
           _ ← set_cont mp (Some newm);
           mret newm
         else mret mp);
   b ← get_blk mp;
   _ ← poke mp (b_wptr b) (telephone_event_bytes event 0 E volume duration);
   _ ← advance mp telephone_event_size;
   mret 0) m.

(** [sleep] is what the other threads do during the waits of the five packets. *)
Definition rtp_session_send_dtmf (fuel : nat) (sleep : nat → CM Env unit) (a dtmf userts : Z) : CM Env Z :=
  match tev_type_of dtmf with
  | None => mret (-1)
  | Some tev =>
      m1 ← rtp_session_create_telephone_event_packet a 1;
      match m1 with None => mret (-1) | Some m1 =>
      _ ← hp (rtp_session_add_telephone_event m1 tev 0 0 160);
      m2 ← rtp_session_create_telephone_event_packet a 0;
      match m2 with None => mret (-1) | Some m2 =>
      _ ← hp (rtp_session_add_telephone_event m2 tev 0 0 320);
      m3 ← rtp_session_create_telephone_event_packet a 0;
      match m3 with None => mret (-1) | Some m3 =>
      _ ← hp (rtp_session_add_telephone_event m3 tev 1 0 480);
      _ ← rtp_session_sendm_with_ts fuel (sleep 0%nat) a m1 userts;
      _ ← rtp_session_sendm_with_ts fuel (sleep 1%nat) a m2 userts;
      m1 ← hp (copymsg buf_addr junk m3);
      m2 ← hp (copymsg buf_addr junk m3);
      m1 ← hp (deref m1);
      m2 ← hp (deref m2);
      _ ← rtp_session_sendm_with_ts fuel (sleep 2%nat) a m3 userts;
      _ ← rtp_session_sendm_with_ts fuel (sleep 3%nat) a m1 userts;
      _ ← rtp_session_sendm_with_ts fuel (sleep 4%nat) a m2 userts;
      mret 0
      end end end
  end.

(** The number of events is computed from the size of the whole message, header
    included. *)
Definition rtp_session_read_telephone_event (a : Z) (packet : node) : CM Env Z :=
  h ← hp (get_header packet);
  b ← hp (get_blk packet);
  match b_cont b with
  | None => mret (-1)
  | Some c =>
      s ← ses a;
      if negb (h_paytype h =? telephone_events_pt s) then mret 0
      else
        datasize ← hp (msgdsize (Some packet));
        cb ← hp (get_blk c);
        let num := datasize / telephone_event_size in
        _ ← hp (for_each (seqZ 0 num) (fun i => _ ← swap c (b_rptr cb + telephone_event_size * i + 2) 2; mret tt));
        mret num
  end.

(** The event and its end bit at [events[i]]. *)
Definition event_at (mp : node) (events i : Z) : CM Mem (Z * Z) :=
  bs ← peek mp (events + telephone_event_size * i) 2;
  mret (nth 0 bs 0, nth 1 bs 0 / 128).

Definition notify_events_ended (a : Z) (mp : node) (events num : Z) : CM Env unit :=
  for_each (seqZ 0 num) (fun i =>
    '(event, E) ← hp (event_at mp events i);
    if E =? 1 then emit a on_telephone_event [ArgInt event] else mret tt).

Definition set_current_tev (a : Z) (m : option node) : CM Env unit := upd a (fun s => s <| current_tev := m |>).
Definition drop_current_tev (a : Z) : CM Env unit :=
  s ← ses a;
  match current_tev s with
  | Some m => _ ← hp (freemsg (Some m)); set_current_tev a None
  | None => mret tt
  end.

(** The buffer of the current events is a cast of the block structure itself. *)
Definition compare_events (mp : node) (events num : Z) : CM Mem unit :=
  for_each (seqZ 0 num) (fun i =>
    '(_, E) ← event_at mp events i;
    if E =? 1 then fault_with BadCast else mret tt).

Definition rtp_session_check_telephone_events (a : Z) (m0 : node) : CM Env unit :=
  hdr ← hp (get_header m0);
  b0 ← hp (get_blk m0);
  mp ← hp (deref (b_cont b0));
  b ← hp (get_blk mp);
  let num := blk_len b `quot` telephone_event_size in
  let events := b_rptr b in
  _ ← (if h_markbit hdr =? 1 then
         _ ← drop_current_tev a;
         c ← hp (copymsg buf_addr junk m0);
         _ ← set_current_tev a c;
         notify_events_ended a mp events num
       else mret tt);
  s ← ses a;
  match current_tev s with
  | Some cur_tev =>
      h ← hp (get_header cur_tev);
      h0 ← hp (get_header m0);
      if h_timestamp h =? h_timestamp h0 then hp (compare_events mp events num)
      else
        _ ← drop_current_tev a;
        c ← hp (dupmsg m0);
        set_current_tev a c
  | None =>
      c ← hp (copymsg buf_addr junk m0);
      _ ← set_current_tev a c;
      notify_events_ended a mp events num
  end.

End TelEvents.
