(* ===== verification/OrtpRecv.v ===== *)
(** * RTP packets received ([utils/ortp/src/rtpparse.c] and the receive functions of [rtpsession.c])

    A datagram is checked, counted and put on the ordered queue of its session; the
    application takes packets out by timestamp, or bytes into a buffer of its own. *)

From Stdlib Require Import Strings.String.
From S2P Require Import Prelude StrUtils Blocks RtpMod Payload OrtpSession Sched OrtpEnv Rtcp RtcpParse OrtpSend TelEvents.

(** The extended sequence number is two halves of 16 bits; [lo] below the new number
    is replaced, and a wrap is seen when the numbers are within 200 of it. *)
Definition update_extseq (seq_number extseq : Z) : Z :=
  let lo := extseq `mod` 2 ^ 16 in
  let hi := extseq / 2 ^ 16 in
  if lo <? seq_number then seq_number + 2 ^ 16 * hi
  else if (seq_number <? 200) && (2 ^ 16 - 200 <? lo) then seq_number + 2 ^ 16 * u16 (hi + 1)
  else extseq.

Section OrtpRecv.
Context `{System}.

Definition count_bad (a : Z) : CM Env unit := count_stats a (fun t => t <| st_bad ::= (fun n => u64 (n + 1)) |>).

(** The header in host order, and its contributing sources. *)
Definition header_from_network (mp : node) : CM Mem unit :=
  b ← get_blk mp;
  let rtp := b_rptr b in
  _ ← swap mp (rtp + 2) 2;
  _ ← swap mp (rtp + 4) 4;
  _ ← swap mp (rtp + 8) 4;
  mret tt.
Definition csrc_from_network (mp : node) (cc : Z) : CM Mem unit :=
  b ← get_blk mp;
  for_each (seqZ 0 cc) (fun i => _ ← swap mp (b_rptr b + RTP_FIXED_HEADER_SIZE + 4 * i) 4; mret tt).

Definition queue_packet (a q : Z) (mp : node) : CM Env unit :=
  s ← ses a;
  i ← hp (split_and_queue q (max_rq_size (rtp s)) mp);
  count_stats a (fun t => t <| st_discarded ::= (fun n => u64 (n + i)) |>).

(** The part after the checks: a change of source, the sequence number, telephone
    events, the payload type, jitter and old packets. *)
Definition parse_ssrc (a ssrc : Z) : CM Env unit :=
  s ← ses a;
  if negb (recv_ssrc s =? 0) then
    if negb (recv_ssrc s =? ssrc) then
      _ ← upd a (fun s => s <| recv_ssrc := ssrc |>);
      emit a on_ssrc_changed []
    else mret tt
  else upd a (fun s => s <| recv_ssrc := ssrc |>).

(** [true] when the packet is to be queued. *)
Definition parse_timing (a : Z) (mp : node) (ts local_str_ts : Z) : CM Env bool :=
  s ← ses a;
  if has_flag s RTP_SESSION_RECV_SYNC then mret true
  else
    '(slide, safe_delay) ← on_jitter a (jitter_control_new_packet ts local_str_ts);
    _ ← upd a (on_rtp (fun r => r <| rcv_diff_ts := u32 (hwrcv_diff_ts r + slide - safe_delay) |>));
    s ← ses a;
    if RTP_TIMESTAMP_IS_NEWER_THAN ts (u32 (rcv_last_ts (rtp s) + ts_jump (rtp s))) then
      _ ← emit a on_timestamp_jump [ArgTs mp]; mret true
    else if RTP_TIMESTAMP_IS_NEWER_THAN (rcv_last_ts (rtp s)) ts then
      _ ← hp (freemsg (Some mp));
      _ ← count_stats a (fun t => t <| st_outoftime ::= (fun n => u64 (n + 1)) |>);
      mret false
    else mret true.

(** The length left for contributing sources is computed modulo 2^32. *)
Definition rtp_parse (a : Z) (mp : option node) (local_str_ts : Z) : CM Env unit :=
  match mp with
  | None => mret tt
  | Some mp =>
      msgsize ← hp (msgdsize (Some mp));
      _ ← count_stats a (fun t => t <| st_packet_recv ::= (fun n => u64 (n + 1)) |> <| st_hw_recv ::= (fun n => u64 (n + msgsize)) |>);
      _ ← upd a (on_rtp (fun r => r <| hwrcv_since_last_SR ::= (fun n => u32 (n + 1)) |>));
      h ← hp (get_header mp);
      if negb (h_version h =? 2) then _ ← count_bad a; hp (freemsg (Some mp))
      else
        _ ← hp (header_from_network mp);
        if u32 (msgsize - RTP_FIXED_HEADER_SIZE) <? h_cc h * 4 then _ ← count_bad a; hp (freemsg (Some mp))
        else
          tv ← gettimeofday;
          _ ← upd a (fun s => s <| last_recv_time := tv |>);
          _ ← hp (csrc_from_network mp (h_cc h));
          h ← hp (get_header mp);
          _ ← parse_ssrc a (h_ssrc h);
          _ ← upd a (on_rtp (fun r => r <| hwrcv_extseq ::= update_extseq (h_seq_number h) |>));
          s ← ses a;
          if h_paytype h =? telephone_events_pt s then queue_packet a (tev_rq (rtp s)) mp
          else
            _ ← (if negb (hw_recv_pt s =? h_paytype h) then rtp_session_update_payload_type a (h_paytype h) else mret tt);
            keep ← parse_timing a mp (h_timestamp h) local_str_ts;
            if (keep : bool) then queue_packet a (rq (rtp s)) mp else mret tt
  end.

(** A datagram too short for a header stays in the cached buffer. *)
Fixpoint rtp_recv_loop (fuel : nat) (a user_ts : Z) : CM Env Z :=
  match fuel with
  | O => block
  | S fuel =>
      s ← ses a;
      mp ← (match rtp_cached_mp (rtp s) with
            | Some mp => mret mp
            | None =>
                mp ← hp (allocb buf_addr junk (recv_buf_size s));
                _ ← upd a (on_rtp (fun r => r <| rtp_cached_mp := Some mp |>));
                mret mp
            end);
      b ← hp (get_blk mp); d ← hp (datap b); D ← hp (get_db d);
      r ← net_recv (rtp_socket (rtp s)) (zlen (db_buf D));
      match r with
      | Received _ (_ :: _ as bs) =>
          _ ← (if zlen bs <? RTP_FIXED_HEADER_SIZE then
                 _ ← hp (blk_write b (b_wptr b) bs);
                 count_bad a
               else
                 _ ← hp (received_block mp bs);
                 s ← ses a;
                 _ ← rtp_parse a (Some mp) (u32 (user_ts + hwrcv_diff_ts (rtp s)));
                 upd a (on_rtp (fun r => r <| rtp_cached_mp := None |>)));
          rtp_recv_loop fuel a user_ts
      | Received _ [] => mret (-1)
      | RecvError errnum =>
          _ ← (if is_would_block_error errnum then mret tt
               else if 0 <? tb_count (on_network_error s) then emit a on_network_error [ArgStr (Some (bytes_of "Error receiving RTP packet")); ArgInt errnum]
               else mret tt);
          mret (-1)
      end
  end.

Definition rtp_recv (fuel : nat) (a user_ts : Z) : CM Env Z :=
  s ← ses a;
  if rtp_socket (rtp s) <? 0 then mret (-1) else rtp_recv_loop fuel a user_ts.

(** ** Taking packets *)

Definition recv_start (a user_ts : Z) : CM Env unit :=
  s ← ses a;
  if has_flag s RTP_SESSION_RECV_NOT_STARTED then
    _ ← upd a (on_rtp (fun r => r <| rcv_query_ts_offset := user_ts |>));
    _ ← (if has_flag s RTP_SESSION_SEND_NOT_STARTED || (mode s =? RTP_SESSION_RECVONLY) then
           tv ← gettimeofday; upd a (fun s => s <| last_recv_time := tv |>)
         else mret tt);
    _ ← (if has_flag s RTP_SESSION_SCHEDULED then
           c ← sched_of s; upd a (on_rtp (fun r => r <| rcv_time_offset := time_ c |>))
         else mret tt);
    upd a (fun s => rtp_session_unset_flag s RTP_SESSION_RECV_NOT_STARTED)
  else mret tt.

(** A queued telephone event is reported and freed. *)
Definition take_event (a : Z) : CM Env unit :=
  s ← ses a;
  mp ← hp (getq (tev_rq (rtp s)));
  match mp with
  | None => mret tt
  | Some mp =>
      _ ← emit a on_telephone_event_packet [ArgMsg mp];
      s ← ses a;
      _ ← (if 0 <? tb_count (on_telephone_event s) then rtp_session_check_telephone_events a mp else mret tt);
      hp (freemsg (Some mp))
  end.

(** The first packet, when the queue spans the time of the jitter buffer. *)
Definition first_packet (a user_ts : Z) : CM Env (option node) :=
  s ← ses a;
  let q := rq (rtp s) in
  e ← hp (qempty q);
  if (e : bool) then mret None
  else
    f ← hp (qfirst q); f ← hp (deref f); oldest ← hp (timestamp f);
    l ← hp (qlast q); l ← hp (deref l); newest ← hp (timestamp l);
    if u32 (newest - oldest) <? u32 (jitt_comp_ts (jittctl (rtp s))) then mret None
    else
      mp ← hp (getq q);
      m ← hp (deref mp);
      h ← hp (get_header m);
      _ ← upd a (on_rtp (fun r =>
             r <| rcv_ts_offset := h_timestamp h |>
               <| rcv_diff_ts := u32 (h_timestamp h - user_ts) |>
               <| hwrcv_diff_ts := u32 (u32 (h_timestamp h - user_ts) + jitt_comp_ts (jittctl r)) |>
               <| rcv_last_ret_ts := user_ts |>
               <| rcv_last_ts := h_timestamp h |>));
      _ ← upd a (fun s => (rtp_session_unset_flag s RTP_SESSION_RECV_SYNC) <| recv_ssrc := h_ssrc h |>);
      mret mp.

Definition next_packet (a user_ts : Z) : CM Env (option node) :=
  s ← ses a;
  let ts := u32 (user_ts + rcv_diff_ts (rtp s)) in
  _ ← upd a (on_rtp (fun r => r <| rcv_last_ts := ts |>));
  '(mp, rejected) ← hp (rtp_getq (rq (rtp s)) ts);
  _ ← count_stats a (fun t => t <| st_skipped ::= (fun n => u64 (n + rejected)) |>);
  mret mp.

Definition payload_type_changed_notify (a paytype : Z) : CM Env unit :=
  _ ← upd a (fun s => s <| recv_pt := paytype |>);
  emit a on_payload_type_changed [].

(** What is done with the packet taken, or without one. *)
Definition deliver (a : Z) (mp : option node) : CM Env unit :=
  match mp with
  | Some m =>
      msgsize ← hp (msgdsize mp);
      _ ← count_stats a (fun t => t <| st_recv ::= (fun n => u64 (n + msgsize)) |>);
      h ← hp (get_header m);
      s ← ses a;
      _ ← (if negb (recv_pt s =? h_paytype h) then payload_type_changed_notify a (h_paytype h) else mret tt);
      s ← ses a;
      if adaptive (jittctl (rtp s))
      then hp (upd_header m (fun h => h <| h_timestamp ::= (fun t => u32 (t - corrective_slide (jittctl (rtp s)))) |>))
      else mret tt
  | None => count_stats a (fun t => t <| st_unavaillable ::= (fun n => u64 (n + 1)) |>)
  end.

Definition recv_wait (sleep : CM Env unit) (a user_ts : Z) : CM Env unit :=
  s ← ses a;
  if has_flag s RTP_SESSION_SCHEDULED then
    t ← rtp_session_ts_to_time a (u32 (user_ts - rcv_query_ts_offset (rtp s)));
    let packet_time := u32 (t + rcv_time_offset (rtp s)) in
    _ ← sched_of s;
    w ← wd (wait_until a Recv packet_time);
    if (w : bool) then _ ← sleep; wd (wait_done a Recv) else mret tt
  else mret tt.

Definition rtp_session_recvm_with_ts (fuel : nat) (sleep : CM Env unit) (a user_ts : Z) : CM Env (option node) :=
  _ ← recv_start a user_ts;
  _ ← upd a (on_rtp (fun r => r <| rcv_last_app_ts := user_ts |>));
  _ ← rtp_recv fuel a user_ts;
  _ ← rtcp_recv fuel a;
  _ ← take_event a;
  s ← ses a;
  mp ← (if has_flag s RTP_SESSION_RECV_SYNC then first_packet a user_ts else next_packet a user_ts);
  _ ← deliver a mp;
  _ ← rtp_session_rtcp_process a;
  _ ← recv_wait sleep a user_ts;
  mret mp.

(** ** Taking bytes *)

(** The blocks behind [mp] copied and freed while they fit; the bytes copied. *)
Fixpoint msg_to_buf_loop (fuel : nat) (mprev : node) (m : option node) (rlen : Z) (buffer : list Z) : CM Mem (list Z) :=
  match fuel with
  | O => block
  | S fuel =>
      match m with
      | None => mret buffer
      | Some n =>
          b ← get_blk n;
          let mlen := blk_len b in
          if mlen <=? rlen then
            bs ← blk_read b (b_rptr b) mlen;
            _ ← set_cont mprev (b_cont b);
            _ ← set_cont n None;
            _ ← freeb n;
            msg_to_buf_loop fuel mprev (b_cont b) (rlen - mlen) (buffer ++ bs)
          else
            bs ← blk_read b (b_rptr b) rlen;
            _ ← upd_blk n (fun b => b <| b_rptr ::= (fun r => r + rlen) |>);
            mret (buffer ++ bs)
      end
  end.
Definition msg_to_buf (mp : node) (len : Z) : CM Mem (list Z) := fun m =>
  (b ← get_blk mp; msg_to_buf_loop (blocks m) mp (b_cont b) len []) m.

(** The silence of a payload: the test of the index sets it back to zero after every
    byte. *)
Fixpoint silence (n : nat) (pattern : list Z) (pattern_length j : Z) : CM Env (list Z) :=
  match n with
  | O => mret []
  | S n =>
      c ← rd pattern j;
      r ← silence n pattern pattern_length (if j + 1 <=? pattern_length then 0 else j + 1);
      mret (c :: r)
  end.

(** [have_more] and [ts_int] for one packet of the loop. *)
Definition advance_ret_ts (a time len : Z) (p : PayloadType) : CM Env (Z * Z) :=
  s ← ses a;
  let more := if RTP_TIMESTAMP_IS_STRICTLY_NEWER_THAN time (rcv_last_ret_ts (rtp s)) then 1 else 0 in
  if pt_type p =? PAYLOAD_AUDIO_CONTINUOUS then
    let ts_int := u32 (Z.shiftr (i32 (len * bits_per_sample p)) 3) in
    _ ← upd a (on_rtp (fun r => r <| rcv_last_ret_ts ::= (fun t => u32 (t + ts_int)) |>));
    mret (more, ts_int)
  else mret (more, 0).

Definition free_opt_msg (mp : option node) : CM Env unit :=
  match mp with Some _ => hp (freemsg mp) | None => mret tt end.

(** The loop that fills the buffer: its result is the return value, the bytes written
    and [*have_more]. *)
Fixpoint fill_loop (turns fuel : nat) (sleep : nat → CM Env unit) (a len ts_int : Z)
    (mp : option node) (payload : PayloadType) (rlen : Z) (buffer : list Z) (have_more : Z) : CM Env (Z * list Z * Z) :=
  match turns with
  | O => block
  | S turns =>
      match mp with
      | Some m =>
          b ← hp (get_blk m);
          mlen ← hp (msgdsize (b_cont b));
          bs ← hp (msg_to_buf m rlen);
          let wlen := zlen bs in
          let rlen := rlen - wlen in
          let buffer := buffer ++ bs in
          if 0 <? rlen then
            _ ← hp (freemsg mp);
            if 0 <? ts_int then
              s ← ses a;
              mp ← rtp_session_recvm_with_ts fuel (sleep turns) a (rcv_last_ret_ts (rtp s));
              s ← ses a;
              p ← session_payload a (recv_pt s);
              match p with
              | None => _ ← free_opt_msg mp; mret (-1, buffer, have_more)
              | Some p => fill_loop turns fuel sleep a len ts_int mp p rlen buffer have_more
              end
            else mret (len - rlen, buffer, have_more)
          else if wlen <? mlen then
            b ← hp (get_blk m);
            let unread := mlen - wlen + blk_len b in
            s ← ses a;
            _ ← hp (rtp_putq (rq (rtp s)) m);
            _ ← count_stats a (fun t => t <| st_recv ::= (fun n => u64 (n - unread)) |>);
            mret (len, buffer, have_more)
          else
            _ ← hp (freemsg mp);
            mret (len, buffer, have_more)
      | None =>
          if negb (pattern_length payload =? 0) then
            p ← nonnull (zero_pattern payload);
            z ← silence (Z.to_nat rlen) p (pattern_length payload) 0;
            mret (len, buffer ++ z, have_more)
          else mret (0, buffer, 0)
      end
  end.

Definition rtp_session_recv_with_ts (turns fuel : nat) (sleep : nat → CM Env unit) (a len time : Z) : CM Env (Z * list Z * Z) :=
  mp ← rtp_session_recvm_with_ts fuel (sleep turns) a time;
  s ← ses a;
  p ← session_payload a (recv_pt s);
  match p with
  | None => _ ← free_opt_msg mp; mret (-1, [], 0)
  | Some p =>
      if has_flag s RTP_SESSION_RECV_SYNC then mret (0, [], 0)
      else
        '(have_more, ts_int) ← advance_ret_ts a time len p;
        fill_loop turns fuel sleep a len ts_int mp p len [] have_more
  end.

End OrtpRecv.

(** * A packet on its way in *)

(** ** A received block is part of a well-formed heap *)

Lemma refs_none m d : mem_wf m → dblks m !! d = None → refs (mblks m) d = 0.
Proof.
  intros W Hd. destruct (decide (filter (points_to d) (mblks m) = ∅)) as [Ef|Ef]; [unfold refs; by rewrite Ef, map_size_empty|].
  exfalso. apply map_choose in Ef as (x & b & [Hx Hp]%map_lookup_filter_Some). destruct (wf_data _ W _ _ _ Hx Hp). congruence.
Qed.

Lemma mem_wf_put n x m : mem_wf m → clear n m → 0 ≤ n → n + 1 < brk m → nb_base x ≠ 0 → mem_wf (put_blk n x m).
Proof.
  intros W [C1 C2] H0 Hn Hb. pose proof (refs_none m (n + 1) W C2) as R0.
  assert (Hr : ∀ d, refs (mblks (put_blk n x m)) d = refs (mblks m) d + one_if (Some (n + 1) = Some d)) by (intros d; cbn; by rewrite refs_new by done).
  assert (Hother : ∀ d, d ≠ n + 1 → refs (mblks (put_blk n x m)) d = refs (mblks m) d).
  { intros d Hd. rewrite Hr. unfold one_if. destruct (decide _); [congruence|lia]. }
  assert (Hself : refs (mblks (put_blk n x m)) (n + 1) = 1).
  { rewrite Hr, R0. unfold one_if. by destruct (decide _). }
  split.
  - intros y b d. cbn. intros [[<- <-]|[Hy Hm]]%lookup_insert_Some Hd; cbn in Hd; [injection Hd as <-; rewrite lookup_insert_eq; by eexists|].
    destruct (decide (d = n + 1)) as [->|Hne]; [rewrite lookup_insert_eq; by eexists|]. rewrite lookup_insert_ne by done. by eapply wf_data.
  - intros d D. destruct (decide (d = n + 1)) as [->|Hne].
    + rewrite put_blk_db, Hself. intros [= <-]. cbn. split; [done|]. split; [lia|done].
    + rewrite Hother by done. cbn. rewrite lookup_insert_ne by done. by apply wf_refs.
  - intros y b d D. cbn. intros [[<- <-]|[Hy Hm]]%lookup_insert_Some Hd; cbn in Hd.
    + injection Hd as <-. rewrite lookup_insert_eq. intros [= <-]. cbn. rewrite zlen_app. pose proof (zlen_nonneg (nb_data x)). pose proof (zlen_nonneg (nb_rest x)). lia.
    + rewrite lookup_insert_ne; [by eapply wf_ptr|]. intros <-. destruct (wf_data _ W _ _ _ Hm Hd). congruence.
  - intros y b. cbn. intros [[<- <-]|[Hy Hm]]%lookup_insert_Some Hd; [done|]. by eapply wf_sent.
  - intros a Ha. cbn in Ha |- *. rewrite !lookup_insert_ne by (lia || (intros [= ?]; lia)). by apply (wf_fresh _ W).
  - intros d. destruct (decide (d = n + 1)) as [->|Hne]; [rewrite Hself; cbn; lia|]. rewrite Hother by done. apply (wf_few _ W).
Qed.

Lemma has_data_put n x m b bs : clear n m → has_data m b bs → has_data (put_blk n x m) b bs.
Proof.
  intros [_ C2] (d & D & E1 & E2 & E3). exists d, D. split; [done|]. split; [|done]. cbn. rewrite lookup_insert_ne; [done|congruence].
Qed.
Lemma msg_put n x m p l : clear n m → msg m p l → msg (put_blk n x m) p l.
Proof.
  intros C. revert p. induction l as [|[y bs] l IH]; intros p; [done|]. cbn. intros (-> & b & Hb & Hd & Hm). split; [done|]. exists b.
  split; [cbn; rewrite lookup_insert_ne; [done|destruct C; congruence]|]. split; [by apply has_data_put|by apply IH].
Qed.
Lemma rqueue_put n x m q ps : clear n m → rqueue m q ps → rqueue (put_blk n x m) q ps.
Proof.
  intros C Hq. eapply rqueue_frame; [| | |exact Hq].
  - intros y Hy. cbn. apply lookup_insert_ne. intros <-. destruct C as [C _].
    assert (alive m (NBlk n)) as [b Hb]; [|congruence]. destruct Hy as [Hy|[Hy|Hy]]; [done|done|]. by eapply rqueue_alive.
  - done.
  - intros p l Hm _. by apply msg_put.
Qed.
Lemma msg_new n x m : nb_base x ≠ 0 → nb_cont x = None → zlen (nb_data x ++ nb_rest x) < 2 ^ 31 → msg (put_blk n x m) (Some (NBlk n)) [(NBlk n, nb_data x)].
Proof.
  intros Hb Hc Hl. cbn [msg]. split; [done|]. exists (nb_blk n x). split; [apply put_blk_get|]. split; [|done].
  exists (n + 1), (nb_dblk x). split; [done|]. split; [apply put_blk_db|]. cbn. pose proof (zlen_nonneg (nb_data x)). pose proof (zlen_nonneg (nb_rest x)).
  split; [done|]. split; [lia|]. split; [rewrite zlen_app; lia|]. split; [done|]. rewrite Z.sub_0_r. symmetry. apply slice_app_l. unfold zlen. by rewrite Nat2Z.id.
Qed.

(** ** The header in the order of the machine *)

Lemma wire_version h : header_ok h → h_version (header_of (wire_header h)) = h_version h.
Proof.
  intros [H1 H2 H3 H4 _ _ _ _ _]. unfold header_of, wire_header. cbn [app nth h_version]. unfold header_byte0.
  rewrite (Z.mod_small (h_cc h)), (Z.mod_small (h_extbit h)), (Z.mod_small (h_padbit h)), (Z.mod_small (h_version h)) by done. by destruct (byte0_fields (h_cc h) (h_extbit h) (h_padbit h) (h_version h)) as (_ & _ & _ & ->).
Qed.

Lemma header_from_network_put a x m h rest :
  nb_data x = wire_header h ++ rest →
  header_from_network (NBlk a) (put_blk a x m) = Ret tt (put_blk a (x <| nb_data := header_bytes h ++ rest |>) m).
Proof.
  intros Hd. unfold header_from_network. rewrite (bind_ret _ _ _ _ _ (get_put a x m)). cbn [nb_blk b_rptr].
  unfold wire_header in Hd. set (b01 := [header_byte0 h; header_byte1 h]) in *. rewrite <- !app_assoc in Hd.
  erewrite (bind_ret (swap _ (0 + 2) 2)).
  2: { apply (swap_put a x m _ _ b01 (be_bytes 2 (h_seq_number h)) (be_bytes 4 (h_timestamp h) ++ be_bytes 4 (h_ssrc h) ++ rest)); [done|done|by rewrite zlen_be]. }
  erewrite (bind_ret (swap _ (0 + 4) 4)).
  2: { apply (swap_put a _ m _ _ (b01 ++ reverse (be_bytes 2 (h_seq_number h))) (be_bytes 4 (h_timestamp h)) (be_bytes 4 (h_ssrc h) ++ rest));
       [cbn; by rewrite <- ?app_assoc|done|by rewrite zlen_be]. }
  erewrite (bind_ret (swap _ (0 + 8) 4)).
  2: { apply (swap_put a _ m _ _ (b01 ++ reverse (be_bytes 2 (h_seq_number h)) ++ reverse (be_bytes 4 (h_timestamp h))) (be_bytes 4 (h_ssrc h)) rest);
       [cbn; by rewrite <- ?app_assoc|done|by rewrite zlen_be]. }
  assert (Ew : (b01 ++ reverse (be_bytes 2 (h_seq_number h)) ++ reverse (be_bytes 4 (h_timestamp h))) ++ reverse (be_bytes 4 (h_ssrc h)) ++ rest
    = header_bytes h ++ rest) by (unfold header_bytes, be_bytes, b01; rewrite !reverse_involutive; by rewrite <- !app_assoc).
  by rewrite Ew.
Qed.

Lemma header_bytes_ok h : header_ok h → Forall byte_ok (header_bytes h).
Proof.
  intros [H1 H2 H3 H4 H5 H6 H7 H8 H9]. unfold header_bytes. apply Forall_app. split.
  - rewrite (Z.mod_small (h_cc h)), (Z.mod_small (h_extbit h)), (Z.mod_small (h_padbit h)), (Z.mod_small (h_version h)), (Z.mod_small (h_paytype h)), (Z.mod_small (h_markbit h)) by done.
    constructor; [unfold byte_ok; lia|]. constructor; [unfold byte_ok; lia|]. constructor.
  - rewrite !Forall_app. split; [|split]; apply le_bytes_ok.
Qed.
Lemma header_len_bytes h rest : header_ok h → h_cc h = 0 → header_len (header_bytes h ++ rest) = 12.
Proof.
  intros [H1 H2 H3 H4 _ _ _ _ _] Hc. unfold header_len. cbn [header_bytes app slice drop take le_val]. rewrite Z.mul_0_r, Z.add_0_r.
  rewrite (Z.mod_small (h_cc h)), (Z.mod_small (h_extbit h)), (Z.mod_small (h_padbit h)), (Z.mod_small (h_version h)) by done.
  destruct (byte0_fields (h_cc h) (h_extbit h) (h_padbit h) (h_version h)) as (-> & _); [done..|]. by rewrite Hc.
Qed.

(** ** Queued *)

Section Proofs.
Context `{System}.

(** A packet that the jitter buffer neither reports nor drops. *)
Definition in_time (s : RtpSession) (ts : Z) : Prop :=
  has_flag s RTP_SESSION_RECV_SYNC = true ∨
  adaptive (jittctl (rtp s)) = false ∧
  RTP_TIMESTAMP_IS_NEWER_THAN ts (u32 (rcv_last_ts (rtp s) + ts_jump (rtp s))) = false ∧
  RTP_TIMESTAMP_IS_NEWER_THAN (rcv_last_ts (rtp s)) ts = false.

Lemma modify_bind {S B} (f : S → S) (k : unit → CM S B) s : (x ← modify f; k x) s = k tt (f s).
Proof. done. Qed.

Lemma bind_gets {S A B} (f : S → A) (k : A → CM S B) s : (x ← gets f; k x) s = k (f s) s.
Proof. done. Qed.

Lemma jitter_fixed p l j : adaptive j = false → ∃ j', jitter_control_new_packet p l j = Ret (0, jitt_comp_ts j') j'.
Proof.
  intros Ha. unfold jitter_control_new_packet. rewrite !modify_bind. rewrite bind_gets. rewrite !modify_bind. rewrite bind_gets.
  match goal with |- context [if adaptive ?x then _ else _] => assert (Ej : adaptive x = false) by (destruct j; exact Ha) end.
  rewrite Ej. by eexists.
Qed.

Lemma parse_timing_view a mp s ts local c m ob e : in_time s ts → ∃ j d,
  parse_timing a mp ts local (view a s c m ob e) =
  Ret true (view a (on_rtp (fun r => r <| jittctl := j |> <| rcv_diff_ts := d |>) s) c m ob e).
Proof.
  intros [Hf|(Ha & H1 & H2)]; unfold parse_timing; rewrite view_ses.
  - exists (jittctl (rtp s)), (rcv_diff_ts (rtp s)). rewrite Hf. unfold mret, CM_ret. do 2 f_equal. unfold on_rtp. destruct s as [? ? ? ? ? ? ? ? ? ? ? ? ? ? ? ? ? ? r]. cbn. by destruct r.
  - destruct (has_flag s RTP_SESSION_RECV_SYNC).
    { exists (jittctl (rtp s)), (rcv_diff_ts (rtp s)). unfold mret, CM_ret. do 2 f_equal. unfold on_rtp. destruct s as [? ? ? ? ? ? ? ? ? ? ? ? ? ? ? ? ? ? r]. cbn. by destruct r. }
    destruct (jitter_fixed ts local (jittctl (rtp s)) Ha) as (j' & Ej). unfold on_jitter. rewrite (view_part _ _ _ _ _ _ _ _ _ _ _ _ Ej), view_upd, view_ses.
    set (s1 := on_rtp _ (on_rtp _ s)). change (rcv_last_ts (rtp s1)) with (rcv_last_ts (rtp s)). change (ts_jump (rtp s1)) with (ts_jump (rtp s)).
    rewrite H1, H2. exists j', (u32 (hwrcv_diff_ts (rtp s) + 0 - jitt_comp_ts j')). done.
Qed.

(** What [rtp_parse] does to the session before the packet is queued. *)
Definition count_received (packsize : Z) (t : rtp_stats_t) : rtp_stats_t :=
  t <| st_packet_recv ::= (fun n => u64 (n + 1)) |> <| st_hw_recv ::= (fun n => u64 (n + packsize)) |>.
Definition received_by (h : rtp_header_t) (packsize : Z) (now : Z * Z) (s : RtpSession) : RtpSession :=
  on_rtp (fun r => r <| hwrcv_extseq ::= update_extseq (h_seq_number h) |>)
    ((on_rtp (fun r => r <| hwrcv_since_last_SR ::= (fun n => u32 (n + 1)) |>) (on_rtp (fun r => r <| stats ::= count_received packsize |>) s))
      <| last_recv_time := now |> <| recv_ssrc := h_ssrc h |>).

Lemma parse_ssrc_view {B} a ssrc s c m ob e (k : unit → CM Env B) : recv_ssrc s = 0 ∨ recv_ssrc s = ssrc →
  (x ← parse_ssrc a ssrc; k x) (view a s c m ob e) = k tt (view a (s <| recv_ssrc := ssrc |>) c m ob e).
Proof.
  intros Hs. unfold parse_ssrc. rewrite bind_assoc, view_ses. destruct Hs as [-> | Hs].
  - cbn [Z.eqb negb]. by rewrite view_upd.
  - destruct (recv_ssrc s =? 0) eqn:E0; cbn [negb]; [by rewrite view_upd|]. rewrite Hs, Z.eqb_refl. cbn [negb].
    rewrite (bind_ret (mret tt) _ _ tt _) by done. f_equal. f_equal. destruct s. cbn in *. by subst.
Qed.

(** The part up to the queue, on a packet of the expected kind. *)
Lemma rtp_parse_view a n base h payload s c m ob e local :
  header_ok h → h_version h = 2 → h_cc h = 0 → 12 + zlen payload < 2 ^ 31 →
  recv_ssrc s = 0 ∨ recv_ssrc s = h_ssrc h → h_paytype h ≠ telephone_events_pt s → hw_recv_pt s = h_paytype h → in_time s (h_timestamp h) →
  ∃ j d, rtp_parse a (Some (NBlk n)) local (view a s c (put_blk n (mkNblk None base true (wire_header h ++ payload) []) m) ob e) =
  queue_packet a (rq (rtp s)) (NBlk n)
    (view a (on_rtp (fun r => r <| jittctl := j |> <| rcv_diff_ts := d |>) (received_by h (12 + zlen payload) (gettimeofday_at c) s)) (S c)
      (put_blk n (mkNblk None base true (header_bytes h ++ payload) []) m) ob (e <| ortp_global_stats ::= count_received (12 + zlen payload) |>)).
Proof.
  intros Hh Hv Hcc Hlen Hs Htev Hpt Hin. set (x := fun bs => mkNblk None base true bs []). set (w := wire_header h ++ payload).
  change (mkNblk None base true w []) with (x w). pose proof (zlen_nonneg payload). pose proof (zlen_wire h) as Hzw.
  assert (Hw : zlen w = 12 + zlen payload) by (unfold w; rewrite zlen_app; lia).
  unfold rtp_parse.
  assert (Esz : msgdsize (Some (NBlk n)) (put_blk n (x w) m) = Ret (12 + zlen payload) (put_blk n (x w) m)).
  { unfold msgdsize. set (h0 := put_blk n (x w) m). assert (∃ f, blocks h0 = S (S f)) as [f ->].
    { apply (blocks_pos h0 (NBlk n)). eexists. apply put_blk_get. }
    cbn [msgdsize_loop]. unfold h0 at 1. rewrite (bind_ret _ _ _ _ _ (get_put n (x w) m)), nb_len.
    change (nb_data (x w)) with w. cbn [nb_blk b_cont nb_cont]. rewrite Hw.
    cbn. unfold mret, CM_ret. f_equal. rewrite !i32_id; [done|..]; unfold in_i32; rewrite ?i32_id; unfold in_i32; lia. }
  rewrite (view_hp _ _ _ _ _ _ _ _ _ _ Esz), view_count, view_upd.
  set (e1 := e <| ortp_global_stats ::= _ |>). set (s1 := on_rtp _ (on_rtp _ s)).
  rewrite (view_hp _ _ _ _ _ _ _ _ _ _ (get_header_bytes n (x w) m (wire_header h) payload eq_refl Hzw)).
  rewrite (wire_version h Hh), Hv, (wire_cc h Hh), Hcc. cbn [Z.eqb negb Pos.eqb]. change (negb (2 =? 2)) with false. cbv iota.
  rewrite (view_hp _ _ _ _ _ _ _ _ _ _ (header_from_network_put n (x w) m h payload eq_refl)).
  set (hb := header_bytes h ++ payload). change ((x w) <| nb_data := hb |>) with (x hb).
  unfold RTP_FIXED_HEADER_SIZE at 1. rewrite (proj2 (Z.ltb_ge (u32 (12 + zlen payload - 12)) (0 * 4))) by (unfold u32; pose proof (Z.mod_pos_bound (12 + zlen payload - 12) (2 ^ 32)); lia).
  unfold gettimeofday. rewrite view_syscall, view_upd.
  rewrite (view_hp _ _ _ _ _ _ _ _ tt (put_blk n (x hb) m)).
  2: { unfold csrc_from_network. rewrite (bind_ret _ _ _ _ _ (get_put n (x hb) m)). done. }
  rewrite (view_hp _ _ _ _ _ _ _ _ _ _ (get_header_put n (x hb) m h payload ltac:(apply app_nil_r) Hh)).
  rewrite parse_ssrc_view by done. rewrite view_upd, view_ses.
  assert (Ert : received_by h (12 + zlen payload) (gettimeofday_at c) s = on_rtp (fun r => r <| hwrcv_extseq ::= update_extseq (h_seq_number h) |>) (s1 <| last_recv_time := gettimeofday_at c |> <| recv_ssrc := h_ssrc h |>)) by done.
  rewrite <- Ert. set (s2 := received_by h _ _ s). change (telephone_events_pt s2) with (telephone_events_pt s). change (hw_recv_pt s2) with (hw_recv_pt s).
  rewrite (proj2 (Z.eqb_neq _ _) Htev), Hpt, Z.eqb_refl. cbn [negb]. rewrite (bind_ret (mret tt) _ _ tt _) by done.
  assert (Hin2 : in_time s2 (h_timestamp h)) by exact Hin.
  destruct (parse_timing_view a (NBlk n) s2 (h_timestamp h) local (S c) (put_blk n (x hb) m) ob e1 Hin2) as (j & d & Et).
  exists j, d. rewrite (bind_ret _ _ _ _ _ Et). cbv iota. done.
Qed.

(** C37: A datagram of a sender, as [rtp_session_send_with_ts] puts it on the wire,
    in the source, payload type and time the session expects: its packet gets into the ordered queue with the
    sequence number, timestamp and payload it was sent with, in its place; a duplicate or a packet
    without payload is freed, the oldest packets above the bound of the queue are dropped and counted, and the packet
    counts in the statistics and in the extended sequence number. *)
Theorem rtp_parse_queues a n base h payload s c m ob e local ps :
  mem_wf m → clear n m → 0 ≤ n → n + 1 < brk m → brk m < 2 ^ 31 - 1 → base ≠ 0 →
  rqueue m (rq (rtp s)) ps → zlen ps < 2 ^ 31 - 2 → 0 ≤ max_rq_size (rtp s) →
  header_ok h → h_version h = 2 → h_cc h = 0 → Forall byte_ok payload → 12 + zlen payload < 2 ^ 31 →
  recv_ssrc s = 0 ∨ recv_ssrc s = h_ssrc h → h_paytype h ≠ telephone_events_pt s → hw_recv_pt s = h_paytype h → in_time s (h_timestamp h) →
  let p := ((NBlk n, header_bytes h), [(NBlk (brk m), payload)]) in
  pk_seq p = h_seq_number h ∧ pk_ts p = h_timestamp h ∧
  let '(ps', dropped) :=
    if decide (payload = []) then (ps, 1)
    else (drop (Z.to_nat (zlen (put_packet p ps) - max_rq_size (rtp s))) (put_packet p ps), Z.max 0 (zlen (put_packet p ps) - max_rq_size (rtp s))) in
  ∃ s' m' e', rtp_parse a (Some (NBlk n)) local (view a s c (put_blk n (mkNblk None base true (wire_header h ++ payload) []) m) ob e) =
    Ret tt (view a s' (S c) m' ob e') ∧
  rqueue m' (rq (rtp s')) ps' ∧ mem_wf m' ∧ rq (rtp s') = rq (rtp s) ∧ recv_ssrc s' = h_ssrc h ∧
  hwrcv_extseq (rtp s') = update_extseq (h_seq_number h) (hwrcv_extseq (rtp s)) ∧
  stats (rtp s') = (count_received (12 + zlen payload) (stats (rtp s))) <| st_discarded ::= (fun k => u64 (k + dropped)) |>.
Proof.
  intros W C Hn0 Hn L Hb Hq Hps Hmx Hh Hv Hcc Hpay Hlen Hs Htev Hpt Hin p.
  pose proof (zlen_header h) as Hz. assert (Hl12 : length (header_bytes h) = 12%nat) by (unfold zlen in Hz; lia).
  assert (Hho : h_seq_number (header_of (header_bytes h)) = h_seq_number h ∧ h_timestamp (header_of (header_bytes h)) = h_timestamp h).
  { pose proof (header_of_bytes h [] Hh) as E. rewrite app_nil_r in E. by rewrite E. }
  split; [apply Hho|]. split; [apply Hho|].
  set (x := mkNblk None base true (header_bytes h ++ payload) []).
  assert (Wx : mem_wf (put_blk n x m)) by (apply mem_wf_put; done || lia).
  pose proof (zlen_nonneg payload) as Hp0.
  assert (Hz2 : zlen (header_bytes h ++ payload) = 12 + zlen payload) by (rewrite zlen_app; lia).
  pose proof (split_and_queue_spec (put_blk n x m) (rq (rtp s)) (max_rq_size (rtp s)) (NBlk n) (header_bytes h ++ payload) ps Wx L
    (rqueue_put n x m _ _ C Hq) (msg_new n x m Hb eq_refl ltac:(unfold x; cbn [nb_data nb_rest]; rewrite app_nil_r; lia))
    ltac:(apply Forall_app; split; [by apply header_bytes_ok|done])) as Hsq.
  assert (Hnin : NBlk n ∉ all_nodes ps) by (intros Hi; destruct (rqueue_alive _ _ _ _ Hq Hi) as [bb Hbb]; destruct C; congruence).
  rewrite (header_len_bytes h payload Hh Hcc) in Hsq. specialize (Hsq Hnin ltac:(lia) Hmx Hps).
  unfold queue_after in Hsq. change (brk (put_blk n x m)) with (brk m) in Hsq.
  assert (Esplit : split_as (NBlk n) (brk m) (header_bytes h ++ payload) = p).
  { unfold split_as. rewrite (header_len_bytes h payload Hh Hcc). change (Z.to_nat 12) with 12%nat. rewrite <- Hl12, take_app_length, drop_app_length. done. }
  rewrite Esplit, (header_len_bytes h payload Hh Hcc), Hz2 in Hsq.
  destruct (rtp_parse_view a n base h payload s c m ob e local Hh Hv Hcc Hlen Hs Htev Hpt Hin) as (j & d & Ep).
  set (res := if decide (payload = []) then _ else _).
  assert (Eres : (if 12 + zlen payload =? 12 then (ps, 1) else (drop (Z.to_nat (zlen (put_packet p ps) - max_rq_size (rtp s))) (put_packet p ps), Z.max 0 (zlen (put_packet p ps) - max_rq_size (rtp s)))) = res).
  { unfold res. destruct (decide (payload = [])) as [->|Hne]; [done|]. rewrite (proj2 (Z.eqb_neq _ _)); [done|]. destruct payload; [done|]. unfold zlen. cbn [length]. lia. }
  rewrite Eres in Hsq. destruct res as [ps' dropped]. destruct Hsq as (m' & E & Q' & W' & _).
  set (s2 := on_rtp _ (received_by h _ _ s)) in Ep.
  exists (on_rtp (fun r => r <| stats ::= (fun t => t <| st_discarded ::= (fun k => u64 (k + dropped)) |>) |>) s2), m'.
  eexists. split.
  - rewrite Ep. unfold queue_packet. rewrite view_ses. change (max_rq_size (rtp s2)) with (max_rq_size (rtp s)).
    rewrite (view_hp _ _ _ _ _ _ _ _ _ _ E). set (e3 := e <| ortp_global_stats ::= _ |>).
    pose proof (view_count a s2 (S c) m' ob e3 (fun t => t <| st_discarded ::= (fun k => u64 (k + dropped)) |>) (fun _ => mret tt)) as Hc.
    assert (Em : ∀ (op : CM Env unit) v, (x ← op; mret tt) v = op v).
    { intros op v. unfold mbind, CM_bind, mret, CM_ret. by destruct (op v) as [[] ?| |]. }
    rewrite Em in Hc. exact Hc.
  - split; [exact Q'|]. split; [done|]. done.
Qed.

End Proofs.

(** ** An example *)

(** A heap with an empty queue of packets and room for one block. *)
Definition ex_rq_ops : list mop := [MQinit 101; MAlloc 4; MFree (Some (NBlk 1))].
Definition ex_rq_mem : Mem := match run_mops buf16 zeros ex_rq_ops mem0 with Ret _ m => m | _ => mem0 end.
Lemma ex_rq_run : run_mops buf16 zeros ex_rq_ops mem0 = Ret [None; Some (NBlk 1); None] ex_rq_mem.
Proof. vm_compute. reflexivity. Qed.
Lemma ex_rq_wf : mem_wf ex_rq_mem.
Proof.
  apply (proj2 (keeps_mops buf16 zeros buf16_ne ex_rq_ops ltac:(by repeat constructor) mem0 _ ex_rq_mem ex_rq_run)); [apply mem0_wf|]. vm_compute. reflexivity.
Qed.
Lemma ex_rq_queue : rqueue ex_rq_mem 101 [].
Proof. split; [split; [by vm_compute|constructor|constructor|by vm_compute]|constructor|constructor]. Qed.

Definition ex_receiver : RtpSession :=
  on_rtp (fun r => r <| max_rq_size := 100 |>)
    (ex_video_session <| flags := RTP_SESSION_RECV_SYNC |> <| hw_recv_pt := 34 |> <| telephone_events_pt := -1 |>).
Definition ex_header : rtp_header_t := mkHeader 0 0 0 2 34 0 65535 90000 305419896.

Lemma rtp_parse_queues_witness :
  ∃ s' m' e', rtp_parse (H := quiet_system) 100 (Some (NBlk 1)) 0
    (view 100 ex_receiver 0 (put_blk 1 (mkNblk None 16 true (wire_header ex_header ++ [1; 2; 3]) []) ex_rq_mem) [] ex_env) = Ret tt (view 100 s' 1 m' [] e') ∧
  rqueue m' 101 [((NBlk 1, header_bytes ex_header), [(NBlk 3, [1; 2; 3])])].
Proof.
  destruct (rtp_parse_queues (H := quiet_system) 100 1 16 ex_header [1; 2; 3] ex_receiver 0 ex_rq_mem [] ex_env 0 []) as (_ & _ & s' & m' & e' & E & Q & _ & Hq & _).
  - exact ex_rq_wf.
  - vm_compute. split; reflexivity.
  - lia.
  - vm_compute. reflexivity.
  - vm_compute. reflexivity.
  - lia.
  - exact ex_rq_queue.
  - vm_compute. reflexivity.
  - vm_compute. congruence.
  - split; vm_compute; (split; congruence) || reflexivity.
  - reflexivity.
  - reflexivity.
  - repeat constructor; vm_compute; congruence.
  - vm_compute. reflexivity.
  - left. reflexivity.
  - vm_compute. congruence.
  - reflexivity.
  - left. vm_compute. reflexivity.
  - exists s', m', e'. split; [exact E|]. rewrite Hq in Q. exact Q.
Defined.
