(* ===== verification/OrtpInit.v ===== *)
(** * The life of a session ([utils/ortp/src/rtpsession.c], [ortp.c])

    Creating, resetting and destroying a session, its sockets and addresses, its
    signals; the start of the library. A session is allocated together with its
    three queues, which are part of the structure. *)

From Stdlib Require Import Strings.String.
From S2P Require Import Prelude StrUtils Blocks RtpMod Payload OrtpSession Sched OrtpEnv Rtcp RtcpParse OrtpSend.

Definition RTP_DEFAULT_JITTER_TIME : Z := 80.
Definition UDP_MAX_SIZE : Z := 65536.
Definition AF_INET : Z := 2.
Definition sizeof_sockaddr_in : Z := 16.

Definition rtp_stats_reset (_ : rtp_stats_t) : rtp_stats_t := zero_stats.

(** [ORTP_MAJOR_VERSION], [ORTP_MINOR_VERSION], [ORTP_MICRO_VERSION] *)
Definition ortp_min_version_required (major minor micro : Z) : bool :=
  i32 (i32 (major * 1000000) + i32 (minor * 1000) + micro) <=? 0 * 1000000 + 9 * 1000 + 1.

(** ** Signals *)

(** The tables of a session by name. *)
Definition table_named (signal : string) : option ((RtpSession → RtpSignalTable) * (RtpSignalTable → RtpSession → RtpSession)) :=
  if decide (signal = "ssrc_changed"%string) then Some (on_ssrc_changed, fun t s => s <| on_ssrc_changed := t |>)
  else if decide (signal = "payload_type_changed"%string) then Some (on_payload_type_changed, fun t s => s <| on_payload_type_changed := t |>)
  else if decide (signal = "telephone-event"%string) then Some (on_telephone_event, fun t s => s <| on_telephone_event := t |>)
  else if decide (signal = "telephone-event_packet"%string) then Some (on_telephone_event_packet, fun t s => s <| on_telephone_event_packet := t |>)
  else if decide (signal = "timestamp_jump"%string) then Some (on_timestamp_jump, fun t s => s <| on_timestamp_jump := t |>)
  else if decide (signal = "network_error"%string) then Some (on_network_error, fun t s => s <| on_network_error := t |>)
  else if decide (signal = "rtcp_bye"%string) then Some (on_rtcp_bye, fun t s => s <| on_rtcp_bye := t |>)
  else None.

(** The operation [f] on the table with the name, when the session lists it. *)
Definition with_table (a : Z) (signal : string) (f : CM RtpSignalTable Z) : CM Env Z :=
  s ← ses a;
  match (if bool_decide (signal ∈ signal_tables s) then table_named signal else None) with
  | Some (get, put) => on_part a get put f
  | None => mret (-1)
  end.
Definition rtp_session_signal_connect (a : Z) (signal : string) (cb : option Z) (user_data : Z) : CM Env Z :=
  with_table a signal (rtp_signal_table_add cb user_data).
Definition rtp_session_signal_disconnect_by_callback (a : Z) (signal : string) (cb : option Z) : CM Env Z :=
  with_table a signal (rtp_signal_table_remove_by_callback cb).

Section OrtpInit.
Context `{System}.

(** ** The library *)

Definition ortp_global_stats_reset : CM Env unit := modify (fun e => e <| ortp_global_stats ::= rtp_stats_reset |>).

Definition ortp_init : CM Env unit :=
  i ← gets initialized;
  if (i : bool) then mret tt
  else
    _ ← modify (fun e => e <| initialized := true |>);
    _ ← pm (av_profile_init av_profile);
    _ ← ortp_global_stats_reset;
    _ ← gettimeofday;
    mret tt.

(** ** Creating *)

Definition init_table (a : Z) (put : RtpSignalTable → RtpSession → RtpSession) (name : string) : CM Env unit :=
  upd a (rtp_signal_table_init put name).

Definition rtp_session_init (a mode : Z) : CM Env unit :=
  _ ← wd (modify (fun w => w <| sessions ::= <[a := zero_session (a + 1) (a + 2) (a + 3)]> |>));
  _ ← upd a (on_rtp (fun r => r <| max_rq_size := 100 |>));
  _ ← upd a (fun s => s <| OrtpSession.mode := mode |>);
  _ ← (if (mode =? RTP_SESSION_RECVONLY) || (mode =? RTP_SESSION_SENDRECV) then
         _ ← upd a (fun s => rtp_session_set_flag s RTP_SESSION_RECV_SYNC);
         upd a (fun s => rtp_session_set_flag s RTP_SESSION_RECV_NOT_STARTED)
       else mret tt);
  _ ← (if (mode =? RTP_SESSION_SENDONLY) || (mode =? RTP_SESSION_SENDRECV) then
         _ ← upd a (fun s => rtp_session_set_flag s RTP_SESSION_SEND_NOT_STARTED);
         _ ← upd a (fun s => rtp_session_set_flag s RTP_SESSION_SEND_SYNC);
         r ← uint32_t_random;
         _ ← upd a (fun s => s <| send_ssrc := r |>);
         rtp_session_set_source_description a
           (mkSource (Some (bytes_of "unknown@unknown")) None None None None
              (Some (bytes_of "oRTP-0.9.1")) (Some (bytes_of "This is free sofware (LGPL) !")))
       else mret tt);
  _ ← upd a (fun s => s <| telephone_events_pt := -1 |>);
  _ ← rtp_session_set_profile a (Some av_profile);
  _ ← upd a (on_rtp (fun r => r <| rtp_socket := -1 |>));
  _ ← upd a (on_rtcp (fun r => r <| rtcp_socket := -1 |>));
  s ← ses a;
  _ ← hp (qinit (rq (rtp s)));
  _ ← hp (qinit (tev_rq (rtp s)));
  _ ← hp (qinit (contributing_sources s));
  _ ← init_table a (fun t s => s <| on_ssrc_changed := t |>) "ssrc_changed";
  _ ← init_table a (fun t s => s <| on_payload_type_changed := t |>) "payload_type_changed";
  _ ← init_table a (fun t s => s <| on_telephone_event := t |>) "telephone-event";
  _ ← init_table a (fun t s => s <| on_telephone_event_packet := t |>) "telephone-event_packet";
  _ ← init_table a (fun t s => s <| on_timestamp_jump := t |>) "timestamp_jump";
  _ ← init_table a (fun t s => s <| on_network_error := t |>) "network_error";
  _ ← init_table a (fun t s => s <| on_rtcp_bye := t |>) "rtcp_bye";
  _ ← upd a (fun s => s <| send_wp := wait_point_init |> <| recv_wp := wait_point_init |>);
  _ ← rtp_session_set_send_payload_type a 0;
  _ ← rtp_session_set_recv_payload_type a (-1);
  _ ← rtp_session_set_jitter_compensation a RTP_DEFAULT_JITTER_TIME;
  _ ← rtp_session_enable_adaptive_jitter_compensation a false;
  _ ← rtp_session_set_time_jump_limit a 5000;
  upd a (fun s => s <| recv_buf_size := UDP_MAX_SIZE |>).

(** The structure takes the next address, its queues the three behind it. *)
Definition rtp_session_new (mode : Z) : CM Env Z :=
  a ← hp (gets brk);
  _ ← hp (modify (fun m => m <| brk := brk m + 4 |>));
  _ ← rtp_session_init a mode;
  mret a.

(** ** Sockets *)

Definition close_socket (sock : Z) : CM Env unit := modify (fun e => e <| closed ::= (fun l => l ++ [sock]) |>).

(** [inet_aton] answers 0 for an invalid address and leaves the result alone; the
    test is for a negative answer. *)
Definition create_and_bind (addr : string) (port : Z) : CM Env Z :=
  garbage ← syscall stack_addr;
  let saddr := mkAddr AF_INET (default garbage (inet_aton addr)) (u16 port) in
  sock ← syscall socket_at;
  match sock with
  | None => mret (-1)
  | Some sock =>
      if sock <? 0 then mret (-1)
      else
        b ← syscall (fun n => bind_at n sock saddr);
        if (b : bool) then mret sock
        else _ ← close_socket sock; mret (-1)
  end.

(** A random even port of at least 5000. *)
Fixpoint random_port (fuel : nat) : CM Env Z :=
  match fuel with
  | O => block
  | S fuel =>
      r ← syscall rand_at;
      let localport := Z.land (i32 (r + 5000)) 65534 in
      if (localport <? 5000) || (65535 <? localport) then random_port fuel else mret localport
  end.

Definition create_and_bind_random (fuel : nat) (localip : string) : CM Env (Z * Z) :=
  r ← for_until (seqZ 0 100) (fun _ =>
        localport ← random_port fuel;
        sock ← create_and_bind localip localport;
        mret (if 0 <=? sock then Some (sock, localport) else None));
  mret (default (-1, 0) r).

Definition rtp_session_release_sockets (a : Z) : CM Env unit :=
  s ← ses a;
  _ ← (if 0 <=? rtp_socket (rtp s) then close_socket (rtp_socket (rtp s)) else mret tt);
  _ ← (if 0 <=? rtcp_socket (rtcp s) then close_socket (rtcp_socket (rtcp s)) else mret tt);
  _ ← upd a (on_rtp (fun r => r <| rtp_socket := -1 |> <| rtp_rem_addrlen := 0 |>));
  upd a (on_rtcp (fun r => r <| rtcp_socket := -1 |> <| rtcp_rem_addrlen := 0 |>)).

Definition rtp_session_set_local_addr (fuel : nat) (a : Z) (addr : string) (port : Z) : CM Env Z :=
  s ← ses a;
  _ ← (if 0 <=? rtp_socket (rtp s) then rtp_session_release_sockets a else mret tt);
  '(sock, port) ← (if 0 <? port then sock ← create_and_bind addr port; mret (sock, port)
                   else create_and_bind_random fuel addr);
  if 0 <=? sock then
    _ ← upd a (on_rtp (fun r => r <| rtp_sockfamily := AF_INET |> <| rtp_socket := sock |> <| loc_port := port |>));
    sock ← create_and_bind addr (port + 1);
    _ ← (if 0 <=? sock then upd a (on_rtcp (fun r => r <| rtcp_sockfamily := AF_INET |> <| rtcp_socket := sock |>)) else mret tt);
    mret 0
  else mret (-1).

Definition rtp_session_set_remote_addr (fuel : nat) (a : Z) (addr : string) (port : Z) : CM Env Z :=
  s ← ses a;
  err ← (if rtp_socket (rtp s) =? -1 then rtp_session_set_local_addr fuel a "0.0.0.0" (-1) else mret 0);
  if err <? 0 then mret (-1)
  else
    _ ← upd a (on_rtp (fun r => r <| rtp_rem_addrlen := sizeof_sockaddr_in |>
           <| rtp_rem_addr := mkAddr AF_INET (default (sin_addr (rtp_rem_addr r)) (inet_aton addr)) (u16 port) |>));
    _ ← upd a (fun s => on_rtcp (fun r => r <| rtcp_rem_addr := (rtp_rem_addr (rtp s)) <| sin_port := u16 (port + 1) |> |>
           <| rtcp_rem_addrlen := sizeof_sockaddr_in |>) s);
    mret 0.

Definition rtp_session_set_sockets (a rtpfd rtcpfd : Z) : CM Env unit :=
  _ ← upd a (on_rtp (fun r => r <| rtp_socket := rtpfd |>));
  _ ← upd a (on_rtcp (fun r => r <| rtcp_socket := rtcpfd |>));
  upd a (fun s => rtp_session_set_flag s RTP_SESSION_USING_EXT_SOCKETS).

(** Datagrams are taken from a socket until it has none. *)
Fixpoint flush_socket (fuel : nat) (sock : Z) : CM Env unit :=
  match fuel with
  | O => block
  | S fuel =>
      r ← net_recv sock 4096;
      match r with
      | Received _ (_ :: _) => flush_socket fuel sock
      | _ => mret tt
      end
  end.
Definition rtp_session_flush_sockets (fuel : nat) (a : Z) : CM Env unit :=
  s ← ses a;
  _ ← (if 0 <=? rtp_socket (rtp s) then flush_socket fuel (rtp_socket (rtp s)) else mret tt);
  if 0 <=? rtcp_socket (rtcp s) then flush_socket fuel (rtcp_socket (rtcp s)) else mret tt.

(** ** Resetting and destroying *)

Definition rtp_session_reset (a : Z) : CM Env unit :=
  s ← ses a;
  _ ← hp (flushq (rq (rtp s)));
  _ ← upd a (fun s => rtp_session_set_flag s RTP_SESSION_RECV_SYNC);
  _ ← upd a (fun s => rtp_session_set_flag s RTP_SESSION_SEND_SYNC);
  _ ← upd a (fun s => rtp_session_set_flag s RTP_SESSION_RECV_NOT_STARTED);
  _ ← upd a (fun s => rtp_session_set_flag s RTP_SESSION_SEND_NOT_STARTED);
  _ ← upd a (on_rtp (fun r =>
         r <| snd_time_offset := 0 |> <| snd_ts_offset := 0 |> <| snd_rand_offset := 0 |> <| snd_last_ts := 0 |>
           <| rcv_time_offset := 0 |> <| rcv_ts_offset := 0 |> <| rcv_query_ts_offset := 0 |> <| rcv_diff_ts := 0 |>
           <| rcv_ts := 0 |> <| rcv_last_ts := 0 |> <| rcv_last_app_ts := 0 |> <| hwrcv_extseq := 0 |>
           <| hwrcv_since_last_SR := 0 |> <| snd_seq := 0 |> <| stats ::= rtp_stats_reset |>));
  on_jitter a (jitter_control_init (-1) None).

Definition free_opt_blk (p : option node) : CM Mem unit :=
  match p with Some n => freemsg (Some n) | None => mret tt end.

Definition rtp_session_uninit (a : Z) : CM Env unit :=
  s ← ses a;
  _ ← (if has_flag s RTP_SESSION_SCHEDULED then _ ← sched_of s; wd (rtp_scheduler_remove_session (Some a)) else mret tt);
  _ ← hp (flushq (rq (rtp s)));
  _ ← rtp_session_release_sockets a;
  s ← ses a;
  _ ← hp (free_opt_blk (current_tev s));
  _ ← hp (free_opt_blk (rtp_cached_mp (rtp s)));
  _ ← hp (free_opt_blk (rtcp_cached_mp (rtcp s)));
  _ ← hp (free_opt_blk (sd s));
  upd a (fun s => s <| signal_tables := [] |>).

(** The memory of the structure, with the sentinels of its queues. *)
Definition free_queue (q : Z) (m : Mem) : Mem :=
  m <| mblks ::= (fun M => delete (NFirst q) (delete (NLast q) M)) |> <| q_mcount ::= delete q |>.
Definition free_session (a : Z) : CM Env unit :=
  _ ← hp (modify (fun m => free_queue (a + 1) (free_queue (a + 2) (free_queue (a + 3) m))));
  wd (modify (fun w => w <| sessions ::= delete a |>)).

Definition rtp_session_destroy (a : Z) : CM Env unit :=
  _ ← rtp_session_uninit a;
  free_session a.

End OrtpInit.
