(* ===== verification/OrtpLife.v ===== *)
(** * The life of a sending session ([utils/ortp/src/rtpsession.c], [scheduler.c])

    What creating, configuring, starting and destroying a session that only sends does to
    the state of the stack, next to any other sessions. *)

From Stdlib Require Import Strings.String Floats.SpecFloat.
From S2P Require Import Prelude Floating StrUtils Blocks RtpMod Payload OrtpSession Sched OrtpEnv Rtcp RtcpParse OrtpSend OrtpStream OrtpInit.

(** * Queues of a new session *)

Definition no_queue (q : Z) (m : Mem) : Prop := mblks m !! NFirst q = None ∧ mblks m !! NLast q = None ∧ q_mcount m !! q = None.
Definition add_queue (q : Z) (m : Mem) : Mem :=
  m <| mblks ::= (fun M => <[NFirst q := mblk0 <| b_next := Some (NLast q) |>]> (<[NLast q := mblk0 <| b_prev := Some (NFirst q) |>]> M)) |>
    <| q_mcount ::= <[q := 0]> |>.

Lemma qinit_add q m : qinit q m = Ret tt (add_queue q m).
Proof.
  unfold qinit, mblk_init, set_next, set_prev, upd_blk. unfold mbind, CM_bind, modify. cbn.
  rewrite lookup_insert_ne, lookup_insert_eq by done. cbn. rewrite lookup_insert_ne, lookup_insert_eq by done. cbn.
  f_equal. unfold add_queue. destruct m. cbn. f_equal. apply map_eq. intros n. rewrite !lookup_insert. repeat case_decide; congruence.
Qed.
Lemma free_queue_add q m : no_queue q m → free_queue q (add_queue q m) = m.
Proof.
  intros (H1 & H2 & H3). unfold free_queue, add_queue. destruct m as [M D Q b]. cbn in *. f_equal; [|by apply delete_insert_id].
  apply map_eq. intros n. rewrite !lookup_delete, !lookup_insert. repeat case_decide; subst; congruence.
Qed.
Lemma add_queue_rep q m : qrep (add_queue q m) q [].
Proof.
  destruct (qinit_ret q m) as (m' & E & Hq). rewrite qinit_add in E. by injection E as <-.
Qed.

(** A queue and a block do not meet. *)
Lemma add_queue_put q a x m : add_queue q (put_blk a x m) = put_blk a x (add_queue q m).
Proof.
  unfold add_queue, put_blk. destruct m. cbn. f_equal. apply map_eq. intros n. rewrite !lookup_insert. repeat case_decide; congruence.
Qed.
Lemma add_queue_brk q m j : (add_queue q m) <| brk := j |> = add_queue q (m <| brk := j |>).
Proof. by destruct m. Qed.
Lemma no_queue_add q q' m : q ≠ q' → no_queue q m → no_queue q (add_queue q' m).
Proof. intros Hne (H1 & H2 & H3). split_and!; cbn; by rewrite !lookup_insert_ne by congruence. Qed.
Lemma clear_add a q m : clear a m → clear a (add_queue q m).
Proof. intros [H1 H2]. split; cbn; by rewrite ?lookup_insert_ne. Qed.
Lemma fresh_add q m : fresh m → fresh (add_queue q m).
Proof. intros Hf n Hn. destruct (Hf n Hn) as [H1 H2]. split; cbn; by rewrite ?lookup_insert_ne. Qed.
Lemma nxt_add q m : nxt (add_queue q m) (NFirst q) = Some (NLast q).
Proof. unfold nxt. cbn. by rewrite lookup_insert_eq. Qed.
Lemma nxt_add_ne q q' m : q ≠ q' → nxt (add_queue q' m) (NFirst q) = nxt m (NFirst q).
Proof. intros H. unfold nxt. cbn. by rewrite !lookup_insert_ne by congruence. Qed.

(** An empty queue is flushed by looking at it. *)
Lemma flushq_empty q m : qrep m q [] → flushq q m = Ret tt m.
Proof.
  intros Hq. unfold flushq. assert (∃ k, blocks m = S k) as [k ->] by (unfold blocks; by eexists). cbn [flushq_loop].
  by rewrite (bind_ret _ _ _ _ _ (getq_empty m q Hq)).
Qed.
Lemma qrep_put q a x m : qrep m q [] → qrep (put_blk a x m) q [].
Proof.
  intros [[H1 H2] _ _ H4]. split; [|by constructor|by constructor|done].
  unfold nxt, prv in *. cbn. unfold nxt, prv. by rewrite !put_blk_other by done.
Qed.

Lemma qrep_add_ne q q' m : q ≠ q' → qrep m q [] → qrep (add_queue q' m) q [].
Proof.
  intros Hne [[H1 H2] _ _ H4]. split; [|by constructor|by constructor|cbn; by rewrite lookup_insert_ne].
  unfold nxt, prv in *. cbn. unfold nxt, prv. cbn. by rewrite !lookup_insert_ne by congruence.
Qed.

(** * Creating *)

Section Life.
Context `{System}.

(** What a new session for sending is, by its address, its SSRC and its description. *)
Record new_sender (a ssrc : Z) (d : node) (s : RtpSession) : Prop := {
  ns_flags : flags s = Z.lor RTP_SESSION_SEND_NOT_STARTED RTP_SESSION_SEND_SYNC;
  ns_mode : mode s = RTP_SESSION_SENDONLY;
  ns_ssrc : send_ssrc s = ssrc;
  ns_profile : profile s = Some av_profile;
  ns_sd : sd s = Some d;
  ns_queues : rq (rtp s) = a + 1 ∧ tev_rq (rtp s) = a + 2 ∧ contributing_sources s = a + 3;
  ns_cached : rtp_cached_mp (rtp s) = None ∧ rtcp_cached_mp (rtcp s) = None ∧ current_tev s = None;
  ns_sockets : rtp_socket (rtp s) = -1 ∧ rtcp_socket (rtcp s) = -1;
  ns_addr : sin_addr (rtp_rem_addr (rtp s)) = 0;
  ns_seq : snd_seq (rtp s) = 0;
  ns_offsets : snd_time_offset (rtp s) = 0;
  ns_stats : stats (rtp s) = zero_stats;
  ns_quiet : nothing_received s;
  ns_handler : tb_count (on_network_error s) = 0;
  ns_jitter : jitt_comp (jittctl (rtp s)) = 0;
  ns_jump : time_jump (rtp s) = 5000
}.

(** A block that describes the source [ssrc]. *)
Record describes (ssrc : Z) (x : nblk) : Prop := {
  dx_base : nb_base x ≠ 0;
  dx_cont : nb_cont x = None;
  dx_data : ∃ items, nb_data x = be_bytes 4 ssrc ++ items;
  dx_len : zlen (nb_data x) < 2 ^ 31 - 4
}.

(** The first steps of [rtp_session_init], up to the source description. *)
Definition sender0 (a ssrc : Z) : RtpSession :=
  let s := (on_rtp (fun r => r <| max_rq_size := 100 |>) (zero_session (a + 1) (a + 2) (a + 3))) <| OrtpSession.mode := RTP_SESSION_SENDONLY |> in
  (rtp_session_set_flag (rtp_session_set_flag s RTP_SESSION_SEND_NOT_STARTED) RTP_SESSION_SEND_SYNC) <| send_ssrc := ssrc |>.

Lemma view_upd_last a s c m ob e f : upd a f (view a s c m ob e) = Ret tt (view a (f s) c m ob e).
Proof.
  pose proof (view_upd a s c m ob e f (fun x => mret x)) as E. unfold mbind, CM_bind, mret, CM_ret in E.
  by destruct (upd a f (view a s c m ob e)) as [[] e1|e1|fl].
Qed.

Lemma view_rest a s c m ob e : pmem (view a s c m ob e) = pmem e ∧ closed (view a s c m ob e) = closed e.
Proof. unfold view, put_session. by destruct e. Qed.

(** The default description of a source. *)
Definition default_source : source :=
  mkSource (Some (bytes_of "unknown@unknown")) None None None None (Some (bytes_of "oRTP-0.9.1")) (Some (bytes_of "This is free sofware (LGPL) !")).

Lemma describe_view a s c m ob e : sd s = None →
  ∃ rest zeros, 1 ≤ zlen zeros ≤ 4 ∧
  let items := items_bytes (Some (bytes_of "unknown@unknown")) default_source in
  let x := mkNblk None (buf_addr (brk m + 1)) true (be_bytes 4 (send_ssrc s) ++ items ++ zeros) rest in
  rtp_session_set_source_description a default_source (view a s c m ob e) =
  Ret tt (view a (s <| sd := Some (NBlk (brk m)) |>) c (put_blk (brk m) x (m <| brk := brk m + 2 |>)) ob e).
Proof.
  intros Hsd. destruct (chunk_new_put (send_ssrc s) m) as (buf & Hbuf & Enew). set (x0 := mkNblk _ _ _ _ buf) in Enew.
  destruct (describe_put (brk m) x0 (m <| brk := brk m + 2 |>) (Some (bytes_of "unknown@unknown")) default_source) as (zeros & Hz & Ed).
  { cbn [nb_rest x0]. unfold x0. cbn [nb_rest]. rewrite Hbuf. vm_compute. congruence. }
  exists (drop (length (items_bytes (Some (bytes_of "unknown@unknown")) default_source ++ zeros)) buf), zeros. split; [done|]. cbv zeta.
  unfold rtp_session_set_source_description. rewrite view_ses.
  rewrite (view_hp _ _ _ _ _ _ _ _ _ _ Enew), (view_hp _ _ _ _ _ _ _ _ _ _ Ed), Hsd.
  rewrite (bind_ret (mret tt) _ _ tt _) by done.
  by rewrite view_upd_last.
Qed.

(** The operations on parts of the environment that a view leaves as they are. *)
Lemma view_pm {A B} a s c m ob e (op : CM PMem A) (k : A → CM Env B) x : op (pmem e) = Ret x (pmem e) →
  (y ← pm op; k y) (view a s c m ob e) = k x (view a s c m ob e).
Proof.
  intros E. unfold pm, zoom, view, put_session. unfold mbind, CM_bind. destruct e as [he pe w gs o cl ca ini]. cbn in *. by rewrite E.
Qed.
Lemma view_payload {B} a s c m ob e n (k : option PayloadType → CM Env B) : profile s = Some av_profile → pmem e = av_mem →
  (y ← session_payload a n; k y) (view a s c m ob e) = k (av_table n) (view a s c m ob e).
Proof.
  intros Hp Hm. unfold session_payload. rewrite bind_assoc, view_ses, Hp.
  destruct (av_profile_spec n) as (r & _ & E & Hof & Hr). rewrite !bind_assoc.
  rewrite (bind_ret (nonnull (Some av_profile)) _ _ av_profile _) by done. rewrite !bind_assoc, (view_pm _ _ _ _ _ _ _ _ r) by (by rewrite Hm).
  unfold payload_of in Hof. rewrite E in Hof. destruct r as [r|].
  - destruct (av_table n) as [q|]; [|by destruct Hr as [_ Hr]; specialize (Hr eq_refl)].
    rewrite bind_assoc, (view_pm _ _ _ _ _ _ _ _ q); [done|]. unfold get_pt. by rewrite Hm, Hof.
  - destruct Hr as [-> _]; done.
Qed.

Lemma view_jitter {A B} a s c m ob e (op : CM JitterControl A) (k : A → CM Env B) x j : op (jittctl (rtp s)) = Ret x j →
  (y ← on_jitter a op; k y) (view a s c m ob e) = k x (view a (on_rtp (fun r => r <| jittctl := j |>) s) c m ob e).
Proof. intros E. unfold on_jitter. by rewrite (view_part _ _ _ _ _ _ _ _ _ _ _ _ E). Qed.
Lemma enable_adaptive_ret val j : jitter_control_enable_adaptive val j = Ret tt (j <| adaptive := val |>).
Proof. done. Qed.

(** The steps of creating and setting up a session are taken one after the other on its view:
    the goal is a program on a view equal to an outcome. *)
Tactic Notation "view_by" uconstr(L) := refine (eq_trans L _); cbv beta.
Ltac view_step :=
  lazymatch goal with
  | |- (mbind _ (mbind _ _)) _ = _ => view_by (bind_assoc _ _ _ _)
  | |- (mbind _ (mret _)) _ = _ => view_by (bind_ret (mret _) _ _ _ _ eq_refl)
  | |- (mbind _ (upd _ _)) _ = _ => view_by (view_upd _ _ _ _ _ _ _ _)
  | |- (mbind _ (ses _)) _ = _ => view_by (view_ses _ _ _ _ _ _ _)
  | |- (mbind _ (syscall _)) _ = _ => view_by (view_syscall _ _ _ _ _ _ _ _)
  | |- (mbind _ (hp (qinit _))) _ = _ => view_by (view_hp _ _ _ _ _ _ _ _ _ _ (qinit_add _ _))
  | |- (mbind _ (init_table _ _ _)) _ = _ => view_by (view_upd _ _ _ _ _ _ _ _)
  | |- (upd _ _) _ = _ => view_by (view_upd_last _ _ _ _ _ _ _)
  end.

Lemma no_telephone_events m : m = av_mem → rtp_profile_get_payload_number_from_mime av_profile "telephone-event" m = Ret (-1) m.
Proof. intros ->. vm_compute. reflexivity. Qed.

Lemma default_jump_ts {S} (x : S) : to_u32 (time_to_ts_dbl (clock_rate payload_type_pcmu8000) 5000) x = Ret 40000 x.
Proof. vm_compute. reflexivity. Qed.

Lemma new_view e : pmem e = av_mem → sessions (world e) !! brk (heap e) = None →
  ∃ s x c, let a := brk (heap e) in
  rtp_session_new RTP_SESSION_SENDONLY e = Ret a
    (view a s c (add_queue (a + 3) (add_queue (a + 2) (add_queue (a + 1) (put_blk (a + 4) x ((heap e) <| brk := a + 6 |>))))) (outbox e) e) ∧
  new_sender a (u32 (random_at (calls e))) (NBlk (a + 4)) s ∧ describes (u32 (random_at (calls e))) x.
Proof.
  intros Hm Hs. set (a := brk (heap e)). set (m1 := (heap e) <| brk := a + 4 |>). set (ssrc := u32 (random_at (calls e))).
  destruct (describe_view a (sender0 a ssrc) (S (calls e)) m1 (outbox e) e eq_refl) as (rest & zeros & Hz & Ed). cbv zeta in Ed. change (brk m1) with (a + 4) in Ed.
  replace (m1 <| brk := a + 4 + 2 |>) with ((heap e) <| brk := a + 6 |>) in Ed.
  2: { unfold m1. rewrite brk_again. by replace (a + 4 + 2) with (a + 6) by lia. }
  eexists _, _, _. cbv zeta. split.
  - unfold rtp_session_new. rewrite (bind_ret (hp (gets brk)) _ _ a e) by (by destruct e).
    rewrite (bind_ret (hp (modify _)) _ _ tt (e <| heap := m1 |>)) by done.
    assert (E0 : wd (modify (fun w => w <| sessions ::= <[a := zero_session (a + 1) (a + 2) (a + 3)]> |>)) (e <| heap := m1 |>) =
      Ret tt (view a (zero_session (a + 1) (a + 2) (a + 3)) (calls e) m1 (outbox e) e)).
    { unfold view, put_session. by destruct e as [he pe [sc ss sg os si] gs o cl ca ini]. }
    unfold rtp_session_init. repeat view_step. view_by (bind_ret _ _ _ _ _ E0). repeat view_step.
    change ((RTP_SESSION_SENDONLY =? RTP_SESSION_RECVONLY) || (RTP_SESSION_SENDONLY =? RTP_SESSION_SENDRECV)) with false.
    change ((RTP_SESSION_SENDONLY =? RTP_SESSION_SENDONLY) || (RTP_SESSION_SENDONLY =? RTP_SESSION_SENDRECV)) with true. cbv iota.
    repeat view_step. unfold uint32_t_random. repeat view_step.
    view_by (bind_ret _ _ _ _ _ Ed). unfold rtp_session_set_profile, rtp_session_telephone_events_supported. repeat view_step.
    view_by (bind_ret (nonnull (Some av_profile)) _ _ av_profile _ eq_refl). repeat view_step.
    view_by (view_pm _ _ _ _ _ _ _ _ _ (no_telephone_events _ Hm)).
    unfold rtp_session_set_send_payload_type, rtp_session_set_recv_payload_type. repeat view_step.
    view_by (view_payload _ _ _ _ _ _ _ _ _ Hm); [reflexivity|]. change (av_table (-1)) with (@None PayloadType). repeat view_step.
    unfold rtp_session_set_jitter_compensation. repeat view_step.
    match goal with |- context [recv_pt ?s =? -1] => change (recv_pt s =? -1) with true end. cbv iota. repeat view_step.
    unfold rtp_session_enable_adaptive_jitter_compensation. view_by (view_jitter _ _ _ _ _ _ _ _ _ _ (enable_adaptive_ret _ _)).
    unfold rtp_session_set_time_jump_limit, rtp_session_time_to_ts. repeat view_step.
    view_by (view_payload _ _ _ _ _ _ _ _ _ Hm); [reflexivity|].
    match goal with |- context [av_table (send_pt ?s)] => change (av_table (send_pt s)) with (Some payload_type_pcmu8000) end. cbv iota.
    view_by (bind_ret _ _ _ _ _ (default_jump_ts _)). repeat view_step. unfold mret, CM_ret. do 2 f_equal.
  - split; [split; repeat split; reflexivity|]. split; [apply buf_addr_ok|done|by eexists|].
    cbn [nb_data]. rewrite !zlen_app. unfold zlen at 1. rewrite be_bytes_length.
    replace (zlen (items_bytes _ _)) with 60 by (vm_compute; reflexivity). lia.
Qed.
(** * Sockets

    Sockets are created and bound, a socket differs from the one made three calls before it,
    which is still open, and the random ports are in the range that is asked for. *)
Record sockets_work : Prop := {
  sw_rand n : 5000 ≤ Z.land (i32 (rand_at n + 5000)) 65534;
  sw_socket n : ∃ k, socket_at n = Some k ∧ 0 ≤ k;
  sw_bind n k addr : bind_at n k addr = true;
  sw_fresh n n' : (n < n' ≤ n + 3)%nat → socket_at n ≠ socket_at n'
}.

Section Sockets.
Hypothesis Hsock : sockets_work.

Lemma land_le x y : 0 ≤ y → Z.land x y ≤ y.
Proof.
  intros Hy. assert (E : Z.ldiff (Z.land x y) y = 0).
  { apply Z.bits_inj'. intros n Hn. rewrite Z.ldiff_spec, Z.land_spec, Z.bits_0. by destruct (Z.testbit x n), (Z.testbit y n). }
  apply Z.sub_nocarry_ldiff in E. assert (0 ≤ Z.ldiff y (Z.land x y)) by (apply Z.ldiff_nonneg; by left). lia.
Qed.
Lemma bind_view a s c m ob e addr port :
  ∃ k, socket_at (S c) = Some k ∧ 0 ≤ k ∧ create_and_bind addr port (view a s c m ob e) = Ret k (view a s (S (S (S c))) m ob e).
Proof.
  destruct (sw_socket Hsock (S c)) as (k & Ek & Hk). exists k. split; [done|]. split; [done|].
  unfold create_and_bind. rewrite !view_syscall, Ek. rewrite (proj2 (Z.ltb_ge k 0)) by done. by rewrite view_syscall, (sw_bind Hsock).
Qed.

(** The session with the sockets [k1] and [k2] and its local port. *)
Definition bound (k1 k2 port : Z) (s : RtpSession) : RtpSession :=
  on_rtcp (fun r => r <| rtcp_sockfamily := AF_INET |> <| rtcp_socket := k2 |>)
    (on_rtp (fun r => r <| rtp_sockfamily := AF_INET |> <| rtp_socket := k1 |> <| loc_port := port |>) s).

Lemma local_view fuel a s c m ob e addr : rtp_socket (rtp s) = -1 →
  ∃ k1 k2 port c', 0 ≤ k1 ∧ 0 ≤ k2 ∧ k1 ≠ k2 ∧ 5000 ≤ port ≤ 65534 ∧
  rtp_session_set_local_addr (S fuel) a addr (-1) (view a s c m ob e) = Ret 0 (view a (bound k1 k2 port s) c' m ob e).
Proof.
  intros Hs. set (port := Z.land (i32 (rand_at c + 5000)) 65534).
  assert (Hp : 5000 ≤ port ≤ 65534).
  { split; [apply (sw_rand Hsock)|]. by apply land_le. }
  destruct (bind_view a s (S c) m ob e addr port) as (k1 & E1 & H1 & Eb1). set (c1 := S (S (S (S c)))) in *.
  destruct (bind_view a (on_rtp (fun r => r <| rtp_sockfamily := AF_INET |> <| rtp_socket := k1 |> <| loc_port := port |>) s) c1 m ob e addr (port + 1)) as (k2 & E2 & H2 & Eb2).
  exists k1, k2, port, (S (S (S c1))). split; [done|]. split; [done|]. split.
  { intros ->. apply (sw_fresh Hsock (S (S c)) (S c1)); [unfold c1; lia|congruence]. }
  split; [done|]. unfold rtp_session_set_local_addr. rewrite view_ses, Hs. cbn [Z.leb Z.compare Z.ltb]. rewrite (bind_ret (mret tt) _ _ tt _) by done.
  assert (Er : create_and_bind_random (S fuel) addr (view a s c m ob e) = Ret (k1, port) (view a s c1 m ob e)).
  { unfold create_and_bind_random. rewrite seqZ_cons by lia. cbn [for_until random_port]. rewrite !bind_assoc, view_syscall. fold port. cbv zeta.
    rewrite (proj2 (orb_false_iff _ _)) by (split; apply Z.ltb_ge; lia). rewrite (bind_ret (mret port) _ _ port _) by done.
    rewrite !bind_assoc, (bind_ret _ _ _ _ _ Eb1). rewrite (proj2 (Z.leb_le 0 k1)) by done. done. }
  rewrite (bind_ret _ _ _ _ _ Er). cbv beta iota. rewrite (proj2 (Z.leb_le 0 k1)) by done. rewrite view_upd, (bind_ret _ _ _ _ _ Eb2).
  rewrite (proj2 (Z.leb_le 0 k2)) by done. by rewrite view_upd.
Qed.

(** The session bound to new sockets and sending to [ip]:[port]. *)
Definition addressed (ip port k1 k2 local : Z) (s : RtpSession) : RtpSession :=
  on_rtcp (fun r => r <| rtcp_rem_addr := mkAddr AF_INET ip (u16 (port + 1)) |> <| rtcp_rem_addrlen := sizeof_sockaddr_in |>)
    (on_rtp (fun r => r <| rtp_rem_addrlen := sizeof_sockaddr_in |> <| rtp_rem_addr := mkAddr AF_INET ip (u16 port) |>) (bound k1 k2 local s)).

Lemma remote_view fuel a s c m ob e addr port : rtp_socket (rtp s) = -1 →
  ∃ k1 k2 local c', 0 ≤ k1 ∧ 0 ≤ k2 ∧ k1 ≠ k2 ∧ 5000 ≤ local ≤ 65534 ∧
  rtp_session_set_remote_addr (S fuel) a addr port (view a s c m ob e) =
    Ret 0 (view a (addressed (default (sin_addr (rtp_rem_addr (rtp s))) (inet_aton addr)) port k1 k2 local s) c' m ob e).
Proof.
  intros Hs. destruct (local_view fuel a s c m ob e "0.0.0.0" Hs) as (k1 & k2 & local & c' & H1 & H2 & Hne & Hl & E).
  exists k1, k2, local, c'. split_and!; try done; try lia. unfold rtp_session_set_remote_addr. rewrite view_ses, Hs. cbn [Z.eqb Pos.eqb].
  rewrite (bind_ret _ _ _ _ _ E). cbn [Z.ltb Z.compare]. rewrite !view_upd. unfold addressed.
  assert (Hb : sin_addr (rtp_rem_addr (rtp (bound k1 k2 local s))) = sin_addr (rtp_rem_addr (rtp s))) by reflexivity. rewrite <- Hb.
  generalize (bound k1 k2 local s). intros b. unfold mret, CM_ret. do 2 f_equal.
Qed.
End Sockets.

(** * Scheduling *)

Lemma up_for_until {A} (l : list Z) (body : Z → CM World (option A)) : (∀ i, stays_up (body i)) → stays_up (for_until l body).
Proof. intros Hb. induction l as [|i l IH]; cbn [for_until]; staying_up. Qed.
Lemma up_add a : stays_up (rtp_scheduler_add_session a).
Proof.
  assert (H1 : ∀ i, stays_up (add_at a i)) by (intros i; unfold add_at, mask_isset; staying_up).
  unfold rtp_scheduler_add_session. pose proof (up_for_until (A := unit)). staying_up.
Qed.

Lemma view_wd {A} a s c m ob e (op : CM World A) x w' s' :
  op ((world e) <| sessions ::= <[a := s]> |>) = Ret x w' → sessions w' !! a = Some s' →
  wd op (view a s c m ob e) = Ret x (view a s' c m ob (e <| world := w' |>)).
Proof.
  intros E Hs. unfold wd, zoom, view, put_session. destruct e as [he pe w gs o cl ca ini]. cbn in *. rewrite E. cbn.
  do 2 f_equal. destruct w' as [sc ss sg os si]. cbn in *. by rewrite insert_id.
Qed.

Lemma sched_insert_ok L w a s : sched_ok L w → (a ∉ L) → in_sched s = false → sched_ok L (w <| sessions ::= <[a := s]> |>).
Proof.
  intros [H1 H2 H3 H4 H5 H6 H7 H8 H9] Ha Hf. split; rewrite ?cores_insert, ?(pos_insert_ne _ a (core_of s) L) by done; try done.
  - by apply linked_insert.
  - intros b c. destruct (decide (b = a)) as [->|Hb]; [rewrite lookup_insert_eq|rewrite lookup_insert_ne by done; apply H3].
    intros [= <-]. unfold core_of. cbn [fst snd]. rewrite Hf. by split.
Qed.

(** A session at the head of the list of the scheduler, at position [i]. *)
Definition joined (i : Z) (n : option Z) (s : RtpSession) : RtpSession :=
  rtp_session_set_flag ((rtp_session_set_flag s RTP_SESSION_SCHEDULED) <| has_sched := true |> <| next := n |> <| mask_pos := i |>) RTP_SESSION_IN_SCHEDULER.

(** A world with a session more at the head of the list; the other sessions are as they were
    but for their wait points. *)
Record grown (a : Z) (L : list Z) (w w' : World) : Prop := {
  gr_ok : sched_ok (a :: L) w';
  gr_others : others_wait a w w';
  gr_up : ortp_scheduler w' = ortp_scheduler w;
  gr_inc : timer_inc (sched w') = timer_inc (sched w)
}.

Lemma schedule_view a s c m ob e L : sched_ok L (world e) → (a ∉ L) → zlen L < 1024 → ortp_scheduler (world e) = true → in_sched s = false →
  ∃ i n w', wd (rtp_session_set_scheduling_mode a true) (view a s c m ob e) = Ret tt (view a (joined i n s) c m ob (e <| world := w' |>)) ∧
    grown a L (world e) w' ∧ sessions w' !! a = Some (joined i n s) ∧ time_ (sched w') = time_ (sched (world e)).
Proof.
  intros Hok Ha Hn Hup Hf. set (s1 := (rtp_session_set_flag s RTP_SESSION_SCHEDULED) <| has_sched := true |>).
  set (w0 := (world e) <| sessions ::= <[a := s]> |>). set (w1 := (world e) <| sessions ::= <[a := s1]> |>).
  assert (Hf1 : in_sched s1 = false).
  { unfold in_sched, has_flag in *. apply negb_false_iff, Z.eqb_eq. apply negb_false_iff, Z.eqb_eq in Hf.
    change (flags s1) with (Z.lor (flags s) RTP_SESSION_SCHEDULED). by rewrite Z.land_lor_distr_l, Hf. }
  destruct (sched_add_ok L w1 a s1) as (w' & E & Hok' & Hq & i & Hs'); try done; [by apply sched_insert_ok|apply lookup_insert_eq|].
  change (sessions w1) with (<[a := s1]> (sessions (world e))) in Hs'. rewrite insert_insert_eq in Hs'.
  exists i, (list_ (sched (world e))), w'. split; [|split; [|split]].
  - apply view_wd; [|by rewrite Hs', lookup_insert_eq]. fold w0. unfold rtp_session_set_scheduling_mode.
    rewrite (bind_ret ortp_get_scheduler _ w0 true w0) by (unfold ortp_get_scheduler, gets; by rewrite <- Hup).
    rewrite (bind_ret _ _ _ tt w1); [exact E|].
    rewrite (on_sess_ret a _ w0 s) by apply lookup_insert_eq. unfold w0, w1. f_equal. destruct (world e) as [sc ss sg os si]. cbn. by rewrite insert_insert_eq.
  - split; [done| | |by rewrite (q_inc _ _ Hq)].
    + apply others_same. intros b Hb. by rewrite Hs', lookup_insert_ne.
    + transitivity (ortp_scheduler w1); [|done]. by eapply up_add.
  - by rewrite Hs', lookup_insert_eq.
  - by rewrite (q_time _ _ Hq).
Qed.

(** * Payload types *)

(** The two types the device sends. *)
Definition device_type (pt : Z) : option PayloadType := if (pt =? 34) || (pt =? 12) then av_table pt else None.
Lemma device_type_cases pt p : device_type pt = Some p → (pt = 34 ∧ p = payload_type_h263) ∨ (pt = 12 ∧ p = payload_type_aac).
Proof.
  unfold device_type. destruct (Z.eqb_spec pt 34) as [->|H1]; [cbn; intros [= <-]; by left|].
  destruct (Z.eqb_spec pt 12) as [->|H2]; [cbn; intros [= <-]; by right|done].
Qed.

Lemma device_jitter pt p j : device_type pt = Some p → jitt_comp j = 0 → ∃ j', jitter_control_set_payload p j = Ret tt j' ∧ inter_jitter j' = inter_jitter j.
Proof.
  intros Hp Hj. unfold jitter_control_set_payload. rewrite (bind_ret (gets id) _ _ j j) by done. rewrite Hj.
  destruct (device_type_cases _ _ Hp) as [[_ ->]|[_ ->]]; eexists; (split; [cbv; reflexivity|reflexivity]).
Qed.
Lemma device_jump pt p tj : device_type pt = Some p → tj = 5000 → ∃ ts, ∀ S (x : S), to_u32 (time_to_ts_dbl (clock_rate p) tj) x = Ret ts x.
Proof.
  intros Hp ->. destruct (device_type_cases _ _ Hp) as [[_ ->]|[_ ->]]; eexists; intros S x; vm_compute; reflexivity.
Qed.

(** The session with its payload type. *)
Definition typed (pt : Z) (p : PayloadType) (j : JitterControl) (jump ts : Z) (s : RtpSession) : RtpSession :=
  on_rtp (fun r => r <| jittctl := j |> <| rtcp_report_snt_interval := u32 (RTCP_DEFAULT_REPORT_INTERVAL * clock_rate p) |> <| time_jump := jump |> <| ts_jump := ts |>)
    (s <| send_pt := pt |> <| recv_pt := pt |> <| hw_recv_pt := pt |>).

Lemma payload_view a s c m ob e pt p : profile s = Some av_profile → pmem e = av_mem → device_type pt = Some p →
  jitt_comp (jittctl (rtp s)) = 0 → time_jump (rtp s) = 5000 →
  ∃ j ts, inter_jitter j = inter_jitter (jittctl (rtp s)) ∧ rtp_session_set_payload_type a pt (view a s c m ob e) = Ret 0 (view a (typed pt p j (time_jump (rtp s)) ts s) c m ob e).
Proof.
  intros Hprof Hm Hp Hj Htj. assert (Ht : av_table pt = Some p).
  { unfold device_type in Hp. by destruct (_ || _). }
  destruct (device_jitter pt p (jittctl (rtp s)) Hp Hj) as (j & Ej & Hij). destruct (device_jump pt p _ Hp Htj) as (ts & Ets).
  exists j, (if ts =? 0 then 2 ^ 31 else ts). split; [exact Hij|]. unfold rtp_session_set_payload_type, rtp_session_set_send_payload_type, rtp_session_set_recv_payload_type. repeat view_step.
  change (0 <? 0) with false. cbv iota. repeat view_step.
  view_by (view_payload _ _ _ _ _ _ _ _ _ Hm); [exact Hprof|]. rewrite Ht. cbv iota. unfold payload_type_changed. repeat view_step.
  view_by (view_jitter _ _ _ _ _ _ _ _ _ _ _); [exact Ej|]. repeat view_step. unfold rtp_session_set_time_jump_limit, rtp_session_time_to_ts. repeat view_step.
  view_by (view_payload _ _ _ _ _ _ _ _ _ Hm); [exact Hprof|].
  match goal with |- context [av_table (send_pt ?x)] => change (send_pt x) with pt end. rewrite Ht. cbv iota.
  view_by (bind_ret _ _ _ _ _ (Ets _ _)). repeat view_step. change (0 <? 0) with false. cbv iota. unfold mret, CM_ret.
  match goal with |- Ret 0 (view a ?x _ _ _ _) = _ => assert (E : x = typed pt p j (time_jump (rtp s)) (if ts =? 0 then 2 ^ 31 else ts) s); [|by rewrite E] end.
  clear. unfold typed. destruct s as [? ? ? ? ? ? ? ? ? ? ? ? ? ? ? ? ? ? r]. unfold on_rtp. destruct r. reflexivity.
Qed.

(** * Starting

    The first packet of a session sets the offsets of its timestamps and of its time. *)
Definition begun (ts : Z) (tv : Z * Z) (time : Z) (s : RtpSession) : RtpSession :=
  rtp_session_unset_flag ((on_rtp (fun r => r <| snd_ts_offset := ts |> <| snd_time_offset := time |>) s) <| last_recv_time := tv |>)
    RTP_SESSION_SEND_NOT_STARTED.

Lemma sched_of_view s a s' c m ob e : has_sched s = true → ortp_scheduler (world e) = true →
  sched_of s (view a s' c m ob e) = Ret (sched (world e)) (view a s' c m ob e).
Proof.
  intros H1 Hup. unfold sched_of. rewrite H1. cbn [negb]. unfold ortp_get_scheduler, wd, zoom, gets, view, put_session. unfold mbind, CM_bind.
  destruct e as [he pe [sc ss sg os si] gs o cl ca ini]. cbn in *. by rewrite Hup.
Qed.
Lemma start_view a s c m ob e ts : has_flag s RTP_SESSION_SEND_NOT_STARTED = true → mode s = RTP_SESSION_SENDONLY →
  has_flag s RTP_SESSION_SCHEDULED = true → has_sched s = true → ortp_scheduler (world e) = true →
  send_start a ts (view a s c m ob e) = Ret tt (view a (begun ts (gettimeofday_at c) (time_ (sched (world e))) s) (S c) m ob e).
Proof.
  intros H1 H2 H3 H4 Hup. unfold send_start. rewrite view_ses, H1, view_upd, H2, orb_true_r. unfold gettimeofday. rewrite bind_assoc, view_syscall.
  rewrite view_upd, H3. rewrite bind_assoc, (bind_ret _ _ _ _ _ (sched_of_view s a _ _ _ _ e H4 Hup)). by rewrite view_upd, view_upd_last.
Qed.

(** Sending the first packet is sending from the session that has begun. *)
Lemma begin_send a s c m ob e fuel sleep base payload ts : in_u32 (send_ssrc s) →
  has_flag s RTP_SESSION_SEND_NOT_STARTED = true → mode s = RTP_SESSION_SENDONLY →
  has_flag s RTP_SESSION_SCHEDULED = true → has_sched s = true → ortp_scheduler (world e) = true →
  let s' := begun ts (gettimeofday_at c) (time_ (sched (world e))) s in
  has_flag s' RTP_SESSION_SEND_NOT_STARTED = false →
  rtp_session_send_with_ts fuel sleep a base payload ts (view a s c m ob e) = rtp_session_send_with_ts fuel sleep a base payload ts (view a s' (S c) m ob e).
Proof.
  intros Hssrc H1 H2 H3 H4 Hup s' H5. unfold rtp_session_send_with_ts.
  destruct (view_parts a s c m ob e) as (P1 & P2 & _ & _). destruct (view_parts a s' (S c) m ob e) as (Q1 & Q2 & _ & _).
  pose proof (create_packet_ret a base payload _ s P1 Hssrc) as E1. pose proof (create_packet_ret a base payload _ s' Q1 Hssrc) as E2. cbv zeta in E1, E2.
  rewrite P2 in E1. rewrite Q2 in E2. change (fresh_header s') with (fresh_header s) in E2.
  rewrite (bind_ret _ _ _ _ _ E1), (bind_ret _ _ _ _ _ E2). set (h := packet_heap _ _ _ _ _ _).
  assert (Ev : ∀ s c, (view a s c m ob e) <| heap := h |> = view a s c h ob e) by (intros; unfold view, put_session; by destruct e).
  rewrite !Ev. unfold rtp_session_sendm_with_ts. rewrite (bind_ret _ _ _ _ _ (start_view a s c h ob e ts H1 H2 H3 H4 Hup)). fold s'.
  rewrite (bind_ret (send_start a ts) _ (view a s' (S c) h ob e) tt (view a s' (S c) h ob e)); [done|].
  unfold send_start. by rewrite view_ses, H5.
Qed.

(** * Destroying *)

Lemma sched_delete_ok L w a : sched_ok L w → (a ∉ L) → sched_ok L (w <| sessions ::= delete a |>).
Proof.
  intros [H1 H2 H3 H4 H5 H6 H7 H8 H9] Ha. set (w' := w <| sessions ::= delete a |>).
  assert (Hc : cores w' = delete a (cores w)) by (unfold cores; cbn; by rewrite fmap_delete).
  assert (Hpos : pos_of (cores w') <$> L = pos_of (cores w) <$> L).
  { apply list_fmap_ext. intros i b Hb. unfold pos_of. rewrite Hc, lookup_delete_ne; [done|]. intros ->. by apply Ha, (list_elem_of_lookup_2 _ i). }
  split; rewrite ?Hpos; try done.
  - rewrite Hc. clear -H1 Ha. change (list_ (sched w')) with (list_ (sched w)). revert H1. generalize (list_ (sched w)). induction L as [|b L IH]; intros h Hl; [done|].
    apply not_elem_of_cons in Ha as [Hab Ha]. destruct Hl as (-> & n & f & p & E & Hl). split; [done|]. exists n, f, p.
    split; [by rewrite lookup_delete_ne|by apply IH].
  - intros b c. rewrite Hc. intros [_ E]%lookup_delete_Some. by apply H3.
Qed.

(** ** The heap of a session *)

(** The heap [m] with what a new sender [a] has on it. *)
Definition sender_heap (a : Z) (x : nblk) (m : Mem) : Mem :=
  add_queue (a + 3) (add_queue (a + 2) (add_queue (a + 1) (put_blk (a + 4) x m))).
Definition sender_start (a : Z) (x : nblk) (m : Mem) : Mem := sender_heap a x (m <| brk := a + 6 |>).

(** The heap has nothing from its next address on. *)
Record unused (m : Mem) : Prop := {
  un_fresh : fresh m;
  un_queue q : brk m ≤ q → no_queue q m
}.

Lemma sender_heap_put a x m : sender_heap a x m = put_blk (a + 4) x (add_queue (a + 3) (add_queue (a + 2) (add_queue (a + 1) m))).
Proof. unfold sender_heap. by rewrite !add_queue_put. Qed.
Lemma sender_heap_brk a x m j : (sender_heap a x m) <| brk := j |> = sender_heap a x (m <| brk := j |>).
Proof. unfold sender_heap. by rewrite !add_queue_brk, put_blk_brk. Qed.
Lemma sender_fresh x m : unused m → fresh (sender_start (brk m) x m).
Proof.
  intros [Hf _]. unfold sender_start, sender_heap. do 3 apply fresh_add. intros n Hn. cbn in Hn. destruct (Hf n) as [H1 H2]; [lia|].
  split; cbn; rewrite lookup_insert_ne; try done; [intros [= ?]; lia|lia].
Qed.

(** The kept block, the description and the queues are freed. *)
Lemma free_kept m0 p m : fresh m0 → holds m0 p m → ∃ j, brk m0 ≤ j ∧ free_opt_blk p m = Ret tt (m0 <| brk := j |>).
Proof.
  intros Hf [j Hj|i x j Hi Hj Hb Hc]; exists j; (split; [lia|]); [done|].
  apply free_put_last; [done|done|]. destruct (Hf i Hi) as [H1 _]. destruct (Hf (i + 1)) as [_ H2]; [lia|]. by split.
Qed.
Lemma free_description a x m : nb_base x ≠ 0 → nb_cont x = None → clear (a + 4) m →
  free_opt_blk (Some (NBlk (a + 4))) (sender_heap a x m) = Ret tt (add_queue (a + 3) (add_queue (a + 2) (add_queue (a + 1) m))).
Proof. intros Hb Hc Hm. rewrite sender_heap_put. apply free_put_last; [done|done|]. by repeat apply clear_add. Qed.
Lemma free_queues a m : no_queue (a + 1) m → no_queue (a + 2) m → no_queue (a + 3) m →
  free_queue (a + 1) (free_queue (a + 2) (free_queue (a + 3) (add_queue (a + 3) (add_queue (a + 2) (add_queue (a + 1) m))))) = m.
Proof. intros H1 H2 H3. rewrite !free_queue_add; try done; repeat apply no_queue_add; done || lia. Qed.
Lemma unused_brk m j : unused m → brk m ≤ j → unused (m <| brk := j |>).
Proof. intros [H1 H2] Hj. split; [by apply fresh_brk|]. intros q Hq. cbn in Hq. apply H2. lia. Qed.

(** ** Releasing *)

Lemma view_close a s c m ob e k {B} (f : unit → CM Env B) :
  (x ← close_socket k; f x) (view a s c m ob e) = f tt (view a s c m ob (e <| closed ::= (fun l => l ++ [k]) |>)).
Proof. by destruct e as [he pe [sc ss sg os si] gs o cl ca ini]. Qed.

Definition released (s : RtpSession) : RtpSession :=
  on_rtcp (fun r => r <| rtcp_socket := -1 |> <| rtcp_rem_addrlen := 0 |>) (on_rtp (fun r => r <| rtp_socket := -1 |> <| rtp_rem_addrlen := 0 |>) s).
Lemma release_view {B} a s c m ob e (f : unit → CM Env B) : 0 ≤ rtp_socket (rtp s) → 0 ≤ rtcp_socket (rtcp s) →
  (x ← rtp_session_release_sockets a; f x) (view a s c m ob e) =
  f tt (view a (released s) c m ob (e <| closed ::= (fun l => l ++ [rtp_socket (rtp s); rtcp_socket (rtcp s)]) |>)).
Proof.
  intros H1 H2. unfold rtp_session_release_sockets. rewrite bind_assoc, view_ses. rewrite (proj2 (Z.leb_le 0 (rtp_socket _))), (proj2 (Z.leb_le 0 (rtcp_socket _))) by done.
  rewrite bind_assoc, view_close, bind_assoc, view_close, bind_assoc, view_upd, view_upd. f_equal. unfold released. f_equal. destruct e. cbn. by rewrite <- app_assoc.
Qed.

(** The other sessions changed in nothing but their wait points and their place in the list
    of the scheduler. *)
Definition peers (a : Z) (w w' : World) : Prop :=
  ∀ b, b ≠ a → ∃ wp wp' n, sessions w' !! b = (fun s => (waited s wp wp') <| next := n |>) <$> sessions w !! b.
#[export] Instance peers_preorder a : PreOrder (peers a).
Proof.
  split.
  - intros w b _. destruct (sessions w !! b) as [s|]; [|by exists wait_point_init, wait_point_init, None].
    exists (send_wp s), (recv_wp s), (next s). by destruct s.
  - intros w1 w2 w3 H12 H23 b Hb. destruct (H12 b Hb) as (x & y & n & E12), (H23 b Hb) as (z & u & n' & E23). exists z, u, n'.
    rewrite E23, E12. by destruct (sessions w1 !! b).
Qed.
Lemma others_peers a w w' : others_wait a w w' → peers a w w'.
Proof.
  intros Ho b Hb. destruct (Ho b Hb) as (wp & wp' & E). exists wp, wp'. rewrite E.
  destruct (sessions w !! b) as [s|]; [|by exists None]. exists (next s). by destruct s.
Qed.

(** What a session that was destroyed leaves. *)
Record gone (a : Z) (L : list Z) (e e' : Env) : Prop := {
  go_ok : sched_ok L (world e');
  go_none : sessions (world e') !! a = None;
  go_peers : peers a (world e) (world e');
  go_up : ortp_scheduler (world e') = ortp_scheduler (world e);
  go_inc : timer_inc (sched (world e')) = timer_inc (sched (world e));
  go_time : time_ (sched (world e')) = time_ (sched (world e));
  go_pmem : pmem e' = pmem e;
  go_outbox : outbox e' = outbox e;
  go_calls : calls e' = calls e
}.

Lemma free_view a s c m ob e : free_session a (view a s c m ob e) =
  Ret tt (((e <| heap := free_queue (a + 1) (free_queue (a + 2) (free_queue (a + 3) m)) |>) <| calls := c |> <| outbox := ob |>) <| world ::= (fun w => w <| sessions ::= delete a |>) |>).
Proof.
  unfold free_session, hp, wd, zoom, modify. unfold mbind, CM_bind. destruct e as [he pe [sc ss sg os si] gs o cl ca ini]. cbn. by rewrite delete_insert_eq.
Qed.

Lemma view_world a s c m ob e : session_at a e = Some s → world (view a s c m ob e) = world e.
Proof.
  unfold view, put_session, session_at. destruct e as [he pe [sc ss sg os si] gs o cl ca ini]. cbn. intros Hs. by rewrite insert_id.
Qed.
Lemma destroy_view a L1 L2 s c m ob e m1 m2 : sched_ok (L1 ++ a :: L2) (world e) → session_at a e = Some s → (a ∉ L1 ++ L2) → ortp_scheduler (world e) = true →
  has_flag s RTP_SESSION_SCHEDULED = true → has_sched s = true → 0 ≤ rtp_socket (rtp s) → 0 ≤ rtcp_socket (rtcp s) →
  rq (rtp s) = a + 1 → current_tev s = None → rtp_cached_mp (rtp s) = None → qrep m (a + 1) [] →
  free_opt_blk (rtcp_cached_mp (rtcp s)) m = Ret tt m1 → free_opt_blk (sd s) m1 = Ret tt m2 →
  ∃ e', rtp_session_destroy a (view a s c m ob e) = Ret tt e' ∧ gone a (L1 ++ L2) (view a s c m ob e) e' ∧
    heap e' = free_queue (a + 1) (free_queue (a + 2) (free_queue (a + 3) m2)) ∧ closed e' = closed e ++ [rtp_socket (rtp s); rtcp_socket (rtcp s)].
Proof.
  intros Hok Hs Ha Hup Hsc Hhs Hk1 Hk2 Hrq Htev Hrc Hq E1 E2.
  destruct (sched_remove_full L1 a L2 (world e) s Hok Hs) as (w1 & Er & Hok1 & Hquiet & Hs1 & Hoth & Hup1). set (s1 := rtp_session_unset_flag s RTP_SESSION_IN_SCHEDULER) in *.
  assert (Hflush : flushq (rq (rtp s)) m = Ret tt m) by (apply flushq_empty; by rewrite Hrq).
  set (s3 := (released s1) <| signal_tables := [] |>).
  set (e3 := (e <| world := w1 |>) <| closed ::= (fun l => l ++ [rtp_socket (rtp s1); rtcp_socket (rtcp s1)]) |>).
  assert (Eu : rtp_session_uninit a (view a s c m ob e) = Ret tt (view a s3 c m2 ob e3)).
  { unfold rtp_session_uninit. repeat view_step. rewrite Hsc. repeat view_step.
    view_by (bind_ret _ _ _ _ _ (sched_of_view s a _ _ _ _ e Hhs Hup)).
    assert (Ew : wd (rtp_scheduler_remove_session (Some a)) (view a s c m ob e) = Ret tt (view a s1 c m ob (e <| world := w1 |>))).
    { apply view_wd; [|done]. rewrite <- Er. f_equal. destruct (world e) as [sc ss sg os si] eqn:Ew.
      unfold session_at in Hs. rewrite Ew in Hs. cbn in *. by rewrite insert_id. }
    view_by (bind_ret _ _ _ _ _ Ew). view_by (view_hp _ _ _ _ _ _ _ _ _ _ Hflush). view_by (release_view _ s1 _ _ _ _ _ Hk1 Hk2). repeat view_step.
    change (current_tev (released s1)) with (current_tev s). change (rtp_cached_mp (rtp (released s1))) with (rtp_cached_mp (rtp s)).
    change (rtcp_cached_mp (rtcp (released s1))) with (rtcp_cached_mp (rtcp s)). change (sd (released s1)) with (sd s). rewrite Htev, Hrc.
    view_by (view_hp _ _ _ _ _ _ _ _ _ _ (eq_refl : free_opt_blk None m = Ret tt m)). view_by (view_hp _ _ _ _ _ _ _ _ _ _ (eq_refl : free_opt_blk None m = Ret tt m)).
    view_by (view_hp _ _ _ _ _ _ _ _ _ _ E1). view_by (view_hp _ _ _ _ _ _ _ _ _ _ E2). by rewrite view_upd_last. }
  eexists. split; [unfold rtp_session_destroy; rewrite (bind_ret _ _ _ _ _ Eu); apply free_view|].
  destruct (view_rest a s c m ob e) as [Rp _]. destruct (view_parts a s c m ob e) as (_ & _ & Ro & Rc).
  split; [|split; reflexivity]. split; rewrite ?(view_world a s c m ob e Hs), ?Rp, ?Ro, ?Rc.
  - apply (sched_delete_ok (L1 ++ L2) w1 a); done.
  - apply lookup_delete_eq.
  - intros b Hb. destruct (Hoth b Hb) as (n & En). cbn. rewrite lookup_delete_ne, En by done.
    destruct (sessions (world e) !! b) as [sb|]; [|by exists wait_point_init, wait_point_init, None]. exists (send_wp sb), (recv_wp sb), n. by destruct sb.
  - exact Hup1.
  - exact (q_inc _ _ Hquiet).
  - exact (q_time _ _ Hquiet).
  - reflexivity.
  - reflexivity.
  - reflexivity.
Qed.
End Life.
