(* ===== verification/SenderHeap.v ===== *)
(** * The heap of several sessions

    What sessions that only send have on the heap: the sentinels of their queues, the block
    with the description of their source and the block kept for a datagram. The heap is
    those atoms on top of a heap without them, in any order. *)

From S2P Require Import Prelude StrUtils Blocks RtpMod Payload OrtpSession Sched OrtpEnv Rtcp OrtpSend OrtpStream OrtpInit OrtpLife.

(** An atom and where it is. *)
Inductive atom := ABlk (i : Z) (x : nblk) | AQueue (q : Z).
Definition put_atom (t : atom) (m : Mem) : Mem := match t with ABlk i x => put_blk i x m | AQueue q => add_queue q m end.
Definition key (t : atom) : Z + Z := match t with ABlk i _ => inl i | AQueue q => inr q end.
Definition heap_of (l : list atom) (m : Mem) : Mem := foldr put_atom m l.

Lemma put_put i j x y m : i ≠ j → put_blk i x (put_blk j y m) = put_blk j y (put_blk i x m).
Proof.
  intros Hne. unfold put_blk. destruct m as [M D Q b]. cbn. f_equal; rewrite insert_insert_ne; (done || congruence || lia).
Qed.
Lemma add_add q q' m : q ≠ q' → add_queue q (add_queue q' m) = add_queue q' (add_queue q m).
Proof.
  intros Hne. unfold add_queue. destruct m as [M D Q b]. cbn. f_equal; [|by rewrite insert_insert_ne].
  apply map_eq. intros n. rewrite !lookup_insert. repeat case_decide; congruence.
Qed.
Lemma put_atom_comm t u m : key t ≠ key u → put_atom t (put_atom u m) = put_atom u (put_atom t m).
Proof.
  destruct t as [i x|q], u as [j y|q']; cbn; intros Hne.
  - apply put_put. congruence.
  - by rewrite add_queue_put.
  - by rewrite add_queue_put.
  - apply add_add. congruence.
Qed.

(** The order of the atoms does not matter. *)
Lemma heap_of_perm l l' m : NoDup (key <$> l) → l ≡ₚ l' → heap_of l m = heap_of l' m.
Proof.
  intros Hnd Hp. unfold heap_of. refine (foldr_permutation (=) put_atom m l l' _ Hp). intros i t j u b Hij Hi Hj. apply put_atom_comm. intros E.
  apply Hij. eapply (NoDup_lookup (key <$> l)); [done| |]; rewrite list_lookup_fmap, ?Hi, ?Hj; cbn; [done|by rewrite E].
Qed.
Lemma heap_of_app l l' m : heap_of (l ++ l') m = heap_of l (heap_of l' m).
Proof. unfold heap_of. by rewrite foldr_app. Qed.
Lemma heap_of_brk l m j : (heap_of l m) <| brk := j |> = heap_of l (m <| brk := j |>).
Proof. unfold heap_of. induction l as [|[i x|q] l IH]; cbn [foldr put_atom]; [done|by rewrite put_blk_brk, IH|by rewrite add_queue_brk, IH]. Qed.
Lemma brk_heap_of l m : brk (heap_of l m) = brk m.
Proof. unfold heap_of. by induction l as [|[i x|q] l IH]. Qed.
Lemma heap_of_focus t l m : NoDup (key <$> l) → t ∈ l → ∃ l', l ≡ₚ t :: l' ∧ heap_of l m = put_atom t (heap_of l' m).
Proof.
  intros Hnd (l' & Hp)%elem_of_Permutation. exists l'. split; [done|]. by rewrite (heap_of_perm l _ m Hnd Hp).
Qed.

(** What is at an atom. *)
Lemma heap_of_blk i x l m : NoDup (key <$> l) → ABlk i x ∈ l →
  mblks (heap_of l m) !! NBlk i = Some (nb_blk i x) ∧ dblks (heap_of l m) !! (i + 1) = Some (nb_dblk x).
Proof. intros Hnd Hin. destruct (heap_of_focus _ l m Hnd Hin) as (l' & _ & ->). split; [apply put_blk_get|apply put_blk_db]. Qed.
Lemma heap_of_queue q l m : NoDup (key <$> l) → AQueue q ∈ l → qrep (heap_of l m) q [] ∧ nxt (heap_of l m) (NFirst q) = Some (NLast q).
Proof. intros Hnd Hin. destruct (heap_of_focus _ l m Hnd Hin) as (l' & _ & ->). split; [apply add_queue_rep|apply nxt_add]. Qed.

(** What is beside the atoms. *)
Lemma clear_heap_of i l m : inl i ∉ key <$> l → clear i m → clear i (heap_of l m).
Proof.
  intros Hn Hc. unfold heap_of. induction l as [|t l IH]; [done|]. cbn in Hn. apply not_elem_of_cons in Hn as [Hne Hn]. specialize (IH Hn).
  destruct t as [j x|q]; cbn in *; [apply clear_put; [congruence|done]|by apply clear_add].
Qed.
Lemma no_queue_put q i x m : no_queue q m → no_queue q (put_blk i x m).
Proof. intros (H1 & H2 & H3). split_and!; cbn; rewrite ?lookup_insert_ne by done; done. Qed.
Lemma no_queue_heap_of q l m : inr q ∉ key <$> l → no_queue q m → no_queue q (heap_of l m).
Proof.
  intros Hn Hc. unfold heap_of. induction l as [|t l IH]; [done|]. cbn in Hn. apply not_elem_of_cons in Hn as [Hne Hn]. specialize (IH Hn).
  destruct t as [j x|q']; cbn in *; [by apply no_queue_put|apply no_queue_add; [congruence|done]].
Qed.

(** The atoms lie between two addresses. *)
Definition within (lo hi : Z) (k : Z + Z) : Prop := match k with inl i => lo ≤ i ∧ i + 2 ≤ hi | inr q => lo ≤ q < hi end.
Lemma within_up lo hi hi' k : within lo hi k → hi ≤ hi' → within lo hi' k.
Proof. destruct k; cbn; lia. Qed.
Lemma unused_heap_of l m j : unused m → brk m ≤ j → Forall (within (brk m) j) (key <$> l) → unused (heap_of l (m <| brk := j |>)).
Proof.
  intros Hun Hj Hw. split.
  - intros i Hi. rewrite brk_heap_of in Hi. cbn in Hi. induction l as [|t l IH].
    + apply (un_fresh _ Hun). lia.
    + cbn in Hw. apply Forall_cons in Hw as [Ht Hw]. destruct (IH Hw) as [I1 I2]. destruct t as [k x|q]; cbn in *.
      * rewrite !lookup_insert_ne by (lia || (intros [= ?]; lia)). by split.
      * rewrite !lookup_insert_ne by done. by split.
  - intros q Hq. rewrite brk_heap_of in Hq. cbn in Hq. apply no_queue_heap_of.
    + intros Hin. rewrite Forall_forall in Hw. specialize (Hw _ Hin). cbn in Hw. lia.
    + by apply (un_queue _ (unused_brk m j Hun Hj)).
Qed.

(** ** The atoms of a session *)

Definition own_atoms (a : Z) (x : nblk) : list atom := [AQueue (a + 3); AQueue (a + 2); AQueue (a + 1); ABlk (a + 4) x].
Definition kept_atoms (k : option (Z * nblk)) : list atom := match k with Some (i, y) => [ABlk i y] | None => [] end.
Definition kept_ok (k : option (Z * nblk)) : Prop := match k with Some (_, y) => nb_base y ≠ 0 ∧ nb_cont y = None | None => True end.
Definition kept_node (k : option (Z * nblk)) : option node := (fun p : Z * nblk => NBlk p.1) <$> k.

Lemma own_heap a x m : heap_of (own_atoms a x) m = sender_heap a x m.
Proof. done. Qed.

(** Flushing, freeing and giving back what a session has restores the rest. *)
Lemma free_kept_atoms k l m : NoDup (key <$> (kept_atoms k ++ l)) → kept_ok k → (∀ i, inl i ∈ key <$> kept_atoms k → clear i m) →
  free_opt_blk (kept_node k) (heap_of (kept_atoms k ++ l) m) = Ret tt (heap_of l m).
Proof.
  intros Hnd Hk Hc. destruct k as [[i y]|]; [|done]. cbn in *. destruct Hk as [Hb Hco]. apply NoDup_cons in Hnd as [Hn _].
  apply free_put_last; [done|done|]. apply clear_heap_of; [done|]. apply Hc, list_elem_of_here.
Qed.
Lemma free_own_atoms a x l m : NoDup (key <$> (own_atoms a x ++ l)) → nb_base x ≠ 0 → nb_cont x = None →
  clear (a + 4) m → no_queue (a + 1) m → no_queue (a + 2) m → no_queue (a + 3) m →
  ∃ m', free_opt_blk (Some (NBlk (a + 4))) (heap_of (own_atoms a x ++ l) m) = Ret tt m' ∧
    free_queue (a + 1) (free_queue (a + 2) (free_queue (a + 3) m')) = heap_of l m.
Proof.
  intros Hnd Hb Hc C4 Q1 Q2 Q3. rewrite heap_of_app, own_heap. cbn in Hnd. rewrite !NoDup_cons in Hnd.
  destruct Hnd as (N3 & N2 & N1 & N4 & _). repeat (apply not_elem_of_cons in N3 as [_ N3]). repeat (apply not_elem_of_cons in N2 as [_ N2]).
  repeat (apply not_elem_of_cons in N1 as [_ N1]).
  eexists. split; [apply free_description; [done|done|by apply clear_heap_of]|].
  apply free_queues; by apply no_queue_heap_of.
Qed.
