(* ===== verification/OrtpSender.v ===== *)
(** * Senders on one stack ([utils/ortp/src/rtpsession.c], [scheduler.c])

    Any number of sessions that only send, on one heap and with one scheduler: [pool] is
    what holds of them between the calls of the application. Creating and setting up a
    session adds it to the pool, sending keeps the pool and puts one packet on the wire,
    destroying takes a session out and leaves the others. *)

From Stdlib Require Import Strings.String Floats.SpecFloat.
From S2P Require Import Prelude Floating StrUtils Blocks RtpMod Payload OrtpSession Sched OrtpEnv Rtcp RtcpParse OrtpSend OrtpStream OrtpInit OrtpLife SenderHeap.

Section Sender.
Context `{System}.

(** * Setting up *)

(** A stack in which a session can be made: the profile of the library, a running scheduler
    with the sessions [L] and room for one more, nothing beyond the next address. *)
Record stack_ready (L : list Z) (e : Env) : Prop := {
  sr_unused : unused (heap e);
  sr_pmem : pmem e = av_mem;
  sr_ok : sched_ok L (world e);
  sr_room : zlen L < 1024;
  sr_up : ortp_scheduler (world e) = true;
  sr_inc : 0 < timer_inc (sched (world e)) < 2 ^ 31;
  sr_time : in_u32 (time_ (sched (world e)));
  sr_new q : brk (heap e) ≤ q → sessions (world e) !! q = None
}.
Lemma ready_new L e : stack_ready L e → brk (heap e) ∉ L.
Proof.
  intros Hr Ha. destruct (sched_session L (world e) _ (sr_ok _ _ Hr) Ha) as (s & Hs & _). by rewrite (sr_new _ _ Hr) in Hs.
Qed.

(** Not started, scheduled, blocking. *)
Definition sender_flags : Z :=
  Z.lor RTP_SESSION_SEND_NOT_STARTED (Z.lor RTP_SESSION_SEND_SYNC (Z.lor RTP_SESSION_SCHEDULED (Z.lor RTP_SESSION_IN_SCHEDULER RTP_SESSION_BLOCKING_MODE))).

(** A session for sending that is set up: with its source [ssrc], its type [pt], its sockets
    [k1] and [k2] and the address it sends to. *)
Record sender (a ssrc pt ip port k1 k2 : Z) (s : RtpSession) : Prop := {
  se_flags : flags s = sender_flags;
  se_sched : has_sched s = true;
  se_sockets : rtp_socket (rtp s) = k1 ∧ rtcp_socket (rtcp s) = k2;
  se_addr : rtp_rem_addr (rtp s) = mkAddr AF_INET ip (u16 port);
  se_pt : send_pt s = pt;
  se_mode : mode s = RTP_SESSION_SENDONLY;
  se_ssrc : send_ssrc s = ssrc;
  se_profile : profile s = Some av_profile;
  se_sd : sd s = Some (NBlk (a + 4));
  se_queues : rq (rtp s) = a + 1 ∧ contributing_sources s = a + 3;
  se_cached : rtp_cached_mp (rtp s) = None ∧ rtcp_cached_mp (rtcp s) = None ∧ current_tev s = None;
  se_seq : snd_seq (rtp s) = 0;
  se_stats : stats (rtp s) = zero_stats;
  se_quiet : nothing_received s;
  se_handler : no_error_handler s
}.

Lemma sender_made a ssrc d s i n pt p j jump ts ip port k1 k2 local : new_sender a ssrc d s → d = NBlk (a + 4) → inter_jitter j = S754_zero false →
  sender a ssrc pt ip port k1 k2
    (typed pt p j jump ts (addressed ip port k1 k2 local (rtp_session_set_flag (joined i n s) RTP_SESSION_BLOCKING_MODE))).
Proof.
  intros [H1 H2 H3 H4 H5 (Q1 & Q2 & Q3) (C1 & C2 & C3) H8 _ H9 H10 H11 H12 H13 H14 H15] -> Hij.
  split.
  - change (Z.lor (Z.lor (Z.lor (flags s) RTP_SESSION_SCHEDULED) RTP_SESSION_IN_SCHEDULER) RTP_SESSION_BLOCKING_MODE = sender_flags). by rewrite H1.
  - reflexivity.
  - split; reflexivity.
  - reflexivity.
  - reflexivity.
  - exact H2.
  - exact H3.
  - exact H4.
  - exact H5.
  - by split.
  - by split.
  - exact H9.
  - exact H11.
  - destruct H12 as [N1 N2 N3 N4]. split; [exact N1|exact N2|exact N3|exact Hij].
  - unfold no_error_handler. change (tb_count (on_network_error s) ≤ 0). by rewrite H13.
Qed.

Lemma typed_parts pt p j jump ts s : next (typed pt p j jump ts s) = next s ∧ mask_pos (typed pt p j jump ts s) = mask_pos s ∧ flags (typed pt p j jump ts s) = flags s.
Proof. by split_and!. Qed.
Lemma addressed_parts ip port k1 k2 local s : next (addressed ip port k1 k2 local s) = next s ∧ mask_pos (addressed ip port k1 k2 local s) = mask_pos s ∧ flags (addressed ip port k1 k2 local s) = flags s.
Proof. by split_and!. Qed.

Lemma sender_core s i n pt p j jump ts ip port k1 k2 local : in_sched (joined i n s) = true →
  core_of (joined i n s) = core_of (typed pt p j jump ts (addressed ip port k1 k2 local (rtp_session_set_flag (joined i n s) RTP_SESSION_BLOCKING_MODE))).
Proof.
  intros Hi. assert (Hf : in_sched (rtp_session_set_flag (joined i n s) RTP_SESSION_BLOCKING_MODE) = true).
  { unfold in_sched, has_flag in *. apply negb_true_iff, Z.eqb_neq. apply negb_true_iff, Z.eqb_neq in Hi. intros E. apply Hi.
    change (flags (rtp_session_set_flag (joined i n s) _)) with (Z.lor (flags (joined i n s)) RTP_SESSION_BLOCKING_MODE) in E.
    rewrite Z.land_lor_distr_l in E. by apply Z.lor_eq_0_iff in E as [E _]. }
  unfold core_of, in_sched, has_flag. destruct (typed_parts pt p j jump ts (addressed ip port k1 k2 local (rtp_session_set_flag (joined i n s) RTP_SESSION_BLOCKING_MODE))) as (-> & -> & ->).
  destruct (addressed_parts ip port k1 k2 local (rtp_session_set_flag (joined i n s) RTP_SESSION_BLOCKING_MODE)) as (-> & -> & ->).
  unfold in_sched, has_flag in *. by rewrite Hf, Hi.
Qed.
Lemma joined_in i n s : in_sched (joined i n s) = true.
Proof.
  unfold in_sched, has_flag, joined. change (flags (rtp_session_set_flag ?x ?f)) with (Z.lor (flags x) f). apply negb_true_iff, Z.eqb_neq.
  rewrite Z.land_lor_distr_l. intros [_ E]%Z.lor_eq_0_iff. done.
Qed.

Lemma sender_setup fuel L e addr port pt p : sockets_work → stack_ready L e → device_type pt = Some p →
  let ip := default 0 (inet_aton addr) in
  let a := brk (heap e) in
  let ssrc := u32 (random_at (calls e)) in
  ∃ E1 E2 E3 E4 s c x e5 k1 k2,
  rtp_session_new RTP_SESSION_SENDONLY e = Ret a E1 ∧ wd (rtp_session_set_scheduling_mode a true) E1 = Ret tt E2 ∧
  rtp_session_set_blocking_mode a true E2 = Ret tt E3 ∧ rtp_session_set_remote_addr (S fuel) a addr port E3 = Ret 0 E4 ∧
  (∃ s4, E4 = view a s4 c (sender_start a x (heap e)) (outbox e) e5) ∧
  rtp_session_set_payload_type a pt E4 = Ret 0 (view a s c (sender_start a x (heap e)) (outbox e) e5) ∧
  sender a ssrc pt ip port k1 k2 s ∧ describes ssrc x ∧ (0 ≤ k1 ∧ 0 ≤ k2 ∧ k1 ≠ k2) ∧
  grown a L (world e) (world e5) ∧ in_u32 (time_ (sched (world e5))) ∧ (∃ s5, sessions (world e5) !! a = Some s5 ∧ core_of s5 = core_of s) ∧
  pmem e5 = pmem e ∧ closed e5 = closed e.
Proof.
  intros Hsock Hr Hpt ip a ssrc. pose proof (ready_new L e Hr) as Ha. destruct Hr as [Hun Hm Hok Hn Hup Hinc Htm Hnew].
  destruct (new_view e Hm (Hnew _ ltac:(done))) as (s0 & x & c0 & Enew & Hs0 & Hx). fold a in Enew, Hs0. fold ssrc in Hs0, Hx. set (h := add_queue _ _) in Enew.
  assert (Hf0 : in_sched s0 = false) by (unfold in_sched, has_flag; by rewrite (ns_flags _ _ _ _ Hs0)).
  destruct (schedule_view a s0 c0 h (outbox e) e L Hok Ha Hn Hup Hf0) as (i & n & w1 & Esch & Hg & Hs1 & Ht1). set (e1 := e <| world := w1 |>) in *.
  set (s2 := rtp_session_set_flag (joined i n s0) RTP_SESSION_BLOCKING_MODE).
  destruct (remote_view Hsock fuel a s2 c0 h (outbox e) e1 addr port) as (k1 & k2 & local & c' & Hk1 & Hk2 & Hne & Hl & Eaddr); [by destruct (ns_sockets _ _ _ _ Hs0)|].
  change (sin_addr (rtp_rem_addr (rtp s2))) with (sin_addr (rtp_rem_addr (rtp s0))) in Eaddr. rewrite (ns_addr _ _ _ _ Hs0) in Eaddr. fold ip in Eaddr.
  set (s3 := addressed ip port k1 k2 local s2) in *.
  destruct (payload_view a s3 c' h (outbox e) e1 pt p (ns_profile _ _ _ _ Hs0) Hm Hpt (ns_jitter _ _ _ _ Hs0) (ns_jump _ _ _ _ Hs0)) as (j & ts & Hj & Ept).
  eexists _, _, _, _, _, c', x, e1, k1, k2. split; [exact Enew|]. split; [exact Esch|]. split.
  { unfold rtp_session_set_blocking_mode. apply view_upd_last. }
  split; [exact Eaddr|]. split; [by eexists|]. split; [exact Ept|]. split.
  { apply (sender_made a ssrc (NBlk (a + 4))); [done|done|]. rewrite Hj. apply (nr_jitter _ (ns_quiet _ _ _ _ Hs0)). }
  split; [exact Hx|]. split; [exact (conj Hk1 (conj Hk2 Hne))|]. split; [exact Hg|]. split; [by rewrite <- Ht1 in Htm|]. split; [|split; [done|done]].
  exists (joined i n s0). split; [exact Hs1|]. apply sender_core, joined_in.
Qed.

(** * A live sender *)

Lemma put_chunk a x m : nb_base x ≠ 0 → nb_cont x = None → chunk (NBlk a) (nb_blk a x) (a + 1) (nb_dblk x) (put_blk a x m) ∧ chunk_data (nb_blk a x) (nb_dblk x) = nb_data x.
Proof.
  intros Hb Hc. pose proof (zlen_nonneg (nb_data x)). pose proof (zlen_nonneg (nb_rest x)). split; [split|].
  - apply put_blk_get.
  - exact Hc.
  - done.
  - apply put_blk_db.
  - exact Hb.
  - cbn. lia.
  - cbn. rewrite zlen_app. lia.
  - cbn. lia.
  - unfold chunk_data. cbn. rewrite Z.sub_0_r. change (Z.to_nat 0) with 0%nat. apply slice_app_l. unfold zlen. lia.
Qed.

Lemma device_av pt p : device_type pt = Some p → av_table pt = Some p.
Proof. unfold device_type. by destruct ((pt =? 34) || (pt =? 12)). Qed.
Lemma payload_ret a s c m ob e n : profile s = Some av_profile → pmem e = av_mem →
  session_payload a n (view a s c m ob e) = Ret (av_table n) (view a s c m ob e).
Proof.
  intros Hp Hm. pose proof (view_payload a s c m ob e n (fun r => mret r) Hp Hm) as E. revert E. unfold mbind, CM_bind, mret, CM_ret.
  by destruct (session_payload a n (view a s c m ob e)).
Qed.

(** The datagram of the packet with the number [seq], the time [ts] and the payload [bs]. *)
Definition packet_to (k1 ip port pt ssrc seq ts : Z) (bs : list Z) : datagram :=
  mkDatagram k1 (Some (mkAddr AF_INET ip (u16 port))) ([128; pt] ++ be_bytes 2 seq ++ be_bytes 4 ts ++ be_bytes 4 ssrc ++ bs).

(** What a session that sends is, on the heap and on the wire. *)
Record live_sender := mkLive {
  lv_addr : Z;
  lv_desc : nblk;
  lv_kept : option (Z * nblk);
  lv_pt : Z;
  lv_ip : Z;
  lv_port : Z;
  lv_rtp : Z;
  lv_rtcp : Z;
  lv_ssrc : Z;
  lv_seq : Z
}.
Definition atoms_of (c : live_sender) : list atom := kept_atoms (lv_kept c) ++ own_atoms (lv_addr c) (lv_desc c).

(** The flags before the first packet and from it on. *)
Definition begun_flags : Z := Z.land sender_flags (Z.lnot RTP_SESSION_SEND_NOT_STARTED).
Record sending (c : live_sender) (s : RtpSession) : Prop := {
  sg_flags : flags s = sender_flags ∨ flags s = begun_flags;
  sg_sched : has_sched s = true;
  sg_sockets : rtp_socket (rtp s) = lv_rtp c ∧ rtcp_socket (rtcp s) = lv_rtcp c;
  sg_addr : rtp_rem_addr (rtp s) = mkAddr AF_INET (lv_ip c) (u16 (lv_port c));
  sg_pt : send_pt s = lv_pt c;
  sg_mode : mode s = RTP_SESSION_SENDONLY;
  sg_ssrc : send_ssrc s = lv_ssrc c;
  sg_profile : profile s = Some av_profile;
  sg_sd : sd s = Some (NBlk (lv_addr c + 4));
  sg_queues : rq (rtp s) = lv_addr c + 1 ∧ contributing_sources s = lv_addr c + 3;
  sg_cached : rtp_cached_mp (rtp s) = None ∧ current_tev s = None;
  sg_kept : rtcp_cached_mp (rtcp s) = kept_node (lv_kept c);
  sg_seq : snd_seq (rtp s) = lv_seq c;
  sg_quiet : nothing_received s;
  sg_handler : no_error_handler s
}.

(** The parts of a live sender have the values the calls give them. *)
Record live_ok (c : live_sender) : Prop := {
  lo_type : is_Some (device_type (lv_pt c));
  lo_desc : describes (lv_ssrc c) (lv_desc c);
  lo_kept : kept_ok (lv_kept c);
  lo_ssrc : in_u32 (lv_ssrc c);
  lo_seq : in_u16 (lv_seq c);
  lo_sockets : 0 ≤ lv_rtp c ∧ 0 ≤ lv_rtcp c ∧ lv_rtp c ≠ lv_rtcp c
}.

Lemma sending_new a ssrc pt ip port k1 k2 s x : sender a ssrc pt ip port k1 k2 s → sending (mkLive a x None pt ip port k1 k2 ssrc 0) s.
Proof. intros [H1 H2 H3 H5 H6 H7 H8 H9 H10 H11 (H13 & H14 & H15) H16 H17 H18 H19]. split; try assumption; [by left|by split]. Qed.
Lemma sending_peer c s wp wp' n : sending c s → sending c ((waited s wp wp') <| next := n |>).
Proof. intros [H1 H2 H3 H5 H6 H7 H8 H9 H10 H11 H12 H13 H14 [N1 N2 N3 N4] H16]. split; try assumption. by split. Qed.

(** The block of the description on a heap with the atoms of the sender. *)
Lemma sending_described c s l m : sending c s → live_ok c → NoDup (key <$> l) → atoms_of c ⊆ l →
  described s (NBlk (lv_addr c + 4)) (nb_blk (lv_addr c + 4) (lv_desc c)) (lv_addr c + 4 + 1) (nb_dblk (lv_desc c)) (heap_of l m).
Proof.
  intros Hs Hok Hnd Hl. destruct (lo_desc _ Hok) as [Hb Hc (items & Hd) Hlen].
  assert (Hi : ∀ t, t ∈ own_atoms (lv_addr c) (lv_desc c) → t ∈ l) by (intros t Ht; apply Hl; unfold atoms_of; apply elem_of_app; by right).
  destruct (heap_of_focus (ABlk (lv_addr c + 4) (lv_desc c)) l m Hnd) as (l' & Hp & E); [apply Hi; unfold own_atoms; set_solver|].
  destruct (put_chunk (lv_addr c + 4) (lv_desc c) (heap_of l' m) Hb Hc) as [C Ed]. split.
  - exact (sg_sd _ _ Hs).
  - rewrite E. exact C.
  - exists items. rewrite Ed, (sg_ssrc _ _ Hs). exact Hd.
  - destruct (sg_queues _ _ Hs) as [_ ->]. apply heap_of_queue; [done|]. apply Hi. unfold own_atoms. set_solver.
  - by rewrite Ed.
Qed.

(** * The pool

    The senders [cs], the last made first, over what was on the heap before them, [m0]. *)
Record pool (m0 : Mem) (cs : list live_sender) (e : Env) : Prop := {
  po_heap : ∃ j, brk m0 ≤ j ∧ heap e = heap_of (cs ≫= atoms_of) (m0 <| brk := j |>) ∧ Forall (within (brk m0) j) (key <$> (cs ≫= atoms_of)) ∧
    Forall (fun c => brk m0 ≤ lv_addr c < j) cs;
  po_unused : unused m0;
  po_nodup : NoDup (key <$> (cs ≫= atoms_of));
  po_pmem : pmem e = av_mem;
  po_ok : sched_ok (lv_addr <$> cs) (world e);
  po_up : ortp_scheduler (world e) = true;
  po_inc : 0 < timer_inc (sched (world e)) < 2 ^ 31;
  po_time : in_u32 (time_ (sched (world e)));
  po_dom q : is_Some (sessions (world e) !! q) ↔ q ∈ lv_addr <$> cs;
  po_live : Forall live_ok cs;
  po_sending : Forall (fun c => ∃ s, session_at (lv_addr c) e = Some s ∧ sending c s) cs
}.

Lemma pool_ready m0 cs e : pool m0 cs e → zlen cs < 1024 → stack_ready (lv_addr <$> cs) e.
Proof.
  intros [(j & Hj & Eh & Hw & Hwa) Hun Hnd Hpm Hok Hup Hinc Htm Hdom _ _] Hlen. split; try assumption.
  - rewrite Eh. by apply unused_heap_of.
  - unfold zlen in *. by rewrite length_fmap.
  - intros q Hq. rewrite Eh, brk_heap_of in Hq. cbn in Hq. destruct (sessions (world e) !! q) eqn:E; [|done]. exfalso.
    assert (Hin : q ∈ lv_addr <$> cs) by (apply Hdom; by eexists). apply list_elem_of_fmap in Hin as (c & -> & Hc).
    rewrite Forall_forall in Hwa. specialize (Hwa c Hc). lia.
Qed.

(** The sessions other than [a] stay senders. *)
Lemma peers_sending a (cs : list live_sender) e e' : peers a (world e) (world e') → a ∉ lv_addr <$> cs →
  Forall (fun c => ∃ s, session_at (lv_addr c) e = Some s ∧ sending c s) cs → Forall (fun c => ∃ s, session_at (lv_addr c) e' = Some s ∧ sending c s) cs.
Proof.
  intros Hp Ha Hs. apply Forall_forall. intros c Hc. rewrite Forall_forall in Hs. destruct (Hs c Hc) as (s & E & Hsd).
  destruct (Hp (lv_addr c)) as (wp & wp' & n & E'). { intros <-. apply Ha, list_elem_of_fmap. by exists c. }
  exists ((waited s wp wp') <| next := n |>). unfold session_at in *. rewrite E', E. split; [done|by apply sending_peer].
Qed.
Lemma peers_dom a w w' q : peers a w w' → q ≠ a → is_Some (sessions w' !! q) ↔ is_Some (sessions w !! q).
Proof. intros Hp Hq. destruct (Hp q Hq) as (wp & wp' & n & ->). by rewrite fmap_is_Some. Qed.
(** ** A new sender *)

Lemma view_dom a s c m ob e q : is_Some (sessions (world (view a s c m ob e)) !! q) ↔ q = a ∨ is_Some (sessions (world e) !! q).
Proof.
  unfold view, put_session. destruct e as [he pe [sc ss sg os si] gs o cl ca ini]. cbn. destruct (decide (q = a)) as [->|Hq].
  - rewrite lookup_insert_eq. split; [by left|by eexists].
  - rewrite lookup_insert_ne by done. split; [by right|by intros [->|?]].
Qed.

Lemma view_peers a s c m ob e : peers a (world e) (world (view a s c m ob e)).
Proof.
  apply others_peers, others_same. intros b Hb. unfold view, put_session.
  destruct e as [he pe [sc ss sg os si] gs o cl ca ini]. cbn. by rewrite lookup_insert_ne.
Qed.
Lemma view_grown a s c m ob e L w0 s5 : grown a L w0 (world e) → sessions (world e) !! a = Some s5 → core_of s5 = core_of s →
  sched_ok (a :: L) (world (view a s c m ob e)).
Proof.
  intros [Hok _ _ _] Hs5 Hc5. unfold view, put_session.
  apply (same_sched_ok (a :: L) (world e)); [|exact Hok]. cbn. by apply (on_sess_same a (fun _ => s) _ s5).
Qed.
(** The atoms of a session made at [j] are above those there are. *)
Lemma own_keys a x l lo j : (∀ k, k ∈ key <$> l → within lo j k) → NoDup (key <$> l) → lo ≤ j → a = j →
  Forall (within lo (a + 6)) (key <$> (own_atoms a x ++ l)) ∧ NoDup (key <$> (own_atoms a x ++ l)).
Proof.
  intros Hk Hnd Hlo ->. assert (Hq : ∀ i, j ≤ i → inr i ∉ key <$> l) by (intros i Hi Hin; specialize (Hk _ Hin); cbn in Hk; lia).
  assert (Hb : inl (j + 4) ∉ key <$> l) by (intros Hin; specialize (Hk _ Hin); cbn in Hk; lia).
  rewrite fmap_app. split.
  - apply Forall_app. split; [repeat constructor; cbn; lia|]. apply Forall_forall. intros k Hin. eapply within_up; [by apply Hk|lia].
  - cbn. repeat (apply NoDup_cons; split); [..|exact Hnd]; repeat (apply not_elem_of_cons; split);
      first [exact Hb|apply Hq; lia|intros [= ?]; lia|discriminate].
Qed.

Lemma pool_open fuel m0 cs e addr port pt : sockets_work → pool m0 cs e → zlen cs < 1024 → is_Some (device_type pt) →
  let a := brk (heap e) in
  ∃ E1 E2 E3 E4 E5 c,
  rtp_session_new RTP_SESSION_SENDONLY e = Ret a E1 ∧ wd (rtp_session_set_scheduling_mode a true) E1 = Ret tt E2 ∧
  rtp_session_set_blocking_mode a true E2 = Ret tt E3 ∧ rtp_session_set_remote_addr (S fuel) a addr port E3 = Ret 0 E4 ∧
  rtp_session_set_payload_type a pt E4 = Ret 0 E5 ∧ (∀ q, is_Some (sessions (world E4) !! q) ↔ q = a ∨ is_Some (sessions (world e) !! q)) ∧
  pool m0 (c :: cs) E5 ∧ outbox E5 = outbox e ∧ closed E5 = closed e ∧
  lv_addr c = a ∧ lv_pt c = pt ∧ lv_ip c = default 0 (inet_aton addr) ∧ lv_port c = port ∧ lv_ssrc c = u32 (random_at (calls e)) ∧ lv_seq c = 0.
Proof.
  intros Hsock Hpo Hlen (p & Hpt) a. pose proof (pool_ready _ _ _ Hpo Hlen) as Hr.
  destruct (sender_setup fuel _ e addr port pt p Hsock Hr Hpt) as (E1 & E2 & E3 & E4 & s & n & x & e5 & k1 & k2 & N1 & N2 & N3 & N4 & (s4 & V4) & N5 & Hse & Hx & Hk & Hg & Htm & (s5 & Hs5 & Hc5) & Hpm & Hcl).
  fold a in N1, N2, N3, N4, V4, N5, Hse, Hg, Hs5. set (ssrc := u32 (random_at (calls e))) in *. set (ip := default 0 (inet_aton addr)) in *.
  set (c := mkLive a x None pt ip port k1 k2 ssrc 0). exists E1, E2, E3, E4. eexists _, c. split; [exact N1|]. split; [exact N2|]. split; [exact N3|]. split; [exact N4|]. split; [exact N5|].
  assert (Hdom5 : ∀ q, is_Some (sessions (world e5) !! q) ↔ q = a ∨ is_Some (sessions (world e) !! q)).
  { intros q. destruct (decide (q = a)) as [->|Hq]; [rewrite Hs5; split; [by left|by eexists]|].
    rewrite (peers_dom a (world e) (world e5) q) by (by apply others_peers, Hg || done). split; [by right|by intros [->|?]]. }
  split. { intros q. rewrite V4, view_dom, Hdom5. tauto. }
  destruct Hpo as [(j & Hj & Eh & Hw & Hwa) Hun Hnd Hpm0 Hok Hup Hinc Htm0 Hdom Hlive Hsend].
  assert (Haj : a = j) by (unfold a; by rewrite Eh, brk_heap_of).
  assert (Hna : a ∉ lv_addr <$> cs) by (by apply (ready_new _ _ Hr)).
  assert (Hkeys : ∀ k, k ∈ key <$> (cs ≫= atoms_of) → within (brk m0) j k) by (by apply Forall_forall).
  destruct (own_keys a x (cs ≫= atoms_of) (brk m0) j Hkeys Hnd ltac:(lia) ltac:(lia)) as [Hwithin Hnd'].
  destruct (view_parts a s n (sender_start a x (heap e)) (outbox e) e5) as (P1 & P2 & P3 & _).
  destruct (view_rest a s n (sender_start a x (heap e)) (outbox e) e5) as (R1 & R2).
  split; [|split; [exact P3|]; split; [exact (eq_trans R2 Hcl)|]; repeat split; reflexivity]. split.
  - exists (a + 6). split; [lia|]. split; [|split].
    + rewrite P2. unfold sender_start. rewrite <- own_heap, Eh, heap_of_brk, brk_again. symmetry. apply (heap_of_app (own_atoms a x)).
    + exact Hwithin.
    + constructor; [cbn; lia|]. eapply Forall_impl; [exact Hwa|]. cbn. lia.
  - exact Hun.
  - exact Hnd'.
  - exact (eq_trans R1 (eq_trans Hpm Hpm0)).
  - exact (view_grown a s n _ _ e5 _ _ s5 Hg Hs5 Hc5).
  - change (ortp_scheduler (world e5) = true). by rewrite (gr_up _ _ _ _ Hg).
  - change (0 < timer_inc (sched (world e5)) < 2 ^ 31). by rewrite (gr_inc _ _ _ _ Hg).
  - exact Htm.
  - intros q. rewrite view_dom, Hdom5, Hdom. cbn. rewrite elem_of_cons. tauto.
  - constructor; [|exact Hlive]. split; [by exists p|exact Hx|exact Logic.I|apply u32_range|cbn; unfold in_u16; lia|exact Hk].
  - constructor; [exists s; split; [exact P1|by apply sending_new]|].
    apply (peers_sending a cs e); [|done|done]. etransitivity; [apply others_peers, Hg|]. apply view_peers.
Qed.
(** ** Sending *)

(** The heap around the block a sender keeps. *)
Lemma kept_holds k l m0 j : kept_ok k → Forall (within (brk m0) j) (key <$> kept_atoms k) → brk m0 ≤ j →
  holds ((heap_of l m0) <| brk := match k with Some (i, _) => i | None => j end |>) (kept_node k) (heap_of (kept_atoms k ++ l) (m0 <| brk := j |>)).
Proof.
  intros Hk Hw Hj. destruct k as [[i y]|]; cbn [kept_atoms kept_node fmap option_fmap option_map app fst].
  - destruct Hk as [Hb Hc]. cbn in Hw. apply Forall_cons in Hw as [Hi _]. cbn in Hi. change (heap_of (ABlk i y :: l) (m0 <| brk := j |>)) with (put_blk i y (heap_of l (m0 <| brk := j |>))).
    rewrite <- heap_of_brk, <- (brk_again _ i j). apply HoldsBlk; cbn; (done || lia).
  - rewrite <- heap_of_brk, <- (brk_again _ j j). apply HoldsNone. cbn. lia.
Qed.
Lemma holds_kept k l m0 j p m' : holds ((heap_of l m0) <| brk := match k with Some (i, _) => i | None => j end |>) p m' →
  (∀ n, kept_node k = Some n → p = Some n) → j ≤ brk m' → Forall (within (brk m0) j) (key <$> kept_atoms k) → brk m0 ≤ j →
  ∃ k' j', p = kept_node k' ∧ m' = heap_of (kept_atoms k' ++ l) (m0 <| brk := j' |>) ∧ kept_ok k' ∧ j ≤ j' ∧
    (∀ key', key' ∈ key <$> kept_atoms k' → within (brk m0) j' key' ∧ (key' ∈ key <$> kept_atoms k ∨ ¬ within (brk m0) j key')).
Proof.
  intros Hh Hsame Hbr Hw Hj. destruct Hh as [j' Hj'|i x j' Hi Hj' Hb Hc].
  - exists None, j'. rewrite brk_again, heap_of_brk in *. cbn in Hbr. split; [done|]. split; [done|]. split; [done|]. split; [by rewrite brk_heap_of in Hbr|]. intros key' Hin. by apply elem_of_nil in Hin.
  - exists (Some (i, x)), j'. rewrite brk_again, heap_of_brk in *. split; [done|]. split; [done|]. split; [done|].
    cbn in Hbr. rewrite brk_heap_of in Hbr. cbn in Hbr. split; [done|]. intros key' Hin%list_elem_of_singleton. subst key'.
    destruct k as [[i0 y]|]; cbn in *.
    + specialize (Hsame _ eq_refl). injection Hsame as ->. apply Forall_cons in Hw as [Hw _]. cbn in Hw. split; [lia|]. left. set_solver.
    + rewrite brk_heap_of in Hi. cbn in Hi. split; [lia|]. right. lia.
Qed.

(** The first packet starts the session; what is sent is sent from the started one. *)
Lemma sending_begun c s n m ob e fuel sleep base bs ts : sending c s → live_ok c → ortp_scheduler (world e) = true →
  ∃ sb n', rtp_session_send_with_ts fuel sleep (lv_addr c) base bs ts (view (lv_addr c) s n m ob e) =
      rtp_session_send_with_ts fuel sleep (lv_addr c) base bs ts (view (lv_addr c) sb n' m ob e) ∧
    sending c sb ∧ flags sb = begun_flags ∧ core_of sb = core_of s.
Proof.
  intros Hs Hok Hup. destruct (sg_flags _ _ Hs) as [Hf|Hf]; [|by exists s, n].
  set (sb := begun ts (gettimeofday_at n) (time_ (sched (world e))) s). assert (Hfb : flags sb = begun_flags) by (change (Z.land (flags s) (Z.lnot RTP_SESSION_SEND_NOT_STARTED) = begun_flags); by rewrite Hf).
  exists sb, (S n). split; [|split; [|split; [exact Hfb|]]].
  - apply (begin_send (lv_addr c) s n m ob e fuel sleep base bs ts); try (unfold has_flag; rewrite Hf; reflexivity).
    + rewrite (sg_ssrc _ _ Hs). apply Hok.
    + exact (sg_mode _ _ Hs).
    + exact (sg_sched _ _ Hs).
    + exact Hup.
    + change (has_flag sb RTP_SESSION_SEND_NOT_STARTED = false). unfold has_flag. rewrite Hfb. reflexivity.
  - destruct Hs as [H1 H2 H3 H5 H6 H7 H8 H9 H10 H11 H12 H13 H14 [N1 N2 N3 N4] H16]. split; try assumption; [by right|by split].
  - unfold core_of, in_sched, has_flag. rewrite Hfb, Hf. reflexivity.
Qed.

Lemma sending_streaming c s l m : sending c s → flags s = begun_flags → live_ok c → NoDup (key <$> l) → atoms_of c ⊆ l → fresh (heap_of l m) →
  streaming (NBlk (lv_addr c + 4)) (nb_blk (lv_addr c + 4) (lv_desc c)) (lv_addr c + 4 + 1) (nb_dblk (lv_desc c)) s (heap_of l m).
Proof.
  intros Hs Hf Hok Hnd Hl Hfr. split.
  - unfold has_flag. rewrite Hf. reflexivity.
  - rewrite (sg_ssrc _ _ Hs). apply Hok.
  - rewrite (sg_seq _ _ Hs). apply Hok.
  - exact (sg_quiet _ _ Hs).
  - exact (sg_handler _ _ Hs).
  - unfold is_sender. rewrite (sg_mode _ _ Hs). reflexivity.
  - by apply sending_described.
  - exact Hfr.
Qed.

Lemma device_rate pt p : device_type pt = Some p → 1000 ≤ clock_rate p < 2 ^ 31.
Proof. intros Hp. destruct (device_type_cases _ _ Hp) as [[_ ->]|[_ ->]]; vm_compute; split; congruence. Qed.

Lemma sending_paced m0 cs c e s sb n m ob p : pool m0 cs e → c ∈ cs → session_at (lv_addr c) e = Some s → sending c sb → flags sb = begun_flags → core_of sb = core_of s →
  device_type (lv_pt c) = Some p → paced_by (lv_addr c) (lv_addr <$> cs) p e (view (lv_addr c) sb n m ob e).
Proof.
  intros Hpo Hin Hs Hsb Hf Hc Hp. set (a := lv_addr c). destruct (view_parts a sb n m ob e) as (P1 & _). destruct (view_rest a sb n m ob e) as (R1 & R2). split.
  - exists sb. split.
    + exact P1.
    + unfold has_flag. rewrite Hf. reflexivity.
    + exact (sg_sched _ _ Hsb).
    + rewrite (sg_pt _ _ Hsb), <- (device_av _ _ Hp). apply payload_ret; [exact (sg_profile _ _ Hsb)|apply (po_pmem _ _ _ Hpo)].
    + exact (device_rate _ _ Hp).
    + unfold view, put_session. apply (same_sched_ok (lv_addr <$> cs) (world e)); [|apply (po_ok _ _ _ Hpo)]. cbn. by apply (on_sess_same a (fun _ => sb) _ s).
    + apply list_elem_of_fmap. by exists c.
    + apply (po_up _ _ _ Hpo).
    + apply (po_inc _ _ _ Hpo).
    + apply (po_time _ _ _ Hpo).
  - split; [|by split]. apply others_same. intros b Hb. unfold view, put_session.
    destruct e as [he pe [sc ss sg os si] gs o cl ca ini]. cbn. by rewrite lookup_insert_ne.
Qed.

Definition later (c : live_sender) (k : option (Z * nblk)) : live_sender :=
  mkLive (lv_addr c) (lv_desc c) k (lv_pt c) (lv_ip c) (lv_port c) (lv_rtp c) (lv_rtcp c) (lv_ssrc c) (u16 (lv_seq c + 1)).

(** The atoms of the pool around one sender. *)
Lemma pool_atoms cs1 c cs2 : (cs1 ++ c :: cs2) ≫= atoms_of ≡ₚ kept_atoms (lv_kept c) ++ (own_atoms (lv_addr c) (lv_desc c) ++ ((cs1 ++ cs2) ≫= atoms_of)).
Proof.
  rewrite !bind_app, bind_cons. unfold atoms_of at 2. rewrite <- !app_assoc. rewrite (Permutation_app_comm (cs1 ≫= atoms_of)). rewrite <- !app_assoc.
  do 2 f_equiv. apply Permutation_app_comm.
Qed.

Lemma sending_later c k s s' d b i D m : sending c s → flags s = begun_flags → same_stream s s' → streaming d b i D s' m →
  snd_seq (rtp s') = u16 (snd_seq (rtp s) + 1) → rtcp_cached_mp (rtcp s') = kept_node k → sending (later c k) s'.
Proof.
  intros Hs Hf Same St Hseq Hk. destruct Hs as [H1 H2 [H3 H3'] H5 H6 H7 H8 H9 H10 [H11 H11'] [H12 H12'] H13 H14 H15 H16], Same. split; cbn [later lv_addr lv_desc lv_kept lv_pt lv_ip lv_port lv_rtp lv_rtcp lv_ssrc lv_seq].
  - right. congruence.
  - congruence.
  - split; congruence.
  - congruence.
  - congruence.
  - congruence.
  - congruence.
  - congruence.
  - congruence.
  - split; congruence.
  - split; congruence.
  - exact Hk.
  - by rewrite Hseq, H14.
  - apply (st_quiet _ _ _ _ _ _ St).
  - apply (st_handler _ _ _ _ _ _ St).
Qed.

(** The keys of the atoms when the kept block is a new one. *)
Lemma kept_keys lo j j' k k' R : NoDup (key <$> (kept_atoms k ++ R)) → Forall (within lo j) (key <$> R) → j ≤ j' →
  (∀ x, x ∈ key <$> kept_atoms k' → within lo j' x ∧ (x ∈ key <$> kept_atoms k ∨ ¬ within lo j x)) →
  NoDup (key <$> (kept_atoms k' ++ R)) ∧ Forall (within lo j') (key <$> (kept_atoms k' ++ R)).
Proof.
  intros Hnd HR Hj Hk. rewrite fmap_app in *. apply NoDup_app in Hnd as (_ & Hdis & Hnd). split.
  - apply NoDup_app. split; [destruct k' as [[i x]|]; [apply NoDup_singleton|apply NoDup_nil_2]|]. split; [|exact Hnd].
    intros x Hx HxR. destruct (Hk x Hx) as [_ [Hin|Hout]]; [by apply (Hdis x)|]. rewrite Forall_forall in HR. by apply Hout, HR.
  - apply Forall_app. split; [apply Forall_forall; intros x Hx; by apply Hk|]. eapply Forall_impl; [exact HR|]. intros x Hx. by eapply within_up.
Qed.

Lemma pool_frame spur cs1 c cs2 m0 e base bs ts sleep_fuel : silent_network → base ≠ 0 → in_u32 ts → 12 + zlen bs < 2 ^ 31 → pool m0 (cs1 ++ c :: cs2) e →
  let R := own_atoms (lv_addr c) (lv_desc c) ++ ((cs1 ++ cs2) ≫= atoms_of) in
  ∃ E' s' k' j' rep p,
  rtp_session_send_with_ts (S sleep_fuel) (sleeping spur (lv_addr c)) (lv_addr c) base bs ts e = Ret (12 + zlen bs) E' ∧
  session_at (lv_addr c) E' = Some s' ∧ sending (later c k') s' ∧
  paced_by (lv_addr c) (lv_addr <$> (cs1 ++ c :: cs2)) p e E' ∧
  outbox E' = outbox e ++ [packet_to (lv_rtp c) (lv_ip c) (lv_port c) (lv_pt c) (lv_ssrc c) (lv_seq c) ts bs] ++ rep ∧
  Forall (fun d => dg_socket d = lv_rtcp c) rep ∧
  heap E' = heap_of (kept_atoms k' ++ R) (m0 <| brk := j' |>) ∧ brk (heap e) ≤ j' ∧ kept_ok k' ∧
  NoDup (key <$> (kept_atoms k' ++ R)) ∧ Forall (within (brk m0) j') (key <$> (kept_atoms k' ++ R)).
Proof.
  intros Hnet Hbase Hts Hlen Hpo R. assert (Hin : c ∈ cs1 ++ c :: cs2) by (apply elem_of_app; right; apply list_elem_of_here).
  pose proof Hpo as [(j & Hj & Eh & Hw & Hwa) Hun Hnd Hpm Hok Hup Hinc Htm Hdom Hlive Hsend].
  rewrite Forall_forall in Hlive. pose proof (Hlive c Hin) as Hc. rewrite Forall_forall in Hsend. destruct (Hsend c Hin) as (s & Hs & Hsd).
  set (a := lv_addr c) in *. destruct (lo_type _ Hc) as (p & Hp).
  destruct (sending_begun c s (calls e) (heap e) (outbox e) e (S sleep_fuel) (sleeping spur a) base bs ts Hsd Hc Hup) as (sb & n & Eb & Hsb & Hf & Hcore).
  fold a in Eb. rewrite (view_id a s e Hs) in Eb.
  pose proof (sending_paced m0 _ c e s sb n (heap e) (outbox e) p Hpo Hin Hs Hsb Hf Hcore Hp) as HI. fold a in HI.
  assert (Hsub : atoms_of c ⊆ (cs1 ++ c :: cs2) ≫= atoms_of).
  { intros t Ht. apply list_elem_of_bind. exists c. split; assumption. }
  assert (Hfr : fresh (heap_of ((cs1 ++ c :: cs2) ≫= atoms_of) (m0 <| brk := j |>))) by (apply unused_heap_of; done).
  pose proof (sending_streaming c sb _ (m0 <| brk := j |>) Hsb Hf Hc Hnd Hsub Hfr) as St. rewrite <- Eh in St.
  destruct (frame_step a _ (sleeping spur a) sleep_fuel _ _ _ _ Hnet (scheduled_pacing spur a _ p e) sb n (heap e) (outbox e) e (mkFrame base bs ts) St HI (conj Hbase (conj Hts Hlen)))
    as (s' & c' & m' & rep & e' & Es & St' & HI' & Hrep & Same & Hseq & _ & Al & Ca & Hbr).
  cbn [fr_base fr_payload fr_ts] in Es. rewrite Eb, Es. clear Es Eb.
  pose proof (pool_atoms cs1 c cs2) as Hperm. fold a in Hperm. fold R in Hperm. rewrite (heap_of_perm _ _ _ Hnd Hperm) in Eh.
  rewrite Hperm in Hw. rewrite (fmap_Permutation key _ _ Hperm) in Hnd. rewrite fmap_app in Hw. apply Forall_app in Hw as [HwK HwR].
  pose proof (kept_holds (lv_kept c) R m0 j (lo_kept _ Hc) HwK Hj) as H0. rewrite <- Eh, <- (sg_kept _ _ Hsb) in H0. apply Al in H0.
  assert (Hsame : ∀ y, kept_node (lv_kept c) = Some y → rtcp_cached_mp (rtcp s') = Some y) by (intros y Hy; apply Ca; rewrite (sg_kept _ _ Hsb); exact Hy).
  assert (Hjm : j ≤ brk m') by (rewrite Eh, brk_heap_of in Hbr; exact Hbr).
  destruct (holds_kept (lv_kept c) R m0 j _ m' H0 Hsame Hjm HwK Hj) as (k' & j' & Ek & Em & Hk' & Hjj & Hkeys).
  destruct (kept_keys (brk m0) j j' (lv_kept c) k' R Hnd HwR Hjj Hkeys) as [Hnd' Hw'].
  destruct (view_parts a s' c' m' (outbox e ++ [frame_datagram sb (snd_seq (rtp sb)) (mkFrame base bs ts)] ++ rep) e') as (P1 & P2 & P3 & _).
  eexists _, s', k', j', rep, p. split; [reflexivity|]. split; [exact P1|]. split.
  { exact (sending_later c k' sb s' _ _ _ _ _ Hsb Hf Same St' Hseq Ek). }
  split; [exact HI'|]. split; [|split; [|split; [rewrite P2; exact Em|split; [rewrite Eh, brk_heap_of; exact Hjj|split; [exact Hk'|exact (conj Hnd' Hw')]]]]].
  - rewrite P3. do 2 f_equal. f_equal. unfold frame_datagram, packet_to. destruct (sg_sockets _ _ Hsb) as [-> _].
    assert (has_flag sb RTP_SESSION_USING_EXT_SOCKETS = false) as -> by (unfold has_flag; rewrite Hf; reflexivity).
    rewrite (sg_addr _ _ Hsb), (sg_pt _ _ Hsb), (sg_ssrc _ _ Hsb), (sg_seq _ _ Hsb). cbn [fr_ts fr_payload].
    assert (lv_pt c `mod` 128 = lv_pt c) as -> by (destruct (device_type_cases _ _ Hp) as [[-> _]|[-> _]]; reflexivity). done.
  - eapply Forall_impl; [exact Hrep|]. intros d Hd. cbn in Hd. rewrite Hd. apply (sg_sockets _ _ Hsb).
Qed.

Lemma later_ok c k : live_ok c → kept_ok k → live_ok (later c k).
Proof. intros [H1 H2 H3 H4 H5 H6] Hk. split; try assumption. cbn. unfold in_u16. apply Z.mod_pos_bound. lia. Qed.
Lemma later_addrs cs1 c k cs2 : lv_addr <$> (cs1 ++ later c k :: cs2) = lv_addr <$> (cs1 ++ c :: cs2).
Proof. by rewrite !fmap_app. Qed.

(** The addresses of a pool are different, because its keys are. *)
Lemma pool_addrs cs1 c cs2 m0 e : pool m0 (cs1 ++ c :: cs2) e → lv_addr c ∉ lv_addr <$> (cs1 ++ cs2).
Proof.
  intros Hpo (c' & E & Hin)%list_elem_of_fmap. pose proof (po_nodup _ _ _ Hpo) as Hnd. rewrite (fmap_Permutation key _ _ (pool_atoms cs1 c cs2)), !fmap_app in Hnd.
  apply NoDup_app in Hnd as (_ & _ & Hnd). apply NoDup_app in Hnd as (_ & Hdis & _). apply (Hdis (inl (lv_addr c + 4))).
  - cbn. set_solver.
  - apply list_elem_of_fmap. exists (ABlk (lv_addr c' + 4) (lv_desc c')). split; [cbn; by rewrite E|].
    apply list_elem_of_bind. exists c'. split; [|exact Hin]. unfold atoms_of, own_atoms. set_solver.
Qed.

(** Sending one packet: it is the next of its session, only reports follow it, and the pool
    goes on with that session's number advanced. *)
Lemma pool_send spur cs1 c cs2 m0 e base bs ts sleep_fuel : silent_network → base ≠ 0 → in_u32 ts → 12 + zlen bs < 2 ^ 31 → pool m0 (cs1 ++ c :: cs2) e →
  ∃ E' k' rep,
  rtp_session_send_with_ts (S sleep_fuel) (sleeping spur (lv_addr c)) (lv_addr c) base bs ts e = Ret (12 + zlen bs) E' ∧
  pool m0 (cs1 ++ later c k' :: cs2) E' ∧
  outbox E' = outbox e ++ [packet_to (lv_rtp c) (lv_ip c) (lv_port c) (lv_pt c) (lv_ssrc c) (lv_seq c) ts bs] ++ rep ∧
  Forall (fun d => dg_socket d = lv_rtcp c) rep ∧ closed E' = closed e.
Proof.
  intros Hnet Hbase Hts Hlen Hpo. pose proof (pool_addrs _ _ _ _ _ Hpo) as Hna.
  destruct (pool_frame spur cs1 c cs2 m0 e base bs ts sleep_fuel Hnet Hbase Hts Hlen Hpo) as (E' & s' & k' & j' & rep & p & E & Hs' & Hsd & [(s2 & Hsch) (Hoth & Hpm & Hcl)] & Hout & Hrep & Hh & Hj' & Hk' & Hnd & Hw).
  exists E', k', rep. split; [exact E|]. split; [|split; [exact Hout|split; [exact Hrep|exact Hcl]]].
  pose proof (pool_atoms cs1 (later c k') cs2) as Hperm. cbn [later lv_kept lv_addr lv_desc] in Hperm.
  destruct Hpo as [(j & Hj & Eh & _ & Hwa) Hun _ Hpm0 Hok Hup Hinc Htm Hdom Hlive Hsend].
  assert (Hnd' : NoDup (key <$> ((cs1 ++ later c k' :: cs2) ≫= atoms_of))) by (rewrite (fmap_Permutation key _ _ Hperm); exact Hnd).
  rewrite Eh, brk_heap_of in Hj'. cbn in Hj'. destruct Hsch as [S1 S2 S3 S4 S5 S6 S7 S8 S9 S10]. split.
  - exists j'. split; [lia|]. split; [rewrite Hh; symmetry; exact (heap_of_perm _ _ _ Hnd' Hperm)|]. split; [rewrite Hperm; exact Hw|].
    rewrite !Forall_app, !Forall_cons in *. destruct Hwa as (H1 & H2 & H3). repeat split; try (cbn; lia); (eapply Forall_impl; [eassumption|]); cbn; lia.
  - exact Hun.
  - exact Hnd'.
  - rewrite Hpm. exact Hpm0.
  - rewrite later_addrs. exact S6.
  - exact S8.
  - exact S9.
  - exact S10.
  - intros q. rewrite later_addrs. destruct (decide (q = lv_addr c)) as [->|Hq].
    + split; [intros _; exact S7|intros _; eexists; exact Hs'].
    + rewrite (peers_dom (lv_addr c) (world e)); [apply Hdom|by apply others_peers|exact Hq].
  - rewrite !Forall_app, !Forall_cons in *. destruct Hlive as (H1 & H2 & H3). split; [exact H1|]. split; [by apply later_ok|exact H3].
  - rewrite fmap_app in Hna. apply not_elem_of_app in Hna as [Hn1 Hn2]. rewrite !Forall_app, !Forall_cons in *. destruct Hsend as (H1 & H2 & H3).
    assert (Hp : peers (lv_addr c) (world e) (world E')) by (by apply others_peers).
    split; [exact (peers_sending (lv_addr c) cs1 e E' Hp Hn1 H1)|]. split; [exists s'; split; [exact Hs'|exact Hsd]|exact (peers_sending (lv_addr c) cs2 e E' Hp Hn2 H3)].
Qed.

(** ** Destroying *)

Lemma mem0_clear m j i : unused m → brk m ≤ i → clear i (m <| brk := j |>).
Proof. intros [Hf _] Hi. destruct (Hf i Hi) as [H1 _]. destruct (Hf (i + 1)) as [_ H2]; [lia|]. by split. Qed.
Lemma mem0_no_queue m j q : unused m → brk m ≤ q → no_queue q (m <| brk := j |>).
Proof. intros [_ Hq] Hle. exact (Hq q Hle). Qed.

(** What a sender has on the heap is given back, the kept block first. *)
Lemma free_sender c R m0 j : unused m0 → live_ok c → brk m0 ≤ lv_addr c → NoDup (key <$> (kept_atoms (lv_kept c) ++ (own_atoms (lv_addr c) (lv_desc c) ++ R))) →
  Forall (within (brk m0) j) (key <$> kept_atoms (lv_kept c)) →
  ∃ m1 m2, free_opt_blk (kept_node (lv_kept c)) (heap_of (kept_atoms (lv_kept c) ++ (own_atoms (lv_addr c) (lv_desc c) ++ R)) (m0 <| brk := j |>)) = Ret tt m1 ∧
    free_opt_blk (Some (NBlk (lv_addr c + 4))) m1 = Ret tt m2 ∧
    free_queue (lv_addr c + 1) (free_queue (lv_addr c + 2) (free_queue (lv_addr c + 3) m2)) = heap_of R (m0 <| brk := j |>).
Proof.
  intros Hun Hc Ha Hnd Hw. set (a := lv_addr c) in *.
  assert (Hnd' : NoDup (key <$> (own_atoms a (lv_desc c) ++ R))) by (rewrite fmap_app in Hnd; by apply NoDup_app in Hnd as (_ & _ & ?)).
  destruct (lo_desc _ Hc) as [Hb Hco _ _].
  destruct (free_own_atoms a (lv_desc c) R (m0 <| brk := j |>) Hnd' Hb Hco) as (m2 & E2 & E3); [by apply mem0_clear; [|lia]|by apply mem0_no_queue; [|lia]..|].
  eexists _, m2. split; [apply (free_kept_atoms (lv_kept c)); [exact Hnd|apply Hc|]|by split].
  intros i Hi. apply mem0_clear; [exact Hun|]. rewrite Forall_forall in Hw. specialize (Hw _ Hi). cbn in Hw. lia.
Qed.

Lemma own_queue_in a x K R : AQueue (a + 1) ∈ K ++ (own_atoms a x ++ R).
Proof. unfold own_atoms. set_solver. Qed.

(** Destroying one sender closes its sockets and leaves the pool of the others. *)
Lemma pool_destroy cs1 c cs2 m0 e : pool m0 (cs1 ++ c :: cs2) e →
  ∃ E', rtp_session_destroy (lv_addr c) e = Ret tt E' ∧ pool m0 (cs1 ++ cs2) E' ∧ outbox E' = outbox e ∧ closed E' = closed e ++ [lv_rtp c; lv_rtcp c].
Proof.
  intros Hpo. pose proof (pool_addrs _ _ _ _ _ Hpo) as Hna. pose proof (pool_atoms cs1 c cs2) as Hperm.
  destruct Hpo as [(j & Hj & Eh & Hw & Hwa) Hun Hnd Hpm Hok Hup Hinc Htm Hdom Hlive Hsend].
  rewrite !Forall_app, !Forall_cons in Hlive, Hsend, Hwa. destruct Hlive as (Lv1 & Hc & Lv2), Hsend as (Sd1 & (s & Hs & Hsd) & Sd2), Hwa as (Wa1 & Ha & Wa2).
  set (a := lv_addr c) in *. rewrite fmap_app in Hok. cbn [fmap list_fmap] in Hok. rewrite fmap_app in Hna.
  assert (Hq : qrep (heap e) (a + 1) []).
  { rewrite Eh. apply heap_of_queue; [exact Hnd|]. rewrite Hperm. apply own_queue_in. }
  rewrite (heap_of_perm _ _ _ Hnd Hperm) in Eh. rewrite Hperm, fmap_app, Forall_app in Hw. destruct Hw as [HwK HwR]. rewrite (fmap_Permutation key _ _ Hperm) in Hnd.
  destruct (free_sender c ((cs1 ++ cs2) ≫= atoms_of) m0 j Hun Hc ltac:(lia) Hnd HwK) as (m1 & m2 & F1 & F2 & F3). fold a in F1, F2, F3. rewrite <- Eh, <- (sg_kept _ _ Hsd) in F1. pose proof (sg_sd _ _ Hsd) as Esd. fold a in Esd. rewrite <- Esd in F2.
  destruct (sg_sockets _ _ Hsd) as [K1 K2]. destruct (lo_sockets _ Hc) as (Hk1 & Hk2 & _). rewrite <- K1 in Hk1. rewrite <- K2 in Hk2.
  assert (Hfl : has_flag s RTP_SESSION_SCHEDULED = true) by (unfold has_flag; destruct (sg_flags _ _ Hsd) as [-> | ->]; reflexivity).
  destruct (destroy_view a (lv_addr <$> cs1) (lv_addr <$> cs2) s (calls e) (heap e) (outbox e) e m1 m2 Hok Hs Hna Hup Hfl (sg_sched _ _ Hsd) Hk1 Hk2
    (proj1 (sg_queues _ _ Hsd)) (proj2 (sg_cached _ _ Hsd)) (proj1 (sg_cached _ _ Hsd)) Hq F1 F2) as (E' & Ed & [G1 G2 G3 G4 G5 G6 G7 G8 _] & Gh & Gc).
  rewrite F3 in Gh. rewrite (view_id a s e Hs) in Ed, G3, G4, G5, G6, G7, G8. rewrite K1, K2 in Gc.
  exists E'. split; [exact Ed|]. split; [|split; [exact G8|exact Gc]].
  rewrite fmap_app in Hnd. apply NoDup_app in Hnd as (_ & _ & Hnd). rewrite fmap_app in Hnd. apply NoDup_app in Hnd as (_ & _ & Hnd).
  rewrite fmap_app, Forall_app in HwR. destruct HwR as [_ HwR]. split.
  - exists j. split; [lia|]. split; [exact Gh|]. split; [exact HwR|]. apply Forall_app. exact (conj Wa1 Wa2).
  - exact Hun.
  - exact Hnd.
  - rewrite G7. exact Hpm.
  - rewrite fmap_app. exact G1.
  - rewrite G4. exact Hup.
  - rewrite G5. exact Hinc.
  - rewrite G6. exact Htm.
  - intros q. rewrite fmap_app. destruct (decide (q = a)) as [->|Hq'].
    + rewrite G2. split; [intros [x Hx]; discriminate Hx|intros Hx; by destruct (Hna Hx)].
    + rewrite (peers_dom a (world e) (world E') q G3 Hq'), Hdom, !fmap_app. cbn. rewrite !elem_of_app, elem_of_cons. tauto.
  - apply Forall_app. exact (conj Lv1 Lv2).
  - apply not_elem_of_app in Hna as [Hn1 Hn2]. apply Forall_app.
    split; [exact (peers_sending a cs1 e E' G3 Hn1 Sd1)|exact (peers_sending a cs2 e E' G3 Hn2 Sd2)].
Qed.
End Sender.
