(* ===== verification/OsaQue.v ===== *)
(** * Bounded queues ([utils/osa/src/osa_que.c] and the queue of [osa_msgq.c])

    [OSA_quePut]/[OSA_queGet] and [OSA_msgqSend]/[OSA_msgqRecvMsg] are the same
    ring buffer, over [Int32] values and over message pointers: the section is
    generic in the element type. A call runs under the queue's mutex, so it is
    one atomic step until it returns or sleeps on a condition variable ([Blk]);
    [qstep] adds the threads, their sleep on [condRd]/[condWr] and the signals.
    The abstract contract is a FIFO list of at most [len] elements
    ([FifoQueue]). *)

From S2P Require Import Prelude.

Definition OSA_SOK : Z := 0.
Definition OSA_EFAIL : Z := -1.
Definition OSA_TIMEOUT_NONE : Z := 0.
Definition OSA_TIMEOUT_FOREVER : Z := 2 ^ 32 - 1.

(** * The contract

    What a queue promises its users: [q_model q l] says that [q] holds [l]. *)

Class FifoQueue (Q A : Type) := {
  q_put : A → Z → CM Q Z;
  q_get : Z → CM Q (Z * option A);
  q_cap : Q → Z;
  q_model : Q → list A → Prop;
  q_put_ok q l v t : q_model q l → zlen l < q_cap q →
    ∃ q', q_put v t q = Ret OSA_SOK q' ∧ q_model q' (l ++ [v]) ∧ q_cap q' = q_cap q;
  q_put_full q l v t : q_model q l → zlen l = q_cap q →
    q_put v t q = if t =? OSA_TIMEOUT_NONE then Ret OSA_EFAIL q else Blk q;
  q_get_ok q x l t : q_model q (x :: l) →
    ∃ q', q_get t q = Ret (OSA_SOK, Some x) q' ∧ q_model q' l ∧ q_cap q' = q_cap q;
  q_get_empty q t : q_model q [] →
    q_get t q = if t =? OSA_TIMEOUT_NONE then Ret (OSA_EFAIL, None) q else Blk q;
  q_bound q l : q_model q l → zlen l ≤ q_cap q
}.

Record OSA_QueHndl (A : Type) := mkQue {
  curRd : Z;
  curWr : Z;
  len : Z;
  count : Z;
  queue : list A
}.
Arguments mkQue {A}. Arguments curRd {A}. Arguments curWr {A}. Arguments len {A}.
Arguments count {A}. Arguments queue {A}.

#[export] Instance eta_Que A : Eta (OSA_QueHndl A) := fun q =>
  mkQue (curRd q) (curWr q) (len q) (count q) (queue q).

Section Ring.
Context {A : Type}.
Implicit Types (q : OSA_QueHndl A) (l : list A) (v : A).

(** [mem] is what [malloc] returned ([None] for NULL) and [pst] the or of the
    statuses of the pthread initialisations. *)
Definition OSA_queCreate (mem : option (list A)) (pst maxLen : Z) : Z * OSA_QueHndl A :=
  match mem with
  | None => (OSA_EFAIL, mkQue 0 0 maxLen 0 [])
  | Some buf => (Z.lor OSA_SOK pst, mkQue 0 0 maxLen 0 buf)
  end.

Definition OSA_quePut (value : A) (timeout : Z) : CM (OSA_QueHndl A) Z := fun q =>
  if count q <? len q then
    match aset (queue q) (curWr q) value with
    | Some buf =>
        Ret OSA_SOK (q <| queue := buf |> <| curWr := u32 (curWr q + 1) `mod` len q |>
                       <| count := u32 (count q + 1) |>)
    | None => Flt OutOfBounds
    end
  else if timeout =? OSA_TIMEOUT_NONE then Ret OSA_EFAIL q
  else Blk q.

Definition OSA_queGet (timeout : Z) : CM (OSA_QueHndl A) (Z * option A) := fun q =>
  if 0 <? count q then
    match aget (queue q) (curRd q) with
    | Some x =>
        Ret (OSA_SOK, Some x)
          (q <| curRd := u32 (curRd q + 1) `mod` len q |> <| count := u32 (count q - 1) |>)
    | None => Flt OutOfBounds
    end
  else if timeout =? OSA_TIMEOUT_NONE then Ret (OSA_EFAIL, None) q
  else Blk q.

(** ** The ring holds a list *)

Record ring_holds q l : Prop := {
  rh_len : 0 < len q < 2 ^ 32;
  rh_buf : zlen (queue q) = len q;
  rh_rd : 0 ≤ curRd q < len q;
  rh_wr : curWr q = (curRd q + zlen l) `mod` len q;
  rh_count : count q = zlen l;
  rh_bound : zlen l ≤ len q;
  rh_elem k : 0 ≤ k < zlen l → aget (queue q) ((curRd q + k) `mod` len q) = aget l k
}.

Lemma mod_succ_step a n : 0 < n → ((a `mod` n) + 1) `mod` n = (a + 1) `mod` n.
Proof. intros H. by rewrite Zplus_mod_idemp_l. Qed.

Lemma mod_offset_ne r k j n :
  0 ≤ k < n → 0 ≤ j < n → k ≠ j → (r + k) `mod` n ≠ (r + j) `mod` n.
Proof.
  intros Hk Hj Hne E. apply Hne.
  pose proof (Z.div_mod (r + k) n ltac:(lia)) as H1.
  pose proof (Z.div_mod (r + j) n ltac:(lia)) as H2.
  rewrite E in H1. set (a := (r + k) / n) in *. set (b := (r + j) / n) in *.
  assert (k - j = n * (a - b)) by lia. assert (a = b) by nia. nia.
Qed.

Lemma ring_put_ok q l v t :
  ring_holds q l → zlen l < len q →
  ∃ q', OSA_quePut v t q = Ret OSA_SOK q' ∧ ring_holds q' (l ++ [v]) ∧ len q' = len q.
Proof.
  intros [Hlen Hbuf Hrd Hwr Hcount Hb Hel] Hlt. unfold OSA_quePut.
  pose proof (zlen_nonneg l).
  destruct (count q <? len q) eqn:E; [|lia].
  assert (0 ≤ curWr q < len q) by (rewrite Hwr; apply Z.mod_pos_bound; lia).
  rewrite aset_Some by lia. eexists. split; [done|]. split; [|done].
  assert (zlen (l ++ [v]) = zlen l + 1) as Hl' by (by rewrite zlen_snoc).
  rewrite (u32_id (curWr q + 1)), (u32_id (count q + 1)) by (unfold in_u32; lia).
  split; cbn; rewrite ?Hl', ?zlen_insert; try lia.
  - rewrite Hwr, mod_succ_step by lia. f_equal. lia.
  - intros k Hk. rewrite aget_snoc by lia. case_decide as Ek; [subst k|].
    + rewrite <- Hwr. apply aget_insert_eq. lia.
    + rewrite aget_insert_ne, Hel; [done|lia|lia|].
      rewrite Hwr. apply mod_offset_ne; lia.
Qed.

Lemma ring_put_full q l v t :
  ring_holds q l → zlen l = len q →
  OSA_quePut v t q = if t =? OSA_TIMEOUT_NONE then Ret OSA_EFAIL q else Blk q.
Proof.
  intros [] Heq. unfold OSA_quePut.
  destruct (count q <? len q) eqn:E; [lia|done].
Qed.

Lemma ring_get_ok q x l t :
  ring_holds q (x :: l) →
  ∃ q', OSA_queGet t q = Ret (OSA_SOK, Some x) q' ∧ ring_holds q' l ∧ len q' = len q.
Proof.
  intros [Hlen Hbuf Hrd Hwr Hcount Hb Hel]. unfold OSA_queGet.
  rewrite zlen_cons in *. pose proof (zlen_nonneg l).
  destruct (0 <? count q) eqn:E; [|lia].
  pose proof (Hel 0 ltac:(lia)) as H0.
  rewrite Z.add_0_r, Z.mod_small, aget_cons_0 in H0 by lia. rewrite H0.
  eexists. split; [done|]. split; [|done].
  rewrite (u32_id (curRd q + 1)), (u32_id (count q - 1)) by (unfold in_u32; lia).
  split; cbn; try lia.
  - apply Z.mod_pos_bound. lia.
  - rewrite Hwr, Zplus_mod_idemp_l. f_equal. lia.
  - intros k Hk. rewrite Zplus_mod_idemp_l.
    replace (curRd q + 1 + k) with (curRd q + (k + 1)) by lia.
    rewrite Hel, aget_cons_pos by lia. f_equal. lia.
Qed.

Lemma ring_get_empty q t :
  ring_holds q [] →
  OSA_queGet t q = if t =? OSA_TIMEOUT_NONE then Ret (OSA_EFAIL, None) q else Blk q.
Proof.
  intros [_ _ _ _ Hc _ _]. unfold OSA_queGet.
  rewrite Hc. by destruct (0 <? zlen []) eqn:E.
Qed.

Lemma ring_create_ok buf maxLen :
  0 < maxLen < 2 ^ 32 → zlen buf = maxLen →
  ∃ q, OSA_queCreate (Some buf) 0 maxLen = (OSA_SOK, q) ∧ ring_holds q [] ∧ len q = maxLen.
Proof.
  intros Hm Hb. eexists. split; [done|]. split; [|done].
  split; cbn; change (zlen (@nil A)) with 0; try done; lia.
Qed.

End Ring.

#[export] Instance que_fifo A : FifoQueue (OSA_QueHndl A) A := {|
  q_put := OSA_quePut; q_get := OSA_queGet; q_cap := len; q_model := ring_holds;
  q_put_ok := ring_put_ok; q_put_full := ring_put_full;
  q_get_ok := ring_get_ok; q_get_empty := ring_get_empty;
  q_bound q l H := rh_bound q l H
|}.

(** * Sequences of calls against the FIFO specification *)

Section Refinement.
Context {A : Type}.

Inductive qop := QPut (v : A) (timeout : Z) | QGet (timeout : Z).

Definition que_op (o : qop) : CM (OSA_QueHndl A) (Z * option A) :=
  match o with
  | QPut v t => s ← OSA_quePut v t; mret (s, None)
  | QGet t => OSA_queGet t
  end.

(** The specification: a list with a capacity. *)
Definition fifo_op (cap : Z) (o : qop) : CM (list A) (Z * option A) := fun l =>
  match o with
  | QPut v t =>
      if zlen l <? cap then Ret (OSA_SOK, None) (l ++ [v])
      else if t =? OSA_TIMEOUT_NONE then Ret (OSA_EFAIL, None) l else Blk l
  | QGet t =>
      match l with
      | x :: l => Ret (OSA_SOK, Some x) l
      | [] => if t =? OSA_TIMEOUT_NONE then Ret (OSA_EFAIL, None) [] else Blk []
      end
  end.

Fixpoint run_ops {S} (step : qop → CM S (Z * option A)) (ops : list qop)
  : CM S (list (Z * option A)) :=
  match ops with
  | [] => mret []
  | o :: ops => r ← step o; rs ← run_ops step ops; mret (r :: rs)
  end.

Lemma que_op_refines o (q : OSA_QueHndl A) l :
  ring_holds q l →
  match que_op o q, fifo_op (len q) o l with
  | Ret r q', Ret r' l' => r = r' ∧ ring_holds q' l' ∧ len q' = len q
  | Blk q', Blk l' => ring_holds q' l'
  | _, _ => False
  end.
Proof.
  intros H. pose proof (rh_bound _ _ H) as Hb. destruct o as [v t|t]; cbn.
  - run. destruct (zlen l <? len q) eqn:E.
    + destruct (ring_put_ok q l v t H) as (q' & -> & ? & ?); [lia|done].
    + rewrite (ring_put_full q l v t H) by lia. by destruct (t =? _).
  - destruct l as [|x l].
    + rewrite (ring_get_empty q t H). by destruct (t =? _).
    + by destruct (ring_get_ok q x l t H) as (q' & -> & ? & ?).
Qed.

(** C7: any sequence of put and get calls on the ring buffer gives, call by
    call, the statuses and values of the same sequence on a FIFO list of
    capacity [len]; it sleeps at the same call, and the ring then holds the same
    elements in the same order. In particular no call accesses the array outside
    its bounds. *)
Theorem que_refines_fifo ops (q : OSA_QueHndl A) l :
  ring_holds q l →
  match run_ops que_op ops q, run_ops (fifo_op (len q)) ops l with
  | Ret rs q', Ret rs' l' => rs = rs' ∧ ring_holds q' l'
  | Blk q', Blk l' => ring_holds q' l'
  | _, _ => False
  end.
Proof.
  revert q l. induction ops as [|o ops IH]; intros q l H; cbn; [done|].
  pose proof (que_op_refines o q l H) as Ho. run.
  destruct (que_op o q) as [r q'|q'|], (fifo_op (len q) o l) as [r' l'|l'|]; try done.
  destruct Ho as (-> & Hq & Hlen). specialize (IH q' l' Hq). rewrite Hlen in IH.
  destruct (run_ops que_op ops q') as [rs q2|q2|],
    (run_ops (fifo_op (len q)) ops l') as [rs' l2|l2|]; try done.
  by destruct IH as [-> ?].
Qed.

End Refinement.

Arguments qop : clear implicits.

Lemma que_refines_fifo_witness :
  match run_ops que_op [QPut 5 0; QPut 6 0; QPut 7 0; QGet 0; QPut 8 9; QGet 0] (mkQue 0 0 2 0 [0; 0]),
        run_ops (fifo_op 2) [QPut 5 0; QPut 6 0; QPut 7 0; QGet 0; QPut 8 9; QGet 0] [] with
  | Ret rs q', Ret rs' l' => rs = rs' ∧ ring_holds q' l'
  | Blk q', Blk l' => ring_holds q' l'
  | _, _ => False
  end.
Proof.
  apply (que_refines_fifo [QPut 5 0; QPut 6 0; QPut 7 0; QGet 0; QPut 8 9; QGet 0]
           (mkQue 0 0 2 0 [0; 0]) []).
  split; cbn; try done; try lia. intros k. unfold zlen. cbn. lia.
Defined.

(** * Threads: sleep and wake-up

    A configuration has the queue, the getters asleep on [condRd] and those
    woken but not yet running, the putters (each with its value) asleep on
    [condWr] and those woken, and the values accepted and delivered so far. *)

Section Monitor.
Context {A : Type}.

Record qconf := mkConf {
  cq : OSA_QueHndl A;
  rd_sleep : Z;
  rd_woken : Z;
  wr_sleep : list A;
  wr_woken : list A;
  h_in : list A;
  h_out : list A
}.

#[export] Instance eta_qconf : Eta qconf := fun c =>
  mkConf (cq c) (rd_sleep c) (rd_woken c) (wr_sleep c) (wr_woken c) (h_in c) (h_out c).

(** [pthread_cond_signal(&condRd)]: one sleeper, if there is any. *)
Definition signal_rd (c : qconf) : qconf :=
  if 0 <? rd_sleep c
  then c <| rd_sleep := rd_sleep c - 1 |> <| rd_woken := rd_woken c + 1 |> else c.

(** [pthread_cond_signal(&condWr)]: any one of the sleepers. *)
Inductive signal_wr : qconf → qconf → Prop :=
  | signal_wr_none c : wr_sleep c = [] → signal_wr c c
  | signal_wr_one c l1 v l2 : wr_sleep c = l1 ++ v :: l2 →
      signal_wr c (c <| wr_sleep := l1 ++ l2 |> <| wr_woken := v :: wr_woken c |>).

(** One run of the critical section of a putter with [v]. *)
Inductive put_run (v : A) (t : Z) (c : qconf) : qconf → Prop :=
  | put_done q : OSA_quePut v t (cq c) = Ret OSA_SOK q →
      put_run v t c (signal_rd (c <| cq := q |> <| h_in := h_in c ++ [v] |>))
  | put_fail q : OSA_quePut v t (cq c) = Ret OSA_EFAIL q →
      put_run v t c (c <| cq := q |>)
  | put_sleep q : OSA_quePut v t (cq c) = Blk q →
      put_run v t c (c <| cq := q |> <| wr_sleep := v :: wr_sleep c |>).

Inductive get_run (t : Z) (c : qconf) : qconf → Prop :=
  | get_done q x c' : OSA_queGet t (cq c) = Ret (OSA_SOK, Some x) q →
      signal_wr (c <| cq := q |> <| h_out := h_out c ++ [x] |>) c' → get_run t c c'
  | get_fail q : OSA_queGet t (cq c) = Ret (OSA_EFAIL, None) q → get_run t c (c <| cq := q |>)
  | get_sleep q : OSA_queGet t (cq c) = Blk q →
      get_run t c (c <| cq := q |> <| rd_sleep := rd_sleep c + 1 |>).

Inductive qstep : qconf → qconf → Prop :=
  | step_put v t c c' : put_run v t c c' → qstep c c'
  | step_put_resume v l1 l2 t c c' : wr_woken c = l1 ++ v :: l2 → t ≠ OSA_TIMEOUT_NONE →
      put_run v t (c <| wr_woken := l1 ++ l2 |>) c' → qstep c c'
  | step_get t c c' : get_run t c c' → qstep c c'
  | step_get_resume t c c' : 0 < rd_woken c → t ≠ OSA_TIMEOUT_NONE →
      get_run t (c <| rd_woken := rd_woken c - 1 |>) c' → qstep c c'
  | step_spurious_rd c : 0 < rd_sleep c →
      qstep c (c <| rd_sleep := rd_sleep c - 1 |> <| rd_woken := rd_woken c + 1 |>)
  | step_spurious_wr c l1 v l2 : wr_sleep c = l1 ++ v :: l2 →
      qstep c (c <| wr_sleep := l1 ++ l2 |> <| wr_woken := v :: wr_woken c |>).

Definition qstart (q : OSA_QueHndl A) : qconf := mkConf q 0 0 [] [] [] [].

(** A sleeper exists only while enough threads that could serve it are awake. *)
Record wake_inv (rw : Z) (ww : list A) (c : qconf) (l : list A) : Prop := {
  wi_holds : ring_holds (cq c) l;
  wi_hist : h_in c = h_out c ++ l;
  wi_rs : 0 ≤ rd_sleep c;
  wi_rw : 0 ≤ rd_woken c;
  wi_rd : 0 < rd_sleep c → zlen l ≤ rw;
  wi_wr : wr_sleep c ≠ [] → len (cq c) - zlen l ≤ zlen ww
}.
Definition qinv c := ∃ l, wake_inv (rd_woken c) (wr_woken c) c l.

Lemma put_run_inv v t c c' l ww :
  wake_inv (rd_woken c) ww c l → zlen ww ≤ zlen (wr_woken c) + 1 → put_run v t c c' → qinv c'.
Proof.
  intros [H Hh Hs Hw Hr Hwr] Hww Hrun. pose proof (rh_bound _ _ H) as Hb.
  pose proof (zlen_nonneg (wr_woken c)) as Hwn.
  inversion Hrun as [q E|q E|q E]; subst c'.
  all: destruct (decide (zlen l < len (cq c))) as [Hlt|Hge];
    [destruct (ring_put_ok (cq c) l v t H Hlt) as (q' & E' & Hq & Hlen)
    |assert (E' := ring_put_full (cq c) l v t H ltac:(lia)); destruct (t =? OSA_TIMEOUT_NONE)];
    rewrite E in E'; simplify_eq.
  - exists (l ++ [v]). unfold signal_rd. cbn.
    destruct (0 <? rd_sleep c) eqn:Es; (split; cbn; try done; try lia).
    all: rewrite ?zlen_snoc, ?Hlen, ?Hh, <- ?app_assoc; try done; lia || intros Hne;
      specialize (Hwr Hne); lia.
  - exists l. split; cbn; try done. intros Hne. lia.
  - exists l. split; cbn; try done. intros _. lia.
Qed.

Lemma get_run_inv t c c' l rw :
  wake_inv rw (wr_woken c) c l → rw ≤ rd_woken c + 1 → get_run t c c' → qinv c'.
Proof.
  intros [H Hh Hs Hw Hr Hwr] Hrw Hrun. pose proof (rh_bound _ _ H) as Hb.
  destruct l as [|x0 l].
  - assert (E' := ring_get_empty (cq c) t H).
    inversion Hrun as [q x c2 E|q E|q E]; subst; rewrite E in E';
      destruct (t =? OSA_TIMEOUT_NONE); simplify_eq.
    all: exists []; split; cbn; try done; change (zlen (@nil A)) with 0 in *; try lia.
  - destruct (ring_get_ok (cq c) x0 l t H) as (q' & E' & Hq & Hlen).
    inversion Hrun as [q x c2 E Hsig|q E|q E]; subst; rewrite E in E'; simplify_eq.
    rewrite zlen_cons in *. exists l.
    inversion Hsig as [? Hnil|? l1 v l2 Hsp]; subst; cbn in *.
    all: split; cbn; try done; rewrite ?Hh, <- ?app_assoc, ?zlen_cons, ?Hlen; try done; try lia.
    intros Hne. rewrite Hsp in Hwr. assert (l1 ++ v :: l2 ≠ []) as Hne' by by destruct l1.
    specialize (Hwr Hne'). lia.
Qed.

Lemma qstep_inv c c' : qinv c → qstep c c' → qinv c'.
Proof.
  intros [l Hi] Hst. inversion Hst as [v t c0 c1 Hr|v l1 l2 t c0 c1 Hww Ht Hr|t c0 c1 Hr
    |t c0 c1 Hrw Ht Hr|c0 Hs|c0 l1 v l2 Hws]; subst.
  - eapply put_run_inv; [exact Hi|lia|done].
  - eapply (put_run_inv v t _ _ l (wr_woken c)), Hr; [by destruct Hi; split|].
    cbn. rewrite Hww, !zlen_app, zlen_cons. lia.
  - eapply get_run_inv; [exact Hi|lia|done].
  - eapply (get_run_inv t _ _ l (rd_woken c)), Hr; [destruct Hi; split; cbn; lia || done|].
    cbn. lia.
  - exists l. destruct Hi. split; cbn; try done; lia.
  - exists l. destruct Hi as [? ? ? ? ? Hwr]. split; cbn; try done. intros _.
    rewrite zlen_cons. rewrite Hws in Hwr.
    assert (l1 ++ v :: l2 ≠ []) as Hne by by destruct l1. specialize (Hwr Hne). lia.
Qed.

(** C8: with any number of producer and consumer threads, interleaved at the
    granularity of the mutex and with spurious wake-ups, what was delivered is
    the prefix of what was accepted, in order, and what is left is in the ring;
    and no wake-up is lost: when no woken thread is left to run, a getter still
    asleep sees an empty queue and a putter still asleep a full one, so never
    both kinds sleep. *)
Theorem que_no_lost_wakeup q c :
  ring_holds q [] → rtc qstep (qstart q) c →
  (∃ l, ring_holds (cq c) l ∧ h_in c = h_out c ++ l) ∧
  (rd_woken c = 0 → wr_woken c = [] →
     (0 < rd_sleep c → count (cq c) = 0) ∧
     (wr_sleep c ≠ [] → count (cq c) = len (cq c)) ∧
     ¬ (0 < rd_sleep c ∧ wr_sleep c ≠ [])).
Proof.
  intros Hq Hr. destruct (rtc_invariant qstep qinv _ _ qstep_inv Hr) as [l [H Hh Hs Hw Hrd Hwr]].
  { exists []. split; cbn; try done. }
  split; [by exists l|]. intros E1 E2. rewrite E1 in Hrd. rewrite E2 in Hwr.
  change (zlen (@nil A)) with 0 in Hwr. pose proof (zlen_nonneg l).
  destruct H as [Hlen _ _ _ -> Hb _]. split_and!; [lia|intros Hne; specialize (Hwr Hne); lia|].
  intros [H1 H2]. specialize (Hrd H1). specialize (Hwr H2). lia.
Qed.

End Monitor.

Arguments qconf : clear implicits.

(** A ring of one place: a getter sleeps and wakes up for nothing, a putter wakes it,
    a second putter finds the ring full and sleeps, the getter takes the first value and
    wakes that putter, which puts its value. *)
Definition ex_ring : OSA_QueHndl Z := mkQue 0 0 1 0 [0].
Definition ex_handed : qconf Z := mkConf (mkQue 0 0 1 1 [6]) 0 0 [] [] [5; 6] [5].
Definition ex_both_sleep : qconf Z := mkConf (mkQue 0 0 1 1 [5]) 0 1 [6] [] [5] [].
Lemma ex_ring_run : rtc qstep (qstart ex_ring) ex_both_sleep ∧ rtc qstep ex_both_sleep ex_handed.
Proof.
  split.
  - eapply rtc_l; [apply (step_get OSA_TIMEOUT_FOREVER); eapply get_sleep; reflexivity|].
    eapply rtc_l; [by apply step_spurious_rd|].
    eapply rtc_l; [eapply (step_get_resume OSA_TIMEOUT_FOREVER); [reflexivity|done|eapply get_sleep; reflexivity]|].
    eapply rtc_l; [apply (step_put 5 OSA_TIMEOUT_FOREVER); eapply put_done; reflexivity|].
    eapply rtc_l; [apply (step_put 6 OSA_TIMEOUT_FOREVER); eapply put_sleep; reflexivity|]. apply rtc_refl.
  - eapply rtc_l; [eapply (step_get_resume OSA_TIMEOUT_FOREVER); [reflexivity|done|eapply get_done; [reflexivity|apply (signal_wr_one _ [] 6 []); reflexivity]]|].
    eapply rtc_l; [apply (step_put_resume 6 [] [] OSA_TIMEOUT_FOREVER); [reflexivity|done|eapply put_done; reflexivity]|].
    apply rtc_refl.
Qed.

Lemma que_no_lost_wakeup_witness :
  rtc qstep (qstart ex_ring) ex_both_sleep ∧ rtc qstep ex_both_sleep ex_handed ∧
  (∃ l, ring_holds (cq ex_both_sleep) l ∧ [5] = [] ++ l) ∧ (∃ l, ring_holds (cq ex_handed) l ∧ [5; 6] = [5] ++ l) ∧
  ¬ (0 < rd_sleep ex_handed ∧ wr_sleep ex_handed ≠ []).
Proof.
  destruct ex_ring_run as [R1 R2].
  assert (Hq : ring_holds ex_ring []) by (split; cbn; try done; try lia; intros k; unfold zlen; cbn; lia).
  destruct (que_no_lost_wakeup ex_ring ex_both_sleep Hq R1) as (H1 & _).
  assert (R : rtc qstep (qstart ex_ring) ex_handed) by (etrans; [exact R1|exact R2]).
  destruct (que_no_lost_wakeup ex_ring ex_handed Hq R) as (H2 & H3).
  exact (conj R1 (conj R2 (conj H1 (conj H2 (proj2 (proj2 (H3 eq_refl eq_refl))))))).
Defined.
