(* ===== verification/OsaBuf.v ===== *)
(** * Buffer pools ([utils/osa/src/osa_buf.c], [utils/osa/inc/osa_buf.h])

    A pool of at most 16 buffers that a producer fills and [numReaders] readers
    release: the free ids are in one queue, the filled ids in another. The
    operations use the queues through the contract [FifoQueue] of OsaQue.v only;
    the creation makes them with [OSA_queCreate]. A handle is the state, so the
    tests of the handle against NULL are not modelled. *)

From S2P Require Import Prelude OsaQue.

Definition OSA_BUF_NUM_MAX : Z := 16.
Definition OSA_BUF_ID_INVALID : Z := -1.

Record OSA_BufInfo := mkBufInfo {
  bi_size : Z;
  bi_flags : Z;
  bi_timestamp : Z;
  physAddr : Z;
  virtAddr : Z
}.

Record OSA_BufHndl (Q : Type) := mkBuf {
  bufInfo : list OSA_BufInfo;
  curReaders : list Z;
  numReaders : Z;
  emptyQue : Q;
  fullQue : Q;
  numBuf : Z
}.
Arguments mkBuf {Q}. Arguments bufInfo {Q}. Arguments curReaders {Q}. Arguments numReaders {Q}.
Arguments emptyQue {Q}. Arguments fullQue {Q}. Arguments numBuf {Q}.

#[export] Instance eta_Buf Q : Eta (OSA_BufHndl Q) := fun h =>
  mkBuf (bufInfo h) (curReaders h) (numReaders h) (emptyQue h) (fullQue h) (numBuf h).

Section Buf.
Context {Q : Type} {HQ : FifoQueue Q Z}.

Definition on_empty {A} (m : CM Q A) : CM (OSA_BufHndl Q) A :=
  zoom emptyQue (fun q h => h <| emptyQue := q |>) m.
Definition on_full {A} (m : CM Q A) : CM (OSA_BufHndl Q) A :=
  zoom fullQue (fun q h => h <| fullQue := q |>) m.

(** The id stored through [bufId]. *)
Definition got (r : Z * option Z) : Z :=
  if r.1 =? OSA_SOK then default OSA_BUF_ID_INVALID r.2 else OSA_BUF_ID_INVALID.

Definition OSA_bufGetEmpty (timeout : Z) : CM (OSA_BufHndl Q) (Z * Z) :=
  r ← on_empty (q_get timeout); mret (OSA_SOK, got r).

Definition OSA_bufGetFull (timeout : Z) : CM (OSA_BufHndl Q) (Z * Z) :=
  r ← on_full (q_get timeout); mret (OSA_SOK, got r).

Definition set_reader (i c : Z) : CM (OSA_BufHndl Q) unit := fun h =>
  match aset (curReaders h) i c with
  | Some l => Ret tt (h <| curReaders := l |>)
  | None => Flt OutOfBounds
  end.

Definition OSA_bufPutFull (bufId : Z) : CM (OSA_BufHndl Q) Z :=
  n ← gets numBuf;
  if (n <=? bufId) || (bufId <? 0) then mret OSA_EFAIL else
  _ ← set_reader bufId 0;
  _ ← on_full (q_put bufId OSA_TIMEOUT_FOREVER);
  mret OSA_SOK.

Definition OSA_bufPutEmpty (bufId : Z) : CM (OSA_BufHndl Q) Z :=
  n ← gets numBuf;
  if (n <=? bufId) || (bufId <? 0) then mret OSA_EFAIL else
  t ← gets curReaders;
  c ← rd t bufId;
  _ ← set_reader bufId (i32 (c + 1));
  nr ← gets numReaders;
  _ ← (if i32 (c + 1) =? nr then on_empty (q_put bufId OSA_TIMEOUT_FOREVER) else mret 0);
  mret OSA_SOK.

(** The result and the new value of [*bufId]. *)
Definition OSA_bufSwitchFull (bufId : Z) : CM (OSA_BufHndl Q) (Z * Z) :=
  r ← OSA_bufGetEmpty OSA_TIMEOUT_NONE;
  if r.1 =? OSA_SOK then
    _ ← (if negb (bufId =? OSA_BUF_ID_INVALID) then OSA_bufPutFull bufId else mret 0);
    mret r
  else mret (r.1, bufId).

Definition OSA_bufSwitchEmpty (bufId : Z) : CM (OSA_BufHndl Q) (Z * Z) :=
  r ← OSA_bufGetFull OSA_TIMEOUT_NONE;
  if r.1 =? OSA_SOK then
    _ ← (if negb (bufId =? OSA_BUF_ID_INVALID) then OSA_bufPutEmpty bufId else mret 0);
    mret r
  else mret (r.1, bufId).

(** [None] is NULL; a negative id passes the test and indexes the array. *)
Definition OSA_bufGetBufInfo (bufId : Z) : CM (OSA_BufHndl Q) (option OSA_BufInfo) :=
  n ← gets numBuf;
  if n <=? bufId then mret None else
  t ← gets bufInfo;
  b ← rd t bufId;
  mret (Some b).

End Buf.

Section Create.

(** The arguments of the creation: [numBuf], [numReaders] and the addresses. *)
Record OSA_BufCreate := mkBufCreate {
  bc_numBuf : Z;
  bc_numReaders : Z;
  bufPhyAddr : list Z;
  bufVirtAddr : list Z
}.

Definition fill_one (prm : OSA_BufCreate) (i : Z) : CM (OSA_BufHndl (OSA_QueHndl Z)) unit :=
  p ← rd (bufPhyAddr prm) i;
  a ← rd (bufVirtAddr prm) i;
  _ ← (fun h => match aset (bufInfo h) i (mkBufInfo 0 0 0 p a) with
                | Some l => Ret tt (h <| bufInfo := l |>)
                | None => Flt OutOfBounds
                end);
  _ ← set_reader i 0;
  _ ← on_empty (OSA_quePut i OSA_TIMEOUT_FOREVER);
  mret tt.

(** [mem1], [mem2]: what the mallocs of the two queues return; [pst] the or of
    the pthread statuses. *)
Definition OSA_bufCreate (prm : OSA_BufCreate) (mem1 mem2 : option (list Z)) (pst : Z)
  : CM (OSA_BufHndl (OSA_QueHndl Z)) Z :=
  if OSA_BUF_NUM_MAX <? bc_numBuf prm then mret OSA_EFAIL else
  let q0 := mkQue 0 0 0 0 [] in
  let nr := if bc_numReaders prm <=? 0 then 1 else bc_numReaders prm in
  let r1 := OSA_queCreate mem1 pst (bc_numBuf prm) in
  let r2 := OSA_queCreate mem2 pst (bc_numBuf prm) in
  let h0 := mkBuf (replicate 16 (mkBufInfo 0 0 0 0 0)) (replicate 16 0) nr q0 q0 0 in
  if negb (r1.1 =? OSA_SOK) then fun _ => Ret r1.1 (h0 <| emptyQue := r1.2 |>) else
  if negb (r2.1 =? OSA_SOK) then fun _ => Ret r2.1 (h0 <| emptyQue := r1.2 |> <| fullQue := r2.2 |>) else
  _ ← (fun _ => Ret tt (h0 <| emptyQue := r1.2 |> <| fullQue := r2.2 |> <| numBuf := bc_numBuf prm |>));
  _ ← for_each (seqZ 0 (bc_numBuf prm)) (fill_one prm);
  mret OSA_SOK.

End Create.

(** * The pool *)

Section Pool.
Context {Q : Type} {HQ : FifoQueue Q Z}.
Implicit Types (h : OSA_BufHndl Q) (E F W R : list Z).

(** The ids free ([E]), filled ([F]), with the producer ([W]) and with the
    readers ([R]): each id is in one place. *)
Record pool_inv h E F W R : Prop := {
  pi_num : 0 < numBuf h ≤ OSA_BUF_NUM_MAX;
  pi_readers : 0 < numReaders h < 2 ^ 31;
  pi_empty : q_model (emptyQue h) E;
  pi_full : q_model (fullQue h) F;
  pi_ecap : q_cap (emptyQue h) = numBuf h;
  pi_fcap : q_cap (fullQue h) = numBuf h;
  pi_ids : E ++ F ++ W ++ R ≡ₚ seqZ 0 (numBuf h);
  pi_cur : zlen (curReaders h) = OSA_BUF_NUM_MAX;
  pi_count id : id ∈ F ++ R → ∃ c, aget (curReaders h) id = Some c ∧ 0 ≤ c < numReaders h;
  pi_fresh id : id ∈ F → aget (curReaders h) id = Some 0
}.

Lemma pi_range h E F W R id : pool_inv h E F W R → id ∈ E ++ F ++ W ++ R → 0 ≤ id < numBuf h.
Proof. intros Hi Hid. rewrite (pi_ids _ _ _ _ _ Hi), elem_of_seqZ in Hid. lia. Qed.

Lemma pi_NoDup h E F W R : pool_inv h E F W R → NoDup (E ++ F ++ W ++ R).
Proof. intros Hi. rewrite (pi_ids _ _ _ _ _ Hi). apply NoDup_seqZ. Qed.

Lemma nodup_ne (l l' : list Z) id id' : NoDup l → l ≡ₚ id :: l' → id' ∈ l' → id' ≠ id.
Proof. intros Hnd Hp Hin ->. rewrite Hp in Hnd. by apply NoDup_cons in Hnd as [? _]. Qed.

Lemma pi_length h E F W R :
  pool_inv h E F W R → zlen E + zlen F + zlen W + zlen R = numBuf h.
Proof.
  intros Hi. pose proof (Permutation_length (pi_ids _ _ _ _ _ Hi)) as Hl.
  rewrite !length_app, length_seqZ in Hl. pose proof (pi_num _ _ _ _ _ Hi). unfold zlen. lia.
Qed.

Lemma in_range_test h id : 0 ≤ id < numBuf h → (numBuf h <=? id) || (id <? 0) = false.
Proof. lia. Qed.

Lemma get_empty_ret h E F W R t :
  pool_inv h E F W R →
  match E with
  | id :: E' => ∃ h', OSA_bufGetEmpty t h = Ret (OSA_SOK, id) h' ∧ pool_inv h' E' F (id :: W) R
  | [] => OSA_bufGetEmpty t h =
            if t =? OSA_TIMEOUT_NONE then Ret (OSA_SOK, OSA_BUF_ID_INVALID) h else Blk h
  end.
Proof.
  intros Hi. pose proof Hi as []. unfold OSA_bufGetEmpty, on_empty, zoom. destruct E as [|id E].
  - unfold mbind, CM_bind. rewrite (q_get_empty _ t pi_empty0). destruct (t =? _); by destruct h.
  - destruct (q_get_ok _ id E t pi_empty0) as (q' & Eq & Hm & Hcap).
    unfold mbind, CM_bind. rewrite Eq. eexists. split; [done|].
    split; cbn; try done; [by rewrite Hcap|]. rewrite <- pi_ids0. solve_Permutation.
Qed.

Lemma get_full_ret h E F W R t :
  pool_inv h E F W R →
  match F with
  | id :: F' => ∃ h', OSA_bufGetFull t h = Ret (OSA_SOK, id) h' ∧ pool_inv h' E F' W (id :: R)
  | [] => OSA_bufGetFull t h =
            if t =? OSA_TIMEOUT_NONE then Ret (OSA_SOK, OSA_BUF_ID_INVALID) h else Blk h
  end.
Proof.
  intros Hi. pose proof Hi as []. unfold OSA_bufGetFull, on_full, zoom. destruct F as [|id F].
  - unfold mbind, CM_bind. rewrite (q_get_empty _ t pi_full0). destruct (t =? _); by destruct h.
  - destruct (q_get_ok _ id F t pi_full0) as (q' & Eq & Hm & Hcap).
    unfold mbind, CM_bind. rewrite Eq. eexists. split; [done|].
    split; cbn; try done; [by rewrite Hcap|rewrite <- pi_ids0; solve_Permutation| |].
    + intros id' Hid'. apply pi_count0. set_solver.
    + intros id' Hid'. apply pi_fresh0. set_solver.
Qed.

Lemma put_full_ret h E F W W' R id :
  pool_inv h E F W R → W ≡ₚ id :: W' →
  ∃ h', OSA_bufPutFull id h = Ret OSA_SOK h' ∧ pool_inv h' E (F ++ [id]) W' R.
Proof.
  intros Hi HW. pose proof Hi as []. pose proof (pi_length _ _ _ _ _ Hi) as Hl.
  assert (Hr : 0 ≤ id < numBuf h) by (eapply pi_range; [done|]; rewrite HW, !elem_of_app, elem_of_cons; tauto).
  pose proof (pi_NoDup _ _ _ _ _ Hi) as Hnd. rewrite HW in Hnd.
  assert (zlen W = zlen W' + 1) as HlW by (apply Permutation_length in HW; unfold zlen; rewrite HW; cbn; lia).
  pose proof (zlen_nonneg E). pose proof (zlen_nonneg W'). pose proof (zlen_nonneg R).
  destruct (q_put_ok _ F id OSA_TIMEOUT_FOREVER pi_full0) as (q' & Eq & Hm & Hcap); [lia|].
  unfold OSA_bufPutFull. rewrite (bind_ret _ _ _ (numBuf h) h), (in_range_test h id Hr) by done.
  rewrite (bind_ret _ _ _ tt (h <| curReaders ::= <[Z.to_nat id := 0]> |>))
    by (unfold set_reader; rewrite aset_Some by lia; done).
  unfold on_full, zoom. unfold mbind, CM_bind. cbn. rewrite Eq. eexists. split; [done|].
  assert (Hnot : ∀ id', id' ∈ F ++ R → id' ≠ id).
  { intros id' Hin. apply (nodup_ne _ (E ++ F ++ W' ++ R) id id' Hnd); [solve_Permutation|].
    rewrite !elem_of_app in *. tauto. }
  split; cbn; try done; [by rewrite Hcap| |by rewrite zlen_insert| |].
  - rewrite <- pi_ids0, HW. solve_Permutation.
  - intros id' Hid'. rewrite aget_insert by lia. case_decide; [exists 0; split; [done|lia]|].
    apply pi_count0. set_solver.
  - intros id' Hid'. rewrite aget_insert by lia. case_decide; [done|]. apply pi_fresh0. set_solver.
Qed.

Lemma put_empty_ret h E F W R R' id c :
  pool_inv h E F W R → R ≡ₚ id :: R' → aget (curReaders h) id = Some c →
  ∃ h', OSA_bufPutEmpty id h = Ret OSA_SOK h' ∧
    aget (curReaders h') id = Some (c + 1) ∧ numReaders h' = numReaders h ∧
    if c + 1 =? numReaders h then pool_inv h' (E ++ [id]) F W R' else pool_inv h' E F W R.
Proof.
  intros Hi HR Hc. pose proof Hi as []. pose proof (pi_length _ _ _ _ _ Hi) as Hl.
  assert (Hr : 0 ≤ id < numBuf h) by (eapply pi_range; [done|]; rewrite HR, !elem_of_app, elem_of_cons; tauto).
  pose proof (pi_NoDup _ _ _ _ _ Hi) as Hnd. rewrite HR in Hnd.
  destruct (pi_count0 id) as (c' & Hc' & Hcr); [rewrite HR; set_solver|].
  assert (c' = c) as -> by congruence.
  assert (zlen R = zlen R' + 1) as HlR by (apply Permutation_length in HR; unfold zlen; rewrite HR; cbn; lia).
  pose proof (zlen_nonneg F). pose proof (zlen_nonneg W). pose proof (zlen_nonneg R').
  unfold OSA_bufPutEmpty. rewrite (bind_ret _ _ _ (numBuf h) h), (in_range_test h id Hr) by done.
  rewrite (bind_ret _ _ _ (curReaders h) h) by done.
  rewrite (bind_ret _ _ _ c h) by (unfold rd; by rewrite Hc).
  rewrite (i32_id (c + 1)) by (unfold in_i32; lia).
  rewrite (bind_ret _ _ _ tt (h <| curReaders ::= <[Z.to_nat id := c + 1]> |>))
    by (unfold set_reader; rewrite aset_Some by lia; done).
  rewrite (bind_ret _ _ _ (numReaders h) (h <| curReaders ::= <[Z.to_nat id := c + 1]> |>)) by done.
  assert (Hnot : ∀ id', id' ∈ F ++ R' → id' ≠ id).
  { intros id' Hin. apply (nodup_ne _ (E ++ F ++ W ++ R') id id' Hnd); [solve_Permutation|].
    rewrite !elem_of_app in *. tauto. }
  destruct (c + 1 =? numReaders h) eqn:Ec.
  - destruct (q_put_ok _ E id OSA_TIMEOUT_FOREVER pi_empty0) as (q' & Eq & Hm & Hcap); [lia|].
    unfold on_empty, zoom. unfold mbind, CM_bind. cbn. rewrite Eq. eexists. split; [done|].
    split; [cbn; apply aget_insert_eq; lia|]. split; [done|].
    split; cbn; try done; [by rewrite Hcap| |by rewrite zlen_insert| |].
    + rewrite <- pi_ids0, HR. solve_Permutation.
    + intros id' Hid'. rewrite aget_insert_ne by (lia || (apply not_eq_sym; by apply Hnot)).
      apply pi_count0. rewrite HR. set_solver.
    + intros id' Hid'. rewrite aget_insert_ne by (lia || (apply not_eq_sym, Hnot; set_solver)).
      by apply pi_fresh0.
  - eexists. split; [done|]. split; [cbn; apply aget_insert_eq; lia|]. split; [done|].
    split; cbn; try done; [by rewrite zlen_insert| |].
    + intros id' Hid'. rewrite aget_insert by lia. case_decide; [exists (c + 1); split; [done|lia]|].
      by apply pi_count0.
    + intros id' Hid'. rewrite aget_insert_ne by (lia || (apply not_eq_sym, Hnot; set_solver)).
      by apply pi_fresh0.
Qed.

(** ** The calls of a producer and of the readers *)

(** The producer's buffers and the readers', each with the releases still due. *)
Definition pconf : Type := OSA_BufHndl Q * list Z * list (Z * Z).

(** A get or a put that conforms: only a buffer one has is put; a filled buffer taken
    by [OSA_bufGetFull] is released [numReaders] times. *)
Inductive call_step : pconf → pconf → Prop :=
  | ps_get_empty t id h h' W D : OSA_bufGetEmpty t h = Ret (OSA_SOK, id) h' →
      call_step (h, W, D) (h', if id =? OSA_BUF_ID_INVALID then W else id :: W, D)
  | ps_put_full id r h h' W W' D : W ≡ₚ id :: W' → OSA_bufPutFull id h = Ret r h' →
      call_step (h, W, D) (h', W', D)
  | ps_get_full t id h h' W D : OSA_bufGetFull t h = Ret (OSA_SOK, id) h' →
      call_step (h, W, D) (h', W, if id =? OSA_BUF_ID_INVALID then D else (id, numReaders h) :: D)
  | ps_put_empty id k r h h' W D D' : D ≡ₚ (id, k) :: D' → OSA_bufPutEmpty id h = Ret r h' →
      call_step (h, W, D) (h', W, if k =? 1 then D' else (id, k - 1) :: D').

(** What a thread holds when it gave one buffer and got [x]. *)
Definition with_got {A} (x : Z) (y : A) (l : list A) : list A := if x =? OSA_BUF_ID_INVALID then l else y :: l.
Definition released_once (id k : Z) (D' : list (Z * Z)) : list (Z * Z) := if k =? 1 then D' else (id, k - 1) :: D'.

(** All calls. A switch gives a buffer one has, or none with the invalid id, for the one it
    gets; it is a get and a put with the mutex of each queue taken once, so that calls that come
    between the two are among the sequences of gets and puts. *)
Inductive pool_step : pconf → pconf → Prop :=
  | ps_call c c' : call_step c c' → pool_step c c'
  | ps_switch_full id r x h h' W W' D :
      (if id =? OSA_BUF_ID_INVALID then W' = W else W ≡ₚ id :: W') → OSA_bufSwitchFull id h = Ret (r, x) h' →
      pool_step (h, W, D) (h', with_got x x W', D)
  | ps_switch_empty id k r x h h' W D D1 :
      (if id =? OSA_BUF_ID_INVALID then D1 = with_got x (x, numReaders h) D
       else ∃ D', D ≡ₚ (id, k) :: D' ∧ D1 = released_once id k (with_got x (x, numReaders h) D')) →
      OSA_bufSwitchEmpty id h = Ret (r, x) h' → pool_step (h, W, D) (h', W, D1).

Definition conf_inv (c : pconf) (E F : list Z) : Prop :=
  pool_inv c.1.1 E F c.1.2 c.2.*1 ∧
  ∀ id k, (id, k) ∈ c.2 → 1 ≤ k ∧ aget (curReaders c.1.1) id = Some (numReaders c.1.1 - k).

Lemma get_empty_cur t h r h' :
  OSA_bufGetEmpty t h = Ret r h' → curReaders h' = curReaders h ∧ numReaders h' = numReaders h.
Proof.
  unfold OSA_bufGetEmpty, on_empty, zoom, mbind, CM_bind.
  destruct (q_get t (emptyQue h)); [|done|done]. by intros [= _ <-].
Qed.

Lemma get_full_cur t h r h' :
  OSA_bufGetFull t h = Ret r h' → curReaders h' = curReaders h ∧ numReaders h' = numReaders h.
Proof.
  unfold OSA_bufGetFull, on_full, zoom, mbind, CM_bind.
  destruct (q_get t (fullQue h)); [|done|done]. by intros [= _ <-].
Qed.

(** A put changes the count of its buffer only. *)
Lemma put_full_cur id h r h' j :
  OSA_bufPutFull id h = Ret r h' → j ≠ id →
  aget (curReaders h') j = aget (curReaders h) j ∧ numReaders h' = numReaders h.
Proof.
  unfold OSA_bufPutFull, set_reader, on_full, zoom. run. intros E Hj.
  destruct (_ || _); [by injection E as _ <-|]. cbn in E.
  destruct (aset (curReaders h) id 0) as [l|] eqn:Ea; [|done]. apply aset_is_Some in Ea as [Hr ->].
  destruct (q_put id _ _); [|done|done]. injection E as _ <-. cbn. by rewrite aget_insert_ne by lia.
Qed.

Lemma put_empty_cur id h r h' j :
  OSA_bufPutEmpty id h = Ret r h' → j ≠ id → aget (curReaders h') j = aget (curReaders h) j.
Proof.
  unfold OSA_bufPutEmpty, set_reader, on_empty, zoom. run. intros E Hj.
  destruct (_ || _); [by injection E as _ <-|]. cbn in E.
  destruct (aget (curReaders h) id) as [c|]; [|done]. cbn in E.
  destruct (aset (curReaders h) id _) as [l|] eqn:Ea; [|done]. apply aset_is_Some in Ea as [Hr ->].
  cbn in E. destruct (_ =? _).
  - destruct (q_put id _ _); [|done|done]. injection E as _ <-. cbn. by rewrite aget_insert_ne by lia.
  - injection E as _ <-. cbn. by rewrite aget_insert_ne by lia.
Qed.

Lemma invalid_not_id h E F W R id : pool_inv h E F W R → id ∈ E ++ F ++ W ++ R → (id =? OSA_BUF_ID_INVALID) = false.
Proof. intros Hi Hid. pose proof (pi_range _ _ _ _ _ id Hi Hid). unfold OSA_BUF_ID_INVALID. lia. Qed.

Lemma call_step_inv c c' : (∃ E F, conf_inv c E F) → call_step c c' → ∃ E F, conf_inv c' E F.
Proof.
  intros (E & F & Hi & Hk) Hst. unfold conf_inv in *.
  destruct Hst as [t id h h' W D Hc|id r h h' W W' D HW Hc|t id h h' W D Hc|id k r h h' W D D' HD Hc];
    cbn in *.
  - pose proof (get_empty_ret h E F W _ t Hi) as Hg. destruct (get_empty_cur _ _ _ _ Hc) as [-> ->].
    destruct E as [|x E].
    + rewrite Hc in Hg. destruct (t =? _); [|done]. simplify_eq. by exists [], F.
    + destruct Hg as (h2 & E2 & Hi2). rewrite Hc in E2. simplify_eq.
      rewrite (invalid_not_id _ _ _ _ _ x Hi) by set_solver. by exists E, F.
  - destruct (put_full_ret h E F W W' _ id Hi HW) as (h2 & E2 & Hi2). rewrite Hc in E2. simplify_eq.
    exists E, (F ++ [id]). split; [done|]. intros id' k' Hin.
    assert (id' ≠ id) as Hne.
    { pose proof (pi_NoDup _ _ _ _ _ Hi) as Hnd.
      apply (nodup_ne _ (E ++ F ++ W' ++ D.*1) id id' Hnd); [rewrite HW; solve_Permutation|].
      rewrite !elem_of_app. right. right. right. apply list_elem_of_fmap. by exists (id', k'). }
    destruct (put_full_cur _ _ _ _ id' Hc Hne) as [-> ->]. by apply Hk.
  - pose proof (get_full_ret h E F W _ t Hi) as Hg. destruct (get_full_cur _ _ _ _ Hc) as [Ec En].
    rewrite Ec, En. destruct F as [|x F].
    + rewrite Hc in Hg. destruct (t =? _); [|done]. simplify_eq. by exists E, [].
    + destruct Hg as (h2 & E2 & Hi2). rewrite Hc in E2. simplify_eq.
      rewrite (invalid_not_id _ _ _ _ _ x Hi) by (rewrite !elem_of_app; set_solver). exists E, F.
      split; [done|]. intros id' k' [[= -> ->]|Hin]%elem_of_cons; [|by apply Hk].
      split; [pose proof (pi_readers _ _ _ _ _ Hi); lia|]. rewrite Z.sub_diag.
      apply (pi_fresh _ _ _ _ _ Hi). by left.
  - destruct (Hk id k) as [Hk1 Hcur]; [rewrite HD; by left|].
    assert (HR : D.*1 ≡ₚ id :: D'.*1) by (by rewrite HD).
    destruct (put_empty_ret h E F W _ _ id _ Hi HR Hcur) as (h2 & E2 & Hcur2 & Hnr & Hpi).
    rewrite Hc in E2. simplify_eq.
    assert (Hrest : ∀ id' k', (id', k') ∈ D' → 1 ≤ k' ∧ aget (curReaders h2) id' = Some (numReaders h2 - k')).
    { intros id' k' Hin. assert (id' ≠ id) as Hne.
      { pose proof (pi_NoDup _ _ _ _ _ Hi) as Hnd.
        apply (nodup_ne _ (E ++ F ++ W ++ D'.*1) id id' Hnd); [rewrite HR; solve_Permutation|].
        rewrite !elem_of_app. right. right. right. apply list_elem_of_fmap. by exists (id', k'). }
      rewrite (put_empty_cur _ _ _ _ id' Hc Hne), Hnr. apply Hk. rewrite HD. by right. }
    destruct (k =? 1) eqn:Ek.
    + assert ((numReaders h - k + 1 =? numReaders h) = true) as Et by lia. rewrite Et in Hpi.
      by exists (E ++ [id]), F.
    + assert ((numReaders h - k + 1 =? numReaders h) = false) as Et by lia. rewrite Et in Hpi.
      exists E, F. split.
      * destruct Hpi as [? ? ? ? ? ? Hids ? Hcnt ?]. split; try done.
        -- cbn. by rewrite <- HR.
        -- cbn. intros id' Hin. apply Hcnt. by rewrite HR.
      * intros id' k' [[= -> ->]|Hin]%elem_of_cons; [|by apply Hrest].
        split; [lia|]. rewrite Hcur2, Hnr. f_equal. lia.
Qed.

(** A switch is its get and its put. *)
Lemma switch_full_calls id h r x h' : OSA_bufSwitchFull id h = Ret (r, x) h' →
  ∃ h1, OSA_bufGetEmpty OSA_TIMEOUT_NONE h = Ret (OSA_SOK, x) h1 ∧
    if id =? OSA_BUF_ID_INVALID then h' = h1 else ∃ r', OSA_bufPutFull id h1 = Ret r' h'.
Proof.
  unfold OSA_bufSwitchFull. intros E. apply bind_inv in E as ([s y] & h1 & E1 & E).
  assert (s = OSA_SOK) as -> by (unfold OSA_bufGetEmpty in E1; apply bind_inv in E1 as (? & ? & _ & [= <- _ _]); done).
  exists h1. cbn [fst] in E. change (OSA_SOK =? OSA_SOK) with true in E. cbv iota in E. destruct (id =? OSA_BUF_ID_INVALID); cbn [negb] in E.
  - rewrite (bind_ret (mret 0) _ _ 0 h1) in E by done. by injection E as _ <- <-.
  - apply bind_inv in E as (r' & h2 & E2 & E). injection E as _ <- <-. split; [done|by exists r'].
Qed.
Lemma switch_empty_calls id h r x h' : OSA_bufSwitchEmpty id h = Ret (r, x) h' →
  ∃ h1, OSA_bufGetFull OSA_TIMEOUT_NONE h = Ret (OSA_SOK, x) h1 ∧
    if id =? OSA_BUF_ID_INVALID then h' = h1 else ∃ r', OSA_bufPutEmpty id h1 = Ret r' h'.
Proof.
  unfold OSA_bufSwitchEmpty. intros E. apply bind_inv in E as ([s y] & h1 & E1 & E).
  assert (s = OSA_SOK) as -> by (unfold OSA_bufGetFull in E1; apply bind_inv in E1 as (? & ? & _ & [= <- _ _]); done).
  exists h1. cbn [fst] in E. change (OSA_SOK =? OSA_SOK) with true in E. cbv iota in E. destruct (id =? OSA_BUF_ID_INVALID); cbn [negb] in E.
  - rewrite (bind_ret (mret 0) _ _ 0 h1) in E by done. by injection E as _ <- <-.
  - apply bind_inv in E as (r' & h2 & E2 & E). injection E as _ <- <-. split; [done|by exists r'].
Qed.

Lemma with_got_perm {B} x (y z : B) l l' : l ≡ₚ z :: l' → with_got x y l ≡ₚ z :: with_got x y l'.
Proof. intros Hp. unfold with_got. destruct (x =? _); [done|]. rewrite Hp. apply Permutation_swap. Qed.

Lemma pool_step_inv c c' : (∃ E F, conf_inv c E F) → pool_step c c' → ∃ E F, conf_inv c' E F.
Proof.
  intros Hi Hst. destruct Hst as [c c' Hst|id r x h h' W W' D HW E|id k r x h h' W D D1 HD E].
  - by eapply call_step_inv.
  - apply switch_full_calls in E as (h1 & E1 & E2). pose proof (call_step_inv _ _ Hi (ps_get_empty _ _ _ _ W D E1)) as Hi1.
    destruct (id =? OSA_BUF_ID_INVALID); [by subst|]. destruct E2 as (r' & E2). refine (call_step_inv _ _ Hi1 (ps_put_full _ _ _ _ _ _ D _ E2)).
    exact (with_got_perm x x id W W' HW).
  - apply switch_empty_calls in E as (h1 & E1 & E2). pose proof (call_step_inv _ _ Hi (ps_get_full _ _ _ _ W D E1)) as Hi1.
    destruct (id =? OSA_BUF_ID_INVALID); [by subst|]. destruct E2 as (r' & E2), HD as (D' & HD & ->).
    refine (call_step_inv _ _ Hi1 (ps_put_empty _ k _ _ _ W _ _ _ E2)). exact (with_got_perm x (x, numReaders h) (id, k) D D' HD).
Qed.

(** What a switch of the readers does. *)
Lemma switch_empty_ret h E F W R R' id c :
  pool_inv h E F W R → R ≡ₚ id :: R' → aget (curReaders h) id = Some c →
  ∃ h', OSA_bufSwitchEmpty id h = Ret (OSA_SOK, match F with x :: _ => x | [] => OSA_BUF_ID_INVALID end) h' ∧
    q_model (fullQue h') (tail F) ∧ q_model (emptyQue h') (if c + 1 =? numReaders h then E ++ [id] else E).
Proof.
  intros Hi HR Hc. pose proof (get_full_ret h E F W R OSA_TIMEOUT_NONE Hi) as Hg.
  assert (Hid : negb (id =? OSA_BUF_ID_INVALID) = true).
  { rewrite (invalid_not_id _ _ _ _ _ id Hi); [done|]. rewrite HR, !elem_of_app, elem_of_cons. tauto. }
  assert (Hput : ∀ h1 F' R1, pool_inv h1 E F' W R1 → (∃ R2, R1 ≡ₚ id :: R2) → curReaders h1 = curReaders h ∧ numReaders h1 = numReaders h →
    ∃ h', OSA_bufPutEmpty id h1 = Ret OSA_SOK h' ∧ q_model (fullQue h') F' ∧ q_model (emptyQue h') (if c + 1 =? numReaders h then E ++ [id] else E)).
  { intros h1 F' R1 Hi1 (R2 & HR1) [Ec En]. destruct (put_empty_ret h1 E F' W R1 R2 id c Hi1 HR1) as (h' & E1 & _ & _ & Hp); [by rewrite Ec|].
    exists h'. split; [exact E1|]. rewrite En in Hp. destruct (c + 1 =? numReaders h); split; apply Hp. }
  unfold OSA_bufSwitchEmpty. destruct F as [|x F]; cbn [tail] in *.
  - assert (Eg : OSA_bufGetFull OSA_TIMEOUT_NONE h = Ret (OSA_SOK, OSA_BUF_ID_INVALID) h) by exact Hg.
    destruct (Hput h [] R Hi) as (h' & E1 & Hm); [by eexists|done|]. exists h'. split; [|exact Hm].
    rewrite (bind_ret _ _ _ _ _ Eg). cbn [fst]. change (OSA_SOK =? OSA_SOK) with true. rewrite Hid, (bind_ret _ _ _ _ _ E1). done.
  - destruct Hg as (h1 & Eg & Hi1). destruct (Hput h1 F (x :: R) Hi1) as (h' & E1 & Hm);
      [exists (x :: R'); rewrite HR; apply Permutation_swap|by eapply get_full_cur|]. exists h'. split; [|exact Hm].
    rewrite (bind_ret _ _ _ _ _ Eg). cbn [fst]. change (OSA_SOK =? OSA_SOK) with true. rewrite Hid, (bind_ret _ _ _ _ _ E1). done.
Qed.

(** Switching a buffer the producer has with a free one fills it in and
    gives the longest-free buffer; but with no buffer free the call still returns
    success, hands the producer's buffer on and leaves it the invalid id. *)
Lemma switch_full_ret h E F W W' R id :
  pool_inv h E F W R → W ≡ₚ id :: W' →
  ∃ h', OSA_bufSwitchFull id h =
      Ret (OSA_SOK, match E with x :: _ => x | [] => OSA_BUF_ID_INVALID end) h' ∧
    q_model (fullQue h') (F ++ [id]) ∧
    pool_inv h' (tail E) (F ++ [id]) (match E with x :: _ => x :: W' | [] => W' end) R.
Proof.
  intros Hi HW. pose proof (get_empty_ret h E F W R OSA_TIMEOUT_NONE Hi) as Hg.
  assert (Hid : negb (id =? OSA_BUF_ID_INVALID) = true).
  { rewrite (invalid_not_id _ _ _ _ _ id Hi); [done|]. rewrite HW, !elem_of_app, elem_of_cons. tauto. }
  unfold OSA_bufSwitchFull. destruct E as [|x E]; cbn in Hg.
  - rewrite (bind_ret _ _ _ _ _ Hg). cbn [fst]. cbn. rewrite Hid.
    destruct (put_full_ret h [] F W W' R id Hi HW) as (h' & E1 & Hi').
    rewrite (bind_ret _ _ _ _ _ E1). exists h'. split; [done|]. split; [apply Hi'|done].
  - destruct Hg as (h1 & E1 & Hi1). rewrite (bind_ret _ _ _ _ _ E1). cbn [fst]. cbn. rewrite Hid.
    destruct (put_full_ret h1 E F (x :: W) (x :: W') R id Hi1) as (h' & E2 & Hi'); [rewrite HW; solve_Permutation|].
    rewrite (bind_ret _ _ _ _ _ E2). exists h'. split; [done|]. split; [apply Hi'|done].
Qed.

Definition pool_start h : Prop :=
  0 < numBuf h ≤ OSA_BUF_NUM_MAX ∧ 0 < numReaders h < 2 ^ 31 ∧
  zlen (curReaders h) = OSA_BUF_NUM_MAX ∧ q_cap (emptyQue h) = numBuf h ∧ q_cap (fullQue h) = numBuf h ∧
  q_model (emptyQue h) (seqZ 0 (numBuf h)) ∧ q_model (fullQue h) [].

(** C18: however the producer and the readers interleave their gets, puts and switches, every
    buffer of the pool is in exactly one place (free, filled, with the producer
    or with the readers); a put of a buffer one has never sleeps and returns
    success, and so does a switch of it, which passes it on as a put does and gives the
    longest-waiting buffer of the other queue, or the invalid id when there is none; a buffer returns to the
    free ones with the last of the [numReaders]
    releases and no earlier; and when nobody holds a buffer, one can be taken. *)
Theorem buf_pool_safe h0 h W D :
  pool_start h0 → rtc pool_step (h0, [], []) (h, W, D) →
  ∃ E F, q_model (emptyQue h) E ∧ q_model (fullQue h) F ∧
    E ++ F ++ W ++ D.*1 ≡ₚ seqZ 0 (numBuf h) ∧
    (∀ id, id ∈ W → ∃ h', OSA_bufPutFull id h = Ret OSA_SOK h' ∧ q_model (fullQue h') (F ++ [id])) ∧
    (∀ id k, (id, k) ∈ D → ∃ h', OSA_bufPutEmpty id h = Ret OSA_SOK h' ∧
       q_model (emptyQue h') (if k =? 1 then E ++ [id] else E)) ∧
    (∀ id, id ∈ W → ∃ h', OSA_bufSwitchFull id h = Ret (OSA_SOK, default OSA_BUF_ID_INVALID (head E)) h' ∧
       q_model (fullQue h') (F ++ [id]) ∧ q_model (emptyQue h') (tail E)) ∧
    (∀ id k, (id, k) ∈ D → ∃ h', OSA_bufSwitchEmpty id h = Ret (OSA_SOK, default OSA_BUF_ID_INVALID (head F)) h' ∧
       q_model (fullQue h') (tail F) ∧ q_model (emptyQue h') (if k =? 1 then E ++ [id] else E)) ∧
    (W = [] → D = [] → E ≠ [] ∨ F ≠ []).
Proof.
  intros (Hn & Hr & Hc & He & Hf & Hm & Hm2) Hrtc.
  destruct (rtc_invariant pool_step (fun c => ∃ E F, conf_inv c E F) _ _ pool_step_inv Hrtc)
    as (E & F & Hi & Hk); cbn in *.
  { exists (seqZ 0 (numBuf h0)), []. split; cbn; [|by intros ? ? ?%elem_of_nil].
    split; try done; [by rewrite !app_nil_r|by intros ? ?%elem_of_nil|by intros ? ?%elem_of_nil]. }
  exists E, F. split_and!; [apply Hi|apply Hi|apply Hi|..].
  - intros id (W' & HW)%elem_of_Permutation.
    destruct (put_full_ret h E F W W' _ id Hi HW) as (h' & E1 & Hi'). exists h'. split; [done|apply Hi'].
  - intros id k Hin. destruct (Hk id k Hin) as [Hk1 Hcur].
    apply elem_of_Permutation in Hin as [D' HD].
    assert (HR : D.*1 ≡ₚ id :: D'.*1) by (by rewrite HD).
    destruct (put_empty_ret h E F W _ _ id _ Hi HR Hcur) as (h' & E1 & _ & _ & Hpi).
    exists h'. split; [done|].
    destruct (k =? 1) eqn:Ek.
    + assert ((numReaders h - k + 1 =? numReaders h) = true) as Et by lia. rewrite Et in Hpi. apply Hpi.
    + assert ((numReaders h - k + 1 =? numReaders h) = false) as Et by lia. rewrite Et in Hpi. apply Hpi.
  - intros id (W' & HW)%elem_of_Permutation. destruct (switch_full_ret h E F W W' _ id Hi HW) as (h' & E1 & Hm' & Hi'). exists h'.
    split; [by destruct E|]. split; [exact Hm'|apply Hi'].
  - intros id k Hin. destruct (Hk id k Hin) as [_ Hcur]. apply elem_of_Permutation in Hin as [D' HD].
    assert (HR : D.*1 ≡ₚ id :: D'.*1) by (by rewrite HD).
    destruct (switch_empty_ret h E F W _ _ id _ Hi HR Hcur) as (h' & E1 & Hm1 & Hm3). exists h'. split; [by destruct F|]. split; [exact Hm1|].
    replace (k =? 1) with (numReaders h - k + 1 =? numReaders h); [exact Hm3|]. destruct (k =? 1) eqn:Ek; lia.
  - intros -> ->. pose proof (pi_length _ _ _ _ _ Hi) as Hl. pose proof (pi_num _ _ _ _ _ Hi).
    destruct E; [right|by left]. destruct F; [|done]. cbn in Hl. unfold zlen in Hl. cbn in Hl. lia.
Qed.

End Pool.

(** * Creation *)

Definition fill_inv (prm : OSA_BufCreate) (h0 h : OSA_BufHndl (OSA_QueHndl Z)) (k : Z) : Prop :=
  ring_holds (emptyQue h) (seqZ 0 k) ∧ len (emptyQue h) = bc_numBuf prm ∧
  fullQue h = fullQue h0 ∧ numBuf h = numBuf h0 ∧ numReaders h = numReaders h0 ∧
  zlen (curReaders h) = OSA_BUF_NUM_MAX ∧ zlen (bufInfo h) = OSA_BUF_NUM_MAX ∧
  ∀ i, 0 ≤ i < k → ∃ p v, aget (bufPhyAddr prm) i = Some p ∧ aget (bufVirtAddr prm) i = Some v ∧
    aget (bufInfo h) i = Some (mkBufInfo 0 0 0 p v).

Lemma fill_loop prm h0 (k : nat) :
  bc_numBuf prm ≤ OSA_BUF_NUM_MAX →
  zlen (bufPhyAddr prm) = OSA_BUF_NUM_MAX → zlen (bufVirtAddr prm) = OSA_BUF_NUM_MAX →
  Z.of_nat k ≤ bc_numBuf prm → fill_inv prm h0 h0 0 →
  ∃ h, for_each (seqZ 0 (Z.of_nat k)) (fill_one prm) h0 = Ret tt h ∧ fill_inv prm h0 h (Z.of_nat k).
Proof.
  intros Hn Hp Hv. induction k as [|k IH]; intros Hk H0; [by exists h0|].
  destruct IH as (h & E & He & Hlen & Hf & Hnb & Hnr & Hc & Hb & Hinfo); [lia|done|].
  assert (is_Some (aget (bufPhyAddr prm) (Z.of_nat k))) as [p Hpk] by (apply aget_is_Some; lia).
  assert (is_Some (aget (bufVirtAddr prm) (Z.of_nat k))) as [v Hvk] by (apply aget_is_Some; lia).
  destruct (ring_put_ok (emptyQue h) (seqZ 0 (Z.of_nat k)) (Z.of_nat k) OSA_TIMEOUT_FOREVER He) as (q & Eq & Hq & Hql).
  { unfold zlen. rewrite length_seqZ. lia. }
  eexists. split.
  - rewrite seqZ_S, for_each_app. rewrite (bind_ret _ _ _ _ _ E). rewrite Z.add_0_l. cbn [for_each].
    unfold fill_one. rewrite (bind_ret _ _ _ tt (h <| bufInfo ::= <[Z.to_nat (Z.of_nat k) := mkBufInfo 0 0 0 p v]> |>
      <| curReaders ::= <[Z.to_nat (Z.of_nat k) := 0]> |> <| emptyQue := q |>)); [done|].
    unfold set_reader, on_empty, zoom. run. rewrite Hpk, Hvk. cbn. rewrite aset_Some by lia. cbn.
    rewrite aset_Some by lia. cbn. by rewrite Eq.
  - split_and!; cbn; rewrite ?zlen_insert; try done.
    + by rewrite seqZ_S, Z.add_0_l.
    + by rewrite Hql.
    + intros i Hi. rewrite aget_insert by lia. destruct (decide (i = Z.of_nat k)) as [->|]; [by eauto|].
      apply Hinfo. lia.
Qed.

(** Creating a pool of 1 to 16 buffers returns success with every buffer
    free, in index order, its addresses those given, and a reader count of at
    least one; more than 16 buffers are refused, and a failed allocation or
    initialisation returns its status. *)
Theorem buf_create_pool prm m1 m2 h :
  0 < bc_numBuf prm → bc_numReaders prm < 2 ^ 31 →
  zlen (bufPhyAddr prm) = OSA_BUF_NUM_MAX → zlen (bufVirtAddr prm) = OSA_BUF_NUM_MAX →
  zlen m1 = bc_numBuf prm → zlen m2 = bc_numBuf prm →
  (bc_numBuf prm ≤ OSA_BUF_NUM_MAX →
   ∃ h', OSA_bufCreate prm (Some m1) (Some m2) 0 h = Ret OSA_SOK h' ∧ pool_start h' ∧
    numBuf h' = bc_numBuf prm ∧ numReaders h' = Z.max 1 (bc_numReaders prm) ∧
    ∀ i, 0 ≤ i < bc_numBuf prm → ∃ b, OSA_bufGetBufInfo i h' = Ret (Some b) h' ∧
      aget (bufPhyAddr prm) i = Some (physAddr b) ∧ aget (bufVirtAddr prm) i = Some (virtAddr b)) ∧
  (OSA_BUF_NUM_MAX < bc_numBuf prm → OSA_bufCreate prm (Some m1) (Some m2) 0 h = Ret OSA_EFAIL h) ∧
  (bc_numBuf prm ≤ OSA_BUF_NUM_MAX → ∃ h', OSA_bufCreate prm None (Some m2) 0 h = Ret OSA_EFAIL h').
Proof.
  intros Hn Hr Hp Hv H1 H2. split_and!; intros Hmax; unfold OSA_bufCreate.
  - assert ((OSA_BUF_NUM_MAX <? bc_numBuf prm) = false) as -> by lia.
    cbn [OSA_queCreate fst snd]. change (Z.lor OSA_SOK 0 =? OSA_SOK) with true. cbn [negb].
    set (q1 := mkQue 0 0 (bc_numBuf prm) 0 m1). set (q2 := mkQue 0 0 (bc_numBuf prm) 0 m2).
    match goal with |- context [(fun _ => Ret tt ?x)] => set (h1 := x) end.
    rewrite (bind_ret _ _ _ tt h1) by done.
    destruct (ring_create_ok m1 (bc_numBuf prm)) as (q1' & E1 & Hq1 & _); [unfold OSA_BUF_NUM_MAX in *; lia|done|].
    destruct (ring_create_ok m2 (bc_numBuf prm)) as (q2' & E2 & Hq2 & _); [unfold OSA_BUF_NUM_MAX in *; lia|done|].
    injection E1 as <-. injection E2 as <-. fold q1 in Hq1. fold q2 in Hq2.
    destruct (fill_loop prm h1 (Z.to_nat (bc_numBuf prm))) as (h' & E & He & Hlen & Hf & Hnb & Hnr & Hc & Hb & Hinfo);
      [done|done|done|lia| |].
    { split_and!; try done. intros; lia. }
    rewrite Z2Nat.id in E, He, Hinfo by lia. rewrite (bind_ret _ _ _ tt h') by exact E.
    exists h'. split; [done|]. unfold pool_start. rewrite Hnb, Hnr, Hf. unfold h1 at 1 2 3 4 5 6 7 8. cbn.
    split_and!; try done; try (unfold h1; cbn; destruct (bc_numReaders prm <=? 0) eqn:Eb; lia).
    intros i Hi. destruct (Hinfo i Hi) as (p & v & E1 & E2 & E3).
      exists (mkBufInfo 0 0 0 p v). split; [|done]. unfold OSA_bufGetBufInfo. run. rewrite Hnb. cbn.
      destruct (bc_numBuf prm <=? i) eqn:Et; [lia|]. by rewrite E3.
  - by assert ((OSA_BUF_NUM_MAX <? bc_numBuf prm) = true) as -> by lia.
  - assert ((OSA_BUF_NUM_MAX <? bc_numBuf prm) = false) as -> by lia. by eexists.
Qed.

(** * A pool of two buffers and two readers *)

Definition prm0 : OSA_BufCreate := mkBufCreate 2 2 (replicate 16 5) (replicate 16 6).
Definition pool0 : OSA_BufHndl (OSA_QueHndl Z) := Eval vm_compute in
  match OSA_bufCreate prm0 (Some [0; 0]) (Some [0; 0]) 0
          (mkBuf [] [] 0 (mkQue 0 0 0 0 []) (mkQue 0 0 0 0 []) 0) with
  | Ret _ h => h
  | _ => mkBuf [] [] 0 (mkQue 0 0 0 0 []) (mkQue 0 0 0 0 []) 0
  end.

Lemma pool0_queues : ring_holds (emptyQue pool0) [0; 1] ∧ ring_holds (fullQue pool0) [].
Proof.
  split; split; cbn; try done; try lia.
  - intros k Hk. change (zlen [0; 1]) with 2 in Hk.
    assert (k = 0 ∨ k = 1) as [-> | ->] by lia; reflexivity.
  - intros k Hk. change (zlen []) with 0 in Hk. lia.
Qed.

Lemma pool0_start : pool_start pool0.
Proof. split_and!; try done; apply pool0_queues. Qed.

Lemma buf_create_pool_witness :
  ∃ h', OSA_bufCreate prm0 (Some [0; 0]) (Some [0; 0]) 0 pool0 = Ret OSA_SOK h' ∧ pool_start h'.
Proof.
  destruct (buf_create_pool prm0 [0; 0] [0; 0] pool0) as (Hc & _); try done.
  destruct Hc as (h' & E & Hs & _); [done|]. exists h'. exact (conj E Hs).
Defined.

Definition after {A} (m : CM (OSA_BufHndl (OSA_QueHndl Z)) A) (h : OSA_BufHndl (OSA_QueHndl Z)) :=
  match m h with Ret _ h' => h' | _ => h end.
(** The producer fills 0 and switches it for 1, a reader takes 0, the producer hands 1 on without
    a free buffer to get, and the reader gives its first release of 0 and gets 1. *)
Definition pool1 := Eval vm_compute in after (OSA_bufGetEmpty 0) pool0.
Definition pool2 := Eval vm_compute in after (OSA_bufSwitchFull 0) pool1.
Definition pool3 := Eval vm_compute in after (OSA_bufGetFull 0) pool2.
Definition pool4 := Eval vm_compute in after (OSA_bufSwitchFull 1) pool3.
Definition pool5 := Eval vm_compute in after (OSA_bufSwitchEmpty 0) pool4.

Lemma pool5_reached : rtc pool_step (pool0, [], []) (pool5, [], [(0, 1); (1, 2)]).
Proof.
  eapply rtc_l; [exact (ps_call _ _ (ps_get_empty 0 0 pool0 pool1 [] [] eq_refl))|].
  eapply rtc_l; [exact (ps_switch_full 0 0 1 pool1 pool2 [0] [] [] (Permutation_refl _) eq_refl)|].
  eapply rtc_l; [exact (ps_call _ _ (ps_get_full 0 0 pool2 pool3 [1] [] eq_refl))|].
  eapply rtc_l; [exact (ps_switch_full 1 0 (-1) pool3 pool4 [1] [] [(0, 2)] (Permutation_refl _) eq_refl)|].
  eapply rtc_l; [refine (ps_switch_empty 0 2 0 1 pool4 pool5 [] [(0, 2)] _ _ eq_refl); exists []; split; reflexivity|]. apply rtc_refl.
Qed.

Lemma buf_pool_safe_witness :
  ∃ E F h', E ++ F ++ [] ++ [0; 1] ≡ₚ seqZ 0 2 ∧ OSA_bufSwitchEmpty 0 pool5 = Ret (OSA_SOK, default OSA_BUF_ID_INVALID (head F)) h' ∧
    q_model (emptyQue pool5) E ∧ q_model (emptyQue h') (E ++ [0]).
Proof.
  destruct (buf_pool_safe pool0 pool5 [] [(0, 1); (1, 2)] pool0_start pool5_reached)
    as (E & F & HE & _ & Hp & _ & _ & _ & HD & _).
  destruct (HD 0 1) as (h' & E1 & _ & HE'); [by left|]. exists E, F, h'. exact (conj Hp (conj E1 (conj HE HE'))).
Defined.
