(* ===== verification/OsaSync.v ===== *)
(** * Flags, semaphores, mutexes and threads ([utils/osa/src/osa_flg.c],
    [osa_sem.c], [osa_mutex.c], [osa_thr.c])

    A call of a flag or semaphore holds the object's mutex until it returns or
    sleeps, so each run of its critical section is one step; [flg_step] and
    [sem_step] add the threads asleep on the condition variable and the wake-up
    of one of them by a signal. The statuses of the pthread calls are arguments. *)

From S2P Require Import Prelude OsaQue.

(** * Flags *)

Module Flg.

Definition OSA_FLG_MODE_AND : Z := 0x1.
Definition OSA_FLG_MODE_OR : Z := 0x2.
Definition OSA_FLG_MODE_CLR : Z := 0x4.

(** The pattern; [~x] of a [Uint32] is [bnot x]. *)
Record OSA_FlgHndl := mkFlg { pattern : Z }.

#[export] Instance eta_Flg : Eta OSA_FlgHndl := fun h => mkFlg (pattern h).

Definition bnot (x : Z) : Z := Z.lxor x (2 ^ 32 - 1).

Definition OSA_flgCreate (pst initPattern : Z) : Z * OSA_FlgHndl :=
  (Z.lor OSA_SOK pst, mkFlg initPattern).

(** The test of the loop. *)
Definition found (h : OSA_FlgHndl) (pat mode : Z) : bool :=
  let setPattern := Z.land (pattern h) pat in
  if negb (Z.land mode OSA_FLG_MODE_AND =? 0) then setPattern =? pat
  else negb (setPattern =? 0).

(** The loop up to the first return or sleep; a woken thread runs it again. *)
Definition OSA_flgWait (pat mode timeout : Z) : CM OSA_FlgHndl Z := fun h =>
  if found h pat mode then
    Ret OSA_SOK
      (if negb (Z.land mode OSA_FLG_MODE_CLR =? 0)
       then h <| pattern := Z.land (pattern h) (bnot (Z.land (pattern h) pat)) |> else h)
  else if timeout =? OSA_TIMEOUT_NONE then Ret OSA_EFAIL h
  else Blk h.

(** [sig] is the status of [pthread_cond_signal]. *)
Definition OSA_flgSet (sig pat : Z) : CM OSA_FlgHndl Z := fun h =>
  Ret (Z.lor OSA_SOK sig) (h <| pattern := Z.lor (pattern h) pat |>).

Definition OSA_flgClear (pat : Z) : CM OSA_FlgHndl Z := fun h =>
  Ret OSA_SOK (h <| pattern := Z.land (pattern h) (bnot pat) |>).

Definition OSA_flgIsSet (pat : Z) : CM OSA_FlgHndl Z :=
  status ← OSA_flgWait pat OSA_FLG_MODE_AND OSA_TIMEOUT_NONE;
  if negb (status =? OSA_SOK) then mret 0 else mret 1.

(** ** Bits *)

Definition bit (h : OSA_FlgHndl) (i : Z) : bool := Z.testbit (pattern h) i.

Lemma testbit_u32_high x i : in_u32 x → 32 ≤ i → Z.testbit x i = false.
Proof.
  intros [H0 H1] Hi. destruct (decide (x = 0)) as [->|]; [apply Z.bits_0|].
  apply Z.bits_above_log2; [lia|]. apply Z.log2_lt_pow2; [lia|].
  eapply Z.lt_le_trans; [exact H1|]. apply Z.pow_le_mono_r; lia.
Qed.

Lemma testbit_ones i : 0 ≤ i → Z.testbit (2 ^ 32 - 1) i = bool_decide (i < 32).
Proof.
  intros Hi. change (2 ^ 32 - 1) with (Z.ones 32). destruct (decide (i < 32)).
  - rewrite Z.ones_spec_low by lia. by rewrite bool_decide_true.
  - rewrite Z.ones_spec_high by lia. by rewrite bool_decide_false.
Qed.

Lemma bnot_spec x i : 0 ≤ i < 32 → Z.testbit (bnot x) i = negb (Z.testbit x i).
Proof.
  intros Hi. unfold bnot. rewrite Z.lxor_spec, testbit_ones, bool_decide_true by lia.
  by destruct (Z.testbit x i).
Qed.

Lemma land_u32 x y : in_u32 x → 0 ≤ y → in_u32 (Z.land x y).
Proof.
  intros [H0 H1] Hy. assert (0 ≤ Z.land x y) by (apply Z.land_nonneg; lia).
  split; [done|]. destruct (decide (Z.land x y = 0)) as [->|]; [lia|].
  apply Z.log2_lt_pow2; [lia|]. eapply Z.le_lt_trans; [by apply Z.log2_land|].
  destruct (decide (x = 0)) as [->|]; [by rewrite Z.land_0_l in *|].
  assert (Z.log2 x < 32) by (apply Z.log2_lt_pow2; lia). lia.
Qed.

Lemma eq_bits x y : in_u32 x → in_u32 y →
  (∀ i, 0 ≤ i < 32 → Z.testbit x i = Z.testbit y i) → x = y.
Proof.
  intros Hx Hy Hb. apply Z.bits_inj'. intros i Hi. destruct (decide (i < 32)); [apply Hb; lia|].
  rewrite !testbit_u32_high by (done || lia). done.
Qed.

Lemma land_eq_iff x p : in_u32 x → in_u32 p →
  (Z.land x p =? p) = true ↔ ∀ i, 0 ≤ i < 32 → Z.testbit p i = true → Z.testbit x i = true.
Proof.
  intros Hx Hp. rewrite Z.eqb_eq. split.
  - intros E i Hi Hpi. rewrite <- E, Z.land_spec in Hpi. by apply andb_true_iff in Hpi as [? _].
  - intros H. apply eq_bits; [apply land_u32; [done|apply Hp]|done|]. intros i Hi.
    rewrite Z.land_spec. destruct (Z.testbit p i) eqn:E; [by rewrite (H i Hi E)|by rewrite andb_false_r].
Qed.

Lemma land_nz_iff x p : in_u32 x → in_u32 p →
  (Z.land x p =? 0) = false ↔ ∃ i, 0 ≤ i < 32 ∧ Z.testbit p i = true ∧ Z.testbit x i = true.
Proof.
  intros Hx Hp. rewrite Z.eqb_neq. split.
  - intros Hne. destruct (existsb (fun i => Z.testbit p i && Z.testbit x i) (seqZ 0 32)) eqn:E.
    + apply existsb_exists in E as (i & Hi%list_elem_of_In & E). apply elem_of_seqZ in Hi.
      apply andb_true_iff in E as [? ?]. exists i. split_and!; [lia|lia|done|done].
    + exfalso. apply Hne. apply eq_bits; [apply land_u32; [done|apply Hp]|unfold in_u32; lia|].
      intros i Hi. rewrite Z.land_spec, Z.bits_0. destruct (Z.testbit x i) eqn:E1; [|done]. cbn.
      destruct (Z.testbit p i) eqn:E2; [|done].
      assert (existsb (fun i => Z.testbit p i && Z.testbit x i) (seqZ 0 32) = true); [|congruence].
      apply existsb_exists. exists i. split; [apply list_elem_of_In, elem_of_seqZ; lia|]. by rewrite E1, E2.
  - intros (i & Hi & E1 & E2) E. assert (Z.testbit (Z.land x p) i = true) as Ht
      by (by rewrite Z.land_spec, E1, E2). by rewrite E, Z.bits_0 in Ht.
Qed.

(** When a waiter may go on. *)
Definition ready (h : OSA_FlgHndl) (pat mode : Z) : Prop :=
  if negb (Z.land mode OSA_FLG_MODE_AND =? 0)
  then ∀ i, 0 ≤ i < 32 → Z.testbit pat i = true → bit h i = true
  else ∃ i, 0 ≤ i < 32 ∧ Z.testbit pat i = true ∧ bit h i = true.

Lemma found_ready h pat mode :
  in_u32 (pattern h) → in_u32 pat → found h pat mode = true ↔ ready h pat mode.
Proof.
  intros Hh Hp. unfold found, ready, bit. destruct (negb (Z.land mode OSA_FLG_MODE_AND =? 0)).
  - by apply land_eq_iff.
  - rewrite negb_true_iff. by apply land_nz_iff.
Qed.

(** A wait for flags goes on exactly when all bits of the pattern (mode AND)
    or one of them (mode OR) are set; with CLR it then clears these bits of the
    pattern and no others; otherwise it fails at once without a timeout and
    sleeps with one, leaving the flags as they are. Set and clear change exactly
    the bits of their pattern, and [OSA_flgIsSet] reports whether all are set. *)
Theorem flg_spec h pat mode t sig i :
  in_u32 (pattern h) → in_u32 pat → 0 ≤ i < 32 →
  (ready h pat mode → ∃ h', OSA_flgWait pat mode t h = Ret OSA_SOK h' ∧ in_u32 (pattern h') ∧
     bit h' i = bit h i && negb (negb (Z.land mode OSA_FLG_MODE_CLR =? 0) && Z.testbit pat i)) ∧
  (¬ ready h pat mode → OSA_flgWait pat mode t h = if t =? OSA_TIMEOUT_NONE then Ret OSA_EFAIL h else Blk h) ∧
  (∃ h', OSA_flgSet sig pat h = Ret sig h' ∧ bit h' i = bit h i || Z.testbit pat i) ∧
  (∃ h', OSA_flgClear pat h = Ret OSA_SOK h' ∧ bit h' i = bit h i && negb (Z.testbit pat i)) ∧
  (∃ b, OSA_flgIsSet pat h = Ret b h ∧ (b = 1 ↔ ready h pat OSA_FLG_MODE_AND)).
Proof.
  intros Hh Hp Hi. split_and!.
  - intros Hr. apply found_ready in Hr; [|done..]. unfold OSA_flgWait. rewrite Hr. eexists. split; [done|].
    destruct (negb (Z.land mode OSA_FLG_MODE_CLR =? 0)); cbn; [|by rewrite andb_true_r].
    split.
    + apply land_u32; [done|]. unfold bnot. apply Z.lxor_nonneg. split; [lia|].
      intros _. apply Z.land_nonneg. left. apply Hh.
    + unfold bit. cbn. rewrite Z.land_spec, bnot_spec, Z.land_spec by lia.
      by destruct (Z.testbit (pattern h) i), (Z.testbit pat i).
  - intros Hr. unfold OSA_flgWait. destruct (found h pat mode) eqn:E; [|done].
    by apply found_ready in E.
  - exists (mkFlg (Z.lor (pattern h) pat)). split; [done|]. unfold bit. cbn. by rewrite Z.lor_spec.
  - exists (mkFlg (Z.land (pattern h) (bnot pat))). split; [done|]. unfold bit. cbn.
    by rewrite Z.land_spec, bnot_spec.
  - unfold OSA_flgIsSet, OSA_flgWait. run.
    destruct (found h pat OSA_FLG_MODE_AND) eqn:E; cbn; eexists; (split; [done|]).
    + split; [|done]. intros _. by apply found_ready.
    + split; [done|]. intros Hr. apply found_ready in Hr; [|done..]. congruence.
Qed.

Lemma flg_spec_witness :
  ∃ h', OSA_flgWait 6 5 7 (mkFlg 14) = Ret OSA_SOK h' ∧ bit h' 2 = false ∧ pattern h' = 8.
Proof.
  destruct (flg_spec (mkFlg 14) 6 5 7 0 2) as ((h' & E & _ & Hb) & _); [by split|by split|done| |].
  - apply found_ready; [by split|by split|reflexivity].
  - exists h'. split; [exact E|]. split; [rewrite Hb; reflexivity|].
    by injection E as <-.
Defined.

(** ** Threads *)

(** The flags, the waiters asleep and those woken but not yet running, each
    with its pattern and mode. *)
Record flg_conf := mkFConf {
  fc_flg : OSA_FlgHndl;
  fc_sleep : list (Z * Z);
  fc_woken : list (Z * Z)
}.

(** [pthread_cond_signal]: any one of the sleepers. *)
Inductive flg_signal : flg_conf → flg_conf → Prop :=
  | fsig_none h wk : flg_signal (mkFConf h [] wk) (mkFConf h [] wk)
  | fsig_one h l1 w l2 wk : flg_signal (mkFConf h (l1 ++ w :: l2) wk) (mkFConf h (l1 ++ l2) (w :: wk)).

Inductive flg_wait_run (w : Z * Z) : flg_conf → flg_conf → Prop :=
  | fw_done h h' r sl wk : OSA_flgWait w.1 w.2 OSA_TIMEOUT_FOREVER h = Ret r h' →
      flg_wait_run w (mkFConf h sl wk) (mkFConf h' sl wk)
  | fw_sleep h h' sl wk : OSA_flgWait w.1 w.2 OSA_TIMEOUT_FOREVER h = Blk h' →
      flg_wait_run w (mkFConf h sl wk) (mkFConf h' (w :: sl) wk).

Inductive flg_step : flg_conf → flg_conf → Prop :=
  | fst_wait w c c' : flg_wait_run w c c' → flg_step c c'
  | fst_resume w h sl l1 l2 c' : flg_wait_run w (mkFConf h sl (l1 ++ l2)) c' →
      flg_step (mkFConf h sl (l1 ++ w :: l2)) c'
  | fst_set pat h h' r sl wk c' : OSA_flgSet 0 pat h = Ret r h' → flg_signal (mkFConf h' sl wk) c' →
      flg_step (mkFConf h sl wk) c'
  | fst_clear pat h h' r sl wk : OSA_flgClear pat h = Ret r h' →
      flg_step (mkFConf h sl wk) (mkFConf h' sl wk).

(** A set can wake the wrong waiter: with two threads that wait for
    different flags, setting the flag of one may wake only the other, which
    sleeps again; the flag stays set, its waiter stays asleep although it could
    go on, and no thread is awake to wake it. *)
Theorem flg_lost_wakeup :
  ∃ c w, rtc flg_step (mkFConf (mkFlg 0) [] []) c ∧
    w ∈ fc_sleep c ∧ ready (fc_flg c) w.1 w.2 ∧ fc_woken c = [].
Proof.
  exists (mkFConf (mkFlg 1) [(2, 1); (1, 1)] []), (1, 1). split_and!.
  - eapply rtc_l. { apply (fst_wait (1, 1)). by eapply fw_sleep. }
    eapply rtc_l. { apply (fst_wait (2, 1)). by eapply fw_sleep. }
    eapply rtc_l. { eapply (fst_set 1); [done|]. exact (fsig_one _ [] (2, 1) [(1, 1)] []). }
    eapply rtc_l. { apply (fst_resume (2, 1) _ _ [] []). by eapply fw_sleep. }
    apply rtc_refl.
  - by right; left.
  - apply found_ready; [by split|by split|reflexivity].
  - done.
Qed.

End Flg.

(** * Counting semaphores *)

Module Sem.

Record OSA_SemHndl := mkSem { count : Z; maxCount : Z }.

#[export] Instance eta_Sem : Eta OSA_SemHndl := fun h => mkSem (count h) (maxCount h).

Definition OSA_semCreate (pst maxC initVal : Z) : Z * OSA_SemHndl :=
  let h := mkSem initVal maxC in
  let h := if maxCount h =? 0 then h <| maxCount := 1 |> else h in
  let h := if maxCount h <? count h then h <| count := maxCount h |> else h in
  (Z.lor OSA_SOK pst, h).

Definition OSA_semWait (timeout : Z) : CM OSA_SemHndl Z := fun h =>
  if 0 <? count h then Ret OSA_SOK (h <| count := u32 (count h - 1) |>)
  else if timeout =? OSA_TIMEOUT_NONE then Ret OSA_EFAIL h
  else Blk h.

(** The result, and whether the condition variable is signalled. *)
Definition OSA_semSignal (sig : Z) : CM OSA_SemHndl (Z * bool) := fun h =>
  if count h <? maxCount h
  then Ret (Z.lor OSA_SOK sig, true) (h <| count := u32 (count h + 1) |>)
  else Ret (OSA_SOK, false) h.

(** The semaphore, the threads asleep and woken, and how many waits have been
    granted and signals accepted. *)
Record sem_conf := mkSConf {
  sc_sem : OSA_SemHndl;
  sc_sleep : Z;
  sc_woken : Z;
  sc_granted : Z;
  sc_signals : Z
}.

#[export] Instance eta_sem_conf : Eta sem_conf := fun c =>
  mkSConf (sc_sem c) (sc_sleep c) (sc_woken c) (sc_granted c) (sc_signals c).

Inductive sem_wait_run : sem_conf → sem_conf → Prop :=
  | sw_done c h : OSA_semWait OSA_TIMEOUT_FOREVER (sc_sem c) = Ret OSA_SOK h →
      sem_wait_run c (c <| sc_sem := h |> <| sc_granted := sc_granted c + 1 |>)
  | sw_sleep c h : OSA_semWait OSA_TIMEOUT_FOREVER (sc_sem c) = Blk h →
      sem_wait_run c (c <| sc_sem := h |> <| sc_sleep := sc_sleep c + 1 |>).

Definition sem_wake (c : sem_conf) : sem_conf :=
  if 0 <? sc_sleep c
  then c <| sc_sleep := sc_sleep c - 1 |> <| sc_woken := sc_woken c + 1 |> else c.

Inductive sem_step : sem_conf → sem_conf → Prop :=
  | ss_wait c c' : sem_wait_run c c' → sem_step c c'
  | ss_resume c c' : 0 < sc_woken c → sem_wait_run (c <| sc_woken := sc_woken c - 1 |>) c' → sem_step c c'
  | ss_signal c r h : OSA_semSignal 0 (sc_sem c) = Ret (r, true) h →
      sem_step c (sem_wake (c <| sc_sem := h |> <| sc_signals := sc_signals c + 1 |>))
  | ss_signal_full c r h : OSA_semSignal 0 (sc_sem c) = Ret (r, false) h → sem_step c (c <| sc_sem := h |>)
  | ss_spurious c : 0 < sc_sleep c → sem_step c (c <| sc_sleep := sc_sleep c - 1 |> <| sc_woken := sc_woken c + 1 |>).

(** [v0] is the initial count. *)
Record sem_inv (v0 m : Z) (rw : Z) (c : sem_conf) : Prop := {
  sv_max : maxCount (sc_sem c) = m;
  sv_bound : 0 ≤ count (sc_sem c) ≤ m;
  sv_count : count (sc_sem c) = v0 + sc_signals c - sc_granted c;
  sv_sleep : 0 ≤ sc_sleep c;
  sv_woken : 0 ≤ sc_woken c;
  sv_wake : 0 < sc_sleep c → count (sc_sem c) ≤ rw
}.

Lemma wait_run_inv v0 m rw c c' :
  0 < m < 2 ^ 32 → sem_inv v0 m rw c → rw ≤ sc_woken c + 1 → sem_wait_run c c' → sem_inv v0 m (sc_woken c') c'.
Proof.
  intros Hm [Hx Hb Hc Hs Hw Hk] Hrw Hrun.
  destruct Hrun as [c h E|c h E]; unfold OSA_semWait in E; destruct (0 <? count (sc_sem c)) eqn:E0; try done.
  - rewrite u32_id in E by (unfold in_u32; lia). injection E as <-. split; cbn; lia || done.
  - injection E as <-. split; cbn; lia || done.
Qed.

Lemma sem_step_inv v0 m c c' :
  0 < m < 2 ^ 32 → sem_inv v0 m (sc_woken c) c → sem_step c c' → sem_inv v0 m (sc_woken c') c'.
Proof.
  intros Hm Hi Hst. destruct Hst as [c c' Hr|c c' Hwk Hr|c r h E|c r h E|c Hs].
  - eapply wait_run_inv; [done|exact Hi|lia|done].
  - eapply (wait_run_inv v0 m (sc_woken c)); [done| | |exact Hr]; [|cbn; lia].
    destruct Hi. split; cbn; lia || done.
  - destruct Hi as [Hx Hb Hc Hs Hw Hk]. unfold OSA_semSignal in E.
    destruct (count (sc_sem c) <? maxCount (sc_sem c)) eqn:E0; [|done].
    rewrite u32_id in E by (unfold in_u32; lia).
    injection E as <- <-. unfold sem_wake. cbn.
    destruct (0 <? sc_sleep c) eqn:E1; split; cbn; lia || done.
  - unfold OSA_semSignal in E. destruct (_ <? _); [done|]. injection E as <- <-.
    by destruct Hi; split.
  - destruct Hi as [Hx Hb Hc ? Hw Hk]. split; cbn; lia || done.
Qed.

(** Under any interleaving, with spurious wake-ups, the count of a semaphore
    stays between 0 and its maximum (at least 1) and equals the initial count
    plus the accepted signals minus the granted waits; and a waiter sleeps with
    no woken thread to run only while the count is 0. *)
Theorem sem_safe maxC v h c :
  in_u32 maxC → in_u32 v → OSA_semCreate 0 maxC v = (OSA_SOK, h) →
  rtc sem_step (mkSConf h 0 0 0 0) c →
  0 ≤ count (sc_sem c) ≤ Z.max 1 maxC ∧
  count (sc_sem c) = Z.min v (Z.max 1 maxC) + sc_signals c - sc_granted c ∧
  (0 < sc_sleep c → sc_woken c = 0 → count (sc_sem c) = 0).
Proof.
  intros [HM0 HM] [Hv0 Hv] Hcr Hr.
  assert (Hm : 0 < Z.max 1 maxC < 2 ^ 32) by lia.
  destruct (rtc_invariant sem_step (fun c => sem_inv (Z.min v (Z.max 1 maxC)) (Z.max 1 maxC) (sc_woken c) c) _ _
    (fun x y => sem_step_inv _ _ x y Hm) Hr) as [Hx Hb Hc Hs Hw Hk].
  - unfold OSA_semCreate in Hcr. injection Hcr as <-. cbn.
    destruct (maxC =? 0) eqn:E0; cbn.
    + destruct (1 <? v) eqn:E1; split; cbn; lia.
    + destruct (maxC <? v) eqn:E1; split; cbn; lia.
  - split_and!; lia.
Qed.

Lemma sem_safe_witness :
  ∃ c, rtc sem_step (mkSConf (mkSem 1 1) 0 0 0 0) c ∧ sc_sleep c = 1 ∧ count (sc_sem c) = 0.
Proof.
  assert (Hr : rtc sem_step (mkSConf (mkSem 1 1) 0 0 0 0) (mkSConf (mkSem 0 1) 1 0 1 0)).
  { eapply rtc_l; [apply ss_wait; by eapply sw_done|].
    eapply rtc_l; [apply ss_wait; by eapply sw_sleep|]. apply rtc_refl. }
  exists (mkSConf (mkSem 0 1) 1 0 1 0). split; [exact Hr|]. split; [done|].
  apply (sem_safe 1 5 (mkSem 1 1) (mkSConf (mkSem 0 1) 1 0 1 0)); [by split|by split|done|exact Hr|done|done].
Defined.

End Sem.

(** * Mutexes and threads *)

Module Thr.

(** A mutex is held or not; the status is that of the pthread call. *)
Definition OSA_mutexCreate (st_attr st_init : Z) : Z * bool :=
  (Z.lor (Z.lor OSA_SOK st_attr) st_init, false).
Definition OSA_mutexLock : CM bool Z := fun held => if held then Blk true else Ret 0 true.
Definition OSA_mutexUnlock : CM bool Z := fun _ => Ret 0 false.
Definition OSA_mutexDelete : Z := OSA_SOK.

Definition OSA_THR_PRI_MAX : Z := 99.
Definition OSA_THR_PRI_MIN : Z := 1.

Inductive thr_call :=
  | PthreadCreate (prm : Z)
  | PthreadJoin
  | PthreadCancel
  | PthreadSetPri (pri : Z).

(** The statuses of [pthread_attr_init] and of the call proper, in order; the
    state is the log of the calls. The priority and stack size are ignored. *)
Definition OSA_thrCreate (st_attr st_create pri stackSize prm : Z) : CM (list thr_call) Z :=
  if negb (st_attr =? OSA_SOK) then mret st_attr
  else _ ← modify (fun l => l ++ [PthreadCreate prm]); mret st_create.
Definition OSA_thrJoin (st : Z) : CM (list thr_call) Z :=
  _ ← modify (fun l => l ++ [PthreadJoin]); mret st.
Definition OSA_thrDelete (st_cancel st_join : Z) : CM (list thr_call) Z :=
  _ ← modify (fun l => l ++ [PthreadCancel]);
  s ← OSA_thrJoin st_join;
  mret (Z.lor (Z.lor OSA_SOK st_cancel) s).
Definition OSA_thrChangePri (st pri : Z) : CM (list thr_call) Z :=
  let pri := if OSA_THR_PRI_MAX <? pri then OSA_THR_PRI_MAX
             else if pri <? OSA_THR_PRI_MIN then OSA_THR_PRI_MIN else pri in
  _ ← modify (fun l => l ++ [PthreadSetPri pri]); mret (Z.lor OSA_SOK st).

Lemma change_pri_range st pri l r l' :
  OSA_thrChangePri st pri l = Ret r l' →
  ∃ p, l' = l ++ [PthreadSetPri p] ∧ OSA_THR_PRI_MIN ≤ p ≤ OSA_THR_PRI_MAX ∧
    (OSA_THR_PRI_MIN ≤ pri ≤ OSA_THR_PRI_MAX → p = pri).
Proof.
  unfold OSA_thrChangePri. run. intros [= _ <-]. eexists. split; [done|].
  unfold OSA_THR_PRI_MIN, OSA_THR_PRI_MAX.
  destruct (99 <? pri) eqn:E1; [lia|]. destruct (pri <? 1) eqn:E2; lia.
Qed.

End Thr.
