(* ===== verification/OsaMsg.v ===== *)
(** * Messages, mailboxes and tasks ([utils/osa/src/osa_msgq.c], [osa_mbx.c], [osa_tsk.c])

    Messages live on the heap and travel by address through message queues; a
    mailbox is a receive queue and a queue for acknowledgements. The model keeps
    the queues (through the contract of OsaQue.v), the allocated messages and the
    allocated parameter blocks, so that a free of freed memory is a fault. A
    call that waits ends in [Blk] with the state as it is then; the loop it waits
    in is a definition of its own, which is what runs on when it is woken. *)

From S2P Require Import Prelude OsaQue.

Definition OSA_MSGQ_LEN_MAX : Z := 32.
Definition OSA_MBX_WAIT_ACK : Z := 0x0002.
Definition OSA_MBX_FREE_PRM : Z := 0x0004.
Definition OSA_MBX_BROADCAST_MAX : Z := 10.

Definition has (flags f : Z) : bool := negb (Z.land flags f =? 0).

(** Queues by number; [pFrom] is NULL for a message nobody waits for. *)
Record OSA_MsgHndl := mkMsg {
  pTo : Z;
  pFrom : option Z;
  pPrm : Z;                       (* 0 is NULL *)
  status : Z;
  cmd : Z;
  flags : Z
}.
#[export] Instance eta_Msg : Eta OSA_MsgHndl := fun m =>
  mkMsg (pTo m) (pFrom m) (pPrm m) (status m) (cmd m) (flags m).

Record MsgW (Q : Type) := mkMsgW {
  queues : list Q;
  heap : gmap Z OSA_MsgHndl;
  prms : gset Z
}.
Arguments mkMsgW {Q}. Arguments queues {Q}. Arguments heap {Q}. Arguments prms {Q}.
#[export] Instance eta_MsgW Q : Eta (MsgW Q) := fun w => mkMsgW (queues w) (heap w) (prms w).

(** The queue of [OSA_msgqCreate]; [pst] is the or of the pthread statuses. *)
Definition OSA_msgqCreate (pst : Z) (buf : list Z) : Z * OSA_QueHndl Z :=
  (Z.lor OSA_SOK pst, mkQue 0 0 OSA_MSGQ_LEN_MAX 0 buf).

Section Messages.
Context {Q : Type} {HQ : FifoQueue Q Z}.
(** [malloc(sizeof(OSA_MsgHndl))]: an address that is not in use, or NULL. *)
Context (malloc : MsgW Q → option Z).

#[local] Abbreviation W := (MsgW Q).

Definition on_queue {A} (i : Z) (m : CM Q A) : CM W A := fun w =>
  match aget (queues w) i with
  | None => Flt OutOfBounds
  | Some q =>
      let put q' := w <| queues ::= <[Z.to_nat i := q']> |> in
      match m q with
      | Ret a q' => Ret a (put q')
      | Blk q' => Blk (put q')
      | Flt f => Flt f
      end
  end.

Definition OSA_assertSuccess (st : Z) : CM W unit :=
  if st =? OSA_SOK then mret tt else fault_with AssertStop.
Definition OSA_assert (b : bool) : CM W unit := if b then mret tt else fault_with AssertStop.

(** Access to a message and the two frees. *)
Definition get_msg (a : Z) : CM W OSA_MsgHndl := fun w =>
  match heap w !! a with Some m => Ret m w | None => Flt UseAfterFree end.
Definition upd_msg (a : Z) (f : OSA_MsgHndl → OSA_MsgHndl) : CM W unit := fun w =>
  match heap w !! a with Some m => Ret tt (w <| heap ::= <[a := f m]> |>) | None => Flt UseAfterFree end.
Definition free_prm (p : Z) : CM W unit := fun w =>
  if decide (p ∈ prms w) then Ret tt (w <| prms ::= (.∖ {[p]}) |>) else Flt UseAfterFree.

(** ** osa_msgq.c *)

Definition OSA_msgqAllocMsgHndl (to : Z) (from : option Z) (cmd prm msgFlags : Z) : CM W (option Z) := fun w =>
  match malloc w with
  | None => Ret None w
  | Some a => Ret (Some a) (w <| heap ::= <[a := mkMsg to from prm OSA_SOK (u16 cmd) (u16 msgFlags)]> |>)
  end.

Definition OSA_msgqSend (q msg timeout : Z) : CM W Z := on_queue q (q_put msg timeout).

Definition OSA_msgqSendMsg (to : Z) (from : option Z) (cmd prm msgFlags : Z) : CM W (Z * option Z) :=
  data ← OSA_msgqAllocMsgHndl to from cmd prm msgFlags;
  match data with
  | None => mret (OSA_EFAIL, None)
  | Some a =>
      st ← OSA_msgqSend to a OSA_TIMEOUT_FOREVER;
      mret (st, if st =? OSA_SOK then Some a else None)
  end.

Definition OSA_msgqRecvMsg (q timeout : Z) : CM W (Z * option Z) := on_queue q (q_get timeout).

Definition OSA_msgqSendAck (msg ackRetVal : Z) : CM W Z :=
  _ ← upd_msg msg (fun m => m <| status := ackRetVal |>);
  m ← get_msg msg;
  match pFrom m with
  | None => fault_with NullDeref
  | Some q => OSA_msgqSend q msg OSA_TIMEOUT_FOREVER
  end.

Definition OSA_msgqFreeMsgHndl (msg : Z) : CM W Z := fun w =>
  match heap w !! msg with
  | Some _ => Ret OSA_SOK (w <| heap ::= delete msg |>)
  | None => Flt UseAfterFree
  end.

(** ** osa_mbx.c: the queues of mailbox [b] *)

Definition rcvMbx (b : Z) : Z := 2 * b.
Definition ackMbx (b : Z) : Z := 2 * b + 1.

Definition OSA_mbxFreeMsg (pMsg : Z) : CM W Z :=
  m ← get_msg pMsg;
  _ ← (if has (flags m) OSA_MBX_FREE_PRM then
         if negb (pPrm m =? 0) then free_prm (pPrm m) else mret tt
       else mret tt);
  st ← OSA_msgqFreeMsgHndl pMsg;
  _ ← OSA_assertSuccess st;
  mret OSA_SOK.

(** A pointer stored by a successful receive. *)
Definition received (r : Z * option Z) : CM W Z :=
  match r.2 with Some a => mret a | None => fault_with UninitRead end.

(** The loop that waits for the acknowledgement of [sent]. *)
Fixpoint wait_ack (fuel : nat) (ack sent : Z) : CM W (option Z) :=
  match fuel with
  | O => mret None
  | S fuel =>
      r ← OSA_msgqRecvMsg ack OSA_TIMEOUT_FOREVER;
      _ ← OSA_assertSuccess r.1;
      pRcvMsg ← received r;
      if pRcvMsg =? sent then
        m ← get_msg pRcvMsg;
        _ ← OSA_mbxFreeMsg pRcvMsg;
        mret (Some (status m))
      else
        _ ← OSA_mbxFreeMsg pRcvMsg;
        wait_ack fuel ack sent
  end.

Definition OSA_mbxSendMsg (fuel : nat) (to from : option Z) (cmd prm fl : Z) : CM W (option Z) :=
  match to with
  | None => fault_with AssertStop
  | Some to =>
      _ ← (match from with
           | None => OSA_assert (negb (has fl OSA_MBX_WAIT_ACK))
           | Some _ => mret tt
           end);
      let ack := ackMbx <$> from in
      r ← OSA_msgqSendMsg (rcvMbx to) ack cmd prm fl;
      _ ← OSA_assertSuccess r.1;
      match ack with
      | Some ack =>
          if has fl OSA_MBX_WAIT_ACK then sent ← received r; wait_ack fuel ack sent else mret (Some r.1)
      | None => mret (Some r.1)
      end
  end.

Definition OSA_mbxWaitMsg (b : Z) : CM W (Z * option Z) :=
  r ← OSA_msgqRecvMsg (rcvMbx b) OSA_TIMEOUT_FOREVER;
  _ ← OSA_assertSuccess r.1;
  mret r.

Definition OSA_mbxCheckMsg (b : Z) : CM W (Z * option Z) := OSA_msgqRecvMsg (rcvMbx b) OSA_TIMEOUT_NONE.

Definition OSA_mbxAckOrFreeMsg (pMsg : option Z) (ackRetVal : Z) : CM W Z :=
  match pMsg with
  | None => mret OSA_EFAIL
  | Some a =>
      m ← get_msg a;
      if has (flags m) OSA_MBX_WAIT_ACK then
        st ← OSA_msgqSendAck a ackRetVal;
        _ ← OSA_assertSuccess st;
        mret st
      else
        _ ← OSA_mbxFreeMsg a;
        mret OSA_SOK
  end.

(** The two loops of [OSA_mbxFlush]. *)
Fixpoint flush_rcv (fuel : nat) (b : Z) : CM W (option Z) :=
  match fuel with
  | O => mret None
  | S fuel =>
      r ← OSA_mbxCheckMsg b;
      if r.1 =? OSA_SOK then
        a ← received r;
        _ ← OSA_mbxAckOrFreeMsg (Some a) OSA_SOK;
        flush_rcv fuel b
      else mret (Some r.1)
  end.

Fixpoint flush_ack (fuel : nat) (b : Z) : CM W (option Z) :=
  match fuel with
  | O => mret None
  | S fuel =>
      r ← OSA_msgqRecvMsg (ackMbx b) OSA_TIMEOUT_NONE;
      if r.1 =? OSA_SOK then
        a ← received r;
        _ ← OSA_mbxFreeMsg a;
        flush_ack fuel b
      else mret (Some r.1)
  end.

Definition OSA_mbxFlush (fuel : nat) (b : Z) : CM W (option Z) :=
  r ← flush_rcv fuel b;
  match r with None => mret None | Some _ => flush_ack fuel b end.

(** [take] is whether the caller gave a place for the message. *)
Fixpoint OSA_mbxWaitCmd (fuel : nat) (b : Z) (take : bool) (waitCmd : Z) : CM W (option (Z * option Z)) :=
  match fuel with
  | O => mret None
  | S fuel =>
      r ← OSA_mbxWaitMsg b;
      a ← received r;
      m ← get_msg a;
      if cmd m =? waitCmd then
        if take then mret (Some (OSA_SOK, Some a))
        else _ ← OSA_mbxAckOrFreeMsg (Some a) OSA_SOK; mret (Some (OSA_SOK, None))
      else
        _ ← OSA_mbxAckOrFreeMsg (Some a) OSA_SOK;
        OSA_mbxWaitCmd fuel b take waitCmd
  end.

(** *** Broadcast *)

(** The mailboxes before the NULL of the list; the count is asserted to stay
    below the maximum. *)
Fixpoint count_boxes (l : list (option Z)) (numMsg : Z) : CM W (list Z) :=
  match l with
  | [] => fault_with OutOfBounds
  | None :: _ => mret []
  | Some b :: l =>
      _ ← OSA_assert (negb (OSA_MBX_BROADCAST_MAX <=? numMsg + 1));
      bs ← count_boxes l (numMsg + 1);
      mret (b :: bs)
  end.

(** The sends, with the messages sent. *)
Fixpoint send_all (bs : list Z) (ack : option Z) (cmd prm fl : Z) : CM W (list Z) :=
  match bs with
  | [] => mret []
  | b :: bs =>
      r ← OSA_msgqSendMsg (rcvMbx b) ack cmd prm fl;
      _ ← OSA_assertSuccess r.1;
      a ← received r;
      l ← send_all bs ack cmd prm fl;
      mret (a :: l)
  end.

(** [ackList] set at the first message equal to [a]; [None] for an unknown one. *)
Fixpoint mark (sent : list Z) (acks : list bool) (a : Z) : option (list bool) :=
  match sent, acks with
  | x :: sent, k :: acks => if x =? a then Some (true :: acks) else cons k <$> mark sent acks a
  | _, _ => None
  end.

(** The loop that waits for the acknowledgements; the first status other than
    [OSA_SOK] is the result. *)
Fixpoint wait_acks (fuel : nat) (ack : Z) (sent : list Z) (acks : list bool) (ret : Z) : CM W (option Z) :=
  match fuel with
  | O => mret None
  | S fuel =>
      r ← OSA_msgqRecvMsg ack OSA_TIMEOUT_FOREVER;
      _ ← OSA_assertSuccess r.1;
      a ← received r;
      match mark sent acks a with
      | Some acks =>
          m ← get_msg a;
          let ret := if ret =? OSA_SOK then status m else ret in
          st ← OSA_msgqFreeMsgHndl a;
          _ ← OSA_assertSuccess st;
          if forallb id acks then mret (Some ret) else wait_acks fuel ack sent acks ret
      | None =>
          _ ← OSA_mbxFreeMsg a;
          if forallb id acks then mret (Some ret) else wait_acks fuel ack sent acks ret
      end
  end.

Definition bcast_end (fl prm : Z) (r : option Z) : CM W (option Z) :=
  match r with
  | None => mret None
  | Some ret =>
      _ ← (if has fl OSA_MBX_FREE_PRM then if negb (prm =? 0) then free_prm prm else mret tt else mret tt);
      mret (Some ret)
  end.

Definition OSA_mbxBroadcastMsg (fuel : nat) (toList : list (option Z)) (from : option Z) (cmd prm fl : Z)
  : CM W (option Z) :=
  _ ← (match from with None => OSA_assert (negb (has fl OSA_MBX_WAIT_ACK)) | Some _ => mret tt end);
  let ack := ackMbx <$> from in
  bs ← count_boxes toList 0;
  if zlen bs =? 0 then mret (Some OSA_SOK) else
  _ ← (if has fl OSA_MBX_FREE_PRM
       then OSA_assert (negb (negb (has fl OSA_MBX_WAIT_ACK) && (1 <? zlen bs)))
       else mret tt);
  sent ← send_all bs ack cmd prm fl;
  match ack with
  | Some ack =>
      if has fl OSA_MBX_WAIT_ACK then
        r ← wait_acks fuel ack sent (replicate (length sent) false) OSA_SOK;
        bcast_end fl prm r
      else mret (Some OSA_SOK)
  | None => mret (Some OSA_SOK)
  end.

(** ** osa_tsk.c: a task is a mailbox, a state and its main function *)

Record OSA_TskHndl := mkTsk {
  mbxHndl : Z;
  curState : Z;
  fncMain : option (OSA_MsgHndl → Z → CM W unit)
}.

(** [st] is the result of [OSA_thrCreate]. *)
Definition OSA_tskCreate (st box : Z) (fnc : option (OSA_MsgHndl → Z → CM W unit)) (initState : Z)
  : CM W (Z * OSA_TskHndl) :=
  _ ← OSA_assert (match fnc with Some _ => true | None => false end);
  _ ← OSA_assertSuccess st;
  mret (OSA_SOK, mkTsk box initState fnc).

(** One turn of [OSA_tskThrMain]. *)
Definition OSA_tskThrMain (pPrc : option OSA_TskHndl) : CM W unit :=
  match pPrc with
  | None => fault_with AssertStop
  | Some t =>
      r ← OSA_mbxWaitMsg (mbxHndl t);
      _ ← OSA_assertSuccess r.1;
      a ← received r;
      match fncMain t with
      | None => fault_with AssertStop
      | Some f => m ← get_msg a; f m (curState t)
      end
  end.

(** [st] is the result of [OSA_thrDelete]. *)
Definition OSA_tskDelete (st : Z) (t : OSA_TskHndl) : CM W (Z * OSA_TskHndl) :=
  _ ← OSA_assertSuccess st;
  mret (OSA_SOK, mkTsk (mbxHndl t) 0 None).

Definition OSA_tskSendMsg (fuel : nat) (to from : option OSA_TskHndl) (cmd prm fl : Z) : CM W (option Z) :=
  match to with
  | None => fault_with AssertStop
  | Some to => OSA_mbxSendMsg fuel (Some (mbxHndl to)) (mbxHndl <$> from) cmd prm fl
  end.

(** The list of the mailboxes of the tasks before the NULL. *)
Fixpoint task_boxes (l : list (option OSA_TskHndl)) (numMsg : Z) : CM W (list Z) :=
  match l with
  | [] => fault_with OutOfBounds
  | None :: _ => mret []
  | Some t :: l =>
      _ ← OSA_assert (negb (OSA_MBX_BROADCAST_MAX <=? numMsg + 1));
      bs ← task_boxes l (numMsg + 1);
      mret (mbxHndl t :: bs)
  end.

Definition OSA_tskBroadcastMsg (fuel : nat) (toList : list (option OSA_TskHndl)) (from : option OSA_TskHndl)
    (cmd prm fl : Z) : CM W (option Z) :=
  bs ← task_boxes toList 0;
  if zlen bs =? 0 then mret (Some OSA_SOK)
  else OSA_mbxBroadcastMsg fuel (map Some bs ++ replicate (10 - length bs) None) (mbxHndl <$> from) cmd prm fl.

Definition OSA_tskWaitMsg (t : OSA_TskHndl) := OSA_mbxWaitMsg (mbxHndl t).
Definition OSA_tskCheckMsg (t : OSA_TskHndl) := OSA_mbxCheckMsg (mbxHndl t).
Definition OSA_tskAckOrFreeMsg (pMsg : option Z) (ackRetVal : Z) := OSA_mbxAckOrFreeMsg pMsg ackRetVal.
Definition OSA_tskFlushMsg (fuel : nat) (t : OSA_TskHndl) := OSA_mbxFlush fuel (mbxHndl t).
Definition OSA_tskWaitCmd (fuel : nat) (t : OSA_TskHndl) (take : bool) (waitCmd : Z) :=
  OSA_mbxWaitCmd fuel (mbxHndl t) take waitCmd.
Definition OSA_tskSetState (t : OSA_TskHndl) (st : Z) : Z * OSA_TskHndl :=
  (OSA_SOK, mkTsk (mbxHndl t) st (fncMain t)).
Definition OSA_tskGetState (t : OSA_TskHndl) : Z := curState t.

(** * Queues that hold messages *)

Definition qh (qs : list Q) (i c : Z) (l : list Z) : Prop :=
  ∃ q, aget qs i = Some q ∧ q_model q l ∧ q_cap q = c.

(** [qs'] is [qs] but for queue [i]. *)
Definition others (qs qs' : list Q) (i : Z) : Prop := ∀ j c l, j ≠ i → qh qs j c l → qh qs' j c l.

Lemma others_trans qs1 qs2 qs3 i : others qs1 qs2 i → others qs2 qs3 i → others qs1 qs3 i.
Proof. unfold others. eauto. Qed.

Lemma qh_insert qs i c l q q' : aget qs i = Some q → q_model q' l → q_cap q' = c →
  qh (<[Z.to_nat i := q']> qs) i c l ∧ others qs (<[Z.to_nat i := q']> qs) i.
Proof.
  intros Hq Hm Hc. pose proof (aget_Some_range _ _ _ Hq) as Hr. split.
  - exists q'. by rewrite aget_insert_eq.
  - intros j c' l' Hj (q2 & ? & ?). exists q2. rewrite aget_insert_ne by lia. done.
Qed.

Lemma send_ok qs h p i c l a t :
  qh qs i c l → zlen l < c →
  ∃ qs', OSA_msgqSend i a t (mkMsgW qs h p) = Ret OSA_SOK (mkMsgW qs' h p) ∧ qh qs' i c (l ++ [a]) ∧ others qs qs' i.
Proof.
  intros (q & Hq & Hm & Hc) Hlt. destruct (q_put_ok q l a t Hm) as (q' & E & Hm' & Hc'); [lia|].
  exists (<[Z.to_nat i := q']> qs). split.
  - unfold OSA_msgqSend, on_queue. cbn. by rewrite Hq, E.
  - apply (qh_insert _ _ _ _ q); [done..|congruence].
Qed.

Lemma recv_ok qs h p i c a l t :
  qh qs i c (a :: l) →
  ∃ qs', OSA_msgqRecvMsg i t (mkMsgW qs h p) = Ret (OSA_SOK, Some a) (mkMsgW qs' h p) ∧ qh qs' i c l ∧ others qs qs' i.
Proof.
  intros (q & Hq & Hm & Hc). destruct (q_get_ok q a l t Hm) as (q' & E & Hm' & Hc').
  exists (<[Z.to_nat i := q']> qs). split.
  - unfold OSA_msgqRecvMsg, on_queue. cbn. by rewrite Hq, E.
  - apply (qh_insert _ _ _ _ q); [done..|congruence].
Qed.

Lemma recv_empty qs h p i c t :
  qh qs i c [] →
  OSA_msgqRecvMsg i t (mkMsgW qs h p) =
    if t =? OSA_TIMEOUT_NONE then Ret (OSA_EFAIL, None) (mkMsgW qs h p) else Blk (mkMsgW qs h p).
Proof.
  intros (q & Hq & Hm & Hc). unfold OSA_msgqRecvMsg, on_queue. cbn. rewrite Hq, (q_get_empty q t Hm).
  assert (<[Z.to_nat i := q]> qs = qs) as Hid.
  { apply list_insert_id. unfold aget in Hq. by case_decide. }
  destruct (t =? OSA_TIMEOUT_NONE); cbn; by rewrite Hid.
Qed.

(** * Freeing a message and its parameters *)

Definition owns_prm (m : OSA_MsgHndl) : bool := has (flags m) OSA_MBX_FREE_PRM && negb (pPrm m =? 0).
Definition prm_after (m : OSA_MsgHndl) (p : gset Z) : gset Z := if owns_prm m then p ∖ {[pPrm m]} else p.

Lemma free_msg_ret qs h p a m :
  h !! a = Some m → (owns_prm m = true → pPrm m ∈ p) →
  OSA_mbxFreeMsg a (mkMsgW qs h p) = Ret OSA_SOK (mkMsgW qs (delete a h) (prm_after m p)).
Proof.
  intros Ha Hp. unfold OSA_mbxFreeMsg, prm_after, get_msg, free_prm, OSA_msgqFreeMsgHndl, owns_prm in *. run.
  rewrite Ha. destruct (has (flags m) OSA_MBX_FREE_PRM); cbn in *; [|by rewrite Ha].
  destruct (pPrm m =? 0); cbn in *; [by rewrite Ha|]. rewrite decide_True by auto. cbn. by rewrite Ha.
Qed.

(** The messages [la] can be freed one after the other; what they leave. *)
Fixpoint freeable (h : gmap Z OSA_MsgHndl) (p : gset Z) (la : list Z) : Prop :=
  match la with
  | [] => True
  | a :: la => ∃ m, h !! a = Some m ∧ (owns_prm m = true → pPrm m ∈ p) ∧
                 freeable (delete a h) (prm_after m p) la
  end.
Fixpoint freed (h : gmap Z OSA_MsgHndl) (p : gset Z) (la : list Z) : gmap Z OSA_MsgHndl * gset Z :=
  match la with
  | [] => (h, p)
  | a :: la => freed (delete a h) (match h !! a with Some m => prm_after m p | None => p end) la
  end.

Lemma freeable_in h p la a : freeable h p la → a ∈ la → is_Some (h !! a).
Proof.
  revert h p. induction la as [|b la IH]; intros h p; [by intros _ ?%elem_of_nil|].
  intros (m & Hm & _ & Hf) [->|Hin]%elem_of_cons; [by eexists|].
  destruct (IH _ _ Hf Hin) as [x Hx]. by apply lookup_delete_Some in Hx as [_ ->].
Qed.

(** A message that is not in the list does not matter. *)
Lemma freed_insert h p la a m :
  a ∉ la → (freeable h p la → freeable (<[a := m]> h) p la) ∧
  freed (<[a := m]> h) p la = (<[a := m]> (freed h p la).1, (freed h p la).2).
Proof.
  revert h p. induction la as [|b la IH]; intros h p Hin; [done|].
  apply not_elem_of_cons in Hin as [Hne Hin]. cbn. rewrite lookup_insert_ne by done.
  rewrite delete_insert_ne by done. destruct (IH (delete b h)
    (match h !! b with Some m => prm_after m p | None => p end) Hin) as [_ ->].
  split; [|done]. intros (m' & Hm' & Ho & Hf). exists m'. split_and!; [done..|].
  apply (IH _ _ Hin), Hf.
Qed.

(** The waiting loop frees the acknowledgements of other messages. *)
Lemma wait_ack_stale la : ∀ qs h p fuel ack c sent rest,
  qh qs ack c (la ++ rest) → freeable h p la → sent ∉ la →
  ∃ qs', wait_ack (length la + fuel) ack sent (mkMsgW qs h p) =
      wait_ack fuel ack sent (mkMsgW qs' (freed h p la).1 (freed h p la).2) ∧
    qh qs' ack c rest ∧ others qs qs' ack.
Proof.
  induction la as [|a la IH]; intros qs h p fuel ack c sent rest Hq Hf Hs.
  { exists qs. split_and!; [done|done|by intros ???]. }
  apply not_elem_of_cons in Hs as [Hne Hs]. destruct Hf as (m & Hm & Ho & Hf). cbn [app] in Hq.
  destruct (recv_ok qs h p ack c a (la ++ rest) OSA_TIMEOUT_FOREVER Hq) as (qs1 & E1 & Hq1 & Ho1).
  destruct (IH qs1 _ _ fuel ack c sent rest Hq1 Hf Hs) as (qs2 & E2 & Hq2 & Ho2).
  exists qs2. split_and!; [|done|by eapply others_trans].
  cbn [length Nat.add wait_ack]. rewrite (bind_ret _ _ _ _ _ E1). cbn [fst OSA_assertSuccess].
  rewrite (bind_ret _ _ _ tt (mkMsgW qs1 h p)) by done. rewrite (bind_ret _ _ _ a (mkMsgW qs1 h p)) by done.
  rewrite (proj2 (Z.eqb_neq a sent)) by done.
  rewrite (bind_ret _ _ _ _ _ (free_msg_ret qs1 h p a m Hm Ho)). rewrite E2. cbn. by rewrite Hm.
Qed.

(** * Behaviour *)

Lemma sendmsg_ok qs h p to from c l a cm prm fl :
  malloc (mkMsgW qs h p) = Some a → qh qs to c l → zlen l < c → in_u16 cm → in_u16 fl →
  ∃ qs', OSA_msgqSendMsg to from cm prm fl (mkMsgW qs h p) =
      Ret (OSA_SOK, Some a) (mkMsgW qs' (<[a := mkMsg to from prm OSA_SOK cm fl]> h) p) ∧
    qh qs' to c (l ++ [a]) ∧ others qs qs' to.
Proof.
  intros Hm Hq Hlt Hc Hf.
  destruct (send_ok qs (<[a := mkMsg to from prm OSA_SOK cm fl]> h) p to c l a OSA_TIMEOUT_FOREVER Hq Hlt)
    as (qs' & E & Hq' & Ho).
  exists qs'. split; [|done]. unfold OSA_msgqSendMsg, OSA_msgqAllocMsgHndl.
  rewrite (bind_ret _ _ _ (Some a) (mkMsgW qs (<[a := mkMsg to from prm OSA_SOK cm fl]> h) p)).
  - by rewrite (bind_ret _ _ _ _ _ E).
  - by rewrite Hm, !u16_id.
Qed.

Lemma wait_msg_ok qs h p b c a l :
  qh qs (rcvMbx b) c (a :: l) →
  ∃ qs', OSA_mbxWaitMsg b (mkMsgW qs h p) = Ret (OSA_SOK, Some a) (mkMsgW qs' h p) ∧
    qh qs' (rcvMbx b) c l ∧ others qs qs' (rcvMbx b).
Proof.
  intros Hq. destruct (recv_ok qs h p _ c a l OSA_TIMEOUT_FOREVER Hq) as (qs' & E & H). exists qs'. split; [|done].
  unfold OSA_mbxWaitMsg. by rewrite (bind_ret _ _ _ _ _ E).
Qed.

Lemma boxes_ne a b : rcvMbx a ≠ ackMbx b.
Proof. unfold rcvMbx, ackMbx. lia. Qed.

Hypothesis malloc_fresh : ∀ w a, malloc w = Some a → heap w !! a = None.

(** The message of a send. *)
Definition sent_msg (t : Z) (from : option Z) (cm prm fl : Z) : OSA_MsgHndl :=
  mkMsg (rcvMbx t) (ackMbx <$> from) prm OSA_SOK cm fl.

Lemma mbx_send_wait qs h p t f ct cf la fuel a cm prm fl :
  malloc (mkMsgW qs h p) = Some a → in_u16 cm → in_u16 fl → has fl OSA_MBX_WAIT_ACK = true →
  qh qs (rcvMbx t) ct [] → 0 < ct → qh qs (ackMbx f) cf la → freeable h p la → (length la < fuel)%nat →
  ∃ qs', OSA_mbxSendMsg fuel (Some t) (Some f) cm prm fl (mkMsgW qs h p) =
      Blk (mkMsgW qs' (<[a := sent_msg t (Some f) cm prm fl]> (freed h p la).1) (freed h p la).2) ∧
    qh qs' (rcvMbx t) ct [a] ∧ qh qs' (ackMbx f) cf [].
Proof.
  intros Hm Hcm Hfl Hw Hqt Hct Hqf Hfr Hfuel.
  destruct (sendmsg_ok qs h p (rcvMbx t) (Some (ackMbx f)) ct [] a cm prm fl Hm Hqt Hct Hcm Hfl) as (qs1 & E1 & Ht1 & Ho1).
  assert (Hnin : a ∉ la).
  { intros Hin. destruct (freeable_in h p la a Hfr Hin) as [x Hx].
    pose proof (malloc_fresh _ _ Hm) as H0. cbn in H0. congruence. }
  destruct (freed_insert h p la a (sent_msg t (Some f) cm prm fl) Hnin) as [Hfi Hfe].
  pose proof (Ho1 _ _ _ (not_eq_sym (boxes_ne t f)) Hqf) as Hq1. rewrite <- (app_nil_r la) in Hq1.
  destruct (wait_ack_stale la qs1 _ p (fuel - length la) (ackMbx f) cf a [] Hq1 (Hfi Hfr) Hnin)
    as (qs2 & E2 & Hq2 & Ho2).
  exists qs2. split_and!; [|by apply Ho2, Ht1; apply boxes_ne|done].
  unfold OSA_mbxSendMsg. rewrite (bind_ret _ _ _ tt (mkMsgW qs h p)) by done. cbn [fmap option_fmap option_map].
  rewrite (bind_ret _ _ _ _ _ E1). rewrite (bind_ret _ _ _ tt _) by done. rewrite Hw.
  rewrite (bind_ret _ _ _ a _) by done.
  replace fuel with (length la + (fuel - length la))%nat by lia.
  change (mkMsg (rcvMbx t) (Some (ackMbx f)) prm OSA_SOK cm fl) with (sent_msg t (Some f) cm prm fl).
  rewrite E2, Hfe. cbn [fst snd].
  destruct (fuel - length la)%nat eqn:Ef; [lia|]. cbn [wait_ack]. unfold mbind, CM_bind.
  by rewrite (recv_empty qs2 _ _ (ackMbx f) cf OSA_TIMEOUT_FOREVER Hq2).
Qed.

(** C20: a send with WAIT_ACK to an empty mailbox frees the acknowledgements left
    over from earlier sends, puts the message in the mailbox and sleeps; the
    receiver gets exactly this message; its acknowledgement with status [st]
    wakes the sender, which returns [st] after freeing the message, and the
    parameters when they are to be freed, once. Without WAIT_ACK the send
    returns at once and the receiver frees both. *)
Theorem mbx_send_ack qs h p t f ct cf la fuel a cm prm fl st :
  malloc (mkMsgW qs h p) = Some a → in_u16 cm → in_u16 fl →
  qh qs (rcvMbx t) ct [] → 0 < ct → qh qs (ackMbx f) cf la → 0 < cf →
  freeable h p la → (length la < fuel)%nat →
  let m := sent_msg t (Some f) cm prm fl in
  (has fl OSA_MBX_WAIT_ACK = true → (owns_prm m = true → prm ∈ (freed h p la).2) →
    ∃ w1 w2 w3 w4,
      OSA_mbxSendMsg fuel (Some t) (Some f) cm prm fl (mkMsgW qs h p) = Blk w1 ∧
      OSA_mbxWaitMsg t w1 = Ret (OSA_SOK, Some a) w2 ∧ heap w2 !! a = Some m ∧
      OSA_mbxAckOrFreeMsg (Some a) st w2 = Ret OSA_SOK w3 ∧
      wait_ack fuel (ackMbx f) a w3 = Ret (Some st) w4 ∧
      heap w4 = (freed h p la).1 ∧ prms w4 = prm_after m (freed h p la).2 ∧
      qh (queues w4) (rcvMbx t) ct [] ∧ qh (queues w4) (ackMbx f) cf []) ∧
  (has fl OSA_MBX_WAIT_ACK = false → (owns_prm m = true → prm ∈ p) →
    ∃ w1 w2 w3,
      OSA_mbxSendMsg fuel (Some t) (Some f) cm prm fl (mkMsgW qs h p) = Ret (Some OSA_SOK) w1 ∧
      OSA_mbxWaitMsg t w1 = Ret (OSA_SOK, Some a) w2 ∧ heap w2 !! a = Some m ∧
      OSA_mbxAckOrFreeMsg (Some a) st w2 = Ret OSA_SOK w3 ∧
      heap w3 = h ∧ prms w3 = prm_after m p ∧ qh (queues w3) (rcvMbx t) ct []).
Proof.
  intros Hm Hcm Hfl Hqt Hct Hqf Hcf Hfr Hfuel m. pose proof (malloc_fresh _ _ Hm) as Hfresh. cbn in Hfresh.
  split; intros Hw Hown.
  - destruct (mbx_send_wait qs h p t f ct cf la fuel a cm prm fl Hm Hcm Hfl Hw Hqt Hct Hqf Hfr Hfuel)
      as (qs1 & E1 & Ht1 & Hf1). fold m in E1.
    set (h' := (freed h p la).1) in *. set (p' := (freed h p la).2) in *.
    destruct (wait_msg_ok qs1 (<[a := m]> h') p' t ct a [] Ht1) as (qs2 & E2 & Ht2 & Ho2).
    pose proof (Ho2 _ _ _ (not_eq_sym (boxes_ne t f)) Hf1) as Hf2.
    set (m' := m <| status := st |>).
    destruct (send_ok qs2 (<[a := m']> h') p' (ackMbx f) cf [] a OSA_TIMEOUT_FOREVER Hf2 Hcf) as (qs3 & E3 & Hf3 & Ho3).
    destruct (recv_ok qs3 (<[a := m']> h') p' (ackMbx f) cf a [] OSA_TIMEOUT_FOREVER Hf3) as (qs4 & E4 & Hf4 & Ho4).
    eexists _, _, _, (mkMsgW qs4 (delete a (<[a := m']> h')) (prm_after m' p')). split_and!; [exact E1|exact E2|apply lookup_insert_eq| | | | | |done].
    + unfold OSA_mbxAckOrFreeMsg. rewrite (bind_ret _ _ _ m (mkMsgW qs2 (<[a := m]> h') p'))
        by (unfold get_msg; cbn; by rewrite lookup_insert_eq).
      change (flags m) with fl. rewrite Hw. unfold OSA_msgqSendAck.
      rewrite (bind_ret _ _ _ OSA_SOK (mkMsgW qs3 (<[a := m']> h') p')); [done|].
      rewrite (bind_ret _ _ _ tt (mkMsgW qs2 (<[a := m']> h') p'))
        by (unfold upd_msg; cbn; by rewrite lookup_insert_eq, insert_insert_eq).
      rewrite (bind_ret _ _ _ m' (mkMsgW qs2 (<[a := m']> h') p')) by (unfold get_msg; cbn; by rewrite lookup_insert_eq).
      exact E3.
    + destruct fuel as [|fuel]; [lia|]. cbn [wait_ack]. rewrite (bind_ret _ _ _ _ _ E4).
      rewrite (bind_ret _ _ _ tt _) by done. rewrite (bind_ret _ _ _ a _) by done. rewrite Z.eqb_refl.
      rewrite (bind_ret _ _ _ m' (mkMsgW qs4 (<[a := m']> h') p')) by (unfold get_msg; cbn; by rewrite lookup_insert_eq).
      by rewrite (bind_ret _ _ _ _ _ (free_msg_ret qs4 (<[a := m']> h') p' a m' (lookup_insert_eq _ _ _) Hown)).
    + cbn. apply delete_insert_id. unfold h'. clear -Hfresh.
      revert h p Hfresh. induction la as [|b la IH]; intros h p H; [done|]. cbn. apply IH.
      rewrite lookup_delete_None. by right.
    + done.
    + cbn. apply Ho4; [apply boxes_ne|]. apply Ho3; [apply boxes_ne|done].
  - destruct (sendmsg_ok qs h p (rcvMbx t) (Some (ackMbx f)) ct [] a cm prm fl Hm Hqt Hct Hcm Hfl) as (qs1 & E1 & Ht1 & _).
    destruct (wait_msg_ok qs1 (<[a := m]> h) p t ct a [] Ht1) as (qs2 & E2 & Ht2 & _).
    eexists _, _, (mkMsgW qs2 (delete a (<[a := m]> h)) (prm_after m p)).
    split_and!; [|exact E2|apply lookup_insert_eq| | |done|done].
    + unfold OSA_mbxSendMsg. rewrite (bind_ret _ _ _ tt (mkMsgW qs h p)) by done. cbn [fmap option_fmap option_map].
      rewrite (bind_ret _ _ _ _ _ E1). by rewrite (bind_ret _ _ _ tt _), Hw by done.
    + unfold OSA_mbxAckOrFreeMsg. rewrite (bind_ret _ _ _ m (mkMsgW qs2 (<[a := m]> h) p))
        by (unfold get_msg; cbn; by rewrite lookup_insert_eq).
      change (flags m) with fl. rewrite Hw.
      by rewrite (bind_ret _ _ _ _ _ (free_msg_ret qs2 (<[a := m]> h) p a m (lookup_insert_eq _ _ _) Hown)).
    + cbn. by apply delete_insert_id.
Qed.

(** Ten mailboxes are one too many. *)
Lemma broadcast_ten fuel bs l from cm prm fl w :
  length bs = 10%nat → has fl OSA_MBX_WAIT_ACK = false ∨ from ≠ None →
  OSA_mbxBroadcastMsg fuel (map Some bs ++ l) from cm prm fl w = Flt AssertStop.
Proof.
  intros Hb Hf. unfold OSA_mbxBroadcastMsg.
  rewrite (bind_ret _ _ _ tt w) by (destruct from; [done|]; by destruct Hf as [->|]).
  do 10 (destruct bs as [|? bs]; [done|]). done.
Qed.

End Messages.

Section Waits.
Context {Q : Type} {HQ : FifoQueue Q Z}.
Implicit Types (qs : list Q).

(** ** Flushing *)

Lemma freed_app h p la lb :
  freed h p (la ++ lb) = freed (freed h p la).1 (freed h p la).2 lb.
Proof. revert h p. induction la as [|a la IH]; intros h p; [done|]. cbn. apply IH. Qed.

Lemma freeable_app h p la lb :
  freeable h p (la ++ lb) ↔ freeable h p la ∧ freeable (freed h p la).1 (freed h p la).2 lb.
Proof.
  revert h p. induction la as [|a la IH]; intros h p; cbn; [tauto|]. split.
  - intros (m & Hm & Ho & Hf). rewrite Hm. apply IH in Hf as [Hf1 Hf2]. eauto.
  - intros [(m & Hm & Ho & Hf) Hf2]. rewrite Hm in Hf2. exists m. split_and!; [done..|]. by apply IH.
Qed.

Lemma flush_ack_ok la : ∀ qs h p fuel b c,
  qh qs (ackMbx b) c la → freeable h p la → (length la < fuel)%nat →
  ∃ qs', flush_ack fuel b (mkMsgW qs h p) = Ret (Some OSA_EFAIL) (mkMsgW qs' (freed h p la).1 (freed h p la).2) ∧
    qh qs' (ackMbx b) c [] ∧ others qs qs' (ackMbx b).
Proof.
  induction la as [|a la IH]; intros qs h p [|fuel] b c Hq Hf Hl; [cbn in Hl; lia| |cbn in Hl; lia|].
  - exists qs. split_and!; [|done|by intros ???]. cbn [flush_ack]. unfold mbind, CM_bind.
    by rewrite (recv_empty qs h p _ c OSA_TIMEOUT_NONE Hq).
  - destruct Hf as (m & Hm & Ho & Hf).
    destruct (recv_ok qs h p _ c a la OSA_TIMEOUT_NONE Hq) as (qs1 & E1 & Hq1 & Ho1).
    destruct (IH qs1 _ _ fuel b c Hq1 Hf ltac:(cbn in Hl; lia)) as (qs2 & E2 & Hq2 & Ho2).
    exists qs2. split_and!; [|done|by eapply others_trans]. cbn [flush_ack]. rewrite (bind_ret _ _ _ _ _ E1).
    cbn [fst Z.eqb OSA_SOK]. rewrite (bind_ret _ _ _ a (mkMsgW qs1 h p)) by done.
    rewrite (bind_ret _ _ _ _ _ (free_msg_ret qs1 h p a m Hm Ho)), E2. cbn. by rewrite Hm.
Qed.

Lemma flush_rcv_ok lr : ∀ qs h p fuel b c,
  qh qs (rcvMbx b) c lr → freeable h p lr → (length lr < fuel)%nat →
  (∀ a m, a ∈ lr → h !! a = Some m → has (flags m) OSA_MBX_WAIT_ACK = false) →
  ∃ qs', flush_rcv fuel b (mkMsgW qs h p) = Ret (Some OSA_EFAIL) (mkMsgW qs' (freed h p lr).1 (freed h p lr).2) ∧
    qh qs' (rcvMbx b) c [] ∧ others qs qs' (rcvMbx b).
Proof.
  induction lr as [|a lr IH]; intros qs h p [|fuel] b c Hq Hf Hl Hw; [cbn in Hl; lia| |cbn in Hl; lia|].
  - exists qs. split_and!; [|done|by intros ???]. cbn [flush_rcv]. unfold mbind, CM_bind, OSA_mbxCheckMsg.
    by rewrite (recv_empty qs h p _ c OSA_TIMEOUT_NONE Hq).
  - destruct Hf as (m & Hm & Ho & Hf).
    destruct (recv_ok qs h p _ c a lr OSA_TIMEOUT_NONE Hq) as (qs1 & E1 & Hq1 & Ho1).
    destruct (IH qs1 _ _ fuel b c Hq1 Hf ltac:(cbn in Hl; lia)) as (qs2 & E2 & Hq2 & Ho2).
    { intros x mx Hx Hmx. apply lookup_delete_Some in Hmx as [_ Hmx]. apply (Hw x); [set_solver|done]. }
    exists qs2. split_and!; [|done|by eapply others_trans]. cbn [flush_rcv]. unfold OSA_mbxCheckMsg.
    rewrite (bind_ret _ _ _ _ _ E1). cbn [fst Z.eqb OSA_SOK]. rewrite (bind_ret _ _ _ a (mkMsgW qs1 h p)) by done.
    rewrite (bind_ret _ _ _ OSA_SOK (mkMsgW qs1 (delete a h) (prm_after m p))).
    { rewrite E2. cbn. by rewrite Hm. }
    unfold OSA_mbxAckOrFreeMsg. rewrite (bind_ret _ _ _ m (mkMsgW qs1 h p)) by (unfold get_msg; cbn; by rewrite Hm).
    rewrite (Hw a m) by (done || set_solver).
    by rewrite (bind_ret _ _ _ _ _ (free_msg_ret qs1 h p a m Hm Ho)).
Qed.

(** A flush of a mailbox whose received messages want no acknowledgement
    empties both of its queues and frees all their messages and parameters, each
    once, and ends; its result is always [OSA_EFAIL], that of the last receive. *)
Theorem mbx_flush qs h p b cr ca lr la fuel :
  qh qs (rcvMbx b) cr lr → qh qs (ackMbx b) ca la → freeable h p (lr ++ la) →
  (∀ a m, a ∈ lr → h !! a = Some m → has (flags m) OSA_MBX_WAIT_ACK = false) →
  (length lr < fuel)%nat → (length la < fuel)%nat →
  ∃ qs', OSA_mbxFlush fuel b (mkMsgW qs h p) =
      Ret (Some OSA_EFAIL) (mkMsgW qs' (freed h p (lr ++ la)).1 (freed h p (lr ++ la)).2) ∧
    qh qs' (rcvMbx b) cr [] ∧ qh qs' (ackMbx b) ca [].
Proof.
  intros Hr Ha [Hfr Hfa]%freeable_app Hw Hlr Hla.
  destruct (flush_rcv_ok lr qs h p fuel b cr Hr Hfr Hlr Hw) as (qs1 & E1 & Hr1 & Ho1).
  pose proof (Ho1 _ _ _ (not_eq_sym (boxes_ne b b)) Ha) as Ha1.
  destruct (flush_ack_ok la qs1 _ _ fuel b ca Ha1 Hfa Hla) as (qs2 & E2 & Ha2 & Ho2).
  exists qs2. rewrite freed_app. split_and!; [|by apply Ho2; [apply boxes_ne|]|done].
  unfold OSA_mbxFlush. rewrite (bind_ret _ _ _ _ _ E1). exact E2.
Qed.

(** ** Broadcast *)

(** The flags of [ackList] when the messages in [D] have been acknowledged. *)
Definition marks (sent D : list Z) : list bool := map (fun x => bool_decide (x ∈ D)) sent.

Lemma mark_sent sent D a :
  NoDup sent → a ∈ sent → mark sent (marks sent D) a = Some (marks sent (a :: D)).
Proof.
  induction sent as [|x sent IH]; intros Hnd Hin; [by apply elem_of_nil in Hin|].
  apply NoDup_cons in Hnd as [Hx Hnd]. cbn. destruct (Z.eqb_spec x a) as [->|Hne].
  - f_equal. rewrite bool_decide_true by set_solver. f_equal. unfold marks. apply map_ext_in.
    intros y Hy%list_elem_of_In. apply bool_decide_ext. rewrite elem_of_cons. split; [auto|].
    intros [->|]; done.
  - fold (marks sent D). rewrite IH by (done || set_solver). cbn. do 2 f_equal. apply bool_decide_ext. set_solver.
Qed.

Lemma marks_all sent D : forallb id (marks sent D) = true ↔ ∀ x, x ∈ sent → x ∈ D.
Proof.
  unfold marks. rewrite forallb_forall. split.
  - intros H x Hx. specialize (H (bool_decide (x ∈ D))). apply (proj1 (bool_decide_eq_true _)), H.
    apply in_map_iff. exists x. by rewrite <- list_elem_of_In.
  - intros H b (x & <- & Hx)%in_map_iff. apply (proj2 (bool_decide_eq_true _)), H. by apply list_elem_of_In.
Qed.

(** The result of a broadcast: the first status other than [OSA_SOK]. *)
Fixpoint first_status (ret : Z) (l : list Z) : Z :=
  match l with [] => ret | s :: l => first_status (if ret =? OSA_SOK then s else ret) l end.

Fixpoint delete_all (h : gmap Z OSA_MsgHndl) (l : list Z) : gmap Z OSA_MsgHndl :=
  match l with [] => h | a :: l => delete_all (delete a h) l end.

(** Acknowledgements that arrive in any order, some still missing or none. *)
Lemma wait_acks_ok acks : ∀ qs h p fuel ack c sent D ret rest,
  NoDup sent → sent ≡ₚ D ++ acks ++ rest → acks ++ rest ≠ [] →
  qh qs ack c acks → (∀ a, a ∈ acks → is_Some (h !! a)) → (length acks < fuel)%nat →
  ∃ qs', wait_acks fuel ack sent (marks sent D) ret (mkMsgW qs h p) =
      match rest with
      | [] => Ret (Some (first_status ret (map (fun a => match h !! a with Some m => status m | None => 0 end) acks)))
                  (mkMsgW qs' (delete_all h acks) p)
      | _ => Blk (mkMsgW qs' (delete_all h acks) p)
      end ∧ qh qs' ack c [] ∧ others qs qs' ack.
Proof.
  induction acks as [|a acks IH]; intros qs h p [|fuel] ack c sent D ret rest Hnd Hperm Hne Hq Hh Hl;
    [cbn in Hl; lia| |cbn in Hl; lia|].
  - destruct rest as [|r rest]; [done|]. exists qs. split_and!; [|done|by intros ???].
    cbn [wait_acks]. unfold mbind, CM_bind. by rewrite (recv_empty qs h p ack c OSA_TIMEOUT_FOREVER Hq).
  - destruct (recv_ok qs h p ack c a acks OSA_TIMEOUT_FOREVER Hq) as (qs1 & E1 & Hq1 & Ho1).
    destruct (Hh a) as [m Hm]; [set_solver|].
    assert (Hnd' : NoDup (D ++ (a :: acks) ++ rest)) by (by rewrite <- Hperm).
    assert (Hina : a ∈ sent) by (rewrite Hperm; set_solver).
    assert (Hstat : ∀ x, x ∈ acks → delete a h !! x = h !! x).
    { intros x Hx. rewrite lookup_delete_ne; [done|]. intros ->. apply NoDup_app in Hnd' as (_ & _ & Hnd').
      cbn in Hnd'. apply NoDup_cons in Hnd' as [Hn _]. apply Hn. set_solver. }
    assert (Emap : map (fun x => match delete a h !! x with Some m => status m | None => 0 end) acks =
                   map (fun x => match h !! x with Some m => status m | None => 0 end) acks).
    { apply map_ext_in. intros x Hx%list_elem_of_In. by rewrite Hstat. }
    assert (Estep : wait_acks (S fuel) ack sent (marks sent D) ret (mkMsgW qs h p) =
      (if forallb id (marks sent (a :: D)) then mret (Some (if ret =? OSA_SOK then status m else ret))
       else wait_acks fuel ack sent (marks sent (a :: D)) (if ret =? OSA_SOK then status m else ret))
        (mkMsgW qs1 (delete a h) p)).
    { cbn [wait_acks]. rewrite (bind_ret _ _ _ _ _ E1). rewrite (bind_ret _ _ _ tt _) by done.
      rewrite (bind_ret _ _ _ a _) by done. rewrite mark_sent by done.
      rewrite (bind_ret _ _ _ m (mkMsgW qs1 h p)) by (unfold get_msg; cbn; by rewrite Hm). cbn zeta.
      rewrite (bind_ret _ _ _ OSA_SOK (mkMsgW qs1 (delete a h) p)) by (unfold OSA_msgqFreeMsgHndl; cbn; by rewrite Hm).
      by rewrite (bind_ret _ _ _ tt _) by done. }
    rewrite Estep. destruct (decide (acks ++ rest = [])) as [Hnil|Hmore].
    + apply app_nil in Hnil as [-> ->].
      assert (forallb id (marks sent (a :: D)) = true) as ->.
      { apply marks_all. intros x. rewrite Hperm. set_solver. }
      exists qs1. split_and!; [|done|done]. cbn. by rewrite Hm.
    + assert (forallb id (marks sent (a :: D)) = false) as ->.
      { destruct (forallb id (marks sent (a :: D))) eqn:Ef; [|done]. rewrite marks_all in Ef.
        destruct (acks ++ rest) as [|x l] eqn:El; [done|].
        assert (x ∈ acks ++ rest) as Hx by (rewrite El; set_solver).
        assert (x ∈ a :: D) as HxD by (apply Ef; rewrite Hperm; set_solver).
        apply NoDup_app in Hnd' as (_ & Hdisj & Hnd'). cbn in Hnd'. apply NoDup_cons in Hnd' as [Hn _].
        apply elem_of_cons in HxD as [->|HxD]; [done|]. specialize (Hdisj x HxD). set_solver. }
      destruct (IH qs1 (delete a h) p fuel ack c sent (a :: D) (if ret =? OSA_SOK then status m else ret) rest)
        as (qs2 & E2 & Hq2 & Ho2).
      * done.
      * rewrite Hperm. cbn. symmetry. apply Permutation_middle.
      * done.
      * done.
      * intros x Hx. rewrite Hstat by done. apply Hh. set_solver.
      * cbn in Hl. lia.
      * exists qs2. split_and!; [|done|by eapply others_trans]. rewrite E2, Emap. cbn. by rewrite Hm.
Qed.

(** The loop of a broadcast that waits for the acknowledgements of the
    messages sent takes them in any order: it sleeps while one is missing, and
    when the last has come it returns the first status other than [OSA_SOK],
    with every message freed and the parameters, when they are to be freed,
    freed once. *)
Theorem mbx_broadcast_acks qs h p fuel ack c sent acks rest fl prm :
  NoDup sent → sent ≡ₚ acks ++ rest → sent ≠ [] → qh qs ack c acks →
  (∀ a, a ∈ acks → is_Some (h !! a)) → (length acks < fuel)%nat →
  (has fl OSA_MBX_FREE_PRM && negb (prm =? 0) = true → prm ∈ p) →
  ∃ qs', (r ← wait_acks fuel ack sent (replicate (length sent) false) OSA_SOK; bcast_end fl prm r) (mkMsgW qs h p) =
    match rest with
    | [] => Ret (Some (first_status OSA_SOK (map (fun a => match h !! a with Some m => status m | None => 0 end) acks)))
                (mkMsgW qs' (delete_all h acks) (if has fl OSA_MBX_FREE_PRM && negb (prm =? 0) then p ∖ {[prm]} else p))
    | _ => Blk (mkMsgW qs' (delete_all h acks) p)
    end ∧ qh qs' ack c [].
Proof.
  intros Hnd Hperm Hne Hq Hh Hl Hp.
  assert (Hm : replicate (length sent) false = marks sent []).
  { unfold marks. clear. induction sent as [|x sent IH]; [done|]. cbn [length]. by rewrite replicate_S, IH. }
  assert (Hne' : acks ++ rest ≠ []).
  { intros E. rewrite E in Hperm. by apply Permutation_nil_r in Hperm. }
  destruct (wait_acks_ok acks qs h p fuel ack c sent [] OSA_SOK rest Hnd Hperm Hne' Hq Hh Hl) as (qs' & E & Hq' & _).
  exists qs'. split; [|done]. rewrite Hm. unfold mbind, CM_bind. rewrite E. destruct rest; [|done].
  unfold bcast_end, free_prm. destruct (has fl OSA_MBX_FREE_PRM); [|done]. cbn in *.
  destruct (prm =? 0); [done|]. run. by rewrite decide_True by auto.
Qed.

End Waits.

(** * Concrete states: two mailboxes of rings of 32, an address allocator *)

Definition malloc0 {Q} (w : MsgW Q) : option Z := Some (fresh (dom (heap w))).

Lemma malloc0_fresh {Q} (w : MsgW Q) a : malloc0 w = Some a → heap w !! a = None.
Proof. intros [= <-]. apply not_elem_of_dom, is_fresh. Qed.

Definition box_queue : OSA_QueHndl Z := (OSA_msgqCreate 0 (replicate 32 0)).2.

Definition queue_with (l : list Z) : OSA_QueHndl Z :=
  fold_left (fun q a => match OSA_quePut a 0 q with Ret _ q => q | _ => q end) l box_queue.

Lemma queue_with_holds l : zlen l ≤ 32 → ring_holds (queue_with l) l ∧ len (queue_with l) = 32.
Proof.
  induction l as [|x l IH] using rev_ind; intros Hl.
  - destruct (ring_create_ok (replicate 32 0) 32 ltac:(lia) eq_refl) as (q & E & Hq & _).
    injection E as <-. by split.
  - rewrite zlen_snoc in Hl. destruct IH as [IH Hlen]; [lia|].
    unfold queue_with. rewrite fold_left_app. cbn [fold_left]. fold (queue_with l).
    destruct (ring_put_ok (queue_with l) l x 0 IH) as (q' & E & Hq' & Hl'); [lia|]. rewrite E. split; [done|lia].
Qed.

Lemma qh_box qs i l : aget qs i = Some (queue_with l) → zlen l ≤ 32 → qh qs i 32 l.
Proof. intros Hq Hl. exists (queue_with l). destruct (queue_with_holds l Hl). by split_and!. Qed.

(** Mailbox 1 has a stale acknowledgement with parameters to free. *)
Definition stale_msg : OSA_MsgHndl := mkMsg 0 (Some 3) 55 0 9 6.
Definition msgw0 : MsgW (OSA_QueHndl Z) :=
  mkMsgW [box_queue; box_queue; box_queue; queue_with [5]] {[ 5 := stale_msg ]} {[ 55; 77 ]}.

Lemma mbx_send_ack_witness :
  ∃ a w1 w2 w3 w4, OSA_mbxSendMsg malloc0 2 (Some 0) (Some 1) 8 77 6 msgw0 = Blk w1 ∧
    OSA_mbxWaitMsg 0 w1 = Ret (OSA_SOK, Some a) w2 ∧ OSA_mbxAckOrFreeMsg (Some a) (-7) w2 = Ret OSA_SOK w3 ∧
    wait_ack 2 3 a w3 = Ret (Some (-7)) w4 ∧ heap w4 = ∅ ∧ prms w4 = ({[55; 77]} ∖ {[55]}) ∖ {[77]}.
Proof.
  destruct (mbx_send_ack malloc0 malloc0_fresh [box_queue; box_queue; box_queue; queue_with [5]]
    {[ 5 := stale_msg ]} {[ 55; 77 ]} 0 1 32 32 [5] 2 (fresh (dom (heap msgw0))) 8 77 6 (-7)) as [H _].
  - reflexivity.
  - by unfold in_u16.
  - by unfold in_u16.
  - by apply (qh_box _ _ []).
  - lia.
  - by apply (qh_box _ _ [5]).
  - lia.
  - exists stale_msg. split_and!; [done| |done]. intros _. cbn. set_solver.
  - cbn. lia.
  - destruct H as (w1 & w2 & w3 & w4 & E1 & E2 & _ & E3 & E4 & Eh & Ep & _); [reflexivity|by vm_compute|].
    exists (fresh (dom (heap msgw0))), w1, w2, w3, w4.
    refine (conj E1 (conj E2 (conj E3 (conj E4 (conj _ _))))); [rewrite Eh|rewrite Ep]; reflexivity.
Defined.

Lemma mbx_flush_witness :
  ∃ qs', OSA_mbxFlush 2 1 msgw0 = Ret (Some OSA_EFAIL) (mkMsgW qs' ∅ ({[ 55; 77 ]} ∖ {[ 55 ]})).
Proof.
  destruct (mbx_flush [box_queue; box_queue; box_queue; queue_with [5]] {[ 5 := stale_msg ]} {[ 55; 77 ]}
    1 32 32 [] [5] 2) as (qs' & E & _).
  - by apply (qh_box _ _ []).
  - by apply (qh_box _ _ [5]).
  - exists stale_msg. split_and!; [done| |done]. intros _. cbn. set_solver.
  - by intros a m ?%elem_of_nil.
  - cbn. lia.
  - cbn. lia.
  - exists qs'. exact E.
Defined.

Definition ack_msg (st : Z) : OSA_MsgHndl := mkMsg 0 (Some 3) 77 st 9 6.

Lemma mbx_broadcast_acks_witness :
  ∃ w', (r ← wait_acks 4 1 [5; 6; 7] (replicate 3 false) OSA_SOK; bcast_end 6 77 r)
      (mkMsgW [box_queue; queue_with [7; 5; 6]] (<[5 := ack_msg (-3)]> (<[6 := ack_msg (-4)]> {[ 7 := ack_msg 0 ]})) {[ 77 ]}) =
    Ret (Some (-3)) w' ∧ heap w' = ∅.
Proof.
  destruct (mbx_broadcast_acks [box_queue; queue_with [7; 5; 6]]
    (<[5 := ack_msg (-3)]> (<[6 := ack_msg (-4)]> {[ 7 := ack_msg 0 ]})) {[ 77 ]} 4 1 32 [5; 6; 7] [7; 5; 6] [] 6 77)
    as (qs' & E & _).
  - apply (bool_decide_unpack _). by vm_compute.
  - rewrite app_nil_r. solve_Permutation.
  - done.
  - by apply (qh_box _ _ [7; 5; 6]).
  - intros a Ha. rewrite !elem_of_cons, elem_of_nil in Ha. destruct_or! Ha; subst; try done; by eexists.
  - cbn. lia.
  - intros _. set_solver.
  - eexists. split; [exact E|reflexivity].
Defined.
