(* ===== verification/OsaMisc.v ===== *)
(** * Files and profiling ([utils/osa/src/osa_file.c], [osa_prf.c], [xstrtoi] of [osa.c])

    Whole-file reads and writes in chunks, over the contents of the file; the
    counters of a profile; hexadecimal strings. *)

From S2P Require Import Prelude OsaQue.

Module File.

Definition READ_CHUNK : Z := 1024 * 100.
Definition WRITE_CHUNK : Z := 96 * 1024.

(** The loop of the read: [pos] bytes of the file have been read, all of them
    into the buffer; [n] is the [Uint32] count of them. *)
Fixpoint read_loop (fuel : nat) (file : list Z) (pos n chunkSize userReadSize : Z) : CM (list Z) (option Z) :=
  match fuel with
  | O => mret None
  | S fuel =>
      let chunkSize := if negb (userReadSize =? 0) && (userReadSize <? chunkSize) then userReadSize else chunkSize in
      let data := take (Z.to_nat chunkSize) (drop (Z.to_nat pos) file) in
      _ ← (fun buf => match write_at buf pos data with Some b => Ret tt b | None => Flt OutOfBounds end);
      let n := u32 (n + zlen data) in
      if negb (chunkSize =? zlen data) then mret (Some n)
      else if negb (userReadSize =? 0) && (userReadSize =? n) then mret (Some n)
      else read_loop fuel file (pos + chunkSize) n chunkSize userReadSize
  end.

(** [file] is [None] when [fopen] fails; the result is the status and the size
    stored for the caller; the state is the caller's buffer. *)
Definition OSA_fileReadFile (fuel : nat) (file : option (list Z)) (readSize : Z) : CM (list Z) (option (Z * Z)) :=
  match file with
  | None => mret (Some (OSA_EFAIL, 0))
  | Some f =>
      n ← read_loop fuel f 0 0 READ_CHUNK readSize;
      mret (match n with Some n => Some (OSA_SOK, n) | None => None end)
  end.

(** [fwrite n] is how many bytes of a chunk of [n] are written; the state is the
    file. *)
Fixpoint write_loop (fuel : nat) (fwrite : Z → Z) (addr : list Z) (cur fileSize chunkSize : Z) : CM (list Z) (option Z) :=
  match fuel with
  | O => mret None
  | S fuel =>
      if 0 <? fileSize then
        let chunkSize := if fileSize <? chunkSize then fileSize else chunkSize in
        if zlen addr <? cur + chunkSize then fault_with OutOfBounds else
        let w := fwrite chunkSize in
        _ ← modify (.++ slice addr (Z.to_nat cur) (Z.to_nat w));
        if negb (w =? chunkSize) then mret (Some OSA_EFAIL)
        else write_loop fuel fwrite addr (cur + chunkSize) (fileSize - chunkSize) chunkSize
      else mret (Some OSA_SOK)
  end.

(** [opened] is whether [fopen] succeeds, which empties the file; the size is a
    [Uint32] and counted down as an [Int32]. *)
Definition OSA_fileWriteFile (fuel : nat) (opened : bool) (fwrite : Z → Z) (addr : list Z) (size : Z) : CM (list Z) (option Z) :=
  if size =? 0 then mret (Some OSA_SOK)
  else if negb opened then mret (Some OSA_EFAIL)
  else _ ← modify (fun _ => []); write_loop fuel fwrite addr 0 (i32 size) WRITE_CHUNK.

(** ** Lemmas *)

Lemma read_loop_all fuel file pos r :
  0 ≤ pos → pos ≤ zlen file → zlen file < 2 ^ 32 → zlen file - pos ≤ zlen r →
  zlen file - pos < READ_CHUNK * Z.of_nat fuel →
  read_loop fuel file pos pos READ_CHUNK 0 (take (Z.to_nat pos) file ++ r) =
    Ret (Some (zlen file)) (file ++ drop (Z.to_nat (zlen file - pos)) r).
Proof.
  revert pos r. induction fuel as [|fuel IH]; intros pos r H0 Hle H32 Hr Hf; [lia|].
  cbn [read_loop negb Z.eqb andb]. set (data := take (Z.to_nat READ_CHUNK) (drop (Z.to_nat pos) file)).
  assert (Hld : zlen data = Z.min READ_CHUNK (zlen file - pos)).
  { unfold data, zlen, READ_CHUNK in *. rewrite length_take, length_drop. lia. }
  assert (Hlt : zlen (take (Z.to_nat pos) file) = pos) by (unfold zlen in *; rewrite length_take; lia).
  assert (Hw : write_at (take (Z.to_nat pos) file ++ r) pos data = Some (take (Z.to_nat pos) file ++ data ++ drop (length data) r)).
  { rewrite <- Hlt at 2. apply write_at_app. unfold READ_CHUNK in *. lia. }
  rewrite (bind_ret _ _ _ tt (take (Z.to_nat pos) file ++ data ++ drop (length data) r)) by by rewrite Hw.
  assert (Hn : u32 (pos + zlen data) = pos + zlen data) by (apply u32_id; unfold in_u32, READ_CHUNK in *; lia).
  rewrite Hn. cbv zeta. destruct (READ_CHUNK =? zlen data) eqn:E; cbn [negb].
  - apply Z.eqb_eq in E. rewrite <- E. rewrite app_assoc.
    assert (Ht : take (Z.to_nat pos) file ++ data = take (Z.to_nat (pos + READ_CHUNK)) file).
    { unfold data. rewrite Z2Nat.inj_add by (unfold READ_CHUNK; lia). by rewrite take_take_drop. }
    rewrite Ht, IH by (unfold READ_CHUNK in *; try (unfold zlen in *; rewrite length_drop); lia).
    f_equal. f_equal. rewrite drop_drop. f_equal. unfold zlen in *. lia.
  - apply Z.eqb_neq in E. assert (Hd : data = drop (Z.to_nat pos) file).
    { unfold data. apply take_ge. rewrite length_drop. unfold zlen in *. lia. }
    unfold mret, CM_ret. f_equal; [f_equal; lia|]. rewrite Hd at 1. rewrite app_assoc, take_drop. do 2 f_equal. unfold zlen in *. lia.
Qed.

Lemma write_loop_all fuel addr k chunk :
  0 ≤ k ≤ zlen addr → 0 < chunk ≤ WRITE_CHUNK → (chunk = WRITE_CHUNK ∨ k = zlen addr) →
  (0 < fuel)%nat → zlen addr - k ≤ WRITE_CHUNK * (Z.of_nat fuel - 1) →
  write_loop fuel id addr k (zlen addr - k) chunk (take (Z.to_nat k) addr) = Ret (Some OSA_SOK) addr.
Proof.
  revert k chunk. induction fuel as [|fuel IH]; intros k chunk Hk Hc Hcase H0 Hf; [lia|].
  cbn [write_loop]. destruct (Z.ltb_spec 0 (zlen addr - k)) as [Hlt|Hge].
  2:{ unfold mret, CM_ret. f_equal. apply take_ge. unfold zlen in *. lia. }
  set (c := if zlen addr - k <? chunk then zlen addr - k else chunk).
  assert (Hcc : 0 < c ≤ zlen addr - k ∧ c ≤ WRITE_CHUNK) by (unfold c; destruct (Z.ltb_spec (zlen addr - k) chunk); lia).
  rewrite (proj2 (Z.ltb_ge (zlen addr) (k + c))) by lia. cbv zeta. fold c. change (id c) with c.
  rewrite (bind_ret _ _ _ tt (take (Z.to_nat (k + c)) addr)).
  - rewrite Z.eqb_refl. cbn [negb]. replace (zlen addr - k - c) with (zlen addr - (k + c)) by lia.
    apply IH; [lia|lia| |unfold WRITE_CHUNK in *; lia|].
    + unfold c. destruct (Z.ltb_spec (zlen addr - k) chunk); [right; lia|]. destruct Hcase; [by left|lia].
    + unfold c in *. unfold WRITE_CHUNK in *. destruct (Z.ltb_spec (zlen addr - k) chunk); [lia|].
      destruct Hcase as [->|]; lia.
  - unfold modify, slice. f_equal. rewrite take_take_drop. f_equal. lia.
Qed.

Lemma read_loop_overrun fuel file buf pos user :
  0 ≤ pos → pos `mod` READ_CHUNK = 0 → READ_CHUNK < user → user `mod` READ_CHUNK ≠ 0 →
  zlen buf = user → user + READ_CHUNK ≤ zlen file → zlen file < 2 ^ 32 → pos < user →
  user - pos < READ_CHUNK * Z.of_nat fuel →
  read_loop fuel file pos pos READ_CHUNK user buf = Flt OutOfBounds.
Proof.
  revert pos buf. induction fuel as [|fuel IH]; intros pos buf H0 Hm Hu Hum Hb Hfl H32 Hp Hf; [lia|].
  cbn [read_loop]. rewrite (proj2 (Z.eqb_neq user 0)) by (unfold READ_CHUNK in *; lia).
  rewrite (proj2 (Z.ltb_ge user READ_CHUNK)) by lia. cbn [negb andb].
  set (data := take (Z.to_nat READ_CHUNK) (drop (Z.to_nat pos) file)).
  assert (Hld : zlen data = READ_CHUNK).
  { unfold data, zlen, READ_CHUNK in *. rewrite length_take, length_drop. lia. }
  destruct (Z.ltb_spec user (pos + READ_CHUNK)) as [Hov|Hin].
  - unfold mbind, CM_bind. by rewrite write_at_none by lia.
  - destruct (write_at buf pos data) as [b|] eqn:Ew.
    2:{ unfold write_at in Ew. rewrite Hld in Ew. by assert ((0 <=? pos) && (pos + READ_CHUNK <=? zlen buf) = true) as E by lia; rewrite E in Ew. }
    rewrite (bind_ret _ _ _ tt b) by by rewrite Ew. cbv zeta. rewrite Hld, Z.eqb_refl. cbn [negb].
    rewrite u32_id by (unfold in_u32, READ_CHUNK in *; lia).
    assert (Hm' : (pos + READ_CHUNK) `mod` READ_CHUNK = 0).
    { rewrite <- (Z.mul_1_l READ_CHUNK) at 1. rewrite Z.mod_add; [done|by unfold READ_CHUNK]. }
    assert (user ≠ pos + READ_CHUNK) as Hne by (intros ->; done).
    rewrite (proj2 (Z.eqb_neq user (pos + READ_CHUNK))) by done.
    apply IH; try done; try lia.
    + unfold READ_CHUNK in *; lia.
    + unfold write_at in Ew. case_match eqn:Ec; simplify_eq. rewrite !zlen_app, Hld. unfold zlen, READ_CHUNK in *.
      rewrite length_take, length_drop. lia.
Qed.

(** A file written whole and read back whole into a buffer that holds it
    gives the same bytes and their number; a bounded read of at most a chunk
    (100 KB) stores at most that many bytes; but a bounded read of more than a
    chunk that is no multiple of it reads on past the caller's buffer when the
    file is long enough. *)
Theorem file_read_write :
  (∀ data old buf fuel, 0 < zlen data < 2 ^ 31 → zlen data ≤ zlen buf → zlen data < WRITE_CHUNK * (Z.of_nat fuel - 1) →
     ∃ f, OSA_fileWriteFile fuel true id data (zlen data) old = Ret (Some OSA_SOK) f ∧
       OSA_fileReadFile fuel (Some f) 0 buf = Ret (Some (OSA_SOK, zlen data)) (data ++ drop (length data) buf)) ∧
  (∀ file buf user fuel, 0 < user ≤ READ_CHUNK → user ≤ zlen buf →
     OSA_fileReadFile (S fuel) (Some file) user buf =
       Ret (Some (OSA_SOK, Z.min user (zlen file)))
           (take (Z.to_nat user) file ++ drop (length (take (Z.to_nat user) file)) buf)) ∧
  (∀ file buf user fuel, READ_CHUNK < user → user `mod` READ_CHUNK ≠ 0 → zlen buf = user →
     user + READ_CHUNK ≤ zlen file < 2 ^ 32 → user < READ_CHUNK * Z.of_nat fuel →
     OSA_fileReadFile fuel (Some file) user buf = Flt OutOfBounds).
Proof.
  split_and!.
  - intros data old buf fuel Hd Hb Hf. exists data. split.
    + unfold OSA_fileWriteFile. rewrite (proj2 (Z.eqb_neq (zlen data) 0)) by lia. cbn [negb].
      rewrite (bind_ret _ _ _ tt []) by done. rewrite i32_id by (unfold in_i32; lia).
      rewrite <- (Z.sub_0_r (zlen data)) at 1. apply (write_loop_all fuel data 0); unfold WRITE_CHUNK in *; lia.
    + unfold OSA_fileReadFile. rewrite (bind_ret _ _ _ (Some (zlen data)) (data ++ drop (length data) buf)); [done|].
      pose proof (read_loop_all fuel data 0 buf) as H. rewrite Z.sub_0_r in H. change (take (Z.to_nat 0) data ++ buf) with buf in H.
      rewrite H by (unfold READ_CHUNK, WRITE_CHUNK in *; lia). f_equal. unfold zlen. by rewrite Nat2Z.id.
  - intros file buf user fuel Hu Hb. unfold OSA_fileReadFile.
    set (data := take (Z.to_nat user) file).
    assert (Hld : zlen data = Z.min user (zlen file)) by (unfold data, zlen; rewrite length_take; lia).
    rewrite (bind_ret _ _ _ (Some (zlen data)) (data ++ drop (length data) buf)); [by rewrite Hld|].
    cbn [read_loop]. rewrite (proj2 (Z.eqb_neq user 0)) by lia. cbn [negb andb].
    assert ((if user <? READ_CHUNK then user else READ_CHUNK) = user) as -> by (destruct (Z.ltb_spec user READ_CHUNK); lia).
    change (drop (Z.to_nat 0) file) with file. fold data.
    rewrite (bind_ret _ _ _ tt (data ++ drop (length data) buf)) by by rewrite write_at_0 by lia. cbv zeta.
    rewrite Z.add_0_l, u32_id by (unfold in_u32, READ_CHUNK in *; pose proof (zlen_nonneg data); lia).
    destruct (user =? zlen data); done.
  - intros file buf user fuel Hu Hm Hb Hfl Hf. unfold OSA_fileReadFile, mbind, CM_bind.
    rewrite (read_loop_overrun fuel file buf 0 user); try done; lia || (unfold READ_CHUNK in *; lia).
Qed.

End File.

Lemma file_read_write_witness :
  (∃ f, File.OSA_fileWriteFile 2 true id [1; 2; 3] 3 [9] = Ret (Some OSA_SOK) f ∧
     File.OSA_fileReadFile 2 (Some f) 0 [0; 0; 0; 0] = Ret (Some (OSA_SOK, 3)) [1; 2; 3; 0]) ∧
  File.OSA_fileReadFile 1 (Some [1; 2; 3]) 2 [0; 0] = Ret (Some (OSA_SOK, 2)) [1; 2].
Proof.
  destruct File.file_read_write as (H1 & H2 & _). split.
  - destruct (H1 [1; 2; 3] [9] [0; 0; 0; 0] 2%nat) as (f & E1 & E2);
      [unfold zlen; cbn; lia|unfold zlen; cbn; lia|unfold zlen, File.WRITE_CHUNK; cbn; lia|].
    exists f. exact (conj E1 E2).
  - exact (H2 [1; 2; 3] [0; 0] 2 0%nat ltac:(unfold File.READ_CHUNK; lia) ltac:(unfold zlen; cbn; lia)).
Defined.

(** * Profiles *)

Module Prf.

(** All fields are [Uint32]. *)
Record OSA_PrfHndl := mkPrf {
  totalTime : Z; maxTime : Z; minTime : Z;
  totalValue : Z; maxValue : Z; minValue : Z;
  prf_count : Z; curTime : Z; curValue : Z
}.
#[export] Instance eta_Prf : Eta OSA_PrfHndl := fun p =>
  mkPrf (totalTime p) (maxTime p) (minTime p) (totalValue p) (maxValue p) (minValue p)
    (prf_count p) (curTime p) (curValue p).

Definition OSA_prfReset : CM OSA_PrfHndl Z := _ ← modify (fun _ => mkPrf 0 0 0 0 0 0 0 0 0); mret OSA_SOK.

(** [now] is the result of [OSA_getCurTimeInMsec]. *)
Definition OSA_prfBegin (now : Z) : CM OSA_PrfHndl Z := _ ← modify (fun p => p <| curTime := now |>); mret OSA_SOK.

Definition OSA_prfEnd (now value : Z) : CM OSA_PrfHndl Z :=
  _ ← modify (fun p => p <| curTime := u32 (now - curTime p) |>);
  _ ← modify (fun p => p <| prf_count := u32 (prf_count p + 1) |>);
  _ ← modify (fun p => p <| totalTime := u32 (totalTime p + curTime p) |>);
  _ ← modify (fun p => if maxTime p <? curTime p then p <| maxTime := curTime p |> else p);
  _ ← modify (fun p => if curTime p <? minTime p then p <| minTime := curTime p |> else p);
  _ ← modify (fun p => p <| totalValue := u32 (totalValue p + value) |>);
  _ ← modify (fun p => if maxValue p <? value then p <| maxValue := value |> else p);
  _ ← modify (fun p => if value <? minTime p then p <| minValue := curValue p |> else p);
  mret OSA_SOK.

(** A measured call: its begin time, duration and value. *)
Fixpoint prf_run (l : list (Z * Z * Z)) : CM OSA_PrfHndl unit :=
  match l with
  | [] => mret tt
  | (t, d, v) :: l => _ ← OSA_prfBegin t; _ ← OSA_prfEnd (t + d) v; prf_run l
  end.

Lemma prf_end_ret t d v p :
  in_u32 d → 0 ≤ v → minTime p = 0 →
  (_ ← OSA_prfBegin t; OSA_prfEnd (t + d) v) p =
    Ret OSA_SOK (mkPrf (u32 (totalTime p + d)) (Z.max (maxTime p) d) 0
      (u32 (totalValue p + v)) (Z.max (maxValue p) v) (minValue p) (u32 (prf_count p + 1)) d (curValue p)).
Proof.
  intros Hd Hv Hm. destruct p as [a1 a2 a3 a4 a5 a6 a7 a8 a9]. cbn in Hm. subst a3.
  unfold OSA_prfBegin, OSA_prfEnd. run. replace (t + d - t) with d by lia. rewrite u32_id by done.
  assert (Hmax : ∀ a b : Z, Z.max a b = if a <? b then b else a) by (intros a b; destruct (Z.ltb_spec a b); lia).
  rewrite !Hmax. unfold in_u32 in Hd.
  destruct (a2 <? d); cbn; (rewrite (proj2 (Z.ltb_ge d 0)) by lia); cbn;
    destruct (a5 <? v); cbn; by rewrite (proj2 (Z.ltb_ge v 0)) by lia.
Qed.

(** After a reset, the measurements add up and the maxima are kept; the minima
    stay 0 whatever is measured. *)
Lemma prf_totals l p :
  Forall (fun x => in_u32 (x.1.2) ∧ 0 ≤ x.2) l → minTime p = 0 → minValue p = 0 →
  ∃ p', prf_run l p = Ret tt p' ∧ prf_count p' = (if l is [] then prf_count p else u32 (prf_count p + zlen l)) ∧
    totalTime p' = (if l is [] then totalTime p else u32 (totalTime p + foldr Z.add 0 (map (fun x => x.1.2) l))) ∧
    maxTime p' = foldl Z.max (maxTime p) (map (fun x => x.1.2) l) ∧
    maxValue p' = foldl Z.max (maxValue p) (map snd l) ∧ minTime p' = 0 ∧ minValue p' = 0.
Proof.
  intros Hl. revert p. induction Hl as [|[[t d] v] l [Hd Hv] _ IH]; intros p Hm Hmv; [by exists p|]. cbn in Hd, Hv.
  set (p1 := mkPrf (u32 (totalTime p + d)) (Z.max (maxTime p) d) 0
      (u32 (totalValue p + v)) (Z.max (maxValue p) v) (minValue p) (u32 (prf_count p + 1)) d (curValue p)).
  destruct (IH p1 eq_refl Hmv) as (p' & E & Hc & Ht & Hx & Hy & ? & ?). exists p'. split_and!; [|..|done|done].
  - cbn [prf_run]. pose proof (prf_end_ret t d v p Hd Hv Hm) as E1. unfold mbind, CM_bind in *.
    destruct (OSA_prfBegin t p) as [x s| |]; [|done|done]. by rewrite E1.
  - rewrite Hc. destruct l as [|y l]; [done|]. cbn [prf_count p1]. rewrite (zlen_cons _ (y :: l)).
    autorewrite with cint. f_equal. lia.
  - rewrite Ht. destruct l as [|y l]; [cbn; f_equal; lia|]. cbn [totalTime p1]. autorewrite with cint. f_equal. cbn. lia.
  - done.
  - done.
Qed.

End Prf.

(** * Hexadecimal strings *)

Module Str.

(** Characters are their codes. *)
Definition xtod (c : Z) : Z :=
  if (48 <=? c) && (c <=? 57) then c - 48
  else if (65 <=? c) && (c <=? 70) then c - 65 + 10
  else if (97 <=? c) && (c <=? 102) then c - 97 + 10
  else 0.

Fixpoint HextoDec (hex : list Z) (l : Z) : CM unit Z :=
  match hex with
  | [] => fault_with OutOfBounds
  | c :: hex => if c =? 0 then mret l else HextoDec hex (l * 16 + xtod c)
  end.

Definition xstrtoi (hex : list Z) : CM unit Z := HextoDec hex 0.

(** The upper-case digits of a number, most significant first. *)
Definition digit_char (d : Z) : Z := if d <? 10 then d + 48 else d + 55.

(** Reading the digits of a number gives the number. *)
Lemma xstrtoi_digits ds rest :
  Forall (fun d => 0 ≤ d < 16) ds →
  xstrtoi (map digit_char ds ++ 0 :: rest) tt = Ret (foldl (fun a d => a * 16 + d) 0 ds) tt.
Proof.
  intros H. unfold xstrtoi. generalize 0 at 2 3 as a. induction H as [|d ds Hd _ IH]; intros a; [done|].
  cbn [map app HextoDec foldl]. assert (Hx : digit_char d ≠ 0 ∧ xtod (digit_char d) = d).
  { unfold digit_char, xtod. destruct (Z.ltb_spec d 10); split; try lia.
    - by assert ((48 <=? d + 48) && (d + 48 <=? 57) = true) as -> by lia; lia.
    - assert ((48 <=? d + 55) && (d + 55 <=? 57) = false) as -> by lia.
      assert ((65 <=? d + 55) && (d + 55 <=? 70) = true) as -> by lia. lia. }
  destruct Hx as [H0 Hx]. rewrite (proj2 (Z.eqb_neq _ _) H0), Hx. apply IH.
Qed.

End Str.
