(* ===== verification/Rendezvous.v ===== *)
(** * Rendezvous and pause objects ([utils/osa/inc/rendezvous.h], [pause.h])

    Counters under a mutex with threads asleep on a condition variable. A call
    runs to its return or to its sleep as one step ([Blk] is the sleep); a woken
    thread returns without testing again, so a broadcast lets every sleeper
    pass. *)

From S2P Require Import Prelude.

(** * Rendezvous *)

Record Rendezvous_Obj := mkRv { orig : Z; rv_count : Z }.

#[export] Instance eta_Rv : Eta Rendezvous_Obj := fun r => mkRv (orig r) (rv_count r).

Definition Rendezvous_open (n : Z) : CM Rendezvous_Obj unit :=
  _ ← modify (fun r => r <| rv_count := n |>); modify (fun r => r <| orig := n |>).

(** Returns after a broadcast, or sleeps. *)
Definition Rendezvous_meet : CM Rendezvous_Obj unit := fun r =>
  let r := r <| rv_count := i32 (rv_count r - 1) |> in
  if 0 <? rv_count r then Blk r else Ret tt r.

(** Returns after a broadcast. *)
Definition Rendezvous_force : CM Rendezvous_Obj unit := modify (fun r => r <| rv_count := 0 |>).
Definition Rendezvous_reset : CM Rendezvous_Obj unit := modify (fun r => r <| rv_count := orig r |>).

(** The object, how many threads have called [Rendezvous_meet], how many of them
    are asleep in it and how many have returned from it; how many returned on a
    wake-up nobody made, and whether [Rendezvous_force] was called. *)
Record rv_conf := mkRvConf { rc_rv : Rendezvous_Obj; arrived : Z; asleep : Z; passed : Z; spurious : Z; forced : bool }.

#[export] Instance eta_rv_conf : Eta rv_conf := fun c =>
  mkRvConf (rc_rv c) (arrived c) (asleep c) (passed c) (spurious c) (forced c).

Definition rv_start (n : Z) : rv_conf :=
  match Rendezvous_open n (mkRv 0 0) with
  | Ret _ r => mkRvConf r 0 0 0 0 false
  | _ => mkRvConf (mkRv 0 0) 0 0 0 0 false
  end.

(** POSIX allows [pthread_cond_wait] to return without a signal; a thread woken so
    returns from [Rendezvous_meet], since the wait is not in a loop. *)
Inductive rv_step : rv_conf → rv_conf → Prop :=
  | rv_meet_sleep c r : Rendezvous_meet (rc_rv c) = Blk r →
      rv_step c (mkRvConf r (arrived c + 1) (asleep c + 1) (passed c) (spurious c) (forced c))
  | rv_meet_pass c r : Rendezvous_meet (rc_rv c) = Ret tt r →
      rv_step c (mkRvConf r (arrived c + 1) 0 (passed c + asleep c + 1) (spurious c) (forced c))
  | rv_spurious c : 0 < asleep c →
      rv_step c (mkRvConf (rc_rv c) (arrived c) (asleep c - 1) (passed c + 1) (spurious c + 1) (forced c))
  | rv_force c r : Rendezvous_force (rc_rv c) = Ret tt r →
      rv_step c (mkRvConf r (arrived c) 0 (passed c + asleep c) (spurious c) true).

(** The barrier is open: the last of the [n] threads has arrived, or it was forced. *)
Definition opened (n : Z) (c : rv_conf) : bool := forced c || (n <=? arrived c).

(** As long as the barrier is closed a thread that arrived is asleep or was woken by
    nobody; once it is open every thread has passed. The bound keeps the counter an int. *)
Record rv_inv (n : Z) (c : rv_conf) : Prop := {
  ri_arrived : 0 ≤ arrived c;
  ri_count : arrived c < 2 ^ 31 → if forced c then - arrived c ≤ rv_count (rc_rv c) ≤ 0 else rv_count (rc_rv c) = n - arrived c;
  ri_asleep : 0 ≤ asleep c;
  ri_spurious : 0 ≤ spurious c;
  ri_all : arrived c < 2 ^ 31 → passed c + asleep c = arrived c;
  ri_closed : opened n c = false → passed c = spurious c;
  ri_open : opened n c = true → arrived c < 2 ^ 31 → asleep c = 0
}.

Lemma rv_step_inv n c c' : 0 < n < 2 ^ 31 → rv_inv n c → rv_step c c' → rv_inv n c'.
Proof.
  intros Hn [Ha Hc Hs Hsp Hall Hcl Hop] Hst. unfold opened in *.
  destruct Hst as [c r E|c r E|c Hs1|c r E].
  3, 4: try (injection E as <-); split; cbn; unfold opened; cbn; destruct (forced c); cbn in *; first [done|lia].
  all: unfold Rendezvous_meet in E; destruct (decide (arrived c + 1 < 2 ^ 31)) as [Hlt|Hge].
  all: try (rewrite i32_id in E by (destruct (forced c); unfold in_i32; lia)).
  all: cbn in E; destruct (0 <? _) eqn:E0 in E; try done; injection E as <-.
  all: split; cbn; unfold opened; cbn; try done; try lia; destruct (forced c); cbn in *; lia.
Qed.

(** C19: a rendezvous of [n] threads is a barrier, up to the wake-ups that POSIX
    allows without a signal, since its wait is not in a loop. In whatever order the threads arrive, are
    woken by nobody or are let through by [Rendezvous_force]: before the barrier opens, which the
    n-th arrival or the forcing does, the threads that returned from [Rendezvous_meet] are exactly as many as the
    wake-ups nobody made, so none has without one, and all others that arrived are
    asleep; from then on none is left asleep and every thread that arrives passes. *)
Theorem rendezvous_barrier n c :
  0 < n < 2 ^ 31 → rtc rv_step (rv_start n) c → arrived c < 2 ^ 31 →
  (forced c = false → arrived c < n → passed c = spurious c ∧ asleep c = arrived c - spurious c) ∧
  (forced c = true ∨ n ≤ arrived c → asleep c = 0 ∧ passed c = arrived c) ∧
  (spurious c = 0 → forced c = false → 0 < passed c → n ≤ arrived c).
Proof.
  intros Hn Hr Hlt.
  destruct (rtc_invariant rv_step (rv_inv n) _ _ (fun x y => rv_step_inv n x y Hn) Hr) as [Ha Hc Hs Hsp Hall Hcl Hop].
  - change (rv_start n) with (mkRvConf (mkRv n n) 0 0 0 0 false). split; unfold opened; cbn; lia.
  - unfold opened in *. specialize (Hall Hlt). split_and!.
    + intros Hf Hb. rewrite Hf in Hcl. cbn in Hcl. lia.
    + intros Ho. assert (Hop' : forced c || (n <=? arrived c) = true) by (destruct Ho as [-> | Ho]; [done|]; destruct (forced c); cbn; lia).
      specialize (Hop Hop' Hlt). lia.
    + intros H0 Hf Hp. rewrite Hf in Hcl. cbn in Hcl. lia.
Qed.

(** Three threads: the first is woken by nobody and passes alone, the second sleeps, the third opens the barrier. *)
Lemma rendezvous_barrier_witness :
  ∃ c1 c2, rtc rv_step (rv_start 3) c1 ∧ arrived c1 = 2 ∧ spurious c1 = 1 ∧ passed c1 = 1 ∧ asleep c1 = 1 ∧
    rv_step c1 c2 ∧ arrived c2 = 3 ∧ asleep c2 = 0 ∧ passed c2 = 3.
Proof.
  set (c1 := mkRvConf (mkRv 3 1) 2 1 1 1 false). set (c2 := mkRvConf (mkRv 3 0) 3 0 3 1 false).
  assert (Hr : rtc rv_step (rv_start 3) c1).
  { eapply rtc_l; [by eapply rv_meet_sleep|]. eapply rtc_l; [by eapply rv_spurious|]. eapply rtc_l; [by eapply rv_meet_sleep|]. apply rtc_refl. }
  assert (Hs : rv_step c1 c2) by by apply (rv_meet_pass c1 (mkRv 3 0)).
  destruct (rendezvous_barrier 3 c1 ltac:(lia) Hr) as (H1 & _); [cbn; lia|].
  destruct (rendezvous_barrier 3 c2 ltac:(lia) (rtc_r _ _ _ Hr Hs)) as (_ & H2 & _); [cbn; lia|].
  destruct H1 as [Hp Ha]; [reflexivity|cbn; lia|]. destruct H2 as [Ha2 Hp2]; [right; cbn; lia|].
  exists c1, c2. exact (conj Hr (conj eq_refl (conj eq_refl (conj Hp (conj Ha (conj Hs (conj eq_refl (conj Ha2 Hp2)))))))).
Defined.

(** The two ways past the barrier: [Rendezvous_force] lets every sleeper
    pass and every thread that arrives later; and a spurious wake-up
    lets a thread pass alone. *)
Theorem rendezvous_force_and_spurious n r :
  (∃ r', Rendezvous_force r = Ret tt r' ∧ Rendezvous_meet r' = Ret tt (r' <| rv_count := -1 |>)) ∧
  (2 ≤ n < 2 ^ 31 → ∃ c, rtc rv_step (rv_start n) c ∧ passed c = 1 ∧ arrived c = 1 ∧ forced c = false).
Proof.
  split; [by eexists|]. intros Hn. exists (mkRvConf (mkRv n (n - 1)) 1 0 1 1 false). split_and!; [|done..].
  eapply rtc_l; [|eapply rtc_once; by apply (rv_spurious (mkRvConf (mkRv n (n - 1)) 1 1 0 0 false))].
  change (rv_start n) with (mkRvConf (mkRv n n) 0 0 0 0 false).
  apply (rv_meet_sleep (mkRvConf (mkRv n n) 0 0 0 0 false)). unfold Rendezvous_meet. cbn [rc_rv rv_count update].
  rewrite i32_id by (unfold in_i32; lia). by destruct (0 <? n - 1) eqn:E0; [|lia].
Qed.

Lemma rendezvous_force_and_spurious_witness :
  ∃ c, rtc rv_step (rv_start 4) c ∧ passed c = 1 ∧ arrived c = 1 ∧ forced c = false.
Proof. destruct (rendezvous_force_and_spurious 4 (mkRv 4 1)) as (_ & Hs). apply Hs. lia. Defined.

(** * Pause *)

Module Pause.

Definition pause : Type := Z.

Definition Pause_open : CM pause unit := fun _ => Ret tt 0.
Definition Pause_test : CM pause unit := fun p => if p =? 1 then Blk p else Ret tt p.
Definition Pause_on : CM pause unit := fun _ => Ret tt 1.
(** The result tells whether the sleepers are woken. *)
Definition Pause_off : CM pause bool := fun p => if p =? 1 then Ret true 0 else Ret false p.

(** The object and the threads asleep in [Pause_test]. *)
Inductive pause_step : pause * Z → pause * Z → Prop :=
  | pst_sleep p p' n : Pause_test p = Blk p' → pause_step (p, n) (p', n + 1)
  | pst_pass p p' n : Pause_test p = Ret tt p' → pause_step (p, n) (p', n)
  | pst_on p p' n : Pause_on p = Ret tt p' → pause_step (p, n) (p', n)
  | pst_off p p' b n : Pause_off p = Ret b p' → pause_step (p, n) (p', if b then 0 else n).

(** No thread is asleep in an object that is not paused. *)
Lemma pause_wakes p n c :
  Pause_open p = Ret tt n → rtc pause_step (n, 0) c → c.1 = 0 ∨ c.1 = 1 ∧ 0 ≤ c.2.
Proof.
  intros [= <-] Hr.
  enough (H : (c.1 = 0 ∧ c.2 = 0) ∨ (c.1 = 1 ∧ 0 ≤ c.2)) by tauto.
  refine (rtc_invariant pause_step (fun c => (c.1 = 0 ∧ c.2 = 0) ∨ (c.1 = 1 ∧ 0 ≤ c.2)) _ _ _ Hr _);
    [|by left].
  intros x y Hi Hst. destruct Hst as [q q' k E|q q' k E|q q' k E|q q' b k E]; cbn in *;
    unfold Pause_test, Pause_on, Pause_off in E; try (destruct (q =? 1) eqn:E1); simplify_eq; lia.
Qed.

End Pause.
