(* ===== verification/Fifo.v ===== *)
(** * FIFOs of fixed-size messages ([utils/osa/inc/fifoutil.h])

    A [FifoUtil_Obj] is a message size and the two ends of a pipe. The pipe is
    modelled as the byte stream that [pipe(7)] documents: a write of at most
    [PIPE_BUF] bytes is atomic and sleeps while there is no room for all of it, a
    read returns what is there up to the size asked for and sleeps while there is
    nothing. [MsgFifo] is the contract the threads rely on: whole messages in
    order; [fifo_msgs] implements it for every message type with an encoding of
    the FIFO's size. *)

From stdpp Require Import vector.
From S2P Require Import Prelude.

Definition FIFOUTIL_SUCCESS : Z := 0.
Definition FIFOUTIL_FAILURE : Z := -1.
Definition PIPE_BUF : Z := 4096.
Definition PIPE_CAPACITY : Z := 65536.

Record FifoUtil_Obj := mkFifo {
  size : Z;
  rd_open : bool;
  wr_open : bool;
  stream : list Z
}.

#[export] Instance eta_Fifo : Eta FifoUtil_Obj := fun f =>
  mkFifo (size f) (rd_open f) (wr_open f) (stream f).

(** [pipe()], [read], [write] and [close] on the pipe of a FIFO; -1 for a failed
    call. *)
Definition sys_read (n : Z) : CM FifoUtil_Obj (Z * list Z) := fun f =>
  if negb (rd_open f) then Ret (-1, []) f
  else match stream f with
       | [] => if wr_open f then Blk f else Ret (0, []) f
       | _ => let bs := take (Z.to_nat n) (stream f) in
              Ret (zlen bs, bs) (f <| stream := drop (Z.to_nat n) (stream f) |>)
       end.

Definition sys_write (buf : list Z) (n : Z) : CM FifoUtil_Obj Z := fun f =>
  if zlen buf <? n then Flt OutOfBounds
  else if negb (wr_open f) then Ret (-1) f
  else if PIPE_CAPACITY <? zlen (stream f) + n then Blk f
  else Ret n (f <| stream := stream f ++ take (Z.to_nat n) buf |>).

Definition sys_close_rd : CM FifoUtil_Obj Z := fun f =>
  if rd_open f then Ret 0 (f <| rd_open := false |>) else Ret (-1) f.
Definition sys_close_wr : CM FifoUtil_Obj Z := fun f =>
  if wr_open f then Ret 0 (f <| wr_open := false |>) else Ret (-1) f.

(** [pipe_ret] is the result of the [pipe] call. *)
Definition FifoUtil_open (pipe_ret sz : Z) : CM FifoUtil_Obj Z :=
  if negb (pipe_ret =? 0) then mret FIFOUTIL_FAILURE
  else _ ← modify (fun f => f <| rd_open := true |> <| wr_open := true |> <| stream := [] |>);
       _ ← modify (fun f => f <| size := sz |>);
       mret FIFOUTIL_SUCCESS.

Definition FifoUtil_close : CM FifoUtil_Obj Z :=
  r0 ← sys_close_rd;
  r1 ← sys_close_wr;
  mret (if negb (r0 =? 0) || negb (r1 =? 0) then FIFOUTIL_FAILURE else FIFOUTIL_SUCCESS).

(** The bytes are those copied to the caller's buffer. *)
Definition FifoUtil_get : CM FifoUtil_Obj (Z * list Z) :=
  sz ← gets size;
  r ← sys_read sz;
  mret (if negb (r.1 =? sz) then FIFOUTIL_FAILURE else FIFOUTIL_SUCCESS, r.2).

Definition FifoUtil_put (buffer : list Z) : CM FifoUtil_Obj Z :=
  sz ← gets size;
  r ← sys_write buffer sz;
  mret (if negb (r =? sz) then FIFOUTIL_FAILURE else FIFOUTIL_SUCCESS).

(** * The contract *)

(** [f_holds q l]: the open FIFO [q] holds the messages [l]. *)
Class MsgFifo (F A : Type) := {
  f_put : A → CM F Z;
  f_get : CM F (Z * option A);
  f_holds : F → list A → Prop;
  f_room : F → Z;
  f_put_ok q l x : f_holds q l → 0 < f_room q →
    ∃ q', f_put x q = Ret FIFOUTIL_SUCCESS q' ∧ f_holds q' (l ++ [x]) ∧ f_room q' = f_room q - 1;
  f_put_full q l x : f_holds q l → f_room q ≤ 0 → f_put x q = Blk q;
  f_get_ok q l x : f_holds q (x :: l) →
    ∃ q', f_get q = Ret (FIFOUTIL_SUCCESS, Some x) q' ∧ f_holds q' l ∧ f_room q' = f_room q + 1;
  f_get_empty q : f_holds q [] → f_get q = Blk q
}.

(** A message type laid out in [msg_size] bytes. *)
Class Layout (A : Type) := {
  msg_size : Z;
  enc : A → list Z;
  dec : list Z → option A;
  layout_size : 0 < msg_size ≤ PIPE_BUF;
  enc_size x : zlen (enc x) = msg_size;
  dec_enc x : dec (enc x) = Some x
}.

Section Messages.
Context {A : Type} {HA : Layout A}.

Definition put_msg (x : A) : CM FifoUtil_Obj Z := FifoUtil_put (enc x).
Definition get_msg : CM FifoUtil_Obj (Z * option A) :=
  r ← FifoUtil_get;
  mret (r.1, if r.1 =? FIFOUTIL_SUCCESS then dec r.2 else None).

Record fifo_holds (f : FifoUtil_Obj) (l : list A) : Prop := {
  fh_size : size f = msg_size;
  fh_rd : rd_open f = true;
  fh_wr : wr_open f = true;
  fh_stream : stream f = concat (map enc l);
  fh_cap : zlen (stream f) ≤ PIPE_CAPACITY
}.

(** The messages that fit behind those in the pipe. *)
Definition room (f : FifoUtil_Obj) : Z := (PIPE_CAPACITY - zlen (stream f)) / msg_size.

Lemma take_enc x (l : list Z) : take (Z.to_nat msg_size) (enc x ++ l) = enc x.
Proof. rewrite <- (enc_size x). unfold zlen. by rewrite Nat2Z.id, take_app_length. Qed.
Lemma drop_enc x (l : list Z) : drop (Z.to_nat msg_size) (enc x ++ l) = l.
Proof. rewrite <- (enc_size x). unfold zlen. by rewrite Nat2Z.id, drop_app_length. Qed.

Lemma room_pos n : 0 ≤ n → (0 < (PIPE_CAPACITY - n) / msg_size ↔ n + msg_size ≤ PIPE_CAPACITY).
Proof.
  intros Hn. pose proof layout_size as Hs. split; intros H.
  - pose proof (Z.mul_div_le (PIPE_CAPACITY - n) msg_size). nia.
  - apply Z.div_str_pos. lia.
Qed.

Lemma put_msg_ok f l x :
  fifo_holds f l → 0 < room f →
  ∃ f', put_msg x f = Ret FIFOUTIL_SUCCESS f' ∧ fifo_holds f' (l ++ [x]) ∧ room f' = room f - 1.
Proof.
  intros [Hsz Hr Hw Hst Hcap] Hroom. pose proof layout_size as Hs.
  apply (room_pos (zlen (stream f)) (zlen_nonneg _)) in Hroom.
  assert (Htake : take (Z.to_nat msg_size) (enc x) = enc x)
    by (rewrite <- (app_nil_r (enc x)) at 1; apply take_enc).
  exists (f <| stream := stream f ++ enc x |>). split_and!.
  - unfold put_msg, FifoUtil_put, sys_write. run. rewrite Hsz, Hw, Htake, enc_size. cbn.
    destruct (msg_size <? msg_size) eqn:E1; [lia|].
    destruct (PIPE_CAPACITY <? zlen (stream f) + msg_size) eqn:E2; [lia|].
    by rewrite Z.eqb_refl.
  - split; cbn; try done.
    + by rewrite Hst, map_app, concat_app; cbn; rewrite app_nil_r.
    + rewrite zlen_app, enc_size. lia.
  - unfold room. cbn. rewrite zlen_app, enc_size.
    replace (PIPE_CAPACITY - (zlen (stream f) + msg_size))
      with (PIPE_CAPACITY - zlen (stream f) + (-1) * msg_size) by lia.
    rewrite Z.div_add by lia. lia.
Qed.

Lemma put_msg_full f l x : fifo_holds f l → room f ≤ 0 → put_msg x f = Blk f.
Proof.
  intros [Hsz Hr Hw Hst Hcap] Hroom.
  assert (¬ (zlen (stream f) + msg_size ≤ PIPE_CAPACITY)) as Hn.
  { intros H%room_pos; [unfold room in Hroom; lia|apply zlen_nonneg]. }
  unfold put_msg, FifoUtil_put, sys_write. run. rewrite Hsz, Hw, enc_size. cbn.
  destruct (msg_size <? msg_size) eqn:E1; [lia|].
  by destruct (PIPE_CAPACITY <? zlen (stream f) + msg_size) eqn:E2; [|lia].
Qed.

Lemma get_msg_ok f l x :
  fifo_holds f (x :: l) →
  ∃ f', get_msg f = Ret (FIFOUTIL_SUCCESS, Some x) f' ∧ fifo_holds f' l ∧ room f' = room f + 1.
Proof.
  intros [Hsz Hr Hw Hst Hcap]. pose proof layout_size as Hs. cbn in Hst.
  exists (f <| stream := concat (map enc l) |>).
  assert (Hlen : zlen (stream f) = msg_size + zlen (concat (map enc l)))
    by (by rewrite Hst, zlen_app, enc_size).
  split_and!.
  - unfold get_msg, FifoUtil_get, sys_read. run. rewrite Hsz, Hr, Hst. cbn.
    destruct (enc x ++ concat (map enc l)) eqn:E.
    { apply (f_equal zlen) in E. rewrite zlen_app, enc_size in E.
      pose proof (zlen_nonneg (concat (map enc l))). change (zlen (@nil Z)) with 0 in E. lia. }
    cbn. rewrite <- E, take_enc, drop_enc, enc_size, Z.eqb_refl. cbn. by rewrite dec_enc.
  - split; cbn; try done. lia.
  - unfold room. cbn. rewrite Hlen.
    replace (PIPE_CAPACITY - zlen (concat (map enc l)))
      with (PIPE_CAPACITY - (msg_size + zlen (concat (map enc l))) + 1 * msg_size) by lia.
    rewrite Z.div_add by lia. lia.
Qed.

Lemma get_msg_empty f : fifo_holds f [] → get_msg f = Blk f.
Proof.
  intros [Hsz Hr Hw Hst Hcap]. unfold get_msg, FifoUtil_get, sys_read. run.
  by rewrite Hsz, Hr, Hst, Hw.
Qed.

#[export] Instance fifo_msgs : MsgFifo FifoUtil_Obj A := {|
  f_put := put_msg; f_get := get_msg; f_holds := fifo_holds; f_room := room;
  f_put_ok := put_msg_ok; f_put_full := put_msg_full;
  f_get_ok := get_msg_ok; f_get_empty := get_msg_empty
|}.

(** ** Runs of one writer and one reader *)

(** What the reader obtains while the writer puts [ins], in any interleaving;
    a put or get that sleeps is a step not yet taken. *)
Inductive fifo_step : FifoUtil_Obj * list A * list A → FifoUtil_Obj * list A * list A → Prop :=
  | fs_put f f' x ins outs : put_msg x f = Ret FIFOUTIL_SUCCESS f' →
      fifo_step (f, x :: ins, outs) (f', ins, outs)
  | fs_get f f' r x ins outs : get_msg f = Ret (r, x) f' →
      fifo_step (f, ins, outs) (f', ins, outs ++ (match x with Some x => [x] | None => [] end)).

Lemma fifo_step_inv ins c c' :
  (∃ l, ins = c.2 ++ l ++ c.1.2 ∧ fifo_holds c.1.1 l) → fifo_step c c' →
  ∃ l, ins = c'.2 ++ l ++ c'.1.2 ∧ fifo_holds c'.1.1 l.
Proof.
  intros (l & Hl & Hf) Hst. destruct Hst as [f f' x ins' outs E|f f' r x ins' outs E]; cbn in *.
  - destruct (decide (0 < room f)) as [Hr|Hr].
    + destruct (put_msg_ok f l x Hf Hr) as (f2 & E2 & Hf2 & _). rewrite E in E2. simplify_eq.
      exists (l ++ [x]). split; [|done]. by rewrite <- app_assoc.
    + rewrite (put_msg_full f l x Hf) in E by lia. done.
  - destruct l as [|y l]; [by rewrite (get_msg_empty f Hf) in E|].
    destruct (get_msg_ok f l y Hf) as (f2 & E2 & Hf2 & _). rewrite E in E2. simplify_eq.
    exists l. split; [|done]. by rewrite <- app_assoc.
Qed.

(** C9: a reader of an opened FIFO gets, in any interleaving with the writer,
    whole messages only, each exactly once and in the order they were put (no
    short read ever makes a get fail); and as long as not everything has been
    delivered one of the two can take a step, so writer and reader never sleep
    at the same time. *)
Theorem fifo_order f0 f1 f' ins ins' outs :
  FifoUtil_open 0 msg_size f0 = Ret FIFOUTIL_SUCCESS f1 →
  rtc fifo_step (f1, ins, []) (f', ins', outs) →
  (∃ l, ins = outs ++ l ++ ins' ∧ fifo_holds f' l) ∧
  (outs ≠ ins → ∃ c, fifo_step (f', ins', outs) c).
Proof.
  intros Ho Hr. assert (Hf1 : fifo_holds f1 []) by (injection Ho as <-; by split).
  destruct (rtc_invariant fifo_step _ _ _ (fifo_step_inv ins) Hr) as (l & Hl & Hf);
    [by exists []|]. cbn in *. split; [by eauto|]. intros Hne.
  destruct l as [|x l].
  - destruct ins' as [|x ins']; [by rewrite Hl, app_nil_r in Hne|].
    destruct (put_msg_ok f' [] x Hf) as (f2 & E & _); [|by eexists; eapply fs_put].
    unfold room. rewrite (fh_stream _ _ Hf). pose proof layout_size.
    apply room_pos; [done|]. change (zlen (concat (map enc (@nil A)))) with 0.
    unfold PIPE_BUF, PIPE_CAPACITY in *. lia.
  - destruct (get_msg_ok f' l x Hf) as (f2 & E & _). by eexists; eapply fs_get.
Qed.

End Messages.

(** A layout for the witness: an [int] in four bytes. *)
#[local] Instance int_layout : Layout (vec Z 4) | 100.
Proof.
  refine {|
    msg_size := 4; enc := @vec_to_list Z 4;
    dec l := match l with [a; b; c; d] => Some [# a; b; c; d] | _ => None end
  |}.
  - by unfold PIPE_BUF.
  - intros x. unfold zlen. by rewrite length_vec_to_list.
  - intros x. repeat (inv_vec x; intros ? x). by inv_vec x.
Defined.

Lemma fifo_order_witness :
  ∃ f1 f', FifoUtil_open 0 4 (mkFifo 0 false false []) = Ret FIFOUTIL_SUCCESS f1 ∧
  rtc fifo_step (f1, [[# 1; 2; 3; 4]; [# 5; 6; 7; 8]], []) (f', [[# 5; 6; 7; 8]], [[# 1; 2; 3; 4]]) ∧
  (∃ l, [[# 1; 2; 3; 4]; [# 5; 6; 7; 8]] = [[# 1; 2; 3; 4]] ++ l ++ [[# 5; 6; 7; 8]] ∧ fifo_holds f' l).
Proof.
  eexists (mkFifo 4 true true []), (mkFifo 4 true true []).
  assert (Ho : FifoUtil_open 0 4 (mkFifo 0 false false []) = Ret FIFOUTIL_SUCCESS (mkFifo 4 true true []))
    by reflexivity.
  assert (Hr : rtc fifo_step (mkFifo 4 true true [], [[# 1; 2; 3; 4]; [# 5; 6; 7; 8]], [])
                 (mkFifo 4 true true [], [[# 5; 6; 7; 8]], [[# 1; 2; 3; 4]])).
  { eapply rtc_l; [by eapply fs_put|]. eapply rtc_l; [by eapply (fs_get _ _ 0 (Some _))|]. apply rtc_refl. }
  split_and!; [exact Ho|exact Hr|exact (proj1 (fifo_order _ _ _ _ _ _ Ho Hr))].
Defined.
