(* ===== verification/RtpSend.v ===== *)
(** * RTP send module ([utils/com/src/rtpsend.c])

    The table [g_rtpSessionMgr] of 32 session objects and the functions that
    allocate, use and remove its entries. The RTP stack is used through the
    interface [RtpLib]; [CallLog] is the instance that records the calls, and
    RtpStack.v the one that runs them on the modelled stack. *)

From S2P Require Import Prelude.

Definition PAYLOAD_TYPE_VIDEO : Z := 34.
Definition PAYLOAD_TYPE_AUDIO : Z := 12.
Definition CHS_PER_SESSION : Z := 4.
Definition MAX_SESSION_NUM : Z := 32.
Definition VIDEO_TIME_STAMP_INC_STD : Z := 3600.
Definition VIDEO_TIME_STAMP_INC : Z := VIDEO_TIME_STAMP_INC_STD `quot` CHS_PER_SESSION.
Definition AUDIO_TIME_STAMP_INC_STD : Z := 320.
Definition AUDIO_TIME_STAMP_INC : Z := AUDIO_TIME_STAMP_INC_STD `quot` CHS_PER_SESSION.
Definition SESSION_TYPE_VIDEO : Z := 0.
Definition SESSION_TYPE_AUDIO : Z := 1.
Definition RTP_SESSION_SENDONLY : Z := 1.

(** * The RTP stack as this module uses it

    A session is a pointer (a [Z]); [lib_inv] is what the stack maintains, and
    under it every call of the set-up and tear-down path returns. *)

Class RtpLib (L : Type) := {
  ortp_init : CM L unit;
  ortp_scheduler_init : CM L unit;
  ortp_exit : CM L unit;
  rtp_session_new : Z → CM L Z;
  rtp_session_set_scheduling_mode : Z → Z → CM L unit;
  rtp_session_set_blocking_mode : Z → Z → CM L unit;
  rtp_session_set_remote_addr : Z → list Z → Z → CM L Z;
  rtp_session_set_ssrc : Z → Z → CM L unit;
  rtp_session_set_payload_type : Z → Z → CM L Z;
  rtp_session_send_with_ts : Z → list Z → Z → Z → CM L Z;
  rtp_session_destroy : Z → CM L unit
}.

(** The calls that make a session, up to its payload type. *)
Definition open_session {L} `{RtpLib L} (ipStr : list Z) (port : Z) (ssrc : option Z) : CM L Z :=
  session ← rtp_session_new RTP_SESSION_SENDONLY;
  _ ← rtp_session_set_scheduling_mode session 1;
  _ ← rtp_session_set_blocking_mode session 1;
  _ ← rtp_session_set_remote_addr session ipStr port;
  _ ← match ssrc with Some x => rtp_session_set_ssrc session x | None => mret tt end;
  mret session.

(** What this module relies on: [lib_ok] holds of the stack between its calls, [live] are
    the sessions made and not destroyed, [ssrc_ok] says which settings of the SSRC it allows. With
    fewer live sessions than the module's table has entries a new one can be made; a
    live one sends any buffer whose packet has a size in an [int], and can be destroyed. *)
Class RtpLibLaws (L : Type) `{RtpLib L} := {
  lib_ok : L → Prop;
  live : L → Z → Prop;
  ssrc_ok : option Z → Prop;
  law_exit s : lib_ok s → ∃ s', ortp_exit s = Ret tt s' ∧ ∀ q, live s' q ↔ live s q;
  law_open ip port ssrc X s : lib_ok s → ssrc_ok ssrc → (∀ q, live s q → q ∈ X) → zlen X < MAX_SESSION_NUM →
    ∃ p s1, open_session ip port ssrc s = Ret p s1 ∧ ¬ live s p ∧ (∀ q, live s1 q ↔ live s q ∨ q = p) ∧
    ∀ pt, pt = PAYLOAD_TYPE_VIDEO ∨ pt = PAYLOAD_TYPE_AUDIO → ∃ r s2, rtp_session_set_payload_type p pt s1 = Ret r s2 ∧
      lib_ok s2 ∧ ∀ q, live s2 q ↔ live s q ∨ q = p;
  law_send p b n ts s : lib_ok s → live s p → 0 ≤ n ≤ zlen b → 12 + n < 2 ^ 31 → in_u32 ts →
    ∃ r s', rtp_session_send_with_ts p b n ts s = Ret r s' ∧ lib_ok s' ∧ ∀ q, live s' q ↔ live s q;
  law_destroy p s : lib_ok s → live s p → ∃ s', rtp_session_destroy p s = Ret tt s' ∧ lib_ok s' ∧
    ∀ q, live s' q ↔ live s q ∧ q ≠ p
}.

Record SessionObj := mkSessionObj {
  pSession : option Z;
  curTimeStamp : Z;
  timeStampInc : Z
}.

#[export] Instance eta_SessionObj : Eta SessionObj := fun o =>
  mkSessionObj (pSession o) (curTimeStamp o) (timeStampInc o).

(** [g_rtpSessionMgr], [g_ssrc] (the parsed value, if the variable is set) and
    the state of the stack. *)
Record RtpMgr (L : Type) := mkRtpMgr {
  g_rtpSessionMgr : list SessionObj;
  g_ssrc : option Z;
  rtplib : L
}.
Arguments mkRtpMgr {L}. Arguments g_rtpSessionMgr {L}. Arguments g_ssrc {L}. Arguments rtplib {L}.

#[export] Instance eta_RtpMgr L : Eta (RtpMgr L) := fun m =>
  mkRtpMgr (g_rtpSessionMgr m) (g_ssrc m) (rtplib m).

Definition is_free (o : SessionObj) : bool :=
  match pSession o with None => true | Some _ => false end.

Section RtpSend.
Context {L : Type} `{RtpLib L}.

Definition on_lib {A} (m : CM L A) : CM (RtpMgr L) A :=
  zoom rtplib (fun l r => r <| rtplib := l |>) m.

(** [g_rtpSessionMgr[i] = f(g_rtpSessionMgr[i])] *)
Definition upd_obj (i : Z) (f : SessionObj → SessionObj) : CM (RtpMgr L) unit := fun m =>
  match aget (g_rtpSessionMgr m) i with
  | Some o => Ret tt (m <| g_rtpSessionMgr ::= <[Z.to_nat i := f o]> |>)
  | None => Flt OutOfBounds
  end.

Definition get_obj (i : Z) : CM (RtpMgr L) SessionObj :=
  t ← gets g_rtpSessionMgr; rd t i.

Definition alloc_sessionID : CM (RtpMgr L) Z :=
  t ← gets g_rtpSessionMgr;
  match find_idx is_free t with
  | Some i => mret i
  | None => mret (-1)
  end.

(** [env] is the value of the environment's SSRC, if set. *)
Definition rtp_init (env : option Z) : CM (RtpMgr L) unit :=
  _ ← modify (fun m => m <| g_rtpSessionMgr :=
                replicate (Z.to_nat MAX_SESSION_NUM) (mkSessionObj None 0 0) |>);
  _ ← on_lib ortp_init;
  _ ← on_lib ortp_scheduler_init;
  modify (fun m => m <| g_ssrc := env |>).

Definition create_rtp_session (ipStr : list Z) (port sessionType : Z) : CM (RtpMgr L) Z :=
  newSessionID ← alloc_sessionID;
  if newSessionID =? -1 then mret (-1) else
  session ← on_lib (rtp_session_new RTP_SESSION_SENDONLY);
  _ ← on_lib (rtp_session_set_scheduling_mode session 1);
  _ ← on_lib (rtp_session_set_blocking_mode session 1);
  _ ← on_lib (rtp_session_set_remote_addr session ipStr port);
  ssrc ← gets g_ssrc;
  _ ← match ssrc with
      | Some x => on_lib (rtp_session_set_ssrc session x)
      | None => mret tt
      end;
  if sessionType =? SESSION_TYPE_VIDEO then
    _ ← on_lib (rtp_session_set_payload_type session PAYLOAD_TYPE_VIDEO);
    _ ← upd_obj newSessionID (fun o => o <| timeStampInc := VIDEO_TIME_STAMP_INC |>);
    _ ← upd_obj newSessionID (fun o => o <| pSession := Some session |>);
    mret newSessionID
  else if sessionType =? SESSION_TYPE_AUDIO then
    _ ← on_lib (rtp_session_set_payload_type session PAYLOAD_TYPE_AUDIO);
    _ ← upd_obj newSessionID (fun o => o <| timeStampInc := AUDIO_TIME_STAMP_INC |>);
    _ ← upd_obj newSessionID (fun o => o <| pSession := Some session |>);
    mret newSessionID
  else mret (-1).

Definition rtp_send (sessionID : Z) (buffer : list Z) (n : Z) : CM (RtpMgr L) Z :=
  if (sessionID <? 0) || (MAX_SESSION_NUM <? sessionID) then mret (-1) else
  o ← get_obj sessionID;
  match pSession o with
  | None => mret (-1)
  | Some p =>
      _ ← on_lib (rtp_session_send_with_ts p buffer n (curTimeStamp o));
      _ ← upd_obj sessionID (fun o => o <| curTimeStamp := u32 (curTimeStamp o + timeStampInc o) |>);
      mret 0
  end.

Definition remove_session_obj (sessionID : Z) : CM (RtpMgr L) Z :=
  if (sessionID <? 0) || (MAX_SESSION_NUM <? sessionID) then mret (-1) else
  o ← get_obj sessionID;
  _ ← match pSession o with
      | Some p =>
          _ ← on_lib (rtp_session_destroy p);
          upd_obj sessionID (fun o => o <| pSession := None |>)
      | None => mret tt
      end;
  _ ← upd_obj sessionID (fun o => o <| curTimeStamp := 0 |>);
  _ ← upd_obj sessionID (fun o => o <| timeStampInc := 0 |>);
  mret 0.

Definition rtp_exit : CM (RtpMgr L) Z :=
  _ ← for_each (seqZ 0 MAX_SESSION_NUM) (fun i => _ ← remove_session_obj i; mret tt);
  _ ← on_lib ortp_exit;
  mret 0.

(** The calls of an application for the buffers of a stream. *)
Definition send_all (id : Z) (bufs : list (list Z)) : CM (RtpMgr L) unit :=
  for_each bufs (fun b => _ ← rtp_send id b (zlen b); mret tt).

End RtpSend.

(** * Lemmas *)

Section Spec.
Context {L : Type} {HL : RtpLib L} {HLL : RtpLibLaws L}.
Implicit Types (m : RtpMgr L) (t : list SessionObj).

(** Free entries are zeroed; the sessions of the table are distinct and exactly the live
    ones of the stack, which is as its laws ask for. *)
Record mgr_wf m : Prop := {
  mw_len : zlen (g_rtpSessionMgr m) = MAX_SESSION_NUM;
  mw_free i o : aget (g_rtpSessionMgr m) i = Some o → pSession o = None → o = mkSessionObj None 0 0;
  mw_live i o p : aget (g_rtpSessionMgr m) i = Some o → pSession o = Some p → live (rtplib m) p;
  mw_inj i j o o' p : aget (g_rtpSessionMgr m) i = Some o → aget (g_rtpSessionMgr m) j = Some o' →
    pSession o = Some p → pSession o' = Some p → i = j;
  mw_lib : lib_ok (rtplib m);
  mw_ssrc : ssrc_ok (g_ssrc m);
  mw_tight p : live (rtplib m) p → ∃ i o, aget (g_rtpSessionMgr m) i = Some o ∧ pSession o = Some p;
  mw_ts i o : aget (g_rtpSessionMgr m) i = Some o → in_u32 (curTimeStamp o)
}.

Definition inc_of (ty : Z) : option Z :=
  if ty =? SESSION_TYPE_VIDEO then Some VIDEO_TIME_STAMP_INC
  else if ty =? SESSION_TYPE_AUDIO then Some AUDIO_TIME_STAMP_INC else None.

Lemma on_lib_ret {A} (f : CM L A) m a l :
  f (rtplib m) = Ret a l → on_lib f m = Ret a (m <| rtplib := l |>).
Proof. intros E. unfold on_lib, zoom. by rewrite E. Qed.

Lemma on_lib_next {A} (f : CM L A) m a l1 l2 :
  f l1 = Ret a l2 → on_lib f (m <| rtplib := l1 |>) = Ret a (m <| rtplib := l2 |>).
Proof. intros E. unfold on_lib, zoom. cbn. by rewrite E. Qed.

Lemma upd_obj_ret i f m o :
  aget (g_rtpSessionMgr m) i = Some o →
  upd_obj i f m = Ret tt (m <| g_rtpSessionMgr ::= <[Z.to_nat i := f o]> |>).
Proof. intros E. unfold upd_obj. by rewrite E. Qed.

Lemma get_obj_ret i m o : aget (g_rtpSessionMgr m) i = Some o → get_obj i m = Ret o m.
Proof. intros E. unfold get_obj. run. by rewrite E. Qed.

Lemma get_obj_out i m :
  ¬ (0 ≤ i < zlen (g_rtpSessionMgr m)) → get_obj (L := L) i m = Flt OutOfBounds.
Proof. intros Hi. unfold get_obj. run. by rewrite (proj2 (aget_None _ _) Hi). Qed.

Lemma alloc_spec m :
  alloc_sessionID m =
    Ret (match find_idx is_free (g_rtpSessionMgr m) with Some i => i | None => -1 end) m.
Proof. unfold alloc_sessionID. run. by destruct (find_idx _ _). Qed.

(** Writing twice to one entry. *)
Lemma insert_twice t i o o' : <[i:=o]> (<[i:=o']> t) = <[i:=o]> t.
Proof. apply list_insert_insert_eq. Qed.

Lemma wf_lib m l :
  mgr_wf m → lib_ok l → (∀ q, live l q ↔ live (rtplib m) q) → mgr_wf (m <| rtplib := l |>).
Proof. intros [] Hok Hl. split; cbn; eauto; intros; [eapply Hl; eauto|by apply mw_tight0, Hl]. Qed.

(** A new session [p] in the free entry [i]. *)
Lemma wf_new m i l p inc :
  mgr_wf m → aget (g_rtpSessionMgr m) i = Some (mkSessionObj None 0 0) → lib_ok l →
  ¬ live (rtplib m) p → (∀ q, live l q ↔ live (rtplib m) q ∨ q = p) →
  mgr_wf (m <| rtplib := l |> <| g_rtpSessionMgr ::= <[Z.to_nat i := mkSessionObj (Some p) 0 inc]> |>).
Proof.
  intros [] Hi Hok Hnp Hl. apply aget_Some_range in Hi as Hr.
  assert (Hne : ∀ j o, aget (g_rtpSessionMgr m) j = Some o → pSession o ≠ Some p) by (intros j o Hj Hp; eauto).
  split; cbn; rewrite ?zlen_insert; [done|..|done|done| |].
  - intros j o'. rewrite aget_insert by lia. case_decide; [by intros [= <-]|eauto].
  - intros j o' p'. rewrite aget_insert by lia. case_decide; [intros [= <-] [= <-]; apply Hl; by right|].
    intros. apply Hl. left. eauto.
  - intros j k o1 o2 p'. rewrite !aget_insert by lia. repeat case_decide; subst; [done| | |by eauto].
    + intros [= <-] H2 [= <-] Hp2. by edestruct Hne.
    + intros H2 [= <-] Hp1 [= <-]. by edestruct Hne.
  - intros q Hq. apply Hl in Hq as [Hq| ->].
    + destruct (mw_tight0 q Hq) as (j & o & Hj & Ho). exists j, o. split; [|done]. rewrite aget_insert by lia.
      rewrite decide_False; [done|]. intros ->. rewrite Hi in Hj. by injection Hj as <-.
    + eexists i, _. by rewrite aget_insert_eq by lia.
  - intros j o'. rewrite aget_insert by lia. case_decide; [intros [= <-]; cbn; unfold in_u32; lia|eauto].
Qed.

(** With a free entry there are fewer live sessions than entries. *)
Definition sessions_of t : list Z := omap pSession t.
Lemma sessions_of_elem t i o p : aget t i = Some o → pSession o = Some p → p ∈ sessions_of t.
Proof. intros Hi Hp. apply list_elem_of_omap. exists o. split; [by eapply aget_elem_of|done]. Qed.
Lemma sessions_of_few t i o : aget t i = Some o → pSession o = None → zlen (sessions_of t) < zlen t.
Proof.
  intros Hi Hp. unfold aget in Hi. case_decide; [|done]. apply list_elem_of_split_length in Hi as (t1 & t2 & -> & _).
  assert (Hle : ∀ t, zlen (sessions_of t) ≤ zlen t).
  { unfold zlen, sessions_of. intros l. induction l as [|x l IH]; [done|]. cbn. destruct (pSession x); cbn; lia. }
  unfold sessions_of. rewrite omap_app. cbn. rewrite Hp, !zlen_app, zlen_cons. pose proof (Hle t1). pose proof (Hle t2). unfold sessions_of in *. lia.
Qed.

(** The calls from [rtp_session_new] to the SSRC, in the order of the code. *)
Lemma setup_ret m ip port p l :
  open_session ip port (g_ssrc m) (rtplib m) = Ret p l →
  ∀ k : Z → CM (RtpMgr L) Z,
  (session ← on_lib (rtp_session_new RTP_SESSION_SENDONLY);
   _ ← on_lib (rtp_session_set_scheduling_mode session 1);
   _ ← on_lib (rtp_session_set_blocking_mode session 1);
   _ ← on_lib (rtp_session_set_remote_addr session ip port);
   ssrc ← gets g_ssrc;
   _ ← match ssrc with
       | Some x => on_lib (rtp_session_set_ssrc session x)
       | None => mret tt
       end;
   k session) m = k p (m <| rtplib := l |>).
Proof.
  intros E k. revert E. unfold open_session, on_lib, zoom, gets. unfold mbind, CM_bind, mret, CM_ret. destruct m as [t g s]. cbn.
  destruct (rtp_session_new _ _) as [q l1| |]; [|done..]. cbn. destruct (rtp_session_set_scheduling_mode _ _ _) as [[] l2| |]; [|done..]. cbn.
  destruct (rtp_session_set_blocking_mode _ _ _) as [[] l3| |]; [|done..]. cbn. destruct (rtp_session_set_remote_addr _ _ _ _) as [r l4| |]; [|done..]. cbn.
  destruct g as [x|]; cbn; [destruct (rtp_session_set_ssrc _ _ _) as [[] l5| |]; [|done..]; cbn|]; by intros [= <- <-].
Qed.

(** The tail of the set-up of a known type, on the free entry [i]. *)
Lemma fill_ret m p i pt inc r l :
  aget (g_rtpSessionMgr m) i = Some (mkSessionObj None 0 0) → rtp_session_set_payload_type p pt (rtplib m) = Ret r l →
  (_ ← on_lib (rtp_session_set_payload_type p pt);
   _ ← upd_obj i (fun o => o <| timeStampInc := inc |>);
   _ ← upd_obj i (fun o => o <| pSession := Some p |>);
   mret i) m =
  Ret i (m <| rtplib := l |>
           <| g_rtpSessionMgr ::= <[Z.to_nat i := mkSessionObj (Some p) 0 inc]> |>).
Proof.
  intros Hi E. rewrite (bind_ret _ _ _ r (m <| rtplib := l |>)) by by apply on_lib_ret.
  pose proof (aget_Some_range _ _ _ Hi) as Hr.
  erewrite bind_ret by by apply upd_obj_ret. cbn.
  erewrite bind_ret by by apply upd_obj_ret, aget_insert_eq. cbn.
  unfold mret, CM_ret. by rewrite insert_twice.
Qed.

(** The three outcomes of [create_rtp_session]. *)
Lemma create_ret m ip port ty :
  mgr_wf m →
  ∃ id m', create_rtp_session ip port ty m = Ret id m' ∧
  match find_idx is_free (g_rtpSessionMgr m), inc_of ty with
  | None, _ => id = -1 ∧ m' = m
  | Some i, Some inc => id = i ∧ mgr_wf m' ∧ ∃ p, live (rtplib m') p ∧ ¬ live (rtplib m) p ∧
      g_rtpSessionMgr m' = <[Z.to_nat i := mkSessionObj (Some p) 0 inc]> (g_rtpSessionMgr m)
  | Some i, None => id = -1 ∧ g_rtpSessionMgr m' = g_rtpSessionMgr m ∧
      ∃ p, live (rtplib m') p ∧ ¬ live (rtplib m) p
  end.
Proof.
  intros Hwf. unfold create_rtp_session. rewrite (bind_ret _ _ _ _ _ (alloc_spec m)).
  destruct (find_idx is_free (g_rtpSessionMgr m)) as [i|] eqn:Ei; [|by exists (-1), m].
  apply find_idx_Some in Ei as (Hi & (o & Ho & Hfree) & _).
  assert ((i =? -1) = false) as -> by lia.
  assert (o = mkSessionObj None 0 0) as -> by (eapply mw_free; [done|done|]; unfold is_free in Hfree; by destruct (pSession o)).
  destruct (law_open ip port (g_ssrc m) (sessions_of (g_rtpSessionMgr m)) (rtplib m)) as (p & l & E & Hnp & Hl & Hpt).
  { apply Hwf. } { apply Hwf. }
  { intros q (j & o & Hj & Hq)%(mw_tight _ Hwf). by eapply sessions_of_elem. }
  { rewrite <- (mw_len _ Hwf). by eapply sessions_of_few. }
  rewrite (setup_ret m ip port p l E). clear E.
  assert (Hfill : ∀ pt inc, pt = PAYLOAD_TYPE_VIDEO ∨ pt = PAYLOAD_TYPE_AUDIO → ∃ m', (_ ← on_lib (rtp_session_set_payload_type p pt);
     _ ← upd_obj i (fun o => o <| timeStampInc := inc |>);
     _ ← upd_obj i (fun o => o <| pSession := Some p |>);
     mret i) (m <| rtplib := l |>) = Ret i m' ∧ mgr_wf m' ∧ live (rtplib m') p ∧
     g_rtpSessionMgr m' = <[Z.to_nat i := mkSessionObj (Some p) 0 inc]> (g_rtpSessionMgr m)).
  { intros pt inc Hv. destruct (Hpt pt Hv) as (r & l' & E & Hok & Hl'). eexists. split; [by apply (fill_ret _ p i pt inc r l')|].
    split; [|split; [apply Hl'; by right|done]]. by apply (wf_new m i l' p inc). }
  unfold inc_of. destruct (ty =? SESSION_TYPE_VIDEO); [|destruct (ty =? SESSION_TYPE_AUDIO)].
  - destruct (Hfill PAYLOAD_TYPE_VIDEO VIDEO_TIME_STAMP_INC) as (m' & -> & ? & ? & ?); [by left|]. by eauto 10.
  - destruct (Hfill PAYLOAD_TYPE_AUDIO AUDIO_TIME_STAMP_INC) as (m' & -> & ? & ? & ?); [by right|]. by eauto 10.
  - exists (-1), (m <| rtplib := l |>). split; [done|]. split; [done|]. split; [done|]. exists p. split; [apply Hl; by right|done].
Qed.

(** Creating a session takes the lowest free entry of the table and fills
    it with a new live session of the stack, timestamp 0 and the type's
    increment; with no free entry it returns -1 and changes nothing; for an
    unknown type it returns -1 with the table unchanged, but the session it made
    stays alive in the stack with no entry that refers to it. *)
Theorem create_rtp_session_spec m ip port ty :
  mgr_wf m →
  ∃ id m', create_rtp_session ip port ty m = Ret id m' ∧
  match find_idx is_free (g_rtpSessionMgr m), inc_of ty with
  | None, _ => id = -1 ∧ m' = m
  | Some i, Some inc => id = i ∧ mgr_wf m' ∧ ∃ p, live (rtplib m') p ∧ ¬ live (rtplib m) p ∧
      g_rtpSessionMgr m' = <[Z.to_nat i := mkSessionObj (Some p) 0 inc]> (g_rtpSessionMgr m)
  | Some i, None => id = -1 ∧ g_rtpSessionMgr m' = g_rtpSessionMgr m ∧
      ∃ p, live (rtplib m') p ∧ ¬ live (rtplib m) p
  end.
Proof. apply create_ret. Qed.

(** ** Sending and removing *)

(** The bytes of a buffer that can be handed to the stack. *)
Definition sendable (buf : list Z) (n : Z) : Prop := 0 ≤ n ≤ zlen buf ∧ 12 + n < 2 ^ 31.

Lemma rtp_send_ret m i o buf n :
  mgr_wf m → aget (g_rtpSessionMgr m) i = Some o → sendable buf n →
  match pSession o with
  | None => rtp_send i buf n m = Ret (-1) m
  | Some p => ∃ r l, rtp_session_send_with_ts p buf n (curTimeStamp o) (rtplib m) = Ret r l ∧ lib_ok l ∧
      (∀ q, live l q ↔ live (rtplib m) q) ∧
      rtp_send i buf n m = Ret 0 (m <| rtplib := l |> <| g_rtpSessionMgr ::= <[Z.to_nat i :=
        mkSessionObj (Some p) (u32 (curTimeStamp o + timeStampInc o)) (timeStampInc o)]> |>)
  end.
Proof.
  intros Hwf Ho [Hn Hn']. pose proof (aget_Some_range _ _ _ Ho) as Hi. rewrite (mw_len _ Hwf) in Hi.
  unfold rtp_send. assert ((i <? 0) || (MAX_SESSION_NUM <? i) = false) as -> by lia.
  rewrite (bind_ret _ _ _ _ _ (get_obj_ret _ _ _ Ho)).
  destruct (pSession o) as [p|] eqn:Hp; [|done].
  destruct (law_send p buf n (curTimeStamp o) (rtplib m)) as (r & l & E & Hok & Hl);
    [apply Hwf|by eapply mw_live|done|done|by eapply mw_ts|].
  exists r, l. split_and!; [done|done|done|].
  rewrite (bind_ret _ _ _ r (m <| rtplib := l |>)) by by apply on_lib_ret.
  erewrite bind_ret by by apply upd_obj_ret. cbn. by rewrite Hp.
Qed.

Lemma wf_touch m i o o' :
  mgr_wf m → aget (g_rtpSessionMgr m) i = Some o → pSession o' = pSession o → is_free o = false → in_u32 (curTimeStamp o') →
  mgr_wf (m <| g_rtpSessionMgr ::= <[Z.to_nat i := o']> |>).
Proof.
  intros [] Hi Hp Hf Hts. pose proof (aget_Some_range _ _ _ Hi) as Hr. unfold is_free in Hf.
  split; cbn; rewrite ?zlen_insert; [done|..|done|done| |].
  - intros j o1. rewrite aget_insert by lia. case_decide; [|eauto].
    intros [= <-]. rewrite Hp. by destruct (pSession o).
  - intros j o1 p'. rewrite aget_insert by lia. case_decide; [|eauto].
    intros [= <-]. rewrite Hp. eauto.
  - intros j k o1 o2 p'. rewrite !aget_insert by lia. repeat case_decide; subst; [done| | |by eauto].
    + intros [= <-]. rewrite Hp. eauto.
    + intros ? [= <-]. rewrite Hp. eauto.
  - intros q (j & o1 & Hj & Hq)%mw_tight0. destruct (decide (j = i)) as [->|Hne].
    + exists i, o'. rewrite aget_insert_eq by lia. split; [done|congruence].
    + exists j, o1. by rewrite aget_insert_ne by lia.
  - intros j o1. rewrite aget_insert by lia. case_decide; [by intros [= <-]|eauto].
Qed.

Lemma rtp_send_wf m i o buf n :
  mgr_wf m → aget (g_rtpSessionMgr m) i = Some o → sendable buf n →
  ∃ r m', rtp_send i buf n m = Ret r m' ∧ mgr_wf m'.
Proof.
  intros Hwf Ho Hn. pose proof (rtp_send_ret m i o buf n Hwf Ho Hn) as Hs.
  destruct (pSession o) as [p|] eqn:Hp; [|by eauto].
  destruct Hs as (r & l & _ & Hok & Hl & ->). eexists _, _. split; [done|].
  apply (wf_touch (m <| rtplib := l |>) i o); [|done|done|by unfold is_free; rewrite Hp|apply u32_range].
  by apply wf_lib.
Qed.

Lemma remove_ret m i o :
  mgr_wf m → aget (g_rtpSessionMgr m) i = Some o →
  ∃ m', remove_session_obj i m = Ret 0 m' ∧ mgr_wf m' ∧ g_ssrc m' = g_ssrc m ∧
    g_rtpSessionMgr m' = <[Z.to_nat i := mkSessionObj None 0 0]> (g_rtpSessionMgr m) ∧
    (∀ q, live (rtplib m') q ↔ live (rtplib m) q ∧ pSession o ≠ Some q) ∧
    match pSession o with
    | Some p => rtp_session_destroy p (rtplib m) = Ret tt (rtplib m')
    | None => rtplib m' = rtplib m
    end.
Proof.
  intros Hwf Ho. pose proof (aget_Some_range _ _ _ Ho) as Hi. rewrite (mw_len _ Hwf) in Hi.
  unfold remove_session_obj. assert ((i <? 0) || (MAX_SESSION_NUM <? i) = false) as -> by lia.
  rewrite (bind_ret _ _ _ _ _ (get_obj_ret _ _ _ Ho)).
  assert (∃ l, lib_ok l ∧ (∀ q, live l q ↔ live (rtplib m) q ∧ pSession o ≠ Some q) ∧
    match pSession o with
    | Some p => rtp_session_destroy p (rtplib m) = Ret tt l
    | None => l = rtplib m
    end ∧
    match pSession o with
    | Some p => _ ← on_lib (rtp_session_destroy p); upd_obj i (fun o => o <| pSession := None |>)
    | None => mret tt
    end m = Ret tt (m <| rtplib := l |> <| g_rtpSessionMgr ::=
                      <[Z.to_nat i := o <| pSession := None |>]> |>)) as (l & Hok & Hl & Hd & E).
  { destruct (pSession o) as [p|] eqn:Hp.
    - destruct (law_destroy p (rtplib m)) as (l & E & Hok & Hl); [apply Hwf|by eapply mw_live|].
      exists l. split; [done|]. split; [intros q; rewrite Hl; intuition congruence|]. split; [done|].
      rewrite (bind_ret _ _ _ tt (m <| rtplib := l |>)) by by apply on_lib_ret.
      by apply upd_obj_ret.
    - exists (rtplib m). split; [apply Hwf|]. split; [intros q; intuition congruence|]. split; [done|].
      assert (o <| pSession := None |> = o) as -> by by destruct o; cbn in *; subst.
      assert (<[Z.to_nat i := o]> (g_rtpSessionMgr m) = g_rtpSessionMgr m) as Hid.
      { apply list_insert_id. unfold aget in Ho. by rewrite decide_True in Ho by lia. }
      unfold mret, CM_ret. cbn. rewrite Hid. by destruct m. }
  rewrite (bind_ret _ _ _ _ _ E). cbn.
  erewrite bind_ret by (apply upd_obj_ret, aget_insert_eq; by rewrite (mw_len _ Hwf)). cbn.
  rewrite insert_twice.
  erewrite bind_ret by (apply upd_obj_ret, aget_insert_eq; by rewrite (mw_len _ Hwf)). cbn.
  rewrite insert_twice. eexists. split; [done|]. cbn. split_and!; [|done|done|done|done].
  destruct Hwf as [Hlen Hfree Hlive Hinj _ Hss Htight Hts].
  split; cbn; rewrite ?zlen_insert; [done|..|done|done| |].
  - intros j o'. rewrite aget_insert by lia. destruct (decide (j = i)); [by intros [= <-]|eauto].
  - intros j o' p. rewrite aget_insert by lia. destruct (decide (j = i)) as [|Hne]; [by intros [= <-]|].
    intros Hj Hp. apply Hl. split; [eauto|]. intros Hop. by eapply Hne, Hinj.
  - intros j k o1 o2 p. rewrite !aget_insert by lia.
    destruct (decide (j = i)), (decide (k = i)); [by intros [= <-] [= <-]|by intros [= <-]|by intros ? [= <-]|eauto].
  - intros q [Hq Hne]%Hl. destruct (Htight q Hq) as (j & o1 & Hj & Ho1). exists j, o1. split; [|done].
    rewrite aget_insert_ne; [done|lia|]. intros ->. congruence.
  - intros j o'. rewrite aget_insert by lia. case_decide; [intros [= <-]; cbn; unfold in_u32; lia|eauto].
Qed.

(** The session id of [rtp_send] and [remove_session_obj] is checked against
    0 and [MAX_SESSION_NUM] with the wrong comparison: a negative id and one above
    32 give -1 and change nothing, the ids 0 to 31 return without a fault, and
    the id 32 itself passes the check and reads behind the table. *)
Theorem session_id_check m id buf n :
  mgr_wf m → sendable buf n →
  (id < 0 ∨ MAX_SESSION_NUM < id →
     rtp_send id buf n m = Ret (-1) m ∧ remove_session_obj id m = Ret (-1) m) ∧
  (0 ≤ id < MAX_SESSION_NUM →
     (∃ r m', rtp_send id buf n m = Ret r m' ∧ mgr_wf m') ∧
     (∃ m', remove_session_obj id m = Ret 0 m' ∧ mgr_wf m')) ∧
  (id = MAX_SESSION_NUM →
     rtp_send id buf n m = Flt OutOfBounds ∧ remove_session_obj id m = Flt OutOfBounds).
Proof.
  intros Hwf Hn. split_and!; intros Hid.
  - unfold rtp_send, remove_session_obj.
    by assert ((id <? 0) || (MAX_SESSION_NUM <? id) = true) as -> by lia.
  - assert (is_Some (aget (g_rtpSessionMgr m) id)) as [o Ho]
      by (apply aget_is_Some; by rewrite (mw_len _ Hwf)).
    split; [by eapply rtp_send_wf|].
    destruct (remove_ret m id o Hwf Ho) as (m' & ? & ? & _). eauto.
  - subst id. assert (Hg : get_obj MAX_SESSION_NUM m = Flt OutOfBounds)
      by (apply get_obj_out; rewrite (mw_len _ Hwf); lia).
    unfold rtp_send, remove_session_obj. cbn. unfold mbind, CM_bind. by rewrite Hg.
Qed.

(** ** Exit *)

Definition zero_below (k : Z) (t : list SessionObj) : Prop :=
  ∀ j, 0 ≤ j < k → aget t j = Some (mkSessionObj None 0 0).

Lemma remove_prefix m (k : nat) :
  mgr_wf m → Z.of_nat k ≤ MAX_SESSION_NUM →
  ∃ m', for_each (seqZ 0 (Z.of_nat k)) (fun i => _ ← remove_session_obj i; mret tt) m = Ret tt m' ∧
    mgr_wf m' ∧ zero_below (Z.of_nat k) (g_rtpSessionMgr m') ∧
    (∀ j, Z.of_nat k ≤ j → aget (g_rtpSessionMgr m') j = aget (g_rtpSessionMgr m) j) ∧
    (∀ q, live (rtplib m') q ↔ live (rtplib m) q ∧
       ∀ j o, 0 ≤ j < Z.of_nat k → aget (g_rtpSessionMgr m) j = Some o → pSession o ≠ Some q).
Proof.
  intros Hwf. induction k as [|k IH]; intros Hk.
  { exists m. split_and!; [done|done|intros j; lia|done|]. intros q. split; [|tauto].
    intros Hq. split; [done|]. intros; lia. }
  destruct IH as (m1 & E1 & Hwf1 & Hz & Hrest & Hl); [lia|].
  assert (is_Some (aget (g_rtpSessionMgr m1) (Z.of_nat k))) as [o Ho]
    by (apply aget_is_Some; rewrite (mw_len _ Hwf1); lia).
  destruct (remove_ret m1 (Z.of_nat k) o Hwf1 Ho) as (m2 & E2 & Hwf2 & _ & Ht & Hl2 & _).
  exists m2. rewrite Nat2Z.inj_succ. unfold Z.succ. split_and!.
  - rewrite seqZ_app, for_each_app by lia. erewrite bind_ret by exact E1.
    rewrite Z.add_0_l, seqZ_cons, seqZ_nil by lia.
    cbn. unfold mbind, CM_bind. by rewrite E2.
  - done.
  - intros j Hj. rewrite Ht, aget_insert by (rewrite (mw_len _ Hwf1); lia).
    destruct (decide (j = Z.of_nat k)); [done|]. apply Hz. lia.
  - intros j Hj. rewrite Ht, aget_insert by (rewrite (mw_len _ Hwf1); lia).
    rewrite decide_False by lia. apply Hrest. lia.
  - intros q. rewrite Hl2, Hl. rewrite Hrest in Ho by lia. split.
    + intros [[Hq Hall] Hoq]. split; [done|]. intros j o' Hj Ho'.
      destruct (decide (j = Z.of_nat k)) as [->|]; [congruence|]. eapply Hall; [|done]. lia.
    + intros [Hq Hall]. split_and!; [done| |].
      * intros j o' Hj. apply Hall. lia.
      * apply (Hall (Z.of_nat k)); [lia|done].
Qed.

(** [rtp_exit] returns 0 from any reachable table, destroys exactly the
    sessions the table refers to and leaves every entry zeroed. *)
Theorem rtp_exit_spec m :
  mgr_wf m → ∃ m', rtp_exit m = Ret 0 m' ∧
  g_rtpSessionMgr m' = replicate (Z.to_nat MAX_SESSION_NUM) (mkSessionObj None 0 0) ∧
  ∀ q, live (rtplib m') q ↔ live (rtplib m) q ∧
       ∀ j o, aget (g_rtpSessionMgr m) j = Some o → pSession o ≠ Some q.
Proof.
  intros Hwf. destruct (remove_prefix m (Z.to_nat MAX_SESSION_NUM)) as (m1 & E & Hwf1 & Hz & _ & Hl);
    [done|done|].
  destruct (law_exit (rtplib m1) (mw_lib _ Hwf1)) as (l & El & Hl2).
  exists (m1 <| rtplib := l |>). unfold rtp_exit. split_and!.
  - rewrite (bind_ret _ _ _ tt m1) by exact E.
    by rewrite (bind_ret _ _ _ tt (m1 <| rtplib := l |>)) by by apply on_lib_ret.
  - cbn. apply aget_ext; [by rewrite zlen_replicate, (mw_len _ Hwf1)|].
    intros i Hi. rewrite (mw_len _ Hwf1) in Hi. rewrite aget_replicate by done. by apply Hz.
  - intros q. cbn. rewrite Hl2, Hl. split; intros [Hq Hall]; (split; [done|]).
    + intros j o Ho. eapply Hall; [|done]. pose proof (aget_Some_range _ _ _ Ho) as Hr.
      by rewrite (mw_len _ Hwf) in Hr.
    + intros j o _. apply Hall.
Qed.

End Spec.

(** * A recording instance of the stack

    The sessions alive and the packets handed over, each with its timestamp. *)

Record CallLog := mkCallLog {
  alive : gset Z;
  sent : list (Z * list Z * Z)
}.

#[export] Instance log_lib : RtpLib CallLog := {|
  ortp_init := mret tt;
  ortp_scheduler_init := mret tt;
  ortp_exit := mret tt;
  rtp_session_new _ := fun s => let p := fresh (alive s) in
    Ret p (mkCallLog ({[ p ]} ∪ alive s) (sent s));
  rtp_session_set_scheduling_mode _ _ := mret tt;
  rtp_session_set_blocking_mode _ _ := mret tt;
  rtp_session_set_remote_addr _ _ _ := mret 0;
  rtp_session_set_ssrc _ _ := mret tt;
  rtp_session_set_payload_type _ _ := mret 0;
  rtp_session_send_with_ts p b n ts := fun s =>
    if decide (p ∈ alive s) then Ret n (mkCallLog (alive s) (sent s ++ [(p, take (Z.to_nat n) b, ts)]))
    else Flt UseAfterFree;
  rtp_session_destroy p := fun s =>
    if decide (p ∈ alive s) then Ret tt (mkCallLog (alive s ∖ {[ p ]}) (sent s))
    else Flt UseAfterFree
|}.

#[export] Instance log_laws : RtpLibLaws CallLog.
Proof.
  refine {| lib_ok s := True; live s p := p ∈ alive s; ssrc_ok o := True |}; intros; cbn; try by eauto.
  - eexists _, (mkCallLog ({[ fresh (alive s) ]} ∪ alive s) (sent s)). split; [by destruct ssrc|]. pose proof (is_fresh (alive s)). cbn.
    split; [done|]. split; [set_solver|]. intros pt _. eexists _, _. split; [done|]. split; [done|]. cbn. set_solver.
  - rewrite decide_True by done. by eauto 10.
  - rewrite decide_True by done. eexists. split; [done|]. split; [done|]. cbn. set_solver.
Defined.

Section Timestamps.
Implicit Types m : RtpMgr CallLog.

Definition small (b : list Z) : Prop := 12 + zlen b < 2 ^ 31.
Lemma send_all_spec id p inc bufs : Forall small bufs → ∀ m ts,
  mgr_wf m → aget (g_rtpSessionMgr m) id = Some (mkSessionObj (Some p) ts inc) → u32 ts = ts →
  ∃ m', send_all id bufs m = Ret tt m' ∧ mgr_wf m' ∧
    alive (rtplib m') = alive (rtplib m) ∧
    g_rtpSessionMgr m' = <[Z.to_nat id := mkSessionObj (Some p) (u32 (ts + zlen bufs * inc)) inc]> (g_rtpSessionMgr m) ∧
    sent (rtplib m') = sent (rtplib m) ++ imap (fun k b => (p, b, u32 (ts + Z.of_nat k * inc))) bufs.
Proof.
  induction 1 as [|b bufs Hb _ IH]; intros m ts Hwf Ho Hts.
  - exists m. split_and!; [done|done|done| |by rewrite app_nil_r].
    unfold zlen. cbn. rewrite Z.add_0_r, Hts. symmetry. apply list_insert_id.
    unfold aget in Ho. by destruct (decide (0 ≤ id)).
  - pose proof (aget_Some_range _ _ _ Ho) as Hr.
    assert (Hsend : sendable b (zlen b)) by (split; [pose proof (zlen_nonneg b); lia|exact Hb]).
    pose proof (rtp_send_ret m id _ b (zlen b) Hwf Ho Hsend) as (r & l & El & _ & Hl & E).
    cbn in El, E. destruct (decide (p ∈ alive (rtplib m))) as [Hp|]; [|done].
    injection El as <- <-. assert (take (Z.to_nat (zlen b)) b = b) as Htb by (apply take_ge; unfold zlen; lia).
    rewrite Htb in E, Hl.
    match type of E with _ = Ret _ ?x => set (m1 := x) in E end.
    edestruct (IH m1 (u32 (ts + inc))) as (m' & E' & Hwf' & Ha & Ht & Hs); cycle 3.
    { exists m'. split_and!; [|done|exact Ha| |].
      - unfold send_all. cbn. unfold mbind, CM_bind. rewrite E. exact E'.
      - rewrite Ht. cbn. rewrite insert_twice. f_equal. f_equal. rewrite u32_add_l, zlen_cons. f_equal. lia.
      - rewrite Hs. cbn. rewrite <- app_assoc. f_equal. cbn. f_equal.
        + by rewrite Z.add_0_r, Hts.
        + apply imap_ext. intros k x _. cbn. f_equal. rewrite u32_add_l. f_equal. lia. }
    + assert (Hw : mgr_wf (m <| rtplib := mkCallLog (alive (rtplib m)) (sent (rtplib m) ++ [(p, b, ts)]) |>))
        by (apply wf_lib; done).
      exact (wf_touch _ id _ (mkSessionObj (Some p) (u32 (ts + inc)) inc) Hw Ho eq_refl eq_refl (u32_range _)).
    + by apply aget_insert_eq.
    + by rewrite u32_id by apply u32_range.
Qed.

Lemma create_log m ip port ty inc i :
  mgr_wf m → find_idx is_free (g_rtpSessionMgr m) = Some i → inc_of ty = Some inc →
  let p := fresh (alive (rtplib m)) in
  create_rtp_session ip port ty m =
  Ret i (m <| rtplib := mkCallLog ({[ p ]} ∪ alive (rtplib m)) (sent (rtplib m)) |>
           <| g_rtpSessionMgr ::= <[Z.to_nat i := mkSessionObj (Some p) 0 inc]> |>).
Proof.
  intros Hwf Ei Hty p. pose proof (find_idx_Some _ _ _ Ei) as (Hi & (o & Ho & Hfree) & _).
  assert (o = mkSessionObj None 0 0) as -> by (eapply mw_free; [done|done|]; unfold is_free in Hfree; by destruct (pSession o)).
  assert (Hr : 0 ≤ i < zlen (g_rtpSessionMgr m)) by (by eapply aget_Some_range).
  unfold create_rtp_session. rewrite (bind_ret _ _ _ _ _ (alloc_spec m)), Ei.
  assert ((i =? -1) = false) as -> by lia. destruct m as [t ssrc l]. cbn in *.
  assert (Hin : ∀ o1 o2, aget (<[Z.to_nat i := o1]> (<[Z.to_nat i := o2]> t)) i = Some o1).
  { intros o1 o2. by rewrite insert_twice, aget_insert_eq. }
  unfold inc_of in Hty. destruct ssrc; run; cbn.
  all: destruct (ty =? SESSION_TYPE_VIDEO); [|destruct (ty =? SESSION_TYPE_AUDIO); [|done]];
    injection Hty as <-; unfold upd_obj; cbn; rewrite Ho; cbn;
    rewrite aget_insert_eq by done; cbn; by rewrite insert_twice.
Qed.

(** The life of a session: creating it, sending a sequence of packets and
    removing it gives the stack exactly these packets in order, the k-th with the
    timestamp k times the increment of the type (900 for video, 80 for audio)
    modulo 2^32, and leaves the table and the set of live sessions as they were. *)
Theorem session_life m ip port ty inc bufs i :
  mgr_wf m → find_idx is_free (g_rtpSessionMgr m) = Some i → inc_of ty = Some inc → Forall small bufs →
  let p := fresh (alive (rtplib m)) in
  ∃ m', (id ← create_rtp_session ip port ty; _ ← send_all id bufs; remove_session_obj id) m = Ret 0 m' ∧
    mgr_wf m' ∧ g_rtpSessionMgr m' = g_rtpSessionMgr m ∧
    alive (rtplib m') = alive (rtplib m) ∧
    sent (rtplib m') = sent (rtplib m) ++ imap (fun k b => (p, b, u32 (Z.of_nat k * inc))) bufs.
Proof.
  intros Hwf Ei Hty Hbufs p. pose proof (create_log m ip port ty inc i Hwf Ei Hty) as E.
  rewrite (bind_ret _ _ _ _ _ E). clear E. fold p.
  pose proof (find_idx_Some _ _ _ Ei) as (_ & (o & Ho & Hfree) & _).
  assert (o = mkSessionObj None 0 0) as -> by (eapply mw_free; [done|done|]; unfold is_free in Hfree; by destruct (pSession o)).
  pose proof (aget_Some_range _ _ _ Ho) as Hr. pose proof (is_fresh (alive (rtplib m))) as Hf. fold p in Hf.
  set (l1 := mkCallLog ({[ p ]} ∪ alive (rtplib m)) (sent (rtplib m))).
  edestruct (send_all_spec i p inc bufs Hbufs
    (m <| rtplib := l1 |> <| g_rtpSessionMgr ::= <[Z.to_nat i := mkSessionObj (Some p) 0 inc]> |>) 0)
    as (m1 & E1 & Hwf1 & Ha1 & Ht1 & Hs1).
  { apply wf_new; [done|done|done|done|]. cbn. set_solver. }
  { by apply aget_insert_eq. }
  { done. }
  cbn in Ht1, Ha1, Hs1. rewrite insert_twice in Ht1.
  rewrite (bind_ret _ _ _ _ _ E1).
  destruct (remove_ret m1 i (mkSessionObj (Some p) (u32 (0 + zlen bufs * inc)) inc)) as (m' & E2 & Hwf2 & _ & Ht2 & _ & Hd);
    [done|by rewrite Ht1, aget_insert_eq|].
  exists m'. split_and!; [done|done| | |].
  - rewrite Ht2, Ht1, insert_twice. apply list_insert_id.
    unfold aget in Ho. by rewrite decide_True in Ho by lia.
  - cbn in Hd. rewrite Ha1 in Hd. rewrite decide_True in Hd by set_solver.
    injection Hd as <-. cbn. set_solver.
  - cbn in Hd. rewrite Ha1 in Hd. rewrite decide_True in Hd by set_solver.
    injection Hd as <-. cbn. rewrite Hs1. f_equal.
Qed.

End Timestamps.

Definition mgr0 : RtpMgr CallLog :=
  mkRtpMgr (replicate (Z.to_nat MAX_SESSION_NUM) (mkSessionObj None 0 0)) None (mkCallLog ∅ []).

Lemma mgr0_wf : mgr_wf mgr0.
Proof.
  assert (Hall : ∀ i o, aget (g_rtpSessionMgr mgr0) i = Some o → o = mkSessionObj None 0 0).
  { intros i o Ho%aget_elem_of. by apply elem_of_replicate in Ho as [? _]. }
  split; [done|by eauto|..].
  - by intros i o p ->%Hall.
  - by intros i j o o' p ->%Hall.
  - done.
  - done.
  - intros p Hp. change (p ∈ (∅ : gset Z)) in Hp. by apply elem_of_empty in Hp.
  - intros i o ->%Hall. cbn. unfold in_u32. lia.
Defined.

(** A checker for [mgr_wf], for concrete tables. *)
#[export] Instance SessionObj_eq_dec : EqDecision SessionObj.
Proof. solve_decision. Defined.

Definition entry_check (m : RtpMgr CallLog) (i : Z) (o : SessionObj) : bool :=
  match pSession o with
  | None => bool_decide (o = mkSessionObj None 0 0)
  | Some p => bool_decide (p ∈ alive (rtplib m)) &&
      forallb (fun j => (i =? j) ||
                 match aget (g_rtpSessionMgr m) j with
                 | Some o' => negb (bool_decide (pSession o' = Some p))
                 | None => true
                 end) (seqZ 0 MAX_SESSION_NUM)
  end.

Definition mgr_check (m : RtpMgr CallLog) : bool :=
  (zlen (g_rtpSessionMgr m) =? MAX_SESSION_NUM) &&
  forallb (fun o => (0 <=? curTimeStamp o) && (curTimeStamp o <? 2 ^ 32)) (g_rtpSessionMgr m) &&
  forallb (fun p => existsb (fun o => bool_decide (pSession o = Some p)) (g_rtpSessionMgr m)) (elements (alive (rtplib m))) &&
  forallb (fun i => match aget (g_rtpSessionMgr m) i with Some o => entry_check m i o | None => true end)
    (seqZ 0 MAX_SESSION_NUM).

Lemma mgr_check_wf m : mgr_check m = true → mgr_wf m.
Proof.
  intros [[[Hlen%Z.eqb_eq Hts]%andb_true_iff Hti]%andb_true_iff Hall]%andb_true_iff. rewrite forallb_forall in Hall, Hts, Hti.
  assert (He : ∀ i o, aget (g_rtpSessionMgr m) i = Some o →
    i ∈ seqZ 0 MAX_SESSION_NUM ∧ entry_check m i o = true).
  { intros i o Ho. pose proof (aget_Some_range _ _ _ Ho) as Hr. rewrite Hlen in Hr.
    assert (i ∈ seqZ 0 MAX_SESSION_NUM) as Hi by (apply elem_of_seqZ; lia).
    split; [done|]. specialize (Hall i). rewrite Ho in Hall. by apply Hall, list_elem_of_In. }
  unfold entry_check in He. split; [done|..].
  - intros i o Ho Hp. destruct (He i o Ho) as [_ Hc]. rewrite Hp in Hc. by apply bool_decide_eq_true in Hc.
  - intros i o p Ho Hp. destruct (He i o Ho) as [_ Hc]. rewrite Hp in Hc.
    apply andb_true_iff in Hc as [Hc _]. by apply bool_decide_eq_true in Hc.
  - intros i j o o' p Ho Ho' Hp Hp'. destruct (He i o Ho) as [_ Hc]. rewrite Hp in Hc.
    apply andb_true_iff in Hc as [_ Hc]. rewrite forallb_forall in Hc.
    destruct (He j o' Ho') as [Hj _]. specialize (Hc j ltac:(by apply list_elem_of_In)).
    rewrite Ho', Hp' in Hc. rewrite bool_decide_true in Hc by done. cbn in Hc. lia.
  - done.
  - done.
  - intros p Hp. specialize (Hti p). apply existsb_exists in Hti as (o & Ho & Hp'%bool_decide_eq_true).
    + apply list_elem_of_In, list_elem_of_lookup in Ho as (k & Hk). exists (Z.of_nat k), o. unfold aget. rewrite decide_True by lia. by rewrite Nat2Z.id.
    + apply list_elem_of_In, elem_of_elements. exact Hp.
  - intros i o Ho. specialize (Hts o). apply andb_true_iff in Hts; [unfold in_u32; lia|]. apply list_elem_of_In. by eapply aget_elem_of.
Qed.

Lemma create_rtp_session_spec_witness :
  ∃ id m', create_rtp_session [] 7000 SESSION_TYPE_VIDEO mgr0 = Ret id m' ∧
  match find_idx is_free (g_rtpSessionMgr mgr0), inc_of SESSION_TYPE_VIDEO with
  | None, _ => id = -1 ∧ m' = mgr0
  | Some i, Some inc => id = i ∧ mgr_wf m' ∧ ∃ p, live (rtplib m') p ∧ ¬ live (rtplib mgr0) p ∧
      g_rtpSessionMgr m' = <[Z.to_nat i := mkSessionObj (Some p) 0 inc]> (g_rtpSessionMgr mgr0)
  | Some i, None => id = -1 ∧ g_rtpSessionMgr m' = g_rtpSessionMgr mgr0 ∧
      ∃ p, live (rtplib m') p ∧ ¬ live (rtplib mgr0) p
  end.
Proof. apply (create_rtp_session_spec mgr0 [] 7000 SESSION_TYPE_VIDEO), mgr0_wf. Defined.

Lemma session_id_check_witness : rtp_send 32 [1] 1 mgr0 = Flt OutOfBounds.
Proof. by apply (session_id_check mgr0 32 [1] 1 mgr0_wf). Defined.

Lemma rtp_exit_spec_witness :
  ∃ m', rtp_exit mgr0 = Ret 0 m' ∧
  g_rtpSessionMgr m' = replicate (Z.to_nat MAX_SESSION_NUM) (mkSessionObj None 0 0) ∧
  ∀ q, live (rtplib m') q ↔ live (rtplib mgr0) q ∧
       ∀ j o, aget (g_rtpSessionMgr mgr0) j = Some o → pSession o ≠ Some q.
Proof. apply (rtp_exit_spec mgr0), mgr0_wf. Defined.

Lemma session_life_witness :
  ∃ m', (id ← create_rtp_session [] 7000 SESSION_TYPE_AUDIO; _ ← send_all id [[1]; [2]; [3]];
          remove_session_obj id) mgr0 = Ret 0 m' ∧
    sent (rtplib m') = [(0, [1], 0); (0, [2], 80); (0, [3], 160)].
Proof.
  destruct (session_life mgr0 [] 7000 SESSION_TYPE_AUDIO AUDIO_TIME_STAMP_INC [[1]; [2]; [3]] 0)
    as (m' & E & _ & _ & _ & Hs); [apply mgr0_wf|done|done|by repeat constructor|].
  exists m'. split; [exact E|]. rewrite Hs. vm_compute. reflexivity.
Defined.
