(* ===== verification/Session.v ===== *)
(** * Net sessions ([core/src/session.c], [core/inc/session.h])

    The table [g_clients] of ten clients, each with a flag per channel and the
    ids of its video and audio RTP sessions (one of each per group of four
    channels), over the session table of RtpSend.v and the global record of
    Gbl.v; and the threads that take frames from the FIFOs and send them. *)

From S2P Require Import Prelude Gbl RtpSend Fifo.

Definition MAX_CLIENT_NUM : Z := 10.
Definition CMD_SESSION_BUFFER : Z := 0.
Definition CMD_SESSION_FLUSH : Z := -1.
(** The length of the id arrays. *)
Definition GROUPS : Z := MAX_VIDEO_CHANNEL `quot` CHS_PER_SESSION.

(** [SessionPair] is flattened into the client. *)
Record ClientObj := mkClient {
  clientID : Z;
  flag : list Z;
  videoIDs : list Z;
  audioIDs : list Z;
  channels : Z
}.

#[export] Instance eta_ClientObj : Eta ClientObj := fun c =>
  mkClient (clientID c) (flag c) (videoIDs c) (audioIDs c) (channels c).

(** [buffer] points to one of the frame buffers of [videoEncode.c], which the
    encoder thread fills again for every frame: the element holds its index, the
    contents are in the shared [frame_buf]. *)
Record SessionElement := mkElt {
  e_command : Z;
  e_chId : Z;
  e_dataType : Z;
  e_buffer : Z;
  e_len : Z
}.

Record Sess (L : Type) := mkSess {
  g_clients : list ClientObj;
  s_gbl : GlobalData;
  s_rtp : RtpMgr L;
  frame_buf : list (list Z)
}.
Arguments mkSess {L}. Arguments g_clients {L}. Arguments s_gbl {L}.
Arguments s_rtp {L}. Arguments frame_buf {L}.

#[export] Instance eta_Sess L : Eta (Sess L) := fun s =>
  mkSess (g_clients s) (s_gbl s) (s_rtp s) (frame_buf s).

Section Session.
Context {L : Type} {HL : RtpLib L}.

Definition on_gbl {A} (m : CM GlobalData A) : CM (Sess L) A :=
  zoom s_gbl (fun g s => s <| s_gbl := g |>) m.
Definition on_rtp {A} (m : CM (RtpMgr L) A) : CM (Sess L) A :=
  zoom s_rtp (fun r s => s <| s_rtp := r |>) m.

(** [&g_clients.clients[i]], read. *)
Definition get_client (i : Z) : CM (Sess L) ClientObj :=
  t ← gets g_clients; rd t i.

(** An assignment through [&g_clients.clients[i]]; [f] is [None] when it indexes
    an array of the client outside its bounds. *)
Definition upd_client (i : Z) (f : ClientObj → option ClientObj) : CM (Sess L) unit := fun s =>
  match aget (g_clients s) i with
  | Some c =>
      match f c with
      | Some c' => Ret tt (s <| g_clients ::= <[Z.to_nat i := c']> |>)
      | None => Flt OutOfBounds
      end
  | None => Flt OutOfBounds
  end.

Definition set_flag (chId v : Z) (c : ClientObj) : option ClientObj :=
  match setFlag (flag c) chId v with
  | Some fl => Some (c <| flag := fl |>)
  | None => None
  end.

(** [chs / CHS_PER_SESSION] *)
Definition groups : CM (Sess L) Z :=
  chs ← on_gbl gblGetVideoChannels; mret (chs `quot` CHS_PER_SESSION).

Definition open_channel (clientId chId : Z) : CM (Sess L) Z :=
  client ← get_client clientId;
  if clientID client =? -1 then mret (-1) else
  _ ← upd_client clientId (set_flag chId TRUE);
  mret (-1).

Definition close_channel (clientId chId : Z) : CM (Sess L) Z :=
  client ← get_client clientId;
  if clientID client =? -1 then mret (-1) else
  _ ← upd_client clientId (set_flag chId FALSE);
  mret (-1).

(** The result is a [BOOL], an unsigned char. *)
Definition check_channel (clientId chId : Z) : CM (Sess L) Z :=
  client ← get_client clientId;
  if clientID client =? -1 then mret (u8 (-1)) else
  v ← rd (flag client) chId;
  mret (u8 v).

Definition set_id (ty i x : Z) (c : ClientObj) : option ClientObj :=
  if ty =? SESSION_TYPE_VIDEO then
    match aset (videoIDs c) i x with Some l => Some (c <| videoIDs := l |>) | None => None end
  else
    match aset (audioIDs c) i x with Some l => Some (c <| audioIDs := l |>) | None => None end.

(** The body of the two loops of [add_client]. *)
Definition create_one (id : Z) (destIp : list Z) (port ty err i : Z) : CM (Sess L) (option Z) :=
  x ← on_rtp (create_rtp_session destIp port ty);
  _ ← upd_client id (set_id ty i x);
  mret (if x <? 0 then Some err else None).

Definition add_client (destIp : list Z) (base_video_port base_audio_port : Z) : CM (Sess L) Z :=
  n ← groups;
  t ← gets g_clients;
  match find_idx (fun c => clientID c =? -1) t with
  | None => mret (-1)
  | Some id =>
      r ← (if 0 <? base_video_port then
             for_until (seqZ 0 n) (fun i =>
               create_one id destIp (base_video_port - i * 2) SESSION_TYPE_VIDEO (-2) i)
           else mret None);
      match r with Some err => mret err | None =>
      r ← (if 0 <? base_audio_port then
             for_until (seqZ 0 n) (fun i =>
               create_one id destIp (base_audio_port + i * 2) SESSION_TYPE_AUDIO (-3) i)
           else mret None);
      match r with Some err => mret err | None =>
      _ ← upd_client id (fun c => Some (c <| clientID := id |>));
      _ ← upd_client id (fun c => Some (c <| flag := replicate (Z.to_nat MAX_VIDEO_CHANNEL) FALSE |>));
      client ← get_client id;
      mret (clientID client)
      end end
  end.

(** The memsets with -1 of the id arrays. *)
Definition wipe_ids (c : ClientObj) : ClientObj :=
  c <| videoIDs := replicate (Z.to_nat GROUPS) (-1) |>
    <| audioIDs := replicate (Z.to_nat GROUPS) (-1) |>.

(** Removal of the sessions of group [i]. *)
Definition remove_group (clientId i : Z) : CM (Sess L) unit :=
  client ← get_client clientId;
  v ← rd (videoIDs client) i;
  _ ← on_rtp (remove_session_obj v);
  a ← rd (audioIDs client) i;
  _ ← on_rtp (remove_session_obj a);
  mret tt.

(** After the loop [i] is [chs / CHS_PER_SESSION]: it indexes the memsets. *)
Definition del_client (clientId : Z) : CM (Sess L) Z :=
  client ← get_client clientId;
  if clientID client =? -1 then mret (-1) else
  n ← groups;
  _ ← for_each (seqZ 0 n) (remove_group clientId);
  _ ← upd_client clientId (fun c => Some (c <| clientID := -1 |>));
  _ ← upd_client (Z.max 0 n) (fun c => Some (wipe_ids c));
  mret 0.

(** [rtp_send] reads [len] bytes of the buffer the element points to. *)
Definition send_bytes (sessionID : Z) (elt : SessionElement) : CM (Sess L) unit :=
  bufs ← gets frame_buf;
  buf ← rd bufs (e_buffer elt);
  if zlen buf <? e_len elt then fault_with OutOfBounds else
  _ ← on_rtp (rtp_send sessionID buf (e_len elt));
  mret tt.

(** The body of the loop of [send_to_client]. *)
Definition send_one (elt : SessionElement) (i : Z) : CM (Sess L) unit :=
  client ← get_client i;
  if clientID client =? -1 then mret tt else
  open ← check_channel (clientID client) (e_chId elt);
  if open =? FALSE then mret tt else
  let s_id := e_chId elt `quot` CHS_PER_SESSION in
  x ← (if e_dataType elt =? SESSION_TYPE_VIDEO
       then rd (videoIDs client) s_id else rd (audioIDs client) s_id);
  send_bytes x elt.

Definition send_to_client (arg : SessionElement) : CM (Sess L) Z :=
  _ ← for_each (seqZ 0 MAX_CLIENT_NUM) (send_one arg);
  mret 0.

End Session.

(** * The session threads *)

(** The layout of the struct is the compiler's. *)
Class EltLayout := elt_layout :: Layout SessionElement.

Record SessTsk (L : Type) := mkTsk {
  t_sess : Sess L;
  g_NetSessionFifos : list FifoUtil_Obj;
  g_NetBackSessionFifo : FifoUtil_Obj
}.
Arguments mkTsk {L}. Arguments t_sess {L}. Arguments g_NetSessionFifos {L}.
Arguments g_NetBackSessionFifo {L}.

#[export] Instance eta_SessTsk L : Eta (SessTsk L) := fun t =>
  mkTsk (t_sess t) (g_NetSessionFifos t) (g_NetBackSessionFifo t).

Section Threads.
Context {L : Type} {HL : RtpLib L} {HE : EltLayout}.

Definition on_sess {A} (m : CM (Sess L) A) : CM (SessTsk L) A :=
  zoom t_sess (fun s t => t <| t_sess := s |>) m.

Definition on_fifo {A} (i : Z) (m : CM FifoUtil_Obj A) : CM (SessTsk L) A := fun t =>
  match aget (g_NetSessionFifos t) i with
  | None => Flt OutOfBounds
  | Some f =>
      let put f' := t <| g_NetSessionFifos ::= <[Z.to_nat i := f']> |> in
      match m f with
      | Ret a f' => Ret a (put f')
      | Blk f' => Blk (put f')
      | Flt e => Flt e
      end
  end.

Definition on_back {A} (m : CM FifoUtil_Obj A) : CM (SessTsk L) A :=
  zoom g_NetBackSessionFifo (fun f t => t <| g_NetBackSessionFifo := f |>) m.

(** [pipe_ret i] is the result of the [i]-th call of [pipe]. *)
Definition init_session_tsk (pipe_ret : Z → Z) : CM (SessTsk L) Z :=
  _ ← for_each (seqZ 0 MAX_CLIENT_NUM) (fun i =>
        _ ← on_sess (upd_client i (fun c => Some (c <| clientID := -1 |>)));
        on_sess (upd_client i (fun c => Some (wipe_ids c))));
  n ← on_sess groups;
  r ← for_until (seqZ 0 n) (fun i =>
        x ← on_fifo i (FifoUtil_open (pipe_ret i) msg_size);
        mret (if x =? FIFOUTIL_FAILURE then Some (-1) else None));
  match r with Some e => mret e | None =>
  x ← on_back (FifoUtil_open (pipe_ret (Z.max 0 n)) msg_size);
  if x =? FIFOUTIL_FAILURE then mret (-1) else mret 0
  end.

(** [Rendezvous_force] is in Rendezvous.v: it touches no state of this record. *)
Definition delete_session_tsk : CM (SessTsk L) Z :=
  _ ← for_each (seqZ 0 MAX_CLIENT_NUM) (fun i => _ ← on_sess (del_client i); mret tt);
  n ← on_sess groups;
  _ ← for_each (seqZ 0 n) (fun i => _ ← on_fifo i FifoUtil_close; mret tt);
  mret 0.

(** One turn of the loop of [subSessionThrFxn]; [true] when it ends. A get that
    decodes no element reads an uninitialised struct. *)
Definition sub_session_turn (id : Z) : CM (SessTsk L) bool :=
  q ← on_sess (on_gbl gblGetQuit);
  if negb (q =? 0) then mret true else
  r ← on_fifo id get_msg;
  if r.1 =? FIFOUTIL_FAILURE then mret true else
  match r.2 with
  | None => fault_with UninitRead
  | Some elt =>
      if e_command elt =? CMD_SESSION_FLUSH then mret true else
      _ ← on_sess (send_to_client elt);
      mret false
  end.

(** The loop, for at most [fuel] turns; [true] when it has ended. *)
Fixpoint subSessionThrFxn (fuel : nat) (id : Z) : CM (SessTsk L) bool :=
  match fuel with
  | O => mret false
  | S fuel => stop ← sub_session_turn id; if (stop : bool) then mret true else subSessionThrFxn fuel id
  end.

End Threads.

(** * The ids in use *)

Definition in_use (t : list SessionObj) (i : Z) : bool :=
  match aget t i with Some o => negb (is_free o) | None => false end.

Definition used (t : list SessionObj) : list Z :=
  filter (fun i => in_use t i = true) (seqZ 0 MAX_SESSION_NUM).

Section Used.
Implicit Types t : list SessionObj.

Lemma in_use_true t i : in_use t i = true ↔ ∃ o, aget t i = Some o ∧ is_free o = false.
Proof.
  unfold in_use. destruct (aget t i) as [o|]; [|split; [done|by intros (? & ? & ?)]].
  rewrite negb_true_iff. split; [by eauto|]. by intros (? & [= <-] & ?).
Qed.

Lemma elem_of_used t i :
  i ∈ used t ↔ 0 ≤ i < MAX_SESSION_NUM ∧ ∃ o, aget t i = Some o ∧ is_free o = false.
Proof.
  unfold used. rewrite list_elem_of_filter, elem_of_seqZ, in_use_true. by rewrite (and_comm (∃ o, _)).
Qed.

Lemma used_NoDup t : NoDup (used t).
Proof. apply NoDup_filter, NoDup_seqZ. Qed.

Lemma used_length t : zlen (used t) ≤ MAX_SESSION_NUM.
Proof.
  unfold used, zlen. etrans; [apply Nat2Z.inj_le, length_filter|].
  by rewrite length_seqZ.
Qed.

Lemma used_add t i o o' :
  zlen t = MAX_SESSION_NUM → aget t i = Some o → is_free o = true → is_free o' = false →
  used (<[Z.to_nat i := o']> t) ≡ₚ i :: used t.
Proof.
  intros Hlen Hi Hf Hf'. pose proof (aget_Some_range _ _ _ Hi) as Hr.
  apply NoDup_Permutation; [apply used_NoDup|constructor; [|apply used_NoDup]|].
  - rewrite elem_of_used. intros (_ & ? & ? & ?). congruence.
  - intros j. rewrite elem_of_cons, !elem_of_used, aget_insert by done.
    destruct (decide (j = i)) as [->|]; [|tauto]. split; [by left|].
    intros _. split; [lia|by eauto].
Qed.

Lemma used_del t i o o' :
  zlen t = MAX_SESSION_NUM → aget t i = Some o → is_free o = false → is_free o' = true →
  used t ≡ₚ i :: used (<[Z.to_nat i := o']> t).
Proof.
  intros Hlen Hi Hf Hf'. pose proof (aget_Some_range _ _ _ Hi) as Hr.
  rewrite <- (used_add _ i o' o); [|by rewrite zlen_insert|by apply aget_insert_eq|done|done].
  rewrite insert_twice, list_insert_id; [done|].
  unfold aget in Hi. by rewrite decide_True in Hi by lia.
Qed.

Lemma used_full t :
  zlen t = MAX_SESSION_NUM → find_idx is_free t = None ↔ zlen (used t) = MAX_SESSION_NUM.
Proof.
  intros Hlen. rewrite find_idx_None. split.
  - intros Hall. unfold used. assert (Hf : ∀ l : list Z, (∀ i, i ∈ l → 0 ≤ i < MAX_SESSION_NUM) →
      filter (fun i => in_use t i = true) l = l).
    { intros l. induction l as [|i l IH]; intros Hl; [done|].
      rewrite filter_cons_True, IH; [done|intros; apply Hl; by right|].
      apply in_use_true. destruct (aget t i) as [o|] eqn:Ho.
      - exists o. split; [done|]. by eapply (Forall_forall (fun o => is_free o = false)), aget_elem_of.
      - apply aget_None in Ho. pose proof (Hl i ltac:(left)). lia. }
    rewrite Hf; [done|]. intros i. rewrite elem_of_seqZ. lia.
  - intros Hu. apply Forall_forall. intros o (k & Hk)%list_elem_of_lookup.
    destruct (is_free o) eqn:Hf; [|done]. exfalso.
    assert (Hk' : aget t (Z.of_nat k) = Some o)
      by (unfold aget; rewrite decide_True, Nat2Z.id by lia; done).
    pose proof (used_add t (Z.of_nat k) o (mkSessionObj (Some 0) 0 0) Hlen Hk' Hf eq_refl) as Hp.
    apply Permutation_length in Hp. cbn in Hp.
    pose proof (used_length (<[Z.to_nat (Z.of_nat k) := mkSessionObj (Some 0) 0 0]> t)).
    unfold zlen in *. lia.
Qed.

Lemma used_touch t i o o' :
  aget t i = Some o → is_free o' = is_free o → used (<[Z.to_nat i := o']> t) = used t.
Proof.
  intros Hi Hf. pose proof (aget_Some_range _ _ _ Hi) as Hr.
  unfold used. apply list_filter_iff. intros j. unfold in_use. rewrite aget_insert by done.
  destruct (decide (j = i)) as [->|]; [|done]. by rewrite Hi, Hf.
Qed.

End Used.

(** * The client table *)

(** The sessions a client owns, of [n] channel groups. *)
Definition owned (n : Z) (c : ClientObj) : list Z :=
  if clientID c =? -1 then [] else take (Z.to_nat n) (videoIDs c) ++ take (Z.to_nat n) (audioIDs c).
Definition owned_all (n : Z) (cs : list ClientObj) : list Z := cs ≫= owned n.

Definition active (c : ClientObj) : bool := negb (clientID c =? -1).
Definition active_count (cs : list ClientObj) : Z := zlen (filter (fun c => active c = true) cs).

Record client_ok (i : Z) (c : ClientObj) : Prop := {
  co_id : clientID c = -1 ∨ clientID c = i;
  co_flag : zlen (flag c) = MAX_VIDEO_CHANNEL;
  co_bool : Forall flag_ok (flag c);
  co_video : zlen (videoIDs c) = GROUPS;
  co_audio : zlen (audioIDs c) = GROUPS
}.

Lemma owned_split n cs i c c' :
  aget cs i = Some c →
  owned n c ++ owned_all n (<[Z.to_nat i := c']> cs) ≡ₚ owned n c' ++ owned_all n cs.
Proof.
  unfold aget, owned_all. case_decide; [|done]. intros Hi.
  pose proof (lookup_lt_Some _ _ _ Hi) as Hlt.
  rewrite insert_take_drop by done. rewrite <- (take_drop_middle cs _ _ Hi) at 3.
  rewrite !bind_app. cbn. solve_Permutation.
Qed.

Lemma owned_all_same n cs i c c' :
  aget cs i = Some c → owned n c' = owned n c →
  owned_all n (<[Z.to_nat i := c']> cs) ≡ₚ owned_all n cs.
Proof.
  intros Hi Ho. pose proof (owned_split n cs i c c' Hi) as Hp. rewrite Ho in Hp.
  by apply (Permutation_app_inv_l (owned n c)).
Qed.

Lemma owned_length n i c :
  client_ok i c → 0 ≤ n ≤ GROUPS → zlen (owned n c) = if active c then 2 * n else 0.
Proof.
  intros [] Hn. unfold owned, active, zlen in *. destruct (clientID c =? -1); [done|]. cbn.
  rewrite length_app, !length_take. lia.
Qed.

Lemma owned_all_count n cs k :
  (∀ i c, aget cs i = Some c → client_ok (i + k) c) → 0 ≤ n ≤ GROUPS →
  zlen (owned_all n cs) = 2 * n * active_count cs.
Proof.
  intros Hok Hn. revert k Hok. induction cs as [|c cs IH]; intros k Hok.
  { unfold active_count. cbn. change (zlen (@nil Z)) with 0. change (zlen (@nil ClientObj)) with 0. lia. }
  change (owned_all n (c :: cs)) with (owned n c ++ owned_all n cs).
  unfold active_count in *. rewrite zlen_app, filter_cons.
  rewrite (owned_length n (0 + k)) by (done || by apply Hok).
  rewrite (IH (k + 1)); last first.
  { intros i c' Hi. replace (i + (k + 1)) with (i + 1 + k) by lia. apply Hok.
    pose proof (aget_Some_range _ _ _ Hi). rewrite aget_cons_pos by lia. by replace (i + 1 - 1) with i by lia. }
  destruct (active c) eqn:E.
  - rewrite decide_True, zlen_cons by done. lia.
  - rewrite decide_False by done. lia.
Qed.

(** ** The invariant

    [n] is the number of channel groups. *)

Section Spec.
Context {L : Type} {HL : RtpLib L} {HLL : RtpLibLaws L}.
Implicit Types (s : Sess L).

#[local] Abbreviation table s := (g_rtpSessionMgr (s_rtp s)).

(** The sessions in use are exactly those owned by the active clients, each by
    one client in one place. *)
Record sess_inv (n : Z) s : Prop := {
  si_rtp : mgr_wf (s_rtp s);
  si_len : zlen (g_clients s) = MAX_CLIENT_NUM;
  si_client i c : aget (g_clients s) i = Some c → client_ok i c;
  si_chs : videoChannels (s_gbl s) `quot` CHS_PER_SESSION = n;
  si_owned : owned_all n (g_clients s) ≡ₚ used (table s);
  si_low i c : aget (g_clients s) i = Some c → active c = true → (i + 1) * (2 * n) ≤ MAX_SESSION_NUM
}.

Lemma groups_ret s : groups s = Ret (videoChannels (s_gbl s) `quot` CHS_PER_SESSION) s.
Proof. unfold groups, on_gbl. run. by destruct s. Qed.

Lemma get_client_ret s i c : aget (g_clients s) i = Some c → get_client i s = Ret c s.
Proof. intros E. unfold get_client. run. by rewrite E. Qed.

Lemma upd_client_ret s i c c' (f : ClientObj → option ClientObj) :
  aget (g_clients s) i = Some c → f c = Some c' →
  upd_client i f s = Ret tt (s <| g_clients ::= <[Z.to_nat i := c']> |>).
Proof. intros E Ef. unfold upd_client. by rewrite E, Ef. Qed.

Lemma on_rtp_ret {A} (f : CM (RtpMgr L) A) s a r :
  f (s_rtp s) = Ret a r → on_rtp f s = Ret a (s <| s_rtp := r |>).
Proof. intros E. unfold on_rtp, zoom. by rewrite E. Qed.

(** ** Creating the sessions of a client *)

Definition ids_of (ty : Z) (c : ClientObj) : list Z :=
  if ty =? SESSION_TYPE_VIDEO then videoIDs c else audioIDs c.
Definition with_ids (ty : Z) (l : list Z) (c : ClientObj) : ClientObj :=
  if ty =? SESSION_TYPE_VIDEO then c <| videoIDs := l |> else c <| audioIDs := l |>.

Lemma ids_with ty l c : ids_of ty (with_ids ty l c) = l.
Proof. unfold ids_of, with_ids. by destruct (ty =? _). Qed.
Lemma with_with ty l l' c : with_ids ty l (with_ids ty l' c) = with_ids ty l c.
Proof. unfold with_ids. by destruct (ty =? _). Qed.
Lemma with_same ty c : with_ids ty (ids_of ty c) c = c.
Proof. unfold ids_of, with_ids. by destruct (ty =? _), c. Qed.

Lemma set_id_some ty i x c :
  0 ≤ i < zlen (ids_of ty c) →
  set_id ty i x c = Some (with_ids ty (<[Z.to_nat i := x]> (ids_of ty c)) c).
Proof.
  unfold set_id, ids_of, with_ids. destruct (ty =? _); intros Hi; by rewrite aset_Some.
Qed.

(** One creation with a free entry in the session table, and with none. *)
Lemma create_one_ok s id c ip port ty err inc i :
  mgr_wf (s_rtp s) → aget (g_clients s) id = Some c → 0 ≤ i < zlen (ids_of ty c) →
  inc_of ty = Some inc → zlen (used (table s)) < MAX_SESSION_NUM →
  ∃ x r, create_one id ip port ty err i s = Ret None
     (s <| s_rtp := r |> <| g_clients ::= <[Z.to_nat id :=
        with_ids ty (<[Z.to_nat i := x]> (ids_of ty c)) c]> |>) ∧
    mgr_wf r ∧ used (g_rtpSessionMgr r) ≡ₚ x :: used (table s).
Proof.
  intros Hwf Hc Hi Hty Hu.
  destruct (find_idx is_free (table s)) as [x|] eqn:Ef.
  2:{ apply used_full in Ef; [lia|by apply mw_len]. }
  destruct (create_ret (s_rtp s) ip port ty Hwf) as (id' & r & E & Hpost).
  rewrite Ef, Hty in Hpost. destruct Hpost as (-> & Hwf' & p & _ & _ & Ht).
  destruct (find_idx_Some _ _ _ Ef) as (Hx & (o & Ho & Hfree) & _).
  exists x, r. split_and!; [|done|].
  - unfold create_one. erewrite bind_ret by by apply on_rtp_ret.
    erewrite bind_ret by (eapply upd_client_ret; [exact Hc|by apply set_id_some]).
    by assert ((x <? 0) = false) as -> by lia.
  - rewrite Ht. by eapply used_add; [apply mw_len| | |].
Qed.

Lemma create_one_full s id c ip port ty err i :
  mgr_wf (s_rtp s) → aget (g_clients s) id = Some c → 0 ≤ i < zlen (ids_of ty c) →
  zlen (used (table s)) = MAX_SESSION_NUM →
  create_one id ip port ty err i s = Ret (Some err)
     (s <| g_clients ::= <[Z.to_nat id := with_ids ty (<[Z.to_nat i := -1]> (ids_of ty c)) c]> |>).
Proof.
  intros Hwf Hc Hi Hu. apply used_full in Hu; [|by apply mw_len].
  destruct (create_ret (s_rtp s) ip port ty Hwf) as (id' & r & E & Hpost).
  rewrite Hu in Hpost. destruct Hpost as (-> & ->).
  unfold create_one. rewrite (bind_ret _ _ _ _ _ (on_rtp_ret _ _ _ _ E)).
  erewrite bind_ret by (eapply upd_client_ret; [exact Hc|by apply set_id_some]).
  by destruct s.
Qed.

Lemma create_loop s id c ip (port : Z → Z) ty err inc (n : nat) :
  mgr_wf (s_rtp s) → aget (g_clients s) id = Some c → Z.of_nat n ≤ zlen (ids_of ty c) →
  inc_of ty = Some inc → zlen (used (table s)) + Z.of_nat n ≤ MAX_SESSION_NUM →
  ∃ l r, for_until (seqZ 0 (Z.of_nat n)) (fun i => create_one id ip (port i) ty err i) s = Ret None
     (s <| s_rtp := r |> <| g_clients ::= <[Z.to_nat id :=
        with_ids ty (l ++ drop n (ids_of ty c)) c]> |>) ∧
    length l = n ∧ mgr_wf r ∧ used (g_rtpSessionMgr r) ≡ₚ l ++ used (table s).
Proof.
  intros Hwf Hc Hlen Hty. induction n as [|n IH]; intros Hu.
  { exists [], (s_rtp s). split_and!; [|done|done|done]. cbn.
    rewrite drop_0, with_same, list_insert_id; [by destruct s|].
    unfold aget in Hc. by destruct (decide (0 ≤ id)). }
  destruct IH as (l & r & E & Hl & Hwf' & Hused); [lia|lia|].
  pose proof (aget_Some_range _ _ _ Hc) as Hid.
  set (c1 := with_ids ty (l ++ drop n (ids_of ty c)) c) in *.
  set (s1 := s <| s_rtp := r |> <| g_clients ::= <[Z.to_nat id := c1]> |>) in *.
  assert (Hc1 : aget (g_clients s1) id = Some c1) by by apply aget_insert_eq.
  assert (Hlen1 : zlen (ids_of ty c1) = zlen (ids_of ty c)).
  { unfold c1. rewrite ids_with. unfold zlen in *. rewrite length_app, length_drop. lia. }
  destruct (create_one_ok s1 id c1 ip (port (Z.of_nat n)) ty err inc (Z.of_nat n))
    as (x & r' & E' & Hwf2 & Hused2); [done|done|lia|done| |].
  { unfold s1. cbn. pose proof (Permutation_length Hused) as Hpl. rewrite length_app in Hpl.
    unfold zlen in *. lia. }
  exists (l ++ [x]), r'. split_and!; [|rewrite length_app; cbn; lia|done|].
  - rewrite seqZ_S, (for_until_snoc _ _ _ _ _ E), Z.add_0_l, E'. f_equal.
    unfold s1. cbn. f_equal. rewrite list_insert_insert_eq. f_equal.
    unfold c1. rewrite with_with, ids_with. f_equal.
    rewrite Nat2Z.id. rewrite insert_app_r_alt by lia. rewrite Hl, Nat.sub_diag.
    assert (is_Some (ids_of ty c !! n)) as [y Hy] by (apply lookup_lt_is_Some; unfold zlen in *; lia).
    rewrite (drop_S _ y) by done. cbn. by rewrite <- app_assoc.
  - rewrite Hused2. unfold s1. cbn. rewrite Hused, <- app_assoc. cbn. by rewrite Permutation_middle.
Qed.

(** ** Adding a client *)

Definition slot_free (c : ClientObj) : bool := clientID c =? -1.

(** The number of groups divides the session table, and a client table index
    equal to it lies above the clients the session table can serve: so for the
    16 (and 32) channels the program can be set to. *)
Context (n : Z) (Hn : n = 4 ∨ n = 8).

Lemma cap_cases : (n = 4 ∧ 16 / n = 4) ∨ (n = 8 ∧ 16 / n = 2).
Proof. destruct Hn as [-> | ->]; [by left|by right]. Qed.

Lemma inv_count s :
  sess_inv n s → zlen (used (table s)) = 2 * n * active_count (g_clients s).
Proof.
  intros []. rewrite <- (owned_all_count n (g_clients s) 0); [|intros i c Hi; rewrite Z.add_0_r; eauto|].
  - unfold zlen. by rewrite si_owned0.
  - change GROUPS with 8. lia.
Qed.

Lemma used_bound s : sess_inv n s → 2 * n * active_count (g_clients s) ≤ MAX_SESSION_NUM.
Proof. intros H. rewrite <- (inv_count s H). apply used_length. Qed.

Lemma all_active_count cs :
  Forall (fun c => slot_free c = false) cs → active_count cs = zlen cs.
Proof.
  intros H. unfold active_count. induction H as [|c cs Hc Hcs IH]; [done|].
  unfold slot_free in Hc. rewrite filter_cons_True, !zlen_cons, IH; [done|].
  unfold active. by rewrite Hc.
Qed.

Lemma free_slot s :
  sess_inv n s → ∃ id c, find_idx slot_free (g_clients s) = Some id ∧
    aget (g_clients s) id = Some c ∧ clientID c = -1 ∧ client_ok id c ∧
    (∀ i c', 0 ≤ i < id → aget (g_clients s) i = Some c' → active c' = true).
Proof.
  intros Hi. destruct (find_idx slot_free (g_clients s)) as [id|] eqn:E.
  - destruct (find_idx_Some _ _ _ E) as (Hr & (c & Hc & Hf) & Hlow). unfold slot_free in *.
    exists id, c. split_and!; [done|done|lia|by eapply si_client|].
    intros i c' Hi' Hc'. unfold active. by rewrite (Hlow i c' Hi' Hc').
  - apply find_idx_None in E. pose proof (all_active_count _ E) as Ha.
    pose proof (used_bound s Hi) as Hb. rewrite Ha, (si_len _ _ Hi) in Hb.
    unfold MAX_CLIENT_NUM, MAX_SESSION_NUM in Hb. lia.
Qed.

(** The clients below the lowest free slot own [2 * n] sessions each. *)
Lemma low_slot_count s id :
  sess_inv n s → find_idx slot_free (g_clients s) = Some id →
  2 * n * id ≤ zlen (used (table s)).
Proof.
  intros Hi E. destruct (find_idx_Some _ _ _ E) as (Hr & _ & Hlow).
  rewrite (inv_count s Hi). assert (id ≤ active_count (g_clients s)); [|nia].
  rewrite <- (take_drop (Z.to_nat id) (g_clients s)). unfold active_count.
  rewrite filter_app, zlen_app. pose proof (all_active_count (take (Z.to_nat id) (g_clients s))) as Ha.
  unfold active_count in Ha. rewrite Ha.
  - pose proof (zlen_nonneg (filter (fun c => active c = true) (drop (Z.to_nat id) (g_clients s)))).
    unfold zlen in *. rewrite length_take. lia.
  - apply Forall_forall. intros c (k & Hk)%list_elem_of_lookup.
    apply lookup_take_Some in Hk as [Hk Hlt]. apply (Hlow (Z.of_nat k)); [lia|].
    unfold aget. rewrite decide_True by lia. by rewrite Nat2Z.id.
Qed.

(** The invariant for a state that differs by one client. *)
Lemma inv_set s s' i c c' :
  sess_inv n s → aget (g_clients s) i = Some c →
  g_clients s' = <[Z.to_nat i := c']> (g_clients s) → s_gbl s' = s_gbl s →
  mgr_wf (s_rtp s') → client_ok i c' →
  owned n c ++ used (table s') ≡ₚ owned n c' ++ used (table s) →
  (active c' = true → (i + 1) * (2 * n) ≤ MAX_SESSION_NUM) →
  sess_inv n s'.
Proof.
  intros [Hrtp Hlen Hcl Hchs How Hlow] Hi Hcs Hg Hwf Hok Hp Hact.
  pose proof (aget_Some_range _ _ _ Hi) as Hr. split; rewrite ?Hcs, ?Hg.
  - done.
  - by rewrite zlen_insert.
  - intros j d. rewrite aget_insert by done. case_decide; [by intros [= <-]; subst|eauto].
  - done.
  - apply (Permutation_app_inv_l (owned n c)). rewrite Hp, <- How.
    by apply owned_split.
  - intros j d. rewrite aget_insert by done. case_decide; [intros [= <-]; by subst|eauto].
Qed.

Lemma add_full s ip vp ap id c :
  sess_inv n s → 0 < vp → find_idx slot_free (g_clients s) = Some id →
  aget (g_clients s) id = Some c → client_ok id c →
  zlen (used (table s)) = MAX_SESSION_NUM →
  add_client ip vp ap s = Ret (-2) (s <| g_clients ::= <[Z.to_nat id :=
      c <| videoIDs := <[0%nat := -1]> (videoIDs c) |>]> |>).
Proof.
  intros Hi Hvp Hid Hc [] Hu. unfold add_client.
  rewrite (bind_ret _ _ _ _ _ (groups_ret s)), (si_chs _ _ Hi).
  erewrite bind_ret by done. unfold slot_free in Hid. rewrite Hid.
  assert ((0 <? vp) = true) as -> by lia.
  rewrite seqZ_cons by lia. cbn [for_until].
  erewrite (bind_ret _ _ s (Some (-2))); [done|].
  erewrite bind_ret by (apply (create_one_full s id c); [apply Hi|done| |done]; unfold ids_of; cbn; by rewrite co_video0).
  done.
Qed.

Lemma add_ok s ip vp ap id c :
  sess_inv n s → 0 < vp → 0 < ap → find_idx slot_free (g_clients s) = Some id →
  aget (g_clients s) id = Some c → client_ok id c →
  zlen (used (table s)) + 2 * n ≤ MAX_SESSION_NUM →
  ∃ v a r, add_client ip vp ap s = Ret id (s <| s_rtp := r |> <| g_clients ::= <[Z.to_nat id :=
      mkClient id (replicate 32 FALSE) (v ++ drop (Z.to_nat n) (videoIDs c))
        (a ++ drop (Z.to_nat n) (audioIDs c)) (channels c)]> |>) ∧
    zlen v = n ∧ zlen a = n ∧ mgr_wf r ∧ used (g_rtpSessionMgr r) ≡ₚ (v ++ a) ++ used (table s).
Proof.
  intros Hi Hvp Hap Hid Hc [] Hu. unfold add_client.
  rewrite (bind_ret _ _ _ _ _ (groups_ret s)), (si_chs _ _ Hi).
  erewrite bind_ret by done. pose proof Hid as Hid'. unfold slot_free in Hid'. rewrite Hid'.
  assert ((0 <? vp) = true) as -> by lia. assert ((0 <? ap) = true) as -> by lia.
  pose proof (aget_Some_range _ _ _ Hc) as Hr.
  assert (Hg : n ≤ GROUPS) by (change GROUPS with 8; lia).
  destruct (create_loop s id c ip (fun i => vp - i * 2) SESSION_TYPE_VIDEO (-2) VIDEO_TIME_STAMP_INC (Z.to_nat n))
    as (v & r1 & E1 & Hv & Hwf1 & Hu1); [apply Hi|done|cbn; lia|done|lia|].
  rewrite Z2Nat.id in E1 by lia. erewrite bind_ret by exact E1. cbn.
  set (c1 := c <| videoIDs := v ++ drop (Z.to_nat n) (videoIDs c) |>).
  set (s1 := s <| s_rtp := r1 |> <| g_clients ::= <[Z.to_nat id := c1]> |>).
  destruct (create_loop s1 id c1 ip (fun i => ap + i * 2) SESSION_TYPE_AUDIO (-3) AUDIO_TIME_STAMP_INC (Z.to_nat n))
    as (a & r2 & E2 & Ha & Hwf2 & Hu2); [done|by apply aget_insert_eq|cbn; lia|done| |].
  { unfold s1. cbn. pose proof (Permutation_length Hu1) as Hp. rewrite length_app in Hp. unfold zlen in *. lia. }
  rewrite Z2Nat.id in E2 by lia. erewrite bind_ret by exact E2. cbn.
  rewrite list_insert_insert_eq.
  repeat (erewrite bind_ret by (eapply upd_client_ret; [by apply aget_insert_eq|done]); cbn;
          rewrite list_insert_insert_eq).
  erewrite bind_ret by (apply get_client_ret; by apply aget_insert_eq). cbn.
  exists v, a, r2. split_and!; [done|unfold zlen; lia|unfold zlen; lia|done|].
  rewrite Hu2. unfold s1. cbn. rewrite Hu1. solve_Permutation.
Qed.

Lemma add_client_ret s ip vp ap :
  sess_inv n s → 0 < vp → 0 < ap →
  ∃ r s', add_client ip vp ap s = Ret r s' ∧ sess_inv n s' ∧ frame_buf s' = frame_buf s ∧
  if active_count (g_clients s) <? 16 / n then
    find_idx slot_free (g_clients s) = Some r ∧ ∃ c',
      g_clients s' = <[Z.to_nat r := c']> (g_clients s) ∧ clientID c' = r ∧
      flag c' = replicate 32 FALSE ∧ used (table s') ≡ₚ owned n c' ++ used (table s)
  else r = -2 ∧ s_rtp s' = s_rtp s ∧
    ∀ i c, aget (g_clients s) i = Some c → active c = true → aget (g_clients s') i = Some c.
Proof.
  intros Hi Hvp Hap. destruct (free_slot s Hi) as (id & c & Hid & Hc & Hm1 & Hok & Hlow).
  pose proof (inv_count s Hi) as Hcnt. pose proof (used_bound s Hi) as Hb.
  pose proof (low_slot_count s id Hi Hid) as Hl. pose proof (aget_Some_range _ _ _ Hc) as Hr.
  assert (Ho : owned n c = []) by (unfold owned; by rewrite Hm1).
  destruct (active_count (g_clients s) <? 16 / n) eqn:E.
  - destruct (add_ok s ip vp ap id c) as (v & a & r & -> & Hv & Ha & Hwf & Hu); try done.
    { rewrite Hcnt. unfold MAX_SESSION_NUM. destruct cap_cases as [[E1 E2]|[E1 E2]]; rewrite E2 in E; rewrite E1 in Hl, Hb |- *; lia. }
    set (c' := mkClient id _ _ _ _).
    assert (Ho' : owned n c' = v ++ a).
    { unfold owned, c'. cbn. assert ((id =? -1) = false) as -> by lia. unfold zlen in *.
      rewrite !take_app_length' by lia. done. }
    eexists id, _. split; [done|]. split.
    + eapply (inv_set s _ id c c'); [done|done|done|done|done| | |].
      * destruct Hok. split; cbn; [by right|done|apply Forall_replicate; by right|..];
          rewrite zlen_app; unfold zlen in *; rewrite length_drop; change GROUPS with 8 in *; lia.
      * rewrite Ho, Ho'. cbn. by rewrite Hu.
      * intros _. rewrite Hcnt in Hl. unfold MAX_SESSION_NUM. destruct cap_cases as [[E1 E2]|[E1 E2]]; rewrite E2 in E; rewrite E1 in Hl, Hb |- *; lia.
    + split; [done|]. split; [done|]. exists c'. split_and!; try done. by rewrite Ho'.
  - rewrite (add_full s ip vp ap id c); [|done..|].
    2:{ rewrite Hcnt. unfold MAX_SESSION_NUM in *. destruct cap_cases as [[E1 E2]|[E1 E2]]; rewrite E2 in E; rewrite E1 in Hl, Hb |- *; lia. }
    eexists (-2), _. split; [done|]. split_and!; [|done|done|done|].
    + eapply (inv_set s _ id c); [done|done|done|done|apply Hi| | |].
      * destruct Hok. split; cbn; [by left|done|done|by rewrite zlen_insert|done].
      * rewrite Ho. unfold owned. cbn. by rewrite Hm1.
      * unfold active. cbn. by rewrite Hm1.
    + intros i d Hd Ha. cbn. rewrite aget_insert_ne; [done|lia|]. intros <-.
      unfold active in Ha. rewrite Hc in Hd. simplify_eq. by rewrite Hm1 in Ha.
Qed.

(** C3: with 16 (or 32) channels and both base ports set, adding a client to any
    consistent table returns and keeps the table consistent: while fewer than
    16 / groups clients are active it takes the lowest free slot, all channels
    closed, and gives it its own new sessions; from then on it returns -2, and
    then no session has been taken and every active client is as before. The ten
    client slots are never all used: the 32 sessions run out at four clients. *)
Theorem add_client_spec s ip vp ap :
  sess_inv n s → 0 < vp → 0 < ap →
  ∃ r s', add_client ip vp ap s = Ret r s' ∧ sess_inv n s' ∧ frame_buf s' = frame_buf s ∧
  if active_count (g_clients s) <? 16 / n then
    find_idx slot_free (g_clients s) = Some r ∧ ∃ c',
      g_clients s' = <[Z.to_nat r := c']> (g_clients s) ∧ clientID c' = r ∧
      flag c' = replicate 32 FALSE ∧ used (table s') ≡ₚ owned n c' ++ used (table s)
  else r = -2 ∧ s_rtp s' = s_rtp s ∧
    ∀ i c, aget (g_clients s) i = Some c → active c = true → aget (g_clients s') i = Some c.
Proof. apply add_client_ret. Qed.

(** ** Deleting a client *)

Lemma remove_used (m : RtpMgr L) x X :
  mgr_wf m → used (g_rtpSessionMgr m) ≡ₚ x :: X →
  ∃ m', remove_session_obj x m = Ret 0 m' ∧ mgr_wf m' ∧ used (g_rtpSessionMgr m') ≡ₚ X.
Proof.
  intros Hwf Hu. assert (x ∈ used (g_rtpSessionMgr m)) as Hx by (rewrite Hu; by left).
  apply elem_of_used in Hx as (Hr & o & Ho & Hf).
  destruct (remove_ret m x o Hwf Ho) as (m' & E & Hwf' & _ & Ht & _).
  exists m'. split_and!; [done|done|]. rewrite Ht.
  apply (Permutation_cons_inv (a := x)). rewrite <- Hu. symmetry.
  by eapply used_del; [apply mw_len| | |].
Qed.

Lemma remove_group_ret s id c i v a r x m1 y m2 :
  aget (g_clients s) id = Some c → aget (videoIDs c) i = Some v → aget (audioIDs c) i = Some a →
  remove_session_obj v r = Ret x m1 → remove_session_obj a m1 = Ret y m2 →
  remove_group id i (s <| s_rtp := r |>) = Ret tt (s <| s_rtp := m2 |>).
Proof.
  intros Hc Hv Ha Ex Ey. unfold remove_group.
  rewrite (bind_ret _ _ _ c (s <| s_rtp := r |>)) by by apply get_client_ret.
  rewrite (bind_ret _ _ _ v (s <| s_rtp := r |>)) by (unfold rd; by rewrite Hv).
  rewrite (bind_ret _ _ _ x (s <| s_rtp := m1 |>)) by exact (on_rtp_ret _ (s <| s_rtp := r |>) _ _ Ex).
  rewrite (bind_ret _ _ _ a (s <| s_rtp := m1 |>)) by (unfold rd; by rewrite Ha).
  by rewrite (bind_ret _ _ _ y (s <| s_rtp := m2 |>)) by exact (on_rtp_ret _ (s <| s_rtp := m1 |>) _ _ Ey).
Qed.

Lemma aget_take {A} (l : list A) (k : Z) (m : nat) :
  0 ≤ k < Z.of_nat m → k < zlen l → ∃ x, aget l k = Some x ∧
    drop (Z.to_nat k) (take m l) = x :: drop (S (Z.to_nat k)) (take m l).
Proof.
  intros Hk Hl. assert (is_Some (l !! Z.to_nat k)) as [x Hx]
    by (apply lookup_lt_is_Some; unfold zlen in *; lia).
  exists x. unfold aget. rewrite decide_True by lia. split; [done|].
  apply drop_S. by rewrite lookup_take_lt by lia.
Qed.

Lemma del_loop s id c (j : nat) X : n ≤ GROUPS → ∀ k r,
  aget (g_clients s) id = Some c → client_ok id c → 0 ≤ k → k + Z.of_nat j = n → mgr_wf r →
  used (g_rtpSessionMgr r) ≡ₚ drop (Z.to_nat k) (take (Z.to_nat n) (videoIDs c)) ++
    drop (Z.to_nat k) (take (Z.to_nat n) (audioIDs c)) ++ X →
  ∃ r', for_each (seqZ k (Z.of_nat j)) (remove_group id) (s <| s_rtp := r |>) =
      Ret tt (s <| s_rtp := r' |>) ∧ mgr_wf r' ∧ used (g_rtpSessionMgr r') ≡ₚ X.
Proof.
  intros Hg. clear Hn. induction j as [|j IH]; intros k r Hc Hok Hk Hkn Hwf Hu.
  - exists r. split_and!; [done|done|]. rewrite Hu.
    rewrite !drop_ge by (rewrite length_take; lia). done.
  - pose proof Hok as [].
    destruct (aget_take (videoIDs c) k (Z.to_nat n)) as (v & Hv & Edv); [lia|lia|].
    destruct (aget_take (audioIDs c) k (Z.to_nat n)) as (a & Ha & Eda); [lia|lia|].
    rewrite Edv, Eda in Hu. cbn in Hu.
    destruct (remove_used r v _ Hwf Hu) as (r1 & E1 & Hwf1 & Hu1).
    rewrite <- Permutation_middle in Hu1.
    destruct (remove_used r1 a _ Hwf1 Hu1) as (r2 & E2 & Hwf2 & Hu2).
    destruct (IH (k + 1) r2) as (r' & E & Hwf' & Hu'); [done|done|lia|lia|done| |].
    { rewrite Hu2. by replace (Z.to_nat (k + 1)) with (S (Z.to_nat k)) by lia. }
    exists r'. split_and!; [|done|done].
    rewrite seqZ_cons by lia. cbn.
    rewrite (bind_ret _ _ _ tt (s <| s_rtp := r2 |>)).
    + replace (Z.pred (Z.of_nat (S j))) with (Z.of_nat j) by lia. exact E.
    + exact (remove_group_ret s id c k v a r 0 r1 0 r2 Hc Hv Ha E1 E2).
Qed.

Lemma slot_n_inactive s c :
  sess_inv n s → aget (g_clients s) n = Some c → active c = false.
Proof.
  intros Hi Hc. destruct (active c) eqn:Ha; [|done].
  pose proof (si_low _ _ Hi n c Hc Ha) as Hl. unfold MAX_SESSION_NUM in Hl. nia.
Qed.

Lemma inactive_owned c : active c = false → owned n c = [].
Proof. unfold active, owned. by destruct (clientID c =? -1). Qed.

Lemma wipe_inv s i c :
  sess_inv n s → aget (g_clients s) i = Some c → active c = false →
  sess_inv n (s <| g_clients ::= <[Z.to_nat i := wipe_ids c]> |>).
Proof.
  intros Hi Hc Ha. eapply (inv_set s _ i c); [done|done|done|done|apply Hi| | |].
  - destruct (si_client _ _ Hi i c Hc). split; try done.
  - by rewrite !inactive_owned.
  - intros Ha'. unfold active, wipe_ids in *. cbn in Ha'. congruence.
Qed.

Lemma del_client_ret s i c :
  sess_inv n s → aget (g_clients s) i = Some c →
  if active c then
    ∃ s', del_client i s = Ret 0 s' ∧ sess_inv n s' ∧ frame_buf s' = frame_buf s ∧
      used (table s) ≡ₚ owned n c ++ used (table s') ∧
      (∃ c', aget (g_clients s') i = Some c' ∧ active c' = false) ∧
      ∀ j d, j ≠ i → aget (g_clients s) j = Some d → active d = true → aget (g_clients s') j = Some d
  else del_client i s = Ret (-1) s.
Proof.
  intros Hi Hc. pose proof (aget_Some_range _ _ _ Hc) as Hr.
  unfold del_client. rewrite (bind_ret _ _ _ _ _ (get_client_ret s i c Hc)).
  destruct (active c) eqn:Ha; unfold active in Ha; [|by destruct (clientID c =? -1)].
  assert ((clientID c =? -1) = false) as Hid by by destruct (clientID c =? -1). rewrite Hid.
  rewrite (bind_ret _ _ _ _ _ (groups_ret s)), (si_chs _ _ Hi).
  set (c0 := c <| clientID := -1 |>). set (X := owned_all n (<[Z.to_nat i := c0]> (g_clients s))).
  assert (Hc0 : owned n c0 = []) by done.
  assert (Hu : used (table s) ≡ₚ owned n c ++ X).
  { rewrite <- (si_owned _ _ Hi). unfold X. rewrite owned_split by done. by rewrite Hc0. }
  pose proof (si_client _ _ Hi i c Hc) as Hok.
  destruct (del_loop s i c (Z.to_nat n) X ltac:(change GROUPS with 8; lia) 0 (s_rtp s)) as (r & E & Hwf & Hur); [done|done|lia|lia|apply Hi| |].
  { rewrite Hu. unfold owned. rewrite Hid. by rewrite <- app_assoc. }
  rewrite Z2Nat.id in E by lia. replace (s <| s_rtp := s_rtp s |>) with s in E by by destruct s.
  rewrite (bind_ret _ _ _ _ _ E).
  rewrite (bind_ret _ _ _ tt (s <| s_rtp := r |> <| g_clients ::= <[Z.to_nat i := c0]> |>))
    by by eapply upd_client_ret.
  set (s1 := s <| s_rtp := r |> <| g_clients ::= <[Z.to_nat i := c0]> |>).
  assert (Hi1 : sess_inv n s1).
  { eapply (inv_set s _ i c c0); [done|done|done|done|done| | |].
    - destruct Hok. split; try done. by left.
    - rewrite Hc0. unfold s1. cbn. by rewrite Hur, Hu.
    - done. }
  assert (is_Some (aget (g_clients s1) n)) as [cn Hcn].
  { apply aget_is_Some. rewrite (si_len _ _ Hi1). unfold MAX_CLIENT_NUM. lia. }
  pose proof (slot_n_inactive s1 cn Hi1 Hcn) as Han.
  replace (Z.max 0 n) with n by lia.
  rewrite (bind_ret _ _ _ tt (s1 <| g_clients ::= <[Z.to_nat n := wipe_ids cn]> |>))
    by by eapply upd_client_ret.
  eexists. split; [done|]. split_and!.
  - by apply wipe_inv.
  - done.
  - cbn. by rewrite Hur.
  - pose proof (aget_Some_range _ _ _ Hcn) as Hrn.
    destruct (decide (i = n)) as [->|Hne].
    + exists (wipe_ids cn). split; [by apply aget_insert_eq|done].
    + exists c0. split; [|done]. cbn. rewrite aget_insert_ne by lia. by apply aget_insert_eq.
  - intros j d Hj Hd Had. cbn. assert (j ≠ n) as Hjn.
    { intros ->. pose proof (slot_n_inactive s d Hi Hd). congruence. }
    by rewrite !aget_insert_ne by lia.
Qed.


(** Setting the flag of a channel, by [open_channel] or [close_channel]. *)
Lemma set_channel_ret s i ch v c :
  sess_inv n s → aget (g_clients s) i = Some c → 0 ≤ ch → flag_ok v →
  ∃ fl, setFlag (flag c) ch v = Some fl ∧
  (client ← get_client i;
   if clientID client =? -1 then mret (-1) else
   _ ← upd_client i (set_flag ch v); mret (-1)) s =
  Ret (-1) (if active c then s <| g_clients ::= <[Z.to_nat i := c <| flag := fl |>]> |> else s) ∧
  sess_inv n (if active c then s <| g_clients ::= <[Z.to_nat i := c <| flag := fl |>]> |> else s).
Proof.
  intros Hi Hc Hch Hv. pose proof (si_client _ _ Hi i c Hc) as Hok.
  destruct (setFlag_spec (flag c) ch v) as (fl & E & Hl & _); [apply Hok|done|].
  exists fl. split; [done|]. unfold active.
  rewrite (bind_ret _ _ _ _ _ (get_client_ret s i c Hc)).
  destruct (clientID c =? -1) eqn:Ea; cbn [negb]; [done|].
  erewrite bind_ret by (eapply upd_client_ret; [done|]; unfold set_flag; by rewrite E).
  split; [done|]. eapply (inv_set s _ i c); [done|done|done|done|apply Hi| | |].
  - destruct Hok. split; try done. by eapply setFlag_flags.
  - done.
  - intros Ha. by apply (si_low _ _ Hi i c).
Qed.

End Spec.

(** * Sending an element to the clients *)

Section Send.
Context {L : Type} {HL : RtpLib L} {HLL : RtpLibLaws L} (n : Z) (Hn : n = 4 ∨ n = 8).
Implicit Types (s : Sess L) (elt : SessionElement) (c : ClientObj).

#[local] Abbreviation table s := (g_rtpSessionMgr (s_rtp s)).

(** The packet the stack gets for client [c], read off the session table. *)
Definition deliver (t : list SessionObj) (buf : list Z) elt c : option (Z * list Z * Z) :=
  if active c then
    b ← aget (flag c) (e_chId elt);
    if b =? FALSE then None else
    x ← aget (ids_of (e_dataType elt) c) (e_chId elt `quot` CHS_PER_SESSION);
    o ← aget t x;
    p ← pSession o;
    Some (p, take (Z.to_nat (e_len elt)) buf, curTimeStamp o)
  else None.

(** The call of the stack for a packet; the stack takes the bytes out of the buffer. *)
Definition hand (buf : list Z) elt (d : Z * list Z * Z) : CM L unit :=
  _ ← rtp_session_send_with_ts d.1.1 buf (e_len elt) d.2; mret tt.

(** A channel of the [n] groups, and a buffer of at least the element's length, which
    fits a packet. *)
Record elt_ok s elt (buf : list Z) : Prop := {
  eo_ch : 0 ≤ e_chId elt < CHS_PER_SESSION * n;
  eo_buf : aget (frame_buf s) (e_buffer elt) = Some buf;
  eo_len : sendable buf (e_len elt)
}.

Lemma id_owned c elt x :
  active c = true → 0 ≤ e_chId elt < CHS_PER_SESSION * n →
  aget (ids_of (e_dataType elt) c) (e_chId elt `quot` CHS_PER_SESSION) = Some x → x ∈ owned n c.
Proof.
  intros Ha Hch Hx. unfold owned, active, ids_of in *. destruct (clientID c =? -1); [done|].
  assert (Hk : 0 ≤ e_chId elt `quot` CHS_PER_SESSION < n).
  { unfold CHS_PER_SESSION in *. rewrite Z.quot_div_nonneg by lia. mlia. }
  apply elem_of_app. unfold aget in Hx. rewrite decide_True in Hx by lia.
  destruct (e_dataType elt =? SESSION_TYPE_VIDEO); [left|right]; apply list_elem_of_lookup;
    exists (Z.to_nat (e_chId elt `quot` CHS_PER_SESSION)); by rewrite lookup_take_lt by lia.
Qed.

Lemma owned_used s i c x :
  sess_inv n s → aget (g_clients s) i = Some c → x ∈ owned n c → x ∈ used (table s).
Proof.
  intros Hi Hc Hx. rewrite <- (si_owned _ _ Hi). apply list_elem_of_bind. exists c.
  split; [done|]. by eapply aget_elem_of.
Qed.

Lemma owned_disjoint s i j c d x :
  sess_inv n s → i < j → aget (g_clients s) i = Some c → aget (g_clients s) j = Some d →
  x ∈ owned n c → x ∉ owned n d.
Proof.
  intros Hi Hij Hc Hd Hx Hx'.
  pose proof (aget_Some_range _ _ _ Hc) as Hr.
  assert (Hnd : NoDup (owned_all n (g_clients s))) by (rewrite (si_owned _ _ Hi); apply used_NoDup).
  unfold aget in Hc, Hd. rewrite decide_True in Hc by lia. rewrite decide_True in Hd by lia.
  rewrite <- (take_drop_middle _ _ _ Hc) in Hnd. unfold owned_all in Hnd.
  rewrite bind_app in Hnd. apply NoDup_app in Hnd as (_ & _ & Hnd).
  rewrite bind_cons in Hnd. apply NoDup_app in Hnd as (_ & Hnd & _).
  apply (Hnd x Hx). apply list_elem_of_bind. exists d. split; [done|].
  apply list_elem_of_lookup. exists (Z.to_nat j - S (Z.to_nat i))%nat.
  rewrite lookup_drop. by replace (S (Z.to_nat i) + (Z.to_nat j - S (Z.to_nat i)))%nat with (Z.to_nat j) by lia.
Qed.

Lemma touch_inv s x o o' :
  sess_inv n s → aget (table s) x = Some o → is_free o = false → pSession o' = pSession o → in_u32 (curTimeStamp o') →
  ∀ l, lib_ok l → (∀ q, live l q ↔ live (rtplib (s_rtp s)) q) →
  sess_inv n (s <| s_rtp := (s_rtp s) <| rtplib := l |> <| g_rtpSessionMgr ::= <[Z.to_nat x := o']> |> |>).
Proof.
  intros [Hrtp Hlen Hcl Hchs How Hlow] Ho Hf Hp Hts l Hok Hl. split; cbn; try done.
  - assert (Hw : mgr_wf ((s_rtp s) <| rtplib := l |>)) by (by apply wf_lib).
    exact (wf_touch _ x o o' Hw Ho Hp Hf Hts).
  - rewrite How. rewrite (used_touch _ x o o'); [done|done|]. unfold is_free. by rewrite Hp.
Qed.

(** The loop body on a client that takes the element, and on one that does not. *)
Lemma send_one_skip s elt buf i c :
  sess_inv n s → elt_ok s elt buf → aget (g_clients s) i = Some c →
  deliver (table s) buf elt c = None → send_one elt i s = Ret tt s.
Proof.
  intros Hi [Hch Hb Hl] Hc Hd. unfold send_one.
  pose proof (si_client _ _ Hi i c Hc) as Hok. destruct Hok as [Hid Hfl Hbool Hv Ha].
  rewrite (bind_ret _ _ _ _ _ (get_client_ret s i c Hc)).
  destruct (clientID c =? -1) eqn:E1; [done|].
  assert (Hci : clientID c = i) by lia. rewrite Hci.
  assert (Hact : active c = true) by (unfold active; by rewrite E1).
  assert (Hg : n ≤ GROUPS) by (change GROUPS with 8; lia). change GROUPS with 8 in *.
  unfold CHS_PER_SESSION, MAX_VIDEO_CHANNEL in *.
  assert (is_Some (aget (flag c) (e_chId elt))) as [b Hbf] by (apply aget_is_Some; lia).
  assert (Hck : check_channel i (e_chId elt) s = Ret (u8 b) s).
  { unfold check_channel. rewrite (bind_ret _ _ _ _ _ (get_client_ret s i c Hc)), E1.
    run. by rewrite Hbf. }
  rewrite (bind_ret _ _ _ _ _ Hck).
  assert (Hfb : flag_ok b) by (eapply Forall_forall; [done|by eapply aget_elem_of]).
  assert (Hub : u8 b = b) by (apply u8_id; unfold in_u8; destruct Hfb as [-> | ->]; unfold TRUE, FALSE; lia).
  rewrite Hub. unfold deliver in Hd. rewrite Hact, Hbf in Hd. cbn in Hd.
  destruct (b =? FALSE); [done|]. exfalso.
  assert (Hk : 0 ≤ e_chId elt `quot` 4 < 8) by (rewrite Z.quot_div_nonneg by lia; mlia).
  assert (is_Some (aget (ids_of (e_dataType elt) c) (e_chId elt `quot` 4))) as [x Hx]
    by (apply aget_is_Some; unfold ids_of; destruct (e_dataType elt =? _); lia).
  pose proof (owned_used s i c x Hi Hc (id_owned c elt x Hact Hch Hx)) as Hu.
  apply elem_of_used in Hu as (_ & o & Ho & Hf). unfold CHS_PER_SESSION in Hd.
  rewrite Hx in Hd. cbn in Hd. rewrite Ho in Hd. cbn in Hd.
  unfold is_free in Hf. by destruct (pSession o).
Qed.

Lemma send_one_take s elt buf i c p b ts :
  sess_inv n s → elt_ok s elt buf → aget (g_clients s) i = Some c →
  deliver (table s) buf elt c = Some (p, b, ts) →
  ∃ x o l, x ∈ owned n c ∧ aget (table s) x = Some o ∧ pSession o = Some p ∧
  hand buf elt (p, b, ts) (rtplib (s_rtp s)) = Ret tt l ∧ lib_ok l ∧ (∀ q, live l q ↔ live (rtplib (s_rtp s)) q) ∧
  send_one elt i s = Ret tt (s <| s_rtp := (s_rtp s)
    <| rtplib := l |>
    <| g_rtpSessionMgr ::= <[Z.to_nat x :=
         mkSessionObj (Some p) (u32 (curTimeStamp o + timeStampInc o)) (timeStampInc o)]> |> |>).
Proof.
  intros Hi [Hch Hb Hl] Hc Hd. unfold deliver in Hd.
  destruct (active c) eqn:Hact; [|done].
  destruct (aget (flag c) (e_chId elt)) as [v|] eqn:Hbf; [|done]. cbn in Hd.
  destruct (v =? FALSE) eqn:Hv; [done|].
  destruct (aget (ids_of (e_dataType elt) c) (e_chId elt `quot` CHS_PER_SESSION)) as [x|] eqn:Hx; [|done].
  cbn in Hd. destruct (aget (table s) x) as [o|] eqn:Ho; [|done]. cbn in Hd.
  destruct (pSession o) as [q|] eqn:Hp; [|done]. cbn in Hd. simplify_eq.
  pose proof (rtp_send_ret (s_rtp s) x o buf (e_len elt) (si_rtp _ _ Hi) Ho Hl) as Hs.
  rewrite Hp in Hs. destruct Hs as (r & l & El & Hok & Hll & Es).
  exists x, o, l. split_and!; [by eapply id_owned|done|done|unfold hand; by rewrite (bind_ret _ _ _ _ _ El)|done|done|].
  pose proof (si_client _ _ Hi i c Hc) as [Hid Hfl Hbool Hvl Hal].
  unfold active in Hact. destruct (clientID c =? -1) eqn:E1; [done|].
  unfold send_one. rewrite (bind_ret _ _ _ _ _ (get_client_ret s i c Hc)), E1.
  assert (Hci : clientID c = i) by lia. rewrite Hci.
  assert (Hfb : flag_ok v) by (eapply Forall_forall; [done|by eapply aget_elem_of]).
  assert (Hub : u8 v = v) by (apply u8_id; unfold in_u8; destruct Hfb as [-> | ->]; unfold TRUE, FALSE; lia).
  assert (Hck : check_channel i (e_chId elt) s = Ret (u8 v) s).
  { unfold check_channel. rewrite (bind_ret _ _ _ _ _ (get_client_ret s i c Hc)), E1.
    run. by rewrite Hbf. }
  rewrite Hub in Hck.
  rewrite (bind_ret _ _ _ _ _ Hck), Hv. cbn zeta.
  assert (Hxr : (if e_dataType elt =? SESSION_TYPE_VIDEO
     then rd (videoIDs c) (e_chId elt `quot` CHS_PER_SESSION)
     else rd (audioIDs c) (e_chId elt `quot` CHS_PER_SESSION)) s = Ret x s).
  { unfold ids_of in Hx. unfold rd. destruct (e_dataType elt =? SESSION_TYPE_VIDEO); by rewrite Hx. }
  rewrite (bind_ret _ _ _ _ _ Hxr). unfold send_bytes.
  rewrite (bind_ret _ _ _ (frame_buf s) s) by done.
  rewrite (bind_ret _ _ _ buf s) by (unfold rd; by rewrite Hb).
  destruct (zlen buf <? e_len elt) eqn:E2; [destruct Hl; lia|].
  by rewrite (bind_ret _ _ _ _ _ (on_rtp_ret _ _ _ _ Es)).
Qed.

Lemma deliver_other t buf elt c x o :
  0 ≤ x < zlen t → x ∉ owned n c → 0 ≤ e_chId elt < CHS_PER_SESSION * n →
  deliver (<[Z.to_nat x := o]> t) buf elt c = deliver t buf elt c.
Proof.
  intros Hr Hx Hch. unfold deliver. destruct (active c) eqn:Ha; [|done].
  destruct (aget (flag c) _) as [b|]; [|done]. cbn. destruct (b =? FALSE); [done|].
  destruct (aget (ids_of _ c) _) as [y|] eqn:Hy; [|done]. cbn.
  rewrite aget_insert_ne; [done|lia|]. intros ->. by eapply Hx, id_owned.
Qed.

Lemma send_loop elt buf (j : nat) : ∀ k s,
  sess_inv n s → elt_ok s elt buf → 0 ≤ k → k + Z.of_nat j = MAX_CLIENT_NUM →
  ∃ s', for_each (seqZ k (Z.of_nat j)) (send_one elt) s = Ret tt s' ∧ sess_inv n s' ∧
    g_clients s' = g_clients s ∧ s_gbl s' = s_gbl s ∧ frame_buf s' = frame_buf s ∧
    (∀ q, live (rtplib (s_rtp s')) q ↔ live (rtplib (s_rtp s)) q) ∧
    for_each (omap (deliver (table s) buf elt) (drop (Z.to_nat k) (g_clients s))) (hand buf elt) (rtplib (s_rtp s)) =
      Ret tt (rtplib (s_rtp s')).
Proof.
  induction j as [|j IH]; intros k s Hi He Hk Hkj.
  { exists s. split_and!; try done. pose proof (si_len _ _ Hi).
    by rewrite drop_ge by (unfold zlen in *; lia). }
  assert (is_Some (aget (g_clients s) k)) as [c Hc].
  { apply aget_is_Some. rewrite (si_len _ _ Hi). lia. }
  assert (Hdrop : drop (Z.to_nat k) (g_clients s) = c :: drop (Z.to_nat (k + 1)) (g_clients s)).
  { replace (Z.to_nat (k + 1)) with (S (Z.to_nat k)) by lia. apply drop_S.
    unfold aget in Hc. by rewrite decide_True in Hc by lia. }
  rewrite seqZ_cons by lia. replace (Z.succ k) with (k + 1) by lia.
  replace (Z.pred (Z.of_nat (S j))) with (Z.of_nat j) by lia. rewrite Hdrop. cbn [for_each].
  change (omap ?f (c :: ?l)) with (match f c with Some y => y :: omap f l | None => omap f l end).
  destruct (deliver (table s) buf elt c) as [[[p b] ts]|] eqn:Hd.
  - destruct (send_one_take s elt buf k c p b ts Hi He Hc Hd) as (x & o & l & Hx & Ho & Hp & Eh & Hok & Hl & E).
    rewrite (bind_ret _ _ _ _ _ E). set (s1 := s <| s_rtp := _ |>) in *.
    assert (Hi1 : sess_inv n s1).
    { apply (touch_inv s x o); [done|done|unfold is_free; by rewrite Hp|done|apply u32_range|done|done]. }
    destruct (IH (k + 1) s1) as (s' & E' & Hi' & Hcl & Hg & Hfb & Ha & Hs); [done|by destruct He|lia|lia|].
    exists s'. split_and!; [done|done|done|done|done|intros q; rewrite Ha; apply Hl|].
    cbn [for_each]. rewrite (bind_ret _ _ _ _ _ Eh), <- Hs. unfold s1 at 2. cbn [s_rtp rtplib update]. f_equal.
    apply list_omap_ext. pose proof (aget_Some_range _ _ _ Ho) as Hxr.
    apply Forall2_same_length_lookup. split; [done|]. intros i d d' Hd1 Hd2.
    assert (d' = d) as -> by (cbn in Hd2; congruence). symmetry. apply deliver_other; [done| |apply He].
    rewrite lookup_drop in Hd1. eapply (owned_disjoint s k (Z.of_nat (Z.to_nat (k + 1) + i)) c d x); [done|lia|done| |done].
    unfold aget. rewrite decide_True by lia. by rewrite Nat2Z.id.
  - rewrite (bind_ret _ _ _ tt s) by (by eapply send_one_skip).
    apply IH; [done|done|lia|lia].
Qed.

(** On any stack: the calls of the stack are those of the clients that take the element. *)
Lemma send_to_client_ret s elt buf :
  sess_inv n s → elt_ok s elt buf →
  ∃ s', send_to_client elt s = Ret 0 s' ∧ sess_inv n s' ∧ frame_buf s' = frame_buf s ∧
    s_gbl s' = s_gbl s ∧ g_clients s' = g_clients s ∧ (∀ q, live (rtplib (s_rtp s')) q ↔ live (rtplib (s_rtp s)) q) ∧
    for_each (omap (deliver (table s) buf elt) (g_clients s)) (hand buf elt) (rtplib (s_rtp s)) = Ret tt (rtplib (s_rtp s')).
Proof.
  intros Hi He. destruct (send_loop elt buf 10 0 s Hi He) as (s' & E & ? & ? & ? & ? & ? & Hs); [lia|done|].
  exists s'. split_and!; try done. unfold send_to_client. by rewrite (bind_ret _ _ _ _ _ E).
Qed.

End Send.

Section SendLog.
Context (n : Z) (Hn : n = 4 ∨ n = 8).
Implicit Types (s : Sess CallLog) (elt : SessionElement) (c : ClientObj).
#[local] Abbreviation table s := (g_rtpSessionMgr (s_rtp s)).

(** On the recording stack the calls are recorded. *)
Lemma hand_log buf elt ds : Forall (fun d => d.1.2 = take (Z.to_nat (e_len elt)) buf) ds → ∀ l l',
  for_each ds (hand buf elt) l = Ret tt l' → alive l' = alive l ∧ sent l' = sent l ++ ds.
Proof.
  induction 1 as [|[[p b] ts] ds Hb _ IH]; intros l l'; cbn.
  - intros [= <-]. by rewrite app_nil_r.
  - cbn in Hb. subst b. unfold hand at 1. unfold mbind, CM_bind. cbn. destruct (decide (p ∈ alive l)); [|done].
    intros [-> ->]%IH. cbn. by rewrite <- app_assoc.
Qed.
Lemma deliver_bytes t buf elt cs : Forall (fun d : Z * list Z * Z => d.1.2 = take (Z.to_nat (e_len elt)) buf) (omap (deliver t buf elt) cs).
Proof.
  apply Forall_forall. intros d (c & _ & Hd)%list_elem_of_omap. unfold deliver in Hd. destruct (active c); [|done].
  destruct (aget (flag c) _) as [b|]; [|done]. cbn in Hd. destruct (b =? FALSE); [done|].
  destruct (aget (ids_of _ c) _) as [x|]; [|done]. cbn in Hd. destruct (aget t x) as [o|]; [|done]. cbn in Hd.
  destruct (pSession o) as [q|]; [|done]. cbn in Hd. by injection Hd as <-.
Qed.
Lemma send_to_client_log s elt buf :
  sess_inv n s → elt_ok n s elt buf →
  ∃ s', send_to_client elt s = Ret 0 s' ∧ sess_inv n s' ∧ frame_buf s' = frame_buf s ∧
    s_gbl s' = s_gbl s ∧ g_clients s' = g_clients s ∧ alive (rtplib (s_rtp s')) = alive (rtplib (s_rtp s)) ∧
    sent (rtplib (s_rtp s')) = sent (rtplib (s_rtp s)) ++
      omap (deliver (table s) buf elt) (g_clients s).
Proof.
  intros Hi He. destruct (send_to_client_ret n Hn s elt buf Hi He) as (s' & E & H1 & H2 & H3 & H4 & _ & Hs).
  apply hand_log in Hs as [H5 H6]; [|apply deliver_bytes]. exists s'. by split_and!.
Qed.

(** C5: with a consistent client table, sending an element of one of the
    device's channels returns 0 and hands the stack one packet for each client
    that is active and has the channel open, in slot order: the element's bytes,
    on the client's video or audio session of the channel's group, with that
    session's current timestamp; the client table stays as it was. *)
Theorem send_to_client_spec s elt buf :
  sess_inv n s → elt_ok n s elt buf →
  ∃ s', send_to_client elt s = Ret 0 s' ∧ sess_inv n s' ∧ frame_buf s' = frame_buf s ∧
    s_gbl s' = s_gbl s ∧ g_clients s' = g_clients s ∧ alive (rtplib (s_rtp s')) = alive (rtplib (s_rtp s)) ∧
    sent (rtplib (s_rtp s')) = sent (rtplib (s_rtp s)) ++
      omap (deliver (table s) buf elt) (g_clients s).
Proof. apply send_to_client_log. Qed.

End SendLog.

(** * Sequences of operations, from the start of the session thread *)

(** An operation the server or a session thread performs, with the arguments the
    protocol admits: base ports above 0, a client slot, a channel number that is
    not negative. *)
Inductive sess_op :=
  | OAdd (ip : list Z) (vp ap : Z)
  | ODel (i : Z)
  | OOpen (i ch : Z)
  | OClose (i ch : Z)
  | OSend (elt : SessionElement).

Definition run_op {L} {HL : RtpLib L} (o : sess_op) : CM (Sess L) unit :=
  match o with
  | OAdd ip vp ap => _ ← add_client ip vp ap; mret tt
  | ODel i => _ ← del_client i; mret tt
  | OOpen i ch => _ ← open_channel i ch; mret tt
  | OClose i ch => _ ← close_channel i ch; mret tt
  | OSend elt => _ ← send_to_client elt; mret tt
  end.

Section Reachable.
Context {L : Type} {HL : RtpLib L} {HLL : RtpLibLaws L} (n : Z) (Hn : n = 4 ∨ n = 8).
Implicit Types (s : Sess L).

Definition op_ok (bufs : list (list Z)) (o : sess_op) : Prop :=
  match o with
  | OAdd _ vp ap => 0 < vp ∧ 0 < ap
  | ODel i => 0 ≤ i < MAX_CLIENT_NUM
  | OOpen i ch | OClose i ch => 0 ≤ i < MAX_CLIENT_NUM ∧ 0 ≤ ch
  | OSend elt => 0 ≤ e_chId elt < CHS_PER_SESSION * n ∧
      ∃ buf, aget bufs (e_buffer elt) = Some buf ∧ sendable buf (e_len elt)
  end.

Lemma run_op_ret o s :
  sess_inv n s → op_ok (frame_buf s) o → ∃ s', run_op o s = Ret tt s' ∧ sess_inv n s' ∧ frame_buf s' = frame_buf s.
Proof.
  intros Hi Ho. assert (Hc : ∀ i, 0 ≤ i < MAX_CLIENT_NUM → ∃ c, aget (g_clients s) i = Some c).
  { intros i Hr. apply aget_is_Some. by rewrite (si_len _ _ Hi). }
  destruct o as [ip vp ap|i|i ch|i ch|elt]; cbn in Ho |- *.
  - destruct (add_client_ret n Hn s ip vp ap) as (r & s' & E & Hi' & Hf & _); [done|tauto|tauto|].
    rewrite (bind_ret _ _ _ _ _ E). by eauto.
  - destruct (Hc i Ho) as [c Hci]. pose proof (del_client_ret n Hn s i c Hi Hci) as Hd.
    destruct (active c); [destruct Hd as (s' & E & Hi' & Hf & _)|rename Hd into E];
      rewrite (bind_ret _ _ _ _ _ E); by eauto.
  - destruct Ho as [Hr Hch]. destruct (Hc i Hr) as [c Hci].
    destruct (set_channel_ret n Hn s i ch TRUE c Hi Hci Hch) as (fl & _ & E & Hi'); [by left|].
    rewrite (bind_ret _ _ _ _ _ E). eexists. split_and!; [done|done|by destruct (active c)].
  - destruct Ho as [Hr Hch]. destruct (Hc i Hr) as [c Hci].
    destruct (set_channel_ret n Hn s i ch FALSE c Hi Hci Hch) as (fl & _ & E & Hi'); [by right|].
    rewrite (bind_ret _ _ _ _ _ E). eexists. split_and!; [done|done|by destruct (active c)].
  - destruct Ho as (Hch & buf & Hb & Hl).
    destruct (send_to_client_ret n Hn s elt buf Hi) as (s' & E & Hi' & Hf & _); [by split|].
    rewrite (bind_ret _ _ _ _ _ E). by eauto.
Qed.

End Reachable.

Section Start.
Context {L : Type} {HL : RtpLib L} {HLL : RtpLibLaws L} {HE : EltLayout} (n : Z) (Hn : n = 4 ∨ n = 8).

(** What the thread finds when it starts: zeroed globals of the right sizes, the
    session table initialised by [rtp_init], and the channel count set by main. *)
Record before_init (t : SessTsk L) : Prop := {
  bi_clients : zlen (g_clients (t_sess t)) = MAX_CLIENT_NUM;
  bi_client : Forall (fun c => zlen (flag c) = MAX_VIDEO_CHANNEL ∧ Forall flag_ok (flag c))
                (g_clients (t_sess t));
  bi_rtp : mgr_wf (s_rtp (t_sess t));
  bi_free : used (g_rtpSessionMgr (s_rtp (t_sess t))) = [];
  bi_chs : videoChannels (s_gbl (t_sess t)) `quot` CHS_PER_SESSION = n;
  bi_fifos : zlen (g_NetSessionFifos t) = GROUPS
}.

Definition reset (c : ClientObj) : ClientObj := wipe_ids (c <| clientID := -1 |>).

Lemma reset_loop (t : SessTsk L) (k : nat) :
  (k ≤ length (g_clients (t_sess t)))%nat →
  for_each (seqZ 0 (Z.of_nat k)) (fun i =>
    _ ← on_sess (upd_client i (fun c => Some (c <| clientID := -1 |>)));
    on_sess (upd_client i (fun c => Some (wipe_ids c)))) t =
  Ret tt (t <| t_sess := (t_sess t) <| g_clients ::=
            fun cs => map reset (take k cs) ++ drop k cs |> |>).
Proof.
  induction k as [|k IH]; intros Hk.
  { cbn. rewrite drop_0. by destruct t as [[] ? ?]. }
  rewrite seqZ_S, for_each_app, (bind_ret _ _ _ _ _ (IH ltac:(lia))). clear IH.
  assert (is_Some (g_clients (t_sess t) !! k)) as [c Hc] by (apply lookup_lt_is_Some; lia).
  set (cs := g_clients (t_sess t)) in *. rewrite Z.add_0_l.
  assert (Hget : ∀ c', aget (map reset (take k cs) ++ c' :: drop (S k) cs) (Z.of_nat k) = Some c').
  { intros c'. unfold aget. rewrite decide_True, Nat2Z.id by lia.
    apply list_lookup_middle. rewrite length_map, length_take. lia. }
  assert (Hset : ∀ c1 c2, <[k := c2]> (map reset (take k cs) ++ c1 :: drop (S k) cs) =
                   map reset (take k cs) ++ c2 :: drop (S k) cs).
  { intros c1 c2. rewrite insert_app_r_alt; rewrite length_map, length_take; [|lia].
    by replace (k - k `min` length cs)%nat with 0%nat by lia. }
  cbn. unfold on_sess, zoom, upd_client, mbind, CM_bind. cbn. fold cs. rewrite (drop_S cs c k Hc).
  rewrite Hget. cbn. rewrite Nat2Z.id, Hset, Hget. cbn. rewrite Hset. cbn.
  rewrite (take_S_r cs k c) by done. rewrite map_app, <- app_assoc. by destruct t as [[] ? ?].
Qed.

Lemma open_loop (t : SessTsk L) (pipe_ret : Z → Z) (k : nat) :
  (∀ i, pipe_ret i = 0) → Z.of_nat k ≤ zlen (g_NetSessionFifos t) →
  ∃ fs, for_until (seqZ 0 (Z.of_nat k)) (fun i =>
      x ← on_fifo i (FifoUtil_open (pipe_ret i) msg_size);
      mret (if x =? FIFOUTIL_FAILURE then Some (-1) else None)) t =
    Ret None (t <| g_NetSessionFifos := fs |>) ∧ zlen fs = zlen (g_NetSessionFifos t) ∧
    ∀ i, 0 ≤ i < Z.of_nat k → ∃ f, aget fs i = Some f ∧ fifo_holds f ([] : list SessionElement).
Proof.
  intros Hp. induction k as [|k IH]; intros Hk.
  { exists (g_NetSessionFifos t). split_and!; [by destruct t|done|intros; lia]. }
  destruct IH as (fs & E & Hl & Hf); [lia|].
  assert (is_Some (aget fs (Z.of_nat k))) as [f Hfk] by (apply aget_is_Some; lia).
  rewrite seqZ_S, (for_until_snoc _ _ _ _ _ E), Z.add_0_l.
  unfold on_fifo. cbn. rewrite Hp. unfold mbind, CM_bind. cbn. rewrite Hfk. cbn.
  eexists. split; [done|]. split; [by rewrite zlen_insert|].
  intros i Hi. rewrite aget_insert by lia. destruct (decide (i = Z.of_nat k)) as [->|].
  - eexists. split; [done|]. by split.
  - apply Hf. lia.
Qed.

Lemma owned_all_reset cs : owned_all n (map reset cs) = [].
Proof. unfold owned_all. induction cs as [|c cs IH]; [done|]. cbn. by rewrite IH. Qed.

Lemma session_ops_run t pipe_ret ops :
  before_init t → (∀ i, pipe_ret i = 0) →
  Forall (op_ok n (frame_buf (t_sess t))) ops →
  ∃ t', init_session_tsk pipe_ret t = Ret 0 t' ∧
    (∀ i, 0 ≤ i < n → ∃ f, aget (g_NetSessionFifos t') i = Some f ∧ fifo_holds f ([] : list SessionElement)) ∧
    active_count (g_clients (t_sess t')) = 0 ∧
  ∃ s', for_each ops run_op (t_sess t') = Ret tt s' ∧ sess_inv n s' ∧
    zlen (used (g_rtpSessionMgr (s_rtp s'))) = 2 * n * active_count (g_clients s') ∧
    active_count (g_clients s') ≤ 16 / n.
Proof.
  intros [Hcl Hok Hrtp Hfree Hchs Hff] Hp Hops.
  pose proof (reset_loop t 10) as E1. set (t1 := t <| t_sess := _ |>) in E1.
  assert (Hlen : length (g_clients (t_sess t)) = 10%nat) by (unfold zlen, MAX_CLIENT_NUM in *; lia).
  specialize (E1 ltac:(lia)).
  assert (Hcs1 : g_clients (t_sess t1) = map reset (g_clients (t_sess t))).
  { unfold t1. cbn. rewrite <- Hlen, take_ge, drop_ge by lia. by rewrite app_nil_r. }
  destruct (open_loop t1 pipe_ret (Z.to_nat n)) as (fs & E2 & Hl2 & Hf2); [done|cbn; rewrite Hff; change GROUPS with 8; lia|].
  rewrite Z2Nat.id in E2, Hf2 by lia.
  assert (∃ f, init_session_tsk pipe_ret t = Ret 0 (t1 <| g_NetSessionFifos := fs |> <| g_NetBackSessionFifo := f |>))
    as [f E].
  { unfold init_session_tsk. change (Z.of_nat 10) with MAX_CLIENT_NUM in E1.
    rewrite (bind_ret _ _ _ _ _ E1).
    assert (Eg : on_sess groups t1 = Ret n t1).
    { unfold on_sess, zoom. rewrite groups_ret. unfold t1. cbn. by rewrite Hchs. }
    rewrite (bind_ret _ _ _ _ _ Eg), (bind_ret _ _ _ _ _ E2).
    unfold on_back. rewrite Hp. by eexists. }
  eexists. split; [exact E|]. cbn [g_NetSessionFifos update].
  assert (Hi : sess_inv n (t_sess t1)).
  { split; rewrite ?Hcs1.
    - done.
    - unfold zlen. by rewrite length_map.
    - intros i c Hc%aget_elem_of. apply list_elem_of_fmap in Hc as (c0 & -> & Hc0).
      assert (zlen (flag c0) = MAX_VIDEO_CHANNEL ∧ Forall flag_ok (flag c0)) as [? ?]
        by (rewrite Forall_forall in Hok; by apply Hok).
      split; try done. by left.
    - done.
    - rewrite owned_all_reset. cbn. by rewrite Hfree.
    - intros i c Hc%aget_elem_of. by apply list_elem_of_fmap in Hc as (c0 & -> & _). }
  split; [exact Hf2|]. split.
  { cbn [t_sess update]. pose proof (inv_count n Hn (t_sess t1) Hi) as Hu.
    cbn in Hu. rewrite Hfree in Hu. change (zlen (@nil Z)) with 0 in Hu. cbn. nia. }
  destruct (for_each_inv (fun s => sess_inv n s ∧ frame_buf s = frame_buf (t_sess t)) ops run_op (t_sess t1))
    as (s' & Es & Hs' & _).
  - intros o s Ho [Hs Hfb]. rewrite Forall_forall in Hops. specialize (Hops o Ho). rewrite <- Hfb in Hops.
    destruct (run_op_ret n Hn o s Hs Hops) as (s' & Es & Hs' & Hfb').
    exists s'. split_and!; [done|done|congruence].
  - done.
  - exists s'. pose proof (inv_count n Hn s' Hs') as Hc. pose proof (used_bound n Hn s' Hs') as Hb.
    split_and!; [done|done|done|]. unfold MAX_SESSION_NUM in Hb.
    destruct (cap_cases n Hn) as [[E1' ->]|[E1' ->]]; nia.
Qed.

(** C2: when every pipe opens, the initialisation of the session thread returns
    0 with all client slots free, the client table consistent, and an empty FIFO
    for every channel group; from there every sequence of adding, deleting,
    opening, closing and sending with admitted arguments, for 16 (or 32)
    channels, returns without a fault and keeps the table consistent: the
    sessions in use are those of the active clients, so none leaks and none is
    shared, and at most 16 / groups clients are active. *)
Theorem session_ops_safe t pipe_ret ops :
  before_init t → (∀ i, pipe_ret i = 0) →
  Forall (op_ok n (frame_buf (t_sess t))) ops →
  ∃ t', init_session_tsk pipe_ret t = Ret 0 t' ∧
    (∀ i, 0 ≤ i < n → ∃ f, aget (g_NetSessionFifos t') i = Some f ∧ fifo_holds f ([] : list SessionElement)) ∧
    active_count (g_clients (t_sess t')) = 0 ∧
  ∃ s', for_each ops run_op (t_sess t') = Ret tt s' ∧ sess_inv n s' ∧
    zlen (used (g_rtpSessionMgr (s_rtp s'))) = 2 * n * active_count (g_clients s') ∧
    active_count (g_clients s') ≤ 16 / n.
Proof. apply session_ops_run. Qed.

End Start.

(** * The loop of a sub-session thread *)

Section Loop.
Context {L : Type} {HL : RtpLib L} {HLL : RtpLibLaws L} {HE : EltLayout} (n : Z) (Hn : n = 4 ∨ n = 8).
Implicit Types (t : SessTsk L) (es : list SessionElement).

(** An element the encoder thread puts: no flush, and its buffer holds its bytes. *)
Definition put_ok t (e : SessionElement) : Prop :=
  e_command e ≠ CMD_SESSION_FLUSH ∧ ∃ buf, elt_ok n (t_sess t) e buf.

Lemma turn_get t id f e es :
  quit (s_gbl (t_sess t)) = 0 → aget (g_NetSessionFifos t) id = Some f → fifo_holds f (e :: es) →
  ∃ f', fifo_holds f' es ∧
  sub_session_turn id t =
    (if e_command e =? CMD_SESSION_FLUSH then mret true
     else _ ← on_sess (send_to_client e); mret false) (t <| g_NetSessionFifos ::= <[Z.to_nat id := f']> |>).
Proof.
  intros Hq Hf Hh. destruct (get_msg_ok f es e Hh) as (f' & E & Hh' & _). exists f'. split; [done|].
  unfold sub_session_turn.
  rewrite (bind_ret _ _ _ 0 t) by (unfold on_sess, on_gbl, zoom, gblGetQuit, gets; rewrite Hq; by destruct t as [[] ? ?]).
  cbn [Z.eqb negb]. rewrite (bind_ret _ _ _ (FIFOUTIL_SUCCESS, Some e) (t <| g_NetSessionFifos ::= <[Z.to_nat id := f']> |>)).
  - reflexivity.
  - unfold on_fifo. by rewrite Hf, E.
Qed.

Lemma loop_delivers es tail (k : nat) id : ∀ t f,
  sess_inv n (t_sess t) → quit (s_gbl (t_sess t)) = 0 →
  aget (g_NetSessionFifos t) id = Some f → fifo_holds f (es ++ tail) → Forall (put_ok t) es →
  ∃ s' f', for_each es (fun e => _ ← send_to_client e; mret tt) (t_sess t) = Ret tt s' ∧
    quit (s_gbl s') = 0 ∧ fifo_holds f' tail ∧
    subSessionThrFxn (length es + k) id t =
    subSessionThrFxn k id (t <| t_sess := s' |> <| g_NetSessionFifos ::= <[Z.to_nat id := f']> |>).
Proof.
  induction es as [|e es IH]; intros t f Hi Hq Hf Hh Hok.
  { exists (t_sess t), f. split_and!; [done|done|done|]. cbn. f_equal.
    rewrite list_insert_id; [by destruct t|]. unfold aget in Hf. by destruct (decide (0 ≤ id)). }
  apply Forall_cons in Hok as [(Hnf & buf & He) Hok]. cbn in Hh.
  destruct (turn_get t id f e (es ++ tail) Hq Hf Hh) as (f1 & Hh1 & E1).
  pose proof (aget_Some_range _ _ _ Hf) as Hr.
  destruct (send_to_client_ret n Hn (t_sess t) e buf Hi He) as (s1 & Es & Hi1 & Hfb & Hg & _ & _ & _).
  set (t1 := t <| t_sess := s1 |> <| g_NetSessionFifos ::= <[Z.to_nat id := f1]> |>).
  destruct (IH t1 f1) as (s' & f' & Ef & Hq' & Hh' & El).
  - done.
  - unfold t1. cbn. by rewrite Hg.
  - unfold t1. cbn. by apply aget_insert_eq.
  - done.
  - eapply Forall_impl; [exact Hok|]. intros e' (Hn' & buf' & [Hc Hb Hl]).
    split; [done|]. exists buf'. split; [done| |done]. unfold t1. cbn. by rewrite Hfb.
  - exists s', f'. split_and!; [|done|done|].
    + cbn. erewrite bind_ret by (by rewrite (bind_ret _ _ _ _ _ Es)). exact Ef.
    + cbn [length Nat.add subSessionThrFxn]. rewrite (bind_ret _ _ _ false t1).
      * rewrite El. unfold t1. cbn. by rewrite list_insert_insert_eq.
      * rewrite E1. destruct (e_command e =? CMD_SESSION_FLUSH) eqn:Ec; [lia|].
        unfold on_sess, zoom, mbind, CM_bind. cbn. by rewrite Es.
Qed.

(** The thread of a channel group sends the elements of its FIFO to the
    clients one by one in the order they were put; at a flush element it ends,
    having delivered everything put before it, and on an empty FIFO it sleeps
    (it does not look at [quit] again until an element comes). *)
Theorem sub_session_drains es id t f :
  sess_inv n (t_sess t) → quit (s_gbl (t_sess t)) = 0 →
  aget (g_NetSessionFifos t) id = Some f → Forall (put_ok t) es →
  ∃ s', for_each es (fun e => _ ← send_to_client e; mret tt) (t_sess t) = Ret tt s' ∧
  (∀ e, e_command e = CMD_SESSION_FLUSH → fifo_holds f (es ++ [e]) →
     ∃ t', subSessionThrFxn (length es + 1) id t = Ret true t' ∧ t_sess t' = s') ∧
  (fifo_holds f es →
     ∃ t', subSessionThrFxn (length es + 1) id t = Blk t' ∧ t_sess t' = s').
Proof.
  intros Hi Hq Hf Hok.
  assert (Hs : ∃ s', for_each es (fun e => _ ← send_to_client e; mret tt) (t_sess t) = Ret tt s').
  { destruct (for_each_inv (fun s => sess_inv n s ∧ frame_buf s = frame_buf (t_sess t)) es
      (fun e => _ ← send_to_client e; mret tt) (t_sess t)) as (s' & E & _); [|done|by exists s'].
    intros e s He [Hs Hfb]. rewrite Forall_forall in Hok.
    destruct (Hok e He) as (_ & buf & [Hc Hb Hl]).
    destruct (send_to_client_ret n Hn s e buf Hs) as (s' & E & Hs' & Hfb' & _);
      [split; [done|by rewrite Hfb|done]|].
    exists s'. rewrite (bind_ret _ _ _ _ _ E). split_and!; [done|done|congruence]. }
  destruct Hs as [s' Hs]. exists s'. split_and!; [done|..].
  - intros e He Hh. destruct (loop_delivers es [e] 1 id t f Hi Hq Hf Hh Hok) as (s2 & f' & Es & Hq' & Hh' & ->).
    assert (s2 = s') as -> by congruence.
    pose proof (aget_Some_range _ _ _ Hf) as Hr.
    set (t1 := t <| t_sess := s' |> <| g_NetSessionFifos ::= _ |>).
    destruct (turn_get t1 id f' e []) as (f2 & _ & E2); [done|by apply aget_insert_eq|done|].
    rewrite He in E2. cbn in E2. cbn [subSessionThrFxn]. rewrite (bind_ret _ _ _ _ _ E2). by eexists.
  - intros Hh. rewrite <- (app_nil_r es) in Hh.
    destruct (loop_delivers es [] 1 id t f Hi Hq Hf Hh Hok) as (s2 & f' & Es & Hq' & Hh' & ->).
    assert (s2 = s') as -> by congruence.
    pose proof (aget_Some_range _ _ _ Hf) as Hr.
    cbn [subSessionThrFxn]. unfold sub_session_turn.
    set (t1 := t <| t_sess := s' |> <| g_NetSessionFifos ::= _ |>).
    assert (Hq1 : on_sess (on_gbl gblGetQuit) t1 = Ret 0 t1).
    { unfold on_sess, on_gbl, zoom, gblGetQuit, gets, t1. cbn. rewrite Hq'. by destruct s'. }
    assert (Hb : on_fifo id get_msg t1 = Blk (t1 <| g_NetSessionFifos ::= <[Z.to_nat id := f']> |>)).
    { unfold on_fifo, t1. cbn. rewrite aget_insert_eq by done. by rewrite get_msg_empty. }
    unfold mbind, CM_bind. rewrite Hq1. cbn. rewrite Hb. by eexists.
Qed.

End Loop.

(** * A deletion that damages another client

    The memsets of [del_client] use the loop counter as the slot: with [n] groups
    they wipe the ids of client [n]. With 16 channels that slot is never
    reached; with 8 (the other setting in main) or 12 it is. *)

Section Wipe.
Context {L : Type} {HL : RtpLib L} {HLL : RtpLibLaws L}.
Implicit Types (s : Sess L).

#[local] Abbreviation table s := (g_rtpSessionMgr (s_rtp s)).

(** Deleting an active client of a consistent table wipes the session ids of
    the client in slot [n] (the number of groups), another active client, while
    its sessions stay in use: it stays active, but nothing is sent to it any more
    and its sessions can no longer be removed. *)
Theorem del_client_wipes_other n s i c d :
  0 < n ≤ GROUPS → mgr_wf (s_rtp s) → zlen (g_clients s) = MAX_CLIENT_NUM →
  (∀ j c, aget (g_clients s) j = Some c → client_ok j c) →
  videoChannels (s_gbl s) `quot` CHS_PER_SESSION = n →
  owned_all n (g_clients s) ≡ₚ used (table s) →
  aget (g_clients s) i = Some c → active c = true → i ≠ n →
  aget (g_clients s) n = Some d → active d = true →
  ∃ s', del_client i s = Ret 0 s' ∧ aget (g_clients s') n = Some (wipe_ids d) ∧
    active (wipe_ids d) = true ∧ (∀ x, x ∈ owned n d → x ∈ used (table s')) ∧
    ∀ x, x ∈ owned n (wipe_ids d) → x = -1.
Proof.
  intros Hn Hwf Hlen Hok Hchs How Hc Ha Hne Hd Had.
  pose proof (aget_Some_range _ _ _ Hc) as Hr. pose proof (aget_Some_range _ _ _ Hd) as Hrn.
  unfold del_client. rewrite (bind_ret _ _ _ _ _ (get_client_ret s i c Hc)).
  unfold active in Ha. destruct (clientID c =? -1) eqn:Hid; [done|].
  rewrite (bind_ret _ _ _ _ _ (groups_ret s)), Hchs.
  set (c0 := c <| clientID := -1 |>). set (cs := <[Z.to_nat i := c0]> (g_clients s)).
  assert (Hu : used (table s) ≡ₚ owned n c ++ owned_all n cs).
  { rewrite <- How. unfold cs. by rewrite owned_split. }
  destruct (del_loop n s i c (Z.to_nat n) (owned_all n cs) ltac:(lia) 0 (s_rtp s))
    as (r & E & Hwf' & Hur); [done|by apply Hok|lia|lia|done| |].
  { rewrite Hu. unfold owned. rewrite Hid. by rewrite <- app_assoc. }
  rewrite Z2Nat.id in E by lia. replace (s <| s_rtp := s_rtp s |>) with s in E by by destruct s.
  rewrite (bind_ret _ _ _ _ _ E).
  rewrite (bind_ret _ _ _ tt (s <| s_rtp := r |> <| g_clients ::= <[Z.to_nat i := c0]> |>))
    by by eapply upd_client_ret.
  set (s1 := s <| s_rtp := r |> <| g_clients ::= <[Z.to_nat i := c0]> |>).
  assert (Hd1 : aget (g_clients s1) n = Some d) by (unfold s1; cbn; by rewrite aget_insert_ne by lia).
  replace (Z.max 0 n) with n by lia.
  rewrite (bind_ret _ _ _ tt (s1 <| g_clients ::= <[Z.to_nat n := wipe_ids d]> |>))
    by by eapply upd_client_ret.
  eexists. split; [done|]. split_and!.
  - apply aget_insert_eq. unfold s1. cbn. by rewrite zlen_insert.
  - done.
  - intros x Hx. cbn. rewrite Hur. apply list_elem_of_bind. exists d. split; [done|].
    by eapply aget_elem_of.
  - intros x. unfold owned, wipe_ids. cbn. destruct (clientID d =? -1); [by intros ?%elem_of_nil|].
    intros [Hx|Hx]%elem_of_app; apply list_elem_of_lookup in Hx as [k Hk];
      apply lookup_take_Some in Hk as [Hk _]; by apply lookup_replicate in Hk as [-> _].
Qed.

End Wipe.

(** * Concrete states *)

(** One cell per field. *)
#[local] Instance elt_cells : EltLayout.
Proof.
  refine {|
    msg_size := 5;
    enc e := [e_command e; e_chId e; e_dataType e; e_buffer e; e_len e];
    dec l := match l with [a; b; c; d; e] => Some (mkElt a b c d e) | _ => None end
  |}; [by unfold PIPE_BUF|done|by intros []].
Defined.

Definition client0 : ClientObj :=
  mkClient (-1) (replicate 32 0) (replicate 8 (-1)) (replicate 8 (-1)) 0.
Definition sess0 (chs : Z) : Sess CallLog :=
  mkSess (replicate 10 client0) (gbl_init <| videoChannels := chs |>) mgr0 [[7; 8; 9]].
Definition tsk0 (chs : Z) : SessTsk CallLog :=
  mkTsk (sess0 chs) (replicate 8 (mkFifo 0 false false [])) (mkFifo 0 false false []).

Lemma client0_ok i : client_ok i client0.
Proof. split; try done; [by left|]. apply Forall_replicate. by right. Qed.

Lemma sess0_inv chs n : chs `quot` 4 = n → sess_inv n (sess0 chs).
Proof.
  intros Hn. assert (Hall : ∀ i c, aget (g_clients (sess0 chs)) i = Some c → c = client0).
  { intros i c Hc%aget_elem_of. by apply elem_of_replicate in Hc as [? _]. }
  split; try done.
  - apply mgr0_wf.
  - intros i c ->%Hall. apply client0_ok.
  - by intros i c ->%Hall.
Qed.

Lemma add_client_spec_witness :
  ∃ r s', add_client [1] 7000 8000 (sess0 16) = Ret r s' ∧ sess_inv 4 s' ∧ r = 0.
Proof.
  destruct (add_client_spec 4 ltac:(by left) (sess0 16) [1] 7000 8000) as (r & s' & E & Hi & _ & Hp);
    [by apply sess0_inv|lia|lia|].
  exists r, s'. split_and!; [exact E|exact Hi|]. vm_compute in E. congruence.
Defined.

(** The state after one client is added. *)
Definition sess1 : Sess CallLog := Eval vm_compute in
  match add_client [1] 7000 8000 (sess0 16) with Ret _ s => s | _ => sess0 16 end.

Definition nth_client (s : Sess CallLog) (i : nat) : ClientObj := default client0 (g_clients s !! i).

Lemma sess1_inv : sess_inv 4 sess1.
Proof.
  destruct (add_client_ret 4 ltac:(by left) (sess0 16) [1] 7000 8000) as (r & s' & E & Hi & _);
    [by apply sess0_inv|lia|lia|].
  assert (E1 : add_client [1] 7000 8000 (sess0 16) = Ret 0 sess1) by (vm_compute; reflexivity).
  rewrite E1 in E. by injection E as _ <-.
Qed.


Lemma send_to_client_spec_witness :
  let s := match open_channel 0 5 sess1 with Ret _ s => s | _ => sess1 end in
  ∃ s', send_to_client (mkElt 0 5 SESSION_TYPE_VIDEO 0 2) s = Ret 0 s' ∧
    sent (rtplib (s_rtp s')) = [(1, [7; 8], 0)].
Proof.
  intros s. assert (Hi : sess_inv 4 s).
  { destruct (run_op_ret 4 ltac:(by left) (OOpen 0 5) sess1 sess1_inv) as (s2 & E & Hs & _);
      [by split; [split|]|]. cbn in E. unfold s. unfold mbind, CM_bind in E.
    destruct (open_channel 0 5 sess1) as [a s3| |]; [|done|done].
    by assert (s3 = s2) as -> by (unfold mret, CM_ret in E; congruence). }
  destruct (send_to_client_spec 4 ltac:(by left) s (mkElt 0 5 SESSION_TYPE_VIDEO 0 2) [7; 8; 9])
    as (s' & E & _ & _ & _ & _ & _ & Hs); [exact Hi|split; cbn; unfold CHS_PER_SESSION, zlen; cbn; (lia || done)|].
  exists s'. split; [exact E|]. rewrite Hs. vm_compute. reflexivity.
Defined.

Lemma session_ops_safe_witness :
  ∃ t', init_session_tsk (fun _ => 0) (tsk0 16) = Ret 0 t' ∧
  ∃ s', for_each [OAdd [1] 7000 8000; OOpen 0 40; OAdd [2] 7000 8000; ODel 0;
                  OSend (mkElt 0 3 SESSION_TYPE_AUDIO 0 3)] run_op (t_sess t') = Ret tt s' ∧
    sess_inv 4 s'.
Proof.
  edestruct (session_ops_safe 4 ltac:(by left) (tsk0 16) (fun _ => 0)
    [OAdd [1] 7000 8000; OOpen 0 40; OAdd [2] 7000 8000; ODel 0; OSend (mkElt 0 3 SESSION_TYPE_AUDIO 0 3)])
    as (t' & E & _ & _ & s' & Es & Hi & _).
  - split; try done; [|apply mgr0_wf].
    apply Forall_replicate. split; [done|]. apply Forall_replicate. by right.
  - done.
  - repeat (apply Forall_cons; split); [split; lia|split; unfold MAX_CLIENT_NUM; lia|split; lia|
      unfold op_ok, MAX_CLIENT_NUM; lia| |done].
    split; [cbn; unfold CHS_PER_SESSION; lia|]. exists [7; 8; 9]. split; [done|]. by split.
  - exists t'. split; [exact E|]. exists s'. exact (conj Es Hi).
Defined.

Definition loop_tsk : SessTsk CallLog :=
  mkTsk sess1 [mkFifo 5 true true (enc (mkElt 0 3 SESSION_TYPE_VIDEO 0 3) ++ enc (mkElt (-1) 0 0 0 0))]
    (mkFifo 0 false false []).

Lemma sub_session_drains_witness :
  ∃ t', subSessionThrFxn 2 0 loop_tsk = Ret true t'.
Proof.
  destruct (sub_session_drains 4 ltac:(by left) [mkElt 0 3 SESSION_TYPE_VIDEO 0 3] 0 loop_tsk
    (mkFifo 5 true true (enc (mkElt 0 3 SESSION_TYPE_VIDEO 0 3) ++ enc (mkElt (-1) 0 0 0 0))))
    as (s' & _ & Hf & _); [apply sess1_inv|by vm_compute|done| |].
  - apply Forall_cons; split; [|done]. split; [done|]. exists [7; 8; 9].
    split; [cbn; unfold CHS_PER_SESSION; lia|by vm_compute|by split].
  - destruct (Hf (mkElt (-1) 0 0 0 0)) as (t' & E & _); [done| |exists t'; exact E].
    split; try done.
Defined.

(** Three clients of an 8-channel device; the first is deleted. *)
Definition sess8 : Sess CallLog := Eval vm_compute in
  match (_ ← add_client [1] 7000 8000; _ ← add_client [2] 7000 8000; add_client [3] 7000 8000) (sess0 8)
  with Ret _ s => s | _ => sess0 8 end.

Lemma sess8_clients j c : aget (g_clients sess8) j = Some c → client_ok j c.
Proof.
  intros Hc. pose proof (aget_Some_range _ _ _ Hc) as Hr. change (zlen (g_clients sess8)) with 10 in Hr.
  assert (j = 0 ∨ j = 1 ∨ j = 2 ∨ j = 3 ∨ j = 4 ∨ j = 5 ∨ j = 6 ∨ j = 7 ∨ j = 8 ∨ j = 9) as Hj by lia.
  destruct_or! Hj; subst j; vm_compute in Hc; injection Hc as <-;
    (split; [first [by left|by right]|done| |done|done]);
    repeat (apply Forall_cons; split; [by right|]); done.
Qed.

Lemma del_client_wipes_other_witness :
  ∃ s', del_client 0 sess8 = Ret 0 s' ∧ aget (g_clients s') 2 = Some (wipe_ids (nth_client sess8 2)) ∧
    active (wipe_ids (nth_client sess8 2)) = true.
Proof.
  destruct (del_client_wipes_other 2 sess8 0 (nth_client sess8 0) (nth_client sess8 2))
    as (s' & E & Hw & Hact & _).
  - by change GROUPS with 8.
  - apply mgr_check_wf. vm_compute. reflexivity.
  - done.
  - apply sess8_clients.
  - done.
  - vm_compute. solve_Permutation.
  - vm_compute. reflexivity.
  - done.
  - done.
  - vm_compute. reflexivity.
  - done.
  - exists s'. exact (conj E (conj Hw Hact)).
Defined.
