(* ===== verification/RtpStack.v ===== *)
(** * The RTP send module on the stack ([utils/com/src/rtpsend.c] on [utils/ortp])

    The interface [RtpLib], which RtpSend.v uses, is implemented by the stack of the files
    Sched.v, OrtpSend.v and OrtpInit.v. With it the functions of [rtpsend.c] run on the
    sessions, the scheduler and the blocks of the stack, down to the datagrams. The stack
    keeps what the module relies on ([stack_laws]), so all that is proved of the module and
    of the client table above it holds on the stack. *)

From Stdlib Require Import Strings.String Strings.Ascii Floats.SpecFloat.
From S2P Require Import Prelude Floating Gbl StrUtils Blocks RtpMod Payload OrtpSession Sched OrtpEnv Rtcp RtcpParse OrtpSend OrtpStream OrtpInit OrtpLife SenderHeap OrtpSender Fifo RtpSend Session.

(** The C string of some bytes. *)
Definition string_of (bs : list Z) : string := string_of_list_ascii (map (fun b => ascii_of_nat (Z.to_nat b)) bs).

Section Stack.
Context `{System}.

(** The address of the buffers of the application, the fuel of the library's loops, and the
    spurious wake-ups of the senders. *)
Context (base : Z) (fuel : nat) (spur : Env → option nat).

(** The stack as the interface names it: [int] for [bool_t], bytes for a string, a buffer that
    must have the bytes that are sent, and a sender that sleeps until the scheduler wakes it,
    or nobody does. *)
#[export] Instance stack_lib : RtpLib Env := {|
  RtpSend.ortp_init := OrtpInit.ortp_init;
  RtpSend.ortp_scheduler_init := wd Sched.ortp_scheduler_init;
  RtpSend.ortp_exit := wd Sched.ortp_exit;
  RtpSend.rtp_session_new := OrtpInit.rtp_session_new;
  RtpSend.rtp_session_set_scheduling_mode p yesno := wd (Sched.rtp_session_set_scheduling_mode p (negb (yesno =? 0)));
  RtpSend.rtp_session_set_blocking_mode p yesno := OrtpEnv.rtp_session_set_blocking_mode p (negb (yesno =? 0));
  RtpSend.rtp_session_set_remote_addr p addr port := OrtpInit.rtp_session_set_remote_addr (S fuel) p (string_of addr) port;
  RtpSend.rtp_session_set_ssrc p x := OrtpEnv.rtp_session_set_ssrc p x;
  RtpSend.rtp_session_set_payload_type p pt := OrtpEnv.rtp_session_set_payload_type p pt;
  RtpSend.rtp_session_send_with_ts p buffer len ts :=
    if (len <? 0) || (zlen buffer <? len) then fault_with OutOfBounds
    else OrtpSend.rtp_session_send_with_ts (S fuel) (sleeping spur p) p base (take (Z.to_nat len) buffer) ts;
  RtpSend.rtp_session_destroy p := OrtpInit.rtp_session_destroy p
|}.

(** * The stack keeps the laws *)

Hypothesis Hsock : sockets_work.
Hypothesis Hnet : silent_network.
Hypothesis Hbase : base ≠ 0.

(** What was on the heap before the first session was made. *)
Context (m0 : Mem).

Definition senders (e : Env) : Prop := ∃ cs, pool m0 cs e.
Definition made (e : Env) (q : Z) : Prop := is_Some (sessions (world e) !! q).

Lemma pool_room cs e X : pool m0 cs e → (∀ q, made e q → q ∈ X) → zlen cs ≤ zlen X.
Proof.
  intros Hpo HX. pose proof (so_nodup _ _ (po_ok _ _ _ Hpo)) as Hnd.
  assert (Hsub : lv_addr <$> cs ⊆+ X) by (apply NoDup_submseteq; [exact Hnd|]; intros q Hq; by apply HX, (po_dom _ _ _ Hpo)).
  apply submseteq_length in Hsub. rewrite length_fmap in Hsub. unfold zlen. lia.
Qed.
Lemma pool_find cs e q : pool m0 cs e → made e q → ∃ cs1 c cs2, cs = cs1 ++ c :: cs2 ∧ lv_addr c = q.
Proof.
  intros Hpo Hq. apply (po_dom _ _ _ Hpo), list_elem_of_fmap in Hq as (c & -> & Hc). apply list_elem_of_split in Hc as (cs1 & cs2 & ->).
  by exists cs1, c, cs2.
Qed.

Lemma law_exit_stack e : senders e → ∃ e', wd Sched.ortp_exit e = Ret tt e' ∧ ∀ q, made e' q ↔ made e q.
Proof.
  intros (cs & Hpo). unfold wd, zoom, Sched.ortp_exit, made. pose proof (po_up _ _ _ Hpo) as Hup.
  destruct e as [he pe [sc ss sg os si] gs o cl ca ini]. cbn in *. subst os. cbn. eexists. split; [reflexivity|]. done.
Qed.

(** The calls that open a session, given what each of them returns. *)
Lemma open_steps addr port e a E1 E2 E3 E4 :
  OrtpInit.rtp_session_new RTP_SESSION_SENDONLY e = Ret a E1 → wd (Sched.rtp_session_set_scheduling_mode a true) E1 = Ret tt E2 →
  OrtpEnv.rtp_session_set_blocking_mode a true E2 = Ret tt E3 → OrtpInit.rtp_session_set_remote_addr (S fuel) a (string_of addr) port E3 = Ret 0 E4 →
  open_session addr port None e = Ret a E4.
Proof.
  intros N1 N2 N3 N4. unfold open_session. cbn [RtpSend.rtp_session_new RtpSend.rtp_session_set_scheduling_mode RtpSend.rtp_session_set_blocking_mode RtpSend.rtp_session_set_remote_addr stack_lib].
  change (negb (1 =? 0)) with true. rewrite (bind_ret _ _ _ _ _ N1), (bind_ret _ _ _ _ _ N2), (bind_ret _ _ _ _ _ N3), (bind_ret _ _ _ _ _ N4). reflexivity.
Qed.

Lemma law_open_stack addr port ssrc X e : senders e → ssrc = None → (∀ q, made e q → q ∈ X) → zlen X < MAX_SESSION_NUM →
  ∃ p e1, open_session addr port ssrc e = Ret p e1 ∧ ¬ made e p ∧ (∀ q, made e1 q ↔ made e q ∨ q = p) ∧
  ∀ pt, pt = PAYLOAD_TYPE_VIDEO ∨ pt = PAYLOAD_TYPE_AUDIO → ∃ r e2, RtpSend.rtp_session_set_payload_type p pt e1 = Ret r e2 ∧
    senders e2 ∧ ∀ q, made e2 q ↔ made e q ∨ q = p.
Proof.
  intros (cs & Hpo) -> HX Hlen. assert (Hroom : zlen cs < 1024) by (pose proof (pool_room cs e X Hpo HX); unfold MAX_SESSION_NUM in *; lia).
  set (a := brk (heap e)).
  assert (Hdev : ∀ pt, pt = PAYLOAD_TYPE_VIDEO ∨ pt = PAYLOAD_TYPE_AUDIO → is_Some (device_type pt)) by (intros pt [-> | ->]; by eexists).
  destruct (pool_open fuel m0 cs e (string_of addr) port PAYLOAD_TYPE_VIDEO Hsock Hpo Hroom (Hdev _ (or_introl eq_refl)))
    as (E1 & E2 & E3 & E4 & _ & _ & N1 & N2 & N3 & N4 & _ & Hmade & _). fold a in N1, N2, N3, N4, Hmade.
  exists a, E4. split; [exact (open_steps addr port e a E1 E2 E3 E4 N1 N2 N3 N4)|]. split.
  { intros (s & Hs). pose proof (sr_new _ _ (pool_ready _ _ _ Hpo Hroom) a (Z.le_refl a)) as Hn. congruence. }
  split; [intros q; unfold made; rewrite Hmade; tauto|]. intros pt Hpt.
  destruct (pool_open fuel m0 cs e (string_of addr) port pt Hsock Hpo Hroom (Hdev pt Hpt))
    as (E1' & E2' & E3' & E4' & E5 & c & N1' & N2' & N3' & N4' & N5' & _ & Hpo5 & _ & _ & Hc & _). fold a in N1', N2', N3', N4', N5', Hc.
  rewrite N1 in N1'. injection N1' as <-. rewrite N2 in N2'. injection N2' as <-. rewrite N3 in N3'. injection N3' as <-. rewrite N4 in N4'. injection N4' as <-.
  exists 0, E5. split; [exact N5'|]. split; [by exists (c :: cs)|]. intros q. unfold made. rewrite (po_dom _ _ _ Hpo5), (po_dom _ _ _ Hpo). cbn. rewrite Hc, elem_of_cons. tauto.
Qed.

Lemma send_stack p b n ts e cs1 c cs2 : pool m0 (cs1 ++ c :: cs2) e → lv_addr c = p → 0 ≤ n ≤ zlen b → 12 + n < 2 ^ 31 → in_u32 ts →
  ∃ e' k rep, RtpSend.rtp_session_send_with_ts p b n ts e = Ret (12 + n) e' ∧ pool m0 (cs1 ++ later c k :: cs2) e' ∧
  outbox e' = outbox e ++ [packet_to (lv_rtp c) (lv_ip c) (lv_port c) (lv_pt c) (lv_ssrc c) (lv_seq c) ts (take (Z.to_nat n) b)] ++ rep ∧
  Forall (fun d => dg_socket d = lv_rtcp c) rep ∧ closed e' = closed e.
Proof.
  intros Hpo <- Hn Hlen Hts. assert (Hz : zlen (take (Z.to_nat n) b) = n) by (unfold zlen in *; rewrite length_take; lia).
  destruct (pool_send spur cs1 c cs2 m0 e base (take (Z.to_nat n) b) ts fuel Hnet Hbase Hts ltac:(rewrite Hz; exact Hlen) Hpo) as (e' & k & rep & E & Hrest).
  exists e', k, rep. split; [|exact Hrest]. cbn [RtpSend.rtp_session_send_with_ts stack_lib]. assert ((n <? 0) || (zlen b <? n) = false) as -> by lia. rewrite E, Hz. reflexivity.
Qed.

#[local] Instance stack_laws : RtpLibLaws Env.
Proof.
  refine {| lib_ok := senders; live := made; ssrc_ok o := o = None |}.
  - exact law_exit_stack.
  - exact law_open_stack.
  - intros p b n ts e (cs & Hpo) Hp Hn Hlen Hts. destruct (pool_find cs e p Hpo Hp) as (cs1 & c & cs2 & -> & Hc).
    destruct (send_stack p b n ts e cs1 c cs2 Hpo Hc Hn Hlen Hts) as (e' & k & rep & E & Hpo' & _). exists (12 + n), e'. split; [exact E|].
    split; [by eexists|]. intros q. unfold made. rewrite (po_dom _ _ _ Hpo'), (po_dom _ _ _ Hpo). rewrite later_addrs. done.
  - intros p e (cs & Hpo) Hp. destruct (pool_find cs e p Hpo Hp) as (cs1 & c & cs2 & -> & Hc).
    pose proof (pool_addrs _ _ _ _ _ Hpo) as Hna. destruct (pool_destroy cs1 c cs2 m0 e Hpo) as (e' & E & Hpo' & _). exists e'. rewrite Hc in *. split; [exact E|].
    split; [by eexists|]. intros q. unfold made. rewrite (po_dom _ _ _ Hpo'), (po_dom _ _ _ Hpo). rewrite !fmap_app in *. cbn. rewrite !elem_of_app, elem_of_cons, Hc in *. split.
    + intros Hq. split; [tauto|]. intros ->. tauto.
    + tauto.
Defined.

(** * The life of a session on the stack *)

(** The packets of a session from a number and a timestamp on. *)
Definition packets_from (c : live_sender) (seq ts inc : Z) (bufs : list (list Z)) : list datagram :=
  imap (fun k b => packet_to (lv_rtp c) (lv_ip c) (lv_port c) (lv_pt c) (lv_ssrc c) (u16 (seq + Z.of_nat k)) (u32 (ts + Z.of_nat k * inc)) b) bufs.

Lemma packets_cons c seq ts inc b bufs : in_u16 seq → in_u32 ts →
  packets_from c seq ts inc (b :: bufs) =
  packet_to (lv_rtp c) (lv_ip c) (lv_port c) (lv_pt c) (lv_ssrc c) seq ts b :: packets_from c (u16 (seq + 1)) (u32 (ts + inc)) inc bufs.
Proof.
  intros Hs Ht. unfold packets_from. cbn [imap]. f_equal.
  - change (Z.of_nat 0) with 0. rewrite Z.mul_0_l, !Z.add_0_r, (u32_id ts Ht). unfold u16. by rewrite Z.mod_small.
  - apply imap_ext. intros k x _. cbn. f_equal.
    + unfold u16. rewrite Zplus_mod_idemp_l. f_equal. lia.
    + rewrite u32_add_l. f_equal. lia.
Qed.

(** A session whose number and kept block have moved on. *)
Record advanced (c c' : live_sender) : Prop := {
  ad_addr : lv_addr c' = lv_addr c;
  ad_rtp : lv_rtp c' = lv_rtp c;
  ad_rtcp : lv_rtcp c' = lv_rtcp c
}.

Lemma send_on_stack (m : RtpMgr Env) cs1 c cs2 i ts inc b : mgr_wf m → small b →
  aget (g_rtpSessionMgr m) i = Some (mkSessionObj (Some (lv_addr c)) ts inc) → pool m0 (cs1 ++ c :: cs2) (rtplib m) →
  ∃ m' k rep, rtp_send i b (zlen b) m = Ret 0 m' ∧ mgr_wf m' ∧
    g_rtpSessionMgr m' = <[Z.to_nat i := mkSessionObj (Some (lv_addr c)) (u32 (ts + inc)) inc]> (g_rtpSessionMgr m) ∧
    pool m0 (cs1 ++ later c k :: cs2) (rtplib m') ∧
    outbox (rtplib m') = outbox (rtplib m) ++ [packet_to (lv_rtp c) (lv_ip c) (lv_port c) (lv_pt c) (lv_ssrc c) (lv_seq c) ts b] ++ rep ∧
    Forall (fun d => dg_socket d = lv_rtcp c) rep ∧ closed (rtplib m') = closed (rtplib m).
Proof.
  intros Hwf Hb Ho Hpo. assert (Hsend : sendable b (zlen b)) by (split; [pose proof (zlen_nonneg b); lia|exact Hb]).
  pose proof (mw_ts _ Hwf _ _ Ho) as Hts. cbn in Hts.
  destruct (rtp_send_ret m i _ b (zlen b) Hwf Ho Hsend) as (r & l & El & Hok & Hl & E). cbn [pSession curTimeStamp timeStampInc] in El, E.
  destruct (send_stack (lv_addr c) b (zlen b) ts (rtplib m) cs1 c cs2 Hpo eq_refl (proj1 Hsend) Hb Hts) as (e' & k & rep & E' & Hpo' & Hout & Hrep & Hcl).
  rewrite El in E'. injection E' as _ <-. rewrite take_ge in Hout by (unfold zlen; lia).
  eexists _, k, rep. split; [exact E|]. split; [|split; [reflexivity|split; [exact Hpo'|split; [exact Hout|split; [exact Hrep|exact Hcl]]]]].
  assert (Hw : mgr_wf (m <| rtplib := l |>)) by (apply wf_lib; assumption).
  exact (wf_touch _ i _ (mkSessionObj (Some (lv_addr c)) (u32 (ts + inc)) inc) Hw Ho eq_refl eq_refl (u32_range _)).
Qed.

Lemma filter_others {A} (f : A → Z) k k' (l : list A) : Forall (fun d => f d = k') l → k' ≠ k → filter (fun d => f d = k) l = [].
Proof.
  intros Hl Hne. induction Hl as [|d l Hd _ IH]; [done|]. rewrite filter_cons, decide_False by congruence. exact IH.
Qed.

Lemma send_all_on_stack i inc bufs : Forall small bufs → ∀ (m : RtpMgr Env) cs1 c cs2 ts, mgr_wf m → 
  aget (g_rtpSessionMgr m) i = Some (mkSessionObj (Some (lv_addr c)) ts inc) → pool m0 (cs1 ++ c :: cs2) (rtplib m) →
  ∃ m' c' ts' new, send_all i bufs m = Ret tt m' ∧ mgr_wf m' ∧
    g_rtpSessionMgr m' = <[Z.to_nat i := mkSessionObj (Some (lv_addr c)) ts' inc]> (g_rtpSessionMgr m) ∧
    pool m0 (cs1 ++ c' :: cs2) (rtplib m') ∧ advanced c c' ∧
    outbox (rtplib m') = outbox (rtplib m) ++ new ∧ filter (fun d => dg_socket d = lv_rtp c) new = packets_from c (lv_seq c) ts inc bufs ∧
    Forall (fun d => dg_socket d = lv_rtp c ∨ dg_socket d = lv_rtcp c) new ∧ closed (rtplib m') = closed (rtplib m).
Proof.
  induction 1 as [|b bufs Hb _ IH]; intros m cs1 c cs2 ts Hwf Ho Hpo.
  - exists m, c, ts, []. rewrite app_nil_r. split; [done|]. split; [exact Hwf|]. split.
    { symmetry. apply list_insert_id. unfold aget in Ho. by destruct (decide (0 ≤ i)). }
    by split_and!; [exact Hpo|..].
  - pose proof (aget_Some_range _ _ _ Ho) as Hr. pose proof (mw_ts _ Hwf _ _ Ho) as Hts. cbn in Hts.
    assert (Hc : live_ok c) by (pose proof (po_live _ _ _ Hpo) as Hall; rewrite Forall_forall in Hall; apply Hall, elem_of_app; right; apply list_elem_of_here).
    destruct (send_on_stack m cs1 c cs2 i ts inc b Hwf Hb Ho Hpo) as (m1 & k & rep & E1 & Hwf1 & Ht1 & Hpo1 & Hout1 & Hrep & Hcl1).
    assert (Ho1 : aget (g_rtpSessionMgr m1) i = Some (mkSessionObj (Some (lv_addr (later c k))) (u32 (ts + inc)) inc)) by (rewrite Ht1; apply aget_insert_eq; exact Hr).
    destruct (IH m1 cs1 (later c k) cs2 (u32 (ts + inc)) Hwf1 Ho1 Hpo1) as (m' & c' & ts' & new & E' & Hwf' & Ht' & Hpo' & [A1 A2 A3] & Hout & Hfil & Hall & Hcl).
    exists m', c', ts', ([packet_to (lv_rtp c) (lv_ip c) (lv_port c) (lv_pt c) (lv_ssrc c) (lv_seq c) ts b] ++ rep ++ new). split.
    { unfold send_all. cbn [for_each]. rewrite bind_assoc, (bind_ret _ _ _ _ _ E1), (bind_ret (mret tt) _ _ tt m1) by done. exact E'. }
    split; [exact Hwf'|]. split; [rewrite Ht', Ht1; apply insert_twice|]. split; [exact Hpo'|]. split; [by split|].
    split; [rewrite Hout, Hout1, <- !app_assoc; reflexivity|]. split; [|split; [|congruence]].
    + rewrite !filter_app, (filter_others dg_socket (lv_rtp c) (lv_rtcp c) rep Hrep) by (intros E; apply (lo_sockets _ Hc); by symmetry).
      change (filter (fun d => dg_socket d = lv_rtp c) new = packets_from c (u16 (lv_seq c + 1)) (u32 (ts + inc)) inc bufs) in Hfil. rewrite Hfil.
      rewrite packets_cons; [|apply Hc|exact Hts]. by rewrite filter_cons, decide_True by done.
    + apply Forall_app. split; [constructor; [by left|constructor]|]. apply Forall_app. split; [|exact Hall]. eapply Forall_impl; [exact Hrep|]. cbn. tauto.
Qed.

(** The payload type and the step of the timestamps of a type of session. *)
Definition type_of (ty : Z) : option (Z * Z) :=
  if ty =? SESSION_TYPE_VIDEO then Some (PAYLOAD_TYPE_VIDEO, VIDEO_TIME_STAMP_INC)
  else if ty =? SESSION_TYPE_AUDIO then Some (PAYLOAD_TYPE_AUDIO, AUDIO_TIME_STAMP_INC) else None.

Lemma create_on_stack (m : RtpMgr Env) cs addr port ty pt inc i : mgr_wf m → pool m0 cs (rtplib m) →
  find_idx is_free (g_rtpSessionMgr m) = Some i → aget (g_rtpSessionMgr m) i = Some (mkSessionObj None 0 0) → type_of ty = Some (pt, inc) →
  let a := brk (heap (rtplib m)) in
  ∃ m' c, create_rtp_session addr port ty m = Ret i m' ∧ mgr_wf m' ∧ pool m0 (c :: cs) (rtplib m') ∧
    g_rtpSessionMgr m' = <[Z.to_nat i := mkSessionObj (Some a) 0 inc]> (g_rtpSessionMgr m) ∧
    outbox (rtplib m') = outbox (rtplib m) ∧ closed (rtplib m') = closed (rtplib m) ∧
    lv_addr c = a ∧ lv_pt c = pt ∧ lv_ip c = default 0 (inet_aton (string_of addr)) ∧ lv_port c = port ∧
    lv_ssrc c = u32 (random_at (calls (rtplib m))) ∧ lv_seq c = 0.
Proof.
  intros Hwf Hpo Hi Ho Hty a.
  assert (Hroom : zlen cs < 1024).
  { pose proof (pool_room cs (rtplib m) (sessions_of (g_rtpSessionMgr m)) Hpo) as Hr.
    pose proof (sessions_of_few _ _ _ Ho eq_refl) as Hf. rewrite (mw_len _ Hwf) in Hf. unfold MAX_SESSION_NUM in Hf.
    cut (zlen cs ≤ zlen (sessions_of (g_rtpSessionMgr m))); [lia|]. apply Hr. intros q (j & o & Hj & Hq)%(mw_tight _ Hwf). by eapply sessions_of_elem. }
  assert (Hdev : is_Some (device_type pt)).
  { unfold type_of in Hty. destruct (ty =? SESSION_TYPE_VIDEO); [injection Hty as <- _; by eexists|]. destruct (ty =? SESSION_TYPE_AUDIO); [injection Hty as <- _; by eexists|done]. }
  destruct (pool_open fuel m0 cs (rtplib m) (string_of addr) port pt Hsock Hpo Hroom Hdev)
    as (E1 & E2 & E3 & E4 & E5 & c & N1 & N2 & N3 & N4 & N5 & _ & Hpo5 & Ho5 & Hc5 & C1 & C2 & C3 & C4 & C5 & C6). fold a in N1, N2, N3, N4, N5, C1.
  pose proof (open_steps addr port (rtplib m) a E1 E2 E3 E4 N1 N2 N3 N4) as Eopen. rewrite <- (mw_ssrc _ Hwf : g_ssrc m = None) in Eopen.
  assert (N6 : RtpSend.rtp_session_set_payload_type a pt (rtplib (m <| rtplib := E4 |>)) = Ret 0 E5).
  { assert (rtplib (m <| rtplib := E4 |>) = E4) as -> by reflexivity. exact N5. }
  assert (Hfill : (_ ← on_lib (RtpSend.rtp_session_set_payload_type a pt);
     _ ← upd_obj i (fun o => o <| timeStampInc := inc |>);
     _ ← upd_obj i (fun o => o <| pSession := Some a |>); mret i) (m <| rtplib := E4 |>) =
     Ret i (m <| rtplib := E5 |> <| g_rtpSessionMgr ::= <[Z.to_nat i := mkSessionObj (Some a) 0 inc]> |>)).
  { set (m4 := m <| rtplib := E4 |>) in *. assert (Ho4 : aget (g_rtpSessionMgr m4) i = Some (mkSessionObj None 0 0)) by exact Ho.
    rewrite (fill_ret m4 a i pt inc 0 E5 Ho4 N6). reflexivity. }
  assert (Hmade : ∀ q, made E5 q ↔ made (rtplib m) q ∨ q = a).
  { intros q. unfold made. rewrite (po_dom _ _ _ Hpo5), (po_dom _ _ _ Hpo). cbn. rewrite C1, elem_of_cons. tauto. }
  exists (m <| rtplib := E5 |> <| g_rtpSessionMgr ::= <[Z.to_nat i := mkSessionObj (Some a) 0 inc]> |>), c. split.
  { unfold create_rtp_session. rewrite (bind_ret _ _ _ _ _ (alloc_spec m)), Hi. assert ((i =? -1) = false) as -> by (pose proof (aget_Some_range _ _ _ Ho); lia).
    rewrite (setup_ret m addr port a E4 Eopen). unfold type_of in Hty. destruct (ty =? SESSION_TYPE_VIDEO); [|destruct (ty =? SESSION_TYPE_AUDIO); [|discriminate Hty]].
    all: injection Hty as <- <-; exact Hfill. }
  split.
  { assert (Hok5 : senders E5) by (exists (c :: cs); exact Hpo5). apply (wf_new m i E5 a inc Hwf Ho Hok5); [|exact Hmade].
    intros (s & Hs). pose proof (sr_new _ _ (pool_ready _ _ _ Hpo Hroom) a (Z.le_refl a)) as Hn. congruence. }
  split; [exact Hpo5|]. split; [reflexivity|]. split; [exact Ho5|]. split; [exact Hc5|]. by split_and!.
Qed.

(** C6: The life of a session of the RTP send module on the whole stack. On a stack with any
    senders, with sockets that work, a silent network, no SSRC set by the user and any spurious wake-ups, creating a session of a known type,
    sending buffers one after the other and removing it returns 0. The socket of its RTP then
    has sent exactly the packets of the buffers to the address given (0 if it is no address),
    in order: version 2, the payload type of the session's type, the sequence numbers 0, 1, 2 and so on modulo 2^16,
    the timestamps multiples of the type's step modulo 2^32, its SSRC and the buffer; the socket
    of its RTCP has sent only reports in between. Afterwards the table is as before, both
    sockets are closed, the heap and the scheduler hold what the other senders have on them
    and nothing more, and those are senders as before. *)
Theorem rtp_module_on_stack (m : RtpMgr Env) cs addr port ty pt inc i bufs :
  mgr_wf m → pool m0 cs (rtplib m) → find_idx is_free (g_rtpSessionMgr m) = Some i → type_of ty = Some (pt, inc) → Forall small bufs →
  let ip := default 0 (inet_aton (string_of addr)) in
  let ssrc := u32 (random_at (calls (rtplib m))) in
  ∃ m' k1 k2 new,
  (id ← create_rtp_session addr port ty; _ ← send_all id bufs; remove_session_obj id) m = Ret 0 m' ∧
  outbox (rtplib m') = outbox (rtplib m) ++ new ∧ k1 ≠ k2 ∧
  filter (fun d => dg_socket d = k1) new =
    imap (fun k b => packet_to k1 ip port pt ssrc (u16 (Z.of_nat k)) (u32 (Z.of_nat k * inc)) b) bufs ∧
  Forall (fun d => dg_socket d = k1 ∨ dg_socket d = k2) new ∧
  mgr_wf m' ∧ g_rtpSessionMgr m' = g_rtpSessionMgr m ∧ pool m0 cs (rtplib m') ∧ closed (rtplib m') = closed (rtplib m) ++ [k1; k2].
Proof.
  intros Hwf Hpo Hi Hty Hbufs ip ssrc.
  pose proof (find_idx_Some _ _ _ Hi) as (_ & (o & Ho & Hfree) & _).
  assert (o = mkSessionObj None 0 0) as -> by (eapply mw_free; [exact Hwf|exact Ho|]; unfold is_free in Hfree; by destruct (pSession o)).
  pose proof (aget_Some_range _ _ _ Ho) as Hr.
  destruct (create_on_stack m cs addr port ty pt inc i Hwf Hpo Hi Ho Hty) as (m1 & c & E1 & Hwf1 & Hpo1 & Ht1 & Hout1 & Hcl1 & C1 & C2 & C3 & C4 & C5 & C6).
  assert (Ho1 : aget (g_rtpSessionMgr m1) i = Some (mkSessionObj (Some (lv_addr c)) 0 inc)) by (rewrite Ht1, C1; by apply aget_insert_eq).
  destruct (send_all_on_stack i inc bufs Hbufs m1 [] c cs 0 Hwf1 Ho1 Hpo1) as (m2 & c' & ts' & new & E2 & Hwf2 & Ht2 & Hpo2 & [A1 A2 A3] & Hout2 & Hfil & Hall & Hcl2).
  assert (Ho2 : aget (g_rtpSessionMgr m2) i = Some (mkSessionObj (Some (lv_addr c)) ts' inc)).
  { rewrite Ht2. apply aget_insert_eq. rewrite Ht1, zlen_insert. exact Hr. }
  destruct (remove_ret m2 i _ Hwf2 Ho2) as (m3 & E3 & Hwf3 & _ & Ht3 & _ & Hd). cbn [pSession] in Hd.
  destruct (pool_destroy [] c' cs m0 (rtplib m2) Hpo2) as (e3 & Ed & Hpo3 & Hout3 & Hcl3). rewrite A1 in Ed.
  change (OrtpInit.rtp_session_destroy (lv_addr c) (rtplib m2) = Ret tt (rtplib m3)) in Hd. rewrite Ed in Hd. injection Hd as ->.
  exists m3, (lv_rtp c), (lv_rtcp c), new. split.
  { rewrite (bind_ret _ _ _ _ _ E1), (bind_ret _ _ _ _ _ E2). exact E3. }
  split; [rewrite Hout3, Hout2, Hout1; reflexivity|].
  assert (Hc : live_ok c) by (pose proof (po_live _ _ _ Hpo1) as Hl; rewrite Forall_forall in Hl; apply Hl, list_elem_of_here).
  split; [apply (lo_sockets _ Hc)|]. split.
  { rewrite Hfil. unfold packets_from. rewrite C2, C3, C4, C5, C6. reflexivity. }
  split; [exact Hall|]. split; [exact Hwf3|]. split; [|split; [exact Hpo3|rewrite Hcl3, Hcl2, Hcl1, A2, A3; reflexivity]].
  rewrite Ht3, Ht2, Ht1, !insert_twice. apply list_insert_id. unfold aget in Ho. by destruct (decide (0 ≤ i)).
Qed.

(** * The client table on the stack *)

(** The stack before its first call. *)
Record booted (e : Env) : Prop := {
  bo_heap : heap e = m0;
  bo_unused : unused m0;
  bo_pmem : pmem e = static_mem;
  bo_init : initialized e = false;
  bo_sched : sched_initialized (world e) = false;
  bo_none : sessions (world e) = ∅
}.

Lemma empty_scheduler w : sched w = rtp_scheduler_start rtp_scheduler_new → sessions w = ∅ → sched_ok [] w.
Proof.
  intros Hs Hn. destruct (fresh_ok ∅ (map_Forall_empty _)) as [H1 H2 H3 H4 H5 H6 H7 H8 H9]. assert (Hc : cores w = cores (fresh_world ∅)) by (unfold cores; by rewrite Hn).
  change (sched (fresh_world ∅)) with (rtp_scheduler_start rtp_scheduler_new) in *.
  split; rewrite ?Hc, ?Hs; assumption.
Qed.

Lemma stack_started e : booted e → ∃ e1 e2, OrtpInit.ortp_init e = Ret tt e1 ∧ wd Sched.ortp_scheduler_init e1 = Ret tt e2 ∧ pool m0 [] e2.
Proof.
  intros [Hh Hun Hpm Hi Hs Hn]. destruct e as [he pe [sc ss sg os si] gs o cl ca ini]. cbn in *. subst.
  eexists _, _. split; [|split].
  - unfold OrtpInit.ortp_init, pm, zoom. unfold mbind, CM_bind. cbn. rewrite av_init_run. reflexivity.
  - reflexivity.
  - split.
    + exists (brk m0). split; [lia|]. split; [by destruct m0|]. by split; constructor.
    + exact Hun.
    + constructor.
    + reflexivity.
    + by apply empty_scheduler.
    + reflexivity.
    + split; reflexivity.
    + split; [discriminate|reflexivity].
    + intros q. cbn. rewrite lookup_empty. split; [by intros []|by intros ?%not_elem_of_nil].
    + constructor.
    + constructor.
Qed.
Lemma init_on_stack (m : RtpMgr Env) : booted (rtplib m) →
  ∃ m', rtp_init None m = Ret tt m' ∧ mgr_wf m' ∧ g_rtpSessionMgr m' = replicate (Z.to_nat MAX_SESSION_NUM) (mkSessionObj None 0 0) ∧ pool m0 [] (rtplib m').
Proof.
  intros Hb. destruct (stack_started _ Hb) as (e1 & e2 & E1 & E2 & Hpo). set (t0 := replicate (Z.to_nat MAX_SESSION_NUM) (mkSessionObj None 0 0)).
  exists (mkRtpMgr t0 None e2). split; [|split; [|split; [reflexivity|exact Hpo]]].
  - destruct m as [t g e]. cbn in Hb, E1. unfold rtp_init. rewrite (bind_ret (modify _) _ _ tt (mkRtpMgr t0 g e)) by done.
    rewrite (bind_ret _ _ _ tt (mkRtpMgr t0 g e1)) by (apply (on_lib_ret _ (mkRtpMgr t0 g e)); exact E1).
    rewrite (bind_ret _ _ _ tt (mkRtpMgr t0 g e2)) by (apply (on_lib_ret _ (mkRtpMgr t0 g e1)); exact E2). reflexivity.
  - assert (Hall : ∀ i o, aget t0 i = Some o → o = mkSessionObj None 0 0).
    { intros i o Ho%aget_elem_of. by apply elem_of_replicate in Ho as [? _]. }
    split; cbn; [done|by eauto|..].
    + by intros i o p ->%Hall.
    + by intros i j o o' p ->%Hall.
    + by exists [].
    + done.
    + intros p Hp. apply (po_dom _ _ _ Hpo) in Hp. by apply not_elem_of_nil in Hp.
    + intros i o ->%Hall. cbn. unfold in_u32. lia.
Qed.

(** The senders of the pool are the sessions of the table. *)
Lemma pool_used (m : RtpMgr Env) cs : mgr_wf m → pool m0 cs (rtplib m) → zlen cs = zlen (used (g_rtpSessionMgr m)).
Proof.
  intros Hwf Hpo. set (t := g_rtpSessionMgr m). set (f := fun i => default 0 (o ← aget t i; pSession o)).
  assert (Hf : ∀ i, i ∈ used t → ∃ o p, aget t i = Some o ∧ pSession o = Some p ∧ f i = p).
  { intros i (_ & o & Ho & Hfree)%elem_of_used. unfold is_free in Hfree. destruct (pSession o) as [p|] eqn:Hp; [|done]. exists o, p. unfold f. by rewrite Ho; cbn; rewrite Hp. }
  assert (Hperm : f <$> used t ≡ₚ lv_addr <$> cs).
  { apply NoDup_Permutation.
    - apply NoDup_fmap_2_strong; [|apply used_NoDup]. intros i j Hi Hj E. destruct (Hf i Hi) as (o & p & Ho & Hp & Ei), (Hf j Hj) as (o' & p' & Ho' & Hp' & Ej).
      apply (mw_inj _ Hwf i j o o' p Ho Ho' Hp). congruence.
    - exact (so_nodup _ _ (po_ok _ _ _ Hpo)).
    - intros q. rewrite <- (po_dom _ _ _ Hpo), list_elem_of_fmap. split.
      + intros (i & -> & Hi). destruct (Hf i Hi) as (o & p & Ho & Hp & ->). exact (mw_live _ Hwf i o p Ho Hp).
      + intros Hq. destruct (mw_tight _ Hwf q Hq) as (i & o & Ho & Hp). exists i. split; [unfold f, t; rewrite Ho; cbn; by rewrite Hp|].
        apply elem_of_used. pose proof (aget_Some_range _ _ _ Ho) as Hr. rewrite (mw_len _ Hwf) in Hr. split; [exact Hr|]. exists o. split; [exact Ho|]. unfold is_free. by rewrite Hp. }
  apply Permutation_length in Hperm. rewrite !length_fmap in Hperm. unfold zlen. lia.
Qed.

(** C1: The device's sessions from the start of the program on the whole stack, on a device
    with 16 or 32 video channels (4 or 8 groups), with sockets that work, pipes that open, no SSRC
    set by the user, a network from which nothing is received and any spurious wake-ups of the senders. [rtp_init] on a stack
    before its first call and [init_session_tsk] succeed, and from there every sequence of
    adding and deleting clients, opening and closing their channels and sending to them
    returns without a fault, as long as its arguments are admitted ([op_ok]): ports are
    positive, client ids are indices of the table (0 to 9), opened and closed channels are
    not negative, and an element sent is for a channel of the device and has a buffer and a length within
    it. The code checks none of the ids itself, and with fewer channels deleting a client damages another
    ([Server.server_id_faults], [Session.del_client_wipes_other]). At the end of the sequence
    the stack holds exactly the RTP sessions of the active clients, two for each group of
    channels: the heap has their queues, descriptions and kept blocks on it and nothing else,
    the scheduler links them, and with no active client left the heap has on it what it had
    at the start. *)
Theorem client_table_on_stack {HE : EltLayout} n t pipe_ret ops :
  n = 4 ∨ n = 8 → booted (rtplib (s_rtp (t_sess t))) →
  zlen (g_clients (t_sess t)) = MAX_CLIENT_NUM → Forall (fun c => zlen (flag c) = Gbl.MAX_VIDEO_CHANNEL ∧ Forall Gbl.flag_ok (flag c)) (g_clients (t_sess t)) →
  Gbl.videoChannels (s_gbl (t_sess t)) `quot` CHS_PER_SESSION = n → zlen (g_NetSessionFifos t) = GROUPS →
  (∀ i, pipe_ret i = 0) → Forall (op_ok n (frame_buf (t_sess t))) ops →
  ∃ m1 t' s' cs, rtp_init None (s_rtp (t_sess t)) = Ret tt m1 ∧
    init_session_tsk pipe_ret (t <| t_sess ::= (fun s => s <| s_rtp := m1 |>) |>) = Ret 0 t' ∧
    for_each ops run_op (t_sess t') = Ret tt s' ∧
    pool m0 cs (rtplib (s_rtp s')) ∧ zlen cs = 2 * n * active_count (g_clients s') ∧ active_count (g_clients s') ≤ 16 / n ∧
    (active_count (g_clients s') = 0 → ∃ j, heap (rtplib (s_rtp s')) = m0 <| brk := j |>).
Proof.
  intros Hn Hb Hcl Hflags Hchs Hfifos Hp Hops. destruct (init_on_stack _ Hb) as (m1 & E1 & Hwf1 & Ht1 & _).
  set (t1 := t <| t_sess ::= (fun s => s <| s_rtp := m1 |>) |>).
  assert (Hfree : used (g_rtpSessionMgr m1) = []) by (rewrite Ht1; vm_compute; reflexivity).
  assert (Hbi : before_init n t1) by (split; assumption).
  destruct (session_ops_run n Hn t1 pipe_ret ops Hbi Hp Hops) as (t' & E2 & _ & _ & s' & E3 & Hinv & Hcount & Hmax).
  destruct (mw_lib _ (si_rtp _ _ Hinv)) as (cs & Hpo). pose proof (pool_used _ _ (si_rtp _ _ Hinv) Hpo) as Hz. rewrite Hcount in Hz.
  exists m1, t', s', cs. split; [exact E1|]. split; [exact E2|]. split; [exact E3|]. split; [exact Hpo|]. split; [exact Hz|]. split; [exact Hmax|].
  intros Hzero. rewrite Hzero, Z.mul_0_r in Hz. destruct cs as [|c cs]; [|pose proof (zlen_nonneg cs); rewrite zlen_cons in Hz; lia].
  destruct (po_heap _ _ _ Hpo) as (j & _ & Eh & _). by exists j.
Qed.
End Stack.

(** * Examples *)

Lemma quiet_sockets : @sockets_work quiet_system.
Proof.
  split; [done| |done|].
  - intros n. eexists. split; [reflexivity|lia].
  - intros n n' Hn. cbn. intros [= E]. lia.
Qed.

(** The stack at the start of a program whose heap begins at 200. *)
Definition ex_boot : Env := mkEnv (mem0 <| brk := 200 |>) static_mem (mkWorld rtp_scheduler_new ∅ [] false false) zero_stats [] [] 0 false.
Lemma ex_booted : booted (mem0 <| brk := 200 |>) ex_boot.
Proof.
  split; [reflexivity| |reflexivity..]. split; [intros n _; by split|intros q _; by split_and!].
Qed.
(** The second packet of a run, and only it, is sent early. *)
Definition ex_spur (e : Env) : option nat := if decide (length (outbox e) = 1%nat) then Some 0%nat else None.
Definition ex_ip : list Z := [49; 50; 55; 46; 48; 46; 48; 46; 49].

(** A video session beside an audio session that stays. *)
Lemma rtp_module_on_stack_witness :
  let lib := stack_lib (H := quiet_system) 4096 0 ex_spur in
  ∃ m2 m' k1 k2 new,
  (_ ← rtp_init None; create_rtp_session ex_ip 8000 SESSION_TYPE_AUDIO) (mkRtpMgr [] None ex_boot) = Ret 0 m2 ∧
  (id ← create_rtp_session ex_ip 7000 SESSION_TYPE_VIDEO; _ ← send_all id [[1; 2]; [3]; []]; remove_session_obj id) m2 = Ret 0 m' ∧
  outbox (rtplib m') = outbox (rtplib m2) ++ new ∧
  filter (fun d => dg_socket d = k1) new =
    [packet_to k1 16777343 7000 34 305419896 0 0 [1; 2]; packet_to k1 16777343 7000 34 305419896 1 900 [3]; packet_to k1 16777343 7000 34 305419896 2 1800 []] ∧
  closed (rtplib m') = closed (rtplib m2) ++ [k1; k2].
Proof.
  intros lib. assert (Hb : (4096 : Z) ≠ 0) by done.
  destruct (init_on_stack (H := quiet_system) 4096 0 ex_spur quiet_sockets quiet_silent Hb _ (mkRtpMgr [] None ex_boot) ex_booted) as (m1 & E1 & Hwf1 & Ht1 & Hpo1).
  destruct (create_on_stack (H := quiet_system) 4096 0 ex_spur quiet_sockets quiet_silent Hb _ m1 [] ex_ip 8000 SESSION_TYPE_AUDIO 12 80 0 Hwf1 Hpo1)
    as (m2 & c & E2 & Hwf2 & Hpo2 & Ht2 & _); [by rewrite Ht1|by rewrite Ht1|reflexivity|].
  destruct (rtp_module_on_stack (H := quiet_system) 4096 0 ex_spur quiet_sockets quiet_silent Hb _ m2 [c] ex_ip 7000 SESSION_TYPE_VIDEO 34 900 1 [[1; 2]; [3]; []] Hwf2 Hpo2)
    as (m' & k1 & k2 & new & E & Eo & _ & Ef & _ & _ & _ & _ & Ec).
  - rewrite Ht2, Ht1. reflexivity.
  - reflexivity.
  - repeat constructor.
  - exists m2, m', k1, k2, new. split; [rewrite (bind_ret _ _ _ _ _ E1); exact E2|]. split; [exact E|]. split; [exact Eo|]. split; [exact Ef|exact Ec].
Defined.

(** A device with 16 channels: one client comes, gets a frame, another comes and both go. *)
Definition ex_device : SessTsk Env :=
  mkTsk (mkSess (replicate 10 client0) (Gbl.gbl_init <| Gbl.videoChannels := 16 |>) (mkRtpMgr [] None ex_boot) [[7; 8; 9]])
    (replicate 8 (mkFifo 0 false false [])) (mkFifo 0 false false []).
Definition ex_device_ops : list sess_op :=
  [OAdd ex_ip 7000 8000; OOpen 0 5; OSend (mkElt 0 5 SESSION_TYPE_VIDEO 0 3); OAdd ex_ip 7100 8100; ODel 0; ODel 1].

Lemma client_table_on_stack_witness :
  let lib := stack_lib (H := quiet_system) 4096 0 ex_spur in
  ∃ m1 t' s' cs, rtp_init None (s_rtp (t_sess ex_device)) = Ret tt m1 ∧
    init_session_tsk (HE := Session.elt_cells) (fun _ => 0) (ex_device <| t_sess ::= (fun s => s <| s_rtp := m1 |>) |>) = Ret 0 t' ∧
    for_each ex_device_ops run_op (t_sess t') = Ret tt s' ∧
    pool (mem0 <| brk := 200 |>) cs (rtplib (s_rtp s')) ∧ zlen cs = 2 * 4 * active_count (g_clients s').
Proof.
  intros lib. assert (Hb : (4096 : Z) ≠ 0) by done.
  destruct (client_table_on_stack (H := quiet_system) 4096 0 ex_spur quiet_sockets quiet_silent Hb (mem0 <| brk := 200 |>) (HE := Session.elt_cells) 4 ex_device (fun _ => 0) ex_device_ops)
    as (m1 & t' & s' & cs & E1 & E2 & E3 & Hpo & Hz & _).
  - by left.
  - exact ex_booted.
  - reflexivity.
  - apply Forall_replicate. split; [done|]. apply Forall_replicate. by right.
  - reflexivity.
  - reflexivity.
  - done.
  - repeat (apply Forall_cons; split); [split; lia|split; unfold MAX_CLIENT_NUM; lia| |split; lia|unfold op_ok, MAX_CLIENT_NUM; lia..|done].
    split; [cbn; unfold CHS_PER_SESSION; lia|]. exists [7; 8; 9]. split; [done|]. by split.
  - exists m1, t', s', cs. split; [exact E1|]. split; [exact E2|]. split; [exact E3|]. split; [exact Hpo|exact Hz].
Defined.
