(* ===== verification/VideoEncode.v ===== *)
(** * Video source ([core/src/videoEncode.c], frame header of [rtpsend.h])

    The thread reads encoded frames of channel 2 from a file, copies each frame
    into the buffers of all channels and puts one element per channel on the FIFO
    of the channel's group. The buffers and FIFOs are those of Session.v, shared
    with the session threads. *)

From S2P Require Import Prelude Gbl RtpSend Fifo Session.

Definition MAX_VIDEO_BUFFER_LEN : Z := 1000000.
Definition FRAME_HEADER_LEN : Z := 20.
Definition SOURCE_CH : Z := 2.

(** An open file: its bytes and the position of the next read. *)
Record FILE := mkFile { fbytes : list Z; fpos : Z }.

#[export] Instance eta_FILE : Eta FILE := fun f => mkFile (fbytes f) (fpos f).

Record Vid (L : Type) := mkVid {
  v_tsk : SessTsk L;
  video_file_fp : list (option FILE);
  frame_count : Z
}.
Arguments mkVid {L}. Arguments v_tsk {L}. Arguments video_file_fp {L}. Arguments frame_count {L}.

#[export] Instance eta_Vid L : Eta (Vid L) := fun v =>
  mkVid (v_tsk v) (video_file_fp v) (frame_count v).

(** The packed header: 10 bytes, chId, dataType, len, timestamp. *)
Definition hdr_chId_off : Z := 10.
Definition hdr_len (buf : list Z) : Z := i32 (le_val (slice buf 12 4)).

Section Video.
Context {L : Type} {HL : RtpLib L} {HE : EltLayout}.

Definition on_tsk {A} (m : CM (SessTsk L) A) : CM (Vid L) A :=
  zoom v_tsk (fun t v => v <| v_tsk := t |>) m.

(** [video_encoded_frame_buf] is the [frame_buf] of the session state. *)
Definition get_buf (i : Z) : CM (Vid L) (list Z) :=
  t ← gets (fun v => frame_buf (t_sess (v_tsk v))); rd t i.

Definition put_buf (i : Z) (b : list Z) : CM (Vid L) unit :=
  modify (fun v => v <| v_tsk ::= fun t => t <| t_sess ::= fun s => s <| frame_buf ::= <[Z.to_nat i := b]> |> |> |>).

(** Store [bs] at offset [off] of buffer [i]. *)
Definition store (i off : Z) (bs : list Z) : CM (Vid L) unit :=
  b ← get_buf i;
  match write_at b off bs with
  | Some b' => put_buf i b'
  | None => fault_with OutOfBounds
  end.

(** The file a channel reads, and its new position. *)
Definition get_file (i : Z) : CM (Vid L) FILE :=
  t ← gets video_file_fp;
  f ← rd t i;
  match f with Some f => mret f | None => fault_with NullDeref end.

Definition set_file (i : Z) (f : FILE) : CM (Vid L) unit :=
  modify (fun v => v <| video_file_fp ::= <[Z.to_nat i := Some f]> |>).

(** [fread(buf[i] + off, 1, n, fp)]: the bytes read are as many as are left, at
    most [n] (a [size_t]). *)
Definition fread (i off n : Z) : CM (Vid L) Z :=
  f ← get_file i;
  let bs := take (Z.to_nat (u64 n)) (drop (Z.to_nat (fpos f)) (fbytes f)) in
  _ ← store i off bs;
  _ ← set_file i (f <| fpos := fpos f + zlen bs |>);
  mret (zlen bs).

(** [fp] is the file of [chId] at every call. *)
Definition readEncodedFrameInFile (chId : Z) : CM (Vid L) Z :=
  ret ← fread chId 0 FRAME_HEADER_LEN;
  if ret =? 0 then
    f ← get_file chId;
    _ ← set_file chId (f <| fpos := 0 |>);
    mret 0
  else if ret <? 0 then mret (-1)
  else
    _ ← store chId hdr_chId_off [u8 chId];
    b ← get_buf chId;
    ret ← fread chId FRAME_HEADER_LEN (hdr_len b);
    mret (i32 ret).

(** The element for channel [i], with [len] bytes. *)
Definition video_elt (i len : Z) : SessionElement :=
  mkElt CMD_SESSION_BUFFER (u8 i) SESSION_TYPE_VIDEO i len.

(** The copy and the put for channel [i]; the result of the put is ignored. *)
Definition distribute_one (chId len i : Z) : CM (Vid L) unit :=
  _ ← (if negb (i =? chId) then
         src ← get_buf chId;
         if zlen src <? len then fault_with OutOfBounds else
         _ ← store i 0 (take (Z.to_nat len) src);
         store i hdr_chId_off [u8 i]
       else mret tt);
  _ ← on_tsk (on_fifo (i `quot` CHS_PER_SESSION) (put_msg (video_elt i len)));
  mret tt.

(** One turn of the loop; [true] when it ends. *)
Definition video_turn (chs : Z) : CM (Vid L) bool :=
  q ← on_tsk (on_sess (on_gbl gblGetQuit));
  if negb (q =? 0) then mret true else
  let chId := SOURCE_CH in
  frame_len ← readEncodedFrameInFile chId;
  if frame_len <=? 0 then mret false else
  _ ← modify (fun v => v <| frame_count := i32 (frame_count v + 1) |>);
  let len := u32 (frame_len + FRAME_HEADER_LEN) in
  _ ← for_each (seqZ 0 chs) (distribute_one chId len);
  mret false.

(** The elements the thread puts after the loop: the last one with the flush
    command. *)
Definition video_end (chs : Z) (last : SessionElement) : CM (Vid L) unit :=
  for_each (seqZ 0 (chs `quot` CHS_PER_SESSION)) (fun i =>
    _ ← on_tsk (on_fifo i (put_msg (mkElt CMD_SESSION_FLUSH (e_chId last) (e_dataType last)
                                      (e_buffer last) (e_len last)))); mret tt).

Fixpoint videoEncodeThrFxn (fuel : nat) (chs : Z) (last : SessionElement) : CM (Vid L) bool :=
  match fuel with
  | O => mret false
  | S fuel =>
      stop ← video_turn chs;
      if (stop : bool) then _ ← video_end chs last; mret true
      else videoEncodeThrFxn fuel chs last
  end.

(** [mallocs] and [opens] are the results of [malloc] and [fopen] in order. *)
Definition videoEncodeInit (mallocs : list (option (list Z))) (opens : list (option FILE)) : CM (Vid L) Z :=
  chs ← on_tsk (on_sess (on_gbl gblGetVideoChannels));
  r ← for_until (seqZ 0 chs) (fun i =>
        m ← rd mallocs i;
        match m with
        | None => mret (Some (-1))
        | Some b =>
            t ← gets (fun v => frame_buf (t_sess (v_tsk v)));
            _ ← rd t i;
            _ ← put_buf i b;
            f ← rd opens i;
            _ ← modify (fun v => v <| video_file_fp ::= <[Z.to_nat i := f]> |>);
            mret None
        end);
  mret (match r with Some e => e | None => 0 end).

End Video.

(** * Lemmas *)

(** A frame of the file: the 20 bytes of the header and the payload it announces. *)
Record frame := mkFrame { fr_hdr : list Z; fr_payload : list Z }.

Definition frame_ok (f : frame) : Prop :=
  zlen (fr_hdr f) = FRAME_HEADER_LEN ∧ hdr_len (fr_hdr f) = zlen (fr_payload f) ∧ 0 < zlen (fr_payload f).

(** The header with the channel number stored in it. *)
Definition stamped (ch : Z) (h : list Z) : list Z := <[10%nat := u8 ch]> h.
Definition frame_data (ch : Z) (f : frame) : list Z := stamped ch (fr_hdr f) ++ fr_payload f.

Lemma hdr_len_app h r : zlen h = FRAME_HEADER_LEN → hdr_len (h ++ r) = hdr_len h.
Proof.
  intros Hh. unfold hdr_len, slice. unfold zlen, FRAME_HEADER_LEN in Hh.
  rewrite drop_app_le, take_app_le by (rewrite ?length_drop; lia). done.
Qed.

Lemma hdr_len_stamped ch h : hdr_len (stamped ch h) = hdr_len h.
Proof. unfold hdr_len, slice, stamped. by rewrite drop_insert_lt by lia. Qed.

Section Spec.
Context {L : Type} {HL : RtpLib L} {HLL : RtpLibLaws L} {HE : EltLayout}.
Implicit Types (v : Vid L).

Definition bufs v : list (list Z) := frame_buf (t_sess (v_tsk v)).
Definition with_buf v (i : Z) (b : list Z) : Vid L :=
  v <| v_tsk ::= fun t => t <| t_sess ::= fun s => s <| frame_buf ::= <[Z.to_nat i := b]> |> |> |>.
Definition with_file v (i : Z) (f : FILE) : Vid L :=
  v <| video_file_fp ::= <[Z.to_nat i := Some f]> |>.

Lemma get_buf_ret v i b : aget (bufs v) i = Some b → get_buf i v = Ret b v.
Proof. intros E. unfold get_buf. run. unfold bufs in E. by rewrite E. Qed.

Lemma store_ret v i off bs b b' :
  aget (bufs v) i = Some b → write_at b off bs = Some b' → store i off bs v = Ret tt (with_buf v i b').
Proof. intros E Ew. unfold store. rewrite (bind_ret _ _ _ _ _ (get_buf_ret v i b E)). by rewrite Ew. Qed.

Lemma get_file_ret v i f : aget (video_file_fp v) i = Some (Some f) → get_file i v = Ret f v.
Proof. intros E. unfold get_file. run. by rewrite E. Qed.

Lemma fread_ret v i off n f b b' bs :
  aget (video_file_fp v) i = Some (Some f) → aget (bufs v) i = Some b →
  take (Z.to_nat (u64 n)) (drop (Z.to_nat (fpos f)) (fbytes f)) = bs → write_at b off bs = Some b' →
  fread i off n v = Ret (zlen bs) (with_file (with_buf v i b') i (f <| fpos := fpos f + zlen bs |>)).
Proof.
  intros Hf Hb Hbs Hw. unfold fread. rewrite (bind_ret _ _ _ _ _ (get_file_ret v i f Hf)). cbn zeta.
  rewrite Hbs. by rewrite (bind_ret _ _ _ _ _ (store_ret v i off bs b b' Hb Hw)).
Qed.

Lemma with_buf_get v i b x :
  aget (bufs v) i = Some x → aget (bufs (with_buf v i b)) i = Some b.
Proof. intros E. apply aget_insert_eq. by eapply aget_Some_range. Qed.

Lemma with_file_get v i f x :
  aget (video_file_fp v) i = Some x → aget (video_file_fp (with_file v i f)) i = Some (Some f).
Proof. intros E. apply aget_insert_eq. by eapply aget_Some_range. Qed.

Lemma with_buf_twice v i b b' : with_buf (with_buf v i b) i b' = with_buf v i b'.
Proof. unfold with_buf. cbn. by rewrite list_insert_insert_eq. Qed.
Lemma with_file_twice v i f f' : with_file (with_file v i f) i f' = with_file v i f'.
Proof. unfold with_file. cbn. by rewrite list_insert_insert_eq. Qed.
Lemma with_swap v i f b j : with_buf (with_file v i f) j b = with_file (with_buf v j b) i f.
Proof. done. Qed.

(** Reading the frame at the file's position. *)
Lemma read_frame_ret v ch pre fr rest b :
  frame_ok fr → in_i32 (zlen (fr_payload fr)) → aget (bufs v) ch = Some b →
  FRAME_HEADER_LEN + zlen (fr_payload fr) ≤ zlen b →
  aget (video_file_fp v) ch = Some (Some (mkFile (pre ++ fr_hdr fr ++ fr_payload fr ++ rest) (zlen pre))) →
  readEncodedFrameInFile ch v = Ret (zlen (fr_payload fr))
    (with_file (with_buf v ch (frame_data ch fr ++ drop (Z.to_nat (FRAME_HEADER_LEN + zlen (fr_payload fr))) b)) ch
      (mkFile (pre ++ fr_hdr fr ++ fr_payload fr ++ rest)
              (zlen pre + FRAME_HEADER_LEN + zlen (fr_payload fr)))).
Proof.
  intros (Hh & Hlen & Hpos) Hi Hb Hfit Hf. set (file := pre ++ _) in *.
  assert (Lh : length (fr_hdr fr) = 20%nat) by (unfold zlen, FRAME_HEADER_LEN in Hh; lia).
  assert (Hp : 0 ≤ zlen pre) by apply zlen_nonneg. unfold FRAME_HEADER_LEN in *.
  unfold readEncodedFrameInFile.
  assert (Hd1 : drop (Z.to_nat (zlen pre)) file = fr_hdr fr ++ fr_payload fr ++ rest)
    by (unfold zlen, file; by rewrite Nat2Z.id, drop_app_length).
  rewrite (bind_ret _ _ _ _ _ (fread_ret v ch 0 20 _ b _ (fr_hdr fr) Hf Hb
    ltac:(cbn [fpos fbytes]; rewrite Hd1; apply take_app_length'; by rewrite Lh)
    (write_at_0 b (fr_hdr fr) ltac:(lia)))).
  rewrite Hh. cbn [Z.eqb Z.ltb Z.compare fpos fbytes].
  set (v1 := with_file (with_buf v ch _) ch _).
  assert (Hb1 : aget (bufs v1) ch = Some (fr_hdr fr ++ drop (length (fr_hdr fr)) b)) by exact (with_buf_get v ch _ b Hb).
  assert (Hoff : 0 ≤ hdr_chId_off < zlen (fr_hdr fr ++ drop (length (fr_hdr fr)) b)).
  { rewrite zlen_app. pose proof (zlen_nonneg (drop (length (fr_hdr fr)) b)). unfold hdr_chId_off. lia. }
  rewrite (bind_ret _ _ _ _ _ (store_ret v1 ch hdr_chId_off [u8 ch] _ _ Hb1 (write_at_byte _ _ _ Hoff))).
  set (v2 := with_buf v1 ch _).
  assert (Eh : <[Z.to_nat hdr_chId_off := u8 ch]> (fr_hdr fr ++ drop (length (fr_hdr fr)) b) =
               stamped ch (fr_hdr fr) ++ drop 20 b).
  { rewrite Lh. unfold stamped. by rewrite insert_app_l by (rewrite Lh; unfold hdr_chId_off; lia). }
  assert (Ls : zlen (stamped ch (fr_hdr fr)) = 20) by (unfold stamped; by rewrite zlen_insert).
  assert (Hb2 : aget (bufs v2) ch = Some (stamped ch (fr_hdr fr) ++ drop 20 b)).
  { rewrite <- Eh. exact (with_buf_get v1 ch _ _ Hb1). }
  rewrite (bind_ret _ _ _ _ _ (get_buf_ret v2 ch _ Hb2)).
  rewrite hdr_len_app, hdr_len_stamped, Hlen by done.
  assert (Hf2 : aget (video_file_fp v2) ch = Some (Some (mkFile file (zlen pre + 20)))) by exact (with_file_get _ ch _ _ Hf).
  assert (Hd2 : drop (Z.to_nat (zlen pre + 20)) file = fr_payload fr ++ rest).
  { replace (Z.to_nat (zlen pre + 20)) with (length pre + length (fr_hdr fr))%nat by (unfold zlen; lia).
    rewrite <- drop_drop. unfold file. by rewrite drop_app_length, drop_app_length. }
  assert (Ht2 : take (Z.to_nat (u64 (zlen (fr_payload fr)))) (drop (Z.to_nat (zlen pre + 20)) file) = fr_payload fr).
  { rewrite Hd2. apply take_app_length'. unfold u64, in_i32, zlen in *. rewrite Z.mod_small by lia. lia. }
  assert (Hw2 : write_at (stamped ch (fr_hdr fr) ++ drop 20 b) 20 (fr_payload fr) =
    Some (stamped ch (fr_hdr fr) ++ fr_payload fr ++ drop (length (fr_payload fr)) (drop 20 b))).
  { rewrite <- Ls at 1. apply write_at_app. unfold zlen in *. rewrite length_drop. lia. }
  rewrite (bind_ret _ _ _ _ _ (fread_ret v2 ch 20 (zlen (fr_payload fr)) _ _ _ (fr_payload fr) Hf2 Hb2 Ht2 Hw2)).
  rewrite i32_id by done. unfold mret, CM_ret. f_equal.
  unfold v2, v1. cbn [fpos]. rewrite !with_swap, !with_file_twice, !with_buf_twice. f_equal.
  - f_equal. unfold frame_data. rewrite <- app_assoc, drop_drop. do 3 f_equal. unfold zlen. lia.
Qed.

(** ** Distribution *)

Definition with_tsk v (bs : list (list Z)) (fs : list FifoUtil_Obj) : Vid L :=
  v <| v_tsk ::= fun t => t <| t_sess ::= fun s => s <| frame_buf := bs |> |> <| g_NetSessionFifos := fs |> |>.

(** The elements of the first [k] channels that go to group [g]. *)
Definition group_elts (len k g : Z) : list SessionElement :=
  map (fun i => video_elt i len) (filter (fun i => i `quot` CHS_PER_SESSION = g) (seqZ 0 k)).

(** The contents of buffer [i] after the copy of the [len] bytes at [src]. *)
Definition copied (src : list Z) (len i : Z) (b : list Z) : list Z :=
  stamped i (take (Z.to_nat len) src) ++ drop (Z.to_nat len) b.

Lemma copied_data src len i b fr :
  zlen (fr_hdr fr) = FRAME_HEADER_LEN → take (Z.to_nat len) src = frame_data SOURCE_CH fr →
  copied src len i b = frame_data i fr ++ drop (Z.to_nat len) b.
Proof.
  intros Hh Ht. unfold copied. rewrite Ht. unfold frame_data, stamped. f_equal.
  rewrite insert_app_l by (rewrite length_insert; unfold zlen, FRAME_HEADER_LEN in Hh; lia).
  by rewrite list_insert_insert_eq.
Qed.

Record dist_inv v0 (src : list Z) (len n R : Z) (q : Z → list SessionElement) (k : Z)
    (bs : list (list Z)) (fs : list FifoUtil_Obj) : Prop := {
  di_blen : zlen bs = zlen (bufs v0);
  di_buf i b : aget (bufs v0) i = Some b →
    aget bs i = Some (if decide (0 ≤ i < k ∧ i ≠ SOURCE_CH) then copied src len i b else b);
  di_flen : zlen fs = n;
  di_fifo g : 0 ≤ g < n → ∃ f, aget fs g = Some f ∧ fifo_holds f (q g ++ group_elts len k g) ∧
    R - zlen (group_elts len k g) ≤ room f
}.

Lemma group_elts_succ len k g :
  0 ≤ k → group_elts len (k + 1) g =
    group_elts len k g ++ (if decide (k `quot` CHS_PER_SESSION = g) then [video_elt k len] else []).
Proof.
  intros Hk. unfold group_elts. replace (k + 1) with (Z.of_nat (S (Z.to_nat k))) by lia.
  rewrite seqZ_S, filter_app, map_app. rewrite Z.add_0_l, Z2Nat.id by lia. f_equal.
  rewrite filter_cons, filter_nil. by destruct (decide (k `quot` CHS_PER_SESSION = g)).
Qed.

(** No group gets more than four elements, and fewer while it is not complete. *)
Lemma group_elts_len len (k : nat) g :
  0 ≤ g → zlen (group_elts len (Z.of_nat k) g) ≤ Z.min 4 (Z.max 0 (Z.of_nat k - CHS_PER_SESSION * g)).
Proof.
  intros Hg. unfold CHS_PER_SESSION. induction k as [|k IH].
  { change (0 ≤ Z.min 4 (Z.max 0 (0 - 4 * g))). lia. }
  rewrite Nat2Z.inj_succ. unfold Z.succ. rewrite group_elts_succ, zlen_app by lia.
  unfold CHS_PER_SESSION in *. rewrite Z.quot_div_nonneg by lia.
  case_decide as Ed; [change (zlen [video_elt (Z.of_nat k) len]) with 1
                     |change (zlen (@nil SessionElement)) with 0]; [|lia].
  subst g. pose proof (Z.div_mod (Z.of_nat k) 4). pose proof (Z.mod_pos_bound (Z.of_nat k) 4). lia.
Qed.

Lemma on_fifo_put v0 bs fs g f f' e x :
  aget fs g = Some f → put_msg e f = Ret x f' →
  on_tsk (on_fifo g (put_msg e)) (with_tsk v0 bs fs) = Ret x (with_tsk v0 bs (<[Z.to_nat g := f']> fs)).
Proof. intros Hf Ef. unfold on_tsk, zoom, on_fifo. cbn. rewrite Hf. by rewrite Ef. Qed.

Lemma distribute_loop v0 src len n R q B (k : nat) :
  4 ≤ R →
  FRAME_HEADER_LEN ≤ len ≤ B → Forall (fun b => zlen b = B) (bufs v0) →
  aget (bufs v0) SOURCE_CH = Some src → zlen (bufs v0) ≤ MAX_VIDEO_CHANNEL →
  Z.of_nat k ≤ CHS_PER_SESSION * n → CHS_PER_SESSION * n ≤ zlen (bufs v0) →
  dist_inv v0 src len n R q 0 (bufs v0) (g_NetSessionFifos (v_tsk v0)) →
  ∃ bs fs, for_each (seqZ 0 (Z.of_nat k)) (distribute_one SOURCE_CH len) v0 = Ret tt (with_tsk v0 bs fs) ∧
    dist_inv v0 src len n R q (Z.of_nat k) bs fs.
Proof.
  intros HR Hlen HB Hsrc Hmax Hk Hn H0. induction k as [|k IH].
  { exists (bufs v0), (g_NetSessionFifos (v_tsk v0)). split; [|done]. by destruct v0 as [[[] ? ?] ? ?]. }
  destruct IH as (bs & fs & E & Hinv); [lia|].
  assert (is_Some (aget (bufs v0) (Z.of_nat k))) as [b Hb] by (apply aget_is_Some; lia).
  assert (HlB : ∀ i b, aget (bufs v0) i = Some b → zlen b = B).
  { intros i b' Hb'. rewrite Forall_forall in HB. by eapply HB, aget_elem_of. }
  assert (Hk1 : Z.of_nat (S k) = Z.of_nat k + 1) by lia.
  set (bs' := if decide (Z.of_nat k ≠ SOURCE_CH) then <[k := copied src len (Z.of_nat k) b]> bs else bs).
  assert (Ecp : (if negb (Z.of_nat k =? SOURCE_CH) then
         src ← get_buf SOURCE_CH;
         if zlen src <? len then fault_with OutOfBounds else
         _ ← store (Z.of_nat k) 0 (take (Z.to_nat len) src);
         store (Z.of_nat k) hdr_chId_off [u8 (Z.of_nat k)]
       else mret tt) (with_tsk v0 bs fs) = Ret tt (with_tsk v0 bs' fs)).
  { unfold bs'. destruct (decide (Z.of_nat k ≠ SOURCE_CH)) as [Hne|Heq].
    2:{ by assert (negb (Z.of_nat k =? SOURCE_CH) = false) as -> by lia. }
    assert (negb (Z.of_nat k =? SOURCE_CH) = true) as -> by lia.
    assert (Hs : aget (bufs (with_tsk v0 bs fs)) SOURCE_CH = Some src).
    { change (aget bs SOURCE_CH = Some src). rewrite (di_buf _ _ _ _ _ _ _ _ _ Hinv _ _ Hsrc).
      by rewrite decide_False by lia. }
    rewrite (bind_ret _ _ _ _ _ (get_buf_ret _ _ _ Hs)), (HlB _ _ Hsrc).
    destruct (B <? len) eqn:EB; [lia|].
    assert (Hkb : aget (bufs (with_tsk v0 bs fs)) (Z.of_nat k) = Some b).
    { change (aget bs (Z.of_nat k) = Some b). rewrite (di_buf _ _ _ _ _ _ _ _ _ Hinv _ _ Hb).
      by rewrite decide_False by lia. }
    pose proof (HlB _ _ Hb) as Hlb. pose proof (HlB _ _ Hsrc) as Hls. unfold FRAME_HEADER_LEN in *.
    assert (Hlt : zlen (take (Z.to_nat len) src) = len) by (unfold zlen in *; rewrite length_take; lia).
    rewrite (bind_ret _ _ _ _ _ (store_ret _ _ _ _ _ _ Hkb (write_at_0 b (take (Z.to_nat len) src) ltac:(lia)))).
    assert (Hoff : 0 ≤ hdr_chId_off < zlen (take (Z.to_nat len) src ++ drop (length (take (Z.to_nat len) src)) b)).
    { rewrite zlen_app. pose proof (zlen_nonneg (drop (length (take (Z.to_nat len) src)) b)). unfold hdr_chId_off. lia. }
    rewrite (store_ret _ _ _ _ _ _ (with_buf_get _ _ _ _ Hkb) (write_at_byte _ _ _ Hoff)), with_buf_twice.
    f_equal. unfold with_buf, with_tsk. cbn. rewrite Nat2Z.id. do 4 f_equal. unfold copied, stamped.
    replace (length (take (Z.to_nat len) src)) with (Z.to_nat len) by (unfold zlen in *; lia).
    f_equal. apply insert_app_l. unfold zlen in Hlt. unfold hdr_chId_off. lia. }
  set (g := Z.of_nat k `quot` CHS_PER_SESSION).
  assert (Hg : 0 ≤ g < n).
  { unfold g, CHS_PER_SESSION in *. rewrite Z.quot_div_nonneg by lia. mlia. }
  destruct (di_fifo _ _ _ _ _ _ _ _ _ Hinv g Hg) as (f & Hf & Hh & Hroom).
  assert (Hgl : zlen (group_elts len (Z.of_nat k) g) < 4).
  { pose proof (group_elts_len len k g ltac:(lia)). unfold g, CHS_PER_SESSION in *.
    rewrite Z.quot_div_nonneg in * by lia. pose proof (Z.div_mod (Z.of_nat k) 4).
    pose proof (Z.mod_pos_bound (Z.of_nat k) 4). lia. }
  destruct (put_msg_ok f _ (video_elt (Z.of_nat k) len) Hh) as (f' & Ef & Hh' & Hroom'); [lia|].
  exists bs', (<[Z.to_nat g := f']> fs). split.
  - rewrite seqZ_S, for_each_app, (bind_ret _ _ _ _ _ E), Z.add_0_l. cbn [for_each].
    unfold distribute_one. rewrite (bind_ret _ _ _ tt (with_tsk v0 bs' (<[Z.to_nat g := f']> fs))); [done|].
    rewrite (bind_ret _ _ _ _ _ Ecp). fold g.
    by rewrite (bind_ret _ _ _ _ _ (on_fifo_put _ bs' fs g f f' _ _ Hf Ef)).
  - rewrite Hk1. destruct Hinv as [Hbl Hbuf Hfl Hfifo]. split.
    + unfold bs'. case_decide; [by rewrite zlen_insert|done].
    + intros i b' Hb'. pose proof (Hbuf i b' Hb') as Hi. unfold bs'. unfold SOURCE_CH in *.
      pose proof (aget_Some_range _ _ _ Hb') as Hri.
      destruct (decide (Z.of_nat k ≠ 2)).
      * rewrite <- (Nat2Z.id k) at 1. rewrite aget_insert by lia.
        destruct (decide (i = Z.of_nat k)) as [->|].
        -- rewrite decide_True by lia. congruence.
        -- rewrite Hi. repeat case_decide; done || lia.
      * rewrite Hi. repeat case_decide; done || lia.
    + by rewrite zlen_insert.
    + intros h Hh2. rewrite aget_insert by lia. rewrite group_elts_succ by lia. fold g.
      destruct (decide (h = g)) as [->|Hne].
      * rewrite decide_True by done. exists f'. split; [done|]. rewrite app_assoc. split; [done|].
        rewrite zlen_app. change (zlen [video_elt (Z.of_nat k) len]) with 1. lia.
      * rewrite decide_False by done. rewrite app_nil_r. by apply Hfifo.
Qed.


(** The state in which a turn starts: not quitting, buffers of [B] bytes for
    [CHS_PER_SESSION * n] channels, and in each group's FIFO the messages [q g]
    and room for [R] more. *)
Record video_ready (n B R : Z) (q : Z → list SessionElement) v : Prop := {
  vr_quit : quit (s_gbl (t_sess (v_tsk v))) = 0;
  vr_n : 1 ≤ n;
  vr_bufs i b : aget (bufs v) i = Some b → zlen b = B;
  vr_count : CHS_PER_SESSION * n ≤ zlen (bufs v) ≤ MAX_VIDEO_CHANNEL;
  vr_flen : zlen (g_NetSessionFifos (v_tsk v)) = n;
  vr_fifo g : 0 ≤ g < n → ∃ f, aget (g_NetSessionFifos (v_tsk v)) g = Some f ∧
    fifo_holds f (q g) ∧ R ≤ room f
}.

(** The file of the source channel, read up to the end of [pre]. *)
Definition source_at v (pre rest : list Z) : Prop :=
  aget (video_file_fp v) SOURCE_CH = Some (Some (mkFile (pre ++ rest) (zlen pre))).

Definition frame_bytes (fr : frame) : list Z := fr_hdr fr ++ fr_payload fr.
Definition frame_total (fr : frame) : Z := FRAME_HEADER_LEN + zlen (fr_payload fr).

(** The buffers of the [n] groups start with the frame, each with its channel. *)
Definition buffers_hold v (n : Z) (fr : frame) : Prop :=
  ∀ i, 0 ≤ i < CHS_PER_SESSION * n → ∃ b, aget (bufs v) i = Some b ∧
    take (Z.to_nat (frame_total fr)) b = frame_data i fr.

Lemma quit_ret v : on_tsk (on_sess (on_gbl gblGetQuit)) v = Ret (quit (s_gbl (t_sess (v_tsk v)))) v.
Proof.
  unfold on_tsk, on_sess, on_gbl, zoom, gblGetQuit, gets. by destruct v as [[[] ? ?] ? ?].
Qed.

Lemma video_turn_read v fr pre rest b n B R q :
  video_ready n B R q v → frame_ok fr → frame_total fr ≤ B < 2 ^ 31 →
  aget (bufs v) SOURCE_CH = Some b → source_at v pre (frame_bytes fr ++ rest) →
  let v1 := with_file (with_buf v SOURCE_CH (frame_data SOURCE_CH fr ++ drop (Z.to_nat (frame_total fr)) b)) SOURCE_CH
              (mkFile ((pre ++ frame_bytes fr) ++ rest) (zlen (pre ++ frame_bytes fr))) in
  let v2 := v1 <| frame_count := i32 (frame_count v1 + 1) |> in
  video_turn (CHS_PER_SESSION * n) v =
    (_ ← for_each (seqZ 0 (CHS_PER_SESSION * n)) (distribute_one SOURCE_CH (frame_total fr)); mret false) v2.
Proof.
  intros [Hq Hn1 HB Hcnt Hfl Hfifo] Hok Hfit Hb Hfile v1 v2. pose proof Hok as (Hh & Hhl & Hpos).
  unfold frame_total, frame_bytes, source_at, FRAME_HEADER_LEN in *.
  rewrite <- app_assoc in Hfile.
  unfold video_turn. rewrite (bind_ret _ _ _ _ _ (quit_ret v)), Hq. cbn [Z.eqb negb].
  assert (Hi32 : in_i32 (zlen (fr_payload fr))) by (unfold in_i32; lia).
  assert (Hfb : FRAME_HEADER_LEN + zlen (fr_payload fr) ≤ zlen b) by (rewrite (HB _ _ Hb); apply Hfit).
  rewrite (bind_ret _ _ _ _ _ (read_frame_ret v SOURCE_CH pre fr rest b Hok Hi32 Hb Hfb Hfile)).
  destruct (zlen (fr_payload fr) <=? 0) eqn:E0; [lia|].
  assert (Ev : with_file (with_buf v SOURCE_CH (frame_data SOURCE_CH fr ++
      drop (Z.to_nat (FRAME_HEADER_LEN + zlen (fr_payload fr))) b)) SOURCE_CH
      (mkFile (pre ++ fr_hdr fr ++ fr_payload fr ++ rest) (zlen pre + FRAME_HEADER_LEN + zlen (fr_payload fr))) = v1).
  { unfold v1. f_equal. f_equal; [by rewrite <- !app_assoc|]. rewrite !zlen_app, Hh. unfold FRAME_HEADER_LEN. lia. }
  rewrite Ev, (bind_ret _ _ _ tt v2) by done. unfold FRAME_HEADER_LEN.
  by replace (u32 (zlen (fr_payload fr) + 20)) with (20 + zlen (fr_payload fr))
    by (rewrite u32_id by (unfold in_u32; lia); lia).
Qed.

Lemma video_turn_ret n B R q v fr pre rest :
  video_ready n B R q v → 4 ≤ R → frame_ok fr → frame_total fr ≤ B < 2 ^ 31 →
  source_at v pre (frame_bytes fr ++ rest) →
  ∃ v', video_turn (CHS_PER_SESSION * n) v = Ret false v' ∧
    video_ready n B (R - 4) (fun g => q g ++ group_elts (frame_total fr) (CHS_PER_SESSION * n) g) v' ∧
    buffers_hold v' n fr ∧ source_at v' (pre ++ frame_bytes fr) rest.
Proof.
  intros Hr HR Hok Hfit Hfile. pose proof Hok as (Hh & Hhl & Hpos).
  pose proof Hr as [Hq Hn1 HB Hcnt Hfl Hfifo].
  assert (is_Some (aget (bufs v) SOURCE_CH)) as [b Hb].
  { apply aget_is_Some. unfold SOURCE_CH, CHS_PER_SESSION in *. lia. }
  rewrite (video_turn_read v fr pre rest b n B R q Hr Hok Hfit Hb Hfile).
  set (b2 := frame_data SOURCE_CH fr ++ _). set (v1 := with_file _ _ _). set (v2 := v1 <| frame_count := _ |>).
  set (len := frame_total fr) in *.
  assert (Lfd : ∀ i, zlen (frame_data i fr) = len).
  { intros i. unfold frame_data, stamped, len, frame_total. by rewrite zlen_app, zlen_insert, Hh. }
  assert (Hb2 : zlen b2 = B).
  { unfold b2. pose proof (HB _ _ Hb). pose proof (Lfd SOURCE_CH). rewrite zlen_app.
    unfold zlen in *. rewrite length_drop. lia. }
  assert (Ht : take (Z.to_nat len) b2 = frame_data SOURCE_CH fr).
  { unfold b2. apply take_app_length'. pose proof (Lfd SOURCE_CH). unfold zlen in *. lia. }
  assert (Hrb : 0 ≤ SOURCE_CH < zlen (bufs v)) by (by eapply aget_Some_range).
  assert (Hbufs2 : bufs v2 = <[Z.to_nat SOURCE_CH := b2]> (bufs v)) by done.
  assert (HB2 : ∀ i b', aget (bufs v2) i = Some b' → zlen b' = B).
  { intros i b'. rewrite Hbufs2, aget_insert by done. case_decide; [by intros [= <-]|apply HB]. }
  assert (Hs2 : aget (bufs v2) SOURCE_CH = Some b2) by (rewrite Hbufs2; by apply aget_insert_eq).
  assert (Hz2 : zlen (bufs v2) = zlen (bufs v)) by (rewrite Hbufs2; apply zlen_insert).
  assert (H4n : Z.of_nat (Z.to_nat (CHS_PER_SESSION * n)) = CHS_PER_SESSION * n)
    by (rewrite Z2Nat.id; unfold CHS_PER_SESSION in *; lia).
  destruct (distribute_loop v2 b2 len n R q B (Z.to_nat (CHS_PER_SESSION * n))) as (bs & fs & E & Hinv);
    rewrite ?Hz2, ?H4n; try lia; try done.
  - unfold len, frame_total in *. pose proof (zlen_nonneg (fr_payload fr)). lia.
  - apply Forall_forall. intros b' [i Hi]%list_elem_of_lookup_1. apply (HB2 (Z.of_nat i)).
    unfold aget. by rewrite decide_True, Nat2Z.id by lia.
  - split; [done| |done|].
    + intros i b' Hb'. by rewrite decide_False by lia.
    + intros g Hg. destruct (Hfifo g Hg) as (f & Hf & Hhold & Hroom). exists f.
      split; [done|]. unfold group_elts. rewrite seqZ_nil, filter_nil by lia. cbn. rewrite app_nil_r. split; [done|].
      change (zlen []) with 0. lia.
  - rewrite H4n in E, Hinv. rewrite (bind_ret _ _ _ _ _ E). exists (with_tsk v2 bs fs). split; [done|].
    assert (Hall : ∀ i, 0 ≤ i < CHS_PER_SESSION * n →
      ∃ b', aget bs i = Some b' ∧ take (Z.to_nat len) b' = frame_data i fr).
    { intros i Hi. assert (is_Some (aget (bufs v2) i)) as [bi Hbi] by (apply aget_is_Some; lia).
      eexists. split; [exact (di_buf _ _ _ _ _ _ _ _ _ Hinv i bi Hbi)|].
      destruct (decide _) as [_|Hno].
      - rewrite (copied_data _ _ _ _ _ Hh Ht). apply take_app_length'. pose proof (Lfd i). unfold zlen in *. lia.
      - assert (i = SOURCE_CH) as -> by (destruct (decide (i = SOURCE_CH)); [done|tauto]).
        rewrite Hs2 in Hbi. by simplify_eq. }
    destruct Hinv as [Hbl Hbuf Hfl' Hfifo']. split_and!; [split|done| ]; try done.
    + intros i b'. change (bufs (with_tsk v2 bs fs)) with bs. intros Hb'.
      assert (is_Some (aget (bufs v2) i)) as [bi Hbi].
      { apply aget_is_Some. rewrite <- Hbl. by eapply aget_Some_range. }
      pose proof (HB2 _ _ Hbi) as Hlbi. rewrite (Hbuf i bi Hbi) in Hb'. injection Hb' as <-. case_decide; [|done].
      rewrite (copied_data _ _ _ _ _ Hh Ht), zlen_app, Lfd. pose proof (Lfd i).
      unfold zlen in *. rewrite length_drop. lia.
    + change (bufs (with_tsk v2 bs fs)) with bs. by rewrite Hbl, Hz2.
    + intros g Hg. destruct (Hfifo' g Hg) as (f & Hf & Hhold & Hroom). exists f. split_and!; [done..|].
      pose proof (group_elts_len len (Z.to_nat (CHS_PER_SESSION * n)) g ltac:(lia)) as Hgl. rewrite H4n in Hgl. lia.
    + unfold source_at. change (video_file_fp (with_tsk v2 bs fs)) with (video_file_fp v1).
      unfold v1. exact (with_file_get (with_buf v SOURCE_CH b2) _ _ _ Hfile).
Qed.

(** [k] turns of the loop. *)
Definition video_turns (n : Z) (k : nat) : CM (Vid L) unit :=
  for_each (replicate k tt) (fun _ => _ ← video_turn (CHS_PER_SESSION * n); mret tt).

Definition file_of (frs : list frame) : list Z := concat (map frame_bytes frs).

(** What [frs] put on the FIFO of group [g]. *)
Definition elts_of (n g : Z) (frs : list frame) : list SessionElement :=
  concat (map (fun fr => group_elts (frame_total fr) (CHS_PER_SESSION * n) g) frs).

Lemma video_turns_ret n B q frs R v pre rest :
  video_ready n B R q v → 4 * zlen frs ≤ R → Forall frame_ok frs →
  Forall (fun fr => frame_total fr ≤ B) frs → B < 2 ^ 31 →
  source_at v pre (file_of frs ++ rest) →
  ∃ v', video_turns n (length frs) v = Ret tt v' ∧
    video_ready n B (R - 4 * zlen frs) (fun g => q g ++ elts_of n g frs) v' ∧
    source_at v' (pre ++ file_of frs) rest ∧
    (∀ fr, last frs = Some fr → buffers_hold v' n fr).
Proof.
  revert q R v pre. induction frs as [|fr frs IH]; intros q R v pre Hr HR Hok Hfit HB Hs.
  - exists v. split_and!; [done| |by rewrite app_nil_r|done].
    destruct Hr as [? ? ? ? ? Hf]. split; try done. intros g Hg. unfold elts_of. cbn. rewrite app_nil_r.
    destruct (Hf g Hg) as (f & ? & ? & ?). exists f. split_and!; [done..|]. change (zlen []) with 0. lia.
  - apply Forall_cons in Hok as [Hok1 Hok], Hfit as [Hfit1 Hfit].
    rewrite zlen_cons in HR. pose proof (zlen_nonneg frs).
    change (source_at v pre ((frame_bytes fr ++ file_of frs) ++ rest)) in Hs. rewrite <- app_assoc in Hs.
    destruct (video_turn_ret n B R q v fr pre _ Hr ltac:(lia) Hok1 ltac:(lia) Hs) as (v1 & E1 & Hr1 & Hb1 & Hs1).
    destruct (IH _ _ v1 _ Hr1 ltac:(lia) Hok Hfit HB Hs1) as (v2 & E2 & Hr2 & Hs2 & Hl2).
    exists v2. split_and!.
    + unfold video_turns in *. cbn [length]. rewrite replicate_S. cbn [for_each]. rewrite (bind_ret _ _ _ tt v1); [done|].
      by rewrite (bind_ret _ _ _ _ _ E1).
    + destruct Hr2 as [? ? ? ? ? Hf]. split; try done. intros g Hg.
      destruct (Hf g Hg) as (f & ? & Hh & ?). exists f. split_and!; [done| |rewrite zlen_cons; lia].
      by rewrite <- app_assoc in Hh.
    + by rewrite <- app_assoc in Hs2.
    + intros fr' Hl. destruct frs as [|fr2 frs]; [|by apply Hl2].
      injection Hl as <-. unfold video_turns in E2. cbn in E2. injection E2 as <-. done.
Qed.

(** At the end of the file the turn only sets the position back. *)
Lemma video_turn_eof v n B R q file :
  video_ready n B R q v → source_at v file [] →
  video_turn (CHS_PER_SESSION * n) v = Ret false (with_file v SOURCE_CH (mkFile file 0)).
Proof.
  intros [Hq Hn1 HB Hcnt _ _] Hs. unfold source_at in Hs. rewrite app_nil_r in Hs.
  assert (is_Some (aget (bufs v) SOURCE_CH)) as [b Hb].
  { apply aget_is_Some. unfold SOURCE_CH, CHS_PER_SESSION in *. lia. }
  unfold video_turn. rewrite (bind_ret _ _ _ _ _ (quit_ret v)), Hq. cbn [Z.eqb negb].
  assert (Hd : take (Z.to_nat (u64 FRAME_HEADER_LEN)) (drop (Z.to_nat (zlen file)) file) = []).
  { rewrite drop_ge by (unfold zlen; lia). by rewrite take_nil. }
  assert (Eb : with_buf v SOURCE_CH b = v).
  { unfold with_buf, bufs in *. destruct v as [[[] ? ?] ? ?]. cbn in *. unfold aget in Hb.
    rewrite decide_True in Hb by (unfold SOURCE_CH; lia). by rewrite list_insert_id. }
  rewrite (bind_ret _ _ _ 0 (with_file v SOURCE_CH (mkFile file 0))); [done|].
  unfold readEncodedFrameInFile.
  rewrite (bind_ret _ _ _ _ _ (fread_ret v SOURCE_CH 0 FRAME_HEADER_LEN _ b _ [] Hs Hb Hd
    (write_at_0 b [] (zlen_nonneg b)))).
  cbn [length app]. rewrite drop_0, Eb. change (zlen (@nil Z) =? 0) with true. cbv iota.
  rewrite (bind_ret _ _ _ _ _ (get_file_ret _ _ _ (with_file_get v SOURCE_CH _ _ Hs))).
  rewrite (bind_ret _ _ _ tt (with_file v SOURCE_CH (mkFile file 0))); [done|].
  exact (f_equal (Ret tt) (with_file_twice v SOURCE_CH _ (mkFile file 0))).
Qed.

(** The header is read, then the payload does not fit. *)
Lemma fread_overflow v i off n f b :
  aget (video_file_fp v) i = Some (Some f) → aget (bufs v) i = Some b →
  zlen b < off + zlen (take (Z.to_nat (u64 n)) (drop (Z.to_nat (fpos f)) (fbytes f))) →
  fread i off n v = Flt OutOfBounds.
Proof.
  intros Hf Hb Hlt. unfold fread. rewrite (bind_ret _ _ _ _ _ (get_file_ret v i f Hf)).
  unfold store. cbn zeta. unfold mbind, CM_bind. rewrite (get_buf_ret v i b Hb). by rewrite write_at_none.
Qed.

Lemma flush_loop v last q (n : Z) (k : nat) :
  Z.of_nat k ≤ n → zlen (g_NetSessionFifos (v_tsk v)) = n →
  (∀ g, 0 ≤ g < n → ∃ f, aget (g_NetSessionFifos (v_tsk v)) g = Some f ∧ fifo_holds f (q g) ∧ 1 ≤ room f) →
  let fl := mkElt CMD_SESSION_FLUSH (e_chId last) (e_dataType last) (e_buffer last) (e_len last) in
  ∃ fs, for_each (seqZ 0 (Z.of_nat k)) (fun i => _ ← on_tsk (on_fifo i (put_msg fl)); mret tt) v =
      Ret tt (with_tsk v (bufs v) fs) ∧ zlen fs = n ∧
    (∀ g, 0 ≤ g < n → ∃ f, aget fs g = Some f ∧
       if decide (g < Z.of_nat k) then fifo_holds f (q g ++ [fl]) else fifo_holds f (q g) ∧ 1 ≤ room f).
Proof.
  intros Hk Hn Hf fl. induction k as [|k IH].
  - exists (g_NetSessionFifos (v_tsk v)). split_and!; [by destruct v as [[[] ? ?] ? ?]|done|].
    intros g Hg. destruct (Hf g Hg) as (f & ? & ?). exists f. split; [done|]. by rewrite decide_False by lia.
  - destruct IH as (fs & E & Hz & Hfs); [lia|].
    destruct (Hfs (Z.of_nat k) ltac:(lia)) as (f & Ef & Hh). rewrite decide_False in Hh by lia.
    destruct Hh as [Hh Hroom]. destruct (put_msg_ok f _ fl Hh ltac:(lia)) as (f' & Ep & Hh' & _).
    exists (<[Z.to_nat (Z.of_nat k) := f']> fs). split_and!.
    + rewrite seqZ_S, for_each_app, (bind_ret _ _ _ _ _ E), Z.add_0_l. cbn [for_each].
      rewrite (bind_ret _ _ _ tt (with_tsk v (bufs v) (<[Z.to_nat (Z.of_nat k) := f']> fs))); [done|].
      by rewrite (bind_ret _ _ _ _ _ (on_fifo_put v (bufs v) fs (Z.of_nat k) f f' fl _ Ef Ep)).
    + by rewrite zlen_insert.
    + intros g Hg. rewrite aget_insert by lia. destruct (decide (g = Z.of_nat k)) as [->|Hne].
      * exists f'. split; [done|]. by rewrite decide_True by lia.
      * destruct (Hfs g Hg) as (f2 & ? & ?). exists f2. split; [done|].
        case_decide; case_decide; done || lia.
Qed.

(** C17: the source thread delivers the file: while the frames of the file fit
    the buffers and the FIFOs have room, one turn per frame puts for each
    channel, on the FIFO of its group and in the order of the file, one element
    with the frame's length, and leaves the frame in the buffer of every channel,
    with the channel number stored in its header; at the end of the file a turn
    only goes back to the start. *)
Theorem video_stream n B q frs R v :
  video_ready n B R q v → 4 * zlen frs ≤ R → Forall frame_ok frs →
  Forall (fun fr => frame_total fr ≤ B) frs → B < 2 ^ 31 →
  source_at v [] (file_of frs) →
  ∃ v', video_turns n (length frs) v = Ret tt v' ∧
    (∀ g, 0 ≤ g < n → ∃ f, aget (g_NetSessionFifos (v_tsk v')) g = Some f ∧ fifo_holds f (q g ++ elts_of n g frs)) ∧
    (∀ fr, last frs = Some fr → buffers_hold v' n fr) ∧
    ∃ v'', video_turn (CHS_PER_SESSION * n) v' = Ret false v'' ∧
      source_at v'' [] (file_of frs) ∧ v_tsk v'' = v_tsk v'.
Proof.
  intros Hr HR Hok Hfit HB Hs. rewrite <- (app_nil_r (file_of frs)) in Hs.
  destruct (video_turns_ret n B q frs R v [] [] Hr HR Hok Hfit HB Hs) as (v' & E & Hr' & Hs' & Hl).
  exists v'. split_and!; [done| |done|].
  - intros g Hg. destruct (vr_fifo _ _ _ _ _ Hr' g Hg) as (f & ? & ? & _). by exists f.
  - exists (with_file v' SOURCE_CH (mkFile (file_of frs) 0)). split_and!; [|exact (with_file_get v' _ _ _ Hs')|done].
    exact (video_turn_eof v' n B _ _ (file_of frs) Hr' Hs').
Qed.

(** An element carries the address of the channel's buffer, not the frame:
    when the thread reads a second frame of the same length before the session
    thread has taken the first one's elements, every channel has two elements
    queued and both read the second frame; the first is lost. *)
Theorem video_overrun n B q f1 f2 R v rest :
  video_ready n B R q v → 8 ≤ R → frame_ok f1 → frame_ok f2 →
  zlen (fr_payload f1) = zlen (fr_payload f2) → fr_payload f1 ≠ fr_payload f2 →
  frame_total f1 ≤ B < 2 ^ 31 → source_at v [] (frame_bytes f1 ++ frame_bytes f2 ++ rest) →
  ∃ v', video_turns n 2 v = Ret tt v' ∧
    (∀ g, 0 ≤ g < n → ∃ f, aget (g_NetSessionFifos (v_tsk v')) g = Some f ∧
      fifo_holds f (q g ++ group_elts (frame_total f1) (CHS_PER_SESSION * n) g
                        ++ group_elts (frame_total f1) (CHS_PER_SESSION * n) g)) ∧
    ∀ i, 0 ≤ i < CHS_PER_SESSION * n → ∃ b, aget (bufs v') i = Some b ∧
      take (Z.to_nat (frame_total f1)) b = frame_data i f2 ∧ frame_data i f2 ≠ frame_data i f1.
Proof.
  intros Hr HR Hok1 Hok2 Hlen Hne Hfit Hs.
  assert (Et : frame_total f2 = frame_total f1) by (unfold frame_total; lia).
  assert (Hs' : source_at v [] (file_of [f1; f2] ++ rest)).
  { unfold file_of. cbn [map concat]. by rewrite app_nil_r, <- app_assoc. }
  destruct (video_turns_ret n B q [f1; f2] R v [] rest Hr) as (v' & E & Hr' & _ & Hl); try done.
  - by repeat (apply Forall_cons; split).
  - repeat (apply Forall_cons; split); [lia|lia|done].
  - lia.
  - exists v'. split_and!; [done| |].
    + intros g Hg. destruct (vr_fifo _ _ _ _ _ Hr' g Hg) as (f & Ef & Hh & _). exists f. split; [done|].
      unfold elts_of in Hh. cbn [map concat] in Hh. by rewrite Et, app_nil_r in Hh.
    + intros i Hi. destruct (Hl f2 eq_refl i Hi) as (b & Eb & Hb). rewrite Et in Hb. exists b. split_and!; [done..|].
      unfold frame_data. intros [_ He]%app_inj_1; [by rewrite He in Hne|].
      unfold stamped. rewrite !length_insert. destruct Hok1 as [H1 _], Hok2 as [H2 _]. unfold zlen in *. lia.
Qed.

(** The length in the frame header is not compared with the buffer: when
    the bytes it announces and the file still has do not fit behind the header,
    a negative length standing for a huge one, the read runs past the buffer. *)
Theorem video_frame_overflow n B R q v h rest b :
  video_ready n B R q v → zlen h = FRAME_HEADER_LEN → FRAME_HEADER_LEN ≤ B →
  aget (bufs v) SOURCE_CH = Some b → source_at v [] (h ++ rest) →
  B < FRAME_HEADER_LEN + Z.min (u64 (hdr_len h)) (zlen rest) →
  video_turn (CHS_PER_SESSION * n) v = Flt OutOfBounds.
Proof.
  intros [Hq Hn1 HB _ _ _] Hh HBh Hb Hs Hover. pose proof (HB _ _ Hb) as HbB.
  unfold FRAME_HEADER_LEN in *. assert (Lh : length h = 20%nat) by (unfold zlen in Hh; lia).
  unfold video_turn. rewrite (bind_ret _ _ _ _ _ (quit_ret v)), Hq. cbn [Z.eqb negb].
  unfold mbind at 1, CM_bind. unfold readEncodedFrameInFile, FRAME_HEADER_LEN.
  assert (Hd : take (Z.to_nat (u64 20)) (drop (Z.to_nat 0) (h ++ rest)) = h) by (by apply take_app_length').
  rewrite (bind_ret _ _ _ _ _ (fread_ret v SOURCE_CH 0 20 _ b _ h Hs Hb Hd (write_at_0 b h ltac:(lia)))).
  rewrite Hh. cbn [Z.eqb Z.ltb Z.compare fpos fbytes app].
  set (v1 := with_file (with_buf v _ _) _ _).
  assert (Hb1 : aget (bufs v1) SOURCE_CH = Some (h ++ drop (length h) b)) by exact (with_buf_get v SOURCE_CH _ b Hb).
  assert (Hoff : 0 ≤ hdr_chId_off < zlen (h ++ drop (length h) b)).
  { rewrite zlen_app. pose proof (zlen_nonneg (drop (length h) b)). unfold hdr_chId_off. lia. }
  rewrite (bind_ret _ _ _ _ _ (store_ret v1 SOURCE_CH hdr_chId_off [u8 SOURCE_CH] _ _ Hb1 (write_at_byte _ _ _ Hoff))).
  set (v2 := with_buf v1 SOURCE_CH _).
  assert (Hb2 : aget (bufs v2) SOURCE_CH = Some (stamped SOURCE_CH h ++ drop (length h) b)).
  { transitivity (Some (<[Z.to_nat hdr_chId_off := u8 SOURCE_CH]> (h ++ drop (length h) b)));
      [exact (with_buf_get v1 SOURCE_CH _ _ Hb1)|].
    f_equal. apply insert_app_l. rewrite Lh. unfold hdr_chId_off. lia. }
  rewrite (bind_ret _ _ _ _ _ (get_buf_ret v2 SOURCE_CH _ Hb2)).
  rewrite hdr_len_app, hdr_len_stamped by (unfold stamped; by rewrite zlen_insert).
  unfold mbind, CM_bind.
  rewrite (fread_overflow v2 SOURCE_CH 20 (hdr_len h) (mkFile (h ++ rest) 20) (stamped SOURCE_CH h ++ drop (length h) b)); [done| |exact Hb2|].
  - exact (with_file_get (with_buf v SOURCE_CH (h ++ drop (length h) b)) _ _ _ Hs).
  - cbn [fpos fbytes]. rewrite drop_app_length' by (rewrite Lh; lia).
    assert (zlen (stamped SOURCE_CH h ++ drop (length h) b) = B).
    { unfold stamped. rewrite zlen_app, zlen_insert, Hh. unfold zlen in *. rewrite length_drop. lia. }
    pose proof (Z.mod_pos_bound (hdr_len h) (2 ^ 64)). unfold u64 in *. unfold zlen in *.
    rewrite length_take. lia.
Qed.

(** Once the process is quitting the thread puts a flush element behind the
    messages of every group's FIFO and ends. *)
Theorem video_quit_flushes n q v last fuel :
  quit (s_gbl (t_sess (v_tsk v))) ≠ 0 → 0 ≤ n → zlen (g_NetSessionFifos (v_tsk v)) = n →
  (∀ g, 0 ≤ g < n → ∃ f, aget (g_NetSessionFifos (v_tsk v)) g = Some f ∧ fifo_holds f (q g) ∧ 1 ≤ room f) →
  ∃ v', videoEncodeThrFxn (S fuel) (CHS_PER_SESSION * n) last v = Ret true v' ∧
    ∀ g, 0 ≤ g < n → ∃ f e, aget (g_NetSessionFifos (v_tsk v')) g = Some f ∧
      fifo_holds f (q g ++ [e]) ∧ e_command e = CMD_SESSION_FLUSH.
Proof.
  intros Hq Hn Hz Hf. destruct (flush_loop v last q n (Z.to_nat n) ltac:(lia) Hz Hf) as (fs & E & _ & Hfs).
  rewrite Z2Nat.id in E, Hfs by lia. exists (with_tsk v (bufs v) fs). split.
  - cbn [videoEncodeThrFxn]. rewrite (bind_ret _ _ v true v).
    + unfold video_end. replace ((CHS_PER_SESSION * n) `quot` CHS_PER_SESSION) with n
        by (unfold CHS_PER_SESSION; rewrite Z.mul_comm, Z.quot_mul; lia).
      by rewrite (bind_ret _ _ _ _ _ E).
    + unfold video_turn. rewrite (bind_ret _ _ _ _ _ (quit_ret v)).
      by apply Z.eqb_neq in Hq as ->.
  - intros g Hg. destruct (Hfs g Hg) as (f & Ef & Hh). rewrite decide_True in Hh by lia.
    eexists f, _. by split_and!.
Qed.

End Spec.

(** * Concrete states: one group, buffers of 24 bytes, two frames *)

#[local] Instance elt_cells : EltLayout.
Proof.
  refine {|
    msg_size := 5;
    enc e := [e_command e; e_chId e; e_dataType e; e_buffer e; e_len e];
    dec l := match l with [a; b; c; d; e] => Some (mkElt a b c d e) | _ => None end
  |}; [by unfold PIPE_BUF|done|by intros []].
Defined.

Definition frame_ab (a b : Z) : frame :=
  mkFrame (replicate 12 0 ++ [2; 0; 0; 0] ++ replicate 4 0) [a; b].

Definition vid0 (file : list Z) : Vid CallLog :=
  mkVid (mkTsk ((Session.sess0 4) <| frame_buf := replicate 4 (replicate 24 0) |>) [mkFifo 5 true true []] (mkFifo 0 false false []))
        (replicate 4 (Some (mkFile file 0))) 0.

Lemma frame_ab_ok a b : frame_ok (frame_ab a b).
Proof. by split_and!. Qed.

Lemma vid0_ready file : video_ready 1 24 12 (fun _ => []) (vid0 file).
Proof.
  split; try done.
  - intros i b Hb%aget_elem_of. by apply elem_of_replicate in Hb as [-> _].
  - intros g Hg. exists (mkFifo 5 true true []). assert (g = 0) as -> by lia. by split_and!.
Qed.

Lemma video_stream_witness :
  ∃ v' f, video_turns 1 2 (vid0 (file_of [frame_ab 7 8; frame_ab 9 10])) = Ret tt v' ∧
    aget (g_NetSessionFifos (v_tsk v')) 0 = Some f ∧
    fifo_holds f [video_elt 0 22; video_elt 1 22; video_elt 2 22; video_elt 3 22;
                  video_elt 0 22; video_elt 1 22; video_elt 2 22; video_elt 3 22].
Proof.
  destruct (video_stream 1 24 (fun _ => []) [frame_ab 7 8; frame_ab 9 10] 12
    (vid0 (file_of [frame_ab 7 8; frame_ab 9 10]))) as (v' & E & Hf & _).
  - apply vid0_ready.
  - by unfold zlen.
  - by repeat (apply Forall_cons; split; [apply frame_ab_ok|]).
  - by repeat (apply Forall_cons; split).
  - done.
  - reflexivity.
  - destruct (Hf 0 ltac:(lia)) as (f & Ef & Hh). exists v', f. exact (conj E (conj Ef Hh)).
Defined.

Lemma video_overrun_witness :
  ∃ v', video_turns 1 2 (vid0 (frame_bytes (frame_ab 7 8) ++ frame_bytes (frame_ab 9 10) ++ [])) = Ret tt v' ∧
    ∃ b, aget (bufs v') 3 = Some b ∧ take 22 b = frame_data 3 (frame_ab 9 10).
Proof.
  destruct (video_overrun 1 24 (fun _ => []) (frame_ab 7 8) (frame_ab 9 10) 12
    (vid0 (frame_bytes (frame_ab 7 8) ++ frame_bytes (frame_ab 9 10) ++ [])) []) as (v' & E & _ & Hb).
  - apply vid0_ready.
  - lia.
  - apply frame_ab_ok.
  - apply frame_ab_ok.
  - reflexivity.
  - discriminate.
  - done.
  - reflexivity.
  - destruct (Hb 3 ltac:(unfold CHS_PER_SESSION; lia)) as (b & Eb & Ht & _).
    exists v'. split; [exact E|]. exists b. exact (conj Eb Ht).
Defined.

(** A header that announces 2^31 - 1 bytes in a file that has five. *)
Lemma video_frame_overflow_witness :
  video_turn 4 (vid0 ((replicate 12 0 ++ [255; 255; 255; 127] ++ replicate 4 0) ++ [1; 2; 3; 4; 5])) = Flt OutOfBounds.
Proof.
  exact (video_frame_overflow 1 24 12 (fun _ => []) _ (replicate 12 0 ++ [255; 255; 255; 127] ++ replicate 4 0)
    [1; 2; 3; 4; 5] (replicate 24 0) (vid0_ready _) eq_refl ltac:(done) eq_refl eq_refl ltac:(by vm_compute)).
Defined.

Definition vid_quit : Vid CallLog :=
  (vid0 []) <| v_tsk ::= fun t => t <| t_sess ::= fun s => s <| s_gbl ::= fun g => g <| quit := 1 |> |> |> |>.

Lemma video_quit_flushes_witness :
  ∃ v', videoEncodeThrFxn 1 4 (video_elt 3 22) vid_quit = Ret true v' ∧
    ∃ f e, aget (g_NetSessionFifos (v_tsk v')) 0 = Some f ∧ fifo_holds f [e] ∧ e_command e = CMD_SESSION_FLUSH.
Proof.
  destruct (video_quit_flushes 1 (fun _ => []) vid_quit (video_elt 3 22) 0) as (v' & E & Hf).
  - discriminate.
  - lia.
  - reflexivity.
  - intros g Hg. exists (mkFifo 5 true true []). assert (g = 0) as -> by lia. by split_and!.
  - exists v'. split; [exact E|]. exact (Hf 0 ltac:(lia)).
Defined.
