(* ===== verification/Server.v ===== *)
(** * TCP command server ([network/src/serverIf.c], [server.c], [network/inc])

    The packets of [command.h] as bytes, the thread that serves one client as a
    loop over the results of its [recv] and [send] calls, and the listening,
    closing and alarm loops over the table of clients. *)

From S2P Require Import Prelude Gbl RtpSend Session.

Definition TCP_CMD_HEADER_LEN : Z := 8.
Definition TCP_CMD_HEADER_STR : list Z := [0xAA; 0xA1; 0xA2; 0xA3; 0xA4; 0xA5; 0xA6; 0xFF].
Definition ALARM_HEADER_STR : list Z := [0x00; 0xA1; 0xA2; 0xA3; 0xA4; 0xA5; 0xA6; 0xFF].
Definition SERVER_PACK_LEN : Z := 20.
Definition RETURN_PACK_LEN : Z := 16.
Definition CLIENTNUM : Z := 20.
Definition EINTR : Z := 4.
Definition EAGAIN : Z := 11.
Definition EWOULDBLOCK : Z := 11.

Definition DVS_RESOLUTION_CIF : Z := 0.
Definition DVS_RESOLUTION_D1 : Z := 1.

Inductive ServerCMD :=
  | DVS_CMD_RESET_BOARD
  | DVS_CMD_ADD_CLIENT
  | DVS_CMD_DEL_CLIENT
  | DVS_CMD_OPEN_CHANNEL
  | DVS_CMD_CLOSE_CHANNEL
  | DVS_CMD_GET_RESOLUTION
  | DVS_CMD_SET_RESOLUTION
  | DVS_CMD_SET_BITRATE
  | DVS_CMD_ON_ALARMOUT
  | DVS_CMD_OFF_ALARMOUT
  | DVS_CMD_GET_ALARMOUT
  | DVS_CMD_GET_ALARMIN
  | DVS_CMD_ON_AUDIO
  | DVS_CMD_OFF_AUDIO.

(** The enumeration's numbers; a value off the wire may be none of them. *)
Definition server_cmds : list ServerCMD :=
  [DVS_CMD_RESET_BOARD; DVS_CMD_ADD_CLIENT; DVS_CMD_DEL_CLIENT; DVS_CMD_OPEN_CHANNEL;
   DVS_CMD_CLOSE_CHANNEL; DVS_CMD_GET_RESOLUTION; DVS_CMD_SET_RESOLUTION; DVS_CMD_SET_BITRATE;
   DVS_CMD_ON_ALARMOUT; DVS_CMD_OFF_ALARMOUT; DVS_CMD_GET_ALARMOUT; DVS_CMD_GET_ALARMIN;
   DVS_CMD_ON_AUDIO; DVS_CMD_OFF_AUDIO].
Definition cmd_of (z : Z) : option ServerCMD := aget server_cmds z.

Inductive ReturnCMD :=
  | DVS_RETURN_SUCCESS
  | DVS_RETURN_FAIL
  | DVS_RETURN_TIMEOUT
  | DVS_RETURN_INVLID_HEADER
  | DVS_RETURN_INVLID_CMD
  | DVS_RETURN_INVLID_PRM.

#[export] Instance ServerCMD_eq_dec : EqDecision ServerCMD.
Proof. solve_decision. Defined.
#[export] Instance ReturnCMD_eq_dec : EqDecision ReturnCMD.
Proof. solve_decision. Defined.

(** ** Packets *)

Record ServerPack := mkServerPack {
  cmdHeader : list Z;
  serverCMD : Z;
  Parameters : list Z
}.

(** The packed struct: 8 bytes, a little-endian enum, a union of 8 bytes. *)
Definition pack_of (bs : list Z) : ServerPack :=
  mkServerPack (slice bs 0 8) (le_val (slice bs 8 4)) (slice bs 12 8).
Definition pack_bytes (p : ServerPack) : list Z :=
  cmdHeader p ++ le_bytes 4 (serverCMD p) ++ Parameters p.

(** The members of the union. *)
Definition videoport (p : ServerPack) : Z := i32 (le_val (slice (Parameters p) 0 4)).
Definition audioport (p : ServerPack) : Z := i32 (le_val (slice (Parameters p) 4 4)).
Definition pack_chId (p : ServerPack) : Z := le_val (slice (Parameters p) 0 1).
Definition pack_resolution (p : ServerPack) : Z := le_val (slice (Parameters p) 0 4).

(** [None] for a member the thread has not written (it is sent as it is). *)
Record ReturnPack := mkReturnPack {
  rp_header : list Z;
  returnCMD : option ReturnCMD;
  rp_resolution : option Z
}.

#[export] Instance eta_ReturnPack : Eta ReturnPack := fun r =>
  mkReturnPack (rp_header r) (returnCMD r) (rp_resolution r).

(** ** The thread of one client *)

(** The thread's locals and its client record; [sv_out] is what it handed to
    [send]. [sv_clientID] is [None] until the first assignment. *)
Record Srv (L : Type) := mkSrv {
  sv_sess : Sess L;
  sv_clientID : option Z;
  clientQuit : bool;
  rPack : ReturnPack;
  sv_out : list ReturnPack;
  m_Ip : list Z;
  m_Index : Z
}.
Arguments mkSrv {L}. Arguments sv_sess {L}. Arguments sv_clientID {L}. Arguments clientQuit {L}.
Arguments rPack {L}. Arguments sv_out {L}. Arguments m_Ip {L}. Arguments m_Index {L}.

#[export] Instance eta_Srv L : Eta (Srv L) := fun s =>
  mkSrv (sv_sess s) (sv_clientID s) (clientQuit s) (rPack s) (sv_out s) (m_Ip s) (m_Index s).

(** One turn of the loop: the result of [recv], the bytes it stored, [errno],
    and the results of the turn's first and second [send]. *)
Record turn_io := mkIo {
  io_ret : Z;
  io_bytes : list Z;
  io_errno : Z;
  io_send1 : Z;
  io_send2 : Z
}.

(** How a turn goes on: with the loop test, or out of the loop. *)
Inductive next := Continue | Break.

Section Thread.
Context {L : Type} {HL : RtpLib L}.

Definition in_sess {A} (m : CM (Sess L) A) : CM (Srv L) A :=
  zoom sv_sess (fun s v => v <| sv_sess := s |>) m.

Definition set_ret (r : ReturnCMD) : CM (Srv L) unit :=
  modify (fun v => v <| rPack ::= fun p => p <| returnCMD := Some r |> |>).

(** [send(socketfd, &rPack, RETURN_PACK_LEN, 0)]; the comparison of its result
    with [sizeof] is unsigned. *)
Definition send_rPack (ret : Z) : CM (Srv L) bool :=
  _ ← modify (fun v => v <| sv_out ::= fun o => o ++ [rPack v] |>);
  mret (u32 ret <? RETURN_PACK_LEN).

Definition read_clientID : CM (Srv L) Z :=
  c ← gets sv_clientID;
  match c with Some id => mret id | None => fault_with UninitRead end.

(** The switch over the command. *)
Definition dispatch (p : ServerPack) : CM (Srv L) unit :=
  match cmd_of (serverCMD p) with
  | Some DVS_CMD_RESET_BOARD => in_sess (on_gbl (gblSetExitState DVS_EXIT_RESET_BOARD))
  | Some DVS_CMD_ADD_CLIENT =>
      ip ← gets m_Ip;
      id ← in_sess (add_client ip (videoport p) (audioport p));
      _ ← modify (fun v => v <| sv_clientID := Some id |>);
      if id =? -1 then set_ret DVS_RETURN_FAIL else mret tt
  | Some DVS_CMD_DEL_CLIENT => modify (fun v => v <| clientQuit := true |>)
  | Some DVS_CMD_OPEN_CHANNEL =>
      id ← read_clientID;
      _ ← in_sess (open_channel id (pack_chId p));
      mret tt
  | Some DVS_CMD_CLOSE_CHANNEL =>
      id ← read_clientID;
      _ ← in_sess (close_channel id (pack_chId p));
      mret tt
  | Some DVS_CMD_GET_RESOLUTION =>
      r ← in_sess (on_gbl gblGetResolution);
      modify (fun v => v <| rPack ::= fun q => q <| rp_resolution :=
        Some (if r =? VIDEO_RESOLUTION_CIF then DVS_RESOLUTION_CIF else DVS_RESOLUTION_D1) |> |>)
  | Some DVS_CMD_SET_RESOLUTION =>
      _ ← in_sess (on_gbl (gblSetResolution
             (if pack_resolution p =? DVS_RESOLUTION_CIF then VIDEO_RESOLUTION_CIF
              else VIDEO_RESOLUTION_D1)));
      _ ← in_sess (on_gbl (gblSetExitState DVS_EXIT_RESET_BOARD));
      modify (fun v => v <| clientQuit := true |>)
  | Some DVS_CMD_SET_BITRATE
  | Some DVS_CMD_ON_ALARMOUT | Some DVS_CMD_OFF_ALARMOUT
  | Some DVS_CMD_GET_ALARMOUT | Some DVS_CMD_GET_ALARMIN
  | Some DVS_CMD_ON_AUDIO | Some DVS_CMD_OFF_AUDIO => mret tt
  | None => set_ret DVS_RETURN_INVLID_CMD
  end.

(** The command of a whole packet and its answer. *)
Definition execute (p : ServerPack) (send_ret : Z) : CM (Srv L) next :=
  _ ← set_ret DVS_RETURN_SUCCESS;
  _ ← dispatch p;
  _ ← send_rPack send_ret;
  mret Continue.

Definition server_turn (io : turn_io) : CM (Srv L) next :=
  if io_ret io =? SERVER_PACK_LEN then
    let p := pack_of (io_bytes io) in
    if negb (bool_decide (cmdHeader p = TCP_CMD_HEADER_STR)) then
      _ ← set_ret DVS_RETURN_INVLID_HEADER;
      short ← send_rPack (io_send1 io);
      if (short : bool) then mret Continue else execute p (io_send2 io)
    else execute p (io_send1 io)
  else if (io_ret io <=? 0) && negb (io_errno io =? EINTR) && negb (io_errno io =? EWOULDBLOCK)
          && negb (io_errno io =? EAGAIN)
  then mret Break
  else mret Continue.

(** After the loop. *)
Definition server_end : CM (Srv L) unit :=
  id ← read_clientID;
  _ ← (if negb (id =? -1) then in_sess (del_client id) else mret 0);
  modify (fun v => v <| m_Index := -1 |>).

(** The loop over the results of the calls; with none left the thread waits in
    [recv]. *)
Fixpoint server_loop (ios : list turn_io) : CM (Srv L) unit :=
  q ← in_sess (on_gbl gblGetQuit);
  cq ← gets clientQuit;
  if negb (q =? 0) || (cq : bool) then mret tt else
  match ios with
  | [] => block
  | io :: ios =>
      n ← server_turn io;
      match n with Continue => server_loop ios | Break => mret tt end
  end.

Definition tcpServerThrFxn (ios : list turn_io) : CM (Srv L) unit :=
  _ ← modify (fun v => v <| clientQuit := false |>);
  _ ← modify (fun v => v <| rPack ::= fun q => q <| rp_header := TCP_CMD_HEADER_STR |> |>);
  _ ← server_loop ios;
  server_end.

End Thread.

(** * The listening thread *)

Record ClientEnv := mkClientEnv {
  ce_Index : Z;
  ce_Socket : Z;
  ce_Ip : list Z
}.

#[export] Instance eta_ClientEnv : Eta ClientEnv := fun c =>
  mkClientEnv (ce_Index c) (ce_Socket c) (ce_Ip c).

(** The system calls on sockets and threads, in order. *)
Inductive sys_call :=
  | SysCreate (index : Z)
  | SysShutdown (fd : Z)
  | SysClose (fd : Z)
  | SysJoin (index : Z)
  | SysJoinListen
  | SysSend (fd : Z) (bytes : list Z).

Record ServerEnv := mkServerEnv {
  m_Socket : Z;
  m_clientCount : Z;
  m_Client : list ClientEnv;
  se_gbl : GlobalData;
  se_log : list sys_call
}.

#[export] Instance eta_ServerEnv : Eta ServerEnv := fun s =>
  mkServerEnv (m_Socket s) (m_clientCount s) (m_Client s) (se_gbl s) (se_log s).

Definition sys (c : sys_call) : CM ServerEnv unit :=
  modify (fun s => s <| se_log ::= fun l => l ++ [c] |>).

Definition upd_env (i : Z) (f : ClientEnv → ClientEnv) : CM ServerEnv unit := fun s =>
  match aget (m_Client s) i with
  | Some c => Ret tt (s <| m_Client ::= <[Z.to_nat i := f c]> |>)
  | None => Flt OutOfBounds
  end.

(** [ret] is the result of [OSA_thrCreate]; the callers ignore it. *)
Definition add_new_tcp_process_thr (index ret : Z) : CM ServerEnv Z :=
  if negb (ret =? 0) then mret (-1) else _ ← sys (SysCreate index); mret 0.

(** One accepted connection: the socket, the peer's address, the thread result. *)
Record accept_io := mkAccept { ac_socket : Z; ac_ip : list Z; ac_thr : Z }.

(** One turn of the loop of [listenThrFxn]; [true] when it ends. *)
Definition listen_turn (a : accept_io) : CM ServerEnv bool :=
  index ← gets m_clientCount;
  if ac_socket a =? -1 then mret true else
  _ ← upd_env index (fun c => c <| ce_Index := index |>);
  _ ← upd_env index (fun c => c <| ce_Socket := ac_socket a |>);
  _ ← upd_env index (fun c => c <| ce_Ip := take 16 (ac_ip a) |>);
  _ ← modify (fun s => s <| m_clientCount := i32 (m_clientCount s + 1) |>);
  _ ← add_new_tcp_process_thr index (ac_thr a);
  mret false.

Fixpoint listen_loop (acs : list accept_io) : CM ServerEnv unit :=
  q ← gets (fun s => quit (se_gbl s));
  if negb (q =? 0) then mret tt else
  match acs with
  | [] => block
  | a :: acs => stop ← listen_turn a; if (stop : bool) then mret tt else listen_loop acs
  end.

(** [listen_ret] is the result of [listen]; the result is [false] on failure. *)
Definition listenThrFxn (listen_ret : Z) (acs : list accept_io) : CM ServerEnv bool :=
  if negb (listen_ret =? 0) then mret false else
  _ ← modify (fun s => s <| m_clientCount := 0 |>);
  _ ← listen_loop acs;
  mret true.

(** [sock], [bind_ret] and [thr_ret] are the results of [socket], [bind] and
    [OSA_thrCreate]. *)
Definition tcp_listen_thread_start (sock bind_ret thr_ret : Z) : CM ServerEnv Z :=
  _ ← modify (fun s => s <| m_Socket := sock |>);
  if negb (bind_ret =? 0) then mret (-1) else
  if negb (thr_ret =? 0) then mret (-1) else mret 0.

Definition clean_one (i : Z) : CM ServerEnv unit :=
  t ← gets m_Client;
  c ← rd t i;
  _ ← sys (SysShutdown (ce_Socket c));
  _ ← sys (SysClose (ce_Socket c));
  sys (SysJoin i).

Definition clean_tcp_listen_thread : CM ServerEnv Z :=
  n ← gets m_clientCount;
  _ ← for_each (seqZ 0 n) clean_one;
  fd ← gets m_Socket;
  _ ← sys (SysShutdown fd);
  _ ← sys (SysClose fd);
  _ ← sys SysJoinListen;
  mret 0.

(** ** The alarm thread *)

Definition alarm_bytes (number state : Z) : list Z :=
  ALARM_HEADER_STR ++ le_bytes 4 number ++ le_bytes 4 state.

(** [r1] and [r2] are the results of the two calls of [rand]. *)
Definition alarm_turn (r1 r2 : Z) : CM ServerEnv unit :=
  chs ← gets (fun s => videoChannels (se_gbl s));
  if chs =? 0 then fault_with DivByZero else
  let number := Z.rem r1 chs in
  let state := Z.rem r2 2 in
  n ← gets m_clientCount;
  for_each (seqZ 0 n) (fun i =>
    t ← gets m_Client;
    c ← rd t i;
    if 0 <=? ce_Index c then sys (SysSend (ce_Socket c) (alarm_bytes number state)) else mret tt).

(** * One connection *)

Section Connection.
Context {L : Type} {HL : RtpLib L} {HLL : RtpLibLaws L} (n : Z) (Hn : n = 4 ∨ n = 8).
Implicit Types (v : Srv L) (s : Sess L) (io : turn_io).

#[local] Abbreviation table s := (g_rtpSessionMgr (s_rtp s)).

Definition disconnect io : Prop :=
  io_ret io ≤ 0 ∧ io_errno io ≠ EINTR ∧ io_errno io ≠ EAGAIN.

(** What may follow the first command: anything but a second ADD_CLIENT. *)
Definition io_ok io : Prop :=
  io_ret io = SERVER_PACK_LEN → Forall byte_ok (io_bytes io) ∧
    cmd_of (serverCMD (pack_of (io_bytes io))) ≠ Some DVS_CMD_ADD_CLIENT.

(** The connection of client [id], opened in the session state [s0]. *)
Record conn_inv s0 (id : Z) v : Prop := {
  ci_sess : sess_inv n (sv_sess v);
  ci_id : sv_clientID v = Some id;
  ci_owned : ∃ c, aget (g_clients (sv_sess v)) id = Some c ∧ active c = true ∧
    used (table (sv_sess v)) ≡ₚ owned n c ++ used (table s0);
  ci_others j d : j ≠ id → aget (g_clients s0) j = Some d → active d = true →
    aget (g_clients (sv_sess v)) j = Some d;
  ci_free d : aget (g_clients s0) id = Some d → active d = false
}.

Lemma in_sess_ret {A} (f : CM (Sess L) A) v a s :
  f (sv_sess v) = Ret a s → in_sess f v = Ret a (v <| sv_sess := s |>).
Proof. intros E. unfold in_sess, zoom. by rewrite E. Qed.

(** Only the client and session tables, the channel count and the id matter to
    the invariant. *)
Lemma conn_frame s0 id v v' :
  conn_inv s0 id v → g_clients (sv_sess v') = g_clients (sv_sess v) →
  s_rtp (sv_sess v') = s_rtp (sv_sess v) → sv_clientID v' = sv_clientID v →
  videoChannels (s_gbl (sv_sess v')) = videoChannels (s_gbl (sv_sess v)) → conn_inv s0 id v'.
Proof.
  intros [[] ? ? ? ?] E1 E2 E3 E4.
  split; rewrite ?E1, ?E2, ?E3; [|done..]. split; rewrite ?E1, ?E2, ?E4; done.
Qed.

(** ** What a command does, as a function of the states *)

Definition set_client_flag (id ch b : Z) s : Sess L :=
  match aget (g_clients s) id with
  | Some c => match setFlag (flag c) ch b with
              | Some fl => s <| g_clients ::= <[Z.to_nat id := c <| flag := fl |>]> |>
              | None => s
              end
  | None => s
  end.

Definition cmd_sess (p : ServerPack) (id : Z) s : Sess L :=
  match cmd_of (serverCMD p) with
  | Some DVS_CMD_RESET_BOARD => s <| s_gbl ::= fun g => g <| g_exitState := DVS_EXIT_RESET_BOARD |> |>
  | Some DVS_CMD_OPEN_CHANNEL => set_client_flag id (pack_chId p) TRUE s
  | Some DVS_CMD_CLOSE_CHANNEL => set_client_flag id (pack_chId p) FALSE s
  | Some DVS_CMD_SET_RESOLUTION =>
      s <| s_gbl ::= fun g => g <| resolution := if pack_resolution p =? 0 then 0 else 1 |>
                                <| g_exitState := DVS_EXIT_RESET_BOARD |> |>
  | _ => s
  end.

Definition cmd_quits (p : ServerPack) : bool :=
  match cmd_of (serverCMD p) with
  | Some DVS_CMD_DEL_CLIENT | Some DVS_CMD_SET_RESOLUTION => true
  | _ => false
  end.

Definition cmd_code (p : ServerPack) : ReturnCMD :=
  match cmd_of (serverCMD p) with Some _ => DVS_RETURN_SUCCESS | None => DVS_RETURN_INVLID_CMD end.

Definition cmd_param (p : ServerPack) s (old : option Z) : option Z :=
  match cmd_of (serverCMD p) with
  | Some DVS_CMD_GET_RESOLUTION => Some (if resolution (s_gbl s) =? 0 then 0 else 1)
  | _ => old
  end.

Lemma conn_flag s0 id v ch b :
  conn_inv s0 id v → 0 ≤ ch → flag_ok b →
  (client ← get_client id;
   if clientID client =? -1 then mret (-1) else
   _ ← upd_client id (set_flag ch b); mret (-1)) (sv_sess v) =
    Ret (-1) (set_client_flag id ch b (sv_sess v)) ∧
  conn_inv s0 id (v <| sv_sess := set_client_flag id ch b (sv_sess v) |>).
Proof.
  intros [Hi Hid (c & Hc & Ha & Hu) Hoth Hfree] Hch Hb.
  destruct (set_channel_ret n Hn (sv_sess v) id ch b c Hi Hc Hch Hb) as (fl & Efl & E & Hi').
  rewrite Ha in E, Hi'. unfold set_client_flag. rewrite Hc, Efl.
  pose proof (aget_Some_range _ _ _ Hc) as Hr.
  split; [done|]. split; cbn; [done|done| | |done].
  - exists (c <| flag := fl |>). split_and!; [by apply aget_insert_eq|done|done].
  - intros j d Hj Hd Had. rewrite aget_insert_ne by lia. by apply Hoth.
Qed.

Lemma chId_nonneg bs : Forall byte_ok bs → 0 ≤ pack_chId (pack_of bs).
Proof.
  intros Hbs. apply le_val_range. unfold pack_of, slice. cbn.
  by repeat first [apply Forall_take|apply Forall_drop].
Qed.

Lemma dispatch_ret s0 id v p :
  conn_inv s0 id v → 0 ≤ pack_chId p → cmd_of (serverCMD p) ≠ Some DVS_CMD_ADD_CLIENT →
  ∃ v', dispatch p v = Ret tt v' ∧ conn_inv s0 id v' ∧ sv_sess v' = cmd_sess p id (sv_sess v) ∧
    clientQuit v' = clientQuit v || cmd_quits p ∧ sv_out v' = sv_out v ∧
    rPack v' = mkReturnPack (rp_header (rPack v))
                 (match cmd_of (serverCMD p) with Some _ => returnCMD (rPack v)
                  | None => Some DVS_RETURN_INVLID_CMD end)
                 (cmd_param p (sv_sess v) (rp_resolution (rPack v))).
Proof.
  intros Hv Hch Hadd. unfold dispatch, cmd_sess, cmd_quits, cmd_param.
  assert (Hsame : ∀ v' : Srv L, v' = v → conn_inv s0 id v') by (by intros ? ->).
  destruct (cmd_of (serverCMD p)) as [[]|]; try done.
  all: try by (exists v; rewrite orb_false_r; split_and!; try done; cbn; by destruct (rPack v)).
  - eexists. split; [by apply in_sess_ret|]. rewrite orb_false_r.
    split_and!; try done; [by apply (conn_frame s0 id v)|cbn; by destruct (rPack v)].
  - eexists. split; [done|]. rewrite orb_true_r. split_and!; try done; [by apply (conn_frame s0 id v)|].
    cbn; by destruct (rPack v).
  - destruct (conn_flag s0 id v (pack_chId p) TRUE Hv Hch ltac:(by left)) as [E Hv'].
    eexists. split; [|split; [exact Hv'|]].
    + rewrite (bind_ret _ _ _ id v) by (unfold read_clientID; run; by rewrite (ci_id _ _ _ Hv)).
      by erewrite bind_ret by (apply in_sess_ret; exact E).
    + rewrite orb_false_r. split_and!; try done. cbn; by destruct (rPack v).
  - destruct (conn_flag s0 id v (pack_chId p) FALSE Hv Hch ltac:(by right)) as [E Hv'].
    eexists. split; [|split; [exact Hv'|]].
    + rewrite (bind_ret _ _ _ id v) by (unfold read_clientID; run; by rewrite (ci_id _ _ _ Hv)).
      by erewrite bind_ret by (apply in_sess_ret; exact E).
    + rewrite orb_false_r. split_and!; try done. cbn; by destruct (rPack v).
  - eexists. split; [|split].
    + rewrite (bind_ret _ _ _ (resolution (s_gbl (sv_sess v))) v); [done|].
      unfold in_sess, on_gbl, zoom, gblGetResolution, gets. by destruct v as [[] ? ? ? ? ? ?].
    + by apply (conn_frame s0 id v).
    + rewrite orb_false_r. split_and!; done.
  - eexists. split; [|split].
    + erewrite bind_ret by by apply in_sess_ret. erewrite bind_ret by by apply in_sess_ret. done.
    + by apply (conn_frame s0 id v).
    + rewrite orb_true_r. split_and!; try done. cbn. by destruct (rPack v).
  - eexists. split; [done|]. rewrite orb_false_r. split_and!; try done. by apply (conn_frame s0 id v).
Qed.

Lemma execute_ret s0 id v p r :
  conn_inv s0 id v → 0 ≤ pack_chId p → cmd_of (serverCMD p) ≠ Some DVS_CMD_ADD_CLIENT →
  ∃ v', execute p r v = Ret Continue v' ∧ conn_inv s0 id v' ∧
    sv_sess v' = cmd_sess p id (sv_sess v) ∧ clientQuit v' = clientQuit v || cmd_quits p ∧
    sv_out v' = sv_out v ++ [mkReturnPack (rp_header (rPack v)) (Some (cmd_code p))
                               (cmd_param p (sv_sess v) (rp_resolution (rPack v)))].
Proof.
  intros Hv Hch Hadd. unfold execute.
  set (v1 := v <| rPack ::= fun p => p <| returnCMD := Some DVS_RETURN_SUCCESS |> |>).
  rewrite (bind_ret _ _ _ tt v1) by done.
  destruct (dispatch_ret s0 id v1 p) as (v2 & E & Hv2 & Hs & Hq & Ho & Hr);
    [by apply (conn_frame s0 id v)|done|done|].
  rewrite (bind_ret _ _ _ tt v2) by done.
  eexists. split; [done|]. split; [by apply (conn_frame s0 id v2)|]. cbn.
  split_and!; [done|done|]. rewrite Ho, Hr. unfold v1, cmd_code. cbn.
  by destruct (cmd_of (serverCMD p)).
Qed.

(** A connection whose client id no slot of the table has: [add_client] found no sessions. *)
Definition no_room v v' : Prop :=
  sv_clientID v' = Some (-2) ∧ sess_inv n (sv_sess v') ∧ s_rtp (sv_sess v') = s_rtp (sv_sess v) ∧
  ∀ i c, aget (g_clients (sv_sess v)) i = Some c → active c = true → aget (g_clients (sv_sess v')) i = Some c.

(** ADD_CLIENT answers SUCCESS; the thread serves a new client from then on, or none. *)
Lemma execute_add v p r :
  sess_inv n (sv_sess v) → cmd_of (serverCMD p) = Some DVS_CMD_ADD_CLIENT → 0 < videoport p → 0 < audioport p →
  ∃ v', execute p r v = Ret Continue v' ∧ clientQuit v' = clientQuit v ∧
    sv_out v' = sv_out v ++ [(rPack v) <| returnCMD := Some DVS_RETURN_SUCCESS |>] ∧
    if active_count (g_clients (sv_sess v)) <? 16 / n then ∃ id, conn_inv (sv_sess v) id v' else no_room v v'.
Proof.
  intros Hi Hcmd Hvp Hap.
  destruct (add_client_ret n Hn (sv_sess v) (m_Ip v) _ _ Hi Hvp Hap) as (id & s' & E & Hi' & _ & Hpost).
  unfold execute. set (v1 := v <| rPack ::= fun p => p <| returnCMD := Some DVS_RETURN_SUCCESS |> |>).
  rewrite (bind_ret _ _ _ tt v1) by done. set (v2 := v1 <| sv_sess := s' |> <| sv_clientID := Some id |>).
  assert (Ed : id ≠ -1 → dispatch p v1 = Ret tt v2).
  { intros Hne. unfold dispatch. rewrite Hcmd, (bind_ret _ _ _ (m_Ip v) v1) by done.
    rewrite (bind_ret _ _ _ id (v1 <| sv_sess := s' |>)) by by apply in_sess_ret.
    rewrite (bind_ret _ _ _ tt v2) by done. by assert ((id =? -1) = false) as -> by lia. }
  destruct (_ <? _).
  - destruct Hpost as (Hid & c' & Hcl & Hcid & Hfl & Hu). destruct (find_idx_Some _ _ _ Hid) as (Hr & (c & Hc & Hfree) & _).
    rewrite (bind_ret _ _ _ _ _ (Ed ltac:(lia))). eexists. split; [done|]. split; [done|]. split; [done|].
    exists id. split; cbn; [done|done| | |].
    + exists c'. rewrite Hcl. split_and!; [by apply aget_insert_eq| |done].
      unfold active. rewrite Hcid. by assert ((id =? -1) = false) as -> by lia.
    + intros j d Hj Hd Had. rewrite Hcl, aget_insert_ne by lia. done.
    + intros d Hd. unfold slot_free in Hfree. unfold active. rewrite Hc in Hd. simplify_eq. by rewrite Hfree.
  - destruct Hpost as (-> & Hrtp & Hsame). rewrite (bind_ret _ _ _ _ _ (Ed ltac:(lia))). eexists. split; [done|]. split; [done|]. split; [done|].
    by split.
Qed.

Lemma send_rPack_ret v r :
  send_rPack r v = Ret (u32 r <? RETURN_PACK_LEN) (v <| sv_out ::= fun o => o ++ [rPack v] |>).
Proof. done. Qed.

(** A turn that received a whole packet. *)
Lemma full_turn_ret s0 id v io :
  conn_inv s0 id v → io_ok io → io_ret io = SERVER_PACK_LEN →
  let p := pack_of (io_bytes io) in
  let bad := negb (bool_decide (cmdHeader p = TCP_CMD_HEADER_STR)) in
  let hdr := mkReturnPack (rp_header (rPack v)) (Some DVS_RETURN_INVLID_HEADER) (rp_resolution (rPack v)) in
  let ans := mkReturnPack (rp_header (rPack v)) (Some (cmd_code p))
               (cmd_param p (sv_sess v) (rp_resolution (rPack v))) in
  ∃ v', server_turn io v = Ret Continue v' ∧ conn_inv s0 id v' ∧
  if bad && (u32 (io_send1 io) <? RETURN_PACK_LEN)
  then sv_out v' = sv_out v ++ [hdr] ∧ sv_sess v' = sv_sess v ∧ clientQuit v' = clientQuit v
  else sv_out v' = sv_out v ++ (if bad then [hdr; ans] else [ans]) ∧
    sv_sess v' = cmd_sess p id (sv_sess v) ∧ clientQuit v' = clientQuit v || cmd_quits p.
Proof.
  intros Hv Hio Hret p bad hdr ans. destruct (Hio Hret) as [Hbs Hadd].
  pose proof (chId_nonneg _ Hbs) as Hch. fold p in Hadd, Hch.
  unfold server_turn. rewrite (proj2 (Z.eqb_eq _ _) Hret). cbn zeta. fold p. fold bad.
  destruct bad.
  - rewrite (bind_ret _ _ _ tt (v <| rPack ::= fun p => p <| returnCMD := Some DVS_RETURN_INVLID_HEADER |> |>)) by done.
    rewrite (bind_ret _ _ _ _ _ (send_rPack_ret _ _)). cbn [andb].
    destruct (u32 (io_send1 io) <? RETURN_PACK_LEN).
    + eexists. split; [done|]. split; [by apply (conn_frame s0 id v)|]. done.
    + match goal with |- context [execute p (io_send2 io) ?w] => set (v1 := w) end.
      destruct (execute_ret s0 id v1 p (io_send2 io)) as (v' & E & Hv' & Hs & Hq & Ho);
        [by apply (conn_frame s0 id v)|done|done|].
      exists v'. split_and!; [done|done| |done|done]. rewrite Ho. cbn. by rewrite <- app_assoc.
  - destruct (execute_ret s0 id v p (io_send1 io)) as (v' & E & Hv' & Hs & Hq & Ho); [done|done|done|].
    exists v'. by split_and!.
Qed.

Lemma turn_ret s0 id v io :
  conn_inv s0 id v → io_ok io → ∃ nx v', server_turn io v = Ret nx v' ∧ conn_inv s0 id v'.
Proof.
  intros Hv Hio. destruct (decide (io_ret io = SERVER_PACK_LEN)) as [E|Hne].
  - destruct (full_turn_ret s0 id v io Hv Hio E) as (v' & ? & ? & _). by eauto.
  - unfold server_turn. assert ((io_ret io =? SERVER_PACK_LEN) = false) as -> by lia.
    destruct (_ && _); by eexists _, _.
Qed.

Lemma in_quit v : in_sess (on_gbl gblGetQuit) v = Ret (quit (s_gbl (sv_sess v))) v.
Proof. unfold in_sess, on_gbl, zoom, gblGetQuit, gets. by destruct v as [[] ? ? ? ? ? ?]. Qed.

Lemma loop_ret s0 id disc ios : disconnect disc → ∀ v,
  conn_inv s0 id v → Forall io_ok ios →
  ∃ v', server_loop (ios ++ [disc]) v = Ret tt v' ∧ conn_inv s0 id v'.
Proof.
  intros (Hd & He1 & He2). induction ios as [|io ios IH]; intros v Hv Hok; cbn [app server_loop].
  all: rewrite (bind_ret _ _ _ _ _ (in_quit v)), (bind_ret _ _ _ (clientQuit v) v) by done;
    destruct (negb (quit _ =? 0) || clientQuit v); [by exists v|].
  - rewrite (bind_ret _ _ _ Break v); [by exists v|]. unfold server_turn.
    assert ((io_ret disc =? SERVER_PACK_LEN) = false) as -> by (unfold SERVER_PACK_LEN; lia).
    assert ((io_ret disc <=? 0) = true) as -> by lia.
    assert ((io_errno disc =? EINTR) = false) as -> by lia.
    assert ((io_errno disc =? EWOULDBLOCK) = false) as -> by (unfold EAGAIN, EWOULDBLOCK in *; lia).
    by assert ((io_errno disc =? EAGAIN) = false) as -> by lia.
  - apply Forall_cons in Hok as [Hio Hok].
    destruct (turn_ret s0 id v io Hv Hio) as (nx & v1 & E & Hv1). rewrite (bind_ret _ _ _ _ _ E).
    destruct nx; [by apply IH|by exists v1].
Qed.

(** What may come from the peer: bytes, and the ports of ADD_CLIENT positive. *)
Definition packet_ok io : Prop :=
  Forall byte_ok (io_bytes io) ∧
  (cmd_of (serverCMD (pack_of (io_bytes io))) = Some DVS_CMD_ADD_CLIENT →
   0 < videoport (pack_of (io_bytes io)) ∧ 0 < audioport (pack_of (io_bytes io))).

(** The effect of a command on the connection of the client [id]. A second ADD_CLIENT leaves
    that client active, with its sessions, and the thread forgets it for a new one. *)
Definition cmd_effect s0 id (p : ServerPack) v v' : Prop :=
  match cmd_of (serverCMD p) with
  | Some DVS_CMD_ADD_CLIENT =>
      clientQuit v' = clientQuit v ∧
      if active_count (g_clients (sv_sess v)) <? 16 / n
      then ∃ id', id' ≠ id ∧ conn_inv (sv_sess v) id' v' else no_room v v'
  | _ => conn_inv s0 id v' ∧ sv_sess v' = cmd_sess p id (sv_sess v) ∧ clientQuit v' = clientQuit v || cmd_quits p
  end.

(** A whole packet with another ADD_CLIENT. *)
Lemma add_turn_effect s0 id v io :
  conn_inv s0 id v → io_ret io = SERVER_PACK_LEN →
  let p := pack_of (io_bytes io) in
  let bad := negb (bool_decide (cmdHeader p = TCP_CMD_HEADER_STR)) in
  let hdr := mkReturnPack (rp_header (rPack v)) (Some DVS_RETURN_INVLID_HEADER) (rp_resolution (rPack v)) in
  let ans := mkReturnPack (rp_header (rPack v)) (Some (cmd_code p))
               (cmd_param p (sv_sess v) (rp_resolution (rPack v))) in
  cmd_of (serverCMD p) = Some DVS_CMD_ADD_CLIENT → 0 < videoport p → 0 < audioport p →
  ∃ v', server_turn io v = Ret Continue v' ∧
  if bad && (u32 (io_send1 io) <? RETURN_PACK_LEN)
  then sv_out v' = sv_out v ++ [hdr] ∧ conn_inv s0 id v' ∧ sv_sess v' = sv_sess v ∧ clientQuit v' = clientQuit v
  else sv_out v' = sv_out v ++ (if bad then [hdr; ans] else [ans]) ∧ cmd_effect s0 id p v v'.
Proof.
  intros Hv Hret p bad hdr ans Hadd Hvp Hap.
  assert (Hex : ∀ w r, sv_sess w = sv_sess v → clientQuit w = clientQuit v → rp_header (rPack w) = rp_header (rPack v) → rp_resolution (rPack w) = rp_resolution (rPack v) →
    ∃ v', execute p r w = Ret Continue v' ∧ sv_out v' = sv_out w ++ [ans] ∧ cmd_effect s0 id p v v').
  { intros w r Ew Eq Eh Er. destruct (execute_add w p r) as (v' & E & Hq & Ho & Hpost); [rewrite Ew; apply Hv|done..|].
    exists v'. split; [exact E|]. split.
    - rewrite Ho. unfold ans, cmd_code, cmd_param. rewrite Hadd, <- Eh, <- Er. by destruct (rPack w).
    - unfold cmd_effect. rewrite Hadd. split; [congruence|]. unfold no_room in *. rewrite Ew in Hpost. destruct (_ <? _); [|done].
      destruct Hpost as (id' & Hv'). exists id'. split; [|done]. intros ->. destruct (ci_owned _ _ _ Hv) as (c & Hc & Ha & _).
      pose proof (ci_free _ _ _ Hv' c Hc). congruence. }
  unfold server_turn. rewrite (proj2 (Z.eqb_eq _ _) Hret). cbn zeta. fold p. fold bad. destruct bad; cbn [andb].
  - rewrite (bind_ret _ _ _ tt (v <| rPack ::= fun p => p <| returnCMD := Some DVS_RETURN_INVLID_HEADER |> |>)) by done.
    rewrite (bind_ret _ _ _ _ _ (send_rPack_ret _ _)). destruct (u32 (io_send1 io) <? RETURN_PACK_LEN).
    + eexists. split; [done|]. split; [done|]. split; [by apply (conn_frame s0 id v)|done].
    + match goal with |- context [execute p (io_send2 io) ?w] => destruct (Hex w (io_send2 io)) as (v' & E & Ho & He) end; [done..|].
      exists v'. split; [exact E|]. split; [|exact He]. rewrite Ho. cbn. by rewrite <- app_assoc.
  - destruct (Hex v (io_send1 io)) as (v' & E & Ho & He); [done..|]. exists v'. by split.
Qed.

(** C12: with 4 or 8 channel groups, a whole packet of a connected client (with positive ports, if
    it is ADD_CLIENT) is answered at once: with a valid
    header by one reply with the command's status (an unknown command gives
    INVLID_CMD) and, for GET_RESOLUTION, the resolution, and the command takes
    its effect on the client's flags, the global record and the loop. Another ADD_CLIENT is
    answered SUCCESS too: with room the thread serves a new client from then on and the first one
    stays active with its sessions and without a thread, without room its client id is -2. A packet
    with a wrong header is answered by INVLID_HEADER and then, only if that send
    was not short, executed and answered a second time; if it was short the packet has no effect. *)
Theorem server_turn_reply s0 id v io :
  conn_inv s0 id v → packet_ok io → io_ret io = SERVER_PACK_LEN →
  let p := pack_of (io_bytes io) in
  let bad := negb (bool_decide (cmdHeader p = TCP_CMD_HEADER_STR)) in
  let hdr := mkReturnPack (rp_header (rPack v)) (Some DVS_RETURN_INVLID_HEADER) (rp_resolution (rPack v)) in
  let ans := mkReturnPack (rp_header (rPack v)) (Some (cmd_code p))
               (cmd_param p (sv_sess v) (rp_resolution (rPack v))) in
  ∃ v', server_turn io v = Ret Continue v' ∧
  if bad && (u32 (io_send1 io) <? RETURN_PACK_LEN)
  then sv_out v' = sv_out v ++ [hdr] ∧ conn_inv s0 id v' ∧ sv_sess v' = sv_sess v ∧ clientQuit v' = clientQuit v
  else sv_out v' = sv_out v ++ (if bad then [hdr; ans] else [ans]) ∧ cmd_effect s0 id p v v'.
Proof.
  intros Hv [Hbs Hports] Hret p bad hdr ans. fold p in Hports.
  destruct (decide (cmd_of (serverCMD p) = Some DVS_CMD_ADD_CLIENT)) as [Hadd|Hadd].
  - destruct (Hports Hadd) as [Hvp Hap]. apply (add_turn_effect s0 id v io Hv Hret Hadd Hvp Hap).
  - destruct (full_turn_ret s0 id v io Hv) as (v' & E & Hv' & Ho); [by intros _|exact Hret|].
    exists v'. split; [exact E|]. fold p in Ho. fold bad in Ho. destruct (bad && _); [tauto|].
    destruct Ho as (Ho & Hs & Hq). split; [exact Ho|]. unfold cmd_effect. by destruct (cmd_of (serverCMD p)) as [[]|].
Qed.

(** The first packet of a connection. *)
Definition add_io io : Prop :=
  io_ret io = SERVER_PACK_LEN ∧ cmdHeader (pack_of (io_bytes io)) = TCP_CMD_HEADER_STR ∧
  serverCMD (pack_of (io_bytes io)) = 1 ∧
  0 < videoport (pack_of (io_bytes io)) ∧ 0 < audioport (pack_of (io_bytes io)).

(** The turn of the first packet, while there is room for a client. *)
Lemma add_turn_ret v io :
  sess_inv n (sv_sess v) → add_io io → active_count (g_clients (sv_sess v)) < 16 / n →
  ∃ id v', server_turn io v = Ret Continue v' ∧ conn_inv (sv_sess v) id v' ∧ clientQuit v' = clientQuit v.
Proof.
  intros Hi (Hret & Hhd & Hcmd & Hvp & Hap) Hroom. unfold server_turn. rewrite (proj2 (Z.eqb_eq _ _) Hret). cbn zeta.
  rewrite Hhd, bool_decide_true by done. cbn [negb].
  destruct (execute_add v (pack_of (io_bytes io)) (io_send1 io)) as (v' & E & Hq & _ & Hpost); [done|by rewrite Hcmd|done|done|].
  rewrite (proj2 (Z.ltb_lt _ _) Hroom) in Hpost. destruct Hpost as (id & Hv'). by exists id, v'.
Qed.

(** C11: with 4 or 8 channel groups, a connection that starts with an ADD_CLIENT with positive ports
    while there is room and the device is not quitting, and goes on with any packets other than another ADD_CLIENT (which would make
    the thread forget its client, see [server_turn_reply]), short reads and interrupted calls, until the peer
    disconnects (or a command ends it), leaves no trace: the thread ends without
    a fault, frees its slot and exactly its sessions, the other active clients
    are as before, and its table entry is marked closed. *)
Theorem connection_leaves_no_trace v add ios disc :
  sess_inv n (sv_sess v) → quit (s_gbl (sv_sess v)) = 0 →
  active_count (g_clients (sv_sess v)) < 16 / n →
  add_io add → Forall io_ok ios → disconnect disc →
  ∃ v', tcpServerThrFxn (add :: ios ++ [disc]) v = Ret tt v' ∧
    sess_inv n (sv_sess v') ∧ m_Index v' = -1 ∧
    used (table (sv_sess v')) ≡ₚ used (table (sv_sess v)) ∧
    active_count (g_clients (sv_sess v')) = active_count (g_clients (sv_sess v)) ∧
    ∀ j d, aget (g_clients (sv_sess v)) j = Some d → active d = true →
      aget (g_clients (sv_sess v')) j = Some d.
Proof.
  intros Hi Hq Hroom Hadd Hios Hdisc. unfold tcpServerThrFxn.
  set (v0 := v <| clientQuit := false |> <| rPack ::= fun q => q <| rp_header := TCP_CMD_HEADER_STR |> |>).
  rewrite (bind_ret _ _ _ tt (v <| clientQuit := false |>)) by done. rewrite (bind_ret _ _ _ tt v0) by done.
  destruct (add_turn_ret v0 add) as (id & v1 & E1 & Hv1 & _); [done|done|done|].
  destruct (loop_ret (sv_sess v) id disc ios Hdisc v1 Hv1 Hios) as (v2 & E2 & [Hi2 Hid2 (c & Hc & Ha & Hu) Hoth Hfree]).
  rewrite (bind_ret _ _ _ tt v2).
  2:{ cbn [server_loop]. rewrite (bind_ret _ _ _ _ _ (in_quit v0)), (bind_ret _ _ _ false v0) by done.
      replace (quit (s_gbl (sv_sess v0))) with 0 by done. cbn [Z.eqb negb orb].
      by rewrite (bind_ret _ _ _ _ _ E1). }
  unfold server_end. rewrite (bind_ret _ _ _ id v2) by (unfold read_clientID; run; by rewrite Hid2).
  pose proof (del_client_ret n Hn _ id c Hi2 Hc) as Hd. rewrite Ha in Hd.
  destruct Hd as (s' & Ed & Hi' & _ & Hu' & _ & Hsame).
  pose proof (aget_Some_range _ _ _ Hc) as Hr.
  assert ((id =? -1) = false) as -> by lia. cbn [negb].
  rewrite (bind_ret _ _ _ 0 (v2 <| sv_sess := s' |>)) by by apply in_sess_ret.
  assert (Hus : used (table s') ≡ₚ used (table (sv_sess v))).
  { apply (Permutation_app_inv_l (owned n c)). by rewrite <- Hu', Hu. }
  eexists. split; [done|]. split_and!; [done|done|done| |].
  - pose proof (inv_count n Hn _ Hi') as C1. pose proof (inv_count n Hn _ Hi) as C2.
    cbn. apply Permutation_length in Hus. unfold zlen in *. nia.
  - intros j d Hd Had. cbn. destruct (decide (j = id)) as [->|Hne]; [|by apply Hsame; [done|apply Hoth|]].
    specialize (Hfree d Hd). congruence.
Qed.

Lemma start_ret v ios :
  tcpServerThrFxn ios v = (_ ← server_loop ios; server_end)
    (v <| clientQuit := false |> <| rPack ::= fun q => q <| rp_header := TCP_CMD_HEADER_STR |> |>).
Proof. done. Qed.

Lemma loop_disc disc v :
  disconnect disc → server_loop [disc] v = Ret tt v.
Proof.
  intros (Hd & He1 & He2). cbn [server_loop].
  rewrite (bind_ret _ _ _ _ _ (in_quit v)), (bind_ret _ _ _ (clientQuit v) v) by done.
  destruct (negb (quit _ =? 0) || clientQuit v); [done|].
  rewrite (bind_ret _ _ _ Break v); [done|]. unfold server_turn.
  assert ((io_ret disc =? SERVER_PACK_LEN) = false) as -> by (unfold SERVER_PACK_LEN; lia).
  assert ((io_ret disc <=? 0) = true) as -> by lia.
  assert ((io_errno disc =? EINTR) = false) as -> by lia.
  assert ((io_errno disc =? EWOULDBLOCK) = false) as -> by (unfold EAGAIN, EWOULDBLOCK in *; lia).
  by assert ((io_errno disc =? EAGAIN) = false) as -> by lia.
Qed.

(** C13: the thread uses its client id without knowing it is a client: a peer
    that disconnects before ADD_CLIENT makes it read the id uninitialised, as
    does OPEN_CHANNEL before ADD_CLIENT; and when no sessions are left,
    ADD_CLIENT is answered with SUCCESS although the id is -2, with which the
    thread indexes the client table when the peer disconnects. *)
Theorem server_id_faults v add disc :
  sess_inv n (sv_sess v) → quit (s_gbl (sv_sess v)) = 0 → sv_clientID v = None →
  disconnect disc →
  tcpServerThrFxn [disc] v = Flt UninitRead ∧
  (∀ io ios, io_ret io = SERVER_PACK_LEN → cmdHeader (pack_of (io_bytes io)) = TCP_CMD_HEADER_STR →
     serverCMD (pack_of (io_bytes io)) = 3 → tcpServerThrFxn (io :: ios) v = Flt UninitRead) ∧
  (add_io add → 16 / n ≤ active_count (g_clients (sv_sess v)) →
     (∃ v1, server_turn add v = Ret Continue v1 ∧ sv_clientID v1 = Some (-2) ∧
        sv_out v1 = sv_out v ++ [(rPack v) <| returnCMD := Some DVS_RETURN_SUCCESS |>]) ∧
     tcpServerThrFxn [add; disc] v = Flt OutOfBounds).
Proof.
  intros Hi Hq Hid Hdisc. split_and!.
  - rewrite start_ret. rewrite (bind_ret _ _ _ _ _ (loop_disc disc _ Hdisc)).
    unfold server_end, read_clientID. run. by rewrite Hid.
  - intros io ios Hret Hhd Hcmd. rewrite start_ret. set (v0 := v <| clientQuit := _ |> <| rPack ::= _ |>).
    assert (E : server_turn io v0 = Flt UninitRead).
    { unfold server_turn. rewrite (proj2 (Z.eqb_eq _ _) Hret). cbn zeta.
      rewrite Hhd, bool_decide_true by done. cbn [negb]. unfold execute.
      erewrite bind_ret by done. unfold dispatch. rewrite Hcmd. change (cmd_of 3) with (Some DVS_CMD_OPEN_CHANNEL).
      unfold read_clientID. run. by rewrite Hid. }
    unfold mbind at 1, CM_bind at 1. cbn [server_loop].
    rewrite (bind_ret _ _ _ _ _ (in_quit v0)), (bind_ret _ _ _ false v0) by done.
    replace (quit (s_gbl (sv_sess v0))) with 0 by done. cbn [Z.eqb negb orb].
    unfold mbind, CM_bind. by rewrite E.
  - intros (Hret & Hhd & Hcmd & Hvp & Hap) Hfull.
    assert (Hadd : ∀ w, sv_sess w = sv_sess v → ∃ w', server_turn add w = Ret Continue w' ∧
      sv_clientID w' = Some (-2) ∧ zlen (g_clients (sv_sess w')) = MAX_CLIENT_NUM ∧
      clientQuit w' = clientQuit w ∧
      sv_out w' = sv_out w ++ [(rPack w) <| returnCMD := Some DVS_RETURN_SUCCESS |>]).
    { intros w Hw.
      destruct (add_client_ret n Hn (sv_sess v) (m_Ip w) _ _ Hi Hvp Hap) as (id & s' & E & Hi' & _ & Hpost).
      assert ((active_count (g_clients (sv_sess v)) <? 16 / n) = false) as Hlt by lia. rewrite Hlt in Hpost.
      destruct Hpost as (-> & _). unfold server_turn. rewrite (proj2 (Z.eqb_eq _ _) Hret). cbn zeta.
      rewrite Hhd, bool_decide_true by done. cbn [negb]. unfold execute.
      set (v1 := w <| rPack ::= fun p => p <| returnCMD := Some DVS_RETURN_SUCCESS |> |>).
      rewrite (bind_ret _ _ _ tt v1) by done.
      set (v2 := v1 <| sv_sess := s' |> <| sv_clientID := Some (-2) |>).
      assert (Ed : dispatch (pack_of (io_bytes add)) v1 = Ret tt v2).
      { unfold dispatch. rewrite Hcmd. change (cmd_of 1) with (Some DVS_CMD_ADD_CLIENT). cbv beta iota.
        rewrite (bind_ret _ _ _ (m_Ip w) v1) by done.
        rewrite (bind_ret _ _ _ (-2) (v1 <| sv_sess := s' |>)); [done|].
        apply in_sess_ret. unfold v1. cbn. by rewrite Hw. }
      rewrite (bind_ret _ _ _ _ _ Ed). eexists. split; [done|]. split; [done|].
      split; [apply (si_len _ _ Hi')|]. done. }
    split; [destruct (Hadd v eq_refl) as (v1 & ? & ? & _ & _ & ?); by exists v1|].
    rewrite start_ret. set (v0 := v <| clientQuit := _ |> <| rPack ::= _ |>).
    destruct (Hadd v0 eq_refl) as (v1 & E & Hid1 & Hlen & _ & _).
    rewrite (bind_ret _ _ _ tt v1).
    2:{ cbn [server_loop]. rewrite (bind_ret _ _ _ _ _ (in_quit v0)), (bind_ret _ _ _ false v0) by done.
        replace (quit (s_gbl (sv_sess v0))) with 0 by done. cbn [Z.eqb negb orb].
        rewrite (bind_ret _ _ _ _ _ E). by apply loop_disc. }
    unfold server_end. rewrite (bind_ret _ _ _ (-2) v1) by (unfold read_clientID; run; by rewrite Hid1).
    unfold in_sess, zoom, del_client, get_client. run. by rewrite (proj2 (aget_None _ (-2))) by lia.
Qed.

End Connection.

(** * The listening and closing loops *)

Section Listen.
Implicit Types (s : ServerEnv) (a : accept_io).

Definition env_of (i : Z) a : ClientEnv := mkClientEnv i (ac_socket a) (take 16 (ac_ip a)).

(** The table after the connections [acs]: entry [i] is that of the [i]-th. *)
Definition registered (acs : list accept_io) s : Prop :=
  m_clientCount s = zlen acs ∧ zlen (m_Client s) = CLIENTNUM ∧
  ∀ i a, aget acs i = Some a → aget (m_Client s) i = Some (env_of i a).

Lemma listen_turn_ret acs a s :
  registered acs s → zlen acs < CLIENTNUM → ac_socket a ≠ -1 →
  ∃ s', listen_turn a s = Ret false s' ∧ registered (acs ++ [a]) s' ∧
    se_gbl s' = se_gbl s ∧ m_Socket s' = m_Socket s.
Proof.
  intros (Hc & Hl & Hreg) Hlt Hs. pose proof (zlen_nonneg acs). unfold CLIENTNUM in *.
  assert (is_Some (aget (m_Client s) (zlen acs))) as [c0 Hc0] by (apply aget_is_Some; lia).
  unfold listen_turn. rewrite (bind_ret _ _ _ (zlen acs) s) by (run; by rewrite Hc).
  assert ((ac_socket a =? -1) = false) as -> by lia.
  assert (Hupd : ∀ s c f, aget (m_Client s) (zlen acs) = Some c →
    upd_env (zlen acs) f s = Ret tt (s <| m_Client ::= <[Z.to_nat (zlen acs) := f c]> |>)).
  { intros s1 c f E. unfold upd_env. by rewrite E. }
  rewrite (bind_ret _ _ _ _ _ (Hupd _ _ _ Hc0)).
  erewrite bind_ret by (apply Hupd; apply aget_insert_eq; lia). cbn. rewrite list_insert_insert_eq.
  erewrite bind_ret by (apply Hupd; apply aget_insert_eq; lia). cbn. rewrite list_insert_insert_eq.
  erewrite bind_ret by done. cbn.
  match goal with |- ∃ s', _ ?w = _ ∧ _ => set (s2 := w) end.
  assert (Hadd : ∃ r s3, add_new_tcp_process_thr (zlen acs) (ac_thr a) s2 = Ret r s3 ∧
    m_Client s3 = m_Client s2 ∧ m_clientCount s3 = m_clientCount s2 ∧ se_gbl s3 = se_gbl s2 ∧ m_Socket s3 = m_Socket s2).
  { unfold add_new_tcp_process_thr. destruct (negb _); by eexists _, _. }
  destruct Hadd as (r & s3 & E3 & Ec & Ek & Eg & Es). rewrite (bind_ret _ _ _ _ _ E3).
  eexists. split; [done|]. split; [|by rewrite Eg, Es].
  split_and!.
  - rewrite Ek. unfold s2. cbn. rewrite Hc, zlen_snoc, i32_id; [done|]. unfold in_i32. lia.
  - rewrite Ec. unfold s2. cbn. by rewrite zlen_insert.
  - intros i b Hb. rewrite Ec. unfold s2. cbn. pose proof (aget_Some_range _ _ _ Hb) as Hr.
    rewrite zlen_snoc in Hr. rewrite aget_snoc in Hb by lia.
    rewrite aget_insert by lia. destruct (decide (i = zlen acs)) as [->|]; [by simplify_eq|].
    by apply Hreg.
Qed.

Lemma listen_loop_ret acs2 : ∀ acs1 s,
  registered acs1 s → quit (se_gbl s) = 0 → zlen acs1 + zlen acs2 ≤ CLIENTNUM →
  Forall (fun a => ac_socket a ≠ -1) acs2 →
  ∃ s', (∀ rest, listen_loop (acs2 ++ rest) s = listen_loop rest s') ∧ registered (acs1 ++ acs2) s' ∧
    quit (se_gbl s') = 0.
Proof.
  induction acs2 as [|a acs2 IH]; intros acs1 s Hreg Hq Hlen Hok.
  { exists s. rewrite app_nil_r. by split_and!. }
  apply Forall_cons in Hok as [Ha Hok]. rewrite zlen_cons in Hlen. pose proof (zlen_nonneg acs2).
  destruct (listen_turn_ret acs1 a s Hreg ltac:(lia) Ha) as (s1 & E & Hreg1 & Hg & _).
  destruct (IH (acs1 ++ [a]) s1) as (s' & El & Hreg' & Hq'); [done|by rewrite Hg|rewrite zlen_snoc; lia|done|].
  exists s'. split_and!; [|by rewrite <- app_assoc in Hreg'|done].
  intros rest. cbn [app listen_loop]. rewrite (bind_ret _ _ _ 0 s) by (run; by rewrite Hq).
  cbn [Z.eqb negb]. rewrite (bind_ret _ _ _ _ _ E). apply El.
Qed.

(** The listening thread registers up to 20 connections in the order they
    are accepted, each with its index, socket and address, and then waits for
    the next one; entries of connections that have ended are not used again, so
    the 21st connection of the process writes past the table. *)
Theorem listen_registers s acs a :
  zlen (m_Client s) = CLIENTNUM → quit (se_gbl s) = 0 →
  Forall (fun a => ac_socket a ≠ -1) (acs ++ [a]) →
  (zlen acs ≤ CLIENTNUM → ∃ s', listenThrFxn 0 acs s = Blk s' ∧ registered acs s') ∧
  (zlen acs = CLIENTNUM → listenThrFxn 0 (acs ++ [a]) s = Flt OutOfBounds).
Proof.
  intros Hl Hq [Hok [Ha _]%Forall_cons]%Forall_app.
  set (s0 := s <| m_clientCount := 0 |>).
  assert (Hreg : registered [] s0) by (split_and!; [done|done|by intros i b ?%aget_elem_of%elem_of_nil]).
  assert (Hrun : zlen acs ≤ CLIENTNUM → ∃ s', (∀ rest, listen_loop (acs ++ rest) s0 = listen_loop rest s') ∧
     registered acs s' ∧ quit (se_gbl s') = 0).
  { intros Hlen. by apply (listen_loop_ret acs [] s0). }
  unfold listenThrFxn. cbn [Z.eqb negb]. split; intros Hlen.
  - destruct Hrun as (s' & El & Hreg' & Hq'); [done|]. exists s'. split; [|done].
    rewrite (bind_ret _ _ _ tt s0) by done. unfold mbind, CM_bind.
    specialize (El []). rewrite app_nil_r in El. rewrite El. cbn. run. by rewrite Hq'.
  - destruct Hrun as (s' & El & (Hc & Hl' & _) & Hq'); [lia|].
    assert (Et : listen_turn a s' = Flt OutOfBounds).
    { unfold listen_turn. rewrite (bind_ret _ _ _ CLIENTNUM s') by (run; by rewrite Hc, Hlen).
      assert ((ac_socket a =? -1) = false) as -> by lia.
      unfold upd_env. run. by rewrite (proj2 (aget_None _ CLIENTNUM)) by lia. }
    rewrite (bind_ret _ _ _ tt s0) by done. unfold mbind, CM_bind. rewrite (El [a]).
    cbn. run. rewrite Hq'. cbn. by rewrite Et.
Qed.

(** ** Closing and alarms *)

Definition clean_calls (i : Z) (c : ClientEnv) : list sys_call :=
  [SysShutdown (ce_Socket c); SysClose (ce_Socket c); SysJoin i].

Lemma log_loop (body : Z → CM ServerEnv unit) (calls : Z → ClientEnv → list sys_call) (cs : list ClientEnv) : ∀ k s,
  (∀ s i c, aget (m_Client s) i = Some c → body i s = Ret tt (s <| se_log ::= fun l => l ++ calls i c |>)) →
  (∀ i c, aget cs i = Some c → aget (m_Client s) (k + i) = Some c) →
  for_each (seqZ k (zlen cs)) body s =
  Ret tt (s <| se_log ::= fun l => l ++ concat (imap (fun i c => calls (k + Z.of_nat i) c) cs) |>).
Proof.
  induction cs as [|c cs IH]; intros k s Hb Hcs.
  { cbn. rewrite app_nil_r. by destruct s. }
  pose proof (zlen_nonneg cs). rewrite zlen_cons, seqZ_cons by lia. cbn [for_each].
  rewrite (bind_ret _ _ _ _ _ (Hb s k c ltac:(rewrite <- (Z.add_0_r k); by apply Hcs))).
  replace (Z.pred (zlen cs + 1)) with (zlen cs) by lia. rewrite IH; [|done|].
  - f_equal. cbn. rewrite <- app_assoc, Z.add_0_r. f_equal. f_equal. f_equal.
    apply f_equal. apply imap_ext. intros i d _. cbn. f_equal. lia.
  - intros i d Hd. cbn. pose proof (aget_Some_range _ _ _ Hd).
    replace (Z.succ k + i) with (k + (i + 1)) by lia. apply Hcs. rewrite aget_cons_pos by lia. by rewrite Z.add_simpl_r.
Qed.

(** After the connections [acs], closing shuts down and closes the socket of
    each in order and joins its thread, then the listening socket and thread; an
    alarm goes, as one packet of 16 bytes with the channel (a remainder by the
    channel count) and the state, to exactly the connections still open. *)
Theorem clean_and_alarm s acs r1 r2 :
  registered acs s → zlen acs ≤ CLIENTNUM → 0 < videoChannels (se_gbl s) →
  clean_tcp_listen_thread s = Ret 0 (s <| se_log ::= fun l => l ++
     concat (imap (fun i c => clean_calls (Z.of_nat i) c) (take (length acs) (m_Client s))) ++
     [SysShutdown (m_Socket s); SysClose (m_Socket s); SysJoinListen] |>) ∧
  alarm_turn r1 r2 s = Ret tt (s <| se_log ::= fun l => l ++
     concat (imap (fun i c => if 0 <=? ce_Index c
       then [SysSend (ce_Socket c) (alarm_bytes (Z.rem r1 (videoChannels (se_gbl s))) (Z.rem r2 2))] else [])
       (take (length acs) (m_Client s))) |>) ∧
  zlen (alarm_bytes (Z.rem r1 (videoChannels (se_gbl s))) (Z.rem r2 2)) = RETURN_PACK_LEN.
Proof.
  intros (Hc & Hl & Hreg) Hlen Hchs.
  assert (Hn : zlen (take (length acs) (m_Client s)) = zlen acs)
    by (unfold zlen in *; rewrite length_take; lia).
  assert (Hcs : ∀ i c, aget (take (length acs) (m_Client s)) i = Some c → aget (m_Client s) (0 + i) = Some c).
  { intros i c. unfold aget. destruct (decide (0 ≤ i)); [|done]. intros [Hi _]%lookup_take_Some.
    rewrite decide_True by lia. done. }
  split_and!.
  - unfold clean_tcp_listen_thread. rewrite (bind_ret _ _ _ (zlen acs) s) by (run; by rewrite Hc).
    rewrite <- Hn. erewrite bind_ret.
    2:{ apply (log_loop clean_one clean_calls); [|exact Hcs]. intros s1 i c Hi. unfold clean_one. run.
        rewrite Hi; cbn; unfold sys, modify; cbn; by rewrite <- !app_assoc. }
    run. by rewrite <- !app_assoc.
  - unfold alarm_turn. rewrite (bind_ret _ _ _ (videoChannels (se_gbl s)) s) by done.
    assert ((videoChannels (se_gbl s) =? 0) = false) as -> by lia. cbn zeta.
    rewrite (bind_ret _ _ _ (zlen acs) s) by (run; by rewrite Hc). rewrite <- Hn.
    apply (log_loop _ (fun i c => if 0 <=? ce_Index c then [SysSend (ce_Socket c) _] else []));
      [|exact Hcs]. intros s1 i c Hi. run. rewrite Hi. cbn. destruct (0 <=? ce_Index c); [done|].
    rewrite app_nil_r. by destruct s1.
  - unfold alarm_bytes, zlen. by rewrite !length_app, !le_bytes_length.
Qed.

End Listen.

(** * Concrete connections *)

Definition io_pack (cmd : Z) (prm : list Z) : turn_io :=
  mkIo 20 (TCP_CMD_HEADER_STR ++ le_bytes 4 cmd ++ prm) 0 16 16.
Definition io_add : turn_io := io_pack 1 (le_bytes 4 7000 ++ le_bytes 4 8000).
Definition io_disc : turn_io := mkIo 0 [] 0 0 0.
Definition srv0 : Srv CallLog :=
  mkSrv (sess0 16) None false (mkReturnPack TCP_CMD_HEADER_STR None None) [] [1] 0.
Definition env0 : ServerEnv :=
  mkServerEnv 3 0 (replicate 20 (mkClientEnv 0 0 [])) (gbl_init <| videoChannels := 16 |>) [].

Lemma io_add_ok : add_io io_add.
Proof. split_and!; vm_compute; done. Qed.

Lemma io_pack_bytes cmd b : byte_ok b → Forall byte_ok (io_bytes (io_pack cmd (replicate 8 b))).
Proof.
  intros Hb. unfold io_pack, TCP_CMD_HEADER_STR. cbn [io_bytes].
  apply Forall_app; split; [by repeat (apply Forall_cons; split)|].
  apply Forall_app; split; [apply le_bytes_ok|by apply Forall_replicate].
Qed.

Lemma io_disc_ok : disconnect io_disc.
Proof. split_and!; cbn; [lia|done|done]. Qed.

Lemma srv0_add : ∃ id v', server_turn io_add srv0 = Ret Continue v' ∧ conn_inv 4 (sess0 16) id v'.
Proof.
  destruct (add_turn_ret 4 ltac:(by left) srv0 io_add) as (id & v' & E & Hv & _);
    [by apply sess0_inv|apply io_add_ok|by vm_compute|]. exists id, v'. exact (conj E Hv).
Qed.

(** An unknown command, and a second ADD_CLIENT, after which the thread serves another client. *)
Lemma server_turn_reply_witness :
  ∃ id v v' v'', conn_inv 4 (sess0 16) id v ∧
    server_turn (io_pack 77 (replicate 8 0)) v = Ret Continue v' ∧
    (∃ r, sv_out v' = sv_out v ++ [r] ∧ returnCMD r = Some DVS_RETURN_INVLID_CMD) ∧
    server_turn io_add v = Ret Continue v'' ∧ (∃ r, sv_out v'' = sv_out v ++ [r] ∧ returnCMD r = Some DVS_RETURN_SUCCESS).
Proof.
  destruct srv0_add as (id & v & _ & Hv). exists id, v.
  destruct (server_turn_reply 4 ltac:(by left) (sess0 16) id v (io_pack 77 (replicate 8 0)) Hv) as (v' & E & Ho).
  - split; [by apply io_pack_bytes|]. intros E. exfalso. revert E. vm_compute. discriminate.
  - done.
  - destruct (server_turn_reply 4 ltac:(by left) (sess0 16) id v io_add Hv) as (v'' & E2 & Ho2).
    + split; [|intros _; by vm_compute]. unfold io_add, io_pack, TCP_CMD_HEADER_STR. cbn [io_bytes].
      repeat (apply Forall_app; split); try apply le_bytes_ok. by repeat (apply Forall_cons; split).
    + done.
    + exists v', v''. split; [exact Hv|]. split; [exact E|]. split; [eexists; split; [exact (proj1 Ho)|by vm_compute]|]. split; [exact E2|].
      eexists; split; [exact (proj1 Ho2)|by vm_compute].
Defined.

Lemma connection_leaves_no_trace_witness :
  ∃ v', tcpServerThrFxn (io_add :: [io_pack 3 (replicate 8 40); mkIo 7 [] 0 0 0] ++ [io_disc]) srv0 = Ret tt v' ∧
    sess_inv 4 (sv_sess v') ∧ m_Index v' = -1.
Proof.
  destruct (connection_leaves_no_trace 4 ltac:(by left) srv0 io_add
    [io_pack 3 (replicate 8 40); mkIo 7 [] 0 0 0] io_disc) as (v' & E & Hi & Hm & _).
  - by apply sess0_inv.
  - done.
  - by vm_compute.
  - apply io_add_ok.
  - apply Forall_cons; split; [|apply Forall_cons; split; [by intros ?|done]].
    intros _. split; [|by vm_compute].
    by apply io_pack_bytes.
  - apply io_disc_ok.
  - exists v'. exact (conj E (conj Hi Hm)).
Defined.

(** Four connected clients. *)
Definition srv_full : Srv CallLog := Eval vm_compute in
  match (_ ← add_client [1] 7000 8000; _ ← add_client [2] 7000 8000;
         _ ← add_client [3] 7000 8000; add_client [4] 7000 8000) (sess0 16) with
  | Ret _ s => srv0 <| sv_sess := s |>
  | _ => srv0
  end.

Lemma srv_full_inv : sess_inv 4 (sv_sess srv_full).
Proof.
  assert (Hops : ∃ s', for_each [OAdd [1] 7000 8000; OAdd [2] 7000 8000; OAdd [3] 7000 8000; OAdd [4] 7000 8000]
    run_op (sess0 16) = Ret tt s' ∧ sess_inv 4 s').
  { apply (for_each_inv (sess_inv 4)); [|by apply sess0_inv]. intros o s Ho Hs.
    destruct (run_op_ret 4 ltac:(by left) o s Hs) as (s' & E & Hs' & _).
    - repeat (apply elem_of_cons in Ho as [->|Ho]; [cbn; lia|]). by apply elem_of_nil in Ho.
    - by exists s'. }
  destruct Hops as (s' & E & Hs').
  assert (E' : for_each [OAdd [1] 7000 8000; OAdd [2] 7000 8000; OAdd [3] 7000 8000; OAdd [4] 7000 8000]
    run_op (sess0 16) = Ret tt (sv_sess srv_full)) by (vm_compute; reflexivity).
  rewrite E in E'. by injection E' as ->.
Qed.

Lemma server_id_faults_witness :
  tcpServerThrFxn [io_disc] srv_full = Flt UninitRead ∧
  tcpServerThrFxn [io_add; io_disc] srv_full = Flt OutOfBounds.
Proof.
  destruct (server_id_faults 4 ltac:(by left) srv_full io_add io_disc srv_full_inv) as (E1 & _ & E2);
    [done|done|apply io_disc_ok|].
  split; [exact E1|]. apply E2; [apply io_add_ok|by vm_compute].
Defined.

Lemma listen_registers_witness :
  listenThrFxn 0 (replicate 21 (mkAccept 5 (replicate 16 0) 0)) env0 = Flt OutOfBounds.
Proof.
  apply (proj2 (listen_registers env0 (replicate 20 (mkAccept 5 (replicate 16 0) 0))
    (mkAccept 5 (replicate 16 0) 0) eq_refl eq_refl ltac:(by repeat (apply Forall_cons; split)))).
  reflexivity.
Defined.

Lemma clean_and_alarm_witness :
  ∃ s, clean_tcp_listen_thread (env0 <| m_clientCount := 1 |> <| m_Client := env_of 0 (mkAccept 5 [] 0) ::
         replicate 19 (mkClientEnv 0 0 []) |>) = Ret 0 s.
Proof.
  destruct (clean_and_alarm (env0 <| m_clientCount := 1 |> <| m_Client := env_of 0 (mkAccept 5 [] 0) ::
         replicate 19 (mkClientEnv 0 0 []) |>) [mkAccept 5 [] 0] 1 1) as (E & _).
  - split_and!; [done|done|]. intros i a Ha. pose proof (aget_Some_range _ _ _ Ha) as Hr.
    assert (i = 0) as -> by (unfold zlen in Hr; cbn in Hr; lia). by injection Ha as <-.
  - done.
  - done.
  - eexists. exact E.
Defined.
