(* ===== verification/Uart.v ===== *)
(** * The serial-port server ([uart/src/uart_operate.c], [uart_service.c], [uart_server.c])

    The settings of the port, the commands of a client (packets in, settings and
    bytes out) over the results of [recv], and the table of clients filled by the
    accept loop. Every command runs under the manager's mutex, whose state is
    part of the model. *)

From S2P Require Import Prelude.

Definition SUCCESS_THR : Z := 0.
Definition MAX_CLIENT_NUM : Z := 20.
Definition TCP_CMD_HEADER_LEN : Z := 8.
Definition TCP_CMD_POSITION : Z := 7.
Definition DVS_TCP_CMD_PTZ : Z := 0.
Definition DVS_TCP_CMD_UART : Z := 1.
Definition PTZ_CMD_MAX_LEN : Z := 8.
Definition TCP_CMD_HEADER_STR : list Z := [0xBB; 0xB1; 0xB2; 0xB3; 0xB4; 0xB5; 0xFF; 0x00].

(** termios flags of Linux *)
Definition CSIZE : Z := 0x30.
Definition CS7 : Z := 0x20.
Definition CS8 : Z := 0x30.
Definition CSTOPB : Z := 0x40.
Definition PARENB : Z := 0x100.
Definition PARODD : Z := 0x200.
Definition INPCK : Z := 0x10.

(** B115200 ... B300 *)
Definition speed_arr : list Z := [0x1002; 0x1001; 0xF; 0xE; 0xD; 0xC; 0xB; 0x9; 0x7].
Definition name_arr : list Z := [115200; 57600; 38400; 19200; 9600; 4800; 2400; 1200; 300].

(** * The port ([uart_operate.c]) *)

(** The settings the kernel has, and the bytes written so far. *)
Record Port := mkPort {
  c_cflag : Z;
  c_iflag : Z;
  speed : Z;
  vtime : Z;
  vmin : Z;
  written : list Z
}.
#[export] Instance eta_Port : Eta Port := fun p =>
  mkPort (c_cflag p) (c_iflag p) (speed p) (vtime p) (vmin p) (written p).

(** [x &= ~m] and [x |= m] on a field of the options. *)
Definition clr (x m : Z) : Z := Z.ldiff x m.
Definition orr (x m : Z) : Z := Z.lor x m.

Record PackPtz := mkPtz { cmd : list Z; len : Z }.
Record PackSerial := mkSerial { baudrate : Z; databits : Z; stopbits : Z; parity : Z }.

Section Uart.
(** The results of [tcgetattr], [tcsetattr], and of [write] on given bytes. *)
Context (tcget tcset : Z) (wrote : list Z → Z).

Definition set_serial_speed (spd : Z) : CM Port Z :=
  r ← for_until (seqZ 0 9) (fun i =>
        nm ← rd name_arr i;
        if spd =? nm then
          b ← rd speed_arr i;
          if negb (tcget =? 0) then fault_with UninitRead else
          _ ← (if tcset =? 0 then modify (fun p => p <| speed := b |>) else mret tt);
          mret (Some 0)
        else mret None);
  mret (match r with Some x => x | None => -1 end).

(** The three switches on the local options; [None] for an early return of -1. *)
Definition opt_databits (d : Z) (o : Port) : option Port :=
  let o := o <| c_cflag := clr (c_cflag o) CSIZE |> in
  if d =? 7 then Some (o <| c_cflag := orr (c_cflag o) CS7 |>)
  else if d =? 8 then Some (o <| c_cflag := orr (c_cflag o) CS8 |>)
  else None.

Definition opt_parity (p : Z) (o : Port) : option Port :=
  if (p =? 110) || (p =? 78) then        (* 'n' 'N' *)
    Some (o <| c_cflag := clr (c_cflag o) PARENB |> <| c_iflag := clr (c_iflag o) INPCK |>)
  else if (p =? 111) || (p =? 79) then   (* 'o' 'O' *)
    Some (o <| c_cflag := orr (c_cflag o) (Z.lor PARODD PARENB) |> <| c_iflag := orr (c_iflag o) INPCK |>)
  else if (p =? 101) || (p =? 69) then   (* 'e' 'E' *)
    Some (o <| c_cflag := clr (orr (c_cflag o) PARENB) PARODD |> <| c_iflag := orr (c_iflag o) INPCK |>)
  else if (p =? 115) || (p =? 83) then   (* 's' 'S' *)
    Some (o <| c_cflag := clr (clr (c_cflag o) PARENB) CSTOPB |>)
  else None.

Definition opt_stopbits (s : Z) (o : Port) : option Port :=
  if s =? 1 then Some (o <| c_cflag := clr (c_cflag o) CSTOPB |>)
  else if s =? 2 then Some (o <| c_cflag := orr (c_cflag o) CSTOPB |>)
  else None.

Definition set_serial_parity (d s p : Z) : CM Port Z := fun port =>
  if negb (tcget =? 0) then Ret (-1) port else
  match (o ← opt_databits d port; o ← opt_parity p o; opt_stopbits s o) with
  | None => Ret (-1) port
  | Some o =>
      let o := if negb (p =? 110) then o <| c_iflag := orr (c_iflag o) INPCK |> else o in
      let o := o <| vtime := 150 |> <| vmin := 0 |> in
      if tcset =? 0 then Ret 0 o else Ret (-1) port
  end.

(** [write] of [n] bytes from [buf]; a negative count is a huge [size_t], which
    the system call refuses. *)
Definition send_serial_data (buf : list Z) (n : Z) : CM Port Z :=
  if n <? 0 then mret (-1)
  else if zlen buf <? n then fault_with OutOfBounds
  else let r := wrote (take (Z.to_nat n) buf) in
       _ ← modify (fun p => p <| written ::= (.++ take (Z.to_nat r) buf) |>);
       mret r.

(** * A client's thread ([uart_service.c]) *)

Record UartMgr := mkUart {
  port : Port;
  serial_fd : Z;
  server_socket : Z;
  locked : bool;                  (* the mutex *)
  clients : list Z;               (* the sockets *)
  closed : list Z;                (* sockets closed so far *)
  started : list Z;               (* slots a thread was created for *)
  uart_cmd_count : Z
}.
#[export] Instance eta_UartMgr : Eta UartMgr := fun m =>
  mkUart (port m) (serial_fd m) (server_socket m) (locked m) (clients m) (closed m) (started m) (uart_cmd_count m).

(** The process, and what the next [recv]s of the thread's socket return:
    [None] for 0 or an error. *)
Record Conn := mkConn { mgr : UartMgr; input : list (option (list Z)) }.
#[export] Instance eta_Conn : Eta Conn := fun c => mkConn (mgr c) (input c).

Definition on_port {A} (m : CM Port A) : CM UartMgr A := zoom port (fun p m => m <| port := p |>) m.
Definition on_mgr {A} (m : CM UartMgr A) : CM Conn A := zoom mgr (fun u c => c <| mgr := u |>) m.

Definition lock : CM UartMgr unit := fun m => if locked m then Blk m else Ret tt (m <| locked := true |>).
Definition unlock : CM UartMgr unit := modify (fun m => m <| locked := false |>).

(** The bytes are those in the buffer after a return of 0. *)
Definition recv_tcp_pack (n : Z) : CM Conn (Z * list Z) := fun c =>
  match input c with
  | [] => Blk c
  | None :: l => Ret (-1, []) (c <| input := l |>)
  | Some bs :: l =>
      let bs := take (Z.to_nat n) bs in
      Ret (if zlen bs =? n then 0 else -1, bs) (c <| input := l |>)
  end.

Definition tcp_analysis_cmdheader : CM Conn Z :=
  r ← recv_tcp_pack TCP_CMD_HEADER_LEN;
  if r.1 <? 0 then mret (r.1)
  else if decide (take 7 r.2 = take 7 TCP_CMD_HEADER_STR)
  then rd r.2 TCP_CMD_POSITION
  else mret (-1).

(** The packets are packed structs, little-endian. *)
Definition SerialPack (bs : list Z) : PackSerial :=
  mkSerial (i32 (le_val (slice bs 0 4))) (i32 (le_val (slice bs 4 4)))
           (i32 (le_val (slice bs 8 4))) (i32 (le_val (slice bs 12 4))).

Definition PtzCmdPack (bs : list Z) : PackPtz := mkPtz (slice bs 0 8) (i32 (le_val (slice bs 8 4))).

(** The commands once their packet has been read. *)
Definition set_port (pk : PackSerial) : CM UartMgr Z :=
  _ ← lock;
  r ← on_port (set_serial_speed (baudrate pk));
  if negb (r =? 0) then _ ← unlock; mret (-1) else
  r ← on_port (set_serial_parity (databits pk) (stopbits pk) (parity pk));
  if negb (r =? 0) then _ ← unlock; mret (-1) else
  _ ← unlock; mret 0.

(** The bytes are printed one by one before they are sent. *)
Definition exec_ptz (pk : PackPtz) : CM UartMgr Z :=
  _ ← lock;
  _ ← modify (fun m => m <| uart_cmd_count := i32 (uart_cmd_count m + 1) |>);
  _ ← for_each (seqZ 0 (len pk)) (fun i => _ ← rd (cmd pk) i; mret tt);
  r ← on_port (send_serial_data (cmd pk) (len pk));
  _ ← unlock;
  mret (if negb (r =? len pk) then -1 else 0).

Definition tcp_cmd_set_serial_port : CM Conn Z :=
  r ← recv_tcp_pack 16;
  if r.1 <? 0 then mret (r.1) else on_mgr (set_port (SerialPack r.2)).

Definition tcp_cmd_exec_ptz : CM Conn Z :=
  r ← recv_tcp_pack 12;
  if r.1 <? 0 then mret (r.1) else on_mgr (exec_ptz (PtzCmdPack r.2)).

(** One turn of the loop; [true] when the thread leaves it. *)
Definition service_turn : CM Conn bool :=
  serverCMD ← tcp_analysis_cmdheader;
  if serverCMD <? 0 then mret true
  else if serverCMD =? DVS_TCP_CMD_UART then
    r ← tcp_cmd_set_serial_port; mret (r <? 0)
  else if serverCMD =? DVS_TCP_CMD_PTZ then
    r ← tcp_cmd_exec_ptz; mret (r <? 0)
  else mret false.

Fixpoint service_loop (fuel : nat) : CM Conn bool :=
  match fuel with
  | O => mret false
  | S fuel => stop ← service_turn; if (stop : bool) then mret true else service_loop fuel
  end.

(** Closing the socket of slot [i] and freeing the slot. *)
Definition close_slot (i : Z) : CM UartMgr unit :=
  cs ← gets clients;
  s ← rd cs i;
  modify (fun m => m <| closed ::= (.++ [s]) |> <| clients ::= <[Z.to_nat i := -1]> |>).

(** [true] when the thread ended; [clientNo] is what [*arg] holds when it is read. *)
Definition uartServiceThr (fuel : nat) (clientNo : Z) : CM Conn bool :=
  cs ← on_mgr (gets clients);
  _ ← rd cs clientNo;
  stop ← service_loop fuel;
  if (stop : bool) then _ ← on_mgr (close_slot clientNo); mret true else mret false.

(** * The server ([uart_server.c]) *)

Definition uart_service_init : CM UartMgr Z :=
  _ ← modify (fun m => m <| serial_fd := -1 |> <| server_socket := -1 |>);
  _ ← for_each (seqZ 0 MAX_CLIENT_NUM) (fun i => modify (fun m => m <| clients ::= <[Z.to_nat i := -1]> |>));
  _ ← modify (fun m => m <| locked := false |>);
  mret 0.

(** One turn of the accept loop, with the results of [accept] and
    [pthread_create]; [Some _] when the thread returns. *)
Definition accept_turn (ac : Z * Z) : CM UartMgr (option Z) :=
  if ac.1 <? 0 then mret (Some (-1)) else
  cs ← gets clients;
  match find_idx (fun s => s <? 0) (take (Z.to_nat MAX_CLIENT_NUM) cs) with
  | None => mret (Some (-1))
  | Some clientNo =>
      _ ← modify (fun m => m <| clients ::= <[Z.to_nat clientNo := ac.1]> |>);
      if negb (ac.2 =? 0) then mret (Some (-1)) else
      _ ← modify (fun m => m <| started ::= (.++ [clientNo]) |>);
      mret None
  end.

(** The results of [open], [socket], [bind] and [listen], then of the accepts:
    [None] while it waits for the next connection. *)
Definition uart_service_start (fd sock bd ls : Z) (accepts : list (Z * Z)) : CM UartMgr (option Z) :=
  _ ← modify (fun m => m <| serial_fd := fd |>);
  if fd <? 0 then mret (Some (-1)) else
  _ ← modify (fun m => m <| server_socket := sock |>);
  if negb (bd =? 0) then mret (Some (-1)) else
  if negb (ls =? 0) then mret (Some (-1)) else
  for_until accepts accept_turn.

Definition uart_service_stop : CM UartMgr Z :=
  _ ← for_each (seqZ 0 MAX_CLIENT_NUM) (fun i =>
        cs ← gets clients;
        s ← rd cs i;
        if s <? 0 then mret tt else close_slot i);
  _ ← modify (fun m => m <| closed ::= (.++ [server_socket m]) |>);
  _ ← modify (fun m => m <| server_socket := -1 |>);
  _ ← modify (fun m => m <| closed ::= (.++ [serial_fd m]) |>);
  mret 0.

(** [thr] and [join] are the results of [OSA_thrCreate] and [OSA_thrJoin]. *)
Definition uart_tcp_listen_thread_start (thr : Z) : CM UartMgr Z :=
  _ ← uart_service_init;
  mret (if negb (thr =? 0) then -1 else 0).
Definition clean_uart_tcp_listen_thread (join : Z) : CM UartMgr Z :=
  _ ← uart_service_stop;
  mret (if join =? 0 then 0 else -1).

(** * The settings *)

Definition odd_parity (p : Z) : bool := (p =? 111) || (p =? 79).
Definition even_parity (p : Z) : bool := (p =? 101) || (p =? 69).
Definition no_parity (p : Z) : bool := (p =? 110) || (p =? 78) || (p =? 115) || (p =? 83).

(** Bit [i] of the control flags after a successful call. *)
Definition cflag_bit (d s p : Z) (old : bool) (i : Z) : bool :=
  if i =? 4 then d =? 8
  else if i =? 5 then true
  else if i =? 6 then s =? 2
  else if i =? 8 then odd_parity p || even_parity p
  else if i =? 9 then (if odd_parity p then true else if even_parity p then false else old)
  else old.

Lemma flag_bits i :
  Z.testbit CSIZE i = (4 =? i) || (5 =? i) ∧ Z.testbit CS7 i = (5 =? i) ∧
  Z.testbit CS8 i = (4 =? i) || (5 =? i) ∧ Z.testbit CSTOPB i = (6 =? i) ∧
  Z.testbit PARENB i = (8 =? i) ∧ Z.testbit PARODD i = (9 =? i) ∧ Z.testbit INPCK i = (4 =? i).
Proof.
  change CSIZE with (Z.lor (2 ^ 4) (2 ^ 5)). change CS8 with (Z.lor (2 ^ 4) (2 ^ 5)). change CS7 with (2 ^ 5).
  change CSTOPB with (2 ^ 6). change PARENB with (2 ^ 8). change PARODD with (2 ^ 9). change INPCK with (2 ^ 4).
  by rewrite Z.lor_spec, !Z.pow2_bits_eqb by lia.
Qed.

(** Decide every comparison of the bit index with a constant. *)
Ltac bit_cases i :=
  pose proof (flag_bits i) as (H1 & H2 & H3 & H4 & H5 & H6 & H7);
  unfold clr, orr; rewrite ?Z.lor_spec, ?Z.ldiff_spec, ?Z.lor_spec, ?Z.ldiff_spec, ?H1, ?H2, ?H3, ?H4, ?H5, ?H6, ?H7;
  clear H1 H2 H3 H4 H5 H6 H7;
  repeat match goal with
  | |- context [?a =? i] => is_ground a; rewrite (Z.eqb_sym a i)
  end;
  repeat match goal with
  | |- context [i =? ?a] => destruct (Z.eqb_spec i a); subst; cbn [Z.eqb Pos.eqb andb orb negb]
  end;
  rewrite ?andb_false_r, ?andb_true_r, ?orb_false_r, ?orb_true_r; try done; try lia.

Lemma databits_bits d o :
  match opt_databits d o with
  | Some o' => (d = 7 ∨ d = 8) ∧ c_iflag o' = c_iflag o ∧ speed o' = speed o ∧ written o' = written o ∧
      ∀ i, Z.testbit (c_cflag o') i = if i =? 4 then d =? 8 else if i =? 5 then true else Z.testbit (c_cflag o) i
  | None => d ≠ 7 ∧ d ≠ 8
  end.
Proof.
  unfold opt_databits. destruct (Z.eqb_spec d 7) as [->|]; [|destruct (Z.eqb_spec d 8) as [->|]; [|done]].
  - split_and!; try done; [by left|]. intros i. cbn. bit_cases i.
  - split_and!; try done; [by right|]. intros i. cbn. bit_cases i.
Qed.

Lemma parity_bits p o :
  match opt_parity p o with
  | Some o' => odd_parity p || even_parity p || no_parity p = true ∧ speed o' = speed o ∧ written o' = written o ∧
      (∀ i, i ≠ 6 → Z.testbit (c_cflag o') i =
         if i =? 8 then odd_parity p || even_parity p
         else if i =? 9 then (if odd_parity p then true else if even_parity p then false else Z.testbit (c_cflag o) 9)
         else Z.testbit (c_cflag o) i) ∧
      (∀ i, i ≠ 4 → Z.testbit (c_iflag o') i = Z.testbit (c_iflag o) i) ∧
      (p = 110 → Z.testbit (c_iflag o') 4 = false)
  | None => odd_parity p || even_parity p || no_parity p = false
  end.
Proof.
  unfold opt_parity, odd_parity, even_parity, no_parity.
  destruct ((p =? 110) || (p =? 78)) eqn:E1; [|destruct ((p =? 111) || (p =? 79)) eqn:E2;
    [|destruct ((p =? 101) || (p =? 69)) eqn:E3; [|destruct ((p =? 115) || (p =? 83)) eqn:E4]]].
  - assert ((p =? 111) || (p =? 79) = false) as -> by lia. assert ((p =? 101) || (p =? 69) = false) as -> by lia.
    split_and!; try done; try lia; [| |intros _]; [intros i Hi..|].
    + cbn. bit_cases i.
    + cbn. bit_cases i.
    + change (Z.testbit (Z.ldiff (c_iflag o) INPCK) 4 = false). rewrite Z.ldiff_spec. apply andb_false_r.
  - assert ((p =? 101) || (p =? 69) = false) as -> by lia.
    split_and!; try done; try lia; [intros i Hi..]; cbn; bit_cases i.
  - split_and!; try done; try lia; [intros i Hi..]; cbn; bit_cases i.
  - split_and!; try done; try lia; [intros i Hi..]; cbn; bit_cases i.
  - lia.
Qed.

Lemma stopbits_bits s o :
  match opt_stopbits s o with
  | Some o' => (s = 1 ∨ s = 2) ∧ c_iflag o' = c_iflag o ∧ speed o' = speed o ∧ written o' = written o ∧
      ∀ i, Z.testbit (c_cflag o') i = if i =? 6 then s =? 2 else Z.testbit (c_cflag o) i
  | None => s ≠ 1 ∧ s ≠ 2
  end.
Proof.
  unfold opt_stopbits. destruct (Z.eqb_spec s 1) as [->|]; [|destruct (Z.eqb_spec s 2) as [->|]; [|done]].
  - split_and!; try done; [by left|]. intros i. cbn. bit_cases i.
  - split_and!; try done; [by right|]. intros i. cbn. bit_cases i.
Qed.

Lemma speed_ret spd po :
  tcget = 0 → tcset = 0 →
  (∀ i, aget name_arr i = Some spd → ∃ b, aget speed_arr i = Some b ∧
     set_serial_speed spd po = Ret 0 (po <| speed := b |>)) ∧
  (spd ∉ name_arr → set_serial_speed spd po = Ret (-1) po).
Proof.
  intros Hg Hs. unfold set_serial_speed. rewrite Hg, Hs. split.
  - intros i Hi. pose proof (aget_Some_range _ _ _ Hi) as Hr. change (zlen name_arr) with 9 in Hr.
    assert (Hj : i = 0 ∨ i = 1 ∨ i = 2 ∨ i = 3 ∨ i = 4 ∨ i = 5 ∨ i = 6 ∨ i = 7 ∨ i = 8) by lia.
    destruct_or! Hj; subst i; injection Hi as <-; eexists; (split; [reflexivity|reflexivity]).
  - intros Hn. rewrite (bind_ret _ _ _ None po); [done|]. apply for_until_none. intros i Hi%elem_of_seqZ.
    assert (is_Some (aget name_arr i)) as [nm Hnm].
    { apply aget_is_Some. change (zlen name_arr) with 9. lia. }
    unfold rd. rewrite Hnm. rewrite (bind_ret _ _ _ nm po) by done.
    rewrite (proj2 (Z.eqb_neq spd nm)); [done|]. intros ->. by apply Hn, (aget_elem_of _ i).
Qed.

(** [set_serial_parity] accepts 7 or 8 data bits, 1 or 2 stop bits and the
    parities n, N, o, O, e, E, s, S, and refuses everything else with -1 without
    touching the port; accepted, exactly the size, stop and parity bits of the
    control flags change, to the values asked for, and input parity checking is
    on for every parity but the lower-case n. [set_serial_speed] sets the code of
    the rate for the nine rates of the table and answers -1 for others. *)
Theorem serial_settings d s p spd po :
  tcget = 0 → tcset = 0 →
  let valid := ((d =? 7) || (d =? 8)) && ((s =? 1) || (s =? 2)) && (odd_parity p || even_parity p || no_parity p) in
  (valid = false → set_serial_parity d s p po = Ret (-1) po) ∧
  (valid = true → ∃ po', set_serial_parity d s p po = Ret 0 po' ∧
     (∀ i, Z.testbit (c_cflag po') i = cflag_bit d s p (Z.testbit (c_cflag po) i) i) ∧
     (∀ i, Z.testbit (c_iflag po') i = if i =? 4 then negb (p =? 110) else Z.testbit (c_iflag po) i) ∧
     vtime po' = 150 ∧ vmin po' = 0 ∧ speed po' = speed po ∧ written po' = written po) ∧
  (∀ i, aget name_arr i = Some spd → ∃ b, aget speed_arr i = Some b ∧
     set_serial_speed spd po = Ret 0 (po <| speed := b |>)) ∧
  (spd ∉ name_arr → set_serial_speed spd po = Ret (-1) po).
Proof.
  intros Hg Hs valid.
  assert (Hopt : set_serial_parity d s p po =
    match (o ← opt_databits d po; o ← opt_parity p o; opt_stopbits s o) with
    | None => Ret (-1) po
    | Some o =>
        let o := if negb (p =? 110) then o <| c_iflag := orr (c_iflag o) INPCK |> else o in
        Ret 0 (o <| vtime := 150 |> <| vmin := 0 |>)
    end) by (unfold set_serial_parity; rewrite Hg, Hs; done).
  pose proof (databits_bits d po) as H1. destruct (opt_databits d po) as [o1|] eqn:E1; cbn in Hopt.
  2:{ rewrite Hopt. split; [done|]. split; [intros Hv; exfalso; unfold valid in Hv; lia|]. exact (speed_ret spd po Hg Hs). }
  pose proof (parity_bits p o1) as H2. destruct (opt_parity p o1) as [o2|] eqn:E2; cbn in Hopt.
  2:{ rewrite Hopt. split; [done|]. split; [intros Hv; unfold valid in Hv; by rewrite H2, andb_false_r in Hv|].
      exact (speed_ret spd po Hg Hs). }
  pose proof (stopbits_bits s o2) as H3. destruct (opt_stopbits s o2) as [o3|] eqn:E3; cbn in Hopt.
  2:{ rewrite Hopt. split; [done|]. split; [intros Hv; exfalso; unfold valid in Hv; lia|]. exact (speed_ret spd po Hg Hs). }
  destruct H1 as (Hd & Hi1 & Hs1 & Hw1 & Hb1), H2 as (Hp & Hs2 & Hw2 & Hb2 & Hi2 & Hn2), H3 as (Hst & Hi3 & Hs3 & Hw3 & Hb3).
  split; [intros Hv; exfalso; unfold valid in Hv; rewrite Hp in Hv; lia|]. split; [intros _|exact (speed_ret spd po Hg Hs)].
  assert (Hcf : ∀ i, Z.testbit (c_cflag o3) i = cflag_bit d s p (Z.testbit (c_cflag po) i) i).
  { intros i. rewrite Hb3. unfold cflag_bit. destruct (Z.eqb_spec i 6) as [->|H6]; [done|].
    rewrite Hb2, !Hb1 by done.
    destruct (Z.eqb_spec i 4) as [->|]; [done|]. destruct (Z.eqb_spec i 5) as [->|]; [done|].
    destruct (Z.eqb_spec i 8) as [->|]; [done|]. by destruct (Z.eqb_spec i 9) as [->|]. }
  cbv zeta in Hopt. destruct (Z.eqb_spec p 110) as [Hp110|Hp110]; cbn [negb] in *.
  - eexists. split; [exact Hopt|]. split_and!; [exact Hcf| |done|done|cbn; congruence|cbn; congruence].
    intros i. change (Z.testbit (c_iflag o3) i = if i =? 4 then false else Z.testbit (c_iflag po) i).
    rewrite Hi3. destruct (Z.eqb_spec i 4) as [->|]; [by apply Hn2|]. by rewrite Hi2, Hi1.
  - eexists. split; [exact Hopt|]. split_and!; [exact Hcf| |done|done|cbn; congruence|cbn; congruence].
    intros i. change (Z.testbit (Z.lor (c_iflag o3) INPCK) i = if i =? 4 then true else Z.testbit (c_iflag po) i).
    rewrite Z.lor_spec, Hi3. destruct (flag_bits i) as (_ & _ & _ & _ & _ & _ & ->).
    rewrite (Z.eqb_sym 4 i). destruct (Z.eqb_spec i 4) as [->|]; [apply orb_true_r|].
    by rewrite orb_false_r, Hi2, Hi1.
Qed.

(** * The commands *)

Lemma read_cmd (l : list Z) (n : Z) (m : UartMgr) :
  n ≤ zlen l → for_each (seqZ 0 n) (fun i => _ ← rd l i; mret tt) m = Ret tt m.
Proof.
  intros Hn. destruct (for_each_inv (fun x => x = m) (seqZ 0 n) (fun i => _ ← rd l i; mret tt) m) as (m' & E & ->);
    [|done|done].
  intros i x Hi%elem_of_seqZ ->. assert (is_Some (aget l i)) as [v Hv] by (apply aget_is_Some; lia).
  exists m. split; [|done]. unfold rd. by rewrite Hv.
Qed.

Lemma read_cmd_out (l : list Z) (n : Z) (m : UartMgr) :
  zlen l < n → for_each (seqZ 0 n) (fun i => _ ← rd l i; mret tt) m = Flt OutOfBounds.
Proof.
  intros Hn. pose proof (zlen_nonneg l). assert (Hs : seqZ 0 n = seqZ 0 (zlen l) ++ zlen l :: seqZ (Z.succ (zlen l)) (Z.pred (n - zlen l))).
  { rewrite <- seqZ_cons by lia. replace n with (zlen l + (n - zlen l)) at 1 by lia.
    rewrite seqZ_app by lia. by rewrite Z.add_0_l. }
  rewrite Hs, for_each_app, (bind_ret _ _ _ _ _ (read_cmd l (zlen l) m ltac:(lia))). cbn [for_each].
  unfold rd. by rewrite (proj2 (aget_None l (zlen l))) by lia.
Qed.

Lemma lock_ret m : locked m = false → lock m = Ret tt (m <| locked := true |>).
Proof. intros H. unfold lock. by rewrite H. Qed.

Definition counted (m : UartMgr) : UartMgr := m <| uart_cmd_count := i32 (uart_cmd_count m + 1) |>.

Lemma exec_ptz_ret pk m :
  locked m = false → len pk ≤ zlen (cmd pk) →
  exec_ptz pk m =
    Ret (if len pk <? 0 then (if -1 =? len pk then 0 else -1)
         else if wrote (take (Z.to_nat (len pk)) (cmd pk)) =? len pk then 0 else -1)
        (if len pk <? 0 then counted m
         else counted m <| port ::= fun p => p <| written ::= (.++ take (Z.to_nat (wrote (take (Z.to_nat (len pk)) (cmd pk)))) (cmd pk)) |> |>).
Proof.
  intros Hl Hn. unfold exec_ptz. rewrite (bind_ret _ _ _ _ _ (lock_ret m Hl)).
  rewrite (bind_ret _ _ _ tt (counted (m <| locked := true |>))) by done.
  rewrite (bind_ret _ _ _ _ _ (read_cmd _ _ _ Hn)). unfold send_serial_data, on_port, zoom.
  destruct (len pk <? 0) eqn:E0.
  - rewrite (bind_ret _ _ _ (-1) (counted (m <| locked := true |>))) by by destruct m.
    destruct (-1 =? len pk); destruct m; cbn in Hl; by subst.
  - destruct (zlen (cmd pk) <? len pk) eqn:E1; [lia|].
    set (r := wrote (take (Z.to_nat (len pk)) (cmd pk))).
    rewrite (bind_ret _ _ _ r (counted (m <| locked := true |>)
      <| port ::= fun p => p <| written ::= (.++ take (Z.to_nat r) (cmd pk)) |> |>)) by by destruct m.
    destruct (r =? len pk); destruct m; cbn in Hl; by subst.
Qed.

(** The length of a PTZ packet is not checked: a length above 8 reads past
    the command's bytes; a length of at most 8 sends exactly that many bytes,
    with 0 for a complete write and -1 for a short one; a negative length sends
    nothing, and of these only -1 counts as success. The mutex is released
    in every case that returns. *)
Theorem ptz_length pk m :
  locked m = false → zlen (cmd pk) = PTZ_CMD_MAX_LEN →
  (PTZ_CMD_MAX_LEN < len pk → exec_ptz pk m = Flt OutOfBounds) ∧
  (0 ≤ len pk ≤ PTZ_CMD_MAX_LEN → wrote (take (Z.to_nat (len pk)) (cmd pk)) = len pk →
     ∃ m', exec_ptz pk m = Ret 0 m' ∧ locked m' = false ∧
       written (port m') = written (port m) ++ take (Z.to_nat (len pk)) (cmd pk)) ∧
  (0 ≤ len pk ≤ PTZ_CMD_MAX_LEN → wrote (take (Z.to_nat (len pk)) (cmd pk)) ≠ len pk →
     ∃ m', exec_ptz pk m = Ret (-1) m' ∧ locked m' = false) ∧
  (len pk < 0 → ∃ m', exec_ptz pk m = Ret (if len pk =? -1 then 0 else -1) m' ∧ locked m' = false ∧ port m' = port m).
Proof.
  intros Hl Hc. unfold PTZ_CMD_MAX_LEN in *. split_and!.
  - intros H. unfold exec_ptz. rewrite (bind_ret _ _ _ _ _ (lock_ret m Hl)).
    rewrite (bind_ret _ _ _ tt (counted (m <| locked := true |>))) by done.
    unfold mbind at 1, CM_bind. by rewrite read_cmd_out by lia.
  - intros H Hw. rewrite exec_ptz_ret by (done || lia). destruct (len pk <? 0) eqn:E; [lia|].
    rewrite Hw, Z.eqb_refl. by eexists.
  - intros H Hw. rewrite exec_ptz_ret by (done || lia). destruct (len pk <? 0) eqn:E; [lia|].
    rewrite (proj2 (Z.eqb_neq _ _) Hw). by eexists.
  - intros H. rewrite exec_ptz_ret by (done || lia). destruct (len pk <? 0) eqn:E; [|lia].
    rewrite (Z.eqb_sym (-1)). by eexists.
Qed.

(** ** A whole connection *)

(** A client's commands, the packets they are sent as, and what they do. *)
Inductive ucmd :=
  | UPtz (bytes : list Z) (n : Z)
  | UUart (b d s p : Z)
  | UOther (k : Z).

Definition header (k : Z) : list Z := take 7 TCP_CMD_HEADER_STR ++ [k].

Definition packets (c : ucmd) : list (option (list Z)) :=
  match c with
  | UPtz bytes n => [Some (header DVS_TCP_CMD_PTZ); Some (bytes ++ le_bytes 4 n)]
  | UUart b d s p => [Some (header DVS_TCP_CMD_UART); Some (le_bytes 4 b ++ le_bytes 4 d ++ le_bytes 4 s ++ le_bytes 4 p)]
  | UOther k => [Some (header k)]
  end.

Definition exec (c : ucmd) : CM UartMgr Z :=
  match c with
  | UPtz bytes n => exec_ptz (mkPtz bytes n)
  | UUart b d s p => set_port (mkSerial b d s p)
  | UOther _ => mret 0
  end.

Definition cmd_ok (c : ucmd) : Prop :=
  match c with
  | UPtz bytes n => zlen bytes = PTZ_CMD_MAX_LEN ∧ - 2 ^ 31 ≤ n ≤ PTZ_CMD_MAX_LEN
  | UUart b d s p => in_i32 b ∧ in_i32 d ∧ in_i32 s ∧ in_i32 p
  | UOther k => 2 ≤ k < 256
  end.

(** The commands in order, up to the first that fails. *)
Fixpoint run_cmds (cs : list ucmd) : CM UartMgr unit :=
  match cs with
  | [] => mret tt
  | c :: cs => r ← exec c; if r <? 0 then mret tt else run_cmds cs
  end.

(** What makes the thread stop: a disconnect or error, a short packet, a wrong header. *)
Definition bad_header (x : option (list Z)) : Prop :=
  match x with
  | None => True
  | Some bs => zlen bs < TCP_CMD_HEADER_LEN ∨ take 7 bs ≠ take 7 TCP_CMD_HEADER_STR
  end.

Lemma exec_ret c m :
  tcget = 0 → cmd_ok c → locked m = false →
  ∃ r m', exec c m = Ret r m' ∧ locked m' = false ∧ clients m' = clients m ∧ closed m' = closed m.
Proof.
  intros Hg Hc Hl. destruct c as [bytes n|b d s p|k]; cbn [exec cmd_ok] in *.
  - destruct Hc as [Hb Hn]. rewrite exec_ptz_ret by (cbn; unfold PTZ_CMD_MAX_LEN in *; done || lia).
    do 2 eexists. split; [reflexivity|]. by destruct (_ <? 0).
  - assert (H1 : ∃ r p', set_serial_speed b (port m) = Ret r p').
    { unfold set_serial_speed. destruct (decide (b ∈ name_arr)) as [Hin|Hout].
      - apply list_elem_of_lookup in Hin as [i Hi]. rewrite Hg.
        assert (Hr : (i < 9)%nat) by (apply lookup_lt_Some in Hi; exact Hi).
        do 9 (destruct i as [|i]; [injection Hi as <-; destruct tcset; by do 2 eexists|]). lia.
      - exists (-1), (port m). rewrite (bind_ret _ _ _ None (port m)); [done|]. apply for_until_none.
        intros i Hi%elem_of_seqZ. assert (is_Some (aget name_arr i)) as [nm Hnm].
        { apply aget_is_Some. change (zlen name_arr) with 9. lia. }
        unfold rd. rewrite Hnm. rewrite (bind_ret _ _ _ nm (port m)) by done.
        rewrite (proj2 (Z.eqb_neq b nm)); [done|]. intros ->. by apply Hout, (aget_elem_of _ i). }
    destruct H1 as (r1 & p1 & E1). unfold set_port. cbn [baudrate databits stopbits parity].
    rewrite (bind_ret _ _ _ _ _ (lock_ret m Hl)).
    rewrite (bind_ret _ _ _ r1 (m <| locked := true |> <| port := p1 |>))
      by (unfold on_port, zoom; cbn; by rewrite E1).
    destruct (negb (r1 =? 0)); [by do 2 eexists|].
    assert (H2 : ∃ r p', set_serial_parity d s p p1 = Ret r p').
    { unfold set_serial_parity. rewrite Hg. cbn [negb Z.eqb]. repeat case_match; by do 2 eexists. }
    destruct H2 as (r2 & p2 & E2).
    rewrite (bind_ret _ _ _ r2 (m <| locked := true |> <| port := p2 |>))
      by (unfold on_port, zoom; cbn; by rewrite E2).
    destruct (negb (r2 =? 0)); by do 2 eexists.
  - by do 2 eexists.
Qed.

Lemma int_field z : in_i32 z → i32 (le_val (le_bytes 4 z)) = z.
Proof.
  intros H. rewrite le_val_bytes. change (256 ^ Z.of_nat 4) with (2 ^ 32). fold (u32 z).
  rewrite i32_u32. by apply i32_id.
Qed.

Lemma ptz_field bytes n : zlen bytes = PTZ_CMD_MAX_LEN → in_i32 n →
  PtzCmdPack (bytes ++ le_bytes 4 n) = mkPtz bytes n.
Proof.
  intros Hb Hn. assert (length bytes = 8%nat) by (unfold zlen, PTZ_CMD_MAX_LEN in Hb; lia).
  unfold PtzCmdPack. rewrite slice_app_l by done. rewrite slice_app_r by lia. rewrite H.
  change (slice (le_bytes 4 n) (8 - 8) 4) with (le_bytes 4 n). by rewrite int_field.
Qed.

Lemma serial_field b d s p : in_i32 b → in_i32 d → in_i32 s → in_i32 p →
  SerialPack (le_bytes 4 b ++ le_bytes 4 d ++ le_bytes 4 s ++ le_bytes 4 p) = mkSerial b d s p.
Proof.
  intros Hb Hd Hs Hp. unfold SerialPack.
  change (slice (le_bytes 4 b ++ le_bytes 4 d ++ le_bytes 4 s ++ le_bytes 4 p) 0 4) with (le_bytes 4 b).
  change (slice (le_bytes 4 b ++ le_bytes 4 d ++ le_bytes 4 s ++ le_bytes 4 p) 4 4) with (le_bytes 4 d).
  change (slice (le_bytes 4 b ++ le_bytes 4 d ++ le_bytes 4 s ++ le_bytes 4 p) 8 4) with (le_bytes 4 s).
  change (slice (le_bytes 4 b ++ le_bytes 4 d ++ le_bytes 4 s ++ le_bytes 4 p) 12 4) with (le_bytes 4 p).
  by rewrite !int_field.
Qed.

Lemma recv_whole n bs l m :
  zlen bs = n → recv_tcp_pack n (mkConn m (Some bs :: l)) = Ret (0, bs) (mkConn m l).
Proof.
  intros Hn. unfold recv_tcp_pack. cbn [input]. rewrite take_ge by (unfold zlen in Hn; lia).
  by rewrite Hn, Z.eqb_refl.
Qed.

Lemma header_ret k l m :
  tcp_analysis_cmdheader (mkConn m (Some (header k) :: l)) = Ret k (mkConn m l).
Proof.
  unfold tcp_analysis_cmdheader. rewrite (bind_ret _ _ _ _ _ (recv_whole 8 (header k) l m eq_refl)).
  cbn [fst snd Z.ltb Z.compare]. by rewrite decide_True by done.
Qed.

Lemma uart_turn_ret c m r m' l :
  cmd_ok c → exec c m = Ret r m' → service_turn (mkConn m (packets c ++ l)) = Ret (r <? 0) (mkConn m' l).
Proof.
  intros Hc E. unfold service_turn. destruct c as [bytes n|b d s p|k]; cbn [packets app cmd_ok exec] in *.
  - destruct Hc as [Hb Hn]. unfold PTZ_CMD_MAX_LEN in *. rewrite (bind_ret _ _ _ _ _ (header_ret _ _ _)). cbn [Z.ltb Z.eqb Z.compare DVS_TCP_CMD_PTZ DVS_TCP_CMD_UART].
    rewrite (bind_ret _ _ _ r (mkConn m' l)); [done|]. unfold tcp_cmd_exec_ptz.
    rewrite (bind_ret _ _ _ _ _ (recv_whole 12 (bytes ++ le_bytes 4 n) l m
      ltac:(rewrite zlen_app, Hb; unfold zlen; by rewrite le_bytes_length))).
    cbn [fst snd Z.ltb Z.compare]. rewrite ptz_field by (done || (unfold in_i32; lia)).
    unfold on_mgr, zoom. cbn [mgr]. by rewrite E.
  - destruct Hc as (Hb & Hd & Hs & Hp). rewrite (bind_ret _ _ _ _ _ (header_ret _ _ _)).
    cbn [Z.ltb Z.eqb Z.compare DVS_TCP_CMD_PTZ DVS_TCP_CMD_UART Pos.eqb].
    rewrite (bind_ret _ _ _ r (mkConn m' l)); [done|]. unfold tcp_cmd_set_serial_port.
    rewrite (bind_ret _ _ _ _ _ (recv_whole 16 (le_bytes 4 b ++ le_bytes 4 d ++ le_bytes 4 s ++ le_bytes 4 p) l m eq_refl)).
    cbn [fst snd Z.ltb Z.compare]. rewrite serial_field by done.
    unfold on_mgr, zoom. cbn [mgr]. by rewrite E.
  - injection E as <- <-. rewrite (bind_ret _ _ _ _ _ (header_ret _ _ _)).
    unfold DVS_TCP_CMD_UART, DVS_TCP_CMD_PTZ.
    rewrite (proj2 (Z.ltb_ge k 0)), (proj2 (Z.eqb_neq k 1)), (proj2 (Z.eqb_neq k 0)) by lia. done.
Qed.

Lemma uart_turn_bad x m l :
  bad_header x → service_turn (mkConn m (x :: l)) = Ret true (mkConn m l).
Proof.
  intros Hx. unfold service_turn, tcp_analysis_cmdheader. destruct x as [bs|]; [|done]. cbn [bad_header] in Hx.
  rewrite (bind_ret _ _ _ (-1) (mkConn m l)); [done|].
  unfold recv_tcp_pack at 1. unfold mbind, CM_bind. cbn [input]. cbn [fst snd].
  unfold TCP_CMD_HEADER_LEN in *. destruct (zlen (take (Z.to_nat 8) bs) =? 8) eqn:E; [|done].
  cbn [Z.ltb Z.compare]. destruct Hx as [Hx|Hx].
  - exfalso. apply Z.eqb_eq in E. unfold zlen in *. rewrite length_take in E. lia.
  - rewrite decide_False; [done|]. rewrite take_take. by replace (7 `min` Z.to_nat 8)%nat with 7%nat by done.
Qed.

(** C21: a connection whose packets encode the commands [cs] (packets of the
    right size, PTZ lengths of at most 8) is served command by command: the
    thread has exactly the effect of [cs] in order up to the first that fails,
    ends there or at the first packet that is no command, closes its socket and
    frees its slot, and leaves the mutex free. *)
Theorem uart_connection cs x l m slot s fuel :
  tcget = 0 → Forall cmd_ok cs → bad_header x → locked m = false → aget (clients m) slot = Some s →
  (length cs < fuel)%nat →
  ∃ m' l', run_cmds cs m = Ret tt m' ∧ locked m' = false ∧
    uartServiceThr fuel slot (mkConn m (concat (map packets cs) ++ x :: l)) =
      Ret true (mkConn (m' <| closed := closed m ++ [s] |> <| clients := <[Z.to_nat slot := -1]> (clients m) |>) l').
Proof.
  intros Hg Hcs Hx Hl Hs Hf.
  assert (Hloop : ∃ m' l', run_cmds cs m = Ret tt m' ∧ locked m' = false ∧ clients m' = clients m ∧ closed m' = closed m ∧
    service_loop fuel (mkConn m (concat (map packets cs) ++ x :: l)) = Ret true (mkConn m' l')).
  { clear Hs. revert m fuel Hl Hf. induction Hcs as [|c cs Hc Hcs IH]; intros m [|fuel] Hl Hf; [cbn in Hf; lia| |cbn in Hf; lia|].
    - exists m, l. split_and!; try done. cbn [map concat app service_loop].
      by rewrite (bind_ret _ _ _ _ _ (uart_turn_bad x m l Hx)).
    - destruct (exec_ret c m Hg Hc Hl) as (r & m1 & E & Hl1 & Hc1 & Hcl1).
      cbn [map concat]. rewrite <- app_assoc. cbn [service_loop run_cmds].
      rewrite (bind_ret _ _ _ _ _ E), (bind_ret _ _ _ _ _ (uart_turn_ret c m r m1 _ Hc E)).
      destruct (r <? 0); [by exists m1, (concat (map packets cs) ++ x :: l)|].
      destruct (IH m1 fuel Hl1 ltac:(cbn in Hf; lia)) as (m2 & l2 & E2 & Hl2 & Hc2 & Hcl2 & Es2).
      exists m2, l2. split_and!; [done..|congruence|congruence|done]. }
  destruct Hloop as (m' & l' & Er & Hl' & Hc' & Hcl' & Es). exists m', l'. split_and!; [done..|].
  unfold uartServiceThr. rewrite (bind_ret _ _ _ (clients m) (mkConn m (concat (map packets cs) ++ x :: l)))
    by (unfold on_mgr, zoom, gets; by destruct m).
  unfold rd at 1. rewrite Hs. rewrite (bind_ret _ _ _ s _) by done. rewrite (bind_ret _ _ _ _ _ Es).
  rewrite (bind_ret _ _ _ tt (mkConn (m' <| closed := closed m ++ [s] |>
    <| clients := <[Z.to_nat slot := -1]> (clients m) |>) l')); [done|].
  unfold on_mgr, zoom, close_slot. cbn [mgr]. rewrite (bind_ret _ _ _ (clients m') m') by done.
  unfold rd. rewrite Hc', Hs. rewrite (bind_ret _ _ _ s m') by done. unfold modify. cbn. by rewrite Hcl', Hc'.
Qed.

(** * The accept loop *)

Lemma init_ret m :
  zlen (clients m) = MAX_CLIENT_NUM →
  uart_service_init m = Ret 0 (m <| serial_fd := -1 |> <| server_socket := -1 |>
    <| clients := replicate 20 (-1) |> <| locked := false |>).
Proof.
  intros Hz. destruct m as [po fd so lk cs cl st n]. unfold MAX_CLIENT_NUM, zlen in Hz. cbn in Hz.
  do 20 (destruct cs as [|? cs]; [done|]). destruct cs as [|? cs]; [|cbn in Hz; lia]. reflexivity.
Qed.

Lemma find_free socks j :
  Forall (fun s => 0 ≤ s) socks → find_idx (fun s => s <? 0) (socks ++ replicate (S j) (-1)) = Some (zlen socks).
Proof.
  intros H. unfold find_idx. assert (Hg : ∀ i, find_idx_from (fun s => s <? 0) (socks ++ replicate (S j) (-1)) i = Some (i + zlen socks)).
  { induction H as [|s socks Hs _ IH]; intros i; cbn [app find_idx_from].
    - rewrite replicate_S. cbn. f_equal. change (zlen (@nil Z)) with 0. lia.
    - rewrite (proj2 (Z.ltb_ge s 0)) by done. rewrite IH, zlen_cons. f_equal. lia. }
  by rewrite Hg.
Qed.

Lemma accepts_ok m socks :
  clients m = replicate 20 (-1) → started m = [] → Forall (fun s => 0 ≤ s) socks → (length socks ≤ 20)%nat →
  for_until (map (fun s => (s, 0)) socks) accept_turn m =
    Ret None (m <| clients := socks ++ replicate (20 - length socks) (-1) |> <| started := seqZ 0 (zlen socks) |>).
Proof.
  intros Hc Hst Hs Hl. induction socks as [|s socks IH] using rev_ind.
  - destruct m; cbn in *; subst. done.
  - rewrite length_app in Hl. cbn in Hl. apply Forall_app in Hs as [Hs [H0 _]%Forall_cons].
    rewrite map_app. cbn [map]. rewrite (for_until_snoc _ _ _ _ _ (IH Hs ltac:(lia))). unfold accept_turn.
    cbn [fst snd]. rewrite (proj2 (Z.ltb_ge s 0)) by done. unfold mbind, CM_bind, gets. cbn [clients update].
    rewrite take_ge by (rewrite length_app, length_replicate; unfold MAX_CLIENT_NUM; lia).
    replace (20 - length socks)%nat with (S (19 - length socks))%nat by lia.
    rewrite find_free by done. cbn. unfold modify. f_equal. destruct m; cbn in *. f_equal.
    + unfold zlen. rewrite Nat2Z.id, length_app, replicate_S, <- app_assoc.
      rewrite insert_app_r_alt by lia. rewrite Nat.sub_diag.
      change (length [s]) with 1%nat. by replace (20 - (length socks + 1))%nat with (19 - length socks)%nat by lia.
    + rewrite zlen_snoc. unfold zlen. replace (Z.of_nat (length socks) + 1) with (Z.of_nat (S (length socks))) by lia.
      rewrite seqZ_S. f_equal.
Qed.

Lemma accept_full m s :
  0 ≤ s → Forall (fun s => 0 ≤ s) (clients m) → length (clients m) = 20%nat → accept_turn (s, 0) m = Ret (Some (-1)) m.
Proof.
  intros Hs Hc Hl. unfold accept_turn. cbn [fst snd]. rewrite (proj2 (Z.ltb_ge s 0)) by done.
  rewrite (bind_ret _ _ _ (clients m) m) by done. rewrite take_ge by (unfold MAX_CLIENT_NUM; lia).
  assert (find_idx (fun s => s <? 0) (clients m) = None) as ->; [|done].
  apply find_idx_None. eapply Forall_impl; [exact Hc|]. intros y Hy. by apply Z.ltb_ge.
Qed.

(** After its initialisation the accept loop gives the connections the slots
    0, 1, 2, ... and a thread each; with all 20 in use the next connection ends
    the server thread for good, without closing that connection. *)
Theorem uart_accept fd sock m socks :
  0 ≤ fd → zlen (clients m) = MAX_CLIENT_NUM → Forall (fun s => 0 ≤ s) socks → started m = [] →
  ∃ m1 m', uart_service_init m = Ret 0 m1 ∧
    uart_service_start fd sock 0 0 (map (fun s => (s, 0)) socks) m1 =
      Ret (if MAX_CLIENT_NUM <? zlen socks then Some (-1) else None) m' ∧
    clients m' = take 20 (socks ++ replicate 20 (-1)) ∧
    started m' = seqZ 0 (Z.min MAX_CLIENT_NUM (zlen socks)) ∧ closed m' = closed m.
Proof.
  intros Hfd Hz Hs Hst. set (m1 := m <| serial_fd := -1 |> <| server_socket := -1 |>
    <| clients := replicate 20 (-1) |> <| locked := false |>).
  set (m2 := m1 <| serial_fd := fd |> <| server_socket := sock |>).
  set (first := take 20 socks). assert (Hlf : (length first ≤ 20)%nat) by (unfold first; rewrite length_take; lia).
  assert (Hsf : Forall (fun s => 0 ≤ s) first) by by apply Forall_take.
  pose proof (accepts_ok m2 first eq_refl Hst Hsf Hlf) as E.
  exists m1, (m2 <| clients := first ++ replicate (20 - length first) (-1) |> <| started := seqZ 0 (zlen first) |>).
  assert (Hcl : first ++ replicate (20 - length first) (-1) = take 20 (socks ++ replicate 20 (-1))).
  { unfold first. rewrite take_app, length_take, take_replicate. f_equal. f_equal. lia. }
  split_and!; [by apply init_ret| |exact Hcl| |done].
  - unfold uart_service_start. rewrite (bind_ret _ _ _ tt (m1 <| serial_fd := fd |>)) by done.
    rewrite (proj2 (Z.ltb_ge fd 0)) by done. rewrite (bind_ret _ _ _ tt m2) by done. cbn [negb Z.eqb].
    rewrite <- (take_drop 20 socks), map_app. rewrite (for_until_app _ _ _ _ _ E).
    rewrite take_drop. unfold MAX_CLIENT_NUM. destruct (Z.ltb_spec 20 (zlen socks)) as [Hlt|Hge].
    + destruct (drop 20 socks) as [|s rest] eqn:Ed; [apply (f_equal length) in Ed; rewrite length_drop in Ed; unfold zlen in Hlt; cbn in Ed; lia|].
      assert (Hs0 : 0 ≤ s) by (assert (Forall (fun s => 0 ≤ s) (s :: rest)) as HF by (rewrite <- Ed; by apply Forall_drop); by inversion HF).
      assert (Hl20 : length first = 20%nat) by (unfold first; rewrite length_take; unfold zlen in Hlt; lia).
      rewrite Hl20. change (replicate (20 - 20) (-1)) with (@nil Z). rewrite app_nil_r.
      cbn [map for_until]. set (m3 := m2 <| clients := first |> <| started := seqZ 0 (zlen first) |>).
      assert (E3 : accept_turn (s, 0) m3 = Ret (Some (-1)) m3) by by apply accept_full.
      by rewrite (bind_ret _ _ _ _ _ E3).
    + rewrite drop_ge by (unfold zlen in Hge; lia). done.
  - cbn. f_equal. unfold first, zlen, MAX_CLIENT_NUM. rewrite length_take. lia.
Qed.

End Uart.

(** * Concrete states *)

Definition port0 : Port := mkPort 0x1CB2 0x500 0xD 0 1 [].
Definition uart0 : UartMgr := mkUart port0 5 6 false (replicate 20 (-1)) [] [] 0.

Lemma serial_settings_witness :
  ∃ po, set_serial_parity 0 0 7 2 69 port0 = Ret 0 po ∧ Z.testbit (c_cflag po) 8 = true ∧ Z.testbit (c_cflag po) 9 = false.
Proof.
  destruct (serial_settings 0 0 7 2 69 9600 port0 eq_refl eq_refl) as (_ & H & _).
  destruct (H eq_refl) as (po & E & Hc & _). exists po. split; [exact E|]. rewrite !Hc. by vm_compute.
Defined.

Lemma ptz_length_witness :
  exec_ptz zlen (mkPtz [1; 2; 3; 4; 5; 6; 7; 8] 100) uart0 = Flt OutOfBounds ∧
  (∃ m', exec_ptz zlen (mkPtz [1; 2; 3; 4; 5; 6; 7; 8] (-1)) uart0 = Ret 0 m').
Proof.
  split.
  - exact (proj1 (ptz_length zlen (mkPtz [1; 2; 3; 4; 5; 6; 7; 8] 100) uart0 eq_refl eq_refl) ltac:(done)).
  - destruct (ptz_length zlen (mkPtz [1; 2; 3; 4; 5; 6; 7; 8] (-1)) uart0 eq_refl eq_refl) as (_ & _ & _ & H).
    destruct (H ltac:(done)) as (m' & E & _). exists m'. exact E.
Defined.

Lemma uart_connection_witness :
  ∃ m' l', uartServiceThr 0 0 zlen 4 0 (mkConn (uart0 <| clients := 9 :: replicate 19 (-1) |>)
    (concat (map packets [UUart 9600 8 1 110; UPtz [1; 2; 3; 4; 5; 6; 7; 8] 7; UOther 5]) ++ [None])) = Ret true (mkConn m' l') ∧
    closed m' = [9] ∧ aget (clients m') 0 = Some (-1).
Proof.
  destruct (uart_connection 0 0 zlen [UUart 9600 8 1 110; UPtz [1; 2; 3; 4; 5; 6; 7; 8] 7; UOther 5] None []
    (uart0 <| clients := 9 :: replicate 19 (-1) |>) 0 9 4) as (m' & l' & _ & _ & E).
  - done.
  - repeat (apply Forall_cons; split); [unfold cmd_ok, in_i32; lia|split; [reflexivity|unfold PTZ_CMD_MAX_LEN; lia]|unfold cmd_ok; lia|].
    apply Forall_nil. exact I.
  - done.
  - done.
  - done.
  - cbn. lia.
  - eexists _, l'. split; [exact E|by vm_compute].
Defined.

Lemma uart_accept_witness :
  ∃ m1 m', uart_service_init uart0 = Ret 0 m1 ∧ uart_service_start 5 6 0 0 [(10, 0); (11, 0)] m1 = Ret None m' ∧
    started m' = [0; 1].
Proof.
  destruct (uart_accept 5 6 uart0 [10; 11]) as (m1 & m' & E1 & E2 & _ & Es & _).
  - lia.
  - done.
  - by repeat (apply Forall_cons; split).
  - done.
  - exists m1, m'. exact (conj E1 (conj E2 Es)).
Defined.
