(* ===== verification/Main.v ===== *)
(** * The process ([core/src/main.c], [audioEncode.c], and the thread bodies it starts)

    Module [Startup] is [main] over the results of the calls it makes. Module
    [Threads] is the running process: one deterministic step function per
    thread, over the shared exit and quit flags, the rendezvous and the pipes
    between the video thread and the sub-session threads; a run interleaves the
    threads in any order. *)

From S2P Require Import Prelude Gbl Rendezvous.

Definition LOCAL_TCP_PORT : Z := 9090.
Definition UART_LOCAL_TCP_PORT : Z := 9092.
Definition NUM_OF_THREADS : Z := 4.
Definition ORTP_SESSION_THR : Z := 0.
Definition VIDEO_ENCODE_THR : Z := 1.
Definition AUDIO_ENCODE_THR : Z := 2.
Definition ALARM_INPUT_THR : Z := 3.

Module Startup.

(** The calls of [main], in the order they are made. *)
Inductive call :=
  | c_rtp_init
  | c_tcp_listen_thread_start (port : Z)
  | c_uart_tcp_listen_thread_start (port : Z)
  | c_thrCreate_ssh
  | c_Rendezvous_open_init (n : Z)
  | c_Rendezvous_open_cleanup (n : Z)
  | c_thrCreate (thr : Z)
  | c_sleep
  | c_thrJoin (thr : Z)
  | c_thrDelete (thr : Z)
  | c_rtp_exit
  | c_clean_tcp_listen_thread
  | c_clean_uart_tcp_listen_thread.

#[export] Instance call_eq_dec : EqDecision call.
Proof. solve_decision. Defined.

Record St := mkSt { m_gbl : GlobalData; calls : list call }.
#[export] Instance eta_St : Eta St := fun s => mkSt (m_gbl s) (calls s).

Section Main.
(** The results of the calls, and the exit states the others threads store while
    [main] sleeps, one per second; after them it is stored no more. *)
Context (res : call → Z) (stores : list (option ExitState)).

Definition invoke (c : call) : CM St Z := _ ← modify (fun s => s <| calls := calls s ++ [c] |>); mret (res c).
Definition in_gbl {A} (m : CM GlobalData A) : CM St A := zoom m_gbl (fun g s => s <| m_gbl := g |>) m.

Definition start_all_threads : CM St Z :=
  _ ← invoke (c_Rendezvous_open_init NUM_OF_THREADS);
  _ ← invoke (c_Rendezvous_open_cleanup NUM_OF_THREADS);
  r ← for_until [ORTP_SESSION_THR; VIDEO_ENCODE_THR; AUDIO_ENCODE_THR; ALARM_INPUT_THR] (fun t =>
        x ← invoke (c_thrCreate t);
        mret (if negb (x =? 0) then Some (-1) else None));
  mret (match r with Some e => e | None => 0 end).

Definition stop_all_threads : CM St unit :=
  _ ← in_gbl gblSetQuit;
  for_each (seqZ 0 NUM_OF_THREADS) (fun i =>
    _ ← (if i =? ALARM_INPUT_THR then invoke (c_thrDelete i) else invoke (c_thrJoin i)); mret tt).

(** [while (gblGetExitState() == DVS_WORKING) sleep(1)]: [Blk] when no store
    ever ends it. *)
Fixpoint wait_exit (stores : list (option ExitState)) : CM St unit :=
  e ← in_gbl gblGetExitState;
  if decide (e = DVS_WORKING) then
    match stores with
    | [] => block
    | x :: stores =>
        _ ← invoke c_sleep;
        _ ← (match x with Some e => in_gbl (gblSetExitState e) | None => mret tt end);
        wait_exit stores
    end
  else mret tt.

Definition exit_code (e : ExitState) : Z :=
  match e with DVS_WORKING => 0 | DVS_EXIT_SUCCESS => 1 | DVS_EXIT_FAIL => 2 | DVS_EXIT_RESET_BOARD => 3 end.

Definition main : CM St Z :=
  _ ← in_gbl (gblSetExitState DVS_WORKING);
  _ ← in_gbl (gblSetVideoChannels 16);
  _ ← invoke c_rtp_init;
  x ← invoke (c_tcp_listen_thread_start LOCAL_TCP_PORT);
  if negb (x =? 0) then mret (-1) else
  x ← invoke (c_uart_tcp_listen_thread_start UART_LOCAL_TCP_PORT);
  if negb (x =? 0) then mret (-1) else
  x ← invoke c_thrCreate_ssh;
  if negb (x =? 0) then mret (-1) else
  x ← start_all_threads;
  if x <? 0 then mret (-1) else
  _ ← wait_exit stores;
  _ ← stop_all_threads;
  _ ← invoke c_rtp_exit;
  _ ← invoke c_clean_tcp_listen_thread;
  _ ← invoke c_clean_uart_tcp_listen_thread;
  e ← in_gbl gblGetExitState;
  mret (exit_code e).

(** ** Behaviour *)

(** Starting up and shutting down, in order. *)
Definition boot : list call :=
  [c_rtp_init; c_tcp_listen_thread_start LOCAL_TCP_PORT; c_uart_tcp_listen_thread_start UART_LOCAL_TCP_PORT;
   c_thrCreate_ssh; c_Rendezvous_open_init 4; c_Rendezvous_open_cleanup 4;
   c_thrCreate 0; c_thrCreate 1; c_thrCreate 2; c_thrCreate 3].
Definition shutdown : list call :=
  [c_thrJoin 0; c_thrJoin 1; c_thrJoin 2; c_thrDelete 3;
   c_rtp_exit; c_clean_tcp_listen_thread; c_clean_uart_tcp_listen_thread].

(** The calls whose result [main] tests. *)
Definition tested (c : call) : bool :=
  match c with
  | c_tcp_listen_thread_start _ | c_uart_tcp_listen_thread_start _ | c_thrCreate_ssh | c_thrCreate _ => true
  | _ => false
  end.

Definition booted (s : St) : St :=
  mkSt ((m_gbl s) <| g_exitState := DVS_WORKING |> <| videoChannels := 16 |>) (calls s ++ boot).

Lemma invoke_ret c s : invoke c s = Ret (res c) (s <| calls := calls s ++ [c] |>).
Proof. done. Qed.

Ltac steps := repeat (progress (unfold invoke, in_gbl, gblSetVideoChannels; run)).

(** The calls of [l], up to the first that fails a test. *)
Fixpoint try_calls (l : list call) : CM St bool :=
  match l with
  | [] => mret true
  | c :: l => x ← invoke c; if tested c && negb (x =? 0) then mret false else try_calls l
  end.

Lemma untested c : (tested c = true → res c = 0) → tested c && negb (res c =? 0) = false.
Proof. intros H. destruct (tested c); [by rewrite H|done]. Qed.

Lemma try_calls_ok l s :
  (∀ c, c ∈ l → tested c = true → res c = 0) → try_calls l s = Ret true (s <| calls ::= (.++ l) |>).
Proof.
  revert s. induction l as [|c l IH]; intros s H; cbn.
  - rewrite app_nil_r. by destruct s.
  - rewrite (bind_ret _ _ _ _ _ (invoke_ret c s)), (untested c) by (apply H; set_solver).
    rewrite IH by (intros; apply H; [set_solver|done]). cbn. by rewrite <- app_assoc.
Qed.

Lemma try_calls_fail pre c post s :
  tested c = true → res c ≠ 0 → (∀ d, d ∈ pre → tested d = true → res d = 0) →
  try_calls (pre ++ c :: post) s = Ret false (s <| calls ::= (.++ pre ++ [c]) |>).
Proof.
  intros Ht Hc%Z.eqb_neq. revert s. induction pre as [|d pre IH]; intros s H; cbn [app try_calls].
  - rewrite (bind_ret _ _ _ _ _ (invoke_ret c s)). by rewrite Ht, Hc.
  - rewrite (bind_ret _ _ _ _ _ (invoke_ret d s)), (untested d) by (apply H; set_solver).
    rewrite IH by (intros; apply H; [set_solver|done]). cbn. by rewrite <- app_assoc.
Qed.

(** [main] after its start-up. *)
Definition main_rest : CM St Z :=
  _ ← wait_exit stores; _ ← stop_all_threads; _ ← invoke c_rtp_exit;
  _ ← invoke c_clean_tcp_listen_thread; _ ← invoke c_clean_uart_tcp_listen_thread;
  e ← in_gbl gblGetExitState; mret (exit_code e).

Lemma main_try s :
  main s = (ok ← try_calls boot; if (ok : bool) then main_rest else mret (-1))
    (mkSt ((m_gbl s) <| g_exitState := DVS_WORKING |> <| videoChannels := 16 |>) (calls s)).
Proof.
  unfold main, start_all_threads, boot, main_rest. steps.
  unfold ORTP_SESSION_THR, VIDEO_ENCODE_THR, AUDIO_ENCODE_THR, ALARM_INPUT_THR, NUM_OF_THREADS.
  repeat (lazymatch goal with |- context [negb (res ?c =? 0)] => destruct (negb (res c =? 0)) end; steps;
          [reflexivity|]).
  reflexivity.
Qed.

Lemma wait_exit_ret (k : nat) e rest s :
  e ≠ DVS_WORKING → g_exitState (m_gbl s) = DVS_WORKING →
  wait_exit (replicate k None ++ Some e :: rest) s =
    Ret tt (mkSt ((m_gbl s) <| g_exitState := e |>) (calls s ++ replicate (S k) c_sleep)).
Proof.
  intros He. revert s. induction k as [|k IH]; intros s Hs.
  - change (replicate 0 None) with (@nil (option ExitState)). cbn [app wait_exit]. steps. rewrite Hs, decide_True by done.
    destruct rest; steps; by rewrite decide_False by done.
  - rewrite replicate_S. cbn [app wait_exit]. steps. rewrite Hs, decide_True by done.
    rewrite IH by done. cbn. by rewrite <- app_assoc.
Qed.

Lemma wait_exit_blk (k : nat) s :
  g_exitState (m_gbl s) = DVS_WORKING →
  wait_exit (replicate k None) s = Blk (mkSt (m_gbl s) (calls s ++ replicate k c_sleep)).
Proof.
  revert s. induction k as [|k IH]; intros s Hs.
  - change (replicate 0 None) with (@nil (option ExitState)). steps. rewrite Hs, decide_True by done. rewrite app_nil_r. by destruct s.
  - rewrite replicate_S. cbn [app wait_exit]. steps. rewrite Hs, decide_True by done.
    rewrite IH by done. cbn. by rewrite <- app_assoc.
Qed.

(** C15: [main] starts everything in order, sleeps until another thread stores an
    exit state, joins the session, video and audio threads, cancels the alarm
    thread, closes the stack and the listeners in order and returns the state
    stored; while no state is stored it sleeps; and when a call of the start-up
    fails it returns -1 at once, undoing none of the calls before it. *)
Theorem main_spec s :
  (∀ k e rest, (∀ c, c ∈ boot → tested c = true → res c = 0) →
     stores = replicate k None ++ Some e :: rest → e ≠ DVS_WORKING →
     ∃ s', main s = Ret (exit_code e) s' ∧ quit (m_gbl s') = 1 ∧
       calls s' = calls s ++ boot ++ replicate (S k) c_sleep ++ shutdown) ∧
  (∀ k, (∀ c, c ∈ boot → tested c = true → res c = 0) → stores = replicate k None →
     ∃ s', main s = Blk s' ∧ calls s' = calls s ++ boot ++ replicate k c_sleep) ∧
  (∀ pre c post, boot = pre ++ c :: post → tested c = true → res c ≠ 0 →
     (∀ d, d ∈ pre → tested d = true → res d = 0) →
     ∃ s', main s = Ret (-1) s' ∧ calls s' = calls s ++ pre ++ [c]).
Proof.
  split_and!.
  - intros k e rest Hz Hst He. rewrite main_try, (bind_ret _ _ _ _ _ (try_calls_ok _ _ Hz)).
    unfold main_rest. rewrite Hst. fold (booted s).
    rewrite (bind_ret _ _ _ _ _ (wait_exit_ret k e rest (booted s) He eq_refl)).
    eexists. split; [reflexivity|]. split; [reflexivity|]. cbn [calls booted].
    unfold shutdown. cbn. by rewrite <- !app_assoc.
  - intros k Hz Hst. rewrite main_try, (bind_ret _ _ _ _ _ (try_calls_ok _ _ Hz)).
    unfold main_rest. rewrite Hst. fold (booted s).
    unfold mbind, CM_bind. rewrite wait_exit_blk by done.
    eexists. split; [reflexivity|]. exact (eq_sym (app_assoc _ _ _)).
  - intros pre c post Hb Ht Hc Hpre.
    rewrite main_try, Hb, (bind_ret _ _ _ _ _ (try_calls_fail pre c post _ Ht Hc Hpre)).
    eexists. by split.
Qed.

End Main.

Definition st0 : St := mkSt gbl_init [].

Lemma main_spec_witness :
  (∃ s', main (fun _ => 0) [None; Some DVS_EXIT_SUCCESS] st0 = Ret 1 s' ∧
     calls s' = boot ++ [c_sleep; c_sleep] ++ shutdown) ∧
  (∃ s', main (fun c => if decide (c = c_thrCreate 1) then -1 else 0) [] st0 = Ret (-1) s' ∧
     calls s' = take 8 boot).
Proof.
  split.
  - destruct (main_spec (fun _ => 0) [None; Some DVS_EXIT_SUCCESS] st0) as [H _].
    destruct (H 1%nat DVS_EXIT_SUCCESS []) as (s' & E & _ & Ec); [done|reflexivity|done|].
    exists s'. exact (conj E Ec).
  - destruct (main_spec (fun c => if decide (c = c_thrCreate 1) then -1 else 0) [] st0) as (_ & _ & H).
    destruct (H (take 7 boot) (c_thrCreate 1) (drop 8 boot)) as (s' & E & Ec); [reflexivity|done|done| |].
    + intros d Hd _. case_decide; [subst d|done]. exfalso. revert Hd. cbn. set_solver.
    + exists s'. exact (conj E Ec).
Defined.

End Startup.

(** * The running threads *)

Module Threads.

(** An element on a pipe: a frame's, or a flush. *)
Inductive elt := Frame | Flush.

(** The pipe of a channel group: what is in it and which ends are open. *)
Record Pipe := mkPipe { items : list elt; rd_end : bool; wr_end : bool }.
#[export] Instance eta_Pipe : Eta Pipe := fun p => mkPipe (items p) (rd_end p) (wr_end p).

Inductive VidPc :=                (* videoEncodeThrFxn *)
  | VInit | VAsleep | VLoop
  | VPut (i : nat)                (* the put for channel i comes next *)
  | VFlush (g : nat) | VEnd.
Inductive SubPc :=                (* subSessionThrFxn *)
  | SubNone                       (* not created *)
  | SubStart                      (* has not read its argument yet *)
  | SubLoop (id : nat) | SubGet (id : nat) | SubEnd.
Inductive SesPc :=                (* sessionThrFxn *)
  | SesInit | SesAsleep | SesSpawn (i : nat)
  | SesSpawned (i : nat)          (* asleep before the next creation *)
  | SesJoin (i : nat)
  | SesCloseRd (g : nat) | SesCloseWr (g : nat) | SesEnd.
Inductive AudPc := AInit | AAsleep | ALoop | AEnd.
Inductive MainPc :=               (* main from the wait loop to the end of stop_all_threads *)
  | MWait | MJoin (i : nat) | MStopped.

Record Sys := mkSys {
  exiting : bool;                 (* the exit state is no longer DVS_WORKING *)
  quitting : bool;                (* gbl.quit *)
  rv : Rendezvous_Obj;
  pipes : list Pipe;
  vid : VidPc;
  subs : list SubPc;
  ses : SesPc;
  aud : AudPc;
  alm : AudPc;                    (* alarmInputThrFxn *)
  mainpc : MainPc;
  killed : bool                   (* by SIGPIPE *)
}.
#[export] Instance eta_Sys : Eta Sys := fun s => mkSys (exiting s) (quitting s) (rv s) (pipes s)
  (vid s) (subs s) (ses s) (aud s) (alm s) (mainpc s) (killed s).

Inductive Tid := TMain | TSsh | TSes | TSub (k : nat) | TVid | TAud | TAlm.

Section Process.
(** The number of channel groups, the elements a pipe holds, and whether the
    initialisations of the session and video threads succeed. *)
Context (n cap : nat) (ses_init vid_init : bool).

Definition chs : nat := 4 * n.

(** [Rendezvous_meet] by a thread: it sleeps, or goes on. *)
Definition meet (s : Sys) (sleep go : Sys → Sys) : option Sys :=
  match Rendezvous_meet (rv s) with
  | Blk r => Some (sleep (s <| rv := r |>))
  | Ret _ r => Some (go (s <| rv := r |>))
  | Flt _ => None
  end.
(** A sleeper goes on after the broadcast. *)
Definition wake (s : Sys) (go : Sys) : option Sys := if rv_count (rv s) <=? 0 then Some go else None.

(** [FifoUtil_put]: [None] while it sleeps; the process is killed when only the
    read end is closed, and nothing happens when both are. *)
Definition put (g : nat) (e : elt) (s : Sys) (go : Sys → Sys) : option Sys :=
  match pipes s !! g with
  | None => None
  | Some p =>
      if negb (wr_end p) then Some (go s)
      else if negb (rd_end p) then Some (s <| killed := true |>)
      else if (length (items p) <? cap)%nat
           then Some (go (s <| pipes ::= <[g := p <| items ::= (.++ [e]) |>]> |>))
           else None
  end.

Definition main_step (s : Sys) : option Sys :=
  match mainpc s with
  | MWait => if exiting s then Some (s <| quitting := true |> <| mainpc := MJoin 0 |>) else None
  | MJoin 0 => match ses s with SesEnd => Some (s <| mainpc := MJoin 1 |>) | _ => None end
  | MJoin 1 => match vid s with VEnd => Some (s <| mainpc := MJoin 2 |>) | _ => None end
  | MJoin 2 => match aud s with AEnd => Some (s <| mainpc := MJoin 3 |>) | _ => None end
  | MJoin _ => Some (s <| alm := AEnd |> <| mainpc := MStopped |>)   (* cancels the alarm thread *)
  | MStopped => None
  end.

Definition ssh_step (s : Sys) : option Sys :=
  if exiting s then None else Some (s <| exiting := true |>).

Definition aud_step (s : Sys) : option Sys :=
  match aud s with
  | AInit => meet s (fun s => s <| aud := AAsleep |>) (fun s => s <| aud := ALoop |>)
  | AAsleep => wake s (s <| aud := ALoop |>)
  | ALoop => if quitting s then Some (s <| aud := AEnd |>) else None
  | AEnd => None
  end.

Definition alm_step (s : Sys) : option Sys :=
  match alm s with
  | AInit => meet s (fun s => s <| alm := AAsleep |>) (fun s => s <| alm := ALoop |>)
  | AAsleep => wake s (s <| alm := ALoop |>)
  | ALoop => if quitting s then Some (s <| alm := AEnd |>) else None
  | AEnd => None
  end.

Definition vid_step (s : Sys) : option Sys :=
  match vid s with
  | VInit => if vid_init
             then meet s (fun s => s <| vid := VAsleep |>) (fun s => s <| vid := VLoop |>)
             else Some (s <| vid := VEnd |>)
  | VAsleep => wake s (s <| vid := VLoop |>)
  | VLoop => Some (s <| vid := if quitting s then VFlush 0 else VPut 0 |>)
  | VPut i => if (i <? chs)%nat
              then put (i / 4) Frame s (fun s => s <| vid := VPut (S i) |>)
              else Some (s <| vid := VLoop |>)
  | VFlush g => if (g <? n)%nat
                then put g Flush s (fun s => s <| vid := VFlush (S g) |>)
                else Some (s <| vid := VEnd |>)
  | VEnd => None
  end.

(** The loop variable of the session thread, which its children read. *)
Definition session_i (s : Sys) : nat :=
  match ses s with SesSpawn i | SesSpawned i | SesJoin i => i | _ => n end.

Definition sub_step (k : nat) (s : Sys) : option Sys :=
  let go pc := s <| subs ::= <[k := pc]> |> in
  match subs s !! k with
  | Some SubStart => Some (go (SubLoop (session_i s)))
  | Some (SubLoop id) => Some (go (if quitting s then SubEnd else SubGet id))
  | Some (SubGet id) =>
      match pipes s !! id with
      | None => None
      | Some p =>
          if negb (rd_end p) then Some (go SubEnd)
          else match items p with
               | [] => if wr_end p then None else Some (go SubEnd)
               | e :: l => Some ((go (match e with Flush => SubEnd | Frame => SubLoop id end))
                                   <| pipes ::= <[id := p <| items := l |>]> |>)
               end
      end
  | _ => None
  end.

Definition ses_step (s : Sys) : option Sys :=
  match ses s with
  | SesInit => if ses_init
               then meet (s <| pipes := replicate n (mkPipe [] true true) |>)
                         (fun s => s <| ses := SesAsleep |>) (fun s => s <| ses := SesSpawn 0 |>)
               else Some (s <| ses := SesEnd |>)
  | SesAsleep => wake s (s <| ses := SesSpawn 0 |>)
  | SesSpawn i => if (i <? n)%nat
                  then Some (s <| subs ::= <[i := SubStart]> |> <| ses := SesSpawned i |>)
                  else Some (s <| ses := SesJoin 0 |>)
  | SesSpawned i => Some (s <| ses := SesSpawn (S i) |>)
  | SesJoin i => if (i <? n)%nat
                 then match subs s !! i with
                      | Some SubEnd => Some (s <| ses := SesJoin (S i) |>)
                      | _ => None
                      end
                 else Some (s <| ses := SesCloseRd 0 |>)
  | SesCloseRd g => if (g <? n)%nat
                    then Some (s <| pipes ::= alter (fun p => p <| rd_end := false |>) g |> <| ses := SesCloseWr g |>)
                    else Some (s <| ses := SesEnd |>)
  | SesCloseWr g => Some (s <| pipes ::= alter (fun p => p <| wr_end := false |>) g |> <| ses := SesCloseRd (S g) |>)
  | SesEnd => None
  end.

Definition thread_step (t : Tid) (s : Sys) : option Sys :=
  if killed s then None else
  match t with
  | TMain => main_step s | TSsh => ssh_step s | TSes => ses_step s | TSub k => sub_step k s
  | TVid => vid_step s | TAud => aud_step s | TAlm => alm_step s
  end.

Definition step (s s' : Sys) : Prop := ∃ t, thread_step t s = Some s'.

Fixpoint run_sched (ts : list Tid) (s : Sys) : option Sys :=
  match ts with
  | [] => Some s
  | t :: ts => s' ← thread_step t s; run_sched ts s'
  end.

(** [main] has started the threads. *)
Definition start : Sys :=
  mkSys false false (mkRv NUM_OF_THREADS NUM_OF_THREADS) (replicate n (mkPipe [] false false))
    VInit (replicate n SubNone) SesInit AInit AInit MWait false.

(** ** Winding down *)

(** The puts still to come on pipe [g] once the process is quitting. *)
Definition pending (pc : VidPc) (g : nat) : nat :=
  match pc with
  | VPut i => Nat.min 4 (4 * (g + 1) - i) + 1
  | VFlush k => if (k <=? g)%nat then 1 else 0
  | VEnd => 0
  | _ => 1
  end.

Definition flushed (pc : VidPc) (g : nat) : Prop :=
  match pc with VFlush k => (g < k)%nat | VEnd => True | _ => False end.

Definition joined (pc : SesPc) (k : nat) : Prop :=
  match pc with SesJoin i => (k < i)%nat | SesCloseRd _ | SesCloseWr _ | SesEnd => True | _ => False end.

Definition open_rd (pc : SesPc) (g : nat) : bool :=
  match pc with SesCloseRd k => (k <=? g)%nat | SesCloseWr k => (k <? g)%nat | SesEnd => false | _ => true end.
Definition open_wr (pc : SesPc) (g : nat) : bool :=
  match pc with SesCloseRd k | SesCloseWr k => (k <=? g)%nat | SesEnd => false | _ => true end.

(** The threads run, each sub-session on its own pipe, [main] has set [quit],
    and every pipe still open has room for what the video thread will put. *)
Record winding (s : Sys) : Prop := {
  wd_quit : quitting s = true;
  wd_rv : rv_count (rv s) ≤ 0;
  wd_main : mainpc s ≠ MWait;
  wd_pipes : length (pipes s) = n;
  wd_subs : length (subs s) = n;
  wd_vid : vid s ≠ VInit;
  wd_ses : match ses s with SesJoin _ | SesCloseRd _ | SesEnd => True | SesCloseWr g => (g < n)%nat | _ => False end;
  wd_aud : aud s ≠ AInit;
  wd_alm : alm s ≠ AInit;
  wd_pipe g p : pipes s !! g = Some p →
    rd_end p = open_rd (ses s) g ∧ wr_end p = open_wr (ses s) g ∧
    (rd_end p = true → (length (items p) + pending (vid s) g ≤ cap)%nat);
  wd_sub k pc : subs s !! k = Some pc →
    (pc = SubLoop k ∨ pc = SubGet k ∨ pc = SubEnd) ∧ (joined (ses s) k → pc = SubEnd);
  wd_flush k p : subs s !! k ≠ Some SubEnd → pipes s !! k = Some p → flushed (vid s) k → Flush ∈ items p
}.

Definition vid_mu (pc : VidPc) : nat :=
  match pc with
  | VEnd => 0 | VFlush g => n - g + 1 | VLoop => n + 2
  | VPut i => n + 3 + (chs - i) | VAsleep => n + 3 | VInit => n + 4
  end.
Definition sub_mu (pc : SubPc) : nat :=
  match pc with SubEnd => 0 | SubLoop _ => 1 | SubGet _ => 2 | SubStart => 3 | SubNone => 4 end.
Definition ses_mu (pc : SesPc) : nat :=
  match pc with
  | SesEnd => 0 | SesCloseRd g => 2 * (n - g) + 1 | SesCloseWr g => 2 * (n - g)
  | SesJoin i => 2 * n + 2 + (n - i) | _ => 3 * n + 3
  end.
Definition aud_mu (pc : AudPc) : nat :=
  match pc with AEnd => 0 | ALoop => 1 | AAsleep => 2 | AInit => 3 end.
Definition main_mu (pc : MainPc) : nat :=
  match pc with MStopped => 0 | MJoin i => 4 - i + 1 | MWait => 6 end.

(** The steps left. *)
Definition steps_left (s : Sys) : nat :=
  vid_mu (vid s) + sum_list_with sub_mu (subs s) + ses_mu (ses s) + aud_mu (aud s) + aud_mu (alm s) +
  main_mu (mainpc s) + (if exiting s then 0 else 1) + (if killed s then 0 else 1).

Lemma sum_insert (l : list SubPc) k pc pc' :
  l !! k = Some pc → (sub_mu pc' < sub_mu pc)%nat →
  (sum_list_with sub_mu (<[k := pc']> l) < sum_list_with sub_mu l)%nat.
Proof.
  revert k. induction l as [|x l IH]; intros [|k] Hk Hlt; simplify_eq/=; [lia|].
  specialize (IH k Hk Hlt). lia.
Qed.

Definition good (s s' : Sys) : Prop := winding s' ∧ (steps_left s' < steps_left s)%nat.

Lemma good_main s s' : winding s → main_step s = Some s' → good s s'.
Proof.
  intros W E. unfold main_step in E. pose proof (wd_main _ W) as Hm.
  destruct (mainpc s) as [|[|[|[|i]]]|] eqn:Em; [done|..|done].
  - destruct (ses s) eqn:Es; simplify_eq. split; [by destruct W; split; cbn|].
    unfold steps_left. cbn. rewrite Em. cbn. lia.
  - destruct (vid s) eqn:Es; simplify_eq. split; [by destruct W; split; cbn|].
    unfold steps_left. cbn. rewrite Em. cbn. lia.
  - destruct (aud s) eqn:Es; simplify_eq. split; [by destruct W; split; cbn|].
    unfold steps_left. cbn. rewrite Em. cbn. lia.
  - simplify_eq. split; [by destruct W; split; cbn|].
    unfold steps_left. cbn. rewrite Em. cbn. lia.
Qed.

Lemma good_ssh s s' : winding s → ssh_step s = Some s' → good s s'.
Proof.
  intros W E. unfold ssh_step in E. destruct (exiting s) eqn:Ex; simplify_eq.
  split; [by destruct W; split; cbn|]. unfold steps_left. cbn. rewrite Ex. lia.
Qed.

Lemma good_aud s s' : winding s → aud_step s = Some s' → good s s'.
Proof.
  intros W E. unfold aud_step, wake in E. pose proof (wd_aud _ W) as Ha.
  destruct (aud s) eqn:Ea; [done| | |done]; repeat case_match; simplify_eq;
    (split; [by destruct W; split; cbn|]; unfold steps_left; cbn; rewrite Ea; cbn; lia).
Qed.

Lemma good_alm s s' : winding s → alm_step s = Some s' → good s s'.
Proof.
  intros W E. unfold alm_step, wake in E. pose proof (wd_alm _ W) as Ha.
  destruct (alm s) eqn:Ea; [done| | |done]; repeat case_match; simplify_eq;
    (split; [by destruct W; split; cbn|]; unfold steps_left; cbn; rewrite Ea; cbn; lia).
Qed.

Lemma good_sub k s s' : winding s → sub_step k s = Some s' → good s s'.
Proof.
  intros W E. unfold sub_step in E. destruct (subs s !! k) as [pc|] eqn:Ek; [|done].
  destruct (wd_sub _ W k pc Ek) as [Hpc Hj].
  assert (Hmu : ∀ pc' s1, subs s1 = subs s → vid s1 = vid s → ses s1 = ses s → aud s1 = aud s → alm s1 = alm s →
    mainpc s1 = mainpc s → exiting s1 = exiting s → killed s1 = killed s → (sub_mu pc' < sub_mu pc)%nat →
    (steps_left (s1 <| subs ::= <[k := pc']> |>) < steps_left s)%nat).
  { intros pc' s1 E1 E2 E3 E4 E5 E6 E7 E8 Hlt. unfold steps_left. cbn. rewrite E1, E2, E3, E4, E5, E6, E7, E8.
    pose proof (sum_insert _ _ _ _ Ek Hlt). lia. }
  destruct W as [W1 W2 W3 W4 W5 W6 W7 W8 W9 Wp Ws Wf].
  assert (Hend : winding (s <| subs ::= <[k := SubEnd]> |>)).
  { split; cbn; rewrite ?length_insert; try done.
    - intros j pc'. destruct (decide (j = k)) as [->|Hne].
      + rewrite list_lookup_insert_eq by (by eapply lookup_lt_Some). intros [= <-]. auto.
      + rewrite list_lookup_insert_ne by done. apply Ws.
    - intros j p. destruct (decide (j = k)) as [->|Hne].
      + by rewrite list_lookup_insert_eq by (by eapply lookup_lt_Some).
      + rewrite list_lookup_insert_ne by done. apply Wf. }
  destruct Hpc as [->|[->| ->]]; [| |done].
  - rewrite W1 in E. simplify_eq. split; [done|]. apply (Hmu SubEnd s); cbn; (done || lia).
  - destruct (pipes s !! k) as [p|] eqn:Ep; [|done]. destruct (Wp k p Ep) as (Hrd & Hwr & Hroom).
    destruct (rd_end p) eqn:Erd; cbn [negb] in E; [|simplify_eq; split; [done|apply (Hmu SubEnd s); cbn; (done || lia)]].
    destruct (items p) as [|e l] eqn:Ei.
    { destruct (wr_end p); simplify_eq. split; [done|]. apply (Hmu SubEnd s); cbn; (done || lia). }
    simplify_eq. set (pc' := match e with Frame => SubLoop k | Flush => SubEnd end).
    assert (Hnj : ¬ joined (ses s) k) by (intros H; by specialize (Hj H)).
    split.
    2:{ unfold steps_left. cbn. assert (Hlt : (sub_mu pc' < sub_mu (SubGet k))%nat) by (unfold pc'; destruct e; cbn; lia).
        pose proof (sum_insert _ _ _ _ Ek Hlt). lia. }
    assert (Hkl : (k < length (subs s))%nat) by (by eapply lookup_lt_Some).
    assert (Hkp : (k < length (pipes s))%nat) by (by eapply lookup_lt_Some).
    split; cbn; rewrite ?length_insert; try done.
    + intros g p'. destruct (decide (g = k)) as [->|Hne].
      * rewrite list_lookup_insert_eq by done. intros [= <-]. cbn in *. rewrite Erd. split_and!; [done..|].
        intros _. specialize (Hroom eq_refl). cbn in Hroom. lia.
      * rewrite list_lookup_insert_ne by done. apply Wp.
    + intros j pc2. destruct (decide (j = k)) as [->|Hne].
      * rewrite list_lookup_insert_eq by done. intros [= <-]. split; [|by intros ?].
        unfold pc'. destruct e; [by left|by right; right].
      * rewrite list_lookup_insert_ne by done. apply Ws.
    + intros j p2. destruct (decide (j = k)) as [->|Hne].
      * rewrite !list_lookup_insert_eq by done. intros Hpc' [= <-] Hfl. cbn.
        destruct e; [|done]. assert (Flush ∈ Frame :: l) as Hin by (rewrite <- Ei; by apply (Wf k p); [congruence| |]).
        set_solver.
      * rewrite !list_lookup_insert_ne by done. apply Wf.
Qed.

(** The put of the video thread while it winds down. *)
Lemma put_cases g e s go r : winding s → put g e s go = Some r → ∃ p, pipes s !! g = Some p ∧
  ((wr_end p = false ∧ r = go s) ∨ (wr_end p = true ∧ rd_end p = false ∧ r = s <| killed := true |>) ∨
   (rd_end p = true ∧ r = go (s <| pipes ::= <[g := p <| items ::= (.++ [e]) |>]> |>))).
Proof.
  intros W. unfold put. destruct (pipes s !! g) as [p|] eqn:Ep; [|done]. intros E. exists p. split; [done|].
  destruct (wr_end p); [|by injection E as <-; left]. destruct (rd_end p); cbn in E.
  - case_match; [|done]. right; right. by injection E as <-.
  - right; left. by injection E as <-.
Qed.

(** Moving the video thread on, to a place with no more puts to come. *)
Lemma winding_vid s pc' :
  winding s → (∀ g, (g < n)%nat → (pending pc' g ≤ pending (vid s) g)%nat) → pc' ≠ VInit →
  (∀ g p, subs s !! g ≠ Some SubEnd → pipes s !! g = Some p → flushed pc' g → Flush ∈ items p) →
  winding (s <| vid := pc' |>).
Proof.
  intros [W1 W2 W3 W4 W5 W6 W7 W8 W9 Wp Ws Wf] Hpend Hne Hfl.
  split; cbn; try done. intros g p Hg. destruct (Wp g p Hg) as (? & ? & Hroom). split_and!; [done..|].
  intros Hr. specialize (Hroom Hr). apply lookup_lt_Some in Hg. specialize (Hpend g ltac:(lia)). lia.
Qed.

(** A put on pipe [g] by the video thread, which goes on to [pc']. *)
Lemma good_put s g e pc' s' :
  winding s → killed s = false →
  put g e s (fun s => s <| vid := pc' |>) = Some s' →
  (vid_mu pc' < vid_mu (vid s))%nat → pc' ≠ VInit →
  (pending pc' g + 1 ≤ pending (vid s) g)%nat →
  (∀ h, (h < n)%nat → (pending pc' h ≤ pending (vid s) h)%nat) →
  (∀ h, flushed pc' h → flushed (vid s) h ∨ (h = g ∧ e = Flush)) →
  (winding s' ∨ killed s' = true) ∧ (steps_left s' < steps_left s)%nat.
Proof.
  intros W Hk E Hmu Hne Hg Hpend Hfl. destruct (put_cases _ _ _ _ _ W E) as (p & Ep & Hc).
  pose proof W as [W1 W2 W3 W4 W5 W6 W7 W8 W9 Wp Ws Wf]. destruct (Wp g p Ep) as (Hrd & Hwr & Hroom).
  destruct Hc as [[Hw ->]|[(Hw & Hr & ->)|[Hr ->]]].
  - split; [left|unfold steps_left; cbn; lia]. apply winding_vid; try done.
    intros h q Hs Hq Hf. destruct (Hfl h Hf) as [Hf'|[-> ->]]; [by apply (Wf h)|].
    destruct Hs. rewrite Hwr in Hw. assert (Hj : joined (ses s) g) by (destruct (ses s); cbn in *; done).
    assert (is_Some (subs s !! g)) as [pc Hpc].
    { apply lookup_lt_is_Some. apply lookup_lt_Some in Ep. lia. }
    destruct (Ws g pc Hpc) as [_ Hend]. rewrite Hpc, Hend by done. done.
  - split; [by right|]. unfold steps_left. cbn. rewrite Hk. lia.
  - split; [left|unfold steps_left; cbn; lia]. split; cbn; rewrite ?length_insert; try done.
    + intros h q. destruct (decide (h = g)) as [->|Hne'].
      * rewrite list_lookup_insert_eq by (by eapply lookup_lt_Some). intros [= <-]. cbn. split_and!; [done..|].
        intros _. specialize (Hroom Hr). rewrite length_app. cbn. lia.
      * rewrite list_lookup_insert_ne by done. intros Hq. destruct (Wp h q Hq) as (? & ? & Hro).
        split_and!; [done..|]. intros Hr'. specialize (Hro Hr'). apply lookup_lt_Some in Hq.
        specialize (Hpend h ltac:(lia)). lia.
    + intros h q Hs Hq Hf. destruct (decide (h = g)) as [->|Hne'].
      * rewrite list_lookup_insert_eq in Hq by (by eapply lookup_lt_Some). injection Hq as <-. cbn.
        apply elem_of_app. destruct (Hfl g Hf) as [Hf'|[_ ->]]; [left; by apply (Wf g)|right; set_solver].
      * rewrite list_lookup_insert_ne in Hq by done. destruct (Hfl h Hf) as [Hf'|[-> _]]; [by apply (Wf h)|done].
Qed.

Lemma good_vid s s' : winding s → killed s = false → vid_step s = Some s' →
  (winding s' ∨ killed s' = true) ∧ (steps_left s' < steps_left s)%nat.
Proof.
  intros W Hk E. unfold vid_step, wake in E. pose proof (wd_vid _ W) as Hv. pose proof (wd_quit _ W) as Hq.
  pose proof (wd_flush _ W) as Wf.
  destruct (vid s) as [| | |i|g|] eqn:Ev; [done| | | | |done].
  - case_match; simplify_eq. split; [|unfold steps_left; cbn; rewrite Ev; cbn; lia].
    left. apply winding_vid; rewrite ?Ev; done.
  - rewrite Hq in E. simplify_eq. split; [|unfold steps_left; cbn; rewrite Ev; cbn; lia].
    left. apply winding_vid; rewrite ?Ev; try done. cbn. lia.
  - unfold chs in *. destruct (i <? 4 * n)%nat eqn:Ei.
    + apply Nat.ltb_lt in Ei. assert (Hd := Nat.div_mod_eq i 4). assert (Hm := Nat.mod_upper_bound i 4).
      refine (good_put s (i / 4) Frame (VPut (S i)) s' W Hk E _ _ _ _ _); rewrite ?Ev; cbn [vid_mu pending flushed];
        unfold chs; try done; lia.
    + simplify_eq. split; [|unfold steps_left; cbn; rewrite Ev; cbn; lia].
      left. apply winding_vid; rewrite ?Ev; try done. cbn. lia.
  - destruct (g <? n)%nat eqn:Eg.
    + apply Nat.ltb_lt in Eg.
      refine (good_put s g Flush (VFlush (S g)) s' W Hk E _ _ _ _ _); rewrite ?Ev; cbn [vid_mu pending flushed].
      * lia.
      * done.
      * rewrite (proj2 (Nat.leb_gt (S g) g)), (proj2 (Nat.leb_le g g)) by lia. lia.
      * intros h Hh. repeat case_match; try lia.
        repeat match goal with H : (_ <=? _)%nat = _ |- _ => first [apply Nat.leb_le in H|apply Nat.leb_gt in H] end. lia.
      * intros h Hh. destruct (decide (h = g)); [by right|left; lia].
    + simplify_eq. apply Nat.ltb_ge in Eg. split; [|unfold steps_left; cbn; rewrite Ev; cbn; lia].
      left. apply winding_vid; rewrite ?Ev; try done; cbn; [lia|]. intros h p Hs Hp _.
      apply (Wf h p Hs Hp). cbn. apply lookup_lt_Some in Hp. rewrite (wd_pipes _ W) in Hp. lia.
Qed.

(** Moving the session thread on, with the ends of a pipe as it leaves them. *)
Lemma winding_ses s pc' ps' :
  winding s →
  match pc' with SesJoin _ | SesCloseRd _ | SesEnd => True | SesCloseWr g => (g < n)%nat | _ => False end →
  length ps' = n →
  (∀ h p', ps' !! h = Some p' → ∃ p, pipes s !! h = Some p ∧ items p' = items p ∧
     rd_end p' = open_rd pc' h ∧ wr_end p' = open_wr pc' h ∧ (rd_end p' = true → rd_end p = true)) →
  (∀ k pc, (k < n)%nat → subs s !! k = Some pc → joined pc' k → pc = SubEnd) →
  winding (s <| pipes := ps' |> <| ses := pc' |>).
Proof.
  intros [W1 W2 W3 W4 W5 W6 W7 W8 W9 Wp Ws Wf] Hpc Hl Hp Hj. split; cbn; try done.
  - intros g p' Hg. destruct (Hp g p' Hg) as (p & Ep & Ei & ? & ? & Hr). split_and!; [done..|].
    rewrite Ei. intros Hr'. by apply (Wp g p Ep), Hr.
  - intros k pc Hk. split; [by apply (Ws k)|]. apply Hj; [|done]. apply lookup_lt_Some in Hk. lia.
  - intros k p' Hs Hk. destruct (Hp k p' Hk) as (p & Ep & -> & _). by apply (Wf k).
Qed.

Ltac nat_tests := repeat match goal with
  | |- context [(?a <=? ?b)%nat] => destruct (Nat.leb_spec a b)
  | |- context [(?a <? ?b)%nat] => destruct (Nat.ltb_spec a b)
  end; done || lia.

Lemma good_ses s s' : winding s → ses_step s = Some s' → good s s'.
Proof.
  intros W E. unfold ses_step in E. pose proof (wd_ses _ W) as Hs.
  pose proof (wd_pipe _ W) as Wp. pose proof (wd_sub _ W) as Ws. pose proof (wd_pipes _ W) as Wl.
  pose proof (wd_subs _ W) as Wsl.
  destruct (ses s) as [| | | |i|g|g|] eqn:Es; try done.
  - destruct (Nat.ltb_spec i n) as [Hi|Hi].
    + destruct (subs s !! i) as [[]|] eqn:Ei; simplify_eq.
      split; [|unfold steps_left; cbn; rewrite Es; cbn; lia].
      apply (winding_ses s (SesJoin (S i)) (pipes s)); try done.
      * intros h p Hh. exists p. destruct (Wp h p Hh) as (? & ? & _). by split_and!.
      * intros k pc _ Hk Hj. cbn in Hj. destruct (decide (k = i)) as [->|]; [congruence|].
        apply (Ws k pc Hk). cbn. lia.
    + simplify_eq. split; [|unfold steps_left; cbn; rewrite Es; cbn; lia].
      apply (winding_ses s (SesCloseRd 0) (pipes s)); try done.
      * intros h p Hh. exists p. destruct (Wp h p Hh) as (? & ? & _). by split_and!.
      * intros k pc Hkn Hk _. apply (Ws k pc Hk). cbn. lia.
  - destruct (Nat.ltb_spec g n) as [Hg|Hg]; simplify_eq.
    + split; [|unfold steps_left; cbn; rewrite Es; cbn; lia].
      apply (winding_ses s (SesCloseWr g) (alter (fun p => p <| rd_end := false |>) g (pipes s)));
        [done|done|by rewrite length_alter| |intros k pc _ Hk _; by apply (Ws k pc Hk)].
      intros h p'. destruct (decide (h = g)) as [->|Hne].
      * rewrite list_lookup_alter_eq. destruct (pipes s !! g) as [p|] eqn:Ep; [|done]. intros [= <-]. exists p.
        destruct (Wp g p Ep) as (? & Hw & _). cbn -[Nat.leb Nat.ltb] in *. rewrite Hw. split_and!; try done; nat_tests.
      * rewrite list_lookup_alter_ne by done. intros Hh. exists p'. destruct (Wp h p' Hh) as (Hr & Hw & _).
        cbn -[Nat.leb Nat.ltb] in *. rewrite Hr, Hw. split_and!; try done; nat_tests.
    + split; [|unfold steps_left; cbn; rewrite Es; cbn; lia].
      apply (winding_ses s SesEnd (pipes s)); try done; [|intros k pc _ Hk _; by apply (Ws k pc Hk)].
      intros h p Hh. exists p. destruct (Wp h p Hh) as (Hr & Hw & _). pose proof (lookup_lt_Some _ _ _ Hh).
      cbn -[Nat.leb Nat.ltb] in *. rewrite Hr, Hw. split_and!; try done; nat_tests.
  - simplify_eq. split; [|unfold steps_left; cbn; rewrite Es; cbn; lia].
    apply (winding_ses s (SesCloseRd (S g)) (alter (fun p => p <| wr_end := false |>) g (pipes s)));
      [done|done|by rewrite length_alter| |intros k pc _ Hk _; by apply (Ws k pc Hk)].
    intros h p'. destruct (decide (h = g)) as [->|Hne].
    + rewrite list_lookup_alter_eq. destruct (pipes s !! g) as [p|] eqn:Ep; [|done]. intros [= <-]. exists p.
      destruct (Wp g p Ep) as (Hr & Hw & _). cbn -[Nat.leb Nat.ltb] in *. rewrite Hr. split_and!; try done; nat_tests.
    + rewrite list_lookup_alter_ne by done. intros Hh. exists p'. destruct (Wp h p' Hh) as (Hr & Hw & _).
      cbn -[Nat.leb Nat.ltb] in *. rewrite Hr, Hw. split_and!; try done; nat_tests.
Qed.

Lemma put_moves s g e go :
  winding s → (g < n)%nat → (1 ≤ pending (vid s) g)%nat → put g e s go ≠ None.
Proof.
  intros W Hg Hp. unfold put.
  destruct (pipes s !! g) as [p|] eqn:Ep.
  2:{ apply lookup_ge_None in Ep. rewrite (wd_pipes _ W) in Ep. lia. }
  destruct (wd_pipe _ W g p Ep) as (_ & _ & Hr).
  destruct (wr_end p), (rd_end p); cbn [negb]; try done.
  specialize (Hr eq_refl). destruct (Nat.ltb_spec (length (items p)) cap); [done|lia].
Qed.

(** While [main] waits for a thread, some thread can move. *)
Lemma winding_moves s :
  winding s → killed s = false → (∀ t, thread_step t s = None) → mainpc s = MStopped.
Proof.
  intros W Hk Hn. unfold thread_step in Hn. rewrite Hk in Hn. pose proof (wd_rv _ W) as Hrv.
  pose proof (wd_quit _ W) as Hq.
  assert (Hvid : vid s = VEnd).
  { specialize (Hn TVid). cbn in Hn. unfold vid_step, wake in Hn. pose proof (wd_vid _ W).
    rewrite (proj2 (Z.leb_le _ _) Hrv) in Hn. destruct (vid s) as [| | |i|g|] eqn:Ev; try done.
    - unfold chs in Hn. destruct (Nat.ltb_spec i (4 * n)); [|done].
      assert (Hd := Nat.div_mod_eq i 4). assert (Hm := Nat.mod_upper_bound i 4).
      exfalso. revert Hn. apply put_moves; [done|lia|rewrite Ev; cbn; lia].
    - destruct (Nat.ltb_spec g n); [|done]. exfalso. revert Hn.
      apply put_moves; [done|lia|rewrite Ev; cbn; by rewrite (proj2 (Nat.leb_le g g))]. }
  assert (Haud : aud s = AEnd).
  { specialize (Hn TAud). cbn in Hn. unfold aud_step, wake in Hn. pose proof (wd_aud _ W).
    rewrite (proj2 (Z.leb_le _ _) Hrv), Hq in Hn. by destruct (aud s). }
  assert (Hsub : ∀ k, (k < n)%nat → subs s !! k = Some SubEnd).
  { intros k Hkn. assert (is_Some (subs s !! k)) as [pc Hpc] by (apply lookup_lt_is_Some; by rewrite (wd_subs _ W)).
    destruct (wd_sub _ W k pc Hpc) as [[-> | [-> | ->]] _]; [| |done]; specialize (Hn (TSub k)); cbn in Hn;
      unfold sub_step in Hn; rewrite Hpc in Hn; [done|].
    destruct (pipes s !! k) as [p|] eqn:Ep; [|apply lookup_ge_None in Ep; rewrite (wd_pipes _ W) in Ep; lia].
    destruct (rd_end p); [|done]. cbn in Hn.
    pose proof (wd_flush _ W k p ltac:(congruence) Ep ltac:(by rewrite Hvid)) as Hin.
    destruct (items p); [by apply elem_of_nil in Hin|done]. }
  assert (Hses : ses s = SesEnd).
  { specialize (Hn TSes). cbn in Hn. unfold ses_step in Hn. pose proof (wd_ses _ W).
    destruct (ses s) as [| | | |i|g|g|]; try done.
    - destruct (Nat.ltb_spec i n); [|done]. by rewrite Hsub in Hn.
    - by destruct (g <? n)%nat. }
  specialize (Hn TMain). cbn in Hn. unfold main_step in Hn. pose proof (wd_main _ W).
  rewrite Hses, Hvid, Haud in Hn. by destruct (mainpc s) as [|[|[|[|]]]|].
Qed.

Lemma winding_run s ts s' :
  winding s → killed s = false → run_sched ts s = Some s' →
  (length ts + steps_left s' ≤ steps_left s)%nat ∧ (winding s' ∨ killed s' = true).
Proof.
  revert s. induction ts as [|t ts IH]; intros s W Hk E.
  { injection E as <-. split; [cbn; lia|by left]. }
  cbn in E. destruct (thread_step t s) as [s1|] eqn:E1; [|done]. cbn in E.
  assert (H1 : (winding s1 ∨ killed s1 = true) ∧ (steps_left s1 < steps_left s)%nat).
  { unfold thread_step in E1. rewrite Hk in E1.
    assert (Hg : good s s1 → (winding s1 ∨ killed s1 = true) ∧ (steps_left s1 < steps_left s)%nat) by (intros [??]; auto).
    destruct t; [apply Hg; by apply good_main|apply Hg; by apply good_ssh|apply Hg; by apply good_ses|
      apply Hg; by eapply good_sub|by apply good_vid|apply Hg; by apply good_aud|apply Hg; by apply good_alm]. }
  destruct H1 as [HW Hlt]. destruct (killed s1) eqn:Ek1.
  - destruct ts as [|t2 ts].
    + injection E as <-. cbn. split; [lia|by right].
    + cbn in E. unfold thread_step in E at 1. by rewrite Ek1 in E.
  - destruct HW as [HW|]; [|done]. destruct (IH s1 HW Ek1 E) as [Hl Hw]. cbn. split; [lia|done].
Qed.

(** C14: once [main] has set [quit], with the threads running, every sub-session
    on its own pipe and room in the pipes for what the video thread still puts,
    no thread runs for ever and none waits for ever: every interleaving takes at
    most [steps_left] steps, and where it cannot be continued the process has
    stopped all its threads or was killed by SIGPIPE. *)
Theorem shutdown_ends s ts s' :
  winding s → killed s = false → run_sched ts s = Some s' →
  (length ts ≤ steps_left s)%nat ∧
  ((∀ t, thread_step t s' = None) → mainpc s' = MStopped ∨ killed s' = true).
Proof.
  intros W Hk E. destruct (winding_run s ts s' W Hk E) as [Hl Hw]. split; [lia|]. intros Hn.
  destruct (killed s') eqn:Ek; [by right|]. left. destruct Hw as [Hw|]; [|done]. by apply winding_moves.
Qed.

(** Before the fourth thread the rendezvous is a sleep. *)
Lemma meet_sleeps s sleep go :
  2 ≤ rv_count (rv s) ≤ 4 →
  meet s sleep go = Some (sleep (s <| rv := (rv s) <| rv_count := rv_count (rv s) - 1 |> |>)).
Proof.
  intros Hc. unfold meet, Rendezvous_meet. rewrite i32_id by (unfold in_i32; lia). cbn [rv_count update].
  by rewrite (proj2 (Z.ltb_lt 0 (rv_count (rv s) - 1))) by lia.
Qed.

Lemma wake_sleeps s go : 1 ≤ rv_count (rv s) → wake s go = None.
Proof. intros Hc. unfold wake. by rewrite (proj2 (Z.leb_gt _ _)) by lia. Qed.

Definition ses_in (pc : SesPc) : Z := match pc with SesAsleep => 1 | _ => 0 end.
Definition vid_in (pc : VidPc) : Z := match pc with VAsleep => 1 | _ => 0 end.
Definition aud_in (pc : AudPc) : Z := match pc with AAsleep => 1 | _ => 0 end.

(** The states of a process one of whose initialisations fails. *)
Record stalled (s : Sys) : Prop := {
  sl_rv : rv_count (rv s) = 4 - ses_in (ses s) - vid_in (vid s) - aud_in (aud s) - aud_in (alm s);
  sl_ses : ses s = SesInit ∨ ses s = (if ses_init then SesAsleep else SesEnd);
  sl_vid : vid s = VInit ∨ vid s = (if vid_init then VAsleep else VEnd);
  sl_aud : aud s = AInit ∨ aud s = AAsleep;
  sl_alm : alm s = AInit ∨ alm s = AAsleep;
  sl_main : mainpc s ∈ [MWait; MJoin 0; MJoin 1; MJoin 2]
}.

Lemma ses_vid_in s :
  ses_init && vid_init = false → stalled s → 3 ≤ rv_count (rv s) + aud_in (aud s) + aud_in (alm s) ≤ 4.
Proof.
  intros Hf [Hc Hs Hv _ _ _]. rewrite Hc.
  destruct ses_init, vid_init, Hs as [Es|Es], Hv as [Ev|Ev]; rewrite ?Es, ?Ev; cbn; done || lia.
Qed.

Lemma sub_step_frame k s s' :
  sub_step k s = Some s' → ∃ l ps, s' = s <| subs := l |> <| pipes := ps |>.
Proof.
  unfold sub_step. intros E. destruct s. repeat case_match; simplify_eq; do 2 eexists; cbn; reflexivity.
Qed.

Lemma stalled_step s s' : ses_init && vid_init = false → stalled s → step s s' → stalled s'.
Proof.
  intros Hf Hst [t E]. pose proof Hst as [Hc Hs Hv Ha Hl Hm]. unfold thread_step in E. destruct (killed s); [done|].
  destruct t; cbn in E.
  - unfold main_step in E. rewrite !elem_of_cons, elem_of_nil in Hm.
    destruct Hm as [Em|[Em|[Em|[Em|[]]]]]; rewrite Em in E.
    + destruct (exiting s); simplify_eq. split; cbn; try done. set_solver.
    + destruct (ses s) eqn:Es; simplify_eq. split; cbn; rewrite ?Es; try done. set_solver.
    + destruct (vid s) eqn:Ev; simplify_eq. split; cbn; rewrite ?Ev; try done. set_solver.
    + destruct (aud s); simplify_eq. by destruct Ha.
  - unfold ssh_step in E. destruct (exiting s); simplify_eq. by split.
  - unfold ses_step in E. destruct (ses_init) eqn:Ei.
    + cbn in Hf. rewrite Hf in Hv. destruct Hs as [Es|Es]; rewrite Es in E, Hc.
      * rewrite meet_sleeps in E; [simplify_eq|].
        -- split; cbn; rewrite ?Ei, ?Hf; [cbn in Hc; lia|first [done|by right]..].
        -- cbn in *. destruct Hv as [Ev|Ev], Ha as [Ea|Ea], Hl as [El|El]; rewrite Ev, Ea, El in Hc; cbn in Hc; lia.
      * rewrite wake_sleeps in E; [done|].
        destruct Hv as [Ev|Ev], Ha as [Ea|Ea], Hl as [El|El]; rewrite Ev, Ea, El in Hc; cbn in Hc; lia.
    + destruct Hs as [Es|Es]; rewrite Es in E, Hc; simplify_eq.
      split; cbn; rewrite ?Ei; [cbn in Hc; lia|first [done|by right]..].
  - assert (∃ l ps, s' = s <| subs := l |> <| pipes := ps |>) as (l & ps & ->) by by eapply sub_step_frame.
    by split.
  - unfold vid_step in E. destruct (vid_init) eqn:Ei.
    + rewrite andb_true_r in Hf. rewrite Hf in Hs. destruct Hv as [Ev|Ev]; rewrite Ev in E, Hc.
      * rewrite meet_sleeps in E; [simplify_eq|].
        -- split; cbn; rewrite ?Ei, ?Hf; [cbn in Hc; lia|first [done|by right]..].
        -- destruct Hs as [Es|Es], Ha as [Ea|Ea], Hl as [El|El]; rewrite Es, Ea, El in Hc; cbn in Hc; lia.
      * rewrite wake_sleeps in E; [done|].
        destruct Hs as [Es|Es], Ha as [Ea|Ea], Hl as [El|El]; rewrite Es, Ea, El in Hc; cbn in Hc; lia.
    + destruct Hv as [Ev|Ev]; rewrite Ev in E, Hc; simplify_eq.
      split; cbn; rewrite ?Ei; [cbn in Hc; lia|first [done|by right]..].
  - assert (Hr : 3 ≤ rv_count (rv s) + aud_in (aud s) + aud_in (alm s) ≤ 4) by by apply ses_vid_in.
    unfold aud_step in E. destruct Ha as [Ea|Ea], Hl as [El|El]; rewrite Ea, ?El in *; cbn in Hr, Hc.
    1,2: rewrite meet_sleeps in E by lia; simplify_eq; split; cbn; rewrite ?El; [cbn; lia|first [done|by left|by right]..].
    all: rewrite wake_sleeps in E; [done|lia].
  - assert (Hr : 3 ≤ rv_count (rv s) + aud_in (aud s) + aud_in (alm s) ≤ 4) by by apply ses_vid_in.
    unfold alm_step in E. destruct Ha as [Ea|Ea], Hl as [El|El]; rewrite ?Ea, El in *; cbn in Hr, Hc.
    1,3: rewrite meet_sleeps in E by lia; simplify_eq; split; cbn; rewrite ?Ea; [cbn; lia|first [done|by left|by right]..].
    all: rewrite wake_sleeps in E; [done|lia].
Qed.

(** When the initialisation of the session thread or of the video thread
    fails, the threads that wait in the rendezvous are never released: no
    interleaving reaches the end of [stop_all_threads], whatever is asked. *)
Theorem init_failure_hangs s :
  ses_init && vid_init = false → rtc step start s → mainpc s ≠ MStopped ∧ aud s ≠ AEnd.
Proof.
  intros Hf Hr. assert (Hst : stalled s).
  { refine (rtc_invariant step stalled start s (fun x y Hx => stalled_step x y Hf Hx) Hr _).
    split; cbn; auto. apply elem_of_cons. by left. }
  destruct Hst as [_ _ _ Ha _ Hm]. split; [|destruct Ha; congruence].
  intros Em. rewrite Em, !elem_of_cons, elem_of_nil in Hm. naive_solver.
Qed.

End Process.

Lemma run_sched_rtc n cap si vi ts s s' : run_sched n cap si vi ts s = Some s' → rtc (step n cap si vi) s s'.
Proof.
  revert s. induction ts as [|t ts IH]; intros s E; [by injection E as <-|].
  cbn in E. destruct (thread_step n cap si vi t s) as [s1|] eqn:E1; [|done]. eapply rtc_l; [by exists t|by apply IH].
Qed.

(** ** The device of [main]: 16 channels in four groups *)

(** All threads start, pass the rendezvous, and the sub-sessions read their numbers. *)
Definition sched_up : list Tid :=
  [TSes; TVid; TAud; TAlm; TSes; TVid; TAud] ++
  [TSes; TSub 0; TSes; TSes; TSub 1; TSes; TSes; TSub 2; TSes; TSes; TSub 3; TSes; TSes].

(** The running device: [l] in the pipe of the first group, whose thread is busy
    with an element; the other groups wait for one. *)
Definition busy (l : list elt) (v : VidPc) : Sys :=
  mkSys false false (mkRv 4 0) (mkPipe l true true :: replicate 3 (mkPipe [] true true)) v
    [SubLoop 0; SubGet 1; SubGet 2; SubGet 3] (SesJoin 0) ALoop ALoop MWait false.

Lemma busy_up cap :
  rtc (step 4 cap true true) (start 4) (busy [] VLoop).
Proof. apply (run_sched_rtc _ _ _ _ (sched_up ++ [TSub 1; TSub 2; TSub 3])). vm_compute. reflexivity. Qed.

(** A put for the first group, and one for another, whose thread takes it. *)
Lemma busy_put0 cap l i :
  (i < 4)%nat → (length l < cap)%nat →
  rtc (step 4 cap true true) (busy l (VPut i)) (busy (l ++ [Frame]) (VPut (S i))).
Proof.
  intros Hi Hl. apply rtc_once. exists TVid. unfold thread_step, vid_step. cbn -[Nat.ltb Nat.div].
  assert ((i <? 16)%nat = true) as -> by (apply Nat.ltb_lt; lia).
  unfold put. rewrite Nat.div_small by done. cbn -[Nat.ltb].
  by rewrite (proj2 (Nat.ltb_lt _ _) Hl).
Qed.

Lemma busy_put cap l k :
  (k < 12)%nat → (0 < cap)%nat →
  rtc (step 4 cap true true) (busy l (VPut (4 + k))) (busy l (VPut (5 + k))).
Proof.
  intros Hk Hc. destruct cap as [|cap]; [lia|].
  apply (run_sched_rtc _ _ _ _ [TVid; TSub ((4 + k) / 4); TSub ((4 + k) / 4)]).
  do 12 (destruct k as [|k]; [reflexivity|]). lia.
Qed.

Lemma busy_turn cap l :
  (length l + 4 ≤ cap)%nat →
  rtc (step 4 cap true true) (busy l VLoop) (busy (l ++ replicate 4 Frame) VLoop).
Proof.
  intros Hl. transitivity (busy l (VPut 0)); [apply rtc_once; by exists TVid|].
  assert (H0 : ∀ k, (k ≤ 4)%nat → rtc (step 4 cap true true) (busy l (VPut 0)) (busy (l ++ replicate k Frame) (VPut k))).
  { induction k as [|k IH]; intros Hk; [change (replicate 0 Frame) with (@nil elt); by rewrite app_nil_r|].
    rewrite replicate_S_end, app_assoc. transitivity (busy (l ++ replicate k Frame) (VPut k)); [apply IH; lia|].
    apply busy_put0; [lia|]. rewrite length_app, length_replicate. lia. }
  transitivity (busy (l ++ replicate 4 Frame) (VPut 4)); [by apply H0|].
  assert (H1 : ∀ k, (k ≤ 12)%nat → rtc (step 4 cap true true) (busy (l ++ replicate 4 Frame) (VPut 4))
                                    (busy (l ++ replicate 4 Frame) (VPut (4 + k)))).
  { induction k as [|k IH]; intros Hk; [done|].
    transitivity (busy (l ++ replicate 4 Frame) (VPut (4 + k))); [apply IH; lia|].
    replace (4 + S k)%nat with (5 + k)%nat by lia. apply busy_put; lia. }
  transitivity (busy (l ++ replicate 4 Frame) (VPut 16)); [by apply (H1 12%nat)|].
  apply rtc_once. by exists TVid.
Qed.

(** The video thread fills the pipe of the busy thread and sleeps in a put. *)
Lemma busy_fill cap l :
  (length l ≤ cap)%nat →
  ∃ l' i, rtc (step 4 cap true true) (busy l VLoop) (busy l' (VPut i)) ∧ (i < 4)%nat ∧ length l' = cap.
Proof.
  remember (cap - length l)%nat as d eqn:Hd. revert l Hd.
  induction d as [d IH] using lt_wf_ind. intros l Hd Hl. destruct (decide (length l + 4 ≤ cap)%nat) as [H4|H4].
  - destruct (IH (d - 4)%nat ltac:(lia) (l ++ replicate 4 Frame)) as (l' & i & Hr & Hi & Hl');
      [rewrite length_app, length_replicate; lia..|].
    exists l', i. split; [|done]. transitivity (busy (l ++ replicate 4 Frame) VLoop); [by apply busy_turn|done].
  - assert (H0 : ∀ k, (k ≤ d)%nat → rtc (step 4 cap true true) (busy l VLoop) (busy (l ++ replicate k Frame) (VPut k))).
    { induction k as [|k IHk]; intros Hk.
      - change (replicate 0 Frame) with (@nil elt). rewrite app_nil_r. apply rtc_once. by exists TVid.
      - rewrite replicate_S_end, app_assoc. transitivity (busy (l ++ replicate k Frame) (VPut k)); [apply IHk; lia|].
        apply busy_put0; [lia|]. rewrite length_app, length_replicate. lia. }
    exists (l ++ replicate d Frame), d. split; [by apply H0|]. rewrite length_app, length_replicate. lia.
Qed.

(** The first thread has ended on seeing [quit]; nobody empties its pipe, and
    the video thread sleeps in a put to it. *)
Definition dead (cap i : nat) (s : Sys) : Prop :=
  killed s = false ∧ exiting s = true ∧ vid s = VPut i ∧ (i < 4)%nat ∧ mainpc s = MJoin 0 ∧
  (∃ l, pipes s = mkPipe l true true :: replicate 3 (mkPipe [] true true) ∧ length l = cap) ∧
  subs s = [SubEnd; SubGet 1; SubGet 2; SubGet 3] ∧ (ses s = SesJoin 0 ∨ ses s = SesJoin 1).

Lemma dead_step cap i s s' : dead cap i s → step 4 cap true true s s' → dead cap i s'.
Proof.
  intros (Hk & He & Hv & Hi & Hm & (l & Hp & Hl) & Hb & Hs) [t E]. unfold thread_step in E. rewrite Hk in E.
  destruct t as [| | |k| | |].
  - unfold main_step in E. rewrite Hm in E. by destruct Hs as [Es|Es]; rewrite Es in E.
  - unfold ssh_step in E. by rewrite He in E.
  - unfold ses_step in E. destruct Hs as [Es|Es]; rewrite Es, Hb in E; cbn in E; [|done].
    injection E as <-. unfold dead. cbn. eauto 20.
  - unfold sub_step in E. rewrite Hb, Hp in E.
    destruct k as [|[|[|[|k]]]]; cbn in E; [done..|]. by destruct k.
  - unfold vid_step in E. rewrite Hv in E. unfold chs, put in E. rewrite Nat.div_small, Hp in E by done.
    assert ((i <? 4 * 4)%nat = true) as Hi16 by (apply Nat.ltb_lt; lia). rewrite Hi16 in E. cbn -[Nat.ltb] in E.
    by rewrite Hl, Nat.ltb_irrefl in E.
  - unfold aud_step, meet, wake in E. repeat case_match; simplify_eq; unfold dead; cbn; eauto 20.
  - unfold alm_step, meet, wake in E. repeat case_match; simplify_eq; unfold dead; cbn; eauto 20.
Qed.

(** C16: with the 16 channels of [main] the shutdown can also hang, whatever a
    pipe holds: a sub-session thread that is slow with one element leaves its
    pipe to fill up, sees [quit] instead of emptying it and ends; the video
    thread then sleeps for ever in its put, sends the other groups no flush, and
    [main] never gets past its join. *)
Theorem shutdown_deadlock cap :
  (0 < cap)%nat → ∃ s, rtc (step 4 cap true true) (start 4) s ∧ quitting s = true ∧
    ∀ s', rtc (step 4 cap true true) s s' → mainpc s' ≠ MStopped ∧ killed s' = false.
Proof.
  intros Hc. destruct (busy_fill cap [] ltac:(cbn; lia)) as (l & i & Hr & Hi & Hl).
  set (s := mkSys true true (mkRv 4 0) (mkPipe l true true :: replicate 3 (mkPipe [] true true)) (VPut i)
              [SubEnd; SubGet 1; SubGet 2; SubGet 3] (SesJoin 0) ALoop ALoop (MJoin 0) false).
  exists s. split; [|split; [done|]].
  - etransitivity; [apply busy_up|]. etransitivity; [exact Hr|].
    by apply (run_sched_rtc _ _ _ _ [TSsh; TMain; TSub 0]).
  - intros s' Hr'. assert (Hd : dead cap i s').
    { apply (rtc_invariant _ (dead cap i) _ _ (fun x y Hx Hxy => dead_step cap i x y Hx Hxy) Hr').
      unfold dead. cbn. eauto 20. }
    destruct Hd as (Hk & _ & _ & _ & Hm & _). by rewrite Hm.
Qed.

(** The shutdown can kill the process: the sub-sessions end on seeing
    [quit] without waiting for a flush, the session thread closes the pipes'
    read ends, and the video thread's flush to one raises SIGPIPE, before
    [main] has closed the stack and the listeners. *)
Theorem shutdown_sigpipe :
  ∃ ts s, run_sched 4 2730 true true ts (start 4) = Some s ∧ killed s = true ∧ mainpc s = MJoin 0.
Proof.
  exists (sched_up ++ [TSsh; TMain; TSub 0; TSub 1; TSub 2; TSub 3; TSes; TSes; TSes; TSes; TSes; TSes; TVid; TVid]).
  eexists. split; [vm_compute; reflexivity|]. by vm_compute.
Qed.

(** The sub-session threads get the address of the loop variable of their
    creator: when one starts after the sleep that follows its creation, two
    threads serve the pipe of the second group and none that of the first. *)
Theorem sub_session_id_race :
  ∃ ts s, run_sched 4 2730 true true ts (start 4) = Some s ∧ ses s = SesJoin 0 ∧
    subs s = [SubLoop 1; SubLoop 1; SubLoop 2; SubLoop 3].
Proof.
  exists ([TSes; TVid; TAud; TAlm; TSes; TVid; TAud] ++
    [TSes; TSes; TSes; TSub 0; TSub 1; TSes; TSes; TSub 2; TSes; TSes; TSub 3; TSes; TSes]).
  eexists. split; [vm_compute; reflexivity|]. by vm_compute.
Qed.

(** ** Concrete states *)

(** One group, quitting, with a frame in its pipe. *)
Definition quit1 : Sys :=
  mkSys true true (mkRv 4 0) [mkPipe [Frame] true true] VLoop [SubGet 0] (SesJoin 0) ALoop ALoop (MJoin 0) false.

Lemma quit1_winding : winding 1 3 quit1.
Proof.
  split; try done.
  - intros [|g] p; [|done]. intros [= <-]. split_and!; [done..|]. cbn. lia.
  - intros [|k] pc; [|done]. intros [= <-]. split; [auto|]. cbn. lia.
Qed.

Lemma shutdown_ends_witness :
  ∃ s', run_sched 1 3 true true [TVid; TVid; TVid; TSub 0; TSub 0; TSes; TSes; TSes; TSes; TSes; TAud; TMain; TMain; TMain; TMain] quit1 = Some s' ∧
    mainpc s' = MStopped.
Proof.
  eexists. split; [vm_compute; reflexivity|].
  destruct (shutdown_ends 1 3 true true quit1
    [TVid; TVid; TVid; TSub 0; TSub 0; TSes; TSes; TSes; TSes; TSes; TAud; TMain; TMain; TMain; TMain] _
    quit1_winding eq_refl ltac:(vm_compute; reflexivity)) as [_ H].
  destruct H as [H|H]; [|exact H|discriminate].
  intros [| | |[|k]| | |]; reflexivity.
Defined.

Lemma init_failure_hangs_witness :
  ∃ s, rtc (step 4 2730 true false) (start 4) s ∧ quitting s = true ∧ mainpc s ≠ MStopped.
Proof.
  assert (Hr : rtc (step 4 2730 true false) (start 4)
    (mkSys true true (mkRv 4 1) (replicate 4 (mkPipe [] true true)) VEnd (replicate 4 SubNone)
       SesAsleep AAsleep AAsleep (MJoin 0) false)).
  { apply (run_sched_rtc _ _ _ _ [TSes; TVid; TAud; TAlm; TSsh; TMain]). vm_compute. reflexivity. }
  eexists. split; [exact Hr|]. split; [reflexivity|].
  exact (proj1 (init_failure_hangs 4 2730 true false _ eq_refl Hr)).
Defined.

Lemma shutdown_deadlock_witness :
  ∃ s, rtc (step 4 2730 true true) (start 4) s ∧ quitting s = true.
Proof.
  destruct (shutdown_deadlock 2730 ltac:(lia)) as (s & Hr & Hq & _). exists s. exact (conj Hr Hq).
Defined.

End Threads.
